(* ===== verification/_CoqProject ===== *)
-Q . S2P
Prelude.v
GoStd.v
Sdk.v
Idb.v
Models.v
Util.v
Encoding.v
Db.v
WriteTxn.v
Writer.v
Postgres.v
MinBalance.v
Rewind.v
Migration.v
Sql.v
TxnQuery.v
TxnPaging.v
TxnSearch.v
TxnTrees.v
BlockQuery.v
ResourceQuery.v
AccountQuery.v
ConvertAccountData.v
Params.v
Convert.v
Disabled.v
Interface.v
Health.v
Handlers.v
Client.v
Service.v
TxnService.v
PagingTest.v
History.v
HistoryState.v
Routes.v
Server.v
Compare.v
Validator.v
Report.v
Tools.v
Daemon.v
Startup.v
