(* ===== verification/Prelude.v ===== *)
(** * A verification library for the Algorand Indexer

    The indexer imports the blocks of an Algorand ledger into a PostgreSQL
    database and serves queries about transactions, blocks, accounts, assets and
    applications over HTTP.  This library is a shallow embedding of it, from the
    writing of a block to the answer that a client gets, with the theorems that
    make it correct.

    ** The program and its model

    - Importing.  [IndexerDb.AddBlock] checks that a block has the next round,
      then writes it through two connections: one transaction with the rows of
      [txn] and [txn_participation], and one with everything else, which commits
      last.  A failed import is repeated later, so the first may be there already.
      [Db] has the tables and the transaction helpers ([schema/setup_postgres.sql],
      [internal/util/util.go]); [WriteTxn] the writer of transactions
      ([internal/writer/write_txn.go], [write_txn_participation.go]); [Writer] the
      writer of the state, its prepared statements and its batch
      ([internal/writer/writer.go]); [Postgres] what ties them together, and
      [LoadGenesis] and [DeleteTransactions] ([idb/postgres/postgres.go]).
    - Encoding.  What is stored as JSON goes through the override structs of
      [internal/encoding]: [Encoding].  [Util] has the printable strings and the
      in-block form of transactions ([util/util.go]), [Idb] the rows, filters,
      enumerations and paging tokens of package [idb].
    - Reading (all of [idb/postgres/postgres.go]).  [Sql] has what the searches
      share: conditions and placeholders, rows that fail while they are read, and
      the record [Paged] of what a paged query promises.  [TxnQuery] has the search
      for transactions: the SQL text and arguments that [buildTransactionQuery]
      makes, their execution, the two queries of a page; [TxnPaging] what is seen of
      root transactions that follows the tokens; [TxnSearch] the meaning of a filter;
      [TxnTrees] the trees of transactions that the rows make up, and the pages of a
      search that matches any row of them;
      [BlockQuery] [GetBlock] and the search for headers; [ResourceQuery] the
      searches for assets, balances, applications, boxes and local states;
      [AccountQuery] [GetAccounts]: the common table expressions, the columns
      aggregated into JSON arrays, the assembly of accounts from them, the limit on
      resources.  [Health] has the opening of a database and its health.
    - Migrating.  [Migration] has the runner ([idb/migration/migration.go]) and
      the PostgreSQL migrations ([postgres_migrations.go]); [ConvertAccountData]
      the one that rewrites all accounts
      ([internal/migrations/convert_account_data/m.go]).
    - The interface.  [Interface] is [idb.IndexerDb] as a class.  The API is
      modelled against it, and [Service] has the PostgreSQL instance.
    - The API.  [Models] are the generated types ([api/generated/v2/types.go]);
      [Params] the decoding and validation of parameters, [Convert] the conversion
      of transactions and headers ([api/converter_utils.go]); [Handlers] every
      handler and the functions that fetch for it ([api/handlers.go],
      [api/util.go]); [Disabled] the parameters that a configuration disables
      ([api/disabled_parameters.go]); [Routes] the generated wrappers and the table
      of routes ([api/generated/v2/routes.go]); [Server] authentication, the other
      middlewares and their order ([api/server.go], [api/middlewares]).
      [Client] is a client that follows tokens, [Service] and [TxnService] what it
      sees of the tables.  [History] joins both ends: a chain of blocks, any
      sequence of attempts to import them, and the client; [HistoryState] does so for
      the holders of an asset and the boxes of an application.
    - Around it.  [Rewind] has the account at an earlier round
      ([accounting/rewind.go]); [MinBalance] the minimum balance
      ([types/min_balance.go]).  [Daemon] has where the daemon finds its
      configuration and the options it makes of it ([cmd/algorand-indexer/daemon.go]),
      and the first import with its check of the network ([util/util.go]).
      [Startup] has the process: its flags, the environment and the configuration
      file ([config/config.go]), the files it makes ([util/pidfile.go]), its run up
      to the exit status ([daemon.go], [main.go], the end of [Serve] in
      [api/server.go]), and the command [api-config] ([api_config.go]).  A process is
      a function on a machine (files, settings, logger, what is open) that returns,
      fails, panics, exits or goes on; deferred functions are skipped by an exit.
    - The validator, a tool that compares the accounts of the indexer with those of
      a node ([cmd/validator/core]).  [Compare] has the two ways to compare: structs
      ([struct_processor.go]), and JSON that is brought into a normal form
      ([dynamic_processor.go]).  [Validator] has the requests and their retries, the
      reader, the workers and the printer with the channels between them as a step
      relation, and the count of results
      ([validator.go], [command.go]).  [Report] has the rest of the command: its
      arguments, the log of errors and the run as a whole.
    - Other programs.  [PagingTest] has the test of paging of [cmd/idbtest]; [Tools]
      the database without data ([idb/dummy]), the version, the metrics, and small
      programs ([cmd/texttosource], [misc/convertToAddress.go], [cmd/e2equeries]).
    - [Prelude] (this file) has errors, the result monad, machine integers and
      the shared lemmas; [GoStd] the parts of Go's library that are used (base64,
      little-endian numbers, decimal numbers, UTF-8); [Sdk] the records of the
      Algorand SDK, its functions as the class [SdkOps], and sample values.

    ** How the model corresponds to the code

    A Go function is a Rocq function of the same name; where one is long, the
    parts of it (a closure, a loop body) are definitions of their own.  Strings,
    byte slices and byte arrays are [string]; a slice, map or pointer that the
    code compares with nil is an [option]; a [uint64] is a [Z] with its
    wrap-around written out.  A function returning an error returns [result];
    errors keep whether they wrap their cause, and a run-time panic is the error
    [ErrPanic].  The rows that a goroutine sends on a channel are a list, except in
    the validator, whose goroutines and bounded channels are a step relation.

    The database is a record of tables, each a map from its primary key.  Every
    call to it may fail, and so may the step to the next row of an answer and the
    reading of a row: a run takes a list of faults, one for each call in order,
    and the theorems hold for all lists, except where a hypothesis excludes faults
    that a database does not produce (a unique violation without one) or all of
    them.  A commit that fails is taken to have changed nothing.  A SQL statement is a value of a syntax, printed to the text the source
    has where the source builds it, and executed on the tables.

    What is not under [src/] is a parameter: the SDK ([SdkOps], with [SdkLaws]),
    the JSON codec ([Codec]; a round trip is assumed only of the value at hand),
    printability of characters ([UnicodeOps]), the order of Go's maps
    ([MapOrder], [MapRange]), what PostgreSQL computes from JSON ([PgOps]), with
    LIKE ([PgLike]) and with aggregates ([PgAgg], with [PgAggLaws]), the order of
    rows that a query does not order ([AppOrder]), the parsing of values by the
    SDK and the binding library ([ApiOps], [Runtime]), the router and the handler
    of [/metrics] ([EchoOps], with [EchoLaws]), the answers to the requests of the validator, the settings
    that viper reads ([ViperOps], with [ViperLaws]), the parsing of flags ([FlagOps]),
    the failures of the operating system, and the registry of Prometheus.  Each
    property with hypotheses has a witness that instantiates them.

    Recursion is structural, on the tree of inner transactions or on lists, with
    five exceptions.  The retry loop of [TxWithRetry] takes as fuel one more than
    the number of faults, which is enough, because each further attempt needs one
    more serialization failure ([TxWithRetry_terminates]).  The batches of
    [RunMigration] take as fuel one more than the number of accounts: every full
    batch moves past at least one.  The retries of the validator take as fuel one
    more than the configured number, and are shown to end within it.  The clients ([follow] of [TxnPaging],
    [collect] of [Client]) and the test of paging are given more fuel than there
    are results; what happens to a running server is a list of events.

    ** What is proved

    - Import: all or nothing on the state, rounds contiguous, the transaction
      tables never behind, for blocks that do not pay their fee sink as the
      proposer (a lemma shows that such a block is lost); progress without faults; the live rows are the ledger
      delta applied to the live rows before; deleted rows and history.
    - From the ledger to the client: after any sequence of attempts to import blocks
      the tables hold exactly the blocks before the next round (the state deltas applied
      in order, the headers, the transactions), and at most the transactions of that
      one ahead; a client that lists the transactions sees
      exactly those of the imported blocks, in order (without pruning), and one that
      lists the holders of an asset or the boxes of an application sees exactly what
      the state deltas of the imported blocks leave.
    - Transactions: rows are the block in preorder, both tables number it alike,
      roots precede their inner transactions; reading a block back gives the
      imported one, up to the answer of the API; searches find exactly what the
      filter describes, as far as the compared values are stored (zero amounts are
      not); a client of the API that follows the tokens sees each
      transaction with a matching row once, in order; a search that the API validates
      is accepted by the database.
    - Accounts and resources: a client of the API that follows the tokens sees
      exactly the matching accounts, assets, holders, boxes (and applications,
      holdings, local states) of the tables, once and in order; a failure never
      looks like a shorter list; the limit on resources holds in a run without
      failures (a lemma shows that a failure may defeat it).
    - Conversion: the tree of inner transactions is kept and each transaction has
      the fields of its type; where a panic is possible, when.
    - Server: every route of [/v2] is behind the migration gate and the token check,
      [/health] and [/metrics] are not; no request to [/v2] is served while a blocking
      migration is left, in the process that migrates or in one that reads; exactly the
      disabled parameters are refused, and what is printed of a configuration can
      be read back.
    - Encodings and tokens: round trips.
    - Migrations: the channel, the order of tasks, atomicity; a new database has
      none left; the conversion of account data.
    - The validator: it reports no difference exactly if the accounts agree; an
      account called equal agrees in an answer within the retries; with a worker
      at least, the goroutines never deadlock, stop within a bound and print one result
      for each input, unless a comparison of dynamic values panics; the normal form does not depend on
      the order of lists; a run prints one result for each line, logs every error,
      and its exit status is 0 exactly if every line agreed or was skipped.
    - Start-up: a database is only ever used with the network it records; one
      configuration file is used or none; a value of the command line wins over the
      environment and the file, those over the default; however the daemon returns or
      panics, the database is closed, the profile stopped and the pid file removed, if
      it could be written (a lemma shows that it stays if not).
    - Rewinding: the balance is the one before the undone transactions, where the
      code is right; two theorems show where it is not.

    ** What is not modelled

    The OpenAPI document that is embedded in [routes.go] as compressed data is an
    argument of the model.  [api/generated/common/types.go] is a second copy of the
    types of [api/generated/v2/types.go], of which only the health check is used.
    Left out as well, because they call libraries or print only: mocks and fixtures
    for tests, the middlewares in front of all routes (metrics, the log of requests,
    CORS, compression), the help and the generated
    documentation of the commands, the fixed queries of [cmd/idbtest] and
    [cmd/e2equeries], the text of differences ([util/diff.go]), and
    [config/datadir.go], which nothing calls. *)

From stdpp Require Export prelude gmap strings list numbers pretty.
From Stdlib Require Export ZArith Lia.

#[global] Set Default Goal Selector "!".

(** ** Notations and scopes *)

Declare Scope go_scope.
Delimit Scope go_scope with go.
#[global] Open Scope Z_scope.

(** ** Errors

    A Go [error] is an interface value.  The sources distinguish errors in four
    ways: by identity with a package-level sentinel ([==], [errors.Is]), by
    dynamic type ([errors.As]), by the SQLSTATE code of a [*pgconn.PgError],
    and by whether [fmt.Errorf] wrapped the cause with [%w] (the chain is kept)
    or formatted it with [%v] (the chain is lost).  Messages are represented by
    their format string.  [ErrPanic] is a run-time panic: it is not an error value,
    and no code of the repository returns or handles it. *)

Inductive error :=
| ErrMsg (fmt : string)
| ErrSentinel (name : string)
| ErrPg (code : string)
| ErrMaxTransactions
| ErrMaxAPIResources (addr : string)
    (TotalAppLocalStates TotalAppParams TotalAssets TotalAssetParams : Z)
| ErrConsistency
| ErrSpecialAccountRewind (account : string)
| ErrPanic (what : string)
| ErrWrap (fmt : string) (e : error).

#[export] Instance error_eq_dec : EqDecision error.
Proof. solve_decision. Defined.

(** [errors.Is] for the comparable sentinels of the sources. *)
Fixpoint errors_is (e target : error) : bool :=
  bool_decide (e = target) ||
  match e with
  | ErrWrap _ e' => errors_is e' target
  | _ => false
  end.

(** [errors.As(err, &pgerr)]: the SQLSTATE of the first [PgError] of the chain. *)
Fixpoint errors_as_pg (e : error) : option string :=
  match e with
  | ErrPg code => Some code
  | ErrWrap _ e' => errors_as_pg e'
  | _ => None
  end.

(** ** The result monad: a Go function returning [(T, error)] *)

Inductive result (A : Type) :=
| Ok (a : A)
| Err (e : error).
Arguments Ok {_} _.
Arguments Err {_} _.

#[export] Instance result_ret : MRet result := fun A a => Ok a.
#[export] Instance result_bind : MBind result := fun A B f r =>
  match r with Ok a => f a | Err e => Err e end.
#[export] Instance result_fmap : FMap result := fun A B f r =>
  match r with Ok a => Ok (f a) | Err e => Err e end.

(** [if err != nil { return fmt.Errorf("...: %w", err) }]. *)
Definition wrap {A} (fmt : string) (r : result A) : result A :=
  match r with Ok a => Ok a | Err e => Err (ErrWrap fmt e) end.

(** A loop over a slice that stops at the first error. *)
Fixpoint map_result {A B} (f : A -> result B) (l : list A) : result (list B) :=
  match l with
  | [] => Ok []
  | x :: l => y ← f x; ys ← map_result f l; Ok (y :: ys)
  end.

Lemma map_result_ok {A B} (f : A -> result B) l vals :
  Forall2 (λ x v, f x = Ok v) l vals -> map_result f l = Ok vals.
Proof. induction 1 as [|x v l vals Hx _ IH]; cbn; [done|]. by rewrite Hx; cbn; rewrite IH. Qed.

Definition is_ok {A} (r : result A) : bool :=
  match r with Ok _ => true | Err _ => false end.

#[export] Instance result_eq_dec {A} `{EqDecision A} : EqDecision (result A).
Proof. solve_decision. Defined.

(** An error, if any, that no database error caused. *)
Definition plain {A} (r : result A) : Prop := forall e, r = Err e -> errors_as_pg e = None.

Lemma plain_Ok {A} (a : A) : plain (Ok a).
Proof. by intros e. Qed.
Lemma plain_Err {A} e : errors_as_pg e = None -> plain (A := A) (Err e).
Proof. by intros He ? [= <-]. Qed.
Lemma plain_wrap {A} fmt (r : result A) : plain r -> plain (wrap fmt r).
Proof. intros Hr e. destruct r as [|e0]; cbn; [done|]. intros [= <-]. by apply (Hr e0). Qed.
Lemma plain_bind {A B} (r : result A) (k : A -> result B) :
  plain r -> (forall a, plain (k a)) -> plain (r ≫= k).
Proof. intros Hr Hk e. destruct r as [|e0]; cbn; [apply Hk|]. intros [= <-]. by apply Hr. Qed.

Create HintDb plain.
#[export] Hint Resolve plain_Ok plain_wrap plain_bind : plain.
#[export] Hint Extern 1 (plain (Err _)) => apply plain_Err; reflexivity : plain.

(** ** Machine integers

    A [uint64] (and [uint], which is 64 bits wide on the supported platforms)
    is a [Z] in [[0, 2^64)]; arithmetic wraps. *)

Definition wrap64 (x : Z) : Z := x mod 2 ^ 64.
Definition wrap32 (x : Z) : Z := x mod 2 ^ 32.
Definition MaxInt64 : Z := 2 ^ 63 - 1.
Definition is_u64 (x : Z) : Prop := 0 <= x < 2 ^ 64.

#[export] Instance is_u64_dec x : Decision (is_u64 x).
Proof. unfold is_u64. apply _. Defined.

Notation "x +64 y" := (wrap64 (x + y)) (at level 50, left associativity) : go_scope.
Notation "x -64 y" := (wrap64 (x - y)) (at level 50, left associativity) : go_scope.
Notation "x *64 y" := (wrap64 (x * y)) (at level 40, left associativity) : go_scope.

Create HintDb u64.
Create Rewrite HintDb u64rw.

Lemma wrap64_range x : is_u64 (wrap64 x).
Proof. unfold is_u64, wrap64. apply Z.mod_pos_bound. lia. Qed.

Lemma wrap64_small x : is_u64 x -> wrap64 x = x.
Proof. unfold is_u64, wrap64. intros. apply Z.mod_small. lia. Qed.

Lemma wrap64_idem x : wrap64 (wrap64 x) = wrap64 x.
Proof. apply wrap64_small, wrap64_range. Qed.

Lemma wrap64_add_l x y : wrap64 (wrap64 x + y) = wrap64 (x + y).
Proof. unfold wrap64. by rewrite Zplus_mod_idemp_l. Qed.

Lemma wrap64_add_r x y : wrap64 (x + wrap64 y) = wrap64 (x + y).
Proof. unfold wrap64. by rewrite Zplus_mod_idemp_r. Qed.

Lemma wrap64_sub_l x y : wrap64 (wrap64 x - y) = wrap64 (x - y).
Proof. unfold wrap64. by rewrite Zminus_mod_idemp_l. Qed.

Lemma wrap64_sub_r x y : wrap64 (x - wrap64 y) = wrap64 (x - y).
Proof. unfold wrap64. by rewrite Zminus_mod_idemp_r. Qed.

Lemma wrap64_mul_l x y : wrap64 (wrap64 x * y) = wrap64 (x * y).
Proof. unfold wrap64. by rewrite Zmult_mod_idemp_l. Qed.

#[export] Hint Resolve wrap64_range : u64.
#[export] Hint Rewrite wrap64_idem wrap64_add_l wrap64_add_r wrap64_sub_l wrap64_sub_r
  wrap64_mul_l : u64rw.

(** Normalises nested wrap-around and closes linear goals modulo [2^64]. *)
Ltac u64_simpl := autorewrite with u64rw in *.
Ltac u64_eq := u64_simpl; f_equal; lia.

(** ** Pointers and slices

    A pointer to a scalar is an [option]; a slice or map whose nil-ness the
    sources test is an [option] too. *)

Definition slice {A} (o : option (list A)) : list A := default [] o.

(** [n] NUL bytes: the zero value of a [[n]byte] array. *)
Fixpoint zeros (n : nat) : string :=
  match n with
  | O => EmptyString
  | S n => String (Ascii.ascii_of_nat 0) (zeros n)
  end.

(** A double quote, and a line break followed by [n] tabs. *)
Definition dquote : string := String (Ascii.ascii_of_nat 34) "".
Fixpoint tabs (n : nat) : string :=
  match n with O => "" | S n => String (Ascii.ascii_of_nat 9) (tabs n) end.
Definition nl (n : nat) : string := String (Ascii.ascii_of_nat 10) (tabs n).

(** ** Lists *)

Lemma filter_Forall_id {A} (P : A -> Prop) `{!∀ x, Decision (P x)} (l : list A) :
  Forall P l -> filter P l = l.
Proof.
  induction 1 as [|x l Hx _ IH]; [done|]. by rewrite filter_cons_True, IH.
Qed.

Lemma filter_none {A} (P : A -> Prop) `{!∀ x, Decision (P x)} (l : list A) :
  Forall (λ x, ¬ P x) l -> filter P l = [].
Proof.
  induction 1 as [|x l Hx _ IH]; [done|]. by rewrite filter_cons_False, IH.
Qed.

Lemma surjective_pairing_3 {A B C} (p : A * B * C) : p = (p.1.1, p.1.2, p.2).
Proof. by destruct p as [[]]. Qed.
