(* ===== verification/GoStd.v ===== *)
(** * The parts of the Go standard library the indexer uses

    [encoding/base64], [encoding/binary] (little endian), [strconv] and
    [strings], on byte strings.  Every function is executable; the round-trip
    lemmas are what the token and column encodings of the indexer rest on. *)

From Stdlib Require Import Ascii String.
From S2P Require Import Prelude.

Abbreviation bytes := (list ascii) (only parsing).

Definition bytes_of_string (s : string) : bytes := String.list_ascii_of_string s.
Definition string_of_bytes (l : bytes) : string := String.string_of_list_ascii l.

Definition byteZ (a : ascii) : Z := Z.of_N (N_of_ascii a).
Definition Zbyte (z : Z) : ascii := ascii_of_N (Z.to_N z).

Lemma byteZ_range a : 0 <= byteZ a < 256.
Proof. unfold byteZ. pose proof (N_ascii_bounded a). lia. Qed.

Lemma Zbyte_byteZ a : Zbyte (byteZ a) = a.
Proof. unfold Zbyte, byteZ. by rewrite N2Z.id, ascii_N_embedding. Qed.

Lemma byteZ_inj a b : byteZ a = byteZ b -> a = b.
Proof. intros Hab. by rewrite <- (Zbyte_byteZ a), <- (Zbyte_byteZ b), Hab. Qed.

Lemma byteZ_Zbyte z : 0 <= z < 256 -> byteZ (Zbyte z) = z.
Proof. intros. unfold Zbyte, byteZ. rewrite N_ascii_embedding by lia. lia. Qed.

Lemma string_of_bytes_of_string s : string_of_bytes (bytes_of_string s) = s.
Proof. apply string_of_list_ascii_of_string. Qed.

Lemma bytes_of_string_of_bytes l : bytes_of_string (string_of_bytes l) = l.
Proof. apply list_ascii_of_string_of_list_ascii. Qed.

Lemma length_bytes_of_string s : length (bytes_of_string s) = String.length s.
Proof. induction s; simpl; congruence. Qed.

(** ** strings *)

(** [strings.Join(parts, sep)] *)
Fixpoint strings_join (sep : string) (parts : list string) : string :=
  match parts with
  | [] => ""
  | [p] => p
  | p :: ps => (p ++ sep ++ strings_join sep ps)%string
  end.

(** [strings.Contains] *)
Fixpoint strings_Contains (s substr : string) : bool :=
  String.prefix substr s ||
  match s with EmptyString => false | String _ s => strings_Contains s substr end.

(** [strings.ToLower], up to the letters outside ASCII.  The sources compare the
    outcome with ASCII constants, so only the runes with an ASCII lower case matter:
    the ASCII letters, the Kelvin sign U+212A and the dotted capital I U+0130. *)
Definition to_lower_ascii (c : ascii) : ascii :=
  let z := byteZ c in if (65 <=? z) && (z <=? 90) then Zbyte (z + 32) else c.
Fixpoint to_lower (l : list ascii) : list ascii :=
  match l with
  | [] => []
  | c :: l =>
      let rest := to_lower_ascii c :: to_lower l in
      match l with
      | [] => rest
      | c1 :: l =>
          if (byteZ c =? 0xC4) && (byteZ c1 =? 0xB0) then "i"%char :: to_lower l
          else
            match l with
            | [] => rest
            | c2 :: l =>
                if (byteZ c =? 0xE2) && (byteZ c1 =? 0x84) && (byteZ c2 =? 0xAA)
                then "k"%char :: to_lower l else rest
            end
      end
  end.
Definition strings_ToLower (s : string) : string := string_of_bytes (to_lower (bytes_of_string s)).

(** ** encoding/base32 *)

Module Base32.
(** The bytes that [DecodeString] accepts without padding; [j] counts the characters of
    the current group of eight.  The padding character [NoPadding] is -1, which the
    decoder compares as the byte 255. *)
Definition digit (c : ascii) : bool :=
  let z := byteZ c in (65 <=? z) && (z <=? 90) || (50 <=? z) && (z <=? 55).
Fixpoint decodes (j : nat) (l : list ascii) : bool :=
  match l with
  | [] => true
  | c :: src =>
      if (byteZ c =? 255) && (2 <=? j)%nat && (length src <? 8)%nat then
        (7 <=? length src + j)%nat && forallb (λ b, byteZ b =? 255) (take (7 - j) src) &&
        negb ((j =? 3)%nat || (j =? 6)%nat)
      else digit c && decodes (if (j =? 7)%nat then O else S j) src
  end.
(** Line ends are removed first. *)
Definition Decodable (s : string) : bool :=
  decodes O (filter (λ c, byteZ c ≠ 10 /\ byteZ c ≠ 13) (bytes_of_string s)).
End Base32.

(** ** encoding/base64 *)

Module Base64.

Definition alphabet := list ascii.

Definition std : alphabet :=
  bytes_of_string "ABCDEFGHIJKLMNOPQRSTUVWXYZabcdefghijklmnopqrstuvwxyz0123456789+/".
Definition url : alphabet :=
  bytes_of_string "ABCDEFGHIJKLMNOPQRSTUVWXYZabcdefghijklmnopqrstuvwxyz0123456789-_".

Definition pad : ascii := "="%char.

Definition char_of (al : alphabet) (d : Z) : ascii := nth (Z.to_nat d) al pad.

Fixpoint index_of (c : ascii) (l : list ascii) (i : Z) : option Z :=
  match l with
  | [] => None
  | x :: l => if decide (x = c) then Some i else index_of c l (i + 1)
  end.
Definition digit_of (al : alphabet) (c : ascii) : option Z := index_of c al 0.

(** [EncodeToString] with padding. *)
Fixpoint encode_bytes (al : alphabet) (l : bytes) : bytes :=
  match l with
  | [] => []
  | [a] =>
      let v := byteZ a * 65536 in
      [char_of al (v / 262144); char_of al (v / 4096 mod 64); pad; pad]
  | [a; b] =>
      let v := byteZ a * 65536 + byteZ b * 256 in
      [char_of al (v / 262144); char_of al (v / 4096 mod 64); char_of al (v / 64 mod 64); pad]
  | a :: b :: c :: rest =>
      let v := byteZ a * 65536 + byteZ b * 256 + byteZ c in
      char_of al (v / 262144) :: char_of al (v / 4096 mod 64) :: char_of al (v / 64 mod 64)
        :: char_of al (v mod 64) :: encode_bytes al rest
  end.

Definition corrupt : error := ErrMsg "illegal base64 data at input byte %d".

Definition out3 (v : Z) : bytes := [Zbyte (v / 65536); Zbyte (v / 256 mod 256); Zbyte (v mod 256)].

(** One quantum of four digits, then the rest; padding ends the input. *)
Fixpoint decode_quanta (al : alphabet) (l : bytes) : result bytes :=
  match l with
  | [] => Ok []
  | a :: b :: c :: d :: rest =>
      match digit_of al a, digit_of al b with
      | Some x, Some y =>
          match digit_of al c, digit_of al d with
          | Some z, Some w =>
              out ← decode_quanta al rest;
              Ok (out3 (x * 262144 + y * 4096 + z * 64 + w) ++ out)
          | Some z, None =>
              if decide (d = pad ∧ rest = []) then
                Ok (take 2 (out3 (x * 262144 + y * 4096 + z * 64)))
              else Err corrupt
          | None, _ =>
              if decide (c = pad ∧ d = pad ∧ rest = []) then
                Ok (take 1 (out3 (x * 262144 + y * 4096)))
              else Err corrupt
          end
      | _, _ => Err corrupt
      end
  | _ => Err corrupt
  end.

Definition is_newline (c : ascii) : bool := bool_decide (c = "010"%char ∨ c = "013"%char).

(** [DecodeString]: carriage returns and newlines are skipped. *)
Definition DecodeString (al : alphabet) (s : string) : result string :=
  string_of_bytes <$> decode_quanta al (filter (λ c, is_newline c = false) (bytes_of_string s)).

Definition EncodeToString (al : alphabet) (s : string) : string :=
  string_of_bytes (encode_bytes al (bytes_of_string s)).

(** An alphabet is usable when its 64 digits decode to themselves and none is
    the padding character or a newline. *)
Definition alphabet_ok (al : alphabet) : bool :=
  forallb (λ d, bool_decide (digit_of al (char_of al d) = Some d)
                && negb (is_newline (char_of al d))) (seqZ 0 64)
  && bool_decide (digit_of al pad = None).

Lemma std_ok : alphabet_ok std = true.
Proof. vm_compute. reflexivity. Qed.
Lemma url_ok : alphabet_ok url = true.
Proof. vm_compute. reflexivity. Qed.

Section Roundtrip.
Context (al : alphabet) (Hal : alphabet_ok al = true).

Lemma digit_char d : 0 <= d < 64 -> digit_of al (char_of al d) = Some d.
Proof using Hal.
  intros Hd. unfold alphabet_ok in Hal. apply andb_true_iff in Hal as [H _].
  rewrite forallb_forall in H. specialize (H d).
  rewrite <- list_elem_of_In, elem_of_seqZ in H.
  specialize (H ltac:(lia)). apply andb_true_iff in H as [H _]. by apply bool_decide_eq_true in H.
Qed.

Lemma newline_char d : 0 <= d < 64 -> is_newline (char_of al d) = false.
Proof using Hal.
  intros Hd. unfold alphabet_ok in Hal. apply andb_true_iff in Hal as [H _].
  rewrite forallb_forall in H. specialize (H d).
  rewrite <- list_elem_of_In, elem_of_seqZ in H.
  specialize (H ltac:(lia)). apply andb_true_iff in H as [_ H]. by apply negb_true_iff in H.
Qed.

Lemma digit_pad : digit_of al pad = None.
Proof using Hal.
  unfold alphabet_ok in Hal. apply andb_true_iff in Hal as [_ H]. by apply bool_decide_eq_true in H.
Qed.

Lemma out3_join x y z :
  0 <= x < 256 -> 0 <= y < 256 -> 0 <= z < 256 ->
  out3 (x * 65536 + y * 256 + z) = [Zbyte x; Zbyte y; Zbyte z].
Proof.
  intros. unfold out3. repeat f_equal; Z.to_euclidean_division_equations; lia.
Qed.

Lemma digits_join v :
  0 <= v < 16777216 ->
  v / 262144 * 262144 + v / 4096 mod 64 * 4096 + v / 64 mod 64 * 64 + v mod 64 = v.
Proof. intros. Z.to_euclidean_division_equations; lia. Qed.

Lemma digits_range v :
  0 <= v < 16777216 ->
  0 <= v / 262144 < 64 /\ 0 <= v / 4096 mod 64 < 64 /\ 0 <= v / 64 mod 64 < 64 /\ 0 <= v mod 64 < 64.
Proof. intros. repeat split; Z.to_euclidean_division_equations; lia. Qed.

(** Induction in steps of three bytes. *)
Lemma bytes_ind3 (P : bytes -> Prop) :
  P [] -> (forall a, P [a]) -> (forall a b, P [a; b]) ->
  (forall a b c l, P l -> P (a :: b :: c :: l)) -> forall l, P l.
Proof.
  intros H0 H1 H2 H3. fix IH 1. intros [|a [|b [|c l]]]; [apply H0|apply H1|apply H2|apply H3, IH].
Qed.

Ltac byte_ranges :=
  repeat match goal with
  | a : ascii |- _ =>
      lazymatch goal with
      | _ : 0 <= byteZ a < 256 |- _ => fail
      | _ => pose proof (byteZ_range a)
      end
  end.

Lemma decode_encode_bytes l : decode_quanta al (encode_bytes al l) = Ok l.
Proof using Hal.
  induction l as [|a|a b|a b c l IH] using bytes_ind3; [done|..]; cbn [encode_bytes];
    byte_ranges;
    match goal with |- context [char_of al (?v / 262144)] =>
      pose proof (digits_range v ltac:(lia)) as (?&?&?&?);
      pose proof (digits_join v ltac:(lia))
    end;
    cbn [decode_quanta]; rewrite !digit_char, ?digit_pad by (lia || done).
  - rewrite decide_True by done. cbn [take].
    replace (_ + _) with (byteZ a * 65536 + 0 * 256 + 0) by (Z.to_euclidean_division_equations; lia).
    rewrite out3_join, Zbyte_byteZ by lia. done.
  - rewrite decide_True by done. cbn [take].
    replace (_ + _) with (byteZ a * 65536 + byteZ b * 256 + 0)
      by (Z.to_euclidean_division_equations; lia).
    rewrite out3_join, !Zbyte_byteZ by lia. done.
  - rewrite IH. cbn [mbind result_bind].
    rewrite digits_join, out3_join, !Zbyte_byteZ by lia. done.
Qed.

Lemma encode_no_newline l : Forall (λ c, is_newline c = false) (encode_bytes al l).
Proof using Hal.
  assert (is_newline pad = false) by done.
  induction l as [|a|a b|a b c l IH] using bytes_ind3; [by apply Forall_nil|..];
    cbn [encode_bytes]; byte_ranges;
    match goal with |- context [char_of al (?v / 262144)] =>
      pose proof (digits_range v ltac:(lia)) as (?&?&?&?)
    end; rewrite !Forall_cons, !newline_char by lia; rewrite ?Forall_nil; done.
Qed.

Lemma DecodeString_EncodeToString s : DecodeString al (EncodeToString al s) = Ok s.
Proof using Hal.
  unfold DecodeString, EncodeToString. rewrite bytes_of_string_of_bytes.
  rewrite filter_Forall_id by apply encode_no_newline.
  rewrite decode_encode_bytes. cbn. by rewrite string_of_bytes_of_string.
Qed.
End Roundtrip.

End Base64.

(** ** encoding/binary, little endian *)

(** [binary.LittleEndian.PutUint64] and [PutUint32] write the low [n] bytes. *)
Fixpoint le_put (n : nat) (z : Z) : bytes :=
  match n with
  | O => []
  | S n => Zbyte (z mod 256) :: le_put n (z / 256)
  end.

(** [binary.LittleEndian.Uint64] and [Uint32]. *)
Fixpoint le_get (l : bytes) : Z :=
  match l with
  | [] => 0
  | b :: l => byteZ b + 256 * le_get l
  end.

Lemma length_le_put n z : length (le_put n z) = n.
Proof. revert z. induction n; intros; simpl; auto. Qed.

Lemma le_get_put n z : le_get (le_put n z) = z mod 256 ^ Z.of_nat n.
Proof.
  revert z. induction n as [|n IH]; intros z; cbn [le_put le_get].
  - by rewrite Z.mod_1_r.
  - rewrite IH, byteZ_Zbyte by (apply Z.mod_pos_bound; lia).
    rewrite Nat2Z.inj_succ, Z.pow_succ_r by lia.
    rewrite Z.rem_mul_r by lia. lia.
Qed.

Lemma le_get_range l : 0 <= le_get l < 256 ^ Z.of_nat (length l).
Proof.
  induction l as [|b l IH]; cbn [le_get length]; [lia|].
  rewrite Nat2Z.inj_succ, Z.pow_succ_r by lia. pose proof (byteZ_range b). lia.
Qed.

Lemma le_put_get l : le_put (length l) (le_get l) = l.
Proof.
  induction l as [|b l IH]; cbn [le_put le_get length]; [done|].
  pose proof (byteZ_range b).
  replace ((byteZ b + 256 * le_get l) mod 256) with (byteZ b)
    by (Z.to_euclidean_division_equations; lia).
  replace ((byteZ b + 256 * le_get l) / 256) with (le_get l)
    by (Z.to_euclidean_division_equations; lia).
  by rewrite Zbyte_byteZ, IH.
Qed.

(** ** strconv *)

Definition digit_char (d : Z) : ascii := Zbyte (48 + d).
Definition char_digit (c : ascii) : option Z :=
  let d := byteZ c - 48 in if (0 <=? d) && (d <=? 9) then Some d else None.

Fixpoint digits (fuel : nat) (n : Z) (acc : bytes) : bytes :=
  match fuel with
  | O => acc
  | S fuel =>
      let acc := digit_char (n mod 10) :: acc in
      if n / 10 =? 0 then acc else digits fuel (n / 10) acc
  end.

(** [strconv.FormatUint(n, 10)]: a [uint64] has at most 20 decimal digits. *)
Definition FormatUint (n : Z) : string := string_of_bytes (digits 20 n []).
(** [strconv.FormatInt(n, 10)] *)
Definition FormatInt (n : Z) : string :=
  if n <? 0 then ("-" ++ FormatUint (- n))%string else FormatUint n.

Definition errSyntax : error := ErrMsg "strconv.ParseUint: parsing: invalid syntax".
Definition errRange : error := ErrMsg "strconv.ParseUint: parsing: value out of range".

Fixpoint parse_digits (acc : Z) (l : bytes) : result Z :=
  match l with
  | [] => Ok acc
  | c :: l =>
      match char_digit c with
      | None => Err errSyntax
      | Some d =>
          if 2 ^ 64 <=? acc * 10 + d then Err errRange else parse_digits (acc * 10 + d) l
      end
  end.

(** [strconv.ParseUint(s, 10, 64)]. *)
Definition ParseUint (s : string) : result Z :=
  match bytes_of_string s with
  | [] => Err errSyntax
  | l => parse_digits 0 l
  end.

Lemma char_digit_char d : 0 <= d < 10 -> char_digit (digit_char d) = Some d.
Proof.
  intros. unfold char_digit, digit_char. rewrite byteZ_Zbyte by lia.
  replace (48 + d - 48) with d by lia.
  by rewrite (proj2 (Z.leb_le 0 d)), (proj2 (Z.leb_le d 9)) by lia.
Qed.

Lemma parse_digits_digits fuel n acc :
  0 <= n < 2 ^ 64 -> n < 10 ^ Z.of_nat (S fuel) ->
  parse_digits 0 (digits (S fuel) n acc) = parse_digits n acc.
Proof.
  revert n acc. induction fuel as [|fuel IH]; intros n acc Hn Hlt.
  - cbn [digits]. rewrite Z.div_small by lia.
    cbn [parse_digits Z.eqb]. rewrite Z.mod_small, char_digit_char by lia.
    cbn [Z.mul Z.add]. replace (0 * 10 + n) with n by lia.
    by rewrite (proj2 (Z.leb_gt (2 ^ 64) n)) by lia.
  - assert (0 <= n mod 10 < 10) by (apply Z.mod_pos_bound; lia).
    assert (n = 10 * (n / 10) + n mod 10) as Hdiv by (apply Z.div_mod; lia).
    change (digits (S (S fuel)) n acc) with
      (let acc' := digit_char (n mod 10) :: acc in
       if n / 10 =? 0 then acc' else digits (S fuel) (n / 10) acc').
    cbv zeta. destruct (Z.eqb_spec (n / 10) 0) as [Hz|Hz].
    + cbn [parse_digits]. rewrite char_digit_char by lia.
      replace (0 * 10 + n mod 10) with n by lia.
      by rewrite (proj2 (Z.leb_gt (2 ^ 64) n)) by lia.
    + rewrite IH; [|lia|].
      * cbn [parse_digits]. rewrite char_digit_char by lia.
        replace (n / 10 * 10 + n mod 10) with n by lia.
        by rewrite (proj2 (Z.leb_gt (2 ^ 64) n)) by lia.
      * apply Z.div_lt_upper_bound; [lia|].
        rewrite <- Z.pow_succ_r by lia. by rewrite <- Nat2Z.inj_succ.
Qed.

Lemma digits_nonempty fuel n acc : digits (S fuel) n acc ≠ [].
Proof.
  revert n acc. induction fuel as [|fuel IH]; intros n acc.
  - cbn [digits]. by destruct (n / 10 =? 0).
  - change (digits (S (S fuel)) n acc) with
      (let acc' := digit_char (n mod 10) :: acc in
       if n / 10 =? 0 then acc' else digits (S fuel) (n / 10) acc').
    cbv zeta. destruct (n / 10 =? 0); [done|apply IH].
Qed.

Lemma ParseUint_FormatUint n : is_u64 n -> ParseUint (FormatUint n) = Ok n.
Proof.
  intros Hn. unfold is_u64 in Hn. unfold ParseUint, FormatUint.
  rewrite bytes_of_string_of_bytes.
  pose proof (digits_nonempty 19 n []) as Hne.
  pose proof (parse_digits_digits 19 n [] ltac:(lia) ltac:(lia)) as Hp.
  destruct (digits 20 n []) as [|c l]; [done|]. by rewrite Hp.
Qed.

Lemma parse_digits_range acc l v : is_u64 acc -> parse_digits acc l = Ok v -> is_u64 v.
Proof.
  revert acc. induction l as [|c l IH]; intros acc Hacc; cbn [parse_digits].
  - by intros [= <-].
  - unfold char_digit. destruct (Z.leb_spec 0 (byteZ c - 48)), (Z.leb_spec (byteZ c - 48) 9);
      cbn [andb]; try done.
    destruct (Z.leb_spec (2 ^ 64) (acc * 10 + (byteZ c - 48))); [done|].
    apply IH. unfold is_u64 in *. lia.
Qed.

Lemma ParseUint_plain s : plain (ParseUint s).
Proof.
  assert (Hp : forall l acc, plain (parse_digits acc l)).
  { intros l. induction l as [|c l IH]; intros acc; cbn; repeat case_match; auto with plain. }
  unfold ParseUint. destruct (bytes_of_string s); [auto with plain|apply Hp].
Qed.

(** Kept folded by simplification. *)
#[global] Arguments FormatUint : simpl never.
#[global] Arguments ParseUint : simpl never.

(** ** Maps *)

(** [range] over a Go map visits its entries once each, in some order. *)
Class MapRange := {
  range_map : forall {K V} `{Countable K}, gmap K V -> list (K * V);
  range_map_perm K V `{Countable K} (m : gmap K V) : range_map m ≡ₚ map_to_list m }.

(** The order of the keys in the table, for the examples. *)
Definition table_range : MapRange :=
  {| range_map K V _ _ m := map_to_list m; range_map_perm K V _ _ m := reflexivity _ |}.
