(* ===== verification/Sdk.v ===== *)
(** * The Algorand SDK data the indexer works on

    The structs of [go-algorand-sdk/v2/types] and
    [go-algorand-sdk/v2/protocol/config] are not part of the repository; the
    records below have the fields the indexer's sources read and write, grouped
    by the embedded structs the sources name.  The SDK's functions are the
    operations of the class [SdkOps]; what the indexer relies on of them is the
    class [SdkLaws].

    Go strings, byte slices and byte arrays are byte strings ([string]).  An
    array type such as [sdk.Address] has [zeros n] as its zero value. *)

From S2P Require Import Prelude.

Abbreviation Address := string (only parsing).
Abbreviation Digest := string (only parsing).
Abbreviation Round := Z (only parsing).

Definition zeroAddress : Address := zeros 32.
Definition zeroDigest : Digest := zeros 32.
Definition zeroSignature : string := zeros 64.

(** ** Transaction types *)

Definition PaymentTx : string := "pay".
Definition KeyRegistrationTx : string := "keyreg".
Definition AssetConfigTx : string := "acfg".
Definition AssetTransferTx : string := "axfer".
Definition AssetFreezeTx : string := "afrz".
Definition ApplicationCallTx : string := "appl".
Definition StateProofTx : string := "stpf".
Definition HeartbeatTx : string := "hb".

(** ** Transactions *)

Record StateSchema := { NumUint : Z; NumByteSlice : Z }.

Record AssetParams := {
  AP_Total : Z; AP_Decimals : Z; AP_DefaultFrozen : bool;
  AP_UnitName : string; AP_AssetName : string; AP_URL : string;
  AP_MetadataHash : string;
  AP_Manager : Address; AP_Reserve : Address; AP_Freeze : Address; AP_Clawback : Address }.

Record Header := {
  H_Sender : Address; H_Fee : Z; H_FirstValid : Round; H_LastValid : Round;
  H_Note : string; H_GenesisID : string; H_GenesisHash : Digest;
  H_Group : Digest; H_Lease : string; H_RekeyTo : Address }.

Record KeyregTxnFields := {
  K_VotePK : string; K_SelectionPK : string; K_StateProofPK : string;
  K_VoteFirst : Round; K_VoteLast : Round; K_VoteKeyDilution : Z;
  K_Nonparticipation : bool }.

Record PaymentTxnFields := {
  P_Receiver : Address; P_Amount : Z; P_CloseRemainderTo : Address }.

Record AssetConfigTxnFields := { C_ConfigAsset : Z; C_AssetParams : AssetParams }.

Record AssetTransferTxnFields := {
  X_XferAsset : Z; X_AssetAmount : Z; X_AssetSender : Address;
  X_AssetReceiver : Address; X_AssetCloseTo : Address }.

Record AssetFreezeTxnFields := {
  F_FreezeAccount : Address; F_FreezeAsset : Z; F_AssetFrozen : bool }.

Record BoxReference := { BR_ForeignAppIdx : Z; BR_Name : string }.

Record ResourceRef := {
  RR_Address : Address; RR_Asset : Z; RR_App : Z;
  RR_Holding_Address : Z; RR_Holding_Asset : Z;
  RR_Locals_Address : Z; RR_Locals_App : Z;
  RR_Box : BoxReference }.

Record ApplicationCallTxnFields := {
  A_ApplicationID : Z; A_OnCompletion : Z;
  A_ApplicationArgs : list string; A_Accounts : list Address;
  A_ForeignApps : list Z; A_ForeignAssets : list Z;
  A_BoxReferences : list BoxReference; A_Access : list ResourceRef;
  A_LocalStateSchema : StateSchema; A_GlobalStateSchema : StateSchema;
  A_ApprovalProgram : string; A_ClearStateProgram : string;
  A_ExtraProgramPages : Z; A_RejectVersion : Z }.

Record MerkleProof := { MP_Path : list string; MP_HashType : Z; MP_TreeDepth : Z }.

Record Reveal := {
  RV_Signature : string; RV_VectorCommitmentIndex : Z; RV_Proof : MerkleProof;
  RV_VerifyingKey : string; RV_L : Z;
  RV_Commitment : string; RV_KeyLifetime : Z; RV_Weight : Z }.

Record StateProofTxnFields := {
  S_StateProofType : Z;
  S_SigCommit : string; S_SignedWeight : Z;
  S_SigProofs : MerkleProof; S_PartProofs : MerkleProof;
  S_MerkleSignatureSaltVersion : Z;
  S_Reveals : gmap Z Reveal; S_PositionsToReveal : list Z;
  S_BlockHeadersCommitment : string; S_VotersCommitment : string;
  S_LnProvenWeight : Z; S_FirstAttestedRound : Z; S_LastAttestedRound : Z }.

Record HeartbeatTxnFields := {
  HB_HbAddress : Address;
  HB_Sig : string; HB_PK : string; HB_PK2 : string; HB_PK1Sig : string; HB_PK2Sig : string;
  HB_HbSeed : string; HB_HbVoteID : string; HB_HbKeyDilution : Z }.

Record Transaction := {
  T_Type : string;
  T_Header : Header;
  T_Keyreg : KeyregTxnFields;
  T_Payment : PaymentTxnFields;
  T_AssetConfig : AssetConfigTxnFields;
  T_AssetTransfer : AssetTransferTxnFields;
  T_AssetFreeze : AssetFreezeTxnFields;
  T_Application : ApplicationCallTxnFields;
  T_StateProof : StateProofTxnFields;
  T_Heartbeat : HeartbeatTxnFields }.

Definition Sender (t : Transaction) : Address := H_Sender (T_Header t).
Definition RekeyTo (t : Transaction) : Address := H_RekeyTo (T_Header t).
Definition AssetParams_of (t : Transaction) : AssetParams := C_AssetParams (T_AssetConfig t).

(** ** Signatures *)

Record MultisigSubsig := { MS_Key : string; MS_Sig : string }.
Record MultisigSig := { M_Version : Z; M_Threshold : Z; M_Subsigs : list MultisigSubsig }.
Record LogicSig := {
  L_Logic : string; L_Sig : string; L_Msig : MultisigSig; L_LMsig : MultisigSig;
  L_Args : list string }.

Record SignedTxn := {
  ST_Sig : string; ST_Msig : MultisigSig; ST_Lsig : LogicSig;
  ST_Txn : Transaction; ST_AuthAddr : Address }.

(** ** Apply data and inner transactions

    [types.SignedTxnWithAD] contains an [ApplyData], whose [EvalDelta] contains
    the inner [SignedTxnWithAD]s: the records take the type of the inner
    transactions as a parameter, and the inductive type ties the knot. *)

Record ValueDelta := { VD_Action : Z; VD_Bytes : string; VD_Uint : Z }.
Abbreviation StateDelta := (option (gmap string ValueDelta)) (only parsing).

Record EvalDelta (I : Type) := {
  ED_GlobalDelta : StateDelta;
  ED_LocalDeltas : option (gmap Z StateDelta);
  ED_SharedAccts : list Address;
  ED_Logs : option (list string);
  ED_InnerTxns : option (list I) }.
Arguments Build_EvalDelta {_}.
Arguments ED_GlobalDelta {_}.
Arguments ED_LocalDeltas {_}.
Arguments ED_SharedAccts {_}.
Arguments ED_Logs {_}.
Arguments ED_InnerTxns {_}.

Record ApplyData (I : Type) := {
  AD_ClosingAmount : Z; AD_AssetClosingAmount : Z;
  AD_SenderRewards : Z; AD_ReceiverRewards : Z; AD_CloseRewards : Z;
  AD_EvalDelta : EvalDelta I;
  AD_ConfigAsset : Z; AD_ApplicationID : Z }.
Arguments Build_ApplyData {_}.
Arguments AD_ClosingAmount {_}.
Arguments AD_AssetClosingAmount {_}.
Arguments AD_SenderRewards {_}.
Arguments AD_ReceiverRewards {_}.
Arguments AD_CloseRewards {_}.
Arguments AD_EvalDelta {_}.
Arguments AD_ConfigAsset {_}.
Arguments AD_ApplicationID {_}.

#[local] Unset Elimination Schemes.
Inductive SignedTxnWithAD :=
| StxnAD (st : SignedTxn) (ad : ApplyData SignedTxnWithAD).

Definition STAD_SignedTxn (s : SignedTxnWithAD) : SignedTxn :=
  match s with StxnAD st _ => st end.
Definition STAD_ApplyData (s : SignedTxnWithAD) : ApplyData SignedTxnWithAD :=
  match s with StxnAD _ ad => ad end.
Definition Txn (s : SignedTxnWithAD) : Transaction := ST_Txn (STAD_SignedTxn s).
Definition InnerTxns (s : SignedTxnWithAD) : list SignedTxnWithAD :=
  slice (ED_InnerTxns (AD_EvalDelta (STAD_ApplyData s))).

Definition ApplyDataT := ApplyData SignedTxnWithAD.
Definition EvalDeltaT := EvalDelta SignedTxnWithAD.

(** Induction over the tree of inner transactions. *)
Section SignedTxnWithAD_induction.
Context (P : SignedTxnWithAD -> Prop).
Context (step : forall s, Forall P (InnerTxns s) -> P s).

Lemma SignedTxnWithAD_rect_inner : forall s, P s.
Proof.
  fix IH 1. intros [st [ca aca sr rr cr [gd ld sa lg [inner|]] ca' ap]]; apply step; cbn.
  - induction inner as [|i inner IHl]; constructor; [apply IH|apply IHl].
  - constructor.
Qed.
End SignedTxnWithAD_induction.

(** The number of transactions below [s], the induction measure of the
    traversals. *)
Fixpoint stxn_size (s : SignedTxnWithAD) : nat :=
  match s with
  | StxnAD _ ad =>
      match ED_InnerTxns (AD_EvalDelta ad) with
      | None => 1%nat
      | Some l => S (sum_list_with stxn_size l)
      end
  end.

(** ** Blocks *)

Record SignedTxnInBlock := {
  SIB_SignedTxnWithAD : SignedTxnWithAD; HasGenesisID : bool; HasGenesisHash : bool }.

Definition SIB_SignedTxn (s : SignedTxnInBlock) : SignedTxn :=
  STAD_SignedTxn (SIB_SignedTxnWithAD s).
Definition SIB_ApplyData (s : SignedTxnInBlock) : ApplyDataT :=
  STAD_ApplyData (SIB_SignedTxnWithAD s).
Definition SIB_Txn (s : SignedTxnInBlock) : Transaction := ST_Txn (SIB_SignedTxn s).

Record StateProofTrackingData := {
  SPT_VotersCommitment : string; SPT_OnlineTotalWeight : Z; SPT_NextRound : Round }.

Record BlockHeader := {
  BH_Round : Round; BH_Branch : string; BH_Branch512 : string; BH_Seed : string;
  BH_NativeSha512_256Commitment : string; BH_Sha256Commitment : string;
  BH_Sha512Commitment : string;
  BH_TimeStamp : Z; BH_GenesisID : string; BH_GenesisHash : Digest;
  BH_Proposer : Address; BH_FeesCollected : Z; BH_Bonus : Z; BH_ProposerPayout : Z;
  BH_FeeSink : Address; BH_RewardsPool : Address; BH_RewardsLevel : Z;
  BH_RewardsRate : Z; BH_RewardsResidue : Z; BH_RewardsRecalculationRound : Round;
  BH_CurrentProtocol : string; BH_NextProtocol : string;
  BH_NextProtocolApprovals : Z; BH_NextProtocolSwitchOn : Round;
  BH_NextProtocolVoteBefore : Round;
  BH_UpgradePropose : string; BH_UpgradeDelay : Z; BH_UpgradeApprove : bool;
  BH_TxnCounter : Z;
  BH_StateProofTracking : gmap Z StateProofTrackingData;
  BH_ExpiredParticipationAccounts : option (list Address);
  BH_AbsentParticipationAccounts : option (list Address) }.

Record Block := { B_Header : BlockHeader; B_Payset : list SignedTxnInBlock }.

Definition B_Round (b : Block) : Round := BH_Round (B_Header b).

(** ** Accounts, assets and applications *)

Record TealValue := { TV_Type : Z; TV_Bytes : string; TV_Uint : Z }.
Abbreviation TealKeyValue := (option (gmap string TealValue)) (only parsing).

Definition TealBytesType : Z := 1.
Definition TealUintType : Z := 2.

Record AppParams := {
  APP_ApprovalProgram : option string; APP_ClearStateProgram : option string;
  APP_GlobalState : TealKeyValue;
  APP_LocalStateSchema : StateSchema; APP_GlobalStateSchema : StateSchema;
  APP_ExtraProgramPages : Z; APP_Version : Z }.

Record AppLocalState := { ALS_Schema : StateSchema; ALS_KeyValue : TealKeyValue }.

Record AssetHolding := { AH_Amount : Z; AH_Frozen : bool }.

Record AccountData := {
  ACD_Status : Z; ACD_MicroAlgos : Z; ACD_RewardsBase : Z; ACD_RewardedMicroAlgos : Z;
  ACD_AuthAddr : Address; ACD_IncentiveEligible : bool;
  ACD_TotalAppSchema : StateSchema; ACD_TotalExtraAppPages : Z;
  ACD_TotalAppParams : Z; ACD_TotalAppLocalStates : Z;
  ACD_TotalAssetParams : Z; ACD_TotalAssets : Z;
  ACD_TotalBoxes : Z; ACD_TotalBoxBytes : Z;
  ACD_LastProposed : Round; ACD_LastHeartbeat : Round;
  ACD_VoteID : string; ACD_SelectionID : string; ACD_StateProofID : string;
  ACD_VoteFirstValid : Round; ACD_VoteLastValid : Round; ACD_VoteKeyDilution : Z }.

(** ** Ledger deltas *)

Record BalanceRecord := { BR_Addr : Address; BR_AccountData : AccountData }.
Record AssetParamsDelta := { APD_Params : option AssetParams; APD_Deleted : bool }.
Record AssetHoldingDelta := { AHD_Holding : option AssetHolding; AHD_Deleted : bool }.
Record AssetResourceRecord := {
  ASR_Aidx : Z; ASR_Addr : Address; ASR_Params : AssetParamsDelta;
  ASR_Holding : AssetHoldingDelta }.
Record AppParamsDelta := { PPD_Params : option AppParams; PPD_Deleted : bool }.
Record AppLocalStateDelta := { PLD_LocalState : option AppLocalState; PLD_Deleted : bool }.
Record AppResourceRecord := {
  PPR_Aidx : Z; PPR_Addr : Address; PPR_Params : AppParamsDelta;
  PPR_State : AppLocalStateDelta }.
Record AccountDeltas := {
  D_Accts : list BalanceRecord; D_AssetResources : list AssetResourceRecord;
  D_AppResources : list AppResourceRecord }.

(** [KvMods] is a Go map: its entries with distinct keys, in the order in which
    [range] happens to visit them.  [None] is a nil [Data]. *)
Record LedgerStateDelta := {
  D_AccountDeltas : AccountDeltas; D_KvMods : list (string * option string) }.

(** ** Genesis *)

Record GenesisAccount := {
  G_Status : Z; G_MicroAlgos : Z; G_VoteID : string; G_SelectionID : string;
  G_StateProofID : string; G_VoteLastValid : Z; G_VoteKeyDilution : Z }.
Record GenesisAllocation := { G_Address : string; G_State : GenesisAccount }.
Record Genesis := { G_Allocation : list GenesisAllocation; G_rest : string }.

(** ** Consensus parameters *)

Record ConsensusParams := {
  CP_SupportSignedTxnInBlock : bool; CP_RequireGenesisHash : bool;
  CP_MinBalance : Z; CP_RewardUnit : Z;
  CP_AppFlatParamsMinBalance : Z; CP_AppFlatOptInMinBalance : Z;
  CP_SchemaMinBalancePerEntry : Z; CP_SchemaUintMinBalance : Z; CP_SchemaBytesMinBalance : Z;
  CP_BoxFlatMinBalance : Z; CP_BoxByteMinBalance : Z }.

(** ** The SDK's functions *)

Class SdkOps := {
  (** [sdk.DecodeAddress] and [Address.String] *)
  DecodeAddress : string -> result Address;
  AddressString : Address -> string;
  (** [Address.IsZero] *)
  Address_IsZero : Address -> bool;
  (** [MultisigSig.Blank] and [LogicSig.Blank] *)
  Msig_Blank : MultisigSig -> bool;
  Lsig_Blank : LogicSig -> bool;
  (** [AssetParams.IsZero] *)
  AssetParams_IsZero : AssetParams -> bool;
  (** [crypto.TransactionIDString] *)
  TransactionIDString : Transaction -> string;
  (** [Genesis.Hash] *)
  Genesis_Hash : Genesis -> Digest;
  (** the table [config.Consensus] *)
  Consensus : string -> option ConsensusParams;
  (** [apps.SplitBoxKey] of avm-abi *)
  SplitBoxKey : string -> result (Z * string) }.

Class SdkLaws `{SdkOps} := {
  Address_IsZero_spec a : Address_IsZero a = true <-> a = zeroAddress;
  DecodeAddress_String a : String.length a = 32%nat -> DecodeAddress (AddressString a) = Ok a;
  (* the text of an address has 58 characters *)
  AddressString_nonempty a : String.length a = 32%nat -> AddressString a <> "";
  SplitBoxKey_inj k1 k2 r : SplitBoxKey k1 = Ok r -> SplitBoxKey k2 = Ok r -> k1 = k2;
  (* the errors of the SDK are not database errors *)
  SplitBoxKey_plain k : plain (SplitBoxKey k);
  DecodeAddress_plain s : plain (DecodeAddress s) }.

(** ** Zero values *)

Module Zero.
Definition schema0 : StateSchema := {| NumUint := 0; NumByteSlice := 0 |}.
Definition assetParams : AssetParams := {|
  AP_Total := 0; AP_Decimals := 0; AP_DefaultFrozen := false; AP_UnitName := "";
  AP_AssetName := ""; AP_URL := ""; AP_MetadataHash := zeros 32; AP_Manager := zeroAddress;
  AP_Reserve := zeroAddress; AP_Freeze := zeroAddress; AP_Clawback := zeroAddress |}.
Definition accountData : AccountData := {|
  ACD_Status := 0; ACD_MicroAlgos := 0; ACD_RewardsBase := 0; ACD_RewardedMicroAlgos := 0;
  ACD_AuthAddr := zeroAddress; ACD_IncentiveEligible := false;
  ACD_TotalAppSchema := schema0; ACD_TotalExtraAppPages := 0; ACD_TotalAppParams := 0;
  ACD_TotalAppLocalStates := 0; ACD_TotalAssetParams := 0; ACD_TotalAssets := 0;
  ACD_TotalBoxes := 0; ACD_TotalBoxBytes := 0; ACD_LastProposed := 0; ACD_LastHeartbeat := 0;
  ACD_VoteID := zeros 32; ACD_SelectionID := zeros 32; ACD_StateProofID := zeros 64;
  ACD_VoteFirstValid := 0; ACD_VoteLastValid := 0; ACD_VoteKeyDilution := 0 |}.
Definition header : Header := {|
  H_Sender := zeroAddress; H_Fee := 0; H_FirstValid := 0; H_LastValid := 0; H_Note := "";
  H_GenesisID := ""; H_GenesisHash := zeroDigest; H_Group := zeroDigest; H_Lease := zeros 32;
  H_RekeyTo := zeroAddress |}.
Definition keyreg : KeyregTxnFields := {|
  K_VotePK := zeros 32; K_SelectionPK := zeros 32; K_StateProofPK := zeros 64; K_VoteFirst := 0;
  K_VoteLast := 0; K_VoteKeyDilution := 0; K_Nonparticipation := false |}.
Definition payment : PaymentTxnFields := {|
  P_Receiver := zeroAddress; P_Amount := 0; P_CloseRemainderTo := zeroAddress |}.
Definition assetConfig : AssetConfigTxnFields := {| C_ConfigAsset := 0; C_AssetParams := assetParams |}.
Definition assetTransfer : AssetTransferTxnFields := {|
  X_XferAsset := 0; X_AssetAmount := 0; X_AssetSender := zeroAddress;
  X_AssetReceiver := zeroAddress; X_AssetCloseTo := zeroAddress |}.
Definition assetFreeze : AssetFreezeTxnFields := {|
  F_FreezeAccount := zeroAddress; F_FreezeAsset := 0; F_AssetFrozen := false |}.
Definition application : ApplicationCallTxnFields := {|
  A_ApplicationID := 0; A_OnCompletion := 0; A_ApplicationArgs := []; A_Accounts := [];
  A_ForeignApps := []; A_ForeignAssets := []; A_BoxReferences := []; A_Access := [];
  A_LocalStateSchema := schema0; A_GlobalStateSchema := schema0; A_ApprovalProgram := "";
  A_ClearStateProgram := ""; A_ExtraProgramPages := 0; A_RejectVersion := 0 |}.
Definition merkle : MerkleProof := {| MP_Path := []; MP_HashType := 0; MP_TreeDepth := 0 |}.
Definition stateProof : StateProofTxnFields := {|
  S_StateProofType := 0; S_SigCommit := ""; S_SignedWeight := 0; S_SigProofs := merkle;
  S_PartProofs := merkle; S_MerkleSignatureSaltVersion := 0; S_Reveals := ∅;
  S_PositionsToReveal := []; S_BlockHeadersCommitment := ""; S_VotersCommitment := "";
  S_LnProvenWeight := 0; S_FirstAttestedRound := 0; S_LastAttestedRound := 0 |}.
Definition heartbeat : HeartbeatTxnFields := {|
  HB_HbAddress := zeroAddress; HB_Sig := zeros 64; HB_PK := zeros 32; HB_PK2 := zeros 32;
  HB_PK1Sig := zeros 64; HB_PK2Sig := zeros 64; HB_HbSeed := zeros 32; HB_HbVoteID := zeros 32;
  HB_HbKeyDilution := 0 |}.
Definition msig : MultisigSig := {| M_Version := 0; M_Threshold := 0; M_Subsigs := [] |}.
Definition lsig : LogicSig := {|
  L_Logic := ""; L_Sig := zeroSignature; L_Msig := msig; L_LMsig := msig; L_Args := [] |}.
Definition evalDelta : EvalDeltaT := {|
  ED_GlobalDelta := None; ED_LocalDeltas := None; ED_SharedAccts := []; ED_Logs := None;
  ED_InnerTxns := None |}.
Definition applyData : ApplyDataT := {|
  AD_ClosingAmount := 0; AD_AssetClosingAmount := 0; AD_SenderRewards := 0;
  AD_ReceiverRewards := 0; AD_CloseRewards := 0; AD_EvalDelta := evalDelta;
  AD_ConfigAsset := 0; AD_ApplicationID := 0 |}.
End Zero.

(** ** A sample instance

    A small SDK used to exhibit concrete runs: addresses are printed as they
    are, and one protocol version, ["future"], is known. *)

Module Sample.
Import Zero.

Definition params : ConsensusParams := {|
  CP_SupportSignedTxnInBlock := true; CP_RequireGenesisHash := true;
  CP_MinBalance := 100000; CP_RewardUnit := 1000000;
  CP_AppFlatParamsMinBalance := 100000; CP_AppFlatOptInMinBalance := 100000;
  CP_SchemaMinBalancePerEntry := 25000; CP_SchemaUintMinBalance := 3500;
  CP_SchemaBytesMinBalance := 25000; CP_BoxFlatMinBalance := 2500; CP_BoxByteMinBalance := 400 |}.

#[export] Instance sdk : SdkOps := {|
  DecodeAddress s :=
    if bool_decide (String.length s = 32%nat) then Ok s else Err (ErrMsg "address wrong length");
  AddressString a := a;
  Address_IsZero a := bool_decide (a = zeroAddress);
  Msig_Blank m := bool_decide (M_Version m = 0 ∧ M_Threshold m = 0);
  Lsig_Blank l := bool_decide (L_Logic l = "");
  AssetParams_IsZero p := bool_decide (AP_Total p = 0);
  TransactionIDString t := (T_Type t ++ "-" ++ H_Note (T_Header t))%string;
  Genesis_Hash g := G_rest g;
  Consensus v := if bool_decide (v = "future"%string) then Some params else None;
  SplitBoxKey k := Ok (0, k) |}.

#[export] Instance sdk_laws : SdkLaws.
Proof.
  constructor; cbn.
  - intros a. apply bool_decide_eq_true.
  - intros a Ha. by rewrite bool_decide_eq_true_2.
  - intros a Ha ->. done.
  - congruence.
  - by intros k e.
  - intros s e. case_bool_decide; by intros [= <-].
Qed.

Definition payment : PaymentTxnFields := Zero.payment.

(** A transaction of type [ty] from [snd] with zero fields elsewhere. *)
Definition txn (ty : string) (snd : Address) (pay : PaymentTxnFields) : Transaction := {|
  T_Type := ty;
  T_Header := {| H_Sender := snd; H_Fee := 1000; H_FirstValid := 0; H_LastValid := 0; H_Note := "";
     H_GenesisID := ""; H_GenesisHash := zeroDigest; H_Group := zeroDigest; H_Lease := zeros 32;
     H_RekeyTo := zeroAddress |};
  T_Keyreg := keyreg; T_Payment := pay; T_AssetConfig := assetConfig;
  T_AssetTransfer := assetTransfer; T_AssetFreeze := assetFreeze; T_Application := application;
  T_StateProof := stateProof; T_Heartbeat := heartbeat |}.

Definition signed (t : Transaction) : SignedTxn := {|
  ST_Sig := "signature"; ST_Msig := msig; ST_Lsig := lsig; ST_Txn := t;
  ST_AuthAddr := zeroAddress |}.

Definition applyData (inner : list SignedTxnWithAD) : ApplyDataT := {|
  AD_ClosingAmount := 0; AD_AssetClosingAmount := 0; AD_SenderRewards := 0;
  AD_ReceiverRewards := 0; AD_CloseRewards := 0;
  AD_EvalDelta := {| ED_GlobalDelta := None; ED_LocalDeltas := None; ED_SharedAccts := [];
                     ED_Logs := None;
                     ED_InnerTxns := match inner with [] => None | _ => Some inner end |};
  AD_ConfigAsset := 0; AD_ApplicationID := 0 |}.

Definition stxnad (t : Transaction) (inner : list SignedTxnWithAD) : SignedTxnWithAD :=
  StxnAD (signed t) (applyData inner).

Definition blockHeader (round : Z) : BlockHeader := {|
  BH_Round := round; BH_Branch := zeros 32; BH_Branch512 := zeros 64; BH_Seed := zeros 32;
  BH_NativeSha512_256Commitment := zeros 32; BH_Sha256Commitment := zeros 32;
  BH_Sha512Commitment := zeros 64; BH_TimeStamp := 1700000000 + round;
  BH_GenesisID := "sample-v1"; BH_GenesisHash := "genesis hash";
  BH_Proposer := "proposer"; BH_FeesCollected := 0; BH_Bonus := 0; BH_ProposerPayout := 0;
  BH_FeeSink := "fee sink"; BH_RewardsPool := "rewards pool"; BH_RewardsLevel := 0;
  BH_RewardsRate := 0; BH_RewardsResidue := 0; BH_RewardsRecalculationRound := 0;
  BH_CurrentProtocol := "future"; BH_NextProtocol := ""; BH_NextProtocolApprovals := 0;
  BH_NextProtocolSwitchOn := 0; BH_NextProtocolVoteBefore := 0; BH_UpgradePropose := "";
  BH_UpgradeDelay := 0; BH_UpgradeApprove := false; BH_TxnCounter := 100;
  BH_StateProofTracking := ∅; BH_ExpiredParticipationAccounts := None;
  BH_AbsentParticipationAccounts := None |}.

Definition inBlock (s : SignedTxnWithAD) : SignedTxnInBlock := {|
  SIB_SignedTxnWithAD := s; HasGenesisID := true; HasGenesisHash := false |}.

End Sample.
