(* ===== verification/Idb.v ===== *)
(** * Package [idb]: the vocabulary shared by the database and the API

    Transaction type numbers ([idb/txn_type_enum.go]), signature types
    ([idb/sig_type.go]), address roles ([idb/address_role.go]), result rows,
    paging tokens and filters ([idb/idb.go]). *)

From S2P Require Import Prelude GoStd Sdk.

(** ** Sentinel errors *)

Definition ErrorNotInitialized : error := ErrSentinel "accounting not initialized".
Definition ErrorBlockNotFound : error := ErrSentinel "block not found".

(** ** Transaction types *)

Definition TypeEnumPay : Z := 1.
Definition TypeEnumKeyreg : Z := 2.
Definition TypeEnumAssetConfig : Z := 3.
Definition TypeEnumAssetTransfer : Z := 4.
Definition TypeEnumAssetFreeze : Z := 5.
Definition TypeEnumApplication : Z := 6.
Definition TypeEnumStateProof : Z := 7.
Definition TypeEnumHeartbeat : Z := 8.

Definition typeEnumMap : gmap string Z := list_to_map
  [ ("pay", TypeEnumPay); ("keyreg", TypeEnumKeyreg); ("acfg", TypeEnumAssetConfig);
    ("axfer", TypeEnumAssetTransfer); ("afrz", TypeEnumAssetFreeze);
    ("appl", TypeEnumApplication); ("stpf", TypeEnumStateProof);
    ("hb", TypeEnumHeartbeat) ].

Definition GetTypeEnum (t : string) : option Z := typeEnumMap !! t.

(** ** Signature types *)

Definition Sig : string := "sig".
Definition Msig : string := "msig".
Definition Lsig : string := "lsig".

Definition sigTypeEnumMap : gset string := {[ Sig; Msig; Lsig ]}.

Definition IsSigTypeValid (sigtype : string) : bool := bool_decide (sigtype ∈ sigTypeEnumMap).

Definition SignatureType `{SdkOps} (stxn : SignedTxn) : result string :=
  if bool_decide (ST_Sig stxn ≠ zeroSignature) then Ok Sig
  else if negb (Msig_Blank (ST_Msig stxn)) then Ok Msig
  else if negb (Lsig_Blank (ST_Lsig stxn)) then
    if bool_decide (L_Sig (ST_Lsig stxn) ≠ zeroSignature) then Ok Sig
    else if negb (Msig_Blank (L_Msig (ST_Lsig stxn))) then Ok Msig
    else if negb (Msig_Blank (L_LMsig (ST_Lsig stxn))) then Ok Msig
    else Ok Lsig
  else Err (ErrMsg "unable to determine the signature type for stxn=%+v").

(** ** Address roles *)

Definition AddressRoleSender : Z := 0x01.
Definition AddressRoleReceiver : Z := 0x02.
Definition AddressRoleCloseRemainderTo : Z := 0x04.
Definition AddressRoleAssetSender : Z := 0x08.
Definition AddressRoleAssetReceiver : Z := 0x10.
Definition AddressRoleAssetCloseTo : Z := 0x20.
Definition AddressRoleFreeze : Z := 0x40.

(** ** Extra transaction data *)

Record OptionalUint := { OU_Present : bool; OU_Value : Z }.

#[export] Instance OptionalUint_eq_dec : EqDecision OptionalUint.
Proof. solve_decision. Defined.

(** [MarshalText]: a nil byte slice when absent. *)
Definition OptionalUint_MarshalText (ou : OptionalUint) : option string :=
  if OU_Present ou then Some (FormatUint (OU_Value ou)) else None.

Definition OptionalUint_UnmarshalText (text : option string) : result OptionalUint :=
  match text with
  | None => Ok {| OU_Present := false; OU_Value := 0 |}
  | Some t =>
      value ← ParseUint t;
      Ok {| OU_Present := true; OU_Value := value |}
  end.

Record TxnExtra := {
  AssetCloseAmount : Z; RootIntra : OptionalUint; RootTxid : string }.

#[export] Instance TxnExtra_eq_dec : EqDecision TxnExtra.
Proof. solve_decision. Defined.

Definition absentUint : OptionalUint := {| OU_Present := false; OU_Value := 0 |}.

(** ** Result rows *)

(** A [time.Time]: [None] is the zero time, otherwise nanoseconds since the
    Unix epoch. *)
Abbreviation Time := (option Z) (only parsing).

(** [time.Unix(sec, 0)] and [Time.Unix]. *)
Definition time_Unix (sec : Z) : Z := sec * 10 ^ 9.
Definition Time_Unix (t : Z) : Z := t / 10 ^ 9.

Record BlockRow := { BKR_BlockHeader : BlockHeader; BKR_Error : option error }.

Record TxnRow := {
  TR_Round : Z; TR_RoundTime : Time; TR_Intra : Z;
  TR_Txn : option SignedTxnWithAD; TR_RootTxn : option SignedTxnWithAD;
  TR_AssetID : Z; TR_Extra : TxnExtra; TR_Error : option error }.

(** The number of transactions in the tree below [stxn]. *)
Fixpoint countInner (stxn : SignedTxnWithAD) : nat :=
  match stxn with
  | StxnAD _ ad =>
      match ED_InnerTxns (AD_EvalDelta ad) with
      | None => 0%nat
      | Some l => sum_list_with (λ itxn, S (countInner itxn)) l
      end
  end.

(** ** Paging tokens *)

Definition BlockRow_Next (br : BlockRow) : result string :=
  Ok (Base64.EncodeToString Base64.url
        (string_of_bytes (le_put 8 (BH_Round (BKR_BlockHeader br))))).

(** The intra-round offset a token carries. *)
Definition next_intra (tr : TxnRow) : Z :=
  if OU_Present (RootIntra (TR_Extra tr)) then OU_Value (RootIntra (TR_Extra tr))
  else wrap64 (TR_Intra tr).

Definition TxnRow_Next (tr : TxnRow) (ascending : bool) : result string :=
  let intra := next_intra tr in
  intra ←
    (if ascending then
       match (match TR_RootTxn tr with Some t => Some t | None => TR_Txn tr end) with
       | None => Err (ErrMsg "Next() was not given transaction")
       | Some stxn => Ok (wrap64 (intra + Z.of_nat (countInner stxn)))
       end
     else Ok intra);
  Ok (Base64.EncodeToString Base64.url
        (string_of_bytes (le_put 8 (TR_Round tr) ++ le_put 4 (wrap32 intra)))).

Definition DecodeTxnRowNext (s : string) : result (Z * Z) :=
  b ← wrap "DecodeTxnRowNext() decode err: %w" (Base64.DecodeString Base64.url s);
  let b := bytes_of_string b in
  if bool_decide (length b ≠ 12%nat) then Err (ErrMsg "DecodeTxnRowNext() bad next token b: %x")
  else Ok (le_get (take 8 b), le_get (drop 8 b)).

Definition DecodeBlockRowNext (s : string) : result Z :=
  b ← wrap "DecodeBlockRowNext() decode err: %w" (Base64.DecodeString Base64.url s);
  let b := bytes_of_string b in
  if bool_decide (length b ≠ 8%nat) then Err (ErrMsg "DecodeBlockRowNext() bad next token b: %x")
  else Ok (le_get (take 8 b)).

(** ** Filters *)

Record TransactionFilter := {
  TF_SkipOptimization : bool;
  TF_Address : option Address; TF_AddressRole : Z;
  TF_MinRound : Z; TF_MaxRound : Z; TF_AfterTime : Time; TF_BeforeTime : Time;
  TF_TypeEnum : Z; TF_Txid : string;
  TF_Round : option Z; TF_Offset : option Z; TF_OffsetLT : option Z; TF_OffsetGT : option Z;
  TF_SigType : string; TF_NotePrefix : option string; TF_GroupID : option string;
  TF_AlgosGT : option Z; TF_AlgosLT : option Z; TF_RekeyTo : option bool;
  TF_AssetID : option Z; TF_AssetAmountGT : option Z; TF_AssetAmountLT : option Z;
  TF_ApplicationID : option Z;
  TF_EffectiveAmountGT : option Z; TF_EffectiveAmountLT : option Z;
  TF_NextToken : string; TF_Limit : Z;
  TF_SkipInnerTransactionConversion : bool; TF_SkipInnerTransactions : bool;
  TF_HeaderOnly : bool; TF_RequireApplicationLogs : bool }.

#[export] Instance TransactionFilter_eq_dec : EqDecision TransactionFilter.
Proof. solve_decision. Defined.

Record BlockHeaderFilter := {
  BF_Limit : Z; BF_MaxRound : option Z; BF_MinRound : option Z;
  BF_AfterTime : Time; BF_BeforeTime : Time;
  BF_Proposers : gset Address; BF_ExpiredParticipationAccounts : gset Address;
  BF_AbsentParticipationAccounts : gset Address }.

(** ** Facts about inner transactions *)

Lemma countInner_unfold s :
  countInner s = sum_list_with (λ i, S (countInner i)) (InnerTxns s).
Proof. by destruct s as [st [ca aca sr rr cr [gd ld sa lg [inner|]] ca' ap]]. Qed.

Lemma stxn_size_countInner s : stxn_size s = S (countInner s).
Proof.
  induction s as [s IH] using SignedTxnWithAD_rect_inner.
  destruct s as [st [ca aca sr rr cr [gd ld sa lg [inner|]] ca' ap]]; cbn in *; [|done].
  f_equal. induction IH as [|i l Hi _ IHl]; cbn; [done|]. rewrite IHl, Hi. lia.
Qed.

(** ** Facts about tokens *)

Lemma decode_url_encode l :
  Base64.DecodeString Base64.url (Base64.EncodeToString Base64.url (string_of_bytes l))
  = Ok (string_of_bytes l).
Proof. apply Base64.DecodeString_EncodeToString, Base64.url_ok. Qed.

(** The token a row yields for the next page, decoded. *)
Definition token_intra (tr : TxnRow) (ascending : bool) : option Z :=
  if ascending then
    match TR_RootTxn tr, TR_Txn tr with
    | Some s, _ | None, Some s => Some (wrap64 (next_intra tr + Z.of_nat (countInner s)))
    | None, None => None
    end
  else Some (next_intra tr).

Lemma DecodeTxnRowNext_encode r i :
  is_u64 r ->
  DecodeTxnRowNext (Base64.EncodeToString Base64.url
    (string_of_bytes (le_put 8 r ++ le_put 4 (wrap32 i)))) = Ok (r, wrap32 i).
Proof.
  intros Hr. unfold DecodeTxnRowNext. rewrite decode_url_encode. cbn [wrap mbind result_bind].
  rewrite bytes_of_string_of_bytes, bool_decide_eq_false_2
    by (rewrite length_app, !length_le_put; naive_solver).
  rewrite take_app_length', drop_app_length' by (by rewrite length_le_put).
  rewrite !le_get_put. change (256 ^ Z.of_nat 8) with (2 ^ 64).
  change (256 ^ Z.of_nat 4) with (2 ^ 32).
  rewrite Z.mod_small by apply Hr. unfold wrap32. by rewrite Z.mod_mod.
Qed.

(** The token of a transaction row decodes to the row's round and to the low
    32 bits of the offset it names: the root transaction's offset for an inner
    transaction, plus, in ascending order, the number of transactions below it. *)
Theorem TxnRow_Next_roundtrip tr ascending i :
  is_u64 (TR_Round tr) ->
  token_intra tr ascending = Some i ->
  exists token, TxnRow_Next tr ascending = Ok token /\
    DecodeTxnRowNext token = Ok (TR_Round tr, wrap32 i).
Proof.
  intros Hr Hi. unfold TxnRow_Next, token_intra in *.
  destruct ascending; [destruct (TR_RootTxn tr), (TR_Txn tr)|]; simplify_eq;
    cbn [mbind result_bind]; (eexists; split; [done|by apply DecodeTxnRowNext_encode]).
Qed.

Definition example_row : TxnRow := {|
  TR_Round := 7; TR_RoundTime := None; TR_Intra := 3; TR_Txn := None; TR_RootTxn := None;
  TR_AssetID := 0; TR_Extra := {| AssetCloseAmount := 0; RootIntra := absentUint; RootTxid := "" |};
  TR_Error := None |}.

Lemma TxnRow_Next_roundtrip_witness :
  exists token, TxnRow_Next example_row false = Ok token /\
    DecodeTxnRowNext token = Ok (7, 3).
Proof.
  apply (TxnRow_Next_roundtrip example_row false 3); [by vm_compute|reflexivity].
Defined.
