(* ===== verification/Models.v ===== *)
(** * The API models: [api/generated/v2/types.go]

    The structs of the API, with the fields and types of the source: a pointer is
    an [option], a [uint64] a [Z], a byte slice a [string], and an [option] where
    the code tells a nil slice from an empty one.  [Sdk] has structs of the same
    names; those of this file stay in the module [models]. *)

From S2P Require Import Prelude Sdk Idb.

Module models.

(** A dynamic value: what the code puts into a [map[string]interface{}]. *)
Inductive interface := i_uint (n : Z) | i_string (s : string) | i_bool (b : bool).

(** ** Accounts, blocks and transactions *)

Record TealValue := {
  TealValue_Bytes : string; TealValue_Type : Z; TealValue_Uint : Z }.

Record TealKeyValue := {
  TealKeyValue_Key : string; TealKeyValue_Value : TealValue }.

Record ApplicationStateSchema := {
  ApplicationStateSchema_NumByteSlice : Z; ApplicationStateSchema_NumUint : Z }.

Record ApplicationLocalState := {
  ApplicationLocalState_ClosedOutAtRound : option Z;
  ApplicationLocalState_Deleted : option bool; ApplicationLocalState_Id : Z;
  ApplicationLocalState_KeyValue : option (list TealKeyValue);
  ApplicationLocalState_OptedInAtRound : option Z;
  ApplicationLocalState_Schema : ApplicationStateSchema }.

Record AssetHolding := {
  AssetHolding_Amount : Z; AssetHolding_AssetId : Z; AssetHolding_Deleted : option bool;
  AssetHolding_IsFrozen : bool; AssetHolding_OptedInAtRound : option Z;
  AssetHolding_OptedOutAtRound : option Z }.

Record ApplicationParams := {
  ApplicationParams_ApprovalProgram : option string;
  ApplicationParams_ClearStateProgram : option string;
  ApplicationParams_Creator : option string; ApplicationParams_ExtraProgramPages : option Z;
  ApplicationParams_GlobalState : option (list TealKeyValue);
  ApplicationParams_GlobalStateSchema : option ApplicationStateSchema;
  ApplicationParams_LocalStateSchema : option ApplicationStateSchema;
  ApplicationParams_Version : option Z }.

Record Application := {
  Application_CreatedAtRound : option Z; Application_Deleted : option bool;
  Application_DeletedAtRound : option Z; Application_Id : Z;
  Application_Params : ApplicationParams }.

Record AssetParams := {
  AssetParams_Clawback : option string; AssetParams_Creator : string; AssetParams_Decimals : Z;
  AssetParams_DefaultFrozen : option bool; AssetParams_Freeze : option string;
  AssetParams_Manager : option string; AssetParams_MetadataHash : option string;
  AssetParams_Name : option string; AssetParams_NameB64 : option string;
  AssetParams_Reserve : option string; AssetParams_Total : Z;
  AssetParams_UnitName : option string; AssetParams_UnitNameB64 : option string;
  AssetParams_Url : option string; AssetParams_UrlB64 : option string }.

Record Asset := {
  Asset_CreatedAtRound : option Z; Asset_Deleted : option bool;
  Asset_DestroyedAtRound : option Z; Asset_Index : Z; Asset_Params : AssetParams }.

Record AccountParticipation := {
  AccountParticipation_SelectionParticipationKey : option string;
  AccountParticipation_StateProofKey : option string; AccountParticipation_VoteFirstValid : Z;
  AccountParticipation_VoteKeyDilution : Z; AccountParticipation_VoteLastValid : Z;
  AccountParticipation_VoteParticipationKey : option string }.

Record Account := {
  Account_Address : string; Account_Amount : Z; Account_AmountWithoutPendingRewards : Z;
  Account_AppsLocalState : option (list ApplicationLocalState);
  Account_AppsTotalExtraPages : option Z;
  Account_AppsTotalSchema : option ApplicationStateSchema;
  Account_Assets : option (list AssetHolding); Account_AuthAddr : option string;
  Account_ClosedAtRound : option Z; Account_CreatedApps : option (list Application);
  Account_CreatedAssets : option (list Asset); Account_CreatedAtRound : option Z;
  Account_Deleted : option bool; Account_IncentiveEligible : option bool;
  Account_LastHeartbeat : option Z; Account_LastProposed : option Z; Account_MinBalance : Z;
  Account_Participation : option AccountParticipation; Account_PendingRewards : Z;
  Account_RewardBase : option Z; Account_Rewards : Z; Account_Round : Z;
  Account_SigType : option string; Account_Status : string; Account_TotalAppsOptedIn : Z;
  Account_TotalAssetsOptedIn : Z; Account_TotalBoxBytes : Z; Account_TotalBoxes : Z;
  Account_TotalCreatedApps : Z; Account_TotalCreatedAssets : Z }.

Record ParticipationUpdates := {
  ParticipationUpdates_AbsentParticipationAccounts : option (list string);
  ParticipationUpdates_ExpiredParticipationAccounts : option (list string) }.

Record BlockRewards := {
  BlockRewards_FeeSink : string; BlockRewards_RewardsCalculationRound : Z;
  BlockRewards_RewardsLevel : Z; BlockRewards_RewardsPool : string;
  BlockRewards_RewardsRate : Z; BlockRewards_RewardsResidue : Z }.

Record StateProofTracking := {
  StateProofTracking_NextRound : option Z; StateProofTracking_OnlineTotalWeight : option Z;
  StateProofTracking_Type : option Z; StateProofTracking_VotersCommitment : option string }.

Record BoxReference := {
  BoxReference_App : Z; BoxReference_Name : string }.

Record HoldingRef := {
  HoldingRef_Address : string; HoldingRef_Asset : Z }.

Record LocalsRef := {
  LocalsRef_Address : string; LocalsRef_App : Z }.

Record ResourceRef := {
  ResourceRef_Address : option string; ResourceRef_ApplicationId : option Z;
  ResourceRef_AssetId : option Z; ResourceRef_Box : option BoxReference;
  ResourceRef_Holding : option HoldingRef; ResourceRef_Local : option LocalsRef }.

Record StateSchema := {
  StateSchema_NumByteSlice : Z; StateSchema_NumUint : Z }.

Record TransactionApplication := {
  TransactionApplication_Access : option (list ResourceRef);
  TransactionApplication_Accounts : option (list string);
  TransactionApplication_ApplicationArgs : option (list string);
  TransactionApplication_ApplicationId : Z;
  TransactionApplication_ApprovalProgram : option string;
  TransactionApplication_BoxReferences : option (list BoxReference);
  TransactionApplication_ClearStateProgram : option string;
  TransactionApplication_ExtraProgramPages : option Z;
  TransactionApplication_ForeignApps : option (list Z);
  TransactionApplication_ForeignAssets : option (list Z);
  TransactionApplication_GlobalStateSchema : option StateSchema;
  TransactionApplication_LocalStateSchema : option StateSchema;
  TransactionApplication_OnCompletion : string;
  TransactionApplication_RejectVersion : option Z }.

Record TransactionAssetConfig := {
  TransactionAssetConfig_AssetId : option Z;
  TransactionAssetConfig_Params : option AssetParams }.

Record TransactionAssetFreeze := {
  TransactionAssetFreeze_Address : string; TransactionAssetFreeze_AssetId : Z;
  TransactionAssetFreeze_NewFreezeStatus : bool }.

Record TransactionAssetTransfer := {
  TransactionAssetTransfer_Amount : Z; TransactionAssetTransfer_AssetId : Z;
  TransactionAssetTransfer_CloseAmount : option Z;
  TransactionAssetTransfer_CloseTo : option string; TransactionAssetTransfer_Receiver : string;
  TransactionAssetTransfer_Sender : option string }.

Record EvalDelta := {
  EvalDelta_Action : Z; EvalDelta_Bytes : option string; EvalDelta_Uint : option Z }.

Record EvalDeltaKeyValue := {
  EvalDeltaKeyValue_Key : string; EvalDeltaKeyValue_Value : EvalDelta }.

Record HbProofFields := {
  HbProofFields_HbPk : option string; HbProofFields_HbPk1sig : option string;
  HbProofFields_HbPk2 : option string; HbProofFields_HbPk2sig : option string;
  HbProofFields_HbSig : option string }.

Record TransactionHeartbeat := {
  TransactionHeartbeat_HbAddress : string; TransactionHeartbeat_HbKeyDilution : Z;
  TransactionHeartbeat_HbProof : HbProofFields; TransactionHeartbeat_HbSeed : string;
  TransactionHeartbeat_HbVoteId : string }.

Record TransactionKeyreg := {
  TransactionKeyreg_NonParticipation : option bool;
  TransactionKeyreg_SelectionParticipationKey : option string;
  TransactionKeyreg_StateProofKey : option string; TransactionKeyreg_VoteFirstValid : option Z;
  TransactionKeyreg_VoteKeyDilution : option Z; TransactionKeyreg_VoteLastValid : option Z;
  TransactionKeyreg_VoteParticipationKey : option string }.

Record AccountStateDelta := {
  AccountStateDelta_Address : string; AccountStateDelta_Delta : list EvalDeltaKeyValue }.

Record TransactionPayment := {
  TransactionPayment_Amount : Z; TransactionPayment_CloseAmount : option Z;
  TransactionPayment_CloseRemainderTo : option string; TransactionPayment_Receiver : string }.

Record TransactionSignatureMultisigSubsignature := {
  TransactionSignatureMultisigSubsignature_PublicKey : option string;
  TransactionSignatureMultisigSubsignature_Signature : option string }.

Record TransactionSignatureMultisig := {
  TransactionSignatureMultisig_Subsignature : option (list TransactionSignatureMultisigSubsignature);
  TransactionSignatureMultisig_Threshold : option Z;
  TransactionSignatureMultisig_Version : option Z }.

Record TransactionSignatureLogicsig := {
  TransactionSignatureLogicsig_Args : option (list string);
  TransactionSignatureLogicsig_Logic : string;
  TransactionSignatureLogicsig_LogicMultisigSignature : option TransactionSignatureMultisig;
  TransactionSignatureLogicsig_MultisigSignature : option TransactionSignatureMultisig;
  TransactionSignatureLogicsig_Signature : option string }.

Record TransactionSignature := {
  TransactionSignature_Logicsig : option TransactionSignatureLogicsig;
  TransactionSignature_Multisig : option TransactionSignatureMultisig;
  TransactionSignature_Sig : option string }.

Record IndexerStateProofMessage := {
  IndexerStateProofMessage_BlockHeadersCommitment : option string;
  IndexerStateProofMessage_FirstAttestedRound : option Z;
  IndexerStateProofMessage_LatestAttestedRound : option Z;
  IndexerStateProofMessage_LnProvenWeight : option Z;
  IndexerStateProofMessage_VotersCommitment : option string }.

Record HashFactory := {
  HashFactory_HashType : option Z }.

Record MerkleArrayProof := {
  MerkleArrayProof_HashFactory : option HashFactory;
  MerkleArrayProof_Path : option (list string); MerkleArrayProof_TreeDepth : option Z }.

Record StateProofVerifier := {
  StateProofVerifier_Commitment : option string; StateProofVerifier_KeyLifetime : option Z }.

Record StateProofParticipant := {
  StateProofParticipant_Verifier : option StateProofVerifier;
  StateProofParticipant_Weight : option Z }.

Record StateProofSignature := {
  StateProofSignature_FalconSignature : option string;
  StateProofSignature_MerkleArrayIndex : option Z;
  StateProofSignature_Proof : option MerkleArrayProof;
  StateProofSignature_VerifyingKey : option string }.

Record StateProofSigSlot := {
  StateProofSigSlot_LowerSigWeight : option Z;
  StateProofSigSlot_Signature : option StateProofSignature }.

Record StateProofReveal := {
  StateProofReveal_Participant : option StateProofParticipant;
  StateProofReveal_Position : option Z; StateProofReveal_SigSlot : option StateProofSigSlot }.

Record StateProofFields := {
  StateProofFields_PartProofs : option MerkleArrayProof;
  StateProofFields_PositionsToReveal : option (list Z);
  StateProofFields_Reveals : option (list StateProofReveal);
  StateProofFields_SaltVersion : option Z; StateProofFields_SigCommit : option string;
  StateProofFields_SigProofs : option MerkleArrayProof;
  StateProofFields_SignedWeight : option Z }.

Record TransactionStateProof := {
  TransactionStateProof_Message : option IndexerStateProofMessage;
  TransactionStateProof_StateProof : option StateProofFields;
  TransactionStateProof_StateProofType : option Z }.

#[local] Unset Elimination Schemes.
Inductive Transaction := Build_Transaction {
  Transaction_ApplicationTransaction : option TransactionApplication;
  Transaction_AssetConfigTransaction : option TransactionAssetConfig;
  Transaction_AssetFreezeTransaction : option TransactionAssetFreeze;
  Transaction_AssetTransferTransaction : option TransactionAssetTransfer;
  Transaction_AuthAddr : option string; Transaction_CloseRewards : option Z;
  Transaction_ClosingAmount : option Z; Transaction_ConfirmedRound : option Z;
  Transaction_CreatedApplicationIndex : option Z; Transaction_CreatedAssetIndex : option Z;
  Transaction_Fee : Z; Transaction_FirstValid : Z; Transaction_GenesisHash : option string;
  Transaction_GenesisId : option string;
  Transaction_GlobalStateDelta : option (list EvalDeltaKeyValue);
  Transaction_Group : option string;
  Transaction_HeartbeatTransaction : option TransactionHeartbeat;
  Transaction_Id : option string; Transaction_InnerTxns : option (list Transaction);
  Transaction_IntraRoundOffset : option Z;
  Transaction_KeyregTransaction : option TransactionKeyreg; Transaction_LastValid : Z;
  Transaction_Lease : option string;
  Transaction_LocalStateDelta : option (list AccountStateDelta);
  Transaction_Logs : option (list string); Transaction_Note : option string;
  Transaction_PaymentTransaction : option TransactionPayment;
  Transaction_ReceiverRewards : option Z; Transaction_RekeyTo : option string;
  Transaction_RoundTime : option Z; Transaction_Sender : string;
  Transaction_SenderRewards : option Z; Transaction_Signature : option TransactionSignature;
  Transaction_StateProofTransaction : option TransactionStateProof;
  Transaction_TxType : string }.
#[local] Set Elimination Schemes.

Record BlockUpgradeState := {
  BlockUpgradeState_CurrentProtocol : string; BlockUpgradeState_NextProtocol : option string;
  BlockUpgradeState_NextProtocolApprovals : option Z;
  BlockUpgradeState_NextProtocolSwitchOn : option Z;
  BlockUpgradeState_NextProtocolVoteBefore : option Z }.

Record BlockUpgradeVote := {
  BlockUpgradeVote_UpgradeApprove : option bool; BlockUpgradeVote_UpgradeDelay : option Z;
  BlockUpgradeVote_UpgradePropose : option string }.

Record Block := {
  Block_Bonus : option Z; Block_FeesCollected : option Z; Block_GenesisHash : string;
  Block_GenesisId : string; Block_ParticipationUpdates : option ParticipationUpdates;
  Block_PreviousBlockHash : string; Block_PreviousBlockHash512 : option string;
  Block_Proposer : option string; Block_ProposerPayout : option Z;
  Block_Rewards : option BlockRewards; Block_Round : Z; Block_Seed : string;
  Block_StateProofTracking : option (list StateProofTracking); Block_Timestamp : Z;
  Block_Transactions : option (list Transaction); Block_TransactionsRoot : string;
  Block_TransactionsRootSha256 : string; Block_TransactionsRootSha512 : option string;
  Block_TxnCounter : option Z; Block_UpgradeState : option BlockUpgradeState;
  Block_UpgradeVote : option BlockUpgradeVote }.

Record MiniAssetHolding := {
  MiniAssetHolding_Address : string; MiniAssetHolding_Amount : Z;
  MiniAssetHolding_Deleted : option bool; MiniAssetHolding_IsFrozen : bool;
  MiniAssetHolding_OptedInAtRound : option Z; MiniAssetHolding_OptedOutAtRound : option Z }.

Record BoxDescriptor := {
  BoxDescriptor_Name : string; BoxDescriptor_Value : option (option string) }.

Record Box := {
  Box_Name : option string; Box_Round : Z; Box_Value : option string }.

Record ApplicationLogData := {
  ApplicationLogData_Logs : list string; ApplicationLogData_Txid : string }.

(** ** Responses *)

Record AccountResponse := {
  AccountResponse_Account : Account; AccountResponse_CurrentRound : Z }.

Record AccountsResponse := {
  AccountsResponse_Accounts : list Account; AccountsResponse_CurrentRound : Z;
  AccountsResponse_NextToken : option string }.

Record ApplicationLocalStatesResponse := {
  ApplicationLocalStatesResponse_AppsLocalStates : list ApplicationLocalState;
  ApplicationLocalStatesResponse_CurrentRound : Z;
  ApplicationLocalStatesResponse_NextToken : option string }.

Record ApplicationLogsResponse := {
  ApplicationLogsResponse_ApplicationId : Z; ApplicationLogsResponse_CurrentRound : Z;
  ApplicationLogsResponse_LogData : option (list ApplicationLogData);
  ApplicationLogsResponse_NextToken : option string }.

Record ApplicationResponse := {
  ApplicationResponse_Application : option Application; ApplicationResponse_CurrentRound : Z }.

Record ApplicationsResponse := {
  ApplicationsResponse_Applications : list Application; ApplicationsResponse_CurrentRound : Z;
  ApplicationsResponse_NextToken : option string }.

Record AssetBalancesResponse := {
  AssetBalancesResponse_Balances : list MiniAssetHolding;
  AssetBalancesResponse_CurrentRound : Z; AssetBalancesResponse_NextToken : option string }.

Record AssetHoldingsResponse := {
  AssetHoldingsResponse_Assets : list AssetHolding; AssetHoldingsResponse_CurrentRound : Z;
  AssetHoldingsResponse_NextToken : option string }.

Record AssetResponse := {
  AssetResponse_Asset : Asset; AssetResponse_CurrentRound : Z }.

Record AssetsResponse := {
  AssetsResponse_Assets : list Asset; AssetsResponse_CurrentRound : Z;
  AssetsResponse_NextToken : option string }.

Record BlockHeadersResponse := {
  BlockHeadersResponse_Blocks : list Block; BlockHeadersResponse_CurrentRound : Z;
  BlockHeadersResponse_NextToken : option string }.

Record BoxesResponse := {
  BoxesResponse_ApplicationId : Z; BoxesResponse_Boxes : list BoxDescriptor;
  BoxesResponse_NextToken : option string; BoxesResponse_Round : option Z }.

Record ErrorResponse := {
  ErrorResponse_Data : option (gmap string interface); ErrorResponse_Message : string }.

Record TransactionResponse := {
  TransactionResponse_CurrentRound : Z; TransactionResponse_Transaction : Transaction }.

Record TransactionsResponse := {
  TransactionsResponse_CurrentRound : Z; TransactionsResponse_NextToken : option string;
  TransactionsResponse_Transactions : list Transaction }.

Record HealthCheck := {
  HealthCheck_Data : option (gmap string interface); HealthCheck_DbAvailable : bool;
  HealthCheck_Errors : option (list string); HealthCheck_IsMigrating : bool;
  HealthCheck_Message : string; HealthCheck_Round : Z; HealthCheck_Version : string }.

(** ** Parameters of requests *)

Record SearchForAccountsParams := {
  SearchForAccountsParams_AssetId : option Z; SearchForAccountsParams_Limit : option Z;
  SearchForAccountsParams_Next : option string;
  SearchForAccountsParams_CurrencyGreaterThan : option Z;
  SearchForAccountsParams_IncludeAll : option bool;
  SearchForAccountsParams_Exclude : option (list string);
  SearchForAccountsParams_CurrencyLessThan : option Z;
  SearchForAccountsParams_AuthAddr : option string; SearchForAccountsParams_Round : option Z;
  SearchForAccountsParams_ApplicationId : option Z;
  SearchForAccountsParams_OnlineOnly : option bool }.

Record LookupAccountByIDParams := {
  LookupAccountByIDParams_Round : option Z; LookupAccountByIDParams_IncludeAll : option bool;
  LookupAccountByIDParams_Exclude : option (list string) }.

Record LookupAccountAppLocalStatesParams := {
  LookupAccountAppLocalStatesParams_ApplicationId : option Z;
  LookupAccountAppLocalStatesParams_IncludeAll : option bool;
  LookupAccountAppLocalStatesParams_Limit : option Z;
  LookupAccountAppLocalStatesParams_Next : option string }.

Record LookupAccountAssetsParams := {
  LookupAccountAssetsParams_AssetId : option Z;
  LookupAccountAssetsParams_IncludeAll : option bool;
  LookupAccountAssetsParams_Limit : option Z; LookupAccountAssetsParams_Next : option string }.

Record LookupAccountCreatedApplicationsParams := {
  LookupAccountCreatedApplicationsParams_ApplicationId : option Z;
  LookupAccountCreatedApplicationsParams_IncludeAll : option bool;
  LookupAccountCreatedApplicationsParams_Limit : option Z;
  LookupAccountCreatedApplicationsParams_Next : option string }.

Record LookupAccountCreatedAssetsParams := {
  LookupAccountCreatedAssetsParams_AssetId : option Z;
  LookupAccountCreatedAssetsParams_IncludeAll : option bool;
  LookupAccountCreatedAssetsParams_Limit : option Z;
  LookupAccountCreatedAssetsParams_Next : option string }.

Record LookupAccountTransactionsParams := {
  LookupAccountTransactionsParams_Limit : option Z;
  LookupAccountTransactionsParams_Next : option string;
  LookupAccountTransactionsParams_NotePrefix : option string;
  LookupAccountTransactionsParams_TxType : option string;
  LookupAccountTransactionsParams_SigType : option string;
  LookupAccountTransactionsParams_Txid : option string;
  LookupAccountTransactionsParams_Round : option Z;
  LookupAccountTransactionsParams_MinRound : option Z;
  LookupAccountTransactionsParams_MaxRound : option Z;
  LookupAccountTransactionsParams_AssetId : option Z;
  LookupAccountTransactionsParams_BeforeTime : option Time;
  LookupAccountTransactionsParams_AfterTime : option Time;
  LookupAccountTransactionsParams_CurrencyGreaterThan : option Z;
  LookupAccountTransactionsParams_CurrencyLessThan : option Z;
  LookupAccountTransactionsParams_RekeyTo : option bool }.

Record SearchForApplicationsParams := {
  SearchForApplicationsParams_ApplicationId : option Z;
  SearchForApplicationsParams_Creator : option string;
  SearchForApplicationsParams_IncludeAll : option bool;
  SearchForApplicationsParams_Limit : option Z;
  SearchForApplicationsParams_Next : option string }.

Record LookupApplicationByIDParams := {
  LookupApplicationByIDParams_IncludeAll : option bool }.

Record LookupApplicationBoxByIDAndNameParams := {
  LookupApplicationBoxByIDAndNameParams_Name : string }.

Record SearchForApplicationBoxesParams := {
  SearchForApplicationBoxesParams_Limit : option Z;
  SearchForApplicationBoxesParams_Next : option string;
  SearchForApplicationBoxesParams_Include : option (list string) }.

Record LookupApplicationLogsByIDParams := {
  LookupApplicationLogsByIDParams_Limit : option Z;
  LookupApplicationLogsByIDParams_Next : option string;
  LookupApplicationLogsByIDParams_Txid : option string;
  LookupApplicationLogsByIDParams_MinRound : option Z;
  LookupApplicationLogsByIDParams_MaxRound : option Z;
  LookupApplicationLogsByIDParams_SenderAddress : option string }.

Record SearchForAssetsParams := {
  SearchForAssetsParams_IncludeAll : option bool; SearchForAssetsParams_Limit : option Z;
  SearchForAssetsParams_Next : option string; SearchForAssetsParams_Creator : option string;
  SearchForAssetsParams_Name : option string; SearchForAssetsParams_Unit : option string;
  SearchForAssetsParams_AssetId : option Z }.

Record LookupAssetByIDParams := {
  LookupAssetByIDParams_IncludeAll : option bool }.

Record LookupAssetBalancesParams := {
  LookupAssetBalancesParams_IncludeAll : option bool;
  LookupAssetBalancesParams_Limit : option Z; LookupAssetBalancesParams_Next : option string;
  LookupAssetBalancesParams_CurrencyGreaterThan : option Z;
  LookupAssetBalancesParams_CurrencyLessThan : option Z }.

Record LookupAssetTransactionsParams := {
  LookupAssetTransactionsParams_Limit : option Z;
  LookupAssetTransactionsParams_Next : option string;
  LookupAssetTransactionsParams_NotePrefix : option string;
  LookupAssetTransactionsParams_TxType : option string;
  LookupAssetTransactionsParams_SigType : option string;
  LookupAssetTransactionsParams_Txid : option string;
  LookupAssetTransactionsParams_Round : option Z;
  LookupAssetTransactionsParams_MinRound : option Z;
  LookupAssetTransactionsParams_MaxRound : option Z;
  LookupAssetTransactionsParams_BeforeTime : option Time;
  LookupAssetTransactionsParams_AfterTime : option Time;
  LookupAssetTransactionsParams_CurrencyGreaterThan : option Z;
  LookupAssetTransactionsParams_CurrencyLessThan : option Z;
  LookupAssetTransactionsParams_Address : option string;
  LookupAssetTransactionsParams_AddressRole : option string;
  LookupAssetTransactionsParams_ExcludeCloseTo : option bool;
  LookupAssetTransactionsParams_RekeyTo : option bool }.

Record SearchForBlockHeadersParams := {
  SearchForBlockHeadersParams_Limit : option Z;
  SearchForBlockHeadersParams_Next : option string;
  SearchForBlockHeadersParams_MinRound : option Z;
  SearchForBlockHeadersParams_MaxRound : option Z;
  SearchForBlockHeadersParams_BeforeTime : option Time;
  SearchForBlockHeadersParams_AfterTime : option Time;
  SearchForBlockHeadersParams_Proposers : option (list string);
  SearchForBlockHeadersParams_Expired : option (list string);
  SearchForBlockHeadersParams_Absent : option (list string) }.

Record LookupBlockParams := {
  LookupBlockParams_HeaderOnly : option bool }.

Record SearchForTransactionsParams := {
  SearchForTransactionsParams_Limit : option Z;
  SearchForTransactionsParams_Next : option string;
  SearchForTransactionsParams_NotePrefix : option string;
  SearchForTransactionsParams_TxType : option string;
  SearchForTransactionsParams_SigType : option string;
  SearchForTransactionsParams_GroupId : option string;
  SearchForTransactionsParams_Txid : option string;
  SearchForTransactionsParams_Round : option Z;
  SearchForTransactionsParams_MinRound : option Z;
  SearchForTransactionsParams_MaxRound : option Z;
  SearchForTransactionsParams_AssetId : option Z;
  SearchForTransactionsParams_BeforeTime : option Time;
  SearchForTransactionsParams_AfterTime : option Time;
  SearchForTransactionsParams_CurrencyGreaterThan : option Z;
  SearchForTransactionsParams_CurrencyLessThan : option Z;
  SearchForTransactionsParams_Address : option string;
  SearchForTransactionsParams_AddressRole : option string;
  SearchForTransactionsParams_ExcludeCloseTo : option bool;
  SearchForTransactionsParams_RekeyTo : option bool;
  SearchForTransactionsParams_ApplicationId : option Z }.

(** ** Comparison and update *)

#[global] Instance ApplicationStateSchema_eq_dec : EqDecision ApplicationStateSchema.
Proof. solve_decision. Defined.
#[global] Instance TealValue_eq_dec : EqDecision TealValue.
Proof. solve_decision. Defined.
#[global] Instance ParticipationUpdates_eq_dec : EqDecision ParticipationUpdates.
Proof. solve_decision. Defined.
#[global] Instance AssetHolding_eq_dec : EqDecision AssetHolding.
Proof. solve_decision. Defined.

Definition set_Account_Address (x : Account) (v : string) : Account := {|
  Account_Address := v; Account_Amount := Account_Amount x;
  Account_AmountWithoutPendingRewards := Account_AmountWithoutPendingRewards x;
  Account_AppsLocalState := Account_AppsLocalState x;
  Account_AppsTotalExtraPages := Account_AppsTotalExtraPages x;
  Account_AppsTotalSchema := Account_AppsTotalSchema x; Account_Assets := Account_Assets x;
  Account_AuthAddr := Account_AuthAddr x; Account_ClosedAtRound := Account_ClosedAtRound x;
  Account_CreatedApps := Account_CreatedApps x;
  Account_CreatedAssets := Account_CreatedAssets x;
  Account_CreatedAtRound := Account_CreatedAtRound x; Account_Deleted := Account_Deleted x;
  Account_IncentiveEligible := Account_IncentiveEligible x;
  Account_LastHeartbeat := Account_LastHeartbeat x;
  Account_LastProposed := Account_LastProposed x; Account_MinBalance := Account_MinBalance x;
  Account_Participation := Account_Participation x;
  Account_PendingRewards := Account_PendingRewards x;
  Account_RewardBase := Account_RewardBase x; Account_Rewards := Account_Rewards x;
  Account_Round := Account_Round x; Account_SigType := Account_SigType x;
  Account_Status := Account_Status x; Account_TotalAppsOptedIn := Account_TotalAppsOptedIn x;
  Account_TotalAssetsOptedIn := Account_TotalAssetsOptedIn x;
  Account_TotalBoxBytes := Account_TotalBoxBytes x; Account_TotalBoxes := Account_TotalBoxes x;
  Account_TotalCreatedApps := Account_TotalCreatedApps x;
  Account_TotalCreatedAssets := Account_TotalCreatedAssets x |}.

Definition set_Account_Amount (x : Account) (v : Z) : Account := {|
  Account_Address := Account_Address x; Account_Amount := v;
  Account_AmountWithoutPendingRewards := Account_AmountWithoutPendingRewards x;
  Account_AppsLocalState := Account_AppsLocalState x;
  Account_AppsTotalExtraPages := Account_AppsTotalExtraPages x;
  Account_AppsTotalSchema := Account_AppsTotalSchema x; Account_Assets := Account_Assets x;
  Account_AuthAddr := Account_AuthAddr x; Account_ClosedAtRound := Account_ClosedAtRound x;
  Account_CreatedApps := Account_CreatedApps x;
  Account_CreatedAssets := Account_CreatedAssets x;
  Account_CreatedAtRound := Account_CreatedAtRound x; Account_Deleted := Account_Deleted x;
  Account_IncentiveEligible := Account_IncentiveEligible x;
  Account_LastHeartbeat := Account_LastHeartbeat x;
  Account_LastProposed := Account_LastProposed x; Account_MinBalance := Account_MinBalance x;
  Account_Participation := Account_Participation x;
  Account_PendingRewards := Account_PendingRewards x;
  Account_RewardBase := Account_RewardBase x; Account_Rewards := Account_Rewards x;
  Account_Round := Account_Round x; Account_SigType := Account_SigType x;
  Account_Status := Account_Status x; Account_TotalAppsOptedIn := Account_TotalAppsOptedIn x;
  Account_TotalAssetsOptedIn := Account_TotalAssetsOptedIn x;
  Account_TotalBoxBytes := Account_TotalBoxBytes x; Account_TotalBoxes := Account_TotalBoxes x;
  Account_TotalCreatedApps := Account_TotalCreatedApps x;
  Account_TotalCreatedAssets := Account_TotalCreatedAssets x |}.

Definition set_Account_AmountWithoutPendingRewards (x : Account) (v : Z) : Account := {|
  Account_Address := Account_Address x; Account_Amount := Account_Amount x;
  Account_AmountWithoutPendingRewards := v; Account_AppsLocalState := Account_AppsLocalState x;
  Account_AppsTotalExtraPages := Account_AppsTotalExtraPages x;
  Account_AppsTotalSchema := Account_AppsTotalSchema x; Account_Assets := Account_Assets x;
  Account_AuthAddr := Account_AuthAddr x; Account_ClosedAtRound := Account_ClosedAtRound x;
  Account_CreatedApps := Account_CreatedApps x;
  Account_CreatedAssets := Account_CreatedAssets x;
  Account_CreatedAtRound := Account_CreatedAtRound x; Account_Deleted := Account_Deleted x;
  Account_IncentiveEligible := Account_IncentiveEligible x;
  Account_LastHeartbeat := Account_LastHeartbeat x;
  Account_LastProposed := Account_LastProposed x; Account_MinBalance := Account_MinBalance x;
  Account_Participation := Account_Participation x;
  Account_PendingRewards := Account_PendingRewards x;
  Account_RewardBase := Account_RewardBase x; Account_Rewards := Account_Rewards x;
  Account_Round := Account_Round x; Account_SigType := Account_SigType x;
  Account_Status := Account_Status x; Account_TotalAppsOptedIn := Account_TotalAppsOptedIn x;
  Account_TotalAssetsOptedIn := Account_TotalAssetsOptedIn x;
  Account_TotalBoxBytes := Account_TotalBoxBytes x; Account_TotalBoxes := Account_TotalBoxes x;
  Account_TotalCreatedApps := Account_TotalCreatedApps x;
  Account_TotalCreatedAssets := Account_TotalCreatedAssets x |}.

Definition set_Account_MinBalance (x : Account) (v : Z) : Account := {|
  Account_Address := Account_Address x; Account_Amount := Account_Amount x;
  Account_AmountWithoutPendingRewards := Account_AmountWithoutPendingRewards x;
  Account_AppsLocalState := Account_AppsLocalState x;
  Account_AppsTotalExtraPages := Account_AppsTotalExtraPages x;
  Account_AppsTotalSchema := Account_AppsTotalSchema x; Account_Assets := Account_Assets x;
  Account_AuthAddr := Account_AuthAddr x; Account_ClosedAtRound := Account_ClosedAtRound x;
  Account_CreatedApps := Account_CreatedApps x;
  Account_CreatedAssets := Account_CreatedAssets x;
  Account_CreatedAtRound := Account_CreatedAtRound x; Account_Deleted := Account_Deleted x;
  Account_IncentiveEligible := Account_IncentiveEligible x;
  Account_LastHeartbeat := Account_LastHeartbeat x;
  Account_LastProposed := Account_LastProposed x; Account_MinBalance := v;
  Account_Participation := Account_Participation x;
  Account_PendingRewards := Account_PendingRewards x;
  Account_RewardBase := Account_RewardBase x; Account_Rewards := Account_Rewards x;
  Account_Round := Account_Round x; Account_SigType := Account_SigType x;
  Account_Status := Account_Status x; Account_TotalAppsOptedIn := Account_TotalAppsOptedIn x;
  Account_TotalAssetsOptedIn := Account_TotalAssetsOptedIn x;
  Account_TotalBoxBytes := Account_TotalBoxBytes x; Account_TotalBoxes := Account_TotalBoxes x;
  Account_TotalCreatedApps := Account_TotalCreatedApps x;
  Account_TotalCreatedAssets := Account_TotalCreatedAssets x |}.

Definition set_Account_PendingRewards (x : Account) (v : Z) : Account := {|
  Account_Address := Account_Address x; Account_Amount := Account_Amount x;
  Account_AmountWithoutPendingRewards := Account_AmountWithoutPendingRewards x;
  Account_AppsLocalState := Account_AppsLocalState x;
  Account_AppsTotalExtraPages := Account_AppsTotalExtraPages x;
  Account_AppsTotalSchema := Account_AppsTotalSchema x; Account_Assets := Account_Assets x;
  Account_AuthAddr := Account_AuthAddr x; Account_ClosedAtRound := Account_ClosedAtRound x;
  Account_CreatedApps := Account_CreatedApps x;
  Account_CreatedAssets := Account_CreatedAssets x;
  Account_CreatedAtRound := Account_CreatedAtRound x; Account_Deleted := Account_Deleted x;
  Account_IncentiveEligible := Account_IncentiveEligible x;
  Account_LastHeartbeat := Account_LastHeartbeat x;
  Account_LastProposed := Account_LastProposed x; Account_MinBalance := Account_MinBalance x;
  Account_Participation := Account_Participation x; Account_PendingRewards := v;
  Account_RewardBase := Account_RewardBase x; Account_Rewards := Account_Rewards x;
  Account_Round := Account_Round x; Account_SigType := Account_SigType x;
  Account_Status := Account_Status x; Account_TotalAppsOptedIn := Account_TotalAppsOptedIn x;
  Account_TotalAssetsOptedIn := Account_TotalAssetsOptedIn x;
  Account_TotalBoxBytes := Account_TotalBoxBytes x; Account_TotalBoxes := Account_TotalBoxes x;
  Account_TotalCreatedApps := Account_TotalCreatedApps x;
  Account_TotalCreatedAssets := Account_TotalCreatedAssets x |}.

Definition set_Account_Round (x : Account) (v : Z) : Account := {|
  Account_Address := Account_Address x; Account_Amount := Account_Amount x;
  Account_AmountWithoutPendingRewards := Account_AmountWithoutPendingRewards x;
  Account_AppsLocalState := Account_AppsLocalState x;
  Account_AppsTotalExtraPages := Account_AppsTotalExtraPages x;
  Account_AppsTotalSchema := Account_AppsTotalSchema x; Account_Assets := Account_Assets x;
  Account_AuthAddr := Account_AuthAddr x; Account_ClosedAtRound := Account_ClosedAtRound x;
  Account_CreatedApps := Account_CreatedApps x;
  Account_CreatedAssets := Account_CreatedAssets x;
  Account_CreatedAtRound := Account_CreatedAtRound x; Account_Deleted := Account_Deleted x;
  Account_IncentiveEligible := Account_IncentiveEligible x;
  Account_LastHeartbeat := Account_LastHeartbeat x;
  Account_LastProposed := Account_LastProposed x; Account_MinBalance := Account_MinBalance x;
  Account_Participation := Account_Participation x;
  Account_PendingRewards := Account_PendingRewards x;
  Account_RewardBase := Account_RewardBase x; Account_Rewards := Account_Rewards x;
  Account_Round := v; Account_SigType := Account_SigType x; Account_Status := Account_Status x;
  Account_TotalAppsOptedIn := Account_TotalAppsOptedIn x;
  Account_TotalAssetsOptedIn := Account_TotalAssetsOptedIn x;
  Account_TotalBoxBytes := Account_TotalBoxBytes x; Account_TotalBoxes := Account_TotalBoxes x;
  Account_TotalCreatedApps := Account_TotalCreatedApps x;
  Account_TotalCreatedAssets := Account_TotalCreatedAssets x |}.

Definition set_Account_Assets (x : Account) (v : option (list AssetHolding)) : Account := {|
  Account_Address := Account_Address x; Account_Amount := Account_Amount x;
  Account_AmountWithoutPendingRewards := Account_AmountWithoutPendingRewards x;
  Account_AppsLocalState := Account_AppsLocalState x;
  Account_AppsTotalExtraPages := Account_AppsTotalExtraPages x;
  Account_AppsTotalSchema := Account_AppsTotalSchema x; Account_Assets := v;
  Account_AuthAddr := Account_AuthAddr x; Account_ClosedAtRound := Account_ClosedAtRound x;
  Account_CreatedApps := Account_CreatedApps x;
  Account_CreatedAssets := Account_CreatedAssets x;
  Account_CreatedAtRound := Account_CreatedAtRound x; Account_Deleted := Account_Deleted x;
  Account_IncentiveEligible := Account_IncentiveEligible x;
  Account_LastHeartbeat := Account_LastHeartbeat x;
  Account_LastProposed := Account_LastProposed x; Account_MinBalance := Account_MinBalance x;
  Account_Participation := Account_Participation x;
  Account_PendingRewards := Account_PendingRewards x;
  Account_RewardBase := Account_RewardBase x; Account_Rewards := Account_Rewards x;
  Account_Round := Account_Round x; Account_SigType := Account_SigType x;
  Account_Status := Account_Status x; Account_TotalAppsOptedIn := Account_TotalAppsOptedIn x;
  Account_TotalAssetsOptedIn := Account_TotalAssetsOptedIn x;
  Account_TotalBoxBytes := Account_TotalBoxBytes x; Account_TotalBoxes := Account_TotalBoxes x;
  Account_TotalCreatedApps := Account_TotalCreatedApps x;
  Account_TotalCreatedAssets := Account_TotalCreatedAssets x |}.

Definition set_Account_Rewards (x : Account) (v : Z) : Account := {|
  Account_Address := Account_Address x; Account_Amount := Account_Amount x;
  Account_AmountWithoutPendingRewards := Account_AmountWithoutPendingRewards x;
  Account_AppsLocalState := Account_AppsLocalState x;
  Account_AppsTotalExtraPages := Account_AppsTotalExtraPages x;
  Account_AppsTotalSchema := Account_AppsTotalSchema x; Account_Assets := Account_Assets x;
  Account_AuthAddr := Account_AuthAddr x; Account_ClosedAtRound := Account_ClosedAtRound x;
  Account_CreatedApps := Account_CreatedApps x;
  Account_CreatedAssets := Account_CreatedAssets x;
  Account_CreatedAtRound := Account_CreatedAtRound x; Account_Deleted := Account_Deleted x;
  Account_IncentiveEligible := Account_IncentiveEligible x;
  Account_LastHeartbeat := Account_LastHeartbeat x;
  Account_LastProposed := Account_LastProposed x; Account_MinBalance := Account_MinBalance x;
  Account_Participation := Account_Participation x;
  Account_PendingRewards := Account_PendingRewards x;
  Account_RewardBase := Account_RewardBase x; Account_Rewards := v;
  Account_Round := Account_Round x; Account_SigType := Account_SigType x;
  Account_Status := Account_Status x; Account_TotalAppsOptedIn := Account_TotalAppsOptedIn x;
  Account_TotalAssetsOptedIn := Account_TotalAssetsOptedIn x;
  Account_TotalBoxBytes := Account_TotalBoxBytes x; Account_TotalBoxes := Account_TotalBoxes x;
  Account_TotalCreatedApps := Account_TotalCreatedApps x;
  Account_TotalCreatedAssets := Account_TotalCreatedAssets x |}.

Definition set_AssetHolding_Amount (x : AssetHolding) (v : Z) : AssetHolding := {|
  AssetHolding_Amount := v; AssetHolding_AssetId := AssetHolding_AssetId x;
  AssetHolding_Deleted := AssetHolding_Deleted x;
  AssetHolding_IsFrozen := AssetHolding_IsFrozen x;
  AssetHolding_OptedInAtRound := AssetHolding_OptedInAtRound x;
  AssetHolding_OptedOutAtRound := AssetHolding_OptedOutAtRound x |}.

Definition set_Box_Round (x : Box) (v : Z) : Box := {|
  Box_Name := Box_Name x; Box_Round := v; Box_Value := Box_Value x |}.

Definition set_Transaction_Id (x : Transaction) (v : option string) : Transaction := {|
  Transaction_ApplicationTransaction := Transaction_ApplicationTransaction x;
  Transaction_AssetConfigTransaction := Transaction_AssetConfigTransaction x;
  Transaction_AssetFreezeTransaction := Transaction_AssetFreezeTransaction x;
  Transaction_AssetTransferTransaction := Transaction_AssetTransferTransaction x;
  Transaction_AuthAddr := Transaction_AuthAddr x;
  Transaction_CloseRewards := Transaction_CloseRewards x;
  Transaction_ClosingAmount := Transaction_ClosingAmount x;
  Transaction_ConfirmedRound := Transaction_ConfirmedRound x;
  Transaction_CreatedApplicationIndex := Transaction_CreatedApplicationIndex x;
  Transaction_CreatedAssetIndex := Transaction_CreatedAssetIndex x;
  Transaction_Fee := Transaction_Fee x; Transaction_FirstValid := Transaction_FirstValid x;
  Transaction_GenesisHash := Transaction_GenesisHash x;
  Transaction_GenesisId := Transaction_GenesisId x;
  Transaction_GlobalStateDelta := Transaction_GlobalStateDelta x;
  Transaction_Group := Transaction_Group x;
  Transaction_HeartbeatTransaction := Transaction_HeartbeatTransaction x; Transaction_Id := v;
  Transaction_InnerTxns := Transaction_InnerTxns x;
  Transaction_IntraRoundOffset := Transaction_IntraRoundOffset x;
  Transaction_KeyregTransaction := Transaction_KeyregTransaction x;
  Transaction_LastValid := Transaction_LastValid x; Transaction_Lease := Transaction_Lease x;
  Transaction_LocalStateDelta := Transaction_LocalStateDelta x;
  Transaction_Logs := Transaction_Logs x; Transaction_Note := Transaction_Note x;
  Transaction_PaymentTransaction := Transaction_PaymentTransaction x;
  Transaction_ReceiverRewards := Transaction_ReceiverRewards x;
  Transaction_RekeyTo := Transaction_RekeyTo x;
  Transaction_RoundTime := Transaction_RoundTime x; Transaction_Sender := Transaction_Sender x;
  Transaction_SenderRewards := Transaction_SenderRewards x;
  Transaction_Signature := Transaction_Signature x;
  Transaction_StateProofTransaction := Transaction_StateProofTransaction x;
  Transaction_TxType := Transaction_TxType x |}.

Definition set_Transaction_Signature (x : Transaction) (v : option TransactionSignature) : Transaction := {|
  Transaction_ApplicationTransaction := Transaction_ApplicationTransaction x;
  Transaction_AssetConfigTransaction := Transaction_AssetConfigTransaction x;
  Transaction_AssetFreezeTransaction := Transaction_AssetFreezeTransaction x;
  Transaction_AssetTransferTransaction := Transaction_AssetTransferTransaction x;
  Transaction_AuthAddr := Transaction_AuthAddr x;
  Transaction_CloseRewards := Transaction_CloseRewards x;
  Transaction_ClosingAmount := Transaction_ClosingAmount x;
  Transaction_ConfirmedRound := Transaction_ConfirmedRound x;
  Transaction_CreatedApplicationIndex := Transaction_CreatedApplicationIndex x;
  Transaction_CreatedAssetIndex := Transaction_CreatedAssetIndex x;
  Transaction_Fee := Transaction_Fee x; Transaction_FirstValid := Transaction_FirstValid x;
  Transaction_GenesisHash := Transaction_GenesisHash x;
  Transaction_GenesisId := Transaction_GenesisId x;
  Transaction_GlobalStateDelta := Transaction_GlobalStateDelta x;
  Transaction_Group := Transaction_Group x;
  Transaction_HeartbeatTransaction := Transaction_HeartbeatTransaction x;
  Transaction_Id := Transaction_Id x; Transaction_InnerTxns := Transaction_InnerTxns x;
  Transaction_IntraRoundOffset := Transaction_IntraRoundOffset x;
  Transaction_KeyregTransaction := Transaction_KeyregTransaction x;
  Transaction_LastValid := Transaction_LastValid x; Transaction_Lease := Transaction_Lease x;
  Transaction_LocalStateDelta := Transaction_LocalStateDelta x;
  Transaction_Logs := Transaction_Logs x; Transaction_Note := Transaction_Note x;
  Transaction_PaymentTransaction := Transaction_PaymentTransaction x;
  Transaction_ReceiverRewards := Transaction_ReceiverRewards x;
  Transaction_RekeyTo := Transaction_RekeyTo x;
  Transaction_RoundTime := Transaction_RoundTime x; Transaction_Sender := Transaction_Sender x;
  Transaction_SenderRewards := Transaction_SenderRewards x; Transaction_Signature := v;
  Transaction_StateProofTransaction := Transaction_StateProofTransaction x;
  Transaction_TxType := Transaction_TxType x |}.

Definition set_Block_Transactions (x : Block) (v : option (list Transaction)) : Block := {|
  Block_Bonus := Block_Bonus x; Block_FeesCollected := Block_FeesCollected x;
  Block_GenesisHash := Block_GenesisHash x; Block_GenesisId := Block_GenesisId x;
  Block_ParticipationUpdates := Block_ParticipationUpdates x;
  Block_PreviousBlockHash := Block_PreviousBlockHash x;
  Block_PreviousBlockHash512 := Block_PreviousBlockHash512 x;
  Block_Proposer := Block_Proposer x; Block_ProposerPayout := Block_ProposerPayout x;
  Block_Rewards := Block_Rewards x; Block_Round := Block_Round x; Block_Seed := Block_Seed x;
  Block_StateProofTracking := Block_StateProofTracking x; Block_Timestamp := Block_Timestamp x;
  Block_Transactions := v; Block_TransactionsRoot := Block_TransactionsRoot x;
  Block_TransactionsRootSha256 := Block_TransactionsRootSha256 x;
  Block_TransactionsRootSha512 := Block_TransactionsRootSha512 x;
  Block_TxnCounter := Block_TxnCounter x; Block_UpgradeState := Block_UpgradeState x;
  Block_UpgradeVote := Block_UpgradeVote x |}.

(** ** Zero values *)

Definition zero_ApplicationStateSchema : ApplicationStateSchema := {|
  ApplicationStateSchema_NumByteSlice := 0; ApplicationStateSchema_NumUint := 0 |}.

Definition zero_ApplicationParams : ApplicationParams := {|
  ApplicationParams_ApprovalProgram := None; ApplicationParams_ClearStateProgram := None;
  ApplicationParams_Creator := None; ApplicationParams_ExtraProgramPages := None;
  ApplicationParams_GlobalState := None; ApplicationParams_GlobalStateSchema := None;
  ApplicationParams_LocalStateSchema := None; ApplicationParams_Version := None |}.

Definition zero_Application : Application := {|
  Application_CreatedAtRound := None; Application_Deleted := None;
  Application_DeletedAtRound := None; Application_Id := 0;
  Application_Params := zero_ApplicationParams |}.

Definition zero_ApplicationLocalState : ApplicationLocalState := {|
  ApplicationLocalState_ClosedOutAtRound := None; ApplicationLocalState_Deleted := None;
  ApplicationLocalState_Id := 0; ApplicationLocalState_KeyValue := None;
  ApplicationLocalState_OptedInAtRound := None;
  ApplicationLocalState_Schema := zero_ApplicationStateSchema |}.

Definition zero_AssetHolding : AssetHolding := {|
  AssetHolding_Amount := 0; AssetHolding_AssetId := 0; AssetHolding_Deleted := None;
  AssetHolding_IsFrozen := false; AssetHolding_OptedInAtRound := None;
  AssetHolding_OptedOutAtRound := None |}.

Definition zero_AssetParams : AssetParams := {|
  AssetParams_Clawback := None; AssetParams_Creator := ""; AssetParams_Decimals := 0;
  AssetParams_DefaultFrozen := None; AssetParams_Freeze := None; AssetParams_Manager := None;
  AssetParams_MetadataHash := None; AssetParams_Name := None; AssetParams_NameB64 := None;
  AssetParams_Reserve := None; AssetParams_Total := 0; AssetParams_UnitName := None;
  AssetParams_UnitNameB64 := None; AssetParams_Url := None; AssetParams_UrlB64 := None |}.

Definition zero_Asset : Asset := {|
  Asset_CreatedAtRound := None; Asset_Deleted := None; Asset_DestroyedAtRound := None;
  Asset_Index := 0; Asset_Params := zero_AssetParams |}.

Definition zero_Box : Box := {|
  Box_Name := None; Box_Round := 0; Box_Value := None |}.

Definition zero_Account : Account := {|
  Account_Address := ""; Account_Amount := 0; Account_AmountWithoutPendingRewards := 0;
  Account_AppsLocalState := None; Account_AppsTotalExtraPages := None;
  Account_AppsTotalSchema := None; Account_Assets := None; Account_AuthAddr := None;
  Account_ClosedAtRound := None; Account_CreatedApps := None; Account_CreatedAssets := None;
  Account_CreatedAtRound := None; Account_Deleted := None; Account_IncentiveEligible := None;
  Account_LastHeartbeat := None; Account_LastProposed := None; Account_MinBalance := 0;
  Account_Participation := None; Account_PendingRewards := 0; Account_RewardBase := None;
  Account_Rewards := 0; Account_Round := 0; Account_SigType := None; Account_Status := "";
  Account_TotalAppsOptedIn := 0; Account_TotalAssetsOptedIn := 0; Account_TotalBoxBytes := 0;
  Account_TotalBoxes := 0; Account_TotalCreatedApps := 0; Account_TotalCreatedAssets := 0 |}.

Definition zero_SearchForTransactionsParams : SearchForTransactionsParams := {|
  SearchForTransactionsParams_Limit := None; SearchForTransactionsParams_Next := None;
  SearchForTransactionsParams_NotePrefix := None; SearchForTransactionsParams_TxType := None;
  SearchForTransactionsParams_SigType := None; SearchForTransactionsParams_GroupId := None;
  SearchForTransactionsParams_Txid := None; SearchForTransactionsParams_Round := None;
  SearchForTransactionsParams_MinRound := None; SearchForTransactionsParams_MaxRound := None;
  SearchForTransactionsParams_AssetId := None; SearchForTransactionsParams_BeforeTime := None;
  SearchForTransactionsParams_AfterTime := None;
  SearchForTransactionsParams_CurrencyGreaterThan := None;
  SearchForTransactionsParams_CurrencyLessThan := None;
  SearchForTransactionsParams_Address := None; SearchForTransactionsParams_AddressRole := None;
  SearchForTransactionsParams_ExcludeCloseTo := None;
  SearchForTransactionsParams_RekeyTo := None;
  SearchForTransactionsParams_ApplicationId := None |}.

Definition zero_SearchForApplicationsParams : SearchForApplicationsParams := {|
  SearchForApplicationsParams_ApplicationId := None;
  SearchForApplicationsParams_Creator := None; SearchForApplicationsParams_IncludeAll := None;
  SearchForApplicationsParams_Limit := None; SearchForApplicationsParams_Next := None |}.

Definition zero_SearchForAssetsParams : SearchForAssetsParams := {|
  SearchForAssetsParams_IncludeAll := None; SearchForAssetsParams_Limit := None;
  SearchForAssetsParams_Next := None; SearchForAssetsParams_Creator := None;
  SearchForAssetsParams_Name := None; SearchForAssetsParams_Unit := None;
  SearchForAssetsParams_AssetId := None |}.

End models.
