(* ===== verification/Util.v ===== *)
(** * Package [util]: [util/util.go]

    Printable strings, and the conversion between the transactions of a block
    (whose genesis fields are elided) and full signed transactions. *)

From Stdlib Require Import Ascii String.
From S2P Require Import Prelude GoStd Sdk Idb.

(** ** Printable UTF-8 strings *)

(** [unicode.IsPrint]: the Unicode tables are an argument. *)
Class UnicodeOps := { IsPrint : Z -> bool }.

Definition RuneError : Z := 0xFFFD.

Definition in_range (lo hi : Z) (b : ascii) : bool := (lo <=? byteZ b) && (byteZ b <=? hi).
Definition cont (b : ascii) : Z := byteZ b mod 64.

(** One step of Go's [for _, c := range s]: the rune and the bytes it takes.
    Overlong forms, surrogates and values above U+10FFFF are decoding errors of
    width one. *)
Definition decode_rune (l : bytes) : Z * nat :=
  match l with
  | [] => (RuneError, 0%nat)
  | a :: l1 =>
      let x := byteZ a in
      if x <? 0x80 then (x, 1%nat)
      else if (0xC2 <=? x) && (x <=? 0xDF) then
        match l1 with
        | b :: _ =>
            if in_range 0x80 0xBF b then ((x mod 32) * 64 + cont b, 2%nat) else (RuneError, 1%nat)
        | _ => (RuneError, 1%nat)
        end
      else if (0xE0 <=? x) && (x <=? 0xEF) then
        match l1 with
        | b :: c :: _ =>
            let lo := if x =? 0xE0 then 0xA0 else 0x80 in
            let hi := if x =? 0xED then 0x9F else 0xBF in
            if in_range lo hi b && in_range 0x80 0xBF c
            then ((x mod 16) * 4096 + cont b * 64 + cont c, 3%nat) else (RuneError, 1%nat)
        | _ => (RuneError, 1%nat)
        end
      else if (0xF0 <=? x) && (x <=? 0xF4) then
        match l1 with
        | b :: c :: d :: _ =>
            let lo := if x =? 0xF0 then 0x90 else 0x80 in
            let hi := if x =? 0xF4 then 0x8F else 0xBF in
            if in_range lo hi b && in_range 0x80 0xBF c && in_range 0x80 0xBF d
            then ((x mod 8) * 262144 + cont b * 4096 + cont c * 64 + cont d, 4%nat)
            else (RuneError, 1%nat)
        | _ => (RuneError, 1%nat)
        end
      else (RuneError, 1%nat)
  end.

(** The runes [range] visits; every step consumes at least one byte, so the
    length of the string bounds their number. *)
Fixpoint runes_fuel (fuel : nat) (l : bytes) : list Z :=
  match fuel, l with
  | O, _ | _, [] => []
  | S fuel, _ => let '(c, w) := decode_rune l in c :: runes_fuel fuel (drop w l)
  end.
Definition runes (s : string) : list Z :=
  runes_fuel (String.length s) (bytes_of_string s).

Definition PrintableUTF8OrEmpty `{UnicodeOps} (s : string) : string :=
  if forallb (λ c, negb ((c =? RuneError) || negb (IsPrint c))) (runes s) then s else "".

(** ** Signed transactions and their in-block form *)

Definition emptyEvalDelta : EvalDeltaT := {|
  ED_GlobalDelta := None; ED_LocalDeltas := None; ED_SharedAccts := []; ED_Logs := None;
  ED_InnerTxns := None |}.
Definition emptyApplyData : ApplyDataT := {|
  AD_ClosingAmount := 0; AD_AssetClosingAmount := 0; AD_SenderRewards := 0;
  AD_ReceiverRewards := 0; AD_CloseRewards := 0; AD_EvalDelta := emptyEvalDelta;
  AD_ConfigAsset := 0; AD_ApplicationID := 0 |}.

Definition set_Header (t : Transaction) (h : Header) : Transaction := {|
  T_Type := T_Type t; T_Header := h; T_Keyreg := T_Keyreg t; T_Payment := T_Payment t;
  T_AssetConfig := T_AssetConfig t; T_AssetTransfer := T_AssetTransfer t;
  T_AssetFreeze := T_AssetFreeze t; T_Application := T_Application t;
  T_StateProof := T_StateProof t; T_Heartbeat := T_Heartbeat t |}.

Definition set_genesis (h : Header) (id : string) (hash : Digest) : Header := {|
  H_Sender := H_Sender h; H_Fee := H_Fee h; H_FirstValid := H_FirstValid h;
  H_LastValid := H_LastValid h; H_Note := H_Note h; H_GenesisID := id; H_GenesisHash := hash;
  H_Group := H_Group h; H_Lease := H_Lease h; H_RekeyTo := H_RekeyTo h |}.

(** [st] with [st.Txn.GenesisID = id] and [st.Txn.GenesisHash = hash]. *)
Definition with_genesis (st : SignedTxn) (id : string) (hash : Digest) : SignedTxn := {|
  ST_Sig := ST_Sig st; ST_Msig := ST_Msig st; ST_Lsig := ST_Lsig st;
  ST_Txn := set_Header (ST_Txn st) (set_genesis (T_Header (ST_Txn st)) id hash);
  ST_AuthAddr := ST_AuthAddr st |}.

Definition GenesisID (st : SignedTxn) : string := H_GenesisID (T_Header (ST_Txn st)).
Definition GenesisHash (st : SignedTxn) : Digest := H_GenesisHash (T_Header (ST_Txn st)).

Definition DecodeSignedTxn `{SdkOps} (bh : BlockHeader) (stb : SignedTxnInBlock)
    : result (SignedTxn * ApplyDataT) :=
  let st := SIB_SignedTxn stb in
  let ad := SIB_ApplyData stb in
  match Consensus (BH_CurrentProtocol bh) with
  | None => Err (ErrMsg "consensus protocol %s not found")
  | Some proto =>
      if negb (CP_SupportSignedTxnInBlock proto) then Ok (st, emptyApplyData)
      else if bool_decide (GenesisID st ≠ "") then Err (ErrMsg "GenesisID <%s> not empty")
      else
        let id := if HasGenesisID stb then BH_GenesisID bh else GenesisID st in
        if bool_decide (GenesisHash st ≠ zeroDigest) then Err (ErrMsg "GenesisHash <%v> not empty")
        else if CP_RequireGenesisHash proto then
          if HasGenesisHash stb then
            Err (ErrMsg "HasGenesisHash set to true but RequireGenesisHash obviates the flag")
          else Ok (with_genesis st id (BH_GenesisHash bh), ad)
        else
          let hash := if HasGenesisHash stb then BH_GenesisHash bh else GenesisHash st in
          Ok (with_genesis st id hash, ad)
  end.

Definition EncodeSignedTxn `{SdkOps} (bh : BlockHeader) (st : SignedTxn) (ad : ApplyDataT)
    : result SignedTxnInBlock :=
  match Consensus (BH_CurrentProtocol bh) with
  | None => Err (ErrMsg "consensus protocol %s not found")
  | Some proto =>
      if negb (CP_SupportSignedTxnInBlock proto) then
        Ok {| SIB_SignedTxnWithAD := StxnAD st emptyApplyData;
              HasGenesisID := false; HasGenesisHash := false |}
      else
        '(id, hasID) ←
          (if bool_decide (GenesisID st ≠ "") then
             if bool_decide (GenesisID st = BH_GenesisID bh) then Ok ("", true)
             else Err (ErrMsg "GenesisID mismatch: %s != %s")
           else Ok (GenesisID st, false));
        '(hash, hasHash) ←
          (if bool_decide (GenesisHash st ≠ zeroDigest) then
             if bool_decide (GenesisHash st = BH_GenesisHash bh) then
               Ok (zeroDigest, negb (CP_RequireGenesisHash proto))
             else Err (ErrMsg "GenesisHash mismatch: %v != %v")
           else if CP_RequireGenesisHash proto then Err (ErrMsg "GenesisHash required but missing")
           else Ok (GenesisHash st, false));
        Ok {| SIB_SignedTxnWithAD := StxnAD (with_genesis st id hash) ad;
              HasGenesisID := hasID; HasGenesisHash := hasHash |}
  end.

(** ** Lemmas *)

Lemma PrintableUTF8OrEmpty_cases `{UnicodeOps} s :
  PrintableUTF8OrEmpty s = s \/ PrintableUTF8OrEmpty s = "".
Proof. unfold PrintableUTF8OrEmpty. destruct (forallb _ _); auto. Qed.

Lemma with_genesis_id st : with_genesis st (GenesisID st) (GenesisHash st) = st.
Proof. by destruct st as [? ? ? [? [] ? ? ? ? ? ? ? ?] ?]. Qed.

Lemma with_genesis_twice st id hash id' hash' :
  with_genesis (with_genesis st id hash) id' hash' = with_genesis st id' hash'.
Proof. done. Qed.

(** Splits every test of a goal or hypothesis about the genesis fields. *)
Ltac genesis_cases :=
  repeat (case_bool_decide || case_match || simplify_eq/= ); try done.

Section Genesis.
Context `{SdkOps}.
Variables (bh : BlockHeader) (proto : ConsensusParams).
Hypothesis Hproto : Consensus (BH_CurrentProtocol bh) = Some proto.
Hypothesis Hsupport : CP_SupportSignedTxnInBlock proto = true.

(** A transaction that can be put in a block is recovered from the block
    unchanged, whatever its genesis fields: [DecodeSignedTxn] inverts
    [EncodeSignedTxn]. *)
Theorem DecodeSignedTxn_EncodeSignedTxn st ad stb :
  EncodeSignedTxn bh st ad = Ok stb -> DecodeSignedTxn bh stb = Ok (st, ad).
Proof using Hproto Hsupport.
  unfold EncodeSignedTxn, DecodeSignedTxn. rewrite Hproto, Hsupport. cbn [negb]. intros He.
  pose proof (with_genesis_id st) as Hid.
  destruct (CP_RequireGenesisHash proto) eqn:?; genesis_cases;
    unfold GenesisID, GenesisHash, SIB_SignedTxn, SIB_ApplyData in *; genesis_cases;
    rewrite ?with_genesis_twice; congruence.
Qed.

(** Conversely, the in-block form is canonical: re-encoding a decoded
    transaction gives back the block's entry, provided the block names its
    genesis. *)
Theorem EncodeSignedTxn_DecodeSignedTxn stb st ad :
  BH_GenesisID bh <> "" -> BH_GenesisHash bh <> zeroDigest ->
  DecodeSignedTxn bh stb = Ok (st, ad) -> EncodeSignedTxn bh st ad = Ok stb.
Proof using Hproto Hsupport.
  intros HID HHash. unfold EncodeSignedTxn, DecodeSignedTxn.
  rewrite Hproto, Hsupport. cbn [negb]. intros Hd.
  destruct stb as [[st0 ad0] hid hh].
  pose proof (with_genesis_id st0) as Hid.
  unfold GenesisID, GenesisHash, SIB_SignedTxn, SIB_ApplyData in *.
  destruct (CP_RequireGenesisHash proto) eqn:?, hid, hh; genesis_cases;
    rewrite ?with_genesis_twice; congruence.
Qed.
End Genesis.

#[local] Existing Instance Sample.sdk.

Definition sample_stib : SignedTxnInBlock :=
  Sample.inBlock (Sample.stxnad (Sample.txn PaymentTx "alice" Sample.payment) []).
Definition sample_stx : SignedTxn :=
  with_genesis (SIB_SignedTxn sample_stib) "sample-v1" "genesis hash".

Lemma DecodeSignedTxn_EncodeSignedTxn_witness :
  DecodeSignedTxn (Sample.blockHeader 5) sample_stib = Ok (sample_stx, Sample.applyData []).
Proof.
  apply (DecodeSignedTxn_EncodeSignedTxn (Sample.blockHeader 5) Sample.params); reflexivity.
Defined.

Lemma EncodeSignedTxn_DecodeSignedTxn_witness :
  EncodeSignedTxn (Sample.blockHeader 5) sample_stx (Sample.applyData []) = Ok sample_stib.
Proof.
  by apply (EncodeSignedTxn_DecodeSignedTxn (Sample.blockHeader 5) Sample.params).
Defined.
