(* ===== verification/Encoding.v ===== *)
(** * Package [encoding]: [idb/postgres/internal/encoding]

    The JSON columns of the database are written through override structs that
    shadow some SDK fields with JSON-friendly ones.  The conversions are
    modelled as they are; the JSON codec (go-codec) is the class [Codec].  A
    struct that embeds an SDK struct and declares a field under the same key
    shadows the embedded one, so a decoded value agrees with the encoded one
    only outside the shadowed fields: that is what the theorems assume of the
    codec ([faithful]), and it leaves the shadowed fields arbitrary.

    A byte slice whose nil-ness the code never looks at is a byte string, nil
    being the empty one. *)

From S2P Require Import Prelude GoStd Sdk Idb Util.

(** ** The JSON codec *)

Class Codec (T : Type) := {
  encodeJSON : T -> string;
  DecodeJSON : string -> result T }.

(** [faithful erase x]: the text written for [x] decodes to a value that equals
    [x] outside the shadowed fields, which [erase] clears. *)
Definition faithful {T} `{Codec T} (erase : T -> T) (x : T) : Prop :=
  exists y, DecodeJSON (encodeJSON x) = Ok y /\ erase y = erase x.

Definition Base64 (data : string) : string := Base64.EncodeToString Base64.std data.
Definition decodeBase64 (data : string) : result string := Base64.DecodeString Base64.std data.

(** ** [types.go] *)

Abbreviation AlgodEncodedAddress := Address (only parsing).

Record blockHeader := {
  bh_BlockHeader : BlockHeader;
  bh_ProposerOverride : AlgodEncodedAddress;
  bh_ExpiredOverride : option (list AlgodEncodedAddress);
  bh_AbsentOverride : option (list AlgodEncodedAddress) }.

Record assetParams := {
  ap_AssetParams : AssetParams;
  ap_UnitNameBytes : string;
  ap_AssetNameBytes : string;
  ap_URLBytes : string }.

Record transaction := {
  tx_Transaction : Transaction;
  tx_AssetParamsOverride : assetParams }.

Record valueDelta := {
  vd_ValueDelta : ValueDelta;
  vd_BytesOverride : string }.

(** [byteArray] wraps the bytes of a map key; its text form is base64. *)
Abbreviation byteArray := string (only parsing).
Definition byteArray_MarshalText (ba : byteArray) : result string := Ok (Base64 ba).
Definition byteArray_UnmarshalText (text : string) : result byteArray := decodeBase64 text.

Abbreviation stateDelta := (option (gmap byteArray valueDelta)) (only parsing).

Record evalDelta (I : Type) := {
  ed_EvalDelta : EvalDeltaT;
  ed_GlobalDeltaOverride : stateDelta;
  ed_LocalDeltasOverride : option (gmap Z stateDelta);
  ed_LogsOverride : option (list string);
  ed_InnerTxnsOverride : option (list I) }.
Arguments Build_evalDelta {_}.
Arguments ed_EvalDelta {_}.
Arguments ed_GlobalDeltaOverride {_}.
Arguments ed_LocalDeltasOverride {_}.
Arguments ed_LogsOverride {_}.
Arguments ed_InnerTxnsOverride {_}.

#[local] Unset Elimination Schemes.
Inductive signedTxnWithAD :=
| stxnAD (st_SignedTxnWithAD : SignedTxnWithAD)
         (st_TxnOverride : transaction)
         (st_EvalDeltaOverride : evalDelta signedTxnWithAD).
#[local] Set Elimination Schemes.

Record tealValue := { tv_TealValue : TealValue; tv_BytesOverride : string }.
Abbreviation tealKeyValue := (option (gmap byteArray tealValue)) (only parsing).

Record appLocalState := {
  als_AppLocalState : AppLocalState; als_KeyValueOverride : tealKeyValue }.
Record appParams := {
  app_AppParams : AppParams; app_GlobalStateOverride : tealKeyValue }.

Record baseAccountData := {
  ba_Status : Z; ba_AuthAddr : Address; ba_IncentiveEligible : bool;
  ba_TotalAppSchema : StateSchema; ba_TotalExtraAppPages : Z;
  ba_TotalAssetParams : Z; ba_TotalAssets : Z; ba_TotalAppParams : Z;
  ba_TotalAppLocalStates : Z; ba_TotalBoxes : Z; ba_TotalBoxBytes : Z;
  ba_LastProposed : Round; ba_LastHeartbeat : Round;
  ba_VoteID : string; ba_SelectionID : string; ba_StateProofID : string;
  ba_VoteFirstValid : Round; ba_VoteLastValid : Round; ba_VoteKeyDilution : Z }.

Record trimmedAccountData := {
  ta_base : baseAccountData; ta_MicroAlgos : Z; ta_RewardsBase : Z;
  ta_RewardedMicroAlgos : Z }.

(** ** Block headers *)

Definition convertExpiredAccounts (accounts : option (list Address))
    : option (list AlgodEncodedAddress) :=
  match slice accounts with [] => None | l => Some l end.

Definition unconvertExpiredAccounts (accounts : option (list AlgodEncodedAddress))
    : option (list Address) :=
  match slice accounts with [] => None | l => Some l end.

Definition convertBlockHeader (header : BlockHeader) : blockHeader := {|
  bh_BlockHeader := header;
  bh_ProposerOverride := BH_Proposer header;
  bh_ExpiredOverride := convertExpiredAccounts (BH_ExpiredParticipationAccounts header);
  bh_AbsentOverride := convertExpiredAccounts (BH_AbsentParticipationAccounts header) |}.

(** [header] with its proposer and participation updates replaced. *)
Definition set_overrides (h : BlockHeader) (prp : Address)
    (expired absent : option (list Address)) : BlockHeader := {|
  BH_Round := BH_Round h; BH_Branch := BH_Branch h; BH_Branch512 := BH_Branch512 h;
  BH_Seed := BH_Seed h; BH_NativeSha512_256Commitment := BH_NativeSha512_256Commitment h;
  BH_Sha256Commitment := BH_Sha256Commitment h; BH_Sha512Commitment := BH_Sha512Commitment h;
  BH_TimeStamp := BH_TimeStamp h; BH_GenesisID := BH_GenesisID h;
  BH_GenesisHash := BH_GenesisHash h; BH_Proposer := prp; BH_FeesCollected := BH_FeesCollected h;
  BH_Bonus := BH_Bonus h; BH_ProposerPayout := BH_ProposerPayout h; BH_FeeSink := BH_FeeSink h;
  BH_RewardsPool := BH_RewardsPool h; BH_RewardsLevel := BH_RewardsLevel h;
  BH_RewardsRate := BH_RewardsRate h; BH_RewardsResidue := BH_RewardsResidue h;
  BH_RewardsRecalculationRound := BH_RewardsRecalculationRound h;
  BH_CurrentProtocol := BH_CurrentProtocol h; BH_NextProtocol := BH_NextProtocol h;
  BH_NextProtocolApprovals := BH_NextProtocolApprovals h;
  BH_NextProtocolSwitchOn := BH_NextProtocolSwitchOn h;
  BH_NextProtocolVoteBefore := BH_NextProtocolVoteBefore h;
  BH_UpgradePropose := BH_UpgradePropose h; BH_UpgradeDelay := BH_UpgradeDelay h;
  BH_UpgradeApprove := BH_UpgradeApprove h; BH_TxnCounter := BH_TxnCounter h;
  BH_StateProofTracking := BH_StateProofTracking h;
  BH_ExpiredParticipationAccounts := expired; BH_AbsentParticipationAccounts := absent |}.

Definition unconvertBlockHeader (header : blockHeader) : BlockHeader :=
  set_overrides (bh_BlockHeader header) (bh_ProposerOverride header)
    (unconvertExpiredAccounts (bh_ExpiredOverride header))
    (unconvertExpiredAccounts (bh_AbsentOverride header)).

Definition EncodeBlockHeader `{Codec blockHeader} (header : BlockHeader) : string :=
  encodeJSON (convertBlockHeader header).

Definition DecodeBlockHeader `{Codec blockHeader} (data : string) : result BlockHeader :=
  header ← DecodeJSON data;
  Ok (unconvertBlockHeader header).

(** ** Asset parameters *)

(** [a.AssetParams] with the three strings replaced. *)
Definition set_names (p : AssetParams) (unit name url : string) : AssetParams := {|
  AP_Total := AP_Total p; AP_Decimals := AP_Decimals p; AP_DefaultFrozen := AP_DefaultFrozen p;
  AP_UnitName := unit; AP_AssetName := name; AP_URL := url;
  AP_MetadataHash := AP_MetadataHash p; AP_Manager := AP_Manager p; AP_Reserve := AP_Reserve p;
  AP_Freeze := AP_Freeze p; AP_Clawback := AP_Clawback p |}.

(** If the string is printable, the encoded version is not stored. *)
Definition unless_printable (printable raw : string) : string :=
  if bool_decide (printable ≠ "") then "" else raw.

Section Convert.
Context `{UnicodeOps}.

Definition convertAssetParams (params : AssetParams) : assetParams :=
  let name := PrintableUTF8OrEmpty (AP_AssetName params) in
  let unit := PrintableUTF8OrEmpty (AP_UnitName params) in
  let url := PrintableUTF8OrEmpty (AP_URL params) in
  {| ap_AssetParams := set_names params unit name url;
     ap_UnitNameBytes := unless_printable unit (AP_UnitName params);
     ap_AssetNameBytes := unless_printable name (AP_AssetName params);
     ap_URLBytes := unless_printable url (AP_URL params) |}.

Definition or_bytes (s b : string) : string :=
  if bool_decide (s = "") then b else s.

Definition unconvertAssetParams (params : assetParams) : AssetParams :=
  let res := ap_AssetParams params in
  set_names res (or_bytes (AP_UnitName res) (ap_UnitNameBytes params))
    (or_bytes (AP_AssetName res) (ap_AssetNameBytes params))
    (or_bytes (AP_URL res) (ap_URLBytes params)).

Definition EncodeAssetParams `{Codec assetParams} (params : AssetParams) : string :=
  encodeJSON (convertAssetParams params).

Definition DecodeAssetParams `{Codec assetParams} (data : string) : result AssetParams :=
  params ← DecodeJSON data;
  Ok (unconvertAssetParams params).

(** ** Transactions *)

Definition convertTransaction (txn : Transaction) : transaction := {|
  tx_Transaction := txn;
  tx_AssetParamsOverride := convertAssetParams (AssetParams_of txn) |}.

Definition set_AssetParams (t : Transaction) (p : AssetParams) : Transaction := {|
  T_Type := T_Type t; T_Header := T_Header t; T_Keyreg := T_Keyreg t; T_Payment := T_Payment t;
  T_AssetConfig := {| C_ConfigAsset := C_ConfigAsset (T_AssetConfig t); C_AssetParams := p |};
  T_AssetTransfer := T_AssetTransfer t; T_AssetFreeze := T_AssetFreeze t;
  T_Application := T_Application t; T_StateProof := T_StateProof t;
  T_Heartbeat := T_Heartbeat t |}.

Definition unconvertTransaction (txn : transaction) : Transaction :=
  set_AssetParams (tx_Transaction txn) (unconvertAssetParams (tx_AssetParamsOverride txn)).

(** ** State deltas *)

Definition convertValueDelta (delta : ValueDelta) : valueDelta := {|
  vd_ValueDelta := delta; vd_BytesOverride := VD_Bytes delta |}.

Definition unconvertValueDelta (delta : valueDelta) : ValueDelta := {|
  VD_Action := VD_Action (vd_ValueDelta delta); VD_Bytes := vd_BytesOverride delta;
  VD_Uint := VD_Uint (vd_ValueDelta delta) |}.

Definition convertStateDelta (delta : StateDelta) : stateDelta :=
  fmap (M := gmap string) convertValueDelta <$> delta.
Definition unconvertStateDelta (delta : stateDelta) : StateDelta :=
  fmap (M := gmap string) unconvertValueDelta <$> delta.

Definition convertLocalDeltas (deltas : option (gmap Z StateDelta)) : option (gmap Z stateDelta) :=
  fmap (M := gmap Z) convertStateDelta <$> deltas.
Definition unconvertLocalDeltas (deltas : option (gmap Z stateDelta)) : option (gmap Z StateDelta) :=
  fmap (M := gmap Z) unconvertStateDelta <$> deltas.

Definition convertLogs (logs : option (list string)) : option (list string) := logs.
Definition unconvertLogs (logs : option (list string)) : option (list string) := logs.

(** ** Signed transactions, through the tree of inner transactions *)

(** The conversion of one transaction is an argument of the conversions of its
    inner transactions and of its evaluation delta; the fixpoint below ties the
    knot. *)
Definition convertInnerTxns (convert : SignedTxnWithAD -> signedTxnWithAD)
    (innerTxns : option (list SignedTxnWithAD)) : option (list signedTxnWithAD) :=
  match innerTxns with None => None | Some l => Some (map convert l) end.

Definition unconvertInnerTxns (unconvert : signedTxnWithAD -> SignedTxnWithAD)
    (innerTxns : option (list signedTxnWithAD)) : option (list SignedTxnWithAD) :=
  match innerTxns with None => None | Some l => Some (map unconvert l) end.

Definition convertEvalDelta (convert : SignedTxnWithAD -> signedTxnWithAD) (delta : EvalDeltaT)
    : evalDelta signedTxnWithAD := {|
  ed_EvalDelta := delta;
  ed_GlobalDeltaOverride := convertStateDelta (ED_GlobalDelta delta);
  ed_LocalDeltasOverride := convertLocalDeltas (ED_LocalDeltas delta);
  ed_LogsOverride := convertLogs (ED_Logs delta);
  ed_InnerTxnsOverride := convertInnerTxns convert (ED_InnerTxns delta) |}.

Fixpoint convertSignedTxnWithAD (stxn : SignedTxnWithAD) : signedTxnWithAD :=
  match stxn with
  | StxnAD st ad =>
      stxnAD stxn (convertTransaction (ST_Txn st))
        (convertEvalDelta convertSignedTxnWithAD (AD_EvalDelta ad))
  end.

Definition unconvertEvalDelta (unconvert : signedTxnWithAD -> SignedTxnWithAD)
    (delta : evalDelta signedTxnWithAD) : EvalDeltaT := {|
  ED_GlobalDelta := unconvertStateDelta (ed_GlobalDeltaOverride delta);
  ED_LocalDeltas := unconvertLocalDeltas (ed_LocalDeltasOverride delta);
  ED_SharedAccts := ED_SharedAccts (ed_EvalDelta delta);
  ED_Logs := unconvertLogs (ed_LogsOverride delta);
  ED_InnerTxns := unconvertInnerTxns unconvert (ed_InnerTxnsOverride delta) |}.

Definition set_Txn (st : SignedTxn) (t : Transaction) : SignedTxn := {|
  ST_Sig := ST_Sig st; ST_Msig := ST_Msig st; ST_Lsig := ST_Lsig st; ST_Txn := t;
  ST_AuthAddr := ST_AuthAddr st |}.

Definition set_EvalDelta (ad : ApplyDataT) (ed : EvalDeltaT) : ApplyDataT := {|
  AD_ClosingAmount := AD_ClosingAmount ad; AD_AssetClosingAmount := AD_AssetClosingAmount ad;
  AD_SenderRewards := AD_SenderRewards ad; AD_ReceiverRewards := AD_ReceiverRewards ad;
  AD_CloseRewards := AD_CloseRewards ad; AD_EvalDelta := ed;
  AD_ConfigAsset := AD_ConfigAsset ad; AD_ApplicationID := AD_ApplicationID ad |}.

Fixpoint unconvertSignedTxnWithAD (stxn : signedTxnWithAD) : SignedTxnWithAD :=
  match stxn with
  | stxnAD base txn ed =>
      StxnAD (set_Txn (STAD_SignedTxn base) (unconvertTransaction txn))
             (set_EvalDelta (STAD_ApplyData base) (unconvertEvalDelta unconvertSignedTxnWithAD ed))
  end.

Definition EncodeSignedTxnWithAD `{Codec signedTxnWithAD} (stxn : SignedTxnWithAD) : string :=
  encodeJSON (convertSignedTxnWithAD stxn).

Definition DecodeSignedTxnWithAD `{Codec signedTxnWithAD} (data : string) : result SignedTxnWithAD :=
  stxn ← DecodeJSON data;
  Ok (unconvertSignedTxnWithAD stxn).

End Convert.

(** ** Account data *)

Definition unconvertTrimmedAccountData (ad : trimmedAccountData) : AccountData :=
  let b := ta_base ad in {|
  ACD_Status := ba_Status b; ACD_MicroAlgos := ta_MicroAlgos ad;
  ACD_RewardsBase := ta_RewardsBase ad; ACD_RewardedMicroAlgos := ta_RewardedMicroAlgos ad;
  ACD_AuthAddr := ba_AuthAddr b; ACD_IncentiveEligible := ba_IncentiveEligible b;
  ACD_TotalAppSchema := ba_TotalAppSchema b; ACD_TotalExtraAppPages := ba_TotalExtraAppPages b;
  ACD_TotalAppParams := ba_TotalAppParams b;
  ACD_TotalAppLocalStates := ba_TotalAppLocalStates b;
  ACD_TotalAssetParams := ba_TotalAssetParams b; ACD_TotalAssets := ba_TotalAssets b;
  ACD_TotalBoxes := ba_TotalBoxes b; ACD_TotalBoxBytes := ba_TotalBoxBytes b;
  ACD_LastProposed := ba_LastProposed b; ACD_LastHeartbeat := ba_LastHeartbeat b;
  ACD_VoteID := ba_VoteID b; ACD_SelectionID := ba_SelectionID b;
  ACD_StateProofID := ba_StateProofID b; ACD_VoteFirstValid := ba_VoteFirstValid b;
  ACD_VoteLastValid := ba_VoteLastValid b; ACD_VoteKeyDilution := ba_VoteKeyDilution b |}.

Definition DecodeTrimmedAccountData `{Codec trimmedAccountData} (data : string)
    : result AccountData :=
  ado ← DecodeJSON data;
  Ok (unconvertTrimmedAccountData ado).

Definition TrimLcAccountData (ad : AccountData) : AccountData := {|
  ACD_Status := ACD_Status ad; ACD_MicroAlgos := 0; ACD_RewardsBase := 0;
  ACD_RewardedMicroAlgos := 0;
  ACD_AuthAddr := ACD_AuthAddr ad; ACD_IncentiveEligible := ACD_IncentiveEligible ad;
  ACD_TotalAppSchema := ACD_TotalAppSchema ad;
  ACD_TotalExtraAppPages := ACD_TotalExtraAppPages ad;
  ACD_TotalAppParams := ACD_TotalAppParams ad;
  ACD_TotalAppLocalStates := ACD_TotalAppLocalStates ad;
  ACD_TotalAssetParams := ACD_TotalAssetParams ad; ACD_TotalAssets := ACD_TotalAssets ad;
  ACD_TotalBoxes := ACD_TotalBoxes ad; ACD_TotalBoxBytes := ACD_TotalBoxBytes ad;
  ACD_LastProposed := ACD_LastProposed ad; ACD_LastHeartbeat := ACD_LastHeartbeat ad;
  ACD_VoteID := ACD_VoteID ad; ACD_SelectionID := ACD_SelectionID ad;
  ACD_StateProofID := ACD_StateProofID ad; ACD_VoteFirstValid := ACD_VoteFirstValid ad;
  ACD_VoteLastValid := ACD_VoteLastValid ad; ACD_VoteKeyDilution := ACD_VoteKeyDilution ad |}.

Definition convertTrimmedLcAccountData (ad : AccountData) : baseAccountData := {|
  ba_Status := ACD_Status ad; ba_AuthAddr := ACD_AuthAddr ad;
  ba_IncentiveEligible := ACD_IncentiveEligible ad;
  ba_TotalAppSchema := ACD_TotalAppSchema ad;
  ba_TotalExtraAppPages := ACD_TotalExtraAppPages ad;
  ba_TotalAssetParams := ACD_TotalAssetParams ad; ba_TotalAssets := ACD_TotalAssets ad;
  ba_TotalAppParams := ACD_TotalAppParams ad;
  ba_TotalAppLocalStates := ACD_TotalAppLocalStates ad;
  ba_TotalBoxes := ACD_TotalBoxes ad; ba_TotalBoxBytes := ACD_TotalBoxBytes ad;
  ba_LastProposed := ACD_LastProposed ad; ba_LastHeartbeat := ACD_LastHeartbeat ad;
  ba_VoteID := ACD_VoteID ad; ba_SelectionID := ACD_SelectionID ad;
  ba_StateProofID := ACD_StateProofID ad; ba_VoteFirstValid := ACD_VoteFirstValid ad;
  ba_VoteLastValid := ACD_VoteLastValid ad; ba_VoteKeyDilution := ACD_VoteKeyDilution ad |}.

Definition unconvertTrimmedLcAccountData (ba : baseAccountData) : AccountData := {|
  ACD_Status := ba_Status ba; ACD_MicroAlgos := 0; ACD_RewardsBase := 0;
  ACD_RewardedMicroAlgos := 0;
  ACD_AuthAddr := ba_AuthAddr ba; ACD_IncentiveEligible := ba_IncentiveEligible ba;
  ACD_TotalAppSchema := ba_TotalAppSchema ba; ACD_TotalExtraAppPages := ba_TotalExtraAppPages ba;
  ACD_TotalAppParams := ba_TotalAppParams ba;
  ACD_TotalAppLocalStates := ba_TotalAppLocalStates ba;
  ACD_TotalAssetParams := ba_TotalAssetParams ba; ACD_TotalAssets := ba_TotalAssets ba;
  ACD_TotalBoxes := ba_TotalBoxes ba; ACD_TotalBoxBytes := ba_TotalBoxBytes ba;
  ACD_LastProposed := ba_LastProposed ba; ACD_LastHeartbeat := ba_LastHeartbeat ba;
  ACD_VoteID := ba_VoteID ba; ACD_SelectionID := ba_SelectionID ba;
  ACD_StateProofID := ba_StateProofID ba; ACD_VoteFirstValid := ba_VoteFirstValid ba;
  ACD_VoteLastValid := ba_VoteLastValid ba; ACD_VoteKeyDilution := ba_VoteKeyDilution ba |}.

Definition EncodeTrimmedLcAccountData `{Codec baseAccountData} (ad : AccountData) : string :=
  encodeJSON (convertTrimmedLcAccountData ad).

Definition DecodeTrimmedLcAccountData `{Codec baseAccountData} (data : string)
    : result AccountData :=
  ba ← DecodeJSON data;
  Ok (unconvertTrimmedLcAccountData ba).

(** ** Application state *)

Definition convertTealValue (tv : TealValue) : tealValue := {|
  tv_TealValue := tv; tv_BytesOverride := TV_Bytes tv |}.
Definition unconvertTealValue (tv : tealValue) : TealValue := {|
  TV_Type := TV_Type (tv_TealValue tv); TV_Bytes := tv_BytesOverride tv;
  TV_Uint := TV_Uint (tv_TealValue tv) |}.

Definition convertTealKeyValue (tkv : TealKeyValue) : tealKeyValue :=
  fmap (M := gmap string) convertTealValue <$> tkv.
Definition unconvertTealKeyValue (tkv : tealKeyValue) : TealKeyValue :=
  fmap (M := gmap string) unconvertTealValue <$> tkv.

Definition convertAppLocalState (state : AppLocalState) : appLocalState := {|
  als_AppLocalState := state;
  als_KeyValueOverride := convertTealKeyValue (ALS_KeyValue state) |}.
Definition unconvertAppLocalState (state : appLocalState) : AppLocalState := {|
  ALS_Schema := ALS_Schema (als_AppLocalState state);
  ALS_KeyValue := unconvertTealKeyValue (als_KeyValueOverride state) |}.

Definition EncodeAppLocalState `{Codec appLocalState} (state : AppLocalState) : string :=
  encodeJSON (convertAppLocalState state).
Definition DecodeAppLocalState `{Codec appLocalState} (data : string) : result AppLocalState :=
  state ← DecodeJSON data;
  Ok (unconvertAppLocalState state).

Definition set_GlobalState (p : AppParams) (gs : TealKeyValue) : AppParams := {|
  APP_ApprovalProgram := APP_ApprovalProgram p; APP_ClearStateProgram := APP_ClearStateProgram p;
  APP_GlobalState := gs; APP_LocalStateSchema := APP_LocalStateSchema p;
  APP_GlobalStateSchema := APP_GlobalStateSchema p;
  APP_ExtraProgramPages := APP_ExtraProgramPages p; APP_Version := APP_Version p |}.

Definition convertAppParams (params : AppParams) : appParams := {|
  app_AppParams := params;
  app_GlobalStateOverride := convertTealKeyValue (APP_GlobalState params) |}.
Definition unconvertAppParams (params : appParams) : AppParams :=
  set_GlobalState (app_AppParams params) (unconvertTealKeyValue (app_GlobalStateOverride params)).

(** The zero value [sdk.AppParams{}]. *)
Definition zeroAppParams : AppParams := {|
  APP_ApprovalProgram := None; APP_ClearStateProgram := None; APP_GlobalState := None;
  APP_LocalStateSchema := {| NumUint := 0; NumByteSlice := 0 |};
  APP_GlobalStateSchema := {| NumUint := 0; NumByteSlice := 0 |};
  APP_ExtraProgramPages := 0; APP_Version := 0 |}.

Definition EncodeAppParams `{Codec appParams} (params : AppParams) : string :=
  encodeJSON (convertAppParams params).

(** A decoding error is dropped: the zero value is returned with a nil error. *)
Definition DecodeAppParams `{Codec appParams} (data : string) : result AppParams :=
  match DecodeJSON data with
  | Err _ => Ok zeroAppParams
  | Ok params => Ok (unconvertAppParams params)
  end.

(** ** Arrays *)

Definition unconvertAssetParamsArray (paramsArr : option (list assetParams))
    : option (list AssetParams) := map unconvertAssetParams <$> paramsArr.
Definition DecodeAssetParamsArray `{Codec (option (list assetParams))} (data : string)
    : result (option (list AssetParams)) :=
  paramsArr ← DecodeJSON data;
  Ok (unconvertAssetParamsArray paramsArr).

Definition unconvertAppParamsArray (paramsArr : option (list appParams))
    : option (list AppParams) := map unconvertAppParams <$> paramsArr.
Definition DecodeAppParamsArray `{Codec (option (list appParams))} (data : string)
    : result (option (list AppParams)) :=
  paramsArr ← DecodeJSON data;
  Ok (unconvertAppParamsArray paramsArr).

Definition unconvertAppLocalStateArray (array : option (list appLocalState))
    : option (list AppLocalState) := map unconvertAppLocalState <$> array.
Definition DecodeAppLocalStateArray `{Codec (option (list appLocalState))} (data : string)
    : result (option (list AppLocalState)) :=
  array ← DecodeJSON data;
  Ok (unconvertAppLocalStateArray array).

(** ** Metastate values *)

Record SpecialAddresses := { FeeSink : Address; RewardsPool : Address }.
Record ImportState := { NextRoundToAccount : Z }.
Record MigrationState := {
  NextMigration : Z; NextRound : Z; NextAssetID : Z;
  PointerRound : option Z; PointerIntra : option Z }.
Record NetworkState := { NS_GenesisHash : Digest }.
Record DeleteStatus := { LastPruned : string; OldestRound : Z }.

Definition EncodeSpecialAddresses `{Codec SpecialAddresses} (special : SpecialAddresses) : string :=
  encodeJSON special.
Definition DecodeSpecialAddresses `{Codec SpecialAddresses} (data : string)
    : result SpecialAddresses := DecodeJSON data.
Definition EncodeTxnExtra `{Codec TxnExtra} (extra : TxnExtra) : string := encodeJSON extra.
Definition DecodeTxnExtra `{Codec TxnExtra} (data : string) : result TxnExtra := DecodeJSON data.
Definition EncodeImportState `{Codec ImportState} (state : ImportState) : string :=
  encodeJSON state.
Definition DecodeImportState `{Codec ImportState} (data : string) : result ImportState :=
  DecodeJSON data.
Definition EncodeMigrationState `{Codec MigrationState} (state : MigrationState) : string :=
  encodeJSON state.
Definition DecodeMigrationState `{Codec MigrationState} (data : string) : result MigrationState :=
  DecodeJSON data.
Definition EncodeNetworkState `{Codec NetworkState} (state : NetworkState) : string :=
  encodeJSON state.
Definition DecodeNetworkState `{Codec NetworkState} (data : string) : result NetworkState :=
  wrap "DecodeNetworkState() err: %w" (DecodeJSON data).
Definition EncodeDeleteStatus `{Codec DeleteStatus} (p : DeleteStatus) : string := encodeJSON p.
Definition DecodeDeleteStatus `{Codec DeleteStatus} (data : string) : result DeleteStatus :=
  wrap "DecodeDeleteStatus() err: %w" (DecodeJSON data).

(** ** Shadowed fields

    Each [erase] clears the fields of the embedded SDK struct whose key the
    override struct redeclares. *)

Definition erase_blockHeader (h : blockHeader) : blockHeader := {|
  bh_BlockHeader := set_overrides (bh_BlockHeader h) "" None None;
  bh_ProposerOverride := bh_ProposerOverride h; bh_ExpiredOverride := bh_ExpiredOverride h;
  bh_AbsentOverride := bh_AbsentOverride h |}.

Definition zeroAssetParams : AssetParams := {|
  AP_Total := 0; AP_Decimals := 0; AP_DefaultFrozen := false; AP_UnitName := "";
  AP_AssetName := ""; AP_URL := ""; AP_MetadataHash := zeros 32; AP_Manager := zeroAddress;
  AP_Reserve := zeroAddress; AP_Freeze := zeroAddress; AP_Clawback := zeroAddress |}.

Definition erase_transaction (t : transaction) : transaction := {|
  tx_Transaction := set_AssetParams (tx_Transaction t) zeroAssetParams;
  tx_AssetParamsOverride := tx_AssetParamsOverride t |}.

Definition erase_valueDelta (d : valueDelta) : valueDelta := {|
  vd_ValueDelta := {| VD_Action := VD_Action (vd_ValueDelta d); VD_Bytes := "";
                      VD_Uint := VD_Uint (vd_ValueDelta d) |};
  vd_BytesOverride := vd_BytesOverride d |}.
Definition erase_stateDelta (d : stateDelta) : stateDelta :=
  fmap (M := gmap string) erase_valueDelta <$> d.

Definition erase_evalDelta (erase : signedTxnWithAD -> signedTxnWithAD)
    (d : evalDelta signedTxnWithAD) : evalDelta signedTxnWithAD := {|
  ed_EvalDelta := {| ED_GlobalDelta := None; ED_LocalDeltas := None;
                     ED_SharedAccts := ED_SharedAccts (ed_EvalDelta d);
                     ED_Logs := None; ED_InnerTxns := None |};
  ed_GlobalDeltaOverride := erase_stateDelta (ed_GlobalDeltaOverride d);
  ed_LocalDeltasOverride := fmap (M := gmap Z) erase_stateDelta <$> ed_LocalDeltasOverride d;
  ed_LogsOverride := ed_LogsOverride d;
  ed_InnerTxnsOverride :=
    match ed_InnerTxnsOverride d with None => None | Some l => Some (map erase l) end |}.

(** The shadowed [Txn] of the embedded struct becomes a function of the
    override, so that nothing of it is left. *)
Fixpoint erase_signedTxnWithAD (s : signedTxnWithAD) : signedTxnWithAD :=
  match s with
  | stxnAD base txn ed =>
      stxnAD (StxnAD (set_Txn (STAD_SignedTxn base)
                        (tx_Transaction (erase_transaction txn)))
                     (set_EvalDelta (STAD_ApplyData base) emptyEvalDelta))
        (erase_transaction txn) (erase_evalDelta erase_signedTxnWithAD ed)
  end.

Definition erase_tealValue (v : tealValue) : tealValue := {|
  tv_TealValue := {| TV_Type := TV_Type (tv_TealValue v); TV_Bytes := "";
                     TV_Uint := TV_Uint (tv_TealValue v) |};
  tv_BytesOverride := tv_BytesOverride v |}.
Definition erase_tealKeyValue (kv : tealKeyValue) : tealKeyValue :=
  fmap (M := gmap string) erase_tealValue <$> kv.
Definition erase_appLocalState (s : appLocalState) : appLocalState := {|
  als_AppLocalState := {| ALS_Schema := ALS_Schema (als_AppLocalState s); ALS_KeyValue := None |};
  als_KeyValueOverride := erase_tealKeyValue (als_KeyValueOverride s) |}.
Definition erase_appParams (p : appParams) : appParams := {|
  app_AppParams := set_GlobalState (app_AppParams p) None;
  app_GlobalStateOverride := erase_tealKeyValue (app_GlobalStateOverride p) |}.

(** ** Lemmas *)

(** Decoding what was encoded, for a decoder that does not look at the shadowed
    fields. *)
Lemma faithful_decode {T A} `{Codec T} (erase : T -> T) (unconvert : T -> A) x :
  (forall y, unconvert (erase y) = unconvert y) ->
  faithful erase x ->
  exists y, DecodeJSON (encodeJSON x) = Ok y /\ unconvert y = unconvert x.
Proof.
  intros Hu (y & Hd & He). exists y. split; [done|].
  by rewrite <-(Hu y), He, Hu.
Qed.

Lemma option_fmap_fmap_id {K A B} `{Countable K} (f : A -> B) (g : B -> A)
    (o : option (gmap K A)) :
  (forall a, g (f a) = a) ->
  fmap (M := gmap K) g <$> (fmap (M := gmap K) f <$> o) = o.
Proof.
  intros Hgf. destruct o as [m|]; [|done]. cbn. f_equal.
  apply map_eq; intros k. rewrite !lookup_fmap.
  destruct (m !! k); cbn; congruence.
Qed.

Lemma option_fmap_fmap_ext {K A B C} `{Countable K} (f : A -> B) (g : B -> C) (h : A -> C)
    (o : option (gmap K A)) :
  (forall a, g (f a) = h a) ->
  fmap (M := gmap K) g <$> (fmap (M := gmap K) f <$> o) = fmap (M := gmap K) h <$> o.
Proof.
  intros Hgf. destruct o as [m|]; [|done]. cbn. f_equal.
  apply map_eq; intros k. rewrite !lookup_fmap.
  destruct (m !! k); cbn; congruence.
Qed.

Section Lemmas.
Context `{UnicodeOps}.

Lemma or_bytes_unless_printable s :
  or_bytes (PrintableUTF8OrEmpty s) (unless_printable (PrintableUTF8OrEmpty s) s) = s.
Proof.
  unfold or_bytes, unless_printable.
  destruct (PrintableUTF8OrEmpty_cases s) as [-> | ->]; repeat case_bool_decide; congruence.
Qed.

Lemma unconvert_convertAssetParams p : unconvertAssetParams (convertAssetParams p) = p.
Proof. destruct p. cbv [unconvertAssetParams convertAssetParams set_names]; cbn.
  by rewrite !or_bytes_unless_printable. Qed.

Lemma unconvert_convertTransaction t : unconvertTransaction (convertTransaction t) = t.
Proof.
  unfold unconvertTransaction, convertTransaction; cbn.
  rewrite unconvert_convertAssetParams. by destruct t as [? ? ? ? [] ? ? ? ? ?].
Qed.

Lemma unconvert_convertStateDelta d : unconvertStateDelta (convertStateDelta d) = d.
Proof. apply option_fmap_fmap_id. by intros []. Qed.

Lemma unconvert_convertLocalDeltas d : unconvertLocalDeltas (convertLocalDeltas d) = d.
Proof. apply option_fmap_fmap_id, unconvert_convertStateDelta. Qed.

Lemma unconvert_convertTealKeyValue kv : unconvertTealKeyValue (convertTealKeyValue kv) = kv.
Proof. apply option_fmap_fmap_id. by intros []. Qed.

Lemma map_id_Forall {A B} (f : A -> B) (g : B -> A) l :
  Forall (λ a, g (f a) = a) l -> map g (map f l) = l.
Proof. induction 1; cbn; congruence. Qed.

(** Conversion loses nothing, at any depth of inner transactions. *)
Lemma unconvert_convertSignedTxnWithAD s :
  unconvertSignedTxnWithAD (convertSignedTxnWithAD s) = s.
Proof.
  induction s as [[st ad] IH] using SignedTxnWithAD_rect_inner.
  destruct st, ad as [? ? ? ? ? [gd ld sa lg inner] ? ?]; cbn in IH |- *.
  unfold set_Txn, set_EvalDelta, unconvertEvalDelta; cbn.
  rewrite unconvert_convertTransaction, unconvert_convertStateDelta, unconvert_convertLocalDeltas.
  destruct inner as [l|]; cbn in *; [by rewrite map_id_Forall|done].
Qed.

Lemma unconvert_erase_stateDelta d : unconvertStateDelta (erase_stateDelta d) = unconvertStateDelta d.
Proof. by apply option_fmap_fmap_ext. Qed.

Lemma unconvert_erase_tealKeyValue kv :
  unconvertTealKeyValue (erase_tealKeyValue kv) = unconvertTealKeyValue kv.
Proof. by apply option_fmap_fmap_ext. Qed.
End Lemmas.

(** Induction over the tree of override structs. *)
Section signedTxnWithAD_induction.
Context (P : signedTxnWithAD -> Prop).
Context (step : forall base txn ed, Forall P (slice (ed_InnerTxnsOverride ed)) ->
                P (stxnAD base txn ed)).

Lemma signedTxnWithAD_rect_inner : forall s, P s.
Proof.
  fix IH 1. intros [base txn [e gd ld lg [inner|]]]; apply step; cbn.
  - induction inner as [|i inner IHl]; constructor; [apply IH|apply IHl].
  - constructor.
Qed.
End signedTxnWithAD_induction.

Lemma map_map_Forall {A B} (f : A -> A) (g : A -> B) l :
  Forall (λ a, g (f a) = g a) l -> map g (map f l) = map g l.
Proof. induction 1; cbn; congruence. Qed.

Lemma unconvert_erase_signedTxnWithAD s :
  unconvertSignedTxnWithAD (erase_signedTxnWithAD s) = unconvertSignedTxnWithAD s.
Proof.
  induction s as [base txn [e gd ld lg inner] IH] using signedTxnWithAD_rect_inner.
  cbn in IH |- *. unfold set_Txn, set_EvalDelta, unconvertEvalDelta; cbn.
  rewrite unconvert_erase_stateDelta.
  replace (unconvertLocalDeltas _) with (unconvertLocalDeltas ld)
    by (symmetry; apply option_fmap_fmap_ext, unconvert_erase_stateDelta).
  destruct inner as [l|]; cbn in *; [by rewrite map_map_Forall|done].
Qed.

(** [omitempty] does not tell an empty list of accounts from a nil one. *)
Definition nil_if_empty {A} (l : option (list A)) : option (list A) :=
  match l with Some [] => None | _ => l end.

Lemma unconvert_convertExpiredAccounts l :
  unconvertExpiredAccounts (convertExpiredAccounts l) = nil_if_empty l.
Proof. by destruct l as [[|]|]. Qed.

(** ** Round trips *)

Section RoundTrips.
Context `{UnicodeOps}.

(** A block header read back from the [block_header] table is the header
    that was written: the proposer and both participation lists are restored
    from their overrides, whatever the codec leaves in the shadowed fields (an
    empty list comes back as nil). *)
Theorem DecodeBlockHeader_EncodeBlockHeader `{Codec blockHeader} (h : BlockHeader) :
  faithful erase_blockHeader (convertBlockHeader h) ->
  DecodeBlockHeader (EncodeBlockHeader h) =
    Ok (set_overrides h (BH_Proposer h)
          (nil_if_empty (BH_ExpiredParticipationAccounts h))
          (nil_if_empty (BH_AbsentParticipationAccounts h))).
Proof.
  intros Hf.
  destruct (faithful_decode erase_blockHeader unconvertBlockHeader _ ltac:(done) Hf)
    as (y & Hd & Hy).
  unfold DecodeBlockHeader, EncodeBlockHeader. rewrite Hd; cbn [mbind result_bind].
  rewrite Hy. unfold unconvertBlockHeader, convertBlockHeader; cbn.
  by rewrite !unconvert_convertExpiredAccounts.
Qed.

(** C22. A signed transaction with its apply data read back from the [txn] table
    is the one that was written, through every level of inner transactions:
    asset names, state delta bytes, logs and inner transactions all come back
    from the overrides. *)
Theorem DecodeSignedTxnWithAD_EncodeSignedTxnWithAD `{Codec signedTxnWithAD}
    (s : SignedTxnWithAD) :
  faithful erase_signedTxnWithAD (convertSignedTxnWithAD s) ->
  DecodeSignedTxnWithAD (EncodeSignedTxnWithAD s) = Ok s.
Proof.
  intros Hf.
  destruct (faithful_decode _ _ _ unconvert_erase_signedTxnWithAD Hf) as (y & Hd & Hy).
  unfold DecodeSignedTxnWithAD, EncodeSignedTxnWithAD. rewrite Hd; cbn [mbind result_bind].
  by rewrite Hy, unconvert_convertSignedTxnWithAD.
Qed.

(** Asset parameters read back from the [asset] table are the ones written,
    for names that are printable UTF-8 and for names that are arbitrary bytes. *)
Theorem DecodeAssetParams_EncodeAssetParams `{Codec assetParams} (p : AssetParams) :
  faithful id (convertAssetParams p) ->
  DecodeAssetParams (EncodeAssetParams p) = Ok p.
Proof.
  intros Hf.
  destruct (faithful_decode id unconvertAssetParams _ ltac:(done) Hf) as (y & Hd & Hy).
  unfold DecodeAssetParams, EncodeAssetParams. rewrite Hd; cbn [mbind result_bind].
  by rewrite Hy, unconvert_convertAssetParams.
Qed.

(** Application parameters read back from the [app] table are the ones
    written, the global state included. *)
Theorem DecodeAppParams_EncodeAppParams `{Codec appParams} (p : AppParams) :
  faithful erase_appParams (convertAppParams p) ->
  DecodeAppParams (EncodeAppParams p) = Ok p.
Proof.
  intros Hf.
  assert (Hu : forall y, unconvertAppParams (erase_appParams y) = unconvertAppParams y).
  { intros y. unfold unconvertAppParams; cbn. by rewrite unconvert_erase_tealKeyValue. }
  destruct (faithful_decode _ _ _ Hu Hf) as (y & Hd & Hy).
  unfold DecodeAppParams, EncodeAppParams. rewrite Hd, Hy.
  unfold unconvertAppParams; cbn. rewrite unconvert_convertTealKeyValue. by destruct p.
Qed.

(** A local state read back from the [account_app] table is the one
    written. *)
Lemma DecodeAppLocalState_EncodeAppLocalState `{Codec appLocalState} (s : AppLocalState) :
  faithful erase_appLocalState (convertAppLocalState s) ->
  DecodeAppLocalState (EncodeAppLocalState s) = Ok s.
Proof.
  intros Hf.
  assert (Hu : forall y, unconvertAppLocalState (erase_appLocalState y) = unconvertAppLocalState y).
  { intros y. unfold unconvertAppLocalState; cbn. by rewrite unconvert_erase_tealKeyValue. }
  destruct (faithful_decode _ _ _ Hu Hf) as (y & Hd & Hy).
  unfold DecodeAppLocalState, EncodeAppLocalState. rewrite Hd; cbn [mbind result_bind].
  rewrite Hy. unfold unconvertAppLocalState; cbn.
  rewrite unconvert_convertTealKeyValue. by destruct s.
Qed.

(** Account data read back from [account.account_data] is what was written,
    without exactly the three fields that [TrimLcAccountData] removes. *)
Theorem DecodeTrimmedLcAccountData_Encode `{Codec baseAccountData} (ad : AccountData) :
  faithful id (convertTrimmedLcAccountData (TrimLcAccountData ad)) ->
  DecodeTrimmedLcAccountData (EncodeTrimmedLcAccountData (TrimLcAccountData ad)) =
    Ok (TrimLcAccountData ad).
Proof.
  intros Hf.
  destruct (faithful_decode id unconvertTrimmedLcAccountData _ ltac:(done) Hf)
    as (y & Hd & Hy).
  unfold DecodeTrimmedLcAccountData, EncodeTrimmedLcAccountData.
  rewrite Hd; cbn [mbind result_bind]. by rewrite Hy.
Qed.

(** [DecodeAppParams] reports no error on text the codec rejects: it is read
    as the zero parameters. *)
Theorem DecodeAppParams_swallows_errors `{Codec appParams} (data : string) (e : error) :
  DecodeJSON (T := appParams) data = Err e ->
  DecodeAppParams data = Ok zeroAppParams.
Proof. intros Hd. unfold DecodeAppParams. by rewrite Hd. Qed.

End RoundTrips.

(** ** Concrete instances

    A codec that knows one document, and that loses every shadowed field of the
    value it was written for. *)

Definition document : string := "{...}".
Definition one_document {T} (decoded : T) : Codec T := {|
  encodeJSON _ := document;
  DecodeJSON s := if bool_decide (s = document) then Ok decoded else Err (ErrMsg "json") |}.

Definition ascii_print : UnicodeOps := {| IsPrint c := (32 <=? c) && (c <=? 126) |}.
#[local] Existing Instance ascii_print.

Definition sample_header : BlockHeader :=
  set_overrides (Sample.blockHeader 7) "carol" (Some ["alice"; "bob"]) (Some []).

Lemma DecodeBlockHeader_EncodeBlockHeader_witness :
  let c := one_document (erase_blockHeader (convertBlockHeader sample_header)) in
  DecodeBlockHeader (EncodeBlockHeader sample_header) =
    Ok (set_overrides sample_header "carol" (Some ["alice"; "bob"]) None).
Proof.
  intros c. apply (DecodeBlockHeader_EncodeBlockHeader sample_header).
  eexists; split; reflexivity.
Defined.

(** An application call whose inner transaction creates an asset with a name
    that is not printable, with a state delta and a log. *)
Definition sample_params : AssetParams :=
  set_names zeroAssetParams (String (Zbyte 1) "u") "gold" "".
Definition sample_stxn : SignedTxnWithAD :=
  let inner := Sample.stxnad (set_AssetParams
    (Sample.txn AssetConfigTx "app" Sample.payment) sample_params) [] in
  StxnAD (Sample.signed (Sample.txn ApplicationCallTx "alice" Sample.payment))
    (set_EvalDelta (Sample.applyData []) {|
       ED_GlobalDelta := Some {[ "k" := {| VD_Action := 1; VD_Bytes := "v"; VD_Uint := 0 |} ]};
       ED_LocalDeltas := Some {[ 0 := None ]}; ED_SharedAccts := []; ED_Logs := Some ["log"];
       ED_InnerTxns := Some [inner] |}).

Lemma DecodeSignedTxnWithAD_EncodeSignedTxnWithAD_witness :
  let c := one_document (erase_signedTxnWithAD (convertSignedTxnWithAD sample_stxn)) in
  DecodeSignedTxnWithAD (EncodeSignedTxnWithAD sample_stxn) = Ok sample_stxn.
Proof.
  intros c. apply (DecodeSignedTxnWithAD_EncodeSignedTxnWithAD sample_stxn).
  eexists; split; [reflexivity|vm_compute; reflexivity].
Defined.

Lemma DecodeAssetParams_EncodeAssetParams_witness :
  let c := one_document (convertAssetParams sample_params) in
  DecodeAssetParams (EncodeAssetParams sample_params) = Ok sample_params.
Proof.
  intros c. apply (DecodeAssetParams_EncodeAssetParams sample_params).
  eexists; split; reflexivity.
Defined.

Definition sample_kv : TealKeyValue :=
  Some {[ "k" := {| TV_Type := TealBytesType; TV_Bytes := "v"; TV_Uint := 0 |} ]}.
Definition sample_app : AppParams := set_GlobalState zeroAppParams sample_kv.

Lemma DecodeAppParams_EncodeAppParams_witness :
  let c := one_document (erase_appParams (convertAppParams sample_app)) in
  DecodeAppParams (EncodeAppParams sample_app) = Ok sample_app.
Proof.
  intros c. apply (DecodeAppParams_EncodeAppParams sample_app).
  eexists; split; [reflexivity|vm_compute; reflexivity].
Defined.

Definition sample_local : AppLocalState := {|
  ALS_Schema := {| NumUint := 0; NumByteSlice := 1 |}; ALS_KeyValue := sample_kv |}.

Lemma DecodeAppLocalState_EncodeAppLocalState_witness :
  let c := one_document (erase_appLocalState (convertAppLocalState sample_local)) in
  DecodeAppLocalState (EncodeAppLocalState sample_local) = Ok sample_local.
Proof.
  intros c. apply (DecodeAppLocalState_EncodeAppLocalState sample_local).
  eexists; split; [reflexivity|vm_compute; reflexivity].
Defined.

Definition sample_account : AccountData := {|
  ACD_Status := 1; ACD_MicroAlgos := 5000000; ACD_RewardsBase := 12;
  ACD_RewardedMicroAlgos := 34; ACD_AuthAddr := "bob"; ACD_IncentiveEligible := true;
  ACD_TotalAppSchema := {| NumUint := 1; NumByteSlice := 2 |}; ACD_TotalExtraAppPages := 3;
  ACD_TotalAppParams := 4; ACD_TotalAppLocalStates := 5; ACD_TotalAssetParams := 6;
  ACD_TotalAssets := 7; ACD_TotalBoxes := 8; ACD_TotalBoxBytes := 9; ACD_LastProposed := 10;
  ACD_LastHeartbeat := 11; ACD_VoteID := "vote"; ACD_SelectionID := "sel";
  ACD_StateProofID := "sp"; ACD_VoteFirstValid := 13; ACD_VoteLastValid := 14;
  ACD_VoteKeyDilution := 15 |}.

Lemma DecodeTrimmedLcAccountData_Encode_witness :
  let c := one_document (convertTrimmedLcAccountData (TrimLcAccountData sample_account)) in
  DecodeTrimmedLcAccountData (EncodeTrimmedLcAccountData (TrimLcAccountData sample_account)) =
    Ok (TrimLcAccountData sample_account).
Proof.
  intros c. apply (DecodeTrimmedLcAccountData_Encode sample_account).
  eexists; split; reflexivity.
Defined.

Lemma DecodeAppParams_swallows_errors_witness :
  let c := one_document (convertAppParams sample_app) in
  DecodeAppParams "not json" = Ok zeroAppParams.
Proof.
  intros c. apply (DecodeAppParams_swallows_errors "not json" (ErrMsg "json")). reflexivity.
Defined.
