(* ===== verification/Db.v ===== *)
(** * The database: tables, transactions and retries

    The tables of [schema/setup_postgres.sql], the transaction helpers of
    [internal/util/util.go] and the key-value table [metastate].

    PostgreSQL is not part of the repository.  Every call to it may fail: a run
    takes a list of faults, one entry per call in order ([Some e]: the call
    fails with [e]; [None], or the end of the list: it succeeds), and the
    theorems quantify over all lists.  A transaction that does not commit leaves
    no trace, and a failed commit did not happen. *)

From S2P Require Import Prelude GoStd Sdk Idb Util Encoding.

(** ** Tables

    A table is a map from its primary key to the other columns.  A [jsonb]
    column holds the JSON text written to it. *)

Record block_header_row := { bhr_realtime : Z; bhr_rewardslevel : Z; bhr_header : string }.
Record account_row := {
  acr_microalgos : Z; acr_rewardsbase : Z; acr_rewards_total : Z; acr_deleted : bool;
  acr_created_at : Z; acr_closed_at : option Z; acr_keytype : option string;
  acr_account_data : string }.
Record account_asset_row := {
  aar_amount : Z; aar_frozen : bool; aar_deleted : bool; aar_created_at : Z;
  aar_closed_at : option Z }.
Record asset_row := {
  asr_creator_addr : Address; asr_params : string; asr_deleted : bool; asr_created_at : Z;
  asr_closed_at : option Z }.
Record app_row := {
  apr_creator : Address; apr_params : string; apr_deleted : bool; apr_created_at : Z;
  apr_closed_at : option Z }.
Record account_app_row := {
  alr_localstate : string; alr_deleted : bool; alr_created_at : Z; alr_closed_at : option Z }.
Record txn_row := {
  txr_typeenum : Z; txr_asset : Z; txr_txid : option string; txr_txn : string;
  txr_extra : string }.

Record tables := {
  t_block_header : gmap Z block_header_row;
  t_account : gmap Address account_row;
  t_account_asset : gmap (Address * Z) account_asset_row;
  t_asset : gmap Z asset_row;
  t_app : gmap Z app_row;
  t_account_app : gmap (Address * Z) account_app_row;
  t_app_box : gmap (Z * string) string;
  t_metastate : gmap string string }.

(** The two tables written by the second connection of [AddBlock]. *)
Record txn_tables := {
  t_txn : gmap (Z * Z) txn_row;
  t_txn_participation : gset (Address * Z * Z) }.

Record database := { core : tables; txns : txn_tables }.

Definition jsonNull : string := "null".

(** A [bigint] column takes what fits an [int64]; pgx refuses the rest. *)
Definition fits_bigint (x : Z) : bool := (0 <=? x) && (x <=? MaxInt64).
Definition errBigint : error := ErrMsg "%d is greater than maximum value for Int8".

(** ** Calls that may fail *)

Abbreviation faults := (list (option error)) (only parsing).

Definition Tx (S A : Type) : Type := S -> faults -> result A * S * faults.

Definition tx_ret {S A} (a : A) : Tx S A := λ s fs, (Ok a, s, fs).
Definition tx_err {S A} (e : error) : Tx S A := λ s fs, (Err e, s, fs).
Definition tx_bind {S A B} (m : Tx S A) (k : A -> Tx S B) : Tx S B := λ s fs,
  match m s fs with
  | (Ok a, s', fs') => k a s' fs'
  | (Err e, s', fs') => (Err e, s', fs')
  end.
(** [fmt.Errorf("...: %w", err)] around a call. *)
Definition tx_wrap {S A} (fmt : string) (m : Tx S A) : Tx S A := λ s fs,
  let '(r, s', fs') := m s fs in (wrap fmt r, s', fs').
(** The error of a call as a value. *)
Definition tx_try {S A} (m : Tx S A) : Tx S (result A) := λ s fs,
  let '(r, s', fs') := m s fs in (Ok r, s', fs').
(** A step without a call. *)
Definition lift {S A} (r : result A) : Tx S A := λ s fs, (r, s, fs).

Declare Scope tx_scope.
Delimit Scope tx_scope with tx.
Notation "x <-- m ; k" := (tx_bind m (λ x, k))
  (at level 100, m at next level, right associativity) : tx_scope.
Notation "m ;;; k" := (tx_bind m (λ _, k)) (at level 100, right associativity) : tx_scope.
Open Scope tx_scope.

(** One call to the database. *)
Definition db_call {S A} (op : S -> result (A * S)) : Tx S A := λ s fs,
  match fs with
  | Some e :: fs' => (Err e, s, fs')
  | _ =>
      match op s with
      | Ok (a, s') => (Ok a, s', tail fs)
      | Err e => (Err e, s, tail fs)
      end
  end.

(** ** [internal/util/util.go] *)

Definition SerializationFailure : string := "40001".
Definition UniqueViolation : string := "23505".

Definition isSerializationError {A} (r : result A) : bool :=
  match r with
  | Ok _ => false
  | Err e => bool_decide (errors_as_pg e = Some SerializationFailure)
  end.

Section Transactions.
Context {S : Type}.
(** [rollback before after]: the state after undoing a transaction that began in
    [before] and reached [after].  What other connections committed meanwhile
    stays. *)
Context (rollback : S -> S -> S).

Definition attemptTx (f : Tx S unit) : Tx S unit := λ s fs,
  match f s fs with
  | (Err e, s', fs') => (Err (ErrWrap "attemptTx() err: %w" e), rollback s s', fs')
  | (Ok _, s', fs') =>
      match db_call (λ x, Ok (tt, x)) s' fs' with
      | (Err e, _, fs'') => (Err (ErrWrap "attemptTx() commit err: %w" e), rollback s s', fs'')
      | (Ok _, _, fs'') => (Ok tt, s', fs'')
      end
  end.

(** One turn of the loop: begin, attempt. *)
Definition beginTx : Tx S unit := db_call (λ x, Ok (tt, x)).

Fixpoint TxWithRetry_fuel (fuel : nat) (f : Tx S unit) (s : S) (fs : faults)
    : option (result unit * S * faults) :=
  match fuel with
  | O => None
  | Datatypes.S n =>
      match beginTx s fs with
      | (Err e, s', fs') => Some (Err (ErrWrap "TxWithRetry() begin tx err: %w" e), s', fs')
      | (Ok _, s', fs') =>
          let '(r, s'', fs'') := attemptTx f s' fs' in
          if isSerializationError r then TxWithRetry_fuel n f s'' fs''
          else Some (wrap "TxWithRetry() err: %w" r, s'', fs'')
      end
  end.

(** Every retry uses up a fault, so one turn more than there are faults is
    enough: [TxWithRetry_unfold] below. *)
Definition TxWithRetry (f : Tx S unit) : Tx S unit := λ s fs,
  default (Err (ErrMsg "unreachable"), s, fs)
    (TxWithRetry_fuel (Datatypes.S (length fs)) f s fs).
End Transactions.

(** ** [metastate] *)

Definition set_metastate (t : tables) (m : gmap string string) : tables := {|
  t_block_header := t_block_header t; t_account := t_account t;
  t_account_asset := t_account_asset t; t_asset := t_asset t; t_app := t_app t;
  t_account_app := t_account_app t; t_app_box := t_app_box t; t_metastate := m |}.

Definition StateMetastateKey : string := "state".
Definition MigrationMetastateKey : string := "migration".
Definition SpecialAccountsMetastateKey : string := "accounts".
Definition NetworkMetaStateKey : string := "network".
Definition DeleteStatusKey : string := "pruned".

(** [pgx.ErrNoRows] is compared by identity. *)
Definition ErrNoRows : error := ErrSentinel "no rows in result set".

Definition GetMetastate (key : string) : Tx tables string :=
  r <-- tx_try (db_call (λ t,
    match t_metastate t !! key with Some v => Ok (v, t) | None => Err ErrNoRows end));
  match r with
  | Ok value => tx_ret value
  | Err e => if bool_decide (e = ErrNoRows) then tx_err ErrorNotInitialized
             else tx_err (ErrWrap "GetMetastate() err: %w" e)
  end.

Definition SetMetastate (key jsonStrValue : string) : Tx tables unit :=
  tx_wrap "SetMetastate() err: %w"
    (db_call (λ t, Ok (tt, set_metastate t (<[key := jsonStrValue]> (t_metastate t))))).

(** ** Computations whose serialization errors come from the database

    [honest m]: the faults left after [m] are the end of those before, and [m]
    reports a serialization error only if it used one.  It is what makes the
    retry loop terminate. *)

Definition honest {S A} (m : Tx S A) : Prop := forall s fs r s' fs',
  m s fs = (r, s', fs') ->
  fs' `suffix_of` fs /\
  (isSerializationError r = true -> (length fs' < length fs)%nat).

Create HintDb tx.

Lemma isSerializationError_wrap {A} fmt (r : result A) :
  isSerializationError (wrap fmt r) = isSerializationError r.
Proof. by destruct r. Qed.

Lemma isSerializationError_ErrWrap {A} fmt e :
  isSerializationError (A := A) (Err (ErrWrap fmt e)) = isSerializationError (A := A) (Err e).
Proof. done. Qed.

Lemma suffix_tail {A} (l : list A) : tail l `suffix_of` l.
Proof. destruct l; [done|]. by apply suffix_cons_r. Qed.

(** Lengths of suffixes, for the measure of the loop. *)
Ltac suffix_lia :=
  repeat match goal with H : _ `suffix_of` _ |- _ => apply suffix_length in H end; lia.

Section Honest.
Context {S : Type}.

Lemma honest_ret {A} (a : A) : honest (S := S) (tx_ret a).
Proof. intros s fs r s' fs' [= <- <- <-]. by split. Qed.

Lemma honest_err {A} e :
  isSerializationError (A := A) (Err e) = false -> honest (S := S) (A := A) (tx_err e).
Proof. intros He s fs r s' fs' [= <- <- <-]. split; [done|congruence]. Qed.

Lemma honest_call {A} (op : S -> result (A * S)) :
  (forall s, isSerializationError (op s) = false) -> honest (db_call op).
Proof.
  intros Hop s fs r s' fs' Hc. unfold db_call in Hc. specialize (Hop s).
  destruct fs as [|[e|] fs]; destruct (op s) as [[]|]; simplify_eq/=;
    (split; [by (done || apply suffix_cons_r) | intros; first [lia | congruence]]).
Qed.

Lemma honest_bind {A B} (m : Tx S A) (k : A -> Tx S B) :
  honest m -> (forall a, honest (k a)) -> honest (tx_bind m k).
Proof.
  intros Hm Hk s fs r s' fs'. unfold tx_bind.
  destruct (m s fs) as [[[a|e] s1] fs1] eqn:E; intros Hr.
  - apply Hm in E as [? _]. apply Hk in Hr as [? Hs]. split; [by etrans|].
    intros ?%Hs. suffix_lia.
  - simplify_eq/=. apply Hm in E as [? Hs]. by split.
Qed.

Lemma honest_wrap {A} fmt (m : Tx S A) : honest m -> honest (tx_wrap fmt m).
Proof.
  intros Hm s fs r s' fs'. unfold tx_wrap. destruct (m s fs) as [[r1 s1] fs1] eqn:E.
  intros [= <- <- <-]. rewrite isSerializationError_wrap. by eapply Hm.
Qed.

(** The error caught by [tx_try] may be raised again. *)
Lemma honest_try_bind {A B} (m : Tx S A) (k : result A -> Tx S B) :
  honest m ->
  (forall a, honest (k (Ok a))) ->
  (forall e s fs r s' fs', k (Err e) s fs = (r, s', fs') ->
     fs' `suffix_of` fs /\
     (isSerializationError r = true ->
        isSerializationError (A := A) (Err e) = true \/ (length fs' < length fs)%nat)) ->
  honest (tx_bind (tx_try m) k).
Proof.
  intros Hm Hok Herr s fs r s' fs'. unfold tx_bind, tx_try.
  destruct (m s fs) as [[[a|e] s1] fs1] eqn:E; apply Hm in E as [Hle Hs]; intros Hr.
  - apply Hok in Hr as [? Hs']. split; [by etrans|]. intros ?%Hs'. suffix_lia.
  - apply Herr in Hr as [? Hs']. split; [by etrans|]. intros [?%Hs|?]%Hs'; suffix_lia.
Qed.

Lemma honest_begin : honest (S := S) beginTx.
Proof. by apply honest_call. Qed.

Lemma beginTx_state (s : S) fs r s' fs' : beginTx s fs = (r, s', fs') -> s' = s.
Proof. by destruct fs as [|[]]; intros; simplify_eq/=. Qed.

Lemma honest_attemptTx rollback (f : Tx S unit) : honest f -> honest (attemptTx rollback f).
Proof.
  intros Hf s fs r s' fs'. unfold attemptTx.
  destruct (f s fs) as [[[[]|e] s1] fs1] eqn:E; apply Hf in E as [Hle Hs].
  - destruct (db_call _ s1 fs1) as [[[[]|e] s2] fs2] eqn:E2;
      apply (honest_begin) in E2 as [Hle2 Hs2]; intros [= <- <- <-];
      rewrite ?isSerializationError_ErrWrap; (split; [by etrans|]).
    + done.
    + intros ?%Hs2. suffix_lia.
  - intros [= <- <- <-]. by split.
Qed.

(** More fuel than faults is enough fuel, and then more changes nothing. *)
Lemma TxWithRetry_fuel_enough rollback (f : Tx S unit) n s fs :
  honest f -> (length fs < n)%nat ->
  exists out, forall m, (length fs < m)%nat -> TxWithRetry_fuel rollback m f s fs = Some out.
Proof.
  intros Hf. revert s fs. induction n as [|n IH]; intros s fs Hn; [lia|].
  destruct (beginTx s fs) as [[[[]|e] s1] fs1] eqn:E.
  2: { eexists. intros [|m] Hm; [lia|]. cbn. by rewrite E. }
  destruct (attemptTx rollback f s1 fs1) as [[r s2] fs2] eqn:E2.
  pose proof (honest_begin _ _ _ _ _ E) as [Hb _].
  pose proof (honest_attemptTx rollback f Hf _ _ _ _ _ E2) as [Ha Hs].
  destruct (isSerializationError r) eqn:Hser.
  - specialize (Hs eq_refl). destruct (IH s2 fs2 ltac:(suffix_lia)) as [out Hout].
    exists out. intros [|m] Hm; [lia|]. cbn. rewrite E, E2, Hser. apply Hout. suffix_lia.
  - eexists. intros [|m] Hm; [lia|]. cbn. by rewrite E, E2, Hser.
Qed.

(** The loop equation: the fuel is invisible. *)
Lemma TxWithRetry_unfold rollback (f : Tx S unit) s fs :
  honest f ->
  TxWithRetry rollback f s fs =
    match beginTx s fs with
    | (Err e, s', fs') => (Err (ErrWrap "TxWithRetry() begin tx err: %w" e), s', fs')
    | (Ok _, s', fs') =>
        let '(r, s'', fs'') := attemptTx rollback f s' fs' in
        if isSerializationError r then TxWithRetry rollback f s'' fs''
        else (wrap "TxWithRetry() err: %w" r, s'', fs'')
    end.
Proof.
  intros Hf. unfold TxWithRetry at 1. cbn [TxWithRetry_fuel].
  destruct (beginTx s fs) as [[[[]|e] s1] fs1] eqn:E; [|done].
  destruct (attemptTx rollback f s1 fs1) as [[r s2] fs2] eqn:E2.
  pose proof (honest_begin _ _ _ _ _ E) as [Hb _].
  pose proof (honest_attemptTx rollback f Hf _ _ _ _ _ E2) as [Ha Hs].
  destruct (isSerializationError r) eqn:Hser; [|done]. specialize (Hs eq_refl).
  destruct (TxWithRetry_fuel_enough rollback f (Datatypes.S (length fs2)) s2 fs2 Hf ltac:(lia))
    as [out Hout].
  unfold TxWithRetry. rewrite !Hout by suffix_lia. done.
Qed.

(** The error [e] is the one a call failed with. *)
Definition injected (fs : faults) (e : error) : Prop :=
  exists e0, Some e0 ∈ fs /\ errors_as_pg e = errors_as_pg e0.

Lemma injected_mono fs fs' e : fs' `suffix_of` fs -> injected fs' e -> injected fs e.
Proof. intros [k ->] (e0 & Hin & He). exists e0. split; [|done]. apply elem_of_app. by right. Qed.

Lemma db_call_injected (s : S) fs e s' fs' :
  db_call (λ x, Ok (tt, x)) s fs = (Err e, s', fs') -> injected fs e.
Proof.
  destruct fs as [|[e0|] fs]; intros; simplify_eq/=. exists e. split; [by left|done].
Qed.

(** The error [e] left the state [s']: a call failed with it, or a run of [f] did
    and was undone. *)
Definition fails_with (rollback : S -> S -> S) (f : Tx S unit) (I : S -> faults -> Prop)
    (fs : faults) (e : error) (s' : S) : Prop :=
  injected fs e \/
  exists s0 fs0 e0 s1 fs1, I s0 fs0 /\ f s0 fs0 = (Err e0, s1, fs1) /\
    s' = rollback s0 s1 /\ errors_as_pg e = errors_as_pg e0.

(** Induction over the turns of the loop.  On success the state is the one of a
    complete run of [f]; an error is one of [f], undone, or an injected one. *)
Lemma TxWithRetry_ind rollback (f : Tx S unit) (I : S -> faults -> Prop) s fs r s' fs' :
  honest f ->
  (forall s0 fs0 fs1, I s0 fs0 -> fs1 `suffix_of` fs0 -> I s0 fs1) ->
  (forall s0 fs0 r0 s1 fs1, I s0 fs0 -> f s0 fs0 = (r0, s1, fs1) -> I (rollback s0 s1) fs1) ->
  I s fs -> TxWithRetry rollback f s fs = (r, s', fs') ->
  match r with
  | Ok _ => exists s0 fs0 fs1, I s0 fs0 /\ f s0 fs0 = (Ok tt, s', fs1)
  | Err e => I s' fs' /\ fails_with rollback f I fs e s'
  end.
Proof.
  intros Hf Hsuf Hroll. remember (length fs) as n eqn:Hn.
  revert s fs Hn. induction (lt_wf n) as [n _ IH]; intros s fs -> HI.
  rewrite TxWithRetry_unfold by done.
  destruct (beginTx s fs) as [[rb s1] fs1] eqn:Eb.
  pose proof (beginTx_state _ _ _ _ _ Eb) as ->.
  pose proof (honest_begin _ _ _ _ _ Eb) as [Hlen _].
  destruct rb as [[]|e].
  2: { intros [= <- <- <-]. split; [by eauto|]. left.
       destruct (db_call_injected _ _ _ _ _ Eb) as (e0 & ? & ?). by exists e0. }
  (* a failed turn: retry, or report *)
  assert (Hturn : forall e s2 fs2, I s2 fs2 -> fs2 `suffix_of` fs ->
    (isSerializationError (A := unit) (Err e) = true -> (length fs2 < length fs)%nat) ->
    fails_with rollback f I fs e s2 ->
    (if isSerializationError (A := unit) (Err e) then TxWithRetry rollback f s2 fs2
     else (wrap "TxWithRetry() err: %w" (Err e), s2, fs2)) = (r, s', fs') ->
    match r with
    | Ok _ => exists s0 fs0 fs1, I s0 fs0 /\ f s0 fs0 = (Ok tt, s', fs1)
    | Err e => I s' fs' /\ fails_with rollback f I fs e s'
    end).
  { intros e s2 fs2 HI2 Hs2 Hser He.
    destruct (isSerializationError (Err e)) eqn:Es; [|by intros [= <- <- <-]].
    intros Hr. eapply (IH (length fs2)) in Hr; [|by apply Hser|done|done].
    destruct r as [|e']; [done|]. destruct Hr as [? [?|?]]; (split; [done|]);
      [left; by eapply injected_mono|by right]. }
  unfold attemptTx at 1. destruct (f s fs1) as [[[[]|e] s2] fs2] eqn:Ef;
    pose proof (Hf _ _ _ _ _ Ef) as [Hs2 Hser2].
  - destruct (db_call _ s2 fs2) as [[[[]|e] s3] fs3] eqn:Ec.
    + intros [= <- <- <-]. exists s, fs1, fs2. eauto.
    + pose proof (honest_begin _ _ _ _ _ Ec) as [Hs3 Hser3].
      apply Hturn.
      * apply Hsuf with fs2; [|done]. eapply Hroll; [|exact Ef]. eauto.
      * by do 2 (etrans; [eassumption|]).
      * rewrite isSerializationError_ErrWrap. intros ?%Hser3. suffix_lia.
      * left. apply (injected_mono fs fs2); [by etrans|]. apply db_call_injected in Ec as (e0 & ? & ?).
        by exists e0.
  - apply Hturn.
    + eapply Hroll; [|exact Ef]. eauto.
    + by etrans.
    + rewrite isSerializationError_ErrWrap. intros ?%Hser2. suffix_lia.
    + right. exists s, fs1, e, s2, fs2. eauto.
Qed.

Lemma honest_TxWithRetry rollback (f : Tx S unit) : honest f -> honest (TxWithRetry rollback f).
Proof.
  intros Hf s fs. remember (length fs) as n eqn:Hn.
  revert s fs Hn. induction (lt_wf n) as [n _ IH]; intros s fs -> r s' fs'.
  rewrite TxWithRetry_unfold by done.
  destruct (beginTx s fs) as [[[[]|e] s1] fs1] eqn:Eb; apply honest_begin in Eb as [Hlen Hs].
  - destruct (attemptTx rollback f s1 fs1) as [[r2 s2] fs2] eqn:Ea.
    apply (honest_attemptTx rollback f Hf) in Ea as [Hlen2 Hs2].
    destruct (isSerializationError r2) eqn:Hser.
    + specialize (Hs2 eq_refl). intros Hr.
      apply (IH (length fs2)) in Hr as [? Hs3]; [|suffix_lia|done].
      split; [by do 2 (etrans; [eassumption|])|]. intros ?%Hs3. suffix_lia.
    + intros [= <- <- <-]. rewrite isSerializationError_wrap. split; [by etrans|congruence].
  - intros [= <- <- <-]. rewrite isSerializationError_ErrWrap. by split.
Qed.

End Honest.
#[export] Hint Resolve honest_ret honest_call honest_bind honest_wrap honest_TxWithRetry : tx.

(** ** Atomicity of a transaction on one connection *)

(** C23. A transaction run by [TxWithRetry] is all or nothing whatever calls
    fail and however often it is retried: on an error the state is the one
    before, and on success it is the state that one complete run of [f] from
    there produces. *)
Theorem TxWithRetry_atomic {S} (f : Tx S unit) s fs r s' fs' :
  honest f ->
  TxWithRetry (λ before _, before) f s fs = (r, s', fs') ->
  match r with
  | Err _ => s' = s
  | Ok _ => exists fs0 fs1, f s fs0 = (Ok tt, s', fs1)
  end.
Proof.
  intros Hf Hr.
  pose proof (TxWithRetry_ind (λ before _, before) f (λ x _, x = s) s fs r s' fs' Hf) as H.
  specialize (H ltac:(by intros) ltac:(by intros) eq_refl Hr).
  destruct r as [[]|e]; [|by destruct H]. destruct H as (s0 & fs0 & fs1 & -> & H). by eauto.
Qed.

(** C38. The retry loop of [TxWithRetry] terminates: if [f] reports a
    serialization error only when a call to the database failed, the loop has
    stopped after at most one turn more than there are faults, with the outcome
    that [TxWithRetry] gives, and more fuel changes nothing. *)
Theorem TxWithRetry_terminates {S} (rollback : S -> S -> S) (f : Tx S unit) s fs :
  honest f ->
  exists out, forall fuel, (length fs < fuel)%nat ->
    TxWithRetry_fuel rollback fuel f s fs = Some out /\ TxWithRetry rollback f s fs = out.
Proof.
  intros Hf.
  destruct (TxWithRetry_fuel_enough rollback f (Datatypes.S (length fs)) s fs Hf ltac:(lia))
    as [out Hout].
  exists out. intros fuel Hfuel. split; [by apply Hout|].
  unfold TxWithRetry. by rewrite Hout by lia.
Qed.

Definition empty_tables : tables := {|
  t_block_header := ∅; t_account := ∅; t_account_asset := ∅; t_asset := ∅; t_app := ∅;
  t_account_app := ∅; t_app_box := ∅; t_metastate := ∅ |}.

Lemma honest_SetMetastate key v : honest (SetMetastate key v).
Proof. unfold SetMetastate. auto with tx. Qed.

Lemma honest_GetMetastate key : honest (GetMetastate key).
Proof.
  unfold GetMetastate. apply honest_try_bind.
  - apply honest_call. intros t. by destruct (_ !! _).
  - intros a. apply honest_ret.
  - intros e s fs r s' fs'. case_bool_decide; intros [= <- <- <-]; (split; [done|]).
    + done.
    + rewrite isSerializationError_ErrWrap. auto.
Qed.
#[export] Hint Resolve honest_SetMetastate honest_GetMetastate : tx.

(** A commit that fails with a serialization error, then a run that succeeds. *)
Definition sample_faults : faults := [None; None; Some (ErrPg SerializationFailure)].

Lemma TxWithRetry_atomic_witness :
  let f := SetMetastate "k" "v" in
  exists fs0 fs1, f empty_tables fs0 =
    (Ok tt, set_metastate empty_tables {[ "k" := "v" ]}, fs1).
Proof.
  intros f.
  apply (TxWithRetry_atomic f empty_tables sample_faults (Ok tt) _ []).
  - apply honest_SetMetastate.
  - vm_compute. reflexivity.
Defined.

Lemma TxWithRetry_terminates_witness :
  exists out, forall fuel, (3 < fuel)%nat ->
    TxWithRetry_fuel (λ before _, before) fuel (SetMetastate "k" "v") empty_tables sample_faults
      = Some out /\
    TxWithRetry (λ before _, before) (SetMetastate "k" "v") empty_tables sample_faults = out.
Proof.
  apply (TxWithRetry_terminates (λ before _, before) (SetMetastate "k" "v") empty_tables
           sample_faults), honest_SetMetastate.
Defined.
