(* ===== verification/WriteTxn.v ===== *)
(** * Writing transactions: [internal/writer/write_txn*.go]

    The rows of [txn] and [txn_participation] of a block.  Each transaction and
    each inner transaction, in preorder, has a row of [txn]; its position in
    that order is the [intra] column of both tables.  The refinement theorems
    relate both writers to one flat list of the block's transactions. *)

From S2P Require Import Prelude GoStd Sdk Idb Util Encoding Db.

(** ** Rows *)

(** A row sent to [CopyFrom] for [txn]: the key columns and the others. *)
Record txn_copy := { tc_round : Z; tc_intra : Z; tc_row : txn_row }.

(** ** The channel between [yieldTransactions] and [CopyFrom]

    [budget] is the number of rows sent before [select] chooses [ctx.Done()];
    [None]: the context is never cancelled. *)

Definition Chan (A : Type) : Type :=
  option nat -> list txn_copy -> result A * option nat * list txn_copy.

Definition ch_ret {A} (a : A) : Chan A := λ b out, (Ok a, b, out).
Definition ch_err {A} (e : error) : Chan A := λ b out, (Err e, b, out).
Definition ch_bind {A B} (m : Chan A) (k : A -> Chan B) : Chan B := λ b out,
  match m b out with
  | (Ok a, b', out') => k a b' out'
  | (Err e, b', out') => (Err e, b', out')
  end.
Definition ch_wrap {A} (fmt : string) (m : Chan A) : Chan A := λ b out,
  let '(r, b', out') := m b out in (wrap fmt r, b', out').
Definition ch_lift {A} (r : result A) : Chan A := λ b out, (r, b, out).

Definition ctxCanceled : error := ErrSentinel "context canceled".

Definition send (fmt : string) (row : txn_copy) : Chan unit := λ b out,
  match b with
  | Some O => (Err (ErrWrap fmt ctxCanceled), b, out)
  | Some (S n) => (Ok tt, Some n, out ++ [row])
  | None => (Ok tt, None, out ++ [row])
  end.

Declare Scope chan_scope.
Delimit Scope chan_scope with chan.
Notation "x <~ m ; k" := (ch_bind m (λ x, k))
  (at level 100, m at next level, right associativity) : chan_scope.

Section WriteTxn.
Context `{SdkOps} `{UnicodeOps} `{Codec signedTxnWithAD} `{Codec TxnExtra}.

(** ** [write_txn.go] *)

Definition transactionAssetID (stxnad : SignedTxnWithAD) (intra : Z) (block : option Block)
    : result Z :=
  let txn := Txn stxnad in
  (* pre v30 transactions: the position in the payset gives the id *)
  let created (missing : string) :=
    match block with
    | None => Err (ErrMsg missing)
    | Some block =>
        Ok (wrap64 (BH_TxnCounter (B_Header block) - Z.of_nat (length (B_Payset block))
                    + intra + 1))
    end in
  let or_created (first second : Z) (missing : string) :=
    if first =? 0 then if second =? 0 then created missing else Ok second else Ok first in
  if bool_decide (T_Type txn = ApplicationCallTx) then
    or_created (A_ApplicationID (T_Application txn)) (AD_ApplicationID (STAD_ApplyData stxnad))
      "transactionAssetID(): Missing ApplicationID for transaction: %s"
  else if bool_decide (T_Type txn = AssetConfigTx) then
    or_created (C_ConfigAsset (T_AssetConfig txn)) (AD_ConfigAsset (STAD_ApplyData stxnad))
      "transactionAssetID(): Missing ConfigAsset for transaction: %s"
  else if bool_decide (T_Type txn = AssetTransferTx) then Ok (X_XferAsset (T_AssetTransfer txn))
  else if bool_decide (T_Type txn = AssetFreezeTx) then Ok (F_FreezeAsset (T_AssetFreeze txn))
  else Ok 0.

Definition set_InnerTxns (ed : EvalDeltaT) (inner : option (list SignedTxnWithAD)) : EvalDeltaT := {|
  ED_GlobalDelta := ED_GlobalDelta ed; ED_LocalDeltas := ED_LocalDeltas ed;
  ED_SharedAccts := ED_SharedAccts ed; ED_Logs := ED_Logs ed; ED_InnerTxns := inner |}.

(** [txnNoInner]: the transaction without its inner transactions. *)
Definition no_inner (s : SignedTxnWithAD) : SignedTxnWithAD :=
  let ad := STAD_ApplyData s in
  StxnAD (STAD_SignedTxn s) (set_EvalDelta ad (set_InnerTxns (AD_EvalDelta ad) None)).

(** The row of an inner transaction. *)
Definition inner_row (block : Block) (itxn : SignedTxnWithAD) (intra rootIntra : Z)
    (rootTxid : string) : result txn_copy :=
  match GetTypeEnum (T_Type (Txn itxn)) with
  | None => Err (ErrMsg "yieldInnerTransactions() get type enum")
  | Some typeenum =>
      assetid ← transactionAssetID itxn 0 None;
      let extra := {| AssetCloseAmount := AD_AssetClosingAmount (STAD_ApplyData itxn);
                      RootIntra := {| OU_Present := true; OU_Value := rootIntra |};
                      RootTxid := rootTxid |} in
      Ok {| tc_round := B_Round block; tc_intra := intra;
            tc_row := {| txr_typeenum := typeenum; txr_asset := assetid; txr_txid := None;
                         txr_txn := EncodeSignedTxnWithAD (no_inner itxn);
                         txr_extra := EncodeTxnExtra extra |} |}
  end.

Local Open Scope chan_scope.

(** The loop over [InnerTxns]; [recurse] is the recursive call at its end. *)
Definition yield_loop (recurse : SignedTxnWithAD -> Z -> Chan Z) (block : Block) (rootIntra : Z)
    (rootTxid : string) : list SignedTxnWithAD -> Z -> Chan Z :=
  fix loop (inner : list SignedTxnWithAD) (intra : Z) : Chan Z :=
    match inner with
    | [] => ch_ret intra
    | itxn :: rest =>
        row <~ ch_lift (inner_row block itxn intra rootIntra rootTxid);
        _ <~ send "yieldInnerTransactions() ctx.Err(): %w" row;
        intra' <~ recurse itxn (intra + 1);
        loop rest intra'
    end.

Fixpoint yieldInnerTransactions (stxnad : SignedTxnWithAD) (block : Block)
    (intra rootIntra : Z) (rootTxid : string) : Chan Z :=
  match stxnad with
  | StxnAD _ ad =>
      match ED_InnerTxns (AD_EvalDelta ad) with
      | None => ch_ret intra
      | Some l =>
          yield_loop (λ itxn intra, yieldInnerTransactions itxn block intra rootIntra rootTxid)
            block rootIntra rootTxid l intra
      end
  end.

Definition SignedTransactionFromBlockPayout (block : Block) : SignedTxnWithAD :=
  let bh := B_Header block in
  StxnAD
    {| ST_Sig := zeroSignature; ST_Msig := Zero.msig; ST_Lsig := Zero.lsig;
       ST_Txn := {|
         T_Type := PaymentTx;
         T_Header := {|
           H_Sender := BH_FeeSink bh; H_Fee := 0; H_FirstValid := BH_Round bh;
           H_LastValid := BH_Round bh;
           H_Note := ("ProposerPayout for Round " ++ FormatUint (BH_Round bh))%string;
           H_GenesisID := BH_GenesisID bh; H_GenesisHash := BH_GenesisHash bh;
           H_Group := zeroDigest; H_Lease := zeros 32; H_RekeyTo := zeroAddress |};
         T_Keyreg := Zero.keyreg;
         T_Payment := {| P_Receiver := BH_Proposer bh; P_Amount := BH_ProposerPayout bh;
                         P_CloseRemainderTo := zeroAddress |};
         T_AssetConfig := Zero.assetConfig; T_AssetTransfer := Zero.assetTransfer;
         T_AssetFreeze := Zero.assetFreeze; T_Application := Zero.application;
         T_StateProof := Zero.stateProof; T_Heartbeat := Zero.heartbeat |};
       ST_AuthAddr := zeroAddress |}
    Zero.applyData.

(** The row of a transaction of the payset. *)
Definition root_row (block : Block) (modifiedTxns : list SignedTxnInBlock) (idx : nat)
    (stib : SignedTxnInBlock) (intra : Z) : result (txn_copy * string) :=
  '(st, ad) ← wrap "yieldTransactions() decode signed txn err: %w"
                (DecodeSignedTxn (B_Header block) stib);
  let stxnad := StxnAD st ad in
  match GetTypeEnum (T_Type (Txn stxnad)) with
  | None => Err (ErrMsg "yieldTransactions() get type enum")
  | Some typeenum =>
      assetid ← transactionAssetID stxnad intra (Some block);
      let id := TransactionIDString (Txn stxnad) in
      match modifiedTxns !! idx with
      | None => Err (ErrPanic "index out of range")
      | Some m =>
          let extra := {| AssetCloseAmount := AD_AssetClosingAmount (SIB_ApplyData m);
                          RootIntra := absentUint; RootTxid := "" |} in
          Ok ({| tc_round := B_Round block; tc_intra := intra;
                 tc_row := {| txr_typeenum := typeenum; txr_asset := assetid;
                              txr_txid := Some id; txr_txn := EncodeSignedTxnWithAD stxnad;
                              txr_extra := EncodeTxnExtra extra |} |}, id)
      end
  end.

(** The loop over the payset, from index [idx] on. *)
Fixpoint yield_payset (block : Block) (modifiedTxns payset : list SignedTxnInBlock)
    (idx : nat) (intra : Z) : Chan Z :=
  match payset with
  | [] => ch_ret intra
  | stib :: rest =>
      row_id <~ ch_lift (root_row block modifiedTxns idx stib intra);
      _ <~ send "yieldTransactions() ctx.Err(): %w" row_id.1;
      intra' <~ ch_wrap "yieldTransactions() adding inner: %w"
                  (yieldInnerTransactions (SIB_SignedTxnWithAD stib) block (intra + 1) intra
                     row_id.2);
      yield_payset block modifiedTxns rest (S idx) intra'
  end.

Definition payout_row (block : Block) (intra : Z) : result txn_copy :=
  let stxnad := SignedTransactionFromBlockPayout block in
  match GetTypeEnum (T_Type (Txn stxnad)) with
  | None => Err (ErrMsg "yieldTransactions() ProposerPayout get type enum - should NEVER happen")
  | Some typeenum =>
      let extra := {| AssetCloseAmount := 0; RootIntra := absentUint; RootTxid := "" |} in
      Ok {| tc_round := B_Round block; tc_intra := intra;
            tc_row := {| txr_typeenum := typeenum; txr_asset := 0;
                         txr_txid := Some (TransactionIDString (Txn stxnad));
                         txr_txn := EncodeSignedTxnWithAD stxnad;
                         txr_extra := EncodeTxnExtra extra |} |}
  end.

Definition yieldTransactions (block : Block) (modifiedTxns : list SignedTxnInBlock) : Chan unit :=
  intra <~ yield_payset block modifiedTxns (B_Payset block) 0 0;
  if 0 <? BH_ProposerPayout (B_Header block) then
    row <~ ch_lift (payout_row block intra);
    send "yieldTransactions() ProposerPayout ctx.Err(): %w" row
  else ch_ret tt.

End WriteTxn.

(** ** [AddTransactions] *)

(** [integer] columns are 32 bits wide. *)
Definition txn_copy_fits (r : txn_copy) : bool :=
  fits_bigint (tc_round r) && (0 <=? tc_intra r) && (tc_intra r <? 2 ^ 31) &&
  fits_bigint (txr_asset (tc_row r)).

(** COPY: all rows or, on an error, none. *)
Fixpoint copy_txn (rows : list txn_copy) (t : gmap (Z * Z) txn_row)
    : result (gmap (Z * Z) txn_row) :=
  match rows with
  | [] => Ok t
  | r :: rest =>
      if negb (txn_copy_fits r) then Err errBigint
      else match t !! (tc_round r, tc_intra r) with
           | Some _ => Err (ErrPg UniqueViolation)
           | None => copy_txn rest (<[(tc_round r, tc_intra r) := tc_row r]> t)
           end
  end.

Definition set_txn (s : txn_tables) (t : gmap (Z * Z) txn_row) : txn_tables :=
  {| t_txn := t; t_txn_participation := t_txn_participation s |}.

Section AddTransactions.
Context `{SdkOps} `{UnicodeOps} `{Codec signedTxnWithAD} `{Codec TxnExtra}.

(** The context is cancelled only when [AddTransactions] returns, after which
    nobody reads [err0]: the goroutine's result that matters is the one of a run
    that is not cancelled. *)
Definition AddTransactions (block : Block) (modifiedTxns : list SignedTxnInBlock)
    : Tx txn_tables unit :=
  let '(err0, _, rows) := yieldTransactions block modifiedTxns None [] in
  (tx_wrap "addTransactions() copy from err: %w"
     (db_call (λ s, t ← copy_txn rows (t_txn s); Ok (tt, set_txn s t)));;;
   match err0 with
   | Ok _ => tx_ret tt
   | Err e => tx_err (ErrWrap "addTransactions() err: %w" e)
   end)%tx.

End AddTransactions.

(** ** [write_txn_participation.go] *)

(** [range] over a Go map visits the keys in some order. *)
Class MapOrder := {
  range_keys : gset Address -> list Address;
  range_keys_perm : forall X, range_keys X ≡ₚ elements X }.

Section Participation.
Context `{SdkOps} `{MapOrder}.

(** The calls of [add], in order. *)
Definition direct_participants (txn : Transaction) : list Address :=
  let unless_zero (a : Address) := if Address_IsZero a then [] else [a] in
  H_Sender (T_Header txn) ::
  (if bool_decide (T_Type txn = PaymentTx) then
     P_Receiver (T_Payment txn) :: unless_zero (P_CloseRemainderTo (T_Payment txn))
   else if bool_decide (T_Type txn = AssetTransferTx) then
     unless_zero (X_AssetSender (T_AssetTransfer txn)) ++
     [X_AssetReceiver (T_AssetTransfer txn)] ++
     unless_zero (X_AssetCloseTo (T_AssetTransfer txn))
   else if bool_decide (T_Type txn = AssetFreezeTx) then
     [F_FreezeAccount (T_AssetFreeze txn)]
   else if bool_decide (T_Type txn = ApplicationCallTx) then A_Accounts (T_Application txn)
   else if bool_decide (T_Type txn = HeartbeatTx) then [HB_HbAddress (T_Heartbeat txn)]
   else []).

Fixpoint addTransactionParticipants {R} (stxnad : SignedTxnWithAD) (includeInner : bool)
    (add : Address -> R -> R) (acc : R) : R :=
  match stxnad with
  | StxnAD st ad =>
      let acc := foldl (λ acc a, add a acc) acc (direct_participants (ST_Txn st)) in
      if includeInner then
        match ED_InnerTxns (AD_EvalDelta ad) with
        | None => acc
        | Some l =>
            foldl (λ acc inner, addTransactionParticipants inner includeInner add acc) acc l
        end
      else acc
  end.

Definition getTransactionParticipants (stxnad : SignedTxnWithAD) (includeInner : bool)
    : list Address :=
  if negb includeInner || bool_decide (InnerTxns stxnad = []) then
    (* a slice with in-place de-duplication *)
    addTransactionParticipants stxnad includeInner
      (λ address res, if bool_decide (address ∈ res) then res else res ++ [address]) []
  else
    let participants := addTransactionParticipants stxnad includeInner
      (λ address participants, {[ address ]} ∪ participants) (∅ : gset Address) in
    range_keys participants.

Abbreviation part_row := (Address * Z * Z)%type (only parsing).

Definition participation_rows (participants : list Address) (round next : Z) : list part_row :=
  map (λ a, (a, round, next)) participants.

Fixpoint addInnerTransactionParticipation (stxnad : SignedTxnWithAD) (round intra : Z)
    (rows : list part_row) : Z * list part_row :=
  match stxnad with
  | StxnAD _ ad =>
      match ED_InnerTxns (AD_EvalDelta ad) with
      | None => (intra, rows)
      | Some l =>
          foldl (λ '(next, rows) itxn,
            addInnerTransactionParticipation itxn round (next + 1)
              (rows ++ participation_rows (getTransactionParticipants itxn false) round next))
            (intra, rows) l
      end
  end.

(** The rows handed to [CopyFrom]. *)
Definition block_participation (block : Block) : list part_row :=
  let round := B_Round block in
  let '(next, rows) :=
    foldl (λ '(next, rows) stxnib,
      let s := SIB_SignedTxnWithAD stxnib in
      addInnerTransactionParticipation s round (next + 1)
        (rows ++ participation_rows (getTransactionParticipants s true) round next))
      (0, []) (B_Payset block) in
  if 0 <? BH_ProposerPayout (B_Header block) then
    rows ++ participation_rows [BH_FeeSink (B_Header block); BH_Proposer (B_Header block)]
              round next
  else rows.

Definition part_row_fits (r : part_row) : bool :=
  let '(_, round, intra) := r in fits_bigint round && (0 <=? intra) && (intra <? 2 ^ 31).

(** COPY into a table with a unique index on all three columns. *)
Fixpoint copy_participation (rows : list part_row) (t : gset (Address * Z * Z))
    : result (gset (Address * Z * Z)) :=
  match rows with
  | [] => Ok t
  | r :: rest =>
      if negb (part_row_fits r) then Err errBigint
      else if bool_decide (r ∈ t) then Err (ErrPg UniqueViolation)
      else copy_participation rest ({[ r ]} ∪ t)
  end.

Definition set_participation (s : txn_tables) (t : gset (Address * Z * Z)) : txn_tables :=
  {| t_txn := t_txn s; t_txn_participation := t |}.

Definition AddTransactionParticipation (block : Block) : Tx txn_tables unit :=
  tx_wrap "addTransactionParticipation() copy from err: %w"
    (db_call (λ s,
      t ← copy_participation (block_participation block) (t_txn_participation s);
      Ok (tt, set_participation s t))).

End Participation.

(** ** The specification: a block as one flat list of transactions *)

(** The inner transactions of [s], at every depth, in preorder. *)
Fixpoint preorder (s : SignedTxnWithAD) : list SignedTxnWithAD :=
  match s with
  | StxnAD _ ad =>
      match ED_InnerTxns (AD_EvalDelta ad) with
      | None => []
      | Some l => flat_map (λ i, i :: preorder i) l
      end
  end.

Inductive entry :=
| Root (idx : nat) (stib : SignedTxnInBlock)
| Inner (root : SignedTxnInBlock) (rootIntra : Z) (itxn : SignedTxnWithAD)
| Payout.

Fixpoint payset_entries (payset : list SignedTxnInBlock) (idx : nat) (intra : Z) : list entry :=
  match payset with
  | [] => []
  | stib :: rest =>
      let inner := preorder (SIB_SignedTxnWithAD stib) in
      Root idx stib :: map (Inner stib intra) inner ++
      payset_entries rest (S idx) (intra + 1 + Z.of_nat (length inner))
  end.

Definition entries (block : Block) : list entry :=
  payset_entries (B_Payset block) 0 0 ++
  (if 0 <? BH_ProposerPayout (B_Header block) then [Payout] else []).

(** [f n x0; f (n+1) x1; ...], stopping at the first error. *)
Fixpoint numbered {A B} (f : Z -> A -> result B) (n : Z) (l : list A) : result (list B) :=
  match l with
  | [] => Ok []
  | x :: l' => y ← f n x; ys ← numbered f (n + 1) l'; Ok (y :: ys)
  end.

Lemma numbered_app {A B} (f : Z -> A -> result B) n l1 l2 :
  numbered f n (l1 ++ l2) =
    (ys1 ← numbered f n l1; ys2 ← numbered f (n + Z.of_nat (length l1)) l2; Ok (ys1 ++ ys2)).
Proof.
  revert n. induction l1 as [|x l1 IH]; intros n.
  - cbn. rewrite Z.add_0_r. by destruct (numbered f n l2).
  - replace (n + Z.of_nat (length (x :: l1))) with (n + 1 + Z.of_nat (length l1))
      by (cbn [length]; lia).
    cbn. destruct (f n x); cbn; [|done]. rewrite IH.
    destruct (numbered f (n + 1) l1); cbn; [|done].
    by destruct (numbered f _ l2).
Qed.

Lemma numbered_map {A B C} (f : Z -> B -> result C) (g : A -> B) n l :
  numbered f n (map g l) = numbered (λ n x, f n (g x)) n l.
Proof. revert n. induction l as [|x l IH]; intros n; cbn; [done|]. by rewrite IH. Qed.

Lemma numbered_lookup {A B} (f : Z -> A -> result B) n l ys i y :
  numbered f n l = Ok ys -> ys !! i = Some y ->
  exists x, l !! i = Some x /\ f (n + Z.of_nat i) x = Ok y.
Proof.
  revert n ys i. induction l as [|x l IH]; intros n ys i; cbn; [intros [= <-]; done|].
  destruct (f n x) as [y0|] eqn:E; cbn; [|done].
  destruct (numbered f (n + 1) l) as [ys0|] eqn:E2; cbn; [|done]. intros [= <-].
  destruct i as [|i].
  - cbn. intros [= <-]. exists x. by rewrite Z.add_0_r.
  - intros Hi. destruct (IH _ _ _ E2 Hi) as (x' & ? & Hf). exists x'. split; [done|].
    by replace (n + Z.of_nat (S i)) with (n + 1 + Z.of_nat i) by lia.
Qed.

Lemma numbered_length {A B} (f : Z -> A -> result B) n l ys :
  numbered f n l = Ok ys -> length ys = length l.
Proof.
  revert n ys. induction l as [|x l IH]; intros n ys; cbn; [by intros [= <-]|].
  destruct (f n x); cbn; [|done].
  destruct (numbered f (n + 1) l) eqn:E; cbn; [|done]. intros [= <-]. cbn. f_equal. eauto.
Qed.

Lemma preorder_unfold s : preorder s = flat_map (λ i, i :: preorder i) (InnerTxns s).
Proof. by destruct s as [st [ca aca sr rr cr [gd ld sa lg [inner|]] ca' ap]]. Qed.

Lemma length_preorder s : length (preorder s) = countInner s.
Proof.
  induction s as [s IH] using SignedTxnWithAD_rect_inner.
  rewrite preorder_unfold, countInner_unfold.
  induction IH as [|i l Hi _ IHl]; cbn; [done|]. rewrite length_app, IHl, Hi. lia.
Qed.

Section Refinement.
Context `{SdkOps} `{UnicodeOps} `{Codec signedTxnWithAD} `{Codec TxnExtra}.

(** The id of the transaction at the root of an entry. *)
Definition root_txid (block : Block) (stib : SignedTxnInBlock) : string :=
  match DecodeSignedTxn (B_Header block) stib with
  | Ok (st, _) => TransactionIDString (ST_Txn st)
  | Err _ => ""
  end.

(** The row of [txn] an entry stands for, at position [intra]. *)
Definition entry_row (block : Block) (modifiedTxns : list SignedTxnInBlock) (intra : Z)
    (e : entry) : result txn_copy :=
  match e with
  | Root idx stib => fst <$> root_row block modifiedTxns idx stib intra
  | Inner root rootIntra itxn => inner_row block itxn intra rootIntra (root_txid block root)
  | Payout => payout_row block intra
  end.

Lemma ch_bind_ok {A B} (m : Chan A) (k : A -> Chan B) b out a b' out' :
  m b out = (Ok a, b', out') -> ch_bind m k b out = k a b' out'.
Proof. unfold ch_bind. by intros ->. Qed.

Lemma ch_bind_err {A B} (m : Chan A) (k : A -> Chan B) b out e b' out' :
  m b out = (Err e, b', out') -> ch_bind m k b out = (Err e, b', out').
Proof. unfold ch_bind. by intros ->. Qed.

(** What a traversal that yields the rows [rows] and counts [n] of them does to
    the channel. *)
Definition yields {A} (m : Chan A) (rows : result (list txn_copy)) (a : A) : Prop :=
  forall out,
  match rows with
  | Ok ys => m None out = (Ok a, None, out ++ ys)
  | Err _ => exists e out', m None out = (Err e, None, out')
  end.

Lemma yieldInner_step block rootIntra rootTxid l intra :
  Forall (λ i, forall intra,
    yields (yieldInnerTransactions i block intra rootIntra rootTxid)
      (numbered (λ n x, inner_row block x n rootIntra rootTxid) intra (preorder i))
      (intra + Z.of_nat (length (preorder i)))) l ->
  yields (yield_loop (λ itxn intra, yieldInnerTransactions itxn block intra rootIntra rootTxid)
            block rootIntra rootTxid l intra)
    (numbered (λ n x, inner_row block x n rootIntra rootTxid) intra
       (flat_map (λ i, i :: preorder i) l))
    (intra + Z.of_nat (length (flat_map (λ i, i :: preorder i) l))).
Proof.
  intros Hl.
  revert intra. induction Hl as [|i l Hi _ IH]; intros intra out.
  - cbn. by rewrite app_nil_r, Z.add_0_r.
  - cbn [yield_loop flat_map app length numbered].
    destruct (inner_row block i intra rootIntra rootTxid) as [row|e] eqn:Er;
      cbn [mbind result_bind]; [|do 2 eexists; by apply ch_bind_err].
    erewrite ch_bind_ok by done. erewrite ch_bind_ok by done.
    rewrite numbered_app. specialize (Hi (intra + 1) (out ++ [row])).
    destruct (numbered _ (intra + 1) (preorder i)) as [ys1|e1]; cbn [mbind result_bind].
    2: { destruct Hi as (e & out' & Hi). do 2 eexists. by apply ch_bind_err. }
    erewrite ch_bind_ok by done.
    specialize (IH (intra + 1 + Z.of_nat (length (preorder i))) ((out ++ [row]) ++ ys1)).
    destruct (numbered _ _ (flat_map _ l)) as [ys2|e2]; cbn [mbind result_bind]; [|done].
    etrans; [exact IH|]. rewrite length_app, <-!app_assoc. cbn. do 3 f_equal. lia.
Qed.

Lemma yieldInnerTransactions_yields s block intra rootIntra rootTxid :
  yields (yieldInnerTransactions s block intra rootIntra rootTxid)
    (numbered (λ n x, inner_row block x n rootIntra rootTxid) intra (preorder s))
    (intra + Z.of_nat (length (preorder s))).
Proof.
  revert intra. induction s as [s IH] using SignedTxnWithAD_rect_inner. intros intra.
  rewrite preorder_unfold. destruct s as [st ad]. unfold InnerTxns in *; cbn in *.
  destruct (ED_InnerTxns (AD_EvalDelta ad)) as [l|] eqn:E; cbn in *.
  - by apply yieldInner_step.
  - intros out. cbn. by rewrite app_nil_r, Z.add_0_r.
Qed.

Lemma root_row_txid block modifiedTxns idx stib intra row id :
  root_row block modifiedTxns idx stib intra = Ok (row, id) -> id = root_txid block stib.
Proof.
  unfold root_row, root_txid. destruct (DecodeSignedTxn _ _) as [[st ad]|]; [|done].
  cbn. destruct (GetTypeEnum _); [|done].
  destruct (transactionAssetID _ _ _); [|done]. cbn. by destruct (_ !! idx); intros [= <- <-].
Qed.

Lemma yield_payset_yields block modifiedTxns payset idx intra :
  yields (yield_payset block modifiedTxns payset idx intra)
    (numbered (entry_row block modifiedTxns) intra (payset_entries payset idx intra))
    (intra + Z.of_nat (length (payset_entries payset idx intra))).
Proof.
  revert idx intra. induction payset as [|stib rest IH]; intros idx intra out;
    cbn [numbered entry_row fmap result_fmap mbind result_bind yield_payset payset_entries fst snd length].
  - cbn. by rewrite app_nil_r, Z.add_0_r.
  - destruct (root_row block modifiedTxns idx stib intra) as [[row id]|e] eqn:Er;
      cbn [numbered entry_row fmap result_fmap mbind result_bind yield_payset payset_entries fst snd length];
      [|do 2 eexists; by apply ch_bind_err].
    erewrite ch_bind_ok by done. erewrite ch_bind_ok by done.
    apply root_row_txid in Er as ->.
    rewrite numbered_app, numbered_map, length_map.
    cbn [numbered entry_row fmap result_fmap mbind result_bind yield_payset payset_entries fst snd length].
    pose proof (yieldInnerTransactions_yields (SIB_SignedTxnWithAD stib) block (intra + 1) intra
      (root_txid block stib) (out ++ [row])) as Hi.
    destruct (numbered _ (intra + 1) (preorder _)) as [ys1|e1]; cbn [mbind result_bind].
    2: { destruct Hi as (e & out' & Hi). do 2 eexists. apply ch_bind_err.
         unfold ch_wrap. by rewrite Hi. }
    erewrite ch_bind_ok by (unfold ch_wrap; by rewrite Hi).
    set (n := intra + 1 + Z.of_nat (length (preorder (SIB_SignedTxnWithAD stib)))).
    specialize (IH (S idx) n ((out ++ [row]) ++ ys1)).
    destruct (numbered _ n _) as [ys2|e2]; cbn [mbind result_bind]; [|done].
    rewrite IH, length_app, length_map, <-!app_assoc. cbn. do 3 f_equal. lia.
Qed.

Lemma yieldTransactions_yields block modifiedTxns :
  yields (yieldTransactions block modifiedTxns)
    (numbered (entry_row block modifiedTxns) 0 (entries block)) tt.
Proof.
  intros out. unfold yieldTransactions, entries. rewrite numbered_app.
  pose proof (yield_payset_yields block modifiedTxns (B_Payset block) 0 0 out) as Hp.
  destruct (numbered _ 0 (payset_entries _ _ _)) as [ys|e]; cbn [mbind result_bind].
  2: { destruct Hp as (e' & out' & Hp). do 2 eexists. by apply ch_bind_err. }
  erewrite ch_bind_ok by done. rewrite Z.add_0_l.
  destruct (0 <? _); cbn [numbered entry_row mbind result_bind];
    [|by rewrite app_nil_r].
  destruct (payout_row _ _) eqn:Er; cbn [mbind result_bind];
    [|do 2 eexists; by apply ch_bind_err].
  erewrite ch_bind_ok by done. cbn. by rewrite app_assoc.
Qed.
End Refinement.

(** ** Participation, against the same list *)

Fixpoint concat_numbered {A B} (f : Z -> A -> list B) (n : Z) (l : list A) : list B :=
  match l with
  | [] => []
  | x :: l' => f n x ++ concat_numbered f (n + 1) l'
  end.

Lemma concat_numbered_app {A B} (f : Z -> A -> list B) n l1 l2 :
  concat_numbered f n (l1 ++ l2) =
    concat_numbered f n l1 ++ concat_numbered f (n + Z.of_nat (length l1)) l2.
Proof.
  revert n. induction l1 as [|x l1 IH]; intros n.
  - cbn. by rewrite Z.add_0_r.
  - replace (n + Z.of_nat (length (x :: l1))) with (n + 1 + Z.of_nat (length l1))
      by (cbn [length]; lia).
    cbn. by rewrite IH, app_assoc.
Qed.

Lemma concat_numbered_map {A B C} (f : Z -> B -> list C) (g : A -> B) n l :
  concat_numbered f n (map g l) = concat_numbered (λ n x, f n (g x)) n l.
Proof. revert n. induction l as [|x l IH]; intros n; cbn; [done|]. by rewrite IH. Qed.

Lemma elem_of_concat_numbered {A B} (f : Z -> A -> list B) n l y :
  y ∈ concat_numbered f n l <->
    exists i x, l !! i = Some x /\ y ∈ f (n + Z.of_nat i) x.
Proof.
  revert n. induction l as [|x l IH]; intros n; cbn [concat_numbered].
  - split; [by intros ?%elem_of_nil|]. by intros (i & x & ? & _).
  - rewrite elem_of_app, IH. split.
    + intros [Hy|(i & x' & Hi & Hy)].
      * exists 0%nat, x. by rewrite Z.add_0_r.
      * exists (S i), x'. split; [done|].
        by replace (n + Z.of_nat (S i)) with (n + 1 + Z.of_nat i) by lia.
    + intros ([|i] & x' & Hi & Hy).
      * simplify_eq/=. rewrite Z.add_0_r in Hy. auto.
      * right. exists i, x'. split; [done|].
        by replace (n + 1 + Z.of_nat i) with (n + Z.of_nat (S i)) by lia.
Qed.

(** Blocks with different numbers share no row, so the concatenation repeats
    nothing if no block does. *)
Lemma NoDup_concat_numbered {A B} (f : Z -> A -> list B) (num : B -> Z) n l :
  (forall m x y, y ∈ f m x -> num y = m) ->
  (forall m x, x ∈ l -> NoDup (f m x)) ->
  NoDup (concat_numbered f n l).
Proof.
  intros Hnum. revert n. induction l as [|x l IH]; intros n Hl; cbn; [constructor|].
  apply NoDup_app. split_and!.
  - apply Hl. by left.
  - intros y Hy (i & x' & _ & Hy')%elem_of_concat_numbered.
    apply Hnum in Hy, Hy'. lia.
  - apply IH. intros m x' Hx'. apply Hl. by right.
Qed.

Section ParticipationSpec.
Context `{SdkOps} `{MapOrder}.

Definition entry_participants (block : Block) (e : entry) : list Address :=
  match e with
  | Root _ stib => getTransactionParticipants (SIB_SignedTxnWithAD stib) true
  | Inner _ _ itxn => getTransactionParticipants itxn false
  | Payout => [BH_FeeSink (B_Header block); BH_Proposer (B_Header block)]
  end.

Lemma addInner_eq s round intra rows :
  addInnerTransactionParticipation s round intra rows =
    (intra + Z.of_nat (length (preorder s)),
     rows ++ concat_numbered (λ n i,
       participation_rows (getTransactionParticipants i false) round n) intra (preorder s)).
Proof.
  revert intra rows. induction s as [s IH] using SignedTxnWithAD_rect_inner. intros intra rows.
  rewrite preorder_unfold. destruct s as [st ad]. unfold InnerTxns in *; cbn in *.
  destruct (ED_InnerTxns (AD_EvalDelta ad)) as [l|]; cbn in *.
  2: { by rewrite app_nil_r, Z.add_0_r. }
  revert intra rows. induction IH as [|i l Hi _ IHl]; intros intra rows; cbn [foldl flat_map].
  { cbn. by rewrite app_nil_r, Z.add_0_r. }
  rewrite Hi, IHl. cbn [app concat_numbered length].
  rewrite concat_numbered_app, length_app, <-!app_assoc. f_equal. lia.
Qed.

Lemma payset_participation_eq block round payset idx next rows :
  foldl (λ '(next, rows) stxnib,
      let s := SIB_SignedTxnWithAD stxnib in
      addInnerTransactionParticipation s round (next + 1)
        (rows ++ participation_rows (getTransactionParticipants s true) round next))
      (next, rows) payset =
    (next + Z.of_nat (length (payset_entries payset idx next)),
     rows ++ concat_numbered (λ n e, participation_rows (entry_participants block e) round n)
               next (payset_entries payset idx next)).
Proof.
  revert idx next rows. induction payset as [|stib rest IH]; intros idx next rows.
  { cbn. by rewrite app_nil_r, Z.add_0_r. }
  cbn [foldl payset_entries]. rewrite addInner_eq, (IH (S idx)).
  cbn [concat_numbered length entry_participants].
  rewrite concat_numbered_app, concat_numbered_map, length_app, length_map, <-!app_assoc.
  f_equal. lia.
Qed.

Lemma block_participation_eq block :
  block_participation block =
    concat_numbered (λ n e, participation_rows (entry_participants block e) (B_Round block) n)
      0 (entries block).
Proof.
  unfold block_participation, entries.
  rewrite (payset_participation_eq block _ _ 0), concat_numbered_app, Z.add_0_l. cbn [app].
  destruct (0 <? _); cbn [concat_numbered entry_participants].
  - by rewrite !app_nil_r.
  - by rewrite app_nil_r.
Qed.

(** *** De-duplication *)

(** Every address a transaction names, with those of its inner transactions. *)
Definition all_participants (s : SignedTxnWithAD) (includeInner : bool) : list Address :=
  direct_participants (Txn s) ++
  (if includeInner then flat_map (λ i, direct_participants (Txn i)) (preorder s) else []).

Lemma foldl_flat_map {A B R} (g : A -> list B) (add : R -> B -> R) acc l :
  foldl (λ acc a, foldl add acc (g a)) acc l = foldl add acc (flat_map g l).
Proof.
  revert acc. induction l as [|a l IH]; intros acc; cbn; [done|]. by rewrite foldl_app, IH.
Qed.

Lemma addTransactionParticipants_eq {R} s includeInner (add : Address -> R -> R) acc :
  addTransactionParticipants s includeInner add acc =
    foldl (λ acc a, add a acc) acc (all_participants s includeInner).
Proof.
  unfold all_participants. destruct includeInner.
  2: { destruct s as [st ad]. cbn [addTransactionParticipants]. by rewrite app_nil_r. }
  revert acc. induction s as [s IH] using SignedTxnWithAD_rect_inner. intros acc.
  rewrite preorder_unfold, foldl_app. destruct s as [st ad].
  unfold InnerTxns in IH |- *; cbn [addTransactionParticipants STAD_ApplyData] in IH |- *.
  change (Txn (StxnAD st ad)) with (ST_Txn st).
  generalize (foldl (λ acc a, add a acc) acc (direct_participants (ST_Txn st))). clear acc.
  destruct (ED_InnerTxns (AD_EvalDelta ad)) as [l|]; cbn in *; [|done].
  induction IH as [|i l Hi _ IHl]; intros acc; cbn [foldl flat_map]; [done|].
  rewrite Hi, IHl. cbn [flat_map app]. by rewrite !flat_map_app, !foldl_app.
Qed.

Lemma foldl_dedup (l acc : list Address) :
  NoDup acc ->
  let res := foldl (λ res a, if bool_decide (a ∈ res) then res else res ++ [a]) acc l in
  NoDup res /\ forall a, a ∈ res <-> a ∈ acc \/ a ∈ l.
Proof.
  revert acc. induction l as [|x l IH]; intros acc Hacc; cbn.
  - split; [done|]. set_solver.
  - case_bool_decide as Hx.
    + destruct (IH acc Hacc) as [? Hin]. split; [done|]. set_solver.
    + destruct (IH (acc ++ [x])) as [? Hin]; [|split; [done|]; set_solver].
      apply NoDup_app. split_and!; [done|set_solver|apply NoDup_singleton].
Qed.

Lemma foldl_union (l : list Address) (acc : gset Address) :
  foldl (λ X a, {[ a ]} ∪ X) acc l = acc ∪ list_to_set l.
Proof. revert acc. induction l as [|x l IH]; intros acc; cbn; [|rewrite IH]; set_solver. Qed.

Lemma getTransactionParticipants_spec s includeInner :
  NoDup (getTransactionParticipants s includeInner) /\
  forall a, a ∈ getTransactionParticipants s includeInner <->
            a ∈ all_participants s includeInner.
Proof.
  unfold getTransactionParticipants. rewrite !addTransactionParticipants_eq.
  destruct (_ || _).
  - destruct (foldl_dedup (all_participants s includeInner) [] ltac:(constructor)) as [? Hin].
    split; [done|]. intros a. rewrite Hin. set_solver.
  - rewrite foldl_union. split.
    + rewrite range_keys_perm. apply NoDup_elements.
    + intros a. rewrite range_keys_perm, elem_of_elements. set_solver.
Qed.
End ParticipationSpec.

(** ** What the tables contain *)

Lemma payset_entries_root payset idx intra i root rootIntra itxn :
  payset_entries payset idx intra !! i = Some (Inner root rootIntra itxn) ->
  exists j k, rootIntra = intra + Z.of_nat j /\ (j < i)%nat /\
    payset_entries payset idx intra !! j = Some (Root (idx + k) root) /\
    payset !! k = Some root.
Proof.
  revert idx intra i. induction payset as [|stib rest IH]; intros idx intra i; [done|].
  destruct i as [|i]; [done|]. cbn [payset_entries lookup list_lookup].
  set (inner := preorder (SIB_SignedTxnWithAD stib)).
  intros [Hi|[Hlen Hi]]%lookup_app_Some.
  - rewrite list_lookup_fmap in Hi. destruct (inner !! i); simplify_eq/=.
    exists 0%nat, 0%nat. rewrite Nat.add_0_r. split_and!; [lia|lia|done|done].
  - rewrite length_map in Hlen. rewrite length_map in Hi.
    destruct (IH _ _ _ Hi) as (j & k & -> & Hj & He & Hk).
    exists (S (length inner + j)), (S k). split_and!; [lia|lia| |done].
    etrans; [apply (lookup_app_r _ _ (length inner + j)); rewrite length_map; lia|].
    rewrite length_map. replace (length inner + j - length inner)%nat with j by lia.
    rewrite He. do 2 f_equal. lia.
Qed.

Lemma payset_entries_no_payout payset idx intra : Payout ∉ payset_entries payset idx intra.
Proof.
  revert idx intra. induction payset as [|stib rest IH]; intros idx intra; cbn;
    [by intros ?%elem_of_nil|].
  intros [?|[(x & ? & _)%list_elem_of_fmap|Hr]%elem_of_app]%elem_of_cons; [done|done|].
  by eapply IH.
Qed.

Section Tables.
Context `{SdkOps} `{UnicodeOps} `{Codec signedTxnWithAD} `{Codec TxnExtra}.

Lemma entry_row_key block m intra e r :
  entry_row block m intra e = Ok r -> tc_round r = B_Round block /\ tc_intra r = intra.
Proof.
  destruct e as [idx stib|root ri itxn|]; cbn [entry_row];
    unfold root_row, inner_row, payout_row.
  - destruct (DecodeSignedTxn _ _) as [[st ad]|]; cbn; [|done].
    destruct (GetTypeEnum _); cbn; [|done].
    destruct (transactionAssetID _ _ _); cbn; [|done].
    destruct (m !! idx); cbn; [|done]. by intros [= <-].
  - destruct (GetTypeEnum _); cbn; [|done].
    destruct (transactionAssetID _ _ _); cbn; [|done]. by intros [= <-].
  - destruct (GetTypeEnum _); [|done]. intros Hr.
    assert (Hok : forall x y : txn_copy, Ok x = Ok y -> x = y) by congruence.
    apply Hok in Hr. rewrite <-Hr. by split.
Qed.

Lemma yieldTransactions_numbered block modifiedTxns b rows :
  yieldTransactions block modifiedTxns None [] = (Ok tt, b, rows) ->
  numbered (entry_row block modifiedTxns) 0 (entries block) = Ok rows.
Proof.
  intros Hy. pose proof (yieldTransactions_yields block modifiedTxns []) as Hs.
  destruct (numbered _ 0 (entries block)) as [ys|e].
  - rewrite Hy in Hs. by simplify_eq/=.
  - destruct Hs as (e' & out' & Hs). congruence.
Qed.

(** C8. The rows [yieldTransactions] sends are the block's transactions in
    preorder, inner transactions at every depth and the proposer payout
    included: the row at position [i] has [intra = i] and is the row of the
    [i]th transaction of the block, and no transaction is left out. *)
Theorem yieldTransactions_preorder block modifiedTxns b rows :
  yieldTransactions block modifiedTxns None [] = (Ok tt, b, rows) ->
  length rows = length (entries block) /\
  forall i r, rows !! i = Some r ->
    tc_round r = B_Round block /\ tc_intra r = Z.of_nat i /\
    exists e, entries block !! i = Some e /\
              entry_row block modifiedTxns (Z.of_nat i) e = Ok r.
Proof.
  intros Hn%yieldTransactions_numbered. split; [by eapply numbered_length|].
  intros i r Hi. destruct (numbered_lookup _ _ _ _ _ _ Hn Hi) as (x & Hx & Hr).
  rewrite Z.add_0_l in Hr. destruct (entry_row_key _ _ _ _ _ Hr). eauto.
Qed.

(** An inner transaction's row points at its root: [RootIntra] is the
    [intra] of an earlier row, that of the transaction of the payset it descends
    from. *)
Theorem inner_points_at_root block i root rootIntra itxn :
  entries block !! i = Some (Inner root rootIntra itxn) ->
  exists j k, rootIntra = Z.of_nat j /\ (j < i)%nat /\
    entries block !! j = Some (Root k root) /\ B_Payset block !! k = Some root.
Proof.
  unfold entries. intros [Hi|[_ Hi]]%lookup_app_Some.
  - apply payset_entries_root in Hi as (j & k & -> & Hj & He & Hk).
    exists j, k. rewrite Z.add_0_l. split_and!; [done|done| |done].
    by apply lookup_app_l_Some.
  - destruct (0 <? _); [|done]. apply list_lookup_singleton_Some in Hi as [_ ?]. done.
Qed.

(** C21. Both tables number the transactions alike: [(a, round, i)] is a row of
    [txn_participation] exactly if [a] participates in the block's [i]th
    transaction, the one whose row of [txn] has [intra = i]. *)
Theorem participation_agrees_with_txn `{MapOrder} block a (i : nat) :
  (a, B_Round block, Z.of_nat i) ∈ block_participation block <->
  exists e, entries block !! i = Some e /\ a ∈ entry_participants block e.
Proof.
  rewrite block_participation_eq, elem_of_concat_numbered. unfold participation_rows. split.
  - intros (j & e & He & (a' & [= -> Hj] & Ha)%list_elem_of_fmap).
    assert (j = i) as -> by lia. eauto.
  - intros (e & He & Ha). exists i, e. split; [done|].
    apply list_elem_of_fmap. exists a. by rewrite Z.add_0_l.
Qed.

(** [getTransactionParticipants] gives each participant once, and exactly
    the addresses the transaction (and with [includeInner] every transaction
    below it) names, by the slice and by the map. *)
Theorem getTransactionParticipants_correct `{MapOrder} s includeInner :
  NoDup (getTransactionParticipants s includeInner) /\
  forall a, a ∈ getTransactionParticipants s includeInner <->
            a ∈ all_participants s includeInner.
Proof. apply getTransactionParticipants_spec. Qed.

Lemma NoDup_participation_rows l round n : NoDup l -> NoDup (participation_rows l round n).
Proof. intros Hl. apply NoDup_fmap_2; [|done]. by intros ?? [= ->]. Qed.

(** The participation rows of a block have no duplicate, so that the unique
    index accepts them, unless the block pays a proposer that is the fee sink
    itself. *)
Theorem block_participation_NoDup `{MapOrder} block :
  BH_ProposerPayout (B_Header block) <= 0 \/
  BH_FeeSink (B_Header block) <> BH_Proposer (B_Header block) ->
  NoDup (block_participation block).
Proof.
  intros Hp. rewrite block_participation_eq.
  apply (NoDup_concat_numbered _ (λ r : Address * Z * Z, r.2)).
  - intros m e [[a r] n] (a' & [= -> -> ->] & _)%list_elem_of_fmap. done.
  - intros m e He. apply NoDup_participation_rows. destruct e; cbn [entry_participants].
    + apply getTransactionParticipants_spec.
    + apply getTransactionParticipants_spec.
    + destruct Hp as [Hp|Hp].
      * exfalso. unfold entries in He. apply elem_of_app in He as [He|He].
        -- by apply payset_entries_no_payout in He.
        -- destruct (Z.ltb_spec 0 (BH_ProposerPayout (B_Header block))); [lia|set_solver].
      * apply NoDup_cons. split; [set_solver|apply NoDup_singleton].
Qed.
End Tables.

(** ** Inserting the rows *)

Definition tc_key (r : txn_copy) : Z * Z := (tc_round r, tc_intra r).
Definition tc_map (rows : list txn_copy) : gmap (Z * Z) txn_row :=
  list_to_map (map (λ r, (tc_key r, tc_row r)) rows).

Lemma tc_map_lookup rows r :
  NoDup (map tc_key rows) -> r ∈ rows -> tc_map rows !! tc_key r = Some (tc_row r).
Proof.
  intros Hn Hr. apply elem_of_list_to_map_1.
  - by rewrite <- list_fmap_compose.
  - apply (list_elem_of_fmap_2 (λ r, (tc_key r, tc_row r))). done.
Qed.

Lemma tc_map_lookup_inv rows k row :
  tc_map rows !! k = Some row -> exists r, r ∈ rows /\ tc_key r = k /\ tc_row r = row.
Proof. intros (r & [= -> ->] & ?)%elem_of_list_to_map_2%list_elem_of_fmap. eauto. Qed.

Lemma copy_txn_ok rows t :
  Forall (λ r, txn_copy_fits r = true) rows ->
  NoDup (map tc_key rows) -> (forall r, r ∈ rows -> t !! tc_key r = None) ->
  copy_txn rows t = Ok (tc_map rows ∪ t).
Proof.
  revert t. induction rows as [|r rows IH]; intros t Hf Hn Ht; cbn.
  - unfold tc_map. cbn. by rewrite map_empty_union.
  - apply Forall_cons in Hf as [Hr Hf]. apply NoDup_cons in Hn as [Hnin Hn].
    rewrite Hr. cbn. fold (tc_key r). rewrite (Ht r) by (by left).
    rewrite IH; [|done|done|].
    + unfold tc_map. cbn. rewrite <-insert_union_l, insert_union_r; [done|].
      apply not_elem_of_list_to_map_1. by rewrite <-list_fmap_compose.
    + intros r' Hr'. rewrite lookup_insert_ne; [apply Ht; by right|].
      intros E. apply Hnin. rewrite E. by apply list_elem_of_fmap_2.
Qed.

Lemma copy_txn_conflict r rows t :
  txn_copy_fits r = true -> is_Some (t !! tc_key r) ->
  copy_txn (r :: rows) t = Err (ErrPg UniqueViolation).
Proof. intros Hr [x Hx]. cbn. rewrite Hr. cbn. fold (tc_key r). by rewrite Hx. Qed.

Lemma bool_decide_ext_if {P Q : Prop} `{Decision P} `{Decision Q} {A} (x y z : A) :
  (P <-> Q) -> x = y -> (if bool_decide P then x else z) = (if bool_decide Q then y else z).
Proof. intros HPQ ->. by rewrite (bool_decide_ext P Q HPQ). Qed.

Lemma copy_participation_spec rows t :
  Forall (λ r, part_row_fits r = true) rows ->
  copy_participation rows t =
    if bool_decide (NoDup rows /\ Forall (λ r, r ∉ t) rows)
    then Ok (list_to_set rows ∪ t) else Err (ErrPg UniqueViolation).
Proof.
  revert t. induction rows as [|r rows IH]; intros t Hf;
    cbn [copy_participation].
  - rewrite bool_decide_eq_true_2 by (split; constructor). f_equal. set_solver.
  - apply Forall_cons in Hf as [Hr Hf]. rewrite Hr. cbn [negb].
    destruct (decide (r ∈ t)) as [Hin|Hin].
    + rewrite (bool_decide_eq_true_2 (r ∈ t)) by done.
      rewrite bool_decide_eq_false_2; [done|]. intros [_ [? _]%Forall_cons]. done.
    + rewrite (bool_decide_eq_false_2 (r ∈ t)) by done.
      rewrite IH by done. apply bool_decide_ext_if; [|f_equal; set_solver].
      rewrite NoDup_cons, Forall_cons, !Forall_forall. set_solver.
Qed.

Section Inserts.
Context `{SdkOps} `{UnicodeOps} `{Codec signedTxnWithAD} `{Codec TxnExtra}.

Lemma numbered_NoDup_keys block m n l rows :
  numbered (entry_row block m) n l = Ok rows -> NoDup (map tc_key rows).
Proof.
  intros Hn. apply NoDup_alt. intros i j k Hi Hj.
  apply list_lookup_fmap_Some in Hi as (ri & Hki & Hi), Hj as (rj & Hkj & Hj).
  destruct (numbered_lookup _ _ _ _ _ _ Hn Hi) as (xi & _ & [_ Hri]%entry_row_key).
  destruct (numbered_lookup _ _ _ _ _ _ Hn Hj) as (xj & _ & [_ Hrj]%entry_row_key).
  unfold tc_key in *. simplify_eq/=. lia.
Qed.

Lemma AddTransactions_ok block modifiedTxns b rows s :
  yieldTransactions block modifiedTxns None [] = (Ok tt, b, rows) ->
  Forall (λ r, txn_copy_fits r = true) rows ->
  (forall i, t_txn s !! (B_Round block, i) = None) ->
  AddTransactions block modifiedTxns s [] = (Ok tt, set_txn s (tc_map rows ∪ t_txn s), []).
Proof.
  intros Hy Hf Hs. pose proof (yieldTransactions_numbered _ _ _ _ Hy) as En.
  unfold AddTransactions. rewrite Hy.
  unfold tx_bind, tx_wrap, db_call. rewrite copy_txn_ok; [done|done| |].
  - by eapply numbered_NoDup_keys.
  - intros r (i & Hi)%list_elem_of_lookup_1.
    destruct (numbered_lookup _ _ _ _ _ _ En Hi) as (x & _ & [Hr _]%entry_row_key).
    unfold tc_key. rewrite Hr. apply Hs.
Qed.

(** On a database that has no transaction of the round, [AddTransactions]
    succeeds and adds exactly the block's rows, none of which has the key of
    another: the transaction at each position of the block is then found under
    its round and position, and the other rounds are as before. *)
Theorem AddTransactions_inserts block modifiedTxns b rows s :
  yieldTransactions block modifiedTxns None [] = (Ok tt, b, rows) ->
  Forall (λ r, txn_copy_fits r = true) rows ->
  (forall i, t_txn s !! (B_Round block, i) = None) ->
  exists s', AddTransactions block modifiedTxns s [] = (Ok tt, s', []) /\
    (forall i r, rows !! i = Some r ->
       t_txn s' !! (B_Round block, Z.of_nat i) = Some (tc_row r)) /\
    forall k, k.1 <> B_Round block -> t_txn s' !! k = t_txn s !! k.
Proof.
  intros Hy Hf Hs. exists (set_txn s (tc_map rows ∪ t_txn s)).
  split; [by eapply AddTransactions_ok|]. cbn [set_txn t_txn].
  pose proof (yieldTransactions_numbered _ _ _ _ Hy) as En. split.
  - intros i r Hi. destruct (numbered_lookup _ _ _ _ _ _ En Hi) as (x & _ & [Hr Hn]%entry_row_key).
    apply lookup_union_Some_l. replace (B_Round block, Z.of_nat i) with (tc_key r)
      by (unfold tc_key; rewrite Hr, Hn; done).
    apply tc_map_lookup; [by eapply numbered_NoDup_keys|by eapply list_elem_of_lookup_2].
  - intros k Hk. apply lookup_union_r. destruct (tc_map rows !! k) eqn:E; [|done].
    apply tc_map_lookup_inv in E as (r & (i & Hi)%list_elem_of_lookup_1 & <- & _).
    destruct (numbered_lookup _ _ _ _ _ _ En Hi) as (x & _ & [Hr _]%entry_row_key). done.
Qed.

(** A second import of a block whose transactions are already there is
    refused as a unique violation and changes nothing; this is the error that
    [IndexerDb.AddBlock] takes for success. *)
Theorem AddTransactions_again block modifiedTxns b r rows s :
  yieldTransactions block modifiedTxns None [] = (Ok tt, b, r :: rows) ->
  txn_copy_fits r = true -> is_Some (t_txn s !! tc_key r) ->
  AddTransactions block modifiedTxns s [] =
    (Err (ErrWrap "addTransactions() copy from err: %w" (ErrPg UniqueViolation)), s, []).
Proof.
  intros Hy Hf Hs. unfold AddTransactions. rewrite Hy.
  unfold tx_bind, tx_wrap, db_call. by rewrite copy_txn_conflict.
Qed.

(** If a block pays its fee sink as the proposer, its participation rows
    repeat a key: [AddTransactionParticipation] always fails, with the unique
    violation that [IndexerDb.AddBlock] takes for a block already imported. *)
Theorem AddTransactionParticipation_payout_to_fee_sink `{MapOrder} block s :
  0 < BH_ProposerPayout (B_Header block) ->
  BH_FeeSink (B_Header block) = BH_Proposer (B_Header block) ->
  Forall (λ r, part_row_fits r = true) (block_participation block) ->
  AddTransactionParticipation block s [] =
    (Err (ErrWrap "addTransactionParticipation() copy from err: %w" (ErrPg UniqueViolation)),
     s, []).
Proof.
  intros Hp Heq Hf. unfold AddTransactionParticipation, tx_wrap, db_call.
  rewrite copy_participation_spec by done. rewrite bool_decide_eq_false_2; [done|].
  intros [Hn _]. revert Hn. rewrite block_participation_eq. unfold entries.
  rewrite (proj2 (Z.ltb_lt _ _) Hp), concat_numbered_app.
  intros (_ & _ & Hn)%NoDup_app. cbn in Hn. rewrite Heq in Hn.
  apply NoDup_cons in Hn as [Hn _]. apply Hn. by left.
Qed.
End Inserts.

(** ** A concrete block

    A payment, then an application call with two levels of inner transactions,
    then a proposer payout. *)

Module SampleBlock.
Definition pay (from to : Address) : Transaction :=
  Sample.txn PaymentTx from
    {| P_Receiver := to; P_Amount := 5; P_CloseRemainderTo := zeroAddress |}.
Definition call (from : Address) (id : Z) (inner : list SignedTxnWithAD) : SignedTxnWithAD :=
  StxnAD (Sample.signed (Sample.txn ApplicationCallTx from Sample.payment))
    {| AD_ClosingAmount := 0; AD_AssetClosingAmount := 0; AD_SenderRewards := 0;
       AD_ReceiverRewards := 0; AD_CloseRewards := 0;
       AD_EvalDelta := AD_EvalDelta (Sample.applyData inner);
       AD_ConfigAsset := 0; AD_ApplicationID := id |}.
Definition nested : SignedTxnWithAD :=
  call "alice" 10 [call "app" 11 [Sample.stxnad (pay "app2" "bob") []];
                   Sample.stxnad (pay "app" "carol") []].

(** Block 5, with the given payout. *)
Definition block (proposer : Address) (payout : Z) : Block :=
  let h := Sample.blockHeader 5 in {|
  B_Header := {|
    BH_Round := 5; BH_Branch := BH_Branch h; BH_Branch512 := BH_Branch512 h;
    BH_Seed := BH_Seed h; BH_NativeSha512_256Commitment := BH_NativeSha512_256Commitment h;
    BH_Sha256Commitment := BH_Sha256Commitment h; BH_Sha512Commitment := BH_Sha512Commitment h;
    BH_TimeStamp := BH_TimeStamp h; BH_GenesisID := BH_GenesisID h;
    BH_GenesisHash := BH_GenesisHash h; BH_Proposer := proposer; BH_FeesCollected := 0;
    BH_Bonus := 0; BH_ProposerPayout := payout; BH_FeeSink := "fee sink";
    BH_RewardsPool := "rewards pool"; BH_RewardsLevel := 0; BH_RewardsRate := 0;
    BH_RewardsResidue := 0; BH_RewardsRecalculationRound := 0; BH_CurrentProtocol := "future";
    BH_NextProtocol := ""; BH_NextProtocolApprovals := 0; BH_NextProtocolSwitchOn := 0;
    BH_NextProtocolVoteBefore := 0; BH_UpgradePropose := ""; BH_UpgradeDelay := 0;
    BH_UpgradeApprove := false; BH_TxnCounter := 100; BH_StateProofTracking := ∅;
    BH_ExpiredParticipationAccounts := None; BH_AbsentParticipationAccounts := None |};
  B_Payset := [Sample.inBlock (Sample.stxnad (pay "alice" "bob") []);
               Sample.inBlock nested] |}.

Definition order : MapOrder := {| range_keys := elements; range_keys_perm X := reflexivity _ |}.
(** Codecs that write one document for everything: the keys are what matters
    here. *)
Definition stxn_codec : Codec signedTxnWithAD :=
  one_document (convertSignedTxnWithAD (H := ascii_print) nested).
Definition extra_codec : Codec TxnExtra :=
  one_document {| AssetCloseAmount := 0; RootIntra := absentUint; RootTxid := "" |}.

Definition rows (b : Block) : list txn_copy :=
  (yieldTransactions (H := Sample.sdk) (H0 := ascii_print) (H1 := stxn_codec)
     (H2 := extra_codec) b (B_Payset b) None []).2.
Definition empty : txn_tables := {| t_txn := ∅; t_txn_participation := ∅ |}.
End SampleBlock.

Section Witnesses.
#[local] Existing Instance Sample.sdk.
#[local] Existing Instance ascii_print.
#[local] Existing Instance SampleBlock.stxn_codec.
#[local] Existing Instance SampleBlock.extra_codec.
#[local] Existing Instance SampleBlock.order.

Lemma yieldTransactions_preorder_witness :
  let block := SampleBlock.block "proposer" 7 in
  length (SampleBlock.rows block) = 6%nat /\
  forall i r, SampleBlock.rows block !! i = Some r ->
    tc_round r = 5 /\ tc_intra r = Z.of_nat i /\
    exists e, entries block !! i = Some e /\
              entry_row block (B_Payset block) (Z.of_nat i) e = Ok r.
Proof.
  intros block.
  apply (yieldTransactions_preorder block (B_Payset block) None (SampleBlock.rows block)).
  vm_compute. reflexivity.
Defined.

(** The payment two levels down is the row 3, its root the row 1. *)
Lemma inner_points_at_root_witness :
  let block := SampleBlock.block "proposer" 7 in
  exists j k, 1 = Z.of_nat j /\ (j < 3)%nat /\
    entries block !! j = Some (Root k (Sample.inBlock SampleBlock.nested)) /\
    B_Payset block !! k = Some (Sample.inBlock SampleBlock.nested).
Proof.
  intros block.
  apply (inner_points_at_root block 3 (Sample.inBlock SampleBlock.nested) 1
           (Sample.stxnad (SampleBlock.pay "app2" "bob") [])).
  vm_compute. reflexivity.
Defined.

Lemma block_participation_NoDup_witness :
  NoDup (block_participation (SampleBlock.block "proposer" 7)).
Proof.
  apply (block_participation_NoDup (SampleBlock.block "proposer" 7)). right. discriminate.
Defined.

Lemma AddTransactions_inserts_witness :
  let block := SampleBlock.block "proposer" 7 in
  exists s', AddTransactions block (B_Payset block) SampleBlock.empty [] = (Ok tt, s', []) /\
    (forall i r, SampleBlock.rows block !! i = Some r ->
       t_txn s' !! (5, Z.of_nat i) = Some (tc_row r)) /\
    forall k, k.1 <> 5 -> t_txn s' !! k = t_txn SampleBlock.empty !! k.
Proof.
  intros block.
  apply (AddTransactions_inserts block (B_Payset block) None (SampleBlock.rows block)
           SampleBlock.empty).
  - vm_compute. reflexivity.
  - repeat constructor.
  - intros i. apply lookup_empty.
Defined.

Lemma AddTransactions_again_witness :
  let block := SampleBlock.block "proposer" 7 in
  let s := set_txn SampleBlock.empty (tc_map (SampleBlock.rows block)) in
  AddTransactions block (B_Payset block) s [] =
    (Err (ErrWrap "addTransactions() copy from err: %w" (ErrPg UniqueViolation)), s, []).
Proof.
  intros block s.
  eapply (AddTransactions_again block (B_Payset block) None _ _ s).
  - vm_compute. reflexivity.
  - vm_compute. reflexivity.
  - vm_compute. eexists. reflexivity.
Defined.

Lemma AddTransactionParticipation_payout_to_fee_sink_witness :
  let block := SampleBlock.block "fee sink" 7 in
  AddTransactionParticipation block SampleBlock.empty [] =
    (Err (ErrWrap "addTransactionParticipation() copy from err: %w" (ErrPg UniqueViolation)),
     SampleBlock.empty, []).
Proof.
  intros block.
  apply (AddTransactionParticipation_payout_to_fee_sink block SampleBlock.empty).
  - vm_compute. reflexivity.
  - reflexivity.
  - apply Forall_forall. intros r Hr. vm_compute in Hr.
    repeat (apply elem_of_cons in Hr as [->|Hr]; [reflexivity|]). by apply elem_of_nil in Hr.
Defined.
End Witnesses.

(** ** Errors of the writers *)

Section Plain.
Context `{SdkOps} `{UnicodeOps} `{Codec signedTxnWithAD} `{Codec TxnExtra}.

Definition ch_plain {A} (m : Chan A) : Prop := forall b out, plain (m b out).1.1.

Lemma ch_plain_bind {A B} (m : Chan A) (k : A -> Chan B) :
  ch_plain m -> (forall a, ch_plain (k a)) -> ch_plain (ch_bind m k).
Proof.
  intros Hm Hk b out. unfold ch_bind. specialize (Hm b out).
  destruct (m b out) as [[[a|e] b'] out']; cbn in *; [apply Hk|].
  intros e' [= <-]. by apply Hm.
Qed.

Lemma ch_plain_send fmt row : ch_plain (send fmt row).
Proof. intros [[|]|] out; cbn; auto with plain. Qed.

Lemma ch_plain_wrap {A} fmt (m : Chan A) : ch_plain m -> ch_plain (ch_wrap fmt m).
Proof.
  intros Hm b out. unfold ch_wrap. specialize (Hm b out).
  destruct (m b out) as [[r b'] out']; cbn in *. auto with plain.
Qed.

Lemma DecodeSignedTxn_plain bh stb : plain (DecodeSignedTxn bh stb).
Proof. unfold DecodeSignedTxn. repeat case_match; auto with plain. Qed.

Lemma transactionAssetID_plain s intra block : plain (transactionAssetID s intra block).
Proof. unfold transactionAssetID. repeat case_match; auto with plain. Qed.

Lemma inner_row_plain block itxn intra ri id : plain (inner_row block itxn intra ri id).
Proof.
  unfold inner_row. case_match; [|auto with plain].
  apply plain_bind; [apply transactionAssetID_plain|auto with plain].
Qed.

Lemma root_row_plain block m idx stib intra : plain (root_row block m idx stib intra).
Proof.
  unfold root_row. apply plain_bind; [apply plain_wrap, DecodeSignedTxn_plain|].
  intros [st ad]. case_match; [|auto with plain].
  apply plain_bind; [apply transactionAssetID_plain|]. intros. case_match; auto with plain.
Qed.

Lemma yieldInnerTransactions_plain s block intra ri id :
  ch_plain (yieldInnerTransactions s block intra ri id).
Proof.
  revert intra. induction s as [[st ad] IH] using SignedTxnWithAD_rect_inner. intros intra.
  cbn. unfold InnerTxns in IH; cbn in IH.
  destruct (ED_InnerTxns (AD_EvalDelta ad)) as [l|]; cbn in IH; [|by intros b out e].
  revert intra. induction IH as [|i l Hi _ IHl]; intros intra; cbn [yield_loop];
    [by intros b out e|].
  apply ch_plain_bind; [intros b out; apply inner_row_plain|]. intros row.
  apply ch_plain_bind; [apply ch_plain_send|]. intros _.
  apply ch_plain_bind; [apply Hi|]. intros intra'. apply IHl.
Qed.

Lemma yieldTransactions_plain block m : ch_plain (yieldTransactions block m).
Proof.
  apply ch_plain_bind.
  - generalize 0%nat 0. induction (B_Payset block) as [|stib rest IH]; intros idx intra;
      cbn [yield_payset]; [by intros b out e|].
    apply ch_plain_bind; [intros b out; apply root_row_plain|]. intros row.
    apply ch_plain_bind; [apply ch_plain_send|]. intros _.
    apply ch_plain_bind; [apply ch_plain_wrap, yieldInnerTransactions_plain|]. intros. apply IH.
  - intros intra. destruct (0 <? _); [|by intros b out e].
    apply ch_plain_bind; [|intros; apply ch_plain_send].
    intros b out. unfold ch_lift, payout_row; cbn [fst]. case_match; auto with plain.
Qed.

Lemma copy_txn_no_serialization rows t : isSerializationError (copy_txn rows t) = false.
Proof. revert t. induction rows; intros t; cbn; [done|]. by repeat case_match. Qed.

Lemma honest_AddTransactions block m : honest (AddTransactions block m).
Proof.
  unfold AddTransactions. pose proof (yieldTransactions_plain block m None []) as Hp.
  destruct (yieldTransactions block m None []) as [[r b] rows]; cbn in Hp.
  apply honest_bind.
  - apply honest_wrap, honest_call. intros s.
    pose proof (copy_txn_no_serialization rows (t_txn s)) as Hc. by destruct (copy_txn _ _).
  - intros _. destruct r as [[]|e]; [apply honest_ret|]. apply honest_err. cbn.
    by rewrite (Hp e eq_refl).
Qed.

Lemma honest_AddTransactionParticipation `{MapOrder} block :
  honest (AddTransactionParticipation block).
Proof.
  apply honest_wrap, honest_call. intros s.
  assert (Hc : forall rows t, isSerializationError (copy_participation rows t) = false).
  { intros rows. induction rows; intros t; cbn; [done|]. by repeat case_match. }
  specialize (Hc (block_participation block) (t_txn_participation s)).
  by destruct (copy_participation _ _).
Qed.
End Plain.
