(* ===== verification/Writer.v ===== *)
(** * Writing a block's state: [internal/writer/writer.go]

    The prepared statements, the batch that a block's header and state delta
    become, and its execution.  The refinement theorems state what the tables
    hold after a batch in terms of the delta. *)

From S2P Require Import Prelude GoStd Sdk Idb Util Encoding Db.

(** ** Prepared statements

    One constructor per entry of [statements], with its parameters in order. *)

Inductive stmt :=
| add_block_header (round realtime rewardslevel : Z) (header : string)
| set_special_accounts (v : string)
| upsert_asset (index : Z) (creator : Address) (params : string) (round : Z)
| upsert_account_asset (addr : Address) (assetid : Z) (amount : string) (frozen : bool) (round : Z)
| upsert_app (index : Z) (creator : Address) (params : string) (round : Z)
| upsert_account_app (addr : Address) (app : Z) (localstate : string) (round : Z)
| delete_account (addr : Address) (round : Z)
| delete_account_update_keytype (addr : Address) (round : Z) (keytype : option string)
| upsert_account (addr : Address) (microalgos rewardsbase rewards_total round : Z)
    (account_data : string)
| upsert_account_with_keytype (addr : Address) (microalgos rewardsbase rewards_total round : Z)
    (keytype : option string) (account_data : string)
| delete_asset (index : Z) (creator : Address) (round : Z)
| delete_account_asset (addr : Address) (assetid : Z) (round : Z)
| delete_app (index : Z) (creator : Address) (round : Z)
| delete_account_app (addr : Address) (app : Z) (round : Z)
| upsert_app_box (app : Z) (name value : string)
| delete_app_box (app : Z) (name : string).

Definition statement_names : list string :=
  ["add_block_header"; "set_special_accounts"; "upsert_asset"; "upsert_account_asset";
   "upsert_app"; "upsert_account_app"; "delete_account"; "delete_account_update_keytype";
   "upsert_account"; "upsert_account_with_keytype"; "delete_asset"; "delete_account_asset";
   "delete_app"; "delete_account_app"; "upsert_app_box"; "delete_app_box"].

(** The parameters that go to [bigint] columns. *)
Definition stmt_bigints (s : stmt) : list Z :=
  match s with
  | add_block_header round _ rl _ => [round; rl]
  | set_special_accounts _ => []
  | upsert_asset i _ _ r | upsert_app i _ _ r | upsert_account_asset _ i _ _ r
  | upsert_account_app _ i _ r | delete_asset i _ r | delete_account_asset _ i r
  | delete_app i _ r | delete_account_app _ i r => [i; r]
  | delete_account _ r | delete_account_update_keytype _ r _ => [r]
  | upsert_account _ m b t r _ | upsert_account_with_keytype _ m b t r _ _ => [m; b; t; r]
  | upsert_app_box a _ _ | delete_app_box a _ => [a]
  end.

(** *** Table updates *)

Definition set_block_header (t : tables) m : tables := {|
  t_block_header := m; t_account := t_account t; t_account_asset := t_account_asset t;
  t_asset := t_asset t; t_app := t_app t; t_account_app := t_account_app t;
  t_app_box := t_app_box t; t_metastate := t_metastate t |}.
Definition set_account (t : tables) m : tables := {|
  t_block_header := t_block_header t; t_account := m; t_account_asset := t_account_asset t;
  t_asset := t_asset t; t_app := t_app t; t_account_app := t_account_app t;
  t_app_box := t_app_box t; t_metastate := t_metastate t |}.
Definition set_account_asset (t : tables) m : tables := {|
  t_block_header := t_block_header t; t_account := t_account t; t_account_asset := m;
  t_asset := t_asset t; t_app := t_app t; t_account_app := t_account_app t;
  t_app_box := t_app_box t; t_metastate := t_metastate t |}.
Definition set_asset (t : tables) m : tables := {|
  t_block_header := t_block_header t; t_account := t_account t;
  t_account_asset := t_account_asset t; t_asset := m; t_app := t_app t;
  t_account_app := t_account_app t; t_app_box := t_app_box t; t_metastate := t_metastate t |}.
Definition set_app (t : tables) m : tables := {|
  t_block_header := t_block_header t; t_account := t_account t;
  t_account_asset := t_account_asset t; t_asset := t_asset t; t_app := m;
  t_account_app := t_account_app t; t_app_box := t_app_box t; t_metastate := t_metastate t |}.
Definition set_account_app (t : tables) m : tables := {|
  t_block_header := t_block_header t; t_account := t_account t;
  t_account_asset := t_account_asset t; t_asset := t_asset t; t_app := t_app t;
  t_account_app := m; t_app_box := t_app_box t; t_metastate := t_metastate t |}.
Definition set_app_box (t : tables) m : tables := {|
  t_block_header := t_block_header t; t_account := t_account t;
  t_account_asset := t_account_asset t; t_asset := t_asset t; t_app := t_app t;
  t_account_app := t_account_app t; t_app_box := m; t_metastate := t_metastate t |}.

(** [INSERT ... ON CONFLICT (k) DO UPDATE SET ...]: [update old] is the row after
    the update, [insert] the row inserted when there is no conflict. *)
Definition upsert {K A} `{Countable K} (k : K) (insert : A) (update : A -> A) (m : gmap K A)
    : gmap K A :=
  <[k := match m !! k with Some old => update old | None => insert end]> m.

#[global] Arguments upsert : simpl never.

(** *** Rows of each statement *)

Definition exec_stmt (s : stmt) (t : tables) : tables :=
  match s with
  | add_block_header round realtime rewardslevel header =>
      set_block_header t
        (upsert round {| bhr_realtime := realtime; bhr_rewardslevel := rewardslevel;
                         bhr_header := header |} (λ old, old) (t_block_header t))
  | set_special_accounts v =>
      set_metastate t (upsert SpecialAccountsMetastateKey v (λ _, v) (t_metastate t))
  | upsert_asset index creator params round =>
      set_asset t (upsert index
        {| asr_creator_addr := creator; asr_params := params; asr_deleted := false;
           asr_created_at := round; asr_closed_at := None |}
        (λ old, {| asr_creator_addr := creator; asr_params := params; asr_deleted := false;
                   asr_created_at := asr_created_at old; asr_closed_at := asr_closed_at old |})
        (t_asset t))
  | upsert_account_asset addr assetid amount frozen round =>
      (* the numeric column parses the decimal text *)
      let amount := match ParseUint amount with Ok n => n | Err _ => 0 end in
      set_account_asset t (upsert (addr, assetid)
        {| aar_amount := amount; aar_frozen := frozen; aar_deleted := false;
           aar_created_at := round; aar_closed_at := None |}
        (λ old, {| aar_amount := amount; aar_frozen := frozen; aar_deleted := false;
                   aar_created_at := aar_created_at old; aar_closed_at := aar_closed_at old |})
        (t_account_asset t))
  | upsert_app index creator params round =>
      set_app t (upsert index
        {| apr_creator := creator; apr_params := params; apr_deleted := false;
           apr_created_at := round; apr_closed_at := None |}
        (λ old, {| apr_creator := creator; apr_params := params; apr_deleted := false;
                   apr_created_at := apr_created_at old; apr_closed_at := apr_closed_at old |})
        (t_app t))
  | upsert_account_app addr app localstate round =>
      set_account_app t (upsert (addr, app)
        {| alr_localstate := localstate; alr_deleted := false; alr_created_at := round;
           alr_closed_at := None |}
        (λ old, {| alr_localstate := localstate; alr_deleted := false;
                   alr_created_at := alr_created_at old; alr_closed_at := alr_closed_at old |})
        (t_account_app t))
  | delete_account addr round =>
      set_account t (upsert addr
        {| acr_microalgos := 0; acr_rewardsbase := 0; acr_rewards_total := 0;
           acr_deleted := true; acr_created_at := round; acr_closed_at := Some round;
           acr_keytype := None; acr_account_data := jsonNull |}
        (λ old, {| acr_microalgos := 0; acr_rewardsbase := 0; acr_rewards_total := 0;
                   acr_deleted := true; acr_created_at := acr_created_at old;
                   acr_closed_at := Some round; acr_keytype := acr_keytype old;
                   acr_account_data := jsonNull |})
        (t_account t))
  | delete_account_update_keytype addr round keytype =>
      set_account t (upsert addr
        {| acr_microalgos := 0; acr_rewardsbase := 0; acr_rewards_total := 0;
           acr_deleted := true; acr_created_at := round; acr_closed_at := Some round;
           acr_keytype := keytype; acr_account_data := jsonNull |}
        (λ old, {| acr_microalgos := 0; acr_rewardsbase := 0; acr_rewards_total := 0;
                   acr_deleted := true; acr_created_at := acr_created_at old;
                   acr_closed_at := Some round; acr_keytype := keytype;
                   acr_account_data := jsonNull |})
        (t_account t))
  | upsert_account addr microalgos rewardsbase rewards_total round account_data =>
      set_account t (upsert addr
        {| acr_microalgos := microalgos; acr_rewardsbase := rewardsbase;
           acr_rewards_total := rewards_total; acr_deleted := false; acr_created_at := round;
           acr_closed_at := None; acr_keytype := None; acr_account_data := account_data |}
        (λ old, {| acr_microalgos := microalgos; acr_rewardsbase := rewardsbase;
                   acr_rewards_total := rewards_total; acr_deleted := false;
                   acr_created_at := acr_created_at old; acr_closed_at := acr_closed_at old;
                   acr_keytype := acr_keytype old; acr_account_data := account_data |})
        (t_account t))
  | upsert_account_with_keytype addr microalgos rewardsbase rewards_total round keytype
      account_data =>
      set_account t (upsert addr
        {| acr_microalgos := microalgos; acr_rewardsbase := rewardsbase;
           acr_rewards_total := rewards_total; acr_deleted := false; acr_created_at := round;
           acr_closed_at := None; acr_keytype := keytype; acr_account_data := account_data |}
        (λ old, {| acr_microalgos := microalgos; acr_rewardsbase := rewardsbase;
                   acr_rewards_total := rewards_total; acr_deleted := false;
                   acr_created_at := acr_created_at old; acr_closed_at := acr_closed_at old;
                   acr_keytype := keytype; acr_account_data := account_data |})
        (t_account t))
  | delete_asset index creator round =>
      set_asset t (upsert index
        {| asr_creator_addr := creator; asr_params := jsonNull; asr_deleted := true;
           asr_created_at := round; asr_closed_at := Some round |}
        (λ old, {| asr_creator_addr := creator; asr_params := jsonNull; asr_deleted := true;
                   asr_created_at := asr_created_at old; asr_closed_at := Some round |})
        (t_asset t))
  | delete_account_asset addr assetid round =>
      set_account_asset t (upsert (addr, assetid)
        {| aar_amount := 0; aar_frozen := false; aar_deleted := true;
           aar_created_at := round; aar_closed_at := Some round |}
        (λ old, {| aar_amount := 0; aar_frozen := aar_frozen old; aar_deleted := true;
                   aar_created_at := aar_created_at old; aar_closed_at := Some round |})
        (t_account_asset t))
  | delete_app index creator round =>
      set_app t (upsert index
        {| apr_creator := creator; apr_params := jsonNull; apr_deleted := true;
           apr_created_at := round; apr_closed_at := Some round |}
        (λ old, {| apr_creator := creator; apr_params := jsonNull; apr_deleted := true;
                   apr_created_at := apr_created_at old; apr_closed_at := Some round |})
        (t_app t))
  | delete_account_app addr app round =>
      set_account_app t (upsert (addr, app)
        {| alr_localstate := jsonNull; alr_deleted := true; alr_created_at := round;
           alr_closed_at := Some round |}
        (λ old, {| alr_localstate := jsonNull; alr_deleted := true;
                   alr_created_at := alr_created_at old; alr_closed_at := Some round |})
        (t_account_app t))
  | upsert_app_box app name value =>
      set_app_box t (upsert (app, name) value (λ _, value) (t_app_box t))
  | delete_app_box app name => set_app_box t (delete (app, name) (t_app_box t))
  end.

Definition run_stmt (s : stmt) (t : tables) : result (unit * tables) :=
  if forallb fits_bigint (stmt_bigints s) then Ok (tt, exec_stmt s t) else Err errBigint.

(** ** Building the batch *)

Section Batch.
Context `{SdkOps} `{UnicodeOps}.
Context `{Codec blockHeader} `{Codec assetParams} `{Codec appParams} `{Codec appLocalState}
  `{Codec baseAccountData} `{Codec SpecialAddresses}.

Definition addBlockHeader (h : BlockHeader) : list stmt :=
  [add_block_header (BH_Round h) (time_Unix (BH_TimeStamp h)) (BH_RewardsLevel h)
     (EncodeBlockHeader h)].

Definition setSpecialAccounts (addresses : SpecialAddresses) : list stmt :=
  [set_special_accounts (EncodeSpecialAddresses addresses)].

(** [sigTypeDelta]: [None] sets the column to NULL. *)
Abbreviation sigTypeDelta := (option string) (only parsing).
(** [optionalSigTypeDelta]: [None] leaves the column alone. *)
Abbreviation optionalSigTypeDelta := (option sigTypeDelta) (only parsing).

Fixpoint sigTypeDeltas_from (res : gmap Address sigTypeDelta) (payset : list SignedTxnInBlock)
    : result (gmap Address sigTypeDelta) :=
  match payset with
  | [] => Ok res
  | stib :: rest =>
      let txn := SIB_Txn stib in
      let sender := H_Sender (T_Header txn) in
      if bool_decide (H_RekeyTo (T_Header txn) = zeroAddress) &&
         bool_decide (T_Type txn ≠ StateProofTx) then
        sigtype ← wrap "getSigTypeDelta() err: %w" (SignatureType (SIB_SignedTxn stib));
        sigTypeDeltas_from (<[sender := Some sigtype]> res) rest
      else sigTypeDeltas_from (<[sender := None]> res) rest
  end.

Definition getSigTypeDeltas (payset : list SignedTxnInBlock)
    : result (gmap Address sigTypeDelta) := sigTypeDeltas_from ∅ payset.

Definition writeAccount (round : Z) (address : Address) (accountData : AccountData)
    (sigtypeDelta : optionalSigTypeDelta) : list stmt :=
  if ACD_MicroAlgos accountData =? 0 then
    match sigtypeDelta with
    | Some delta => [delete_account_update_keytype address round delta]
    | None => [delete_account address round]
    end
  else
    let accountDataJSON := EncodeTrimmedLcAccountData (TrimLcAccountData accountData) in
    match sigtypeDelta with
    | Some delta =>
        [upsert_account_with_keytype address (ACD_MicroAlgos accountData)
           (ACD_RewardsBase accountData) (ACD_RewardedMicroAlgos accountData) round delta
           accountDataJSON]
    | None =>
        [upsert_account address (ACD_MicroAlgos accountData) (ACD_RewardsBase accountData)
           (ACD_RewardedMicroAlgos accountData) round accountDataJSON]
    end.

Definition writeAssetResource (round : Z) (resource : AssetResourceRecord) : list stmt :=
  (if APD_Deleted (ASR_Params resource) then
     [delete_asset (ASR_Aidx resource) (ASR_Addr resource) round]
   else match APD_Params (ASR_Params resource) with
        | Some params => [upsert_asset (ASR_Aidx resource) (ASR_Addr resource)
                            (EncodeAssetParams params) round]
        | None => []
        end) ++
  (if AHD_Deleted (ASR_Holding resource) then
     [delete_account_asset (ASR_Addr resource) (ASR_Aidx resource) round]
   else match AHD_Holding (ASR_Holding resource) with
        | Some holding => [upsert_account_asset (ASR_Addr resource) (ASR_Aidx resource)
                             (FormatUint (AH_Amount holding)) (AH_Frozen holding) round]
        | None => []
        end).

Definition writeAppResource (round : Z) (resource : AppResourceRecord) : list stmt :=
  (if PPD_Deleted (PPR_Params resource) then
     [delete_app (PPR_Aidx resource) (PPR_Addr resource) round]
   else match PPD_Params (PPR_Params resource) with
        | Some params => [upsert_app (PPR_Aidx resource) (PPR_Addr resource)
                            (EncodeAppParams params) round]
        | None => []
        end) ++
  (if PLD_Deleted (PPR_State resource) then
     [delete_account_app (PPR_Addr resource) (PPR_Aidx resource) round]
   else match PLD_LocalState (PPR_State resource) with
        | Some state => [upsert_account_app (PPR_Addr resource) (PPR_Aidx resource)
                           (EncodeAppLocalState state) round]
        | None => []
        end).

Definition writeAccountDeltas (round : Z) (accountDeltas : AccountDeltas)
    (sigtypeDeltas : gmap Address sigTypeDelta) : list stmt :=
  flat_map (λ r, writeAccount round (BR_Addr r) (BR_AccountData r) (sigtypeDeltas !! BR_Addr r))
    (D_Accts accountDeltas) ++
  flat_map (writeAssetResource round) (D_AssetResources accountDeltas) ++
  flat_map (writeAppResource round) (D_AppResources accountDeltas).

Fixpoint writeBoxMods (kvMods : list (string * option string)) : result (list stmt) :=
  match kvMods with
  | [] => Ok []
  | (key, data) :: rest =>
      '(app, name) ← wrap "writeBoxMods() err: %w" (SplitBoxKey key);
      batch ← writeBoxMods rest;
      Ok (match data with
          | Some value => upsert_app_box app name value
          | None => delete_app_box app name
          end :: batch)
  end.

Definition specialAddresses (block : Block) : SpecialAddresses := {|
  FeeSink := BH_FeeSink (B_Header block); RewardsPool := BH_RewardsPool (B_Header block) |}.

(** ** Running it *)

(** [SendBatch], one [Exec] per statement, [Close]. *)
Fixpoint exec_batch (fmt : string) (batch : list stmt) : Tx tables unit :=
  match batch with
  | [] => tx_ret tt
  | s :: rest => (tx_wrap fmt (db_call (run_stmt s));;; exec_batch fmt rest)%tx
  end.
Definition send_batch (execFmt closeFmt : string) (batch : list stmt) : Tx tables unit :=
  (exec_batch execFmt batch;;; tx_wrap closeFmt (db_call (λ t, Ok (tt, t))))%tx.

(** [MakeWriter]: every statement is prepared. *)
Definition MakeWriter : Tx tables unit :=
  foldr (λ _ rest,
    (tx_wrap "MakeWriter() prepare statement for name '%s' err: %w" (db_call (λ t, Ok (tt, t)));;;
     rest)%tx) (tx_ret tt) statement_names.

Definition AddBlock0 (block : Block) : Tx tables unit :=
  send_batch "AddBlock0() exec err: %w" "AddBlock0() close results err: %w"
    (addBlockHeader (B_Header block) ++ setSpecialAccounts (specialAddresses block)).

(** The batch of [AddBlock]. *)
Definition block_batch (block : Block) (delta : LedgerStateDelta) : result (list stmt) :=
  sigTypeDeltas ← wrap "AddBlock() err: %w" (getSigTypeDeltas (B_Payset block));
  boxes ← wrap "AddBlock() err on boxes: %w" (writeBoxMods (D_KvMods delta));
  Ok (addBlockHeader (B_Header block) ++ setSpecialAccounts (specialAddresses block) ++
      writeAccountDeltas (B_Round block) (D_AccountDeltas delta) sigTypeDeltas ++ boxes).

Definition AddBlock (block : Block) (delta : LedgerStateDelta) : Tx tables unit :=
  match block_batch block delta with
  | Err e => tx_err e
  | Ok batch => send_batch "AddBlock() exec err: %w" "AddBlock() close results err: %w" batch
  end.

End Batch.

(** ** The specification: the ledger the tables stand for

    Deleted rows are kept in the tables; the ledger has the live ones, without
    the bookkeeping columns. *)

Record ledger := {
  L_accounts : gmap Address (Z * Z * Z * string);
  L_holdings : gmap (Address * Z) (Z * bool);
  L_assets : gmap Z (Address * string);
  L_apps : gmap Z (Address * string);
  L_locals : gmap (Address * Z) string;
  L_boxes : gmap (Z * string) string }.

Definition live_account (r : account_row) : option (Z * Z * Z * string) :=
  if acr_deleted r then None
  else Some (acr_microalgos r, acr_rewardsbase r, acr_rewards_total r, acr_account_data r).
Definition live_holding (r : account_asset_row) : option (Z * bool) :=
  if aar_deleted r then None else Some (aar_amount r, aar_frozen r).
Definition live_asset (r : asset_row) : option (Address * string) :=
  if asr_deleted r then None else Some (asr_creator_addr r, asr_params r).
Definition live_app (r : app_row) : option (Address * string) :=
  if apr_deleted r then None else Some (apr_creator r, apr_params r).
Definition live_local (r : account_app_row) : option string :=
  if alr_deleted r then None else Some (alr_localstate r).

Definition abs (t : tables) : ledger := {|
  L_accounts := omap live_account (t_account t);
  L_holdings := omap live_holding (t_account_asset t);
  L_assets := omap live_asset (t_asset t);
  L_apps := omap live_app (t_app t);
  L_locals := omap live_local (t_account_app t);
  L_boxes := t_app_box t |}.

(** [k] is bound to [v], or to nothing. *)
Definition put {K V} `{Countable K} (k : K) (v : option V) (m : gmap K V) : gmap K V :=
  match v with Some v => <[k := v]> m | None => delete k m end.

Section Spec.
Context `{SdkOps} `{UnicodeOps}.
Context `{Codec assetParams} `{Codec appParams} `{Codec appLocalState} `{Codec baseAccountData}.

Definition spec_account (r : BalanceRecord) (L : ledger) : ledger :=
  let d := BR_AccountData r in {|
  L_accounts := put (BR_Addr r)
    (if ACD_MicroAlgos d =? 0 then None
     else Some (ACD_MicroAlgos d, ACD_RewardsBase d, ACD_RewardedMicroAlgos d,
                EncodeTrimmedLcAccountData (TrimLcAccountData d))) (L_accounts L);
  L_holdings := L_holdings L; L_assets := L_assets L; L_apps := L_apps L;
  L_locals := L_locals L; L_boxes := L_boxes L |}.

(** What a delta says of one resource: [None]: nothing; [Some None]: it is
    deleted; [Some (Some v)]: it is now [v]. *)
Definition change {A B} (deleted : bool) (now : option A) (f : A -> B) : option (option B) :=
  if deleted then Some None else match now with Some a => Some (Some (f a)) | None => None end.
Definition put_change {K V} `{Countable K} (k : K) (c : option (option V)) (m : gmap K V)
    : gmap K V := match c with Some v => put k v m | None => m end.

Definition spec_asset (r : AssetResourceRecord) (L : ledger) : ledger := {|
  L_accounts := L_accounts L;
  L_holdings := put_change (ASR_Addr r, ASR_Aidx r)
    (change (AHD_Deleted (ASR_Holding r)) (AHD_Holding (ASR_Holding r))
       (λ h, (AH_Amount h, AH_Frozen h))) (L_holdings L);
  L_assets := put_change (ASR_Aidx r)
    (change (APD_Deleted (ASR_Params r)) (APD_Params (ASR_Params r))
       (λ p, (ASR_Addr r, EncodeAssetParams p))) (L_assets L);
  L_apps := L_apps L; L_locals := L_locals L; L_boxes := L_boxes L |}.

Definition spec_app (r : AppResourceRecord) (L : ledger) : ledger := {|
  L_accounts := L_accounts L; L_holdings := L_holdings L; L_assets := L_assets L;
  L_apps := put_change (PPR_Aidx r)
    (change (PPD_Deleted (PPR_Params r)) (PPD_Params (PPR_Params r))
       (λ p, (PPR_Addr r, EncodeAppParams p))) (L_apps L);
  L_locals := put_change (PPR_Addr r, PPR_Aidx r)
    (change (PLD_Deleted (PPR_State r)) (PLD_LocalState (PPR_State r)) EncodeAppLocalState)
    (L_locals L);
  L_boxes := L_boxes L |}.

Definition spec_boxes (kvMods : list (string * option string)) (L : ledger) : ledger := {|
  L_accounts := L_accounts L; L_holdings := L_holdings L; L_assets := L_assets L;
  L_apps := L_apps L; L_locals := L_locals L;
  L_boxes := foldl (λ m '(key, data),
    match SplitBoxKey key with Ok box => put box data m | Err _ => m end) (L_boxes L) kvMods |}.

Definition apply_delta (delta : LedgerStateDelta) (L : ledger) : ledger :=
  let d := D_AccountDeltas delta in
  let L := foldl (λ L r, spec_account r L) L (D_Accts d) in
  let L := foldl (λ L r, spec_asset r L) L (D_AssetResources d) in
  let L := foldl (λ L r, spec_app r L) L (D_AppResources d) in
  spec_boxes (D_KvMods delta) L.

End Spec.

(** ** Lemmas *)

Lemma omap_upsert {K A B} `{Countable K} (f : A -> option B) k ins upd (m : gmap K A) v :
  f ins = v -> (forall old, f (upd old) = v) ->
  omap f (upsert k ins upd m) = put k v (omap f m).
Proof.
  intros Hi Hu. unfold upsert, put. apply map_eq. intros j. rewrite lookup_omap.
  destruct (decide (j = k)) as [->|Hne].
  - rewrite lookup_insert_eq. destruct (m !! k) as [old|]; cbn;
      rewrite ?Hi, ?Hu; destruct v; by rewrite ?lookup_insert_eq, ?lookup_delete_eq.
  - rewrite lookup_insert_ne by done.
    destruct v; by rewrite ?lookup_insert_ne, ?lookup_delete_ne, lookup_omap.
Qed.

Lemma upsert_const {K A} `{Countable K} (k : K) (v : A) m :
  upsert k v (λ _, v) m = <[k := v]> m.
Proof. unfold upsert. by destruct (m !! k). Qed.

Definition exec_all (batch : list stmt) (t : tables) : tables :=
  foldl (λ t s, exec_stmt s t) t batch.

Lemma exec_all_app b1 b2 t : exec_all (b1 ++ b2) t = exec_all b2 (exec_all b1 t).
Proof. apply foldl_app. Qed.

(** A batch that fits and meets no fault runs to its end. *)
Lemma send_batch_ok f1 f2 batch t :
  Forall (λ s, forallb fits_bigint (stmt_bigints s) = true) batch ->
  send_batch f1 f2 batch t [] = (Ok tt, exec_all batch t, []).
Proof.
  intros Hf. unfold send_batch, tx_bind at 1.
  assert (exec_batch f1 batch t [] = (Ok tt, exec_all batch t, [])) as ->; [|done].
  revert t. induction Hf as [|s batch Hs _ IH]; intros t; cbn; [done|].
  unfold tx_bind, tx_wrap, db_call, run_stmt. rewrite Hs. cbn. apply IH.
Qed.

Lemma exec_all_flat_map {A} (g : A -> list stmt) (spec : A -> ledger -> ledger) l t :
  (forall a t, a ∈ l -> abs (exec_all (g a) t) = spec a (abs t)) ->
  abs (exec_all (flat_map g l) t) = foldl (λ L a, spec a L) (abs t) l.
Proof.
  revert t. induction l as [|a l IH]; intros t Hg; [done|].
  cbn [flat_map foldl]. rewrite exec_all_app, IH by (intros; apply Hg; by right).
  by rewrite Hg by (by left).
Qed.

Section Refinement.
Context `{SdkOps} `{UnicodeOps}.
Context `{Codec blockHeader} `{Codec assetParams} `{Codec appParams} `{Codec appLocalState}
  `{Codec baseAccountData} `{Codec SpecialAddresses}.

(** Equality of ledgers, table by table. *)
Ltac ledger_eq :=
  unfold abs, exec_all; cbn; f_equal; try done;
  try (etrans; [eapply omap_upsert; [reflexivity | intros; reflexivity] | reflexivity]).

Lemma abs_writeAccount round r delta t :
  abs (exec_all (writeAccount round (BR_Addr r) (BR_AccountData r) delta) t) =
    spec_account r (abs t).
Proof.
  unfold writeAccount, spec_account; cbv zeta. destruct (_ =? 0), delta; ledger_eq.
Qed.

Lemma abs_writeAssetResource round r t :
  (forall h, AHD_Holding (ASR_Holding r) = Some h -> is_u64 (AH_Amount h)) ->
  abs (exec_all (writeAssetResource round r) t) = spec_asset r (abs t).
Proof.
  intros Hh. unfold writeAssetResource, spec_asset, change, put_change. rewrite exec_all_app.
  destruct r as [aidx addr [params [|]] [holding [|]]]; cbn in Hh |- *;
    destruct params, holding as [h|]; try pose proof (Hh h eq_refl);
    unfold exec_all; cbn [foldl exec_stmt];
    rewrite ?ParseUint_FormatUint by done; ledger_eq.
Qed.

Lemma abs_writeAppResource round r t :
  abs (exec_all (writeAppResource round r) t) = spec_app r (abs t).
Proof.
  unfold writeAppResource, spec_app, change, put_change. rewrite exec_all_app.
  destruct r as [aidx addr [[] [|]] [[] [|]]]; ledger_eq.
Qed.

Lemma abs_writeBoxMods kvMods batch t :
  writeBoxMods kvMods = Ok batch ->
  abs (exec_all batch t) = spec_boxes kvMods (abs t).
Proof.
  revert batch t. induction kvMods as [|[key data] rest IH]; intros batch t; cbn.
  { by intros [= <-]. }
  unfold spec_boxes; cbn [foldl].
  destruct (SplitBoxKey key) as [[app name]|]; cbn; [|done].
  destruct (writeBoxMods rest) as [b|] eqn:E; cbn; [|done]. intros [= <-].
  change (exec_all (?s :: b) t) with (exec_all b (exec_stmt s t)).
  rewrite (IH b) by done. unfold spec_boxes.
  destruct data; cbn; by rewrite ?upsert_const.
Qed.

End Refinement.

(** ** Invariants of the tables *)

(** The schema's comments: the JSON column is [null] iff the row is deleted; a
    deleted row records when, and a deleted account or holding is worth nothing. *)
Definition account_ok (r : account_row) : Prop :=
  (acr_account_data r = jsonNull <-> acr_deleted r = true) /\
  (acr_deleted r = true -> is_Some (acr_closed_at r) /\ acr_microalgos r = 0 /\
     acr_rewardsbase r = 0 /\ acr_rewards_total r = 0).
Definition holding_ok (r : account_asset_row) : Prop :=
  aar_deleted r = true -> is_Some (aar_closed_at r) /\ aar_amount r = 0.
Definition asset_ok (r : asset_row) : Prop :=
  (asr_params r = jsonNull <-> asr_deleted r = true) /\
  (asr_deleted r = true -> is_Some (asr_closed_at r)).
Definition app_ok (r : app_row) : Prop :=
  (apr_params r = jsonNull <-> apr_deleted r = true) /\
  (apr_deleted r = true -> is_Some (apr_closed_at r)).
Definition local_ok (r : account_app_row) : Prop :=
  (alr_localstate r = jsonNull <-> alr_deleted r = true) /\
  (alr_deleted r = true -> is_Some (alr_closed_at r)).

Record tables_ok (t : tables) : Prop := {
  ok_account : map_Forall (λ _, account_ok) (t_account t);
  ok_holding : map_Forall (λ _, holding_ok) (t_account_asset t);
  ok_asset : map_Forall (λ _, asset_ok) (t_asset t);
  ok_app : map_Forall (λ _, app_ok) (t_app t);
  ok_local : map_Forall (λ _, local_ok) (t_account_app t) }.

(** A statement that writes no [null] for a live row. *)
Definition stmt_ok (s : stmt) : Prop :=
  match s with
  | upsert_asset _ _ j _ | upsert_app _ _ j _ | upsert_account_app _ _ j _
  | upsert_account _ _ _ _ _ j | upsert_account_with_keytype _ _ _ _ _ _ j => j <> jsonNull
  | _ => True
  end.

Lemma map_Forall_upsert {K A} `{Countable K} (P : A -> Prop) k ins upd (m : gmap K A) :
  P ins -> (forall old, P (upd old)) -> map_Forall (λ _, P) m ->
  map_Forall (λ _, P) (upsert k ins upd m).
Proof.
  intros Hi Hu Hm. apply map_Forall_insert_2; [|done]. by destruct (m !! k).
Qed.

Ltac row_ok :=
  unfold account_ok, holding_ok, asset_ok, app_ok, local_ok; cbn;
  split_and?; intros; try split; intros; split_and?; (done || congruence || eauto).

Lemma exec_stmt_ok s t : stmt_ok s -> tables_ok t -> tables_ok (exec_stmt s t).
Proof.
  intros Hs [Ha Hh Has Hap Hl].
  destruct s; cbn in Hs |- *; constructor; cbn; try done;
    apply map_Forall_upsert; try done; intros; row_ok.
Qed.

(** [grows t t']: no row disappears, and no row changes its round of creation.
    Boxes are the exception: their rows are deleted. *)
Definition keeps {K A} `{Countable K} (created : A -> Z) (m m' : gmap K A) : Prop :=
  forall k r, m !! k = Some r -> exists r', m' !! k = Some r' /\ created r' = created r.

Record grows (t t' : tables) : Prop := {
  grows_account : keeps acr_created_at (t_account t) (t_account t');
  grows_holding : keeps aar_created_at (t_account_asset t) (t_account_asset t');
  grows_asset : keeps asr_created_at (t_asset t) (t_asset t');
  grows_app : keeps apr_created_at (t_app t) (t_app t');
  grows_local : keeps alr_created_at (t_account_app t) (t_account_app t');
  grows_header : forall k r, t_block_header t !! k = Some r -> t_block_header t' !! k = Some r }.

Lemma keeps_refl {K A} `{Countable K} (c : A -> Z) (m : gmap K A) : keeps c m m.
Proof. intros k r Hr. eauto. Qed.

Lemma keeps_trans {K A} `{Countable K} (c : A -> Z) (m1 m2 m3 : gmap K A) :
  keeps c m1 m2 -> keeps c m2 m3 -> keeps c m1 m3.
Proof.
  intros H1 H2 k r (r2 & Hr2 & E2)%H1. destruct (H2 _ _ Hr2) as (r3 & ? & E3).
  exists r3. split; [done|]. congruence.
Qed.

Lemma keeps_upsert {K A} `{Countable K} (c : A -> Z) k ins upd (m : gmap K A) :
  (forall old, c (upd old) = c old) -> keeps c m (upsert k ins upd m).
Proof.
  intros Hu j r Hr. unfold upsert. destruct (decide (j = k)) as [->|Hne].
  - rewrite lookup_insert_eq, Hr. eauto.
  - rewrite lookup_insert_ne by done. eauto.
Qed.

#[export] Instance grows_preorder : PreOrder grows.
Proof.
  split.
  - intros t. constructor; try apply keeps_refl. done.
  - intros t1 t2 t3 [] []. constructor; try (eapply keeps_trans; done). eauto.
Qed.

Lemma exec_stmt_grows s t : grows t (exec_stmt s t).
Proof.
  destruct s; constructor; cbn; try apply keeps_refl; try by apply keeps_upsert.
  all: try done.
  intros k r Hr. unfold upsert. destruct (decide (k = round)) as [->|Hne].
  - by rewrite lookup_insert_eq, Hr.
  - by rewrite lookup_insert_ne.
Qed.

(** Whatever calls fail, a batch leaves the tables in a state its statements
    lead to. *)
Lemma send_batch_ind (P : tables -> Prop) f1 f2 batch t fs r t' fs' :
  (forall s t, s ∈ batch -> P t -> P (exec_stmt s t)) ->
  P t -> send_batch f1 f2 batch t fs = (r, t', fs') -> P t'.
Proof.
  intros Hstep HP. unfold send_batch, tx_bind at 1.
  destruct (exec_batch f1 batch t fs) as [[r1 t1] fs1] eqn:E.
  assert (P t1) as HP1.
  { revert t fs HP E. induction batch as [|s batch IH]; intros t fs HP; cbn.
    { by intros [= <- <- <-]. }
    unfold tx_bind at 1, tx_wrap, db_call, run_stmt.
    pose proof (Hstep s t ltac:(by left) HP).
    destruct fs as [|[e|] fs]; [| by intros [= <- <- <-] |];
      destruct (forallb _ _); cbn; try (by intros [= <- <- <-]);
      apply IH; try done; intros ???; apply Hstep; by right. }
  destruct r1; [|by intros [= <- <- <-]].
  unfold tx_wrap, db_call. by destruct fs1 as [|[e|] fs1]; intros [= <- <- <-].
Qed.

(** The JSON text of a struct is an object, never [null]. *)
Definition writes_objects (T : Type) `{Codec T} : Prop := forall x : T, encodeJSON x <> jsonNull.

Section Theorems.
Context `{SdkOps} `{UnicodeOps}.
Context `{Codec blockHeader} `{Codec assetParams} `{Codec appParams} `{Codec appLocalState}
  `{Codec baseAccountData} `{Codec SpecialAddresses}.

Definition batch_fits (batch : list stmt) : Prop :=
  Forall (λ s, forallb fits_bigint (stmt_bigints s) = true) batch.

(** The amounts of a delta are [uint64]. *)
Definition delta_u64 (delta : LedgerStateDelta) : Prop :=
  Forall (λ r, forall h, AHD_Holding (ASR_Holding r) = Some h -> is_u64 (AH_Amount h))
    (D_AssetResources (D_AccountDeltas delta)).

Lemma exec_block_batch block delta batch t :
  block_batch block delta = Ok batch -> delta_u64 delta ->
  abs (exec_all batch t) = apply_delta delta (abs t).
Proof.
  intros Hb Hu. unfold block_batch in Hb.
  destruct (getSigTypeDeltas _) as [sig|]; cbn [wrap mbind result_bind] in Hb; [|done].
  destruct (writeBoxMods _) as [boxes|] eqn:Hbox; cbn [wrap mbind result_bind] in Hb; [|done].
  apply (f_equal (λ r, match r with Ok b => b | Err _ => [] end)) in Hb. subst batch.
  rewrite app_assoc, exec_all_app. unfold writeAccountDeltas. rewrite !exec_all_app.
  rewrite (abs_writeBoxMods _ _ _ Hbox). unfold apply_delta. f_equal.
  rewrite (exec_all_flat_map _ spec_app) by (intros; apply abs_writeAppResource).
  rewrite (exec_all_flat_map _ spec_asset).
  2: { intros r t' Hr. apply abs_writeAssetResource. by apply (Forall_forall _ _) with r in Hu. }
  rewrite (exec_all_flat_map _ spec_account) by (intros; apply abs_writeAccount).
  done.
Qed.

(** C7. [Writer.AddBlock] implements the ledger: after it the live rows are the
    block's state delta applied to the live rows before, for accounts, assets,
    holdings, applications, local states and boxes at once. *)
Theorem AddBlock_refines_ledger block delta batch t :
  block_batch block delta = Ok batch -> batch_fits batch -> delta_u64 delta ->
  exists t', AddBlock block delta t [] = (Ok tt, t', []) /\
    abs t' = apply_delta delta (abs t).
Proof.
  intros Hb Hf Hu. exists (exec_all batch t). unfold AddBlock. rewrite Hb.
  split; [by apply send_batch_ok|by eapply exec_block_batch].
Qed.

Lemma block_batch_ok block delta batch :
  writes_objects assetParams -> writes_objects appParams -> writes_objects appLocalState ->
  writes_objects baseAccountData ->
  block_batch block delta = Ok batch -> Forall stmt_ok batch.
Proof.
  intros H1' H2' H3' H4' Hb. unfold block_batch in Hb.
  destruct (getSigTypeDeltas _) as [sig|]; cbn [wrap mbind result_bind] in Hb; [|done].
  destruct (writeBoxMods _) as [boxes|] eqn:Hbox; cbn [wrap mbind result_bind] in Hb; [|done].
  apply (f_equal (λ r, match r with Ok b => b | Err _ => [] end)) in Hb. subst batch.
  rewrite !Forall_app. split_and!.
  - by repeat constructor.
  - by repeat constructor.
  - unfold writeAccountDeltas. rewrite !Forall_app, !Forall_flat_map.
    split_and!; apply Forall_forall; intros r _.
    + unfold writeAccount. destruct (_ =? 0), (_ !! _); repeat constructor; apply H4'.
    + destruct r as [? ? [[] [|]] [[] [|]]]; repeat constructor; apply H1'.
    + destruct r as [? ? [[] [|]] [[] [|]]]; repeat constructor; (apply H2' || apply H3').
  - revert boxes Hbox. generalize (D_KvMods delta).
    intros kv. induction kv as [|[k d] kv IH]; cbn; intros boxes; [by intros [= <-]|].
    destruct (SplitBoxKey k) as [[app name]|]; cbn; [|done].
    destruct (writeBoxMods kv); cbn; [|done]. intros [= <-]. constructor; [by destruct d|eauto].
Qed.

(** C34. The schema's invariant, "the json is null iff the row is deleted" (with
    [closed_at] set and balances zero), holds after [Writer.AddBlock] if it held
    before, whatever calls to the database fail and however far the batch got. *)
Theorem AddBlock_preserves_tables_ok block delta t fs r t' fs' :
  writes_objects assetParams -> writes_objects appParams -> writes_objects appLocalState ->
  writes_objects baseAccountData ->
  tables_ok t -> AddBlock block delta t fs = (r, t', fs') -> tables_ok t'.
Proof.
  intros H1' H2' H3' H4' Ht. unfold AddBlock.
  destruct (block_batch block delta) as [batch|e] eqn:Hb; [|by intros [= <- <- <-]].
  apply send_batch_ind; [|done]. intros s t0 Hs. apply exec_stmt_ok.
  eapply Forall_forall in Hs; [exact Hs|]. by eapply block_batch_ok.
Qed.

(** History is kept: no row of a table of accounts, assets, holdings,
    applications or local states is removed by [Writer.AddBlock], none changes
    its [created_at], not even when a deleted row comes back to life, and a block
    header that is there is never overwritten. *)
Theorem AddBlock_keeps_history block delta t fs r t' fs' :
  AddBlock block delta t fs = (r, t', fs') -> grows t t'.
Proof.
  unfold AddBlock. destruct (block_batch block delta) as [batch|e]; [|by intros [= <- <- <-]].
  apply send_batch_ind; [|done]. intros s t0 _ Ht. etrans; [done|apply exec_stmt_grows].
Qed.
End Theorems.

Section KeyTypesAndBoxes.
Context `{SdkOps}.

(** The new value of [account.keytype] that a transaction gives its sender. *)
Definition keytype_after (stib : SignedTxnInBlock) : option string :=
  if bool_decide (H_RekeyTo (T_Header (SIB_Txn stib)) = zeroAddress) &&
     bool_decide (T_Type (SIB_Txn stib) ≠ StateProofTx)
  then match SignatureType (SIB_SignedTxn stib) with Ok s => Some s | Err _ => None end
  else None.

Definition sent_by (a : Address) (stib : SignedTxnInBlock) : Prop :=
  H_Sender (T_Header (SIB_Txn stib)) = a.
#[global] Instance sent_by_dec a stib : Decision (sent_by a stib).
Proof. unfold sent_by. apply _. Defined.

Lemma sigTypeDeltas_from_last payset res res' a :
  sigTypeDeltas_from res payset = Ok res' ->
  res' !! a = match last (filter (sent_by a) payset) with
              | Some stib => Some (keytype_after stib)
              | None => res !! a
              end.
Proof.
  revert res. induction payset as [|stib rest IH]; intros res;
    cbn [sigTypeDeltas_from]; [by intros [= <-]|].
  rewrite filter_cons. set (sender := H_Sender (T_Header (SIB_Txn stib))).
  assert (Hrec : forall d, d = keytype_after stib ->
    sigTypeDeltas_from (<[sender := d]> res) rest = Ok res' ->
    res' !! a = match last (if decide (sent_by a stib) then stib :: filter (sent_by a) rest
                            else filter (sent_by a) rest) with
                | Some stib => Some (keytype_after stib) | None => res !! a end).
  { intros d -> ->%IH. destruct (decide (sent_by a stib)) as [Hs|Hs].
    - rewrite last_cons. destruct (last _); [done|].
      unfold sent_by in Hs. subst sender. by rewrite Hs, lookup_insert_eq.
    - destruct (last _); [done|]. by rewrite lookup_insert_ne. }
  unfold keytype_after in Hrec. destruct (_ && _); [|by apply Hrec].
  destruct (SignatureType _); cbn; [|done]. by apply Hrec.
Qed.

(** [getSigTypeDeltas] gives an account the key type of its last
    transaction in the block: unknown after a rekey or for a state proof, else
    the type of the signature; an account that sends nothing has no entry. *)
Theorem getSigTypeDeltas_last payset deltas a :
  getSigTypeDeltas payset = Ok deltas ->
  deltas !! a = keytype_after <$> last (filter (sent_by a) payset).
Proof.
  intros Hd. rewrite (sigTypeDeltas_from_last _ _ _ a Hd). by destruct (last _).
Qed.

Lemma put_comm {K V} `{Countable K} (k1 k2 : K) (v1 v2 : option V) m :
  k1 <> k2 -> put k1 v1 (put k2 v2 m) = put k2 v2 (put k1 v1 m).
Proof.
  intros Hne. apply map_eq. intros j. unfold put.
  destruct v1, v2; destruct (decide (k1 = j)), (decide (k2 = j)); by simplify_map_eq.
Qed.

Definition box_put (m : gmap (Z * string) string) (kv : string * option string) :=
  match SplitBoxKey kv.1 with Ok box => put box kv.2 m | Err _ => m end.

Lemma box_put_perm `{!SdkLaws} kv1 kv2 m :
  NoDup kv1.*1 -> kv1 ≡ₚ kv2 -> foldl box_put m kv1 = foldl box_put m kv2.
Proof.
  intros Hn Hp. revert m Hn.
  induction Hp as [|x l1 l2 _ IH|[k1 d1] [k2 d2] l|l1 l2 l3 Hp1 IH1 _ IH2]; intros m Hn; cbn.
  - done.
  - apply IH. by apply NoDup_cons in Hn as [_ ?].
  - cbn in Hn. apply NoDup_cons in Hn as [Hn _]. f_equal. unfold box_put; cbn.
    destruct (SplitBoxKey k1) eqn:E1, (SplitBoxKey k2) eqn:E2; try done.
    apply put_comm. intros ->. apply Hn, elem_of_cons. left. by eapply SplitBoxKey_inj.
  - rewrite IH1 by done. apply IH2. by rewrite <-Hp1.
Qed.

Lemma writeBoxMods_boxes kv batch t :
  writeBoxMods kv = Ok batch -> t_app_box (exec_all batch t) = foldl box_put (t_app_box t) kv.
Proof.
  intros Hb. apply abs_writeBoxMods with (t := t) in Hb.
  apply (f_equal L_boxes) in Hb. cbn in Hb. rewrite Hb.
  generalize (t_app_box t). clear Hb. induction kv as [|[k d] kv IH]; intros m; cbn; [done|].
  apply IH.
Qed.

Lemma writeBoxMods_defined kv :
  is_ok (writeBoxMods kv) = forallb (λ p, is_ok (SplitBoxKey p.1)) kv.
Proof.
  induction kv as [|[k d] kv IH]; cbn; [done|]. rewrite <-IH.
  destruct (SplitBoxKey k) as [[]|]; cbn; [|done]. by destruct (writeBoxMods kv).
Qed.

(** Go visits the map of box changes in an order of its own; the boxes
    stored do not depend on it, and neither does whether the block is refused. *)
Theorem writeBoxMods_order `{!SdkLaws} kv1 kv2 :
  NoDup kv1.*1 -> kv1 ≡ₚ kv2 ->
  is_ok (writeBoxMods kv1) = is_ok (writeBoxMods kv2) /\
  forall b1 b2 t, writeBoxMods kv1 = Ok b1 -> writeBoxMods kv2 = Ok b2 ->
    t_app_box (exec_all b1 t) = t_app_box (exec_all b2 t).
Proof.
  intros Hn Hp. split.
  - rewrite !writeBoxMods_defined. apply eq_true_iff_eq. rewrite !forallb_forall.
    split; intros Hf x Hx; apply Hf; [by eapply Permutation_in, Hx|].
    by eapply Permutation_in, Hx.
  - intros b1 b2 t H1 H2. rewrite (writeBoxMods_boxes _ _ _ H1), (writeBoxMods_boxes _ _ _ H2).
    by apply box_put_perm.
Qed.
End KeyTypesAndBoxes.

(** ** Bounds *)

Lemma exec_batch_Ok_fits fmt batch t fs t' fs' :
  exec_batch fmt batch t fs = (Ok tt, t', fs') -> batch_fits batch.
Proof.
  revert t fs. induction batch as [|s batch IH]; intros t fs; [by constructor|].
  cbn. unfold tx_bind at 1, tx_wrap, db_call, run_stmt.
  destruct (forallb fits_bigint (stmt_bigints s)) eqn:E.
  - destruct fs as [|[e|] fs]; cbn; [|done|]; intros Hr%IH; by constructor.
  - by destruct fs as [|[e|] fs].
Qed.

Section Bounds.
Context `{SdkOps} `{UnicodeOps}.
Context `{Codec blockHeader} `{Codec assetParams} `{Codec appParams} `{Codec appLocalState}
  `{Codec baseAccountData} `{Codec SpecialAddresses}.

(** A balance of [2^63] microalgos or more does not fit the [bigint]
    column: [Writer.AddBlock] then reports an error on every run, it never
    stores a wrapped value. *)
Theorem AddBlock_rejects_large_balance block delta rec t fs :
  rec ∈ D_Accts (D_AccountDeltas delta) ->
  MaxInt64 < ACD_MicroAlgos (BR_AccountData rec) ->
  exists e t' fs', AddBlock block delta t fs = (Err e, t', fs').
Proof.
  intros Hr Hbig. destruct (AddBlock block delta t fs) as [[[[]|e] t'] fs'] eqn:E; [|by eauto].
  exfalso. unfold AddBlock in E.
  destruct (block_batch block delta) as [batch|e] eqn:Hb; [|done].
  unfold send_batch, tx_bind in E.
  destruct (exec_batch _ batch t fs) as [[[[]|e] t1] fs1] eqn:Ee; [|done].
  apply exec_batch_Ok_fits in Ee. unfold block_batch in Hb.
  destruct (getSigTypeDeltas _) as [sig|]; cbn [wrap mbind result_bind] in Hb; [|done].
  destruct (writeBoxMods _) as [boxes|]; cbn [wrap mbind result_bind] in Hb; [|done].
  apply (f_equal (λ r, match r with Ok b => b | Err _ => [] end)) in Hb. subst batch.
  unfold batch_fits, writeAccountDeltas in Ee. rewrite !Forall_app, Forall_flat_map in Ee.
  destruct Ee as (_ & _ & (Ha & _) & _). eapply Forall_forall in Ha; [|exact Hr].
  unfold writeAccount in Ha. rewrite (proj2 (Z.eqb_neq _ 0)) in Ha by (unfold MaxInt64 in *; lia).
  assert (fits_bigint (ACD_MicroAlgos (BR_AccountData rec)) = false) as Hf.
  { unfold fits_bigint. rewrite (proj2 (Z.leb_gt _ MaxInt64)) by done. apply andb_false_r. }
  destruct (sig !! BR_Addr rec); apply Forall_cons in Ha as [Ha _]; cbn in Ha;
    by rewrite Hf in Ha.
Qed.
End Bounds.

(** ** A concrete block and delta *)

Module SampleDelta.
#[export] Instance header_codec : Codec blockHeader :=
  one_document (convertBlockHeader (Sample.blockHeader 5)).
#[export] Instance asset_codec : Codec assetParams :=
  one_document (convertAssetParams (H := ascii_print) sample_params).
#[export] Instance app_codec : Codec appParams := one_document (convertAppParams sample_app).
#[export] Instance local_codec : Codec appLocalState :=
  one_document (convertAppLocalState sample_local).
#[export] Instance account_codec : Codec baseAccountData :=
  one_document (convertTrimmedLcAccountData sample_account).
#[export] Instance special_codec : Codec SpecialAddresses :=
  one_document {| FeeSink := "fee sink"; RewardsPool := "rewards pool" |}.

Definition with_algos (n : Z) : AccountData :=
  let a := sample_account in {|
  ACD_Status := ACD_Status a; ACD_MicroAlgos := n; ACD_RewardsBase := ACD_RewardsBase a;
  ACD_RewardedMicroAlgos := ACD_RewardedMicroAlgos a; ACD_AuthAddr := ACD_AuthAddr a;
  ACD_IncentiveEligible := ACD_IncentiveEligible a; ACD_TotalAppSchema := ACD_TotalAppSchema a;
  ACD_TotalExtraAppPages := ACD_TotalExtraAppPages a; ACD_TotalAppParams := ACD_TotalAppParams a;
  ACD_TotalAppLocalStates := ACD_TotalAppLocalStates a;
  ACD_TotalAssetParams := ACD_TotalAssetParams a; ACD_TotalAssets := ACD_TotalAssets a;
  ACD_TotalBoxes := ACD_TotalBoxes a; ACD_TotalBoxBytes := ACD_TotalBoxBytes a;
  ACD_LastProposed := ACD_LastProposed a; ACD_LastHeartbeat := ACD_LastHeartbeat a;
  ACD_VoteID := ACD_VoteID a; ACD_SelectionID := ACD_SelectionID a;
  ACD_StateProofID := ACD_StateProofID a; ACD_VoteFirstValid := ACD_VoteFirstValid a;
  ACD_VoteLastValid := ACD_VoteLastValid a; ACD_VoteKeyDilution := ACD_VoteKeyDilution a |}.

(** [alice] has [n] microalgos, creates the asset 7 and holds it, the account of
    [bob] is closed; [alice] opts in to the application 9 that [bob] deletes; a box
    is written and another deleted. *)
Definition delta (n : Z) : LedgerStateDelta := {|
  D_AccountDeltas := {|
    D_Accts := [{| BR_Addr := "alice"; BR_AccountData := with_algos n |};
                {| BR_Addr := "bob"; BR_AccountData := with_algos 0 |}];
    D_AssetResources := [{| ASR_Aidx := 7; ASR_Addr := "alice";
      ASR_Params := {| APD_Params := Some sample_params; APD_Deleted := false |};
      ASR_Holding := {| AHD_Holding := Some {| AH_Amount := 2 ^ 64 - 1; AH_Frozen := false |};
                        AHD_Deleted := false |} |}];
    D_AppResources := [{| PPR_Aidx := 9; PPR_Addr := "bob";
      PPR_Params := {| PPD_Params := None; PPD_Deleted := true |};
      PPR_State := {| PLD_LocalState := None; PLD_Deleted := false |} |};
      {| PPR_Aidx := 9; PPR_Addr := "alice";
      PPR_Params := {| PPD_Params := None; PPD_Deleted := false |};
      PPR_State := {| PLD_LocalState := Some sample_local; PLD_Deleted := false |} |}] |};
  D_KvMods := [("box1", Some "value"); ("box2", None)] |}.

Definition block : Block := {|
  B_Header := Sample.blockHeader 5;
  B_Payset := [Sample.inBlock (Sample.stxnad (Sample.txn PaymentTx "alice" Sample.payment) [])] |}.

Definition batch : list stmt :=
  match block_batch (H := Sample.sdk) (H0 := ascii_print) block (delta 100) with
  | Ok b => b | Err _ => [] end.
End SampleDelta.

Section Witnesses.
#[local] Existing Instance Sample.sdk.
#[local] Existing Instance Sample.sdk_laws.
#[local] Existing Instance ascii_print.
Import SampleDelta.

Lemma AddBlock_refines_ledger_witness :
  exists t', AddBlock block (delta 100) empty_tables [] = (Ok tt, t', []) /\
    abs t' = apply_delta (delta 100) (abs empty_tables).
Proof.
  apply (AddBlock_refines_ledger block (delta 100) batch empty_tables).
  - vm_compute. reflexivity.
  - repeat constructor.
  - apply Forall_singleton. intros h [= <-]. split; [discriminate|reflexivity].
Defined.

Lemma AddBlock_preserves_tables_ok_witness :
  tables_ok (AddBlock block (delta 100) empty_tables [None; Some (ErrPg UniqueViolation)]).1.2.
Proof.
  eapply (AddBlock_preserves_tables_ok block (delta 100) empty_tables
           [None; Some (ErrPg UniqueViolation)]).
  - intros x. discriminate.
  - intros x. discriminate.
  - intros x. discriminate.
  - intros x. discriminate.
  - constructor; apply map_Forall_empty.
  - apply surjective_pairing_3.
Defined.

Lemma AddBlock_keeps_history_witness :
  grows empty_tables (AddBlock block (delta 100) empty_tables []).1.2.
Proof.
  eapply (AddBlock_keeps_history block (delta 100) empty_tables []).
  apply surjective_pairing_3.
Defined.

Lemma getSigTypeDeltas_last_witness :
  ({[ "alice" := Some Sig ]} : gmap Address (option string)) !! "alice" =
    keytype_after <$> last (filter (sent_by "alice") (B_Payset block)).
Proof.
  apply (getSigTypeDeltas_last (B_Payset block) {[ "alice" := Some Sig ]} "alice").
  vm_compute. reflexivity.
Defined.

Lemma writeBoxMods_order_witness :
  let kv := D_KvMods (delta 100) in
  is_ok (writeBoxMods kv) = is_ok (writeBoxMods (reverse kv)) /\
  forall b1 b2 t, writeBoxMods kv = Ok b1 -> writeBoxMods (reverse kv) = Ok b2 ->
    t_app_box (exec_all b1 t) = t_app_box (exec_all b2 t).
Proof.
  intros kv. apply (writeBoxMods_order kv (reverse kv)).
  - by apply (bool_decide_unpack _); vm_compute.
  - symmetry. apply reverse_Permutation.
Defined.

Lemma AddBlock_rejects_large_balance_witness :
  exists e t' fs', AddBlock block (delta (2 ^ 63)) empty_tables [] = (Err e, t', fs').
Proof.
  apply (AddBlock_rejects_large_balance block (delta (2 ^ 63))
           {| BR_Addr := "alice"; BR_AccountData := with_algos (2 ^ 63) |} empty_tables []).
  - cbn. apply elem_of_cons. by left.
  - reflexivity.
Defined.
End Witnesses.

(** ** Errors of the writer, and the metastate it touches *)

Section Honest.
Context `{SdkOps} `{!SdkLaws} `{UnicodeOps}.
Context `{Codec blockHeader} `{Codec assetParams} `{Codec appParams} `{Codec appLocalState}
  `{Codec baseAccountData} `{Codec SpecialAddresses}.

Lemma honest_send_batch f1 f2 batch : honest (send_batch f1 f2 batch).
Proof.
  apply honest_bind; [|intros; apply honest_wrap; by apply honest_call].
  induction batch as [|s batch IH]; cbn; [apply honest_ret|].
  apply honest_bind; [|done]. apply honest_wrap, honest_call.
  intros t. unfold run_stmt. by case_match.
Qed.

Lemma block_batch_plain block delta : plain (block_batch block delta).
Proof.
  apply plain_bind; [apply plain_wrap|intros sig; apply plain_bind;
    [apply plain_wrap|auto with plain]].
  - unfold getSigTypeDeltas. generalize (∅ : gmap Address (option string)).
    induction (B_Payset block) as [|stib rest IH]; intros res; cbn; [auto with plain|].
    case_match; [|done]. apply plain_bind; [apply plain_wrap|done].
    unfold SignatureType. repeat case_match; auto with plain.
  - induction (D_KvMods delta) as [|[k d] kv IH]; cbn; [auto with plain|].
    apply plain_bind; [apply plain_wrap, SplitBoxKey_plain|]. intros [app name].
    apply plain_bind; auto with plain.
Qed.

Lemma honest_AddBlock block delta : honest (AddBlock block delta).
Proof.
  unfold AddBlock. pose proof (block_batch_plain block delta) as Hp.
  destruct (block_batch block delta) as [batch|e]; [apply honest_send_batch|].
  apply honest_err. cbn. by rewrite (Hp e eq_refl).
Qed.

Lemma honest_AddBlock0 block : honest (AddBlock0 block).
Proof. apply honest_send_batch. Qed.

Lemma honest_MakeWriter : honest MakeWriter.
Proof.
  unfold MakeWriter. induction statement_names as [|n l IH]; cbn; [apply honest_ret|].
  apply honest_bind; [apply honest_wrap; by apply honest_call|done].
Qed.

Lemma MakeWriter_state t fs r t' fs' : MakeWriter t fs = (r, t', fs') -> t' = t.
Proof.
  unfold MakeWriter. revert fs. induction statement_names as [|n l IH]; intros fs; cbn.
  - by intros [= <- <- <-].
  - unfold tx_bind at 1, tx_wrap, db_call.
    destruct fs as [|[e|] fs]; cbn; [apply IH|by intros [= <- <- <-]|apply IH].
Qed.

(** Of the metastate, a batch changes the special accounts only. *)
Lemma send_batch_metastate f1 f2 batch k t fs r t' fs' :
  k <> SpecialAccountsMetastateKey ->
  send_batch f1 f2 batch t fs = (r, t', fs') -> t_metastate t' !! k = t_metastate t !! k.
Proof.
  intros Hk. apply (send_batch_ind (λ t', t_metastate t' !! k = t_metastate t !! k)); [|done].
  intros s t0 _ <-. destruct s; cbn; try done. by rewrite upsert_const, lookup_insert_ne.
Qed.

Lemma AddBlock_metastate block delta k t fs r t' fs' :
  k <> SpecialAccountsMetastateKey ->
  AddBlock block delta t fs = (r, t', fs') -> t_metastate t' !! k = t_metastate t !! k.
Proof.
  intros Hk. unfold AddBlock. destruct (block_batch _ _); [by apply send_batch_metastate|].
  by intros [= <- <- <-].
Qed.
End Honest.
