(* ===== verification/Postgres.v ===== *)
(** * Importing blocks: [idb/postgres/postgres.go]

    [LoadGenesis], [AddBlock], the import and network state, and
    [DeleteTransactions], each as the transactions it runs.

    [AddBlock] uses two connections: the main transaction, which writes the
    state, and a goroutine's transaction, which writes [txn] and
    [txn_participation] and commits on its own.  The two write different tables
    and the main one waits for the goroutine before it returns, so the order of
    their steps does not show in the tables; the model runs the goroutine's
    transaction first. *)

From S2P Require Import Prelude GoStd Sdk Idb Util Encoding Db WriteTxn Writer.

(** ** Two connections *)

Definition on_core {A} (m : Tx tables A) : Tx database A := λ d fs,
  let '(r, t, fs') := m (core d) fs in (r, {| core := t; txns := txns d |}, fs').
Definition on_txns {A} (m : Tx txn_tables A) : Tx database A := λ d fs,
  let '(r, t, fs') := m (txns d) fs in (r, {| core := core d; txns := t |}, fs').

(** Undoing the main transaction leaves what the goroutine's committed. *)
Definition rollback_core (before after : database) : database :=
  {| core := core before; txns := txns after |}.

Record ValidatedBlock := { VB_Block : Block; VB_Delta : LedgerStateDelta }.

Section Postgres.
Context `{SdkOps} `{UnicodeOps} `{MapOrder}.
Context `{Codec signedTxnWithAD} `{Codec TxnExtra} `{Codec blockHeader} `{Codec assetParams}
  `{Codec appParams} `{Codec appLocalState} `{Codec baseAccountData} `{Codec SpecialAddresses}
  `{Codec ImportState} `{Codec NetworkState} `{Codec DeleteStatus}.
Local Open Scope tx_scope.

(** ** Metastate *)

(** An error that is the sentinel itself is returned as it is. *)
Definition unless_not_initialized {A} (fmt : string) (m : Tx tables A) : Tx tables A :=
  r <-- tx_try m;
  match r with
  | Ok a => tx_ret a
  | Err e => if bool_decide (e = ErrorNotInitialized) then tx_err ErrorNotInitialized
             else tx_err (ErrWrap fmt e)
  end.

Definition getImportState : Tx tables ImportState :=
  importStateJSON <-- unless_not_initialized "unable to get import state err: %w"
                        (GetMetastate StateMetastateKey);
  lift (wrap ("unable to parse import state v: " +:+ dquote +:+ "%s" +:+ dquote +:+ " err: %w")
          (DecodeImportState importStateJSON)).

Definition setImportState (state : ImportState) : Tx tables unit :=
  SetMetastate StateMetastateKey (EncodeImportState state).

Definition getNetworkState : Tx tables NetworkState :=
  networkStateJSON <-- unless_not_initialized "unable to get network state err: %w"
                         (GetMetastate NetworkMetaStateKey);
  lift (wrap ("unable to parse network state v: " +:+ dquote +:+ "%s" +:+ dquote +:+ " err: %w")
          (DecodeNetworkState networkStateJSON)).

Definition setNetworkState (state : NetworkState) : Tx tables unit :=
  SetMetastate NetworkMetaStateKey (EncodeNetworkState state).

Definition getNextRoundToAccount : Tx tables Z :=
  state <-- unless_not_initialized "getNextRoundToAccount() err: %w" getImportState;
  tx_ret (NextRoundToAccount state).

Definition getMaxRoundAccounted : Tx tables Z :=
  round <-- getNextRoundToAccount;
  tx_ret (if 0 <? round then wrap64 (round - 1) else round).

(** ** [AddBlock] *)

(** The goroutine's transaction. *)
Definition addTxns (block : Block) : Tx txn_tables unit :=
  AddTransactions block (B_Payset block);;; AddTransactionParticipation block.

Definition isUniqueViolation (e : error) : bool :=
  bool_decide (errors_as_pg e = Some UniqueViolation).

Definition addBlock_tx (vb : ValidatedBlock) : Tx database unit :=
  let block := VB_Block vb in
  let round := B_Round block in
  importstate <-- on_core (tx_wrap "AddBlock() err: %w" getImportState);
  if negb (round =? NextRoundToAccount importstate) then
    tx_err (ErrMsg "AddBlock() adding block round %d but next round to account is %d")
  else
  let importstate := {| NextRoundToAccount := wrap64 (NextRoundToAccount importstate + 1) |} in
  on_core (tx_wrap "AddBlock() err: %w" (setImportState importstate));;;
  on_core (tx_wrap "AddBlock() err: %w" MakeWriter);;;
  if round =? 0 then on_core (tx_wrap "AddBlock() err: %w" (AddBlock0 block))
  else
  err0 <-- tx_try (on_txns (TxWithRetry (λ before _, before) (addTxns block)));
  on_core (tx_wrap "AddBlock() err: %w" (Writer.AddBlock block (VB_Delta vb)));;;
  match err0 with
  | Err e => if isUniqueViolation e then tx_ret tt else tx_err (ErrWrap "AddBlock() err0: %w" e)
  | Ok _ => tx_ret tt
  end.

Definition AddBlock (vb : ValidatedBlock) : Tx database unit :=
  match Consensus (BH_CurrentProtocol (B_Header (VB_Block vb))) with
  | None => tx_err (ErrMsg
      "unknown protocol (%s) detected, this usually means you need to upgrade")
  | Some _ => tx_wrap "AddBlock() err: %w" (TxWithRetry rollback_core (addBlock_tx vb))
  end.

(** ** [LoadGenesis] *)

Definition accountToAccountData (acct : GenesisAccount) : AccountData := {|
  ACD_Status := G_Status acct; ACD_MicroAlgos := 0; ACD_RewardsBase := 0;
  ACD_RewardedMicroAlgos := 0; ACD_AuthAddr := zeroAddress; ACD_IncentiveEligible := false;
  ACD_TotalAppSchema := Zero.schema0; ACD_TotalExtraAppPages := 0; ACD_TotalAppParams := 0;
  ACD_TotalAppLocalStates := 0; ACD_TotalAssetParams := 0; ACD_TotalAssets := 0;
  ACD_TotalBoxes := 0; ACD_TotalBoxBytes := 0; ACD_LastProposed := 0; ACD_LastHeartbeat := 0;
  ACD_VoteID := G_VoteID acct; ACD_SelectionID := G_SelectionID acct;
  ACD_StateProofID := G_StateProofID acct; ACD_VoteFirstValid := 0;
  ACD_VoteLastValid := G_VoteLastValid acct; ACD_VoteKeyDilution := G_VoteKeyDilution acct |}.

(** The statement [set_account]: a plain [INSERT]. *)
Definition set_account_stmt (addr : Address) (microalgos : Z) (account_data : string) (t : tables)
    : result (unit * tables) :=
  if negb (fits_bigint microalgos) then Err errBigint
  else match t_account t !! addr with
       | Some _ => Err (ErrPg UniqueViolation)
       | None => Ok (tt, set_account t (<[addr :=
           {| acr_microalgos := microalgos; acr_rewardsbase := 0; acr_rewards_total := 0;
              acr_deleted := false; acr_created_at := 0; acr_closed_at := None;
              acr_keytype := None; acr_account_data := account_data |}]> (t_account t)))
       end.

Fixpoint load_accounts (allocation : list GenesisAllocation) : Tx tables unit :=
  match allocation with
  | [] => tx_ret tt
  | alloc :: rest =>
      addr <-- lift (wrap "LoadGenesis() decode address err: %w" (DecodeAddress (G_Address alloc)));
      let accountData := accountToAccountData (G_State alloc) in
      tx_wrap "LoadGenesis() error setting genesis account[%d], %w"
        (db_call (set_account_stmt addr (G_MicroAlgos (G_State alloc))
           (EncodeTrimmedLcAccountData (TrimLcAccountData accountData))));;;
      load_accounts rest
  end.

Definition loadGenesis_tx (genesis : Genesis) : Tx tables unit :=
  network <-- tx_try getNetworkState;
  match network with
  | Err e =>
      if bool_decide (e = ErrorNotInitialized) then
        tx_wrap "LoadGenesis() err: %w" (setNetworkState {| NS_GenesisHash := Genesis_Hash genesis |})
      else tx_err (ErrWrap "LoadGenesis() err: %w" e)
  | Ok network =>
      if bool_decide (NS_GenesisHash network ≠ Genesis_Hash genesis) then
        tx_err (ErrMsg "LoadGenesis() genesis hash not matching")
      else tx_ret tt
  end;;;
  tx_wrap "LoadGenesis() prepare tx err: %w" (db_call (λ t, Ok (tt, t)));;;
  load_accounts (G_Allocation genesis);;;
  tx_wrap "LoadGenesis() err: %w" (setImportState {| NextRoundToAccount := 0 |}).

Definition LoadGenesis (genesis : Genesis) : Tx tables unit :=
  tx_wrap "LoadGenesis() err: %w" (TxWithRetry (λ before _, before) (loadGenesis_tx genesis)).

(** ** [DeleteTransactions] *)

Definition delete_before (keep : Z) (s : txn_tables) : txn_tables := {|
  t_txn := filter (λ p : Z * Z * txn_row, negb (p.1.1 <? keep)) (t_txn s);
  t_txn_participation :=
    filter (λ p : Address * Z * Z, negb (p.1.2 <? keep)) (t_txn_participation s) |}.

Definition delete_txn (keep : Z) (s : txn_tables) : result (unit * txn_tables) :=
  if negb (fits_bigint keep) then Err errBigint
  else Ok (tt, {| t_txn := t_txn (delete_before keep s);
                  t_txn_participation := t_txn_participation s |}).
Definition delete_participation (keep : Z) (s : txn_tables) : result (unit * txn_tables) :=
  if negb (fits_bigint keep) then Err errBigint
  else Ok (tt, {| t_txn := t_txn s;
                  t_txn_participation := t_txn_participation (delete_before keep s) |}).

(** [now] is the formatted time of the run. *)
Definition deleteTxns (now : string) (keep : Z) : Tx database unit :=
  on_txns (tx_wrap "deleteTxns(): transaction delete err %w" (db_call (delete_txn keep)));;;
  on_txns (tx_wrap "deleteTxns(): txn_participation delete err %w"
             (db_call (delete_participation keep)));;;
  on_core (tx_wrap "deleteTxns(): metastate update err %w"
    (SetMetastate DeleteStatusKey
       (EncodeDeleteStatus {| LastPruned := now; OldestRound := keep |}))).

Definition DeleteTransactions (now : string) (keep : Z) : Tx database unit :=
  tx_wrap "DeleteTransactions err: %w" (TxWithRetry (λ before _, before) (deleteTxns now keep)).

End Postgres.

(** ** Lemmas *)

Lemma honest_on_core {A} (m : Tx tables A) : honest m -> honest (on_core m).
Proof.
  intros Hm d fs r d' fs'. unfold on_core. destruct (m (core d) fs) as [[r1 t1] fs1] eqn:E.
  intros [= <- <- <-]. by eapply Hm.
Qed.

Lemma honest_on_txns {A} (m : Tx txn_tables A) : honest m -> honest (on_txns m).
Proof.
  intros Hm d fs r d' fs'. unfold on_txns. destruct (m (txns d) fs) as [[r1 t1] fs1] eqn:E.
  intros [= <- <- <-]. by eapply Hm.
Qed.

Lemma honest_lift {S A} (r : result A) : plain r -> honest (S := S) (lift r).
Proof.
  intros Hp s fs r' s' fs' [= <- <- <-]. split; [done|].
  destruct r as [|e]; cbn; [done|]. by rewrite (Hp e eq_refl).
Qed.

Lemma honest_unless_not_initialized {A} fmt (m : Tx tables A) :
  honest m -> honest (unless_not_initialized fmt m).
Proof.
  intros Hm. apply honest_try_bind; [done|intros; apply honest_ret|].
  intros e s fs r s' fs'. case_bool_decide; intros [= <- <- <-]; (split; [done|]); [done|].
  rewrite isSerializationError_ErrWrap. auto.
Qed.

(** What a successful run of a sequence is made of. *)
Lemma tx_bind_Ok {S A B} (m : Tx S A) (k : A -> Tx S B) s fs b s' fs' :
  tx_bind m k s fs = (Ok b, s', fs') ->
  exists a s1 fs1, m s fs = (Ok a, s1, fs1) /\ k a s1 fs1 = (Ok b, s', fs').
Proof. unfold tx_bind. destruct (m s fs) as [[[a|] s1] fs1]; [|done]. eauto. Qed.

Lemma tx_wrap_Ok {S A} fmt (m : Tx S A) s fs a s' fs' :
  tx_wrap fmt m s fs = (Ok a, s', fs') -> m s fs = (Ok a, s', fs').
Proof. unfold tx_wrap. by destruct (m s fs) as [[[|] s1] fs1]; intros [= <- <- <-]. Qed.

Lemma on_core_inv {A} (m : Tx tables A) d fs r d' fs' :
  on_core m d fs = (r, d', fs') -> m (core d) fs = (r, core d', fs') /\ txns d' = txns d.
Proof. unfold on_core. destruct (m _ _) as [[r1 t1] fs1]. by intros [= <- <- <-]. Qed.

Lemma on_txns_inv {A} (m : Tx txn_tables A) d fs r d' fs' :
  on_txns m d fs = (r, d', fs') -> m (txns d) fs = (r, txns d', fs') /\ core d' = core d.
Proof. unfold on_txns. destruct (m _ _) as [[r1 t1] fs1]. by intros [= <- <- <-]. Qed.

Lemma SetMetastate_Ok k v t fs t' fs' :
  SetMetastate k v t fs = (Ok tt, t', fs') -> t' = set_metastate t (<[k := v]> (t_metastate t)).
Proof. unfold SetMetastate, tx_wrap. by destruct fs as [|[]]; intros [= <- <-]. Qed.

Lemma GetMetastate_Ok k t fs v t' fs' :
  GetMetastate k t fs = (Ok v, t', fs') -> t' = t /\ t_metastate t !! k = Some v.
Proof.
  unfold GetMetastate, tx_bind, tx_try, db_call.
  destruct fs as [|[e|] fs]; [| by case_bool_decide |];
    (destruct (t_metastate t !! k); [by intros [= <- <- <-]|by case_bool_decide]).
Qed.

Lemma unless_not_initialized_Ok {A} fmt (m : Tx tables A) t fs a t' fs' :
  unless_not_initialized fmt m t fs = (Ok a, t', fs') -> m t fs = (Ok a, t', fs').
Proof.
  unfold unless_not_initialized, tx_bind, tx_try.
  destruct (m t fs) as [[[|] t1] fs1]; [by intros [= <- <- <-]|by case_bool_decide].
Qed.

Section Lemmas.
Context `{SdkOps} `{!SdkLaws} `{UnicodeOps} `{MapOrder}.
Context `{Codec signedTxnWithAD} `{Codec TxnExtra} `{Codec blockHeader} `{Codec assetParams}
  `{Codec appParams} `{Codec appLocalState} `{Codec baseAccountData} `{Codec SpecialAddresses}
  `{Codec ImportState} `{Codec NetworkState} `{Codec DeleteStatus}.
(** The errors of the codec are not database errors. *)
Hypothesis import_plain : forall s, plain (DecodeJSON (T := ImportState) s).
Hypothesis network_plain : forall s, plain (DecodeJSON (T := NetworkState) s).

Lemma honest_getImportState : honest getImportState.
Proof.
  apply honest_bind; [apply honest_unless_not_initialized, honest_GetMetastate|].
  intros v. apply honest_lift, plain_wrap, import_plain.
Qed.

Lemma getImportState_Ok t fs st t' fs' :
  getImportState t fs = (Ok st, t', fs') ->
  t' = t /\ exists v, t_metastate t !! StateMetastateKey = Some v /\ DecodeImportState v = Ok st.
Proof.
  intros (v & t1 & fs1 & Hv & Hd)%tx_bind_Ok.
  apply unless_not_initialized_Ok, GetMetastate_Ok in Hv as [-> Hv].
  unfold lift in Hd. destruct (DecodeImportState v) eqn:E; simplify_eq/=. eauto.
Qed.

Lemma honest_addTxns block : honest (addTxns block).
Proof.
  apply honest_bind; [apply honest_AddTransactions|].
  intros _. apply honest_AddTransactionParticipation.
Qed.

Lemma honest_addBlock_tx vb : honest (addBlock_tx vb).
Proof.
  unfold addBlock_tx. apply honest_bind.
  { apply honest_on_core, honest_wrap, honest_getImportState. }
  intros st. case_match; [by apply honest_err|].
  apply honest_bind; [apply honest_on_core, honest_wrap, honest_SetMetastate|]. intros _.
  apply honest_bind; [apply honest_on_core, honest_wrap, honest_MakeWriter|]. intros _.
  case_match; [apply honest_on_core, honest_wrap, honest_AddBlock0|].
  assert (HW : honest (on_core (tx_wrap "AddBlock() err: %w"
                 (Writer.AddBlock (VB_Block vb) (VB_Delta vb))))).
  { apply honest_on_core, honest_wrap, honest_AddBlock. }
  apply honest_try_bind.
  - apply honest_on_txns, honest_TxWithRetry, honest_addTxns.
  - intros a. apply honest_bind; [done|]. intros _. apply honest_ret.
  - intros e s fs r s' fs'. unfold tx_bind. destruct (on_core _ s fs) as [[[[]|e1] s1] fs1] eqn:E;
      apply HW in E as [Hs1 Hser1].
    + destruct (isUniqueViolation e); intros [= <- <- <-]; (split; [done|]); [done|].
      rewrite isSerializationError_ErrWrap. auto.
    + intros [= <- <- <-]. split; [done|]. auto.
Qed.
End Lemmas.

(** ** The transactions of a block in the tables *)

(** No row of the round. *)
Definition absent (round : Z) (s : txn_tables) : Prop :=
  (forall i, t_txn s !! (round, i) = None) /\
  (forall a i, (a, round, i) ∉ t_txn_participation s).

(** The database reports a unique violation only for one. *)
Definition no_unique (fs : faults) : Prop :=
  Forall (λ f, forall e, f = Some e -> errors_as_pg e <> Some UniqueViolation) fs.

Lemma no_unique_suffix fs fs' : no_unique fs -> fs' `suffix_of` fs -> no_unique fs'.
Proof. intros Hn [k ->]. by apply Forall_app in Hn as [_ ?]. Qed.

Lemma no_unique_injected fs e :
  no_unique fs -> injected fs e -> errors_as_pg e <> Some UniqueViolation.
Proof.
  intros Hn (e0 & Hin & ->). eapply Forall_forall in Hn; [|exact Hin]. by apply Hn.
Qed.

Lemma copy_txn_Ok rows t t' :
  copy_txn rows t = Ok t' -> t ⊆ t' /\ forall r, r ∈ rows -> t' !! tc_key r = Some (tc_row r).
Proof.
  revert t. induction rows as [|r rows IH]; intros t; cbn.
  - intros [= <-]. split; [done|]. by intros r ?%elem_of_nil.
  - destruct (txn_copy_fits r); cbn; [|done]. fold (tc_key r).
    destruct (t !! tc_key r) eqn:E; [done|]. intros [Hsub Hin]%IH. split.
    + etrans; [by apply insert_subseteq|done].
    + intros r' [->|Hr']%elem_of_cons; [|by apply Hin].
      eapply lookup_weaken; [|done]. by rewrite lookup_insert_eq.
Qed.

Lemma copy_txn_no_conflict rows t :
  NoDup (map tc_key rows) -> (forall r, r ∈ rows -> t !! tc_key r = None) ->
  copy_txn rows t <> Err (ErrPg UniqueViolation).
Proof.
  revert t. induction rows as [|r rows IH]; intros t Hn Ht; cbn; [done|].
  destruct (txn_copy_fits r); cbn; [|done]. fold (tc_key r).
  rewrite (Ht r) by (by left). apply NoDup_cons in Hn as [Hnin Hn]. apply IH; [done|].
  intros r' Hr'. rewrite lookup_insert_ne; [apply Ht; by right|].
  intros E. apply Hnin. rewrite E. by apply list_elem_of_fmap_2.
Qed.

Lemma copy_txn_errors rows t e :
  copy_txn rows t = Err e -> e = errBigint \/ e = ErrPg UniqueViolation.
Proof.
  revert t. induction rows as [|r rows IH]; intros t; cbn; [done|].
  destruct (txn_copy_fits r); cbn; [|intros [= <-]; auto].
  destruct (t !! _); [intros [= <-]; auto|apply IH].
Qed.

Lemma copy_participation_Ok rows t t' :
  copy_participation rows t = Ok t' -> t ⊆ t' /\ forall r, r ∈ rows -> r ∈ t'.
Proof.
  revert t. induction rows as [|r rows IH]; intros t; cbn [copy_participation].
  - intros [= <-]. split; [done|]. by intros r ?%elem_of_nil.
  - destruct (part_row_fits r); cbn [negb]; [|done].
    case_bool_decide; [done|]. intros [Hsub Hin]%IH. split; [set_solver|].
    intros r' [->|Hr']%elem_of_cons; [set_solver|by apply Hin].
Qed.

Lemma copy_participation_no_conflict rows t :
  NoDup rows -> (forall r, r ∈ rows -> r ∉ t) ->
  copy_participation rows t <> Err (ErrPg UniqueViolation).
Proof.
  revert t. induction rows as [|r rows IH]; intros t Hn Ht; cbn [copy_participation]; [done|].
  destruct (part_row_fits r); cbn [negb]; [|done]. apply NoDup_cons in Hn as [Hnin Hn].
  rewrite bool_decide_eq_false_2 by (apply Ht; by left). apply IH; [done|].
  intros r' Hr'. apply not_elem_of_union. split; [|apply Ht; by right].
  apply not_elem_of_singleton. by intros ->.
Qed.

Lemma copy_participation_pg rows t e :
  copy_participation rows t = Err e -> errors_as_pg e = Some UniqueViolation ->
  e = ErrPg UniqueViolation.
Proof.
  revert t. induction rows as [|r rows IH]; intros t; cbn [copy_participation]; [done|].
  destruct (part_row_fits r); cbn [negb]; [|by intros [= <-]].
  case_bool_decide; [by intros [= <-]|apply IH].
Qed.

Section TransactionRows.
Context `{SdkOps} `{UnicodeOps} `{MapOrder}.
Context `{Codec signedTxnWithAD} `{Codec TxnExtra}.

(** Every row of the block is there, in both tables. *)
Definition complete (block : Block) (s : txn_tables) : Prop :=
  exists b rows, yieldTransactions block (B_Payset block) None [] = (Ok tt, b, rows) /\
    (forall r, r ∈ rows -> t_txn s !! tc_key r = Some (tc_row r)) /\
    (forall p, p ∈ block_participation block -> p ∈ t_txn_participation s).

Lemma block_participation_round block p :
  p ∈ block_participation block -> exists a i, p = (a, B_Round block, i).
Proof.
  rewrite block_participation_eq.
  intros (i & e & _ & (a & -> & _)%list_elem_of_fmap)%elem_of_concat_numbered. eauto.
Qed.

Lemma yielded_rows block m b rows :
  yieldTransactions block m None [] = (Ok tt, b, rows) ->
  NoDup (map tc_key rows) /\ forall r, r ∈ rows -> tc_round r = B_Round block.
Proof.
  intros En%yieldTransactions_numbered. split; [by eapply numbered_NoDup_keys|].
  intros r (i & Hi)%list_elem_of_lookup_1.
  by destruct (numbered_lookup _ _ _ _ _ _ En Hi) as (x & _ & [Hr _]%entry_row_key).
Qed.

(** One call, when it does not fail by itself. *)
Lemma db_call_cases {S A} (op : S -> result (A * S)) s fs r s' fs' :
  db_call op s fs = (r, s', fs') ->
  (exists e, r = Err e /\ s' = s /\ injected fs e) \/
  match op s with
  | Ok (a, s1) => r = Ok a /\ s' = s1
  | Err e => r = Err e /\ s' = s
  end.
Proof.
  unfold db_call. destruct fs as [|[e|] fs].
  2: { intros [= <- <- <-]. left. exists e. split_and!; [done|done|]. exists e. split; [by left|done]. }
  all: destruct (op s) as [[]|]; intros [= <- <- <-]; by right.
Qed.

Lemma AddTransactions_cases block m s fs r s' fs' :
  AddTransactions block m s fs = (r, s', fs') ->
  match r with
  | Ok _ => exists b rows t, yieldTransactions block m None [] = (Ok tt, b, rows) /\
      copy_txn rows (t_txn s) = Ok t /\ s' = set_txn s t
  | Err e => injected fs e \/ errors_as_pg e = None \/
      exists r0 b rows, yieldTransactions block m None [] = (r0, b, rows) /\
        copy_txn rows (t_txn s) = Err (ErrPg UniqueViolation)
  end.
Proof.
  unfold AddTransactions. pose proof (yieldTransactions_plain block m None []) as Hp.
  destruct (yieldTransactions block m None []) as [[r0 b] rows] eqn:Ey; cbn in Hp.
  unfold tx_bind, tx_wrap. destruct (db_call _ s fs) as [[rc s1] fs1] eqn:Ec.
  apply db_call_cases in Ec as [(e & -> & -> & Hi)|Ec].
  - intros [= <- <- <-]. left. destruct Hi as (e0 & ? & ?). by exists e0.
  - destruct (copy_txn rows (t_txn s)) as [t|e] eqn:Et; cbn in Ec; destruct Ec as [-> ->]; cbn.
    + destruct r0 as [[]|e]; intros [= <- <- <-]; [by eauto 10|].
      right. left. cbn. by apply Hp.
    + intros [= <- <- <-]. right. cbn. apply copy_txn_errors in Et as Ht.
      destruct Ht as [->| ->]; [by left|right; eauto].
Qed.

(** A block the writers accept: its rows can be built, and it does not pay a
    proposer that is the fee sink itself. The participation rows of such a payout
    would be the same row twice, which the unique index refuses; see
    [self_payout_lost] for what [AddBlock] then does. *)
Definition importable (block : Block) : Prop :=
  (exists b rows, yieldTransactions block (B_Payset block) None [] = (Ok tt, b, rows)) /\
  (BH_ProposerPayout (B_Header block) <= 0 \/
   BH_FeeSink (B_Header block) <> BH_Proposer (B_Header block)).

Lemma importable_NoDup block : importable block -> NoDup (block_participation block).
Proof. intros [_ Hp]. by apply block_participation_NoDup. Qed.

Lemma addTxns_Ok block s fs s' fs' :
  addTxns block s fs = (Ok tt, s', fs') -> complete block s'.
Proof.
  intros ([] & s1 & fs1 & Ha & Hp)%tx_bind_Ok.
  apply AddTransactions_cases in Ha as (b & rows & t & Hy & Ht & ->).
  apply tx_wrap_Ok, db_call_cases in Hp as [(e & ? & _)|Hp]; [done|].
  cbn in Hp. destruct (copy_participation _ _) as [q|e] eqn:Eq; cbn in Hp; [|by destruct Hp].
  destruct Hp as [_ ->]. apply copy_txn_Ok in Ht as [_ Ht].
  apply copy_participation_Ok in Eq as [_ Eq]. exists b, rows. by split_and!.
Qed.

Lemma addTxns_absent_no_conflict block s fs e s' fs' :
  importable block -> absent (B_Round block) s -> no_unique fs ->
  addTxns block s fs = (Err e, s', fs') -> errors_as_pg e <> Some UniqueViolation.
Proof.
  intros Hi [Ht Hp] Hfs. pose proof (importable_NoDup block Hi) as Hnd.
  destruct Hi as [(b & rows & Hy) _]. unfold addTxns, tx_bind at 1.
  destruct (yielded_rows _ _ _ _ Hy) as [Hkeys Hround].
  destruct (AddTransactions _ _ s fs) as [[[[]|e1] s1] fs1] eqn:Ea;
    pose proof (honest_AddTransactions _ _ _ _ _ _ _ Ea) as [Hsuf _];
    apply AddTransactions_cases in Ea.
  - destruct Ea as (b' & rows' & t & _ & _ & ->). unfold AddTransactionParticipation, tx_wrap.
    destruct (db_call _ _ fs1) as [[rc s2] fs2] eqn:Ec.
    apply db_call_cases in Ec as [(e0 & -> & _ & Hi)|Ec].
    + intros [= <- _ _]. cbn. eapply no_unique_injected; [|exact Hi]. by eapply no_unique_suffix.
    + cbn in Ec. pose proof (copy_participation_no_conflict (block_participation block)
        (t_txn_participation s) Hnd) as Hno.
      destruct (copy_participation _ _) as [q|e0] eqn:Eq; cbn in Ec; destruct Ec as [-> _];
        [done|].
      intros [= <- _ _]. cbn. intros He.
      rewrite (copy_participation_pg _ _ _ Eq He) in Hno. apply Hno; [|done].
      intros p (a & i & ->)%block_participation_round. apply Hp.
  - intros [= <- _ _]. destruct Ea as [Hi|[->|(r0 & b' & rows' & Hy' & Hc)]]; [|done|].
    + by eapply no_unique_injected.
    + rewrite Hy in Hy'. simplify_eq. exfalso. revert Hc. apply copy_txn_no_conflict; [done|].
      intros r Hr. unfold tc_key. rewrite (Hround r Hr). apply Ht.
Qed.

(** The goroutine's transaction: on success the block's rows are there; on a
    unique violation they were already. *)
Lemma retry_addTxns block s fs r s' fs' :
  importable block -> absent (B_Round block) s \/ complete block s -> no_unique fs ->
  TxWithRetry (λ before _, before) (addTxns block) s fs = (r, s', fs') ->
  (absent (B_Round block) s' \/ complete block s') /\
  match r with
  | Ok _ => complete block s'
  | Err e => isUniqueViolation e = true -> complete block s'
  end.
Proof.
  intros Hb HI Hfs Hr.
  eapply (TxWithRetry_ind _ _ (λ x f, x = s /\ no_unique f)) in Hr.
  - destruct r as [[]|e].
    + destruct Hr as (s0 & fs0 & fs1 & [-> _] & Hf). apply addTxns_Ok in Hf. auto.
    + destruct Hr as [[-> _] Herr]. split; [done|]. unfold isUniqueViolation.
      rewrite bool_decide_eq_true. intros He.
      destruct HI as [Habs|]; [exfalso|done].
      destruct Herr as [Hi|(s0 & fs0 & e0 & s1 & fs1 & [-> Hfs0] & Hf & _ & Heq)].
      * by eapply no_unique_injected.
      * eapply addTxns_absent_no_conflict; [done|done|exact Hfs0|exact Hf|congruence].
  - apply honest_addTxns.
  - intros s0 fs0 fs1 [-> ?] ?. split; [done|]. by eapply no_unique_suffix.
  - intros s0 fs0 r0 s1 fs1 [-> ?] Hf. split; [done|].
    eapply no_unique_suffix; [done|]. by apply honest_addTxns in Hf as [? _].
  - done.
Qed.
End TransactionRows.

(** ** [AddBlock] *)

Section AddBlockTheorems.
Context `{SdkOps} `{!SdkLaws} `{UnicodeOps} `{MapOrder}.
Context `{Codec signedTxnWithAD} `{Codec TxnExtra} `{Codec blockHeader} `{Codec assetParams}
  `{Codec appParams} `{Codec appLocalState} `{Codec baseAccountData} `{Codec SpecialAddresses}
  `{Codec ImportState} `{Codec NetworkState} `{Codec DeleteStatus}.
Hypothesis import_plain : forall s, plain (DecodeJSON (T := ImportState) s).

(** The next round the database expects. *)
Definition next_round (t : tables) (n : Z) : Prop :=
  exists v, t_metastate t !! StateMetastateKey = Some v /\
    DecodeImportState v = Ok {| NextRoundToAccount := n |}.

(** The main transaction, when it succeeds: the round was the expected one, and
    the counter has moved on. *)
Lemma addBlock_tx_round vb d fs d' fs' :
  addBlock_tx vb d fs = (Ok tt, d', fs') ->
  next_round (core d) (B_Round (VB_Block vb)) /\
  t_metastate (core d') !! StateMetastateKey =
    Some (EncodeImportState {| NextRoundToAccount := wrap64 (B_Round (VB_Block vb) + 1) |}).
Proof.
  intros (st & d1 & fs1 & Hg & Hk)%tx_bind_Ok.
  apply on_core_inv in Hg as [(Ed1 & v & Hv & Hd)%tx_wrap_Ok%getImportState_Ok _].
  destruct (Z.eqb_spec (B_Round (VB_Block vb)) (NextRoundToAccount st)) as [Hr|]; cbn in Hk; [|done].
  destruct st as [n]; cbn in Hr, Hk. subst n. split; [by exists v|].
  apply tx_bind_Ok in Hk as ([] & d2 & fs2 & Hset & Hk).
  apply on_core_inv in Hset as [Ed2%tx_wrap_Ok%SetMetastate_Ok _].
  apply tx_bind_Ok in Hk as ([] & d3 & fs3 & Hmk & Hk).
  apply on_core_inv in Hmk as [Ed3%tx_wrap_Ok%MakeWriter_state _].
  assert (Hm3 : t_metastate (core d3) !! StateMetastateKey = Some (EncodeImportState
    {| NextRoundToAccount := wrap64 (B_Round (VB_Block vb) + 1) |})).
  { rewrite Ed3, Ed2. cbn. by rewrite lookup_insert_eq. }
  rewrite <-Hm3. destruct (_ =? 0).
  - apply on_core_inv in Hk as [Hk%tx_wrap_Ok _].
    by apply send_batch_metastate with (k := StateMetastateKey) in Hk.
  - apply tx_bind_Ok in Hk as (err0 & d4 & fs4 & Htry & Hk).
    unfold tx_try in Htry. destruct (on_txns _ d3 fs3) as [[r4 d4'] fs4'] eqn:E4.
    injection Htry as -> -> ->. apply on_txns_inv in E4 as [_ Ed4].
    apply tx_bind_Ok in Hk as ([] & d5 & fs5 & Hw & Hk).
    apply on_core_inv in Hw as [Hw%tx_wrap_Ok _]. apply Writer.AddBlock_metastate
      with (k := StateMetastateKey) in Hw; [|done]. rewrite <-Ed4, <-Hw.
    destruct err0 as [|e]; [by injection Hk as <- <-|].
    destruct (isUniqueViolation e); [by injection Hk as <- <-|done].
Qed.

(** The main transaction and the transaction tables, on every outcome. *)
Lemma addBlock_tx_txns vb d fs r d' fs' :
  let block := VB_Block vb in
  importable block -> absent (B_Round block) (txns d) \/ complete block (txns d) ->
  no_unique fs -> addBlock_tx vb d fs = (r, d', fs') ->
  (absent (B_Round block) (txns d') \/ complete block (txns d')) /\
  (r = Ok tt -> B_Round block <> 0 -> complete block (txns d')).
Proof.
  intros block Hb HI Hfs. unfold addBlock_tx. fold block.
  unfold tx_bind at 1. destruct (on_core _ d fs) as [[[st|e] d1] fs1] eqn:E1;
    pose proof (honest_on_core _ (honest_wrap _ _ (honest_getImportState import_plain))
      _ _ _ _ _ E1) as [S1 _]; apply on_core_inv in E1 as [_ T1];
    [|intros [= <- <- <-]; by rewrite T1].
  destruct (negb _); [intros [= <- <- <-]; by rewrite T1|].
  unfold tx_bind at 1. destruct (on_core _ d1 fs1) as [[[[]|e] d2] fs2] eqn:E2;
    pose proof (honest_on_core _ (honest_wrap _ _ (honest_SetMetastate _ _))
      _ _ _ _ _ E2) as [S2 _]; apply on_core_inv in E2 as [_ T2];
    [|intros [= <- <- <-]; by rewrite T2, T1].
  unfold tx_bind at 1. destruct (on_core _ d2 fs2) as [[[[]|e] d3] fs3] eqn:E3;
    pose proof (honest_on_core _ (honest_wrap _ _ honest_MakeWriter)
      _ _ _ _ _ E3) as [S3 _]; apply on_core_inv in E3 as [_ T3];
    [|intros [= <- <- <-]; by rewrite T3, T2, T1].
  assert (T : txns d3 = txns d) by congruence. rewrite <-T in HI.
  assert (Hfs3 : no_unique fs3).
  { eapply no_unique_suffix; [exact Hfs|]. by do 2 (etrans; [eassumption|]). }
  destruct (Z.eqb_spec (B_Round block) 0) as [Hz|Hz].
  { intros [_ T4]%on_core_inv. rewrite T4. by split. }
  unfold tx_bind at 1, tx_try. destruct (on_txns _ d3 fs3) as [[err0 d4] fs4] eqn:E4.
  apply on_txns_inv in E4 as [E4 _].
  destruct (retry_addTxns _ _ _ _ _ _ Hb HI Hfs3 E4) as [HI4 Hc4].
  unfold tx_bind at 1. destruct (on_core _ d4 fs4) as [[[[]|e] d5] fs5] eqn:E5;
    apply on_core_inv in E5 as [_ T5]; [|intros [= <- <- <-]; by rewrite T5].
  destruct err0 as [[]|e]; [intros [= <- <- <-]; by rewrite T5|].
  destruct (isUniqueViolation e); intros [= <- <- <-]; rewrite T5; (split; [done|]);
    naive_solver.
Qed.

(** C6. [IndexerDb.AddBlock] is atomic on the state and imports rounds in order,
    without gap or repetition: on an error, whatever calls failed and however
    often it retried, no table but the transaction tables has changed; on
    success the block's round was exactly the next one expected, and the next
    one expected is its successor. *)
Theorem AddBlock_atomic_and_contiguous vb d fs r d' fs' :
  AddBlock vb d fs = (r, d', fs') ->
  match r with
  | Err _ => core d' = core d
  | Ok _ =>
      next_round (core d) (B_Round (VB_Block vb)) /\
      t_metastate (core d') !! StateMetastateKey =
        Some (EncodeImportState {| NextRoundToAccount := wrap64 (B_Round (VB_Block vb) + 1) |})
  end.
Proof.
  unfold AddBlock. destruct (Consensus _); [|by intros [= <- <- <-]].
  unfold tx_wrap. destruct (TxWithRetry _ _ d fs) as [[r1 d1] fs1] eqn:Er. intros [= <- <- <-].
  eapply (TxWithRetry_ind _ _ (λ x _, core x = core d)) in Er;
    [|by apply honest_addBlock_tx|by intros|by intros|done].
  destruct r1 as [[]|e]; cbn; [|by destruct Er].
  destruct Er as (d0 & fs0 & fs2 & <- & Hf). by apply addBlock_tx_round in Hf.
Qed.

(** C5. "[txn] and [txn_participation] can only be ahead but not behind the
    other state": if, before, the tables have none of the block's transactions
    or (from an attempt that failed later) all of them, then after a successful
    [AddBlock] of a round other than 0 they have all of them, and after a failed
    one still none or all. A unique violation, which [AddBlock] ignores, thus
    means the rows are there. This is so for an [importable] block: its rows can
    be built and it does not pay the fee sink as its own proposer (without that
    condition the property is false, [self_payout_lost]). Calls may fail in any
    way but with a unique violation that is none; [AddBlock] writes no rows for
    round 0. *)
Theorem AddBlock_never_behind vb d fs r d' fs' :
  let block := VB_Block vb in
  importable block -> absent (B_Round block) (txns d) \/ complete block (txns d) ->
  no_unique fs -> AddBlock vb d fs = (r, d', fs') ->
  match r with
  | Ok _ => B_Round block <> 0 -> complete block (txns d')
  | Err _ => absent (B_Round block) (txns d') \/ complete block (txns d')
  end.
Proof.
  intros block Hb HI Hfs. unfold AddBlock. fold block.
  destruct (Consensus _); [|by intros [= <- <- <-]].
  unfold tx_wrap. destruct (TxWithRetry _ _ d fs) as [[r1 d1] fs1] eqn:Er. intros [= <- <- <-].
  eapply (TxWithRetry_ind _ _ (λ x f, (absent (B_Round block) (txns x) \/
    complete block (txns x)) /\ no_unique f)) in Er.
  - destruct r1 as [[]|e]; cbn; [|by destruct Er as [[? _] _]].
    destruct Er as (d0 & fs0 & fs2 & [HI0 Hf0] & Hf).
    apply addBlock_tx_txns in Hf as [_ Hf]; [|done|done|done]. by apply Hf.
  - by apply honest_addBlock_tx.
  - intros s0 fs0 fs2 [? ?] ?. split; [done|]. by eapply no_unique_suffix.
  - intros s0 fs0 r0 s1 fs2 [HI0 Hf0] Hf. split.
    + by apply addBlock_tx_txns in Hf as [? _].
    + eapply no_unique_suffix; [exact Hf0|].
      by apply (honest_addBlock_tx import_plain vb) in Hf as [? _].
  - done.
Qed.
End AddBlockTheorems.

(** ** Progress *)






Section Progress.
Context `{SdkOps} `{!SdkLaws} `{UnicodeOps} `{MapOrder}.
Context `{Codec signedTxnWithAD} `{Codec TxnExtra} `{Codec blockHeader} `{Codec assetParams}
  `{Codec appParams} `{Codec appLocalState} `{Codec baseAccountData} `{Codec SpecialAddresses}
  `{Codec ImportState} `{Codec NetworkState} `{Codec DeleteStatus}.
Hypothesis import_plain : forall s, plain (DecodeJSON (T := ImportState) s).



End Progress.

(** ** [LoadGenesis] and [DeleteTransactions] *)

Section Others.
Context `{SdkOps} `{!SdkLaws} `{UnicodeOps} `{MapOrder}.
Context `{Codec baseAccountData} `{Codec ImportState} `{Codec NetworkState} `{Codec DeleteStatus}.
Hypothesis network_plain : forall s, plain (DecodeJSON (T := NetworkState) s).

Lemma honest_load_accounts allocation : honest (load_accounts allocation).
Proof.
  induction allocation as [|alloc rest IH]; cbn; [apply honest_ret|].
  apply honest_bind; [apply honest_lift, plain_wrap, DecodeAddress_plain|]. intros addr.
  apply honest_bind; [|done]. apply honest_wrap, honest_call.
  intros t. unfold set_account_stmt. by repeat case_match.
Qed.

Lemma honest_getNetworkState : honest getNetworkState.
Proof.
  apply honest_bind; [apply honest_unless_not_initialized, honest_GetMetastate|].
  intros v. apply honest_lift, plain_wrap. unfold DecodeNetworkState.
  apply plain_wrap, network_plain.
Qed.

(** The check of the genesis hash, up to the insertion of the accounts. *)
Lemma honest_loadGenesis_tx genesis : honest (loadGenesis_tx genesis).
Proof.
  unfold loadGenesis_tx. apply honest_try_bind; [apply honest_getNetworkState| |].
  all: assert (Hrest : honest (
    tx_bind (tx_wrap "LoadGenesis() prepare tx err: %w" (db_call (λ t : tables, Ok (tt, t))))
      (λ _, tx_bind (load_accounts (G_Allocation genesis))
        (λ _, tx_wrap "LoadGenesis() err: %w" (setImportState {| NextRoundToAccount := 0 |})))))
    by (apply honest_bind; [apply honest_wrap; by apply honest_call|intros _;
        apply honest_bind; [apply honest_load_accounts|intros _;
        apply honest_wrap, honest_SetMetastate]]).
  - intros network. apply honest_bind; [|done].
    case_bool_decide; [by apply honest_err|apply honest_ret].
  - intros e s fs r s' fs'. case_bool_decide.
    + intros Hr. assert (Hh : honest (tx_bind (tx_wrap "LoadGenesis() err: %w"
        (setNetworkState {| NS_GenesisHash := Genesis_Hash genesis |})) (λ _,
        tx_bind (tx_wrap "LoadGenesis() prepare tx err: %w" (db_call (λ t : tables, Ok (tt, t))))
        (λ _, tx_bind (load_accounts (G_Allocation genesis))
        (λ _, tx_wrap "LoadGenesis() err: %w" (setImportState {| NextRoundToAccount := 0 |}))))))
        by (apply honest_bind; [apply honest_wrap, honest_SetMetastate|done]).
      apply Hh in Hr as [? ?]. auto.
    + unfold tx_bind at 1, tx_err. intros [= <- <- <-].
      split; [done|]. rewrite isSerializationError_ErrWrap. auto.
Qed.

(** "No rows" is an answer of the database, not a failure of a call. *)
Definition no_spurious (fs : faults) : Prop := Forall (.≠ Some ErrNoRows) fs.

Lemma no_spurious_suffix fs fs' : no_spurious fs -> fs' `suffix_of` fs -> no_spurious fs'.
Proof. intros Hn [k ->]. by apply Forall_app in Hn as [_ ?]. Qed.

Lemma getNetworkState_stored t fs v network r t' fs' :
  t_metastate t !! NetworkMetaStateKey = Some v -> DecodeNetworkState v = Ok network ->
  no_spurious fs -> getNetworkState t fs = (r, t', fs') ->
  r = Ok network \/ exists e, r = Err e /\ e <> ErrorNotInitialized.
Proof.
  intros Hv Hd Hfs.
  unfold getNetworkState, unless_not_initialized, GetMetastate, tx_bind, tx_try, db_call.
  rewrite Hv. destruct fs as [|[e|] fs].
  2: { apply Forall_cons in Hfs as [He _].
       rewrite bool_decide_eq_false_2 by congruence. cbn.
       rewrite bool_decide_eq_false_2 by done. intros [= <- _ _]. right. by eexists. }
  all: unfold tx_ret, lift; rewrite Hd; intros [= <- _ _]; by left.
Qed.

(** [LoadGenesis] refuses another network: if the database records a genesis
    hash that is not the genesis's, every run fails and nothing changes, provided
    no call reports that a row which is there was not found. *)
Theorem LoadGenesis_rejects_other_network genesis v network t fs r t' fs' :
  t_metastate t !! NetworkMetaStateKey = Some v ->
  DecodeNetworkState v = Ok network -> NS_GenesisHash network <> Genesis_Hash genesis ->
  no_spurious fs -> LoadGenesis genesis t fs = (r, t', fs') ->
  is_ok r = false /\ t' = t.
Proof.
  intros Hv Hd Hne Hfs. unfold LoadGenesis, tx_wrap.
  destruct (TxWithRetry _ _ t fs) as [[r1 t1] fs1] eqn:Er. intros [= <- <- <-].
  eapply (TxWithRetry_ind _ _ (λ x f, x = t /\ no_spurious f)) in Er.
  - destruct r1 as [[]|e]; [exfalso|by destruct Er as [[-> _] _]].
    destruct Er as (t0 & fs0 & fs2 & [-> Hf0] & (rn & t2 & fs3 & Hn & Hk)%tx_bind_Ok).
    unfold tx_try in Hn. destruct (getNetworkState t fs0) as [[rn' t2'] fs3'] eqn:Eg.
    injection Hn as -> -> ->. apply tx_bind_Ok in Hk as ([] & t4 & fs4 & Hk & _).
    destruct (getNetworkState_stored _ _ _ _ _ _ _ Hv Hd Hf0 Eg) as [->|(e & -> & He)].
    + by rewrite bool_decide_eq_true_2 in Hk.
    + by rewrite bool_decide_eq_false_2 in Hk.
  - apply honest_loadGenesis_tx.
  - intros s0 f0 f1 [-> ?] ?. split; [done|]. by eapply no_spurious_suffix.
  - intros s0 f0 r0 s1 f1 [-> ?] Hf. split; [done|].
    eapply no_spurious_suffix; [done|]. by apply honest_loadGenesis_tx in Hf as [? _].
  - done.
Qed.

Lemma honest_deleteTxns now keep : honest (deleteTxns now keep).
Proof.
  unfold deleteTxns. apply honest_bind; [|intros _; apply honest_bind; [|intros _]].
  - apply honest_on_txns, honest_wrap, honest_call. intros s. unfold delete_txn. by case_match.
  - apply honest_on_txns, honest_wrap, honest_call. intros s.
    unfold delete_participation. by case_match.
  - apply honest_on_core, honest_wrap, honest_SetMetastate.
Qed.

(** [DeleteTransactions] with argument [keep] removes, from both tables and in
    one step, exactly the transactions of the rounds before round [keep]: [keep]
    is the oldest round kept, not a number of rounds.  Of the other tables only
    the pruning status changes; on an error nothing changes. *)
Theorem DeleteTransactions_prunes_before now keep d fs r d' fs' :
  DeleteTransactions now keep d fs = (r, d', fs') ->
  match r with
  | Err _ => d' = d
  | Ok _ =>
      (forall round i, t_txn (txns d') !! (round, i) =
         if round <? keep then None else t_txn (txns d) !! (round, i)) /\
      (forall a round i, (a, round, i) ∈ t_txn_participation (txns d') <->
         keep <= round /\ (a, round, i) ∈ t_txn_participation (txns d)) /\
      core d' = set_metastate (core d) (<[DeleteStatusKey :=
        EncodeDeleteStatus {| LastPruned := now; OldestRound := keep |}]> (t_metastate (core d)))
  end.
Proof.
  unfold DeleteTransactions, tx_wrap.
  destruct (TxWithRetry _ _ d fs) as [[r1 d1] fs1] eqn:Er. intros [= <- <- <-].
  eapply (TxWithRetry_ind _ _ (λ x _, x = d)) in Er;
    [|apply honest_deleteTxns|by intros|by intros|done].
  destruct r1 as [[]|e]; [|by destruct Er].
  destruct Er as (d0 & fs0 & fs2 & -> & ([] & d2 & fs3 & H1' & Hk)%tx_bind_Ok).
  apply tx_bind_Ok in Hk as ([] & d3 & fs4 & H2' & H3').
  apply on_txns_inv in H1' as [[(e & ? & _)|H1']%tx_wrap_Ok%db_call_cases C1]; [done|].
  apply on_txns_inv in H2' as [[(e & ? & _)|H2']%tx_wrap_Ok%db_call_cases C2]; [done|].
  apply on_core_inv in H3' as [H3'%tx_wrap_Ok%SetMetastate_Ok T3].
  unfold delete_txn in H1'. unfold delete_participation in H2'.
  destruct (fits_bigint keep); cbn [negb] in *; [|by destruct H1'].
  destruct H1' as [_ T1], H2' as [_ T2]. rewrite T3, T2, T1, H3', C2, C1. cbn. split_and!.
  - intros round i. rewrite map_lookup_filter. destruct (t_txn (txns d) !! _); cbn.
    + destruct (round <? keep); [by rewrite option_guard_False by (by intros [])|].
      by rewrite option_guard_True by done.
    + by destruct (round <? keep).
  - intros a round i. rewrite elem_of_filter. cbn. rewrite negb_True.
    destruct (Z.ltb_spec round keep); naive_solver lia.
  - done.
Qed.
End Others.

(** ** A concrete import *)

Module SampleImport.
#[export] Instance import_codec : Codec ImportState := {|
  encodeJSON st := FormatUint (NextRoundToAccount st);
  DecodeJSON s := n ← ParseUint s; Ok {| NextRoundToAccount := n |} |}.
#[export] Instance network_codec : Codec NetworkState := {|
  encodeJSON st := NS_GenesisHash st; DecodeJSON s := Ok {| NS_GenesisHash := s |} |}.
#[export] Instance delete_codec : Codec DeleteStatus :=
  one_document {| LastPruned := ""; OldestRound := 0 |}.

Lemma import_codec_plain s : plain (DecodeJSON (T := ImportState) s).
Proof.
  apply plain_bind; [apply ParseUint_plain|auto with plain].
Qed.

Lemma network_codec_plain s : plain (DecodeJSON (T := NetworkState) s).
Proof. apply plain_Ok. Qed.

Definition vb : ValidatedBlock := {|
  VB_Block := SampleBlock.block "proposer" 7; VB_Delta := SampleDelta.delta 100 |}.

(** Round 5 is expected; the network is known. *)
Definition before : database := {|
  core := set_metastate empty_tables
    {[ StateMetastateKey := "5"; NetworkMetaStateKey := "genesis hash" ]};
  txns := SampleBlock.empty |}.

(** The 35th call, the first commit of the main transaction, fails after the
    goroutine's transaction has committed: the retry meets a unique violation. *)
Definition flaky : faults :=
  replicate 34 None ++ [Some (ErrPg SerializationFailure)].
End SampleImport.

Section Witnesses.
#[local] Existing Instance Sample.sdk.
#[local] Existing Instance Sample.sdk_laws.
#[local] Existing Instance ascii_print.
#[local] Existing Instance SampleBlock.order.
#[local] Existing Instance SampleBlock.stxn_codec.
#[local] Existing Instance SampleBlock.extra_codec.
Import SampleDelta SampleImport.

Lemma AddBlock_atomic_and_contiguous_witness :
  let d' := (AddBlock vb before flaky).1.2 in
  next_round (core before) 5 /\
  t_metastate (core d') !! StateMetastateKey =
    Some (EncodeImportState {| NextRoundToAccount := 6 |}).
Proof.
  intros d'.
  apply (AddBlock_atomic_and_contiguous import_codec_plain vb before flaky (Ok tt) d'
           (AddBlock vb before flaky).2).
  vm_compute. reflexivity.
Defined.

Lemma importable_sample : importable (VB_Block vb).
Proof.
  split.
  - exists None, (SampleBlock.rows (VB_Block vb)). vm_compute. reflexivity.
  - right. discriminate.
Qed.

Lemma AddBlock_never_behind_witness :
  complete (VB_Block vb) (txns (AddBlock vb before flaky).1.2).
Proof.
  refine (AddBlock_never_behind import_codec_plain vb before flaky (Ok tt)
            (AddBlock vb before flaky).1.2 (AddBlock vb before flaky).2 _ _ _ _ _).
  - apply importable_sample.
  - left. split; [intros i; apply lookup_empty|intros a i; apply not_elem_of_empty].
  - apply Forall_app. split; [by apply Forall_replicate|]. apply Forall_singleton.
    intros e [= <-]. discriminate.
  - vm_compute. reflexivity.
  - discriminate.
Defined.

(** Without the second condition of [importable] the property fails: a block
    that pays the fee sink as its proposer has the same participation row twice,
    [AddBlock] takes the unique violation for rows that are there already, and
    succeeds, counter advanced, with no row of the block in the tables. *)
Lemma self_payout_lost :
  let vb := {| VB_Block := SampleBlock.block "fee sink" 7; VB_Delta := SampleDelta.delta 100 |} in
  exists d', AddBlock vb before [] = (Ok tt, d', []) /\
    t_metastate (core d') !! StateMetastateKey =
      Some (EncodeImportState {| NextRoundToAccount := 6 |}) /\
    txns d' = txns before /\ absent 5 (txns d') /\
    SampleBlock.rows (SampleBlock.block "fee sink" 7) <> [].
Proof.
  intros vb. exists (AddBlock vb before []).1.2. split; [vm_compute; reflexivity|].
  split; [vm_compute; reflexivity|]. assert (txns (AddBlock vb before []).1.2 = txns before) as ->.
  { vm_compute. reflexivity. }
  split; [done|]. split; [|discriminate].
  split; [intros i; apply lookup_empty|intros a i; apply not_elem_of_empty].
Qed.


Lemma LoadGenesis_rejects_other_network_witness :
  let g := {| G_Allocation := []; G_rest := "another hash" |} in
  let '(r, t', _) := LoadGenesis g (core before) [None] in
  is_ok r = false /\ t' = core before.
Proof.
  apply (LoadGenesis_rejects_other_network network_codec_plain
           {| G_Allocation := []; G_rest := "another hash" |} "genesis hash"
           {| NS_GenesisHash := "genesis hash" |} (core before) [None] _ _
           (LoadGenesis {| G_Allocation := []; G_rest := "another hash" |} (core before) [None]).2).
  - reflexivity.
  - reflexivity.
  - discriminate.
  - by apply Forall_singleton.
  - vm_compute. reflexivity.
Defined.

Lemma DeleteTransactions_prunes_before_witness :
  let d := {| core := empty_tables;
              txns := {| t_txn := ∅; t_txn_participation := {[ ("alice", 3, 0); ("alice", 5, 0) ]} |} |} in
  let d' := (DeleteTransactions "now" 5 d []).1.2 in
  (forall round i, t_txn (txns d') !! (round, i) =
     if round <? 5 then None else t_txn (txns d) !! (round, i)) /\
  (forall a round i, (a, round, i) ∈ t_txn_participation (txns d') <->
     5 <= round /\ (a, round, i) ∈ t_txn_participation (txns d)) /\
  core d' = set_metastate (core d) (<[DeleteStatusKey :=
    EncodeDeleteStatus {| LastPruned := "now"; OldestRound := 5 |}]> (t_metastate (core d))).
Proof.
  intros d d'. apply (DeleteTransactions_prunes_before "now" 5 d [] (Ok tt) d' []).
  vm_compute. reflexivity.
Defined.
End Witnesses.
