(* ===== verification/MinBalance.v ===== *)
(** * Minimum balances: [types/min_balance.go]

    The computation in [uint64] arithmetic, and its relation to the exact sum. *)

From S2P Require Import Prelude Sdk.
Local Open Scope go_scope.

Definition stateSchemaMinBalance (sm : StateSchema) (proto : ConsensusParams) : Z :=
  let flatCost := CP_SchemaMinBalancePerEntry proto *64 (NumUint sm +64 NumByteSlice sm) in
  let uintCost := CP_SchemaUintMinBalance proto *64 NumUint sm in
  let bytesCost := CP_SchemaBytesMinBalance proto *64 NumByteSlice sm in
  flatCost +64 uintCost +64 bytesCost.

Definition minBalance (proto : ConsensusParams) (totalAssets : Z) (totalAppSchema : StateSchema)
    (totalAppParams totalAppLocalStates totalExtraAppPages totalBoxes totalBoxBytes : Z) : Z :=
  let minBal := CP_MinBalance proto in
  let minBal := minBal +64 (CP_MinBalance proto *64 totalAssets) in
  let minBal := minBal +64 (CP_AppFlatParamsMinBalance proto *64 totalAppParams) in
  let minBal := minBal +64 (CP_AppFlatOptInMinBalance proto *64 totalAppLocalStates) in
  let minBal := minBal +64 stateSchemaMinBalance totalAppSchema proto in
  let minBal := minBal +64 (CP_AppFlatParamsMinBalance proto *64 totalExtraAppPages) in
  let minBal := minBal +64 (CP_BoxFlatMinBalance proto *64 totalBoxes) in
  minBal +64 (CP_BoxByteMinBalance proto *64 totalBoxBytes).

Definition AccountMinBalance (account : AccountData) (proto : ConsensusParams) : Z :=
  minBalance proto (ACD_TotalAssets account) (ACD_TotalAppSchema account)
    (ACD_TotalAppParams account) (ACD_TotalAppLocalStates account)
    (ACD_TotalExtraAppPages account) (ACD_TotalBoxes account) (ACD_TotalBoxBytes account).

(** ** The exact requirement *)

Definition exact_min_balance (a : AccountData) (p : ConsensusParams) : Z :=
  let s := ACD_TotalAppSchema a in
  CP_MinBalance p * (1 + ACD_TotalAssets a)
  + CP_AppFlatParamsMinBalance p * (ACD_TotalAppParams a + ACD_TotalExtraAppPages a)
  + CP_AppFlatOptInMinBalance p * ACD_TotalAppLocalStates a
  + (CP_SchemaMinBalancePerEntry p + CP_SchemaUintMinBalance p) * NumUint s
  + (CP_SchemaMinBalancePerEntry p + CP_SchemaBytesMinBalance p) * NumByteSlice s
  + CP_BoxFlatMinBalance p * ACD_TotalBoxes a
  + CP_BoxByteMinBalance p * ACD_TotalBoxBytes a.

Lemma wrap64_mul_r x y : wrap64 (x * wrap64 y) = wrap64 (x * y).
Proof. unfold wrap64. by rewrite Zmult_mod_idemp_r. Qed.

(** One step of a sum: the parts so far and the next one, both known modulo
    [2^64]. *)
Lemma wrap64_step m n e f : m = wrap64 e -> n = wrap64 f -> m +64 n = wrap64 (e + f).
Proof. intros -> ->. by rewrite wrap64_add_l, wrap64_add_r. Qed.

Lemma stateSchemaMinBalance_eq sm p :
  stateSchemaMinBalance sm p = wrap64 (
    CP_SchemaMinBalancePerEntry p * (NumUint sm + NumByteSlice sm) +
    CP_SchemaUintMinBalance p * NumUint sm + CP_SchemaBytesMinBalance p * NumByteSlice sm).
Proof.
  unfold stateSchemaMinBalance. cbv zeta. rewrite wrap64_mul_r.
  by repeat apply wrap64_step.
Qed.

(** [AccountMinBalance] is the exact requirement whenever that fits a
    [uint64]: the arithmetic wraps, but no wrap-around of an intermediate sum or
    product is left in the result. *)
Theorem AccountMinBalance_exact (a : AccountData) (p : ConsensusParams) :
  is_u64 (exact_min_balance a p) -> AccountMinBalance a p = exact_min_balance a p.
Proof.
  intros Hu. rewrite <-(wrap64_small _ Hu). unfold AccountMinBalance, minBalance. cbv zeta.
  etrans.
  { do 6 (eapply wrap64_step; [|first [apply stateSchemaMinBalance_eq | reflexivity]]).
    apply wrap64_add_r. }
  f_equal. unfold exact_min_balance. ring.
Qed.

Lemma AccountMinBalance_exact_witness :
  let a := {|
    ACD_Status := 0; ACD_MicroAlgos := 0; ACD_RewardsBase := 0; ACD_RewardedMicroAlgos := 0;
    ACD_AuthAddr := zeroAddress; ACD_IncentiveEligible := false;
    ACD_TotalAppSchema := {| NumUint := 3; NumByteSlice := 2 |}; ACD_TotalExtraAppPages := 1;
    ACD_TotalAppParams := 2; ACD_TotalAppLocalStates := 4; ACD_TotalAssetParams := 0;
    ACD_TotalAssets := 5; ACD_TotalBoxes := 6; ACD_TotalBoxBytes := 700; ACD_LastProposed := 0;
    ACD_LastHeartbeat := 0; ACD_VoteID := ""; ACD_SelectionID := ""; ACD_StateProofID := "";
    ACD_VoteFirstValid := 0; ACD_VoteLastValid := 0; ACD_VoteKeyDilution := 0 |} in
  AccountMinBalance a Sample.params = 1780500.
Proof.
  intros a. apply (AccountMinBalance_exact a Sample.params). split; [discriminate|reflexivity].
Defined.
