(* ===== verification/Rewind.v ===== *)
(** * Rewinding an account: [accounting/rewind.go]

    [AccountAtRound] undoes, one by one, the transactions of an account after a
    round.  The forward effect of a transaction on an account's balance and
    holdings is the specification; the theorems state when undoing inverts it,
    and where it does not.  The code updates the list of holdings in place, which
    the account passed in shares; the model returns the account it computes. *)

From S2P Require Import Prelude GoStd Sdk Idb Models Util Encoding Db.
Local Open Scope go_scope.

Abbreviation Account := models.Account (only parsing).

(** [acct.AmountWithoutPendingRewards += n] and [-= n]. *)
Definition credit (n : Z) (a : Account) : Account :=
  models.set_Account_AmountWithoutPendingRewards a (models.Account_AmountWithoutPendingRewards a +64 n).
Definition debit (n : Z) (a : Account) : Account :=
  models.set_Account_AmountWithoutPendingRewards a (models.Account_AmountWithoutPendingRewards a -64 n).

(** ** [assetUpdate] *)

(** [models.AssetHolding{Amount: amount, AssetId: assetid}]. *)
Definition new_holding (assetid amount : Z) : models.AssetHolding := {|
  models.AssetHolding_Amount := amount; models.AssetHolding_AssetId := assetid;
  models.AssetHolding_Deleted := None; models.AssetHolding_IsFrozen := false;
  models.AssetHolding_OptedInAtRound := None; models.AssetHolding_OptedOutAtRound := None |}.

Fixpoint update_holding (assets : list models.AssetHolding) (assetid add sub : Z)
    : list models.AssetHolding :=
  match assets with
  | [] => [new_holding assetid (add -64 sub)]
  | ah :: rest =>
      if models.AssetHolding_AssetId ah =? assetid then
        models.set_AssetHolding_Amount ah (models.AssetHolding_Amount ah +64 add -64 sub) :: rest
      else ah :: update_holding rest assetid add sub
  end.

Definition assetUpdate (account : Account) (assetid add sub : Z) : Account :=
  models.set_Account_Assets account (Some (update_holding (slice (models.Account_Assets account)) assetid add sub)).

(** ** [AccountAtRound] *)

(** The two calls to the database, whose state is [S]. *)
Record RewindDb (S : Type) := {
  db_GetSpecialAccounts : Tx S SpecialAddresses;
  db_Transactions : TransactionFilter -> Tx S (list TxnRow * Z) }.
Arguments db_GetSpecialAccounts {S} _.
Arguments db_Transactions {S} _ _.

(** The state of the process: the database, and the package variable
    [specialAccounts], which the first call fills. *)
Record World (S : Type) := { w_db : S; w_special : option SpecialAddresses }.
Arguments w_db {S} _.
Arguments w_special {S} _.
Arguments Build_World {S} _ _.

Definition on_db {S A} (m : Tx S A) : Tx (World S) A := λ w fs,
  let '(r, s, fs) := m (w_db w) fs in (r, Build_World s (w_special w), fs).

Definition rewind_filter (addr : Address) (minRound maxRound : Z) : TransactionFilter := {|
  TF_SkipOptimization := false; TF_Address := Some addr; TF_AddressRole := 0;
  TF_MinRound := minRound; TF_MaxRound := maxRound; TF_AfterTime := None; TF_BeforeTime := None;
  TF_TypeEnum := 0; TF_Txid := ""; TF_Round := None; TF_Offset := None; TF_OffsetLT := None;
  TF_OffsetGT := None; TF_SigType := ""; TF_NotePrefix := None; TF_GroupID := None;
  TF_AlgosGT := None; TF_AlgosLT := None; TF_RekeyTo := None; TF_AssetID := None;
  TF_AssetAmountGT := None; TF_AssetAmountLT := None; TF_ApplicationID := None;
  TF_EffectiveAmountGT := None; TF_EffectiveAmountLT := None; TF_NextToken := ""; TF_Limit := 0;
  TF_SkipInnerTransactionConversion := false; TF_SkipInnerTransactions := false;
  TF_HeaderOnly := false; TF_RequireApplicationLogs := false |}.

Section Rewind.
Context `{SdkOps}.

Definition when (b : bool) (f : Account -> Account) (a : Account) : Account :=
  if b then f a else a.

Definition rewind_payment (addr : Address) (t : Transaction) (ad : ApplyDataT) (acct : Account)
    : Account :=
  let p := T_Payment t in
  let acct := when (bool_decide (addr = Sender t)) (credit (P_Amount p)) acct in
  let acct := when (bool_decide (addr = P_Receiver p))
                (λ a, debit (AD_ReceiverRewards ad) (debit (P_Amount p) a)) acct in
  if bool_decide (addr = P_CloseRemainderTo p) then
    debit (AD_CloseRewards ad) (debit (AD_ClosingAmount ad) acct)
  else when (negb (Address_IsZero (P_CloseRemainderTo p))) (credit (AD_ClosingAmount ad)) acct.

Definition rewind_transfer (addr : Address) (t : Transaction) (closeAmount : Z) (acct : Account)
    : Account :=
  let x := T_AssetTransfer t in
  let acct := when (bool_decide (addr = X_AssetSender x) || bool_decide (addr = Sender t))
                (λ a, assetUpdate a (X_XferAsset x) (X_AssetAmount x +64 closeAmount) 0) acct in
  let acct := when (bool_decide (addr = X_AssetReceiver x))
                (λ a, assetUpdate a (X_XferAsset x) 0 (X_AssetAmount x)) acct in
  when (bool_decide (addr = X_AssetCloseTo x))
    (λ a, assetUpdate a (X_XferAsset x) 0 closeAmount) acct.

(** The body of the loop. *)
Definition rewind_txn (addr : Address) (txnrow : TxnRow) (acct : Account) : result Account :=
  match TR_Error txnrow with
  | Some e => Err e
  | None =>
  match TR_Txn txnrow with
  | None => Err (ErrMsg "rewinding past inner transactions is not supported")
  | Some stxn =>
      let t := Txn stxn in
      let ad := STAD_ApplyData stxn in
      let acct := when (bool_decide (addr = Sender t))
                    (λ a, debit (AD_SenderRewards ad) (credit (H_Fee (T_Header t)) a)) acct in
      if bool_decide (T_Type t = PaymentTx) then Ok (rewind_payment addr t ad acct)
      else if bool_decide (T_Type t = KeyRegistrationTx) then Ok acct
      else if bool_decide (T_Type t = AssetConfigTx) then
        Ok (when (C_ConfigAsset (T_AssetConfig t) =? 0)
              (λ a, assetUpdate a (TR_AssetID txnrow) 0 (AP_Total (AssetParams_of t))) acct)
      else if bool_decide (T_Type t = AssetTransferTx) then
        Ok (rewind_transfer addr t (AssetCloseAmount (TR_Extra txnrow)) acct)
      else if bool_decide (T_Type t = AssetFreezeTx) then Ok acct
      else if bool_decide (T_Type t = HeartbeatTx) then Ok acct
      else Err (ErrMsg "%s[%d,%d]: rewinding past txn type %s is not currently supported")
  end
  end.

Fixpoint rewind_txns (addr : Address) (txns : list TxnRow) (acct : Account) : result Account :=
  match txns with
  | [] => Ok acct
  | txnrow :: rest => acct ← rewind_txn addr txnrow acct; rewind_txns addr rest acct
  end.

(** The special accounts, from the package variable once it is filled. *)
Definition special_accounts {S} (db : RewindDb S) : Tx (World S) SpecialAddresses := λ w fs,
  match w_special w with
  | Some special => (Ok special, w, fs)
  | None =>
      match on_db (db_GetSpecialAccounts db) w fs with
      | (Ok special, w, fs) => (Ok special, Build_World (w_db w) (Some special), fs)
      | (Err _, w, fs) => (Err (ErrMsg "unable to get special accounts: %v"), w, fs)
      end
  end.

Definition AccountAtRound {S} (account : Account) (round : Z) (db : RewindDb S)
    : Tx (World S) Account :=
  special <-- special_accounts db;
  addr <-- lift (DecodeAddress (models.Account_Address account));
  if bool_decide (FeeSink special = addr) then tx_err (ErrSpecialAccountRewind "FeeSink")
  else if bool_decide (RewardsPool special = addr) then
    tx_err (ErrSpecialAccountRewind "RewardsPool")
  else
  found <-- on_db (db_Transactions db
                     (rewind_filter addr (round +64 1) (models.Account_Round account)));
  let '(txns, r) := found in
  if r <? models.Account_Round account then tx_err ErrConsistency
  else
  acct <-- lift (rewind_txns addr txns account);
  let acct := models.set_Account_Round acct round in
  let acct := models.set_Account_Rewards acct 0 in
  let acct := models.set_Account_PendingRewards acct 0 in
  let acct := models.set_Account_Amount acct
                (models.Account_AmountWithoutPendingRewards acct) in
  tx_ret (models.set_Account_MinBalance acct 0).

(** ** The specification: what a transaction does to an account *)

Definition if_ (b : bool) (n : Z) : Z := if b then n else 0.

(** The change of the balance of [addr]: the sender pays the fee and the amount
    and, when closing, the rest; each party collects its rewards. *)
Definition balance_change (addr : Address) (t : Transaction) (ad : ApplyDataT) : Z :=
  let p := T_Payment t in
  let pay := bool_decide (T_Type t = PaymentTx) in
  let closes := negb (Address_IsZero (P_CloseRemainderTo p)) in
  if_ (bool_decide (addr = Sender t))
    (AD_SenderRewards ad - H_Fee (T_Header t) - if_ pay (P_Amount p)
     - if_ (pay && closes) (AD_ClosingAmount ad))
  + if_ (pay && bool_decide (addr = P_Receiver p)) (P_Amount p + AD_ReceiverRewards ad)
  + if_ (pay && bool_decide (addr = P_CloseRemainderTo p))
      (AD_ClosingAmount ad + AD_CloseRewards ad).

(** The account whose holding an asset transfer debits: the clawed-back one, if
    it is a clawback. *)
Definition asset_source (t : Transaction) : Address :=
  if Address_IsZero (X_AssetSender (T_AssetTransfer t)) then Sender t
  else X_AssetSender (T_AssetTransfer t).

(** The change of the holding of the transferred asset. *)
Definition holding_change (addr : Address) (t : Transaction) (closeAmount : Z) : Z :=
  let x := T_AssetTransfer t in
  if_ (bool_decide (addr = X_AssetReceiver x)) (X_AssetAmount x)
  + if_ (bool_decide (addr = X_AssetCloseTo x)) closeAmount
  - if_ (bool_decide (addr = asset_source t)) (X_AssetAmount x + closeAmount).

(** The amount of [assetid] that an account holds. *)
Fixpoint holding_in (l : list models.AssetHolding) (assetid : Z) : Z :=
  match l with
  | [] => 0
  | ah :: rest => if models.AssetHolding_AssetId ah =? assetid then models.AssetHolding_Amount ah else holding_in rest assetid
  end.
Definition holding (a : Account) (assetid : Z) : Z := holding_in (slice (models.Account_Assets a)) assetid.

End Rewind.

(** ** Balances *)

Fixpoint sum_changes {A} (f : A -> Z) (l : list A) : Z :=
  match l with [] => 0 | a :: l' => f a + sum_changes f l' end.

Section Balance.
Context `{SdkOps}.

Abbreviation amount := models.Account_AmountWithoutPendingRewards (only parsing).

(** [f] changes the balance by [n], modulo [2^64]. *)
Definition shifts (f : Account -> Account) (n : Z) : Prop :=
  forall a, wrap64 (amount (f a)) = wrap64 (amount a + n).

Lemma shifts_credit n : shifts (credit n) n.
Proof. intros a. cbn. apply wrap64_idem. Qed.
Lemma shifts_debit n : shifts (debit n) (- n).
Proof. intros a. cbn. apply wrap64_idem. Qed.
Lemma shifts_comp f g n m : shifts f n -> shifts g m -> shifts (λ a, g (f a)) (n + m).
Proof.
  intros Hf Hg a. rewrite Hg, <-wrap64_add_l, Hf, wrap64_add_l. f_equal. lia.
Qed.
Lemma shifts_when b f n : shifts f n -> shifts (when b f) (if_ b n).
Proof. intros Hf a. destruct b; cbn; [apply Hf|]. by rewrite Z.add_0_r. Qed.
Lemma shifts_id : shifts (λ a, a) 0.
Proof. intros a. by rewrite Z.add_0_r. Qed.
Lemma shifts_assetUpdate id add sub : shifts (λ a, assetUpdate a id add sub) 0.
Proof. intros a. cbn. by rewrite Z.add_0_r. Qed.

(** A closing payment concerns [addr] as the closed account or as the one that
    receives the rest, not both: then its parties are told apart correctly. *)
Definition closing_ok (addr : Address) (t : Transaction) : Prop :=
  let p := T_Payment t in
  T_Type t = PaymentTx -> Address_IsZero (P_CloseRemainderTo p) = false ->
  (addr = Sender t /\ addr <> P_CloseRemainderTo p) \/
  (addr <> Sender t /\ addr = P_CloseRemainderTo p).

Definition row_ok (addr : Address) (row : TxnRow) : Prop :=
  forall stxn, TR_Txn row = Some stxn -> closing_ok addr (Txn stxn).

Definition row_change (addr : Address) (row : TxnRow) : Z :=
  match TR_Txn row with
  | Some stxn => balance_change addr (Txn stxn) (STAD_ApplyData stxn)
  | None => 0
  end.

(** What undoing a payment adds to the balance, as the code has it. *)
Definition payment_undo (addr : Address) (t : Transaction) (ad : ApplyDataT) : Z :=
  let p := T_Payment t in
  if_ (bool_decide (addr = Sender t)) (P_Amount p)
  + if_ (bool_decide (addr = P_Receiver p)) (- P_Amount p - AD_ReceiverRewards ad)
  + (if bool_decide (addr = P_CloseRemainderTo p) then - AD_ClosingAmount ad - AD_CloseRewards ad
     else if_ (negb (Address_IsZero (P_CloseRemainderTo p))) (AD_ClosingAmount ad)).

Lemma shifts_eq f n m : shifts f n -> n = m -> shifts f m.
Proof. by intros Hf <-. Qed.

Lemma shifts_payment addr t ad : shifts (rewind_payment addr t ad) (payment_undo addr t ad).
Proof.
  unfold rewind_payment, payment_undo. cbv zeta.
  pose proof (shifts_comp _ _ _ _
    (shifts_when (bool_decide (addr = Sender t)) _ _ (shifts_credit (P_Amount (T_Payment t))))
    (shifts_when (bool_decide (addr = P_Receiver (T_Payment t))) _ _
       (shifts_comp _ _ _ _ (shifts_debit (P_Amount (T_Payment t)))
          (shifts_debit (AD_ReceiverRewards ad))))) as H1.
  destruct (bool_decide (addr = P_CloseRemainderTo (T_Payment t))).
  - eapply shifts_eq.
    + apply (shifts_comp _ _ _ _ H1 (shifts_comp _ _ _ _ (shifts_debit (AD_ClosingAmount ad))
        (shifts_debit (AD_CloseRewards ad)))).
    + unfold if_. repeat case_match; lia.
  - eapply shifts_eq.
    + apply (shifts_comp _ _ _ _ H1 (shifts_when _ _ _ (shifts_credit (AD_ClosingAmount ad)))).
    + unfold if_. repeat case_match; lia.
Qed.

Lemma shifts_transfer addr t n : shifts (rewind_transfer addr t n) 0.
Proof.
  unfold rewind_transfer. cbv zeta. eapply shifts_eq.
  - exact (shifts_comp _ _ _ _
      (shifts_comp _ _ _ _ (shifts_when _ _ _ (shifts_assetUpdate _ _ _))
         (shifts_when _ _ _ (shifts_assetUpdate _ _ _)))
      (shifts_when _ _ _ (shifts_assetUpdate _ _ _))).
  - unfold if_. by repeat case_match.
Qed.

(** Undoing a payment and its fee is minus its change. *)
Lemma payment_undo_inverts addr t ad :
  closing_ok addr t -> T_Type t = PaymentTx ->
  if_ (bool_decide (addr = Sender t)) (H_Fee (T_Header t) + - AD_SenderRewards ad) +
    payment_undo addr t ad = - balance_change addr t ad.
Proof.
  unfold closing_ok, payment_undo, balance_change. intros Hok Hpay. specialize (Hok Hpay).
  rewrite (bool_decide_eq_true_2 _ Hpay). cbn [andb]. clear Hpay.
  generalize (P_CloseRemainderTo (T_Payment t)), (P_Receiver (T_Payment t)), (Sender t), Hok.
  clear Hok. intros close rcv snd Hok.
  repeat case_bool_decide; destruct (Address_IsZero close); cbn; try done; try lia;
    destruct (Hok eq_refl) as [[]|[]]; done.
Qed.

Lemma fee_undo_inverts addr t ad :
  T_Type t <> PaymentTx ->
  if_ (bool_decide (addr = Sender t)) (H_Fee (T_Header t) + - AD_SenderRewards ad) + 0 =
    - balance_change addr t ad.
Proof.
  intros Hpay. unfold balance_change. rewrite (bool_decide_eq_false_2 _ Hpay). cbn [andb if_].
  destruct (bool_decide (addr = Sender t)); cbn; lia.
Qed.

(** Undoing a row adds minus its change. *)
Lemma rewind_txn_balance addr row acct acct' :
  row_ok addr row -> rewind_txn addr row acct = Ok acct' ->
  wrap64 (amount acct') = wrap64 (amount acct - row_change addr row).
Proof.
  unfold row_ok, row_change, rewind_txn. intros Hok.
  destruct (TR_Error row); [done|]. destruct (TR_Txn row) as [stxn|]; [|done].
  specialize (Hok stxn eq_refl). unfold closing_ok in Hok.
  set (t := Txn stxn) in *. set (ad := STAD_ApplyData stxn).
  pose proof (shifts_when (bool_decide (addr = Sender t)) _ _
    (shifts_comp _ _ _ _ (shifts_credit (H_Fee (T_Header t)))
       (shifts_debit (AD_SenderRewards ad)))) as Hfee.
  intros Hr.
  assert (forall g n, shifts g n ->
    acct' = g (when (bool_decide (addr = Sender t))
      (λ a, debit (AD_SenderRewards ad) (credit (H_Fee (T_Header t)) a)) acct) ->
    if_ (bool_decide (addr = Sender t)) (H_Fee (T_Header t) + - AD_SenderRewards ad) + n =
      - balance_change addr t ad ->
    wrap64 (amount acct') = wrap64 (amount acct - balance_change addr t ad)) as Hgen.
  { intros g n Hg -> Hn. rewrite (shifts_comp _ _ _ _ Hfee Hg acct). f_equal. lia. }
  destruct (decide (T_Type t = PaymentTx)) as [Hpay|Hpay].
  - rewrite bool_decide_eq_true_2 in Hr by done.
    apply (Hgen _ _ (shifts_payment addr t ad)); [by injection Hr|].
    by apply payment_undo_inverts.
  - rewrite bool_decide_eq_false_2 in Hr by done.
    assert (Hno : forall g, shifts g 0 ->
      acct' = g (when (bool_decide (addr = Sender t))
        (λ a, debit (AD_SenderRewards ad) (credit (H_Fee (T_Header t)) a)) acct) ->
      wrap64 (amount acct') = wrap64 (amount acct - balance_change addr t ad)).
    { intros g Hg Hacct. apply (Hgen g 0 Hg Hacct). by apply fee_undo_inverts. }
    clear Hgen Hfee.
    destruct (bool_decide (T_Type t = KeyRegistrationTx)).
    { apply (Hno _ shifts_id). by injection Hr. }
    destruct (bool_decide (T_Type t = AssetConfigTx)).
    { apply (Hno _ (shifts_eq _ _ 0 (shifts_when (C_ConfigAsset (T_AssetConfig t) =? 0) _ _
        (shifts_assetUpdate (TR_AssetID row) 0 (AP_Total (AssetParams_of t))))
        ltac:(by unfold if_; case_match))). by injection Hr. }
    destruct (bool_decide (T_Type t = AssetTransferTx)).
    { apply (Hno _ (shifts_transfer addr t (AssetCloseAmount (TR_Extra row)))).
      by injection Hr. }
    destruct (bool_decide (T_Type t = AssetFreezeTx)).
    { apply (Hno _ shifts_id). by injection Hr. }
    destruct (bool_decide (T_Type t = HeartbeatTx)); [|done].
    apply (Hno _ shifts_id). by injection Hr.
Qed.

Lemma rewind_txns_balance addr rows acct acct' :
  Forall (row_ok addr) rows -> rewind_txns addr rows acct = Ok acct' ->
  wrap64 (amount acct') = wrap64 (amount acct - sum_changes (row_change addr) rows).
Proof.
  intros Hok. revert acct. induction Hok as [|row rows Hrow _ IH]; intros acct; cbn.
  - intros [= <-]. f_equal. lia.
  - destruct (rewind_txn addr row acct) as [a|] eqn:E; cbn; [|done]. intros ->%IH.
    rewrite <-wrap64_sub_l, (rewind_txn_balance _ _ _ _ Hrow E), wrap64_sub_l. f_equal. lia.
Qed.
End Balance.

(** ** Holdings *)

Lemma holding_in_update l id add sub id' :
  holding_in (update_holding l id add sub) id' =
    if id' =? id then wrap64 (holding_in l id + add - sub) else holding_in l id'.
Proof.
  induction l as [|ah l IH]; cbn.
  - rewrite Z.eqb_sym. by destruct (id' =? id).
  - destruct (Z.eqb_spec (models.AssetHolding_AssetId ah) id) as [E|E]; cbn.
    + rewrite E, (Z.eqb_sym id id'). destruct (id' =? id); [|done]. by rewrite wrap64_sub_l.
    + rewrite IH. destruct (Z.eqb_spec (models.AssetHolding_AssetId ah) id') as [E'|]; [|done].
      rewrite E' in E. by rewrite (proj2 (Z.eqb_neq _ _) E).
Qed.

Lemma holding_assetUpdate a id add sub id' :
  holding (assetUpdate a id add sub) id' =
    if id' =? id then wrap64 (holding a id + add - sub) else holding a id'.
Proof. apply holding_in_update. Qed.

Section Theorems.
Context `{SdkOps} `{!SdkLaws}.

(** C32. The balance [AccountAtRound] reports for a round is the balance now
    minus the changes that the account's transactions since then made, in
    [uint64] arithmetic, provided no closing payment names the account as a
    receiver only; the fields that cannot be rewound are cleared. *)
Theorem AccountAtRound_balance {S} account round (db : RewindDb S) w fs acct w' fs' addr rows r :
  DecodeAddress (models.Account_Address account) = Ok addr ->
  (forall s fs, exists s' fs',
     db_Transactions db (rewind_filter addr (round +64 1) (models.Account_Round account)) s fs =
     (Ok (rows, r), s', fs')) ->
  Forall (row_ok addr) rows ->
  AccountAtRound account round db w fs = (Ok acct, w', fs') ->
  wrap64 (models.Account_Amount acct) =
    wrap64 (models.Account_AmountWithoutPendingRewards account - sum_changes (row_change addr) rows) /\
  models.Account_Round acct = round /\ models.Account_Rewards acct = 0 /\ models.Account_PendingRewards acct = 0 /\
  models.Account_MinBalance acct = 0.
Proof.
  intros Ha Hdb Hok. unfold AccountAtRound, tx_bind, lift, on_db.
  destruct (special_accounts db w fs) as [[[special|e] w1] fs1]; [|done].
  rewrite Ha. cbn [fst snd].
  destruct (bool_decide (FeeSink special = addr)); [done|].
  destruct (bool_decide (RewardsPool special = addr)); [done|].
  destruct (Hdb (w_db w1) fs1) as (s2 & fs2 & ->).
  destruct (r <? models.Account_Round account); [done|].
  destruct (rewind_txns addr rows account) as [a|] eqn:E; cbn; [|done].
  intros [= <- _ _]; cbn. split_and!; try done. by apply rewind_txns_balance.
Qed.

(** The fee sink and the rewards pool are never rewound: whether the special
    addresses are cached or read now, the error names the account, and the
    addresses are cached afterwards. *)
Theorem AccountAtRound_special {S} special account round (db : RewindDb S) w fs w' fs' addr :
  special_accounts db w fs = (Ok special, w', fs') ->
  DecodeAddress (models.Account_Address account) = Ok addr ->
  addr = FeeSink special \/ addr = RewardsPool special ->
  exists name, AccountAtRound account round db w fs =
    (Err (ErrSpecialAccountRewind name), w', fs') /\ w_special w' = Some special.
Proof.
  intros Hc Ha Hs. unfold AccountAtRound, tx_bind, lift. rewrite Hc, Ha.
  assert (w_special w' = Some special) as Hw.
  { revert Hc. unfold special_accounts.
    destruct (w_special w) as [sp|] eqn:E; [by intros [= <- <- <-]|].
    destruct (on_db _ w fs) as [[[sp|e] w1] fs1]; by intros [= <- <- <-]. }
  destruct (decide (FeeSink special = addr)) as [E|E].
  - rewrite bool_decide_eq_true_2 by done. by eexists.
  - rewrite bool_decide_eq_false_2 by done. destruct Hs as [->| ->]; [done|].
    rewrite bool_decide_eq_true_2 by done. by eexists.
Qed.

(** The account is debited by the transfer exactly if the code takes it to be:
    not so for the sender of a clawback from another account. *)
Definition transfer_ok (addr : Address) (t : Transaction) : Prop :=
  addr <> zeroAddress /\ (addr = Sender t -> addr = asset_source t).

(** Undoing an asset transfer takes its change off the holding of the
    transferred asset, for the receiver, for the account closed to and for the
    account debited, and leaves every other asset alone, provided the account is
    not the sender of a clawback from another one. *)
Theorem rewind_transfer_holding addr t closeAmount acct id :
  transfer_ok addr t ->
  wrap64 (holding (rewind_transfer addr t closeAmount acct) id) =
    wrap64 (holding acct id -
      if_ (id =? X_XferAsset (T_AssetTransfer t)) (holding_change addr t closeAmount)).
Proof.
  intros [Hnz Hs]. unfold rewind_transfer, holding_change, when. cbv zeta.
  assert ((bool_decide (addr = X_AssetSender (T_AssetTransfer t)) || bool_decide (addr = Sender t))
    = bool_decide (addr = asset_source t)) as ->.
  { unfold asset_source in *. destruct (Address_IsZero _) eqn:Ez.
    - apply Address_IsZero_spec in Ez. rewrite Ez.
      by rewrite (bool_decide_eq_false_2 (addr = zeroAddress)).
    - destruct (decide (addr = Sender t)) as [E|E].
      + by rewrite (bool_decide_eq_true_2 _ (Hs E)).
      + by rewrite (bool_decide_eq_false_2 _ E), orb_false_r. }
  destruct (bool_decide (addr = asset_source t)),
    (bool_decide (addr = X_AssetReceiver (T_AssetTransfer t))),
    (bool_decide (addr = X_AssetCloseTo (T_AssetTransfer t)));
    rewrite ?holding_assetUpdate, ?Z.eqb_refl; destruct (Z.eqb_spec id (X_XferAsset (T_AssetTransfer t))) as [->|];
    cbn [if_]; rewrite ?holding_assetUpdate, ?Z.eqb_refl; rewrite ?Z.add_0_r, ?Z.sub_0_r;
    unfold wrap64; Z.to_euclidean_division_equations; lia.
Qed.

(** ** Where undoing does not invert *)

(** The receiver of a closing payment that is neither its sender nor the
    account closed to is credited the closing amount when the payment is undone,
    although the payment gave it nothing of it: the balance is too high by
    exactly that amount. *)
Theorem rewind_payment_receiver_of_closing addr t ad acct :
  addr <> Sender t -> addr = P_Receiver (T_Payment t) ->
  addr <> P_CloseRemainderTo (T_Payment t) ->
  Address_IsZero (P_CloseRemainderTo (T_Payment t)) = false -> T_Type t = PaymentTx ->
  wrap64 (models.Account_AmountWithoutPendingRewards (rewind_payment addr t ad acct)) =
    wrap64 (models.Account_AmountWithoutPendingRewards acct - balance_change addr t ad
            + AD_ClosingAmount ad).
Proof.
  intros Hs Hr Hc Hz Hp. rewrite (shifts_payment addr t ad acct). f_equal.
  unfold payment_undo, balance_change.
  rewrite (bool_decide_eq_false_2 _ Hs), (bool_decide_eq_true_2 _ Hr),
    (bool_decide_eq_false_2 _ Hc), (bool_decide_eq_true_2 _ Hp), Hz. cbn. lia.
Qed.

(** The sender of a clawback, whose own holding the transfer does not touch,
    is credited the amount when it is undone. *)
Theorem rewind_transfer_clawback addr t closeAmount acct :
  addr = Sender t -> addr <> X_AssetSender (T_AssetTransfer t) ->
  addr <> X_AssetReceiver (T_AssetTransfer t) -> addr <> X_AssetCloseTo (T_AssetTransfer t) ->
  Address_IsZero (X_AssetSender (T_AssetTransfer t)) = false ->
  holding_change addr t closeAmount = 0 /\
  wrap64 (holding (rewind_transfer addr t closeAmount acct) (X_XferAsset (T_AssetTransfer t))) =
    wrap64 (holding acct (X_XferAsset (T_AssetTransfer t)) +
            X_AssetAmount (T_AssetTransfer t) + closeAmount).
Proof.
  intros Hs Has Hr Hc Hz. split.
  - unfold holding_change, asset_source. rewrite Hz.
    by rewrite (bool_decide_eq_false_2 _ Hr), (bool_decide_eq_false_2 _ Hc),
      (bool_decide_eq_false_2 _ Has).
  - unfold rewind_transfer, when. cbv zeta.
    rewrite (bool_decide_eq_false_2 _ Hr), (bool_decide_eq_false_2 _ Hc),
      (bool_decide_eq_true_2 _ Hs), orb_true_r.
    rewrite holding_assetUpdate, Z.eqb_refl, wrap64_idem, Z.sub_0_r, wrap64_add_r.
    f_equal. lia.
Qed.
End Theorems.

(** ** Concrete accounts *)

Module SampleRewind.
Definition alice : Address := ("alice" ++ zeros 27)%string.
Definition bob : Address := ("bob" ++ zeros 29)%string.
Definition carol : Address := ("carol" ++ zeros 27)%string.

Definition account (holdings : list models.AssetHolding) : Account :=
  let a := models.set_Account_Amount models.zero_Account 1010 in
  let a := models.set_Account_AmountWithoutPendingRewards a 1000 in
  let a := models.set_Account_Address a alice in
  let a := models.set_Account_Assets a (Some holdings) in
  let a := models.set_Account_PendingRewards a 10 in
  let a := models.set_Account_Rewards a 50 in
  models.set_Account_Round (models.set_Account_MinBalance a 100) 20.

Definition payment (from to close : Address) : Transaction :=
  Sample.txn PaymentTx from {| P_Receiver := to; P_Amount := 5; P_CloseRemainderTo := close |}.

Definition applied : ApplyDataT := {|
  AD_ClosingAmount := 70; AD_AssetClosingAmount := 0; AD_SenderRewards := 1;
  AD_ReceiverRewards := 2; AD_CloseRewards := 3; AD_EvalDelta := Zero.evalDelta;
  AD_ConfigAsset := 0; AD_ApplicationID := 0 |}.

Definition row (t : Transaction) : TxnRow := {|
  TR_Round := 15; TR_RoundTime := None; TR_Intra := 0;
  TR_Txn := Some (StxnAD (Sample.signed t) applied); TR_RootTxn := None; TR_AssetID := 0;
  TR_Extra := {| AssetCloseAmount := 0; RootIntra := absentUint; RootTxid := "" |};
  TR_Error := None |}.

(** [alice] receives a payment, then sends one. *)
Definition rows : list TxnRow :=
  [row (payment alice bob zeroAddress); row (payment bob alice zeroAddress)].

Definition special : SpecialAddresses := {| FeeSink := bob; RewardsPool := carol |}.
Definition db : RewindDb unit := {|
  db_GetSpecialAccounts := tx_ret special; db_Transactions _ := tx_ret (rows, 20) |}.
(** The process before the first rewind. *)
Definition fresh : World unit := Build_World tt None.

(** A transfer of 9 units of the asset 7, clawed back from [source] if that is
    not the zero address. *)
Definition transfer (from source to : Address) : Transaction :=
  let t := Sample.txn AssetTransferTx from Zero.payment in {|
  T_Type := T_Type t; T_Header := T_Header t; T_Keyreg := T_Keyreg t; T_Payment := T_Payment t;
  T_AssetConfig := T_AssetConfig t;
  T_AssetTransfer := {| X_XferAsset := 7; X_AssetAmount := 9; X_AssetSender := source;
                        X_AssetReceiver := to; X_AssetCloseTo := zeroAddress |};
  T_AssetFreeze := T_AssetFreeze t; T_Application := T_Application t;
  T_StateProof := T_StateProof t; T_Heartbeat := T_Heartbeat t |}.
End SampleRewind.

Section Witnesses.
#[local] Existing Instance Sample.sdk.
#[local] Existing Instance Sample.sdk_laws.
Import SampleRewind.

Lemma AccountAtRound_balance_witness :
  exists acct, AccountAtRound (account []) 10 db fresh [] = (Ok acct, Build_World tt (Some special), []) /\
  wrap64 (models.Account_Amount acct) = wrap64 (1000 - sum_changes (row_change alice) rows) /\
  models.Account_Round acct = 10 /\ models.Account_Rewards acct = 0 /\ models.Account_PendingRewards acct = 0 /\
  models.Account_MinBalance acct = 0.
Proof.
  eexists. split; [vm_compute; reflexivity|].
  eapply (AccountAtRound_balance (account []) 10 db fresh [] _ (Build_World tt (Some special)) [] alice rows 20).
  - vm_compute. reflexivity.
  - intros s fs. exists s, fs. reflexivity.
  - apply Forall_cons; split; [|apply Forall_singleton];
      intros stxn [= <-] _ Hz; vm_compute in Hz; discriminate.
  - vm_compute. reflexivity.
Defined.

Lemma AccountAtRound_special_witness :
  let special := {| FeeSink := alice; RewardsPool := carol |} in
  let db := {| db_GetSpecialAccounts := tx_ret special; db_Transactions _ := tx_ret ([], 20) |} in
  exists name, AccountAtRound (account []) 10 db fresh [] =
    (Err (ErrSpecialAccountRewind name), Build_World tt (Some special), []) /\
    w_special (Build_World tt (Some special)) = Some special.
Proof.
  intros special db.
  apply (AccountAtRound_special special (account []) 10 db fresh [] (Build_World tt (Some special)) [] alice).
  - reflexivity.
  - vm_compute. reflexivity.
  - by left.
Defined.

Lemma rewind_transfer_holding_witness :
  let t := transfer alice zeroAddress bob in
  let a := account [new_holding 7 30] in
  wrap64 (holding (rewind_transfer alice t 0 a) 7) =
    wrap64 (holding a 7 - if_ true (holding_change alice t 0)).
Proof.
  intros t a. apply (rewind_transfer_holding alice t 0 a 7). split; [discriminate|].
  intros _. vm_compute. reflexivity.
Defined.

(** The account of [bob] is closed to [carol] by a payment of 5 to [alice]: undone,
    it adds 63 to the balance of [alice] instead of taking off 7. *)
Lemma rewind_payment_receiver_of_closing_witness :
  let t := payment bob alice carol in
  wrap64 (models.Account_AmountWithoutPendingRewards (rewind_payment alice t applied (account []))) =
    wrap64 (1000 - balance_change alice t applied + 70).
Proof.
  intros t. apply (rewind_payment_receiver_of_closing alice t applied (account []));
    first [discriminate | reflexivity].
Defined.

Lemma rewind_transfer_clawback_witness :
  let t := transfer alice bob carol in
  holding_change alice t 0 = 0 /\
  wrap64 (holding (rewind_transfer alice t 0 (account [])) 7) =
    wrap64 (holding (account []) 7 + 9 + 0).
Proof.
  intros t. apply (rewind_transfer_clawback alice t 0 (account []));
    first [discriminate | reflexivity].
Defined.
End Witnesses.
