(* ===== verification/Migration.v ===== *)
(** * Migrations: [idb/migration/migration.go], [idb/postgres/postgres_migrations.go]

    The runner is a function from the tasks to the trace of what it does: the
    handlers it runs, the states it publishes, and the closing of the channel
    that API and importer wait on.  The list of PostgreSQL migrations follows,
    with the handlers as transactions. *)

From Stdlib Require Import Sorted.
From S2P Require Import Prelude GoStd Sdk Idb Util Encoding Db.

(** ** The runner *)

Definition ErrDuplicateID : error := ErrSentinel "duplicate ID detected".
Definition ErrUnorderedID : error := ErrSentinel "migration IDs must be in ascending order".
Definition StatusPending : string := "Migration pending".
Definition StatusComplete : string := "Migrations Complete".
Definition StatusActivePrefix : string := "Active migration: ".
Definition StatusErrorPrefix : string := "error during migration ".

Section Runner.
(** What the handlers act on. *)
Context {W : Type}.

Record Task := {
  MigrationID : Z; Handler : W -> result unit * W; DBUnavailable : bool; Description : string }.

(** [State] without the time of its capture. *)
Record State := {
  St_Err : option error; St_TaskID : Z; St_Status : string; St_Running : bool;
  St_Blocking : bool }.

Record Migration := { m_tasks : list Task; m_blockUntil : Z; m_state : State }.

(** The loop of [setTasks]: the error, if any, and [blockUntil]. *)
Fixpoint check_tasks (tasks : list Task) (ids : gset Z) (lastID blockUntil : Z)
    : result unit * Z :=
  match tasks with
  | [] => (Ok tt, blockUntil)
  | migration :: rest =>
      if MigrationID migration <? lastID then (Err ErrUnorderedID, blockUntil)
      else if bool_decide (MigrationID migration ∈ ids) then (Err ErrDuplicateID, blockUntil)
      else check_tasks rest ({[ MigrationID migration ]} ∪ ids) (MigrationID migration)
             (if DBUnavailable migration then MigrationID migration else blockUntil)
  end.

Definition setTasks (m : Migration) (migrationTasks : list Task) : result unit * Migration :=
  let '(r, blockUntil) := check_tasks migrationTasks ∅ 0 0 in
  (r, {| m_tasks := match r with Ok _ => migrationTasks | Err _ => m_tasks m end;
         m_blockUntil := blockUntil; m_state := m_state m |}).

Definition MakeMigration (migrationTasks : list Task) : result unit * Migration :=
  setTasks {| m_tasks := migrationTasks; m_blockUntil := 0;
              m_state := {| St_Err := None; St_TaskID := 0; St_Status := StatusPending;
                            St_Running := false; St_Blocking := true |} |} migrationTasks.

(** [update]: each field is assigned if it differs, so all of them are. *)
Definition update (err : option error) (status : string) (running blocking : bool) (id : Z)
    : State := {|
  St_Err := err; St_TaskID := id; St_Status := status; St_Running := running;
  St_Blocking := blocking |}.

Inductive event :=
| Close
| Publish (s : State)
| Run (id : Z) (r : result unit).

(** The text of the error: the format string stands for the formatted message. *)
Definition taskErrorFmt : string := (StatusErrorPrefix ++ "%d (%s): %w")%string.

(** The loop of [runMigrations], from a task on. *)
Fixpoint run_tasks (blockUntil : Z) (tasks : list Task) (blocking : bool) (w : W)
    : State * W * list event :=
  match tasks with
  | [] =>
      let done := update None StatusComplete false false (-1) in
      (done, w, Publish done :: (if blocking then [Close] else []))
  | task :: rest =>
      let id := MigrationID task in
      let close := blocking && (blockUntil <? id) in
      let blocking := if close then false else blocking in
      let active := update None (StatusActivePrefix ++ Description task) true blocking id in
      let '(r, w') := Handler task w in
      let before := (if close then [Close] else []) ++ [Publish active; Run id r] in
      match r with
      | Err e =>
          let failed := update (Some (ErrWrap taskErrorFmt e)) taskErrorFmt false true id in
          (failed, w', before ++ [Publish failed])
      | Ok _ =>
          let '(s, w'', trace) := run_tasks blockUntil rest blocking w' in
          (s, w'', before ++ trace)
      end
  end.

Definition runMigrations (m : Migration) (w : W) : State * W * list event :=
  run_tasks (m_blockUntil m) (m_tasks m) true w.

(** *** The order of the tasks *)

Definition ascending (tasks : list Task) (from : Z) : Prop :=
  Forall (λ t, from <= MigrationID t) tasks /\
  StronglySorted (λ t u, MigrationID t < MigrationID u) tasks.

Lemma check_tasks_Ok tasks ids lastID b b' :
  check_tasks tasks ids lastID b = (Ok tt, b') ->
  (forall x, x ∈ ids -> x <= lastID) -> b <= lastID ->
  ascending tasks lastID /\ Forall (λ t, MigrationID t ∉ ids) tasks /\
  b <= b' /\ Forall (λ t, DBUnavailable t = true -> MigrationID t <= b') tasks.
Proof.
  revert ids lastID b. induction tasks as [|t tasks IH]; intros ids lastID b; cbn [check_tasks].
  - intros [= <-] _ _. split_and!; [split; constructor|constructor|lia|constructor].
  - destruct (Z.ltb_spec (MigrationID t) lastID); [done|]. case_bool_decide as Hin; [done|].
    intros Hr Hids Hb. apply IH in Hr as ([Hge Hss] & Hnin & Hbb & Hall).
    + assert (Forall (λ u, MigrationID t < MigrationID u) tasks) as Hlt.
      { apply Forall_forall. intros u Hu. rewrite Forall_forall in Hge, Hnin.
        specialize (Hge u Hu). specialize (Hnin u Hu). set_solver by lia. }
      split_and!.
      * split; [|by constructor]. constructor; [lia|].
        eapply Forall_impl; [exact Hge|]. cbn. lia.
      * constructor; [done|]. eapply Forall_impl; [exact Hnin|]. set_solver.
      * destruct (DBUnavailable t); lia.
      * constructor; [|done]. intros Hd. rewrite Hd in Hbb. lia.
    + intros x [->%elem_of_singleton|Hx]%elem_of_union; [lia|]. specialize (Hids x Hx). lia.
    + destruct (DBUnavailable t); lia.
Qed.

(** *** The trace *)

Fixpoint closes (trace : list event) : nat :=
  match trace with
  | [] => 0
  | Close :: rest => S (closes rest)
  | _ :: rest => closes rest
  end.

(** Publishes and runs only: no [Close] before the tail. *)
Lemma closes_app l1 l2 : closes (l1 ++ l2) = (closes l1 + closes l2)%nat.
Proof. induction l1 as [|[] l1 IH]; cbn; congruence || by rewrite IH. Qed.

Lemma run_tasks_not_blocking b tasks w s w' trace :
  run_tasks b tasks false w = (s, w', trace) -> closes trace = 0%nat.
Proof.
  revert w s w' trace. induction tasks as [|t tasks IH]; intros w s w' trace; cbn.
  - by intros [= <- <- <-].
  - destruct (Handler t w) as [[[]|e] w1].
    + destruct (run_tasks b tasks false w1) as [[s2 w2] tr2] eqn:E. intros [= <- <- <-]. cbn.
      by eapply IH.
    + by intros [= <- <- <-].
Qed.

Lemma run_tasks_closes b tasks w s w' trace :
  run_tasks b tasks true w = (s, w', trace) ->
  (closes trace <= 1)%nat /\ (St_Err s = None -> closes trace = 1%nat).
Proof.
  revert w s w' trace. induction tasks as [|t tasks IH]; intros w s w' trace; cbn.
  - intros [= <- <- <-]. cbn. split; [lia|done].
  - destruct (Handler t w) as [[[]|e] w1], (b <? MigrationID t).
    + destruct (run_tasks b tasks false w1) as [[s2 w2] tr2] eqn:E. intros [= <- <- <-]. cbn.
      apply run_tasks_not_blocking in E. rewrite E. split; [lia|done].
    + destruct (run_tasks b tasks true w1) as [[s2 w2] tr2] eqn:E. intros [= <- <- <-]. cbn.
      by eapply IH.
    + intros [= <- <- <-]. cbn. split; [lia|done].
    + intros [= <- <- <-]. cbn. split; [lia|done].
Qed.

Lemma run_tasks_close_after b tasks w s w' trace pre post from :
  ascending tasks from -> Forall (λ t, DBUnavailable t = true -> MigrationID t <= b) tasks ->
  run_tasks b tasks true w = (s, w', trace) -> trace = pre ++ Close :: post ->
  forall t, t ∈ tasks -> DBUnavailable t = true -> Run (MigrationID t) (Ok tt) ∈ pre.
Proof.
  revert w s w' trace pre from. induction tasks as [|t tasks IH];
    intros w s w' trace pre from [_ Hss] Hall; [by intros _ _ t ?%elem_of_nil|].
  apply Forall_cons in Hall as [Ht Hall]. apply StronglySorted_inv in Hss as [Hss Hlt]. cbn.
  destruct (Z.ltb_spec b (MigrationID t)) as [Hb|Hb].
  - (* closing now: no task from here on is blocking *)
    intros _ _ u Hu Hd. exfalso. apply elem_of_cons in Hu as [->|Hu]; [specialize (Ht Hd); lia|].
    rewrite Forall_forall in Hall, Hlt. specialize (Hall u Hu Hd). specialize (Hlt u Hu). lia.
  - destruct (Handler t w) as [[[]|e] w1].
    + destruct (run_tasks b tasks true w1) as [[s2 w2] tr2] eqn:E. intros [= <- <- <-]. cbn.
      destruct pre as [|x1 [|x2 pre]]; intros Htr; simplify_eq/=.
      intros u [->|Hu]%elem_of_cons Hd; [by right; left|]. do 2 right.
      eapply (IH _ _ _ _ pre (MigrationID t)); [|done|exact E|done|done|done].
      split; [|done]. eapply Forall_impl; [exact Hlt|]. cbn. lia.
    + intros [= <- <- <-]. cbn. intros Htr. exfalso.
      apply (f_equal closes) in Htr. rewrite closes_app in Htr. cbn in Htr. lia.
Qed.

(** C33. The channel that the importer and the API wait on is closed at most once
    (a second close would panic); it is closed only when every blocking task has
    run successfully; and it is closed if all tasks succeed. *)
Theorem runMigrations_channel tasks m w s w' trace :
  MakeMigration tasks = (Ok tt, m) -> runMigrations m w = (s, w', trace) ->
  (closes trace <= 1)%nat /\ (St_Err s = None -> closes trace = 1%nat) /\
  forall pre post, trace = pre ++ Close :: post ->
    forall t, t ∈ tasks -> DBUnavailable t = true -> Run (MigrationID t) (Ok tt) ∈ pre.
Proof.
  unfold MakeMigration, setTasks, runMigrations.
  destruct (check_tasks tasks ∅ 0 0) as [r b] eqn:Ec. intros [= -> <-] Hr; cbn in Hr.
  apply check_tasks_Ok in Ec as (Hasc & _ & _ & Hall); [|set_solver|lia].
  destruct (run_tasks_closes _ _ _ _ _ _ Hr) as [H1 H2]. split_and!; [done|done|].
  intros pre post Htr. by eapply run_tasks_close_after.
Qed.

(** The tasks of a trace. *)
Definition ran (trace : list event) : list (Z * result unit) :=
  omap (λ e, match e with Run id r => Some (id, r) | _ => None end) trace.

Lemma ran_app l1 l2 : ran (l1 ++ l2) = ran l1 ++ ran l2.
Proof. apply omap_app. Qed.

(** The tasks run in order up to the first that fails: all before it have
    succeeded, none after it runs, and the state then names the failed task, has
    the error and is blocking and not running; without a failure all tasks ran. *)
Theorem run_tasks_order b tasks blocking w s w' trace :
  run_tasks b tasks blocking w = (s, w', trace) ->
  (St_Err s = None /\ ran trace = map (λ t, (MigrationID t, Ok tt)) tasks) \/
  exists done failed rest e, tasks = done ++ failed :: rest /\
    ran trace = map (λ t, (MigrationID t, Ok tt)) done ++ [(MigrationID failed, Err e)] /\
    s = update (Some (ErrWrap taskErrorFmt e)) taskErrorFmt false true (MigrationID failed).
Proof.
  revert blocking w s w' trace. induction tasks as [|t tasks IH];
    intros blocking w s w' trace; cbn.
  - intros [= <- <- <-]. left. by destruct blocking.
  - destruct (Handler t w) as [[[]|e] w1].
    + destruct (run_tasks b tasks _ w1) as [[s2 w2] tr2] eqn:E. intros [= <- <- <-].
      rewrite !ran_app. destruct (IH _ _ _ _ _ E) as
        [[Hs Hran]|(dn & failed & rest & e & -> & Hran & Hs)].
      * left. split; [done|]. rewrite Hran. by destruct (blocking && _).
      * right. exists (t :: dn), failed, rest, e. split_and!; [done| |done].
        rewrite Hran. by destruct (blocking && _).
    + intros [= <- <- <-]. right. exists [], t, tasks, e. split_and!; [done| |done].
      rewrite !ran_app. by destruct (blocking && _).
Qed.
End Runner.
Arguments Task : clear implicits.
Arguments Migration : clear implicits.

(** ** The PostgreSQL migrations *)

Inductive migrate_func :=
| upgradeNotSupported
| dropTxnBytesColumn
| convertAccountData
| createAppBoxTable.

Record migrationStruct := { migrate : migrate_func; blocking : bool; description : string }.

(** The double quotes of one description are single ones here. *)
Definition migrations : list migrationStruct :=
  [ {| migrate := upgradeNotSupported; blocking := false;
       description := "Recompute the txid with corrected algorithm." |};
    {| migrate := upgradeNotSupported; blocking := true;
       description := "Adjust block time to UTC timezone." |};
    {| migrate := upgradeNotSupported; blocking := true;
       description := "Update DB Schema for Algorand application support." |};
    {| migrate := upgradeNotSupported; blocking := false;
       description := "Recompute asset configurations with corrected merge function." |};
    {| migrate := upgradeNotSupported; blocking := true;
       description := "Add indices to make sure account lookups remain fast when there are a lot of apps or assets." |};
    {| migrate := upgradeNotSupported; blocking := true;
       description := "record round at which txn json recording changes, for future migration to fixup prior records" |};
    {| migrate := upgradeNotSupported; blocking := true;
       description := "Update DB Schema for cumulative account reward support and creation dates." |};
    {| migrate := upgradeNotSupported; blocking := false;
       description := "Compute cumulative account rewards for all accounts." |};
    {| migrate := upgradeNotSupported; blocking := false;
       description := "clear some stale data from closed accounts" |};
    {| migrate := upgradeNotSupported; blocking := false;
       description := "some txn JSON encodings need app keys base64 encoded" |};
    {| migrate := upgradeNotSupported; blocking := false;
       description := "The initial m7 implementation would miss special accounts." |};
    {| migrate := upgradeNotSupported; blocking := true;
       description := "Fix asset holding freeze states." |};
    {| migrate := upgradeNotSupported; blocking := false;
       description := "Fix search by asset freeze address." |};
    {| migrate := upgradeNotSupported; blocking := false;
       description := "clear account data for accounts that have been closed" |};
    {| migrate := upgradeNotSupported; blocking := false;
       description := "make all " +:+ dquote +:+ "deleted" +:+ dquote +:+ " columns NOT NULL" |};
    {| migrate := upgradeNotSupported; blocking := true;
       description := "change import state format" |};
    {| migrate := upgradeNotSupported; blocking := true;
       description := "notify the user that upgrade is not supported" |};
    {| migrate := dropTxnBytesColumn; blocking := true; description := "drop txnbytes column" |};
    {| migrate := convertAccountData; blocking := true;
       description := "convert account.account_data column" |};
    {| migrate := createAppBoxTable; blocking := true;
       description := "add new table app_box for application boxes" |} ].

Definition migrationStateBlocked (state : MigrationState) : bool :=
  existsb blocking (drop (Z.to_nat (NextMigration state)) migrations).

Definition needsMigration (state : MigrationState) : bool :=
  NextMigration state <? Z.of_nat (length migrations).

Definition with_next (state : MigrationState) (n : Z) : MigrationState := {|
  NextMigration := n; NextRound := NextRound state; NextAssetID := NextAssetID state;
  PointerRound := PointerRound state; PointerIntra := PointerIntra state |}.
Definition emptyMigrationState : MigrationState := {|
  NextMigration := 0; NextRound := 0; NextAssetID := 0; PointerRound := None;
  PointerIntra := None |}.

Section PostgresMigrations.
Context `{Codec MigrationState}.
(** [cad.RunMigration(tx, 10000)]. *)
Context (cad_RunMigration : Tx tables unit).
Local Open Scope tx_scope.

(** The schema statements change no row of the tables modelled here. *)
Definition exec_sql (sqlLines : list string) : Tx tables unit :=
  foldr (λ _ rest, tx_wrap ("migration %d exec cmd: " +:+ dquote +:+ "%s" +:+ dquote +:+ " err: %w") (db_call (λ t, Ok (tt, t)));;; rest)
    (tx_ret tt) sqlLines.

(** What the handlers act on: the state all of them share, the tables and the
    faults to come. *)
Record mworld := { mw_state : MigrationState; mw_tables : tables; mw_faults : faults }.

(** A transaction that advances the state: on success the shared state follows. *)
Definition advance (fmt : string) (f : MigrationState -> Tx tables unit) (w : mworld)
    : result unit * mworld :=
  let nextState := with_next (mw_state w) (NextMigration (mw_state w) + 1) in
  let '(r, t, fs) := TxWithRetry (λ before _, before) (f nextState) (mw_tables w) (mw_faults w) in
  (wrap fmt r,
   {| mw_state := match r with Ok _ => nextState | Err _ => mw_state w end;
      mw_tables := t; mw_faults := fs |}).

Definition sqlMigration (sqlLines : list string) : mworld -> result unit * mworld :=
  advance "migration %d commit err: %w" (λ nextState,
    exec_sql sqlLines;;;
    tx_wrap "migration %d exec metastate err: %w"
      (SetMetastate MigrationMetastateKey (EncodeMigrationState nextState))).

Definition convert_account_data : mworld -> result unit * mworld :=
  advance "convertAccountData() err: %w" (λ newMigrationState,
    tx_wrap "convertAccountData() err: %w" cad_RunMigration;;;
    tx_wrap "convertAccountData() err: %w" (tx_wrap "setMigrationState() err: %w"
      (SetMetastate MigrationMetastateKey (EncodeMigrationState newMigrationState)))).

Definition create_app_box : string :=
  "CREATE TABLE IF NOT EXISTS app_box (" +:+ nl 3 +:+ "app bigint NOT NULL," +:+ nl 3 +:+
  "name bytea NOT NULL," +:+ nl 3 +:+
  "value bytea NOT NULL, -- upon creation 'value' is 0x000...000 with length being the box'es size" +:+
  nl 3 +:+ "PRIMARY KEY (app, name)" +:+ nl 2 +:+ ")".

Definition run_func (f : migrate_func) : mworld -> result unit * mworld :=
  match f with
  | upgradeNotSupported => λ w,
      (Err (ErrMsg "upgrading from this version is not supported; create a new database"), w)
  | dropTxnBytesColumn => sqlMigration ["ALTER TABLE txn DROP COLUMN txnbytes"]
  | convertAccountData => convert_account_data
  | createAppBoxTable => sqlMigration [create_app_box]
  end.

Definition markMigrationsAsDone (w : mworld) : result unit * mworld :=
  let state := with_next emptyMigrationState (Z.of_nat (length migrations)) in
  let '(r, t, fs) := SetMetastate MigrationMetastateKey (EncodeMigrationState state)
                       (mw_tables w) (mw_faults w) in
  (r, {| mw_state := mw_state w; mw_tables := t; mw_faults := fs |}).

(** The tasks [runAvailableMigrations] makes from a migration on. *)
Fixpoint make_tasks (next : Z) (l : list migrationStruct) : list (Task mworld) :=
  match l with
  | [] => []
  | m :: rest =>
      {| MigrationID := next; Handler := run_func (migrate m); DBUnavailable := blocking m;
         Description := description m |} :: make_tasks (next + 1) rest
  end.

Definition available_tasks (state : MigrationState) : list (Task mworld) :=
  let next := NextMigration state in
  match make_tasks next (drop (Z.to_nat next) migrations) with
  | [] => []
  | tasks => tasks ++ [{| MigrationID := 9999999; Handler := markMigrationsAsDone;
                          DBUnavailable := false; Description := "Mark migrations done" |}]
  end.

Definition getMigrationState : Tx tables MigrationState :=
  r <-- tx_try (GetMetastate MigrationMetastateKey);
  match r with
  | Err e => if bool_decide (e = ErrorNotInitialized) then tx_err ErrorNotInitialized
             else tx_err (ErrWrap "getMigrationState() get state err: %w" e)
  | Ok v => λ t fs, (wrap "getMigrationState() decode state err: %w" (DecodeMigrationState v), t, fs)
  end.

Definition runAvailableMigrations (t : tables) (fs : faults)
    : result (State * list event) * tables * faults :=
  let '(r, t, fs) := getMigrationState t fs in
  match match r with
        | Ok state => Ok state
        | Err e => if bool_decide (e = ErrorNotInitialized) then Ok emptyMigrationState
                   else Err (ErrWrap "runAvailableMigrations() err: %w" e)
        end with
  | Err e => (Err e, t, fs)
  | Ok state =>
      match MakeMigration (available_tasks state) with
      | (Err e, _) => (Err e, t, fs)
      | (Ok _, m) =>
          let '(s, w, trace) :=
            runMigrations m {| mw_state := state; mw_tables := t; mw_faults := fs |} in
          (Ok (s, trace), mw_tables w, mw_faults w)
      end
  end.

(** *** Properties *)

Lemma make_tasks_check next l ids last b :
  last <= next -> (forall x, x ∈ ids -> x < next) ->
  exists b', check_tasks (make_tasks next l ++
      [{| MigrationID := 9999999; Handler := markMigrationsAsDone; DBUnavailable := false;
          Description := "Mark migrations done" |}]) ids last b = (Ok tt, b') \/
    9999999 <= next + Z.of_nat (length l) .
Proof.
  revert next ids last b. induction l as [|m l IH]; intros next ids last b Hlast Hids; cbn.
  - exists b. destruct (Z.leb_spec 9999999 next) as [|Hn]; [right; cbn; lia|]. left.
    destruct (Z.ltb_spec 9999999 last); [lia|].
    rewrite bool_decide_eq_false_2; [done|]. intros Hx%Hids. lia.
  - destruct (Z.ltb_spec next last); [lia|].
    rewrite bool_decide_eq_false_2 by (intros Hx%Hids; lia).
    destruct (IH (next + 1) ({[next]} ∪ ids) next (if blocking m then next else b)) as [b' Hb'];
      [lia| |].
    + intros x [->%elem_of_singleton|Hx%Hids]%elem_of_union; lia.
    + exists b'. destruct Hb' as [Hb'|Hb']; [by left|right; lia].
Qed.

(** [runAvailableMigrations] always builds a well-formed migration: for any
    stored state with a non-negative next migration, the tasks are accepted (no
    unordered or duplicate identifier). *)
Theorem available_tasks_accepted state :
  0 <= NextMigration state ->
  exists m, MakeMigration (available_tasks state) = (Ok tt, m).
Proof.
  intros Hn. unfold MakeMigration, setTasks, available_tasks.
  destruct (make_tasks _ _) as [|t l] eqn:E; [cbn; by eexists|]. rewrite <-E.
  assert (NextMigration state < 20) as Hlt.
  { destruct (Z.ltb_spec (NextMigration state) 20); [done|].
    rewrite drop_ge in E; [done|]. change (length migrations) with 20%nat. lia. }
  destruct (make_tasks_check (NextMigration state)
    (drop (Z.to_nat (NextMigration state)) migrations) ∅ 0 0) as [b [Hb|Hb]]; [lia|set_solver| |].
  - rewrite Hb. by eexists.
  - rewrite length_drop in Hb. change (length migrations) with 20%nat in Hb. lia.
Qed.

Lemma honest_exec_sql sqlLines : honest (exec_sql sqlLines).
Proof.
  unfold exec_sql. induction sqlLines as [|c l IH]; cbn; [apply honest_ret|].
  apply honest_bind; [apply honest_wrap; by apply honest_call|done].
Qed.

(** A migration is applied entirely, together with the record that it was,
    or not at all: after a failed [sqlMigration] the tables and the shared state
    are as before, so that the next start runs it again; after a successful one
    both the stored and the shared state name the next migration. *)
Theorem sqlMigration_atomic sqlLines w r w' :
  sqlMigration sqlLines w = (r, w') ->
  let next := with_next (mw_state w) (NextMigration (mw_state w) + 1) in
  match r with
  | Err _ => mw_state w' = mw_state w /\ mw_tables w' = mw_tables w
  | Ok _ => mw_state w' = next /\
      mw_tables w' = set_metastate (mw_tables w)
        (<[MigrationMetastateKey := EncodeMigrationState next]> (t_metastate (mw_tables w)))
  end.
Proof.
  unfold sqlMigration, advance. destruct (TxWithRetry _ _ _ _) as [[r1 t1] fs1] eqn:E.
  eapply (TxWithRetry_ind _ _ (λ x _, x = mw_tables w)) in E; [|clear E|by intros|by intros|done].
  2: { apply honest_bind; [apply honest_exec_sql|]. intros _.
       apply honest_wrap, honest_SetMetastate. }
  intros [= <- <-]. destruct r1 as [[]|e]; cbn; [|by destruct E].
  split; [done|]. destruct E as (t0 & fs0 & fs2 & -> & Hf). unfold tx_bind in Hf.
  destruct (exec_sql sqlLines (mw_tables w) fs0) as [[[[]|e] t2] fs3] eqn:Es; [|done].
  assert (t2 = mw_tables w) as ->.
  { clear Hf. revert fs0 Es. unfold exec_sql. induction sqlLines as [|c l IH]; intros fs0; cbn.
    - by intros [= <- <-].
    - unfold tx_bind, tx_wrap, db_call. destruct fs0 as [|[e|] fs0]; cbn; [apply IH|done|apply IH]. }
  unfold tx_wrap, SetMetastate, tx_wrap in Hf.
  by destruct fs3 as [|[e|] fs3]; cbn in Hf; simplify_eq.
Qed.
End PostgresMigrations.

(** ** Concrete runs *)

Section Witnesses.
(** A codec that keeps the counter. *)
#[local] Instance migration_codec : Codec MigrationState := {|
  encodeJSON st := FormatUint (NextMigration st);
  DecodeJSON s := n ← ParseUint s; Ok (with_next emptyMigrationState n) |}.
Definition start_world : mworld := {|
  mw_state := with_next emptyMigrationState 17; mw_tables := empty_tables; mw_faults := [] |}.
Definition sample_tasks : list (Task mworld) :=
  available_tasks (tx_ret tt) (with_next emptyMigrationState 17).
Definition sample_migration : Migration mworld := (MakeMigration sample_tasks).2.

(** From version 17 on, all migrations run. *)
Lemma runMigrations_channel_witness :
  let x := runMigrations sample_migration start_world in
  (closes x.2 <= 1)%nat /\ (St_Err x.1.1 = None -> closes x.2 = 1%nat) /\
  forall pre post, x.2 = pre ++ Close :: post ->
    forall t, t ∈ sample_tasks -> DBUnavailable t = true -> Run (MigrationID t) (Ok tt) ∈ pre.
Proof.
  intros x.
  apply (runMigrations_channel sample_tasks sample_migration start_world x.1.1 x.1.2 x.2).
  - reflexivity.
  - apply surjective_pairing_3.
Defined.

(** From version 0, the first migration is refused. *)
Lemma run_tasks_order_witness :
  let tasks := available_tasks (tx_ret tt) emptyMigrationState in
  let x := run_tasks 19 tasks true start_world in
  (St_Err x.1.1 = None /\ ran x.2 = map (λ t, (MigrationID t, Ok tt)) tasks) \/
  exists done failed rest e, tasks = done ++ failed :: rest /\
    ran x.2 = map (λ t, (MigrationID t, Ok tt)) done ++ [(MigrationID failed, Err e)] /\
    x.1.1 = update (Some (ErrWrap taskErrorFmt e)) taskErrorFmt false true (MigrationID failed).
Proof.
  intros tasks x. apply (run_tasks_order 19 tasks true start_world x.1.1 x.1.2 x.2).
  apply surjective_pairing_3.
Defined.

Lemma available_tasks_accepted_witness :
  exists m, MakeMigration sample_tasks = (Ok tt, m).
Proof.
  apply (available_tasks_accepted (tx_ret tt) (with_next emptyMigrationState 17)). discriminate.
Defined.

Lemma sqlMigration_atomic_witness :
  let next := with_next emptyMigrationState 18 in
  let w' := (sqlMigration ["cmd"] start_world).2 in
  mw_state w' = next /\
  mw_tables w' = set_metastate empty_tables
    (<[MigrationMetastateKey := EncodeMigrationState next]> ∅).
Proof.
  intros next w'. exact (sqlMigration_atomic ["cmd"] start_world (Ok tt) w' eq_refl).
Defined.
End Witnesses.
