(* ===== verification/Sql.v ===== *)
(** * SQL queries: texts, arguments, rows and pages

    What the read operations of [idb/postgres/postgres.go] share: the text of a
    statement with its placeholders, the arguments that pgx encodes, the rows that
    a query yields, tables in the order of a key, and the pages that a client gets
    by resuming after the last row it saw.  PostgreSQL itself is not part of the
    repository: what it computes from JSON text is the class [PgOps]. *)

From stdpp Require Import sorting.
From S2P Require Import Prelude GoStd Sdk Idb Util Encoding Db WriteTxn Writer Postgres.

(** ** Statements *)

(** The text of a statement with its placeholders [$n]. *)
Inductive piece := Lit (s : string) | Ph (n : nat).

Definition piece_text (p : piece) : string :=
  match p with Lit s => s | Ph n => "$" +:+ FormatUint (Z.of_nat n) end.
Definition sql_text (l : list piece) : string := foldr (λ p acc, piece_text p +:+ acc) "" l.

(** An argument, with the type that PostgreSQL infers for its placeholder. *)
Inductive arg :=
| A_bytea (b : string) | A_text (s : string) | A_timestamp (t : Z)
| A_smallint (v : Z) | A_integer (v : Z) | A_bigint (v : Z) | A_numeric (v : Z).

Definition arg_fits (a : arg) : bool :=
  match a with
  | A_smallint v => (0 <=? v) && (v <? 2 ^ 15)
  | A_integer v => (0 <=? v) && (v <? 2 ^ 31)
  | A_bigint v => fits_bigint v
  | _ => true
  end.

(** [strings.Join] on texts with placeholders. *)
Definition join (sep : string) (l : list (list piece)) : list piece :=
  match l with
  | [] => []
  | x :: l => x ++ concat (map (λ y, Lit sep :: y) l)
  end.


Definition placeholders (l : list piece) : list nat :=
  omap (λ p, match p with Ph n => Some n | Lit _ => None end) l.

Lemma placeholders_app l1 l2 : placeholders (l1 ++ l2) = placeholders l1 ++ placeholders l2.
Proof. apply omap_app. Qed.

Lemma placeholders_join sep l : placeholders (join sep l) = concat (map placeholders l).
Proof.
  destruct l as [|x l]; [done|]. cbn. rewrite placeholders_app. f_equal.
  induction l as [|y l IH]; [done|]. cbn. by rewrite placeholders_app, IH.
Qed.

(** ** PostgreSQL *)

Class PgOps := {
  (** [doc -> 'k1' ->> 'k2'] (also written [doc #>> '{k1,k2}']): the text at a
      path, [None] for NULL *)
  pg_text : string -> list string -> option string;
  (** [(doc -> 'k1' -> 'k2')::bigint]: the number at a path *)
  pg_number : string -> list string -> option Z;
  (** [doc -> 'k1' -> 'k2' IS NOT NULL] *)
  pg_has : string -> list string -> bool;
  (** the round of the header with the largest time below, or the smallest time
      above, the given one *)
  pg_round_before : gmap Z block_header_row -> Z -> option Z;
  pg_round_after : gmap Z block_header_row -> Z -> option Z }.

Definition limited {A} (n : option Z) (l : list A) : list A :=
  match n with Some n => take (Z.to_nat n) l | None => l end.

(** ** Rows *)

(** What [rows] yields: each row as scanned, and [rows.Err()].  A row that cannot
    be scanned ends the iteration. *)
Record Rows (A : Type) := { rs_rows : list (result A); rs_err : option error }.
Arguments rs_rows {A} _.
Arguments rs_err {A} _.

(** [rows.Next()] is a call for each row and one for the end; if it fails, it is false, and only
    [rows.Err()] tells this from the end.  [rows.Scan] is a second call for each row; if it fails,
    so does the iteration. *)
Fixpoint scan_rows {A} (l : list A) (fs : faults) : Rows A * faults :=
  match fs with
  | Some e :: fs => ({| rs_rows := []; rs_err := Some e |}, fs)
  | _ =>
      match l with
      | [] => ({| rs_rows := []; rs_err := None |}, tail fs)
      | x :: l =>
          match tail fs with
          | Some e :: fs => ({| rs_rows := [Err e]; rs_err := Some e |}, fs)
          | _ =>
              let '(rows, fs') := scan_rows l (tail (tail fs)) in
              ({| rs_rows := Ok x :: rs_rows rows; rs_err := rs_err rows |}, fs')
          end
      end
  end.

Lemma db_call_run {S A} (op : S -> result (A * S)) s a s' :
  op s = Ok (a, s') -> db_call op s [] = (Ok a, s', []).
Proof. unfold db_call. by intros ->. Qed.

Lemma scan_rows_no_faults {A} (l : list A) :
  scan_rows l [] = ({| rs_rows := map Ok l; rs_err := None |}, []).
Proof. induction l as [|x l IH]; cbn; [done|]. by rewrite IH. Qed.

(** ** Sorted lists *)

Lemma StronglySorted_snoc {A} (R : A -> A -> Prop) l x :
  StronglySorted R l -> Forall (λ y, R y x) l -> StronglySorted R (l ++ [x]).
Proof.
  induction 1 as [|y l Hl IH Hy]; cbn; intros Hx; [repeat constructor|].
  apply Forall_cons in Hx as [Hyx Hx]. constructor; [by apply IH|].
  apply Forall_app. by split; [|apply Forall_singleton].
Qed.

Lemma StronglySorted_reverse {A} (R : A -> A -> Prop) l :
  StronglySorted R l -> StronglySorted (flip R) (reverse l).
Proof.
  induction 1 as [|x l Hl IH Hx]; [constructor|]. rewrite reverse_cons.
  apply StronglySorted_snoc; [done|]. by apply Forall_reverse.
Qed.

Lemma StronglySorted_filter {A} (R : A -> A -> Prop) (P : A -> Prop)
    `{!forall x, Decision (P x)} l :
  StronglySorted R l -> StronglySorted R (filter P l).
Proof.
  induction 1 as [|x l Hl IH Hx]; [constructor|]. rewrite filter_cons.
  destruct (decide (P x)); [|done]. constructor; [done|].
  apply Forall_forall. intros y [_ Hy]%list_elem_of_filter. by eapply Forall_forall in Hy.
Qed.

(** Two selections one of which comes first are one after the other. *)
Lemma filter_split {A} (R : A -> A -> Prop) (P Q S : A -> Prop)
    `{!forall x, Decision (P x)} `{!forall x, Decision (Q x)} `{!forall x, Decision (S x)} l :
  StronglySorted R l ->
  (forall x, x ∈ l -> P x <-> Q x \/ S x) ->
  (forall x, Q x -> S x -> False) -> (forall x y, Q y -> S x -> R x y -> False) ->
  filter P l = filter Q l ++ filter S l.
Proof.
  intros Hs HP Hdis Hord. induction Hs as [|x l Hl IH Hx]; [done|].
  assert (filter P l = filter Q l ++ filter S l) as Hl'.
  { apply IH. intros y Hy. apply HP. by right. }
  assert (P x <-> Q x \/ S x) as Hpx by (apply HP; left).
  destruct (decide (Q x)) as [Hq|Hq].
  - rewrite (filter_cons_True P), (filter_cons_True Q), (filter_cons_False S), Hl' by naive_solver.
    done.
  - destruct (decide (S x)) as [Hsx|Hsx].
    + assert (filter Q l = []) as HQ.
      { apply filter_none.
        eapply Forall_impl; [exact Hx|]. cbn. eauto. }
      rewrite (filter_cons_True P), (filter_cons_False Q), (filter_cons_True S), Hl', HQ
        by naive_solver. done.
    + rewrite (filter_cons_False P), (filter_cons_False Q), (filter_cons_False S), Hl'
        by naive_solver. done.
Qed.

Lemma filter_ext_in {A} (P Q : A -> Prop)
    `{!forall x, Decision (P x)} `{!forall x, Decision (Q x)} (l : list A) :
  (forall x, x ∈ l -> P x <-> Q x) -> filter P l = filter Q l.
Proof.
  induction l as [|x l IH]; intros Hl; [done|]. rewrite !filter_cons.
  rewrite IH by (intros y ?; apply Hl; by right).
  destruct (Hl x); [by left|]. by destruct (decide (P x)), (decide (Q x)); naive_solver.
Qed.

Lemma forallb_flat_map {A B} (f : B -> bool) (g : A -> list B) l :
  Forall (λ x, forallb f (g x) = true) l -> forallb f (flat_map g l) = true.
Proof. induction 1 as [|x l Hx _ IH]; cbn; [done|]. by rewrite forallb_app, Hx. Qed.

Lemma head_sorted {A} (R : A -> A -> Prop) `{!Reflexive R} l x y :
  StronglySorted R l -> head l = Some x -> y ∈ l -> R x y.
Proof.
  destruct l as [|z l]; [done|]. intros [_ Hz]%StronglySorted_inv [= <-] [->|Hy]%elem_of_cons;
    [done|]. by eapply Forall_forall in Hy.
Qed.

Lemma last_sorted {A} (R : A -> A -> Prop) `{!Reflexive R} l x y :
  StronglySorted R l -> last l = Some x -> y ∈ l -> R y x.
Proof.
  intros Hs [l' ->]%last_Some Hy. apply StronglySorted_app in Hs as (Hs & _ & _).
  apply elem_of_app in Hy as [Hy|Hy]; [apply Hs; [done|by left]|].
  apply list_elem_of_singleton in Hy as ->. done.
Qed.

Lemma take_app_pages {A} n (l1 l2 : list A) :
  (length (take n l1) < n)%nat ->
  take n (l1 ++ l2) = take n l1 ++ take (n - length (take n l1)) l2.
Proof.
  intros Hn. rewrite length_take in *. assert (length l1 < n)%nat by lia.
  rewrite !take_app, !(take_ge l1) by lia. do 2 f_equal. lia.
Qed.

(** What resumes after a row of a sorted list is the rest of the list. *)
Lemma filter_after {A} (R : A -> A -> Prop) `{!RelDecision R} `{!StrictOrder R} pre x post :
  StronglySorted R (pre ++ x :: post) -> filter (R x) (pre ++ x :: post) = post.
Proof.
  intros Hs. apply StronglySorted_app in Hs as (Hpre & _ & [_ Hx]%StronglySorted_inv).
  rewrite filter_app, filter_cons_False by apply irreflexivity, _.
  rewrite (filter_none _ pre), (filter_Forall_id _ post); [done| done |].
  apply Forall_forall. intros y Hy Hxy.
  apply (irreflexivity R x). transitivity y; [done|]. apply Hpre; [done|left].
Qed.

(** ** Orders

    [ORDER BY] over the columns of a key: numbers by value, byte strings byte by
    byte, several columns one after the other. *)

Class SqlOrder (K : Type) := {
  sql_lt : K -> K -> Prop;
  sql_lt_dec :: RelDecision sql_lt;
  sql_lt_strict :: StrictOrder sql_lt;
  sql_lt_total x y : sql_lt x y \/ x = y \/ sql_lt y x }.

#[export] Instance bigint_order : SqlOrder Z.
Proof. refine {| sql_lt := Z.lt |}. intros x y. lia. Defined.

Fixpoint bytes_ltb (s t : string) : bool :=
  match s, t with
  | _, EmptyString => false
  | EmptyString, String _ _ => true
  | String a s, String b t =>
      (byteZ a <? byteZ b) || (byteZ a =? byteZ b) && bytes_ltb s t
  end.

#[export] Instance bytea_order : SqlOrder string.
Proof.
  refine {| sql_lt s t := bytes_ltb s t = true |}.
  - intros s t. apply _.
  - split.
    + intros s Hs. induction s as [|a s IH]; cbn in Hs; [done|].
      rewrite Z.ltb_irrefl, Z.eqb_refl in Hs. by apply IH.
    + intros s t u. revert t u. induction s as [|a s IH]; intros [|b t] [|c u]; cbn; try done.
      rewrite !orb_true_iff, !andb_true_iff, !Z.ltb_lt, !Z.eqb_eq.
      intros [?|[? ?]] [?|[? ?]]; [left; lia..|]. right. split; [lia|]. by eapply IH.
  - intros s. induction s as [|a s IH]; intros [|b t]; cbn; [by auto..|].
    rewrite !orb_true_iff, !andb_true_iff, !Z.ltb_lt, !Z.eqb_eq.
    destruct (Z.lt_trichotomy (byteZ a) (byteZ b)) as [?|[Heq|?]]; [by auto| |by auto].
    destruct (IH t) as [?|[->|?]]; [by auto| |by auto].
    right. left. f_equal. by apply byteZ_inj.
Defined.

#[export] Instance columns_order `{SqlOrder K1} `{SqlOrder K2} `{!EqDecision K1}
    : SqlOrder (K1 * K2).
Proof.
  refine {| sql_lt x y := sql_lt x.1 y.1 \/ x.1 = y.1 /\ sql_lt x.2 y.2 |}.
  - intros x y. apply _.
  - split.
    + intros x [Hx|[_ Hx]]; by apply (irreflexivity sql_lt) in Hx.
    + intros [x1 x2] [y1 y2] [z1 z2]; cbn. intros [?|[-> ?]] [?|[-> ?]]; [|by left..|].
      * left. by transitivity y1.
      * right. split; [done|]. by transitivity y2.
  - intros [x1 x2] [y1 y2]; cbn.
    destruct (sql_lt_total x1 y1) as [?|[->|?]], (sql_lt_total x2 y2) as [?|[->|?]]; auto 6.
Defined.

Section OrderBy.
Context {K V : Type} `{Countable K} `{!SqlOrder K}.

Definition rows_le (x y : K * V) : Prop := ~ sql_lt y.1 x.1.
Definition rows_lt (x y : K * V) : Prop := sql_lt x.1 y.1.
#[export] Instance rows_le_dec : RelDecision rows_le.
Proof. intros x y. unfold rows_le. apply _. Defined.
#[export] Instance rows_lt_dec : RelDecision rows_lt.
Proof. intros x y. unfold rows_lt. apply _. Defined.

(** The rows of a table in the order of its key. *)
Definition order_by (t : gmap K V) : list (K * V) := merge_sort rows_le (map_to_list t).

#[export] Instance rows_lt_strict : StrictOrder rows_lt.
Proof.
  split; [intros x; apply (irreflexivity sql_lt)|intros x y z; apply (transitivity (R := sql_lt))].
Qed.
#[local] Instance rows_le_total : Total rows_le.
Proof.
  intros x y. unfold rows_le. destruct (decide (sql_lt y.1 x.1)) as [Hyx|]; [right|by left].
  intros Hxy. apply (irreflexivity sql_lt x.1). by etrans.
Qed.
#[local] Instance rows_le_trans : Transitive rows_le.
Proof.
  intros x y z Hxy Hyz Hzx. destruct (sql_lt_total x.1 y.1) as [Hlt|[Heq|?]]; [|by rewrite Heq in *|done].
  apply Hyz. by etrans.
Qed.

Lemma elem_of_order_by t x : x ∈ order_by t <-> t !! x.1 = Some x.2.
Proof. unfold order_by. rewrite merge_sort_Permutation. destruct x. apply elem_of_map_to_list. Qed.

Lemma order_by_sorted t : StronglySorted rows_lt (order_by t).
Proof.
  assert (StronglySorted rows_le (order_by t)) as Hs by apply (StronglySorted_merge_sort _).
  assert (NoDup (order_by t).*1) as Hn.
  { unfold order_by. rewrite merge_sort_Permutation. apply NoDup_fst_map_to_list. }
  revert Hn. induction Hs as [|x l Hl IH Hx]; cbn; [constructor|].
  intros [Hxl Hn]%NoDup_cons. constructor; [by apply IH|].
  apply Forall_forall. intros y Hy. eapply Forall_forall in Hx; [|exact Hy].
  destruct (sql_lt_total x.1 y.1) as [?|[Heq|?]]; [done| |done].
  destruct Hxl. rewrite Heq. by apply list_elem_of_fmap_2.
Qed.
End OrderBy.

(** ** The frame of the read operations

    [db.BeginTx], [getMaxRoundAccounted], then the query: an error becomes the only
    row on the channel. *)

Section ReadOnly.
Context `{Codec ImportState} {A : Type} (error_row : error -> A).

Definition at_round (body : Tx database (list A)) : Tx database (list A * Z) :=
  round <-- tx_try (on_core getMaxRoundAccounted);
  match round with
  | Err e => tx_ret ([error_row e], 0)
  | Ok round => out <-- body; tx_ret (out, round)
  end.

Definition with_round (body : Tx database (list A)) : Tx database (list A * Z) :=
  begun <-- tx_try (db_call (λ d, Ok (tt, d)));
  match begun with
  | Err e => tx_ret ([error_row e], 0)
  | Ok _ => at_round body
  end.
End ReadOnly.

(** [SELECT header FROM block_header WHERE round = $1] *)
Definition select_header (round : Z) (d : database) : result (string * database) :=
  if fits_bigint round then
    match t_block_header (core d) !! round with
    | Some row => Ok (bhr_header row, d)
    | None => Err ErrNoRows
    end
  else Err errBigint.

(** ** Optional conditions *)

Section Optional.
Context {C : Type}.

Definition when_some {A} (o : option A) (f : A -> C) : list C :=
  match o with Some x => [f x] | None => [] end.
Definition unless_zero (v : Z) (c : C) : list C := if v =? 0 then [] else [c].
Definition unless_empty (s : string) (c : C) : list C :=
  if bool_decide (s = "") then [] else [c].
Definition unless (b : bool) (c : C) : list C := if b then [] else [c].

Lemma Forall_unless_zero (P : C -> Prop) v c :
  Forall P (unless_zero v c) <-> (v <> 0 -> P c).
Proof.
  unfold unless_zero. destruct (Z.eqb_spec v 0); rewrite ?Forall_singleton, ?Forall_nil;
    naive_solver.
Qed.
Lemma Forall_when_some {A} (P : C -> Prop) (o : option A) (f : A -> C) :
  Forall P (when_some o f) <-> forall x, o = Some x -> P (f x).
Proof. destruct o; cbn; rewrite ?Forall_singleton, ?Forall_nil; naive_solver. Qed.
Lemma Forall_unless_empty (P : C -> Prop) s c :
  Forall P (unless_empty s c) <-> (s <> "" -> P c).
Proof.
  unfold unless_empty. case_bool_decide; rewrite ?Forall_singleton, ?Forall_nil; naive_solver.
Qed.
Lemma Forall_unless (P : C -> Prop) b c : Forall P (unless b c) <-> (b = false -> P c).
Proof. destruct b; cbn; rewrite ?Forall_singleton, ?Forall_nil; naive_solver. Qed.
Lemma Forall_if (P : C -> Prop) (b : bool) c :
  Forall P (if b then [c] else []) <-> (b = true -> P c).
Proof. destruct b; rewrite ?Forall_singleton, ?Forall_nil; naive_solver. Qed.
End Optional.

(** ** [SELECT ... WHERE ... ORDER BY ... LIMIT] *)

(** A kind of condition on the rows of a table: its arguments, its text from
    placeholder [n] on, and the rows that satisfy it. *)
Class Condition (C Row : Type) := {
  c_args : C -> list arg;
  c_text : nat -> C -> list piece;
  c_holds : Row -> C -> bool }.

Section Select.
Context `{Condition C Row}.

Fixpoint conditions_text (n : nat) (l : list C) : list (list piece) :=
  match l with
  | [] => []
  | c :: l => c_text n c :: conditions_text (n + length (c_args c)) l
  end.

Definition where_text (n : nat) (conds : list C) : list piece :=
  match conds with
  | [] => []
  | _ => Lit " WHERE " :: join " AND " (conditions_text n conds)
  end.
Definition limit_text (limit : Z) : list piece :=
  if limit =? 0 then [] else [Lit (" LIMIT " +:+ FormatUint limit)].

Definition select_text (from order : string) (conds : list C) (limit : Z) : list piece :=
  Lit from :: where_text 1 conds ++ [Lit (" ORDER BY " +:+ order)] ++ limit_text limit.

Definition satisfies (conds : list C) (x : Row) : Prop := forallb (c_holds x) conds = true.
#[export] Instance satisfies_dec conds x : Decision (satisfies conds x).
Proof. unfold satisfies. apply _. Defined.

(** A limit beyond [bigint] is refused by the server. *)
Definition numericOutOfRange : error := ErrPg "22003".
Definition page_limit (limit : Z) : option Z := if limit =? 0 then None else Some limit.

(** The rows of a sorted table, selected and cut. *)
Definition select_rows (conds : list C) (limit : Z) (table : list Row) : result (list Row) :=
  if negb (forallb arg_fits (flat_map c_args conds)) then Err errBigint
  else if negb (fits_bigint limit) then Err numericOutOfRange
  else Ok (limited (page_limit limit) (filter (satisfies conds) table)).

Lemma satisfies_Forall conds x : satisfies conds x <-> Forall (λ c, c_holds x c = true) conds.
Proof. unfold satisfies. rewrite forallb_forall, List.Forall_forall. done. Qed.

Lemma satisfies_app l1 l2 x : satisfies (l1 ++ l2) x <-> satisfies l1 x /\ satisfies l2 x.
Proof. unfold satisfies. by rewrite forallb_app, andb_true_iff. Qed.
End Select.

(** [tx.Query], the rows and what the goroutine sends for them; [wrap_err] is what
    the caller does with the error of the query. *)
Definition query_rows {A R} (op : database -> result (list A)) (wrap_err : error -> error)
    (error_row : error -> R) (yield : Rows A -> list R) : Tx database (list R) := λ d fs,
  match db_call (λ d, l ← op d; Ok (l, d)) d fs with
  | (Err e, d, fs) => (Ok [error_row (wrap_err e)], d, fs)
  | (Ok l, d, fs) => let '(rows, fs) := scan_rows l fs in (Ok (yield rows), d, fs)
  end.

(** The loop [for rows.Next()]: a row that cannot be scanned ends it, and so does a
    row for which [f] says so (the flag); [rows.Err()] is nil while rows are left. *)
Section Yield.
Context {A R : Type} (f : A -> R * bool) (error_row : error -> R).

Definition rows_Err (err : option error) : list R :=
  match err with Some e => [error_row e] | None => [] end.

Fixpoint yield_loop (rows : list (result A)) (err : option error) : list R :=
  match rows with
  | [] => rows_Err err
  | Err e :: _ => error_row e :: rows_Err err
  | Ok x :: rows =>
      let '(r, stop) := f x in
      r :: (if stop : bool then [] else yield_loop rows err)
  end.

Definition yield_all (rows : Rows A) : list R := yield_loop (rs_rows rows) (rs_err rows).

Lemma yield_all_ok l :
  Forall (λ x, (f x).2 = false) l ->
  yield_all {| rs_rows := map Ok l; rs_err := None |} = map (λ x, (f x).1) l.
Proof.
  unfold yield_all. cbn. induction 1 as [|x l Hx _ IH]; cbn; [done|].
  destruct (f x) as [r stop]. cbn in *. by rewrite Hx, IH.
Qed.
End Yield.

Lemma query_rows_ok {A R} op wrap_err error_row (yield : Rows A -> list R) d l :
  op d = Ok l ->
  query_rows op wrap_err error_row yield d [] =
    (Ok (yield {| rs_rows := map Ok l; rs_err := None |}), d, []).
Proof.
  intros Hop. unfold query_rows. rewrite (db_call_run _ d l d) by (by rewrite Hop).
  by rewrite scan_rows_no_faults.
Qed.

(** ** Queries that resume after a key *)

Definition beyond_key {R K} `{SqlOrder K} (key : R -> K) (cursor : option K) (r : R) : Prop :=
  match cursor with None => True | Some k => sql_lt k (key r) end.
#[export] Instance beyond_key_dec {R K} `{SqlOrder K} (key : R -> K) cursor r :
  Decision (beyond_key key cursor r).
Proof. unfold beyond_key. destruct cursor; apply _. Defined.

(** What a read operation promises to a caller that goes through its results page
    by page.  [base] removes the cursor and the limit from a query, and [pg_all]
    are the rows of the query without them.  [fits] are the queries that the
    promise covers in a state, [ready] the states, with the round they are at. *)
Record Paged {S Q R K : Type} `{SqlOrder K} (run : Q -> Tx S (list R * Z))
    (ready : S -> Z -> Prop) (fits : S -> Q -> Prop)
    (key : R -> K) (cursor : Q -> option K) (limit : Q -> Z) (base : Q -> Q) := {
  pg_all : S -> Q -> list R;
  pg_base s q : pg_all s q = pg_all s (base q);
  pg_sorted s q round : ready s round -> fits s q ->
    StronglySorted (λ x y, sql_lt (key x) (key y)) (pg_all s q);
  pg_page s q round : ready s round -> fits s q ->
    run q s [] =
    (Ok (limited (page_limit (limit q)) (filter (beyond_key key (cursor q)) (pg_all s q)), round),
     s, []) }.
Arguments pg_all {S Q R K _ run ready fits key cursor limit base} _ _ _.
Arguments pg_base {S Q R K _ run ready fits key cursor limit base} _ _ _.
Arguments pg_sorted {S Q R K _ run ready fits key cursor limit base} _ _ _ _ _ _.
Arguments pg_page {S Q R K _ run ready fits key cursor limit base} _ _ _ _ _ _.

Lemma filter_map {A B} (f : A -> B) (P : B -> Prop) `{!forall x, Decision (P x)} l :
  filter P (map f l) = map f (filter (λ x, P (f x)) l).
Proof.
  induction l as [|x l IH]; [done|]. cbn [map]. rewrite !filter_cons.
  destruct (decide (P (f x))); cbn; by rewrite IH.
Qed.

Lemma limited_map {A B} (f : A -> B) n l : limited n (map f l) = map f (limited n l).
Proof. destruct n; [apply firstn_map|done]. Qed.

Lemma StronglySorted_map {A B} (R : B -> B -> Prop) (f : A -> B) l :
  StronglySorted (λ x y, R (f x) (f y)) l -> StronglySorted R (map f l).
Proof.
  induction 1 as [|x l Hl IH Hx]; cbn; constructor; [done|]. by apply Forall_map.
Qed.

Lemma StronglySorted_impl_in {A} (R R' : A -> A -> Prop) l :
  (forall x y, x ∈ l -> y ∈ l -> R x y -> R' x y) -> StronglySorted R l -> StronglySorted R' l.
Proof.
  intros Himp Hs. induction Hs as [|x l Hl IH Hx]; constructor.
  - apply IH. intros y z Hy Hz. apply Himp; by right.
  - apply Forall_forall. intros y Hy. eapply Forall_forall in Hx; [|done].
    apply Himp; [left|by right|done].
Qed.

(** ** Reads under failures

    [reads m]: [m] leaves the state as it is, and either fails or returns what it
    returns when no call fails. *)

Definition reads {S A} (m : Tx S A) : Prop := forall s fs, exists r fs',
  m s fs = (r, s, fs') /\ ((exists e, r = Err e) \/ m s [] = (r, s, [])).

Lemma reads_ret {S A} (a : A) : reads (S := S) (tx_ret a).
Proof. intros s fs. exists (Ok a), fs. split; [done|by right]. Qed.
Lemma reads_lift {S A} (r : result A) : reads (S := S) (lift r).
Proof. intros s fs. exists r, fs. split; [done|by right]. Qed.

Lemma reads_bind {S A B} (m : Tx S A) (k : A -> Tx S B) :
  reads m -> (forall a, reads (k a)) -> reads (tx_bind m k).
Proof.
  intros Hm Hk s fs. unfold tx_bind. destruct (Hm s fs) as (r & fs1 & -> & Hr).
  destruct r as [a|e]; [|eexists _, _; split; [done|left; eauto]].
  destruct Hr as [[e [=]]|Hr]. destruct (Hk a s fs1) as (r2 & fs2 & -> & Hr2).
  exists r2, fs2. split; [done|]. by rewrite Hr.
Qed.

Lemma reads_call {S A} (op : S -> result (A * S)) :
  (forall s a s', op s = Ok (a, s') -> s' = s) -> reads (db_call op).
Proof.
  intros Hop s fs. unfold db_call.
  destruct fs as [|[e|] fs]; cbn; [|eexists _, _; split; [done|left; eauto]|];
    (destruct (op s) as [[a s']|e] eqn:He;
      [apply Hop in He as ->; eexists _, _; split; [done|by right]
      |eexists _, _; split; [done|left; eauto]]).
Qed.

(** An error caught and returned under another name. *)
Lemma reads_rethrow {S A} (m : Tx S A) (k : result A -> Tx S A) :
  reads m -> (forall a s fs, k (Ok a) s fs = (Ok a, s, fs)) ->
  (forall e, exists e', forall s fs, k (Err e) s fs = (Err e', s, fs)) ->
  reads (tx_bind (tx_try m) k).
Proof.
  intros Hm Hok Herr s fs. unfold tx_bind, tx_try. destruct (Hm s fs) as (r & fs1 & -> & Hr).
  destruct r as [a|e].
  - destruct Hr as [[e [=]]|Hr]. rewrite Hr, !Hok. eexists _, _. split; [done|by right].
  - destruct (Herr e) as [e' He]. rewrite He. eexists _, _. split; [done|]. left. eauto.
Qed.

Section ReadsRound.
Context `{Codec ImportState}.

Lemma unless_not_initialized_reads {A} fmt (m : Tx tables A) :
  reads m -> reads (unless_not_initialized fmt m).
Proof.
  intros Hm. apply reads_rethrow; [done..|]. intros e. case_bool_decide; eauto.
Qed.

Lemma GetMetastate_reads key : reads (GetMetastate key).
Proof.
  apply reads_rethrow; [|done|intros e; case_bool_decide; eauto].
  apply reads_call. intros t a t'. destruct (t_metastate t !! key); [|done]. by intros [= _ <-].
Qed.

Lemma getMaxRoundAccounted_reads : reads getMaxRoundAccounted.
Proof.
  apply reads_bind; [|intros ?; apply reads_ret].
  apply reads_bind; [|intros ?; apply reads_ret].
  apply unless_not_initialized_reads, reads_bind; [|intros ?; apply reads_lift].
  apply unless_not_initialized_reads, GetMetastate_reads.
Qed.

(** [rows_complete err m]: what [m] sends contains an error, or is everything that
    it sends when no call fails. *)
Definition rows_complete {R} (err : R -> option error) (m : Tx database (list R)) : Prop :=
  forall d fs, exists out fs', m d fs = (Ok out, d, fs') /\
    ((exists r, r ∈ out /\ is_Some (err r)) \/ m d [] = (Ok out, d, [])).

Lemma error_row_error {R} (err : R -> option error) error_row e :
  (forall e, err (error_row e) = Some e) -> exists r, r ∈ [error_row e] /\ is_Some (err r).
Proof. intros Herr. exists (error_row e). split; [left|]. rewrite Herr. eauto. Qed.

Lemma at_round_complete {R} (err : R -> option error) error_row body d fs :
  (forall e, err (error_row e) = Some e) -> rows_complete err body ->
  exists out round fs', at_round error_row body d fs = (Ok (out, round), d, fs') /\
    ((exists r, r ∈ out /\ is_Some (err r)) \/
     at_round error_row body d [] = (Ok (out, round), d, [])).
Proof.
  intros Herr Hbody. unfold at_round, tx_bind, tx_try, on_core.
  assert ({| core := core d; txns := txns d |} = d) as Heta by (by destruct d).
  destruct (getMaxRoundAccounted_reads (core d) fs) as (r & fs1 & -> & Hr). rewrite Heta.
  destruct r as [round|e]; [|eexists _, _, _; split; [done|left; by apply error_row_error]].
  destruct Hr as [[e [=]]|Hr]. rewrite Hr, Heta.
  destruct (Hbody d fs1) as (out & fs2 & -> & Hout).
  eexists _, _, _. split; [done|]. destruct Hout as [|Hout]; [by left|]. right. by rewrite Hout.
Qed.

Lemma with_round_complete {R} (err : R -> option error) error_row body d fs :
  (forall e, err (error_row e) = Some e) -> rows_complete err body ->
  exists out round fs', with_round error_row body d fs = (Ok (out, round), d, fs') /\
    ((exists r, r ∈ out /\ is_Some (err r)) \/
     with_round error_row body d [] = (Ok (out, round), d, [])).
Proof.
  intros Herr Hbody.
  destruct fs as [|[e|] fs];
    [by apply (at_round_complete err error_row body d [])|
    |by apply (at_round_complete err error_row body d fs)].
  eexists _, _, _. split; [done|]. left. by apply error_row_error.
Qed.
End ReadsRound.

Lemma scan_rows_complete {A} (l : list A) fs :
  is_Some (rs_err (scan_rows l fs).1) \/
  (scan_rows l fs).1 = {| rs_rows := map Ok l; rs_err := None |}.
Proof.
  revert fs. induction l as [|x l IH]; intros fs; cbn.
  - destruct fs as [|[e|] fs]; cbn; eauto.
  - pose proof (IH (tail (tail fs))) as Hl.
    destruct fs as [|[e|] [|[e'|] fs]]; cbn in *; try (by left; eauto);
      (destruct (scan_rows l _) as [rows fs']; cbn in *; destruct Hl as [| ->]; [by left|by right]).
Qed.

Lemma yield_all_error {A R} (f : A -> R * bool) error_row (err : R -> option error) rows :
  (forall e, err (error_row e) = Some e) -> (forall x, (f x).2 = true -> is_Some (err (f x).1)) ->
  is_Some (rs_err rows) -> exists r, r ∈ yield_all f error_row rows /\ is_Some (err r).
Proof.
  intros Herr Hstop [e He]. unfold yield_all. rewrite He.
  induction (rs_rows rows) as [|[x|e'] l IH]; cbn.
  - exists (error_row e). split; [left|]. rewrite Herr. eauto.
  - destruct (f x) as [r [|]] eqn:Hf.
    + exists r. split; [left|]. pose proof (Hstop x) as Hx. rewrite Hf in Hx. by apply Hx.
    + destruct IH as (r' & Hr' & Herr'). exists r'. split; [by right|done].
  - exists (error_row e'). split; [left|]. rewrite Herr. eauto.
Qed.

(** A query whose rows, or one of whose rows, cannot be read never looks like one
    with fewer results. *)
Lemma query_rows_complete {A R} op wrap_err error_row (f : A -> R * bool) (err : R -> option error) :
  (forall e, err (error_row e) = Some e) -> (forall x, (f x).2 = true -> is_Some (err (f x).1)) ->
  rows_complete err (query_rows op wrap_err error_row (yield_all f error_row)).
Proof.
  intros Herr Hstop d fs. unfold query_rows.
  assert (reads (db_call (λ d, l ← op d; Ok (l, d)))) as Hreads.
  { apply reads_call. intros s l s'. destruct (op s); cbn; [|done]. by intros [= _ <-]. }
  destruct (Hreads d fs) as (r & fs1 & -> & Hr). destruct r as [l|e].
  - destruct Hr as [[e [=]]|Hr]. rewrite Hr, scan_rows_no_faults.
    destruct (scan_rows l fs1) as [rows fs2] eqn:Hs. eexists _, _. split; [done|].
    pose proof (scan_rows_complete l fs1) as Hc. rewrite Hs in Hc. cbn in Hc.
    destruct Hc as [He| ->]; [left; by apply yield_all_error|by right].
  - eexists _, _. split; [done|]. left. eexists. split; [left|]. rewrite Herr. eauto.
Qed.
