(* ===== verification/TxnQuery.v ===== *)
(** * Searching transactions: the transaction queries of [idb/postgres/postgres.go]

    [buildTransactionQuery] turns a filter into SQL text and arguments;
    [yieldTxns], [txnsWithNext] and [yieldTxnsThreadSimple] run it page by page.
    A query is a syntax tree, printed to the text that the source sends and
    executed on the tables; the theorems say which transactions a search finds,
    and that following the paging tokens visits them all, once each. *)

From stdpp Require Import sorting.
From S2P Require Import Prelude GoStd Sdk Idb Util Encoding Db WriteTxn Writer Postgres Sql.

(** One part of the [WHERE] clause.  [c_before] and [c_after] name the table
    whose round they constrain ([true]: [txn_participation]). *)
Inductive cond :=
| c_p_round_ge (v : Z) | c_p_round_le (v : Z)
| c_roles (l : list (string * string))
| c_round_ge (v : Z) | c_round_le (v : Z)
| c_before (join : bool) (t : Z) | c_after (join : bool) (t : Z)
| c_asset (v : Z) | c_aamt_gt (v : Z) | c_aamt_lt (v : Z)
| c_typeenum (v : Z) | c_txid (s : string) | c_group (s : string)
| c_round (v : Z) | c_intra (v : Z) | c_intra_lt (v : Z) | c_intra_gt (v : Z)
| c_sigtype (s : string) | c_note (s : string)
| c_amt_gt (v : Z) | c_amt_lt (v : Z) | c_eff_gt (v : Z) | c_eff_lt (v : Z)
| c_rekey | c_root | c_logs.

#[export] Instance cond_eq_dec : EqDecision cond.
Proof. solve_decision. Defined.

Definition cond_args (c : cond) : list arg :=
  match c with
  | c_p_round_ge v | c_p_round_le v | c_round_ge v | c_round_le v | c_asset v | c_round v
  | c_amt_gt v | c_amt_lt v | c_eff_gt v | c_eff_lt v => [A_bigint v]
  | c_roles l => map (λ kv, A_text kv.2) l
  | c_before _ t | c_after _ t => [A_timestamp t]
  | c_aamt_gt v | c_aamt_lt v => [A_numeric v]
  | c_typeenum v => [A_smallint v]
  | c_txid s | c_note s => [A_bytea s]
  | c_group s | c_sigtype s => [A_text s]
  | c_intra v | c_intra_lt v | c_intra_gt v => [A_integer v]
  | c_rekey | c_root | c_logs => []
  end.

(** The roles are OR-ed; each has a placeholder of its own. *)
Fixpoint role_parts (n : nat) (l : list (string * string)) : list (list piece) :=
  match l with
  | [] => []
  | (key, _) :: l => [Lit ("t.txn -> 'txn' ->> '" +:+ key +:+ "' = "); Ph n] :: role_parts (S n) l
  end.

Definition alias (join : bool) : string := if join then "p" else "t".

(** The text of a condition whose first placeholder is [$n]. *)
Definition cond_text (n : nat) (c : cond) : list piece :=
  match c with
  | c_p_round_ge _ => [Lit "p.round >= "; Ph n]
  | c_p_round_le _ => [Lit "p.round <= "; Ph n]
  | c_roles l => Lit "(" :: join " OR " (role_parts n l) ++ [Lit ")"]
  | c_round_ge _ => [Lit "t.round >= "; Ph n]
  | c_round_le _ => [Lit "t.round <= "; Ph n]
  | c_before j _ =>
      [Lit (alias j +:+ ".round <= (SELECT round from block_header WHERE realtime < "); Ph n;
       Lit " ORDER BY realtime DESC LIMIT 1)"]
  | c_after j _ =>
      [Lit (alias j +:+ ".round >= (SELECT round from block_header WHERE realtime > "); Ph n;
       Lit " ORDER BY realtime ASC LIMIT 1)"]
  | c_asset _ => [Lit "t.asset = "; Ph n]
  | c_aamt_gt _ => [Lit "(t.txn -> 'txn' -> 'aamt')::numeric(20) > "; Ph n]
  | c_aamt_lt _ => [Lit "(t.txn -> 'txn' -> 'aamt')::numeric(20) < "; Ph n]
  | c_typeenum _ => [Lit "t.typeenum = "; Ph n]
  | c_txid _ => [Lit "t.txid = "; Ph n]
  | c_group _ => [Lit "t.txn #>> '{txn,grp}'::text[] = "; Ph n;
                  Lit " AND t.txn #>> '{txn,grp}'::text[] IS NOT NULL"]
  | c_round _ => [Lit "t.round = "; Ph n]
  | c_intra _ => [Lit "t.intra = "; Ph n]
  | c_intra_lt _ => [Lit "t.intra < "; Ph n]
  | c_intra_gt _ => [Lit "t.intra > "; Ph n]
  | c_sigtype _ => [Lit "t.txn -> "; Ph n; Lit " IS NOT NULL"]
  | c_note s =>
      [Lit ("substring(decode(t.txn -> 'txn' ->> 'note', 'base64') from 1 for " +:+
            FormatUint (Z.of_nat (String.length s)) +:+ ") = "); Ph n]
  | c_amt_gt _ => [Lit "(t.txn -> 'txn' -> 'amt')::bigint > "; Ph n]
  | c_amt_lt _ => [Lit "(t.txn -> 'txn' -> 'amt')::bigint < "; Ph n]
  | c_eff_gt _ => [Lit "((t.txn -> 'ca')::bigint + (t.txn -> 'txn' -> 'amt')::bigint) > "; Ph n]
  | c_eff_lt _ => [Lit "((t.txn -> 'ca')::bigint + (t.txn -> 'txn' -> 'amt')::bigint) < "; Ph n]
  | c_rekey => [Lit "(t.txn -> 'txn' -> 'rekey') IS NOT NULL"]
  | c_root => [Lit "t.txid IS NOT NULL"]
  | c_logs => [Lit "t.txn -> 'dt' -> 'lg' IS NOT NULL"]
  end.

Fixpoint conds_text (n : nat) (l : list cond) : list (list piece) :=
  match l with
  | [] => []
  | c :: l => cond_text n c :: conds_text (n + length (cond_args c)) l
  end.

(** A query: the participant searched for, the other conditions, whether the root
    transaction is joined in, and the limit. *)
Record txn_query := {
  q_addr : option Address; q_conds : list cond; q_root : bool; q_limit : option Z }.

Definition query_args (q : txn_query) : list arg :=
  match q_addr q with Some a => [A_bytea a] | None => [] end ++ flat_map cond_args (q_conds q).

Definition where_parts (q : txn_query) : list (list piece) :=
  match q_addr q with
  | Some _ => [Lit "p.addr = "; Ph 1] :: conds_text 2 (q_conds q)
  | None => conds_text 1 (q_conds q)
  end.

Definition query_text (q : txn_query) : list piece :=
  let joinParticipation := bool_decide (is_Some (q_addr q)) in
  [Lit ("SELECT t.round, t.intra, t.txn, " +:+ (if q_root q then "root.txn" else "NULL") +:+
        ", t.extra, t.asset, h.realtime FROM txn t JOIN block_header h ON t.round = h.round")] ++
  (if joinParticipation then
     [Lit " JOIN txn_participation p ON t.round = p.round AND t.intra = p.intra"] else []) ++
  (if q_root q then
     [Lit (" LEFT OUTER JOIN txn root ON t.round = root.round AND " +:+
           "(t.extra->>'root-intra')::int = root.intra")] else []) ++
  match where_parts q with [] => [] | parts => Lit " WHERE " :: join " AND " parts end ++
  [Lit (if joinParticipation then " ORDER BY p.addr, p.round DESC, p.intra DESC"
        else " ORDER BY t.round, t.intra")] ++
  match q_limit q with Some n => [Lit (" LIMIT " +:+ FormatUint n)] | None => [] end.

(** ** [buildTransactionQuery] *)

Definition has_role (tf : TransactionFilter) (role : Z) : bool :=
  negb (Z.land (TF_AddressRole tf) role =? 0).

(** The JSON key of the address with each role. *)
Definition role_keys : list (Z * string) :=
  [(AddressRoleSender, "snd"); (AddressRoleReceiver, "rcv");
   (AddressRoleCloseRemainderTo, "close"); (AddressRoleAssetSender, "asnd");
   (AddressRoleAssetReceiver, "arcv"); (AddressRoleAssetCloseTo, "aclose");
   (AddressRoleFreeze, "fadd")].

Definition address_conds (tf : TransactionFilter) (address : Address) : list cond :=
  unless_zero (TF_MinRound tf) (c_p_round_ge (TF_MinRound tf)) ++
  unless_zero (TF_MaxRound tf) (c_p_round_le (TF_MaxRound tf)) ++
  unless_zero (TF_AddressRole tf)
    (c_roles (flat_map (λ '(role, key),
       if has_role tf role then [(key, Base64 address)] else []) role_keys)).

(** The asset or application searched for. *)
Definition creatable (tf : TransactionFilter) : result (option Z) :=
  match TF_AssetID tf, TF_ApplicationID tf with
  | Some assetid, Some appid =>
      if assetid =? appid then Ok (Some assetid)
      else Err (ErrMsg "cannot search both assetid and appid")
  | Some id, None | None, Some id => Ok (Some id)
  | None, None => Ok None
  end.

Definition txn_conds (tf : TransactionFilter) (creatableID : option Z) : list cond :=
  let joinParticipation := bool_decide (is_Some (TF_Address tf)) in
  match TF_Address tf with Some a => address_conds tf a | None => [] end ++
  unless_zero (TF_MinRound tf) (c_round_ge (TF_MinRound tf)) ++
  unless_zero (TF_MaxRound tf) (c_round_le (TF_MaxRound tf)) ++
  when_some (TF_BeforeTime tf) (c_before joinParticipation) ++
  when_some (TF_AfterTime tf) (c_after joinParticipation) ++
  when_some creatableID c_asset ++
  when_some (TF_AssetAmountGT tf) c_aamt_gt ++
  when_some (TF_AssetAmountLT tf) c_aamt_lt ++
  unless_zero (TF_TypeEnum tf) (c_typeenum (TF_TypeEnum tf)) ++
  unless_empty (TF_Txid tf) (c_txid (TF_Txid tf)) ++
  unless_empty (default "" (TF_GroupID tf)) (c_group (Base64 (default "" (TF_GroupID tf)))) ++
  when_some (TF_Round tf) c_round ++
  when_some (TF_Offset tf) c_intra ++
  when_some (TF_OffsetLT tf) c_intra_lt ++
  when_some (TF_OffsetGT tf) c_intra_gt ++
  unless_empty (TF_SigType tf) (c_sigtype (TF_SigType tf)) ++
  unless_empty (default "" (TF_NotePrefix tf)) (c_note (default "" (TF_NotePrefix tf))) ++
  when_some (TF_AlgosGT tf) c_amt_gt ++
  when_some (TF_AlgosLT tf) c_amt_lt ++
  when_some (TF_EffectiveAmountGT tf) c_eff_gt ++
  when_some (TF_EffectiveAmountLT tf) c_eff_lt ++
  (if default false (TF_RekeyTo tf) then [c_rekey] else []) ++
  (if TF_SkipInnerTransactions tf then [c_root] else []) ++
  (if TF_RequireApplicationLogs tf then [c_logs] else []).

Definition MaxTxGroupSize : Z := 16.

Definition query_limit (tf : TransactionFilter) : option Z :=
  if negb (bool_decide (default "" (TF_GroupID tf) = "")) &&
     ((TF_Limit tf =? 0) || (MaxTxGroupSize <=? TF_Limit tf)) then None
  else if TF_Limit tf =? 0 then None
  else Some (TF_Limit tf).

Definition filter_query (tf : TransactionFilter) : result txn_query :=
  creatableID ← creatable tf;
  Ok {| q_addr := TF_Address tf; q_conds := txn_conds tf creatableID;
        q_root := negb (TF_SkipInnerTransactionConversion tf) &&
                  negb (TF_SkipInnerTransactions tf);
        q_limit := query_limit tf |}.

Definition buildTransactionQuery (tf : TransactionFilter) : result (string * list arg) :=
  q ← filter_query tf;
  Ok (sql_text (query_text q), query_args q).

(** The filter with other round, offset and limit fields. *)
Definition set_page (tf : TransactionFilter) (minRound maxRound : Z)
    (round offsetLT offsetGT : option Z) (limit : Z) : TransactionFilter := {|
  TF_SkipOptimization := TF_SkipOptimization tf; TF_Address := TF_Address tf;
  TF_AddressRole := TF_AddressRole tf; TF_MinRound := minRound; TF_MaxRound := maxRound;
  TF_AfterTime := TF_AfterTime tf; TF_BeforeTime := TF_BeforeTime tf;
  TF_TypeEnum := TF_TypeEnum tf; TF_Txid := TF_Txid tf; TF_Round := round;
  TF_Offset := TF_Offset tf; TF_OffsetLT := offsetLT; TF_OffsetGT := offsetGT;
  TF_SigType := TF_SigType tf; TF_NotePrefix := TF_NotePrefix tf; TF_GroupID := TF_GroupID tf;
  TF_AlgosGT := TF_AlgosGT tf; TF_AlgosLT := TF_AlgosLT tf; TF_RekeyTo := TF_RekeyTo tf;
  TF_AssetID := TF_AssetID tf; TF_AssetAmountGT := TF_AssetAmountGT tf;
  TF_AssetAmountLT := TF_AssetAmountLT tf; TF_ApplicationID := TF_ApplicationID tf;
  TF_EffectiveAmountGT := TF_EffectiveAmountGT tf;
  TF_EffectiveAmountLT := TF_EffectiveAmountLT tf;
  TF_NextToken := TF_NextToken tf; TF_Limit := limit;
  TF_SkipInnerTransactionConversion := TF_SkipInnerTransactionConversion tf;
  TF_SkipInnerTransactions := TF_SkipInnerTransactions tf;
  TF_HeaderOnly := TF_HeaderOnly tf;
  TF_RequireApplicationLogs := TF_RequireApplicationLogs tf |}.

Definition set_SkipInnerTransactions (tf : TransactionFilter) (b : bool) : TransactionFilter := {|
  TF_SkipOptimization := TF_SkipOptimization tf; TF_Address := TF_Address tf;
  TF_AddressRole := TF_AddressRole tf; TF_MinRound := TF_MinRound tf;
  TF_MaxRound := TF_MaxRound tf; TF_AfterTime := TF_AfterTime tf;
  TF_BeforeTime := TF_BeforeTime tf; TF_TypeEnum := TF_TypeEnum tf; TF_Txid := TF_Txid tf;
  TF_Round := TF_Round tf; TF_Offset := TF_Offset tf; TF_OffsetLT := TF_OffsetLT tf;
  TF_OffsetGT := TF_OffsetGT tf; TF_SigType := TF_SigType tf;
  TF_NotePrefix := TF_NotePrefix tf; TF_GroupID := TF_GroupID tf;
  TF_AlgosGT := TF_AlgosGT tf; TF_AlgosLT := TF_AlgosLT tf; TF_RekeyTo := TF_RekeyTo tf;
  TF_AssetID := TF_AssetID tf; TF_AssetAmountGT := TF_AssetAmountGT tf;
  TF_AssetAmountLT := TF_AssetAmountLT tf; TF_ApplicationID := TF_ApplicationID tf;
  TF_EffectiveAmountGT := TF_EffectiveAmountGT tf;
  TF_EffectiveAmountLT := TF_EffectiveAmountLT tf;
  TF_NextToken := TF_NextToken tf; TF_Limit := TF_Limit tf;
  TF_SkipInnerTransactionConversion := TF_SkipInnerTransactionConversion tf;
  TF_SkipInnerTransactions := b; TF_HeaderOnly := TF_HeaderOnly tf;
  TF_RequireApplicationLogs := TF_RequireApplicationLogs tf |}.

(** [reflect.DeepEqual] with the filter that has only the listed fields. *)
Definition txnFilterOptimization (tf : TransactionFilter) : TransactionFilter :=
  let defaults := {|
    TF_SkipOptimization := false; TF_Address := None; TF_AddressRole := 0;
    TF_MinRound := TF_MinRound tf; TF_MaxRound := TF_MaxRound tf;
    TF_AfterTime := TF_AfterTime tf; TF_BeforeTime := TF_BeforeTime tf;
    TF_TypeEnum := 0; TF_Txid := ""; TF_Round := TF_Round tf; TF_Offset := TF_Offset tf;
    TF_OffsetLT := TF_OffsetLT tf; TF_OffsetGT := TF_OffsetGT tf; TF_SigType := "";
    TF_NotePrefix := None; TF_GroupID := None; TF_AlgosGT := None; TF_AlgosLT := None;
    TF_RekeyTo := None; TF_AssetID := None; TF_AssetAmountGT := None;
    TF_AssetAmountLT := None; TF_ApplicationID := None; TF_EffectiveAmountGT := None;
    TF_EffectiveAmountLT := None; TF_NextToken := TF_NextToken tf; TF_Limit := TF_Limit tf;
    TF_SkipInnerTransactionConversion := false; TF_SkipInnerTransactions := false;
    TF_HeaderOnly := false; TF_RequireApplicationLogs := false |} in
  if bool_decide (tf = defaults) then set_SkipInnerTransactions tf true else tf.

(** ** Executing a query

    What PostgreSQL computes from JSON text and from the table of headers is not
    part of the repository. *)

(** A row of the result, as scanned. *)
Record raw_txn := {
  rt_round : Z; rt_intra : Z; rt_txn : string; rt_roottxn : option string; rt_extra : string;
  rt_asset : Z; rt_realtime : Z }.

(** The order of the primary key. *)
Definition key_le (k1 k2 : Z * Z * txn_row) : Prop :=
  k1.1.1 < k2.1.1 \/ k1.1.1 = k2.1.1 /\ k1.1.2 <= k2.1.2.
#[export] Instance key_le_dec : RelDecision key_le.
Proof. intros k1 k2. unfold key_le. apply _. Defined.

Definition syntaxError : error := ErrPg "42601".

Section Execution.
Context `{PgOps}.

(** Whether a condition is true of a row; a comparison with NULL is not. *)
Definition holds (d : database) (k : Z * Z) (row : txn_row) (c : cond) : bool :=
  let num path P := match pg_number (txr_txn row) path with Some x => P x | None => false end in
  let headers := t_block_header (core d) in
  match c with
  | c_p_round_ge v | c_round_ge v => v <=? k.1
  | c_p_round_le v | c_round_le v => k.1 <=? v
  | c_roles l => existsb (λ '(key, v),
      bool_decide (pg_text (txr_txn row) ["txn"; key] = Some v)) l
  | c_before _ t => match pg_round_before headers t with Some r => k.1 <=? r | None => false end
  | c_after _ t => match pg_round_after headers t with Some r => r <=? k.1 | None => false end
  | c_asset v => txr_asset row =? v
  | c_aamt_gt v => num ["txn"; "aamt"] (λ x, v <? x)
  | c_aamt_lt v => num ["txn"; "aamt"] (λ x, x <? v)
  | c_typeenum v => txr_typeenum row =? v
  | c_txid s => bool_decide (txr_txid row = Some s)
  | c_group s => bool_decide (pg_text (txr_txn row) ["txn"; "grp"] = Some s)
  | c_round v => k.1 =? v
  | c_intra v => k.2 =? v
  | c_intra_lt v => k.2 <? v
  | c_intra_gt v => v <? k.2
  | c_sigtype s => pg_has (txr_txn row) [s]
  | c_note s =>
      match pg_text (txr_txn row) ["txn"; "note"] with
      | None => false
      | Some note =>
          match Base64.DecodeString Base64.std note with
          | Ok b => bool_decide (String.substring 0 (String.length s) b = s)
          | Err _ => false
          end
      end
  | c_amt_gt v => num ["txn"; "amt"] (λ x, v <? x)
  | c_amt_lt v => num ["txn"; "amt"] (λ x, x <? v)
  | c_eff_gt v => num ["ca"] (λ ca, num ["txn"; "amt"] (λ x, v <? ca + x))
  | c_eff_lt v => num ["ca"] (λ ca, num ["txn"; "amt"] (λ x, ca + x <? v))
  | c_rekey => pg_has (txr_txn row) ["txn"; "rekey"]
  | c_root => bool_decide (is_Some (txr_txid row))
  | c_logs => pg_has (txr_txn row) ["dt"; "lg"]
  end.

(** The row is joined with its block header, and with the participation of the
    address searched for. *)
Definition selected (q : txn_query) (d : database) (x : Z * Z * txn_row) : Prop :=
  is_Some (t_block_header (core d) !! x.1.1) /\
  match q_addr q with
  | Some a => (a, x.1.1, x.1.2) ∈ t_txn_participation (txns d)
  | None => True
  end /\
  Forall (λ c, holds d x.1 x.2 c = true) (q_conds q).
#[export] Instance selected_dec q d x : Decision (selected q d x).
Proof. unfold selected. destruct (q_addr q); apply _. Defined.

(** The transaction joined in as [root]. *)
Definition root_txn (d : database) (x : Z * Z * txn_row) : option string :=
  text ← pg_text (txr_extra x.2) ["root-intra"];
  match ParseUint text with
  | Ok i => txr_txn <$> t_txn (txns d) !! (x.1.1, i)
  | Err _ => None
  end.

Definition raw_row (q : txn_query) (d : database) (x : Z * Z * txn_row) : raw_txn := {|
  rt_round := x.1.1; rt_intra := x.1.2; rt_txn := txr_txn x.2;
  rt_roottxn := if q_root q then root_txn d x else None;
  rt_extra := txr_extra x.2; rt_asset := txr_asset x.2;
  rt_realtime := from_option bhr_realtime 0 (t_block_header (core d) !! x.1.1) |}.

(** The whole table in the order of the query: newest first for an address
    (whose rows of [txn_participation] all have the same [addr]). *)
Definition ordered (newestFirst : bool) (d : database) : list (Z * Z * txn_row) :=
  let rows := merge_sort key_le (map_to_list (t_txn (txns d))) in
  if newestFirst then reverse rows else rows.

Definition result_rows (q : txn_query) (d : database) : list raw_txn :=
  map (raw_row q d) (limited (q_limit q)
    (filter (selected q d) (ordered (bool_decide (is_Some (q_addr q))) d))).

Definition exec_query (q : txn_query) (d : database) : result (list raw_txn * database) :=
  if bool_decide (c_roles [] ∈ q_conds q) then Err syntaxError
  else if forallb arg_fits (query_args q) &&
          from_option fits_bigint true (q_limit q) then Ok (result_rows q d, d)
  else Err errBigint.

End Execution.

(** ** Running a query *)

Definition zeroSignedTxnWithAD : SignedTxnWithAD :=
  StxnAD {| ST_Sig := zeroSignature; ST_Msig := Zero.msig; ST_Lsig := Zero.lsig;
            ST_Txn := {| T_Type := ""; T_Header := Zero.header; T_Keyreg := Zero.keyreg;
                         T_Payment := Zero.payment; T_AssetConfig := Zero.assetConfig;
                         T_AssetTransfer := Zero.assetTransfer;
                         T_AssetFreeze := Zero.assetFreeze; T_Application := Zero.application;
                         T_StateProof := Zero.stateProof; T_Heartbeat := Zero.heartbeat |};
            ST_AuthAddr := zeroAddress |} Zero.applyData.
Definition zeroTxnExtra : TxnExtra :=
  {| AssetCloseAmount := 0; RootIntra := absentUint; RootTxid := "" |}.

(** [idb.TxnRow{Error: err}]. *)
Definition error_row (e : error) : TxnRow := {|
  TR_Round := 0; TR_RoundTime := None; TR_Intra := 0; TR_Txn := None; TR_RootTxn := None;
  TR_AssetID := 0; TR_Extra := zeroTxnExtra; TR_Error := Some e |}.

Section Search.
Context `{PgOps} `{Codec signedTxnWithAD} `{Codec TxnExtra} `{Codec ImportState}.
Local Open Scope tx_scope.

(** The value and the error of [DecodeSignedTxnWithAD]. *)
Definition decode_stxn (fmt data : string) : SignedTxnWithAD * option error :=
  match DecodeSignedTxnWithAD data with
  | Ok s => (s, None)
  | Err e => (zeroSignedTxnWithAD, Some (ErrWrap fmt e))
  end.

(** The row built from a scanned row, and the variable [err] after it. *)
Definition decode_row (r : raw_txn) : TxnRow * option error :=
  let '(txn, roottxn, err) :=
    match rt_roottxn r with
    | Some root => let '(s, err) := decode_stxn "error decoding roottxn, err: %w" root in
                   (None, Some s, err)
    | None => let '(s, err) := decode_stxn "error decoding txn, err: %w" (rt_txn r) in
              (Some s, None, err)
    end in
  let row extra rowerr := {|
    TR_Round := rt_round r; TR_RoundTime := Some (rt_realtime r); TR_Intra := rt_intra r;
    TR_Txn := txn; TR_RootTxn := roottxn; TR_AssetID := rt_asset r; TR_Extra := extra;
    TR_Error := rowerr |} in
  if bool_decide (rt_extra r = "") then (row zeroTxnExtra err, err)
  else match DecodeTxnExtra (rt_extra r) with
       | Ok extra => (row extra err, None)
       | Err e =>
           let err := Some (ErrMsg "%d:%d decode txn extra, %v") in
           (row zeroTxnExtra err, err)
       end.

(** The rows sent, their number without the last, faulty one, and [*errp]. *)
Fixpoint yield_rows (rows : list (result raw_txn)) (rows_err : option error)
    : list TxnRow * Z * option error :=
  match rows with
  | [] =>
      match rows_err with
      | Some e => ([error_row e], 0, Some e)
      | None => ([], 0, None)
      end
  | Err e :: _ => ([error_row e], 0, Some e)
  | Ok r :: rest =>
      let '(row, err) := decode_row r in
      match TR_Error row with
      | Some _ => ([row], 0, err)
      | None => let '(out, count, errp) := yield_rows rest rows_err in
                (row :: out, 1 + count, errp)
      end
  end.

Definition yieldTxnsThreadSimple (rows : Rows raw_txn) : list TxnRow * Z * option error :=
  yield_rows (rs_rows rows) (rs_err rows).

(** [buildTransactionQuery] and [tx.Query]; an error is the row sent for it. *)
Definition query_txns (tf : TransactionFilter) : Tx database (result (Rows raw_txn)) := λ d fs,
  match filter_query tf with
  | Err e => (Ok (Err (ErrMsg "txn query err %v")), d, fs)
  | Ok q =>
      match db_call (exec_query q) d fs with
      | (Err e, d, fs) => (Ok (Err (ErrMsg "txn query %#v err %v")), d, fs)
      | (Ok l, d, fs) => let '(rows, fs) := scan_rows l fs in (Ok (Ok rows), d, fs)
      end
  end.

(** [cancelled]: whether the context is done when it is tested. *)
Definition txnsWithNext (cancelled : bool) (tf : TransactionFilter) : Tx database (list TxnRow) :=
  match DecodeTxnRowNext (TF_NextToken tf) with
  | Err e => tx_ret [error_row e]
  | Ok (nextround, nextintra) =>
      let descending := bool_decide (is_Some (TF_Address tf)) in
      if descending && (nextround =? 0) && (nextintra =? 0) then tx_ret []
      else
      let tf1 := set_page tf (TF_MinRound tf) (TF_MaxRound tf) (Some nextround)
                   (if descending then Some nextintra else TF_OffsetLT tf)
                   (if descending then TF_OffsetGT tf else Some nextintra) (TF_Limit tf) in
      rows <-- query_txns tf1;
      match rows with
      | Err e => tx_ret [error_row e]
      | Ok rows =>
          let '(out, count, err) := yieldTxnsThreadSimple rows in
          match err with
          | Some _ => tx_ret out
          | None =>
              if (TF_Limit tf <=? count) || cancelled || (descending && (nextround <=? 1))
              then tx_ret out
              else
              let tf2 := set_page tf
                           (if descending then TF_MinRound tf else wrap64 (nextround + 1))
                           (if descending then nextround - 1 else TF_MaxRound tf)
                           (TF_Round tf) (TF_OffsetLT tf) (TF_OffsetGT tf)
                           (TF_Limit tf - count) in
              rows <-- query_txns tf2;
              match rows with
              | Err e => tx_ret (out ++ [error_row e])
              | Ok rows => tx_ret (out ++ (yieldTxnsThreadSimple rows).1.1)
              end
          end
      end
  end.

Definition yieldTxns (cancelled : bool) (tf : TransactionFilter) : Tx database (list TxnRow) :=
  if negb (bool_decide (TF_NextToken tf = "")) then txnsWithNext cancelled tf
  else
  rows <-- query_txns tf;
  match rows with
  | Err e => tx_ret [error_row e]
  | Ok rows => tx_ret (yieldTxnsThreadSimple rows).1.1
  end.

(** The rows sent on the channel, and the round of the database. *)
Definition Transactions (cancelled : bool) (tf : TransactionFilter)
    : Tx database (list TxnRow * Z) :=
  let tf := txnFilterOptimization tf in
  with_round error_row (yieldTxns cancelled tf).

End Search.

(** ** Placeholders *)

Lemma placeholders_roles n l :
  concat (map placeholders (role_parts n l)) = seq n (length l).
Proof.
  revert n. induction l as [|[key v] l IH]; intros n; [done|]. cbn. by rewrite IH.
Qed.

Lemma placeholders_cond n c : placeholders (cond_text n c) = seq n (length (cond_args c)).
Proof.
  destruct c; try done. cbn.
  rewrite placeholders_app, placeholders_join, placeholders_roles, length_map. apply app_nil_r.
Qed.

Lemma placeholders_conds n l :
  concat (map placeholders (conds_text n l)) = seq n (length (flat_map cond_args l)).
Proof.
  revert n. induction l as [|c l IH]; intros n; [done|].
  cbn [conds_text map concat flat_map]. by rewrite placeholders_cond, IH, length_app, seq_app.
Qed.

(** The placeholders of the SQL text are [$1], [$2], ..., in the order of the
    text, one for each argument: [partNumber] never gets out of step with
    [whereArgs], whatever parts the filter has. *)
Theorem buildTransactionQuery_placeholders tf q :
  filter_query tf = Ok q ->
  buildTransactionQuery tf = Ok (sql_text (query_text q), query_args q) /\
  placeholders (query_text q) = seq 1 (length (query_args q)).
Proof.
  intros Hq. unfold buildTransactionQuery. rewrite Hq. split; [done|].
  unfold query_text. rewrite !placeholders_app.
  set (w := match where_parts q with [] => [] | _ => _ end).
  assert (placeholders w = seq 1 (length (query_args q))) as ->.
  { subst w. transitivity (concat (map placeholders (where_parts q))).
    - destruct (where_parts q) as [|p ps] eqn:E; [done|].
      cbn [placeholders omap]. apply (placeholders_join " AND " (p :: ps)).
    - unfold where_parts, query_args.
      destruct (q_addr q); cbn [map concat]; by rewrite placeholders_conds. }
  destruct (bool_decide _), (q_root q), (q_limit q); cbn; by rewrite ?app_nil_r.
Qed.

(** ** No user data in the text *)

(** The filter with every byte string replaced, of which only the emptiness and
    for the note prefix the length are kept. *)
Definition blank_string (s : string) : string := if bool_decide (s = "") then "" else "x".
Definition blank (tf : TransactionFilter) : TransactionFilter := {|
  TF_SkipOptimization := TF_SkipOptimization tf; TF_Address := (λ _, "") <$> TF_Address tf;
  TF_AddressRole := TF_AddressRole tf; TF_MinRound := TF_MinRound tf;
  TF_MaxRound := TF_MaxRound tf; TF_AfterTime := TF_AfterTime tf;
  TF_BeforeTime := TF_BeforeTime tf; TF_TypeEnum := TF_TypeEnum tf;
  TF_Txid := blank_string (TF_Txid tf); TF_Round := TF_Round tf; TF_Offset := TF_Offset tf;
  TF_OffsetLT := TF_OffsetLT tf; TF_OffsetGT := TF_OffsetGT tf;
  TF_SigType := blank_string (TF_SigType tf);
  TF_NotePrefix := (λ s, zeros (String.length s)) <$> TF_NotePrefix tf;
  TF_GroupID := blank_string <$> TF_GroupID tf; TF_AlgosGT := TF_AlgosGT tf;
  TF_AlgosLT := TF_AlgosLT tf; TF_RekeyTo := TF_RekeyTo tf; TF_AssetID := TF_AssetID tf;
  TF_AssetAmountGT := TF_AssetAmountGT tf; TF_AssetAmountLT := TF_AssetAmountLT tf;
  TF_ApplicationID := TF_ApplicationID tf; TF_EffectiveAmountGT := TF_EffectiveAmountGT tf;
  TF_EffectiveAmountLT := TF_EffectiveAmountLT tf; TF_NextToken := TF_NextToken tf;
  TF_Limit := TF_Limit tf;
  TF_SkipInnerTransactionConversion := TF_SkipInnerTransactionConversion tf;
  TF_SkipInnerTransactions := TF_SkipInnerTransactions tf; TF_HeaderOnly := TF_HeaderOnly tf;
  TF_RequireApplicationLogs := TF_RequireApplicationLogs tf |}.

Definition blank_cond (c : cond) : cond :=
  match c with
  | c_roles l => c_roles (map (λ kv, (kv.1, "")) l)
  | c_txid _ => c_txid "" | c_group _ => c_group "" | c_sigtype _ => c_sigtype ""
  | c_note s => c_note (zeros (String.length s))
  | c => c
  end.

Lemma length_zeros n : String.length (zeros n) = n.
Proof. induction n; cbn; congruence. Qed.

Lemma blank_string_empty s : bool_decide (blank_string s = "") = bool_decide (s = "").
Proof. by destruct s. Qed.

Lemma zeros_empty s : bool_decide (zeros (String.length s) = "") = bool_decide (s = "").
Proof. by destruct s. Qed.

Lemma default_blank (o : option string) (f : string -> string) :
  f "" = "" -> default "" (f <$> o) = f (default "" o).
Proof. by destruct o. Qed.

Lemma map_unless_zero v c : map blank_cond (unless_zero v c) = unless_zero v (blank_cond c).
Proof. unfold unless_zero. by destruct (v =? 0). Qed.
Lemma map_unless_empty s c : map blank_cond (unless_empty s c) = unless_empty s (blank_cond c).
Proof. unfold unless_empty. by destruct (bool_decide _). Qed.

Lemma cond_text_blank n c : cond_text n (blank_cond c) = cond_text n c.
Proof.
  destruct c; cbn; try done; [|by rewrite length_zeros].
  do 3 f_equal. revert n. induction l as [|[key v] l IH]; intros n; cbn; [done|]. by rewrite IH.
Qed.

Lemma conds_text_blank n l : conds_text n (map blank_cond l) = conds_text n l.
Proof.
  revert n. induction l as [|c l IH]; intros n; cbn; [done|]. rewrite IH, cond_text_blank.
  do 3 f_equal. destruct c; cbn; rewrite ?length_map; done.
Qed.

Lemma blank_txn_conds tf id :
  map blank_cond (txn_conds (blank tf) id) = map blank_cond (txn_conds tf id).
Proof.
  unfold txn_conds. cbn [blank TF_Address TF_MinRound TF_MaxRound TF_BeforeTime TF_AfterTime
    TF_AssetAmountGT TF_AssetAmountLT TF_TypeEnum TF_Txid TF_GroupID TF_Round TF_Offset
    TF_OffsetLT TF_OffsetGT TF_SigType TF_NotePrefix TF_AlgosGT TF_AlgosLT TF_EffectiveAmountGT
    TF_EffectiveAmountLT TF_RekeyTo TF_SkipInnerTransactions TF_RequireApplicationLogs].
  rewrite !map_app, !map_unless_empty.
  rewrite (default_blank (TF_GroupID tf) blank_string), (default_blank (TF_NotePrefix tf)
    (λ s, zeros (String.length s))) by done.
  unfold unless_empty. rewrite !blank_string_empty, zeros_empty. cbn [blank_cond].
  rewrite length_zeros.
  destruct (TF_Address tf) as [a|]; [|done]. cbn [fmap option_fmap option_map].
  do 1 f_equal. unfold address_conds. cbn [blank TF_MinRound TF_MaxRound TF_AddressRole].
  rewrite !map_app, !map_unless_zero. do 3 f_equal. cbn [blank_cond]. f_equal.
  unfold has_role. cbn [blank TF_AddressRole role_keys flat_map].
  repeat match goal with |- context [if ?b then _ else _] => destruct b end; done.
Qed.

(** The SQL text does not depend on the bytes a client sends: it is that of
    the filter with the address, transaction id, signature type, note prefix and
    group blanked out, which reach the database only as arguments. *)
Theorem buildTransactionQuery_no_user_text tf :
  fst <$> buildTransactionQuery tf = fst <$> buildTransactionQuery (blank tf).
Proof.
  unfold buildTransactionQuery, filter_query.
  change (creatable (blank tf)) with (creatable tf).
  destruct (creatable tf) as [id|]; [|done]. cbn [mbind result_bind fmap result_fmap fst].
  do 2 f_equal. unfold query_text, where_parts, query_limit.
  cbn [q_addr q_conds q_root q_limit blank TF_Address TF_GroupID TF_Limit
       TF_SkipInnerTransactions TF_SkipInnerTransactionConversion].
  rewrite (default_blank (TF_GroupID tf) blank_string), blank_string_empty by done.
  rewrite <- !(conds_text_blank _ (txn_conds tf id)), <- (blank_txn_conds tf id),
    !conds_text_blank.
  by destruct (TF_Address tf).
Qed.

(** ** The order of the results *)

Definition key_lt (x y : Z * Z * txn_row) : Prop :=
  x.1.1 < y.1.1 \/ x.1.1 = y.1.1 /\ x.1.2 < y.1.2.

(** [before newestFirst x y]: [x] comes before [y] in the results. *)
Definition before (newestFirst : bool) (x y : Z * Z * txn_row) : Prop :=
  if newestFirst then key_lt y x else key_lt x y.

#[local] Instance key_le_total : Total key_le.
Proof. intros [[r1 i1] t1] [[r2 i2] t2]. unfold key_le. cbn. lia. Qed.
#[local] Instance key_le_trans : Transitive key_le.
Proof. intros [[r1 i1] t1] [[r2 i2] t2] [[r3 i3] t3]. unfold key_le. cbn. lia. Qed.

Lemma StronglySorted_strict l :
  StronglySorted key_le l -> NoDup l.*1 -> StronglySorted key_lt l.
Proof.
  induction 1 as [|x l Hl IH Hx]; [constructor|]. cbn. intros [Hnx Hn]%NoDup_cons.
  constructor; [by apply IH|]. apply Forall_forall. intros y Hy.
  pose proof (proj1 (Forall_forall _ _) Hx y Hy) as Hle.
  assert (x.1 <> y.1) as Hneq.
  { intros Heq. apply Hnx. rewrite Heq. by apply list_elem_of_fmap_2. }
  destruct x as [[r1 i1] t1], y as [[r2 i2] t2]. unfold key_le, key_lt in *. cbn in *.
  destruct (decide (i1 = i2)), (decide (r1 = r2)); subst; [done|lia..].
Qed.

Lemma ordered_sorted nf d : StronglySorted (before nf) (ordered nf d).
Proof.
  assert (StronglySorted key_lt (merge_sort key_le (map_to_list (t_txn (txns d))))) as Hs.
  { apply StronglySorted_strict; [apply (StronglySorted_merge_sort _)|].
    rewrite merge_sort_Permutation. apply NoDup_fst_map_to_list. }
  unfold ordered. destruct nf; [by apply StronglySorted_reverse in Hs|done].
Qed.

Lemma elem_of_ordered nf d x : x ∈ ordered nf d <-> t_txn (txns d) !! x.1 = Some x.2.
Proof.
  unfold ordered.
  assert (x ∈ merge_sort key_le (map_to_list (t_txn (txns d))) <->
          t_txn (txns d) !! x.1 = Some x.2) as <-.
  { rewrite merge_sort_Permutation. destruct x. apply elem_of_map_to_list. }
  destruct nf; [by rewrite elem_of_reverse|done].
Qed.

(** ** The fields that paging changes *)

(** The conditions on rounds and offsets. *)
Definition in_page (tf : TransactionFilter) (k : Z * Z) : Prop :=
  (TF_MinRound tf <> 0 -> TF_MinRound tf <= k.1) /\
  (TF_MaxRound tf <> 0 -> k.1 <= TF_MaxRound tf) /\
  (forall r, TF_Round tf = Some r -> k.1 = r) /\
  (forall i, TF_OffsetLT tf = Some i -> k.2 < i) /\
  (forall i, TF_OffsetGT tf = Some i -> i < k.2).

(** The conditions on anything else. *)
Definition rest_conds (tf : TransactionFilter) (creatableID : option Z) : list cond :=
  let joinParticipation := bool_decide (is_Some (TF_Address tf)) in
  match TF_Address tf with
  | Some a => unless_zero (TF_AddressRole tf)
      (c_roles (flat_map (λ '(role, key),
         if has_role tf role then [(key, Base64 a)] else []) role_keys))
  | None => []
  end ++
  when_some (TF_BeforeTime tf) (c_before joinParticipation) ++
  when_some (TF_AfterTime tf) (c_after joinParticipation) ++
  when_some creatableID c_asset ++
  when_some (TF_AssetAmountGT tf) c_aamt_gt ++
  when_some (TF_AssetAmountLT tf) c_aamt_lt ++
  unless_zero (TF_TypeEnum tf) (c_typeenum (TF_TypeEnum tf)) ++
  unless_empty (TF_Txid tf) (c_txid (TF_Txid tf)) ++
  unless_empty (default "" (TF_GroupID tf)) (c_group (Base64 (default "" (TF_GroupID tf)))) ++
  when_some (TF_Offset tf) c_intra ++
  unless_empty (TF_SigType tf) (c_sigtype (TF_SigType tf)) ++
  unless_empty (default "" (TF_NotePrefix tf)) (c_note (default "" (TF_NotePrefix tf))) ++
  when_some (TF_AlgosGT tf) c_amt_gt ++
  when_some (TF_AlgosLT tf) c_amt_lt ++
  when_some (TF_EffectiveAmountGT tf) c_eff_gt ++
  when_some (TF_EffectiveAmountLT tf) c_eff_lt ++
  (if default false (TF_RekeyTo tf) then [c_rekey] else []) ++
  (if TF_SkipInnerTransactions tf then [c_root] else []) ++
  (if TF_RequireApplicationLogs tf then [c_logs] else []).

Definition page_conds (tf : TransactionFilter) : list cond :=
  (if bool_decide (is_Some (TF_Address tf)) then
     unless_zero (TF_MinRound tf) (c_p_round_ge (TF_MinRound tf)) ++
     unless_zero (TF_MaxRound tf) (c_p_round_le (TF_MaxRound tf))
   else []) ++
  unless_zero (TF_MinRound tf) (c_round_ge (TF_MinRound tf)) ++
  unless_zero (TF_MaxRound tf) (c_round_le (TF_MaxRound tf)) ++
  when_some (TF_Round tf) c_round ++
  when_some (TF_OffsetLT tf) c_intra_lt ++
  when_some (TF_OffsetGT tf) c_intra_gt.

Lemma txn_conds_split (P : cond -> Prop) tf id :
  Forall P (txn_conds tf id) <-> Forall P (page_conds tf) /\ Forall P (rest_conds tf id).
Proof.
  unfold txn_conds, rest_conds, page_conds, address_conds.
  destruct (TF_Address tf) as [a|].
  - rewrite (bool_decide_eq_true_2 (is_Some (Some a))), !Forall_app by eauto. tauto.
  - rewrite (bool_decide_eq_false_2 (is_Some (@None Address))), !Forall_app, !Forall_nil
      by (by intros []). tauto.
Qed.

Lemma holds_page_conds `{PgOps} tf d k row :
  Forall (λ c, holds d k row c = true) (page_conds tf) <-> in_page tf k.
Proof.
  unfold page_conds, in_page.
  rewrite !Forall_app, !Forall_unless_zero, !Forall_when_some. cbn [holds].
  setoid_rewrite Z.leb_le. setoid_rewrite Z.eqb_eq. setoid_rewrite Z.ltb_lt.
  destruct (bool_decide _); rewrite ?Forall_app, ?Forall_nil, ?Forall_unless_zero;
    cbn [holds]; rewrite ?Z.leb_le; tauto.
Qed.

(** The arguments fit their columns. *)
Definition cond_ok (c : cond) : Prop := c <> c_roles [] /\ forallb arg_fits (cond_args c) = true.
Definition page_fits (tf : TransactionFilter) : Prop :=
  fits_bigint (TF_MinRound tf) = true /\ fits_bigint (TF_MaxRound tf) = true /\
  fits_bigint (TF_Limit tf) = true /\
  (forall r, TF_Round tf = Some r -> fits_bigint r = true) /\
  (forall i, TF_OffsetLT tf = Some i -> 0 <= i < 2 ^ 31) /\
  (forall i, TF_OffsetGT tf = Some i -> 0 <= i < 2 ^ 31).

Lemma page_fits_ok tf : page_fits tf -> Forall cond_ok (page_conds tf).
Proof.
  intros (H1 & H2 & _ & H3 & H4 & H5). unfold page_conds, cond_ok.
  rewrite !Forall_app, !Forall_unless_zero, !Forall_when_some. cbn [cond_args forallb arg_fits].
  rewrite H1, H2. split_and!; try done.
  - destruct (bool_decide _); [|done]. rewrite Forall_app, !Forall_unless_zero.
    cbn [cond_args forallb arg_fits]. by rewrite H1, H2.
  - intros r Hr. by rewrite (H3 r Hr).
  - intros i [? ?]%H4. rewrite (proj2 (Z.leb_le 0 i)), (proj2 (Z.ltb_lt i _)) by done. done.
  - intros i [? ?]%H5. rewrite (proj2 (Z.leb_le 0 i)), (proj2 (Z.ltb_lt i _)) by done. done.
Qed.

Lemma query_limit_cases tf : query_limit tf = None \/ query_limit tf = Some (TF_Limit tf).
Proof. unfold query_limit. destruct (_ && _); [by left|]. destruct (_ =? 0); auto. Qed.

Lemma exec_query_ok `{PgOps} tf id q d :
  creatable tf = Ok id -> filter_query tf = Ok q ->
  page_fits tf -> Forall cond_ok (rest_conds tf id) ->
  exec_query q d = Ok (result_rows q d, d).
Proof.
  intros Hid Hq Hp Hr. unfold filter_query in Hq. rewrite Hid in Hq. injection Hq as <-.
  assert (Forall cond_ok (txn_conds tf id)) as Hok.
  { apply txn_conds_split. split; [by apply page_fits_ok|done]. }
  unfold exec_query, query_args. cbn [q_conds q_addr q_limit].
  rewrite bool_decide_eq_false_2, forallb_app, forallb_flat_map; cbn.
  - replace (forallb arg_fits _) with true by (by destruct (TF_Address tf)). cbn.
    destruct (query_limit_cases tf) as [->| ->]; [done|].
    destruct Hp as (_ & _ & Hl & _). cbn. by rewrite Hl.
  - eapply Forall_impl; [exact Hok|]. by intros c [].
  - intros Hin. rewrite Forall_forall in Hok. by apply Hok in Hin as [].
Qed.

(** ** Pages *)

Section Pages.
Context `{PgOps} `{Codec signedTxnWithAD} `{Codec TxnExtra} `{Codec ImportState}.

(** The transactions a filter selects, without regard to its limit. *)
Definition wanted (tf : TransactionFilter) (id : option Z) (d : database)
    (x : Z * Z * txn_row) : Prop :=
  is_Some (t_block_header (core d) !! x.1.1) /\
  match TF_Address tf with
  | Some a => (a, x.1.1, x.1.2) ∈ t_txn_participation (txns d)
  | None => True
  end /\
  Forall (λ c, holds d x.1 x.2 c = true) (txn_conds tf id).
#[export] Instance wanted_dec tf id d x : Decision (wanted tf id d x).
Proof. unfold wanted. destruct (TF_Address tf); apply _. Defined.

Definition newest_first (tf : TransactionFilter) : bool := bool_decide (is_Some (TF_Address tf)).

Definition matching (tf : TransactionFilter) (id : option Z) (d : database)
    : list (Z * Z * txn_row) :=
  filter (wanted tf id d) (ordered (newest_first tf) d).

(** The row sent for a transaction. *)
Definition joins_root (tf : TransactionFilter) : bool :=
  negb (TF_SkipInnerTransactionConversion tf) && negb (TF_SkipInnerTransactions tf).
Definition row_of (tf : TransactionFilter) (d : database) (x : Z * Z * txn_row) : TxnRow :=
  (decode_row (raw_row {| q_addr := None; q_conds := []; q_root := joins_root tf;
                          q_limit := None |} d x)).1.

(** The rows selected by anything but their position can be decoded. *)
Definition decodable (tf : TransactionFilter) (id : option Z) (d : database) : Prop :=
  forall x, t_txn (txns d) !! x.1 = Some x.2 ->
    Forall (λ c, holds d x.1 x.2 c = true) (rest_conds tf id) -> TR_Error (row_of tf d x) = None.

Lemma yield_rows_decodable (f : raw_txn -> TxnRow) l :
  (forall r, r ∈ l -> f r = (decode_row r).1 /\ TR_Error (f r) = None) ->
  yield_rows (map Ok l) None = (map f l, Z.of_nat (length l), None).
Proof.
  induction l as [|r l IH]; intros Hf; [done|]. cbn [map yield_rows].
  destruct (Hf r) as [He Hn]; [by left|]. destruct (decode_row r) as [row err] eqn:E.
  cbn in He. subst row. rewrite Hn, IH by (intros r' ?; apply Hf; by right).
  cbn [length]. do 2 f_equal. lia.
Qed.

Lemma decodable_matching tf id d x :
  decodable tf id d -> x ∈ matching tf id d -> TR_Error (row_of tf d x) = None.
Proof.
  intros Hd [(_ & _ & Hw) Hx%elem_of_ordered]%list_elem_of_filter.
  apply (Hd x); [done|]. by apply txn_conds_split in Hw as [_ ?].
Qed.

(** A query that is executed returns the rows of the matching transactions. *)
Lemma query_txns_ok tf id d :
  creatable tf = Ok id -> page_fits tf -> Forall cond_ok (rest_conds tf id) ->
  (forall x, x ∈ matching tf id d -> TR_Error (row_of tf d x) = None) ->
  exists rows, query_txns tf d [] = (Ok (Ok rows), d, []) /\
    let l := limited (query_limit tf) (matching tf id d) in
    yieldTxnsThreadSimple rows = (map (row_of tf d) l, Z.of_nat (length l), None).
Proof.
  intros Hid Hp Hr Hd. unfold query_txns.
  destruct (filter_query tf) as [q|e] eqn:Hq; [|unfold filter_query in Hq; by rewrite Hid in Hq].
  rewrite (db_call_run _ _ _ _ (exec_query_ok tf id q d Hid Hq Hp Hr)), scan_rows_no_faults.
  eexists. split; [done|]. unfold filter_query in Hq. rewrite Hid in Hq. injection Hq as <-.
  unfold yieldTxnsThreadSimple, result_rows. cbn [rs_rows rs_err].
  rewrite (yield_rows_decodable (λ r, (decode_row r).1)).
  - rewrite length_map, map_map. done.
  - intros r [x [-> Hx]]%list_elem_of_fmap. split; [done|].
    apply (Hd x). cbn [q_limit] in Hx. unfold limited in Hx.
    destruct (query_limit tf) as [n|]; [|done].
    rewrite <- (take_drop (Z.to_nat n) (matching tf id d)). apply elem_of_app. by left.
Qed.

(** ** Resuming at a token *)

(** [beyond nf (R, I) x]: [x] comes after position [(R, I)]. *)
Definition beyond (nf : bool) (R I : Z) (x : Z * Z * txn_row) : Prop :=
  if nf then x.1.1 < R \/ x.1.1 = R /\ x.1.2 < I else R < x.1.1 \/ x.1.1 = R /\ I < x.1.2.
#[export] Instance beyond_dec nf R I x : Decision (beyond nf R I x).
Proof. unfold beyond. destruct nf; apply _. Defined.

(** A position that a result of the search can have. *)
Definition resumes (tf : TransactionFilter) (R I : Z) : Prop :=
  (forall r, TF_Round tf = Some r -> R = r) /\
  if newest_first tf then
    (TF_MaxRound tf <> 0 -> R <= TF_MaxRound tf) /\ (forall i, TF_OffsetLT tf = Some i -> I <= i)
  else TF_MinRound tf <= R /\ (forall i, TF_OffsetGT tf = Some i -> i <= I).

(** The filters of the two queries of [txnsWithNext]. *)
Definition rest_of_round (tf : TransactionFilter) (R I : Z) : TransactionFilter :=
  let descending := newest_first tf in
  set_page tf (TF_MinRound tf) (TF_MaxRound tf) (Some R)
    (if descending then Some I else TF_OffsetLT tf)
    (if descending then TF_OffsetGT tf else Some I) (TF_Limit tf).
Definition other_rounds (tf : TransactionFilter) (R count : Z) : TransactionFilter :=
  let descending := newest_first tf in
  set_page tf (if descending then TF_MinRound tf else wrap64 (R + 1))
    (if descending then R - 1 else TF_MaxRound tf)
    (TF_Round tf) (TF_OffsetLT tf) (TF_OffsetGT tf) (TF_Limit tf - count).

Lemma wanted_split tf id d x :
  wanted tf id d x <->
  is_Some (t_block_header (core d) !! x.1.1) /\
  match TF_Address tf with
  | Some a => (a, x.1.1, x.1.2) ∈ t_txn_participation (txns d)
  | None => True
  end /\
  in_page tf x.1 /\ Forall (λ c, holds d x.1 x.2 c = true) (rest_conds tf id).
Proof. unfold wanted. by rewrite txn_conds_split, holds_page_conds. Qed.

Lemma in_rest_of_round tf R I k :
  resumes tf R I -> in_page (rest_of_round tf R I) k <->
  in_page tf k /\ k.1 = R /\ if newest_first tf then k.2 < I else I < k.2.
Proof.
  unfold resumes, in_page, rest_of_round. cbn [set_page TF_MinRound TF_MaxRound TF_Round
    TF_OffsetLT TF_OffsetGT].
  intros [Hr Hn]. destruct (newest_first tf); destruct Hn as [Hm Ho]; split.
  - intros (? & ? & He & Hi & ?). specialize (He _ eq_refl). specialize (Hi _ eq_refl).
    split_and!; try done; [intros r <-%Hr; done|intros i Hi'%Ho; lia].
  - intros ((? & ? & He & Hi & ?) & ? & ?). split_and!; try done; by intros ? [= <-].
  - intros (? & ? & He & ? & Hi). specialize (He _ eq_refl). specialize (Hi _ eq_refl).
    split_and!; try done; [intros r <-%Hr; done|intros i Hi'%Ho; lia].
  - intros ((? & ? & He & ? & Hi) & ? & ?). split_and!; try done; by intros ? [= <-].
Qed.

Lemma in_other_rounds tf R I count k :
  resumes tf R I -> 0 <= R < 2 ^ 64 - 1 -> (newest_first tf = true -> 1 < R) ->
  in_page (other_rounds tf R count) k <->
  in_page tf k /\ if newest_first tf then k.1 < R else R < k.1.
Proof.
  unfold resumes, in_page, other_rounds. cbn [set_page TF_MinRound TF_MaxRound TF_Round
    TF_OffsetLT TF_OffsetGT].
  intros [Hr Hn] HR Hgt. destruct (newest_first tf); destruct Hn as [Hm Ho].
  - specialize (Hgt eq_refl). split; intros; destruct_and!; split_and!; try done; lia.
  - rewrite wrap64_small by (unfold is_u64; lia).
    split; intros; destruct_and!; split_and!; try done; lia.
Qed.

(** The two queries of [txnsWithNext] together cover what lies beyond the token. *)
Lemma matching_beyond tf id d R I count :
  resumes tf R I -> 0 <= R < 2 ^ 64 - 1 -> (newest_first tf = true -> 1 < R) ->
  filter (beyond (newest_first tf) R I) (matching tf id d) =
  matching (rest_of_round tf R I) id d ++ matching (other_rounds tf R count) id d.
Proof.
  intros Hres HR Hgt. unfold matching. rewrite list_filter_filter.
  change (newest_first (rest_of_round tf R I)) with (newest_first tf).
  change (newest_first (other_rounds tf R count)) with (newest_first tf).
  apply (filter_split (before (newest_first tf))); [apply ordered_sorted|..].
  - intros x _. rewrite !wanted_split, (in_rest_of_round tf R I), (in_other_rounds tf R I)
      by done. unfold beyond. destruct (newest_first tf); tauto.
  - intros x. rewrite !wanted_split, (in_rest_of_round tf R I), (in_other_rounds tf R I) by done.
    destruct (newest_first tf); intros; destruct_and!; lia.
  - intros x y. rewrite !wanted_split, (in_rest_of_round tf R I), (in_other_rounds tf R I)
      by done. unfold before, key_lt. destruct (newest_first tf); intros; destruct_and!; lia.
Qed.

(** Round 0 has no transactions. *)
Definition rounds_positive (d : database) : Prop :=
  forall k row, t_txn (txns d) !! k = Some row -> 1 <= k.1.

Lemma matching_beyond_oldest tf id d R I :
  resumes tf R I -> newest_first tf = true -> R <= 1 -> rounds_positive d ->
  filter (beyond (newest_first tf) R I) (matching tf id d) = matching (rest_of_round tf R I) id d.
Proof.
  intros Hres Hnf HR Hpos. unfold matching. rewrite list_filter_filter.
  change (newest_first (rest_of_round tf R I)) with (newest_first tf).
  apply filter_ext_in.
  intros x Hx%elem_of_ordered%Hpos. rewrite !wanted_split, (in_rest_of_round tf R I) by done.
  unfold beyond. rewrite Hnf. split; [intros [[?|[??]] ?]; [lia|tauto]|tauto].
Qed.

Lemma DecodeTxnRowNext_nonneg s R I : DecodeTxnRowNext s = Ok (R, I) -> 0 <= R /\ 0 <= I.
Proof.
  unfold DecodeTxnRowNext. destruct (wrap _ _); cbn [mbind result_bind]; [|done].
  case_bool_decide; [done|]. intros [= <- <-]. split; apply le_get_range.
Qed.

Lemma query_limit_plain tf :
  default "" (TF_GroupID tf) = "" -> 0 < TF_Limit tf -> query_limit tf = Some (TF_Limit tf).
Proof.
  intros Hg Hl. unfold query_limit. rewrite Hg. cbn. destruct (Z.eqb_spec (TF_Limit tf) 0); [lia|done].
Qed.

Lemma page_fits_rest tf R I :
  page_fits tf -> 0 <= R <= MaxInt64 -> 0 <= I < 2 ^ 31 -> page_fits (rest_of_round tf R I).
Proof.
  intros (? & ? & ? & ? & ? & ?) HR HI. unfold page_fits, rest_of_round. cbn.
  split_and!; try done.
  - intros r [= <-]. unfold fits_bigint. lia.
  - destruct (newest_first tf); [by intros ? [= <-]|done].
  - destruct (newest_first tf); [done|by intros ? [= <-]].
Qed.

Lemma page_fits_other tf R count :
  page_fits tf -> 0 <= R < MaxInt64 -> (newest_first tf = true -> 1 <= R) ->
  0 <= count <= TF_Limit tf ->
  page_fits (other_rounds tf R count).
Proof.
  intros (? & ? & Hl & ? & ? & ?) HR H1' Hc. unfold page_fits, other_rounds, MaxInt64 in *. cbn.
  split_and!; try done.
  - destruct (newest_first tf); [done|].
    rewrite wrap64_small by (unfold is_u64; lia). unfold fits_bigint, MaxInt64. lia.
  - destruct (newest_first tf); [|done]. specialize (H1' eq_refl).
    unfold fits_bigint, MaxInt64. lia.
  - unfold fits_bigint, MaxInt64 in *. lia.
Qed.

Lemma txnsWithNext_exact tf id d R I :
  DecodeTxnRowNext (TF_NextToken tf) = Ok (R, I) -> creatable tf = Ok id -> resumes tf R I ->
  page_fits tf -> Forall cond_ok (rest_conds tf id) -> R < MaxInt64 -> I < 2 ^ 31 ->
  0 < TF_Limit tf -> default "" (TF_GroupID tf) = "" -> decodable tf id d ->
  (newest_first tf = true -> rounds_positive d) ->
  txnsWithNext false tf d [] =
    (Ok (map (row_of tf d) (take (Z.to_nat (TF_Limit tf))
       (filter (beyond (newest_first tf) R I) (matching tf id d)))), d, []).
Proof.
  intros Htok Hid Hres Hp Hr HR HI Hl Hg Hd Hpos.
  destruct (DecodeTxnRowNext_nonneg _ _ _ Htok) as [HR0 HI0].
  unfold txnsWithNext. rewrite Htok. fold (newest_first tf).
  destruct (newest_first tf && (R =? 0) && (I =? 0)) eqn:Hend.
  { apply andb_prop in Hend as [[Hnf HRz]%andb_prop _]. apply Z.eqb_eq in HRz.
    rewrite Hnf, (filter_none (beyond true R I)); [by rewrite take_nil|].
    apply Forall_forall. intros x [_ Hx]%list_elem_of_filter [?|[??]];
      apply elem_of_ordered, Hpos in Hx; done || lia. }
  destruct (query_txns_ok (rest_of_round tf R I) id d) as (rows & Hq & Hy);
    [done|apply page_fits_rest; [done|lia|lia]|done|intros x; by apply decodable_matching|].
  unfold tx_bind. unfold rest_of_round in Hq at 1. rewrite Hq, Hy.
  rewrite (query_limit_plain (rest_of_round tf R I)) by done. cbn [limited].
  change (TF_Limit (rest_of_round tf R I)) with (TF_Limit tf).
  change (row_of (rest_of_round tf R I) d) with (row_of tf d).
  set (l1 := take _ (matching (rest_of_round tf R I) id d)).
  destruct (Z.leb_spec (TF_Limit tf) (Z.of_nat (length l1))) as [Hfull|Hfull]; cbn [orb].
  - do 4 f_equal. destruct (decide (newest_first tf = true /\ R <= 1)) as [[Hnf ?]|Hnf].
    + by rewrite (matching_beyond_oldest tf id d R I) by auto.
    + rewrite (matching_beyond tf id d R I 0); [|done|unfold MaxInt64 in *; lia|].
      * rewrite take_app_le; [done|]. subst l1. rewrite length_take in Hfull. lia.
      * intros ?. destruct (decide (1 < R)); [done|]. exfalso. apply Hnf. split; [done|lia].
  - destruct (newest_first tf && (R <=? 1)) eqn:Hold; cbn.
    + apply andb_prop in Hold as [Hnf ?%Z.leb_le].
      by rewrite (matching_beyond_oldest tf id d R I) by auto.
    + assert (newest_first tf = true -> 1 < R) as Hgt.
      { intros Hnf. rewrite Hnf in Hold. cbn in Hold. by apply Z.leb_gt in Hold. }
      destruct (query_txns_ok (other_rounds tf R (Z.of_nat (length l1))) id d)
        as (rows2 & Hq2 & Hy2);
        [done|apply page_fits_other; [done|lia|intros ?%Hgt; lia|lia]|done|
         intros x; by apply decodable_matching|].
      unfold other_rounds in Hq2 at 1. rewrite Hq2, Hy2. cbn [fst].
      rewrite (query_limit_plain (other_rounds tf R _)) by (done || cbn; lia). cbn [limited].
      change (TF_Limit (other_rounds tf R ?c)) with (TF_Limit tf - c).
      unfold tx_ret. do 3 f_equal.
      rewrite (matching_beyond tf id d R I (Z.of_nat (length l1))), take_app_pages, map_app
        by (done || (unfold MaxInt64 in *; lia) || (subst l1; lia)).
      fold l1. do 3 f_equal. cbn. lia.
Qed.

(** A search resumed with a token returns exactly the next page: the first
    [Limit] of the matching transactions that come after the token's position, in
    the order of the search, newest first for an address and oldest first
    otherwise, although it runs one query for the rest of the token's round and
    another one for the other rounds. *)
Theorem txnsWithNext_resumes tf id d R I :
  DecodeTxnRowNext (TF_NextToken tf) = Ok (R, I) -> creatable tf = Ok id -> resumes tf R I ->
  page_fits tf -> Forall cond_ok (rest_conds tf id) -> R < MaxInt64 -> I < 2 ^ 31 ->
  0 < TF_Limit tf -> default "" (TF_GroupID tf) = "" -> decodable tf id d ->
  (newest_first tf = true -> rounds_positive d) ->
  txnsWithNext false tf d [] =
    (Ok (map (row_of tf d) (take (Z.to_nat (TF_Limit tf))
       (filter (beyond (newest_first tf) R I) (matching tf id d)))), d, []).
Proof. apply txnsWithNext_exact. Qed.
End Pages.

(** ** A concrete table

    Round 5: a payment and an application call with three inner transactions;
    round 6: another payment.  The documents are names. *)

Module SampleSearch.
#[export] Instance stxn_codec : Codec signedTxnWithAD := {|
  encodeJSON _ := "leaf";
  DecodeJSON s :=
    if bool_decide (s = "bad") then Err (ErrMsg "json")
    else Ok (convertSignedTxnWithAD (H := ascii_print)
      (if bool_decide (s = "tree") then SampleBlock.nested
       else Sample.stxnad (SampleBlock.pay "alice" "bob") [])) |}.
#[export] Instance extra_codec : Codec TxnExtra := {|
  encodeJSON x := if OU_Present (RootIntra x) then "inner" else "{}";
  DecodeJSON s := Ok (if bool_decide (s = "inner")
    then {| AssetCloseAmount := 0; RootIntra := {| OU_Present := true; OU_Value := 1 |};
            RootTxid := "call" |}
    else zeroTxnExtra) |}.
#[export] Instance import_codec : Codec ImportState := {|
  encodeJSON st := FormatUint (NextRoundToAccount st);
  DecodeJSON s := n ← ParseUint s; Ok {| NextRoundToAccount := n |} |}.

(** Payments of 5 from ["alice"] to ["bob"]. *)
#[export] Instance pg : PgOps := {|
  pg_text doc path :=
    if bool_decide (path = ["root-intra"]) then
      if bool_decide (doc = "inner") then Some "1" else None
    else if bool_decide (path = ["txn"; "snd"]) then Some (Base64 "alice")
    else if bool_decide (path = ["txn"; "rcv"]) then Some (Base64 "bob")
    else None;
  pg_number doc path := if bool_decide (path = ["txn"; "amt"]) then Some 5 else None;
  pg_has doc path := bool_decide (path = ["sig"]);
  pg_round_before _ _ := Some 6; pg_round_after _ _ := Some 0 |}.

Definition root (doc : string) : txn_row := {|
  txr_typeenum := 1; txr_asset := 0; txr_txid := Some doc; txr_txn := doc; txr_extra := "{}" |}.
Definition inner : txn_row := {|
  txr_typeenum := 1; txr_asset := 0; txr_txid := None; txr_txn := "leaf"; txr_extra := "inner" |}.
Definition header : block_header_row := {|
  bhr_realtime := 100; bhr_rewardslevel := 0; bhr_header := "header" |}.

Definition d : database := {|
  core := {| t_block_header := {[ 5 := header; 6 := header ]}; t_account := ∅;
             t_account_asset := ∅; t_asset := ∅; t_app := ∅; t_account_app := ∅; t_app_box := ∅;
             t_metastate := {[ StateMetastateKey := "7" ]} |};
  txns := {| t_txn := list_to_map
               [((5, 0), root "leaf"); ((5, 1), root "tree"); ((5, 2), inner); ((5, 3), inner);
                ((5, 4), inner); ((6, 0), root "leaf")];
             t_txn_participation := {[ ("alice", 5, 0); ("alice", 5, 4); ("alice", 6, 0) ]} |} |}.

(** The filter without conditions. *)
Definition any (limit : Z) : TransactionFilter := {|
  TF_SkipOptimization := false; TF_Address := None; TF_AddressRole := 0; TF_MinRound := 0;
  TF_MaxRound := 0; TF_AfterTime := None; TF_BeforeTime := None; TF_TypeEnum := 0; TF_Txid := "";
  TF_Round := None; TF_Offset := None; TF_OffsetLT := None; TF_OffsetGT := None;
  TF_SigType := ""; TF_NotePrefix := None; TF_GroupID := None; TF_AlgosGT := None;
  TF_AlgosLT := None; TF_RekeyTo := None; TF_AssetID := None; TF_AssetAmountGT := None;
  TF_AssetAmountLT := None; TF_ApplicationID := None; TF_EffectiveAmountGT := None;
  TF_EffectiveAmountLT := None; TF_NextToken := ""; TF_Limit := limit;
  TF_SkipInnerTransactionConversion := false; TF_SkipInnerTransactions := false;
  TF_HeaderOnly := false; TF_RequireApplicationLogs := false |}.

(** The newest transactions that ["alice"] sent, from a position on. *)
Definition sent_by_alice (token : string) (limit : Z) : TransactionFilter := {|
  TF_SkipOptimization := false; TF_Address := Some "alice"; TF_AddressRole := 1;
  TF_MinRound := 0; TF_MaxRound := 0; TF_AfterTime := None; TF_BeforeTime := Some 200;
  TF_TypeEnum := 0; TF_Txid := ""; TF_Round := None; TF_Offset := None; TF_OffsetLT := None;
  TF_OffsetGT := None; TF_SigType := ""; TF_NotePrefix := None; TF_GroupID := None;
  TF_AlgosGT := Some 3; TF_AlgosLT := None; TF_RekeyTo := None; TF_AssetID := None;
  TF_AssetAmountGT := None; TF_AssetAmountLT := None; TF_ApplicationID := None;
  TF_EffectiveAmountGT := None; TF_EffectiveAmountLT := None; TF_NextToken := token;
  TF_Limit := limit; TF_SkipInnerTransactionConversion := false;
  TF_SkipInnerTransactions := false; TF_HeaderOnly := false;
  TF_RequireApplicationLogs := false |}.

Definition token (round intra : Z) : string :=
  Base64.EncodeToString Base64.url (string_of_bytes (le_put 8 round ++ le_put 4 intra)).

Lemma rows_of_d (f : Z * Z * txn_row -> bool) :
  forallb f (map_to_list (t_txn (txns d))) = true ->
  forall x, t_txn (txns d) !! x.1 = Some x.2 -> f x = true.
Proof.
  rewrite forallb_forall. intros Hf [k row] Hx. apply Hf, list_elem_of_In.
  by apply elem_of_map_to_list.
Qed.
End SampleSearch.

Section Witnesses.
Import SampleSearch.

Lemma buildTransactionQuery_placeholders_witness :
  let q := {| q_addr := Some "alice";
              q_conds := [c_roles [("snd", Base64 "alice")]; c_before true 200; c_amt_gt 3];
              q_root := true; q_limit := Some 2 |} in
  buildTransactionQuery (sent_by_alice "" 2) = Ok (sql_text (query_text q), query_args q) /\
  placeholders (query_text q) = [1; 2; 3; 4]%nat.
Proof.
  intros q. apply (buildTransactionQuery_placeholders (sent_by_alice "" 2) q). reflexivity.
Defined.

(** Resuming after round 6: the inner transaction, then the payment. *)
Lemma txnsWithNext_resumes_witness :
  let tf := sent_by_alice (token 6 0) 2 in
  let page := take 2 (filter (beyond true 6 0) (matching tf None d)) in
  page = [((5, 4), inner); ((5, 0), root "leaf")] /\
  txnsWithNext false tf d [] = (Ok (map (row_of tf d) page), d, []).
Proof.
  split; [vm_compute; reflexivity|].
  apply (txnsWithNext_resumes (sent_by_alice (token 6 0) 2) None d 6 0).
  - vm_compute. reflexivity.
  - reflexivity.
  - split; [discriminate|]. split; [done|discriminate].
  - repeat split; discriminate.
  - repeat constructor; discriminate.
  - reflexivity.
  - reflexivity.
  - reflexivity.
  - reflexivity.
  - intros x Hx _. apply (bool_decide_eq_true (TR_Error (row_of _ d x) = None)).
    revert x Hx. apply rows_of_d. vm_compute. reflexivity.
  - intros _ k row Hk. apply Z.leb_le. revert Hk.
    apply (rows_of_d (λ x, 1 <=? x.1.1)) with (x := (k, row)). vm_compute. reflexivity.
Defined.
End Witnesses.
