(* ===== verification/TxnPaging.v ===== *)
(** * Walking through the transactions page by page

    What a client sees that follows the paging tokens: every root transaction
    that matches, once, in order.  The argument needs that tokens skip exactly
    the inner transactions of the last row, which is a property of the rows that
    the importer writes. *)

From stdpp Require Import sorting.
From S2P Require Import Prelude GoStd Sdk Idb Util Encoding Db WriteTxn Writer Postgres Sql TxnQuery.

Definition set_NextToken (tf : TransactionFilter) (token : string) : TransactionFilter := {|
  TF_SkipOptimization := TF_SkipOptimization tf; TF_Address := TF_Address tf;
  TF_AddressRole := TF_AddressRole tf; TF_MinRound := TF_MinRound tf;
  TF_MaxRound := TF_MaxRound tf; TF_AfterTime := TF_AfterTime tf;
  TF_BeforeTime := TF_BeforeTime tf; TF_TypeEnum := TF_TypeEnum tf; TF_Txid := TF_Txid tf;
  TF_Round := TF_Round tf; TF_Offset := TF_Offset tf; TF_OffsetLT := TF_OffsetLT tf;
  TF_OffsetGT := TF_OffsetGT tf; TF_SigType := TF_SigType tf;
  TF_NotePrefix := TF_NotePrefix tf; TF_GroupID := TF_GroupID tf;
  TF_AlgosGT := TF_AlgosGT tf; TF_AlgosLT := TF_AlgosLT tf; TF_RekeyTo := TF_RekeyTo tf;
  TF_AssetID := TF_AssetID tf; TF_AssetAmountGT := TF_AssetAmountGT tf;
  TF_AssetAmountLT := TF_AssetAmountLT tf; TF_ApplicationID := TF_ApplicationID tf;
  TF_EffectiveAmountGT := TF_EffectiveAmountGT tf;
  TF_EffectiveAmountLT := TF_EffectiveAmountLT tf;
  TF_NextToken := token; TF_Limit := TF_Limit tf;
  TF_SkipInnerTransactionConversion := TF_SkipInnerTransactionConversion tf;
  TF_SkipInnerTransactions := TF_SkipInnerTransactions tf; TF_HeaderOnly := TF_HeaderOnly tf;
  TF_RequireApplicationLogs := TF_RequireApplicationLogs tf |}.

Section Paging.
Context `{PgOps} `{Codec signedTxnWithAD} `{Codec TxnExtra} `{Codec ImportState}.

(** A client: asks for a page, then for the one after its last row, until a page
    is empty. *)
Fixpoint follow (fuel : nat) (tf : TransactionFilter) (d : database) : list TxnRow :=
  match fuel with
  | O => []
  | S fuel =>
      match yieldTxns false tf d [] with
      | (Ok rows, _, _) =>
          match last rows with
          | None => []
          | Some r =>
              match TxnRow_Next r true with
              | Ok token => rows ++ follow fuel (set_NextToken tf token) d
              | Err _ => rows
              end
          end
      | (Err _, _, _) => []
      end
  end.

(** ** Rows as the importer writes them *)

(** The positions of the inner transactions of a root row hold no root row. *)
Definition root_well_placed (txn : gmap (Z * Z) txn_row) (k : Z * Z) (row : txn_row) : Prop :=
  exists s extra,
    DecodeSignedTxnWithAD (txr_txn row) = Ok s /\
    txr_extra row <> "" /\ DecodeTxnExtra (txr_extra row) = Ok extra /\
    OU_Present (RootIntra extra) = false /\
    0 < k.1 < MaxInt64 /\ 0 <= k.2 /\ k.2 + Z.of_nat (countInner s) < 2 ^ 31 /\
    forall j row', k.2 < j <= k.2 + Z.of_nat (countInner s) ->
      txn !! (k.1, j) = Some row' -> txr_txid row' = None.

Definition roots_well_placed (txn : gmap (Z * Z) txn_row) : Prop :=
  forall k row, txn !! k = Some row -> is_Some (txr_txid row) -> root_well_placed txn k row.

(** A search for root transactions, oldest first. *)
Definition root_search (tf : TransactionFilter) (id : option Z) : Prop :=
  TF_Address tf = None /\ TF_SkipInnerTransactions tf = true /\ creatable tf = Ok id /\
  page_fits tf /\ Forall cond_ok (rest_conds tf id) /\
  0 < TF_Limit tf /\ default "" (TF_GroupID tf) = "".

Lemma root_search_wanted tf id d x :
  root_search tf id -> wanted tf id d x -> is_Some (txr_txid x.2).
Proof.
  intros (_ & Hskip & _) Hw. apply wanted_split in Hw as (_ & _ & _ & Hr).
  rewrite Forall_forall in Hr. specialize (Hr c_root). cbn in Hr.
  apply (bool_decide_eq_true (is_Some (txr_txid x.2))), Hr. unfold rest_conds. rewrite Hskip, !elem_of_app.
  do 17 right. left. by left.
Qed.

Lemma row_of_root tf d k row s extra :
  TF_SkipInnerTransactions tf = true ->
  DecodeSignedTxnWithAD (txr_txn row) = Ok s -> txr_extra row <> "" ->
  DecodeTxnExtra (txr_extra row) = Ok extra ->
  row_of tf d (k, row) = {|
    TR_Round := k.1;
    TR_RoundTime := Some (from_option bhr_realtime 0 (t_block_header (core d) !! k.1));
    TR_Intra := k.2; TR_Txn := Some s; TR_RootTxn := None; TR_AssetID := txr_asset row;
    TR_Extra := extra; TR_Error := None |}.
Proof.
  intros Hskip Hs Hne He. unfold row_of, joins_root. rewrite Hskip, andb_false_r.
  unfold decode_row, raw_row. cbn. unfold decode_stxn. rewrite Hs.
  rewrite bool_decide_eq_false_2 by done. by rewrite He.
Qed.

(** The token of a root row skips exactly its inner transactions. *)
Lemma root_row_token tf d k row :
  TF_SkipInnerTransactions tf = true -> root_well_placed (t_txn (txns d)) k row ->
  exists token I, TxnRow_Next (row_of tf d (k, row)) true = Ok token /\
    DecodeTxnRowNext token = Ok (k.1, I) /\ k.2 <= I < 2 ^ 31 /\
    forall j row', k.2 < j <= I -> t_txn (txns d) !! (k.1, j) = Some row' -> txr_txid row' = None.
Proof.
  intros Hskip (s & extra & Hs & Hne & He & Hroot & Hr & Hk & Hn & Hsp).
  rewrite (row_of_root tf d k row s extra) by done.
  unfold TxnRow_Next, next_intra.
  cbn [TR_Extra TR_RootTxn TR_Txn TR_Intra TR_Round]. rewrite Hroot.
  cbn [mbind result_bind].
  unfold MaxInt64 in *.
  rewrite (wrap64_small k.2), (wrap64_small (_ + _)) by (unfold is_u64; lia).
  do 2 eexists. split; [done|].
  rewrite DecodeTxnRowNext_encode by (unfold is_u64; lia). split; [done|].
  unfold wrap32. rewrite Z.mod_small by lia. split; [lia|done].
Qed.

(** What lies beyond the token of a row of the result are the rows after it. *)
Lemma matching_after tf id d pre x post I :
  root_search tf id -> matching tf id d = pre ++ x :: post ->
  x.1.2 <= I ->
  (forall j row', x.1.2 < j <= I -> t_txn (txns d) !! (x.1.1, j) = Some row' ->
     txr_txid row' = None) ->
  filter (beyond (newest_first tf) x.1.1 I) (matching tf id d) = post.
Proof.
  intros Hrs Hm HI Hsp.
  assert (newest_first tf = false) as Hnf.
  { unfold newest_first. destruct Hrs as (-> & _). by apply bool_decide_eq_false_2; intros []. }
  assert (StronglySorted key_lt (pre ++ x :: post)) as Hsort.
  { rewrite <- Hm. pose proof (ordered_sorted (newest_first tf) d) as Ho. rewrite Hnf in Ho.
    unfold matching. rewrite Hnf. by apply StronglySorted_filter. }
  rewrite Hm, filter_app, filter_cons. apply StronglySorted_app in Hsort
    as (Hpre & _ & [_ Hpost]%StronglySorted_inv).
  rewrite (filter_none _ pre).
  2: { apply Forall_forall. intros y Hy. specialize (Hpre y x Hy ltac:(left)).
       rewrite Hnf. unfold beyond, key_lt in *. lia. }
  rewrite decide_False by (rewrite Hnf; unfold beyond; lia). cbn.
  apply filter_Forall_id, Forall_forall. intros y Hy.
  assert (y ∈ matching tf id d) as Hym by (rewrite Hm; set_solver).
  apply list_elem_of_filter in Hym as [Hw Hyd%elem_of_ordered].
  apply (root_search_wanted tf id) in Hw; [|done].
  rewrite Forall_forall in Hpost. specialize (Hpost y Hy). rewrite Hnf.
  unfold key_lt, beyond in *. destruct Hpost as [?|[Heq Hlt]]; [by left|]. right.
  split; [done|]. destruct (decide (I < y.1.2)); [done|]. exfalso.
  assert (txr_txid y.2 = None) as Hn; [|by rewrite Hn in Hw; destruct Hw].
  apply (Hsp y.1.2); [lia|]. rewrite Heq. by destruct y as [[]].
Qed.

Lemma root_search_decodable tf id d :
  root_search tf id -> roots_well_placed (t_txn (txns d)) -> decodable tf id d.
Proof.
  intros Hrs Hroots [k row] Hx Hr. destruct Hrs as (_ & Hskip & _). cbn in Hx, Hr.
  destruct (Hroots k row Hx) as (s & extra & Hs & Hne & He & _).
  - rewrite Forall_forall in Hr. specialize (Hr c_root).
    apply (bool_decide_eq_true (is_Some (txr_txid row))), Hr.
    unfold rest_conds. rewrite Hskip, !elem_of_app. do 17 right. left. by left.
  - by rewrite (row_of_root tf d k row s extra).
Qed.

Lemma first_page tf id d :
  root_search tf id -> roots_well_placed (t_txn (txns d)) -> TF_NextToken tf = "" ->
  yieldTxns false tf d [] =
    (Ok (map (row_of tf d) (take (Z.to_nat (TF_Limit tf)) (matching tf id d))), d, []).
Proof.
  intros Hrs Hroots Htok. pose proof (root_search_decodable tf id d Hrs Hroots) as Hd.
  destruct Hrs as (_ & _ & Hid & Hp & Hr & Hl & Hg).
  unfold yieldTxns. rewrite Htok, bool_decide_eq_true_2 by done. cbn [negb].
  destruct (query_txns_ok tf id d) as (rows & Hq & Hy);
    [done..|intros x; by apply decodable_matching|].
  unfold tx_bind. rewrite Hq, Hy, query_limit_plain by done. done.
Qed.

(** The page after a row of the result starts with the row after it. *)
Lemma next_page tf id d pre x post :
  root_search tf id -> roots_well_placed (t_txn (txns d)) ->
  matching tf id d = pre ++ x :: post ->
  exists token, TxnRow_Next (row_of tf d x) true = Ok token /\
    yieldTxns false (set_NextToken tf token) d [] =
      (Ok (map (row_of tf d) (take (Z.to_nat (TF_Limit tf)) post)), d, []).
Proof.
  intros Hrs Hroots Hm. assert (x ∈ matching tf id d) as Hx by (rewrite Hm; set_solver).
  apply list_elem_of_filter in Hx as [Hw Hx%elem_of_ordered].
  pose proof (Hroots _ _ Hx (root_search_wanted _ _ _ _ Hrs Hw)) as Hroot.
  assert (0 < x.1.1 < MaxInt64 /\ 0 <= x.1.2) as [Hr0 Hi0] by (destruct Hroot; naive_solver).
  destruct (root_row_token tf d x.1 x.2) as (token & I & Htok & Hdec & HI & Hsp);
    [by destruct Hrs as (_ & ? & _)|done|].
  replace (x.1, x.2) with x in Htok by (by destruct x). exists token. split; [done|].
  unfold yieldTxns. change (TF_NextToken (set_NextToken tf token)) with token.
  rewrite bool_decide_eq_false_2 by (by intros ->). cbn [negb].
  pose proof (root_search_decodable tf id d Hrs Hroots) as Hd.
  rewrite <- (matching_after tf id d pre x post I) by (done || lia).
  destruct Hrs as (Ha & _ & Hid & Hp & Hr & Hl & Hg).
  assert (newest_first tf = false) as Hnf.
  { unfold newest_first. rewrite Ha. by apply bool_decide_eq_false_2; intros []. }
  rewrite (txnsWithNext_exact (set_NextToken tf token) id d x.1.1 I); try done; [|lia..|].
  - unfold resumes. change (newest_first (set_NextToken tf token)) with (newest_first tf).
    rewrite Hnf. apply wanted_split in Hw as (_ & _ & (Hmin & _ & Hround & _ & Hgt) & _). cbn.
    split_and!; [auto|..].
    + destruct (decide (TF_MinRound tf = 0)); [lia|auto].
    + intros i Hi. specialize (Hgt i Hi). lia.
  - change (newest_first (set_NextToken tf token)) with (newest_first tf). by rewrite Hnf.
Qed.

Lemma follow_from fuel tf id d tf' pre post :
  root_search tf id -> roots_well_placed (t_txn (txns d)) ->
  matching tf id d = pre ++ post -> (length post < fuel)%nat ->
  (forall token, set_NextToken tf' token = set_NextToken tf token) ->
  yieldTxns false tf' d [] =
    (Ok (map (row_of tf d) (take (Z.to_nat (TF_Limit tf)) post)), d, []) ->
  follow fuel tf' d = map (row_of tf d) post.
Proof.
  intros Hrs Hroots. revert tf' pre post.
  induction fuel as [|fuel IH]; intros tf' pre post Hm Hf Htf Hy; [lia|].
  cbn [follow]. rewrite Hy. set (n := Z.to_nat (TF_Limit tf)).
  assert (0 < n)%nat as Hn by (destruct Hrs as (_ & _ & _ & _ & _ & ? & _); lia).
  destruct (last (take n post)) as [x|] eqn:Hlast.
  - apply last_Some in Hlast as [l Hl].
    assert (post = l ++ x :: drop n post) as Hpost.
    { rewrite <- (take_drop n post) at 1. rewrite Hl, <- app_assoc. done. }
    destruct (next_page tf id d (pre ++ l) x (drop n post)) as (token & Htok & Hnext);
      [done|done|by rewrite Hm, Hpost at 1; rewrite <- app_assoc|].
    rewrite Hl, map_app. cbn [map]. rewrite last_snoc, Htok, Htf.
    rewrite (IH (set_NextToken tf token) (pre ++ l ++ [x]) (drop n post)); [|..|done|done].
    + rewrite Hpost at 2. by rewrite <- app_assoc, map_app.
    + rewrite Hm, Hpost at 1. by rewrite <- !app_assoc.
    + rewrite Hpost in Hf. rewrite length_app in Hf. cbn in Hf. lia.
  - apply last_None in Hlast. destruct post as [|y post]; [by rewrite take_nil|].
    destruct n; [lia|done].
Qed.

(** A client that follows the paging tokens, a page of any size at a time, sees
    every root transaction that matches its search exactly once, in order, and
    then an empty page: each token skips exactly the inner transactions of the
    last row. *)
Theorem follow_sees_all tf id d fuel :
  root_search tf id -> roots_well_placed (t_txn (txns d)) -> TF_NextToken tf = "" ->
  (length (matching tf id d) < fuel)%nat ->
  follow fuel tf d = map (row_of tf d) (matching tf id d).
Proof.
  intros Hrs Hroots Htok Hf.
  apply (follow_from fuel tf id d tf [] (matching tf id d)); try done.
  by apply first_page.
Qed.
End Paging.

(** ** The importer writes such rows *)

Lemma payset_entries_after payset idx intra i k stib j :
  payset_entries payset idx intra !! i = Some (Root k stib) ->
  (i < j <= i + countInner (SIB_SignedTxnWithAD stib))%nat ->
  exists ri itxn, payset_entries payset idx intra !! j = Some (Inner stib ri itxn).
Proof.
  revert idx intra i j. induction payset as [|stib0 rest IH]; intros idx intra i j; [done|].
  cbn [payset_entries]. set (inner := preorder (SIB_SignedTxnWithAD stib0)).
  destruct i as [|i], j as [|j]; try lia.
  - cbn [lookup list_lookup]. intros [= -> ->] Hj.
    destruct (lookup_lt_is_Some_2 inner j) as [itxn Hi];
      [unfold inner; rewrite length_preorder; lia|].
    exists intra, itxn. apply (lookup_app_l_Some (map (Inner stib intra) inner)).
    by rewrite list_lookup_fmap, Hi.
  - intros [Hi|[Hlen Hi]]%lookup_app_Some Hj.
    + rewrite list_lookup_fmap in Hi. by destruct (inner !! i).
    + rewrite length_map in Hlen, Hi.
      destruct (IH _ _ _ (j - length inner)%nat Hi) as (ri & itxn & Hr); [lia|].
      exists ri, itxn. etrans; [apply (lookup_app_r _ _ j); rewrite length_map; lia|].
      by rewrite length_map.
Qed.

Lemma entries_after block i k stib j :
  entries block !! i = Some (Root k stib) ->
  (i < j <= i + countInner (SIB_SignedTxnWithAD stib))%nat ->
  exists ri itxn, entries block !! j = Some (Inner stib ri itxn).
Proof.
  unfold entries. intros [Hi|[_ Hi]]%lookup_app_Some Hj.
  - destruct (payset_entries_after _ _ _ _ _ _ _ Hi Hj) as (ri & itxn & He).
    exists ri, itxn. by apply lookup_app_l_Some.
  - destruct (0 <? _); [|done]. by apply list_lookup_singleton_Some in Hi as [_ ?].
Qed.

Section Invariant.
Context `{SdkOps} `{UnicodeOps} `{Codec signedTxnWithAD} `{Codec TxnExtra}.

(** The transaction stored in a row with an id. *)
Definition stored (block : Block) (s : SignedTxnWithAD) : Prop :=
  (exists stib st ad, stib ∈ B_Payset block /\
     DecodeSignedTxn (B_Header block) stib = Ok (st, ad) /\ s = StxnAD st ad) \/
  s = SignedTransactionFromBlockPayout block.

(** The transactions of the block and their extra data can be read back. *)
Definition root_extra (amount : Z) : TxnExtra :=
  {| AssetCloseAmount := amount; RootIntra := absentUint; RootTxid := "" |}.
Definition stored_extra (m : list SignedTxnInBlock) (extra : TxnExtra) : Prop :=
  (exists stib, stib ∈ m /\ extra = root_extra (AD_AssetClosingAmount (SIB_ApplyData stib))) \/
  extra = root_extra 0.
Definition readable (block : Block) (m : list SignedTxnInBlock) : Prop :=
  (forall s, stored block s -> DecodeSignedTxnWithAD (EncodeSignedTxnWithAD s) = Ok s) /\
  forall extra, stored_extra m extra ->
    EncodeTxnExtra extra <> "" /\ DecodeTxnExtra (EncodeTxnExtra extra) = Ok extra.

Lemma countInner_decoded bh stib st ad :
  DecodeSignedTxn bh stib = Ok (st, ad) ->
  (countInner (StxnAD st ad) <= countInner (SIB_SignedTxnWithAD stib))%nat.
Proof.
  unfold DecodeSignedTxn, SIB_ApplyData. destruct stib as [[st0 ad0] ? ?]. cbn.
  destruct (Consensus _) as [proto|]; [|done].
  destruct (CP_SupportSignedTxnInBlock proto); cbn; [|intros [= <- <-]; cbn; lia].
  repeat case_match; intros; simplify_eq; cbn; lia.
Qed.

(** The row of an inner transaction has no id. *)
Lemma inner_row_txid block itxn intra ri id r :
  inner_row block itxn intra ri id = Ok r -> txr_txid (tc_row r) = None.
Proof.
  unfold inner_row. destruct (GetTypeEnum _); [|done].
  destruct (transactionAssetID _ _ _); cbn; [|done]. by intros [= <-].
Qed.

Lemma payset_entries_elem payset idx intra k stib :
  Root k stib ∈ payset_entries payset idx intra -> stib ∈ payset.
Proof.
  revert idx intra. induction payset as [|stib0 rest IH]; intros idx intra; cbn;
    [by intros ?%elem_of_nil|].
  intros [[= -> ->]|[(x & ? & _)%list_elem_of_fmap|Hr]%elem_of_app]%elem_of_cons; [by left|done|].
  right. by eapply IH.
Qed.

Lemma root_entry_row block m n e r :
  entry_row block m (Z.of_nat n) e = Ok r -> is_Some (txr_txid (tc_row r)) ->
  entries block !! n = Some e ->
  exists s extra, txr_txn (tc_row r) = EncodeSignedTxnWithAD s /\
    txr_extra (tc_row r) = EncodeTxnExtra extra /\ stored_extra m extra /\
    stored block s /\
    forall j, (n < j <= n + countInner s)%nat ->
      exists root ri itxn, entries block !! j = Some (Inner root ri itxn).
Proof.
  destruct e as [k stib|root ri itxn|]; cbn [entry_row]; intros Hr Hid He.
  - unfold root_row in Hr.
    destruct (DecodeSignedTxn _ _) as [[st ad]|] eqn:Hst; cbn in Hr; [|done].
    destruct (GetTypeEnum _); cbn in Hr; [|done].
    destruct (transactionAssetID _ _ _); cbn in Hr; [|done].
    destruct (m !! k) as [stm|] eqn:Hm; cbn in Hr; [|done]. injection Hr as <-.
    exists (StxnAD st ad). eexists. split_and!; [done..| | |].
    + left. exists stm. split; [by eapply list_elem_of_lookup_2|done].
    + left. exists stib, st, ad. split_and!; [|done..].
      apply list_elem_of_lookup_2 in He. apply elem_of_app in He as [He|He].
      * by eapply payset_entries_elem.
      * destruct (0 <? _); set_solver.
    + intros j Hj. pose proof (countInner_decoded _ _ _ _ Hst).
      destruct (entries_after block n k stib j) as (? & ? & ?); [done|lia|eauto].
  - apply inner_row_txid in Hr. rewrite Hr in Hid. by destruct Hid.
  - unfold payout_row in Hr. destruct (GetTypeEnum _); [|done].
    assert (Hok : forall x y : txn_copy, Ok x = Ok y -> x = y) by congruence.
    apply Hok in Hr. rewrite <- Hr.
    exists (SignedTransactionFromBlockPayout block). eexists. split_and!; [done|done|by right|by right|].
    change (countInner (SignedTransactionFromBlockPayout block)) with 0%nat. intros j Hj. lia.
Qed.

(** A row of the table after the import is one of the block's or an old one. *)
Lemma imported_lookup block m rows t k row :
  numbered (entry_row block m) 0 (entries block) = Ok rows ->
  (forall i, t !! (B_Round block, i) = None) ->
  (tc_map rows ∪ t) !! k = Some row ->
  (exists n r e, rows !! n = Some r /\ k = (B_Round block, Z.of_nat n) /\ row = tc_row r /\
     entries block !! n = Some e /\ entry_row block m (Z.of_nat n) e = Ok r) \/
  k.1 <> B_Round block /\ t !! k = Some row.
Proof.
  intros En Ht [Hk|[_ Hk]]%lookup_union_Some_raw.
  - left. apply tc_map_lookup_inv in Hk as (r & (n & Hn)%list_elem_of_lookup_1 & <- & <-).
    destruct (numbered_lookup _ _ _ _ _ _ En Hn) as (e & He & Hr). cbn in Hr.
    destruct (entry_row_key _ _ _ _ _ Hr) as [H1' H2'].
    exists n, r, e. split_and!; try done. unfold tc_key. by rewrite H1', H2'.
  - right. split; [|done]. destruct k as [r i]. cbn. intros ->. by rewrite Ht in Hk.
Qed.

Lemma new_root_well_placed block m rows t n r e :
  numbered (entry_row block m) 0 (entries block) = Ok rows ->
  Forall (λ r, txn_copy_fits r = true) rows ->
  (forall i, t !! (B_Round block, i) = None) ->
  0 < B_Round block < MaxInt64 -> readable block m ->
  entries block !! n = Some e -> entry_row block m (Z.of_nat n) e = Ok r ->
  is_Some (txr_txid (tc_row r)) ->
  root_well_placed (tc_map rows ∪ t) (B_Round block, Z.of_nat n) (tc_row r).
Proof.
  intros En Hf Ht Hround [Hread Hextra] He Hr Hid.
  destruct (root_entry_row _ _ _ _ _ Hr Hid He) as (s & extra & Htxn & Hx & Hse & Hst & Hin).
  destruct (Hextra extra Hse) as [Hne Hdx]. exists s, extra. rewrite Htxn, Hx. cbn [fst snd].
  split_and!; try done; try lia; [by apply Hread|by destruct Hse as [(? & _ & ->)| ->]|..].
  - assert (is_Some (rows !! (n + countInner s)%nat)) as [r' Hr'].
    { apply lookup_lt_is_Some. rewrite (numbered_length _ _ _ _ En). apply lookup_lt_is_Some.
      destruct (countInner s) as [|c] eqn:Ec; [rewrite Nat.add_0_r; eauto|].
      destruct (Hin (n + S c)%nat) as (? & ? & ? & ?); [lia|eauto]. }
    destruct (numbered_lookup _ _ _ _ _ _ En Hr') as (e' & _ & [_ Hk]%entry_row_key).
    apply (Forall_lookup_1 _ _ _ _ Hf) in Hr'. unfold txn_copy_fits in Hr'. lia.
  - intros j row' Hj [(n' & r' & e' & _ & [= ->] & -> & He' & Hr')|[? _]]%(imported_lookup _ _ _ _ _ _ En Ht);
      [|done].
    destruct (Hin n') as (root & ri & itxn & Hi); [lia|].
    rewrite Hi in He'. injection He' as <-. by apply inner_row_txid in Hr'.
Qed.

(** The importer keeps the order that the paging tokens rely on: after the
    transactions of a block have been added, every root transaction in the table
    can be read back, and no other root transaction lies among the positions of
    its inner transactions. *)
Theorem AddTransactions_roots_well_placed block m b rows s :
  yieldTransactions block m None [] = (Ok tt, b, rows) ->
  Forall (λ r, txn_copy_fits r = true) rows ->
  (forall i, t_txn s !! (B_Round block, i) = None) ->
  0 < B_Round block < MaxInt64 -> readable block m -> roots_well_placed (t_txn s) ->
  exists s', AddTransactions block m s [] = (Ok tt, s', []) /\ roots_well_placed (t_txn s').
Proof.
  intros Hy Hf Hs Hround Hread Hroots.
  exists (set_txn s (tc_map rows ∪ t_txn s)). split; [by eapply AddTransactions_ok|].
  pose proof (yieldTransactions_numbered _ _ _ _ Hy) as En. cbn [set_txn t_txn].
  intros k row [(n & r & e & _ & -> & -> & He & Hr)|[Hk Hrow]]%(imported_lookup _ _ _ _ _ _ En Hs) Hid.
  - by eapply new_root_well_placed.
  - destruct (Hroots k row Hrow Hid) as (st & extra & H1' & H2' & H3' & H4' & H5' & H6' & H7' & Hsp).
    exists st, extra. split_and!; try done; try lia.
    intros j row' Hj [(n' & ? & ? & _ & [= ? ?] & _)|[_ Hj']]%(imported_lookup _ _ _ _ _ _ En Hs);
      [done|]. by apply (Hsp j).
Qed.
End Invariant.

(** ** Concrete runs *)

Section Witnesses.
Import SampleSearch.

Lemma leaf_well_placed k : 0 < k.1 < MaxInt64 -> 0 <= k.2 < 2 ^ 31 ->
  root_well_placed (t_txn (txns d)) k (root "leaf").
Proof.
  intros Hr Hk. do 2 eexists. split; [reflexivity|]. split; [discriminate|].
  split; [reflexivity|]. change (Z.of_nat (countInner _)) with 0.
  split_and!; try lia; done.
Qed.

Lemma tree_well_placed : root_well_placed (t_txn (txns d)) (5, 1) (root "tree").
Proof.
  do 2 eexists. split; [reflexivity|]. split; [discriminate|].
  split; [reflexivity|]. split_and!; try done.
  intros j row' Hj. change (Z.of_nat _) with 3 in Hj. cbn [fst snd] in *.
  assert (j = 2 \/ j = 3 \/ j = 4) as [-> | [-> | ->]] by lia; vm_compute; by intros [= <-].
Qed.

Lemma d_roots_well_placed : roots_well_placed (t_txn (txns d)).
Proof.
  intros k row Hk Hid. apply elem_of_map_to_list in Hk. unfold d in Hk. cbn [txns t_txn] in Hk.
  rewrite map_to_list_to_map in Hk
    by (refine (bool_decide_eq_true_1 _ _); vm_compute; reflexivity).
  rewrite !elem_of_cons, elem_of_nil in Hk.
  destruct Hk as [[= -> ->]|[[= -> ->]|[[= -> ->]|[[= -> ->]|[[= -> ->]|[[= -> ->]|[]]]]]]];
    try (by destruct Hid).
  - by apply leaf_well_placed.
  - apply tree_well_placed.
  - by apply leaf_well_placed.
Qed.

(** Three pages of one row each. *)
Lemma follow_sees_all_witness :
  let tf := set_SkipInnerTransactions (any 1) true in
  map fst (matching tf None d) = [(5, 0); (5, 1); (6, 0)] /\
  follow 4 tf d = map (row_of tf d) (matching tf None d).
Proof.
  intros tf. split; [vm_compute; reflexivity|].
  apply (follow_sees_all tf None d 4).
  - repeat split; try discriminate. repeat constructor; discriminate.
  - apply d_roots_well_placed.
  - reflexivity.
  - vm_compute. lia.
Defined.

(** A block with one application call with three inner transactions, and codecs
    that keep what is stored. *)
Definition call_block : Block := {|
  B_Header := B_Header (SampleBlock.block "proposer" 0);
  B_Payset := [Sample.inBlock SampleBlock.nested] |}.
Definition call_stxn : SignedTxnWithAD :=
  match DecodeSignedTxn (H := Sample.sdk) (B_Header call_block)
          (Sample.inBlock SampleBlock.nested) with
  | Ok (st, ad) => StxnAD st ad
  | Err _ => SampleBlock.nested
  end.
Definition payout_stxn : SignedTxnWithAD := SignedTransactionFromBlockPayout call_block.
Definition call_codec : Codec signedTxnWithAD := {|
  encodeJSON '(stxnAD s _ _) :=
    if bool_decide (T_Type (Txn s) = PaymentTx) then "payout" else "call";
  DecodeJSON t := Ok (convertSignedTxnWithAD (H := ascii_print)
                        (if bool_decide (t = "payout") then payout_stxn else call_stxn)) |}.
Definition amount_codec : Codec TxnExtra := {|
  encodeJSON x := FormatUint (AssetCloseAmount x);
  DecodeJSON t := n ← ParseUint t; Ok (root_extra n) |}.

Lemma AddTransactions_roots_well_placed_witness :
  exists s', AddTransactions (H := Sample.sdk) (H0 := ascii_print) (H1 := call_codec)
      (H2 := amount_codec) call_block (B_Payset call_block) SampleBlock.empty [] = (Ok tt, s', []) /\
    roots_well_placed (H0 := call_codec) (H1 := amount_codec) (t_txn s').
Proof.
  eapply (AddTransactions_roots_well_placed (H := Sample.sdk) (H0 := ascii_print)
    (H1 := call_codec) (H2 := amount_codec) call_block (B_Payset call_block) None).
  - vm_compute. reflexivity.
  - repeat constructor.
  - intros i. apply lookup_empty.
  - done.
  - split.
    + intros s [(stib & st & ad & Hin & Hdec & ->)| ->]; [|vm_compute; reflexivity].
      apply list_elem_of_singleton in Hin as ->. injection Hdec as <- <-.
      vm_compute. reflexivity.
    + intros extra [(stib & Hin & ->)| ->].
      * apply list_elem_of_singleton in Hin as ->. split; [discriminate|vm_compute; reflexivity].
      * split; [discriminate|vm_compute; reflexivity].
  - intros k row Hk. change (t_txn SampleBlock.empty) with (∅ : gmap (Z * Z) txn_row) in Hk.
    by rewrite lookup_empty in Hk.
Defined.
End Witnesses.
