(* ===== verification/TxnSearch.v ===== *)
(** * What a search for transactions finds

    [TxnQuery] executes the SQL of a search on JSON texts; here the conditions
    are read as conditions on the transactions themselves.  The link is
    [json_of]: the document of a transaction has the keys that the codec's field
    tags give, and a field with its zero value is left out. *)

From S2P Require Import Prelude GoStd Sdk Idb Util Encoding Db WriteTxn Writer Postgres Sql TxnQuery.

(** ** Documents *)

Section Documents.
Context `{PgOps}.

Definition nonzero (x : Z) : option Z := if x =? 0 then None else Some x.
Definition bytes_text (zero s : string) : option string :=
  if bool_decide (s = zero) then None else Some (Base64 s).

(** The address that the roles of [role_keys] name. *)
Definition role_address (key : string) (t : Transaction) : Address :=
  if bool_decide (key = "snd") then Sender t
  else if bool_decide (key = "rcv") then P_Receiver (T_Payment t)
  else if bool_decide (key = "close") then P_CloseRemainderTo (T_Payment t)
  else if bool_decide (key = "asnd") then X_AssetSender (T_AssetTransfer t)
  else if bool_decide (key = "arcv") then X_AssetReceiver (T_AssetTransfer t)
  else if bool_decide (key = "aclose") then X_AssetCloseTo (T_AssetTransfer t)
  else F_FreezeAccount (T_AssetFreeze t).

Definition has_signature (s : SignedTxn) (sigtype : string) : Prop :=
  (sigtype = Sig /\ ST_Sig s <> zeroSignature) \/ (sigtype = Msig /\ ST_Msig s <> Zero.msig) \/
  (sigtype = Lsig /\ ST_Lsig s <> Zero.lsig).

(** [json_of doc s]: [doc] is the document of [s]. *)
Record json_of (doc : string) (s : SignedTxnWithAD) : Prop := {
  doc_address : forall role key, (role, key) ∈ role_keys ->
    pg_text doc ["txn"; key] = bytes_text zeroAddress (role_address key (Txn s));
  doc_group : pg_text doc ["txn"; "grp"] = bytes_text zeroDigest (H_Group (T_Header (Txn s)));
  doc_note : pg_text doc ["txn"; "note"] = bytes_text "" (H_Note (T_Header (Txn s)));
  doc_aamt : pg_number doc ["txn"; "aamt"] = nonzero (X_AssetAmount (T_AssetTransfer (Txn s)));
  doc_amt : pg_number doc ["txn"; "amt"] = nonzero (P_Amount (T_Payment (Txn s)));
  doc_ca : pg_number doc ["ca"] = nonzero (AD_ClosingAmount (STAD_ApplyData s));
  doc_sig : forall sigtype, IsSigTypeValid sigtype = true ->
    pg_has doc [sigtype] = true <-> has_signature (STAD_SignedTxn s) sigtype;
  doc_rekey : pg_has doc ["txn"; "rekey"] = true <-> RekeyTo (Txn s) <> zeroAddress;
  doc_logs : pg_has doc ["dt"; "lg"] = true <->
    slice (ED_Logs (AD_EvalDelta (STAD_ApplyData s))) <> [] }.

(** ** The meaning of a filter *)

(** The transaction [s], stored in [row] at [k], is one that the filter asks for, as the comments of
    [idb.TransactionFilter] describe it; the effective amount is the amount and the closing amount. *)
Record matches (tf : TransactionFilter) (id : option Z) (d : database) (k : Z * Z)
    (row : txn_row) (s : SignedTxnWithAD) : Prop := {
  m_page : in_page tf k;
  m_role : forall a, TF_Address tf = Some a -> TF_AddressRole tf <> 0 ->
    exists role key, (role, key) ∈ role_keys /\
      has_role tf role = true /\ role_address key (Txn s) = a;
  m_before : forall t, TF_BeforeTime tf = Some t ->
    exists r, pg_round_before (t_block_header (core d)) t = Some r /\ k.1 <= r;
  m_after : forall t, TF_AfterTime tf = Some t ->
    exists r, pg_round_after (t_block_header (core d)) t = Some r /\ r <= k.1;
  m_asset : forall v, id = Some v -> txr_asset row = v;
  m_aamt_gt : forall v, TF_AssetAmountGT tf = Some v ->
    v < X_AssetAmount (T_AssetTransfer (Txn s));
  m_aamt_lt : forall v, TF_AssetAmountLT tf = Some v ->
    X_AssetAmount (T_AssetTransfer (Txn s)) < v;
  m_type : TF_TypeEnum tf <> 0 -> txr_typeenum row = TF_TypeEnum tf;
  m_txid : TF_Txid tf <> "" -> txr_txid row = Some (TF_Txid tf);
  m_group : forall g, TF_GroupID tf = Some g -> g <> "" ->
    H_Group (T_Header (Txn s)) = g;
  m_offset : forall i, TF_Offset tf = Some i -> k.2 = i;
  m_sig : TF_SigType tf <> "" -> has_signature (STAD_SignedTxn s) (TF_SigType tf);
  m_note : forall p, TF_NotePrefix tf = Some p -> p <> "" ->
    String.substring 0 (String.length p) (H_Note (T_Header (Txn s))) = p;
  m_amt_gt : forall v, TF_AlgosGT tf = Some v -> v < P_Amount (T_Payment (Txn s));
  m_amt_lt : forall v, TF_AlgosLT tf = Some v -> P_Amount (T_Payment (Txn s)) < v;
  m_eff_gt : forall v, TF_EffectiveAmountGT tf = Some v ->
    v < P_Amount (T_Payment (Txn s)) + AD_ClosingAmount (STAD_ApplyData s);
  m_eff_lt : forall v, TF_EffectiveAmountLT tf = Some v ->
    P_Amount (T_Payment (Txn s)) + AD_ClosingAmount (STAD_ApplyData s) < v;
  m_rekey : TF_RekeyTo tf = Some true -> RekeyTo (Txn s) <> zeroAddress;
  m_root : TF_SkipInnerTransactions tf = true -> is_Some (txr_txid row);
  m_logs : TF_RequireApplicationLogs tf = true ->
    slice (ED_Logs (AD_EvalDelta (STAD_ApplyData s))) <> [] }.

(** What the filter compares is in the document, which leaves out zero values. *)
Record compared_stored (tf : TransactionFilter) (s : SignedTxnWithAD) : Prop := {
  as_role : forall a, TF_Address tf = Some a -> TF_AddressRole tf <> 0 -> a <> zeroAddress;
  as_group : forall g, TF_GroupID tf = Some g -> g <> "" -> g <> zeroDigest;
  as_aamt : is_Some (TF_AssetAmountLT tf) -> X_AssetAmount (T_AssetTransfer (Txn s)) <> 0;
  as_amt : is_Some (TF_AlgosLT tf) -> P_Amount (T_Payment (Txn s)) <> 0;
  as_effective : is_Some (TF_EffectiveAmountGT tf) \/ is_Some (TF_EffectiveAmountLT tf) ->
    P_Amount (T_Payment (Txn s)) <> 0 /\ AD_ClosingAmount (STAD_ApplyData s) <> 0 }.

(** The amounts of the filter and of the transaction are not negative. *)
Definition nonneg_amounts (tf : TransactionFilter) (s : SignedTxnWithAD) : Prop :=
  (forall v, TF_AssetAmountGT tf = Some v \/ TF_AlgosGT tf = Some v -> 0 <= v) /\
  0 <= X_AssetAmount (T_AssetTransfer (Txn s)) /\ 0 <= P_Amount (T_Payment (Txn s)) /\
  0 <= AD_ClosingAmount (STAD_ApplyData s).

Lemma Base64_inj a b : Base64 a = Base64 b -> a = b.
Proof.
  intros Heq. assert (@Ok string a = Ok b) as [= ->]; [|done].
  rewrite <- !(Base64.DecodeString_EncodeToString Base64.std Base64.std_ok).
  unfold Base64 in Heq. by rewrite Heq.
Qed.

Lemma bytes_text_Some zero s t : bytes_text zero s = Some (Base64 t) <-> s = t /\ t <> zero.
Proof.
  unfold bytes_text. case_bool_decide.
  - split; [done|]. intros [-> ?]. done.
  - split; [intros [= ?%Base64_inj]; by subst|by intros [-> _]].
Qed.

Lemma nonzero_test x (P : Z -> bool) :
  match nonzero x with Some y => P y | None => false end = true <-> x <> 0 /\ P x = true.
Proof. unfold nonzero. destruct (Z.eqb_spec x 0); naive_solver. Qed.

(** ** Each condition *)

Section Conditions.
Context (d : database) (k : Z * Z) (row : txn_row) (s : SignedTxnWithAD).
Context (Hdoc : json_of (txr_txn row) s).
Abbreviation amount := (P_Amount (T_Payment (Txn s))).
Abbreviation closing := (AD_ClosingAmount (STAD_ApplyData s)).
Abbreviation asset_amount := (X_AssetAmount (T_AssetTransfer (Txn s))).

Lemma holds_roles tf a :
  holds d k row (c_roles (flat_map (λ '(role, key),
    if has_role tf role then [(key, Base64 a)] else []) role_keys)) = true <->
  a <> zeroAddress /\ exists role key, (role, key) ∈ role_keys /\
    has_role tf role = true /\ role_address key (Txn s) = a.
Proof.
  cbn [holds]. rewrite existsb_exists. split.
  - intros ([key v] & ([role key'] & Hin%list_elem_of_In & Hr)%in_flat_map & Hv).
    destruct (has_role tf role) eqn:Hrole; [|done].
    destruct Hr as [[= <- <-]|[]]. apply bool_decide_eq_true in Hv.
    rewrite (doc_address _ _ Hdoc role key' Hin), bytes_text_Some in Hv. naive_solver.
  - intros (Hz & role & key & Hin & Hrole & Ha). exists (key, Base64 a). split.
    + apply in_flat_map. exists (role, key). split; [by apply list_elem_of_In|].
      rewrite Hrole. by left.
    + apply bool_decide_eq_true. rewrite (doc_address _ _ Hdoc role key Hin).
      by apply bytes_text_Some.
Qed.

Lemma holds_before j t :
  holds d k row (c_before j t) = true <->
  exists r, pg_round_before (t_block_header (core d)) t = Some r /\ k.1 <= r.
Proof. cbn [holds]. destruct (pg_round_before _ _); [rewrite Z.leb_le|]; naive_solver. Qed.

Lemma holds_after j t :
  holds d k row (c_after j t) = true <->
  exists r, pg_round_after (t_block_header (core d)) t = Some r /\ r <= k.1.
Proof. cbn [holds]. destruct (pg_round_after _ _); [rewrite Z.leb_le|]; naive_solver. Qed.

Lemma holds_aamt_gt v :
  holds d k row (c_aamt_gt v) = true <-> asset_amount <> 0 /\ v < asset_amount.
Proof. cbn [holds]. by rewrite (doc_aamt _ _ Hdoc), nonzero_test, Z.ltb_lt. Qed.
Lemma holds_aamt_lt v :
  holds d k row (c_aamt_lt v) = true <-> asset_amount <> 0 /\ asset_amount < v.
Proof. cbn [holds]. by rewrite (doc_aamt _ _ Hdoc), nonzero_test, Z.ltb_lt. Qed.
Lemma holds_amt_gt v : holds d k row (c_amt_gt v) = true <-> amount <> 0 /\ v < amount.
Proof. cbn [holds]. by rewrite (doc_amt _ _ Hdoc), nonzero_test, Z.ltb_lt. Qed.
Lemma holds_amt_lt v : holds d k row (c_amt_lt v) = true <-> amount <> 0 /\ amount < v.
Proof. cbn [holds]. by rewrite (doc_amt _ _ Hdoc), nonzero_test, Z.ltb_lt. Qed.
Lemma holds_eff_gt v :
  holds d k row (c_eff_gt v) = true <-> closing <> 0 /\ amount <> 0 /\ v < closing + amount.
Proof.
  cbn [holds]. by rewrite (doc_ca _ _ Hdoc), nonzero_test, (doc_amt _ _ Hdoc), nonzero_test,
    Z.ltb_lt.
Qed.
Lemma holds_eff_lt v :
  holds d k row (c_eff_lt v) = true <-> closing <> 0 /\ amount <> 0 /\ closing + amount < v.
Proof.
  cbn [holds]. by rewrite (doc_ca _ _ Hdoc), nonzero_test, (doc_amt _ _ Hdoc), nonzero_test,
    Z.ltb_lt.
Qed.

Lemma holds_group g :
  holds d k row (c_group (Base64 g)) = true <->
  H_Group (T_Header (Txn s)) = g /\ g <> zeroDigest.
Proof. cbn [holds]. by rewrite bool_decide_eq_true, (doc_group _ _ Hdoc), bytes_text_Some. Qed.

Lemma substring_empty n : String.substring 0 n "" = "".
Proof. by destruct n. Qed.

Lemma holds_note p :
  p <> "" -> holds d k row (c_note p) = true <->
  String.substring 0 (String.length p) (H_Note (T_Header (Txn s))) = p.
Proof.
  intros Hp. cbn [holds]. rewrite (doc_note _ _ Hdoc). unfold bytes_text.
  case_bool_decide as Hn.
  - rewrite Hn, substring_empty. naive_solver.
  - unfold Base64. rewrite (Base64.DecodeString_EncodeToString Base64.std Base64.std_ok).
    apply bool_decide_eq_true.
Qed.
End Conditions.

(** The conditions other than those on the position. *)
Lemma rest_conds_matches tf id d k row s :
  json_of (txr_txn row) s -> nonneg_amounts tf s ->
  TF_SigType tf = "" \/ IsSigTypeValid (TF_SigType tf) = true -> in_page tf k ->
  Forall (λ c, holds d k row c = true) (rest_conds tf id) ->
  matches tf id d k row s /\ compared_stored tf s.
Proof.
  intros Hdoc (Hgt & Haamt & Hamt & Hca) Hsig Hpage. unfold rest_conds.
  rewrite !Forall_app, !Forall_when_some, !Forall_unless_zero, !Forall_unless_empty, !Forall_if.
  intros (Hrole & Hbefore & Hafter & Hasset & Hagt & Halt & Htype & Htxid & Hgrp & Hoff & Hsigt &
    Hnote & Hamgt & Hamlt & Hegt & Helt & Hrek & Hroot & Hlogs).
  split; constructor; try done.
  - intros a Ha Hz. rewrite Ha in Hrole. apply Forall_unless_zero in Hrole; [|done].
    eapply holds_roles in Hrole; [|done]. tauto.
  - intros t Ht%Hbefore. by eapply holds_before.
  - intros t Ht%Hafter. by eapply holds_after.
  - intros v Hv%Hasset. by apply Z.eqb_eq.
  - intros v Hv%Hagt. eapply holds_aamt_gt in Hv; [|done]. lia.
  - intros v Hv%Halt. eapply holds_aamt_lt in Hv; [|done]. lia.
  - intros Hz%Htype. by apply Z.eqb_eq.
  - intros Hz%Htxid. by apply bool_decide_eq_true in Hz.
  - intros g Hg Hne. rewrite Hg in Hgrp. eapply holds_group; [done|by apply Hgrp].
  - intros i Hi%Hoff. by apply Z.eqb_eq.
  - intros Hne. destruct Hsig as [|Hsig]; [done|]. eapply doc_sig; [done|done|by apply Hsigt].
  - intros p Hp Hne. rewrite Hp in Hnote. eapply holds_note; [done|done|by apply Hnote].
  - intros v Hv%Hamgt. eapply holds_amt_gt in Hv; [|done]. lia.
  - intros v Hv%Hamlt. eapply holds_amt_lt in Hv; [|done]. lia.
  - intros v Hv%Hegt. eapply holds_eff_gt in Hv; [|done]. lia.
  - intros v Hv%Helt. eapply holds_eff_lt in Hv; [|done]. lia.
  - intros Ht. rewrite Ht in Hrek. eapply doc_rekey; [done|by apply Hrek].
  - intros Ht%Hroot. by apply bool_decide_eq_true in Ht.
  - intros Ht%Hlogs. by eapply doc_logs.
  - intros a Ha Hz. rewrite Ha in Hrole. apply Forall_unless_zero in Hrole; [|done].
    eapply holds_roles in Hrole; [|done]. tauto.
  - intros g Hg Hne. rewrite Hg in Hgrp. eapply holds_group; [done|by apply Hgrp].
  - intros [v Hv%Halt]. eapply holds_aamt_lt in Hv; [|done]. tauto.
  - intros [v Hv%Hamlt]. eapply holds_amt_lt in Hv; [|done]. tauto.
  - intros [[v Hv%Hegt]|[v Hv%Helt]]; [eapply holds_eff_gt in Hv|eapply holds_eff_lt in Hv]; try done; tauto.
Qed.

Lemma matches_rest_conds tf id d k row s :
  json_of (txr_txn row) s -> nonneg_amounts tf s ->
  TF_SigType tf = "" \/ IsSigTypeValid (TF_SigType tf) = true ->
  matches tf id d k row s -> compared_stored tf s ->
  Forall (λ c, holds d k row c = true) (rest_conds tf id).
Proof.
  intros Hdoc (Hgt & Haamt & Hamt & Hca) Hsig [Hpage Hrole Hbefore Hafter Hasset Hagt Halt Htype
    Htxid Hgrp Hoff Hsigt Hnote Hamgt Hamlt Hegt Helt Hrek Hroot Hlogs] [Srole Sgrp Saamt Samt Seff].
  unfold rest_conds.
  rewrite !Forall_app, !Forall_when_some, !Forall_unless_zero, !Forall_unless_empty, !Forall_if.
  split_and!.
  - destruct (TF_Address tf) as [a|]; [|done]. apply Forall_unless_zero. intros Hz.
    eapply holds_roles; [done|]. split; [by apply Srole|by apply Hrole].
  - intros t Ht%Hbefore. by eapply holds_before.
  - intros t Ht%Hafter. by eapply holds_after.
  - intros v Hv%Hasset. by apply Z.eqb_eq.
  - intros v Hv. eapply holds_aamt_gt; [done|]. specialize (Hgt v (or_introl Hv)).
    specialize (Hagt v Hv). lia.
  - intros v Hv. eapply holds_aamt_lt; [done|]. split; [by apply Saamt; exists v|by apply Halt].
  - intros Hz%Htype. by apply Z.eqb_eq.
  - intros Hz%Htxid. by apply bool_decide_eq_true.
  - destruct (TF_GroupID tf) as [g|]; [|done]. intros Hne. eapply holds_group; [done|].
    split; [by apply Hgrp|by apply Sgrp].
  - intros i Hi%Hoff. by apply Z.eqb_eq.
  - intros Hne. destruct Hsig as [|Hsig]; [done|]. eapply doc_sig; [done|done|by apply Hsigt].
  - destruct (TF_NotePrefix tf) as [p|]; [|done]. intros Hne. eapply holds_note; [done|done|].
    by apply Hnote.
  - intros v Hv. eapply holds_amt_gt; [done|]. specialize (Hgt v (or_intror Hv)).
    specialize (Hamgt v Hv). lia.
  - intros v Hv. eapply holds_amt_lt; [done|]. split; [by apply Samt; exists v|by apply Hamlt].
  - intros v Hv. eapply holds_eff_gt; [done|]. destruct Seff; [left; by exists v|]. specialize (Hegt v Hv). lia.
  - intros v Hv. eapply holds_eff_lt; [done|]. destruct Seff; [right; by exists v|]. specialize (Helt v Hv). lia.
  - destruct (TF_RekeyTo tf) as [[]|]; cbn; try done. intros _. eapply doc_rekey; [done|by apply Hrek].
  - intros Ht%Hroot. by apply bool_decide_eq_true.
  - intros Ht%Hlogs. by eapply doc_logs.
Qed.

(** C12. A search finds exactly the transactions that the filter describes and whose compared
    values are stored, for every combination of its fields: the conditions on JSON
    documents that the SQL has are the conditions [matches] on the transactions they
    encode, and [compared_stored].  The latter is where the code departs from the
    description: a zero amount is below no bound, a payment without a closing amount (or
    with a zero amount) has no effective amount, and the zero address has no role.  It asks
    nothing of a filter without upper bounds, effective amounts or zero values. *)
Theorem search_finds tf id d x s :
  json_of (txr_txn x.2) s -> nonneg_amounts tf s ->
  TF_SigType tf = "" \/ IsSigTypeValid (TF_SigType tf) = true ->
  wanted tf id d x <->
  is_Some (t_block_header (core d) !! x.1.1) /\
  (forall a, TF_Address tf = Some a -> (a, x.1.1, x.1.2) ∈ t_txn_participation (txns d)) /\
  matches tf id d x.1 x.2 s /\ compared_stored tf s.
Proof.
  intros Hdoc Hn Hsig. rewrite wanted_split. split.
  - intros (Hh & Hp & Hpage & Hr). split; [done|]. split; [|by apply rest_conds_matches].
    intros a Ha. by rewrite Ha in Hp.
  - intros (Hh & Hp & Hm & Hs). split_and!; [done| |apply Hm|by eapply matches_rest_conds].
    destruct (TF_Address tf); [by apply Hp|done].
Qed.
End Documents.

(** A payment that closes no account is never found by a search for its
    effective amount, however large it is: the closing amount is then missing
    from the document, and the sum with a missing amount is NULL. *)
Theorem effective_amount_needs_closing `{PgOps} tf id d x s v :
  json_of (txr_txn x.2) s -> AD_ClosingAmount (STAD_ApplyData s) = 0 ->
  TF_EffectiveAmountGT tf = Some v \/ TF_EffectiveAmountLT tf = Some v ->
  ~ wanted tf id d x.
Proof.
  intros Hdoc Hca Hv (_ & _ & _ & Hr)%wanted_split. unfold rest_conds in Hr.
  rewrite !Forall_app, !Forall_when_some in Hr. destruct_and! Hr.
  destruct Hv as [Hv|Hv].
  - assert (holds d x.1 x.2 (c_eff_gt v) = true) as Hh by auto.
    eapply holds_eff_gt in Hh; [|done]. naive_solver.
  - assert (holds d x.1 x.2 (c_eff_lt v) = true) as Hh by auto.
    eapply holds_eff_lt in Hh; [|done]. naive_solver.
Qed.

(** ** Skipping inner transactions *)

Section Optimization.
Context `{PgOps}.

(** The position of the transaction that a row is converted to. *)
Definition root_key (x : Z * Z * txn_row) : Z * Z :=
  match pg_text (txr_extra x.2) ["root-intra"] with
  | Some text => match ParseUint text with Ok i => (x.1.1, i) | Err _ => x.1 end
  | None => x.1
  end.

(** A root row has no root position; an inner row has that of a root row of its
    round. *)
Definition inner_rows_rooted (d : database) : Prop :=
  forall k row, t_txn (txns d) !! k = Some row ->
    match txr_txid row with
    | Some _ => root_key (k, row) = k
    | None => exists rootrow, (root_key (k, row)).1 = k.1 /\
                t_txn (txns d) !! root_key (k, row) = Some rootrow /\ is_Some (txr_txid rootrow)
    end.

(** A filter that [txnFilterOptimization] changes. *)
Definition optimizable (tf : TransactionFilter) : Prop :=
  txnFilterOptimization tf = set_SkipInnerTransactions tf true.

Lemma optimizable_conds tf :
  optimizable tf -> TF_SkipInnerTransactions tf = false -> TF_Offset tf = None ->
  TF_Address tf = None /\ forall id, id = None ->
  rest_conds tf id = when_some (TF_BeforeTime tf) (c_before false) ++
                     when_some (TF_AfterTime tf) (c_after false) /\
  rest_conds (set_SkipInnerTransactions tf true) id =
    when_some (TF_BeforeTime tf) (c_before false) ++
    when_some (TF_AfterTime tf) (c_after false) ++ [c_root].
Proof.
  unfold optimizable, txnFilterOptimization. intros Ho Hskip Hoff.
  case_bool_decide as Heq.
  - rewrite Heq. cbn. split; [done|]. intros id ->. unfold rest_conds. cbn. rewrite Hoff. cbn.
    by rewrite !app_nil_r.
  - exfalso. assert (TF_SkipInnerTransactions tf = true) by (by rewrite Ho at 1). congruence.
Qed.

(** The conditions of such a filter depend on the round only. *)
Lemma holds_same_round d k k' row row' tf :
  k.1 = k'.1 ->
  Forall (λ c, holds d k row c = true) (when_some (TF_BeforeTime tf) (c_before false) ++
     when_some (TF_AfterTime tf) (c_after false)) <->
  Forall (λ c, holds d k' row' c = true) (when_some (TF_BeforeTime tf) (c_before false) ++
     when_some (TF_AfterTime tf) (c_after false)).
Proof.
  intros Hk. rewrite !Forall_app, !Forall_when_some. cbn [holds]. by rewrite Hk.
Qed.

(** The optimisation of [Transactions] is sound: for a filter without offsets
    whose other fields select whole rounds, skipping the inner transactions finds
    the same root transactions as finding all transactions and converting the
    inner ones to their roots. *)
Theorem txnFilterOptimization_same_roots tf d k :
  optimizable tf -> TF_SkipInnerTransactions tf = false ->
  TF_Offset tf = None -> TF_OffsetLT tf = None -> TF_OffsetGT tf = None ->
  inner_rows_rooted d ->
  k ∈ (matching (txnFilterOptimization tf) None d).*1 <->
  k ∈ map root_key (matching tf None d).
Proof.
  intros Ho Hskip Hoff Hlt Hgt Hd. rewrite Ho.
  destruct (optimizable_conds tf Ho Hskip Hoff) as [Ha Hc].
  destruct (Hc None eq_refl) as [Hc1 Hc2].
  assert (forall k k' : Z * Z, k.1 = k'.1 -> in_page tf k -> in_page tf k') as Hpage.
  { unfold in_page. rewrite Hlt, Hgt. intros ? ? ->. naive_solver. }
  split.
  - intros (x & -> & [Hw Hx%elem_of_ordered]%list_elem_of_filter)%list_elem_of_fmap.
    apply wanted_split in Hw as (Hh & _ & Hp & Hr). rewrite Hc2 in Hr.
    rewrite app_assoc, Forall_app, Forall_singleton in Hr.
    destruct Hr as [Hr [id Hid]%bool_decide_eq_true].
    apply list_elem_of_fmap. exists x. split.
    + pose proof (Hd _ _ Hx) as Hd'. rewrite Hid in Hd'. by destruct x.
    + apply list_elem_of_filter. split; [|by apply elem_of_ordered].
      apply wanted_split. rewrite Hc1, Ha. done.
  - intros (x & -> & [Hw Hx%elem_of_ordered]%list_elem_of_filter)%list_elem_of_fmap.
    apply wanted_split in Hw as (Hh & _ & Hp & Hr). rewrite Hc1 in Hr.
    assert (exists row, (root_key x).1 = x.1.1 /\ t_txn (txns d) !! root_key x = Some row /\
              is_Some (txr_txid row)) as (row & Hk & Hrow & Hid).
    { pose proof (Hd _ _ Hx) as Hd'. destruct x as [k' row']. cbn in Hx, Hd' |- *.
      destruct (txr_txid row') eqn:E; [|done]. exists row'. rewrite Hd', E. eauto. }
    apply list_elem_of_fmap. exists (root_key x, row). split; [done|].
    apply list_elem_of_filter. split; [|by apply elem_of_ordered].
    apply wanted_split. cbn [fst snd]. rewrite Hk. split_and!; [done|by cbn; rewrite Ha| |].
    + by apply (Hpage x.1).
    + rewrite Hc2, app_assoc, Forall_app, Forall_singleton. split.
      * by eapply (holds_same_round d x.1).
      * by apply bool_decide_eq_true.
Qed.
End Optimization.

(** ** Errors in rows *)

(** When a stored transaction cannot be decoded but its extra data can, the
    row sent says so, but the error handed to [txnsWithNext] is nil: decoding the
    extra data has overwritten it.  The search then goes on with the second
    query after the error. *)
Theorem yieldTxnsThreadSimple_loses_error `{Codec signedTxnWithAD} `{Codec TxnExtra}
    r rest rows_err e extra :
  rt_roottxn r = None -> DecodeSignedTxnWithAD (rt_txn r) = Err e ->
  rt_extra r <> "" -> DecodeTxnExtra (rt_extra r) = Ok extra ->
  exists row,
    yieldTxnsThreadSimple {| rs_rows := Ok r :: rest; rs_err := rows_err |} = ([row], 0, None) /\
    TR_Error row = Some (ErrWrap "error decoding txn, err: %w" e).
Proof.
  intros Hroot Hdec Hne Hextra. unfold yieldTxnsThreadSimple, yield_rows, decode_row, decode_stxn.
  cbn [rs_rows rs_err]. rewrite Hroot, Hdec, bool_decide_eq_false_2, Hextra by done.
  cbn. eauto.
Qed.

(** ** Concrete searches *)

Section Witnesses.
Import SampleSearch.

(** A signed payment of 5 from ["alice"] to ["bob"]. *)
Definition payment : SignedTxnWithAD :=
  let t := SampleBlock.pay "alice" "bob" in
  StxnAD {| ST_Sig := "sig"; ST_Msig := Zero.msig; ST_Lsig := Zero.lsig; ST_Txn := t;
            ST_AuthAddr := zeroAddress |} Zero.applyData.

Lemma json_of_leaf : json_of "leaf" payment.
Proof.
  constructor; try reflexivity.
  - intros role key Hk. unfold role_keys in Hk. rewrite !elem_of_cons, elem_of_nil in Hk.
    destruct_or! Hk; simplify_eq; reflexivity.
  - intros sigtype [Hs|Hs]%bool_decide_eq_true%elem_of_union; [|split].
    + apply elem_of_union in Hs as [Hs|Hs]; apply elem_of_singleton in Hs as ->; split;
        try done; [intros _; left; done|]. intros [[? _]|[[_ []]|[? _]]]; done.
    + apply elem_of_singleton in Hs as ->. done.
    + apply elem_of_singleton in Hs as ->. intros [[? _]|[[? _]|[_ []]]]; done.
  - split; [done|]. intros []. reflexivity.
  - split; [done|]. intros []. reflexivity.
Qed.

Lemma search_finds_witness :
  let tf := sent_by_alice "" 2 in
  let x := ((5, 0), root "leaf") in
  wanted tf None d x <->
  is_Some (t_block_header (core d) !! 5) /\
  (forall a, TF_Address tf = Some a -> (a, 5, 0) ∈ t_txn_participation (txns d)) /\
  matches tf None d (5, 0) (root "leaf") payment /\ compared_stored tf payment.
Proof.
  intros tf x. apply (search_finds tf None d x payment).
  - apply json_of_leaf.
  - repeat split; try discriminate. intros v [[=]|[= <-]]. discriminate.
  - left. reflexivity.
Defined.

Lemma effective_amount_needs_closing_witness :
  let tf := {| TF_SkipOptimization := false; TF_Address := None; TF_AddressRole := 0;
    TF_MinRound := 0; TF_MaxRound := 0; TF_AfterTime := None; TF_BeforeTime := None;
    TF_TypeEnum := 0; TF_Txid := ""; TF_Round := None; TF_Offset := None; TF_OffsetLT := None;
    TF_OffsetGT := None; TF_SigType := ""; TF_NotePrefix := None; TF_GroupID := None;
    TF_AlgosGT := None; TF_AlgosLT := None; TF_RekeyTo := None; TF_AssetID := None;
    TF_AssetAmountGT := None; TF_AssetAmountLT := None; TF_ApplicationID := None;
    TF_EffectiveAmountGT := Some 1; TF_EffectiveAmountLT := None; TF_NextToken := "";
    TF_Limit := 10; TF_SkipInnerTransactionConversion := false;
    TF_SkipInnerTransactions := false; TF_HeaderOnly := false;
    TF_RequireApplicationLogs := false |} in
  1 < P_Amount (T_Payment (Txn payment)) /\ ~ wanted tf None d ((5, 0), root "leaf").
Proof.
  intros tf. split; [reflexivity|].
  apply (effective_amount_needs_closing tf None d ((5, 0), root "leaf") payment 1).
  - apply json_of_leaf.
  - reflexivity.
  - left. reflexivity.
Defined.

Lemma txnFilterOptimization_same_roots_witness :
  (5, 1) ∈ (matching (txnFilterOptimization (any 10)) None d).*1 <->
  (5, 1) ∈ map root_key (matching (any 10) None d).
Proof.
  apply (txnFilterOptimization_same_roots (any 10) d (5, 1)); try reflexivity.
  intros k row Hk. apply elem_of_map_to_list in Hk. unfold d in Hk. cbn [txns t_txn] in Hk.
  rewrite map_to_list_to_map in Hk
    by (refine (bool_decide_eq_true_1 _ _); vm_compute; reflexivity).
  rewrite !elem_of_cons, elem_of_nil in Hk.
  destruct_or! Hk; simplify_eq; try reflexivity; exists (root "tree"); repeat split; eauto.
Defined.

Lemma yieldTxnsThreadSimple_loses_error_witness :
  let r := {| rt_round := 5; rt_intra := 0; rt_txn := "bad"; rt_roottxn := None;
              rt_extra := "{}"; rt_asset := 0; rt_realtime := 100 |} in
  exists row,
    yieldTxnsThreadSimple {| rs_rows := [Ok r]; rs_err := None |} = ([row], 0, None) /\
    TR_Error row = Some (ErrWrap "error decoding txn, err: %w" (ErrMsg "json")).
Proof.
  intros r.
  apply (yieldTxnsThreadSimple_loses_error r [] None (ErrMsg "json") zeroTxnExtra);
    (discriminate || reflexivity).
Defined.
End Witnesses.
