(* ===== verification/TxnTrees.v ===== *)
(** * The trees of transactions in the table, and the pages of a search

    A transaction and its inner transactions are consecutive rows.  A search that matches
    several of them is answered with the transaction once, and the token of a page names the
    end of the last tree of it, in the direction of the search.  Here are the trees, what a
    row of one is read as, the positions that tokens name, and that the importer writes
    trees. *)

From stdpp Require Import sorting.
From S2P Require Import Prelude GoStd Sdk Idb Util Encoding Db WriteTxn Writer Postgres Sql TxnQuery.
From S2P Require Import TxnPaging TxnSearch.

(** ** The first item of each group *)

Section Firsts.
Context {X K : Type} `{EqDecision K} (key : X -> K).
Context (lt : K -> K -> Prop) `{!RelDecision lt} `{!StrictOrder lt}.

(** The items whose key is not that of the item before them, [o] at the beginning. *)
Fixpoint firsts (o : option K) (l : list X) : list X :=
  match l with
  | [] => []
  | x :: l => if decide (o = Some (key x)) then firsts o l else x :: firsts (Some (key x)) l
  end.

Definition not_before (x y : X) : Prop := key x = key y \/ lt (key x) (key y).
Definition grouped (l : list X) : Prop := StronglySorted not_before l.

Lemma firsts_app o l l' : firsts o (l ++ l') =
  firsts o l ++ firsts (from_option (λ x, Some (key x)) o (last l)) l'.
Proof.
  revert o. induction l as [|x l IH]; intros o; [done|]. cbn [app firsts]. rewrite last_cons.
  case_decide as Hx; rewrite IH; destruct (last l); cbn; try done. by rewrite Hx.
Qed.

Lemma firsts_subset o l x : x ∈ firsts o l -> x ∈ l.
Proof.
  revert o. induction l as [|y l IH]; intros o; [done|]. cbn.
  case_decide; [intros ?%IH; by right|]. intros [->|Hx]%elem_of_cons; [left|]. right. by eapply IH.
Qed.

(** Going on after a key. *)
Lemma firsts_after k l : grouped l -> Forall (λ y, k = key y \/ lt k (key y)) l ->
  firsts (Some k) l = firsts None (filter (λ y, lt k (key y)) l).
Proof.
  intros Hg. induction Hg as [|y l Hg IH Hy]; [done|]. intros [Hk Hl]%Forall_cons.
  rewrite filter_cons. cbn [firsts]. destruct (decide (lt k (key y))) as [Hlt|Hlt].
  - rewrite decide_False by (intros [= ->]; by apply (irreflexivity lt) in Hlt). cbn [firsts].
    rewrite decide_False by done. do 2 f_equal. symmetry. apply filter_Forall_id.
    eapply Forall_impl; [exact Hy|]. intros z [<-|Hz]; [done|by etrans].
  - destruct Hk as [->|?]; [|done]. rewrite decide_True by done. by apply IH.
Qed.

Lemma last_firsts l : key <$> last (firsts None l) = key <$> last l.
Proof.
  induction l as [|x l IH] using rev_ind; [done|]. rewrite firsts_app, last_snoc. cbn [firsts].
  case_decide as Hx; [|by rewrite last_snoc]. rewrite app_nil_r, IH.
  destruct (last l) as [y|]; [|done]. cbn in *. by rewrite Hx.
Qed.

Lemma firsts_keys l k : k ∈ map key (firsts None l) <-> k ∈ map key l.
Proof.
  split.
  - intros (x & -> & Hx%firsts_subset)%list_elem_of_fmap. by apply list_elem_of_fmap_2.
  - induction l as [|x l IH] using rev_ind; [done|].
    rewrite firsts_app, !map_app, !elem_of_app. intros [Hk|[->|Hk]%elem_of_cons];
      [left; by apply IH| |by apply elem_of_nil in Hk].
    cbn [firsts]. case_decide as Hx; [|right; left]. left. apply IH.
    destruct (last l) as [y|] eqn:Hl; [injection Hx as <-|done].
    apply list_elem_of_fmap_2. apply last_Some in Hl as [l' ->]. apply elem_of_app. right. left.
Qed.

(** Each key once, in order. *)
Lemma firsts_sorted l : grouped l -> StronglySorted lt (map key (firsts None l)).
Proof.
  assert (forall o, grouped l -> (forall k, o = Some k -> Forall (λ y, k = key y \/ lt k (key y)) l) ->
    StronglySorted lt (map key (firsts o l)) /\
    forall k, o = Some k -> Forall (lt k) (map key (firsts o l))) as Hs.
  { induction l as [|x l IH]; intros o Hg Ho.
    { split; [constructor|]. intros; constructor. }
    apply StronglySorted_inv in Hg as [Hg Hx]. cbn [firsts]. case_decide as Hk.
    { apply IH; [done|]. intros k Hk'. specialize (Ho k Hk'). by apply Forall_cons in Ho as [_ ?]. }
    destruct (IH (Some (key x)) Hg) as [Hs Hlt]; [by intros k [= <-]|]. specialize (Hlt _ eq_refl).
    cbn [map]. split; [by constructor|]. intros k ->. specialize (Ho k eq_refl).
    apply Forall_cons in Ho as [[->|Hkx] _]; [done|]. constructor; [done|].
    eapply Forall_impl; [exact Hlt|]. intros z Hz. by etrans. }
  intros Hg. by apply (Hs None).
Qed.

(** A list is the groups of a prefix, and those after the last of them. *)
Lemma firsts_split n l x : grouped l -> last (firsts None (take n l)) = Some x ->
  x ∈ l /\ firsts None l = firsts None (take n l) ++ firsts None (filter (λ y, lt (key x) (key y)) l) /\
  (length (filter (λ y, lt (key x) (key y)) l) < length l)%nat.
Proof.
  intros Hg Hlast. pose proof (last_firsts (take n l)) as Hk. rewrite Hlast in Hk.
  destruct (last (take n l)) as [z|] eqn:Hz; [injection Hk as Hk|done].
  assert (x ∈ take n l) as Hx.
  { apply (firsts_subset None). apply last_Some in Hlast as [l' ->]. apply elem_of_app. right. left. }
  pose proof (take_drop n l) as Hl. set (rest := drop n l) in *.
  apply last_Some in Hz as Hpage. destruct Hpage as [page Hpage].
  assert (Forall (λ y, key x = key y \/ lt (key x) (key y)) rest /\ grouped rest /\
          Forall (λ y, key y = key x \/ lt (key y) (key x)) (take n l)) as (Hrest & Hgr & Htake).
  { unfold grouped in Hg |- *. rewrite <- Hl in Hg. apply StronglySorted_app in Hg as (H1 & H2 & H3).
    rewrite Hpage in H1, H2 |- *. rewrite Hk. split_and!; [|done|].
    - apply Forall_forall. intros y Hy. apply H1; [|done]. apply elem_of_app. right. left.
    - apply StronglySorted_app in H2 as (H2 & _ & _). apply Forall_app. split; [|by repeat constructor].
      apply Forall_forall. intros y Hy. apply H2; [done|left]. }
  assert (filter (λ y, lt (key x) (key y)) l = filter (λ y, lt (key x) (key y)) rest) as Hfil.
  { rewrite <- Hl, filter_app, (filter_none _ (take n l)); [done|].
    eapply Forall_impl; [exact Htake|]. intros y [-> |Hy] Hlt; eapply (irreflexivity lt); [done|by etrans]. }
  split_and!; [rewrite <- Hl; apply elem_of_app; by left| |].
  - rewrite Hfil, <- (firsts_after (key x) rest) by done. rewrite <- Hl at 1.
    rewrite firsts_app, Hz. cbn. by rewrite Hk.
  - rewrite Hfil. pose proof (length_filter (λ y, lt (key x) (key y)) rest).
    rewrite <- Hl, length_app, Hpage, length_app. cbn. lia.
Qed.
End Firsts.

(** ** Trees of rows *)

(** The token of a position. *)
Definition token_at (R I : Z) : string :=
  Base64.EncodeToString Base64.url (string_of_bytes (le_put 8 R ++ le_put 4 (wrap32 I))).

Definition before_key (newestFirst : bool) (k k' : Z * Z) : Prop :=
  if newestFirst then k'.1 < k.1 \/ k'.1 = k.1 /\ k'.2 < k.2 else k.1 < k'.1 \/ k.1 = k'.1 /\ k.2 < k'.2.
#[export] Instance before_key_dec nf : RelDecision (before_key nf).
Proof. intros k k'. unfold before_key. destruct nf; apply _. Defined.
#[export] Instance before_key_order nf : StrictOrder (before_key nf).
Proof. split; [intros k|intros k1 k2 k3]; unfold complement, before_key; destruct nf; lia. Qed.

Section Trees.
Context `{SdkOps} `{PgOps} `{Codec signedTxnWithAD} `{Codec TxnExtra}.

Definition txid_of (s : SignedTxnWithAD) : string := TransactionIDString (ST_Txn (STAD_SignedTxn s)).

(** The position of the last inner transaction of [s] at [i]. *)
Definition last_of (i : Z) (s : SignedTxnWithAD) : Z := i + Z.of_nat (countInner s).

(** The row at [j] of the tree of the transaction [s] at [i]: only that of [s] has an id, the
    others have the position and the id of [s]. *)
Record tree_row (i : Z) (s : SignedTxnWithAD) (j : Z) (row : txn_row) : Prop := {
  tr_id : is_Some (txr_txid row) <-> j = i;
  tr_extra : exists extra, txr_extra row <> "" /\ DecodeTxnExtra (txr_extra row) = Ok extra /\
    if decide (j = i) then OU_Present (RootIntra extra) = false
    else RootIntra extra = {| OU_Present := true; OU_Value := i |} /\ RootTxid extra = txid_of s;
  tr_text : pg_text (txr_extra row) ["root-intra"] = if decide (j = i) then None else Some (FormatUint i) }.

(** The rows of a round from [i] on hold the tree of [s]. *)
Record tree_at (txn : gmap (Z * Z) txn_row) (R i : Z) (s : SignedTxnWithAD) : Prop := {
  ta_range : 0 < R < MaxInt64 /\ 0 <= i /\ last_of i s < 2 ^ 31;
  ta_root : exists row, txn !! (R, i) = Some row /\ DecodeSignedTxnWithAD (txr_txn row) = Ok s;
  ta_rows : forall j row, i <= j <= last_of i s -> txn !! (R, j) = Some row -> tree_row i s j row }.

Definition row_in_tree (txn : gmap (Z * Z) txn_row) (k : Z * Z) (i : Z) (s : SignedTxnWithAD) : Prop :=
  i <= k.2 <= last_of i s /\ tree_at txn k.1 i s.
(** Every row belongs to a tree. *)
Definition all_trees (txn : gmap (Z * Z) txn_row) : Prop :=
  forall k row, txn !! k = Some row -> exists i s, row_in_tree txn k i s.

Lemma last_of_ge i s : i <= last_of i s.
Proof. unfold last_of. lia. Qed.

Lemma tree_row_root i s i' s' j row : tree_row i s j row -> tree_row i' s' j row -> i = i'.
Proof.
  intros Hr Hr'. destruct (decide (j = i)) as [Hj|Hj].
  - apply (tr_id _ _ _ _ Hr) in Hj as Hid. apply (tr_id _ _ _ _ Hr') in Hid. by subst.
  - destruct (tr_extra _ _ _ _ Hr) as (x & _ & Hx & Hi). destruct (tr_extra _ _ _ _ Hr') as (x' & _ & Hx' & Hi').
    rewrite Hx in Hx'. injection Hx' as <-. rewrite decide_False in Hi by done. destruct Hi as [Hi _].
    case_decide; rewrite Hi in Hi'; [done|]. destruct Hi' as [[= ?] _]. done.
Qed.

Lemma tree_root_eq txn R i s s' : tree_at txn R i s -> tree_at txn R i s' -> s = s'.
Proof.
  intros Ht Ht'. destruct (ta_root _ _ _ _ Ht) as (row & Hl & Hd).
  destruct (ta_root _ _ _ _ Ht') as (row' & Hl' & Hd'). rewrite Hl in Hl'. injection Hl' as <-.
  rewrite Hd in Hd'. by injection Hd'.
Qed.

(** Two trees of a round are the same or apart. *)
Lemma trees_apart txn R i s i' s' : tree_at txn R i s -> tree_at txn R i' s' -> i < i' -> last_of i s < i'.
Proof.
  intros Ht Ht' Hlt. destruct (decide (last_of i s < i')) as [|Hge]; [done|]. exfalso.
  destruct (ta_root _ _ _ _ Ht') as (row & Hl & _). pose proof (last_of_ge i' s').
  assert (i = i'); [|lia].
  apply (tree_row_root i s i' s' i' row); [eapply ta_rows|eapply ta_rows]; try done; lia.
Qed.

Lemma tree_cases txn R i s i' s' : tree_at txn R i s -> tree_at txn R i' s' ->
  i = i' /\ s = s' \/ last_of i s < i' \/ last_of i' s' < i.
Proof.
  intros Ht Ht'. destruct (Z.lt_trichotomy i i') as [Hlt|[<-|Hlt]].
  - right. left. by eapply trees_apart.
  - left. split; [done|by eapply tree_root_eq].
  - right. right. by eapply trees_apart.
Qed.

Lemma row_tree_row txn k i s row : row_in_tree txn k i s -> txn !! k = Some row -> tree_row i s k.2 row.
Proof. intros [Hi Ht] Hl. destruct k as [R j]. by eapply ta_rows. Qed.

Lemma tree_root_key txn k i s row : row_in_tree txn k i s -> txn !! k = Some row ->
  root_key (k, row) = (k.1, i).
Proof.
  intros Hr Hl. pose proof (row_tree_row _ _ _ _ _ Hr Hl) as Hrow. destruct Hr as [Hi Ht].
  unfold root_key. cbn [fst snd]. rewrite (tr_text _ _ _ _ Hrow). case_decide as Hj.
  - rewrite <- Hj. by destruct k.
  - destruct (ta_range _ _ _ _ Ht) as (_ & ? & ?). rewrite ParseUint_FormatUint; [done|].
    pose proof (last_of_ge i s). unfold is_u64. lia.
Qed.

(** ** Rows of a search *)

(** A search that shows roots: it joins in the root, or skips inner transactions. *)
Definition shows_roots (tf : TransactionFilter) (row : txn_row) : Prop :=
  joins_root tf = true \/ is_Some (txr_txid row).

Lemma tree_row_of tf d k i s row :
  row_in_tree (t_txn (txns d)) k i s -> t_txn (txns d) !! k = Some row -> shows_roots tf row ->
  exists extra, row_of tf d (k, row) = {|
      TR_Round := k.1;
      TR_RoundTime := Some (from_option bhr_realtime 0 (t_block_header (core d) !! k.1));
      TR_Intra := k.2; TR_Txn := if decide (k.2 = i) then Some s else None;
      TR_RootTxn := if decide (k.2 = i) then None else Some s; TR_AssetID := txr_asset row;
      TR_Extra := extra; TR_Error := None |} /\
    if decide (k.2 = i) then OU_Present (RootIntra extra) = false
    else RootIntra extra = {| OU_Present := true; OU_Value := i |} /\ RootTxid extra = txid_of s.
Proof.
  intros Hr Hl Hshow. pose proof (row_tree_row _ _ _ _ _ Hr Hl) as Hrow. destruct Hr as [Hi Ht].
  destruct (tr_extra _ _ _ _ Hrow) as (extra & Hne & Hx & Hcase). exists extra. split; [|done].
  destruct (ta_root _ _ _ _ Ht) as (root & Hroot & Hs). destruct (ta_range _ _ _ _ Ht) as (_ & ? & ?).
  unfold row_of, decode_row, raw_row, root_txn, decode_stxn. cbn [rt_roottxn rt_txn rt_extra q_root fst snd].
  rewrite (tr_text _ _ _ _ Hrow). case_decide as Hj.
  - assert (row = root) as ->.
    { destruct k as [R j]. cbn in Hj, Hroot. subst j. rewrite Hl in Hroot. by injection Hroot. }
    assert ((if joins_root tf then None ≫= (λ text : string, match ParseUint text with
      | Ok i => txr_txn <$> t_txn (txns d) !! (k.1, i) | Err _ => None end) else None) = None) as ->
      by (by destruct (joins_root tf)).
    rewrite Hs. cbn. rewrite bool_decide_eq_false_2 by done. by rewrite Hx.
  - destruct Hshow as [->|Hid]; [|by apply (tr_id _ _ _ _ Hrow) in Hid]. cbn [mbind option_bind].
    pose proof (last_of_ge i s). rewrite ParseUint_FormatUint by (unfold is_u64; lia).
    rewrite Hroot. cbn. rewrite Hs. rewrite bool_decide_eq_false_2 by done. by rewrite Hx.
Qed.

(** The token of a row names the end of its tree, in the direction of the search. *)
Definition edge (newestFirst : bool) (i : Z) (s : SignedTxnWithAD) : Z :=
  if newestFirst then i else last_of i s.

Lemma tree_token tf nf d k i s row :
  row_in_tree (t_txn (txns d)) k i s -> t_txn (txns d) !! k = Some row -> shows_roots tf row ->
  TxnRow_Next (row_of tf d (k, row)) (negb nf) = Ok (token_at k.1 (edge nf i s)).
Proof.
  intros Hr Hl Hshow. destruct (tree_row_of tf d k i s row Hr Hl Hshow) as (extra & -> & Hx).
  destruct Hr as [Hi Ht]. destruct (ta_range _ _ _ _ Ht) as (_ & ? & ?). pose proof (last_of_ge i s).
  assert (next_intra {| TR_Round := k.1;
    TR_RoundTime := Some (from_option bhr_realtime 0 (t_block_header (core d) !! k.1));
    TR_Intra := k.2; TR_Txn := if decide (k.2 = i) then Some s else None;
    TR_RootTxn := if decide (k.2 = i) then None else Some s; TR_AssetID := txr_asset row;
    TR_Extra := extra; TR_Error := None |} = i) as Hn.
  { unfold next_intra. cbn [TR_Extra TR_Intra]. case_decide as Hj.
    - rewrite Hx, wrap64_small; [done|]. unfold is_u64. lia.
    - by destruct Hx as [-> _]. }
  unfold TxnRow_Next. rewrite Hn. destruct nf; [done|]. cbn [negb TR_RootTxn TR_Txn].
  replace (match (if decide (k.2 = i) then None else Some s) with Some t => Some t
    | None => if decide (k.2 = i) then Some s else None end) with (Some s) by (by case_decide).
  cbn [mbind result_bind TR_Round]. unfold last_of in *. by rewrite wrap64_small by (unfold is_u64; lia).
Qed.

Lemma DecodeTxnRowNext_token_at R I : is_u64 R -> 0 <= I < 2 ^ 32 ->
  DecodeTxnRowNext (token_at R I) = Ok (R, I).
Proof.
  intros HR HI. unfold token_at. rewrite DecodeTxnRowNext_encode by done. unfold wrap32.
  by rewrite Z.mod_small.
Qed.

(** ** Order *)

Context (d : database) (Htrees : all_trees (t_txn (txns d))).

Lemma stored_tree_of x : t_txn (txns d) !! x.1 = Some x.2 -> exists i s,
  row_in_tree (t_txn (txns d)) x.1 i s /\ root_key x = (x.1.1, i).
Proof.
  intros Hx. destruct (Htrees _ _ Hx) as (i & s & Hr). exists i, s. split; [done|].
  destruct x as [k row]. by eapply tree_root_key.
Qed.

(** Trees follow each other. *)
Lemma before_grouped nf x y :
  t_txn (txns d) !! x.1 = Some x.2 -> t_txn (txns d) !! y.1 = Some y.2 -> before nf x y ->
  not_before root_key (before_key nf) x y.
Proof.
  intros Hx Hy Hb. destruct (stored_tree_of x Hx) as (i & s & [Hi Ht] & Hk).
  destruct (stored_tree_of y Hy) as (i' & s' & [Hi' Ht'] & Hk').
  unfold not_before. rewrite Hk, Hk'. unfold before_key, before, key_lt in *. cbn [fst snd].
  destruct (decide (x.1.1 = y.1.1)) as [Heq|Hne]; [|right; destruct nf; lia].
  rewrite <- Heq in Ht' |- *. destruct (tree_cases _ _ _ _ _ _ Ht Ht') as [[<- <-]|Hcase]; [by left|].
  right. destruct nf; lia.
Qed.

(** What lies beyond the edge of a tree are the trees after it. *)
Lemma beyond_edge nf k i s y :
  row_in_tree (t_txn (txns d)) k i s -> t_txn (txns d) !! y.1 = Some y.2 ->
  beyond nf k.1 (edge nf i s) y <-> before_key nf (k.1, i) (root_key y).
Proof.
  intros [Hi Ht] Hy. destruct (stored_tree_of y Hy) as (i' & s' & [Hi' Ht'] & Hk'). rewrite Hk'.
  unfold beyond, before_key, edge. cbn [fst snd].
  destruct (decide (k.1 = y.1.1)) as [Heq|Hne]; [|destruct nf; lia].
  rewrite <- Heq in Ht' |- *. pose proof (last_of_ge i s). pose proof (last_of_ge i' s').
  destruct (tree_cases _ _ _ _ _ _ Ht Ht') as [[<- <-]|Hcase]; destruct nf; lia.
Qed.

Lemma trees_positive : rounds_positive d.
Proof.
  intros k row Hk. destruct (Htrees _ _ Hk) as (i & s & _ & Ht). destruct (ta_range _ _ _ _ Ht). lia.
Qed.

Lemma trees_rooted : inner_rows_rooted d.
Proof.
  intros k row Hk. destruct (Htrees _ _ Hk) as (i & s & Hr).
  pose proof (row_tree_row _ _ _ _ _ Hr Hk) as Hrow. pose proof (tree_root_key _ _ _ _ _ Hr Hk) as Hkey.
  destruct Hr as [Hi Ht]. destruct (txr_txid row) eqn:Hid.
  - rewrite Hkey. assert (k.2 = i) as <- by (apply (tr_id _ _ _ _ Hrow); by rewrite Hid). by destruct k.
  - destruct (ta_root _ _ _ _ Ht) as (root & Hroot & _). exists root. rewrite Hkey. do 2 (split; [done|]).
    pose proof (last_of_ge i s).
    assert (tree_row i s i root) as Hr by (eapply ta_rows; [done|lia|done]).
    by apply (tr_id _ _ _ _ Hr).
Qed.

(** ** Pages *)

(** A search that the database accepts, with pages of a positive size. *)
Record root_pages (tf : TransactionFilter) (id : option Z) : Prop := {
  rp_creatable : creatable tf = Ok id;
  rp_fits : page_fits tf;
  rp_conds : Forall cond_ok (rest_conds tf id);
  rp_offsets : TF_OffsetLT tf = None /\ TF_OffsetGT tf = None;
  rp_limit : 0 < TF_Limit tf;
  rp_group : default "" (TF_GroupID tf) = "";
  rp_roots : joins_root tf = true \/ TF_SkipInnerTransactions tf = true }.

Lemma pages_show_roots tf id x : root_pages tf id ->
  Forall (λ c, holds d x.1 x.2 c = true) (rest_conds tf id) -> shows_roots tf x.2.
Proof.
  intros Hp Hc. destruct (rp_roots _ _ Hp) as [?|Hskip]; [by left|]. right.
  rewrite Forall_forall in Hc. specialize (Hc c_root).
  apply (bool_decide_eq_true (is_Some (txr_txid x.2))), Hc.
  unfold rest_conds. rewrite Hskip, !elem_of_app. do 17 right. left. by left.
Qed.

Lemma matching_in tf id x : root_pages tf id -> x ∈ matching tf id d ->
  t_txn (txns d) !! x.1 = Some x.2 /\ shows_roots tf x.2 /\ in_page tf x.1.
Proof.
  intros Hp [Hw Hx%elem_of_ordered]%list_elem_of_filter. apply wanted_split in Hw as (_ & _ & Hi & Hc).
  split_and!; [done| |done]. by eapply pages_show_roots.
Qed.

Lemma pages_decodable tf id : root_pages tf id -> decodable tf id d.
Proof.
  intros Hp x Hx Hc. destruct (stored_tree_of x Hx) as (i & s & Hr & _). destruct x as [k row].
  destruct (tree_row_of tf d k i s row) as (extra & -> & _); [done|done|by eapply (pages_show_roots tf id (k, row))|done].
Qed.

Lemma matching_grouped tf id : grouped root_key (before_key (newest_first tf)) (matching tf id d).
Proof.
  unfold grouped. assert (StronglySorted (before (newest_first tf)) (matching tf id d)) as Hs
    by (apply StronglySorted_filter, ordered_sorted).
  assert (Forall (λ x, t_txn (txns d) !! x.1 = Some x.2) (matching tf id d)) as Hin.
  { apply Forall_forall. by intros x [_ Hx%elem_of_ordered]%list_elem_of_filter. }
  induction Hs as [|x l Hl IH Hx]; [constructor|]. apply Forall_cons in Hin as [Hin Hin'].
  constructor; [by apply IH|]. apply Forall_forall. intros y Hy.
  rewrite Forall_forall in Hx, Hin'. apply before_grouped; [done|by apply Hin'|by apply Hx].
Qed.

Lemma first_rows tf id : root_pages tf id -> TF_NextToken tf = "" ->
  yieldTxns false tf d [] =
    (Ok (map (row_of tf d) (take (Z.to_nat (TF_Limit tf)) (matching tf id d))), d, []).
Proof.
  intros Hp Htok. unfold yieldTxns. rewrite Htok, bool_decide_eq_true_2 by done. cbn [negb].
  pose proof (pages_decodable tf id Hp) as Hd. destruct Hp as [Hid Hpf Hr _ Hl Hg _].
  destruct (query_txns_ok tf id d) as (rows & Hq & Hy); [done..|intros x; by apply decodable_matching|].
  unfold tx_bind. rewrite Hq, Hy, query_limit_plain by done. done.
Qed.

(** The page after a row has the first rows of the trees after its tree. *)
Lemma next_rows tf id x : root_pages tf id -> x ∈ matching tf id d ->
  exists token, TxnRow_Next (row_of tf d x) (negb (newest_first tf)) = Ok token /\ token <> "" /\
    (forall y, y ∈ matching tf id d -> root_key y = root_key x ->
       TxnRow_Next (row_of tf d y) (negb (newest_first tf)) = Ok token) /\
    yieldTxns false (set_NextToken tf token) d [] =
      (Ok (map (row_of tf d) (take (Z.to_nat (TF_Limit tf))
         (filter (λ y, before_key (newest_first tf) (root_key x) (root_key y)) (matching tf id d)))), d, []).
Proof.
  intros Hp Hx. destruct (matching_in tf id x Hp Hx) as (Hxd & Hshow & Hpage).
  destruct (stored_tree_of x Hxd) as (i & s & Hr & Hk). pose proof Hr as [Hi Ht].
  destruct (ta_range _ _ _ _ Ht) as (HR & Hi0 & Hlast). pose proof (last_of_ge i s).
  set (nf := newest_first tf). exists (token_at x.1.1 (edge nf i s)).
  assert (0 <= edge nf i s < 2 ^ 31) as He by (unfold edge; destruct nf; lia).
  assert (DecodeTxnRowNext (token_at x.1.1 (edge nf i s)) = Ok (x.1.1, edge nf i s)) as Hdec.
  { apply DecodeTxnRowNext_token_at; unfold is_u64, MaxInt64 in *; lia. }
  split_and!; [destruct x; by apply (tree_token tf nf d)|by intros Htok; rewrite Htok in Hdec| |].
  - intros y Hy Hkey. destruct (matching_in tf id y Hp Hy) as (Hyd & Hshow' & _).
    destruct (stored_tree_of y Hyd) as (i' & s' & Hr' & Hk'). rewrite Hk, Hk' in Hkey.
    injection Hkey as HR' <-. assert (s' = s) as ->.
    { destruct Hr' as [_ Ht']. rewrite HR' in Ht'. by eapply tree_root_eq. }
    rewrite <- HR'. destruct y. by apply (tree_token tf nf d).
  - unfold yieldTxns. change (TF_NextToken (set_NextToken tf ?t)) with t.
    rewrite bool_decide_eq_false_2 by (by intros Htok; rewrite Htok in Hdec). cbn [negb].
    pose proof (pages_decodable tf id Hp) as Hd. destruct Hp as [Hid Hpf Hc [Hlt Hgt] Hl Hg _].
    rewrite (txnsWithNext_exact (set_NextToken tf _) id d x.1.1 (edge nf i s)); try done.
    + change (matching (set_NextToken tf _) id d) with (matching tf id d).
      change (newest_first (set_NextToken tf _)) with nf.
      rewrite (filter_ext_in _ (λ y, before_key nf (root_key x) (root_key y))); [done|].
      intros y [_ Hy%elem_of_ordered]%list_elem_of_filter. rewrite Hk. by apply beyond_edge.
    + unfold resumes. cbn. change (newest_first (set_NextToken tf _)) with nf. rewrite Hlt, Hgt.
      destruct Hpage as (Hmin & Hmax & Hround & _). split; [auto|].
      destruct nf; (split; [|done]); [done|]. destruct (decide (TF_MinRound tf = 0)); [lia|auto].
    + lia.
    + lia.
    + intros _. apply trees_positive.
Qed.
End Trees.

(** ** The importer writes trees *)

(** Every entry of a payset is the root or an inner transaction of one before it, and all of
    the latter name its position. *)
Lemma payset_entries_tree payset idx intra n e :
  payset_entries payset idx intra !! n = Some e ->
  exists p k stib, (p <= n <= p + countInner (SIB_SignedTxnWithAD stib))%nat /\ stib ∈ payset /\
    payset_entries payset idx intra !! p = Some (Root k stib) /\
    forall j, (p < j <= p + countInner (SIB_SignedTxnWithAD stib))%nat ->
      exists itxn, payset_entries payset idx intra !! j = Some (Inner stib (intra + Z.of_nat p) itxn).
Proof.
  revert idx intra n. induction payset as [|stib rest IH]; intros idx intra n; [done|].
  cbn [payset_entries]. set (inner := preorder (SIB_SignedTxnWithAD stib)).
  assert (length inner = countInner (SIB_SignedTxnWithAD stib)) as Hlen by apply length_preorder.
  assert (forall l j, (Root idx stib :: map (Inner stib intra) inner ++ l) !! (S (length inner + j)) = l !! j)
    as Hskip.
  { intros l j. etrans; [apply (lookup_app_r (map (Inner stib intra) inner) l (length inner + j));
      rewrite length_map; lia|]. rewrite length_map. f_equal. lia. }
  intros Hn. destruct (decide (n <= length inner)%nat) as [Hle|Hgt].
  - exists 0%nat, idx, stib. rewrite <- Hlen. split_and!; [lia|lia|left|done|]. intros [|j] Hj; [lia|].
    destruct (lookup_lt_is_Some_2 inner j) as [itxn Hi]; [lia|]. exists itxn. cbn.
    rewrite Z.add_0_r. apply lookup_app_l_Some. by rewrite list_lookup_fmap, Hi.
  - replace n with (S (length inner + (n - S (length inner))))%nat in Hn by lia. rewrite Hskip in Hn.
    destruct (IH _ _ _ Hn) as (p & k & stib' & Hp & Hin & Hroot & Hj).
    exists (S (length inner + p)), k, stib'. split_and!; [lia|lia|by right|by rewrite Hskip|].
    intros j Hj'. destruct (Hj (j - S (length inner))%nat) as [itxn Hi]; [lia|]. exists itxn.
    replace j with (S (length inner + (j - S (length inner))))%nat by lia. rewrite Hskip, Hi.
    do 2 f_equal. lia.
Qed.

Section Importer.
Context `{SdkOps} `{UnicodeOps} `{PgOps} `{Codec signedTxnWithAD} `{Codec TxnExtra}.
Context (block : Block) (m : list SignedTxnInBlock).

(** The extra data of an entry. *)
Definition entry_extra (e : entry) : option TxnExtra :=
  match e with
  | Root idx _ => (λ x, root_extra (AD_AssetClosingAmount (SIB_ApplyData x))) <$> m !! idx
  | Inner root rootIntra itxn => Some {|
      AssetCloseAmount := AD_AssetClosingAmount (STAD_ApplyData itxn);
      RootIntra := {| OU_Present := true; OU_Value := rootIntra |}; RootTxid := root_txid block root |}
  | Payout => Some (root_extra 0)
  end.

(** What is stored of the block can be read back, and PostgreSQL reads the position of the
    root from the extra data. *)
Record block_readable : Prop := {
  br_protocol : exists proto, Consensus (BH_CurrentProtocol (B_Header block)) = Some proto /\
    CP_SupportSignedTxnInBlock proto = true;
  br_stored : forall s, stored block s -> DecodeSignedTxnWithAD (EncodeSignedTxnWithAD s) = Ok s;
  br_extra : forall e extra, e ∈ entries block -> entry_extra e = Some extra ->
    EncodeTxnExtra extra <> "" /\ DecodeTxnExtra (EncodeTxnExtra extra) = Ok extra /\
    pg_text (EncodeTxnExtra extra) ["root-intra"] =
      if OU_Present (RootIntra extra) then Some (FormatUint (OU_Value (RootIntra extra))) else None }.

Lemma entry_row_extra n e r : entry_row block m n e = Ok r ->
  exists extra, entry_extra e = Some extra /\ txr_extra (tc_row r) = EncodeTxnExtra extra /\
    (is_Some (txr_txid (tc_row r)) <-> OU_Present (RootIntra extra) = false).
Proof.
  destruct e as [k stib|root ri itxn|]; cbn [entry_row entry_extra].
  - unfold root_row. destruct (DecodeSignedTxn _ _) as [[st ad]|]; cbn; [|done].
    destruct (GetTypeEnum _); [|done]. destruct (transactionAssetID _ _ _); cbn; [|done].
    destruct (m !! k); [|done]. intros [= <-]. eexists. split_and!; [done..|]. by split; eauto.
  - unfold inner_row. destruct (GetTypeEnum _); [|done]. destruct (transactionAssetID _ _ _); cbn; [|done].
    intros [= <-]. eexists. split_and!; [done..|]. split; [by intros []|done].
  - unfold payout_row. destruct (GetTypeEnum _); [|done]. intros Hr.
    assert (forall x y : txn_copy, Ok x = Ok y -> x = y) as Hok by congruence. apply Hok in Hr. rewrite <- Hr.
    eexists. split_and!; [done..|]. split; eauto.
Qed.

(** The transaction of a root entry. *)
Lemma root_entry_txn (Hb : block_readable) n k stib r : stib ∈ B_Payset block ->
  entry_row block m n (Root k stib) = Ok r ->
  exists s, DecodeSignedTxnWithAD (txr_txn (tc_row r)) = Ok s /\ txid_of s = root_txid block stib /\
    countInner s = countInner (SIB_SignedTxnWithAD stib).
Proof.
  intros Hin. cbn [entry_row]. unfold root_row, root_txid. destruct Hb as [(proto & Hp & Hsup) Hst _].
  destruct (DecodeSignedTxn (B_Header block) stib) as [[st ad]|] eqn:Hdec; cbn; [|done].
  destruct (GetTypeEnum _); [|done]. destruct (transactionAssetID _ _ _); cbn; [|done].
  destruct (m !! k); [|done]. intros [= <-]. exists (StxnAD st ad). cbn [tc_row txr_txn]. split_and!; [|done|].
  - apply Hst. left. eauto 6.
  - unfold DecodeSignedTxn, SIB_ApplyData in Hdec. rewrite Hp, Hsup in Hdec. cbn [negb] in Hdec.
    destruct stib as [[st0 ad0] ? ?]. cbn in Hdec |- *. repeat case_match; by simplify_eq.
Qed.

Lemma tree_at_ext txn txn' R i s : (forall j, txn' !! (R, j) = txn !! (R, j)) ->
  tree_at txn R i s -> tree_at txn' R i s.
Proof.
  intros He [Hr Hroot Hrows]. split; [done|by rewrite He|]. intros j row. rewrite He. apply Hrows.
Qed.

Section Imported.
Context (rows : list txn_copy) (t : gmap (Z * Z) txn_row) (Hb : block_readable).
Context (En : numbered (entry_row block m) 0 (entries block) = Ok rows).
Context (Hfit : Forall (λ r, txn_copy_fits r = true) rows).
Context (Hnew : forall i, t !! (B_Round block, i) = None) (Hround : 0 < B_Round block < MaxInt64).

Lemma entry_imported n e : entries block !! n = Some e ->
  exists r, entry_row block m (Z.of_nat n) e = Ok r /\ 0 <= Z.of_nat n < 2 ^ 31 /\
    (tc_map rows ∪ t) !! (B_Round block, Z.of_nat n) = Some (tc_row r).
Proof.
  intros He. assert (is_Some (rows !! n)) as [r Hr].
  { apply lookup_lt_is_Some. rewrite (numbered_length _ _ _ _ En). apply lookup_lt_is_Some. eauto. }
  destruct (numbered_lookup _ _ _ _ _ _ En Hr) as (e' & He' & Hrow). rewrite He in He'. injection He' as <-.
  cbn in Hrow. destruct (entry_row_key _ _ _ _ _ Hrow) as [HR Hi]. exists r. split; [done|]. split.
  - apply (Forall_lookup_1 _ _ _ _ Hfit) in Hr. unfold txn_copy_fits in Hr. lia.
  - apply lookup_union_Some_l. replace (B_Round block, Z.of_nat n) with (tc_key r)
      by (unfold tc_key; by rewrite HR, Hi).
    apply tc_map_lookup; [|by eapply list_elem_of_lookup_2]. by eapply numbered_NoDup_keys.
Qed.

(** The entry at [p] is the root of [s], and those after it are its inner transactions. *)
Record root_of (p : nat) (s : SignedTxnWithAD) : Prop := {
  ro_root : exists e r, entries block !! p = Some e /\ entry_row block m (Z.of_nat p) e = Ok r /\
    is_Some (txr_txid (tc_row r)) /\ DecodeSignedTxnWithAD (txr_txn (tc_row r)) = Ok s;
  ro_inner : forall j, (p < j <= p + countInner s)%nat -> exists root itxn,
    entries block !! j = Some (Inner root (Z.of_nat p) itxn) /\ root_txid block root = txid_of s }.

Lemma entry_tree_row p s n e r : root_of p s -> (p <= n <= p + countInner s)%nat ->
  entries block !! n = Some e -> entry_row block m (Z.of_nat n) e = Ok r ->
  tree_row (Z.of_nat p) s (Z.of_nat n) (tc_row r).
Proof.
  intros [(e0 & r0 & He0 & Hr0 & Hid0 & _) Hin] Hn He Hr.
  destruct (entry_row_extra _ _ _ Hr) as (extra & Hex & Htext & Hid).
  destruct (br_extra Hb e extra) as (Hne & Hdec & Hpg); [by eapply list_elem_of_lookup_2|done|].
  destruct (decide (n = p)) as [->|Hnp].
  - rewrite He in He0. injection He0 as <-. rewrite Hr in Hr0. injection Hr0 as <-.
    pose proof (proj1 Hid Hid0) as Hroot. split.
    + done.
    + exists extra. rewrite Htext, decide_True by done. done.
    + rewrite Htext, Hpg, Hroot, decide_True by done. done.
  - destruct (Hin n) as (root & itxn & He' & Htx); [lia|]. rewrite He in He'. injection He' as ->.
    cbn in Hex. injection Hex as <-. split.
    + split; [|lia]. intros Hs. by apply Hid in Hs.
    + eexists. rewrite Htext, decide_False by lia. split_and!; [done..|exact Htx].
    + rewrite Htext, Hpg, decide_False by lia. done.
Qed.

Lemma new_tree p s : root_of p s -> tree_at (tc_map rows ∪ t) (B_Round block) (Z.of_nat p) s.
Proof.
  intros Hro. pose proof Hro as [(e0 & r0 & He0 & Hr0 & _ & Hs) Hin].
  destruct (entry_imported p e0 He0) as (r & Hr & Hp & Hl). rewrite Hr0 in Hr. injection Hr as <-.
  split.
  - split_and!; [lia|lia|lia|]. unfold last_of. destruct (countInner s) as [|c] eqn:Hc; [lia|].
    destruct (Hin (p + S c)%nat) as (root & itxn & He & _); [lia|].
    destruct (entry_imported _ _ He) as (_ & _ & ? & _). lia.
  - eauto.
  - intros j row Hj [(n & r & e & _ & [= ->] & -> & He & Hr)|[? _]]%(imported_lookup _ _ _ _ _ _ En Hnew);
      [|done]. unfold last_of in Hj. eapply entry_tree_row; [done|lia|done|done].
Qed.

Lemma entry_root n e : entries block !! n = Some e ->
  exists p s, (p <= n <= p + countInner s)%nat /\ root_of p s.
Proof.
  intros He. pose proof He as He'. unfold entries in He'.
  apply lookup_app_Some in He' as [He'|[Hlen He']].
  - destruct (payset_entries_tree _ _ _ _ _ He') as (p & k & stib & Hp & Hin & Hroot & Hj).
    assert (forall j e, payset_entries (B_Payset block) 0 0 !! j = Some e -> entries block !! j = Some e) as Hl
      by (intros; by apply lookup_app_l_Some).
    destruct (entry_imported p _ (Hl _ _ Hroot)) as (r & Hr & _ & _).
    destruct (root_entry_txn Hb _ _ _ _ Hin Hr) as (s & Hs & Htx & Hc). exists p, s. rewrite Hc.
    split; [done|]. split.
    + exists (Root k stib), r. split_and!; [by apply Hl|done| |done].
      destruct (entry_row_extra _ _ _ Hr) as (extra & Hex & _ & Hid). apply Hid. cbn in Hex.
      by destruct (m !! k); [injection Hex as <-|].
    + intros j Hj'. rewrite Hc in Hj'. destruct (Hj j Hj') as [itxn Hi]. eauto.
  - destruct (0 <? _); [|done]. apply list_lookup_singleton_Some in He' as [Hn <-].
    set (s := SignedTransactionFromBlockPayout block). assert (countInner s = 0%nat) as Hc by done.
    exists n, s. rewrite Hc. split; [lia|]. destruct (entry_imported _ _ He) as (r & Hr & _ & _). split.
    + exists Payout, r. destruct (entry_row_extra _ _ _ Hr) as (extra & [= <-] & _ & Hid).
      split_and!; [done|done|by apply Hid|]. cbn [entry_row] in Hr. unfold payout_row in Hr.
      destruct (GetTypeEnum _); [|done].
      assert (forall x y : txn_copy, Ok x = Ok y -> x = y) as Hok by congruence. apply Hok in Hr.
      rewrite <- Hr. apply (br_stored Hb). by right.
    + rewrite Hc. intros j Hj. lia.
Qed.

Lemma imported_trees : all_trees t -> all_trees (tc_map rows ∪ t).
Proof.
  intros Hold k row [(n & r & e & _ & -> & _ & He & _)|[Hk Hrow]]%(imported_lookup _ _ _ _ _ _ En Hnew).
  - destruct (entry_root n e He) as (p & s & Hp & Hro). exists (Z.of_nat p), s.
    split; [unfold last_of; cbn; lia|]. by apply new_tree.
  - destruct (Hold k row Hrow) as (i & s & Hi & Ht). exists i, s. split; [done|].
    eapply tree_at_ext; [|done]. intros j. apply lookup_union_r.
    destruct (tc_map rows !! (k.1, j)) eqn:E; [|done].
    apply tc_map_lookup_inv in E as (r & (n & Hn)%list_elem_of_lookup_1 & [= HR _] & _).
    destruct (numbered_lookup _ _ _ _ _ _ En Hn) as (x & _ & [Hr _]%entry_row_key). congruence.
Qed.
End Imported.

(** C37. The importer keeps the table a sequence of trees: after the transactions of a block have
    been added, every row is a transaction or one of its inner transactions, which follow it
    without a gap, and each inner row names the position and the id of its root. *)
Theorem AddTransactions_all_trees b rows s :
  block_readable -> yieldTransactions block m None [] = (Ok tt, b, rows) ->
  Forall (λ r, txn_copy_fits r = true) rows ->
  (forall i, t_txn s !! (B_Round block, i) = None) -> 0 < B_Round block < MaxInt64 ->
  all_trees (t_txn s) ->
  exists s', AddTransactions block m s [] = (Ok tt, s', []) /\ all_trees (t_txn s').
Proof.
  intros Hb Hy Hf Hs Hround Htrees. exists (set_txn s (tc_map rows ∪ t_txn s)).
  split; [by eapply AddTransactions_ok|]. cbn [set_txn t_txn].
  apply imported_trees; try done. by eapply yieldTransactions_numbered.
Qed.
End Importer.

(** ** A block with a payment and a call with three inner transactions *)

Module SampleTrees.
#[export] Existing Instances Sample.sdk ascii_print.
Definition block : Block := SampleBlock.block "proposer" 0.

(** The transaction of the payset as it is stored. *)
Definition stored_at (n : nat) : SignedTxnWithAD :=
  match B_Payset block !! n with
  | Some stib =>
      match DecodeSignedTxn (B_Header block) stib with
      | Ok (st, ad) => StxnAD st ad
      | Err _ => SampleBlock.nested
      end
  | None => SampleBlock.nested
  end.

#[export] Instance stxn_codec : Codec signedTxnWithAD := {|
  encodeJSON '(stxnAD s _ _) :=
    if bool_decide (H_Sender (T_Header (ST_Txn (STAD_SignedTxn s))) = "fee sink") then "payout"
    else if bool_decide (T_Type (Txn s) = PaymentTx) then "pay" else "call";
  DecodeJSON t := Ok (convertSignedTxnWithAD (
    if bool_decide (t = "payout") then SignedTransactionFromBlockPayout block
    else if bool_decide (t = "pay") then stored_at 0 else stored_at 1)) |}.
#[export] Instance extra_codec : Codec TxnExtra := {|
  encodeJSON x := if OU_Present (RootIntra x) then "inner" else "root";
  DecodeJSON t := Ok (if bool_decide (t = "inner")
    then {| AssetCloseAmount := 0; RootIntra := {| OU_Present := true; OU_Value := 1 |}; RootTxid := "appl-" |}
    else root_extra 0) |}.
#[export] Instance pg : PgOps := {|
  pg_text doc path := if bool_decide (doc = "inner") && bool_decide (path = ["root-intra"])
    then Some "1" else None;
  pg_number _ _ := None; pg_has _ _ := false; pg_round_before _ _ := None; pg_round_after _ _ := None |}.

Definition rows : list txn_copy := (yieldTransactions block (B_Payset block) None []).2.

Lemma block_is_readable : block_readable block (B_Payset block).
Proof.
  split.
  - eexists. split; reflexivity.
  - intros s [(stib & st & ad & Hin & Hdec & ->)| ->]; [|vm_compute; reflexivity].
    cbn [block SampleBlock.block B_Payset] in Hin. rewrite !elem_of_cons, elem_of_nil in Hin.
    destruct Hin as [-> |[-> |[]]]; injection Hdec as <- <-; vm_compute; reflexivity.
  - intros e extra [n Hn]%list_elem_of_lookup_1 Hex.
    do 5 (destruct n as [|n]; [vm_compute in Hn; injection Hn as <-; vm_compute in Hex; injection Hex as <-;
      split; [discriminate|]; split; vm_compute; reflexivity|]). vm_compute in Hn. discriminate Hn.
Qed.

Lemma empty_trees : all_trees (t_txn SampleBlock.empty).
Proof.
  intros k row Hk. change (t_txn SampleBlock.empty) with (∅ : gmap (Z * Z) txn_row) in Hk.
  by rewrite lookup_empty in Hk.
Qed.

Lemma AddTransactions_all_trees_witness :
  exists s', AddTransactions block (B_Payset block) SampleBlock.empty [] = (Ok tt, s', []) /\
    all_trees (t_txn s').
Proof.
  apply (AddTransactions_all_trees block (B_Payset block) None rows SampleBlock.empty).
  - apply block_is_readable.
  - vm_compute. reflexivity.
  - repeat constructor.
  - intros i. apply lookup_empty.
  - done.
  - apply empty_trees.
Defined.
End SampleTrees.
