(* ===== verification/BlockQuery.v ===== *)
(** * Reading blocks: [GetBlock] and [BlockHeaders] of [idb/postgres/postgres.go]

    [buildBlockHeadersQuery] writes the values of the filter into the SQL text;
    as for transactions, a query is a syntax tree that is printed and executed.
    The theorems say that [GetBlock] returns the transactions of the block that
    was imported, and which headers a search finds. *)

From stdpp Require Import sorting.
From S2P Require Import Prelude GoStd Sdk Idb Util Encoding Db WriteTxn Writer Postgres.
From S2P Require Import Sql TxnQuery TxnPaging.

(** ** [buildBlockHeadersQuery] *)

Inductive header_cond :=
| h_round_le (v : Z) | h_round_ge (v : Z)
| h_after (unix : Z) | h_before (unix : Z)
| h_proposer (l : list Address) | h_expired (l : list Address) | h_absent (l : list Address).

Record header_query := { hq_conds : list header_cond; hq_limit : Z }.

(** [%d] of an [int64]. *)
Section Text.
Context `{SdkOps}.

Definition header_cond_text (c : header_cond) : string :=
  let quoted addr := "'" +:+ AddressString addr +:+ "'" in
  match c with
  | h_round_le v => "bh.round <= " +:+ FormatUint v
  | h_round_ge v => "bh.round >= " +:+ FormatUint v
  | h_after t =>
      "bh.round >= (" +:+ nl 5 +:+ "SELECT tmp.round" +:+ nl 5 +:+ "FROM block_header tmp" +:+
      nl 5 +:+ "WHERE tmp.realtime > (to_timestamp(" +:+ FormatInt t +:+ ") AT TIME ZONE 'UTC')" +:+
      nl 5 +:+ "ORDER BY tmp.realtime ASC, tmp.round ASC" +:+ nl 5 +:+ "LIMIT 1" +:+ nl 4 +:+ ")"
  | h_before t =>
      "bh.round <= (" +:+ nl 4 +:+ "SELECT tmp.round" +:+ nl 4 +:+ "FROM block_header tmp" +:+
      nl 4 +:+ "WHERE tmp.realtime < (to_timestamp(" +:+ FormatInt t +:+ ") AT TIME ZONE 'UTC')" +:+
      nl 4 +:+ "ORDER BY tmp.realtime DESC, tmp.round DESC" +:+ nl 4 +:+ "LIMIT 1" +:+ nl 3 +:+ ")"
  | h_proposer l =>
      "( (bh.header->'prp') IS NOT NULL AND ((bh.header->'prp')::TEXT IN (" +:+
      strings_join "," (map (λ a, "'" +:+ dquote +:+ AddressString a +:+ dquote +:+ "'") l) +:+
      ")) )"
  | h_expired l =>
      "( (bh.header->'partupdrmv') IS NOT NULL AND (bh.header->'partupdrmv') ?| array[" +:+
      strings_join "," (map quoted l) +:+ "] )"
  | h_absent l =>
      "( (bh.header->'partupdabs') IS NOT NULL AND (bh.header->'partupdabs') ?| array[" +:+
      strings_join "," (map quoted l) +:+ "] )"
  end.

Definition header_query_text (q : header_query) : string :=
  nl 3 +:+ "SELECT bh.header" +:+ nl 3 +:+ "FROM block_header bh" +:+ nl 3 +:+
  (if bool_decide (hq_conds q = []) then ""
   else "WHERE " +:+ strings_join " AND " (map header_cond_text (hq_conds q))) +:+
  nl 3 +:+ "ORDER BY bh.round ASC" +:+ nl 3 +:+ "LIMIT " +:+ FormatUint (hq_limit q).
End Text.

Section Blocks.
Context `{SdkOps} `{MapOrder} `{PgOps}.
Context `{Codec signedTxnWithAD} `{Codec TxnExtra} `{Codec ImportState} `{Codec blockHeader}.
Local Open Scope tx_scope.

(** The addresses are visited in the order of the map. *)
Definition when_any (X : gset Address) (f : list Address -> header_cond) : list header_cond :=
  if bool_decide (X = ∅) then [] else [f (range_keys X)].

Definition header_filter_query (bf : BlockHeaderFilter) : header_query := {|
  hq_conds :=
    when_some (BF_MaxRound bf) h_round_le ++
    when_some (BF_MinRound bf) h_round_ge ++
    when_some (BF_AfterTime bf) (λ t, h_after (Time_Unix t)) ++
    when_some (BF_BeforeTime bf) (λ t, h_before (Time_Unix t)) ++
    when_any (BF_Proposers bf) h_proposer ++
    when_any (BF_ExpiredParticipationAccounts bf) h_expired ++
    when_any (BF_AbsentParticipationAccounts bf) h_absent;
  hq_limit := BF_Limit bf |}.

Definition buildBlockHeadersQuery (bf : BlockHeaderFilter) : result string :=
  Ok (header_query_text (header_filter_query bf)).

(** ** Executing it *)

(** The order by time, then by round. *)
Definition time_le (x y : Z * block_header_row) : Prop :=
  bhr_realtime x.2 < bhr_realtime y.2 \/ bhr_realtime x.2 = bhr_realtime y.2 /\ x.1 <= y.1.
#[export] Instance time_le_dec : RelDecision time_le.
Proof. intros x y. unfold time_le. apply _. Defined.

Definition by_time (headers : gmap Z block_header_row) : list (Z * block_header_row) :=
  merge_sort time_le (map_to_list headers).

(** The sub-selects. *)
Definition first_after (headers : gmap Z block_header_row) (t : Z) : option Z :=
  fst <$> head (filter (λ x, t < bhr_realtime x.2) (by_time headers)).
Definition last_before (headers : gmap Z block_header_row) (t : Z) : option Z :=
  fst <$> last (filter (λ x, bhr_realtime x.2 < t) (by_time headers)).

(** The strings of the JSON array at a key. *)
Context (pg_array : string -> string -> option (list string)).

Definition header_holds (headers : gmap Z block_header_row) (x : Z * block_header_row)
    (c : header_cond) : bool :=
  let any_of key l :=
    match pg_array (bhr_header x.2) key with
    | Some a => existsb (λ addr, bool_decide (AddressString addr ∈ a)) l
    | None => false
    end in
  match c with
  | h_round_le v => x.1 <=? v
  | h_round_ge v => v <=? x.1
  | h_after t => match first_after headers (time_Unix t) with Some r => r <=? x.1 | None => false end
  | h_before t => match last_before headers (time_Unix t) with Some r => x.1 <=? r | None => false end
  | h_proposer l =>
      existsb (λ addr, bool_decide (pg_text (bhr_header x.2) ["prp"] = Some (AddressString addr))) l
  | h_expired l => any_of "partupdrmv" l
  | h_absent l => any_of "partupdabs" l
  end.

Definition round_le (x y : Z * block_header_row) : Prop := x.1 <= y.1.
#[export] Instance round_le_dec : RelDecision round_le.
Proof. intros x y. unfold round_le. apply _. Defined.

Definition found_headers (q : header_query) (headers : gmap Z block_header_row)
    : list (Z * block_header_row) :=
  filter (λ x, Forall (λ c, header_holds headers x c = true) (hq_conds q))
    (merge_sort round_le (map_to_list headers)).

Definition exec_header_query (q : header_query) (d : database) : result (list string * database) :=
  if fits_bigint (hq_limit q) then
    Ok (map (λ x, bhr_header x.2)
          (take (Z.to_nat (hq_limit q)) (found_headers q (t_block_header (core d)))), d)
  else Err errBigint.

(** ** [BlockHeaders] *)

Definition zeroBlockHeader : BlockHeader := {|
  BH_Round := 0; BH_Branch := zeros 32; BH_Branch512 := zeros 64; BH_Seed := zeros 32;
  BH_NativeSha512_256Commitment := zeros 32; BH_Sha256Commitment := zeros 32;
  BH_Sha512Commitment := zeros 64; BH_TimeStamp := 0; BH_GenesisID := "";
  BH_GenesisHash := zeroDigest; BH_Proposer := zeroAddress; BH_FeesCollected := 0; BH_Bonus := 0;
  BH_ProposerPayout := 0; BH_FeeSink := zeroAddress; BH_RewardsPool := zeroAddress;
  BH_RewardsLevel := 0; BH_RewardsRate := 0; BH_RewardsResidue := 0;
  BH_RewardsRecalculationRound := 0; BH_CurrentProtocol := ""; BH_NextProtocol := "";
  BH_NextProtocolApprovals := 0; BH_NextProtocolSwitchOn := 0; BH_NextProtocolVoteBefore := 0;
  BH_UpgradePropose := ""; BH_UpgradeDelay := 0; BH_UpgradeApprove := false; BH_TxnCounter := 0;
  BH_StateProofTracking := ∅; BH_ExpiredParticipationAccounts := None;
  BH_AbsentParticipationAccounts := None |}.

Definition block_error_row (e : error) : BlockRow :=
  {| BKR_BlockHeader := zeroBlockHeader; BKR_Error := Some e |}.

(** A header that cannot be read does not end the iteration. *)
Definition yieldBlocksThreadSimple (rows : Rows string)
    : list BlockRow :=
  map (λ row,
    match row with
    | Err e => block_error_row e
    | Ok json =>
        match DecodeBlockHeader json with
        | Ok h => {| BKR_BlockHeader := h; BKR_Error := None |}
        | Err e => block_error_row (ErrWrap "failed to decode block header: %w" e)
        end
    end) (rs_rows rows) ++
  match rs_err rows with Some e => [block_error_row e] | None => [] end.

Definition yieldBlockHeaders (bf : BlockHeaderFilter) : Tx database (list BlockRow) := λ d fs,
  match db_call (exec_header_query (header_filter_query bf)) d fs with
  | (Err e, d, fs) => (Ok [block_error_row (ErrMsg "block query %#v err %v")], d, fs)
  | (Ok l, d, fs) =>
      let '(rows, fs) := scan_rows l fs in (Ok (yieldBlocksThreadSimple rows), d, fs)
  end.

Definition BlockHeaders (bf : BlockHeaderFilter) : Tx database (list BlockRow * Z) :=
  with_round block_error_row (yieldBlockHeaders bf).

(** ** [GetBlock] *)

Record GetBlockOptions := { GBO_Transactions : bool; GBO_MaxTransactionsLimit : Z }.

(** [idb.TransactionFilter{Round: &round, Limit: limit, SkipInnerTransactions: true}]. *)
Definition round_filter (round limit : Z) : TransactionFilter := {|
  TF_SkipOptimization := false; TF_Address := None; TF_AddressRole := 0; TF_MinRound := 0;
  TF_MaxRound := 0; TF_AfterTime := None; TF_BeforeTime := None; TF_TypeEnum := 0; TF_Txid := "";
  TF_Round := Some round; TF_Offset := None; TF_OffsetLT := None; TF_OffsetGT := None;
  TF_SigType := ""; TF_NotePrefix := None; TF_GroupID := None; TF_AlgosGT := None;
  TF_AlgosLT := None; TF_RekeyTo := None; TF_AssetID := None; TF_AssetAmountGT := None;
  TF_AssetAmountLT := None; TF_ApplicationID := None; TF_EffectiveAmountGT := None;
  TF_EffectiveAmountLT := None; TF_NextToken := ""; TF_Limit := limit;
  TF_SkipInnerTransactionConversion := false; TF_SkipInnerTransactions := true;
  TF_HeaderOnly := false; TF_RequireApplicationLogs := false |}.

Definition GetBlock (round : Z) (options : GetBlockOptions)
    : Tx database (BlockHeader * list TxnRow) :=
  db_call (λ d, Ok (tt, d));;;
  json <-- tx_try (db_call (select_header round));
  match json with
  | Err e => tx_err (if bool_decide (e = ErrNoRows) then ErrorBlockNotFound else e)
  | Ok json =>
      header <-- lift (DecodeBlockHeader json);
      if GBO_Transactions options then
        rows <-- query_txns (round_filter round (wrap64 (GBO_MaxTransactionsLimit options + 1)));
        match rows with
        | Err e => tx_err e
        | Ok rows =>
            let results := (yieldTxnsThreadSimple rows).1.1 in
            if GBO_MaxTransactionsLimit options <? Z.of_nat (length results) then
              tx_err ErrMaxTransactions
            else tx_ret (header, results)
        end
      else tx_ret (header, [])
  end.

End Blocks.

(** ** The transactions of a block *)

Section GetBlockTheorem.
Context `{SdkOps} `{UnicodeOps} `{MapOrder} `{PgOps}.
Context `{Codec signedTxnWithAD} `{Codec TxnExtra} `{Codec ImportState} `{Codec blockHeader}.

Definition decoded (block : Block) (stib : SignedTxnInBlock) : option SignedTxnWithAD :=
  match DecodeSignedTxn (B_Header block) stib with
  | Ok (st, ad) => Some (StxnAD st ad)
  | Err _ => None
  end.

(** The transactions of the payset and the payout. *)
Definition block_transactions (block : Block) : list SignedTxnWithAD :=
  omap (decoded block) (B_Payset block) ++
  (if 0 <? BH_ProposerPayout (B_Header block) then [SignedTransactionFromBlockPayout block] else []).

Definition entry_stxn (block : Block) (e : entry) : option SignedTxnWithAD :=
  match e with
  | Root _ stib => decoded block stib
  | Inner _ _ _ => None
  | Payout => Some (SignedTransactionFromBlockPayout block)
  end.

Lemma omap_inner block stib n l : omap (entry_stxn block) (map (Inner stib n) l) = [].
Proof. induction l as [|x l IH]; [done|]. cbn. apply IH. Qed.

Lemma payset_transactions block payset idx n :
  omap (entry_stxn block) (payset_entries payset idx n) = omap (decoded block) payset.
Proof.
  revert idx n. induction payset as [|stib rest IH]; intros idx n; [done|].
  cbn [payset_entries omap list_omap entry_stxn].
  rewrite omap_app, omap_inner, IH. by destruct (decoded block stib).
Qed.

Lemma entries_transactions block :
  omap (entry_stxn block) (entries block) = block_transactions block.
Proof.
  unfold entries, block_transactions. rewrite omap_app, payset_transactions.
  f_equal. by destruct (0 <? _).
Qed.

(** A row with an id holds the transaction of its entry. *)
Lemma entry_row_stxn block m n e r :
  entry_row block m n e = Ok r ->
  match entry_stxn block e with
  | Some s => is_Some (txr_txid (tc_row r)) /\ txr_txn (tc_row r) = EncodeSignedTxnWithAD s /\
              exists extra, txr_extra (tc_row r) = EncodeTxnExtra extra /\ stored_extra m extra
  | None => txr_txid (tc_row r) = None
  end.
Proof.
  destruct e as [k stib|root ri itxn|]; cbn [entry_row entry_stxn].
  - unfold decoded, root_row. destruct (DecodeSignedTxn _ _) as [[st ad]|]; cbn; [|done].
    destruct (GetTypeEnum _); cbn; [|done]. destruct (transactionAssetID _ _ _); cbn; [|done].
    destruct (m !! k) as [stm|] eqn:Hm; cbn; [|done]. intros [= <-]. cbn.
    split_and!; [eauto|done|]. eexists. split; [done|]. left. exists stm.
    split; [by eapply list_elem_of_lookup_2|done].
  - apply inner_row_txid.
  - unfold payout_row. destruct (GetTypeEnum _); [|done]. intros Hr.
    assert (Hok : forall x y : txn_copy, Ok x = Ok y -> x = y) by congruence.
    apply Hok in Hr. rewrite <- Hr. cbn [tc_row txr_txid txr_txn txr_extra].
    split_and!; [eauto|done|]. eexists. split; [done|]. by right.
Qed.

Definition kv (r : txn_copy) : Z * Z * txn_row := (tc_key r, tc_row r).

Definition has_id (x : Z * Z * txn_row) : Prop := is_Some (txr_txid x.2).
#[local] Instance has_id_dec x : Decision (has_id x).
Proof. unfold has_id. apply _. Defined.

Lemma root_rows_transactions block m d tf n l rows :
  TF_SkipInnerTransactions tf = true ->
  (forall s, Some s ∈ map (entry_stxn block) l -> DecodeSignedTxnWithAD (EncodeSignedTxnWithAD s) = Ok s) ->
  (forall extra, stored_extra m extra ->
     EncodeTxnExtra extra <> "" /\ DecodeTxnExtra (EncodeTxnExtra extra) = Ok extra) ->
  numbered (entry_row block m) n l = Ok rows ->
  map (λ x, TR_Txn (row_of tf d x)) (filter has_id (map kv rows)) =
    map Some (omap (entry_stxn block) l) /\
  Forall (λ x, TR_Error (row_of tf d x) = None) (filter has_id (map kv rows)).
Proof.
  intros Hskip Hread Hextra. revert n rows. induction l as [|e l IH]; intros n rows; cbn;
    [by intros [= <-]|].
  destruct (entry_row block m n e) as [r|] eqn:Hr; cbn; [|done].
  destruct (numbered _ (n + 1) l) as [rs|] eqn:Hn; cbn; [|done]. intros [= <-].
  destruct (IH ltac:(intros s Hs; apply Hread; by right) _ _ Hn) as [IH1 IH2].
  apply entry_row_stxn in Hr. cbn [map]. destruct (entry_stxn block e) as [s|] eqn:Es.
  - destruct Hr as (Hid & Htxn & extra & Hex & Hse). destruct (Hextra extra Hse) as [Hne Hdx].
    rewrite (filter_cons_True has_id) by done.
    assert (TR_Txn (row_of tf d (kv r)) = Some s /\ TR_Error (row_of tf d (kv r)) = None)
      as [Ht He].
    { unfold kv. rewrite (row_of_root tf d (tc_key r) (tc_row r) s extra); try done.
      - rewrite Htxn. apply Hread. cbn [map]. rewrite Es. by left.
      - by rewrite Hex.
      - by rewrite Hex. }
    split; [cbn [map]; by rewrite Ht, IH1|by constructor].
  - by rewrite (filter_cons_False has_id) by (unfold has_id, kv; cbn; rewrite Hr; by intros []).
Qed.

(** The table holds exactly the block's rows in its round. *)
Definition holds_block (block : Block) (m : list SignedTxnInBlock) (rows : list txn_copy)
    (d : database) : Prop :=
  numbered (entry_row block m) 0 (entries block) = Ok rows /\
  forall i, t_txn (txns d) !! (B_Round block, i) = tc_map rows !! (B_Round block, i).

Lemma rows_sorted block m n l rows :
  numbered (entry_row block m) n l = Ok rows -> StronglySorted key_lt (map kv rows).
Proof.
  revert n rows. induction l as [|e l IH]; intros n rows; cbn; [intros [= <-]; constructor|].
  destruct (entry_row block m n e) as [r|] eqn:Hr; cbn; [|done].
  destruct (numbered _ (n + 1) l) as [rs|] eqn:Hn; cbn; [|done]. intros [= <-].
  cbn [map]. constructor; [by eapply IH|]. apply Forall_forall.
  intros x (r' & -> & (i & Hi)%list_elem_of_lookup_1)%list_elem_of_fmap.
  destruct (numbered_lookup _ _ _ _ _ _ Hn Hi) as (e' & _ & [Hk1 Hk2]%entry_row_key).
  apply entry_row_key in Hr as [Hr1 Hr2].
  unfold key_lt, kv, tc_key. cbn. rewrite Hr1, Hr2, Hk1, Hk2. lia.
Qed.

#[local] Instance key_lt_anti : AntiSymm (=) key_lt.
Proof. intros [[r1 i1] t1] [[r2 i2] t2]. unfold key_lt. cbn. lia. Qed.

(** The rows of the round in order are the block's rows. *)
Lemma round_rows block m rows d :
  holds_block block m rows d ->
  filter (λ x : Z * Z * txn_row, x.1.1 = B_Round block) (ordered false d) = map kv rows.
Proof.
  intros [Hn Ht].
  apply (StronglySorted_unique key_lt).
  - apply StronglySorted_filter. apply (ordered_sorted false d).
  - by eapply rows_sorted.
  - apply NoDup_Permutation.
    + apply NoDup_filter. unfold ordered. rewrite merge_sort_Permutation. apply NoDup_map_to_list.
    + eapply NoDup_fmap_1 with (f := fst). rewrite <- list_fmap_compose.
      by eapply numbered_NoDup_keys.
    + intros [[r i] row]. rewrite list_elem_of_filter, elem_of_ordered. cbn. split.
      * intros [-> Hrow]. rewrite Ht in Hrow.
        apply tc_map_lookup_inv in Hrow as (r' & Hin & Hk & <-).
        apply list_elem_of_fmap. exists r'. unfold kv. by rewrite Hk.
      * intros (r' & Heq & Hin)%list_elem_of_fmap. unfold kv in Heq.
        pose proof Hin as (j & Hj)%list_elem_of_lookup_1.
        destruct (numbered_lookup _ _ _ _ _ _ Hn Hj) as (e' & _ & [Hk1 Hk2]%entry_row_key).
        injection Heq as -> -> ->. split; [done|].
        rewrite Hk1, Ht. rewrite <- Hk1. apply (tc_map_lookup rows r'); [|done].
        by eapply numbered_NoDup_keys.
Qed.

Lemma wanted_round round limit d x :
  wanted (round_filter round limit) None d x <->
  is_Some (t_block_header (core d) !! x.1.1) /\ x.1.1 = round /\ has_id x.
Proof.
  rewrite wanted_split. change (rest_conds (round_filter round limit) None) with [c_root].
  unfold in_page. rewrite Forall_singleton. cbn [holds round_filter TF_Address TF_MinRound
    TF_MaxRound TF_Round TF_OffsetLT TF_OffsetGT]. rewrite bool_decide_eq_true. unfold has_id.
  split; [|naive_solver]. intros (? & _ & (_ & _ & Hr & _) & ?).
  split_and!; [done|by apply Hr|done].
Qed.

Lemma matching_round block m rows d limit :
  holds_block block m rows d -> is_Some (t_block_header (core d) !! B_Round block) ->
  matching (round_filter (B_Round block) limit) None d = filter has_id (map kv rows).
Proof.
  intros Hb Hh. rewrite <- (round_rows block m rows d Hb), list_filter_filter.
  unfold matching. change (newest_first (round_filter (B_Round block) limit)) with false.
  apply filter_ext_in. intros x _. rewrite wanted_round. split; [tauto|].
  intros [? Heq]. by rewrite Heq.
Qed.

Lemma entry_stored block e s :
  e ∈ entries block -> Some s = entry_stxn block e -> stored block s.
Proof.
  intros He. destruct e as [k stib| |]; cbn; [|done|by intros [= ->]; right].
  unfold decoded. destruct (DecodeSignedTxn _ _) as [[st ad]|] eqn:Hd; [|done].
  intros [= ->]. left. exists stib, st, ad. split_and!; [|done..].
  apply elem_of_app in He as [He|He]; [by eapply payset_entries_elem|].
  destruct (0 <? _); set_solver.
Qed.

(** A row has the transaction or its root, not both. *)
Lemma decode_row_exclusive r :
  is_Some (TR_Txn (decode_row r).1) -> TR_RootTxn (decode_row r).1 = None.
Proof.
  unfold decode_row. destruct (rt_roottxn r).
  - destruct (decode_stxn _ s). case_bool_decide; [by intros []|]. destruct (DecodeTxnExtra _); by intros [].
  - destruct (decode_stxn _ _). case_bool_decide; [done|]. by destruct (DecodeTxnExtra _).
Qed.

Lemma GetBlock_block block m rows d json header options :
  holds_block block m rows d -> readable block m ->
  t_block_header (core d) !! B_Round block = Some json ->
  DecodeBlockHeader (bhr_header json) = Ok header ->
  fits_bigint (B_Round block) = true ->
  GBO_Transactions options = true -> 0 <= GBO_MaxTransactionsLimit options < MaxInt64 ->
  Z.of_nat (length (block_transactions block)) <= GBO_MaxTransactionsLimit options ->
  exists results, GetBlock (B_Round block) options d [] = (Ok (header, results), d, []) /\
    map TR_Txn results = map Some (block_transactions block) /\
    Forall (λ r, TR_Error r = None /\ TR_RootTxn r = None) results.
Proof.
  intros Hb [Hread Hextra] Hh Hdec Hfit Hopt Hmax Hlen. destruct Hb as [Hn Ht].
  set (tf := round_filter (B_Round block) (wrap64 (GBO_MaxTransactionsLimit options + 1))).
  assert (matching tf None d = filter has_id (map kv rows)) as Hm.
  { apply (matching_round block m); [done|eauto]. }
  destruct (root_rows_transactions block m d tf 0 (entries block) rows) as [Htx Herr]; try done.
  { intros s (e & He & Hin)%list_elem_of_fmap. apply Hread. by eapply entry_stored. }
  rewrite entries_transactions in Htx. rewrite <- Hm in Htx, Herr.
  assert (length (matching tf None d) = length (block_transactions block)) as Hl.
  { apply (f_equal length) in Htx. by rewrite !length_map in Htx. }
  assert (TF_Limit tf = GBO_MaxTransactionsLimit options + 1) as Hlim.
  { cbn. apply wrap64_small. unfold is_u64, MaxInt64 in *. lia. }
  destruct (query_txns_ok tf None d) as (qrows & Hq & Hy); [done|..].
  - unfold page_fits. rewrite Hlim. split_and!; try done.
    + unfold fits_bigint, MaxInt64 in *. lia.
    + intros r [= <-]. done.
  - by repeat constructor.
  - by apply Forall_forall.
  - exists (map (row_of tf d) (matching tf None d)).
    split_and!; [|by rewrite map_map|].
    2: { apply Forall_map, Forall_forall. intros x Hx. rewrite Forall_forall in Herr.
         split; [by apply Herr|].
         assert (TR_Txn (row_of tf d x) ∈ map Some (block_transactions block))
           as (s & Hs & _)%list_elem_of_fmap_1.
         { rewrite <- Htx. by apply (list_elem_of_fmap_2 (λ x, TR_Txn (row_of tf d x))). }
         apply decode_row_exclusive. exists s. exact Hs. }
    unfold GetBlock, tx_bind, tx_try, db_call, select_header.
    cbn beta iota zeta delta [tail]. rewrite Hfit, Hh. cbn beta iota zeta delta [tail].
    unfold lift. rewrite Hdec, Hopt. cbn beta iota zeta. fold tf.
    rewrite Hq, Hy, query_limit_plain by (done || lia). cbn [limited fst].
    rewrite take_ge by lia. rewrite length_map, Hl.
    destruct (Z.ltb_spec (GBO_MaxTransactionsLimit options)
      (Z.of_nat (length (block_transactions block)))); [lia|done].
Qed.

(** C11. [GetBlock] returns the block that was imported: its header, and exactly
    the transactions of its payset, decoded with their genesis fields, followed by
    the proposer payout if there is one, in order and without the rows of inner
    transactions, provided there are no more than the caller allows. *)
Theorem GetBlock_returns_block block m rows d json header options :
  holds_block block m rows d -> readable block m ->
  t_block_header (core d) !! B_Round block = Some json ->
  DecodeBlockHeader (bhr_header json) = Ok header ->
  fits_bigint (B_Round block) = true ->
  GBO_Transactions options = true -> 0 <= GBO_MaxTransactionsLimit options < MaxInt64 ->
  Z.of_nat (length (block_transactions block)) <= GBO_MaxTransactionsLimit options ->
  exists results, GetBlock (B_Round block) options d [] = (Ok (header, results), d, []) /\
    map TR_Txn results = map Some (block_transactions block) /\
    Forall (λ r, TR_Error r = None) results.
Proof.
  intros. destruct (GetBlock_block block m rows d json header options) as (results & ? & ? & Hr); [done..|].
  exists results. split_and!; [done..|]. by eapply Forall_impl; [exact Hr|intros ? []].
Qed.
End GetBlockTheorem.

(** ** Time as a range of rounds *)

Section Times.
Context (headers : gmap Z block_header_row).

(** Block times do not decrease. *)
Definition times_ordered : Prop :=
  forall r1 r2 h1 h2, headers !! r1 = Some h1 -> headers !! r2 = Some h2 -> r1 < r2 ->
    bhr_realtime h1 <= bhr_realtime h2.
Context (Hord : times_ordered).

#[local] Instance time_le_total : Total time_le.
Proof. intros x y. unfold time_le. lia. Qed.
#[local] Instance time_le_trans : Transitive time_le.
Proof. intros x y z. unfold time_le. lia. Qed.

Lemma elem_of_by_time x : x ∈ by_time headers <-> headers !! x.1 = Some x.2.
Proof.
  unfold by_time. rewrite merge_sort_Permutation. destruct x. apply elem_of_map_to_list.
Qed.

Lemma by_time_sorted : StronglySorted time_le (by_time headers).
Proof. apply (StronglySorted_merge_sort _). Qed.

(** Time order and round order agree. *)
Lemma time_le_round x y :
  headers !! x.1 = Some x.2 -> headers !! y.1 = Some y.2 -> time_le x y <-> x.1 <= y.1.
Proof.
  intros Hx Hy. unfold time_le. split.
  - intros [Hlt|[_ ?]]; [|done]. destruct (Z.le_gt_cases x.1 y.1) as [|Hgt]; [done|].
    pose proof (Hord _ _ _ _ Hy Hx Hgt). lia.
  - intros Hle. destruct (decide (x.1 = y.1)) as [Heq|Hne].
    + rewrite Heq in Hx |- *. rewrite Hx in Hy. injection Hy as ->. lia.
    + pose proof (Hord x.1 y.1 x.2 y.2 Hx Hy). lia.
Qed.

#[local] Instance time_le_refl : Reflexive time_le.
Proof. intros x. unfold time_le. lia. Qed.

Lemma first_after_spec t r row :
  headers !! r = Some row ->
  match first_after headers t with Some r0 => r0 <=? r | None => false end = true <->
  t < bhr_realtime row.
Proof.
  intros Hr. unfold first_after.
  set (l := filter (λ x, t < bhr_realtime x.2) (by_time headers)).
  assert (StronglySorted time_le l) as Hs by apply StronglySorted_filter, by_time_sorted.
  destruct (head l) as [x|] eqn:Hx; cbn.
  - assert (x ∈ l) as [Ht Hin%elem_of_by_time]%list_elem_of_filter.
    { apply head_Some_elem_of in Hx. done. }
    rewrite Z.leb_le. split.
    + intros Hle%(time_le_round x (r, row) Hin Hr). unfold time_le in Hle. cbn in Hle. lia.
    + intros Hlt. apply (time_le_round x (r, row) Hin Hr).
      apply (head_sorted time_le l); [done|done|].
      apply list_elem_of_filter. split; [done|]. by apply elem_of_by_time.
  - split; [done|]. intros Hlt. exfalso.
    assert ((r, row) ∈ l) as Hin.
    { apply list_elem_of_filter. split; [done|]. by apply elem_of_by_time. }
    destruct l; [by apply elem_of_nil in Hin|done].
Qed.

Lemma last_before_spec t r row :
  headers !! r = Some row ->
  match last_before headers t with Some r0 => r <=? r0 | None => false end = true <->
  bhr_realtime row < t.
Proof.
  intros Hr. unfold last_before.
  set (l := filter (λ x, bhr_realtime x.2 < t) (by_time headers)).
  assert (StronglySorted time_le l) as Hs by apply StronglySorted_filter, by_time_sorted.
  destruct (last l) as [x|] eqn:Hx; cbn.
  - assert (x ∈ l) as [Ht Hin%elem_of_by_time]%list_elem_of_filter.
    { apply last_Some in Hx as [l' ->]. apply elem_of_app. right. by left. }
    rewrite Z.leb_le. split.
    + intros Hle%(time_le_round (r, row) x Hr Hin). unfold time_le in Hle. cbn in Hle. lia.
    + intros Hlt. apply (time_le_round (r, row) x Hr Hin).
      apply (last_sorted time_le l); [done|done|].
      apply list_elem_of_filter. split; [done|]. by apply elem_of_by_time.
  - split; [done|]. intros Hlt. exfalso. apply last_None in Hx.
    assert ((r, row) ∈ l) as Hin.
    { apply list_elem_of_filter. split; [done|]. by apply elem_of_by_time. }
    rewrite Hx in Hin. by apply elem_of_nil in Hin.
Qed.
End Times.

(** ** What a search for headers finds *)

Section HeaderSearch.
Context `{SdkOps} `{!SdkLaws} `{MapOrder} `{PgOps}.
Context (pg_array : string -> string -> option (list string)).

(** The document of a header: addresses as text, and what is empty left out. *)
Record header_doc (doc : string) (h : BlockHeader) : Prop := {
  hd_proposer : pg_text doc ["prp"] =
    if Address_IsZero (BH_Proposer h) then None else Some (AddressString (BH_Proposer h));
  hd_expired : pg_array doc "partupdrmv" =
    match BH_ExpiredParticipationAccounts h with
    | Some l => Some (map AddressString l) | None => None end;
  hd_absent : pg_array doc "partupdabs" =
    match BH_AbsentParticipationAccounts h with
    | Some l => Some (map AddressString l) | None => None end }.

Definition is_address (a : Address) : Prop := String.length a = 32%nat.
Definition header_addresses (h : BlockHeader) : Prop :=
  is_address (BH_Proposer h) /\ Forall is_address (slice (BH_ExpiredParticipationAccounts h)) /\
  Forall is_address (slice (BH_AbsentParticipationAccounts h)).

(** The meaning of a filter. *)
Record header_matches (bf : BlockHeaderFilter) (r realtime : Z) (h : BlockHeader) : Prop := {
  hm_max : forall v, BF_MaxRound bf = Some v -> r <= v;
  hm_min : forall v, BF_MinRound bf = Some v -> v <= r;
  hm_after : forall t, BF_AfterTime bf = Some t -> time_Unix (Time_Unix t) < realtime;
  hm_before : forall t, BF_BeforeTime bf = Some t -> realtime < time_Unix (Time_Unix t);
  hm_proposer : BF_Proposers bf <> ∅ ->
    BH_Proposer h ∈ BF_Proposers bf /\ BH_Proposer h <> zeroAddress;
  hm_expired : BF_ExpiredParticipationAccounts bf <> ∅ ->
    exists a, a ∈ BF_ExpiredParticipationAccounts bf /\
              a ∈ slice (BH_ExpiredParticipationAccounts h);
  hm_absent : BF_AbsentParticipationAccounts bf <> ∅ ->
    exists a, a ∈ BF_AbsentParticipationAccounts bf /\
              a ∈ slice (BH_AbsentParticipationAccounts h) }.

Lemma AddressString_inj a b :
  is_address a -> is_address b -> AddressString a = AddressString b -> a = b.
Proof.
  intros Ha Hb Heq. apply DecodeAddress_String in Ha, Hb. rewrite Heq in Ha. congruence.
Qed.

Lemma elem_of_range_keys X a : a ∈ range_keys X <-> a ∈ X.
Proof. rewrite range_keys_perm. apply elem_of_elements. Qed.

Lemma Forall_when_any (P : header_cond -> Prop) X f :
  Forall P (when_any X f) <-> (X <> ∅ -> P (f (range_keys X))).
Proof.
  unfold when_any. case_bool_decide; rewrite ?Forall_singleton, ?Forall_nil; naive_solver.
Qed.
Lemma any_of_spec X (o : option (list Address)) :
  set_Forall is_address X -> Forall is_address (slice o) ->
  match (match o with Some l => Some (map AddressString l) | None => None end) with
  | Some a => existsb (λ addr, bool_decide (AddressString addr ∈ a)) (range_keys X)
  | None => false
  end = true <-> exists a, a ∈ X /\ a ∈ slice o.
Proof.
  intros HX Ho. destruct o as [l|]; cbn in *;
    [|split; [done|]; by intros (a & _ & ?%elem_of_nil)].
  rewrite existsb_exists. split.
  - intros (a & Ha%list_elem_of_In%elem_of_range_keys & Hin%bool_decide_eq_true).
    apply list_elem_of_fmap in Hin as (b & Heq & Hb).
    rewrite Forall_forall in Ho. apply AddressString_inj in Heq as ->; eauto.
  - intros (a & HaX & Hal). exists a. split; [by apply list_elem_of_In, elem_of_range_keys|].
    apply bool_decide_eq_true. by apply list_elem_of_fmap_2.
Qed.

Lemma proposer_spec X h :
  set_Forall is_address X -> is_address (BH_Proposer h) ->
  existsb (λ addr, bool_decide
    ((if Address_IsZero (BH_Proposer h) then None else Some (AddressString (BH_Proposer h))) =
     Some (AddressString addr))) (range_keys X) = true <->
  BH_Proposer h ∈ X /\ BH_Proposer h <> zeroAddress.
Proof.
  intros HX Hh. rewrite existsb_exists. split.
  - intros (a & Ha%list_elem_of_In%elem_of_range_keys & Heq%bool_decide_eq_true).
    destruct (Address_IsZero (BH_Proposer h)) eqn:Hz; [done|]. injection Heq as Heq.
    apply AddressString_inj in Heq as <-; [|done|by apply HX]. split; [done|].
    intros Hz'%Address_IsZero_spec. congruence.
  - intros [HinX Hz]. exists (BH_Proposer h).
    split; [by apply list_elem_of_In, elem_of_range_keys|]. apply bool_decide_eq_true.
    destruct (Address_IsZero (BH_Proposer h)) eqn:E; [by apply Address_IsZero_spec in E|done].
Qed.

(** A search for block headers finds exactly the headers the filter describes:
    for block times that do not decrease, the ranges of rounds that the SQL
    computes from the times select the blocks after the one time and before the
    other, both rounded down to whole seconds. *)
Theorem BlockHeaders_finds bf headers r row h :
  times_ordered headers -> headers !! r = Some row -> header_doc (bhr_header row) h ->
  header_addresses h -> set_Forall is_address (BF_Proposers bf) ->
  set_Forall is_address (BF_ExpiredParticipationAccounts bf) ->
  set_Forall is_address (BF_AbsentParticipationAccounts bf) ->
  (r, row) ∈ found_headers pg_array (header_filter_query bf) headers <->
  header_matches bf r (bhr_realtime row) h.
Proof.
  intros Hord Hr [Hprp Hexp Habs] (Hp & He & Ha) HP HE HA.
  unfold found_headers. rewrite list_elem_of_filter, merge_sort_Permutation.
  rewrite elem_of_map_to_list. unfold header_filter_query. cbn [hq_conds].
  rewrite !Forall_app, !Forall_when_some, !Forall_when_any. cbn [header_holds fst snd].
  rewrite Hprp, Hexp, Habs, !any_of_spec, proposer_spec by done.
  setoid_rewrite (first_after_spec headers Hord _ r row Hr).
  setoid_rewrite (last_before_spec headers Hord _ r row Hr).
  setoid_rewrite Z.leb_le. split.
  - intros [(? & ? & ? & ? & ? & ? & ?) _]. by constructor.
  - intros []. split; [|done]. done.
Qed.
End HeaderSearch.

(** A block is not found by a search for blocks before a time less than a
    second after it: the time is cut to whole seconds, so that a block of 12:00:00
    is not before 12:00:00.5. *)
Theorem BlockHeaders_before_fraction `{SdkOps} `{MapOrder} `{PgOps} pg_array bf headers r row
    sec before :
  times_ordered headers -> headers !! r = Some row -> bhr_realtime row = time_Unix sec ->
  BF_BeforeTime bf = Some before -> time_Unix sec < before < time_Unix (sec + 1) ->
  (r, row) ∉ found_headers pg_array (header_filter_query bf) headers.
Proof.
  intros Hord Hr Hsec Hb Hlt [Hc _]%list_elem_of_filter.
  unfold header_filter_query in Hc. cbn [hq_conds] in Hc.
  rewrite !Forall_app, !Forall_when_some in Hc. destruct Hc as (_ & _ & _ & Hc & _).
  specialize (Hc before Hb). cbn [header_holds fst snd] in Hc.
  apply (last_before_spec headers Hord _ r row Hr) in Hc.
  rewrite Hsec in Hc. unfold time_Unix, Time_Unix in *. change (10 ^ 9) with 1000000000 in *.
  Z.to_euclidean_division_equations. lia.
Qed.

(** ** Concrete blocks *)

Section Witnesses.
#[local] Existing Instance Sample.sdk.
#[local] Existing Instance Sample.sdk_laws.
#[local] Existing Instance ascii_print.
#[local] Existing Instance call_codec.
#[local] Existing Instance amount_codec.
#[local] Existing Instance SampleBlock.order.
#[local] Existing Instance SampleSearch.pg.
#[local] Existing Instance SampleSearch.import_codec.
#[local] Instance header_codec : Codec blockHeader :=
  one_document (convertBlockHeader zeroBlockHeader).

Definition call_rows : list txn_copy :=
  (yieldTransactions call_block (B_Payset call_block) None []).2.
Definition call_header : block_header_row :=
  {| bhr_realtime := time_Unix 100; bhr_rewardslevel := 0; bhr_header := document |}.
Definition call_db : database := {|
  core := {| t_block_header := {[ 5 := call_header ]}; t_account := ∅; t_account_asset := ∅;
             t_asset := ∅; t_app := ∅; t_account_app := ∅; t_app_box := ∅; t_metastate := ∅ |};
  txns := {| t_txn := tc_map call_rows; t_txn_participation := ∅ |} |}.

Lemma call_block_readable : readable call_block (B_Payset call_block).
Proof.
  split.
  - intros s [(stib & st & ad & Hin & Hdec & ->)| ->]; [|vm_compute; reflexivity].
    apply list_elem_of_singleton in Hin as ->. injection Hdec as <- <-. vm_compute. reflexivity.
  - intros extra [(stib & Hin & ->)| ->].
    + apply list_elem_of_singleton in Hin as ->. split; [discriminate|vm_compute; reflexivity].
    + split; [discriminate|vm_compute; reflexivity].
Qed.

Lemma GetBlock_returns_block_witness :
  block_transactions call_block = [call_stxn] /\ length call_rows = 4%nat /\
  exists results,
    GetBlock 5 {| GBO_Transactions := true; GBO_MaxTransactionsLimit := 10 |} call_db [] =
      (Ok (zeroBlockHeader, results), call_db, []) /\
    map TR_Txn results = map Some (block_transactions call_block) /\
    Forall (λ r, TR_Error r = None) results.
Proof.
  split; [vm_compute; reflexivity|]. split; [vm_compute; reflexivity|].
  apply (GetBlock_returns_block call_block (B_Payset call_block) call_rows call_db call_header
           zeroBlockHeader).
  - split; [vm_compute; reflexivity|]. done.
  - apply call_block_readable.
  - reflexivity.
  - vm_compute. reflexivity.
  - reflexivity.
  - reflexivity.
  - done.
  - vm_compute. discriminate.
Defined.

Definition one_header : gmap Z block_header_row := {[ 5 := call_header ]}.
Lemma one_header_ordered : times_ordered one_header.
Proof.
  unfold one_header. intros r1 r2 h1 h2 Hr1 Hr2.
  apply lookup_singleton_Some in Hr1 as [<- _], Hr2 as [<- _]. lia.
Qed.
Definition no_array (doc key : string) : option (list string) := None.
Definition since (after before : option Z) : BlockHeaderFilter := {|
  BF_Limit := 10; BF_MaxRound := Some 9; BF_MinRound := None; BF_AfterTime := after;
  BF_BeforeTime := before; BF_Proposers := ∅; BF_ExpiredParticipationAccounts := ∅;
  BF_AbsentParticipationAccounts := ∅ |}.

Lemma BlockHeaders_finds_witness :
  (5, call_header) ∈ found_headers no_array (header_filter_query (since (Some 1) None)) one_header
  <-> header_matches (since (Some 1) None) 5 (time_Unix 100) zeroBlockHeader.
Proof.
  apply (BlockHeaders_finds no_array (since (Some 1) None) one_header 5 call_header zeroBlockHeader).
  - apply one_header_ordered.
  - reflexivity.
  - constructor; vm_compute; reflexivity.
  - repeat split; try constructor.
  - intros a Ha. set_solver.
  - intros a Ha. set_solver.
  - intros a Ha. set_solver.
Defined.

Lemma BlockHeaders_before_fraction_witness :
  (5, call_header) ∉
    found_headers no_array (header_filter_query (since None (Some (time_Unix 100 + 500000000))))
      one_header.
Proof.
  apply (BlockHeaders_before_fraction no_array _ one_header 5 call_header 100
           (time_Unix 100 + 500000000)).
  - apply one_header_ordered.
  - reflexivity.
  - reflexivity.
  - reflexivity.
  - done.
Defined.
End Witnesses.
