(* ===== verification/ResourceQuery.v ===== *)
(** * Assets, balances, applications and boxes: the queries of [idb/postgres/postgres.go]

    [Assets], [AssetBalances], [Applications], [AppLocalState] and
    [ApplicationBoxes] select rows of one table by the fields of a query, in the
    order of a key, and send them on a channel.  Each query is a list of
    conditions, printed to the text that the source sends and executed on the
    table.  The theorems say which rows a query returns and in which order, and
    that resuming after the last row visits them all. *)

From stdpp Require Import sorting.
From S2P Require Import Prelude GoStd Sdk Idb Models Util Encoding Db WriteTxn Writer Postgres Sql.

(** ** Query and row types of [idb/idb.go] *)

Record AssetsQuery := {
  AQ_AssetID : option Z; AQ_AssetIDGreaterThan : option Z; AQ_Creator : option string;
  AQ_Name : string; AQ_Unit : string; AQ_Query : string; AQ_IncludeDeleted : bool;
  AQ_Limit : Z }.
Record AssetRow := {
  AsR_AssetID : Z; AsR_Creator : string; AsR_Params : AssetParams; AsR_Error : option error;
  AsR_CreatedRound : option Z; AsR_ClosedRound : option Z; AsR_Deleted : option bool }.

Record AssetBalanceQuery := {
  BQ_AssetID : option Z; BQ_AssetIDGT : option Z; BQ_AmountGT : option Z; BQ_AmountLT : option Z;
  BQ_Address : option string; BQ_IncludeDeleted : bool; BQ_Limit : Z; BQ_PrevAddress : string }.
Record AssetBalanceRow := {
  BaR_Address : string; BaR_AssetID : Z; BaR_Amount : Z; BaR_Frozen : bool;
  BaR_Error : option error; BaR_CreatedRound : option Z; BaR_ClosedRound : option Z;
  BaR_Deleted : option bool }.

Record ApplicationRow := { ApR_Application : models.Application; ApR_Error : option error }.
Record ApplicationQuery := {
  PQ_Address : option string; PQ_ApplicationID : option Z;
  PQ_ApplicationIDGreaterThan : option Z; PQ_IncludeDeleted : bool; PQ_Limit : Z }.
Record AppLocalStateRow := {
  LsR_AppLocalState : models.ApplicationLocalState; LsR_Error : option error }.

Record ApplicationBoxQuery := {
  XQ_ApplicationID : Z; XQ_BoxName : option string; XQ_OmitValues : bool; XQ_Limit : Z;
  XQ_PrevFinalBox : option string }.
Record ApplicationBoxRow := { BxR_App : Z; BxR_Box : models.Box; BxR_Error : option error }.

(** ** Pointers

    A Go pointer that is only tested for nil and read is an [option]. *)

Definition uintOrDefault (x : option Z) : Z := default 0 x.
Definition omitEmpty {T} `{EqDecision T} (defaultVal val : T) : option T :=
  if bool_decide (val = defaultVal) then None else Some val.
Definition uint64Ptr (x : Z) : option Z := Some x.
Definition boolPtr (x : bool) : option bool := Some x.
Definition allZero (x : string) : bool := forallb (λ b, byteZ b =? 0) (bytes_of_string x).
Definition byteSlicePtr (x : string) : option string :=
  if bool_decide (x = "") then None else Some x.
Definition byteSliceOmitZeroPtr (x : string) : option string :=
  if allZero x then None else Some x.
(** [sql.NullInt64] and [sql.NullBool] hold NULL ([None]) or a value. *)
Definition nullableInt64Ptr (x : option Z) : option Z :=
  match x with None => None | Some v => uint64Ptr (wrap64 v) end.
Definition nullableBoolPtr (x : option bool) : option bool := x.
Definition addrStr `{SdkOps} (addr : Address) : option string :=
  if Address_IsZero addr then None else Some (AddressString addr).

(** [copy(aaddr[:], b)] into a 32-byte array. *)
Definition copy_address (b : string) : Address :=
  String.substring 0 32 (b +:+ zeros 32).

(** ** TEAL values *)

Definition tealValueToModel (tv : TealValue) : models.TealValue :=
  if TV_Type tv =? TealUintType then
    {| models.TealValue_Bytes := ""; models.TealValue_Type := TV_Type tv;
       models.TealValue_Uint := TV_Uint tv |}
  else if TV_Type tv =? TealBytesType then
    {| models.TealValue_Bytes := Base64 (TV_Bytes tv); models.TealValue_Type := TV_Type tv;
       models.TealValue_Uint := 0 |}
  else {| models.TealValue_Bytes := ""; models.TealValue_Type := 0; models.TealValue_Uint := 0 |}.

Definition tealKeyValueToModel `{MapRange} (tkv : TealKeyValue)
    : option (list models.TealKeyValue) :=
  let tkv := default ∅ tkv in
  if bool_decide (size tkv = 0%nat) then None
  else Some (map (λ kv, {| models.TealKeyValue_Key := Base64 kv.1;
                           models.TealKeyValue_Value := tealValueToModel kv.2 |})
               (range_map tkv)).

Definition stateSchemaToModel (s : StateSchema) : models.ApplicationStateSchema := {|
  models.ApplicationStateSchema_NumByteSlice := NumByteSlice s;
  models.ApplicationStateSchema_NumUint := NumUint s |}.

(** ** Conditions of a query *)

(** [text ILIKE pattern] of PostgreSQL *)
Class PgLike := { pg_ilike : string -> string -> bool }.

Definition like (s : string) : string := "%" +:+ s +:+ "%".
Definition ilike `{PgLike} (text : option string) (pattern : string) : bool :=
  match text with Some t => pg_ilike t pattern | None => false end.

(** ** [Assets] *)

Section Assets.
Context `{PgOps} `{PgLike} `{Codec assetParams} `{Codec ImportState}.

Inductive asset_cond :=
| as_index (v : Z) | as_index_gt (v : Z) | as_creator (a : string)
| as_name (s : string) | as_unit (s : string) | as_query (s : string) | as_live.

#[export] Instance asset_condition : Condition asset_cond (Z * asset_row) := {|
  c_args c :=
    match c with
    | as_index v | as_index_gt v => [A_bigint v]
    | as_creator a => [A_bytea a]
    | as_name s | as_unit s | as_query s => [A_text (like s)]
    | as_live => []
    end;
  c_text n c :=
    match c with
    | as_index _ => [Lit "a.index = "; Ph n]
    | as_index_gt _ => [Lit "a.index > "; Ph n]
    | as_creator _ => [Lit "a.creator_addr = "; Ph n]
    | as_name _ => [Lit "a.params ->> 'an' ILIKE "; Ph n]
    | as_unit _ => [Lit "a.params ->> 'un' ILIKE "; Ph n]
    | as_query _ =>
        [Lit "(a.params ->> 'un' ILIKE "; Ph n; Lit " OR a.params ->> 'an' ILIKE "; Ph n; Lit ")"]
    | as_live => [Lit "NOT a.deleted"]
    end;
  c_holds x c :=
    let params := asr_params x.2 in
    match c with
    | as_index v => x.1 =? v
    | as_index_gt v => v <? x.1
    | as_creator a => bool_decide (asr_creator_addr x.2 = a)
    | as_name s => ilike (pg_text params ["an"]) (like s)
    | as_unit s => ilike (pg_text params ["un"]) (like s)
    | as_query s =>
        ilike (pg_text params ["un"]) (like s) || ilike (pg_text params ["an"]) (like s)
    | as_live => negb (asr_deleted x.2)
    end |}.

Definition asset_conds (f : AssetsQuery) : list asset_cond :=
  when_some (AQ_AssetID f) as_index ++
  when_some (AQ_AssetIDGreaterThan f) as_index_gt ++
  when_some (AQ_Creator f) as_creator ++
  unless_empty (AQ_Name f) (as_name (AQ_Name f)) ++
  unless_empty (AQ_Unit f) (as_unit (AQ_Unit f)) ++
  unless_empty (AQ_Query f) (as_query (AQ_Query f)) ++
  unless (AQ_IncludeDeleted f) as_live.

Definition assets_text (f : AssetsQuery) : list piece :=
  select_text "SELECT index, creator_addr, params, created_at, closed_at, deleted FROM asset a"
    "index ASC" (asset_conds f) (AQ_Limit f).

Definition exec_assets (f : AssetsQuery) (d : database) : result (list (Z * asset_row)) :=
  select_rows (asset_conds f) (AQ_Limit f) (order_by (t_asset (core d))).

Definition asset_error (e : error) : AssetRow := {|
  AsR_AssetID := 0; AsR_Creator := ""; AsR_Params := Zero.assetParams; AsR_Error := Some e;
  AsR_CreatedRound := None; AsR_ClosedRound := None; AsR_Deleted := None |}.

(** The body of the loop; a row that cannot be decoded ends it. *)
Definition asset_rec (x : Z * asset_row) : AssetRow * bool :=
  match DecodeAssetParams (asr_params x.2) with
  | Err e => (asset_error e, true)
  | Ok params =>
      ({| AsR_AssetID := x.1; AsR_Creator := asr_creator_addr x.2; AsR_Params := params;
          AsR_Error := None; AsR_CreatedRound := Some (asr_created_at x.2);
          AsR_ClosedRound := asr_closed_at x.2; AsR_Deleted := Some (asr_deleted x.2) |}, false)
  end.

Definition yieldAssetsThread : Rows (Z * asset_row) -> list AssetRow :=
  yield_all asset_rec asset_error.

Definition Assets (f : AssetsQuery) : Tx database (list AssetRow * Z) :=
  with_round asset_error
    (query_rows (exec_assets f) (λ _, ErrMsg "asset query %#v err %v") asset_error
       yieldAssetsThread).
End Assets.

(** ** [AssetBalances] *)

Section AssetBalances.
Context `{Codec ImportState}.

Inductive balance_cond :=
| ba_assetid (v : Z) | ba_assetid_gt (v : Z) | ba_addr (a : string)
| ba_amount_gt (v : Z) | ba_amount_lt (v : Z) | ba_addr_gt (a : string) | ba_live.

#[export] Instance balance_condition
    : Condition balance_cond (Address * Z * account_asset_row) := {|
  c_args c :=
    match c with
    | ba_assetid v | ba_assetid_gt v => [A_bigint v]
    | ba_addr a | ba_addr_gt a => [A_bytea a]
    | ba_amount_gt v | ba_amount_lt v => [A_numeric v]
    | ba_live => []
    end;
  c_text n c :=
    match c with
    | ba_assetid _ => [Lit "aa.assetid = "; Ph n]
    | ba_assetid_gt _ => [Lit "aa.assetid > "; Ph n]
    | ba_addr _ => [Lit "aa.addr = "; Ph n]
    | ba_amount_gt _ => [Lit "aa.amount > "; Ph n]
    | ba_amount_lt _ => [Lit "aa.amount < "; Ph n]
    | ba_addr_gt _ => [Lit "aa.addr > "; Ph n]
    | ba_live => [Lit "NOT aa.deleted"]
    end;
  c_holds x c :=
    match c with
    | ba_assetid v => x.1.2 =? v
    | ba_assetid_gt v => v <? x.1.2
    | ba_addr a => bool_decide (x.1.1 = a)
    | ba_amount_gt v => v <? aar_amount x.2
    | ba_amount_lt v => aar_amount x.2 <? v
    | ba_addr_gt a => bytes_ltb a x.1.1
    | ba_live => negb (aar_deleted x.2)
    end |}.

Definition balance_conds (q : AssetBalanceQuery) : list balance_cond :=
  when_some (BQ_AssetID q) ba_assetid ++
  when_some (BQ_AssetIDGT q) ba_assetid_gt ++
  when_some (BQ_Address q) ba_addr ++
  when_some (BQ_AmountGT q) ba_amount_gt ++
  when_some (BQ_AmountLT q) ba_amount_lt ++
  unless_empty (BQ_PrevAddress q) (ba_addr_gt (BQ_PrevAddress q)) ++
  unless (BQ_IncludeDeleted q) ba_live.

Definition balances_text (q : AssetBalanceQuery) : list piece :=
  select_text
    "SELECT addr, assetid, amount, frozen, created_at, closed_at, deleted FROM account_asset aa"
    "addr, assetid ASC" (balance_conds q) (BQ_Limit q).

Definition exec_balances (q : AssetBalanceQuery) (d : database)
    : result (list (Address * Z * account_asset_row)) :=
  select_rows (balance_conds q) (BQ_Limit q) (order_by (t_account_asset (core d))).

Definition balance_error (e : error) : AssetBalanceRow := {|
  BaR_Address := ""; BaR_AssetID := 0; BaR_Amount := 0; BaR_Frozen := false; BaR_Error := Some e;
  BaR_CreatedRound := None; BaR_ClosedRound := None; BaR_Deleted := None |}.

Definition balance_rec (x : Address * Z * account_asset_row) : AssetBalanceRow := {|
  BaR_Address := x.1.1; BaR_AssetID := x.1.2; BaR_Amount := aar_amount x.2;
  BaR_Frozen := aar_frozen x.2; BaR_Error := None;
  BaR_CreatedRound := Some (aar_created_at x.2); BaR_ClosedRound := aar_closed_at x.2;
  BaR_Deleted := Some (aar_deleted x.2) |}.

Definition yieldAssetBalanceThread
    : Rows (Address * Z * account_asset_row) -> list AssetBalanceRow :=
  yield_all (λ x, (balance_rec x, false)) balance_error.

Definition AssetBalances (q : AssetBalanceQuery) : Tx database (list AssetBalanceRow * Z) :=
  with_round balance_error
    (query_rows (exec_balances q) id balance_error yieldAssetBalanceThread).
End AssetBalances.

(** ** [Applications] and [AppLocalState]

    Both build the same conditions on a table with an application and an address
    column. *)

Inductive app_cond := ap_index (v : Z) | ap_addr (a : string) | ap_index_gt (v : Z) | ap_live.

Definition app_conds (f : ApplicationQuery) : list app_cond :=
  when_some (PQ_ApplicationID f) ap_index ++
  when_some (PQ_Address f) ap_addr ++
  when_some (PQ_ApplicationIDGreaterThan f) ap_index_gt ++
  unless (PQ_IncludeDeleted f) ap_live.

Definition app_cond_args (c : app_cond) : list arg :=
  match c with
  | ap_index v | ap_index_gt v => [A_bigint v]
  | ap_addr a => [A_bytea a]
  | ap_live => []
  end.
Definition app_cond_text (index addr : string) (n : nat) (c : app_cond) : list piece :=
  match c with
  | ap_index _ => [Lit (index +:+ " = "); Ph n]
  | ap_addr _ => [Lit (addr +:+ " = "); Ph n]
  | ap_index_gt _ => [Lit (index +:+ " > "); Ph n]
  | ap_live => [Lit "NOT deleted"]
  end.
Definition app_cond_holds (index : Z) (addr : string) (deleted : bool) (c : app_cond) : bool :=
  match c with
  | ap_index v => index =? v
  | ap_addr a => bool_decide (addr = a)
  | ap_index_gt v => v <? index
  | ap_live => negb deleted
  end.

Section Applications.
Context `{SdkOps} `{MapRange} `{Codec appParams} `{Codec ImportState}.

#[export] Instance app_condition : Condition app_cond (Z * app_row) := {|
  c_args := app_cond_args;
  c_text := app_cond_text "index" "creator";
  c_holds x := app_cond_holds x.1 (apr_creator x.2) (apr_deleted x.2) |}.

Definition applications_text (f : ApplicationQuery) : list piece :=
  select_text "SELECT index, creator, params, created_at, closed_at, deleted FROM app "
    "1" (app_conds f) (PQ_Limit f).

Definition exec_applications (f : ApplicationQuery) (d : database)
    : result (list (Z * app_row)) :=
  select_rows (app_conds f) (PQ_Limit f) (order_by (t_app (core d))).

Definition application_error (e : error) : ApplicationRow :=
  {| ApR_Application := models.zero_Application; ApR_Error := Some e |}.

(** The parameters of an application in the API. *)
Definition application_params (ap : AppParams) (creator : string) : models.ApplicationParams := {|
  models.ApplicationParams_ApprovalProgram := APP_ApprovalProgram ap;
  models.ApplicationParams_ClearStateProgram := APP_ClearStateProgram ap;
  models.ApplicationParams_Creator := Some (AddressString (copy_address creator));
  models.ApplicationParams_ExtraProgramPages :=
    if APP_ExtraProgramPages ap =? 0 then None else Some (APP_ExtraProgramPages ap);
  models.ApplicationParams_GlobalState := tealKeyValueToModel (APP_GlobalState ap);
  models.ApplicationParams_GlobalStateSchema :=
    Some (stateSchemaToModel (APP_GlobalStateSchema ap));
  models.ApplicationParams_LocalStateSchema :=
    Some (stateSchemaToModel (APP_LocalStateSchema ap));
  models.ApplicationParams_Version := omitEmpty 0 (APP_Version ap) |}.

Definition application_model (x : Z * app_row) (params : models.ApplicationParams)
    : models.Application := {|
  models.Application_CreatedAtRound := Some (apr_created_at x.2);
  models.Application_Deleted := Some (apr_deleted x.2);
  models.Application_DeletedAtRound := apr_closed_at x.2;
  models.Application_Id := x.1;
  models.Application_Params := params |}.

Definition application_rec (x : Z * app_row) : ApplicationRow * bool :=
  match DecodeAppParams (apr_params x.2) with
  | Err e =>
      ({| ApR_Application := application_model x models.zero_ApplicationParams;
          ApR_Error := Some (ErrWrap "app=%d json err: %w" e) |}, true)
  | Ok ap =>
      ({| ApR_Application := application_model x (application_params ap (apr_creator x.2));
          ApR_Error := None |}, false)
  end.

Definition yieldApplicationsThread : Rows (Z * app_row) -> list ApplicationRow :=
  yield_all application_rec application_error.

Definition Applications (f : ApplicationQuery) : Tx database (list ApplicationRow * Z) :=
  with_round application_error
    (query_rows (exec_applications f) id application_error yieldApplicationsThread).
End Applications.

(** [ORDER BY 1] sorts the rows of [account_app] by application; the rows of one
    application come in some order. *)
Class AppOrder := {
  app_order :: SqlOrder (Address * Z);
  app_order_by_app x y : sql_lt x y -> x.2 <= y.2 }.

Section AppLocalState.
Context `{AppOrder} `{MapRange} `{Codec appLocalState} `{Codec ImportState}.

#[export] Instance local_condition : Condition app_cond (Address * Z * account_app_row) := {|
  c_args := app_cond_args;
  c_text := app_cond_text "app" "addr";
  c_holds x := app_cond_holds x.1.2 x.1.1 (alr_deleted x.2) |}.

Definition local_states_text (f : ApplicationQuery) : list piece :=
  select_text "SELECT app, addr, localstate, created_at, closed_at, deleted FROM account_app "
    "1" (app_conds f) (PQ_Limit f).

Definition exec_local_states (f : ApplicationQuery) (d : database)
    : result (list (Address * Z * account_app_row)) :=
  select_rows (app_conds f) (PQ_Limit f)
    (order_by (SqlOrder0 := app_order) (t_account_app (core d))).

Definition local_state_error (e : error) : AppLocalStateRow :=
  {| LsR_AppLocalState := models.zero_ApplicationLocalState; LsR_Error := Some e |}.

Definition local_state_model (x : Address * Z * account_app_row)
    (schema : models.ApplicationStateSchema) (kv : option (list models.TealKeyValue))
    : models.ApplicationLocalState := {|
  models.ApplicationLocalState_ClosedOutAtRound := alr_closed_at x.2;
  models.ApplicationLocalState_Deleted := Some (alr_deleted x.2);
  models.ApplicationLocalState_Id := x.1.2;
  models.ApplicationLocalState_KeyValue := kv;
  models.ApplicationLocalState_OptedInAtRound := Some (alr_created_at x.2);
  models.ApplicationLocalState_Schema := schema |}.

Definition local_state_rec (x : Address * Z * account_app_row) : AppLocalStateRow * bool :=
  match DecodeAppLocalState (alr_localstate x.2) with
  | Err e =>
      ({| LsR_AppLocalState := local_state_model x models.zero_ApplicationStateSchema None;
          LsR_Error := Some (ErrWrap "app=%d json err: %w" e) |}, true)
  | Ok ls =>
      ({| LsR_AppLocalState := local_state_model x (stateSchemaToModel (ALS_Schema ls))
                                 (tealKeyValueToModel (ALS_KeyValue ls));
          LsR_Error := None |}, false)
  end.

Definition yieldAppLocalStateThread
    : Rows (Address * Z * account_app_row) -> list AppLocalStateRow :=
  yield_all local_state_rec local_state_error.

Definition AppLocalState (f : ApplicationQuery) : Tx database (list AppLocalStateRow * Z) :=
  with_round local_state_error
    (query_rows (exec_local_states f) id local_state_error yieldAppLocalStateThread).
End AppLocalState.

(** ** [ApplicationBoxes] *)

Section Boxes.
Context `{Codec ImportState}.

(** [sql.ErrNoRows] *)
Definition sqlErrNoRows : error := ErrSentinel "sql: no rows in result set".

(** [AND name = $2], [AND name > $2], or neither. *)
Inductive box_cond := bx_name (s : string) | bx_name_gt (s : string).

Definition box_conds (q : ApplicationBoxQuery) : option box_cond :=
  match XQ_BoxName q, XQ_PrevFinalBox q with
  | Some name, _ => Some (bx_name name)
  | None, Some prev => Some (bx_name_gt prev)
  | None, None => None
  end.

Definition boxes_text (q : ApplicationBoxQuery) : list piece :=
  [Lit ("WITH apps AS (SELECT index AS app FROM app WHERE index = "); Ph 1;
   Lit (")" +:+ nl 0 +:+ "SELECT a.app, ab.name" +:+
        (if XQ_OmitValues q then "" else ", ab.value") +:+
        nl 0 +:+ "FROM apps a" +:+ nl 0 +:+ "LEFT OUTER JOIN app_box ab ON ab.app = a.app")] ++
  match box_conds q with
  | Some (bx_name _) => [Lit " AND name = "; Ph 2]
  | Some (bx_name_gt _) => [Lit " AND name > "; Ph 2]
  | None => []
  end ++
  [Lit " ORDER BY ab.name ASC"] ++ limit_text (XQ_Limit q).

Definition boxes_args (q : ApplicationBoxQuery) : list arg :=
  A_bigint (XQ_ApplicationID q) ::
  match box_conds q with
  | Some (bx_name s) | Some (bx_name_gt s) => [A_bytea s]
  | None => []
  end.

Definition box_selected (q : ApplicationBoxQuery) (x : Z * string * string) : Prop :=
  x.1.1 = XQ_ApplicationID q /\
  match box_conds q with
  | Some (bx_name s) => x.1.2 = s
  | Some (bx_name_gt s) => sql_lt s x.1.2
  | None => True
  end.
#[export] Instance box_selected_dec q x : Decision (box_selected q x).
Proof. unfold box_selected. destruct (box_conds q) as [[]|]; apply _. Defined.

(** The columns of a row of the join; name and value are NULL for an application
    without a box that matches. *)
Record raw_box := { rb_app : Z; rb_name : option string; rb_value : option string }.

Definition box_columns (q : ApplicationBoxQuery) (x : Z * string * string) : raw_box := {|
  rb_app := x.1.1; rb_name := Some x.1.2;
  rb_value := if XQ_OmitValues q then None else Some x.2 |}.

Definition joined_boxes (q : ApplicationBoxQuery) (d : database) : list raw_box :=
  match t_app (core d) !! XQ_ApplicationID q with
  | None => []
  | Some _ =>
      match filter (box_selected q) (order_by (t_app_box (core d))) with
      | [] => [{| rb_app := XQ_ApplicationID q; rb_name := None; rb_value := None |}]
      | boxes => map (box_columns q) boxes
      end
  end.

Definition exec_boxes (q : ApplicationBoxQuery) (d : database) : result (list raw_box) :=
  if negb (forallb arg_fits (boxes_args q)) then Err errBigint
  else if negb (fits_bigint (XQ_Limit q)) then Err numericOutOfRange
  else Ok (limited (page_limit (XQ_Limit q)) (joined_boxes q d)).

Definition box_error (e : error) : ApplicationBoxRow :=
  {| BxR_App := 0; BxR_Box := models.zero_Box; BxR_Error := Some e |}.

Definition box_rec (r : raw_box) : ApplicationBoxRow := {|
  BxR_App := rb_app r;
  BxR_Box := {| models.Box_Name := rb_name r; models.Box_Round := 0;
                models.Box_Value := rb_value r |};
  BxR_Error := None |}.

Definition yieldApplicationBoxThread (rows : Rows raw_box) : list ApplicationBoxRow :=
  let out := yield_all (λ r, (box_rec r, false)) box_error rows in
  match rs_rows rows, rs_err rows with
  | [], None => out ++ [box_error sqlErrNoRows]
  | _, _ => out
  end.

Definition ApplicationBoxes (q : ApplicationBoxQuery) : Tx database (list ApplicationBoxRow * Z) :=
  with_round box_error (query_rows (exec_boxes q) id box_error yieldApplicationBoxThread).
End Boxes.

(** ** What a query returns *)

(** A query whose arguments fit returns the matching rows, in the order of the
    table, up to the limit. *)
Lemma select_rows_ok `{Condition C Row} conds limit (table : list Row) :
  forallb arg_fits (flat_map c_args conds) = true -> fits_bigint limit = true ->
  select_rows conds limit table = Ok (limited (page_limit limit) (filter (satisfies conds) table)).
Proof. intros Ha Hl. unfold select_rows. by rewrite Ha, Hl. Qed.

(** The database has been imported up to [round]. *)
Definition accounted `{Codec ImportState} (d : database) (round : Z) : Prop :=
  getMaxRoundAccounted (core d) [] = (Ok round, core d, []).

Lemma with_round_ok `{Codec ImportState} {A} (error_row : error -> A) body d out round :
  accounted d round -> body d [] = (Ok out, d, []) ->
  with_round error_row body d [] = (Ok (out, round), d, []).
Proof.
  unfold accounted. intros Hr Hb. unfold with_round, at_round, tx_bind, tx_try, on_core. cbn.
  rewrite Hr. destruct d. cbn in *. by rewrite Hb.
Qed.

(** An optional number that a [bigint] takes. *)
Definition opt_fits (o : option Z) : Prop := forall v, o = Some v -> fits_bigint v = true.

(** A selection that no failure disturbs sends the matching rows, in order. *)
Lemma query_rows_select `{Codec ImportState} `{Condition C Row} {R} conds limit
    (table : database -> list Row) wrap_err error_row (f : Row -> R * bool) d round :
  accounted d round ->
  Forall (λ c, forallb arg_fits (c_args c) = true) conds -> fits_bigint limit = true ->
  (forall x, x ∈ table d -> satisfies conds x -> (f x).2 = false) ->
  with_round error_row
    (query_rows (λ d, select_rows conds limit (table d)) wrap_err error_row
       (yield_all f error_row)) d [] =
  (Ok (map (λ x, (f x).1) (limited (page_limit limit) (filter (satisfies conds) (table d))),
       round), d, []).
Proof.
  intros Hr Ha Hl Hf. apply with_round_ok; [done|].
  erewrite query_rows_ok by (apply select_rows_ok; [by apply forallb_flat_map|done]).
  do 3 f_equal. apply yield_all_ok. apply Forall_forall. intros x Hx.
  assert (x ∈ filter (satisfies conds) (table d)) as [Hs Ht]%list_elem_of_filter; [|by apply Hf].
  revert Hx. unfold limited. destruct (page_limit limit); [|done].
  intros (i & Hi)%list_elem_of_lookup_1. apply list_elem_of_lookup_2 with i.
  by apply lookup_take_Some in Hi as [Hi _].
Qed.

(** A selection over a table whose rows come in the order of [rowkey] keeps the
    promise of a paged query. *)
Section SelectPaged.
Context `{Codec ImportState} `{Condition C Row} {Q R K : Type} `{SqlOrder K}.
Context (conds : Q -> list C) (table : database -> list Row) (wrap_err : error -> error).
Context (error_row : error -> R) (f : Row -> R * bool).
Context (ready : database -> Z -> Prop) (fits : Q -> Prop).
Context (key : R -> K) (rowkey : Row -> K) (cursor : Q -> option K) (limit : Q -> Z).
Context (base : Q -> Q).

Record selection : Prop := {
  sel_accounted d round : ready d round -> accounted d round;
  sel_decodable d round x : ready d round -> x ∈ table d ->
    (f x).2 = false /\ key (f x).1 = rowkey x;
  sel_fits q : fits q -> Forall (λ c, forallb arg_fits (c_args c) = true) (conds q) /\
    fits_bigint (limit q) = true;
  sel_base q : base (base q) = base q;
  sel_cursor q x : fits q ->
    satisfies (conds q) x <-> satisfies (conds (base q)) x /\ beyond_key rowkey (cursor q) x;
  sel_sorted d q : fits q ->
    StronglySorted (λ x y, sql_lt (rowkey x) (rowkey y))
      (filter (satisfies (conds (base q))) (table d)) }.

Context (Hsel : selection).
Definition selected_rows (d : database) (q : Q) : list R :=
  map (λ x, (f x).1) (filter (satisfies (conds (base q))) (table d)).
Definition select_query (q : Q) : Tx database (list R * Z) :=
  with_round error_row
    (query_rows (λ d, select_rows (conds q) (limit q) (table d)) wrap_err error_row
       (yield_all f error_row)).

Lemma selected_sorted d q round : ready d round -> fits q ->
  StronglySorted (λ x y, sql_lt (key x) (key y)) (selected_rows d q).
Proof.
  intros Hr Hq. apply StronglySorted_map.
  eapply StronglySorted_impl_in; [|by apply (sel_sorted Hsel)].
  intros x y [_ Hx]%list_elem_of_filter [_ Hy]%list_elem_of_filter. cbn.
  destruct (sel_decodable Hsel d round x) as [_ ->]; [done..|].
  by destruct (sel_decodable Hsel d round y) as [_ ->].
Qed.

Lemma select_query_page d q round : ready d round -> fits q ->
  select_query q d [] =
  (Ok (limited (page_limit (limit q)) (filter (beyond_key key (cursor q)) (selected_rows d q)),
       round), d, []).
Proof.
  intros Hr Hq. destruct (sel_fits Hsel q Hq) as [Ha Hl]. unfold select_query.
  rewrite (query_rows_select _ _ _ _ _ _ _ round); [|by apply (sel_accounted Hsel)|done..|].
  - do 3 f_equal. unfold selected_rows. rewrite filter_map, limited_map. do 3 f_equal.
    rewrite list_filter_filter. apply filter_ext_in. intros x Hx.
    rewrite (sel_cursor Hsel) by done. unfold beyond_key.
    destruct (sel_decodable Hsel d round x Hr Hx) as [_ ->]. tauto.
  - intros x Hx _. by eapply (sel_decodable Hsel).
Qed.

Definition select_paged : Paged select_query ready (λ _, fits) key cursor limit base.
Proof.
  refine {| pg_all := selected_rows |}.
  - intros d q. unfold selected_rows. by rewrite (sel_base Hsel).
  - exact selected_sorted.
  - exact select_query_page.
Defined.
End SelectPaged.

Section AssetResults.
Context `{PgOps} `{PgLike} `{Codec assetParams} `{Codec ImportState}.

(** What the fields of the query ask of an asset. *)
Record asset_matches (f : AssetsQuery) (id : Z) (row : asset_row) : Prop := {
  am_id : forall v, AQ_AssetID f = Some v -> id = v;
  am_after : forall v, AQ_AssetIDGreaterThan f = Some v -> v < id;
  am_creator : forall a, AQ_Creator f = Some a -> asr_creator_addr row = a;
  am_name : AQ_Name f <> "" -> ilike (pg_text (asr_params row) ["an"]) (like (AQ_Name f)) = true;
  am_unit : AQ_Unit f <> "" -> ilike (pg_text (asr_params row) ["un"]) (like (AQ_Unit f)) = true;
  am_query : AQ_Query f <> "" ->
    ilike (pg_text (asr_params row) ["un"]) (like (AQ_Query f)) = true \/
    ilike (pg_text (asr_params row) ["an"]) (like (AQ_Query f)) = true;
  am_live : AQ_IncludeDeleted f = false -> asr_deleted row = false }.

Lemma satisfies_asset_conds f x :
  satisfies (asset_conds f) x <-> asset_matches f x.1 x.2.
Proof.
  rewrite satisfies_Forall. unfold asset_conds.
  rewrite !Forall_app, !Forall_when_some, !Forall_unless_empty, Forall_unless. cbn.
  setoid_rewrite Z.eqb_eq. setoid_rewrite Z.ltb_lt. setoid_rewrite bool_decide_eq_true.
  setoid_rewrite orb_true_iff. setoid_rewrite negb_true_iff.
  split; [intros (?&?&?&?&?&?&?); by constructor|by intros []].
Qed.

Definition assets_fit (f : AssetsQuery) : Prop :=
  opt_fits (AQ_AssetID f) /\ opt_fits (AQ_AssetIDGreaterThan f) /\ fits_bigint (AQ_Limit f) = true.

Lemma asset_conds_fit f :
  assets_fit f -> Forall (λ c, forallb arg_fits (c_args c) = true) (asset_conds f).
Proof.
  intros (Hid & Hgt & _). unfold asset_conds.
  rewrite !Forall_app, !Forall_when_some, !Forall_unless_empty, Forall_unless. cbn.
  setoid_rewrite andb_true_r. done.
Qed.

(** The query without its cursor and its limit. *)
Definition assets_base (f : AssetsQuery) : AssetsQuery := {|
  AQ_AssetID := AQ_AssetID f; AQ_AssetIDGreaterThan := None; AQ_Creator := AQ_Creator f;
  AQ_Name := AQ_Name f; AQ_Unit := AQ_Unit f; AQ_Query := AQ_Query f;
  AQ_IncludeDeleted := AQ_IncludeDeleted f; AQ_Limit := 0 |}.

Lemma asset_matches_cursor f id row :
  asset_matches f id row <->
  asset_matches (assets_base f) id row /\
  forall v, AQ_AssetIDGreaterThan f = Some v -> v < id.
Proof. split; [intros []; split; [by constructor|done]|intros [[] ?]; by constructor]. Qed.

(** A state whose assets can be read. *)
Definition assets_readable (d : database) (round : Z) : Prop :=
  accounted d round /\
  forall id row, t_asset (core d) !! id = Some row ->
    exists p, DecodeAssetParams (asr_params row) = Ok p.

Lemma assets_selection :
  selection asset_conds (λ d, order_by (t_asset (core d))) asset_rec assets_readable assets_fit
    AsR_AssetID fst AQ_AssetIDGreaterThan AQ_Limit assets_base.
Proof.
  split.
  - by intros d round [].
  - intros d round x [_ Hd] Hx%elem_of_order_by. destruct (Hd _ _ Hx) as [p Hp].
    unfold asset_rec. by rewrite Hp.
  - intros f Hf. split; [by apply asset_conds_fit|apply Hf].
  - done.
  - intros f x _. rewrite !satisfies_asset_conds, asset_matches_cursor. unfold beyond_key.
    destruct (AQ_AssetIDGreaterThan f); naive_solver.
  - intros d f _. apply StronglySorted_filter, order_by_sorted.
Qed.

Definition assets_paged
    : Paged Assets assets_readable (λ _, assets_fit) AsR_AssetID AQ_AssetIDGreaterThan AQ_Limit
        assets_base :=
  select_paged _ _ (λ _, ErrMsg "asset query %#v err %v") asset_error _ _ _ _ _ _ _ _
    assets_selection.
End AssetResults.

Section BalanceResults.
Context `{Codec ImportState}.

Record balance_matches (q : AssetBalanceQuery) (addr : Address) (asset : Z)
    (row : account_asset_row) : Prop := {
  bm_asset : forall v, BQ_AssetID q = Some v -> asset = v;
  bm_after_asset : forall v, BQ_AssetIDGT q = Some v -> v < asset;
  bm_addr : forall a, BQ_Address q = Some a -> addr = a;
  bm_gt : forall v, BQ_AmountGT q = Some v -> v < aar_amount row;
  bm_lt : forall v, BQ_AmountLT q = Some v -> aar_amount row < v;
  bm_after_addr : BQ_PrevAddress q <> "" -> sql_lt (BQ_PrevAddress q) addr;
  bm_live : BQ_IncludeDeleted q = false -> aar_deleted row = false }.

Lemma satisfies_balance_conds q x :
  satisfies (balance_conds q) x <-> balance_matches q x.1.1 x.1.2 x.2.
Proof.
  rewrite satisfies_Forall. unfold balance_conds.
  rewrite !Forall_app, !Forall_when_some, !Forall_unless_empty, Forall_unless. cbn.
  setoid_rewrite Z.eqb_eq. setoid_rewrite Z.ltb_lt. setoid_rewrite bool_decide_eq_true.
  setoid_rewrite negb_true_iff.
  split; [intros (?&?&?&?&?&?&?); by constructor|by intros []].
Qed.

Definition balances_fit (q : AssetBalanceQuery) : Prop :=
  opt_fits (BQ_AssetID q) /\ opt_fits (BQ_AssetIDGT q) /\ fits_bigint (BQ_Limit q) = true.

Lemma balance_conds_fit q :
  balances_fit q -> Forall (λ c, forallb arg_fits (c_args c) = true) (balance_conds q).
Proof.
  intros (Hid & Hgt & _). unfold balance_conds.
  rewrite !Forall_app, !Forall_when_some, !Forall_unless_empty, Forall_unless. cbn.
  setoid_rewrite andb_true_r. done.
Qed.

(** The holders of one asset are paged by address, and the holdings of one account
    by asset. *)
Definition holders_fit (q : AssetBalanceQuery) : Prop :=
  balances_fit q /\ is_Some (BQ_AssetID q).
Definition holdings_fit (q : AssetBalanceQuery) : Prop :=
  balances_fit q /\ is_Some (BQ_Address q).

Definition holders_cursor (q : AssetBalanceQuery) : option string :=
  if bool_decide (BQ_PrevAddress q = "") then None else Some (BQ_PrevAddress q).
Definition holders_base (q : AssetBalanceQuery) : AssetBalanceQuery := {|
  BQ_AssetID := BQ_AssetID q; BQ_AssetIDGT := BQ_AssetIDGT q; BQ_AmountGT := BQ_AmountGT q;
  BQ_AmountLT := BQ_AmountLT q; BQ_Address := BQ_Address q;
  BQ_IncludeDeleted := BQ_IncludeDeleted q; BQ_Limit := 0; BQ_PrevAddress := "" |}.
Definition holdings_base (q : AssetBalanceQuery) : AssetBalanceQuery := {|
  BQ_AssetID := BQ_AssetID q; BQ_AssetIDGT := None; BQ_AmountGT := BQ_AmountGT q;
  BQ_AmountLT := BQ_AmountLT q; BQ_Address := BQ_Address q;
  BQ_IncludeDeleted := BQ_IncludeDeleted q; BQ_Limit := 0; BQ_PrevAddress := BQ_PrevAddress q |}.

Lemma balance_matches_holders q addr asset row :
  balance_matches q addr asset row <->
  balance_matches (holders_base q) addr asset row /\
  (BQ_PrevAddress q <> "" -> sql_lt (BQ_PrevAddress q) addr).
Proof. split; [intros []; split; [by constructor|done]|intros [[] ?]; by constructor]. Qed.
Lemma balance_matches_holdings q addr asset row :
  balance_matches q addr asset row <->
  balance_matches (holdings_base q) addr asset row /\
  forall v, BQ_AssetIDGT q = Some v -> v < asset.
Proof. split; [intros []; split; [by constructor|done]|intros [[] ?]; by constructor]. Qed.

Lemma balances_sorted (conds : list balance_cond) (rowkey_lt : _ -> _ -> Prop) d :
  (forall x y, satisfies conds x -> satisfies conds y -> rows_lt x y -> rowkey_lt x y) ->
  StronglySorted rowkey_lt (filter (satisfies conds) (order_by (t_account_asset (core d)))).
Proof.
  intros Hk. eapply StronglySorted_impl_in; [|apply StronglySorted_filter, order_by_sorted].
  intros x y [Hx _]%list_elem_of_filter [Hy _]%list_elem_of_filter. by apply Hk.
Qed.

Lemma holders_selection :
  selection balance_conds (λ d, order_by (t_account_asset (core d)))
    (λ x, (balance_rec x, false)) accounted holders_fit
    BaR_Address (λ x, x.1.1) holders_cursor BQ_Limit holders_base.
Proof.
  split; try done.
  - intros q [Hf _]. split; [by apply balance_conds_fit|apply Hf].
  - intros q x _. rewrite !satisfies_balance_conds, balance_matches_holders.
    unfold beyond_key, holders_cursor. case_bool_decide; naive_solver.
  - intros d q [_ [v Hv]]. apply balances_sorted. intros [[a i] r] [[a' i'] r'].
    rewrite !satisfies_balance_conds. cbn. intros Hx Hy [Hlt|[-> Hlt]]; [done|].
    rewrite (bm_asset _ _ _ _ Hx v Hv), (bm_asset _ _ _ _ Hy v Hv) in Hlt. cbn in Hlt. lia.
Qed.

Lemma holdings_selection :
  selection balance_conds (λ d, order_by (t_account_asset (core d)))
    (λ x, (balance_rec x, false)) accounted holdings_fit
    BaR_AssetID (λ x, x.1.2) BQ_AssetIDGT BQ_Limit holdings_base.
Proof.
  split; try done.
  - intros q [Hf _]. split; [by apply balance_conds_fit|apply Hf].
  - intros q x _. rewrite !satisfies_balance_conds, balance_matches_holdings.
    unfold beyond_key. destruct (BQ_AssetIDGT q); naive_solver.
  - intros d q [_ [v Hv]]. apply balances_sorted. intros [[a i] r] [[a' i'] r'].
    rewrite !satisfies_balance_conds. cbn. intros Hx Hy [Hlt|[_ Hlt]]; [|done].
    rewrite (bm_addr _ _ _ _ Hx v Hv), (bm_addr _ _ _ _ Hy v Hv) in Hlt.
    by destruct (irreflexivity sql_lt v).
Qed.

Definition holders_paged
    : Paged AssetBalances accounted (λ _, holders_fit) BaR_Address holders_cursor BQ_Limit holders_base :=
  select_paged _ _ id balance_error _ _ _ _ _ _ _ _ holders_selection.
Definition holdings_paged
    : Paged AssetBalances accounted (λ _, holdings_fit) BaR_AssetID BQ_AssetIDGT BQ_Limit holdings_base :=
  select_paged _ _ id balance_error _ _ _ _ _ _ _ _ holdings_selection.
End BalanceResults.

Section ApplicationResults.
Context `{SdkOps} `{MapRange} `{Codec appParams} `{Codec appLocalState} `{Codec ImportState}.
Context `{AppOrder}.

Record app_matches (f : ApplicationQuery) (index : Z) (addr : string) (deleted : bool) : Prop := {
  pm_index : forall v, PQ_ApplicationID f = Some v -> index = v;
  pm_addr : forall a, PQ_Address f = Some a -> addr = a;
  pm_after : forall v, PQ_ApplicationIDGreaterThan f = Some v -> v < index;
  pm_live : PQ_IncludeDeleted f = false -> deleted = false }.

Lemma app_conds_matches f index addr deleted :
  Forall (λ c, app_cond_holds index addr deleted c = true) (app_conds f) <->
  app_matches f index addr deleted.
Proof.
  unfold app_conds. rewrite !Forall_app, !Forall_when_some, Forall_unless. cbn.
  setoid_rewrite Z.eqb_eq. setoid_rewrite Z.ltb_lt. setoid_rewrite bool_decide_eq_true.
  setoid_rewrite negb_true_iff.
  split; [intros (?&?&?&?); by constructor|by intros []].
Qed.

Lemma satisfies_app_conds f (x : Z * app_row) :
  satisfies (app_conds f) x <-> app_matches f x.1 (apr_creator x.2) (apr_deleted x.2).
Proof. rewrite satisfies_Forall. apply app_conds_matches. Qed.
Lemma satisfies_local_conds f (x : Address * Z * account_app_row) :
  satisfies (app_conds f) x <-> app_matches f x.1.2 x.1.1 (alr_deleted x.2).
Proof. rewrite satisfies_Forall. apply app_conds_matches. Qed.

Definition apps_fit (f : ApplicationQuery) : Prop :=
  opt_fits (PQ_ApplicationID f) /\ opt_fits (PQ_ApplicationIDGreaterThan f) /\
  fits_bigint (PQ_Limit f) = true.

Lemma app_conds_fit f :
  apps_fit f -> Forall (λ c, forallb arg_fits (app_cond_args c) = true) (app_conds f).
Proof.
  intros (Hid & Hgt & _). unfold app_conds.
  rewrite !Forall_app, !Forall_when_some, Forall_unless. cbn.
  setoid_rewrite andb_true_r. done.
Qed.

Definition apps_base (f : ApplicationQuery) : ApplicationQuery := {|
  PQ_Address := PQ_Address f; PQ_ApplicationID := PQ_ApplicationID f;
  PQ_ApplicationIDGreaterThan := None; PQ_IncludeDeleted := PQ_IncludeDeleted f; PQ_Limit := 0 |}.

Lemma app_matches_cursor f index addr deleted :
  app_matches f index addr deleted <->
  app_matches (apps_base f) index addr deleted /\
  beyond_key id (PQ_ApplicationIDGreaterThan f) index.
Proof.
  unfold beyond_key. split.
  - intros []. split; [by constructor|]. destruct (PQ_ApplicationIDGreaterThan f); cbn; auto.
  - intros [[] Hb]. constructor; try done. intros v Hv. by rewrite Hv in Hb.
Qed.

Lemma apps_selection :
  selection (Row := Z * app_row) app_conds (λ d, order_by (t_app (core d))) application_rec
    accounted apps_fit (λ r, models.Application_Id (ApR_Application r)) fst
    PQ_ApplicationIDGreaterThan PQ_Limit apps_base.
Proof.
  split; try done.
  - intros d round x _ _. unfold application_rec, DecodeAppParams.
    by destruct (DecodeJSON (apr_params x.2)).
  - intros f Hf. split; [by apply app_conds_fit|apply Hf].
  - intros f x _. rewrite !satisfies_app_conds, app_matches_cursor. done.
  - intros d f _. apply StronglySorted_filter, order_by_sorted.
Qed.

Definition apps_paged
    : Paged Applications accounted (λ _, apps_fit) (λ r, models.Application_Id (ApR_Application r))
        PQ_ApplicationIDGreaterThan PQ_Limit apps_base :=
  select_paged _ _ id application_error _ _ _ _ _ _ _ _ apps_selection.

Definition local_states_readable (d : database) (round : Z) : Prop :=
  accounted d round /\
  forall k row, t_account_app (core d) !! k = Some row ->
    exists ls, DecodeAppLocalState (alr_localstate row) = Ok ls.
(** The local states of one account are paged by application. *)
Definition local_states_fit (f : ApplicationQuery) : Prop := apps_fit f /\ is_Some (PQ_Address f).

Lemma local_states_selection :
  selection (Row := Address * Z * account_app_row) app_conds
    (λ d, order_by (SqlOrder0 := app_order) (t_account_app (core d))) local_state_rec
    local_states_readable local_states_fit
    (λ r, models.ApplicationLocalState_Id (LsR_AppLocalState r)) (λ x, x.1.2)
    PQ_ApplicationIDGreaterThan PQ_Limit apps_base.
Proof.
  split; try done.
  - by intros d round [].
  - intros d round x [_ Hd] Hx%elem_of_order_by. destruct (Hd _ _ Hx) as [ls Hls].
    unfold local_state_rec. by rewrite Hls.
  - intros f [Hf _]. split; [by apply app_conds_fit|apply Hf].
  - intros f x _. rewrite !satisfies_local_conds, app_matches_cursor. done.
  - intros d f [_ [a Ha]].
    eapply StronglySorted_impl_in; [|apply StronglySorted_filter, order_by_sorted].
    intros [[b i] r] [[b' i'] r'] [Hx _]%list_elem_of_filter [Hy _]%list_elem_of_filter Hlt.
    apply satisfies_local_conds in Hx, Hy. cbn in *.
    pose proof (pm_addr _ _ _ _ Hx a Ha) as ->. pose proof (pm_addr _ _ _ _ Hy a Ha) as ->.
    pose proof (app_order_by_app _ _ Hlt) as Hle. cbn in Hle.
    destruct (decide (i = i')) as [->|]; [|lia]. by destruct (irreflexivity sql_lt (a, i')).
Qed.

Definition local_states_paged
    : Paged AppLocalState local_states_readable (λ _, local_states_fit)
        (λ r, models.ApplicationLocalState_Id (LsR_AppLocalState r))
        PQ_ApplicationIDGreaterThan PQ_Limit apps_base :=
  select_paged _ _ id local_state_error _ _ _ _ _ _ _ _ local_states_selection.
End ApplicationResults.

Section BoxResults.
Context `{Codec ImportState}.

(** The boxes that the query asks for, in the order of their names. *)
Definition found_boxes (q : ApplicationBoxQuery) (d : database) : list (Z * string * string) :=
  filter (box_selected q) (order_by (t_app_box (core d))).

Definition boxes_fit (q : ApplicationBoxQuery) : Prop :=
  fits_bigint (XQ_ApplicationID q) = true /\ fits_bigint (XQ_Limit q) = true.

(** What stands on the channel: [sql.ErrNoRows] for an unknown application, one row
    without name and value when no box matches, the boxes otherwise. *)
Definition box_rows (q : ApplicationBoxQuery) (d : database) : list ApplicationBoxRow :=
  match t_app (core d) !! XQ_ApplicationID q with
  | None => [box_error sqlErrNoRows]
  | Some _ =>
      match found_boxes q d with
      | [] => [box_rec {| rb_app := XQ_ApplicationID q; rb_name := None; rb_value := None |}]
      | boxes => map (λ x, box_rec (box_columns q x)) (limited (page_limit (XQ_Limit q)) boxes)
      end
  end.

Lemma limited_nil {A} n (l : list A) :
  (forall m, n = Some m -> 0 < m) -> limited n l = [] -> l = [].
Proof.
  destruct n as [m|]; [|done]. intros Hm Hl. pose proof (Hm m eq_refl). cbn in Hl.
  destruct l; [done|]. destruct (Z.to_nat m) eqn:Hz; [lia|done].
Qed.

Lemma page_limit_pos limit m :
  fits_bigint limit = true -> page_limit limit = Some m -> 0 < m.
Proof.
  unfold fits_bigint, page_limit. intros [?%Z.leb_le _]%andb_true_iff.
  destruct (Z.eqb_spec limit 0); [done|]. intros [= <-]. lia.
Qed.

Lemma yieldApplicationBoxThread_ok l :
  l <> [] ->
  yieldApplicationBoxThread {| rs_rows := map Ok l; rs_err := None |} = map box_rec l.
Proof.
  intros Hl. unfold yieldApplicationBoxThread.
  rewrite (yield_all_ok (λ r, (box_rec r, false)) box_error l) by (by apply Forall_true).
  cbn [fst rs_rows rs_err]. by destruct l.
Qed.

Lemma ApplicationBoxes_ok q d round :
  accounted d round -> boxes_fit q ->
  ApplicationBoxes q d [] = (Ok (box_rows q d, round), d, []).
Proof.
  intros Hr [Ha Hl]. apply with_round_ok; [done|].
  assert (forallb arg_fits (boxes_args q) = true) as Hargs.
  { unfold boxes_args. cbn. rewrite Ha. by destruct (box_conds q) as [[]|]. }
  assert (exec_boxes q d = Ok (limited (page_limit (XQ_Limit q)) (joined_boxes q d))) as Hex.
  { unfold exec_boxes. by rewrite Hargs, Hl. }
  rewrite (query_rows_ok _ _ _ _ _ _ Hex). do 3 f_equal.
  unfold joined_boxes, box_rows. fold (found_boxes q d).
  assert (forall A (l : list A), l <> [] -> limited (page_limit (XQ_Limit q)) l <> []) as Hne.
  { intros A l Hl' Hnil. by apply Hl', (limited_nil _ _ (λ m, page_limit_pos _ m Hl)), Hnil. }
  destruct (t_app (core d) !! _) as [row|].
  - destruct (found_boxes q d) as [|x l] eqn:Hf.
    + rewrite yieldApplicationBoxThread_ok by (by apply Hne).
      unfold page_limit. destruct (Z.eqb_spec (XQ_Limit q) 0); [done|].
      cbn. destruct (Z.to_nat (XQ_Limit q)) eqn:Hz; [|cbn; by rewrite take_nil].
      exfalso. apply andb_true_iff in Hl as [?%Z.leb_le _]. lia.
    + rewrite yieldApplicationBoxThread_ok by (by apply Hne).
      by rewrite limited_map, map_map.
  - destruct (page_limit (XQ_Limit q)) as [m|]; [|done]. cbn. by rewrite take_nil.
Qed.
End BoxResults.
