(* ===== verification/AccountQuery.v ===== *)
(** * Searching accounts: [GetAccounts] of [idb/postgres/postgres.go]

    [buildAccountQuery] builds one statement that selects accounts and collects the
    assets, holdings, applications and local states of each into JSON arrays;
    [checkAccountResourceLimit] counts them first; [yieldAccountsThread] parses the
    arrays and assembles [models.Account].  The statement is printed to the text that
    the source sends and executed on the tables.  The theorems say that an account is
    returned with exactly the rows that the tables hold for it, that the accounts
    come in the order of their addresses, and that the resource limit holds. *)

From stdpp Require Import sorting.
From S2P Require Import Prelude GoStd Sdk Idb Models Util Encoding Db WriteTxn Writer Postgres Sql.
From S2P Require Import MinBalance ResourceQuery.

(** ** Types of [idb/idb.go] *)

Record AccountQueryOptions := {
  AO_GreaterThanAddress : string; AO_EqualToAddress : string; AO_EqualToAuthAddr : string;
  AO_OnlineOnly : bool; AO_AlgosGreaterThan : option Z; AO_AlgosLessThan : option Z;
  AO_HasAssetID : Z; AO_AssetGT : option Z; AO_AssetLT : option Z; AO_HasAppID : Z;
  AO_IncludeAssetHoldings : bool; AO_IncludeAssetParams : bool;
  AO_IncludeAppLocalState : bool; AO_IncludeAppParams : bool;
  AO_MaxResources : Z; AO_IncludeDeleted : bool; AO_Limit : Z }.

Record AccountRow := { AcR_Account : models.Account; AcR_Error : option error }.

(** ** Conditions *)

Inductive holding_cond :=
| hc_assetid (v : Z) | hc_amount_gt (v : Z) | hc_amount_lt (v : Z) | hc_addr_gt (a : string).
Inductive optin_cond := oc_app (v : Z) | oc_addr_gt (a : string).
Inductive account_cond :=
| ac_addr_gt (a : string) | ac_addr (a : string) | ac_algos_gt (v : Z) | ac_algos_lt (v : Z)
| ac_live | ac_auth (a : string) | ac_online.

#[export] Instance holding_condition
    : Condition holding_cond (Address * Z * account_asset_row) := {|
  c_args c :=
    match c with
    | hc_assetid v => [A_bigint v]
    | hc_amount_gt v | hc_amount_lt v => [A_numeric v]
    | hc_addr_gt a => [A_bytea a]
    end;
  c_text n c :=
    match c with
    | hc_assetid _ => [Lit "assetid = "; Ph n]
    | hc_amount_gt _ => [Lit "amount > "; Ph n]
    | hc_amount_lt _ => [Lit "amount < "; Ph n]
    | hc_addr_gt _ => [Lit "addr > "; Ph n]
    end;
  c_holds x c :=
    match c with
    | hc_assetid v => x.1.2 =? v
    | hc_amount_gt v => v <? aar_amount x.2
    | hc_amount_lt v => aar_amount x.2 <? v
    | hc_addr_gt a => bytes_ltb a x.1.1
    end |}.

#[export] Instance optin_condition : Condition optin_cond (Address * Z * account_app_row) := {|
  c_args c := match c with oc_app v => [A_bigint v] | oc_addr_gt a => [A_bytea a] end;
  c_text n c :=
    match c with oc_app _ => [Lit "app = "; Ph n] | oc_addr_gt _ => [Lit "addr > "; Ph n] end;
  c_holds x c :=
    match c with oc_app v => x.1.2 =? v | oc_addr_gt a => bytes_ltb a x.1.1 end |}.

#[export] Instance account_condition `{PgOps}
    : Condition account_cond (Address * account_row) := {|
  c_args c :=
    match c with
    | ac_addr_gt a | ac_addr a => [A_bytea a]
    | ac_algos_gt v | ac_algos_lt v => [A_bigint v]
    | ac_auth a => [A_text (Base64 a)]
    | ac_live | ac_online => []
    end;
  c_text n c :=
    match c with
    | ac_addr_gt _ => [Lit "a.addr > "; Ph n]
    | ac_addr _ => [Lit "a.addr = "; Ph n]
    | ac_algos_gt _ => [Lit "a.microalgos > "; Ph n]
    | ac_algos_lt _ => [Lit "a.microalgos < "; Ph n]
    | ac_live => [Lit "NOT a.deleted"]
    | ac_auth _ => [Lit "a.account_data ->> 'spend' = "; Ph n]
    | ac_online =>
        [Lit "((a.account_data->>'onl' IS NOT NULL) AND (a.account_data->>'voteLst' IS NOT NULL) AND ((a.account_data->>'onl') = '1'))"]
    end;
  c_holds x c :=
    let json := acr_account_data x.2 in
    match c with
    | ac_addr_gt a => bytes_ltb a x.1
    | ac_addr a => bool_decide (x.1 = a)
    | ac_algos_gt v => v <? acr_microalgos x.2
    | ac_algos_lt v => acr_microalgos x.2 <? v
    | ac_live => negb (acr_deleted x.2)
    | ac_auth a => bool_decide (pg_text json ["spend"] = Some (Base64 a))
    | ac_online =>
        bool_decide (is_Some (pg_text json ["voteLst"])) &&
        bool_decide (pg_text json ["onl"] = Some "1")
    end |}.

Definition holding_conds (o : AccountQueryOptions) : list holding_cond :=
  [hc_assetid (AO_HasAssetID o)] ++
  when_some (AO_AssetGT o) hc_amount_gt ++
  when_some (AO_AssetLT o) hc_amount_lt ++
  unless_empty (AO_GreaterThanAddress o) (hc_addr_gt (AO_GreaterThanAddress o)).

Definition optin_conds (o : AccountQueryOptions) : list optin_cond :=
  [oc_app (AO_HasAppID o)] ++
  unless_empty (AO_GreaterThanAddress o) (oc_addr_gt (AO_GreaterThanAddress o)).

Definition account_conds (o : AccountQueryOptions) : list account_cond :=
  unless_empty (AO_GreaterThanAddress o) (ac_addr_gt (AO_GreaterThanAddress o)) ++
  unless_empty (AO_EqualToAddress o) (ac_addr (AO_EqualToAddress o)) ++
  when_some (AO_AlgosGreaterThan o) ac_algos_gt ++
  when_some (AO_AlgosLessThan o) ac_algos_lt ++
  unless (AO_IncludeDeleted o) ac_live ++
  unless_empty (AO_EqualToAuthAddr o) (ac_auth (AO_EqualToAuthAddr o)) ++
  unless (negb (AO_OnlineOnly o)) ac_online.

(** ** [buildAccountQuery] *)

Section BuildAccountQuery.
Context `{PgOps}.

Definition asset_filter (o : AccountQueryOptions) : list holding_cond :=
  if AO_HasAssetID o =? 0 then [] else holding_conds o.
Definition app_filter (o : AccountQueryOptions) : list optin_cond :=
  if AO_HasAppID o =? 0 then [] else optin_conds o.

Definition account_args (o : AccountQueryOptions) : list arg :=
  flat_map c_args (asset_filter o) ++ flat_map c_args (app_filter o) ++
  flat_map c_args (account_conds o).

(** [qaccounts]: the accounts, from placeholder [n] on. *)
Definition qaccounts_text (n : nat) (o : AccountQueryOptions) : list piece :=
  [Lit "SELECT a.addr, a.microalgos, a.rewards_total, a.created_at, a.closed_at, a.deleted, a.rewardsbase, a.keytype, a.account_data FROM account a"] ++
  (if AO_HasAssetID o =? 0 then [] else [Lit " JOIN qasf ON a.addr = qasf.addr"]) ++
  (if AO_HasAppID o =? 0 then [] else [Lit " JOIN qapf ON a.addr = qapf.addr"]) ++
  where_text n (account_conds o) ++
  [Lit " ORDER BY a.addr ASC"] ++ limit_text (AO_Limit o).

Definition with_clauses (o : AccountQueryOptions) : list (list piece) :=
  let n1 := (1 + length (flat_map c_args (asset_filter o)))%nat in
  let n2 := (n1 + length (flat_map c_args (app_filter o)))%nat in
  (if AO_HasAssetID o =? 0 then [] else
     [[Lit "qasf AS (SELECT addr FROM account_asset WHERE "] ++
      join " AND " (conditions_text 1 (asset_filter o)) ++ [Lit ")"]]) ++
  (if AO_HasAppID o =? 0 then [] else
     [[Lit "qapf AS (SELECT addr FROM account_app WHERE "] ++
      join " AND " (conditions_text n1 (app_filter o)) ++ [Lit ")"]]) ++
  [[Lit "qaccounts AS ("] ++ qaccounts_text n2 o ++ [Lit ")"]].

(** One of the four nested selects: its columns, or the count of its rows. *)
Definition nested (o : AccountQueryOptions) (countOnly included : bool)
    (head count cols from deleted : string) : list piece :=
  if included then
    [Lit (head +:+ (if countOnly then count else cols) +:+ from +:+
          (if AO_IncludeDeleted o then "" else " WHERE NOT " +:+ deleted) +:+ " GROUP BY 1)")]
  else [].

Definition nested_selects (o : AccountQueryOptions) (countOnly : bool) : list piece :=
  nested o countOnly (AO_IncludeAssetHoldings o)
    ", qaa AS (SELECT xa.addr, " "count(*) as holding_count"
    "json_agg(aa.assetid) as haid, json_agg(aa.amount) as hamt, json_agg(aa.frozen) as hf, json_agg(aa.created_at) as holding_created_at, json_agg(aa.closed_at) as holding_closed_at, json_agg(aa.deleted) as holding_deleted"
    " FROM account_asset aa JOIN qaccounts xa ON aa.addr = xa.addr" "aa.deleted" ++
  nested o countOnly (AO_IncludeAssetParams o)
    ", qap AS (SELECT ya.addr, " "count(*) as asset_count"
    "json_agg(ap.index) as paid, json_agg(ap.params) as pp, json_agg(ap.created_at) as asset_created_at, json_agg(ap.closed_at) as asset_closed_at, json_agg(ap.deleted) as asset_deleted"
    " FROM asset ap JOIN qaccounts ya ON ap.creator_addr = ya.addr" "ap.deleted" ++
  nested o countOnly (AO_IncludeAppParams o)
    ", qapp AS (SELECT app.creator as addr, " "count(*) as app_count"
    "json_agg(app.index) as papps, json_agg(app.params) as ppa, json_agg(app.created_at) as app_created_at, json_agg(app.closed_at) as app_closed_at, json_agg(app.deleted) as app_deleted"
    " FROM app JOIN qaccounts ON qaccounts.addr = app.creator" "app.deleted" ++
  nested o countOnly (AO_IncludeAppLocalState o)
    ", qls AS (SELECT la.addr, " "count(*) as ls_count"
    "json_agg(la.app) as lsapps, json_agg(la.localstate) as lsls, json_agg(la.created_at) as ls_created_at, json_agg(la.closed_at) as ls_closed_at, json_agg(la.deleted) as ls_deleted"
    " FROM account_app la JOIN qaccounts ON qaccounts.addr = la.addr" "la.deleted".

Definition columns (countOnly included : bool) (count cols : string) : list piece :=
  if included then [Lit (if countOnly then count else cols)] else [].

Definition result_columns (o : AccountQueryOptions) (countOnly : bool) : list piece :=
  [Lit " SELECT za.addr, za.microalgos, za.rewards_total, za.created_at, za.closed_at, za.deleted, za.rewardsbase, za.keytype, za.account_data"] ++
  columns countOnly (AO_IncludeAssetHoldings o) ", qaa.holding_count"
    ", qaa.haid, qaa.hamt, qaa.hf, qaa.holding_created_at, qaa.holding_closed_at, qaa.holding_deleted" ++
  columns countOnly (AO_IncludeAssetParams o) ", qap.asset_count"
    ", qap.paid, qap.pp, qap.asset_created_at, qap.asset_closed_at, qap.asset_deleted" ++
  columns countOnly (AO_IncludeAppParams o) ", qapp.app_count"
    ", qapp.papps, qapp.ppa, qapp.app_created_at, qapp.app_closed_at, qapp.app_deleted" ++
  columns countOnly (AO_IncludeAppLocalState o) ", qls.ls_count"
    ", qls.lsapps, qls.lsls, qls.ls_created_at, qls.ls_closed_at, qls.ls_deleted".

Definition joined (included : bool) (text : string) : list piece :=
  if included then [Lit text] else [].

Definition account_text (o : AccountQueryOptions) (countOnly : bool) : list piece :=
  Lit "WITH " :: join ", " (with_clauses o) ++
  nested_selects o countOnly ++
  result_columns o countOnly ++
  [Lit " FROM qaccounts za"] ++
  joined (AO_IncludeAssetHoldings o) " LEFT JOIN qaa ON za.addr = qaa.addr" ++
  joined (AO_IncludeAssetParams o) " LEFT JOIN qap ON za.addr = qap.addr" ++
  joined (AO_IncludeAppParams o) " LEFT JOIN qapp ON za.addr = qapp.addr" ++
  joined (AO_IncludeAppLocalState o) " LEFT JOIN qls ON za.addr = qls.addr" ++
  [Lit " ORDER BY za.addr ASC;"].

Definition buildAccountQuery (o : AccountQueryOptions) (countOnly : bool) : string * list arg :=
  (sql_text (account_text o countOnly), account_args o).
End BuildAccountQuery.

(** ** Executing the statement *)

(** [json_agg]: the text of an array, which the codec reads back, and the order in
    which the rows of a group are collected, which PostgreSQL does not promise. *)
Class PgAgg := {
  agg_bigint : list Z -> string;
  agg_bool : list bool -> string;
  agg_nullable : list (option Z) -> string;
  agg_jsonb : list string -> string;
  group_order : forall {A}, list A -> list A }.

Section Execute.
Context `{PgOps} `{PgAgg}.

(** The inner joins keep the accounts with a row in [qasf] and [qapf]; there is at
    most one, since asset and application are fixed. *)
Definition has_asset (o : AccountQueryOptions) (d : database) (addr : Address) : bool :=
  (AO_HasAssetID o =? 0) ||
  match t_account_asset (core d) !! (addr, AO_HasAssetID o) with
  | Some row => bool_decide (satisfies (holding_conds o) (addr, AO_HasAssetID o, row))
  | None => false
  end.
Definition has_app (o : AccountQueryOptions) (d : database) (addr : Address) : bool :=
  (AO_HasAppID o =? 0) ||
  match t_account_app (core d) !! (addr, AO_HasAppID o) with
  | Some row => bool_decide (satisfies (optin_conds o) (addr, AO_HasAppID o, row))
  | None => false
  end.

Definition account_selected (o : AccountQueryOptions) (d : database) (x : Address * account_row)
    : Prop :=
  satisfies (account_conds o) x /\ has_asset o d x.1 = true /\ has_app o d x.1 = true.
#[export] Instance account_selected_dec o d x : Decision (account_selected o d x).
Proof. unfold account_selected. apply _. Defined.

Definition qaccounts (o : AccountQueryOptions) (d : database) : list (Address * account_row) :=
  limited (page_limit (AO_Limit o))
    (filter (account_selected o d) (order_by (t_account (core d)))).

(** The rows of a group. *)
Definition shown (o : AccountQueryOptions) (deleted : bool) : Prop :=
  AO_IncludeDeleted o = true \/ deleted = false.

Definition holdings_of (o : AccountQueryOptions) (d : database) (addr : Address)
    : list (Address * Z * account_asset_row) :=
  group_order (filter (λ x, x.1.1 = addr /\ shown o (aar_deleted x.2))
    (map_to_list (t_account_asset (core d)))).
Definition assets_of (o : AccountQueryOptions) (d : database) (addr : Address)
    : list (Z * asset_row) :=
  group_order (filter (λ x, asr_creator_addr x.2 = addr /\ shown o (asr_deleted x.2))
    (map_to_list (t_asset (core d)))).
Definition apps_of (o : AccountQueryOptions) (d : database) (addr : Address)
    : list (Z * app_row) :=
  group_order (filter (λ x, apr_creator x.2 = addr /\ shown o (apr_deleted x.2))
    (map_to_list (t_app (core d)))).
Definition local_states_of (o : AccountQueryOptions) (d : database) (addr : Address)
    : list (Address * Z * account_app_row) :=
  group_order (filter (λ x, x.1.1 = addr /\ shown o (alr_deleted x.2))
    (map_to_list (t_account_app (core d)))).
End Execute.

(** The columns of one nested select; NULL, or a column that is not selected, scans
    as nil, the empty byte string. *)
Record holding_cols := {
  hl_assetids : string; hl_amount : string; hl_frozen : string; hl_created : string;
  hl_closed : string; hl_deleted : string }.
Record creatable_cols := {
  cl_ids : string; cl_values : string; cl_created : string; cl_closed : string;
  cl_deleted : string }.

Definition no_holding_cols : holding_cols := {|
  hl_assetids := ""; hl_amount := ""; hl_frozen := ""; hl_created := ""; hl_closed := "";
  hl_deleted := "" |}.
Definition no_creatable_cols : creatable_cols := {|
  cl_ids := ""; cl_values := ""; cl_created := ""; cl_closed := ""; cl_deleted := "" |}.

Record raw_account := {
  ra_addr : string; ra_microalgos : Z; ra_rewardstotal : Z; ra_createdat : option Z;
  ra_closedat : option Z; ra_deleted : option bool; ra_rewardsbase : Z;
  ra_keytype : option string; ra_account_data : string;
  ra_holdings : holding_cols; ra_assets : creatable_cols; ra_apps : creatable_cols;
  ra_local_states : creatable_cols }.

Section Columns.
Context `{PgOps} `{PgAgg}.

Definition agg_holdings (l : list (Address * Z * account_asset_row)) : holding_cols :=
  match l with
  | [] => no_holding_cols
  | _ => {|
      hl_assetids := agg_bigint (map (λ x, x.1.2) l);
      hl_amount := agg_bigint (map (λ x, aar_amount x.2) l);
      hl_frozen := agg_bool (map (λ x, aar_frozen x.2) l);
      hl_created := agg_bigint (map (λ x, aar_created_at x.2) l);
      hl_closed := agg_nullable (map (λ x, aar_closed_at x.2) l);
      hl_deleted := agg_bool (map (λ x, aar_deleted x.2) l) |}
  end.

Definition agg_creatables {A} (id : A -> Z) (value : A -> string) (created : A -> Z)
    (closed : A -> option Z) (deleted : A -> bool) (l : list A) : creatable_cols :=
  match l with
  | [] => no_creatable_cols
  | _ => {|
      cl_ids := agg_bigint (map id l); cl_values := agg_jsonb (map value l);
      cl_created := agg_bigint (map created l); cl_closed := agg_nullable (map closed l);
      cl_deleted := agg_bool (map deleted l) |}
  end.

Definition agg_assets : list (Z * asset_row) -> creatable_cols :=
  agg_creatables fst (λ x, asr_params x.2) (λ x, asr_created_at x.2) (λ x, asr_closed_at x.2)
    (λ x, asr_deleted x.2).
Definition agg_apps : list (Z * app_row) -> creatable_cols :=
  agg_creatables fst (λ x, apr_params x.2) (λ x, apr_created_at x.2) (λ x, apr_closed_at x.2)
    (λ x, apr_deleted x.2).
Definition agg_local_states : list (Address * Z * account_app_row) -> creatable_cols :=
  agg_creatables (λ x, x.1.2) (λ x, alr_localstate x.2) (λ x, alr_created_at x.2)
    (λ x, alr_closed_at x.2) (λ x, alr_deleted x.2).

(** A row of the result: the account and its groups, by the left joins. *)
Definition raw_of (o : AccountQueryOptions) (d : database) (x : Address * account_row)
    : raw_account := {|
  ra_addr := x.1; ra_microalgos := acr_microalgos x.2; ra_rewardstotal := acr_rewards_total x.2;
  ra_createdat := Some (acr_created_at x.2); ra_closedat := acr_closed_at x.2;
  ra_deleted := Some (acr_deleted x.2); ra_rewardsbase := acr_rewardsbase x.2;
  ra_keytype := acr_keytype x.2; ra_account_data := acr_account_data x.2;
  ra_holdings := if AO_IncludeAssetHoldings o then agg_holdings (holdings_of o d x.1)
                 else no_holding_cols;
  ra_assets := if AO_IncludeAssetParams o then agg_assets (assets_of o d x.1)
               else no_creatable_cols;
  ra_apps := if AO_IncludeAppParams o then agg_apps (apps_of o d x.1) else no_creatable_cols;
  ra_local_states := if AO_IncludeAppLocalState o then agg_local_states (local_states_of o d x.1)
                     else no_creatable_cols |}.

Definition exec_accounts (o : AccountQueryOptions) (d : database) : result (list raw_account) :=
  if negb (forallb arg_fits (account_args o)) then Err errBigint
  else if negb (fits_bigint (AO_Limit o)) then Err numericOutOfRange
  else Ok (map (raw_of o d) (qaccounts o d)).

(** The same statement with [count( * )]: NULL for an empty group. *)
Record count_row := {
  cr_addr : string; cr_account_data : string;
  cr_holdings : option Z; cr_assets : option Z; cr_apps : option Z; cr_local_states : option Z }.

Definition group_count {A} (included : bool) (l : list A) : option Z :=
  if included then match l with [] => None | _ => Some (Z.of_nat (length l)) end else None.

Definition count_of (o : AccountQueryOptions) (countOnly : bool) (d : database)
    (x : Address * account_row) : count_row := {|
  cr_addr := x.1; cr_account_data := acr_account_data x.2;
  cr_holdings := group_count (countOnly && AO_IncludeAssetHoldings o) (holdings_of o d x.1);
  cr_assets := group_count (countOnly && AO_IncludeAssetParams o) (assets_of o d x.1);
  cr_apps := group_count (countOnly && AO_IncludeAppParams o) (apps_of o d x.1);
  cr_local_states := group_count (countOnly && AO_IncludeAppLocalState o)
                       (local_states_of o d x.1) |}.

Definition exec_counts (o : AccountQueryOptions) (countOnly : bool) (d : database)
    : result (list count_row * database) :=
  if negb (forallb arg_fits (account_args o)) then Err errBigint
  else if negb (fits_bigint (AO_Limit o)) then Err numericOutOfRange
  else Ok (map (count_of o countOnly d) (qaccounts o d), d).
End Columns.

(** ** Assembling an account *)

(** [fmt.Errorf(fmt, ..., err)] with [%v]: the cause is text only. *)
Definition as_msg {A} (fmt : string) (r : result A) : result A :=
  match r with Ok a => Ok a | Err _ => Err (ErrMsg fmt) end.

(** The loops that skip an identifier seen before: [seen] are those at smaller
    indices. *)
Fixpoint dedup {A} (seen : list Z) (l : list (Z * A)) : list (Z * A) :=
  match l with
  | [] => []
  | x :: l =>
      if bool_decide (x.1 ∈ seen) then dedup (x.1 :: seen) l else x :: dedup (x.1 :: seen) l
  end.

Definition nullarraystr : string := "[null]".
Definition statusStrings : list string := ["Offline"; "Online"; "NotParticipating"].

Section Assemble.
Context `{SdkOps} `{UnicodeOps} `{MapRange}.
Context `{Codec baseAccountData} `{Codec (option (list assetParams))}
  `{Codec (option (list appParams))} `{Codec (option (list appLocalState))}.
Context `{Codec (list Z)} `{Codec (list bool)} `{Codec (list (option Z))}
  `{Codec (list (option bool))}.

Definition same_length {A B} (l : list A) (l' : list B) : bool :=
  bool_decide (length l = length l').

Definition parse_holdings (c : holding_cols) : result (option (list models.AssetHolding)) :=
  if bool_decide (hl_assetids c = "") || bool_decide (hl_assetids c = nullarraystr) then Ok None
  else
  haids ← as_msg "parsing json holding asset ids err %v" (DecodeJSON (T := list Z) (hl_assetids c));
  hamounts ← as_msg "parsing json holding amounts err %v" (DecodeJSON (T := list Z) (hl_amount c));
  hfrozen ← as_msg "parsing json holding frozen err %v" (DecodeJSON (T := list bool) (hl_frozen c));
  created ← as_msg "parsing json holding created ids, %v"
              (DecodeJSON (T := list (option Z)) (hl_created c));
  closed ← as_msg "parsing json holding closed ids, %v"
             (DecodeJSON (T := list (option Z)) (hl_closed c));
  deleted ← as_msg "parsing json holding deleted ids, %v"
              (DecodeJSON (T := list (option bool)) (hl_deleted c));
  if negb (same_length hamounts haids && same_length hfrozen haids && same_length created haids &&
           same_length closed haids && same_length deleted haids) then
    Err (ErrMsg "account asset holding unpacking, all should be %d:  %d amounts, %d frozen, %d created, %d closed, %d deleted")
  else
  Ok (Some (map (λ '(assetid, (amount, (frozen, (created, (closed, deleted))))), {|
      models.AssetHolding_Amount := amount; models.AssetHolding_AssetId := assetid;
      models.AssetHolding_Deleted := deleted; models.AssetHolding_IsFrozen := frozen;
      models.AssetHolding_OptedInAtRound := created;
      models.AssetHolding_OptedOutAtRound := closed |})
    (dedup [] (zip haids (zip hamounts (zip hfrozen (zip created (zip closed deleted)))))))).

(** The parameters of an asset in an account. *)
Definition account_asset_params (creator : string) (ap : AssetParams) : models.AssetParams := {|
  models.AssetParams_Clawback := addrStr (AP_Clawback ap);
  models.AssetParams_Creator := creator;
  models.AssetParams_Decimals := AP_Decimals ap;
  models.AssetParams_DefaultFrozen := boolPtr (AP_DefaultFrozen ap);
  models.AssetParams_Freeze := addrStr (AP_Freeze ap);
  models.AssetParams_Manager := addrStr (AP_Manager ap);
  models.AssetParams_MetadataHash := byteSliceOmitZeroPtr (AP_MetadataHash ap);
  models.AssetParams_Name := omitEmpty "" (PrintableUTF8OrEmpty (AP_AssetName ap));
  models.AssetParams_NameB64 := byteSlicePtr (AP_AssetName ap);
  models.AssetParams_Reserve := addrStr (AP_Reserve ap);
  models.AssetParams_Total := AP_Total ap;
  models.AssetParams_UnitName := omitEmpty "" (PrintableUTF8OrEmpty (AP_UnitName ap));
  models.AssetParams_UnitNameB64 := byteSlicePtr (AP_UnitName ap);
  models.AssetParams_Url := omitEmpty "" (PrintableUTF8OrEmpty (AP_URL ap));
  models.AssetParams_UrlB64 := byteSlicePtr (AP_URL ap) |}.
Definition parse_assets (address : string) (c : creatable_cols)
    : result (option (list models.Asset)) :=
  if bool_decide (cl_ids c = "") || bool_decide (cl_ids c = nullarraystr) then Ok None
  else
  assetids ← as_msg "parsing json asset param ids, %v" (DecodeJSON (T := list Z) (cl_ids c));
  params ← as_msg "parsing json asset param string, %v" (DecodeAssetParamsArray (cl_values c));
  let params := default [] params in
  created ← as_msg "parsing json asset created ids, %v"
              (DecodeJSON (T := list (option Z)) (cl_created c));
  closed ← as_msg "parsing json asset closed ids, %v"
             (DecodeJSON (T := list (option Z)) (cl_closed c));
  deleted ← as_msg "parsing json asset deleted ids, %v"
              (DecodeJSON (T := list (option bool)) (cl_deleted c));
  if negb (same_length params assetids && same_length created assetids &&
           same_length closed assetids && same_length deleted assetids) then
    Err (ErrMsg "account asset unpacking, all should be %d:  %d assetids, %d created, %d closed, %d deleted")
  else
  Ok (Some (map (λ '(assetid, (ap, (created, (closed, deleted)))), {|
      models.Asset_CreatedAtRound := created; models.Asset_Deleted := deleted;
      models.Asset_DestroyedAtRound := closed; models.Asset_Index := assetid;
      models.Asset_Params := account_asset_params address ap |})
    (dedup [] (zip assetids (zip params (zip created (zip closed deleted))))))).

(** The parameters of an application in an account; those of a deleted one are left
    out. *)
Definition account_app_params (creator : string) (ap : AppParams) : models.ApplicationParams :=
  match APP_ApprovalProgram ap, APP_ClearStateProgram ap with
  | None, None => {|
      models.ApplicationParams_ApprovalProgram := None;
      models.ApplicationParams_ClearStateProgram := None;
      models.ApplicationParams_Creator := Some creator;
      models.ApplicationParams_ExtraProgramPages := None;
      models.ApplicationParams_GlobalState := None;
      models.ApplicationParams_GlobalStateSchema := None;
      models.ApplicationParams_LocalStateSchema := None;
      models.ApplicationParams_Version := None |}
  | _, _ => {|
      models.ApplicationParams_ApprovalProgram := APP_ApprovalProgram ap;
      models.ApplicationParams_ClearStateProgram := APP_ClearStateProgram ap;
      models.ApplicationParams_Creator := Some creator;
      models.ApplicationParams_ExtraProgramPages :=
        if 0 <? APP_ExtraProgramPages ap then Some (APP_ExtraProgramPages ap) else None;
      models.ApplicationParams_GlobalState := tealKeyValueToModel (APP_GlobalState ap);
      models.ApplicationParams_GlobalStateSchema :=
        Some (stateSchemaToModel (APP_GlobalStateSchema ap));
      models.ApplicationParams_LocalStateSchema :=
        Some (stateSchemaToModel (APP_LocalStateSchema ap));
      models.ApplicationParams_Version := omitEmpty 0 (APP_Version ap) |}
  end.

Definition parse_apps (address : string) (c : creatable_cols)
    : result (option (list models.Application)) :=
  if bool_decide (cl_ids c = "") then Ok None
  else
  appIds ← as_msg "parsing json appids, %v" (DecodeJSON (T := list Z) (cl_ids c));
  created ← as_msg "parsing json app created ids, %v"
              (DecodeJSON (T := list (option Z)) (cl_created c));
  closed ← as_msg "parsing json app closed ids, %v"
             (DecodeJSON (T := list (option Z)) (cl_closed c));
  deleted ← as_msg "parsing json app deleted flags, %v"
              (DecodeJSON (T := list (option bool)) (cl_deleted c));
  apps ← as_msg "parsing json appparams, %v" (DecodeAppParamsArray (cl_values c));
  let apps := default [] apps in
  if negb (same_length appIds apps && same_length closed apps && same_length created apps &&
           same_length deleted apps) then
    Err (ErrMsg "account app unpacking, all should be %d:  %d appids, %d appClosed, %d appCreated, %d appDeleted")
  else
  Ok (Some (map (λ '(appid, (ap, (created, (closed, deleted)))), {|
      models.Application_CreatedAtRound := created; models.Application_Deleted := deleted;
      models.Application_DeletedAtRound := closed; models.Application_Id := appid;
      models.Application_Params := account_app_params address ap |})
    (zip appIds (zip apps (zip created (zip closed deleted)))))).

Definition parse_local_states (c : creatable_cols)
    : result (option (list models.ApplicationLocalState)) :=
  if bool_decide (cl_ids c = "") then Ok None
  else
  appIds ← as_msg "parsing json local appids, %v" (DecodeJSON (T := list Z) (cl_ids c));
  created ← as_msg "parsing json ls created ids, %v"
              (DecodeJSON (T := list (option Z)) (cl_created c));
  closed ← as_msg "parsing json ls closed ids, %v"
             (DecodeJSON (T := list (option Z)) (cl_closed c));
  deleted ← as_msg "parsing json ls closed ids, %v"
              (DecodeJSON (T := list (option bool)) (cl_deleted c));
  ls ← as_msg "parsing json local states, %v" (DecodeAppLocalStateArray (cl_values c));
  let ls := default [] ls in
  if negb (same_length appIds ls && same_length closed ls && same_length created ls &&
           same_length deleted ls) then
    Err (ErrMsg "account app unpacking, all should be %d:  %d appids, %d appClosed, %d appCreated, %d appDeleted")
  else
  Ok (Some (map (λ '(appid, (state, (created, (closed, deleted)))), {|
      models.ApplicationLocalState_ClosedOutAtRound := closed;
      models.ApplicationLocalState_Deleted := deleted;
      models.ApplicationLocalState_Id := appid;
      models.ApplicationLocalState_KeyValue := tealKeyValueToModel (ALS_KeyValue state);
      models.ApplicationLocalState_OptedInAtRound := created;
      models.ApplicationLocalState_Schema := stateSchemaToModel (ALS_Schema state) |})
    (zip appIds (zip ls (zip created (zip closed deleted)))))).

Definition account_participation (ad : AccountData) : option models.AccountParticipation :=
  let hasSel := negb (allZero (ACD_SelectionID ad)) in
  let hasVote := negb (allZero (ACD_VoteID ad)) in
  let hasStateProofkey := negb (allZero (ACD_StateProofID ad)) in
  if hasSel || hasVote || hasStateProofkey then
    Some {|
      models.AccountParticipation_SelectionParticipationKey :=
        if hasSel then Some (ACD_SelectionID ad) else None;
      models.AccountParticipation_StateProofKey :=
        if hasStateProofkey then byteSlicePtr (ACD_StateProofID ad) else None;
      models.AccountParticipation_VoteFirstValid := ACD_VoteFirstValid ad;
      models.AccountParticipation_VoteKeyDilution := ACD_VoteKeyDilution ad;
      models.AccountParticipation_VoteLastValid := ACD_VoteLastValid ad;
      models.AccountParticipation_VoteParticipationKey :=
        if hasVote then Some (ACD_VoteID ad) else None |}
  else None.

Definition pending_rewards (proto : ConsensusParams) (header : BlockHeader) (status : string)
    (microalgos rewardsbase : Z) : Z :=
  if bool_decide (status = "NotParticipating") then 0
  else
    let rewardsUnits := if CP_RewardUnit proto =? 0 then 0 else microalgos `div` CP_RewardUnit proto in
    let rewardsDelta := wrap64 (BH_RewardsLevel header - rewardsbase) in
    wrap64 (rewardsUnits * rewardsDelta).

Definition account_address (r : raw_account) : string :=
  AddressString (copy_address (ra_addr r)).

Definition account_model (proto : ConsensusParams) (header : BlockHeader) (r : raw_account)
    (ad : AccountData) (status : string) (assets : option (list models.AssetHolding))
    (createdAssets : option (list models.Asset)) (createdApps : option (list models.Application))
    (localStates : option (list models.ApplicationLocalState)) : models.Account :=
  let pending := pending_rewards proto header status (ra_microalgos r) (ra_rewardsbase r) in {|
  models.Account_Address := account_address r;
  models.Account_Amount := wrap64 (ra_microalgos r + pending);
  models.Account_AmountWithoutPendingRewards := ra_microalgos r;
  models.Account_AppsLocalState := localStates;
  models.Account_AppsTotalExtraPages := omitEmpty 0 (ACD_TotalExtraAppPages ad);
  models.Account_AppsTotalSchema :=
    omitEmpty models.zero_ApplicationStateSchema (stateSchemaToModel (ACD_TotalAppSchema ad));
  models.Account_Assets := assets;
  models.Account_AuthAddr :=
    if Address_IsZero (ACD_AuthAddr ad) then None
    else omitEmpty "" (AddressString (copy_address (ACD_AuthAddr ad)));
  models.Account_ClosedAtRound := nullableInt64Ptr (ra_closedat r);
  models.Account_CreatedApps := createdApps;
  models.Account_CreatedAssets := createdAssets;
  models.Account_CreatedAtRound := nullableInt64Ptr (ra_createdat r);
  models.Account_Deleted := nullableBoolPtr (ra_deleted r);
  models.Account_IncentiveEligible := omitEmpty false (ACD_IncentiveEligible ad);
  models.Account_LastHeartbeat := omitEmpty 0 (ACD_LastHeartbeat ad);
  models.Account_LastProposed := omitEmpty 0 (ACD_LastProposed ad);
  models.Account_MinBalance := AccountMinBalance ad proto;
  models.Account_Participation := account_participation ad;
  models.Account_PendingRewards := pending;
  models.Account_RewardBase := Some (ra_rewardsbase r);
  models.Account_Rewards := ra_rewardstotal r;
  models.Account_Round := BH_Round header;
  models.Account_SigType :=
    match ra_keytype r with
    | Some keytype => omitEmpty "" keytype
    | None => None
    end;
  models.Account_Status := status;
  models.Account_TotalAppsOptedIn := ACD_TotalAppLocalStates ad;
  models.Account_TotalAssetsOptedIn := ACD_TotalAssets ad;
  models.Account_TotalBoxBytes := ACD_TotalBoxBytes ad;
  models.Account_TotalBoxes := ACD_TotalBoxes ad;
  models.Account_TotalCreatedApps := ACD_TotalAppParams ad;
  models.Account_TotalCreatedAssets := ACD_TotalAssetParams ad |}.

(** One turn of the loop.  An unknown status is an index out of range. *)
Definition account_of_row (proto : ConsensusParams) (header : BlockHeader) (r : raw_account)
    : result models.Account :=
  ad ← as_msg "account decode err (%s) %v" (DecodeTrimmedLcAccountData (ra_account_data r));
  status ← match statusStrings !! Z.to_nat (ACD_Status ad) with
           | Some s => Ok s
           | None => Err (ErrPanic "index out of range")
           end;
  let address := account_address r in
  assets ← parse_holdings (ra_holdings r);
  createdAssets ← parse_assets address (ra_assets r);
  createdApps ← parse_apps address (ra_apps r);
  localStates ← parse_local_states (ra_local_states r);
  Ok (account_model proto header r ad status assets createdAssets createdApps localStates).

Definition account_error (e : error) : AccountRow :=
  {| AcR_Account := models.zero_Account; AcR_Error := Some e |}.
Definition account_ok (a : models.Account) : AccountRow :=
  {| AcR_Account := a; AcR_Error := None |}.

(** The rows sent; [Err] is a panic of the goroutine. *)
Fixpoint yield_accounts (proto : ConsensusParams) (header : BlockHeader) (limit count : Z)
    (rows : list (result raw_account)) (err : option error) : result (list AccountRow) :=
  let rows_err := rows_Err (λ _, account_error (ErrMsg "error reading rows: %v")) err in
  match rows with
  | [] => Ok rows_err
  | Err e :: _ => Ok (account_error (ErrMsg "account scan err %v") :: rows_err)
  | Ok r :: rows =>
      match account_of_row proto header r with
      | Err (ErrPanic what) => Err (ErrPanic what)
      | Err e => Ok [account_error e]
      | Ok a =>
          let count := wrap64 (count + 1) in
          if negb (limit =? 0) && (limit <=? count) then Ok [account_ok a]
          else
            out ← yield_accounts proto header limit count rows err;
            Ok (account_ok a :: out)
      end
  end.

Definition yieldAccountsThread (o : AccountQueryOptions) (header : BlockHeader)
    (rows : Rows raw_account) : result (list AccountRow) :=
  match Consensus (BH_CurrentProtocol header) with
  | None => Ok [account_error (ErrMsg "get protocol err (%s)")]
  | Some proto => yield_accounts proto header (AO_Limit o) 0 (rs_rows rows) (rs_err rows)
  end.
End Assemble.

(** ** [checkAccountResourceLimit] and [GetAccounts] *)

Section GetAccounts.
Context `{SdkOps} `{UnicodeOps} `{MapRange} `{PgOps} `{PgAgg}.
Context `{Codec ImportState} `{Codec blockHeader}.
Context `{Codec baseAccountData} `{Codec (option (list assetParams))}
  `{Codec (option (list appParams))} `{Codec (option (list appLocalState))}.
Context `{Codec (list Z)} `{Codec (list bool)} `{Codec (list (option Z))}
  `{Codec (list (option bool))}.

(** The totals of an account: the counts of the query, or those of its data. *)
Record totals := {
  tl_holdings : Z; tl_assets : Z; tl_apps : Z; tl_local_states : Z }.

Definition row_totals (countOnly : bool) (r : count_row) (ad : AccountData) : totals :=
  if countOnly then
    {| tl_holdings := wrap64 (default 0 (cr_holdings r));
       tl_assets := wrap64 (default 0 (cr_assets r));
       tl_apps := wrap64 (default 0 (cr_apps r));
       tl_local_states := wrap64 (default 0 (cr_local_states r)) |}
  else
    {| tl_holdings := ACD_TotalAssets ad; tl_assets := ACD_TotalAssetParams ad;
       tl_apps := ACD_TotalAppParams ad; tl_local_states := ACD_TotalAppLocalStates ad |}.

Definition result_count (o : AccountQueryOptions) (t : totals) : Z :=
  let add (b : bool) (n acc : Z) := if b then wrap64 (acc + n) else acc in
  add (AO_IncludeAppParams o) (tl_apps t)
    (add (AO_IncludeAppLocalState o) (tl_local_states t)
      (add (AO_IncludeAssetParams o) (tl_assets t)
        (add (AO_IncludeAssetHoldings o) (tl_holdings t) 0))).

(** The body of the loop: [Some e] is [return e]. *)
Definition check_row (o : AccountQueryOptions) (countOnly : bool) (r : count_row) : option error :=
  match DecodeTrimmedLcAccountData (cr_account_data r) with
  | Err _ => Some (ErrMsg "account limit decode err (%s) %v")
  | Ok ad =>
      let t := row_totals countOnly r ad in
      if AO_MaxResources o <? result_count o t then
        Some (ErrMaxAPIResources (copy_address (cr_addr r)) (tl_local_states t) (tl_apps t)
                (tl_holdings t) (tl_assets t))
      else None
  end.

(** The loop [for rows.Next()].  [rows.Err()] is not looked at afterwards, so that a failure of
    [rows.Next()] ends the loop like the last row. *)
Fixpoint check_rows (o : AccountQueryOptions) (countOnly : bool) (l : list count_row)
    (fs : faults) : result unit * faults :=
  match fs with
  | Some _ :: fs => (Ok tt, fs)
  | _ =>
      match l with
      | [] => (Ok tt, tail fs)
      | r :: l =>
          match tail fs with
          | Some _ :: fs => (Err (ErrMsg "account limit scan err %v"), fs)
          | _ =>
              match check_row o countOnly r with
              | Some e => (Err e, tail (tail fs))
              | None => check_rows o countOnly l (tail (tail fs))
              end
          end
      end
  end.

Definition without_resources (o : AccountQueryOptions) : AccountQueryOptions := {|
  AO_GreaterThanAddress := AO_GreaterThanAddress o; AO_EqualToAddress := AO_EqualToAddress o;
  AO_EqualToAuthAddr := AO_EqualToAuthAddr o; AO_OnlineOnly := AO_OnlineOnly o;
  AO_AlgosGreaterThan := AO_AlgosGreaterThan o; AO_AlgosLessThan := AO_AlgosLessThan o;
  AO_HasAssetID := AO_HasAssetID o; AO_AssetGT := AO_AssetGT o; AO_AssetLT := AO_AssetLT o;
  AO_HasAppID := AO_HasAppID o; AO_IncludeAssetHoldings := false;
  AO_IncludeAssetParams := false; AO_IncludeAppLocalState := false;
  AO_IncludeAppParams := false; AO_MaxResources := AO_MaxResources o;
  AO_IncludeDeleted := AO_IncludeDeleted o; AO_Limit := AO_Limit o |}.

Definition includes_resources (o : AccountQueryOptions) : bool :=
  AO_IncludeAssetHoldings o || AO_IncludeAssetParams o || AO_IncludeAppLocalState o ||
  AO_IncludeAppParams o.

Definition checkAccountResourceLimit (o : AccountQueryOptions) : Tx database unit := λ d fs,
  if negb (includes_resources o) then (Ok tt, d, fs)
  else
  let countOnly := AO_IncludeDeleted o in
  let o' := if countOnly then o else without_resources o in
  match db_call (exec_counts o' countOnly) d fs with
  | (Err _, d, fs) => (Err (ErrMsg "account limit query %#v err %v"), d, fs)
  | (Ok l, d, fs) => let '(r, fs) := check_rows o countOnly l fs in (r, d, fs)
  end.

(** [err = fmt.Errorf(fmt, err); out <- AccountRow{Error: err}; return out, round] *)
Definition account_fail (fmt : string) (round : Z) : Tx database (list AccountRow * Z) :=
  tx_ret ([account_error (ErrMsg fmt)], round).

(** The [Err] of the result is a panic. *)
Definition account_rows (o : AccountQueryOptions) (header : BlockHeader) (round : Z)
    : Tx database (list AccountRow * Z) := λ d fs,
  match db_call (λ d, l ← exec_accounts o d; Ok (l, d)) d fs with
  | (Err _, d, fs) => account_fail "account query %#v err %v" round d fs
  | (Ok l, d, fs) =>
      let '(rows, fs) := scan_rows l fs in
      (out ← yieldAccountsThread o header rows; Ok (out, round), d, fs)
  end.

Definition GetAccounts (o : AccountQueryOptions) : Tx database (list AccountRow * Z) :=
  if (AO_HasAssetID o =? 0) &&
     (bool_decide (is_Some (AO_AssetGT o)) || bool_decide (is_Some (AO_AssetLT o))) then
    account_fail "AssetGT=%d, AssetLT=%d, but HasAssetID=%d" 0
  else
  begun <-- tx_try (db_call (λ d, Ok (tt, d)));
  match begun with
  | Err _ => account_fail "account tx err %v" 0
  | Ok _ =>
  round <-- tx_try (on_core getMaxRoundAccounted);
  match round with
  | Err _ => account_fail "account round err %v" 0
  | Ok round =>
  headerjson <-- tx_try (db_call (select_header round));
  match headerjson with
  | Err _ => account_fail "account round header %d err %v" round
  | Ok json =>
  match DecodeBlockHeader json with
  | Err _ => account_fail "account round header %d err %v" round
  | Ok blockheader =>
  limit <-- (if AO_MaxResources o =? 0 then tx_ret (Ok tt)
             else tx_try (checkAccountResourceLimit o));
  match limit with
  | Err e => tx_ret ([account_error e], round)
  | Ok _ => account_rows o blockheader round
  end end end end end.
End GetAccounts.

(** ** What is documented of [json_agg]

    The text of an array reads back as its elements, a number or a flag also through
    a pointer; an array of documents reads back element by element; no array of
    identifiers prints as the empty text or as [[null]]; a group is collected in
    some order. *)

Class PgAggLaws `{PgAgg}
  `{Codec assetParams} `{Codec appParams} `{Codec appLocalState}
  `{Codec (option (list assetParams))} `{Codec (option (list appParams))}
  `{Codec (option (list appLocalState))}
  `{Codec (list Z)} `{Codec (list bool)} `{Codec (list (option Z))}
  `{Codec (list (option bool))} := {
  agg_bigint_read l : DecodeJSON (T := list Z) (agg_bigint l) = Ok l;
  agg_bigint_pointers l : DecodeJSON (T := list (option Z)) (agg_bigint l) = Ok (map Some l);
  agg_nullable_read l : DecodeJSON (T := list (option Z)) (agg_nullable l) = Ok l;
  agg_bool_read l : DecodeJSON (T := list bool) (agg_bool l) = Ok l;
  agg_bool_pointers l : DecodeJSON (T := list (option bool)) (agg_bool l) = Ok (map Some l);
  agg_bigint_text l : l <> [] -> agg_bigint l <> "" /\ agg_bigint l <> nullarraystr;
  agg_assets_read docs vals :
    Forall2 (λ doc (v : assetParams), DecodeJSON doc = Ok v) docs vals ->
    DecodeJSON (agg_jsonb docs) = Ok (Some vals);
  agg_apps_read docs vals :
    Forall2 (λ doc (v : appParams), DecodeJSON doc = Ok v) docs vals ->
    DecodeJSON (agg_jsonb docs) = Ok (Some vals);
  agg_local_states_read docs vals :
    Forall2 (λ doc (v : appLocalState), DecodeJSON doc = Ok v) docs vals ->
    DecodeJSON (agg_jsonb docs) = Ok (Some vals);
  group_order_perm A (l : list A) : group_order l ≡ₚ l }.

(** ** An account as the tables have it *)

Definition nonempty {A} (l : list A) : option (list A) :=
  match l with [] => None | _ => Some l end.

Section Direct.
Context `{SdkOps} `{UnicodeOps} `{MapRange}.
Context `{Codec assetParams} `{Codec appParams} `{Codec appLocalState}.

Definition holding_model (x : Address * Z * account_asset_row) : models.AssetHolding := {|
  models.AssetHolding_Amount := aar_amount x.2; models.AssetHolding_AssetId := x.1.2;
  models.AssetHolding_Deleted := Some (aar_deleted x.2);
  models.AssetHolding_IsFrozen := aar_frozen x.2;
  models.AssetHolding_OptedInAtRound := Some (aar_created_at x.2);
  models.AssetHolding_OptedOutAtRound := aar_closed_at x.2 |}.

Definition or_zero {A} (zero : A) (r : result A) : A :=
  match r with Ok a => a | Err _ => zero end.

Definition created_asset (address : string) (x : Z * asset_row) : models.Asset := {|
  models.Asset_CreatedAtRound := Some (asr_created_at x.2);
  models.Asset_Deleted := Some (asr_deleted x.2);
  models.Asset_DestroyedAtRound := asr_closed_at x.2; models.Asset_Index := x.1;
  models.Asset_Params := account_asset_params address
    (or_zero Zero.assetParams (DecodeAssetParams (asr_params x.2))) |}.

Definition created_app (address : string) (x : Z * app_row) : models.Application := {|
  models.Application_CreatedAtRound := Some (apr_created_at x.2);
  models.Application_Deleted := Some (apr_deleted x.2);
  models.Application_DeletedAtRound := apr_closed_at x.2; models.Application_Id := x.1;
  models.Application_Params := account_app_params address
    (or_zero zeroAppParams (DecodeAppParams (apr_params x.2))) |}.

Definition local_state (x : Address * Z * account_app_row) : models.ApplicationLocalState :=
  (local_state_rec x).1.(LsR_AppLocalState).
End Direct.

(** ** The aggregates read back *)

Lemma dedup_nodup {A} (l : list (Z * A)) seen :
  NoDup (map fst l) -> (forall x, x ∈ l -> x.1 ∉ seen) -> dedup seen l = l.
Proof.
  revert seen. induction l as [|x l IH]; intros seen Hn Hs; cbn; [done|].
  apply NoDup_cons in Hn as [Hx Hn]. rewrite bool_decide_eq_false_2 by (apply Hs; left).
  f_equal. apply IH; [done|]. intros y Hy [Heq|Hin]%elem_of_cons.
  - apply Hx. rewrite <- Heq. by apply (list_elem_of_fmap_2 fst).
  - apply (Hs y); [by right|done].
Qed.

Lemma zip_map {A B C} (f : A -> B) (g : A -> C) l :
  zip (map f l) (map g l) = map (λ x, (f x, g x)) l.
Proof. induction l; cbn; congruence. Qed.

Lemma same_length_map {A B C} (f : A -> B) (g : A -> C) l :
  same_length (map f l) (map g l) = true.
Proof. apply bool_decide_eq_true_2. by rewrite !length_map. Qed.

Lemma decode_all {A B} (decode : string -> result B) (doc : A -> string) (l : list A) :
  (forall x, x ∈ l -> exists v, decode (doc x) = Ok v) ->
  exists vals, Forall2 (λ s v, decode s = Ok v) (map doc l) vals /\
    Forall2 (λ x v, decode (doc x) = Ok v) l vals.
Proof.
  induction l as [|x l IH]; intros Hl; [exists []; split; constructor|].
  destruct (Hl x) as [v Hv]; [left|].
  destruct IH as (vals & H1 & H2); [intros y Hy; apply Hl; by right|].
  exists (v :: vals). split; by constructor.
Qed.

(** The values of the rows, as a map over the rows. *)
Lemma Forall2_map_of {A B C} (P : A -> B -> Prop) (h : B -> C) (g : A -> C) l vals :
  (forall x v, x ∈ l -> P x v -> h v = g x) -> Forall2 P l vals -> map h vals = map g l.
Proof.
  intros Hg Hl. induction Hl as [|x v l vals Hx _ IH]; [done|]. cbn. f_equal.
  - apply Hg; [left|done].
  - apply IH. intros y w Hy. apply Hg. by right.
Qed.

Section ReadBack.
Context `{SdkOps} `{UnicodeOps} `{MapRange}.
Context `{PgAggLaws}.

Lemma ids_nonnull (l : list Z) :
  l <> [] ->
  bool_decide (agg_bigint l = "") || bool_decide (agg_bigint l = nullarraystr) = false.
Proof.
  intros Hl. destruct (agg_bigint_text l Hl). by rewrite !bool_decide_eq_false_2.
Qed.

Lemma parse_holdings_agg l :
  NoDup (map (λ x, x.1.2) l) ->
  parse_holdings (agg_holdings l) = Ok (nonempty (map holding_model l)).
Proof.
  intros Hn. destruct l as [|x l']; [done|]. set (l := x :: l') in *.
  change (agg_holdings l) with {|
      hl_assetids := agg_bigint (map (λ x, x.1.2) l);
      hl_amount := agg_bigint (map (λ x, aar_amount x.2) l);
      hl_frozen := agg_bool (map (λ x, aar_frozen x.2) l);
      hl_created := agg_bigint (map (λ x, aar_created_at x.2) l);
      hl_closed := agg_nullable (map (λ x, aar_closed_at x.2) l);
      hl_deleted := agg_bool (map (λ x, aar_deleted x.2) l) |}.
  unfold parse_holdings. cbn [hl_assetids hl_amount hl_frozen hl_created hl_closed hl_deleted].
  rewrite ids_nonnull by done.
  rewrite !agg_bigint_read, !agg_bigint_pointers, agg_bool_read, agg_bool_pointers,
    agg_nullable_read. cbn [as_msg mbind result_bind]. rewrite !map_map, !same_length_map.
  cbn [negb andb]. rewrite !zip_map, dedup_nodup.
  - by rewrite map_map.
  - by rewrite map_map.
  - intros y _ Hy. by apply not_elem_of_nil in Hy.
Qed.

(** Reads the columns of [agg_creatables] over a group that is not empty. *)
Ltac read_columns :=
  cbn [cl_ids cl_values cl_created cl_closed cl_deleted];
  rewrite ?agg_bigint_read, ?agg_bigint_pointers, ?agg_bool_pointers, ?agg_nullable_read;
  cbn [as_msg mbind result_bind].

Lemma parse_assets_agg address l :
  NoDup (map fst l) -> (forall x, x ∈ l -> exists v, DecodeAssetParams (asr_params x.2) = Ok v) ->
  parse_assets address (agg_assets l) = Ok (nonempty (map (created_asset address) l)).
Proof.
  intros Hn Hd. destruct l as [|x l']; [done|]. set (l := x :: l') in *.
  destruct (decode_all (DecodeJSON (T := assetParams)) (λ x, asr_params x.2) l)
    as (vals & Hdocs & Hvals).
  { intros y Hy. destruct (Hd y Hy) as [p Hp]. unfold DecodeAssetParams in Hp.
    destruct (DecodeJSON (asr_params y.2)); [eauto|done]. }
  assert (map unconvertAssetParams vals =
    map (λ x, or_zero Zero.assetParams (DecodeAssetParams (asr_params x.2))) l) as Hmap.
  { eapply Forall2_map_of; [|exact Hvals]. cbn. intros y v _ Hv.
    unfold DecodeAssetParams. by rewrite Hv. }
  unfold parse_assets, agg_assets, agg_creatables, l. fold l. read_columns.
  rewrite ids_nonnull by done. unfold DecodeAssetParamsArray.
  rewrite (agg_assets_read _ _ Hdocs). cbn [as_msg mbind result_bind default].
  cbn [unconvertAssetParamsArray fmap option_fmap option_map from_option id].
  rewrite Hmap, !map_map, !same_length_map. cbn [negb andb].
  rewrite !zip_map, dedup_nodup; [by rewrite map_map|by rewrite map_map|].
  intros y _ Hy. by apply not_elem_of_nil in Hy.
Qed.

Lemma parse_apps_agg address l :
  (forall x, x ∈ l -> exists v, DecodeJSON (T := appParams) (apr_params x.2) = Ok v) ->
  parse_apps address (agg_apps l) = Ok (nonempty (map (created_app address) l)).
Proof.
  intros Hd. destruct l as [|x l']; [done|]. set (l := x :: l') in *.
  destruct (decode_all (DecodeJSON (T := appParams)) (λ x, apr_params x.2) l)
    as (vals & Hdocs & Hvals); [done|].
  assert (map unconvertAppParams vals =
    map (λ x, or_zero zeroAppParams (DecodeAppParams (apr_params x.2))) l) as Hmap.
  { eapply Forall2_map_of; [|exact Hvals]. cbn. intros y v _ Hv.
    unfold DecodeAppParams. by rewrite Hv. }
  unfold parse_apps, agg_apps, agg_creatables, l. fold l. read_columns.
  rewrite (bool_decide_eq_false_2 (agg_bigint _ = "")) by (by apply agg_bigint_text).
  unfold DecodeAppParamsArray. rewrite (agg_apps_read _ _ Hdocs).
  cbn [as_msg mbind result_bind].
  cbn [unconvertAppParamsArray fmap option_fmap option_map default from_option id].
  rewrite Hmap, !map_map, !same_length_map. cbn [negb andb].
  by rewrite !zip_map, map_map.
Qed.

Lemma parse_local_states_agg l :
  (forall x, x ∈ l -> exists v, DecodeAppLocalState (alr_localstate x.2) = Ok v) ->
  parse_local_states (agg_local_states l) = Ok (nonempty (map local_state l)).
Proof.
  intros Hd. destruct l as [|x l']; [done|]. set (l := x :: l') in *.
  destruct (decode_all (DecodeJSON (T := appLocalState)) (λ x, alr_localstate x.2) l)
    as (vals & Hdocs & Hvals).
  { intros y Hy. destruct (Hd y Hy) as [p Hp]. unfold DecodeAppLocalState in Hp.
    destruct (DecodeJSON (alr_localstate y.2)); [eauto|done]. }
  set (zero := {| ALS_Schema := Zero.schema0; ALS_KeyValue := None |}).
  assert (map unconvertAppLocalState vals =
    map (λ x, or_zero zero (DecodeAppLocalState (alr_localstate x.2))) l) as Hmap.
  { eapply Forall2_map_of; [|exact Hvals]. cbn. intros y v _ Hv.
    unfold DecodeAppLocalState. by rewrite Hv. }
  unfold parse_local_states, agg_local_states, agg_creatables, l. fold l. read_columns.
  rewrite (bool_decide_eq_false_2 (agg_bigint _ = "")) by (by apply agg_bigint_text).
  unfold DecodeAppLocalStateArray. rewrite (agg_local_states_read _ _ Hdocs).
  cbn [as_msg mbind result_bind].
  cbn [unconvertAppLocalStateArray fmap option_fmap option_map default from_option id].
  rewrite Hmap, !map_map, !same_length_map. cbn [negb andb].
  rewrite !zip_map, map_map. f_equal.
  change (nonempty (map local_state l)) with (Some (map local_state l)).
  f_equal. apply map_ext_in. intros y Hy.
  destruct (Hd y) as [ls Hls]; [by apply list_elem_of_In|].
  unfold local_state, local_state_rec. by rewrite Hls.
Qed.
End ReadBack.

(** ** What [GetAccounts] returns *)

Section Results.
Context `{SdkOps} `{UnicodeOps} `{MapRange} `{PgOps}.
Context `{Codec ImportState} `{Codec blockHeader} `{Codec baseAccountData}.
Context `{PgAggLaws}.

Lemma NoDup_group_ids {A} (id : A -> Z) (P : A -> Prop) `{!forall x, Decision (P x)} (l : list A) :
  NoDup l -> (forall x y, x ∈ l -> y ∈ l -> P x -> P y -> id x = id y -> x = y) ->
  NoDup (map id (group_order (filter P l))).
Proof.
  intros Hn Hinj. rewrite group_order_perm.
  assert (forall x y, x ∈ filter P l -> y ∈ filter P l -> id x = id y -> x = y) as Hinj'.
  { intros x y [Hx Hxl]%list_elem_of_filter [Hy Hyl]%list_elem_of_filter. by apply Hinj. }
  assert (NoDup (filter P l)) as Hnf by (by apply NoDup_filter).
  clear Hinj Hn. induction Hnf as [|x l' Hx Hl IH]; cbn; constructor.
  - intros (y & Heq & Hy)%list_elem_of_fmap_1. apply Hx.
    rewrite (Hinj' x y); [done|left|by right|done].
  - apply IH. intros y z Hy Hz. apply Hinj'; by right.
Qed.

Lemma holdings_of_nodup o d addr : NoDup (map (λ x, x.1.2) (holdings_of o d addr)).
Proof.
  apply NoDup_group_ids; [apply NoDup_map_to_list|].
  intros [[a i] r] [[a' i'] r'] Hx%elem_of_map_to_list Hy%elem_of_map_to_list. cbn.
  intros [-> _] [-> _] ->. congruence.
Qed.

Lemma assets_of_nodup o d addr : NoDup (map fst (assets_of o d addr)).
Proof.
  apply NoDup_group_ids; [apply NoDup_map_to_list|].
  intros [i r] [i' r'] Hx%elem_of_map_to_list Hy%elem_of_map_to_list _ _. cbn.
  intros ->. congruence.
Qed.

(** A state that can be read: the header of the round, and every document. *)
Record accounts_readable (d : database) (round : Z) (header : BlockHeader)
    (proto : ConsensusParams) : Prop := {
  rd_accounted : accounted d round;
  rd_header : exists row, t_block_header (core d) !! round = Some row /\
    DecodeBlockHeader (bhr_header row) = Ok header;
  rd_round : fits_bigint round = true;
  rd_proto : Consensus (BH_CurrentProtocol header) = Some proto;
  rd_accounts addr row : t_account (core d) !! addr = Some row ->
    exists ad, DecodeTrimmedLcAccountData (acr_account_data row) = Ok ad /\
      0 <= ACD_Status ad < 3;
  rd_assets id row : t_asset (core d) !! id = Some row ->
    exists p, DecodeAssetParams (asr_params row) = Ok p;
  rd_apps id row : t_app (core d) !! id = Some row ->
    exists p, DecodeJSON (T := appParams) (apr_params row) = Ok p;
  rd_local_states k row : t_account_app (core d) !! k = Some row ->
    exists ls, DecodeAppLocalState (alr_localstate row) = Ok ls }.

(** The account read directly from the tables: its own columns, and, for each kind
    asked for, the rows that belong to it. *)
Definition account_in (o : AccountQueryOptions) (d : database) (header : BlockHeader)
    (proto : ConsensusParams) (x : Address * account_row) (ad : AccountData) : models.Account :=
  let address := AddressString (copy_address x.1) in
  let included {A B} (b : bool) (f : A -> B) (l : list A) :=
    if b then nonempty (map f l) else None in
  account_model proto header (raw_of o d x) ad
    (default "" (statusStrings !! Z.to_nat (ACD_Status ad)))
    (included (AO_IncludeAssetHoldings o) holding_model (holdings_of o d x.1))
    (included (AO_IncludeAssetParams o) (created_asset address) (assets_of o d x.1))
    (included (AO_IncludeAppParams o) (created_app address) (apps_of o d x.1))
    (included (AO_IncludeAppLocalState o) local_state (local_states_of o d x.1)).

(** The row sent for an account. *)
Definition account_sent (o : AccountQueryOptions) (d : database) (header : BlockHeader)
    (proto : ConsensusParams) (x : Address * account_row) (r : AccountRow) : Prop :=
  exists ad, DecodeTrimmedLcAccountData (acr_account_data x.2) = Ok ad /\
    r = account_ok (account_in o d header proto x ad).

Lemma elem_of_group {A} (P : A -> Prop) `{!forall x, Decision (P x)} (l : list A) x :
  x ∈ group_order (filter P l) -> x ∈ l.
Proof. rewrite group_order_perm. by intros [_ Hx]%list_elem_of_filter. Qed.

(** Parsing the row of the statement gives the account of the tables. *)
Lemma account_of_raw o d round header proto x :
  accounts_readable d round header proto -> t_account (core d) !! x.1 = Some x.2 ->
  exists ad, DecodeTrimmedLcAccountData (acr_account_data x.2) = Ok ad /\
    account_of_row proto header (raw_of o d x) = Ok (account_in o d header proto x ad).
Proof.
  intros Hd Hx. destruct (rd_accounts _ _ _ _ Hd _ _ Hx) as (ad & Had & Hst).
  exists ad. split; [done|]. unfold account_of_row, account_in.
  change (ra_account_data (raw_of o d x)) with (acr_account_data x.2). rewrite Had.
  cbn [as_msg mbind result_bind].
  assert (exists s, statusStrings !! Z.to_nat (ACD_Status ad) = Some s) as [s ->].
  { apply lookup_lt_is_Some_2. cbn. lia. }
  cbn [as_msg mbind result_bind default from_option]. cbv zeta.
  change (account_address (raw_of o d x)) with (AddressString (copy_address x.1)).
  cbn [raw_of ra_holdings ra_assets ra_apps ra_local_states].
  assert (parse_holdings (if AO_IncludeAssetHoldings o then agg_holdings (holdings_of o d x.1)
      else no_holding_cols) =
    Ok (if AO_IncludeAssetHoldings o then nonempty (map holding_model (holdings_of o d x.1))
        else None)) as ->.
  { destruct (AO_IncludeAssetHoldings o); [|done]. apply parse_holdings_agg, holdings_of_nodup. }
  cbn [mbind result_bind].
  assert (forall address, parse_assets address
      (if AO_IncludeAssetParams o then agg_assets (assets_of o d x.1) else no_creatable_cols) =
    Ok (if AO_IncludeAssetParams o then nonempty (map (created_asset address) (assets_of o d x.1))
        else None)) as ->.
  { intros address. destruct (AO_IncludeAssetParams o); [|done].
    apply parse_assets_agg; [apply assets_of_nodup|].
    intros [i r] Hi%elem_of_group%elem_of_map_to_list. by eapply rd_assets. }
  cbn [mbind result_bind].
  assert (forall address, parse_apps address
      (if AO_IncludeAppParams o then agg_apps (apps_of o d x.1) else no_creatable_cols) =
    Ok (if AO_IncludeAppParams o then nonempty (map (created_app address) (apps_of o d x.1))
        else None)) as ->.
  { intros address. destruct (AO_IncludeAppParams o); [|done]. apply parse_apps_agg.
    intros [i r] Hi%elem_of_group%elem_of_map_to_list. by eapply rd_apps. }
  cbn [mbind result_bind].
  assert (parse_local_states (if AO_IncludeAppLocalState o
      then agg_local_states (local_states_of o d x.1) else no_creatable_cols) =
    Ok (if AO_IncludeAppLocalState o then nonempty (map local_state (local_states_of o d x.1))
        else None)) as ->.
  { destruct (AO_IncludeAppLocalState o); [|done]. apply parse_local_states_agg.
    intros [k r] Hk%elem_of_group%elem_of_map_to_list. by eapply rd_local_states. }
  done.
Qed.

(** The loop sends all rows: the limit of the statement stops it no earlier than the
    last one. *)
Lemma yield_accounts_ok proto header limit (f : raw_account -> models.Account) l count :
  (forall r, r ∈ l -> account_of_row proto header r = Ok (f r)) ->
  limit = 0 \/ 0 <= count /\ count + Z.of_nat (length l) <= limit < 2 ^ 63 ->
  yield_accounts proto header limit count (map Ok l) None = Ok (map (λ r, account_ok (f r)) l).
Proof.
  revert count. induction l as [|r l IH]; intros count Hf Hlim; [done|].
  cbn [map yield_accounts]. rewrite Hf by left. cbn [length] in *.
  destruct (negb (limit =? 0) && (limit <=? wrap64 (count + 1))) eqn:Hstop.
  - apply andb_true_iff in Hstop as [Hz%negb_true_iff%Z.eqb_neq Hle%Z.leb_le].
    unfold wrap64 in Hle. rewrite Z.mod_small in Hle by lia.
    destruct l; [done|]. cbn [length] in *. lia.
  - rewrite IH; [done|intros; apply Hf; by right|].
    destruct Hlim as [|Hlim]; [by left|right]. unfold wrap64. rewrite Z.mod_small by lia. lia.
Qed.

Lemma qaccounts_elem o d x : x ∈ qaccounts o d -> t_account (core d) !! x.1 = Some x.2.
Proof.
  intros Hx. apply elem_of_order_by.
  assert (x ∈ filter (account_selected o d) (order_by (t_account (core d)))) as Hf.
  { revert Hx. unfold qaccounts, limited. destruct (page_limit _); [|done].
    intros [i [Hi _]%lookup_take_Some]%list_elem_of_lookup_1.
    by apply list_elem_of_lookup_2 in Hi. }
  by apply list_elem_of_filter in Hf as [_ ?].
Qed.

Lemma qaccounts_length o d :
  fits_bigint (AO_Limit o) = true -> AO_Limit o <> 0 ->
  Z.of_nat (length (qaccounts o d)) <= AO_Limit o < 2 ^ 63.
Proof.
  unfold fits_bigint. intros [?%Z.leb_le Hmax%Z.leb_le]%andb_true_iff Hz.
  unfold qaccounts, page_limit. rewrite (proj2 (Z.eqb_neq _ 0)) by done. cbn [limited].
  rewrite length_take. unfold MaxInt64 in Hmax. lia.
Qed.

Definition accounts_fit (o : AccountQueryOptions) : Prop :=
  forallb arg_fits (account_args o) = true /\ fits_bigint (AO_Limit o) = true /\
  0 <= AO_MaxResources o.

Lemma Forall2_map_self {A B} (P : A -> B -> Prop) (g : A -> B) l :
  (forall x, x ∈ l -> P x (g x)) -> Forall2 P l (map g l).
Proof.
  induction l as [|x l IH]; intros Hl; constructor; [apply Hl; left|].
  apply IH. intros y Hy. apply Hl. by right.
Qed.

Lemma account_rows_ok o d round header proto :
  accounts_readable d round header proto -> accounts_fit o ->
  exists out, account_rows o header round d [] = (Ok (out, round), d, []) /\
    Forall2 (account_sent o d header proto) (qaccounts o d) out.
Proof.
  intros Hd (Ha & Hl & _). unfold account_rows.
  rewrite (db_call_run _ d (map (raw_of o d) (qaccounts o d)) d)
    by (unfold exec_accounts; by rewrite Ha, Hl).
  rewrite scan_rows_no_faults. unfold yieldAccountsThread.
  rewrite (rd_proto _ _ _ _ Hd). cbn [rs_rows rs_err].
  set (f r := or_zero models.zero_Account (account_of_row proto header r)).
  rewrite (yield_accounts_ok proto header _ f).
  - eexists. split; [done|]. rewrite map_map. apply Forall2_map_self.
    intros x Hx%qaccounts_elem.
    destruct (account_of_raw o d round header proto x Hd Hx) as (ad & Had & Hrow).
    exists ad. split; [done|]. cbn. unfold f. by rewrite Hrow.
  - intros r (x & -> & Hx%qaccounts_elem)%list_elem_of_fmap_1.
    destruct (account_of_raw o d round header proto x Hd Hx) as (ad & Had & Hrow).
    unfold f. by rewrite Hrow.
  - destruct (decide (AO_Limit o = 0)); [by left|right]. rewrite length_map.
    pose proof (qaccounts_length o d Hl). lia.
Qed.

(** ** The resource limit *)

(** How many resources the answer has for an account. *)
Definition count_if {A} (b : bool) (l : list A) : Z := if b then Z.of_nat (length l) else 0.
Definition resources_of (o : AccountQueryOptions) (d : database) (addr : Address) : Z :=
  count_if (AO_IncludeAssetHoldings o) (holdings_of o d addr) +
  count_if (AO_IncludeAssetParams o) (assets_of o d addr) +
  count_if (AO_IncludeAppLocalState o) (local_states_of o d addr) +
  count_if (AO_IncludeAppParams o) (apps_of o d addr).

(** The totals in the account data are the numbers of live rows.  It is asked only
    where the check relies on them. *)
Definition totals_right (o : AccountQueryOptions) (d : database) : Prop :=
  AO_IncludeDeleted o = false ->
  forall addr row ad, t_account (core d) !! addr = Some row ->
    DecodeTrimmedLcAccountData (acr_account_data row) = Ok ad ->
    ACD_TotalAssets ad = Z.of_nat (length (holdings_of o d addr)) /\
    ACD_TotalAssetParams ad = Z.of_nat (length (assets_of o d addr)) /\
    ACD_TotalAppLocalStates ad = Z.of_nat (length (local_states_of o d addr)) /\
    ACD_TotalAppParams ad = Z.of_nat (length (apps_of o d addr)).

Definition over_limit (o : AccountQueryOptions) (d : database) (addr : Address) : Prop :=
  AO_MaxResources o <> 0 /\ AO_MaxResources o < resources_of o d addr.
#[local] Instance over_limit_dec o d addr : Decision (over_limit o d addr).
Proof. unfold over_limit. apply _. Defined.

(** The error reports the totals of the account. *)
Definition limit_error (x : Address * account_row) (e : error) : Prop :=
  exists local_states apps holdings assets,
    e = ErrMaxAPIResources (copy_address x.1) local_states apps holdings assets.

Lemma wrap64_count {A} (b : bool) (l : list A) acc :
  0 <= acc -> acc + count_if b l < 2 ^ 64 ->
  (if b then wrap64 (acc + wrap64 (Z.of_nat (length l))) else acc) = acc + count_if b l.
Proof.
  unfold count_if. destruct b; [|lia]. intros Ha Hl.
  rewrite wrap64_add_r. unfold wrap64. by rewrite Z.mod_small by lia.
Qed.

Lemma group_count_default {A} (b : bool) (l : list A) acc :
  (if b then wrap64 (acc + wrap64 (default 0 (group_count (true && b) l))) else acc) =
  (if b then wrap64 (acc + wrap64 (Z.of_nat (length l))) else acc).
Proof. destruct b; [|done]. by destruct l. Qed.

Lemma result_count_exact o d x ad :
  totals_right o d -> t_account (core d) !! x.1 = Some x.2 ->
  DecodeTrimmedLcAccountData (acr_account_data x.2) = Ok ad ->
  resources_of o d x.1 < 2 ^ 64 ->
  let c := AO_IncludeDeleted o in
  result_count o (row_totals c (count_of (if c then o else without_resources o) c d x) ad) =
  resources_of o d x.1.
Proof.
  intros Ht Hx Had Hlt. cbv zeta.
  assert (forall A (b : bool) (l : list A), 0 <= count_if b l) as Hnn.
  { intros A b l. unfold count_if. destruct b; lia. }
  unfold resources_of in *.
  pose proof (Hnn _ (AO_IncludeAssetHoldings o) (holdings_of o d x.1)).
  pose proof (Hnn _ (AO_IncludeAssetParams o) (assets_of o d x.1)).
  pose proof (Hnn _ (AO_IncludeAppLocalState o) (local_states_of o d x.1)).
  pose proof (Hnn _ (AO_IncludeAppParams o) (apps_of o d x.1)).
  transitivity (
    let add {A} (b : bool) (l : list A) (acc : Z) :=
      if b then wrap64 (acc + wrap64 (Z.of_nat (length l))) else acc in
    add (AO_IncludeAppParams o) (apps_of o d x.1)
      (add (AO_IncludeAppLocalState o) (local_states_of o d x.1)
        (add (AO_IncludeAssetParams o) (assets_of o d x.1)
          (add (AO_IncludeAssetHoldings o) (holdings_of o d x.1) 0)))).
  - unfold result_count, row_totals. destruct (AO_IncludeDeleted o) eqn:Hdel.
    + cbn [count_of cr_holdings cr_assets cr_apps cr_local_states tl_holdings tl_assets tl_apps
        tl_local_states]. by rewrite !group_count_default.
    + destruct (Ht Hdel _ _ _ Hx Had) as (-> & -> & -> & ->).
      cbn [tl_holdings tl_assets tl_apps tl_local_states]. by rewrite !wrap64_add_r.
  - cbv beta zeta. rewrite (wrap64_count (AO_IncludeAssetHoldings o)) by lia.
    rewrite (wrap64_count (AO_IncludeAssetParams o)) by lia.
    rewrite (wrap64_count (AO_IncludeAppLocalState o)) by lia.
    rewrite (wrap64_count (AO_IncludeAppParams o)) by lia. lia.
Qed.

(** What the check relies on: the totals are right, and no count leaves [uint64]. *)
Definition countable_resources (o : AccountQueryOptions) (d : database) : Prop :=
  totals_right o d /\
  forall addr row, t_account (core d) !! addr = Some row -> resources_of o d addr < 2 ^ 64.

Lemma check_row_spec o d round header proto x :
  accounts_readable d round header proto -> countable_resources o d ->
  t_account (core d) !! x.1 = Some x.2 -> AO_MaxResources o <> 0 ->
  let c := AO_IncludeDeleted o in
  let r := check_row o c (count_of (if c then o else without_resources o) c d x) in
  if decide (over_limit o d x.1) then exists e, r = Some e /\ limit_error x e else r = None.
Proof.
  intros Hd [Ht Hlt] Hx Hmax. cbv zeta.
  destruct (rd_accounts _ _ _ _ Hd _ _ Hx) as (ad & Had & _).
  unfold check_row.
  assert (forall o' c, cr_account_data (count_of o' c d x) = acr_account_data x.2) as -> by done.
  rewrite Had, (result_count_exact o d x ad Ht Hx Had) by (by eapply Hlt).
  destruct (decide (over_limit o d x.1)) as [[_ Ho]|Ho].
  - rewrite (proj2 (Z.ltb_lt _ _) Ho). eexists. split; [done|]. by eexists _, _, _, _.
  - rewrite (proj2 (Z.ltb_ge _ _)); [done|]. apply Z.nlt_ge. intros Hgt. by apply Ho.
Qed.

Lemma checkAccountResourceLimit_query o d :
  accounts_fit o -> includes_resources o = true ->
  let c := AO_IncludeDeleted o in
  let o' := if c then o else without_resources o in
  checkAccountResourceLimit o d [] =
  (let '(r, fs) := check_rows o c (map (count_of o' c d) (qaccounts o d)) [] in (r, d, fs)).
Proof.
  intros (Ha & Hl & _) Hinc. cbv zeta. unfold checkAccountResourceLimit. rewrite Hinc. cbn [negb].
  rewrite (db_call_run _ d (map (count_of (if AO_IncludeDeleted o then o else
    without_resources o) (AO_IncludeDeleted o) d) (qaccounts o d)) d); [done|].
  unfold exec_counts. by destruct (AO_IncludeDeleted o); cbn [without_resources AO_Limit];
    [rewrite Ha, Hl|change (account_args (without_resources o)) with (account_args o);
     change (qaccounts (without_resources o) d) with (qaccounts o d); rewrite Ha, Hl].
Qed.

Lemma check_within o d round header proto :
  accounts_readable d round header proto -> countable_resources o d -> accounts_fit o ->
  AO_MaxResources o <> 0 -> (forall x, x ∈ qaccounts o d -> ~ over_limit o d x.1) ->
  checkAccountResourceLimit o d [] = (Ok tt, d, []).
Proof.
  intros Hd Hc Hf Hmax Hin. destruct (includes_resources o) eqn:Hinc;
    [|unfold checkAccountResourceLimit; by rewrite Hinc].
  rewrite checkAccountResourceLimit_query by done. cbv zeta.
  assert (forall x, x ∈ qaccounts o d -> t_account (core d) !! x.1 = Some x.2) as Hel
    by apply qaccounts_elem.
  revert Hel Hin. induction (qaccounts o d) as [|x l IH]; intros Hel Hin; [done|]. cbn.
  pose proof (check_row_spec o d round header proto x Hd Hc (Hel x ltac:(left)) Hmax) as Hx.
  cbv zeta in Hx. rewrite decide_False in Hx by (apply Hin; left). rewrite Hx.
  apply IH; intros y Hy; [apply Hel|apply Hin]; by right.
Qed.

Lemma check_over o d round header proto pre x post :
  accounts_readable d round header proto -> countable_resources o d -> accounts_fit o ->
  qaccounts o d = pre ++ x :: post ->
  (forall y, y ∈ pre -> ~ over_limit o d y.1) -> over_limit o d x.1 ->
  exists e, limit_error x e /\ checkAccountResourceLimit o d [] = (Err e, d, []).
Proof.
  intros Hd Hc Hf Hq Hpre Hx. pose proof Hx as [Hmax Hlt].
  destruct (includes_resources o) eqn:Hinc.
  2: { exfalso. revert Hlt. destruct Hf as (_ & _ & Hnn). unfold resources_of, count_if.
       unfold includes_resources in Hinc. apply orb_false_iff in Hinc as [Hinc ->].
       apply orb_false_iff in Hinc as [Hinc ->]. apply orb_false_iff in Hinc as [-> ->]. lia. }
  rewrite checkAccountResourceLimit_query by done. cbv zeta.
  assert (forall y, y ∈ qaccounts o d -> t_account (core d) !! y.1 = Some y.2) as Hel
    by apply qaccounts_elem.
  rewrite Hq in Hel |- *. clear Hq. revert Hel Hpre.
  induction pre as [|y pre IH]; intros Hel Hpre; cbn.
  - pose proof (check_row_spec o d round header proto x Hd Hc (Hel x ltac:(left)) Hmax) as Hr.
    cbv zeta in Hr. rewrite decide_True in Hr by done. destruct Hr as (e & -> & He). eauto.
  - pose proof (check_row_spec o d round header proto y Hd Hc (Hel y ltac:(left)) Hmax) as Hr.
    cbv zeta in Hr. rewrite decide_False in Hr by (apply Hpre; left). rewrite Hr.
    apply IH; intros z Hz; [apply Hel|apply Hpre]; by right.
Qed.

(** [GetAccounts] refuses amounts of an asset without the asset. *)
Definition asset_named (o : AccountQueryOptions) : Prop :=
  AO_HasAssetID o = 0 -> AO_AssetGT o = None /\ AO_AssetLT o = None.

(** Up to the check, nothing of the state matters but the header. *)
Lemma GetAccounts_checked o d round header proto :
  accounts_readable d round header proto -> asset_named o ->
  GetAccounts o d [] =
  match (if AO_MaxResources o =? 0 then (Ok tt, d, []) else checkAccountResourceLimit o d []) with
  | (Err e, d, fs) => (Ok ([account_error e], round), d, fs)
  | (Ok _, d, fs) => account_rows o header round d fs
  end.
Proof.
  intros Hd Hn. unfold GetAccounts.
  assert ((AO_HasAssetID o =? 0) && (bool_decide (is_Some (AO_AssetGT o)) ||
            bool_decide (is_Some (AO_AssetLT o))) = false) as ->.
  { destruct (Z.eqb_spec (AO_HasAssetID o) 0) as [Hz|]; [|done].
    destruct (Hn Hz) as [-> ->]. done. }
  pose proof (rd_accounted _ _ _ _ Hd) as Hr. unfold accounted in Hr.
  destruct (rd_header _ _ _ _ Hd) as (row & Hrow & Hdec).
  unfold tx_bind, tx_try, on_core. cbn. rewrite Hr.
  replace {| core := core d; txns := txns d |} with d by (by destruct d).
  rewrite (db_call_run _ d (bhr_header row) d)
    by (unfold select_header; by rewrite (rd_round _ _ _ _ Hd), Hrow).
  rewrite Hdec. destruct (AO_MaxResources o =? 0); [done|].
  by destruct (checkAccountResourceLimit o d []) as [[[[]|e] d'] fs].
Qed.

Lemma GetAccounts_within o d round header proto :
  accounts_readable d round header proto -> countable_resources o d -> accounts_fit o ->
  asset_named o -> (forall x, x ∈ qaccounts o d -> ~ over_limit o d x.1) ->
  exists out, GetAccounts o d [] = (Ok (out, round), d, []) /\
    Forall2 (account_sent o d header proto) (qaccounts o d) out.
Proof.
  intros Hd Hc Hf Hn Hin. destruct (account_rows_ok o d round header proto Hd Hf) as (out & Ho & Hs).
  exists out. split; [|done]. rewrite (GetAccounts_checked o d round header proto Hd Hn).
  destruct (Z.eqb_spec (AO_MaxResources o) 0) as [|Hz]; [done|].
  by rewrite (check_within o d round header proto).
Qed.

Lemma GetAccounts_over o d round header proto pre x post :
  accounts_readable d round header proto -> countable_resources o d -> accounts_fit o ->
  asset_named o -> qaccounts o d = pre ++ x :: post ->
  (forall y, y ∈ pre -> ~ over_limit o d y.1) -> over_limit o d x.1 ->
  exists e, limit_error x e /\ GetAccounts o d [] = (Ok ([account_error e], round), d, []).
Proof.
  intros Hd Hc Hf Hn Hq Hpre Hx.
  destruct (check_over o d round header proto pre x post) as (e & He & Hck); [done..|].
  exists e. split; [done|]. rewrite (GetAccounts_checked o d round header proto Hd Hn).
  destruct Hx as [Hz _]. by rewrite (proj2 (Z.eqb_neq _ 0) Hz), Hck.
Qed.

Lemma first_over o d (l : list (Address * account_row)) :
  (forall x, x ∈ l -> ~ over_limit o d x.1) \/
  exists pre x post, l = pre ++ x :: post /\ (forall y, y ∈ pre -> ~ over_limit o d y.1) /\
    over_limit o d x.1.
Proof.
  induction l as [|x l IH]; [left; intros x Hx; by apply not_elem_of_nil in Hx|].
  destruct (decide (over_limit o d x.1)) as [Hx|Hx].
  - right. exists [], x, l. split; [done|]. split; [|done]. intros y Hy. by apply not_elem_of_nil in Hy.
  - destruct IH as [IH|(pre & y & post & -> & Hpre & Hy)].
    + left. intros y [->|Hy]%elem_of_cons; [done|by apply IH].
    + right. exists (x :: pre), y, post. split; [done|]. split; [|done].
      intros z [->|Hz]%elem_of_cons; [done|by apply Hpre].
Qed.

(** C15. [GetAccounts] returns the matching accounts in the order of their addresses, up
    to the limit, and each with exactly the holdings, created assets, created
    applications and local states that the tables hold for it (the live ones, or all
    of them with [IncludeDeleted]): collecting them into JSON arrays, parsing the
    arrays and removing duplicates loses and adds nothing. *)
Theorem GetAccounts_reads_tables o d round header proto :
  accounts_readable d round header proto -> countable_resources o d -> accounts_fit o ->
  asset_named o -> (forall x, x ∈ qaccounts o d -> ~ over_limit o d x.1) ->
  exists out, GetAccounts o d [] = (Ok (out, round), d, []) /\
    Forall2 (account_sent o d header proto) (qaccounts o d) out.
Proof. apply GetAccounts_within. Qed.

(** The resources that an account of the answer lists. *)
Definition listed {A} (o : option (list A)) : Z := Z.of_nat (length (default [] o)).
Definition listed_resources (a : models.Account) : Z :=
  listed (models.Account_Assets a) + listed (models.Account_CreatedAssets a) +
  listed (models.Account_AppsLocalState a) + listed (models.Account_CreatedApps a).

Lemma listed_nonempty {A B} (b : bool) (f : A -> B) l :
  listed (if b then nonempty (map f l) else None) = count_if b l.
Proof.
  unfold listed, count_if. destruct b; [|done]. destruct l as [|x l]; [done|].
  cbn. by rewrite length_map.
Qed.

(** C25. In a run without failures of the database, whose accounts record as many resources as the
    tables hold ([countable_resources]), no account of the answer lists more than [MaxResources]
    resources, when the limit is set: an account with more makes the whole answer the error.
    With failures this need not be so, as [limit_missed_on_failure] shows. *)
Theorem GetAccounts_resource_limit o d round header proto out :
  accounts_readable d round header proto -> countable_resources o d -> accounts_fit o ->
  asset_named o -> AO_MaxResources o <> 0 ->
  GetAccounts o d [] = (Ok (out, round), d, []) ->
  Forall (λ r, is_Some (AcR_Error r) \/ listed_resources (AcR_Account r) <= AO_MaxResources o) out.
Proof.
  intros Hd Hc Hf Hn Hmax Hout.
  destruct (first_over o d (qaccounts o d)) as [Hin|(pre & x & post & Hq & Hpre & Hx)].
  - destruct (GetAccounts_within o d round header proto) as (out' & Hg & Hs); [done..|].
    rewrite Hg in Hout. injection Hout as ->.
    apply Forall_forall. intros r [i Hi]%list_elem_of_lookup_1.
    destruct (Forall2_lookup_r _ _ _ _ _ Hs Hi) as (x & Hx & ad & Had & ->). right.
    unfold listed_resources. cbn. rewrite !listed_nonempty.
    apply list_elem_of_lookup_2 in Hx. specialize (Hin x Hx).
    unfold over_limit, resources_of in Hin. lia.
  - destruct (GetAccounts_over o d round header proto pre x post) as (e & _ & Hg); [done..|].
    rewrite Hg in Hout. injection Hout as <-. apply Forall_singleton. left. cbn. eauto.
Qed.

(** ** Which accounts, and page by page *)

(** What the options ask of an account.  A holding or an opt-in counts even if it is
    deleted. *)
Record account_matches (o : AccountQueryOptions) (d : database) (addr : Address)
    (row : account_row) : Prop := {
  cm_after : AO_GreaterThanAddress o <> "" -> sql_lt (AO_GreaterThanAddress o) addr;
  cm_address : AO_EqualToAddress o <> "" -> addr = AO_EqualToAddress o;
  cm_gt : forall v, AO_AlgosGreaterThan o = Some v -> v < acr_microalgos row;
  cm_lt : forall v, AO_AlgosLessThan o = Some v -> acr_microalgos row < v;
  cm_live : AO_IncludeDeleted o = false -> acr_deleted row = false;
  cm_auth : AO_EqualToAuthAddr o <> "" ->
    pg_text (acr_account_data row) ["spend"] = Some (Base64 (AO_EqualToAuthAddr o));
  cm_online : AO_OnlineOnly o = true ->
    is_Some (pg_text (acr_account_data row) ["voteLst"]) /\
    pg_text (acr_account_data row) ["onl"] = Some "1";
  cm_asset : AO_HasAssetID o <> 0 ->
    exists h, t_account_asset (core d) !! (addr, AO_HasAssetID o) = Some h /\
      (forall v, AO_AssetGT o = Some v -> v < aar_amount h) /\
      (forall v, AO_AssetLT o = Some v -> aar_amount h < v);
  cm_app : AO_HasAppID o <> 0 -> is_Some (t_account_app (core d) !! (addr, AO_HasAppID o)) }.

Lemma satisfies_holding_conds o addr row :
  satisfies (holding_conds o) (addr, AO_HasAssetID o, row) <->
  (forall v, AO_AssetGT o = Some v -> v < aar_amount row) /\
  (forall v, AO_AssetLT o = Some v -> aar_amount row < v) /\
  (AO_GreaterThanAddress o <> "" -> sql_lt (AO_GreaterThanAddress o) addr).
Proof.
  rewrite satisfies_Forall. unfold holding_conds.
  rewrite !Forall_app, Forall_singleton, !Forall_when_some, Forall_unless_empty. cbn.
  rewrite Z.eqb_refl. setoid_rewrite Z.ltb_lt. tauto.
Qed.

Lemma satisfies_optin_conds o addr row :
  satisfies (optin_conds o) (addr, AO_HasAppID o, row) <->
  (AO_GreaterThanAddress o <> "" -> sql_lt (AO_GreaterThanAddress o) addr).
Proof.
  rewrite satisfies_Forall. unfold optin_conds.
  rewrite Forall_app, Forall_singleton, Forall_unless_empty. cbn. rewrite Z.eqb_refl. tauto.
Qed.

Lemma satisfies_account_conds o x :
  satisfies (account_conds o) x <->
  (AO_GreaterThanAddress o <> "" -> sql_lt (AO_GreaterThanAddress o) x.1) /\
  (AO_EqualToAddress o <> "" -> x.1 = AO_EqualToAddress o) /\
  (forall v, AO_AlgosGreaterThan o = Some v -> v < acr_microalgos x.2) /\
  (forall v, AO_AlgosLessThan o = Some v -> acr_microalgos x.2 < v) /\
  (AO_IncludeDeleted o = false -> acr_deleted x.2 = false) /\
  (AO_EqualToAuthAddr o <> "" ->
     pg_text (acr_account_data x.2) ["spend"] = Some (Base64 (AO_EqualToAuthAddr o))) /\
  (negb (AO_OnlineOnly o) = false -> is_Some (pg_text (acr_account_data x.2) ["voteLst"]) /\
     pg_text (acr_account_data x.2) ["onl"] = Some "1").
Proof.
  rewrite satisfies_Forall. unfold account_conds.
  rewrite !Forall_app, !Forall_when_some, !Forall_unless_empty, !Forall_unless. cbn.
  setoid_rewrite Z.ltb_lt. setoid_rewrite andb_true_iff. setoid_rewrite bool_decide_eq_true.
  setoid_rewrite negb_true_iff. tauto.
Qed.

Lemma account_selected_matches o d x :
  account_selected o d x <-> account_matches o d x.1 x.2.
Proof.
  unfold account_selected. rewrite satisfies_account_conds. unfold has_asset, has_app.
  rewrite !orb_true_iff, !Z.eqb_eq, negb_false_iff. split.
  - intros ((?&?&?&?&?&?&?) & Ha & Hp). constructor; try done.
    + intros Hz. destruct Ha as [|Ha]; [done|].
      destruct (t_account_asset (core d) !! _) as [h|]; [|done].
      apply bool_decide_eq_true, satisfies_holding_conds in Ha as (?&?&_). eauto.
    + intros Hz. destruct Hp as [|Hp]; [done|]. destruct (t_account_app (core d) !! _); eauto.
      done.
  - intros [Hgt Heq Hagt Halt Hlive Hauth Honl Hasset Happ]. repeat split; try done.
    + by apply Honl.
    + by apply Honl.
    + destruct (decide (AO_HasAssetID o = 0)) as [|Hz]; [by left|right].
      destruct (Hasset Hz) as (h & -> & ? & ?).
      apply bool_decide_eq_true, satisfies_holding_conds. done.
    + destruct (decide (AO_HasAppID o = 0)) as [|Hz]; [by left|right].
      destruct (Happ Hz) as [h ->]. by apply bool_decide_eq_true, satisfies_optin_conds.
Qed.

Definition accounts_cursor (o : AccountQueryOptions) : option string :=
  if bool_decide (AO_GreaterThanAddress o = "") then None else Some (AO_GreaterThanAddress o).
Definition accounts_base (o : AccountQueryOptions) : AccountQueryOptions := {|
  AO_GreaterThanAddress := ""; AO_EqualToAddress := AO_EqualToAddress o;
  AO_EqualToAuthAddr := AO_EqualToAuthAddr o; AO_OnlineOnly := AO_OnlineOnly o;
  AO_AlgosGreaterThan := AO_AlgosGreaterThan o; AO_AlgosLessThan := AO_AlgosLessThan o;
  AO_HasAssetID := AO_HasAssetID o; AO_AssetGT := AO_AssetGT o; AO_AssetLT := AO_AssetLT o;
  AO_HasAppID := AO_HasAppID o; AO_IncludeAssetHoldings := AO_IncludeAssetHoldings o;
  AO_IncludeAssetParams := AO_IncludeAssetParams o;
  AO_IncludeAppLocalState := AO_IncludeAppLocalState o;
  AO_IncludeAppParams := AO_IncludeAppParams o; AO_MaxResources := AO_MaxResources o;
  AO_IncludeDeleted := AO_IncludeDeleted o; AO_Limit := 0 |}.

Lemma account_matches_cursor o d x :
  account_selected o d x <->
  account_selected (accounts_base o) d x /\ beyond_key fst (accounts_cursor o) x.
Proof.
  rewrite !account_selected_matches. unfold beyond_key, accounts_cursor. split.
  - intros []. split; [by constructor|]. case_bool_decide; auto.
  - intros [[] Hb]. constructor; try done. intros Hne. by rewrite bool_decide_eq_false_2 in Hb.
Qed.

Lemma substring_app a b : String.substring 0 (String.length a) (a +:+ b) = a.
Proof.
  induction a as [|c a IH]; [by destruct b|].
  change (String c (String.substring 0 (String.length a) (a +:+ b)) = String c a). by rewrite IH.
Qed.

Lemma copy_address_id a : String.length a = 32%nat -> copy_address a = a.
Proof.
  intros Ha. unfold copy_address. pose proof (substring_app a (zeros 32)) as Hs.
  by rewrite Ha in Hs.
Qed.

Definition addresses_valid (d : database) : Prop :=
  forall addr row, t_account (core d) !! addr = Some row -> String.length addr = 32%nat.

Section Pages.
Context `{!SdkLaws} (header : BlockHeader) (proto : ConsensusParams) (zero : AccountData).

(** The accounts of a state that can be read at this header. *)
Definition accounts_ready (d : database) (round : Z) : Prop :=
  accounts_readable d round header proto /\ addresses_valid d.

Definition accounts_ok (d : database) (o : AccountQueryOptions) : Prop :=
  accounts_fit o /\ asset_named o /\ countable_resources o d /\
  forall x, x ∈ order_by (t_account (core d)) -> account_selected o d x -> ~ over_limit o d x.1.

Definition row_of_account (o : AccountQueryOptions) (d : database) (x : Address * account_row)
    : AccountRow :=
  account_ok (account_in o d header proto x
    (or_zero zero (DecodeTrimmedLcAccountData (acr_account_data x.2)))).

(** The address of a row, as the caller gets it back from the token. *)
Definition account_key (r : AccountRow) : string :=
  or_zero "" (DecodeAddress (models.Account_Address (AcR_Account r))).

Definition all_accounts (d : database) (o : AccountQueryOptions) : list AccountRow :=
  map (row_of_account o d)
    (filter (account_selected (accounts_base o) d) (order_by (t_account (core d)))).

Lemma account_key_row o d x :
  addresses_valid d -> x ∈ order_by (t_account (core d)) ->
  account_key (row_of_account o d x) = x.1.
Proof.
  intros Hv Hx%elem_of_order_by. unfold account_key. cbn. unfold account_address. cbn.
  rewrite copy_address_id, DecodeAddress_String by (by eapply Hv). done.
Qed.

Lemma account_sent_row o d l out :
  Forall2 (account_sent o d header proto) l out -> out = map (row_of_account o d) l.
Proof.
  induction 1 as [|x r l out (ad & Had & ->) _ IH]; [done|]. cbn. f_equal; [|done].
  unfold row_of_account. by rewrite Had.
Qed.

Definition accounts_paged
    : Paged GetAccounts accounts_ready accounts_ok account_key accounts_cursor AO_Limit
        accounts_base.
Proof.
  refine {| pg_all := all_accounts |}.
  - done.
  - intros d o round [Hd Hv] _. apply StronglySorted_map.
    eapply StronglySorted_impl_in; [|apply StronglySorted_filter, order_by_sorted].
    intros x y [_ Hx]%list_elem_of_filter [_ Hy]%list_elem_of_filter.
    by rewrite !account_key_row.
  - intros d o round [Hd Hv] (Hf & Hn & Hc & Hlim).
    destruct (GetAccounts_within o d round header proto) as (out & -> & Hs); [done..| |].
    { intros x Hx. pose proof (elem_of_order_by (t_account (core d)) x) as Ho.
      pose proof (qaccounts_elem o d x Hx) as Hel. apply Hlim; [by apply Ho|].
      revert Hx. unfold qaccounts, limited. destruct (page_limit _).
      - intros [i [Hi _]%lookup_take_Some]%list_elem_of_lookup_1.
        by apply list_elem_of_lookup_2, list_elem_of_filter in Hi as [? _].
      - by intros [? _]%list_elem_of_filter. }
    do 3 f_equal. rewrite (account_sent_row o d _ _ Hs). unfold all_accounts, qaccounts.
    rewrite filter_map, limited_map, list_filter_filter.
    do 3 f_equal. apply filter_ext_in. intros x Hx.
    rewrite account_matches_cursor. unfold beyond_key. rewrite account_key_row by done. tauto.
Defined.
End Pages.
End Results.

(** ** Concrete accounts

    The aggregates as texts of zeros and ones, and a database in which one account holds, and has
    created, an asset and an application. *)

Fixpoint bits (p : positive) : string :=
  match p with
  | xH => "."
  | xO p => "0" +:+ bits p
  | xI p => "1" +:+ bits p
  end.
Fixpoint unbits (s : string) : positive :=
  match s with
  | EmptyString => xH
  | String c s =>
      if bool_decide (String c "" = "0") then xO (unbits s)
      else if bool_decide (String c "" = "1") then xI (unbits s) else xH
  end.
Lemma unbits_bits p : unbits (bits p) = p.
Proof.
  induction p as [p IH|p IH|]; [|..|done].
  - change (xI (unbits (bits p)) = xI p). by rewrite IH.
  - change (xO (unbits (bits p)) = xO p). by rewrite IH.
Qed.
Lemma bits_text p : bits p <> "" /\ bits p <> nullarraystr.
Proof. by destruct p. Qed.

Definition read_bits {T} `{Countable T} (s : string) : result T :=
  match decode (unbits s) with Some x => Ok x | None => Err (ErrMsg "json") end.
Lemma read_bits_encode {T} `{Countable T} (x : T) : read_bits (bits (encode x)) = Ok x.
Proof. unfold read_bits. by rewrite unbits_bits, decode_encode. Qed.

Module SampleAccounts.
#[export] Existing Instances Sample.sdk Sample.sdk_laws ascii_print table_range.
(** No document has a field that a condition reads. *)
#[export] Instance pg : PgOps := {|
  pg_text _ _ := None; pg_number _ _ := None; pg_has _ _ := false;
  pg_round_before _ _ := None; pg_round_after _ _ := None |}.
#[export] Instance agg : PgAgg := {|
  agg_bigint l := bits (encode (map Some l)); agg_bool l := bits (encode (map Some l));
  agg_nullable l := bits (encode l); agg_jsonb docs := bits (encode docs);
  group_order A l := l |}.

(** The codec of arrays whose elements may be null, and of those whose elements may not. *)
Definition nullable_codec {T} `{Countable T} : Codec (list (option T)) := {|
  encodeJSON l := bits (encode l); DecodeJSON := read_bits |}.
Definition array_codec {T} `{Countable T} : Codec (list T) := {|
  encodeJSON l := bits (encode (map Some l));
  DecodeJSON s :=
    l ← read_bits (T := list (option T)) s;
    match mapM id l with Some l => Ok l | None => Err (ErrMsg "json") end |}.
#[export] Instance bigint_codec : Codec (list Z) := array_codec.
#[export] Instance bool_codec : Codec (list bool) := array_codec.
#[export] Instance bigints_codec : Codec (list (option Z)) := nullable_codec.
#[export] Instance bools_codec : Codec (list (option bool)) := nullable_codec.

Definition documents_codec {T} `{Codec T} : Codec (option (list T)) := {|
  encodeJSON l := bits (encode (map encodeJSON (default [] l)));
  DecodeJSON s := docs ← read_bits (T := list string) s; Some <$> map_result DecodeJSON docs |}.
#[export] Instance asset_codec : Codec assetParams := one_document (convertAssetParams Zero.assetParams).
#[export] Instance app_codec : Codec appParams := one_document (convertAppParams zeroAppParams).
#[export] Instance local_codec : Codec appLocalState :=
  one_document (convertAppLocalState {| ALS_Schema := Zero.schema0; ALS_KeyValue := None |}).
#[export] Instance assets_codec : Codec (option (list assetParams)) := documents_codec.
#[export] Instance apps_codec : Codec (option (list appParams)) := documents_codec.
#[export] Instance locals_codec : Codec (option (list appLocalState)) := documents_codec.

Lemma mapM_Some {T} (l : list T) : mapM id (map Some l) = Some l.
Proof. induction l as [|x l IH]; cbn; [done|]. by rewrite IH. Qed.
Lemma documents_read {T} `{Codec T} docs (vals : list T) :
  Forall2 (λ doc v, DecodeJSON doc = Ok v) docs vals ->
  DecodeJSON (Codec := documents_codec) (bits (encode docs)) = Ok (Some vals).
Proof. intros Hd. cbn. rewrite read_bits_encode. cbn. by rewrite (map_result_ok _ _ vals). Qed.

#[export] Instance agg_laws : PgAggLaws.
Proof.
  split; try (intros; cbn; rewrite read_bits_encode; cbn; rewrite ?mapM_Some; done).
  - intros l _. apply bits_text.
  - apply documents_read.
  - apply documents_read.
  - apply documents_read.
  - done.
Qed.

(** The state at round 6. *)
#[export] Instance import_codec : Codec ImportState := {|
  encodeJSON st := FormatUint (NextRoundToAccount st);
  DecodeJSON s := n ← ParseUint s; Ok {| NextRoundToAccount := n |} |}.
#[export] Instance header_codec : Codec blockHeader :=
  one_document (convertBlockHeader (Sample.blockHeader 6)).
Definition header : BlockHeader := Sample.blockHeader 6.

Definition alice : Address := "alice: an address of 32 letters.".
Definition bob : Address := "bob: an address of 32 characters".
Definition totals (n : Z) : baseAccountData := {|
  ba_Status := 1; ba_AuthAddr := zeroAddress; ba_IncentiveEligible := false;
  ba_TotalAppSchema := Zero.schema0; ba_TotalExtraAppPages := 0; ba_TotalAssetParams := n;
  ba_TotalAssets := n; ba_TotalAppParams := n; ba_TotalAppLocalStates := n; ba_TotalBoxes := 0;
  ba_TotalBoxBytes := 0; ba_LastProposed := 0; ba_LastHeartbeat := 0; ba_VoteID := "";
  ba_SelectionID := ""; ba_StateProofID := ""; ba_VoteFirstValid := 0; ba_VoteLastValid := 0;
  ba_VoteKeyDilution := 0 |}.
#[export] Instance account_codec : Codec baseAccountData := {|
  encodeJSON x := FormatUint (ba_TotalAssets x);
  DecodeJSON s := n ← ParseUint s; Ok (totals n) |}.

Definition account (data : string) : account_row := {|
  acr_microalgos := 1000000; acr_rewardsbase := 0; acr_rewards_total := 0; acr_deleted := false;
  acr_created_at := 1; acr_closed_at := None; acr_keytype := None; acr_account_data := data |}.
Definition d : database := {|
  core := {|
    t_block_header := {[ 6 := {| bhr_realtime := 0; bhr_rewardslevel := 0; bhr_header := document |} ]};
    t_account := {[ alice := account "1"; bob := account "0" ]};
    t_account_asset := {[ (alice, 9) := {| aar_amount := 5; aar_frozen := false; aar_deleted := false;
                                           aar_created_at := 2; aar_closed_at := None |} ]};
    t_asset := {[ 9 := {| asr_creator_addr := alice; asr_params := document; asr_deleted := false;
                          asr_created_at := 2; asr_closed_at := None |} ]};
    t_app := {[ 12 := {| apr_creator := alice; apr_params := document; apr_deleted := false;
                         apr_created_at := 3; apr_closed_at := None |} ]};
    t_account_app := {[ (alice, 12) := {| alr_localstate := document; alr_deleted := false;
                                          alr_created_at := 4; alr_closed_at := None |} ]};
    t_app_box := {[ (12, "box") := "value"; (12, "other") := "" ]};
    t_metastate := {[ StateMetastateKey := "7" ]} |};
  txns := {| t_txn := ∅; t_txn_participation := ∅ |} |}.

Definition all (max : Z) : AccountQueryOptions := {|
  AO_GreaterThanAddress := ""; AO_EqualToAddress := ""; AO_EqualToAuthAddr := "";
  AO_OnlineOnly := false; AO_AlgosGreaterThan := None; AO_AlgosLessThan := None;
  AO_HasAssetID := 0; AO_AssetGT := None; AO_AssetLT := None; AO_HasAppID := 0;
  AO_IncludeAssetHoldings := true; AO_IncludeAssetParams := true; AO_IncludeAppLocalState := true;
  AO_IncludeAppParams := true; AO_MaxResources := max; AO_IncludeDeleted := false; AO_Limit := 10 |}.

Lemma d_accounts addr row : t_account (core d) !! addr = Some row ->
  addr = alice /\ row = account "1" \/ addr = bob /\ row = account "0".
Proof.
  cbn [d core t_account]. intros [[<- <-]|[_ [<- <-]%lookup_singleton_Some]]%lookup_insert_Some; tauto.
Qed.

Lemma d_readable : accounts_readable d 6 header Sample.params.
Proof.
  split; try (vm_compute; reflexivity).
  - eexists. split; [reflexivity|]. vm_compute. reflexivity.
  - intros addr row [[_ ->]|[_ ->]]%d_accounts; eexists; (split; [vm_compute; reflexivity|done]).
  - cbn [d core t_asset]. intros ? ? [_ <-]%lookup_singleton_Some. eexists. vm_compute. reflexivity.
  - cbn [d core t_app]. intros ? ? [_ <-]%lookup_singleton_Some. eexists. vm_compute. reflexivity.
  - cbn [d core t_account_app]. intros ? ? [_ <-]%lookup_singleton_Some. eexists. vm_compute. reflexivity.
Qed.

Lemma d_countable max : countable_resources (all max) d.
Proof.
  split.
  - intros _ addr row ad [[-> ->]|[-> ->]]%d_accounts; intros [= <-]; vm_compute; done.
  - intros addr row [[-> ->]|[-> ->]]%d_accounts; vm_compute; done.
Qed.

Lemma d_fits max : 0 <= max -> accounts_fit (all max).
Proof. intros Hm. split; [reflexivity|]. split; [reflexivity|done]. Qed.
End SampleAccounts.

Section Witnesses.
Import SampleAccounts.

(** Both accounts, the first with its four resources. *)
Lemma GetAccounts_reads_tables_witness :
  map (λ x, x.1) (qaccounts (all 4) d) = [alice; bob] /\ resources_of (all 4) d alice = 4 /\
  exists out, GetAccounts (all 4) d [] = (Ok (out, 6), d, []) /\
    Forall2 (account_sent (all 4) d header Sample.params) (qaccounts (all 4) d) out.
Proof.
  split; [vm_compute; reflexivity|]. split; [vm_compute; reflexivity|].
  apply GetAccounts_reads_tables.
  - apply d_readable.
  - apply d_countable.
  - by apply d_fits.
  - done.
  - intros x [[-> _]|[-> _]]%qaccounts_elem%d_accounts [_ Ho]; vm_compute in Ho; done.
Defined.

(** With a limit of three the first account is an error. *)
Lemma GetAccounts_resource_limit_witness :
  over_limit (all 3) d alice /\
  let out := match GetAccounts (all 3) d [] with (Ok (out, _), _, _) => out | _ => [] end in
  GetAccounts (all 3) d [] = (Ok (out, 6), d, []) /\ length out = 1%nat /\
  Forall (λ r, is_Some (AcR_Error r) \/ listed_resources (AcR_Account r) <= 3) out.
Proof.
  split; [split; vm_compute; done|]. intros out.
  assert (GetAccounts (all 3) d [] = (Ok (out, 6), d, [])) as Hout by (vm_compute; reflexivity).
  split; [exact Hout|]. split; [vm_compute; reflexivity|].
  apply (GetAccounts_resource_limit (all 3) d 6 header Sample.params out).
  - apply d_readable.
  - apply d_countable.
  - apply d_fits. discriminate.
  - intros _. split; reflexivity.
  - discriminate.
  - exact Hout.
Defined.

(** A failure while the rows of the check are read is taken for their end: the account with four
    resources is returned under a limit of three. *)
Lemma limit_missed_on_failure : exists out,
  GetAccounts (all 3) d [None; None; None; None; Some (ErrMsg "connection lost")] = (Ok (out, 6), d, []) /\
  map (λ r, (AcR_Error r, listed_resources (AcR_Account r))) out = [(None, 4); (None, 0)].
Proof. eexists. split; vm_compute; reflexivity. Qed.
End Witnesses.
