(* ===== verification/ConvertAccountData.v ===== *)
(** * The migration [convert_account_data]: [migrations/convert_account_data/m.go]

    It adds the numbers of holdings, created assets, created applications and opt-ins to
    the account data of every live account, a batch of accounts at a time.  The theorem
    says that every account is converted once, whatever the size of the batches. *)

From Stdlib Require Import Sorted.
From stdpp Require Import sorting.
From S2P Require Import Prelude GoStd Sdk Encoding Db Writer Migration Sql ResourceQuery AccountQuery.
Local Open Scope tx_scope.

Record aad := { aad_address : Address; trimmedAccountData : AccountData }.

Section Migration.
Context `{Codec Encoding.trimmedAccountData} `{Codec baseAccountData}.

(** [WHERE NOT deleted [AND addr > $1] ORDER BY addr LIMIT $2] *)
Definition next_live (lastAddress : option Address) (x : Address * account_row) : Prop :=
  acr_deleted x.2 = false /\
  match lastAddress with Some a => sql_lt a x.1 | None => True end.
#[export] Instance next_live_dec last x : Decision (next_live last x).
Proof. unfold next_live. destruct last; apply _. Defined.
Definition select_accounts (batchSize : nat) (lastAddress : option Address) (t : tables)
    : list (Address * account_row) :=
  take batchSize (filter (next_live lastAddress) (order_by (t_account t))).

(** The loop over the rows. *)
Fixpoint read_accounts (rows : list (result (Address * account_row))) (err : option error)
    : result (list aad) :=
  match rows with
  | [] =>
      match err with
      | Some e => Err (ErrWrap "getAccounts() rows error err: %w" e)
      | None => Ok []
      end
  | Err e :: _ => Err (ErrWrap "getAccounts() scan err: %w" e)
  | Ok x :: rows =>
      ad ← wrap "getAccounts() decode err: %w" (DecodeTrimmedAccountData (acr_account_data x.2));
      rest ← read_accounts rows err;
      Ok ({| aad_address := copy_address x.1; trimmedAccountData := ad |} :: rest)
  end.

Definition getAccounts (batchSize : nat) (lastAddress : option Address) : Tx tables (list aad) := λ t fs,
  match db_call (λ t, Ok (select_accounts batchSize lastAddress t, t)) t fs with
  | (Err e, t, fs) => (Err (ErrWrap "getAccounts() query err: %w" e), t, fs)
  | (Ok l, t, fs) =>
      let '(rows, fs) := scan_rows l fs in (read_accounts (rs_rows rows) (rs_err rows), t, fs)
  end.

(** The four [SELECT COUNT( * )] for an address. *)
Definition count_where {K V} `{Countable K} (P : K * V -> Prop) `{!forall x, Decision (P x)}
    (t : gmap K V) : Z := Z.of_nat (length (filter P (map_to_list t))).
Definition count_holdings (t : tables) (addr : Address) : Z :=
  count_where (λ x, aar_deleted x.2 = false /\ x.1.1 = addr) (t_account_asset t).
Definition count_assets (t : tables) (addr : Address) : Z :=
  count_where (λ x, asr_deleted x.2 = false /\ asr_creator_addr x.2 = addr) (t_asset t).
Definition count_apps (t : tables) (addr : Address) : Z :=
  count_where (λ x, apr_deleted x.2 = false /\ apr_creator x.2 = addr) (t_app t).
Definition count_local_states (t : tables) (addr : Address) : Z :=
  count_where (λ x, alr_deleted x.2 = false /\ x.1.1 = addr) (t_account_app t).

Definition set_totals (ad : AccountData) (assets assetParams appParams appLocalStates : Z)
    : AccountData := {|
  ACD_Status := ACD_Status ad; ACD_MicroAlgos := ACD_MicroAlgos ad;
  ACD_RewardsBase := ACD_RewardsBase ad; ACD_RewardedMicroAlgos := ACD_RewardedMicroAlgos ad;
  ACD_AuthAddr := ACD_AuthAddr ad; ACD_IncentiveEligible := ACD_IncentiveEligible ad;
  ACD_TotalAppSchema := ACD_TotalAppSchema ad; ACD_TotalExtraAppPages := ACD_TotalExtraAppPages ad;
  ACD_TotalAppParams := appParams; ACD_TotalAppLocalStates := appLocalStates;
  ACD_TotalAssetParams := assetParams; ACD_TotalAssets := assets;
  ACD_TotalBoxes := ACD_TotalBoxes ad; ACD_TotalBoxBytes := ACD_TotalBoxBytes ad;
  ACD_LastProposed := ACD_LastProposed ad; ACD_LastHeartbeat := ACD_LastHeartbeat ad;
  ACD_VoteID := ACD_VoteID ad; ACD_SelectionID := ACD_SelectionID ad;
  ACD_StateProofID := ACD_StateProofID ad; ACD_VoteFirstValid := ACD_VoteFirstValid ad;
  ACD_VoteLastValid := ACD_VoteLastValid ad; ACD_VoteKeyDilution := ACD_VoteKeyDilution ad |}.

(** One of the four loops over the results: a row for each account. *)
Fixpoint scan_counts (fmt : string) (count : tables -> Address -> Z) (accounts : list aad)
    : Tx tables (list Z) :=
  match accounts with
  | [] => tx_ret []
  | a :: accounts =>
      n <-- tx_wrap fmt (db_call (λ t, Ok (count t (aad_address a), t)));
      rest <-- scan_counts fmt count accounts;
      tx_ret (n :: rest)
  end.

Fixpoint with_totals (accounts : list aad) (assets assetParams appParams appLocalStates : list Z)
    : list AccountData :=
  match accounts, assets, assetParams, appParams, appLocalStates with
  | a :: accounts, n1 :: l1, n2 :: l2, n3 :: l3, n4 :: l4 =>
      set_totals (trimmedAccountData a) n1 n2 n3 n4 :: with_totals accounts l1 l2 l3 l4
  | _, _, _, _, _ => []
  end.

Definition computeLcAccountData (accounts : list aad) : Tx tables (list AccountData) :=
  assets <-- scan_counts "computeLcAccountData() scan total assets err: %w" count_holdings accounts;
  assetParams <-- scan_counts "computeLcAccountData() scan total asset params err: %w"
                    count_assets accounts;
  appParams <-- scan_counts "computeLcAccountData() scan total app params err: %w"
                  count_apps accounts;
  localStates <-- scan_counts "computeLcAccountData() scan total app local states err: %w"
                    count_local_states accounts;
  tx_wrap "computeLcAccountData() close results err: %w" (db_call (λ t, Ok (tt, t)));;;
  tx_ret (with_totals accounts assets assetParams appParams localStates).

(** [UPDATE account SET account_data = $1 WHERE addr = $2] *)
Definition set_account_data (row : account_row) (data : string) : account_row := {|
  acr_microalgos := acr_microalgos row; acr_rewardsbase := acr_rewardsbase row;
  acr_rewards_total := acr_rewards_total row; acr_deleted := acr_deleted row;
  acr_created_at := acr_created_at row; acr_closed_at := acr_closed_at row;
  acr_keytype := acr_keytype row; acr_account_data := data |}.
Definition update_data (addr : Address) (data : string) (t : tables) : tables :=
  set_account t (alter (λ row, set_account_data row data) addr (t_account t)).

Fixpoint exec_updates (accounts : list aad) (sdkAccountData : list AccountData) : Tx tables unit :=
  match accounts, sdkAccountData with
  | a :: accounts, ad :: sdkAccountData =>
      tx_wrap "writeLcAccountData() exec err: %w"
        (db_call (λ t, Ok (tt, update_data (aad_address a) (EncodeTrimmedLcAccountData ad) t)));;;
      exec_updates accounts sdkAccountData
  | _, _ => tx_ret tt
  end.

Definition writeLcAccountData (accounts : list aad) (sdkAccountData : list AccountData)
    : Tx tables unit :=
  exec_updates accounts sdkAccountData;;;
  tx_wrap "writeLcAccountData() close results err: %w" (db_call (λ t, Ok (tt, t))).

Definition processAccounts (accounts : list aad) : Tx tables unit :=
  lcAccountData <-- tx_wrap "processAccounts() err: %w" (computeLcAccountData accounts);
  tx_wrap "processAccounts() err: %w" (writeLcAccountData accounts lcAccountData).

(** The body of the loop, and the loop: each turn but the last takes a full batch. *)
Definition process_batch (batchSize : nat) (lastAddress : option Address) : Tx tables (list aad) :=
  accounts <-- tx_wrap "RunMigration() err: %w" (getAccounts batchSize lastAddress);
  tx_wrap "RunMigration() err: %w" (processAccounts accounts);;;
  tx_ret accounts.

Fixpoint run_batches (fuel : nat) (batchSize : nat) (lastAddress : option Address) : Tx tables unit :=
  match fuel with
  | O => tx_err (ErrMsg "out of fuel")
  | S fuel =>
      accounts <-- process_batch batchSize lastAddress;
      if (batchSize <=? length accounts)%nat then
        match last accounts with
        | Some a => run_batches fuel batchSize (Some (aad_address a))
        | None => tx_err (ErrPanic "index out of range")
        end
      else tx_ret tt
  end.

(** Each turn passes at least one account. *)
Definition RunMigration (batchSize : nat) : Tx tables unit := λ t fs,
  run_batches (S (size (t_account t))) batchSize None t fs.
End Migration.

(** ** What the migration does *)

Section Result.
Context `{Codec Encoding.trimmedAccountData} `{Codec baseAccountData}.

(** The account data with the totals of the tables. *)
Definition counted (t : tables) (addr : Address) (ad : AccountData) : AccountData :=
  set_totals ad (count_holdings t addr) (count_assets t addr) (count_apps t addr)
    (count_local_states t addr).
Definition converted_row (t : tables) (addr : Address) (row : account_row) : account_row :=
  match DecodeTrimmedAccountData (acr_account_data row) with
  | Ok ad => set_account_data row (EncodeTrimmedLcAccountData (counted t addr ad))
  | Err _ => row
  end.

Context (t : tables).

(** The live accounts can be read in the old format. *)
Definition convertible : Prop := forall addr row, t_account t !! addr = Some row ->
  acr_deleted row = false ->
  String.length addr = 32%nat /\ exists ad, DecodeTrimmedAccountData (acr_account_data row) = Ok ad.
Context (Hconv : convertible).

Definition live_accounts : list (Address * account_row) :=
  filter (next_live None) (order_by (t_account t)).

Lemma elem_of_live x : x ∈ live_accounts <-> t_account t !! x.1 = Some x.2 /\ acr_deleted x.2 = false.
Proof.
  unfold live_accounts. rewrite list_elem_of_filter, elem_of_order_by. unfold next_live. tauto.
Qed.

Lemma live_sorted : StronglySorted rows_lt live_accounts.
Proof. apply StronglySorted_filter, order_by_sorted. Qed.

(** The tables after the accounts [done] have been converted. *)
Definition converted (done : list Address) : tables :=
  set_account t (map_imap (λ addr row,
    Some (if bool_decide (addr ∈ done) then converted_row t addr row else row)) (t_account t)).

Lemma converted_lookup done addr :
  t_account (converted done) !! addr =
  (λ row, if bool_decide (addr ∈ done) then converted_row t addr row else row) <$> t_account t !! addr.
Proof. cbn. rewrite map_lookup_imap. by destruct (t_account t !! addr). Qed.

Lemma converted_nil : converted [] = t.
Proof.
  assert (t_account (converted []) = t_account t) as Ha.
  { apply map_eq. intros a. rewrite converted_lookup. by destruct (t_account t !! a). }
  unfold converted in *. cbn in Ha. rewrite Ha. by destruct t.
Qed.

Lemma converted_deleted addr row : acr_deleted (converted_row t addr row) = acr_deleted row.
Proof. unfold converted_row. by destruct (DecodeTrimmedAccountData _). Qed.

(** Tables that agree beyond an address have the same next accounts. *)
Lemma sorted_same_elements {A} (R : A -> A -> Prop) `{!StrictOrder R} l1 l2 :
  StronglySorted R l1 -> StronglySorted R l2 -> (forall x, x ∈ l1 <-> x ∈ l2) -> l1 = l2.
Proof.
  intros H1. revert l2. induction H1 as [|x l1 H1 IH Hx]; intros l2 H2 Heq.
  - destruct l2 as [|y l2]; [done|]. exfalso. apply (not_elem_of_nil y), Heq. left.
  - destruct H2 as [|y l2 H2 Hy]; [exfalso; apply (not_elem_of_nil x), Heq; left|].
    rewrite Forall_forall in Hx, Hy.
    assert (x = y) as <-.
    { assert (x ∈ y :: l2) as [->|Hxy]%elem_of_cons by (apply Heq; left); [done|].
      assert (y ∈ x :: l1) as [->|Hyx]%elem_of_cons by (apply Heq; left); [done|].
      exfalso. apply (irreflexivity R x). etrans; [by apply Hx|by apply Hy]. }
    f_equal. apply IH; [done|]. intros z. split; intros Hz.
    + assert (z ∈ x :: l2) as [->|?]%elem_of_cons by (apply Heq; by right); [|done].
      exfalso. by apply (irreflexivity R x), Hx.
    + assert (z ∈ x :: l1) as [->|?]%elem_of_cons by (apply Heq; by right); [|done].
      exfalso. by apply (irreflexivity R x), Hy.
Qed.

Definition last_address (pre : list (Address * account_row)) : option Address := fst <$> last pre.

Lemma select_next n pre post :
  live_accounts = pre ++ post ->
  select_accounts n (last_address pre) (converted pre.*1) = take n post.
Proof.
  intros Hl. unfold select_accounts. f_equal. pose proof live_sorted as Hs. rewrite Hl in Hs.
  apply StronglySorted_app in Hs as (Hlt & _ & Hpost).
  apply (sorted_same_elements rows_lt); [apply StronglySorted_filter, order_by_sorted|done|].
  assert (forall x : Address * account_row, match last_address pre with Some a => sql_lt a x.1 | None => True end ->
            x.1 ∉ pre.*1) as Hnew.
  { intros x Hx (y & Hy & Hin)%list_elem_of_fmap_1. unfold last_address in Hx.
    destruct (last pre) as [z|] eqn:Hz; cbn in Hx; [|apply last_None in Hz; subst; by apply not_elem_of_nil in Hin].
    apply last_Some in Hz as [l ->]. apply elem_of_app in Hin as [Hin|Hin%list_elem_of_singleton].
    - (* y before z, so z < x = y < z *)
      pose proof live_sorted as Hs. rewrite Hl, <- (assoc_L (++)) in Hs.
      apply StronglySorted_app in Hs as (Hlz & _ & _). specialize (Hlz y z Hin ltac:(left)).
      apply (irreflexivity sql_lt z.1). etrans; [exact Hx|]. by rewrite Hy.
    - subst y. rewrite Hy in Hx. by apply (irreflexivity sql_lt z.1). }
  intros x. rewrite list_elem_of_filter, elem_of_order_by, converted_lookup. split.
  - intros ([Hd Ha] & Hx). rewrite bool_decide_eq_false_2 in Hx by (by apply Hnew).
    assert (x ∈ live_accounts) as Hlive.
    { apply elem_of_live. by destruct (t_account t !! x.1); simplify_eq/=. }
    rewrite Hl in Hlive. apply elem_of_app in Hlive as [Hin|?]; [|done].
    exfalso. apply (Hnew x Ha). by apply list_elem_of_fmap_2.
  - intros Hin. assert (x ∈ live_accounts) as [Hx Hd]%elem_of_live by (rewrite Hl; set_solver).
    assert (match last_address pre with Some a => sql_lt a x.1 | None => True end) as Ha.
    { unfold last_address. destruct (last pre) as [z|] eqn:Hz; [|done]. cbn.
      apply last_Some in Hz as [l ->]. apply Hlt; [|done]. apply elem_of_app. right. left. }
    split; [done|]. rewrite Hx. cbn. by rewrite bool_decide_eq_false_2 by (by apply Hnew).
Qed.

(** The account read from a row. *)
Definition reads_as (x : Address * account_row) (a : aad) : Prop :=
  aad_address a = x.1 /\ DecodeTrimmedAccountData (acr_account_data x.2) = Ok (trimmedAccountData a).

Lemma read_accounts_ok l :
  (forall x, x ∈ l -> x ∈ live_accounts) ->
  exists accounts, read_accounts (map Ok l) None = Ok accounts /\ Forall2 reads_as l accounts.
Proof.
  induction l as [|x l IH]; intros Hl; [by exists []|]. cbn.
  destruct IH as (accounts & -> & Hf); [intros y Hy; apply Hl; by right|].
  assert (x ∈ live_accounts) as [Hx Hd]%elem_of_live by (apply Hl; left).
  destruct (Hconv _ _ Hx Hd) as (Hlen & ad & Had). rewrite Had. cbn. eexists. split; [done|].
  constructor; [|done]. split; cbn; [by apply copy_address_id|done].
Qed.

Lemma scan_counts_ok fmt count accounts t' :
  scan_counts fmt count accounts t' [] = (Ok (map (λ a, count t' (aad_address a)) accounts), t', []).
Proof.
  induction accounts as [|a accounts IH]; [done|]. cbn. unfold tx_bind at 1, tx_wrap. cbn.
  unfold tx_bind. by rewrite IH.
Qed.

Lemma with_totals_map accounts f1 f2 f3 f4 :
  with_totals accounts (map f1 accounts) (map f2 accounts) (map f3 accounts) (map f4 accounts) =
  map (λ a, set_totals (trimmedAccountData a) (f1 a) (f2 a) (f3 a) (f4 a)) accounts.
Proof. induction accounts as [|a accounts IH]; [done|]. cbn. by rewrite IH. Qed.

Lemma compute_ok done accounts :
  computeLcAccountData accounts (converted done) [] =
    (Ok (map (λ a, counted t (aad_address a) (trimmedAccountData a)) accounts), converted done, []).
Proof.
  unfold computeLcAccountData, tx_bind. rewrite !scan_counts_ok. cbn. by rewrite with_totals_map.
Qed.

Lemma update_converted done x ad :
  t_account t !! x.1 = Some x.2 -> DecodeTrimmedAccountData (acr_account_data x.2) = Ok ad ->
  x.1 ∉ done ->
  update_data x.1 (EncodeTrimmedLcAccountData (counted t x.1 ad)) (converted done) =
    converted (done ++ [x.1]).
Proof.
  intros Hx Had Hnew. unfold update_data, converted at 3. unfold set_account at 2.
  assert (alter (λ row, set_account_data row (EncodeTrimmedLcAccountData (counted t x.1 ad))) x.1
            (t_account (converted done)) = t_account (converted (done ++ [x.1]))) as ->; [|done].
  apply map_eq. intros a. destruct (decide (a = x.1)) as [->|Hne].
  - rewrite lookup_alter_eq, !converted_lookup, Hx. cbn.
    rewrite bool_decide_eq_false_2, bool_decide_eq_true_2 by (done || set_solver).
    unfold converted_row. by rewrite Had.
  - rewrite lookup_alter_ne, !converted_lookup by done.
    assert (bool_decide (a ∈ done ++ [x.1]) = bool_decide (a ∈ done)) as ->; [|done].
    apply bool_decide_ext. set_solver.
Qed.

Lemma exec_updates_ok done l accounts :
  Forall2 reads_as l accounts -> (forall x, x ∈ l -> t_account t !! x.1 = Some x.2) ->
  NoDup (done ++ l.*1) ->
  exec_updates accounts (map (λ a, counted t (aad_address a) (trimmedAccountData a)) accounts)
    (converted done) [] = (Ok tt, converted (done ++ l.*1), []).
Proof.
  intros Hf. revert done. induction Hf as [|x a l accounts [Ha Had] Hf IH]; intros done Hl Hnd.
  - by rewrite app_nil_r.
  - cbn [map exec_updates]. unfold tx_bind at 1, tx_wrap. cbn [db_call]. rewrite Ha, update_converted.
    + etrans; [apply (IH (done ++ [x.1]))|].
      * intros y Hy. apply Hl. by right.
      * by rewrite <- (assoc_L (++)).
      * by rewrite <- (assoc_L (++)).
    + apply Hl. left.
    + done.
    + apply NoDup_app in Hnd as (_ & Hnd & _). intros Hin. apply (Hnd x.1 Hin). left.
Qed.

Lemma live_NoDup : NoDup live_accounts.*1.
Proof.
  pose proof live_sorted as Hs. induction Hs as [|x l Hs IH Hx]; constructor; [|done].
  intros (y & Hxy & Hy)%list_elem_of_fmap_1. rewrite Forall_forall in Hx. specialize (Hx y Hy).
  unfold rows_lt in Hx. rewrite Hxy in Hx. by apply (irreflexivity sql_lt y.1).
Qed.

Lemma process_batch_ok n pre post :
  live_accounts = pre ++ post ->
  exists accounts, process_batch n (last_address pre) (converted pre.*1) [] =
      (Ok accounts, converted (pre ++ take n post).*1, []) /\
    Forall2 reads_as (take n post) accounts.
Proof.
  intros Hl.
  assert (live_accounts = (pre ++ take n post) ++ drop n post) as Hl'.
  { by rewrite <- (assoc_L (++)), take_drop. }
  assert (forall x, x ∈ take n post -> x ∈ live_accounts) as Hin.
  { intros x Hx. rewrite Hl'. set_solver. }
  destruct (read_accounts_ok (take n post) Hin) as (accounts & Hr & Hf). exists accounts.
  split; [|done]. unfold process_batch, getAccounts, processAccounts, writeLcAccountData.
  unfold tx_bind, tx_wrap. cbn [db_call]. rewrite select_next with (post := post) by done.
  rewrite scan_rows_no_faults. cbn [rs_rows rs_err]. rewrite Hr.
  cbn [wrap]. rewrite compute_ok. cbn [wrap].
  rewrite exec_updates_ok with (l := take n post); [by rewrite fmap_app|done| |].
  - intros x Hx. by apply elem_of_live, Hin.
  - rewrite <- fmap_app. pose proof live_NoDup as Hnd. rewrite Hl', fmap_app in Hnd.
    by apply NoDup_app in Hnd as [? _].
Qed.

Lemma run_batches_ok n fuel pre post :
  (0 < n)%nat -> live_accounts = pre ++ post -> (length post < fuel)%nat ->
  run_batches fuel n (last_address pre) (converted pre.*1) [] =
    (Ok tt, converted live_accounts.*1, []).
Proof.
  intros Hn. revert pre post. induction fuel as [|fuel IH]; intros pre post Hl Hfuel; [lia|].
  cbn [run_batches]. unfold tx_bind.
  destruct (process_batch_ok n pre post Hl) as (accounts & -> & Hf).
  pose proof (Forall2_length _ _ _ Hf) as Hlen. rewrite length_take in Hlen.
  destruct (Nat.leb_spec n (length accounts)) as [Hle|Hlt].
  - destruct (last accounts) as [a|] eqn:Ha; [|apply last_None in Ha; subst; cbn in Hle; lia].
    apply last_Some in Ha as [l' ->]. apply Forall2_app_inv_r in Hf as (l1 & l2 & _ & Hf & Ht).
    inversion Hf as [|x ? ? ? [Hx _] Hf']. inversion Hf'. subst.
    assert (Some (aad_address a) = last_address (pre ++ take n post)) as ->.
    { unfold last_address. by rewrite Ht, (assoc_L (++)), last_snoc, Hx. }
    apply (IH (pre ++ take n post) (drop n post)).
    + by rewrite <- (assoc_L (++)), take_drop.
    + rewrite length_drop. lia.
  - rewrite take_ge by lia. by rewrite Hl.
Qed.

(** The migration converts every live account and changes nothing else: the account's data gets the
    four totals counted from the resource tables, in the new format, whatever the batch size; deleted
    accounts and the other tables stay. It ends: a turn that does not take a full batch is the
    last. *)
Lemma RunMigration_ok n :
  (0 < n)%nat -> RunMigration n t [] = (Ok tt, converted live_accounts.*1, []).
Proof.
  intros Hn. unfold RunMigration. rewrite <- converted_nil at 2.
  apply (run_batches_ok n _ [] live_accounts Hn eq_refl).
  assert (length (order_by (t_account t)) = size (t_account t)) as <-.
  { unfold order_by. by rewrite merge_sort_Permutation, length_map_to_list. }
  apply Nat.lt_succ_r, length_filter.
Qed.

(** An account row after the migration. *)
Definition migrated (addr : Address) (row row' : account_row) : Prop :=
  if acr_deleted row then row' = row
  else row' = set_account_data row (acr_account_data row') /\
    exists ad, DecodeTrimmedAccountData (acr_account_data row) = Ok ad /\
      DecodeTrimmedLcAccountData (acr_account_data row') = Ok (TrimLcAccountData (counted t addr ad)).

(** The text written for the accounts reads back. *)
Definition written_faithful : Prop := forall addr row ad,
  t_account t !! addr = Some row -> acr_deleted row = false ->
  DecodeTrimmedAccountData (acr_account_data row) = Ok ad ->
  faithful id (convertTrimmedLcAccountData (counted t addr ad)).

Lemma converted_migrated addr row :
  written_faithful ->
  t_account t !! addr = Some row ->
  exists row', t_account (converted live_accounts.*1) !! addr = Some row' /\ migrated addr row row'.
Proof.
  intros Hf Hrow. rewrite converted_lookup, Hrow. cbn [fmap option_fmap option_map].
  eexists. split; [done|]. unfold migrated. destruct (acr_deleted row) eqn:Hd.
  - rewrite bool_decide_eq_false_2; [done|]. intros ([a r] & -> & [Hr Hd']%elem_of_live)%list_elem_of_fmap_1.
    cbn in *. congruence.
  - rewrite bool_decide_eq_true_2.
    2:{ apply (list_elem_of_fmap_2' _ _ (addr, row)); [|done]. by apply elem_of_live. }
    destruct (Hconv _ _ Hrow Hd) as (_ & ad & Had). unfold converted_row. rewrite Had. cbn.
    split; [done|]. exists ad. split; [done|].
    destruct (Hf _ _ _ Hrow Hd Had) as (y & Hy & Heq).
    unfold DecodeTrimmedLcAccountData, EncodeTrimmedLcAccountData. rewrite Hy. cbn in Heq |- *. by subst y.
Qed.

(** C18. The task of the migration list, run in its transaction by a database that does
    not fail: every live account has its data in the new format, with the totals
    counted from the resource tables, every deleted account and every other table is
    as before, and the state names the next migration. *)
Theorem convert_account_data_migrates `{Codec MigrationState} s :
  written_faithful ->
  exists t', convert_account_data (RunMigration (Z.to_nat 10000))
      {| mw_state := s; mw_tables := t; mw_faults := [] |} =
    (Ok tt, let next := with_next s (NextMigration s + 1) in
      {| mw_state := next; mw_faults := [];
         mw_tables := set_metastate t' (<[MigrationMetastateKey := EncodeMigrationState next]> (t_metastate t)) |}) /\
    t' = set_account t (t_account t') /\ dom (t_account t') = dom (t_account t) /\
    forall addr row, t_account t !! addr = Some row ->
      exists row', t_account t' !! addr = Some row' /\ migrated addr row row'.
Proof.
  intros Hf. exists (converted live_accounts.*1). split; [|split; [done|split]].
  - unfold convert_account_data, advance, TxWithRetry. cbn [length TxWithRetry_fuel mw_tables mw_faults].
    unfold beginTx, attemptTx, tx_bind, tx_wrap. cbn [db_call].
    rewrite RunMigration_ok by lia. done.
  - apply dom_imap_L. intros a. rewrite elem_of_dom. split; [|by intros (row & -> & _)].
    intros [row Hrow]. by exists row.
  - intros addr row. by apply converted_migrated.
Qed.
End Result.

(** ** A database with a live and a closed account *)

Module SampleConversion.
Definition alice : Address := "alice-address-of-thirty-two-byte".
Definition row (deleted : bool) : account_row := {|
  acr_microalgos := 7; acr_rewardsbase := 0; acr_rewards_total := 0; acr_deleted := deleted;
  acr_created_at := 1; acr_closed_at := None; acr_keytype := None; acr_account_data := document |}.
Definition t : tables := {|
  t_block_header := ∅; t_account := <["bob" := row true]> {[alice := row false]};
  t_account_asset := {[(alice, 5) := {| aar_amount := 1; aar_frozen := false; aar_deleted := false;
                                       aar_created_at := 1; aar_closed_at := None |}]};
  t_asset := ∅; t_app := ∅; t_account_app := ∅; t_app_box := ∅; t_metastate := ∅ |}.
Definition old : Encoding.trimmedAccountData := {|
  ta_base := convertTrimmedLcAccountData Zero.accountData; ta_MicroAlgos := 7; ta_RewardsBase := 0;
  ta_RewardedMicroAlgos := 0 |}.
#[local] Instance old_codec : Codec Encoding.trimmedAccountData := one_document old.
#[local] Instance new_codec : Codec baseAccountData :=
  one_document (convertTrimmedLcAccountData (counted t alice (unconvertTrimmedAccountData old))).
#[local] Instance state_codec : Codec MigrationState := one_document emptyMigrationState.

Lemma live_row addr r : t_account t !! addr = Some r -> acr_deleted r = false -> addr = alice /\ r = row false.
Proof.
  cbn. destruct (decide (addr = "bob")) as [->|Hb].
  - rewrite lookup_insert_eq. intros [= <-]. done.
  - rewrite lookup_insert_ne by done. intros [<- <-]%lookup_singleton_Some. done.
Qed.

Lemma t_convertible : convertible t.
Proof. intros addr r Hr Hd. destruct (live_row _ _ Hr Hd) as [-> ->]. split; [done|]. by eexists. Qed.

Lemma t_faithful : written_faithful t.
Proof.
  intros addr r ad Hr Hd Had. destruct (live_row _ _ Hr Hd) as [-> ->].
  assert (ad = unconvertTrimmedAccountData old) as -> by (by injection Had). by eexists _.
Qed.

Lemma convert_account_data_migrates_witness : exists t',
  convert_account_data (RunMigration (Z.to_nat 10000))
      {| mw_state := with_next emptyMigrationState 19; mw_tables := t; mw_faults := [] |} =
    (Ok tt, let next := with_next emptyMigrationState 20 in
      {| mw_state := next; mw_faults := [];
         mw_tables := set_metastate t' (<[MigrationMetastateKey := EncodeMigrationState next]> (t_metastate t)) |}) /\
    exists row', t_account t' !! alice = Some row' /\ migrated t alice (row false) row'.
Proof.
  destruct (convert_account_data_migrates t t_convertible (with_next emptyMigrationState 19) t_faithful)
    as (t' & Hr & _ & _ & Hm).
  exists t'. split; [exact Hr|]. apply Hm. reflexivity.
Defined.
End SampleConversion.
