(* ===== verification/Params.v ===== *)
(** * Request parameters: [api/converter_utils.go], [api/pointer_utils.go] and the
    validation of [api/handlers.go]

    How the parameters of a request become the queries of [idb]: parsing of digests,
    addresses, roles, types and tokens, defaults and limits, and the checks on the
    resulting filters.  The theorems say that what passes is accepted by the database,
    and that the tokens of earlier answers resume the search where it stopped. *)

From S2P Require Import Prelude GoStd Sdk Idb Models Util Encoding Db WriteTxn Writer Postgres Sql.
From S2P Require Import TxnQuery BlockQuery ResourceQuery AccountQuery.

(** ** Pointers *)

Definition uintOrDefaultValue (x : option Z) (value : Z) : Z := default value x.
Definition strOrDefault (str : option string) : string := default "" str.
Definition boolOrDefault (b : option bool) : bool := default false b.
Definition uint64PtrOrNil (x : Z) : option Z := if x =? 0 then None else Some x.
(** [addrPtr] is [addrStr] of the database package. *)
Definition addrPtr `{SdkOps} (x : Address) : option string := addrStr x.
Definition strPtr (x : string) : option string := if bool_decide (x = "") then None else Some x.
Definition strArrayPtr (x : list string) : option (list string) :=
  match x with [] => None | _ => Some x end.
Definition min (x y : Z) : Z := if x <? y then x else y.

(** ** Options of the server *)

Record ExtraOptions := {
  EO_Tokens : list string; EO_DeveloperMode : bool; EO_MetricsEndpoint : bool;
  EO_WriteTimeout : Z;
  EO_MaxAPIResourcesPerAccount : Z; EO_MaxAccountListSize : Z;
  EO_MaxBlocksLimit : Z; EO_DefaultBlocksLimit : Z;
  EO_MaxTransactionsLimit : Z; EO_DefaultTransactionsLimit : Z;
  EO_MaxAccountsLimit : Z; EO_DefaultAccountsLimit : Z;
  EO_MaxAssetsLimit : Z; EO_DefaultAssetsLimit : Z;
  EO_MaxBalancesLimit : Z; EO_DefaultBalancesLimit : Z;
  EO_MaxApplicationsLimit : Z; EO_DefaultApplicationsLimit : Z;
  EO_MaxBoxesLimit : Z; EO_DefaultBoxesLimit : Z }.

(** The limit of a search. *)
Definition limit_of (param : option Z) (defaultLimit maxLimit : Z) : Z :=
  min (uintOrDefaultValue param defaultLimit) maxLimit.

(** ** Messages of [error_messages.go] *)

Definition errInvalidRoundAndMinMax : string := "cannot specify round and min-round/max-round".
Definition errInvalidRoundMinMax : string := "min-round must be less than max-round".
Definition errInvalidTimeMinMax : string := "after-time must be less than before-time".
Definition errUnableToParseAddress : string := "unable to parse address".
Definition errInvalidCreatorAddress : string := "found an invalid creator address".
Definition errUnableToParseBase64 : string := "unable to parse base64 data".
Definition errBadGroupIDLen : string := "bad length for group ID".
Definition errUnableToParseDigest : string := "unable to parse base32 digest data".
Definition errUnableToParseNext : string := "unable to parse next token".
Definition errUnknownAddressRole : string := "unknown address role [valid roles: %s]".
Definition errUnknownTxType : string := "unknown tx-type [valid types: %s]".
Definition errUnknownSigType : string := "unknown sig-type [valid types: %s]".
Definition errZeroAddressCloseRemainderToRole : string :=
  "searching transactions by zero address with close address role is not supported".
Definition errZeroAddressAssetSenderRole : string :=
  "searching transactions by zero address with asset sender role is not supported".
Definition errZeroAddressAssetCloseToRole : string :=
  "searching transactions by zero address with asset close address role is not supported".
Definition errValueExceedingInt64 : string :=
  "searching by round or application-id or asset-id or filter by value greater than 9223372036854775807 is not supported".

(** ** Decoding, with the errors so far *)

Section Decode.
Context `{SdkOps}.

Definition decodeDigest (str : option string) (field : string) (errorArr : list string)
    : string * list string :=
  match str with
  | Some s =>
      if Base32.Decodable s then (s, errorArr)
      else ("", errorArr ++ [errUnableToParseDigest +:+ " '" +:+ field +:+ "': %v"])
  | None => ("", errorArr)
  end.

Definition addrRoleSender : string := "sender".
Definition addrRoleReceiver : string := "receiver".
Definition addrRoleFreeze : string := "freeze-target".
Definition addressRoleEnumMap : gset string := {[ addrRoleSender; addrRoleReceiver; addrRoleFreeze ]}.

Definition decodeAddressRole (role : option string) (excludeCloseTo : option bool)
    (errorArr : list string) : Z * list string :=
  match role with
  | None => (0, errorArr)
  | Some role =>
      let lc := strings_ToLower role in
      let unknown := (0, errorArr ++ [errUnknownAddressRole +:+ ": '" +:+ lc +:+ "'"]) in
      if negb (bool_decide (lc ∈ addressRoleEnumMap)) then unknown
      else
      let exclude := default false excludeCloseTo in
      if bool_decide (lc = addrRoleSender) then
        (Z.lor AddressRoleSender AddressRoleAssetSender, errorArr)
      else if bool_decide (lc = addrRoleReceiver) && negb exclude then
        (Z.lor (Z.lor (Z.lor AddressRoleReceiver AddressRoleAssetReceiver)
                  AddressRoleCloseRemainderTo) AddressRoleAssetCloseTo, errorArr)
      else if bool_decide (lc = addrRoleReceiver) then
        (Z.lor AddressRoleReceiver AddressRoleAssetReceiver, errorArr)
      else if bool_decide (lc = addrRoleFreeze) then (AddressRoleFreeze, errorArr)
      else unknown
  end.

Definition decodeBase64Byte (str : option string) (field : string) (errorArr : list string)
    : option string * list string :=
  match str with
  | Some s =>
      match Base64.DecodeString Base64.std s with
      | Ok data => (Some data, errorArr)
      | Err _ => (None, errorArr ++ [errUnableToParseBase64 +:+ ": '" +:+ field +:+ "'"])
      end
  | None => (None, errorArr)
  end.

(** The lower case is used for the message only. *)
Definition decodeSigType (str : option string) (errorArr : list string) : string * list string :=
  match str with
  | Some s =>
      let sigTypeLc := strings_ToLower s in
      if IsSigTypeValid s then (s, errorArr)
      else ("", errorArr ++ [errUnknownSigType +:+ ": '" +:+ sigTypeLc +:+ "'"])
  | None => ("", errorArr)
  end.

Definition decodeType (str : option string) (errorArr : list string) : Z * list string :=
  match str with
  | Some s =>
      let typeLc := strings_ToLower s in
      match GetTypeEnum typeLc with
      | Some val => (val, errorArr)
      | None => (0, errorArr ++ [errUnknownTxType +:+ ": '" +:+ typeLc +:+ "'"])
      end
  | None => (0, errorArr)
  end.

Definition decodeGroupID (str : option string) (field : string) (errorArr : list string)
    : option string * list string :=
  match str with
  | Some s =>
      match Base64.DecodeString Base64.std s with
      | Err _ => (None, errorArr ++ [errUnableToParseBase64 +:+ ": '" +:+ field +:+ "'"])
      | Ok data =>
          if bool_decide (String.length data = 32%nat) then (Some data, errorArr)
          else (None, errorArr ++ [errBadGroupIDLen +:+ ": '" +:+ field +:+ "'"])
      end
  | None => (None, errorArr)
  end.

Definition invalid_input (errorArr : list string) : error :=
  ErrMsg ("invalid input: " +:+ strings_join ", " errorArr).
End Decode.

(** ** From parameters to queries *)

Section Queries.
Context `{SdkOps} (opts : ExtraOptions).

Definition assetParamsToAssetQuery (params : models.SearchForAssetsParams) : result AssetsQuery :=
  creator ← match models.SearchForAssetsParams_Creator params with
            | Some c => Some <$> wrap "unable to parse creator address: %w" (DecodeAddress c)
            | None => Ok None
            end;
  assetGreaterThan ← match models.SearchForAssetsParams_Next params with
                     | Some next =>
                         Some <$> as_msg (errUnableToParseNext +:+ ": %v") (ParseUint next)
                     | None => Ok None
                     end;
  Ok {| AQ_AssetID := models.SearchForAssetsParams_AssetId params;
        AQ_AssetIDGreaterThan := assetGreaterThan;
        AQ_Creator := creator;
        AQ_Name := strOrDefault (models.SearchForAssetsParams_Name params);
        AQ_Unit := strOrDefault (models.SearchForAssetsParams_Unit params);
        AQ_Query := "";
        AQ_IncludeDeleted := boolOrDefault (models.SearchForAssetsParams_IncludeAll params);
        AQ_Limit := limit_of (models.SearchForAssetsParams_Limit params)
                      (EO_DefaultAssetsLimit opts) (EO_MaxAssetsLimit opts) |}.

Definition appParamsToApplicationQuery (params : models.SearchForApplicationsParams)
    : result ApplicationQuery :=
  creator ← match models.SearchForApplicationsParams_Creator params with
            | Some c => Some <$> wrap "unable to parse creator address: %w" (DecodeAddress c)
            | None => Ok None
            end;
  appGreaterThan ← match models.SearchForApplicationsParams_Next params with
                   | Some next =>
                       Some <$> as_msg (errUnableToParseNext +:+ ": %v") (ParseUint next)
                   | None => Ok None
                   end;
  Ok {| PQ_ApplicationID := models.SearchForApplicationsParams_ApplicationId params;
        PQ_ApplicationIDGreaterThan := appGreaterThan;
        PQ_Address := creator;
        PQ_IncludeDeleted := boolOrDefault (models.SearchForApplicationsParams_IncludeAll params);
        PQ_Limit := limit_of (models.SearchForApplicationsParams_Limit params)
                      (EO_DefaultApplicationsLimit opts) (EO_MaxApplicationsLimit opts) |}.

(** The zero value of the filter is what is left after an error. *)
Definition transactionParamsToTransactionFilter (params : models.SearchForTransactionsParams)
    : result TransactionFilter :=
  let '(role, errorArr) := decodeAddressRole (models.SearchForTransactionsParams_AddressRole params)
                             (models.SearchForTransactionsParams_ExcludeCloseTo params) [] in
  let '(address, errorArr) :=
    match models.SearchForTransactionsParams_Address params with
    | Some s =>
        match DecodeAddress s with
        | Ok addr => (Some addr, errorArr)
        | Err _ => (Some zeroAddress, errorArr ++ [errUnableToParseAddress +:+ ": %v"])
        end
    | None => (None, errorArr)
    end in
  let '(txid, errorArr) := decodeDigest (models.SearchForTransactionsParams_Txid params) "txid"
                             errorArr in
  let '(notePrefix, errorArr) := decodeBase64Byte (models.SearchForTransactionsParams_NotePrefix params)
                                   "note-prefix" errorArr in
  let '(groupID, errorArr) := decodeGroupID (models.SearchForTransactionsParams_GroupId params)
                                "group-id" errorArr in
  let '(sigType, errorArr) := decodeSigType (models.SearchForTransactionsParams_SigType params)
                                errorArr in
  let '(typeEnum, errorArr) := decodeType (models.SearchForTransactionsParams_TxType params)
                                 errorArr in
  let lessThan := models.SearchForTransactionsParams_CurrencyLessThan params in
  let greaterThan := models.SearchForTransactionsParams_CurrencyGreaterThan params in
  let asset := bool_decide (is_Some (models.SearchForTransactionsParams_AssetId params)) ||
               (typeEnum =? TypeEnumAssetTransfer) in
  if bool_decide (errorArr = []) then
    Ok {| TF_SkipOptimization := false;
          TF_Address := address; TF_AddressRole := role;
          TF_MinRound := uintOrDefault (models.SearchForTransactionsParams_MinRound params);
          TF_MaxRound := uintOrDefault (models.SearchForTransactionsParams_MaxRound params);
          TF_AfterTime := default None (models.SearchForTransactionsParams_AfterTime params);
          TF_BeforeTime := default None (models.SearchForTransactionsParams_BeforeTime params);
          TF_TypeEnum := typeEnum; TF_Txid := txid;
          TF_Round := models.SearchForTransactionsParams_Round params;
          TF_Offset := None; TF_OffsetLT := None; TF_OffsetGT := None;
          TF_SigType := sigType; TF_NotePrefix := notePrefix; TF_GroupID := groupID;
          TF_AlgosGT := if asset then None else greaterThan;
          TF_AlgosLT := if asset then None else lessThan;
          TF_RekeyTo := models.SearchForTransactionsParams_RekeyTo params;
          TF_AssetID := models.SearchForTransactionsParams_AssetId params;
          TF_AssetAmountGT := if asset then greaterThan else None;
          TF_AssetAmountLT := if asset then lessThan else None;
          TF_ApplicationID := models.SearchForTransactionsParams_ApplicationId params;
          TF_EffectiveAmountGT := None; TF_EffectiveAmountLT := None;
          TF_NextToken := strOrDefault (models.SearchForTransactionsParams_Next params);
          TF_Limit := limit_of (models.SearchForTransactionsParams_Limit params)
                        (EO_DefaultTransactionsLimit opts) (EO_MaxTransactionsLimit opts);
          TF_SkipInnerTransactionConversion := false; TF_SkipInnerTransactions := false;
          TF_HeaderOnly := false; TF_RequireApplicationLogs := false |}
  else Err (invalid_input errorArr).

(** One of the three lists of accounts: the addresses, and the errors. *)
Definition parse_accounts (msg : string) (accounts : option (list string))
    (errs : list error) : gset Address * list error :=
  match accounts with
  | None => (∅, errs)
  | Some l =>
      foldl (λ '(X, errs) s,
        match DecodeAddress s with
        | Ok addr => ({[ addr ]} ∪ X, errs)
        | Err e => (X, errs ++ [ErrWrap msg e])
        end) (∅, errs) l
  end.

Definition too_long (accounts : option (list string)) (msg : string) : list error :=
  match accounts with
  | Some l => if EO_MaxAccountListSize opts <? Z.of_nat (length l) then [ErrMsg msg] else []
  | None => []
  end.

(** [errors.Join(errs...)] *)
Definition errors_Join (errs : list error) : option error :=
  match errs with [] => None | _ => Some (ErrMsg "errors.Join") end.

Definition blockParamsToBlockFilter (params : models.SearchForBlockHeadersParams)
    : result BlockHeaderFilter :=
  let minRound := models.SearchForBlockHeadersParams_MinRound params in
  let maxRound := models.SearchForBlockHeadersParams_MaxRound params in
  let errs :=
    match minRound, maxRound with
    | Some lo, Some hi => if hi <? lo then [ErrMsg errInvalidRoundMinMax] else []
    | _, _ => []
    end in
  let '(filterMin, errs) :=
    match models.SearchForBlockHeadersParams_Next params with
    | None => (minRound, errs)
    | Some next =>
        let '(n, errs) :=
          match DecodeBlockRowNext next with
          | Ok n => (n, errs)
          | Err e => (0, errs ++ [ErrWrap (errUnableToParseNext +:+ ": %w") e])
          end in
        match minRound with
        | None => (Some (wrap64 (n + 1)), errs)
        | Some lo => (Some (Z.max lo (wrap64 (n + 1))), errs)
        end
    end in
  let proposers := models.SearchForBlockHeadersParams_Proposers params in
  let expired := models.SearchForBlockHeadersParams_Expired params in
  let absent := models.SearchForBlockHeadersParams_Absent params in
  let given (o : option (list string)) : nat := match o with Some _ => 1%nat | None => 0%nat end in
  let errs := errs ++
    (if (1 <? given proposers + given expired + given absent)%nat
     then [ErrMsg "only one of `proposer`, `expired`, or `absent` can be specified"] else []) ++
    too_long proposers "proposers list too long, max size is %d" ++
    too_long expired "expired list too long, max size is %d" ++
    too_long absent "absent list too long, max size is %d" in
  let '(P, errs) := parse_accounts "unable to parse proposer address `%s`: %w" proposers errs in
  let '(E, errs) := parse_accounts "unable to parse expired address `%s`: %w" expired errs in
  let '(A, errs) := parse_accounts "unable to parse absent address `%s`: %w" absent errs in
  match errors_Join errs with
  | Some e => Err e
  | None =>
      Ok {| BF_Limit := limit_of (models.SearchForBlockHeadersParams_Limit params)
                          (EO_DefaultBlocksLimit opts) (EO_MaxBlocksLimit opts);
            BF_MaxRound := maxRound; BF_MinRound := filterMin;
            BF_AfterTime := default None (models.SearchForBlockHeadersParams_AfterTime params);
            BF_BeforeTime := default None (models.SearchForBlockHeadersParams_BeforeTime params);
            BF_Proposers := P; BF_ExpiredParticipationAccounts := E;
            BF_AbsentParticipationAccounts := A |}
  end.

Definition ErrResultLimitReached : string := "Result limit exceeded".

Definition maxAccountsErrorToAccountsErrorResponse
    (addr : Address) (totalAppLocalStates totalAppParams totalAssets totalAssetParams : Z)
    : models.ErrorResponse := {|
  models.ErrorResponse_Data := Some (list_to_map [
    ("max-results", models.i_uint (EO_MaxAPIResourcesPerAccount opts));
    ("address", models.i_string (AddressString addr));
    ("total-assets-opted-in", models.i_uint totalAssets);
    ("total-created-assets", models.i_uint totalAssetParams);
    ("total-apps-opted-in", models.i_uint totalAppLocalStates);
    ("total-created-apps", models.i_uint totalAppParams)]);
  models.ErrorResponse_Message := ErrResultLimitReached |}.
End Queries.

(** ** Validation *)

Definition exceeds (o : option Z) : bool := match o with Some v => MaxInt64 <? v | None => false end.

Definition first_error (errorArr : list string) : option error :=
  match errorArr with [] => None | _ => Some (invalid_input errorArr) end.

(** [a.After(b)] for two times that are set *)
Definition after_both (a b : Time) : bool :=
  match a, b with Some a, Some b => b <? a | _, _ => false end.

Definition validateBlockFilter (f : BlockHeaderFilter) : option error :=
  first_error (
    (if exceeds (BF_MaxRound f) || exceeds (BF_MinRound f) then [errValueExceedingInt64] else []) ++
    (if after_both (BF_AfterTime f) (BF_BeforeTime f) then [errInvalidTimeMinMax] else [])).

Definition validateTransactionFilter `{SdkOps} (f : TransactionFilter) : option error :=
  let address := copy_address (default "" (TF_Address f)) in
  let bad_role (role : Z) (msg : string) : list string :=
    if Address_IsZero address && negb (Z.land (TF_AddressRole f) role =? 0) then [msg] else [] in
  first_error (
    (if (MaxInt64 <? TF_MinRound f) || (MaxInt64 <? TF_MaxRound f) || exceeds (TF_Round f) ||
        exceeds (TF_AssetID f) || exceeds (TF_ApplicationID f)
     then [errValueExceedingInt64] else []) ++
    (if exceeds (TF_Offset f) || exceeds (TF_OffsetLT f) || exceeds (TF_OffsetGT f)
     then [errValueExceedingInt64] else []) ++
    (if exceeds (TF_AlgosLT f) || exceeds (TF_AlgosGT f) then [errValueExceedingInt64] else []) ++
    (if exceeds (TF_EffectiveAmountLT f) || exceeds (TF_EffectiveAmountGT f)
     then [errValueExceedingInt64] else []) ++
    (if bool_decide (is_Some (TF_Round f)) &&
        (negb (TF_MaxRound f =? 0) || negb (TF_MinRound f =? 0))
     then [errInvalidRoundAndMinMax] else []) ++
    (if negb (bool_decide (is_Some (TF_Round f))) && negb (TF_MinRound f =? 0) &&
        negb (TF_MaxRound f =? 0) && (TF_MaxRound f <? TF_MinRound f)
     then [errInvalidRoundMinMax] else []) ++
    bad_role AddressRoleCloseRemainderTo errZeroAddressCloseRemainderToRole ++
    bad_role AddressRoleAssetSender errZeroAddressAssetSenderRole ++
    bad_role AddressRoleAssetCloseTo errZeroAddressAssetCloseToRole).

(** [setExcludeQueryOptions] *)
Definition set_includes (o : AccountQueryOptions) (holdings assetParams localState appParams : bool)
    : AccountQueryOptions := {|
  AO_GreaterThanAddress := AO_GreaterThanAddress o; AO_EqualToAddress := AO_EqualToAddress o;
  AO_EqualToAuthAddr := AO_EqualToAuthAddr o; AO_OnlineOnly := AO_OnlineOnly o;
  AO_AlgosGreaterThan := AO_AlgosGreaterThan o; AO_AlgosLessThan := AO_AlgosLessThan o;
  AO_HasAssetID := AO_HasAssetID o; AO_AssetGT := AO_AssetGT o; AO_AssetLT := AO_AssetLT o;
  AO_HasAppID := AO_HasAppID o; AO_IncludeAssetHoldings := holdings;
  AO_IncludeAssetParams := assetParams; AO_IncludeAppLocalState := localState;
  AO_IncludeAppParams := appParams; AO_MaxResources := AO_MaxResources o;
  AO_IncludeDeleted := AO_IncludeDeleted o; AO_Limit := AO_Limit o |}.

Definition errInvalidExcludeParameter : error := ErrSentinel "invalid exclude argument".

Fixpoint setExcludeQueryOptions (exclude : list string) (o : AccountQueryOptions)
    : result AccountQueryOptions :=
  match exclude with
  | [] => Ok o
  | e :: exclude =>
      let h := AO_IncludeAssetHoldings o in
      let p := AO_IncludeAssetParams o in
      let l := AO_IncludeAppLocalState o in
      let a := AO_IncludeAppParams o in
      if bool_decide (e = "all") then
        setExcludeQueryOptions exclude (set_includes o false false false false)
      else if bool_decide (e = "assets") then
        setExcludeQueryOptions exclude (set_includes o false p l a)
      else if bool_decide (e = "created-assets") then
        setExcludeQueryOptions exclude (set_includes o h false l a)
      else if bool_decide (e = "apps-local-state") then
        setExcludeQueryOptions exclude (set_includes o h p false a)
      else if bool_decide (e = "created-apps") then
        setExcludeQueryOptions exclude (set_includes o h p l false)
      else if bool_decide (e = "none") then setExcludeQueryOptions exclude o
      else Err (ErrWrap ("unknown value " +:+ dquote +:+ "%s" +:+ dquote +:+ ": %w")
                  errInvalidExcludeParameter)
  end.

(** ** What passes the validation is accepted by the database *)

(** The integers of a request are [uint64]. *)
Definition opt_uint64 (o : option Z) : Prop := forall v, o = Some v -> is_u64 v.

Record search_params_uint64 (p : models.SearchForTransactionsParams) : Prop := {
  sp_min : opt_uint64 (models.SearchForTransactionsParams_MinRound p);
  sp_max : opt_uint64 (models.SearchForTransactionsParams_MaxRound p);
  sp_round : opt_uint64 (models.SearchForTransactionsParams_Round p);
  sp_asset : opt_uint64 (models.SearchForTransactionsParams_AssetId p);
  sp_app : opt_uint64 (models.SearchForTransactionsParams_ApplicationId p);
  sp_gt : opt_uint64 (models.SearchForTransactionsParams_CurrencyGreaterThan p);
  sp_lt : opt_uint64 (models.SearchForTransactionsParams_CurrencyLessThan p);
  sp_limit : opt_uint64 (models.SearchForTransactionsParams_Limit p) }.

Lemma decodeAddressRole_known role exclude errs r errs' :
  decodeAddressRole role exclude errs = (r, errs') ->
  r = 0 \/ r = 9 \/ r = 54 \/ r = 18 \/ r = 64.
Proof.
  unfold decodeAddressRole. destruct role as [role|]; [|intros [= <- _]; auto].
  repeat match goal with |- context [if ?b then _ else _] => destruct b end;
    intros [= <- _]; cbn; auto.
Qed.

Lemma decodeType_small t errs v errs' :
  decodeType t errs = (v, errs') -> 0 <= v <= 8.
Proof.
  unfold decodeType. destruct t as [t|]; [|intros [= <- _]; lia].
  destruct (GetTypeEnum (strings_ToLower t)) as [w|] eqn:Hw; [|intros [= <- _]; lia].
  intros [= <- _]. unfold GetTypeEnum in Hw. revert Hw. unfold typeEnumMap.
  intros Hw%elem_of_list_to_map_2. cbn in Hw. set_unfold in Hw.
  repeat (destruct Hw as [Hw|Hw]; [injection Hw; intros; subst; vm_compute; split; discriminate|]).
  done.
Qed.

(** The fields of a filter made from parameters. *)
Record made_from (opts : ExtraOptions) (p : models.SearchForTransactionsParams)
    (tf : TransactionFilter) : Prop := {
  mf_role : TF_AddressRole tf = 0 \/ TF_AddressRole tf = 9 \/ TF_AddressRole tf = 54 \/
            TF_AddressRole tf = 18 \/ TF_AddressRole tf = 64;
  mf_type : 0 <= TF_TypeEnum tf <= 8;
  mf_min : TF_MinRound tf = uintOrDefault (models.SearchForTransactionsParams_MinRound p);
  mf_max : TF_MaxRound tf = uintOrDefault (models.SearchForTransactionsParams_MaxRound p);
  mf_round : TF_Round tf = models.SearchForTransactionsParams_Round p;
  mf_offsets : TF_Offset tf = None /\ TF_OffsetLT tf = None /\ TF_OffsetGT tf = None;
  mf_asset : TF_AssetID tf = models.SearchForTransactionsParams_AssetId p;
  mf_app : TF_ApplicationID tf = models.SearchForTransactionsParams_ApplicationId p;
  mf_algos_gt : TF_AlgosGT tf = None \/
    TF_AlgosGT tf = models.SearchForTransactionsParams_CurrencyGreaterThan p;
  mf_algos_lt : TF_AlgosLT tf = None \/
    TF_AlgosLT tf = models.SearchForTransactionsParams_CurrencyLessThan p;
  mf_effective : TF_EffectiveAmountGT tf = None /\ TF_EffectiveAmountLT tf = None;
  mf_inner : TF_SkipInnerTransactions tf = false /\ TF_SkipInnerTransactionConversion tf = false;
  mf_token : TF_NextToken tf = strOrDefault (models.SearchForTransactionsParams_Next p);
  mf_limit : TF_Limit tf = limit_of (models.SearchForTransactionsParams_Limit p)
    (EO_DefaultTransactionsLimit opts) (EO_MaxTransactionsLimit opts) }.

Lemma transaction_filter_made `{SdkOps} opts p tf :
  transactionParamsToTransactionFilter opts p = Ok tf -> made_from opts p tf.
Proof.
  unfold transactionParamsToTransactionFilter.
  destruct (decodeAddressRole _ _ _) as [role errs0] eqn:Hrole.
  destruct (match models.SearchForTransactionsParams_Address p with Some _ => _ | None => _ end)
    as [address errs1].
  destruct (decodeDigest _ _ _) as [txid errs2]. destruct (decodeBase64Byte _ _ _) as [note errs3].
  destruct (decodeGroupID _ _ _) as [group errs4]. destruct (decodeSigType _ _) as [sig errs5].
  destruct (decodeType _ _) as [type errs6] eqn:Htype. cbv zeta.
  destruct (bool_decide (errs6 = [])); [|done]. intros [= <-].
  apply decodeAddressRole_known in Hrole. apply decodeType_small in Htype.
  constructor; cbn; try done; destruct (_ || _); auto.
Qed.

Lemma first_error_none l : first_error l = None -> l = [].
Proof. by destruct l. Qed.

Lemma if_nil {A} (b : bool) (x : A) : (if b then [x] else []) = [] <-> b = false.
Proof. by destruct b. Qed.

Lemma exceeds_fits o : opt_uint64 o -> exceeds o = false -> opt_fits o.
Proof.
  unfold opt_uint64, is_u64. intros Ho He v ->. cbn in He. apply Z.ltb_ge in He.
  specialize (Ho v eq_refl). unfold fits_bigint. rewrite andb_true_iff, !Z.leb_le. lia.
Qed.

Lemma uint_fits o : opt_uint64 o -> (MaxInt64 <? uintOrDefault o) = false ->
  fits_bigint (uintOrDefault o) = true.
Proof.
  destruct o as [v|]; [|done]. cbn. intros Ho Hv. by apply (exceeds_fits (Some v)).
Qed.

(** What the validation guarantees. *)
Lemma validate_ranges `{SdkOps} tf :
  validateTransactionFilter tf = None ->
  (MaxInt64 <? TF_MinRound tf) = false /\ (MaxInt64 <? TF_MaxRound tf) = false /\
  exceeds (TF_Round tf) = false /\ exceeds (TF_AssetID tf) = false /\
  exceeds (TF_ApplicationID tf) = false /\ exceeds (TF_AlgosLT tf) = false /\
  exceeds (TF_AlgosGT tf) = false.
Proof.
  unfold validateTransactionFilter. intros Hv%first_error_none.
  apply app_eq_nil in Hv as [H1%if_nil Hv]. apply app_eq_nil in Hv as [_ Hv].
  apply app_eq_nil in Hv as [H3%if_nil _].
  repeat (apply orb_false_iff in H1 as [H1 ?]). apply orb_false_iff in H3 as [? ?]. done.
Qed.

(** The limit of a search fits a [bigint]. *)
Lemma limit_fits param defaultLimit maxLimit :
  opt_uint64 param -> 0 <= defaultLimit -> 0 <= maxLimit <= MaxInt64 ->
  fits_bigint (limit_of param defaultLimit maxLimit) = true.
Proof.
  unfold limit_of, min, fits_bigint. intros Hp Hd Hm. rewrite andb_true_iff, !Z.leb_le.
  assert (0 <= uintOrDefaultValue param defaultLimit).
  { destruct param as [v|]; [|done]. destruct (Hp v eq_refl). done. }
  destruct (Z.ltb_spec (uintOrDefaultValue param defaultLimit) maxLimit); lia.
Qed.

Section Lists.
Context `{SdkOps} (opts : ExtraOptions).

Lemma parse_accounts_errs msg accounts errs : exists more, (parse_accounts msg accounts errs).2 = errs ++ more.
Proof.
  destruct accounts as [l|]; cbn; [|exists []; by rewrite app_nil_r].
  generalize (∅ : gset Address). revert errs. induction l as [|x l IH]; intros errs X; cbn;
    [exists []; by rewrite app_nil_r|].
  destruct (DecodeAddress x) as [addr|e]; [apply IH|].
  destruct (IH (errs ++ [ErrWrap msg e]) X) as [more Hm]. rewrite Hm, <- app_assoc. eauto.
Qed.

Lemma too_long_nil accounts msg : too_long opts accounts msg = [] ->
  forall l, accounts = Some l -> Z.of_nat (length l) <= EO_MaxAccountListSize opts.
Proof. intros Ht l ->. cbn in Ht. destruct (Z.ltb_spec (EO_MaxAccountListSize opts) (Z.of_nat (length l))); [done|lia]. Qed.

(** No list of accounts longer than [MaxAccountListSize] is accepted in a search for headers.
    So 0 means that every list with an account is refused; the documentation says that it means
    no limit. *)
Theorem account_lists_bounded params f l :
  blockParamsToBlockFilter opts params = Ok f ->
  models.SearchForBlockHeadersParams_Proposers params = Some l \/
  models.SearchForBlockHeadersParams_Expired params = Some l \/
  models.SearchForBlockHeadersParams_Absent params = Some l ->
  Z.of_nat (length l) <= EO_MaxAccountListSize opts.
Proof.
  unfold blockParamsToBlockFilter. destruct (match models.SearchForBlockHeadersParams_Next params with
    | None => _ | Some next => _ end) as [filterMin errs0].
  match goal with |- context [parse_accounts _ _ ?errs] => set (errs1 := errs) end.
  destruct (parse_accounts_errs "unable to parse proposer address `%s`: %w"
    (models.SearchForBlockHeadersParams_Proposers params) errs1) as [m1 H1].
  destruct (parse_accounts _ (models.SearchForBlockHeadersParams_Proposers params) errs1) as [P errs2].
  destruct (parse_accounts_errs "unable to parse expired address `%s`: %w"
    (models.SearchForBlockHeadersParams_Expired params) errs2) as [m2 H2].
  destruct (parse_accounts _ (models.SearchForBlockHeadersParams_Expired params) errs2) as [E errs3].
  destruct (parse_accounts_errs "unable to parse absent address `%s`: %w"
    (models.SearchForBlockHeadersParams_Absent params) errs3) as [m3 H3].
  destruct (parse_accounts _ (models.SearchForBlockHeadersParams_Absent params) errs3) as [A errs4].
  cbn in H1, H2, H3. intros Hok Hl. assert (errs1 = []) as Hnil.
  { destruct errs4; [|done]. rewrite H2, H1 in H3. symmetry in H3.
    apply app_nil in H3 as [H3 _]. apply app_nil in H3 as [H3 _]. by apply app_nil in H3 as [H3 _]. }
  unfold errs1 in Hnil. rewrite !app_nil in Hnil. destruct Hnil as (_ & _ & Hp & He & Ha).
  destruct Hl as [Hl|[Hl|Hl]];
    [exact (too_long_nil _ _ Hp l Hl)|exact (too_long_nil _ _ He l Hl)|exact (too_long_nil _ _ Ha l Hl)].
Qed.
End Lists.

Section Accepted.
Context `{SdkOps} `{PgOps} (opts : ExtraOptions).
Context (Hdefault : 0 <= EO_DefaultTransactionsLimit opts)
  (Hmax : 0 <= EO_MaxTransactionsLimit opts <= MaxInt64).

Lemma made_page_fits p tf :
  search_params_uint64 p -> made_from opts p tf -> validateTransactionFilter tf = None ->
  page_fits tf.
Proof.
  intros Hp Hm Hv. destruct (validate_ranges tf Hv) as (Hmin & Hmx & Hr & _).
  destruct (mf_offsets _ _ _ Hm) as (_ & Hlt & Hgt).
  unfold page_fits. rewrite Hlt, Hgt, (mf_min _ _ _ Hm), (mf_max _ _ _ Hm), (mf_limit _ _ _ Hm).
  rewrite (mf_min _ _ _ Hm) in Hmin. rewrite (mf_max _ _ _ Hm) in Hmx.
  repeat split; try done.
  - apply uint_fits; [apply Hp|done].
  - apply uint_fits; [apply Hp|done].
  - apply limit_fits; [apply Hp|done..].
  - rewrite (mf_round _ _ _ Hm) in Hr |- *. apply exceeds_fits; [apply Hp|done].
Qed.

(** The roles that a request can name include one with a JSON key. *)
Lemma known_roles tf a :
  TF_AddressRole tf = 9 \/ TF_AddressRole tf = 54 \/ TF_AddressRole tf = 18 \/
  TF_AddressRole tf = 64 ->
  flat_map (λ '(role, key), if has_role tf role then [(key, Base64 a)] else []) role_keys <> [].
Proof. unfold has_role. by intros [-> |[-> |[-> | ->]]]. Qed.

Lemma texts_fit (l : list (string * string)) :
  forallb arg_fits (map (λ kv, A_text kv.2) l) = true.
Proof. by induction l. Qed.

Lemma made_conds_ok p tf id :
  search_params_uint64 p -> made_from opts p tf -> validateTransactionFilter tf = None ->
  creatable tf = Ok id -> Forall cond_ok (rest_conds tf id).
Proof.
  intros Hp Hm Hv Hid.
  destruct (validate_ranges tf Hv) as (_ & _ & _ & Has & Hap & Hlt & Hgt).
  destruct (mf_offsets _ _ _ Hm) as (Hoff & _). destruct (mf_effective _ _ _ Hm) as [Heg Hel].
  assert (opt_fits id) as Hidf.
  { rewrite (mf_asset _ _ _ Hm) in Has. rewrite (mf_app _ _ _ Hm) in Hap.
    apply exceeds_fits in Has; [|apply Hp]. apply exceeds_fits in Hap; [|apply Hp].
    unfold creatable in Hid. rewrite (mf_asset _ _ _ Hm), (mf_app _ _ _ Hm) in Hid.
    destruct (models.SearchForTransactionsParams_AssetId p),
      (models.SearchForTransactionsParams_ApplicationId p);
      [destruct (_ =? _); [|done]| | |]; by injection Hid as <-. }
  assert (opt_fits (TF_AlgosGT tf)) as Hgtf.
  { destruct (mf_algos_gt _ _ _ Hm) as [He|He]; rewrite He in Hgt |- *; [done|].
    apply exceeds_fits; [apply Hp|done]. }
  assert (opt_fits (TF_AlgosLT tf)) as Hltf.
  { destruct (mf_algos_lt _ _ _ Hm) as [He|He]; rewrite He in Hlt |- *; [done|].
    apply exceeds_fits; [apply Hp|done]. }
  unfold rest_conds. rewrite Hoff, Heg, Hel.
  assert (forall c, c <> c_roles [] -> forallb arg_fits (cond_args c) = true -> cond_ok c) as Hok
    by (by split).
  rewrite !Forall_app, !Forall_when_some, !Forall_unless_zero, !Forall_unless_empty, !Forall_if.
  split_and!; try (intros; apply Hok; done).
  - destruct (TF_Address tf) as [a|]; [|done]. apply Forall_unless_zero. intros Hz. apply Hok.
    + intros [=He]. by eapply known_roles; [|exact He]; destruct (mf_role _ _ _ Hm).
    + apply texts_fit.
  - intros v Hv'. apply Hok; [done|]. cbn. by rewrite (Hidf v Hv').
  - intros Hz. apply Hok; [done|]. cbn. rewrite andb_true_r, andb_true_iff, Z.leb_le, Z.ltb_lt.
    pose proof (mf_type _ _ _ Hm). lia.
  - intros v Hv'. apply Hok; [done|]. cbn. by rewrite (Hgtf v Hv').
  - intros v Hv'. apply Hok; [done|]. cbn. by rewrite (Hltf v Hv').
Qed.

(** A transaction search that passes the validation is accepted by the database: no
    argument is out of the range of its column and the statement is well formed, so
    that it answers with rows.  (A search that resumes from a token is not covered:
    the round in the token is not validated.) *)
Theorem validated_search_accepted p tf id d :
  search_params_uint64 p ->
  transactionParamsToTransactionFilter opts p = Ok tf -> validateTransactionFilter tf = None ->
  creatable tf = Ok id ->
  exists q, filter_query tf = Ok q /\ exec_query q d = Ok (result_rows q d, d).
Proof.
  intros Hp Htf Hv Hid. apply transaction_filter_made in Htf as Hm.
  unfold filter_query. rewrite Hid. eexists. split; [done|].
  apply (exec_query_ok tf id); [done|by unfold filter_query; rewrite Hid| |].
  - by apply (made_page_fits p).
  - by apply (made_conds_ok p).
Qed.
End Accepted.

(** ** A concrete search *)

(** Limits of one result a page. *)
Definition one_per_page (tokens : list string) (writeTimeout : Z) : ExtraOptions := {|
  EO_Tokens := tokens; EO_DeveloperMode := false; EO_MetricsEndpoint := true;
  EO_WriteTimeout := writeTimeout;
  EO_MaxAPIResourcesPerAccount := 4; EO_MaxAccountListSize := 10;
  EO_MaxBlocksLimit := 10; EO_DefaultBlocksLimit := 1;
  EO_MaxTransactionsLimit := 10; EO_DefaultTransactionsLimit := 1;
  EO_MaxAccountsLimit := 10; EO_DefaultAccountsLimit := 1;
  EO_MaxAssetsLimit := 10; EO_DefaultAssetsLimit := 1;
  EO_MaxBalancesLimit := 10; EO_DefaultBalancesLimit := 1;
  EO_MaxApplicationsLimit := 10; EO_DefaultApplicationsLimit := 1;
  EO_MaxBoxesLimit := 10; EO_DefaultBoxesLimit := 1 |}.

Section Witnesses.
Import SampleAccounts.

(** The transfers of an asset that an account received. *)
Definition received : models.SearchForTransactionsParams := {|
  models.SearchForTransactionsParams_Limit := Some 5; models.SearchForTransactionsParams_Next := None;
  models.SearchForTransactionsParams_NotePrefix := None;
  models.SearchForTransactionsParams_TxType := Some "axfer";
  models.SearchForTransactionsParams_SigType := None;
  models.SearchForTransactionsParams_GroupId := None; models.SearchForTransactionsParams_Txid := None;
  models.SearchForTransactionsParams_Round := None;
  models.SearchForTransactionsParams_MinRound := Some 2;
  models.SearchForTransactionsParams_MaxRound := Some 6;
  models.SearchForTransactionsParams_AssetId := Some 9;
  models.SearchForTransactionsParams_BeforeTime := None;
  models.SearchForTransactionsParams_AfterTime := None;
  models.SearchForTransactionsParams_CurrencyGreaterThan := Some 1;
  models.SearchForTransactionsParams_CurrencyLessThan := None;
  models.SearchForTransactionsParams_Address := Some alice;
  models.SearchForTransactionsParams_AddressRole := Some "receiver";
  models.SearchForTransactionsParams_ExcludeCloseTo := None;
  models.SearchForTransactionsParams_RekeyTo := None;
  models.SearchForTransactionsParams_ApplicationId := None |}.
Definition received_filter : TransactionFilter :=
  match transactionParamsToTransactionFilter (one_per_page [] 0) received with
  | Ok tf => tf
  | Err _ => SampleSearch.any 0
  end.

Lemma validated_search_accepted_witness :
  exists q, filter_query received_filter = Ok q /\ exec_query q d = Ok (result_rows q d, d).
Proof.
  apply (validated_search_accepted (one_per_page [] 0) ltac:(done) ltac:(done) received received_filter
           (Some 9) d).
  - split; intros v [= <-]; done.
  - vm_compute. reflexivity.
  - vm_compute. reflexivity.
  - vm_compute. reflexivity.
Defined.
End Witnesses.
