(* ===== verification/Convert.v ===== *)
(** * API objects from rows: [api/converter_utils.go]

    [txnRowToTransaction] and [signedTxnWithAdToTransaction] turn a stored transaction
    into [models.Transaction], with its inner transactions; [hdrRowToBlock] turns a
    block header into [models.Block].  An index out of range is a panic of the handler's
    goroutine, represented by [ErrPanic].  The theorems say what the conversion keeps:
    the tree of inner transactions, the accounts of local state deltas, one kind of
    transaction fields per type. *)

From stdpp Require Import sorting.
From S2P Require Import Prelude GoStd Sdk Idb Models Util Encoding Db WriteTxn Writer Postgres Sql.
From S2P Require Import TxnQuery BlockQuery ResourceQuery AccountQuery Params.

(** ** Signatures *)

Section Signatures.
Context `{SdkOps}.

Definition sigToTransactionSig (sig : string) : option string :=
  if bool_decide (sig = zeros 64) then None else Some sig.

Definition msigToTransactionMsig (msig : MultisigSig)
    : option models.TransactionSignatureMultisig :=
  if Msig_Blank msig then None
  else Some {|
    models.TransactionSignatureMultisig_Subsignature := Some (map (λ subsig, {|
      models.TransactionSignatureMultisigSubsignature_PublicKey :=
        byteSliceOmitZeroPtr (MS_Key subsig);
      models.TransactionSignatureMultisigSubsignature_Signature :=
        sigToTransactionSig (MS_Sig subsig) |}) (M_Subsigs msig));
    models.TransactionSignatureMultisig_Threshold := uint64Ptr (M_Threshold msig);
    models.TransactionSignatureMultisig_Version := uint64Ptr (M_Version msig) |}.

Definition lsigToTransactionLsig (lsig : LogicSig) : option models.TransactionSignatureLogicsig :=
  if Lsig_Blank lsig then None
  else Some {|
    models.TransactionSignatureLogicsig_Args := Some (map Base64 (L_Args lsig));
    models.TransactionSignatureLogicsig_Logic := L_Logic lsig;
    models.TransactionSignatureLogicsig_LogicMultisigSignature := msigToTransactionMsig (L_LMsig lsig);
    models.TransactionSignatureLogicsig_MultisigSignature := msigToTransactionMsig (L_Msig lsig);
    models.TransactionSignatureLogicsig_Signature := sigToTransactionSig (L_Sig lsig) |}.
End Signatures.

(** ** Application calls *)

Definition onCompletionToTransactionOnCompletion (oc : Z) : string :=
  if oc =? 0 then "noop" else if oc =? 1 then "optin" else if oc =? 2 then "closeout"
  else if oc =? 3 then "clear" else if oc =? 4 then "update" else if oc =? 5 then "delete"
  else "unknown".

(** The keys sorted by [sort.Strings]. *)
Definition stateDeltaToStateDelta (d : StateDelta) : option (list models.EvalDeltaKeyValue) :=
  let d := default ∅ d in
  if bool_decide (size d = 0%nat) then None
  else Some (map (λ kv, {|
    models.EvalDeltaKeyValue_Key := Base64 kv.1;
    models.EvalDeltaKeyValue_Value := {|
      models.EvalDelta_Action := VD_Action kv.2;
      models.EvalDelta_Bytes := strPtr (Base64 (VD_Bytes kv.2));
      models.EvalDelta_Uint := uint64Ptr (VD_Uint kv.2) |} |}) (order_by d)).

(** [int(i)] of a [uint64]. *)
Definition to_int (i : Z) : Z := if i <? 2 ^ 63 then i else i - 2 ^ 64.

Definition indexPanic : error := ErrPanic "index out of range".
Definition index {A} (l : list A) (i : Z) : result A :=
  if i <? 0 then Err indexPanic
  else match l !! Z.to_nat i with Some x => Ok x | None => Err indexPanic end.

(** [if int(i-1) < len(l) { ... l[i-1] ... }]; [None] when the test fails. *)
Definition index_checked {A} (l : list A) (i : Z) : result (option A) :=
  let j := wrap64 (i - 1) in
  if to_int j <? Z.of_nat (length l) then Some <$> index l j else Ok None.

Section Application.
Context `{SdkOps}.

(** A box reference with an index out of range is left out. *)
Definition box_ref (a : ApplicationCallTxnFields) (v : BoxReference)
    : result (option models.BoxReference) :=
  if BR_ForeignAppIdx v =? 0 then
    Ok (Some {| models.BoxReference_App := 0; models.BoxReference_Name := BR_Name v |})
  else
    app ← index_checked (A_ForeignApps a) (BR_ForeignAppIdx v);
    Ok (option_map (λ app, {| models.BoxReference_App := app;
                              models.BoxReference_Name := BR_Name v |}) app).

(** The address that an index of [Access] stands for: 0 is the sender. *)
Definition access_address (sender : Address) (access : list ResourceRef) (i : Z)
    : result Address :=
  if i =? 0 then Ok sender
  else r ← index_checked access i; Ok (from_option RR_Address zeroAddress r).

(** Only one field of a resource reference is set. *)
Definition resource_ref (sender : Address) (access : list ResourceRef) (v : ResourceRef)
    : result models.ResourceRef :=
  if negb (bool_decide (RR_Address v = zeroAddress)) then
    Ok {| models.ResourceRef_Address := strPtr (AddressString (RR_Address v));
          models.ResourceRef_ApplicationId := None; models.ResourceRef_AssetId := None;
          models.ResourceRef_Box := None; models.ResourceRef_Holding := None;
          models.ResourceRef_Local := None |}
  else if negb (RR_App v =? 0) then
    Ok {| models.ResourceRef_Address := None;
          models.ResourceRef_ApplicationId := uint64Ptr (RR_App v);
          models.ResourceRef_AssetId := None; models.ResourceRef_Box := None;
          models.ResourceRef_Holding := None; models.ResourceRef_Local := None |}
  else if negb (RR_Asset v =? 0) then
    Ok {| models.ResourceRef_Address := None; models.ResourceRef_ApplicationId := None;
          models.ResourceRef_AssetId := uint64Ptr (RR_Asset v); models.ResourceRef_Box := None;
          models.ResourceRef_Holding := None; models.ResourceRef_Local := None |}
  else if negb (RR_Holding_Asset v =? 0) then
    address ← access_address sender access (RR_Holding_Address v);
    asset ← index_checked access (RR_Holding_Asset v);
    Ok {| models.ResourceRef_Address := None; models.ResourceRef_ApplicationId := None;
          models.ResourceRef_AssetId := None; models.ResourceRef_Box := None;
          models.ResourceRef_Holding := Some {|
            models.HoldingRef_Address := AddressString address;
            models.HoldingRef_Asset := from_option RR_Asset 0 asset |};
          models.ResourceRef_Local := None |}
  else if negb (RR_Locals_Address v =? 0) || negb (RR_Locals_App v =? 0) then
    address ← access_address sender access (RR_Locals_Address v);
    app ← (if RR_Locals_App v =? 0 then Ok None else index_checked access (RR_Locals_App v));
    Ok {| models.ResourceRef_Address := None; models.ResourceRef_ApplicationId := None;
          models.ResourceRef_AssetId := None; models.ResourceRef_Box := None;
          models.ResourceRef_Holding := None;
          models.ResourceRef_Local := Some {|
            models.LocalsRef_Address := AddressString address;
            models.LocalsRef_App := from_option RR_App 0 app |} |}
  else
    app ← (if BR_ForeignAppIdx (RR_Box v) =? 0 then Ok None
           else index_checked access (BR_ForeignAppIdx (RR_Box v)));
    Ok {| models.ResourceRef_Address := None; models.ResourceRef_ApplicationId := None;
          models.ResourceRef_AssetId := None;
          models.ResourceRef_Box := Some {|
            models.BoxReference_App := from_option RR_App 0 app;
            models.BoxReference_Name := BR_Name (RR_Box v) |};
          models.ResourceRef_Holding := None; models.ResourceRef_Local := None |}.

Definition state_schema (s : StateSchema) : models.StateSchema := {|
  models.StateSchema_NumByteSlice := NumByteSlice s; models.StateSchema_NumUint := NumUint s |}.

Definition application_fields (txn : Transaction) : result models.TransactionApplication :=
  let a := T_Application txn in
  boxRefs ← map_result (box_ref a) (A_BoxReferences a);
  access ← map_result (resource_ref (Sender txn) (A_Access a)) (A_Access a);
  Ok {|
    models.TransactionApplication_Access := Some access;
    models.TransactionApplication_Accounts := Some (map AddressString (A_Accounts a));
    models.TransactionApplication_ApplicationArgs := Some (map Base64 (A_ApplicationArgs a));
    models.TransactionApplication_ApplicationId := A_ApplicationID a;
    models.TransactionApplication_ApprovalProgram := byteSliceOmitZeroPtr (A_ApprovalProgram a);
    models.TransactionApplication_BoxReferences := Some (omap id boxRefs);
    models.TransactionApplication_ClearStateProgram := byteSliceOmitZeroPtr (A_ClearStateProgram a);
    models.TransactionApplication_ExtraProgramPages := uint64PtrOrNil (A_ExtraProgramPages a);
    models.TransactionApplication_ForeignApps := Some (A_ForeignApps a);
    models.TransactionApplication_ForeignAssets := Some (A_ForeignAssets a);
    models.TransactionApplication_GlobalStateSchema := Some (state_schema (A_GlobalStateSchema a));
    models.TransactionApplication_LocalStateSchema := Some (state_schema (A_LocalStateSchema a));
    models.TransactionApplication_OnCompletion :=
      onCompletionToTransactionOnCompletion (A_OnCompletion a);
    models.TransactionApplication_RejectVersion := uint64PtrOrNil (A_RejectVersion a) |}.
End Application.

(** ** State proofs and heartbeats *)

Definition merkle_proof (p : MerkleProof) : models.MerkleArrayProof := {|
  models.MerkleArrayProof_HashFactory :=
    Some {| models.HashFactory_HashType := uint64Ptr (MP_HashType p) |};
  models.MerkleArrayProof_Path := Some (MP_Path p);
  models.MerkleArrayProof_TreeDepth := uint64Ptr (MP_TreeDepth p) |}.

Definition reveal (key : Z) (r : Reveal) : models.StateProofReveal := {|
  models.StateProofReveal_Participant := Some {|
    models.StateProofParticipant_Verifier := Some {|
      models.StateProofVerifier_Commitment := Some (RV_Commitment r);
      models.StateProofVerifier_KeyLifetime := uint64Ptr (RV_KeyLifetime r) |};
    models.StateProofParticipant_Weight := uint64Ptr (RV_Weight r) |};
  models.StateProofReveal_Position := uint64Ptr key;
  models.StateProofReveal_SigSlot := Some {|
    models.StateProofSigSlot_LowerSigWeight := uint64Ptr (RV_L r);
    models.StateProofSigSlot_Signature := Some {|
      models.StateProofSignature_FalconSignature := Some (RV_Signature r);
      models.StateProofSignature_MerkleArrayIndex := uint64Ptr (RV_VectorCommitmentIndex r);
      models.StateProofSignature_Proof := Some (merkle_proof (RV_Proof r));
      models.StateProofSignature_VerifyingKey := Some (RV_VerifyingKey r) |} |} |}.

Definition state_proof_fields (s : StateProofTxnFields) : models.TransactionStateProof := {|
  models.TransactionStateProof_Message := Some {|
    models.IndexerStateProofMessage_BlockHeadersCommitment := Some (S_BlockHeadersCommitment s);
    models.IndexerStateProofMessage_FirstAttestedRound := uint64Ptr (S_FirstAttestedRound s);
    models.IndexerStateProofMessage_LatestAttestedRound := uint64Ptr (S_LastAttestedRound s);
    models.IndexerStateProofMessage_LnProvenWeight := uint64Ptr (S_LnProvenWeight s);
    models.IndexerStateProofMessage_VotersCommitment := Some (S_VotersCommitment s) |};
  models.TransactionStateProof_StateProof := Some {|
    models.StateProofFields_PartProofs := Some (merkle_proof (S_PartProofs s));
    models.StateProofFields_PositionsToReveal := Some (S_PositionsToReveal s);
    models.StateProofFields_Reveals :=
      Some (map (λ kv, reveal kv.1 kv.2) (order_by (S_Reveals s)));
    models.StateProofFields_SaltVersion := uint64Ptr (S_MerkleSignatureSaltVersion s);
    models.StateProofFields_SigCommit := byteSliceOmitZeroPtr (S_SigCommit s);
    models.StateProofFields_SigProofs := Some (merkle_proof (S_SigProofs s));
    models.StateProofFields_SignedWeight := uint64Ptr (S_SignedWeight s) |};
  models.TransactionStateProof_StateProofType := uint64Ptr (S_StateProofType s) |}.

Section Fields.
Context `{SdkOps} `{UnicodeOps}.

Definition heartbeat_fields (h : HeartbeatTxnFields) : models.TransactionHeartbeat := {|
  models.TransactionHeartbeat_HbAddress := AddressString (HB_HbAddress h);
  models.TransactionHeartbeat_HbKeyDilution := HB_HbKeyDilution h;
  models.TransactionHeartbeat_HbProof := {|
    models.HbProofFields_HbPk := byteSliceOmitZeroPtr (HB_PK h);
    models.HbProofFields_HbPk1sig := byteSliceOmitZeroPtr (HB_PK1Sig h);
    models.HbProofFields_HbPk2 := byteSliceOmitZeroPtr (HB_PK2 h);
    models.HbProofFields_HbPk2sig := byteSliceOmitZeroPtr (HB_PK2Sig h);
    models.HbProofFields_HbSig := byteSliceOmitZeroPtr (HB_Sig h) |};
  models.TransactionHeartbeat_HbSeed := HB_HbSeed h;
  models.TransactionHeartbeat_HbVoteId := HB_HbVoteID h |}.

Definition payment_fields (s : SignedTxnWithAD) : models.TransactionPayment :=
  let p := T_Payment (Txn s) in {|
  models.TransactionPayment_Amount := P_Amount p;
  models.TransactionPayment_CloseAmount := uint64Ptr (AD_ClosingAmount (STAD_ApplyData s));
  models.TransactionPayment_CloseRemainderTo := addrPtr (P_CloseRemainderTo p);
  models.TransactionPayment_Receiver := AddressString (P_Receiver p) |}.

Definition keyreg_fields (k : KeyregTxnFields) : models.TransactionKeyreg := {|
  models.TransactionKeyreg_NonParticipation := boolPtr (K_Nonparticipation k);
  models.TransactionKeyreg_SelectionParticipationKey := byteSliceOmitZeroPtr (K_SelectionPK k);
  models.TransactionKeyreg_StateProofKey := byteSliceOmitZeroPtr (K_StateProofPK k);
  models.TransactionKeyreg_VoteFirstValid := uint64Ptr (K_VoteFirst k);
  models.TransactionKeyreg_VoteKeyDilution := uint64Ptr (K_VoteKeyDilution k);
  models.TransactionKeyreg_VoteLastValid := uint64Ptr (K_VoteLast k);
  models.TransactionKeyreg_VoteParticipationKey := byteSliceOmitZeroPtr (K_VotePK k) |}.

Definition config_params (creator : Address) (ap : AssetParams) : models.AssetParams := {|
  models.AssetParams_Clawback := addrPtr (AP_Clawback ap);
  models.AssetParams_Creator := AddressString creator;
  models.AssetParams_Decimals := AP_Decimals ap;
  models.AssetParams_DefaultFrozen := boolPtr (AP_DefaultFrozen ap);
  models.AssetParams_Freeze := addrPtr (AP_Freeze ap);
  models.AssetParams_Manager := addrPtr (AP_Manager ap);
  models.AssetParams_MetadataHash := byteSliceOmitZeroPtr (AP_MetadataHash ap);
  models.AssetParams_Name := strPtr (PrintableUTF8OrEmpty (AP_AssetName ap));
  models.AssetParams_NameB64 := byteSlicePtr (AP_AssetName ap);
  models.AssetParams_Reserve := addrPtr (AP_Reserve ap);
  models.AssetParams_Total := AP_Total ap;
  models.AssetParams_UnitName := strPtr (PrintableUTF8OrEmpty (AP_UnitName ap));
  models.AssetParams_UnitNameB64 := byteSlicePtr (AP_UnitName ap);
  models.AssetParams_Url := strPtr (PrintableUTF8OrEmpty (AP_URL ap));
  models.AssetParams_UrlB64 := byteSlicePtr (AP_URL ap) |}.

Definition config_fields (txn : Transaction) : models.TransactionAssetConfig := {|
  models.TransactionAssetConfig_AssetId := uint64Ptr (C_ConfigAsset (T_AssetConfig txn));
  models.TransactionAssetConfig_Params :=
    if AssetParams_IsZero (AssetParams_of txn) then None
    else Some (config_params (Sender txn) (AssetParams_of txn)) |}.

Definition transfer_fields (x : AssetTransferTxnFields) (closeAmount : Z)
    : models.TransactionAssetTransfer := {|
  models.TransactionAssetTransfer_Amount := X_AssetAmount x;
  models.TransactionAssetTransfer_AssetId := X_XferAsset x;
  models.TransactionAssetTransfer_CloseAmount := uint64Ptr closeAmount;
  models.TransactionAssetTransfer_CloseTo := addrPtr (X_AssetCloseTo x);
  models.TransactionAssetTransfer_Receiver := AddressString (X_AssetReceiver x);
  models.TransactionAssetTransfer_Sender := addrPtr (X_AssetSender x) |}.

Definition freeze_fields (f : AssetFreezeTxnFields) : models.TransactionAssetFreeze := {|
  models.TransactionAssetFreeze_Address := AddressString (F_FreezeAccount f);
  models.TransactionAssetFreeze_AssetId := F_FreezeAsset f;
  models.TransactionAssetFreeze_NewFreezeStatus := F_AssetFrozen f |}.
End Fields.

(** ** Local state deltas *)

(** An index into the sender, the accounts of the transaction and the shared
    accounts. *)
Definition edIndexToAddress (i : Z) (txn : Transaction) (shared : list Address)
    : result Address :=
  let accounts := A_Accounts (T_Application txn) in
  let j := wrap64 (i - 1) in
  if i =? 0 then Ok (Sender txn)
  else if to_int j <? Z.of_nat (length accounts) then index accounts j
  else if to_int j - Z.of_nat (length accounts) <? Z.of_nat (length shared) then
    index shared (to_int j - Z.of_nat (length accounts))
  else Err (ErrMsg "invalid Account Index %d in LocalDelta").

Section LocalDeltas.
Context `{SdkOps} `{MapRange}.

Definition account_delta (deltas : gmap Z StateDelta) (k : Z * Address)
    : option models.AccountStateDelta :=
  option_map (λ delta, {| models.AccountStateDelta_Address := AddressString k.2;
                          models.AccountStateDelta_Delta := delta |})
    (stateDeltaToStateDelta (default None (deltas !! k.1))).

(** The addresses are looked up in the order in which [range] visits the keys, the
    keys are sorted after that. *)
Definition local_state_delta (txn : Transaction) (ed : EvalDeltaT)
    : result (option (list models.AccountStateDelta)) :=
  let deltas : gmap Z StateDelta := default ∅ (ED_LocalDeltas ed) in
  if bool_decide (size deltas = 0%nat) then Ok None
  else
    keys ← map_result (λ kv, addr ← edIndexToAddress kv.1 txn (ED_SharedAccts ed);
                             Ok (kv.1, addr)) (range_map deltas);
    Ok (Some (omap (account_delta deltas) (order_by (list_to_map keys : gmap Z Address)))).
End LocalDeltas.

(** ** Transactions *)

(** A subset of the fields of [idb.TxnRow]. *)
Record rowData := {
  RD_Round : Z; RD_RoundTime : Z; RD_Intra : Z; RD_AssetID : Z; RD_AssetCloseAmount : Z }.

(** The fields of an inner transaction: the index it created is in its apply data. *)
Definition inner_row (extra : rowData) (t : SignedTxnWithAD) : rowData := {|
  RD_Round := RD_Round extra; RD_RoundTime := RD_RoundTime extra; RD_Intra := RD_Intra extra;
  RD_AssetID :=
    if bool_decide (T_Type (Txn t) = ApplicationCallTx) then AD_ApplicationID (STAD_ApplyData t)
    else if bool_decide (T_Type (Txn t) = AssetConfigTx) then AD_ConfigAsset (STAD_ApplyData t)
    else 0;
  RD_AssetCloseAmount := AD_AssetClosingAmount (STAD_ApplyData t) |}.

(** The fields [v], set only when the transaction has the type [ty]. *)
Definition when_type {A} (s : SignedTxnWithAD) (ty : string) (v : A) : option A :=
  if bool_decide (T_Type (Txn s) = ty) then Some v else None.

Section Transactions.
Context `{SdkOps} `{UnicodeOps} `{MapRange}.

(** The composite literal at the end of the function, and the two assignments after
    it. *)
Definition transaction_model (stxn : SignedTxnWithAD) (extra : rowData)
    (application : option models.TransactionApplication)
    (localStateDelta : option (list models.AccountStateDelta))
    (inners : option (list models.Transaction)) : models.Transaction :=
  let st := STAD_SignedTxn stxn in
  let ad := STAD_ApplyData stxn in
  let txn := ST_Txn st in
  let hd := T_Header txn in {|
  models.Transaction_ApplicationTransaction := application;
  models.Transaction_AssetConfigTransaction := when_type stxn AssetConfigTx (config_fields txn);
  models.Transaction_AssetFreezeTransaction :=
    when_type stxn AssetFreezeTx (freeze_fields (T_AssetFreeze txn));
  models.Transaction_AssetTransferTransaction :=
    when_type stxn AssetTransferTx
      (transfer_fields (T_AssetTransfer txn) (RD_AssetCloseAmount extra));
  models.Transaction_AuthAddr := addrPtr (ST_AuthAddr st);
  models.Transaction_CloseRewards := uint64Ptr (AD_CloseRewards ad);
  models.Transaction_ClosingAmount := uint64Ptr (AD_ClosingAmount ad);
  models.Transaction_ConfirmedRound := uint64Ptr (RD_Round extra);
  models.Transaction_CreatedApplicationIndex :=
    if bool_decide (T_Type txn = ApplicationCallTx) then
      match application with
      | Some a =>
          if models.TransactionApplication_ApplicationId a =? 0 then uint64Ptr (RD_AssetID extra)
          else None
      | None => None
      end
    else None;
  models.Transaction_CreatedAssetIndex :=
    if bool_decide (T_Type txn = AssetConfigTx) then
      match models.TransactionAssetConfig_AssetId (config_fields txn) with
      | Some n => if n =? 0 then uint64Ptr (RD_AssetID extra) else None
      | None => None
      end
    else None;
  models.Transaction_Fee := H_Fee hd;
  models.Transaction_FirstValid := H_FirstValid hd;
  models.Transaction_GenesisHash := byteSliceOmitZeroPtr (H_GenesisHash hd);
  models.Transaction_GenesisId := strPtr (H_GenesisID hd);
  models.Transaction_GlobalStateDelta := stateDeltaToStateDelta (ED_GlobalDelta (AD_EvalDelta ad));
  models.Transaction_Group := byteSliceOmitZeroPtr (H_Group hd);
  models.Transaction_HeartbeatTransaction :=
    when_type stxn HeartbeatTx (heartbeat_fields (T_Heartbeat txn));
  models.Transaction_Id := None;
  models.Transaction_InnerTxns := inners;
  models.Transaction_IntraRoundOffset := uint64Ptr (RD_Intra extra);
  models.Transaction_KeyregTransaction :=
    when_type stxn KeyRegistrationTx (keyreg_fields (T_Keyreg txn));
  models.Transaction_LastValid := H_LastValid hd;
  models.Transaction_Lease := byteSliceOmitZeroPtr (H_Lease hd);
  models.Transaction_LocalStateDelta := localStateDelta;
  models.Transaction_Logs :=
    match slice (ED_Logs (AD_EvalDelta ad)) with [] => None | logs => Some logs end;
  models.Transaction_Note := byteSliceOmitZeroPtr (H_Note hd);
  models.Transaction_PaymentTransaction := when_type stxn PaymentTx (payment_fields stxn);
  models.Transaction_ReceiverRewards := uint64Ptr (AD_ReceiverRewards ad);
  models.Transaction_RekeyTo := addrPtr (H_RekeyTo hd);
  models.Transaction_RoundTime := uint64Ptr (wrap64 (RD_RoundTime extra));
  models.Transaction_Sender := AddressString (H_Sender hd);
  models.Transaction_SenderRewards := uint64Ptr (AD_SenderRewards ad);
  models.Transaction_Signature := None;
  models.Transaction_StateProofTransaction :=
    when_type stxn StateProofTx (state_proof_fields (T_StateProof txn));
  models.Transaction_TxType := T_Type txn |}.

(** The inner transactions are converted in order; the first error ends the loop. *)
Fixpoint signedTxnWithAdToTransaction (stxn : SignedTxnWithAD) (extra : rowData)
    : result models.Transaction :=
  match stxn with
  | StxnAD st ad =>
      application ←
        (if bool_decide (T_Type (ST_Txn st) = ApplicationCallTx)
         then a ← application_fields (ST_Txn st); Ok (Some a) else Ok None);
      localStateDelta ← local_state_delta (ST_Txn st) (AD_EvalDelta ad);
      inners ←
        match ED_InnerTxns (AD_EvalDelta ad) with
        | None | Some [] => Ok None
        | Some inner =>
            itxns ← map_result (λ t, signedTxnWithAdToTransaction t (inner_row extra t)) inner;
            Ok (Some itxns)
        end;
      Ok (transaction_model stxn extra application localStateDelta inners)
  end.

(** [Time.Unix] of a [time.Time]. *)
Definition unix (t : Time) : Z := from_option Time_Unix (-62135596800) t.

(** When the row has a root transaction, the result is the root transaction. *)
Definition txnRowToTransaction (row : TxnRow) : result models.Transaction :=
  match TR_Error row with
  | Some err => Err err
  | None =>
      stxn ← match TR_RootTxn row, TR_Txn row with
             | Some _, Some _ => Err (ErrMsg "%d:%d Txn and RootTxn should be mutually exclusive")
             | _, Some t => Ok t
             | Some r, None => Ok r
             | None, None => Err (ErrMsg "%d:%d transaction bytes missing")
             end;
      let rootIntra := RootIntra (TR_Extra row) in
      let extra := {|
        RD_Round := TR_Round row; RD_RoundTime := unix (TR_RoundTime row);
        RD_Intra := if OU_Present rootIntra then OU_Value rootIntra else wrap64 (TR_Intra row);
        RD_AssetID := TR_AssetID row;
        RD_AssetCloseAmount := AssetCloseAmount (TR_Extra row) |} in
      match signedTxnWithAdToTransaction stxn extra with
      | Err (ErrPanic what) => Err (ErrPanic what)
      | Err err => Err (ErrWrap "txnRowToTransaction(): failure converting signed transaction to response" err)
      | Ok txn =>
          let st := STAD_SignedTxn stxn in
          let txid := if OU_Present rootIntra then RootTxid (TR_Extra row)
                      else TransactionIDString (ST_Txn st) in
          Ok (models.set_Transaction_Signature (models.set_Transaction_Id txn (Some txid))
                (Some {| models.TransactionSignature_Logicsig := lsigToTransactionLsig (ST_Lsig st);
                         models.TransactionSignature_Multisig := msigToTransactionMsig (ST_Msig st);
                         models.TransactionSignature_Sig := sigToTransactionSig (ST_Sig st) |}))
      end
  end.
End Transactions.

(** ** Blocks *)

Section Blocks.
Context `{SdkOps}.

Definition tracking_model (ty : Z) (d : StateProofTrackingData) : models.StateProofTracking := {|
  models.StateProofTracking_NextRound := uint64Ptr (SPT_NextRound d);
  models.StateProofTracking_OnlineTotalWeight := uint64Ptr (SPT_OnlineTotalWeight d);
  models.StateProofTracking_Type := uint64Ptr ty;
  models.StateProofTracking_VotersCommitment := byteSliceOmitZeroPtr (SPT_VotersCommitment d) |}.

Definition tracking0 : models.StateProofTracking := {|
  models.StateProofTracking_NextRound := None; models.StateProofTracking_OnlineTotalWeight := None;
  models.StateProofTracking_Type := None; models.StateProofTracking_VotersCommitment := None |}.

(** [trackingArray[type] = ...] for the types in ascending order, in an array with one
    element per entry of the map. *)
Fixpoint fill_tracking (types : list (Z * StateProofTrackingData))
    (array : list models.StateProofTracking) : result (list models.StateProofTracking) :=
  match types with
  | [] => Ok array
  | (ty, d) :: types =>
      if ty <? Z.of_nat (length array) then
        fill_tracking types (<[Z.to_nat ty := tracking_model ty d]> array)
      else Err indexPanic
  end.

Definition tracking_array (m : gmap Z StateProofTrackingData)
    : result (list models.StateProofTracking) :=
  fill_tracking (order_by m) (replicate (size m) tracking0).

Definition addresses_ptr (accounts : option (list Address)) : option (list string) :=
  match slice accounts with [] => None | l => strArrayPtr (map AddressString l) end.

Definition participation_updates (h : BlockHeader) : option models.ParticipationUpdates :=
  let u := {|
    models.ParticipationUpdates_AbsentParticipationAccounts :=
      addresses_ptr (BH_AbsentParticipationAccounts h);
    models.ParticipationUpdates_ExpiredParticipationAccounts :=
      addresses_ptr (BH_ExpiredParticipationAccounts h) |} in
  match models.ParticipationUpdates_AbsentParticipationAccounts u,
        models.ParticipationUpdates_ExpiredParticipationAccounts u with
  | None, None => None
  | _, _ => Some u
  end.

(** The block of a header, with the transactions that the caller adds. *)
Definition block_model (h : BlockHeader) (tracking : list models.StateProofTracking)
    (transactions : option (list models.Transaction)) : models.Block := {|
  models.Block_Bonus := uint64PtrOrNil (BH_Bonus h);
  models.Block_FeesCollected := uint64PtrOrNil (BH_FeesCollected h);
  models.Block_GenesisHash := BH_GenesisHash h;
  models.Block_GenesisId := BH_GenesisID h;
  models.Block_ParticipationUpdates := participation_updates h;
  models.Block_PreviousBlockHash := BH_Branch h;
  models.Block_PreviousBlockHash512 := byteSliceOmitZeroPtr (BH_Branch512 h);
  models.Block_Proposer := addrPtr (BH_Proposer h);
  models.Block_ProposerPayout := uint64PtrOrNil (BH_ProposerPayout h);
  models.Block_Rewards := Some {|
    models.BlockRewards_FeeSink := AddressString (BH_FeeSink h);
    models.BlockRewards_RewardsCalculationRound := BH_RewardsRecalculationRound h;
    models.BlockRewards_RewardsLevel := BH_RewardsLevel h;
    models.BlockRewards_RewardsPool := AddressString (BH_RewardsPool h);
    models.BlockRewards_RewardsRate := BH_RewardsRate h;
    models.BlockRewards_RewardsResidue := BH_RewardsResidue h |};
  models.Block_Round := BH_Round h;
  models.Block_Seed := BH_Seed h;
  models.Block_StateProofTracking := Some tracking;
  models.Block_Timestamp := wrap64 (BH_TimeStamp h);
  models.Block_Transactions := transactions;
  models.Block_TransactionsRoot := BH_NativeSha512_256Commitment h;
  models.Block_TransactionsRootSha256 := BH_Sha256Commitment h;
  models.Block_TransactionsRootSha512 := byteSliceOmitZeroPtr (BH_Sha512Commitment h);
  models.Block_TxnCounter := uint64Ptr (BH_TxnCounter h);
  models.Block_UpgradeState := Some {|
    models.BlockUpgradeState_CurrentProtocol := BH_CurrentProtocol h;
    models.BlockUpgradeState_NextProtocol := strPtr (BH_NextProtocol h);
    models.BlockUpgradeState_NextProtocolApprovals := uint64Ptr (BH_NextProtocolApprovals h);
    models.BlockUpgradeState_NextProtocolSwitchOn := uint64Ptr (BH_NextProtocolSwitchOn h);
    models.BlockUpgradeState_NextProtocolVoteBefore := uint64Ptr (BH_NextProtocolVoteBefore h) |};
  models.Block_UpgradeVote := Some {|
    models.BlockUpgradeVote_UpgradeApprove := boolPtr (BH_UpgradeApprove h);
    models.BlockUpgradeVote_UpgradeDelay := uint64Ptr (BH_UpgradeDelay h);
    models.BlockUpgradeVote_UpgradePropose := strPtr (BH_UpgradePropose h) |} |}.

Definition hdrRowToBlock (row : BlockRow) : result models.Block :=
  tracking ← tracking_array (BH_StateProofTracking (BKR_BlockHeader row));
  Ok (block_model (BKR_BlockHeader row) tracking None).
End Blocks.

(** ** Lists of fallible conversions *)

Lemma map_result_Ok {A B} (f : A -> result B) l ys :
  map_result f l = Ok ys <-> Forall2 (λ x y, f x = Ok y) l ys.
Proof.
  revert ys. induction l as [|x l IH]; intros ys; cbn.
  - split; [by intros [= <-]|]. by intros H%Forall2_nil_inv_l; subst.
  - split.
    + destruct (f x) as [y|] eqn:E; cbn; [|done].
      destruct (map_result f l) as [ys'|]; cbn; [|done]. intros [= <-].
      constructor; [done|]. by apply IH.
    + intros (y & ys' & Hy & Hys & ->)%Forall2_cons_inv_l.
      rewrite Hy. cbn. apply IH in Hys. by rewrite Hys.
Qed.

Lemma map_result_total {A B} (f : A -> result B) l :
  Forall (λ x, exists y, f x = Ok y) l -> exists ys, map_result f l = Ok ys.
Proof.
  induction 1 as [|x l [y Hy] _ [ys IH]]; [by exists []|].
  exists (y :: ys). cbn. by rewrite Hy, IH.
Qed.

(** ** Accounts of local state deltas *)

(** The list that the indices of [LocalDeltas] refer to. *)
Definition delta_accounts (txn : Transaction) (shared : list Address) : list Address :=
  Sender txn :: A_Accounts (T_Application txn) ++ shared.

Lemma to_int_small i : 0 <= i < 2 ^ 63 -> to_int i = i.
Proof. intros Hi. unfold to_int. destruct (Z.ltb_spec i (2 ^ 63)); lia. Qed.

Lemma index_nat {A} (l : list A) n x : l !! n = Some x -> index l (Z.of_nat n) = Ok x.
Proof.
  intros Hl. unfold index. rewrite Nat2Z.id, Hl. by destruct (Z.ltb_spec (Z.of_nat n) 0); [lia|].
Qed.

Lemma edIndexToAddress_spec i txn shared :
  0 <= i < 2 ^ 63 ->
  edIndexToAddress i txn shared =
    match delta_accounts txn shared !! Z.to_nat i with
    | Some addr => Ok addr
    | None => Err (ErrMsg "invalid Account Index %d in LocalDelta")
    end.
Proof.
  intros Hi. unfold edIndexToAddress, delta_accounts. set (l := A_Accounts (T_Application txn)).
  destruct (Z.eqb_spec i 0) as [->|Hnz]; [done|].
  assert (wrap64 (i - 1) = i - 1) as -> by (apply Z.mod_small; lia).
  rewrite to_int_small by lia. destruct (Z.to_nat i) as [|n] eqn:En; [lia|].
  assert ((Sender txn :: l ++ shared) !! S n = (l ++ shared) !! n) as -> by done.
  assert (i - 1 = Z.of_nat n) as -> by lia.
  destruct (Z.ltb_spec (Z.of_nat n) (Z.of_nat (length l))) as [Hl|Hl].
  - rewrite lookup_app_l by lia. destruct (lookup_lt_is_Some_2 l n) as [x Hx]; [lia|].
    rewrite Hx. by apply index_nat.
  - rewrite lookup_app_r by lia.
    assert (Z.of_nat n - Z.of_nat (length l) = Z.of_nat (n - length l)) as -> by lia.
    destruct (Z.ltb_spec (Z.of_nat (n - length l)) (Z.of_nat (length shared))) as [Hs|Hs].
    + destruct (lookup_lt_is_Some_2 shared (n - length l)) as [x Hx]; [lia|].
      rewrite Hx. by apply index_nat.
    + by rewrite lookup_ge_None_2 by lia.
Qed.

(** The account of a local state delta: the index counts through the sender, the
    accounts of the transaction and the shared accounts, in this order; an index past
    the end is an error, not an account. *)
Theorem edIndexToAddress_lookup i txn shared :
  0 <= i < 2 ^ 63 ->
  edIndexToAddress i txn shared =
    match delta_accounts txn shared !! Z.to_nat i with
    | Some addr => Ok addr
    | None => Err (ErrMsg "invalid Account Index %d in LocalDelta")
    end.
Proof. apply edIndexToAddress_spec. Qed.

(** ** The tree of inner transactions *)

(** What a reader of the API identifies a transaction by, with those below it. *)
#[local] Unset Elimination Schemes.
Inductive tree := Node (ty sender : string) (fee first last : Z) (below : list tree).
#[local] Set Elimination Schemes.

Fixpoint stored_tree `{SdkOps} (s : SignedTxnWithAD) : tree :=
  match s with
  | StxnAD st ad =>
      let t := ST_Txn st in
      Node (T_Type t) (AddressString (H_Sender (T_Header t))) (H_Fee (T_Header t))
        (H_FirstValid (T_Header t)) (H_LastValid (T_Header t))
        match ED_InnerTxns (AD_EvalDelta ad) with
        | Some inner => map stored_tree inner
        | None => []
        end
  end.

Fixpoint shown_tree (t : models.Transaction) : tree :=
  Node (models.Transaction_TxType t) (models.Transaction_Sender t) (models.Transaction_Fee t)
    (models.Transaction_FirstValid t) (models.Transaction_LastValid t)
    match models.Transaction_InnerTxns t with
    | Some inner => map shown_tree inner
    | None => []
    end.

Section TreeTheorem.
Context `{SdkOps} `{UnicodeOps} `{MapRange}.

(** One step of the conversion, as an equation. *)
Lemma signedTxnWithAdToTransaction_inv s extra txn :
  signedTxnWithAdToTransaction s extra = Ok txn ->
  exists application delta inners,
    txn = transaction_model s extra application delta inners /\
    (T_Type (Txn s) = ApplicationCallTx <-> is_Some application) /\
    Forall2 (λ t m, signedTxnWithAdToTransaction t (inner_row extra t) = Ok m)
      (InnerTxns s) (default [] inners).
Proof.
  destruct s as [st ad]. cbn [signedTxnWithAdToTransaction].
  unfold Txn, InnerTxns. cbn [STAD_SignedTxn STAD_ApplyData].
  destruct (decide (T_Type (ST_Txn st) = ApplicationCallTx)) as [E|E].
  1: rewrite bool_decide_eq_true_2 by done; destruct (application_fields _) as [a|]; [|done].
  2: rewrite bool_decide_eq_false_2 by done.
  all: cbn [mbind result_bind]; destruct (local_state_delta _ _) as [delta|]; [|done].
  all: cbn [mbind result_bind]; destruct (ED_InnerTxns (AD_EvalDelta ad)) as [[|i l]|]; cbn [slice].
  all: cbn [mbind result_bind]; try (intros [= <-]; eexists _, delta, None; split_and!; [done| |constructor];
         first [by split; [|intros [? [=]]] | split; [by eexists|done]]).
  all: destruct (map_result _ (i :: l)) as [ms|] eqn:Em; [|done]; intros [= <-];
       eexists _, delta, (Some ms); split_and!; [done| |by apply map_result_Ok in Em].
  - split; [by eexists|done].
  - by split; [|intros [? [=]]].
Qed.

Lemma conversion_tree s extra txn :
  signedTxnWithAdToTransaction s extra = Ok txn -> shown_tree txn = stored_tree s.
Proof.
  revert extra txn. induction s as [s IH] using SignedTxnWithAD_rect_inner. intros extra txn.
  intros (application & delta & inners & -> & _ & Hin)%signedTxnWithAdToTransaction_inv.
  destruct s as [st ad]. cbn [shown_tree stored_tree transaction_model STAD_SignedTxn STAD_ApplyData
    models.Transaction_TxType models.Transaction_Sender models.Transaction_Fee
    models.Transaction_FirstValid models.Transaction_LastValid models.Transaction_InnerTxns].
  f_equal. unfold InnerTxns in *. cbn [STAD_ApplyData] in *.
  assert (map shown_tree (default [] inners) =
          map stored_tree (slice (ED_InnerTxns (AD_EvalDelta ad)))) as Heq.
  { revert Hin. generalize (default [] inners). induction IH as [|t l Ht _ IHl]; intros ms Hms.
    - by apply Forall2_nil_inv_l in Hms as ->.
    - apply Forall2_cons_inv_l in Hms as (m & ms' & Hm & Hms & ->). cbn.
      by rewrite (Ht _ _ Hm), (IHl _ Hms). }
  destruct inners, (ED_InnerTxns (AD_EvalDelta ad)); done.
Qed.

(** C16. The conversion keeps the tree of inner transactions: the same transactions, of
    the same types and senders, in the same order, at every level. *)
Theorem conversion_keeps_tree s extra txn :
  signedTxnWithAdToTransaction s extra = Ok txn -> shown_tree txn = stored_tree s.
Proof. apply conversion_tree. Qed.

(** When a search matches an inner transaction, the root transaction is shown with the asset
    column of the inner row: a call that creates an application is shown to have created
    whatever asset or application the inner transaction is about, 0 for a payment. *)
Theorem created_application_of_match row s t :
  TR_Error row = None -> TR_Txn row = None -> TR_RootTxn row = Some s ->
  T_Type (Txn s) = ApplicationCallTx -> A_ApplicationID (T_Application (Txn s)) = 0 ->
  txnRowToTransaction row = Ok t ->
  models.Transaction_CreatedApplicationIndex t = Some (TR_AssetID row).
Proof.
  intros He Hn Hr Hty Happ. unfold txnRowToTransaction. rewrite He, Hn, Hr. cbn [mbind result_bind].
  set (extra := {| RD_Round := _ |}).
  destruct (signedTxnWithAdToTransaction s extra) as [t'|e] eqn:Ht; [|by destruct e].
  intros [= <-]. change (models.Transaction_CreatedApplicationIndex t' = Some (TR_AssetID row)).
  destruct s as [st ad]. unfold Txn in *. cbn [STAD_SignedTxn] in *. cbn [signedTxnWithAdToTransaction] in Ht.
  rewrite bool_decide_eq_true_2 in Ht by done. unfold application_fields in Ht.
  destruct (map_result (box_ref _) _); [|done]. cbn [mbind result_bind] in Ht.
  destruct (map_result (resource_ref _ _) _); [|done]. cbn [mbind result_bind] in Ht.
  destruct (local_state_delta _ _); [|done]. cbn [mbind result_bind] in Ht.
  match type of Ht with context [_ ← ?inners; Ok _] => destruct inners; [|done] end.
  injection Ht as <-.
  unfold transaction_model. cbn. rewrite bool_decide_eq_true_2 by done. by rewrite Happ.
Qed.

(** ** One object of fields per type *)

(** The objects of a transaction that are set, by type. *)
Definition set_kind {A} (ty : string) (o : option A) : list string :=
  match o with Some _ => [ty] | None => [] end.

Definition kinds_set (t : models.Transaction) : list string :=
  set_kind PaymentTx (models.Transaction_PaymentTransaction t) ++
  set_kind KeyRegistrationTx (models.Transaction_KeyregTransaction t) ++
  set_kind AssetConfigTx (models.Transaction_AssetConfigTransaction t) ++
  set_kind AssetTransferTx (models.Transaction_AssetTransferTransaction t) ++
  set_kind AssetFreezeTx (models.Transaction_AssetFreezeTransaction t) ++
  set_kind ApplicationCallTx (models.Transaction_ApplicationTransaction t) ++
  set_kind StateProofTx (models.Transaction_StateProofTransaction t) ++
  set_kind HeartbeatTx (models.Transaction_HeartbeatTransaction t).

Definition known_types : list string :=
  [PaymentTx; KeyRegistrationTx; AssetConfigTx; AssetTransferTx; AssetFreezeTx;
   ApplicationCallTx; StateProofTx; HeartbeatTx].

(** A transaction carries the object of its own type and no other, a created index only
    if its type creates one, and so do the transactions below it. *)
#[local] Unset Elimination Schemes.
Inductive well_typed (t : models.Transaction) : Prop :=
| Well_typed :
    kinds_set t = filter (.= models.Transaction_TxType t) known_types ->
    (is_Some (models.Transaction_CreatedAssetIndex t) ->
       models.Transaction_TxType t = AssetConfigTx) ->
    (is_Some (models.Transaction_CreatedApplicationIndex t) ->
       models.Transaction_TxType t = ApplicationCallTx) ->
    Forall well_typed (default [] (models.Transaction_InnerTxns t)) ->
    well_typed t.
#[local] Set Elimination Schemes.

Lemma set_kind_when_type {A} s ty (v : A) :
  set_kind ty (when_type s ty v) = filter (.= T_Type (Txn s)) [ty].
Proof.
  unfold when_type. rewrite filter_cons, filter_nil.
  destruct (decide (T_Type (Txn s) = ty)) as [E|E].
  - rewrite bool_decide_eq_true_2 by done. by rewrite decide_True.
  - rewrite bool_decide_eq_false_2 by done. by rewrite decide_False.
Qed.

Lemma set_kind_is_Some {A} (o : option A) ty ty' :
  (ty = ty' <-> is_Some o) -> set_kind ty' o = filter (.= ty) [ty'].
Proof.
  intros Ho. rewrite filter_cons, filter_nil. destruct o as [x|].
  - rewrite decide_True; [done|]. symmetry. apply Ho. by eexists.
  - rewrite decide_False; [done|]. intros E. symmetry in E. by apply Ho in E as [? [=]].
Qed.

Lemma converted_typed s extra txn :
  signedTxnWithAdToTransaction s extra = Ok txn -> well_typed txn.
Proof.
  revert extra txn. induction s as [s IH] using SignedTxnWithAD_rect_inner. intros extra txn.
  intros (application & delta & inners & -> & Happ & Hin)%signedTxnWithAdToTransaction_inv.
  constructor; unfold transaction_model; cbn.
  - unfold kinds_set. cbn. rewrite !set_kind_when_type, (set_kind_is_Some _ _ _ Happ).
    rewrite <- !filter_app. done.
  - case_bool_decide as E; [done|]. by intros [? [=]].
  - case_bool_decide as E; [done|]. by intros [? [=]].
  - revert Hin. generalize (default [] inners). induction IH as [|t l Ht _ IHl]; intros ms Hms.
    + by apply Forall2_nil_inv_l in Hms as ->.
    + apply Forall2_cons_inv_l in Hms as (m & ms' & Hm & Hms & ->).
      constructor; [by eapply Ht|by apply IHl].
Qed.

(** C17. A converted transaction is well typed: it has exactly the object of fields of its
    type, at every level of inner transactions. *)
Theorem converted_well_typed s extra txn :
  signedTxnWithAdToTransaction s extra = Ok txn -> well_typed txn.
Proof. apply converted_typed. Qed.
End TreeTheorem.

(** ** When a conversion succeeds *)

(** An index that the code subtracts one from and converts to [int]. *)
Definition index_ok (i : Z) : Prop := 0 <= i <= 2 ^ 63.

Definition access_ok (v : ResourceRef) : Prop :=
  index_ok (RR_Holding_Address v) /\ index_ok (RR_Holding_Asset v) /\
  index_ok (RR_Locals_Address v) /\ index_ok (RR_Locals_App v) /\
  index_ok (BR_ForeignAppIdx (RR_Box v)).

(** The indices of an application call are [int]s, and those of the local deltas name
    accounts, at every level. *)
#[local] Unset Elimination Schemes.
Inductive well_indexed (s : SignedTxnWithAD) : Prop :=
| Well_indexed :
    let a := T_Application (Txn s) in
    let ed := AD_EvalDelta (STAD_ApplyData s) in
    Forall (λ v, index_ok (BR_ForeignAppIdx v)) (A_BoxReferences a) ->
    Forall access_ok (A_Access a) ->
    (forall i, i ∈ dom (default ∅ (ED_LocalDeltas ed)) ->
       0 <= i < Z.min (2 ^ 63) (Z.of_nat (length (delta_accounts (Txn s) (ED_SharedAccts ed))))) ->
    Forall well_indexed (InnerTxns s) ->
    well_indexed s.
#[local] Set Elimination Schemes.

Lemma index_checked_total {A} (l : list A) i :
  index_ok i -> i <> 0 -> exists o, index_checked l i = Ok o.
Proof.
  intros Hi Hnz. unfold index_checked, index_ok in *.
  assert (wrap64 (i - 1) = i - 1) as -> by (apply Z.mod_small; lia).
  rewrite to_int_small by lia.
  destruct (Z.ltb_spec (i - 1) (Z.of_nat (length l))) as [Hl|Hl]; [|by eexists].
  destruct (lookup_lt_is_Some_2 l (Z.to_nat (i - 1))) as [x Hx]; [lia|].
  assert (i - 1 = Z.of_nat (Z.to_nat (i - 1))) as -> by lia.
  rewrite (index_nat _ _ _ Hx). by eexists.
Qed.

Section Total.
Context `{SdkOps} `{UnicodeOps} `{MapRange}.

Lemma box_ref_total a v : index_ok (BR_ForeignAppIdx v) -> exists o, box_ref a v = Ok o.
Proof.
  intros Hi. unfold box_ref. destruct (Z.eqb_spec (BR_ForeignAppIdx v) 0); [by eexists|].
  destruct (index_checked_total (A_ForeignApps a) _ Hi) as [o ->]; [done|]. by eexists.
Qed.

Lemma access_address_total sender access i :
  index_ok i -> exists a, access_address sender access i = Ok a.
Proof.
  intros Hi. unfold access_address. destruct (Z.eqb_spec i 0); [by eexists|].
  destruct (index_checked_total access i Hi) as [o ->]; [done|]. by eexists.
Qed.

Lemma resource_ref_total sender access v :
  access_ok v -> exists r, resource_ref sender access v = Ok r.
Proof.
  intros (Hha & Hhs & Hla & Hlp & Hb). unfold resource_ref.
  destruct (negb (bool_decide _)); [by eexists|].
  destruct (negb (RR_App v =? 0)); [by eexists|].
  destruct (negb (RR_Asset v =? 0)); [by eexists|].
  destruct (Z.eqb_spec (RR_Holding_Asset v) 0) as [_|Hnz]; cbn [negb].
  2:{ destruct (access_address_total sender access _ Hha) as [a ->].
      destruct (index_checked_total access _ Hhs Hnz) as [o ->]. by eexists. }
  destruct (negb (RR_Locals_Address v =? 0) || negb (RR_Locals_App v =? 0)).
  - destruct (access_address_total sender access _ Hla) as [a ->].
    destruct (Z.eqb_spec (RR_Locals_App v) 0) as [_|Hnz]; [by eexists|].
    destruct (index_checked_total access _ Hlp Hnz) as [o ->]. by eexists.
  - destruct (Z.eqb_spec (BR_ForeignAppIdx (RR_Box v)) 0) as [_|Hnz]; [by eexists|].
    destruct (index_checked_total access _ Hb Hnz) as [o ->]. by eexists.
Qed.

Lemma application_fields_total txn :
  Forall (λ v, index_ok (BR_ForeignAppIdx v)) (A_BoxReferences (T_Application txn)) ->
  Forall access_ok (A_Access (T_Application txn)) ->
  exists a, application_fields txn = Ok a.
Proof.
  intros Hb Ha. unfold application_fields.
  destruct (map_result_total (box_ref (T_Application txn)) (A_BoxReferences (T_Application txn)))
    as [bs ->]; [by eapply Forall_impl; [exact Hb|]; intros v; apply box_ref_total|].
  destruct (map_result_total (resource_ref (Sender txn) (A_Access (T_Application txn)))
              (A_Access (T_Application txn))) as [rs ->]; [|by eexists].
  eapply Forall_impl; [exact Ha|]. intros v. apply resource_ref_total.
Qed.

Lemma local_state_delta_total txn (ed : EvalDeltaT) :
  (forall i, i ∈ dom (default ∅ (ED_LocalDeltas ed)) ->
     0 <= i < Z.min (2 ^ 63) (Z.of_nat (length (delta_accounts txn (ED_SharedAccts ed))))) ->
  exists d, local_state_delta txn ed = Ok d.
Proof.
  intros Hi. unfold local_state_delta. case_bool_decide; [by eexists|].
  destruct (map_result_total (λ kv : Z * StateDelta,
      addr ← edIndexToAddress kv.1 txn (ED_SharedAccts ed); Ok (kv.1, addr))
      (range_map (default ∅ (ED_LocalDeltas ed)))) as [ks ->]; [|by eexists].
  apply Forall_forall. intros [i v] Hin%list_elem_of_In%list_elem_of_In.
  rewrite range_map_perm, elem_of_map_to_list in Hin.
  specialize (Hi i (proj2 (elem_of_dom _ _) (mk_is_Some _ _ Hin))). cbn [fst].
  rewrite edIndexToAddress_spec by lia.
  destruct (lookup_lt_is_Some_2 (delta_accounts txn (ED_SharedAccts ed)) (Z.to_nat i)) as [a ->];
    [lia|]. by eexists.
Qed.

Lemma conversion_defined s extra :
  well_indexed s -> exists txn, signedTxnWithAdToTransaction s extra = Ok txn.
Proof.
  revert extra. induction s as [s IH] using SignedTxnWithAD_rect_inner. intros extra Hs.
  destruct Hs as [a ed Hb Ha Hd Hin]. destruct s as [st ad].
  cbn [signedTxnWithAdToTransaction]. subst a ed. unfold Txn, InnerTxns in *.
  cbn [STAD_SignedTxn STAD_ApplyData] in *.
  destruct (application_fields_total _ Hb Ha) as [app ->].
  destruct (local_state_delta_total _ _ Hd) as [delta ->].
  assert (exists ms, map_result (λ t, signedTxnWithAdToTransaction t (inner_row extra t))
            (slice (ED_InnerTxns (AD_EvalDelta ad))) = Ok ms) as [ms Hms].
  { apply map_result_total. rewrite Forall_forall in IH, Hin |- *.
    intros t Ht. apply IH; [done|]. by apply Hin. }
  assert (exists o, match ED_InnerTxns (AD_EvalDelta ad) with
            | Some [] | None => Ok None
            | Some ((_ :: _) as inner) =>
                itxns ← map_result (λ t, signedTxnWithAdToTransaction t (inner_row extra t)) inner;
                Ok (Some itxns)
            end = Ok o) as [o Ho].
  { destruct (ED_InnerTxns (AD_EvalDelta ad)) as [[|i l]|]; [by eexists| |by eexists].
    unfold slice, default in Hms. cbn [from_option] in Hms. unfold id in Hms. rewrite Hms. by eexists. }
  destruct (bool_decide _); cbn [mbind result_bind]; rewrite Ho; by eexists.
Qed.

(** A transaction whose indices are in range is converted, with all those below it:
    no error and no panic. *)
Theorem conversion_total s extra :
  well_indexed s -> exists txn, signedTxnWithAdToTransaction s extra = Ok txn.
Proof. apply conversion_defined. Qed.
End Total.

(** ** State proof tracking *)

Lemma sorted_count {A} (l : list (Z * A)) a b :
  StronglySorted rows_lt l -> Forall (λ x, a <= x.1 < b) l -> a <= b -> Z.of_nat (length l) <= b - a.
Proof.
  intros Hs. revert a. induction Hs as [|x l Hs IH Hx]; intros a Hf Hab; [cbn; lia|].
  apply Forall_cons in Hf as [Ha Hf]. cbn [length].
  assert (Z.of_nat (length l) <= b - (x.1 + 1)); [|lia].
  apply IH; [|lia]. rewrite Forall_forall in Hf, Hx |- *. intros y Hy.
  specialize (Hf y Hy). specialize (Hx y Hy). unfold rows_lt in Hx. cbn in Hx. lia.
Qed.

Lemma fill_tracking_consecutive types pre :
  StronglySorted rows_lt types ->
  Forall (λ x, Z.of_nat (length pre) <= x.1 < Z.of_nat (length pre + length types)) types ->
  fill_tracking types (pre ++ replicate (length types) tracking0) =
    Ok (pre ++ map (λ x, tracking_model x.1 x.2) types).
Proof.
  intros Hs. revert pre. induction Hs as [|[k d] types Hs IH Hx]; intros pre Hf; [done|].
  apply Forall_cons in Hf as [Hk Hf]. cbn [fst length] in *.
  assert (Forall (λ x : Z * StateProofTrackingData, k + 1 <= x.1 < Z.of_nat (length pre + S (length types))) types) as Hf'.
  { rewrite Forall_forall in Hf, Hx |- *. intros y Hy. specialize (Hf y Hy). specialize (Hx y Hy).
    unfold rows_lt in Hx. cbn in Hx. lia. }
  assert (k = Z.of_nat (length pre)) as ->.
  { pose proof (sorted_count types (k + 1) _ Hs Hf'). lia. }
  cbn [fill_tracking]. rewrite length_app, length_replicate.
  destruct (Z.ltb_spec (Z.of_nat (length pre)) (Z.of_nat (length pre + S (length types)))); [|lia].
  rewrite Nat2Z.id, insert_app_r_alt, Nat.sub_diag by lia.
  change (<[0%nat:=tracking_model (Z.of_nat (length pre)) d]> (replicate (S (length types)) tracking0))
    with ([tracking_model (Z.of_nat (length pre)) d] ++ replicate (length types) tracking0).
  specialize (IH (pre ++ [tracking_model (Z.of_nat (length pre)) d])).
  rewrite <- !app_assoc in IH. rewrite IH; [done|]. rewrite length_app. cbn [length].
  eapply Forall_impl; [exact Hf'|]. cbn. intros y Hy. lia.
Qed.

Lemma fill_tracking_panic types array :
  Exists (λ x, Z.of_nat (length array) <= x.1) types -> fill_tracking types array = Err indexPanic.
Proof.
  intros He. revert array He. induction types as [|[k d] types IH]; intros array He;
    [by apply Exists_nil in He|].
  cbn. destruct (Z.ltb_spec k (Z.of_nat (length array))); [|done].
  apply Exists_cons in He as [He|He]; [cbn in He; lia|]. apply IH. by rewrite length_insert.
Qed.

Lemma length_order_by {K V} `{Countable K} `{!SqlOrder K} (t : gmap K V) : length (order_by t) = size t.
Proof. unfold order_by. by rewrite merge_sort_Permutation, length_map_to_list. Qed.

Lemma tracking_array_spec m :
  (forall ty, ty ∈ dom m -> 0 <= ty) ->
  tracking_array m =
    if bool_decide (forall ty, ty ∈ dom m -> ty < Z.of_nat (size m))
    then Ok (map (λ x, tracking_model x.1 x.2) (order_by m)) else Err indexPanic.
Proof.
  intros Hpos. unfold tracking_array.
  assert (forall x, x ∈ order_by m -> x.1 ∈ dom m) as Hdom.
  { intros x Hx%elem_of_order_by. by apply elem_of_dom_2 in Hx. }
  case_bool_decide as Hlt.
  - pose proof (fill_tracking_consecutive (order_by m) [] (order_by_sorted m)) as Hfill.
    rewrite length_order_by in Hfill. apply Hfill. apply Forall_forall. intros x Hx%Hdom.
    specialize (Hpos _ Hx). specialize (Hlt _ Hx). cbn. lia.
  - apply fill_tracking_panic. rewrite length_replicate.
    destruct (decide (Exists (λ x : Z * StateProofTrackingData, Z.of_nat (size m) <= x.1) (order_by m)))
      as [He|Hn]; [done|]. exfalso. apply Hlt. intros ty Hty.
    apply elem_of_dom in Hty as [d Hd].
    destruct (Z.ltb_spec ty (Z.of_nat (size m))) as [|Hge]; [done|]. exfalso. apply Hn.
    apply Exists_exists. exists (ty, d). split; [by apply elem_of_order_by|done].
Qed.

(** The tracking data of a block header are listed by type, all of them and once, if
    the types are numbered without gaps from 0; with a gap, the index is out of range and
    the request panics. *)
Theorem tracking_array_gapless m :
  (forall ty, ty ∈ dom m -> 0 <= ty) ->
  tracking_array m =
    if bool_decide (forall ty, ty ∈ dom m -> ty < Z.of_nat (size m))
    then Ok (map (λ x, tracking_model x.1 x.2) (order_by m)) else Err indexPanic.
Proof. apply tracking_array_spec. Qed.

(** ** Concrete conversions *)

Module SampleConvert.
(** A call of an application with an account, with deltas for the sender and for the
    shared account. *)
Definition delta : StateDelta := Some {[ "k" := {| VD_Action := 2; VD_Bytes := ""; VD_Uint := 7 |} ]}.
Definition call : Transaction :=
  let t := Sample.txn ApplicationCallTx "alice" Zero.payment in {|
  T_Type := T_Type t; T_Header := T_Header t; T_Keyreg := T_Keyreg t; T_Payment := T_Payment t;
  T_AssetConfig := T_AssetConfig t; T_AssetTransfer := T_AssetTransfer t;
  T_AssetFreeze := T_AssetFreeze t;
  T_Application := {|
    A_ApplicationID := 7; A_OnCompletion := 0; A_ApplicationArgs := ["arg"]; A_Accounts := ["bob"];
    A_ForeignApps := [8]; A_ForeignAssets := [];
    A_BoxReferences := [{| BR_ForeignAppIdx := 1; BR_Name := "box" |}];
    A_Access := []; A_LocalStateSchema := Zero.schema0; A_GlobalStateSchema := Zero.schema0;
    A_ApprovalProgram := ""; A_ClearStateProgram := ""; A_ExtraProgramPages := 0;
    A_RejectVersion := 0 |};
  T_StateProof := T_StateProof t; T_Heartbeat := T_Heartbeat t |}.

Definition called : SignedTxnWithAD := StxnAD (Sample.signed call) {|
  AD_ClosingAmount := 0; AD_AssetClosingAmount := 0; AD_SenderRewards := 0;
  AD_ReceiverRewards := 0; AD_CloseRewards := 0;
  AD_EvalDelta := {| ED_GlobalDelta := delta;
                     ED_LocalDeltas := Some {[ 0 := delta; 2 := delta ]};
                     ED_SharedAccts := ["carol"]; ED_Logs := Some ["log"];
                     ED_InnerTxns := Some [Sample.stxnad (Sample.txn PaymentTx "app" Zero.payment) []] |};
  AD_ConfigAsset := 0; AD_ApplicationID := 0 |}.

Definition extra : rowData := {|
  RD_Round := 5; RD_RoundTime := 100; RD_Intra := 0; RD_AssetID := 7; RD_AssetCloseAmount := 0 |}.

Definition tracked (types : list Z) : gmap Z StateProofTrackingData :=
  list_to_map (map (λ ty, (ty, {| SPT_VotersCommitment := "c"; SPT_OnlineTotalWeight := 1;
                                  SPT_NextRound := 256 |})) types).
End SampleConvert.

Section Witnesses.
#[local] Existing Instance Sample.sdk.
#[local] Existing Instance ascii_print.
#[local] Existing Instance table_range.
Import SampleConvert.

Lemma edIndexToAddress_lookup_witness :
  edIndexToAddress 2 call ["carol"] = Ok "carol" /\
  edIndexToAddress 3 call ["carol"] = Err (ErrMsg "invalid Account Index %d in LocalDelta").
Proof.
  split.
  - apply (edIndexToAddress_lookup 2 call ["carol"]). lia.
  - apply (edIndexToAddress_lookup 3 call ["carol"]). lia.
Defined.

(** An inner payment of a call that created application 10. *)
Definition inner_payment : TxnRow := {|
  TR_Round := 5; TR_RoundTime := None; TR_Intra := 2; TR_Txn := None;
  TR_RootTxn := Some SampleBlock.nested; TR_AssetID := 0;
  TR_Extra := {| AssetCloseAmount := 0; RootIntra := {| OU_Present := true; OU_Value := 0 |};
                 RootTxid := "call" |};
  TR_Error := None |}.
Lemma created_application_of_match_witness :
  AD_ApplicationID (STAD_ApplyData SampleBlock.nested) = 10 /\
  exists t, txnRowToTransaction inner_payment = Ok t /\
    models.Transaction_CreatedApplicationIndex t = Some 0.
Proof.
  split; [reflexivity|]. eexists. split; [vm_compute; reflexivity|].
  apply (created_application_of_match inner_payment SampleBlock.nested); try reflexivity.
Defined.

Lemma conversion_keeps_tree_witness :
  exists txn, signedTxnWithAdToTransaction called extra = Ok txn /\ shown_tree txn = stored_tree called.
Proof.
  eexists. split; [vm_compute; reflexivity|].
  apply (conversion_keeps_tree called extra). vm_compute. reflexivity.
Defined.

Lemma converted_well_typed_witness :
  exists txn, signedTxnWithAdToTransaction called extra = Ok txn /\ well_typed txn.
Proof.
  eexists. split; [vm_compute; reflexivity|].
  apply (converted_well_typed called extra). vm_compute. reflexivity.
Defined.

Lemma conversion_total_witness : exists txn, signedTxnWithAdToTransaction called extra = Ok txn.
Proof.
  apply (conversion_total called extra). constructor.
  - apply Forall_singleton. unfold index_ok. cbn. lia.
  - constructor.
  - intros i Hi. change (i ∈ dom ({[ 0 := delta; 2 := delta ]} : gmap Z StateDelta)) in Hi.
    rewrite dom_insert_L, dom_singleton_L in Hi. cbn. set_unfold in Hi. lia.
  - apply Forall_singleton. constructor; [constructor|constructor| |constructor].
    intros i Hi. change (i ∈ dom (∅ : gmap Z StateDelta)) in Hi. by rewrite dom_empty_L in Hi.
Defined.

(** The types 0 and 1 are listed, the type 1 alone panics. *)
Lemma tracking_array_gapless_witness :
  tracking_array (tracked [1; 0]) =
    Ok (map (λ x, tracking_model x.1 x.2) (order_by (tracked [1; 0]))) /\
  tracking_array (tracked [1]) = Err indexPanic.
Proof.
  split.
  - rewrite (tracking_array_gapless (tracked [1; 0])); [vm_compute; reflexivity|].
    intros ty Hty. unfold tracked in Hty. rewrite dom_list_to_map_L in Hty. cbn in Hty.
    set_unfold in Hty. lia.
  - rewrite (tracking_array_gapless (tracked [1])); [vm_compute; reflexivity|].
    intros ty Hty. unfold tracked in Hty. rewrite dom_list_to_map_L in Hty. cbn in Hty.
    set_unfold in Hty. lia.
Defined.
End Witnesses.
