(* ===== verification/Disabled.v ===== *)
(** * Disabled parameters: [api/disabled_parameters.go]

    The operator of the server can disable parameters of its endpoints.  A configuration,
    read from a YAML file or the default one, names the disabled parameters of each path;
    it is checked against the OpenAPI definition of the API and turned into a
    [DisabledMap], which [Verify] consults in every handler.

    The OpenAPI definition and the parameters of a request are data of libraries: the
    types below have the parts that the code reads.  Go maps are visited in the order of
    the class [MapRange]. *)

From S2P Require Import Prelude GoStd.

(** ** Data of the libraries *)

(** [openapi3.Parameter], [openapi3.Operation] and the paths of [openapi3.T]: the
    operations of a path by method. *)
Record OA_Parameter := { PM_Name : string; PM_Required : bool }.
Record Operation := { OperationID : string; Op_Parameters : list OA_Parameter }.
Abbreviation Swagger := (gmap string (gmap string Operation)) (only parsing).

(** [url.Values], and the two sets of parameters of an [echo.Context]. *)
Abbreviation Values := (gmap string (list string)) (only parsing).
Definition Values_Get (v : Values) (key : string) : string := default "" (v !! key ≫= head).
Record Params := { QueryParams : Values; FormParams : result Values }.

Definition MethodGet : string := "GET".

(** The newline of the messages. *)
Definition nl : string := string_of_bytes [Ascii.ascii_of_nat 10].

(** ** [DisabledMapConfig] *)

(** The parameters disabled, by path and method. *)
Abbreviation DisabledMapConfig := (gmap string (gmap string (list string))) (only parsing).

Definition MakeDisabledMapConfig : DisabledMapConfig := ∅.

Definition isDisabled (dmc : DisabledMapConfig) (restPath operationName parameterName : string)
    : bool :=
  match default ∅ (dmc !! restPath) !! operationName with
  | None => false
  | Some parameterList => bool_decide (parameterName ∈ (parameterList : list string))
  end.

Definition DMC_addEntry (dmc : DisabledMapConfig) (restPath operationName : string)
    (parameterNames : list string) : DisabledMapConfig :=
  <[restPath := <[operationName := parameterNames]> (default ∅ (dmc !! restPath))]> dmc.

Definition GetDefaultDisabledMapConfigForPostgres : DisabledMapConfig :=
  let get restPath parameterNames rval := DMC_addEntry rval restPath MethodGet parameterNames in
  get "/v2/assets/{asset-id}/transactions" ["note-prefix"; "tx-type"; "sig-type"; "asset-id";
    "before-time"; "after-time"; "currency-greater-than"; "currency-less-than"; "address-role";
    "exclude-close-to"; "rekey-to"]
  (get "/v2/transactions" ["note-prefix"; "tx-type"; "sig-type"; "asset-id"; "before-time";
    "after-time"; "currency-greater-than"; "currency-less-than"; "address-role";
    "exclude-close-to"; "rekey-to"; "application-id"; "group-id"]
  (get "/v2/assets/{asset-id}/balances" ["currency-greater-than"; "currency-less-than"]
  (get "/v2/assets" ["name"; "unit"]
  (get "/v2/accounts/{account-id}/transactions" ["note-prefix"; "tx-type"; "sig-type";
    "asset-id"; "before-time"; "after-time"; "rekey-to"]
  (get "/v2/accounts" ["currency-greater-than"; "currency-less-than"; "online-only"]
   MakeDisabledMapConfig))))).

(** ** [DisabledMap] *)

(** [map[string]bool] with the value true for every key. *)
Record EndpointConfig := { EndpointDisabled : bool; DisabledOptionalParameters : gset string }.
Definition makeEndpointConfig : EndpointConfig :=
  {| EndpointDisabled := false; DisabledOptionalParameters := ∅ |}.

(** By the name of the handler. *)
Abbreviation DisabledMap := (gmap string EndpointConfig) (only parsing).
Definition MakeDisabledMap : DisabledMap := ∅.

(** ** Checking a configuration *)

Section Config.
Context `{MapRange}.

(** The names of [recordedParams] that the operation does not have. *)
Definition unknown_params (o : Operation) (recordedParams : list string) : list string :=
  filter (λ p, p ∉ map PM_Name (Op_Parameters o)) recordedParams.

(** The bad entries of one path: the empty map for an unknown path.  [GetOperation] of a
    method that the path does not have is nil, and using it panics. *)
Fixpoint bad_ops (item : gmap string Operation) (ops : list (string * list string))
    (bad : gmap string (list string)) : result (gmap string (list string)) :=
  match ops with
  | [] => Ok bad
  | (opName, recordedParams) :: ops =>
      match item !! opName with
      | None => Err (ErrPanic "nil operation")
      | Some o =>
          bad_ops item ops
            match unknown_params o recordedParams with
            | [] => bad
            | unknown => <[opName := unknown]> bad
            end
      end
  end.

Fixpoint bad_paths (swag : Swagger) (paths : list (string * gmap string (list string)))
    (bad : DisabledMapConfig) : result DisabledMapConfig :=
  match paths with
  | [] => Ok bad
  | (recordedPath, recordedOp) :: paths =>
      match swag !! recordedPath with
      | None => bad_paths swag paths (<[recordedPath := ∅]> bad)
      | Some item =>
          ops ← bad_ops item (range_map recordedOp) ∅;
          bad_paths swag paths
            (if bool_decide (ops = ∅) then bad else <[recordedPath := ops]> bad)
      end
  end.

(** [ErrDisabledMapConfig.Error]. *)
Definition ErrDisabledMapConfig_Error (bad : DisabledMapConfig) : string :=
  strings_join "" (flat_map (λ '(k, v),
    if bool_decide (v = ∅) then ["Unknown REST Path: " +:+ k +:+ nl]
    else map (λ '(op, param), "REST Path " +:+ k +:+ " (Operation: " +:+ op +:+
           ") contains unknown parameters: " +:+ strings_join "," param +:+ nl)
           (range_map v)) (range_map bad)).

Definition validate (dmc : DisabledMapConfig) (swag : Swagger) : result unit :=
  bad ← bad_paths swag (range_map dmc) ∅;
  if bool_decide (bad = ∅) then Ok tt else Err (ErrMsg (ErrDisabledMapConfig_Error bad)).

(** ** From a configuration to a [DisabledMap] *)

(** The loop over the parameters of one operation. *)
Definition endpoint_config (config : DisabledMapConfig) (restPath opName : string)
    (opItem : Operation) : EndpointConfig :=
  foldl (λ ec pref,
    if negb (isDisabled config restPath opName (PM_Name pref)) then ec
    else if PM_Required pref then
      {| EndpointDisabled := true; DisabledOptionalParameters := DisabledOptionalParameters ec |}
    else
      {| EndpointDisabled := EndpointDisabled ec;
         DisabledOptionalParameters := {[ PM_Name pref ]} ∪ DisabledOptionalParameters ec |})
    makeEndpointConfig (Op_Parameters opItem).

(** The operations in the order of the two nested loops. *)
Definition operations (swag : Swagger) : list (string * string * Operation) :=
  flat_map (λ '(restPath, item), map (λ '(opName, o), (restPath, opName, o)) (range_map item))
    (range_map swag).

Definition MakeDisabledMapFromOA3 (swag : Swagger) (config : option DisabledMapConfig)
    : result (option DisabledMap) :=
  match config with
  | None => Ok None
  | Some config =>
      _ ← validate config swag;
      Ok (Some (foldl (λ (rval : DisabledMap) '(restPath, opName, o),
        <[OperationID o := endpoint_config config restPath opName o]> rval)
        MakeDisabledMap (operations swag)))
  end.

(** ** [Verify] *)

Definition ErrVerifyFailedEndpoint : error := ErrSentinel "endpoint is disabled".
Definition ErrVerifyFailedParameter (name : string) : error :=
  ErrMsg ("provided disabled parameter: " +:+ name).

(** The parameter is given a value, in the query or in the form. *)
Definition supplied (ctx : Params) (paramName : string) : bool :=
  negb (bool_decide (Values_Get (QueryParams ctx) paramName = "")) ||
  match FormParams ctx with
  | Err _ => false
  | Ok form => negb (bool_decide (Values_Get form paramName = ""))
  end.

(** A [map[string]bool] as a set: its keys in the order of [range]. *)
Definition range_names (X : gset string) : list string :=
  map fst (range_map (gset_to_gmap tt X)).

Definition EndpointConfig_verify (ec : EndpointConfig) (ctx : Params) : option error :=
  if EndpointDisabled ec then Some ErrVerifyFailedEndpoint
  else
    option_map ErrVerifyFailedParameter
      (head (filter (λ p, supplied ctx p = true) (range_names (DisabledOptionalParameters ec)))).

(** An endpoint without an entry is not restricted. *)
Definition Verify (dm : option DisabledMap) (nameOfHandlerFunc : string) (ctx : Params)
    : option error :=
  match dm with
  | None => None
  | Some dm =>
      match dm !! nameOfHandlerFunc with
      | Some val => EndpointConfig_verify val ctx
      | None => None
      end
  end.
End Config.

(** ** The YAML form *)

Definition disabledStatusStr : string := "disabled".
Definition enabledStatusStr : string := "enabled".
Definition requiredParameterStr : string := "required".
Definition optionalParameterStr : string := "optional".

(** By path, by kind of parameter: a list of maps from a name to its status. *)
Abbreviation DisplayDisabledMap := (gmap string (gmap string (list (gmap string string))))
  (only parsing).

Definition DDM_addEntry (ddm : DisplayDisabledMap)
    (restPath requiredOrOptional entryName status : string) : DisplayDisabledMap :=
  let entries := default ∅ (ddm !! restPath) in
  <[restPath := <[requiredOrOptional :=
      default [] (entries !! requiredOrOptional) ++ [{[ entryName := status ]}]]> entries]> ddm.

Section Display.
Context `{MapRange}.

(** The statuses of a list of parameters, in the order of the loops. *)
Definition statuses (paramList : list (gmap string string)) : list (string * string) :=
  flat_map range_map paramList.

(** The misspelled kinds and statuses of one path. *)
Definition illegal_types (entries : gmap string (list (gmap string string))) : list string :=
  filter (λ k, k <> requiredParameterStr /\ k <> optionalParameterStr) (map fst (range_map entries)).
Definition illegal_status (entries : gmap string (list (gmap string string))) : list string :=
  map (λ '(name, status), name +:+ " : " +:+ status)
    (filter (λ x, x.2 <> disabledStatusStr /\ x.2 <> enabledStatusStr)
       (flat_map (λ kv, statuses kv.2) (range_map entries))).

Definition illegal_paths (ddm : DisplayDisabledMap) : list (string * list string * list string) :=
  filter (λ x, x.1.2 <> [] \/ x.2 <> [])
    (map (λ '(restPath, entries), (restPath, illegal_types entries, illegal_status entries))
       (range_map ddm)).

(** The text of the error lists the paths in the order of another loop over a map: only
    whether there is an error is modelled. *)
Definition validateSchema (ddm : DisplayDisabledMap) : result unit :=
  match illegal_paths ddm with
  | [] => Ok tt
  | _ => Err (ErrMsg "REST Path %s contained the following errors")
  end.

Definition disabled_params (entries : gmap string (list (gmap string string))) : list string :=
  map fst (filter (λ x, x.2 = disabledStatusStr)
             (flat_map (λ kv, statuses kv.2) (range_map entries))).

(** All entries are taken to be for GET. *)
Definition toDisabledMapConfig (ddm : DisplayDisabledMap) (swag : option Swagger)
    : result DisabledMapConfig :=
  _ ← validateSchema ddm;
  let dmc := foldl (λ dmc '(restPath, entries),
    DMC_addEntry dmc restPath MethodGet (disabled_params entries)) MakeDisabledMapConfig (range_map ddm) in
  match swag with
  | None => Ok dmc
  | Some swag => _ ← validate dmc swag; Ok dmc
  end.

(** [read] is the content of the file and [unmarshal] the YAML parser. *)
Definition MakeDisabledMapConfigFromFile (unmarshal : string -> result DisplayDisabledMap)
    (swag : option Swagger) (read : result string) : result DisabledMapConfig :=
  f ← read;
  ddm ← unmarshal f;
  toDisabledMapConfig ddm swag.

Definition display_param (mapConfig : DisabledMapConfig) (limited : bool) (restPath opName : string)
    (rval : DisplayDisabledMap) (pref : OA_Parameter) : DisplayDisabledMap :=
  let parameterIsDisabled := isDisabled mapConfig restPath opName (PM_Name pref) in
  if negb parameterIsDisabled && limited then rval
  else
    DDM_addEntry rval restPath
      (if PM_Required pref then requiredParameterStr else optionalParameterStr) (PM_Name pref)
      (if parameterIsDisabled then disabledStatusStr else enabledStatusStr).

Definition MakeDisplayDisabledMapFromConfig (swag : Swagger) (mapConfig : DisabledMapConfig)
    (limited : bool) : DisplayDisabledMap :=
  foldl (λ rval '(restPath, opName, o),
    foldl (display_param mapConfig limited restPath opName) rval (Op_Parameters o))
    ∅ (operations swag).
End Display.

(** ** Loops over maps *)

Lemma elem_of_range_map `{MapRange} {K V} `{Countable K} (m : gmap K V) k v :
  (k, v) ∈ range_map m <-> m !! k = Some v.
Proof. rewrite range_map_perm. apply elem_of_map_to_list. Qed.

Lemma elem_of_flat_map {A B} (f : A -> list B) l y :
  y ∈ flat_map f l <-> exists x, x ∈ l /\ y ∈ f x.
Proof.
  rewrite list_elem_of_In, in_flat_map. by setoid_rewrite <- list_elem_of_In.
Qed.

Lemma elem_of_operations `{MapRange} (swag : Swagger) path op o :
  (path, op, o) ∈ operations swag <-> exists item, swag !! path = Some item /\ item !! op = Some o.
Proof.
  unfold operations. rewrite elem_of_flat_map. split.
  - intros ([path' item] & Hp%elem_of_range_map & Ho). apply list_elem_of_fmap_1 in Ho as ([op' o'] & [= -> -> ->] & Ho).
    apply elem_of_range_map in Ho. by exists item.
  - intros (item & Hp & Ho). exists (path, item). split; [by apply elem_of_range_map|].
    apply (list_elem_of_fmap_2' _ _ (op, o)); [by apply elem_of_range_map|done].
Qed.

Lemma elem_of_range_names `{MapRange} X p : p ∈ range_names X <-> p ∈ X.
Proof.
  unfold range_names. split.
  - intros ([q []] & -> & Hq)%list_elem_of_fmap_1. apply elem_of_range_map in Hq.
    by apply lookup_gset_to_gmap_Some in Hq as [Hq _].
  - intros Hp. apply (list_elem_of_fmap_2' _ _ (p, tt)); [|done].
    apply elem_of_range_map, lookup_gset_to_gmap_Some. done.
Qed.

(** ** What is enforced *)

Section Enforced.
Context `{MapRange}.

Lemma endpoint_config_spec config path op o :
  let ec := endpoint_config config path op o in
  (EndpointDisabled ec = true <->
     exists p, p ∈ Op_Parameters o /\ isDisabled config path op (PM_Name p) = true /\ PM_Required p = true) /\
  (forall name, name ∈ DisabledOptionalParameters ec <->
     exists p, p ∈ Op_Parameters o /\ isDisabled config path op (PM_Name p) = true /\
       PM_Required p = false /\ PM_Name p = name).
Proof.
  unfold endpoint_config. induction (Op_Parameters o) as [|p l [IHd IHo]] using rev_ind.
  - cbn. split; [|intros name]; (split; [set_solver|]); intros (p & Hp & _); by apply not_elem_of_nil in Hp.
  - rewrite foldl_snoc. setoid_rewrite elem_of_app. setoid_rewrite list_elem_of_singleton.
    destruct (isDisabled config path op (PM_Name p)) eqn:Ed; cbn [negb].
    2:{ split; [rewrite IHd|intros name; rewrite (IHo name)]; naive_solver congruence. }
    destruct (PM_Required p) eqn:Er; cbn [EndpointDisabled DisabledOptionalParameters].
    + split; [|intros name; rewrite (IHo name)]; naive_solver congruence.
    + split; [rewrite IHd; naive_solver congruence|].
      intros name. rewrite elem_of_union, elem_of_singleton, (IHo name). naive_solver congruence.
Qed.

Lemma bad_ops_empty item ops bad :
  bad_ops item ops bad = Ok ∅ ->
  bad = ∅ /\ forall op params, (op, params) ∈ ops ->
    exists o, item !! op = Some o /\ forall p, p ∈ params -> p ∈ map PM_Name (Op_Parameters o).
Proof.
  revert bad. induction ops as [|[op params] ops IH]; intros bad; cbn.
  - intros [= ->]. split; [done|]. intros op params Hin. by apply not_elem_of_nil in Hin.
  - destruct (item !! op) as [o|] eqn:Eo; [|done]. intros [Hb Hops]%IH.
    destruct (unknown_params o params) as [|u us] eqn:Eu; [|by apply insert_non_empty in Hb].
    split; [done|]. intros op' params' [[= -> ->]|Hin]%elem_of_cons; [|by apply Hops].
    exists o. split; [done|]. intros p Hp. destruct (decide (p ∈ map PM_Name (Op_Parameters o))); [done|].
    assert (p ∈ unknown_params o params) as Hu by (by apply list_elem_of_filter).
    rewrite Eu in Hu. by apply not_elem_of_nil in Hu.
Qed.

Lemma bad_paths_empty (swag : Swagger) paths bad :
  bad_paths swag paths bad = Ok ∅ ->
  bad = ∅ /\ forall path ops, (path, ops) ∈ paths ->
    exists item, swag !! path = Some item /\ bad_ops item (range_map ops) ∅ = Ok ∅.
Proof.
  revert bad. induction paths as [|[path ops] paths IH]; intros bad; cbn.
  - intros [= ->]. split; [done|]. intros path ops Hin. by apply not_elem_of_nil in Hin.
  - destruct (swag !! path) as [item|] eqn:Ei; [|by intros [Hb _]%IH; apply insert_non_empty in Hb].
    destruct (bad_ops item (range_map ops) ∅) as [b|] eqn:Eb; cbn; [|done]. intros [Hb Hops]%IH.
    case_bool_decide as Hbe; [|by apply insert_non_empty in Hb]. subst b.
    split; [done|]. intros path' ops' [[= -> ->]|Hin]%elem_of_cons; [by exists item|by apply Hops].
Qed.

(** A configuration that passes names parameters of the definition only. *)
Lemma validate_known (config : DisabledMapConfig) (swag : Swagger) path op name :
  validate config swag = Ok tt -> isDisabled config path op name = true ->
  exists item o p, swag !! path = Some item /\ item !! op = Some o /\
    p ∈ Op_Parameters o /\ PM_Name p = name.
Proof.
  unfold validate. destruct (bad_paths swag _ ∅) as [bad|] eqn:Eb; cbn; [|done].
  case_bool_decide as Hbe; [subst bad|done]. intros _. apply bad_paths_empty in Eb as [_ Hp].
  unfold isDisabled. destruct (config !! path) as [ops|] eqn:Ec; unfold default, id;
    cbn [from_option]; [|by rewrite lookup_empty].
  destruct (ops !! op) as [params|] eqn:Eo; [|done]. intros Hn%bool_decide_eq_true_1.
  destruct (Hp path ops) as (item & Hi & Hb); [by apply elem_of_range_map|].
  apply bad_ops_empty in Hb as [_ Hb].
  destruct (Hb op params) as (o & Ho & Hps); [by apply elem_of_range_map|].
  apply Hps, list_elem_of_fmap_1 in Hn as (p & -> & Hin). by exists item, o, p.
Qed.

Lemma foldl_insert {A K V} `{Countable K} (f : gmap K V -> A -> gmap K V) key val l m x :
  (forall m a, f m a = <[key a := val a]> m) ->
  x ∈ l -> (forall y, y ∈ l -> key y = key x -> y = x) ->
  foldl f m l !! key x = Some (val x).
Proof.
  intros Hf Hx Hu. induction l as [|y l IH] using rev_ind; [by apply not_elem_of_nil in Hx|].
  rewrite foldl_snoc, Hf. destruct (decide (key y = key x)) as [E|E].
  - rewrite (Hu y) by (done || (apply elem_of_app; right; by apply list_elem_of_singleton)).
    by rewrite lookup_insert_eq.
  - rewrite lookup_insert_ne by done. apply elem_of_app in Hx as [Hx|Hx].
    + apply IH; [done|]. intros z Hz. apply Hu. apply elem_of_app. by left.
    + by apply list_elem_of_singleton in Hx as ->.
Qed.

(** No two operations of the definition have the same name. *)
Definition unique_ids (swag : Swagger) : Prop :=
  forall path op o path' op' o', (path, op, o) ∈ operations swag -> (path', op', o') ∈ operations swag ->
    OperationID o = OperationID o' -> (path, op, o) = (path', op', o').

Lemma disabled_map_lookup (swag : Swagger) config dm path op o :
  unique_ids swag -> MakeDisabledMapFromOA3 swag (Some config) = Ok (Some dm) ->
  (path, op, o) ∈ operations swag ->
  dm !! OperationID o = Some (endpoint_config config path op o).
Proof.
  intros Hu Hm Ho. unfold MakeDisabledMapFromOA3 in Hm.
  destruct (validate config swag); cbn in Hm; [|done]. injection Hm as <-.
  apply (foldl_insert _ (λ x : string * string * Operation, OperationID x.2)
           (λ x, endpoint_config config x.1.1 x.1.2 x.2) _ _ (path, op, o)).
  - by intros m [[p q] r].
  - done.
  - intros [[p q] r] Hr Hid. by apply Hu.
Qed.

Lemma verify_none ec ctx :
  EndpointConfig_verify ec ctx = None <->
  EndpointDisabled ec = false /\
  forall p, p ∈ DisabledOptionalParameters ec -> supplied ctx p = false.
Proof.
  unfold EndpointConfig_verify. destruct (EndpointDisabled ec); [by split; [|intros []]|].
  destruct (filter _ _) as [|p l] eqn:Ef; cbn.
  - split; [intros _; split; [done|]|done]. intros p Hp%elem_of_range_names.
    destruct (supplied ctx p) eqn:Es; [|done].
    assert (p ∈ filter (λ p, supplied ctx p = true) (range_names (DisabledOptionalParameters ec)))
      as Hin by (by apply list_elem_of_filter).
    rewrite Ef in Hin. by apply not_elem_of_nil in Hin.
  - split; [done|]. intros [_ Hall].
    assert (p ∈ filter (λ p, supplied ctx p = true) (range_names (DisabledOptionalParameters ec)))
      as [Hs Hin]%list_elem_of_filter by (rewrite Ef; left).
    apply elem_of_range_names, Hall in Hin. congruence.
Qed.

(** C26. The server lets a request through exactly if no parameter of its endpoint that the
    configuration disables is required, and none of them is given a value, in the query
    or in the form. *)
Theorem Verify_enforces (swag : Swagger) config dm path op item o ctx :
  unique_ids swag -> MakeDisabledMapFromOA3 swag (Some config) = Ok (Some dm) ->
  swag !! path = Some item -> item !! op = Some o ->
  Verify (Some dm) (OperationID o) ctx = None <->
  (forall p, p ∈ Op_Parameters o -> isDisabled config path op (PM_Name p) = true ->
     PM_Required p = false /\ supplied ctx (PM_Name p) = false).
Proof.
  intros Hu Hm Hi Ho. unfold Verify.
  rewrite (disabled_map_lookup swag config dm path op o Hu Hm) by (apply elem_of_operations; by exists item).
  rewrite verify_none. destruct (endpoint_config_spec config path op o) as [Hd Hopt].
  rewrite <- not_true_iff_false, Hd. setoid_rewrite Hopt. split.
  - intros [Hnr Hns] p Hp Hdis. destruct (PM_Required p) eqn:Er; [exfalso; apply Hnr; by exists p|].
    split; [done|]. apply Hns. by exists p.
  - intros Hall. split.
    + intros (p & Hp & Hdis & Hr). destruct (Hall p Hp Hdis). congruence.
    + intros name (p & Hp & Hdis & Hr & <-). by apply Hall.
Qed.

(** No entry of an accepted configuration is without effect: the parameter belongs to
    an endpoint of the API, and a request that gives it a value is refused there. *)
Theorem disabled_entry_effective (swag : Swagger) config dm path op name ctx :
  unique_ids swag -> MakeDisabledMapFromOA3 swag (Some config) = Ok (Some dm) ->
  isDisabled config path op name = true -> supplied ctx name = true ->
  exists item o, swag !! path = Some item /\ item !! op = Some o /\
    is_Some (Verify (Some dm) (OperationID o) ctx).
Proof.
  intros Hu Hm Hdis Hs. assert (validate config swag = Ok tt) as Hv.
  { unfold MakeDisabledMapFromOA3 in Hm. by destruct (validate config swag) as [[]|]. }
  destruct (validate_known config swag path op name Hv Hdis) as (item & o & p & Hi & Ho & Hp & <-).
  exists item, o. split_and!; [done|done|]. unfold Verify.
  rewrite (disabled_map_lookup swag config dm path op o Hu Hm) by (apply elem_of_operations; by exists item).
  destruct (EndpointConfig_verify _ ctx) eqn:Ev; [by eexists|]. exfalso.
  apply verify_none in Ev as [Hnd Hns]. destruct (endpoint_config_spec config path op o) as [Hd Hopt].
  destruct (PM_Required p) eqn:Er.
  - assert (EndpointDisabled (endpoint_config config path op o) = true); [|congruence].
    apply Hd. by exists p.
  - rewrite Hns in Hs; [done|]. apply Hopt. by exists p.
Qed.
End Enforced.

(** ** The YAML form and back *)

Section RoundTrip.
Context `{MapRange}.

Lemma bad_ops_ok item ops bad :
  (forall op params, (op, params) ∈ ops ->
     exists o, item !! op = Some o /\ forall p, p ∈ params -> p ∈ map PM_Name (Op_Parameters o)) ->
  bad_ops item ops bad = Ok bad.
Proof.
  intros Hops. induction ops as [|[op params] ops IH]; [done|]. cbn.
  destruct (Hops op params) as (o & -> & Hp); [left|].
  assert (unknown_params o params = []) as ->.
  { apply filter_none. apply Forall_forall. intros p Hin Hn. by apply Hn, Hp. }
  apply IH. intros op' params' Hin. apply Hops. by right.
Qed.

Lemma validate_ok (config : DisabledMapConfig) (swag : Swagger) :
  (forall path ops op params, config !! path = Some ops -> ops !! op = Some params ->
     exists item o, swag !! path = Some item /\ item !! op = Some o /\
       forall p, p ∈ params -> p ∈ map PM_Name (Op_Parameters o)) ->
  (forall path ops, config !! path = Some ops -> is_Some (swag !! path)) ->
  validate config swag = Ok tt.
Proof.
  intros Hops Hpaths. unfold validate.
  assert (forall paths bad, (forall path ops, (path, ops) ∈ paths -> config !! path = Some ops) ->
            bad_paths swag paths bad = Ok bad) as Hb.
  { induction paths as [|[path ops] paths IH]; intros bad Hin; [done|]. cbn.
    assert (config !! path = Some ops) as Hc by (apply Hin; left).
    destruct (Hpaths path ops Hc) as [item Hi]. rewrite Hi.
    rewrite bad_ops_ok; cbn.
    - apply IH. intros path' ops' Hin'. apply Hin. by right.
    - intros op params Ho%elem_of_range_map. destruct (Hops path ops op params Hc Ho)
        as (item' & o & Hi' & Ho' & Hp). exists o. split; [congruence|done]. }
  rewrite Hb; [done|]. intros path ops. by apply elem_of_range_map.
Qed.

(** The maps listed for a path and a kind of parameter. *)
Definition entries_at (ddm : DisplayDisabledMap) (path kind : string) : list (gmap string string) :=
  default [] (ddm !! path ≫= λ entries, entries !! kind).

Lemma entries_at_add (ddm : DisplayDisabledMap) path kind name status path' kind' :
  entries_at (DDM_addEntry ddm path kind name status) path' kind' =
    entries_at ddm path' kind' ++
    if bool_decide ((path, kind) = (path', kind')) then [{[ name := status ]}] else [].
Proof.
  assert (entries_at ddm path' kind' = default [] (default ∅ (ddm !! path') !! kind')) as ->.
  { unfold entries_at. by destruct (ddm !! path'). }
  unfold entries_at, DDM_addEntry. case_bool_decide as E.
  - injection E as -> ->. rewrite lookup_insert_eq. cbn [mbind option_bind].
    by rewrite lookup_insert_eq.
  - rewrite app_nil_r. destruct (decide (path = path')) as [->|Hp].
    + rewrite lookup_insert_eq. cbn [mbind option_bind]. rewrite lookup_insert_ne by congruence. done.
    + rewrite lookup_insert_ne by done. by destruct (ddm !! path').
Qed.

(** No map and no list of the form is empty. *)
Definition no_empty (ddm : DisplayDisabledMap) : Prop :=
  forall path entries, ddm !! path = Some entries ->
    entries <> ∅ /\ forall kind l, entries !! kind = Some l -> l <> [].

Lemma no_empty_add (ddm : DisplayDisabledMap) path kind name status :
  no_empty ddm -> no_empty (DDM_addEntry ddm path kind name status).
Proof.
  intros Hn path' entries. unfold DDM_addEntry. rewrite lookup_insert_Some.
  intros [[<- <-]|[_ Hp]]; [|by apply Hn with path']. split; [apply insert_non_empty|].
  intros kind' l. rewrite lookup_insert_Some.
  intros [[<- <-]|[_ Hk]]; [by intros ?%app_eq_nil; naive_solver|].
  destruct (ddm !! path) as [entries|] eqn:E; cbn in Hk; [by eapply Hn|done].
Qed.

(** What the form says of a parameter. *)
Definition kind_of (p : OA_Parameter) : string :=
  if PM_Required p then requiredParameterStr else optionalParameterStr.
Definition status_of (config : DisabledMapConfig) (path op : string) (p : OA_Parameter) : string :=
  if isDisabled config path op (PM_Name p) then disabledStatusStr else enabledStatusStr.
Definition listed (config : DisabledMapConfig) (limited : bool) (path op : string)
    (p : OA_Parameter) : Prop :=
  isDisabled config path op (PM_Name p) = false -> limited = false.

Lemma display_params_spec config limited path op l ddm path' kind m :
  m ∈ entries_at (foldl (display_param config limited path op) ddm l) path' kind <->
  m ∈ entries_at ddm path' kind \/
  path = path' /\ exists p, p ∈ l /\ listed config limited path op p /\ kind = kind_of p /\
    m = {[ PM_Name p := status_of config path op p ]}.
Proof.
  induction l as [|p l IH] using rev_ind.
  - cbn. split; [by left|]. intros [?|[_ (p & Hp & _)]]; [done|by apply not_elem_of_nil in Hp].
  - rewrite foldl_snoc. setoid_rewrite elem_of_app. setoid_rewrite list_elem_of_singleton.
    unfold display_param at 1. cbv zeta. unfold listed in *.
    destruct (negb (isDisabled config path op (PM_Name p)) && limited) eqn:E.
    + rewrite IH. apply andb_true_iff in E as [E1%negb_true_iff E2]. split.
      * intros [?|(-> & q & Hq & Hrest)]; [by left|]. right. split; [done|]. exists q. by split; [left|].
      * intros [?|(-> & q & [Hq| ->] & Hl & Hrest)]; [by left| |by specialize (Hl E1); congruence].
        right. split; [done|]. by exists q.
    + rewrite entries_at_add, elem_of_app, IH. fold (kind_of p). fold (status_of config path op p).
      assert (isDisabled config path op (PM_Name p) = false -> limited = false) as Hl.
      { intros Hd. rewrite Hd in E. cbn in E. by destruct limited. }
      split.
      * intros [[?|(-> & q & Hq & Hrest)]|Hm]; [by left| |].
        -- right. split; [done|]. exists q. by split; [left|].
        -- case_bool_decide as Ek; [|by apply not_elem_of_nil in Hm]. injection Ek as -> Ek.
           apply list_elem_of_singleton in Hm. right. split; [done|]. exists p. by split; [right|].
      * intros [?|(-> & q & [Hq| ->] & Hlq & -> & ->)]; [by left; left| |].
        -- left. right. split; [done|]. by exists q.
        -- right. rewrite bool_decide_eq_true_2 by done. by apply list_elem_of_singleton.
Qed.

(** The parameters shown, of all operations. *)
Lemma display_spec (swag : Swagger) config limited path kind m :
  m ∈ entries_at (MakeDisplayDisabledMapFromConfig swag config limited) path kind <->
  exists op o p, (path, op, o) ∈ operations swag /\ p ∈ Op_Parameters o /\
    listed config limited path op p /\ kind = kind_of p /\
    m = {[ PM_Name p := status_of config path op p ]}.
Proof.
  unfold MakeDisplayDisabledMapFromConfig. induction (operations swag) as [|[[path' op] o] l IH] using rev_ind.
  - cbn. split; [intros Hn; by apply not_elem_of_nil in Hn|]. intros (op & o & p & Hn & _).
    by apply not_elem_of_nil in Hn.
  - rewrite foldl_snoc, display_params_spec, IH. setoid_rewrite elem_of_app.
    setoid_rewrite list_elem_of_singleton. split.
    + intros [(q & r & p & Hin & Hrest)|(-> & p & Hrest)].
      * exists q, r, p. by split; [left|].
      * exists op, o, p. by split; [right|].
    + intros (q & r & p & [Hin|[= -> -> ->]] & Hrest); [left; by exists q, r, p|].
      right. split; [done|]. by exists p.
Qed.

Lemma display_no_empty (swag : Swagger) config limited :
  no_empty (MakeDisplayDisabledMapFromConfig swag config limited).
Proof.
  unfold MakeDisplayDisabledMapFromConfig. induction (operations swag) as [|[[path op] o] l IH] using rev_ind.
  - by intros path entries [=].
  - rewrite foldl_snoc. induction (Op_Parameters o) as [|p ps IHp] using rev_ind; [done|].
    rewrite foldl_snoc. unfold display_param at 1. cbv zeta.
    destruct (_ && limited); [done|]. by apply no_empty_add.
Qed.

Lemma elem_of_statuses (ddm : DisplayDisabledMap) path entries name status :
  ddm !! path = Some entries ->
  (name, status) ∈ flat_map (λ kv, statuses kv.2) (range_map entries) <->
  exists kind m, m ∈ entries_at ddm path kind /\ m !! name = Some status.
Proof.
  intros Hp. unfold entries_at. rewrite Hp. cbn [mbind option_bind]. unfold statuses.
  rewrite elem_of_flat_map. setoid_rewrite elem_of_flat_map. split.
  - intros ([kind l] & Hk%elem_of_range_map & m & Hm & Hs%elem_of_range_map).
    exists kind, m. by rewrite Hk.
  - intros (kind & m & Hm & Hs). destruct (entries !! kind) as [l|] eqn:Ek;
      [|by apply not_elem_of_nil in Hm].
    exists (kind, l). split; [by apply elem_of_range_map|]. exists m.
    split; [done|by apply elem_of_range_map].
Qed.

Lemma display_legal (swag : Swagger) config limited :
  validateSchema (MakeDisplayDisabledMapFromConfig swag config limited) = Ok tt.
Proof.
  set (ddm := MakeDisplayDisabledMapFromConfig swag config limited). unfold validateSchema.
  assert (illegal_paths ddm = []) as ->; [|done]. apply filter_none, Forall_forall.
  intros x Hx. apply list_elem_of_fmap_1 in Hx as ([path entries] & -> & Hp%elem_of_range_map).
  cbn [fst snd].
  assert (illegal_types entries = []) as ->.
  { apply filter_none, Forall_forall. intros kind Hk [Hr Ho].
    apply list_elem_of_fmap_1 in Hk as ([k l] & -> & Hk%elem_of_range_map). cbn in Hr, Ho.
    destruct l as [|m l]; [by eapply display_no_empty|].
    assert (m ∈ entries_at ddm path k) as Hm.
    { unfold entries_at. rewrite Hp. cbn [mbind option_bind]. rewrite Hk. left. }
    apply display_spec in Hm as (op & o & p & _ & _ & _ & -> & _). unfold kind_of in *.
    by destruct (PM_Required p). }
  assert (illegal_status entries = []) as ->; [|by intros [|]].
  unfold illegal_status. rewrite filter_none; [done|]. apply Forall_forall. intros [name status] Hs [Hd He].
  apply (elem_of_statuses ddm path entries name status Hp) in Hs as (kind & m & Hm & Hs).
  apply display_spec in Hm as (op & o & p & _ & _ & _ & _ & ->).
  apply lookup_singleton_Some in Hs as [_ <-]. unfold status_of in *. cbn in Hd, He.
  by destruct (isDisabled config path op (PM_Name p)).
Qed.

(** The loop that builds the configuration. *)
Lemma config_loop (l : list (string * gmap string (list (gmap string string)))) path :
  NoDup l.*1 ->
  foldl (λ dmc '(restPath, entries),
    DMC_addEntry dmc restPath MethodGet (disabled_params entries)) MakeDisabledMapConfig l !! path =
  option_map (λ entries, {[ MethodGet := disabled_params entries ]}) ((list_to_map l : gmap _ _) !! path).
Proof.
  induction l as [|[p e] l IH] using rev_ind; intros Hn; [done|].
  rewrite fmap_app in Hn. apply NoDup_app in Hn as (Hn & Hd & _).
  rewrite foldl_snoc. unfold DMC_addEntry at 1. cbn [fst] in Hd.
  rewrite list_to_map_app. assert ((list_to_map l : gmap string (gmap string (list (gmap string string)))) !! p = None) as Hlp.
  { apply not_elem_of_list_to_map_1. intros Hin. apply (Hd p Hin). apply list_elem_of_singleton. done. }
  destruct (decide (p = path)) as [->|Hp].
  - rewrite lookup_insert_eq, (IH Hn), Hlp. cbn.
    rewrite lookup_union_r by done. by rewrite lookup_insert_eq.
  - rewrite lookup_insert_ne, (IH Hn) by done. f_equal. symmetry.
    destruct ((list_to_map l : gmap string _) !! path) as [x|] eqn:E.
    + by apply lookup_union_Some_l.
    + rewrite lookup_union_r by done. cbn. by rewrite lookup_insert_ne.
Qed.

Section Back.
Context (swag : Swagger) (config : DisabledMapConfig) (limited : bool).
Context (Hget : forall path item op o, swag !! path = Some item -> item !! op = Some o -> op = MethodGet).

Definition displayed : DisplayDisabledMap := MakeDisplayDisabledMapFromConfig swag config limited.
Definition read_back : DisabledMapConfig :=
  foldl (λ dmc '(restPath, entries),
    DMC_addEntry dmc restPath MethodGet (disabled_params entries)) MakeDisabledMapConfig
    (range_map displayed).

Lemma read_back_lookup path :
  read_back !! path =
  option_map (λ entries, {[ MethodGet := disabled_params entries ]}) (displayed !! path).
Proof.
  assert (NoDup (range_map displayed).*1) as Hn.
  { rewrite range_map_perm. apply NoDup_fst_map_to_list. }
  unfold read_back. rewrite config_loop by done. f_equal.
  rewrite (list_to_map_proper _ (map_to_list displayed)); [by rewrite list_to_map_to_list|done|apply range_map_perm].
Qed.

Lemma elem_of_disabled_params path entries name :
  displayed !! path = Some entries ->
  name ∈ disabled_params entries <-> exists o p, (path, MethodGet, o) ∈ operations swag /\
    p ∈ Op_Parameters o /\ PM_Name p = name /\ isDisabled config path MethodGet name = true.
Proof.
  intros Hp. unfold disabled_params. split.
  - intros ([n st] & -> & [Hst Hin]%list_elem_of_filter)%list_elem_of_fmap_1. cbn in Hst. subst st.
    apply (elem_of_statuses displayed path entries _ _ Hp) in Hin as (kind & m & Hm & Hs).
    apply display_spec in Hm as (op & o & p & Ho & Hin & _ & _ & ->).
    apply lookup_singleton_Some in Hs as [<- Hs]. exists o, p.
    pose proof Ho as (item & Hi & Hio)%elem_of_operations.
    apply (Hget path item op o Hi) in Hio as ->. split_and!; [done|done|done|].
    unfold status_of in Hs. cbn [fst]. by destruct (isDisabled _ _ _ _).
  - intros (o & p & Ho & Hin & <- & Hd).
    apply (list_elem_of_fmap_2' _ _ (PM_Name p, disabledStatusStr)); [|done].
    apply list_elem_of_filter. split; [done|].
    apply (elem_of_statuses displayed path entries _ _ Hp).
    exists (kind_of p), {[ PM_Name p := disabledStatusStr ]}.
    split; [|apply lookup_singleton_eq]. apply display_spec. exists MethodGet, o, p.
    unfold listed, status_of. rewrite Hd. by split_and!.
Qed.

Lemma displayed_path path entries :
  displayed !! path = Some entries -> exists o, (path, MethodGet, o) ∈ operations swag.
Proof.
  intros Hp. destruct (display_no_empty swag config limited path entries Hp) as [Hne Hl].
  apply map_choose in Hne as (kind & l & Hk). specialize (Hl kind l Hk).
  destruct l as [|m l]; [done|].
  assert (m ∈ entries_at displayed path kind) as Hm.
  { unfold entries_at. rewrite Hp. cbn [mbind option_bind]. rewrite Hk. left. }
  apply display_spec in Hm as (op & o & p & Ho & _). exists o.
  pose proof Ho as (item & Hi & Hio)%elem_of_operations. by apply (Hget path item op o Hi) in Hio as ->.
Qed.

(** The operation of a path is determined by the path. *)
Lemma operation_of path o item o' :
  (path, MethodGet, o) ∈ operations swag -> swag !! path = Some item -> item !! MethodGet = Some o' ->
  o = o'.
Proof. intros (item' & Hi & Ho)%elem_of_operations Hi' Ho'. congruence. Qed.

Lemma read_back_valid : validate read_back swag = Ok tt.
Proof.
  apply validate_ok.
  - intros path ops op params. rewrite read_back_lookup.
    destruct (displayed !! path) as [entries|] eqn:Hp; cbn; [|done]. intros [= <-].
    intros [<- <-]%lookup_singleton_Some.
    destruct (displayed_path path entries Hp) as (o & (item & Hi & Ho)%elem_of_operations).
    exists item, o. split_and!; [done|done|]. intros name.
    rewrite (elem_of_disabled_params path entries name Hp). intros (o' & p & Ho' & Hin & <- & _).
    rewrite (operation_of path o' item o Ho' Hi Ho) in Hin. by apply list_elem_of_fmap_2.
  - intros path ops. rewrite read_back_lookup.
    destruct (displayed !! path) as [entries|] eqn:Hp; cbn; [|done]. intros _.
    destruct (displayed_path path entries Hp) as (o & (item & Hi & Ho)%elem_of_operations). by eexists.
Qed.

Lemma read_back_same path item o p :
  swag !! path = Some item -> item !! MethodGet = Some o -> p ∈ Op_Parameters o ->
  isDisabled read_back path MethodGet (PM_Name p) = isDisabled config path MethodGet (PM_Name p).
Proof.
  intros Hi Ho Hin. assert ((path, MethodGet, o) ∈ operations swag) as Hop.
  { apply elem_of_operations. by exists item. }
  apply eq_bool_prop_intro. unfold isDisabled at 1. rewrite read_back_lookup.
  destruct (displayed !! path) as [entries|] eqn:Hp; cbn [option_map]; unfold default; cbn [from_option].
  - unfold id. rewrite lookup_singleton_eq, bool_decide_spec.
    rewrite (elem_of_disabled_params path entries _ Hp). split.
    + intros (o' & p' & _ & _ & _ & Hd). by rewrite Hd.
    + intros Hd%Is_true_true. by exists o, p.
  - rewrite lookup_empty. split; [done|]. intros Hd%Is_true_true.
    assert ({[ PM_Name p := disabledStatusStr ]} ∈ entries_at displayed path (kind_of p)) as Hm.
    { apply display_spec. exists MethodGet, o, p. unfold listed, status_of. rewrite Hd. by split_and!. }
    unfold entries_at in Hm. rewrite Hp in Hm. by apply not_elem_of_nil in Hm.
Qed.
End Back.

(** What [api-config] prints can be given back to the server: the printed form of a
    configuration, complete or limited to the disabled parameters, is accepted, and
    disables the same parameters of every endpoint. *)
Theorem display_roundtrip (swag : Swagger) config limited :
  (forall path item op o, swag !! path = Some item -> item !! op = Some o -> op = MethodGet) ->
  exists config',
    toDisabledMapConfig (MakeDisplayDisabledMapFromConfig swag config limited) (Some swag) = Ok config' /\
    forall path item o p, swag !! path = Some item -> item !! MethodGet = Some o ->
      p ∈ Op_Parameters o ->
      isDisabled config' path MethodGet (PM_Name p) = isDisabled config path MethodGet (PM_Name p).
Proof.
  intros Hget. exists (read_back swag config limited). split.
  - unfold toDisabledMapConfig. rewrite display_legal. cbn [mbind result_bind].
    fold (displayed swag config limited). fold (read_back swag config limited).
    by rewrite (read_back_valid swag config limited Hget).
  - intros path item o p. by apply read_back_same.
Qed.
End RoundTrip.

(** ** A concrete definition *)

Module SampleApi.
Definition accounts : Operation := {|
  OperationID := "searchForAccounts";
  Op_Parameters := [{| PM_Name := "limit"; PM_Required := false |};
                    {| PM_Name := "online-only"; PM_Required := false |}] |}.
Definition asset : Operation := {|
  OperationID := "lookupAssetTransactions";
  Op_Parameters := [{| PM_Name := "asset-id"; PM_Required := true |}] |}.
Definition swag : Swagger :=
  {[ "/v2/accounts" := {[ MethodGet := accounts ]};
     "/v2/assets/{asset-id}/transactions" := {[ MethodGet := asset ]} ]}.
Definition config : DisabledMapConfig :=
  DMC_addEntry (DMC_addEntry MakeDisabledMapConfig "/v2/accounts" MethodGet ["online-only"])
    "/v2/assets/{asset-id}/transactions" MethodGet ["asset-id"].

Definition request (query : Values) : Params := {| QueryParams := query; FormParams := Ok ∅ |}.
Definition online : Params := request {[ "online-only" := ["true"] ]}.
Definition limited : Params := request {[ "limit" := ["5"] ]}.
End SampleApi.

Section Witnesses.
#[local] Existing Instance table_range.
Import SampleApi.

Lemma sample_operations x :
  x ∈ operations swag ->
  x = ("/v2/accounts", MethodGet, accounts) \/
  x = ("/v2/assets/{asset-id}/transactions", MethodGet, asset).
Proof.
  destruct x as [[path op] o]. rewrite elem_of_operations. intros (item & Hi & Ho).
  unfold swag in Hi. rewrite lookup_insert_Some, lookup_singleton_Some in Hi.
  destruct Hi as [[<- <-]|[_ [<- <-]]]; apply lookup_singleton_Some in Ho as [<- <-]; auto.
Qed.

Lemma sample_unique : unique_ids swag.
Proof.
  intros path op o path' op' o' [[= -> -> ->]|[= -> -> ->]]%sample_operations
    [[= -> -> ->]|[= -> -> ->]]%sample_operations; done.
Qed.

(** What the server makes of the configuration. *)
Definition sample_made : option DisabledMap :=
  match MakeDisabledMapFromOA3 swag (Some config) with Ok (Some dm) => Some dm | _ => None end.
Definition sample_map : DisabledMap := default ∅ sample_made.

Lemma sample_accepted : MakeDisabledMapFromOA3 swag (Some config) = Ok (Some sample_map).
Proof.
  assert (bool_decide (is_Some sample_made) = true) as Hm by (vm_compute; reflexivity).
  apply bool_decide_eq_true in Hm as [dm Hm]. unfold sample_map. rewrite Hm. revert Hm.
  unfold sample_made. destruct (MakeDisabledMapFromOA3 swag (Some config)) as [[dm'|]|e]; [|done|done].
  by intros [= ->].
Qed.

Lemma Verify_enforces_witness :
  MakeDisabledMapFromOA3 swag (Some config) = Ok (Some sample_map) /\
  Verify (Some sample_map) "searchForAccounts" limited = None.
Proof.
  split; [apply sample_accepted|].
  apply (Verify_enforces swag config sample_map "/v2/accounts" MethodGet {[ MethodGet := accounts ]}
           accounts).
  - apply sample_unique.
  - apply sample_accepted.
  - reflexivity.
  - reflexivity.
  - intros p [->|[->|Hn]%elem_of_cons]%elem_of_cons; [by vm_compute|by vm_compute|by apply not_elem_of_nil in Hn].
Defined.

Lemma disabled_entry_effective_witness :
  exists item o, swag !! "/v2/accounts" = Some item /\ item !! MethodGet = Some o /\
    is_Some (Verify (Some sample_map) (OperationID o) online).
Proof.
  apply (disabled_entry_effective swag config sample_map "/v2/accounts" MethodGet "online-only" online).
  - apply sample_unique.
  - apply sample_accepted.
  - vm_compute. reflexivity.
  - vm_compute. reflexivity.
Defined.

Lemma display_roundtrip_witness :
  exists config',
    toDisabledMapConfig (MakeDisplayDisabledMapFromConfig swag config true) (Some swag) = Ok config' /\
    forall path item o p, swag !! path = Some item -> item !! MethodGet = Some o ->
      p ∈ Op_Parameters o ->
      isDisabled config' path MethodGet (PM_Name p) = isDisabled config path MethodGet (PM_Name p).
Proof.
  apply (display_roundtrip swag config true). intros path item op o Hi Ho.
  assert ((path, op, o) ∈ operations swag) as [[= _ -> _]|[= _ -> _]]%sample_operations; [|done|done].
  apply elem_of_operations. by exists item.
Defined.
End Witnesses.
