(* ===== verification/Interface.v ===== *)
(** * The interface [idb.IndexerDb] of the database: [idb/idb.go]

    What the API server may call.  The handlers are written against the class; the
    PostgreSQL implementation is an instance of it. *)

From S2P Require Import Prelude GoStd Sdk Idb Models Util Encoding Db Rewind.
From S2P Require Import TxnQuery BlockQuery ResourceQuery AccountQuery.

(** [Error] is the text of an error, [None] if empty. *)
Record Health := {
  HL_Data : option (gmap string models.interface); HL_Round : Z; HL_IsMigrating : bool;
  HL_DBAvailable : bool; HL_Error : option error }.

(** The methods that the server calls.  A channel of rows is the list of the rows sent on
    it.  [Transactions] is told whether its context is done when it tests it. *)
Class IndexerDb (S : Type) := {
  idb_GetSpecialAccounts : Tx S SpecialAddresses;
  idb_GetBlock : Z -> GetBlockOptions -> Tx S (BlockHeader * list TxnRow);
  idb_BlockHeaders : BlockHeaderFilter -> Tx S (list BlockRow * Z);
  idb_Transactions : bool -> TransactionFilter -> Tx S (list TxnRow * Z);
  idb_GetAccounts : AccountQueryOptions -> Tx S (list AccountRow * Z);
  idb_Assets : AssetsQuery -> Tx S (list AssetRow * Z);
  idb_AssetBalances : AssetBalanceQuery -> Tx S (list AssetBalanceRow * Z);
  idb_Applications : ApplicationQuery -> Tx S (list ApplicationRow * Z);
  idb_AppLocalState : ApplicationQuery -> Tx S (list AppLocalStateRow * Z);
  idb_ApplicationBoxes : ApplicationBoxQuery -> Tx S (list ApplicationBoxRow * Z);
  idb_Health : Tx S Health }.

(** What [accounting.AccountAtRound] is given. *)
Definition rewind_db {S} `{IndexerDb S} (cancelled : bool) : RewindDb S := {|
  db_GetSpecialAccounts := idb_GetSpecialAccounts;
  db_Transactions := idb_Transactions cancelled |}.
