(* ===== verification/Health.v ===== *)
(** * Opening the database, its health and its singletons: [idb/postgres/postgres.go]

    [openPostgres] and [init] set up or migrate a database when the process starts;
    [Health] reports whether it may be used, from the state that the running migration
    publishes or from the stored one; [GetSpecialAccounts] and the network state are
    single documents of the table [metastate]. *)

From Stdlib Require Import Sorted.
From S2P Require Import Prelude GoStd Sdk Idb Models Util Encoding Db WriteTxn Writer Postgres.
From S2P Require Import Rewind Migration TxnQuery BlockQuery ResourceQuery AccountQuery Interface.

(** ** Singletons *)

Section Singletons.
Context `{Codec SpecialAddresses} `{Codec NetworkState}.

Definition GetSpecialAccounts : Tx tables SpecialAddresses :=
  cache <-- tx_wrap "GetSpecialAccounts() err: %w" (GetMetastate SpecialAccountsMetastateKey);
  lift (wrap "GetSpecialAccounts() problem decoding, cache: '%s' err: %w"
          (DecodeSpecialAddresses cache)).

(** [idb.NetworkState] has the genesis hash of [types.NetworkState]. *)
Definition GetNetworkState : Tx tables Digest :=
  state <-- tx_wrap "GetNetworkState() err: %w" getNetworkState;
  tx_ret (NS_GenesisHash state).

Definition SetNetworkState (gh : Digest) : Tx tables unit :=
  setNetworkState {| NS_GenesisHash := gh |}.
End Singletons.

(** ** [Health] *)

Section Health.
Context `{Codec MigrationState} `{Codec ImportState}.

(** [db.readonly], and [db.migration.GetStatus()] if there is a migration. *)
Context (readonly : bool) (migration : option State).

Definition health_data (status : string) (migrationRequired : bool) : gmap string models.interface :=
  <["migration-required" := models.i_bool migrationRequired]>
  ((if bool_decide (status = "") then λ m, m
    else insert "migration-status" (models.i_string status))
   (if readonly then {[ "read-only-mode" := models.i_bool true ]} else ∅)).

(** The last lines: an uninitialized database has round 0, another error is returned. *)
Definition health_round (data : gmap string models.interface) (migrating blocking : bool)
    (err : option error) : Tx tables Health :=
  round <-- tx_try getMaxRoundAccounted;
  let answer round := {|
    HL_Data := Some data; HL_Round := round; HL_IsMigrating := migrating;
    HL_DBAvailable := negb blocking; HL_Error := err |} in
  match round with
  | Ok round => tx_ret (answer round)
  | Err e => if bool_decide (e = ErrorNotInitialized) then tx_ret (answer 0) else tx_err e
  end.

Definition Health : Tx tables Interface.Health :=
  match migration with
  | Some state =>
      health_round (health_data (St_Status state) (St_Running state)) (St_Running state)
        (St_Blocking state) (St_Err state)
  | None =>
      state <-- getMigrationState;
      health_round (health_data "" (needsMigration state)) false (migrationStateBlocked state) None
  end.
End Health.

(** ** Opening the database *)

Section Open.
Context `{Codec MigrationState} (cad_RunMigration : Tx tables unit).

(** A server without the schema is [None]. *)
Definition isSetup (s : option tables) (fs : faults) : result bool * faults :=
  let '(r, _, fs) := db_call (λ s, match s with
                                   | Some _ => Ok (tt, s)
                                   | None => Err ErrNoRows
                                   end) s fs in
  match r with
  | Ok _ => (Ok true, fs)
  | Err e => if bool_decide (e = ErrNoRows) then (Ok false, fs)
             else (Err (ErrWrap "isSetup() err: %w" e), fs)
  end.

Definition empty_schema : tables := {|
  t_block_header := ∅; t_account := ∅; t_account_asset := ∅; t_asset := ∅; t_app := ∅;
  t_account_app := ∅; t_app_box := ∅; t_metastate := ∅ |}.

(** What [init] leaves: the migration, if there is one, and what the channel saw. *)
Record Opened := { op_migration : option State; op_trace : list event }.

Definition init (s : option tables) (fs : faults) : result Opened * option tables * faults :=
  let '(setup, fs) := isSetup s fs in
  match setup, s with
  | Err e, _ => (Err (ErrWrap "init() err: %w" e), s, fs)
  | Ok true, Some t =>
      let '(r, t, fs) := runAvailableMigrations cad_RunMigration t fs in
      match r with
      | Err e => (Err e, Some t, fs)
      | Ok (state, trace) =>
          (Ok {| op_migration := Some state; op_trace := trace |}, Some t, fs)
      end
  | _, _ =>
      (* new database, run setup *)
      let '(r, s, fs) := db_call (λ s : option tables,
                           Ok (tt, Some (default empty_schema s))) s fs in
      match r, s with
      | Ok _, Some t =>
          let '(r, w) := markMigrationsAsDone
                           {| mw_state := emptyMigrationState; mw_tables := t; mw_faults := fs |} in
          match r with
          | Err _ => (Err (ErrMsg "unable to confirm migration: %v"), Some (mw_tables w), mw_faults w)
          | Ok _ =>
              (Ok {| op_migration := None; op_trace := [Close] |}, Some (mw_tables w), mw_faults w)
          end
      | _, _ => (Err (ErrMsg "unable to setup postgres: %v"), s, fs)
      end
  end.

(** In read-only mode the channel is closed unless a blocking migration is left. *)
Definition openPostgres (readOnly : bool) (s : option tables) (fs : faults)
    : result Opened * option tables * faults :=
  if readOnly then
    match s with
    | None =>
        (* undefined_table *)
        (Err (ErrWrap "openPostgres() err: %w" (ErrWrap "getMigrationState() get state err: %w"
                (ErrWrap "GetMetastate() err: %w" (ErrPg "42P01")))), s, tail fs)
    | Some t =>
        let '(r, t, fs) := getMigrationState t fs in
        match r with
        | Err e => (Err (ErrWrap "openPostgres() err: %w" e), Some t, fs)
        | Ok state =>
            (Ok {| op_migration := None;
                   op_trace := if migrationStateBlocked state then [] else [Close] |}, Some t, fs)
        end
    end
  else
    let '(r, s, fs) := init s fs in
    match r with
    | Err _ => (Err (ErrMsg "initializing postgres: %v"), s, fs)
    | Ok o => (Ok o, s, fs)
    end.
End Open.

(** ** When the database is available *)

(** The state of a migration before its first task. *)
Lemma pending_blocks {W} (tasks : list (Task W)) : St_Blocking (m_state (MakeMigration tasks).2) = true.
Proof.
  unfold MakeMigration, setTasks. by destruct (check_tasks tasks ∅ 0 0) as [r b].
Qed.

Section Available.
Context {W : Type}.

Lemma run_tasks_blocking b (tasks : list (Task W)) w s w' trace pre st post from :
  ascending tasks from -> Forall (λ t, DBUnavailable t = true -> MigrationID t <= b) tasks ->
  run_tasks b tasks true w = (s, w', trace) -> trace = pre ++ Publish st :: post ->
  St_Blocking st = false ->
  forall t, t ∈ tasks -> DBUnavailable t = true -> Run (MigrationID t) (Ok tt) ∈ pre.
Proof.
  revert w s w' trace pre from. induction tasks as [|t tasks IH];
    intros w s w' trace pre from [_ Hss] Hall; [by intros _ _ _ t ?%elem_of_nil|].
  apply Forall_cons in Hall as [Ht Hall]. apply StronglySorted_inv in Hss as [Hss Hlt]. cbn.
  destruct (Z.ltb_spec b (MigrationID t)) as [Hb|Hb].
  - (* no task from here on is blocking *)
    intros _ _ _ u Hu Hd. exfalso. apply elem_of_cons in Hu as [->|Hu]; [specialize (Ht Hd); lia|].
    rewrite Forall_forall in Hall, Hlt. specialize (Hall u Hu Hd). specialize (Hlt u Hu). lia.
  - destruct (Handler t w) as [[[]|e] w1].
    + destruct (run_tasks b tasks true w1) as [[s2 w2] tr2] eqn:E. intros [= <- <- <-]. cbn.
      destruct pre as [|x1 [|x2 pre]]; intros Htr Hst; simplify_eq/=.
      intros u [->|Hu]%elem_of_cons Hd; [by right; left|]. do 2 right.
      eapply (IH _ _ _ _ pre (MigrationID t)); [|done|exact E|done|done|done|done].
      split; [|done]. eapply Forall_impl; [exact Hlt|]. cbn. lia.
    + intros [= <- <- <-]. cbn. intros Htr Hst. exfalso.
      destruct pre as [|x1 [|x2 [|x3 pre]]]; simplify_eq/=. by destruct pre.
Qed.
End Available.

Section Theorems.
Context `{Codec MigrationState} `{Codec ImportState}.

Lemma health_round_available data migrating blocking err t fs h t' fs' :
  health_round data migrating blocking err t fs = (Ok h, t', fs') -> HL_DBAvailable h = negb blocking.
Proof.
  unfold health_round, tx_bind, tx_try. destruct (getMaxRoundAccounted t fs) as [[[round|e] t1] fs1].
  - by intros [= <- _ _].
  - case_bool_decide; by intros [= <- _ _].
Qed.

Lemma getMigrationState_Ok t fs state t' fs' :
  getMigrationState t fs = (Ok state, t', fs') ->
  exists doc, t_metastate t !! MigrationMetastateKey = Some doc /\ DecodeMigrationState doc = Ok state.
Proof.
  unfold getMigrationState, tx_bind, tx_try.
  destruct (GetMetastate MigrationMetastateKey t fs) as [[[doc|e] t1] fs1] eqn:Hg; [|by case_bool_decide].
  apply GetMetastate_Ok in Hg as [-> Hl]. exists doc. split; [done|].
  destruct (DecodeMigrationState doc); [|done]. cbn in *. congruence.
Qed.

Lemma migrationStateBlocked_true state i mig :
  (Z.to_nat (NextMigration state) <= i)%nat -> migrations !! i = Some mig -> blocking mig = true ->
  migrationStateBlocked state = true.
Proof.
  intros Hi Hm Hb. unfold migrationStateBlocked. apply existsb_exists. exists mig. split; [|done].
  apply list_elem_of_In, list_elem_of_lookup. exists (i - Z.to_nat (NextMigration state))%nat.
  rewrite lookup_drop. replace (_ + _)%nat with i by lia. done.
Qed.

Lemma available_only_after {W} tasks (m : Migration W) w s w' trace pre st post
    readonly t fs h t' fs' :
  MakeMigration tasks = (Ok tt, m) -> runMigrations m w = (s, w', trace) ->
  st = m_state m /\ pre = [] \/ trace = pre ++ Publish st :: post ->
  Health readonly (Some st) t fs = (Ok h, t', fs') -> HL_DBAvailable h = true ->
  forall task, task ∈ tasks -> DBUnavailable task = true -> Run (MigrationID task) (Ok tt) ∈ pre.
Proof.
  intros Hm Hr Hst Hh Ha. apply health_round_available in Hh. rewrite Ha in Hh.
  symmetry in Hh. apply negb_true_iff in Hh. pose proof (pending_blocks tasks) as Hp.
  rewrite Hm in Hp. cbn in Hp. destruct Hst as [[-> _]|Htr]; [congruence|].
  unfold MakeMigration, setTasks, runMigrations in *.
  destruct (check_tasks tasks ∅ 0 0) as [r b] eqn:Ec. injection Hm as -> <-. cbn in Hr.
  apply check_tasks_Ok in Ec as (Hasc & _ & _ & Hall); [|set_solver|lia].
  by eapply run_tasks_blocking.
Qed.

(** The schema with the record that no migration is needed. *)
Definition new_schema : tables :=
  set_metastate empty_schema
    (<[MigrationMetastateKey := EncodeMigrationState
         (with_next emptyMigrationState (Z.of_nat (length migrations)))]> ∅).

(** A new database is set up once: after a first [init] without faults the channel is
    closed, no migration is left, and opening the database again, for writing or
    reading, runs no task and closes the channel. *)
Theorem init_then_reopen cad :
  (let done := with_next emptyMigrationState (Z.of_nat (length migrations)) in
   DecodeJSON (encodeJSON done) = Ok done) ->
  exists t, init cad None [] = (Ok {| op_migration := None; op_trace := [Close] |}, Some t, []) /\
  forall readOnly, exists o, openPostgres cad readOnly (Some t) [] = (Ok o, Some t, []) /\
    Close ∈ op_trace o /\ forall id r, Run id r ∉ op_trace o.
Proof.
  intros Hjson. exists new_schema. split; [reflexivity|]. intros readOnly. set (t := new_schema).
  assert (getMigrationState t [] =
    (Ok (with_next emptyMigrationState (Z.of_nat (length migrations))), t, [])) as Hg.
  { unfold getMigrationState, GetMetastate, tx_bind, tx_try, db_call.
    assert (t_metastate t !! MigrationMetastateKey = Some (EncodeMigrationState
      (with_next emptyMigrationState (Z.of_nat (length migrations))))) as -> by reflexivity.
    cbn [tx_ret]. unfold DecodeMigrationState, EncodeMigrationState. by rewrite Hjson. }
  destruct readOnly; unfold openPostgres.
  - rewrite Hg. eexists. split; [reflexivity|]. split; [by left|].
    intros id r Hin. by apply list_elem_of_singleton in Hin.
  - unfold init, isSetup. cbn [db_call tail]. unfold runAvailableMigrations. rewrite Hg.
    eexists. split; [reflexivity|]. cbn. split; [by right; left|].
    intros id r [?|[?|Hn]%elem_of_cons]%elem_of_cons; [done|done|by apply not_elem_of_nil in Hn].
Qed.
End Theorems.

Section Witnesses.
#[local] Instance done_codec : Codec MigrationState :=
  one_document (with_next emptyMigrationState (Z.of_nat (length migrations))).

Lemma init_then_reopen_witness : exists t,
  init (tx_ret tt) None [] = (Ok {| op_migration := None; op_trace := [Close] |}, Some t, []) /\
  forall readOnly, exists o, openPostgres (tx_ret tt) readOnly (Some t) [] = (Ok o, Some t, []) /\
    Close ∈ op_trace o /\ forall id r, Run id r ∉ op_trace o.
Proof. apply (init_then_reopen (tx_ret tt)). reflexivity. Defined.
End Witnesses.
