(* ===== verification/Handlers.v ===== *)
(** * The handlers of the API: [api/handlers.go], [api/util.go]

    Each handler checks and converts the parameters of a request, queries the database
    through the interface [IndexerDb] and answers with a JSON object and a status.  A
    handler is a function of the state of the process; its result is the response, or the
    error [ErrPanic] when the goroutine panics.  The functions [fetch...] collect the rows
    of a channel, up to the first that carries an error. *)

From S2P Require Import Prelude GoStd Sdk Idb Models Util Encoding Db WriteTxn Writer Postgres Rewind.
From S2P Require Import Sql TxnQuery BlockQuery ResourceQuery AccountQuery Params Convert Disabled Interface.

(** ** Messages of [error_messages.go] *)

Definition errFailedSearchingAccount : string := "failed while searching for account".
Definition errFailedSearchingAsset : string := "failed while searching for asset".
Definition errFailedSearchingAssetBalances : string := "failed while searching for asset balances".
Definition errFailedSearchingApplication : string := "failed while searching for application".
Definition errFailedSearchingBoxes : string := "failed while searching for application boxes".
Definition errFailedLookingUpHealth : string := "failed while getting indexer health".
Definition errNoApplicationsFound : string := "no application found for application-id".
Definition ErrNoBoxesFound : string := "no application boxes found".
Definition ErrWrongAppidFound : string :=
  "the wrong application-id was found, please contact us, this shouldn't happen".
Definition ErrWrongBoxFound : string :=
  "a box with an unexpected name was found, please contact us, this shouldn't happen".
Definition ErrNoAccountsFound : string := "no accounts found for address".
Definition errNoAssetsFound : string := "no assets found for asset-id".
Definition errNoTransactionFound : string := "no transaction found for transaction id".
Definition errMultipleTransactions : string :=
  "multiple transactions found for this txid, please contact us, this shouldn't happen".
Definition errMultipleAccounts : string :=
  "multiple accounts found for this address, please contact us, this shouldn't happen".
Definition errMultipleAssets : string :=
  "multiple assets found for this id, please contact us, this shouldn't happen".
Definition errMultipleApplications : string :=
  "multiple applications found for this id, please contact us, this shouldn't happen".
Definition ErrMultipleBoxes : string :=
  "multiple application boxes found for this app id and box name, please contact us, this shouldn't happen".
Definition ErrFailedLookingUpBoxes : string := "failed while looking up application boxes".
Definition errMultiAcctRewind : string := "multiple accounts rewind is not supported by this server".
Definition errOnlineOnlyRewind : string :=
  "simultaneously rewinding and searching for online accounts is not supported".
Definition errOnlineOnlyDeleted : string :=
  "simultaneously searching for online and deleted accounts is not supported".
Definition errRewindingAccount : string := "error while rewinding account".
Definition errLookingUpBlockForRound : string := "error while looking up block for round".
Definition errBlockHeaderSearch : string := "error while searching for block headers".
Definition errTransactionSearch : string := "error while searching for transaction".
Definition errTransactionsLimitReached : string :=
  "Max transactions limit exceeded. header-only flag should be enabled".

(** ** Responses *)

Definition StatusOK : Z := 200.
Definition StatusBadRequest : Z := 400.
Definition StatusNotFound : Z := 404.
Definition StatusInternalServerError : Z := 500.
Definition StatusServiceUnavailable : Z := 503.

(** [ctx.JSON] of a body, of an [ErrorResponse] with the text of an error, or of a
    complete [ErrorResponse]. *)
Inductive Response (A : Type) :=
| R_OK (body : A)
| R_Error (status : Z) (message : error)
| R_ErrorData (status : Z) (body : models.ErrorResponse).
Arguments R_OK {A} _.
Arguments R_Error {A} _ _.
Arguments R_ErrorData {A} _ _.

Definition badRequest {A} (err : error) : Response A := R_Error StatusBadRequest err.
Definition notFound {A} (err : error) : Response A := R_Error StatusNotFound err.
Definition timeoutError {A} (err : error) : Response A := R_Error StatusServiceUnavailable err.

Definition errTimeout : error := ErrSentinel "timeout during call".
Definition isTimeoutError (err : error) : bool := errors_is err errTimeout.
Definition context_Canceled : error := ErrSentinel "context canceled".

Definition indexerError {A} (err : error) : Response A :=
  if isTimeoutError err then timeoutError err else R_Error StatusInternalServerError err.

(** [errors.As] for [idb.MaxAPIResourcesPerAccountError]. *)
Fixpoint errors_as_resources (e : error) : option (string * Z * Z * Z * Z) :=
  match e with
  | ErrMaxAPIResources addr localStates appParams assets assetParams =>
      Some (addr, localStates, appParams, assets, assetParams)
  | ErrWrap _ e => errors_as_resources e
  | _ => None
  end.

(** ** Calls with a timeout *)

(** How the select of [callWithTimeout] goes: whether the deadline has passed when it
    returns, whether the call is done before the context, and whether the call finds its
    context done when it looks. *)
Record Call := { call_deadline : bool; call_done : bool; call_cancelled : bool }.

(** The call runs in a goroutine of its own; a panic in it ends the process.  No timeout
    if [timeout] is 0. *)
Definition callWithTimeout {S A} (timeout : Z) (c : Call) (handler : Tx S A) : Tx S A := λ s fs,
  if timeout =? 0 then handler s fs
  else
    match handler s fs with
    | (Err (ErrPanic what), s, fs) => (Err (ErrPanic what), s, fs)
    | (r, s, fs) =>
        (if call_deadline c then Err errTimeout
         else if call_done c then r else Err context_Canceled, s, fs)
    end.

(** The error of a call as a value; a panic is not one. *)
Definition attempt {S A} (m : Tx S A) : Tx S (result A) := λ s fs,
  match m s fs with
  | (Err (ErrPanic what), s, fs) => (Err (ErrPanic what), s, fs)
  | (r, s, fs) => (Ok r, s, fs)
  end.

(** ** Rows of a channel *)

(** The loop over a channel: the first row with an error, or that cannot be converted,
    ends it. *)
Fixpoint convert_rows {R B} (err : R -> option error) (f : R -> result B) (rows : list R)
    : result (list B) :=
  match rows with
  | [] => Ok []
  | row :: rows =>
      match err row with
      | Some e => Err e
      | None => x ← f row; xs ← convert_rows err f rows; Ok (x :: xs)
      end
  end.

(** ** The server *)

(** [dataError]: the function, if it is set, and what it returns. *)
Record ServerImplementation := {
  EnableAddressSearchRoundRewind : bool; dataError : option (option error);
  si_timeout : Z; disabledParams : option DisabledMap; opts : ExtraOptions }.

(** What a request brings: its parameters, for [Verify], and how its call goes. *)
Record Request := { rq_params : Disabled.Params; rq_call : Call }.

(** [apps.NewAppCallBytes] and [AppCallBytes.Raw] of avm-abi, and [version.Version]. *)
Class ApiOps := {
  AppCallBytes : Type;
  NewAppCallBytes : string -> result AppCallBytes;
  AppCallBytes_Raw : AppCallBytes -> result string;
  Version : string;
  (** the text of an error *)
  Error_text : error -> string }.

(** [options.GreaterThanAddress = addr[:]] *)
Definition set_greater_than (o : AccountQueryOptions) (addr : string) : AccountQueryOptions := {|
  AO_GreaterThanAddress := addr; AO_EqualToAddress := AO_EqualToAddress o;
  AO_EqualToAuthAddr := AO_EqualToAuthAddr o; AO_OnlineOnly := AO_OnlineOnly o;
  AO_AlgosGreaterThan := AO_AlgosGreaterThan o; AO_AlgosLessThan := AO_AlgosLessThan o;
  AO_HasAssetID := AO_HasAssetID o; AO_AssetGT := AO_AssetGT o; AO_AssetLT := AO_AssetLT o;
  AO_HasAppID := AO_HasAppID o; AO_IncludeAssetHoldings := AO_IncludeAssetHoldings o;
  AO_IncludeAssetParams := AO_IncludeAssetParams o;
  AO_IncludeAppLocalState := AO_IncludeAppLocalState o;
  AO_IncludeAppParams := AO_IncludeAppParams o; AO_MaxResources := AO_MaxResources o;
  AO_IncludeDeleted := AO_IncludeDeleted o; AO_Limit := AO_Limit o |}.

Section Handlers.
Context {S : Type} `{IndexerDb S} `{SdkOps} `{UnicodeOps} `{MapRange} `{ApiOps}.
Context (si : ServerImplementation) (rq : Request).

Abbreviation W := (World S) (only parsing).

Definition call {A} (handler : Tx W A) : Tx W A := callWithTimeout (si_timeout si) (rq_call rq) handler.

(** ** Fetching *)

Definition fetch {Q R B} (query : Q -> Tx S (list R * Z)) (err : R -> option error)
    (f : R -> result B) (q : Q) : Tx W (list B * Z) :=
  call (
    found <-- on_db (query q);
    xs <-- lift (convert_rows err f found.1);
    tx_ret (xs, found.2)).

Definition fetchApplications : ApplicationQuery -> Tx W (list models.Application * Z) :=
  fetch idb_Applications ApR_Error (λ row, Ok (ApR_Application row)).

Definition fetchAppLocalStates : ApplicationQuery -> Tx W (list models.ApplicationLocalState * Z) :=
  fetch idb_AppLocalState LsR_Error (λ row, Ok (LsR_AppLocalState row)).

Definition asset_model (row : AssetRow) : models.Asset :=
  let p := AsR_Params row in
  {| models.Asset_CreatedAtRound := AsR_CreatedRound row;
     models.Asset_Deleted := AsR_Deleted row;
     models.Asset_DestroyedAtRound := AsR_ClosedRound row;
     models.Asset_Index := AsR_AssetID row;
     models.Asset_Params := {|
       models.AssetParams_Clawback := strPtr (AddressString (AP_Clawback p));
       models.AssetParams_Creator := AddressString (AsR_Creator row);
       models.AssetParams_Decimals := AP_Decimals p;
       models.AssetParams_DefaultFrozen := boolPtr (AP_DefaultFrozen p);
       models.AssetParams_Freeze := strPtr (AddressString (AP_Freeze p));
       models.AssetParams_Manager := strPtr (AddressString (AP_Manager p));
       models.AssetParams_MetadataHash := byteSliceOmitZeroPtr (AP_MetadataHash p);
       models.AssetParams_Name := strPtr (PrintableUTF8OrEmpty (AP_AssetName p));
       models.AssetParams_NameB64 := byteSlicePtr (AP_AssetName p);
       models.AssetParams_Reserve := strPtr (AddressString (AP_Reserve p));
       models.AssetParams_Total := AP_Total p;
       models.AssetParams_UnitName := strPtr (PrintableUTF8OrEmpty (AP_UnitName p));
       models.AssetParams_UnitNameB64 := byteSlicePtr (AP_UnitName p);
       models.AssetParams_Url := strPtr (PrintableUTF8OrEmpty (AP_URL p));
       models.AssetParams_UrlB64 := byteSlicePtr (AP_URL p) |} |}.

(** [copy(creator[:], row.Creator)] is for an address of the right length. *)
Definition asset_of_row (row : AssetRow) : result models.Asset :=
  if negb (bool_decide (String.length (AsR_Creator row) = 32%nat)) then
    Err (ErrMsg errInvalidCreatorAddress)
  else Ok (asset_model row).

Definition fetchAssets : AssetsQuery -> Tx W (list models.Asset * Z) :=
  fetch idb_Assets AsR_Error asset_of_row.

Definition balance_model (row : AssetBalanceRow) : models.MiniAssetHolding := {|
  models.MiniAssetHolding_Address := AddressString (BaR_Address row);
  models.MiniAssetHolding_Amount := BaR_Amount row;
  models.MiniAssetHolding_Deleted := BaR_Deleted row;
  models.MiniAssetHolding_IsFrozen := BaR_Frozen row;
  models.MiniAssetHolding_OptedInAtRound := BaR_CreatedRound row;
  models.MiniAssetHolding_OptedOutAtRound := BaR_ClosedRound row |}.

Definition balance_of_row (row : AssetBalanceRow) : result models.MiniAssetHolding :=
  if negb (bool_decide (String.length (BaR_Address row) = 32%nat)) then
    Err (ErrMsg errInvalidCreatorAddress)
  else Ok (balance_model row).

Definition fetchAssetBalances : AssetBalanceQuery -> Tx W (list models.MiniAssetHolding * Z) :=
  fetch idb_AssetBalances BaR_Error balance_of_row.

Definition holding_model (row : AssetBalanceRow) : models.AssetHolding := {|
  models.AssetHolding_Amount := BaR_Amount row;
  models.AssetHolding_AssetId := BaR_AssetID row;
  models.AssetHolding_Deleted := BaR_Deleted row;
  models.AssetHolding_IsFrozen := BaR_Frozen row;
  models.AssetHolding_OptedInAtRound := BaR_CreatedRound row;
  models.AssetHolding_OptedOutAtRound := BaR_ClosedRound row |}.

Definition holding_of_row (row : AssetBalanceRow) : result models.AssetHolding :=
  if negb (bool_decide (String.length (BaR_Address row) = 32%nat)) then
    Err (ErrMsg errInvalidCreatorAddress)
  else Ok (holding_model row).

Definition fetchAssetHoldings : AssetBalanceQuery -> Tx W (list models.AssetHolding * Z) :=
  fetch idb_AssetBalances BaR_Error holding_of_row.

(** The boxes with the round set, and the first application that is not 0. *)
Fixpoint box_loop (round : Z) (rows : list ApplicationBoxRow) (appid : Z)
    : result (Z * list models.Box) :=
  match rows with
  | [] => Ok (appid, [])
  | row :: rows =>
      match BxR_Error row with
      | Some e => Err e
      | None =>
          let appid := if appid =? 0 then BxR_App row else appid in
          let box := {| models.Box_Name := models.Box_Name (BxR_Box row);
                        models.Box_Round := round;
                        models.Box_Value := models.Box_Value (BxR_Box row) |} in
          rest ← box_loop round rows appid;
          Ok (rest.1, box :: rest.2)
      end
  end.

(** The application and the boxes, or the error, and the round in both cases; after a
    timeout the round is not used. *)
Definition fetchApplicationBoxes (params : ApplicationBoxQuery)
    : Tx W (result (Z * list models.Box) * Z) :=
  out <-- attempt (call (
    found <-- on_db (idb_ApplicationBoxes params);
    tx_ret (box_loop found.2 found.1 0, found.2)));
  match out with
  | Ok out => tx_ret out
  | Err e => tx_ret (Err e, 0)
  end.

Definition isSpecialAccountRewindError (e : error) : bool :=
  match e with ErrSpecialAccountRewind _ => true | _ => false end.

(** [account.Rewards += account.PendingRewards]: the algod equivalent includes them. *)
Definition with_pending (a : models.Account) : models.Account :=
  models.set_Account_Rewards a
    (wrap64 (models.Account_Rewards a + models.Account_PendingRewards a)).

(** The accounts, rewound to [atRound] if one is asked for.  In a search, the accounts
    that are never rewound are left out. *)
Fixpoint account_loop (options : AccountQueryOptions) (atRound : option Z)
    (rows : list AccountRow) : Tx W (list models.Account) :=
  match rows with
  | [] => tx_ret []
  | row :: rows =>
      match AcR_Error row with
      | Some e => tx_err e
      | None =>
          account <-- match atRound with
                      | None => tx_ret (Ok (AcR_Account row))
                      | Some round =>
                          attempt (AccountAtRound (AcR_Account row) round
                                     (rewind_db (call_cancelled (rq_call rq))))
                      end;
          match account with
          | Err e =>
              if negb (bool_decide (AO_EqualToAddress options = "")) ||
                 negb (isSpecialAccountRewindError e)
              then tx_err (ErrMsg (errRewindingAccount +:+ ": %v"))
              else account_loop options atRound rows
          | Ok account =>
              rest <-- account_loop options atRound rows;
              tx_ret (with_pending account :: rest)
          end
      end
  end.

Definition fetchAccounts (options : AccountQueryOptions) (atRound : option Z)
    : Tx W (list models.Account * Z) :=
  call (
    found <-- on_db (idb_GetAccounts options);
    if match atRound with Some r => found.2 <? r | None => false end then
      tx_err (ErrMsg (errRewindingAccount +:+ ": the requested round %d > the current round %d"))
    else
      accounts <-- account_loop options atRound found.1;
      tx_ret (accounts, found.2)).

(** The transactions with the rows they come from.  The root transaction is added once,
    unless inner transactions are wanted as they are. *)
Fixpoint txn_loop (skip : bool) (rows : list TxnRow) (rootTxnDedupeMap : gset string)
    : result (list (models.Transaction * TxnRow)) :=
  match rows with
  | [] => Ok []
  | txrow :: rows =>
      tx ← txnRowToTransaction txrow;
      match models.Transaction_Id tx with
      | None => Err (ErrPanic "nil pointer dereference")
      | Some id =>
          if bool_decide (id ∈ rootTxnDedupeMap) && negb skip then
            txn_loop skip rows rootTxnDedupeMap
          else
            rest ← txn_loop skip rows ({[ id ]} ∪ rootTxnDedupeMap);
            Ok ((tx, txrow) :: rest)
      end
  end.

(** The transactions, the token of the last row used, "" without one, and the round. *)
Definition fetchTransactions (filter : TransactionFilter)
    : Tx W (list models.Transaction * string * Z) :=
  call (
    found <-- on_db (idb_Transactions (call_cancelled (rq_call rq)) filter);
    results <-- lift (txn_loop (TF_SkipInnerTransactionConversion filter) found.1 ∅);
    nextToken <-- match last results with
                  | None => tx_ret ""
                  | Some (_, lastTxrow) =>
                      lift (TxnRow_Next lastTxrow (bool_decide (TF_Address filter = None)))
                  end;
    tx_ret (map fst results, nextToken, found.2)).

Definition fetchBlockHeaders (bf : BlockHeaderFilter) : Tx W (list models.Block * string * Z) :=
  call (
    found <-- on_db (idb_BlockHeaders bf);
    results <-- lift (convert_rows BKR_Error hdrRowToBlock found.1);
    nextToken <-- match last found.1 with
                  | None => tx_ret ""
                  | Some lastRow => lift (BlockRow_Next lastRow)
                  end;
    tx_ret (results, nextToken, found.2)).

Definition fetchBlock (round : Z) (options : GetBlockOptions) : Tx W models.Block :=
  call (
    found <-- on_db (idb_GetBlock round options);
    let '(blockHeader, transactions) := found in
    tracking <-- lift (tracking_array (BH_StateProofTracking blockHeader));
    results <-- lift (map_result txnRowToTransaction transactions);
    tx_ret (block_model blockHeader tracking (Some results))).

(** ** Parts of handlers *)

Definition verifyHandler (operationID : string) : option error :=
  Verify (disabledParams si) operationID (rq_params rq).

(** The first lines of a handler: disabled parameters, then values that do not fit. *)
Definition guarded {A} (operationID : string) (tooLarge : bool) (k : Tx W (Response A))
    : Tx W (Response A) :=
  match verifyHandler operationID with
  | Some err => tx_ret (badRequest err)
  | None => if tooLarge then tx_ret (notFound (ErrMsg errValueExceedingInt64)) else k
  end.

(** [if err != nil { return badRequest(ctx, ...) }] *)
Definition or_bad {A B} (r : result B) (msg : error -> error) (k : B -> Tx W (Response A))
    : Tx W (Response A) :=
  match r with Err err => tx_ret (badRequest (msg err)) | Ok x => k x end.

(** [if err != nil { return indexerError(ctx, fmt.Errorf("%s: %w", msg, err)) }] *)
Definition or_fail {A B} (msg : string) (m : Tx W B) (k : B -> Tx W (Response A))
    : Tx W (Response A) :=
  r <-- attempt m;
  match r with
  | Err err => tx_ret (indexerError (ErrWrap (msg +:+ ": %w") err))
  | Ok x => k x
  end.

(** The token of the last element. *)
Definition next_of {B} (token : B -> string) (l : list B) : option string :=
  match last l with Some x => strPtr (token x) | None => None end.

(** The one element of a list. *)
Definition exactly_one {A B} (l : list B) (none many : string) (k : B -> Response A) : Response A :=
  match l with
  | [] => notFound (ErrMsg none)
  | [x] => k x
  | _ => indexerError (ErrMsg many)
  end.

(** ** Health *)

Definition MakeHealthCheck : Tx W (Response models.HealthCheck) :=
  or_fail errFailedLookingUpHealth (call (on_db idb_Health)) (λ health,
  let errors :=
    match HL_Error health with Some e => ["database error: " +:+ Error_text e] | None => [] end ++
    match dataError si with Some (Some e) => ["data error: " +:+ Error_text e] | _ => [] end in
  tx_ret (R_OK {|
    models.HealthCheck_Data := HL_Data health;
    models.HealthCheck_DbAvailable := HL_DBAvailable health;
    models.HealthCheck_Errors := strArrayPtr errors;
    models.HealthCheck_IsMigrating := HL_IsMigrating health;
    models.HealthCheck_Message := FormatUint (HL_Round health);
    models.HealthCheck_Round := HL_Round health;
    models.HealthCheck_Version := Version |})).

(** ** Accounts *)

Definition addr_msg (err : error) : error := ErrMsg (errUnableToParseAddress +:+ ": %v").
Definition next_msg (err : error) : error := ErrMsg errUnableToParseNext.

Definition exclude_options (exclude : option (list string)) (o : AccountQueryOptions)
    : result AccountQueryOptions :=
  match exclude with Some l => setExcludeQueryOptions l o | None => Ok o end.

(** The error of a search for accounts. *)
Definition account_failure {A} (err : error) : Response A :=
  match errors_as_resources err with
  | Some (addr, localStates, appParams, assets, assetParams) =>
      R_ErrorData StatusBadRequest
        (maxAccountsErrorToAccountsErrorResponse (opts si) addr localStates appParams assets
           assetParams)
  | None => indexerError (ErrWrap (errFailedSearchingAccount +:+ ": %w") err)
  end.

Definition LookupAccountByID (accountID : string) (params : models.LookupAccountByIDParams)
    : Tx W (Response models.AccountResponse) :=
  guarded "LookupAccountByID" (exceeds (models.LookupAccountByIDParams_Round params)) (
  or_bad (DecodeAddress accountID) addr_msg (λ addr,
  or_bad (exclude_options (models.LookupAccountByIDParams_Exclude params) {|
            AO_GreaterThanAddress := ""; AO_EqualToAddress := addr; AO_EqualToAuthAddr := "";
            AO_OnlineOnly := false; AO_AlgosGreaterThan := None; AO_AlgosLessThan := None;
            AO_HasAssetID := 0; AO_AssetGT := None; AO_AssetLT := None; AO_HasAppID := 0;
            AO_IncludeAssetHoldings := true; AO_IncludeAssetParams := true;
            AO_IncludeAppLocalState := true; AO_IncludeAppParams := true;
            AO_MaxResources := EO_MaxAPIResourcesPerAccount (opts si);
            AO_IncludeDeleted := boolOrDefault (models.LookupAccountByIDParams_IncludeAll params);
            AO_Limit := 1 |}) id (λ options,
  found <-- attempt (fetchAccounts options (models.LookupAccountByIDParams_Round params));
  match found with
  | Err err => tx_ret (account_failure err)
  | Ok (accounts, round) =>
      tx_ret (exactly_one accounts (ErrNoAccountsFound +:+ ": %s") (errMultipleAccounts +:+ ": %s")
        (λ account, R_OK {| models.AccountResponse_Account := account;
                            models.AccountResponse_CurrentRound := round |}))
  end))).

(** The options of a search, before [exclude] and the token: the amounts are those of the
    asset, if one is given. *)
Definition search_options (params : models.SearchForAccountsParams) (spendingAddr : string)
    : AccountQueryOptions :=
  let gt := models.SearchForAccountsParams_CurrencyGreaterThan params in
  let lt := models.SearchForAccountsParams_CurrencyLessThan params in
  let hasAsset := uintOrDefault (models.SearchForAccountsParams_AssetId params) in
  {| AO_GreaterThanAddress := ""; AO_EqualToAddress := "";
     AO_EqualToAuthAddr := spendingAddr;
     AO_OnlineOnly := boolOrDefault (models.SearchForAccountsParams_OnlineOnly params);
     AO_AlgosGreaterThan := if hasAsset =? 0 then gt else None;
     AO_AlgosLessThan := if hasAsset =? 0 then lt else None;
     AO_HasAssetID := hasAsset;
     AO_AssetGT := if hasAsset =? 0 then None else gt;
     AO_AssetLT := if hasAsset =? 0 then None else lt;
     AO_HasAppID := uintOrDefault (models.SearchForAccountsParams_ApplicationId params);
     AO_IncludeAssetHoldings := true; AO_IncludeAssetParams := true;
     AO_IncludeAppLocalState := true; AO_IncludeAppParams := true;
     AO_MaxResources := EO_MaxAPIResourcesPerAccount (opts si);
     AO_IncludeDeleted := boolOrDefault (models.SearchForAccountsParams_IncludeAll params);
     AO_Limit := limit_of (models.SearchForAccountsParams_Limit params)
                   (EO_DefaultAccountsLimit (opts si)) (EO_MaxAccountsLimit (opts si)) |}.

Definition SearchForAccounts (params : models.SearchForAccountsParams)
    : Tx W (Response models.AccountsResponse) :=
  let atRound := models.SearchForAccountsParams_Round params in
  let onlineOnly := boolOrDefault (models.SearchForAccountsParams_OnlineOnly params) in
  let includeAll := boolOrDefault (models.SearchForAccountsParams_IncludeAll params) in
  guarded "SearchForAccounts"
    (exceeds (models.SearchForAccountsParams_AssetId params) ||
     exceeds (models.SearchForAccountsParams_ApplicationId params) || exceeds atRound) (
  if negb (EnableAddressSearchRoundRewind si) && bool_decide (is_Some atRound) then
    tx_ret (badRequest (ErrMsg errMultiAcctRewind))
  else if bool_decide (is_Some atRound) && onlineOnly then
    tx_ret (badRequest (ErrMsg errOnlineOnlyRewind))
  else if onlineOnly && includeAll then tx_ret (badRequest (ErrMsg errOnlineOnlyDeleted))
  else
  or_bad (match models.SearchForAccountsParams_AuthAddr params with
          | Some a => DecodeAddress a
          | None => Ok ""
          end) (λ _, ErrMsg "unable to parse auth addr: %v") (λ spendingAddr,
  or_bad (exclude_options (models.SearchForAccountsParams_Exclude params)
            (search_options params spendingAddr)) id (λ options,
  or_bad (match models.SearchForAccountsParams_Next params with
          | Some next => DecodeAddress next
          | None => Ok ""
          end) next_msg (λ after,
  found <-- attempt (fetchAccounts (set_greater_than options after) atRound);
  match found with
  | Err err => tx_ret (account_failure err)
  | Ok (accounts, round) =>
      tx_ret (R_OK {| models.AccountsResponse_Accounts := accounts;
                      models.AccountsResponse_CurrentRound := round;
                      models.AccountsResponse_NextToken := next_of models.Account_Address accounts |})
  end)))).

(** ** Applications *)

Definition SearchForApplications (params : models.SearchForApplicationsParams)
    : Tx W (Response models.ApplicationsResponse) :=
  guarded "SearchForApplications" (exceeds (models.SearchForApplicationsParams_ApplicationId params)) (
  or_bad (appParamsToApplicationQuery (opts si) params) id (λ options,
  or_fail errFailedSearchingApplication (fetchApplications options) (λ '(apps, round),
  tx_ret (R_OK {|
    models.ApplicationsResponse_Applications := apps;
    models.ApplicationsResponse_CurrentRound := round;
    models.ApplicationsResponse_NextToken :=
      next_of (λ a, FormatUint (models.Application_Id a)) apps |})))).

Definition app_search (accountID : string) (applicationId : option Z) (includeAll : option bool)
    (limit : option Z) (next : option string) : models.SearchForApplicationsParams := {|
  models.SearchForApplicationsParams_ApplicationId := applicationId;
  models.SearchForApplicationsParams_Creator := Some accountID;
  models.SearchForApplicationsParams_IncludeAll := includeAll;
  models.SearchForApplicationsParams_Limit := limit;
  models.SearchForApplicationsParams_Next := next |}.

Definition LookupAccountCreatedApplications (accountID : string)
    (params : models.LookupAccountCreatedApplicationsParams)
    : Tx W (Response models.ApplicationsResponse) :=
  guarded "LookupAccountCreatedApplications"
    (exceeds (models.LookupAccountCreatedApplicationsParams_ApplicationId params)) (
  SearchForApplications
    (app_search accountID (models.LookupAccountCreatedApplicationsParams_ApplicationId params)
       (models.LookupAccountCreatedApplicationsParams_IncludeAll params)
       (models.LookupAccountCreatedApplicationsParams_Limit params)
       (models.LookupAccountCreatedApplicationsParams_Next params))).

Definition LookupAccountAppLocalStates (accountID : string)
    (params : models.LookupAccountAppLocalStatesParams)
    : Tx W (Response models.ApplicationLocalStatesResponse) :=
  guarded "LookupAccountAppLocalStates"
    (exceeds (models.LookupAccountAppLocalStatesParams_ApplicationId params)) (
  or_bad (appParamsToApplicationQuery (opts si)
            (app_search accountID (models.LookupAccountAppLocalStatesParams_ApplicationId params)
               (models.LookupAccountAppLocalStatesParams_IncludeAll params)
               (models.LookupAccountAppLocalStatesParams_Limit params)
               (models.LookupAccountAppLocalStatesParams_Next params))) id (λ options,
  or_fail errFailedSearchingApplication (fetchAppLocalStates options) (λ '(apps, round),
  tx_ret (R_OK {|
    models.ApplicationLocalStatesResponse_AppsLocalStates := apps;
    models.ApplicationLocalStatesResponse_CurrentRound := round;
    models.ApplicationLocalStatesResponse_NextToken :=
      next_of (λ a, FormatUint (models.ApplicationLocalState_Id a)) apps |})))).

Definition LookupApplicationByID (applicationID : Z) (params : models.LookupApplicationByIDParams)
    : Tx W (Response models.ApplicationResponse) :=
  guarded "LookupApplicationByID" (MaxInt64 <? applicationID) (
  or_fail errFailedSearchingApplication
    (fetchApplications {|
       PQ_Address := None; PQ_ApplicationID := uint64Ptr applicationID;
       PQ_ApplicationIDGreaterThan := None;
       PQ_IncludeDeleted := boolOrDefault (models.LookupApplicationByIDParams_IncludeAll params);
       PQ_Limit := 1 |}) (λ '(apps, round),
  tx_ret (exactly_one apps (errNoApplicationsFound +:+ ": %d") (errMultipleApplications +:+ ": %d")
    (λ app, R_OK {| models.ApplicationResponse_Application := Some app;
                    models.ApplicationResponse_CurrentRound := round |})))).

(** ** Boxes *)

(** [apps.NewAppCallBytes(name)] and [Raw]. *)
Definition app_call_bytes (encoded : string) : result string :=
  b ← as_msg "received illegal box name (%s): %s" (NewAppCallBytes encoded);
  AppCallBytes_Raw b.

Definition LookupApplicationBoxByIDAndName (applicationID : Z)
    (params : models.LookupApplicationBoxByIDAndNameParams) : Tx W (Response models.Box) :=
  guarded "LookupApplicationBoxByIDAndName" (MaxInt64 <? applicationID) (
  or_bad (app_call_bytes (models.LookupApplicationBoxByIDAndNameParams_Name params)) id (λ boxName,
  found <-- fetchApplicationBoxes {|
    XQ_ApplicationID := applicationID; XQ_BoxName := Some boxName; XQ_OmitValues := false;
    XQ_Limit := 0; XQ_PrevFinalBox := None |};
  match found with
  | (Err err, round) =>
      tx_ret (if bool_decide (err = sqlErrNoRows) then
                notFound (ErrMsg (errNoApplicationsFound +:+ ": round=%d, appid=%d, boxName=%s"))
              else indexerError (ErrWrap (ErrFailedLookingUpBoxes +:+ ": %w") err))
  | (Ok (appid, []), round) => tx_ret (indexerError (ErrMsg ErrFailedLookingUpBoxes))
  | (Ok (appid, box :: more), round) =>
      let name := default "" (models.Box_Name box) in
      tx_ret (
        if negb (appid =? applicationID) then indexerError (ErrMsg ErrWrongAppidFound)
        else if negb (bool_decide (more = [])) then indexerError (ErrMsg ErrMultipleBoxes)
        else if bool_decide (name = "") && negb (bool_decide (boxName = "")) then
          notFound (ErrMsg ErrNoBoxesFound)
        else if negb (bool_decide (name = boxName)) then indexerError (ErrMsg ErrWrongBoxFound)
        else R_OK box)
  end)).

(** The token of a box: the base64 form of its name, which is none for the empty name. *)
Definition box_token (box : models.Box) : option string :=
  match models.Box_Name box with
  | None => None
  | Some name => match strPtr (Base64 name) with
                 | Some encoded => strPtr ("b64:" +:+ encoded)
                 | None => None
                 end
  end.

Definition box_descriptor (includeValues : bool) (box : models.Box) : option models.BoxDescriptor :=
  match models.Box_Name box with
  | None => None
  | Some name => Some {| models.BoxDescriptor_Name := name;
                         models.BoxDescriptor_Value :=
                           if includeValues then Some (models.Box_Value box) else None |}
  end.

Definition SearchForApplicationBoxes (applicationID : Z)
    (params : models.SearchForApplicationBoxesParams) : Tx W (Response models.BoxesResponse) :=
  guarded "SearchForApplicationBoxes" (MaxInt64 <? applicationID) (
  let includeValues :=
    match models.SearchForApplicationBoxesParams_Include params with
    | Some l => bool_decide ("values" ∈ (l : list string))
    | None => false
    end in
  or_bad (match models.SearchForApplicationBoxesParams_Next params with
          | Some encoded => Some <$> app_call_bytes encoded
          | None => Ok None
          end) id (λ prevBox,
  found <-- fetchApplicationBoxes {|
    XQ_ApplicationID := applicationID; XQ_BoxName := None; XQ_OmitValues := negb includeValues;
    XQ_Limit := limit_of (models.SearchForApplicationBoxesParams_Limit params)
                  (EO_DefaultBoxesLimit (opts si)) (EO_MaxBoxesLimit (opts si));
    XQ_PrevFinalBox := prevBox |};
  let '(boxes, round) := found in
  let happyResponse boxes next := R_OK {|
    models.BoxesResponse_ApplicationId := applicationID; models.BoxesResponse_Boxes := boxes;
    models.BoxesResponse_NextToken := next; models.BoxesResponse_Round := Some round |} in
  match boxes with
  | Err err =>
      tx_ret (if bool_decide (err = sqlErrNoRows) then happyResponse [] None
              else indexerError (ErrWrap (errFailedSearchingBoxes +:+ ": %w") err))
  | Ok (appid, boxes) =>
      tx_ret match last boxes with
             | None => indexerError (ErrMsg errFailedSearchingBoxes)
             | Some final =>
                 if negb (appid =? applicationID) then indexerError (ErrMsg ErrWrongAppidFound)
                 else happyResponse (omap (box_descriptor includeValues) boxes) (box_token final)
             end
  end)).

(** ** Transactions *)

(** The filter of the parameters, after validation. *)
Definition valid_filter (adjust : TransactionFilter -> TransactionFilter)
    (params : models.SearchForTransactionsParams) : result TransactionFilter :=
  filter ← transactionParamsToTransactionFilter (opts si) params;
  match validateTransactionFilter (adjust filter) with
  | Some err => Err err
  | None => Ok (adjust filter)
  end.

Definition SearchForTransactions (params : models.SearchForTransactionsParams)
    : Tx W (Response models.TransactionsResponse) :=
  guarded "SearchForTransactions"
    (exceeds (models.SearchForTransactionsParams_AssetId params) ||
     exceeds (models.SearchForTransactionsParams_ApplicationId params) ||
     exceeds (models.SearchForTransactionsParams_Round params)) (
  or_bad (valid_filter id params) id (λ filter,
  or_fail errTransactionSearch (fetchTransactions filter) (λ '(txns, next, round),
  tx_ret (R_OK {| models.TransactionsResponse_CurrentRound := round;
                  models.TransactionsResponse_NextToken := strPtr next;
                  models.TransactionsResponse_Transactions := txns |})))).

Definition account_txn_search (accountID : string) (p : models.LookupAccountTransactionsParams)
    : models.SearchForTransactionsParams := {|
  models.SearchForTransactionsParams_Limit := models.LookupAccountTransactionsParams_Limit p;
  models.SearchForTransactionsParams_Next := models.LookupAccountTransactionsParams_Next p;
  models.SearchForTransactionsParams_NotePrefix := models.LookupAccountTransactionsParams_NotePrefix p;
  models.SearchForTransactionsParams_TxType := models.LookupAccountTransactionsParams_TxType p;
  models.SearchForTransactionsParams_SigType := models.LookupAccountTransactionsParams_SigType p;
  models.SearchForTransactionsParams_GroupId := None;
  models.SearchForTransactionsParams_Txid := models.LookupAccountTransactionsParams_Txid p;
  models.SearchForTransactionsParams_Round := models.LookupAccountTransactionsParams_Round p;
  models.SearchForTransactionsParams_MinRound := models.LookupAccountTransactionsParams_MinRound p;
  models.SearchForTransactionsParams_MaxRound := models.LookupAccountTransactionsParams_MaxRound p;
  models.SearchForTransactionsParams_AssetId := models.LookupAccountTransactionsParams_AssetId p;
  models.SearchForTransactionsParams_BeforeTime := models.LookupAccountTransactionsParams_BeforeTime p;
  models.SearchForTransactionsParams_AfterTime := models.LookupAccountTransactionsParams_AfterTime p;
  models.SearchForTransactionsParams_CurrencyGreaterThan :=
    models.LookupAccountTransactionsParams_CurrencyGreaterThan p;
  models.SearchForTransactionsParams_CurrencyLessThan :=
    models.LookupAccountTransactionsParams_CurrencyLessThan p;
  models.SearchForTransactionsParams_Address := strPtr accountID;
  models.SearchForTransactionsParams_AddressRole := None;
  models.SearchForTransactionsParams_ExcludeCloseTo := None;
  models.SearchForTransactionsParams_RekeyTo := models.LookupAccountTransactionsParams_RekeyTo p;
  models.SearchForTransactionsParams_ApplicationId := None |}.

Definition LookupAccountTransactions (accountID : string)
    (params : models.LookupAccountTransactionsParams) : Tx W (Response models.TransactionsResponse) :=
  guarded "LookupAccountTransactions"
    (exceeds (models.LookupAccountTransactionsParams_AssetId params) ||
     exceeds (models.LookupAccountTransactionsParams_Round params)) (
  or_bad (DecodeAddress accountID) addr_msg (λ _,
  SearchForTransactions (account_txn_search accountID params))).

Definition asset_txn_search (assetID : Z) (p : models.LookupAssetTransactionsParams)
    : models.SearchForTransactionsParams := {|
  models.SearchForTransactionsParams_Limit := models.LookupAssetTransactionsParams_Limit p;
  models.SearchForTransactionsParams_Next := models.LookupAssetTransactionsParams_Next p;
  models.SearchForTransactionsParams_NotePrefix := models.LookupAssetTransactionsParams_NotePrefix p;
  models.SearchForTransactionsParams_TxType := models.LookupAssetTransactionsParams_TxType p;
  models.SearchForTransactionsParams_SigType := models.LookupAssetTransactionsParams_SigType p;
  models.SearchForTransactionsParams_GroupId := None;
  models.SearchForTransactionsParams_Txid := models.LookupAssetTransactionsParams_Txid p;
  models.SearchForTransactionsParams_Round := models.LookupAssetTransactionsParams_Round p;
  models.SearchForTransactionsParams_MinRound := models.LookupAssetTransactionsParams_MinRound p;
  models.SearchForTransactionsParams_MaxRound := models.LookupAssetTransactionsParams_MaxRound p;
  models.SearchForTransactionsParams_AssetId := uint64Ptr assetID;
  models.SearchForTransactionsParams_BeforeTime := models.LookupAssetTransactionsParams_BeforeTime p;
  models.SearchForTransactionsParams_AfterTime := models.LookupAssetTransactionsParams_AfterTime p;
  models.SearchForTransactionsParams_CurrencyGreaterThan :=
    models.LookupAssetTransactionsParams_CurrencyGreaterThan p;
  models.SearchForTransactionsParams_CurrencyLessThan :=
    models.LookupAssetTransactionsParams_CurrencyLessThan p;
  models.SearchForTransactionsParams_Address := models.LookupAssetTransactionsParams_Address p;
  models.SearchForTransactionsParams_AddressRole := models.LookupAssetTransactionsParams_AddressRole p;
  models.SearchForTransactionsParams_ExcludeCloseTo :=
    models.LookupAssetTransactionsParams_ExcludeCloseTo p;
  models.SearchForTransactionsParams_RekeyTo := models.LookupAssetTransactionsParams_RekeyTo p;
  models.SearchForTransactionsParams_ApplicationId := None |}.

Definition LookupAssetTransactions (assetID : Z) (params : models.LookupAssetTransactionsParams)
    : Tx W (Response models.TransactionsResponse) :=
  guarded "LookupAssetTransactions"
    ((MaxInt64 <? assetID) || exceeds (models.LookupAssetTransactionsParams_Round params)) (
  SearchForTransactions (asset_txn_search assetID params)).

Definition txid_search (txid : option string) : models.SearchForTransactionsParams := {|
  models.SearchForTransactionsParams_Limit := None; models.SearchForTransactionsParams_Next := None;
  models.SearchForTransactionsParams_NotePrefix := None;
  models.SearchForTransactionsParams_TxType := None;
  models.SearchForTransactionsParams_SigType := None;
  models.SearchForTransactionsParams_GroupId := None;
  models.SearchForTransactionsParams_Txid := txid; models.SearchForTransactionsParams_Round := None;
  models.SearchForTransactionsParams_MinRound := None;
  models.SearchForTransactionsParams_MaxRound := None;
  models.SearchForTransactionsParams_AssetId := None;
  models.SearchForTransactionsParams_BeforeTime := None;
  models.SearchForTransactionsParams_AfterTime := None;
  models.SearchForTransactionsParams_CurrencyGreaterThan := None;
  models.SearchForTransactionsParams_CurrencyLessThan := None;
  models.SearchForTransactionsParams_Address := None;
  models.SearchForTransactionsParams_AddressRole := None;
  models.SearchForTransactionsParams_ExcludeCloseTo := None;
  models.SearchForTransactionsParams_RekeyTo := None;
  models.SearchForTransactionsParams_ApplicationId := None |}.

Definition LookupTransaction (txid : string) : Tx W (Response models.TransactionResponse) :=
  guarded "LookupTransaction" false (
  or_bad (valid_filter id (txid_search (strPtr txid))) id (λ filter,
  or_fail errTransactionSearch (fetchTransactions filter) (λ '(txns, _, round),
  tx_ret (exactly_one txns (errNoTransactionFound +:+ ": %s") (errMultipleTransactions +:+ ": %s")
    (λ txn, R_OK {| models.TransactionResponse_CurrentRound := round;
                    models.TransactionResponse_Transaction := txn |}))))).

Definition logs_search (applicationID : Z) (p : models.LookupApplicationLogsByIDParams)
    : models.SearchForTransactionsParams := {|
  models.SearchForTransactionsParams_Limit := models.LookupApplicationLogsByIDParams_Limit p;
  models.SearchForTransactionsParams_Next := models.LookupApplicationLogsByIDParams_Next p;
  models.SearchForTransactionsParams_NotePrefix := None;
  models.SearchForTransactionsParams_TxType := None;
  models.SearchForTransactionsParams_SigType := None;
  models.SearchForTransactionsParams_GroupId := None;
  models.SearchForTransactionsParams_Txid := models.LookupApplicationLogsByIDParams_Txid p;
  models.SearchForTransactionsParams_Round := None;
  models.SearchForTransactionsParams_MinRound := models.LookupApplicationLogsByIDParams_MinRound p;
  models.SearchForTransactionsParams_MaxRound := models.LookupApplicationLogsByIDParams_MaxRound p;
  models.SearchForTransactionsParams_AssetId := None;
  models.SearchForTransactionsParams_BeforeTime := None;
  models.SearchForTransactionsParams_AfterTime := None;
  models.SearchForTransactionsParams_CurrencyGreaterThan := None;
  models.SearchForTransactionsParams_CurrencyLessThan := None;
  models.SearchForTransactionsParams_Address := models.LookupApplicationLogsByIDParams_SenderAddress p;
  models.SearchForTransactionsParams_AddressRole := None;
  models.SearchForTransactionsParams_ExcludeCloseTo := None;
  models.SearchForTransactionsParams_RekeyTo := None;
  models.SearchForTransactionsParams_ApplicationId := uint64Ptr applicationID |}.

(** [AddressRole], [SkipInnerTransactionConversion] and [RequireApplicationLogs]: the logs
    of inner transactions are returned instead of those of their roots. *)
Definition logs_filter (f : TransactionFilter) : TransactionFilter := {|
  TF_SkipOptimization := TF_SkipOptimization f; TF_Address := TF_Address f;
  TF_AddressRole := AddressRoleSender; TF_MinRound := TF_MinRound f; TF_MaxRound := TF_MaxRound f;
  TF_AfterTime := TF_AfterTime f; TF_BeforeTime := TF_BeforeTime f; TF_TypeEnum := TF_TypeEnum f;
  TF_Txid := TF_Txid f; TF_Round := TF_Round f; TF_Offset := TF_Offset f;
  TF_OffsetLT := TF_OffsetLT f; TF_OffsetGT := TF_OffsetGT f; TF_SigType := TF_SigType f;
  TF_NotePrefix := TF_NotePrefix f; TF_GroupID := TF_GroupID f; TF_AlgosGT := TF_AlgosGT f;
  TF_AlgosLT := TF_AlgosLT f; TF_RekeyTo := TF_RekeyTo f; TF_AssetID := TF_AssetID f;
  TF_AssetAmountGT := TF_AssetAmountGT f; TF_AssetAmountLT := TF_AssetAmountLT f;
  TF_ApplicationID := TF_ApplicationID f; TF_EffectiveAmountGT := TF_EffectiveAmountGT f;
  TF_EffectiveAmountLT := TF_EffectiveAmountLT f; TF_NextToken := TF_NextToken f;
  TF_Limit := TF_Limit f; TF_SkipInnerTransactionConversion := true;
  TF_SkipInnerTransactions := TF_SkipInnerTransactions f; TF_HeaderOnly := TF_HeaderOnly f;
  TF_RequireApplicationLogs := true |}.

Definition log_data (txn : models.Transaction) : result (list models.ApplicationLogData) :=
  match models.Transaction_Logs txn with
  | None | Some [] => Ok []
  | Some logs =>
      match models.Transaction_Id txn with
      | None => Err (ErrPanic "nil pointer dereference")
      | Some id => Ok [{| models.ApplicationLogData_Logs := logs;
                          models.ApplicationLogData_Txid := id |}]
      end
  end.

Definition LookupApplicationLogsByID (applicationID : Z)
    (params : models.LookupApplicationLogsByIDParams)
    : Tx W (Response models.ApplicationLogsResponse) :=
  guarded "LookupApplicationLogsByID" (MaxInt64 <? applicationID) (
  or_bad (valid_filter logs_filter (logs_search applicationID params)) id (λ filter,
  or_fail errTransactionSearch (fetchTransactions filter) (λ '(txns, next, round),
  data <-- lift (map_result log_data txns);
  tx_ret (R_OK {|
    models.ApplicationLogsResponse_ApplicationId := applicationID;
    models.ApplicationLogsResponse_CurrentRound := round;
    models.ApplicationLogsResponse_LogData :=
      match concat data with [] => None | l => Some l end;
    models.ApplicationLogsResponse_NextToken := strPtr next |})))).

(** ** Assets *)

Definition SearchForAssets (params : models.SearchForAssetsParams)
    : Tx W (Response models.AssetsResponse) :=
  guarded "SearchForAssets" (exceeds (models.SearchForAssetsParams_AssetId params)) (
  or_bad (assetParamsToAssetQuery (opts si) params) id (λ options,
  or_fail errFailedSearchingAsset (fetchAssets options) (λ '(assets, round),
  tx_ret (R_OK {|
    models.AssetsResponse_Assets := assets; models.AssetsResponse_CurrentRound := round;
    models.AssetsResponse_NextToken := next_of (λ a, FormatUint (models.Asset_Index a)) assets |})))).

Definition LookupAccountCreatedAssets (accountID : string)
    (params : models.LookupAccountCreatedAssetsParams) : Tx W (Response models.AssetsResponse) :=
  guarded "LookupAccountCreatedAssets"
    (exceeds (models.LookupAccountCreatedAssetsParams_AssetId params)) (
  SearchForAssets {|
    models.SearchForAssetsParams_IncludeAll := models.LookupAccountCreatedAssetsParams_IncludeAll params;
    models.SearchForAssetsParams_Limit := models.LookupAccountCreatedAssetsParams_Limit params;
    models.SearchForAssetsParams_Next := models.LookupAccountCreatedAssetsParams_Next params;
    models.SearchForAssetsParams_Creator := Some accountID;
    models.SearchForAssetsParams_Name := None; models.SearchForAssetsParams_Unit := None;
    models.SearchForAssetsParams_AssetId := models.LookupAccountCreatedAssetsParams_AssetId params |}).

Definition LookupAssetByID (assetID : Z) (params : models.LookupAssetByIDParams)
    : Tx W (Response models.AssetResponse) :=
  guarded "LookupAssetByID" (MaxInt64 <? assetID) (
  or_bad (assetParamsToAssetQuery (opts si) {|
            models.SearchForAssetsParams_IncludeAll := models.LookupAssetByIDParams_IncludeAll params;
            models.SearchForAssetsParams_Limit := uint64Ptr 1;
            models.SearchForAssetsParams_Next := None; models.SearchForAssetsParams_Creator := None;
            models.SearchForAssetsParams_Name := None; models.SearchForAssetsParams_Unit := None;
            models.SearchForAssetsParams_AssetId := uint64Ptr assetID |}) id (λ options,
  or_fail errFailedSearchingAsset (fetchAssets options) (λ '(assets, round),
  tx_ret (exactly_one assets (errNoAssetsFound +:+ ": %d") (errMultipleAssets +:+ ": %d")
    (λ asset, R_OK {| models.AssetResponse_Asset := asset;
                      models.AssetResponse_CurrentRound := round |}))))).

Definition LookupAccountAssets (accountID : string) (params : models.LookupAccountAssetsParams)
    : Tx W (Response models.AssetHoldingsResponse) :=
  guarded "LookupAccountAssets" (exceeds (models.LookupAccountAssetsParams_AssetId params)) (
  or_bad (DecodeAddress accountID) addr_msg (λ addr,
  or_bad (match models.LookupAccountAssetsParams_Next params with
          | Some next => Some <$> ParseUint next
          | None => Ok None
          end) (λ _, ErrMsg (errUnableToParseNext +:+ ": %v")) (λ assetGreaterThan,
  or_fail errFailedSearchingAssetBalances (fetchAssetHoldings {|
      BQ_AssetID := models.LookupAccountAssetsParams_AssetId params;
      BQ_AssetIDGT := assetGreaterThan; BQ_AmountGT := None; BQ_AmountLT := None;
      BQ_Address := Some addr;
      BQ_IncludeDeleted := boolOrDefault (models.LookupAccountAssetsParams_IncludeAll params);
      BQ_Limit := limit_of (models.LookupAccountAssetsParams_Limit params)
                    (EO_DefaultBalancesLimit (opts si)) (EO_MaxBalancesLimit (opts si));
      BQ_PrevAddress := "" |}) (λ '(assets, round),
  tx_ret (R_OK {|
    models.AssetHoldingsResponse_Assets := assets;
    models.AssetHoldingsResponse_CurrentRound := round;
    models.AssetHoldingsResponse_NextToken :=
      next_of (λ a, FormatUint (models.AssetHolding_AssetId a)) assets |}))))).

Definition LookupAssetBalances (assetID : Z) (params : models.LookupAssetBalancesParams)
    : Tx W (Response models.AssetBalancesResponse) :=
  guarded "LookupAssetBalances" (MaxInt64 <? assetID) (
  or_bad (match models.LookupAssetBalancesParams_Next params with
          | Some next => DecodeAddress next
          | None => Ok ""
          end) next_msg (λ prevAddress,
  or_fail errFailedSearchingAssetBalances (fetchAssetBalances {|
      BQ_AssetID := Some assetID; BQ_AssetIDGT := None;
      BQ_AmountGT := models.LookupAssetBalancesParams_CurrencyGreaterThan params;
      BQ_AmountLT := models.LookupAssetBalancesParams_CurrencyLessThan params;
      BQ_Address := None;
      BQ_IncludeDeleted := boolOrDefault (models.LookupAssetBalancesParams_IncludeAll params);
      BQ_Limit := limit_of (models.LookupAssetBalancesParams_Limit params)
                    (EO_DefaultBalancesLimit (opts si)) (EO_MaxBalancesLimit (opts si));
      BQ_PrevAddress := prevAddress |}) (λ '(balances, round),
  tx_ret (R_OK {|
    models.AssetBalancesResponse_Balances := balances;
    models.AssetBalancesResponse_CurrentRound := round;
    models.AssetBalancesResponse_NextToken :=
      next_of models.MiniAssetHolding_Address balances |})))).

(** ** Blocks *)

Definition LookupBlock (roundNumber : Z) (params : models.LookupBlockParams)
    : Tx W (Response models.Block) :=
  guarded "LookupBlock" (MaxInt64 <? roundNumber) (
  blk <-- attempt (fetchBlock roundNumber {|
    GBO_Transactions := negb (boolOrDefault (models.LookupBlockParams_HeaderOnly params));
    GBO_MaxTransactionsLimit := EO_MaxTransactionsLimit (opts si) |});
  match blk with
  | Ok blk => tx_ret (R_OK blk)
  | Err err =>
      tx_ret (if errors_is err ErrMaxTransactions then
                badRequest (ErrMsg errTransactionsLimitReached)
              else if errors_is err ErrorBlockNotFound then
                notFound (ErrMsg (errLookingUpBlockForRound +:+ " '%d': %v"))
              else indexerError (ErrWrap (errLookingUpBlockForRound +:+ " '%d': %w") err))
  end).

Definition SearchForBlockHeaders (params : models.SearchForBlockHeadersParams)
    : Tx W (Response models.BlockHeadersResponse) :=
  guarded "SearchForBlockHeaders" false (
  or_bad (blockParamsToBlockFilter (opts si) params) id (λ filter,
  or_bad (match validateBlockFilter filter with Some err => Err err | None => Ok tt end) id (λ _,
  or_fail errBlockHeaderSearch (fetchBlockHeaders filter) (λ '(blockHeaders, next, round),
  tx_ret (R_OK {|
    models.BlockHeadersResponse_Blocks := blockHeaders;
    models.BlockHeadersResponse_CurrentRound := round;
    models.BlockHeadersResponse_NextToken := strPtr next |}))))).
End Handlers.
