(* ===== verification/Client.v ===== *)
(** * A client of the API

    A client asks for a page of results, and for the next one with the token of the
    answer, until there is no token.  What it sees is stated against what the database
    promises: the record [Paged] of a query, and completeness under failures. *)

From Stdlib Require Import Sorted.
From S2P Require Import Prelude GoStd Sdk Idb Models Util Encoding Db WriteTxn Writer Postgres Rewind.
From S2P Require Import Sql TxnQuery BlockQuery ResourceQuery AccountQuery Params Convert Disabled.
From S2P Require Import Interface Handlers.

(** ** Following the tokens *)

Section Collect.
Context {A : Type} (ask : option string -> option (list A * option string)).

(** The items of all pages; [None] after an answer that is an error. *)
Fixpoint collect (fuel : nat) (token : option string) : option (list A) :=
  match fuel with
  | O => None
  | S n =>
      match ask token with
      | None => None
      | Some (items, None) => Some items
      | Some (items, Some next) => option_map (app items) (collect n (Some next))
      end
  end.

(** The answer for a list of rows. *)
Definition page_of {R} (item : R -> A) (next : R -> string) (rows : list R)
    : list A * option string := (map item rows, option_map next (last rows)).

Lemma collect_all {R} (item : R -> A) (next : R -> string)
    (lt : R -> R -> Prop) `{!RelDecision lt} `{!StrictOrder lt} n l fuel :
  StronglySorted lt l -> (0 < n)%nat ->
  ask None = Some (page_of item next (take n l)) ->
  (forall x, x ∈ l -> ask (Some (next x)) = Some (page_of item next (take n (filter (lt x) l)))) ->
  (length l < fuel)%nat ->
  collect fuel None = Some (map item l).
Proof.
  intros Hs Hn Hnone Hsome.
  assert (forall fuel pre post token, l = pre ++ post ->
            ask token = Some (page_of item next (take n post)) ->
            (length post < fuel)%nat -> collect fuel token = Some (map item post)) as Hc.
  { intros f. induction f as [|f IH]; intros pre post token Hl Hask Hf; [lia|]. cbn.
    rewrite Hask. unfold page_of. destruct (last (take n post)) as [x|] eqn:Hlast; cbn.
    - apply last_Some in Hlast as [page Hpage].
      pose proof (take_drop n post) as Hpost. rewrite Hpage in Hpost |- *.
      assert (l = (pre ++ page) ++ x :: drop n post) as Hl'.
      { rewrite Hl, <- Hpost at 1. by rewrite <- !(assoc_L (++)). }
      rewrite (IH ((pre ++ page) ++ [x]) (drop n post)).
      + cbn. by rewrite <- map_app, Hpost.
      + rewrite Hl'. by rewrite <- (assoc_L (++) (pre ++ page)).
      + rewrite Hsome by (rewrite Hl'; apply elem_of_app; right; left). do 3 f_equal.
        rewrite Hl' in Hs |- *. by apply filter_after.
      + apply (f_equal length) in Hpost. rewrite !length_app in Hpost. cbn in Hpost. lia.
    - apply last_None in Hlast. rewrite Hlast. destruct n, post; try done; lia. }
  by apply (Hc fuel []).
Qed.
End Collect.

(** ** Handlers that page through a query *)

Section Paging.
Context {S Q R K A : Type} `{SqlOrder K} {run : Q -> Tx S (list R * Z)} {ready fits key}
  {cursor : Q -> option K} {limit base} (p : Paged run ready fits key cursor limit base).
(** The query that goes on after a row, and the item and the token of a row. *)
Context (after : option R -> Q) (item : R -> A) (next : R -> string).
Context (ask : option string -> option (list A * option string)) (s : S) (round n : Z).

(** The handler answers with the rows of the query. *)
Definition answers_with : Prop := forall x rows,
  (forall r, x = Some r -> r ∈ pg_all p s (after None)) ->
  run (after x) s [] = (Ok (rows, round), s, []) ->
  (forall r, r ∈ rows -> r ∈ pg_all p s (after None)) ->
  ask (option_map next x) = Some (page_of item next rows).

Lemma elem_of_limited {B} m (l : list B) x : x ∈ limited m l -> x ∈ l.
Proof.
  destruct m as [k|]; [|done]. intros [i [Hi _]%lookup_take_Some]%list_elem_of_lookup_1.
  by apply list_elem_of_lookup_2 in Hi.
Qed.

Lemma collect_paged fuel :
  ready s round -> 0 < n ->
  (forall x, (forall r, x = Some r -> r ∈ pg_all p s (after None)) ->
     fits s (after x) /\ cursor (after x) = option_map key x /\ limit (after x) = n /\
     base (after x) = base (after None)) ->
  answers_with ->
  (length (pg_all p s (after None)) < fuel)%nat ->
  collect ask fuel None = Some (map item (pg_all p s (after None))).
Proof.
  intros Hr Hn Hafter Hask Hfuel.
  assert (RelDecision (λ x y, sql_lt (key x) (key y))) by (intros x y; apply _).
  assert (StrictOrder (λ x y, sql_lt (key x) (key y))).
  { split; [intros x; apply (irreflexivity sql_lt)|intros x y z; apply (transitivity (R := sql_lt))]. }
  assert (page_limit n = Some n) as Hpl.
  { unfold page_limit. by rewrite (proj2 (Z.eqb_neq n 0)) by lia. }
  destruct (Hafter None) as (Hf & Hc & Hl & _); [done|].
  apply (collect_all ask item next (λ x y, sql_lt (key x) (key y)) (Z.to_nat n)); [|lia| | |done].
  - by apply (pg_sorted p s _ round).
  - apply (Hask None); [done| |].
    + rewrite (pg_page p s _ round), Hc, Hl, Hpl by done. cbn. do 5 f_equal.
      apply filter_Forall_id. by apply Forall_true.
    + intros r Hrow. by apply (elem_of_limited (Some n)).
  - intros x Hx. destruct (Hafter (Some x)) as (Hfx & Hcx & Hlx & Hbx); [by intros r [= <-]|].
    apply (Hask (Some x)); [by intros r [= <-]| |].
    + rewrite (pg_page p s _ round), Hcx, Hlx, Hpl by done. cbn.
      rewrite (pg_base p), Hbx, <- (pg_base p). do 5 f_equal. by apply filter_ext_in.
    + intros r Hrow%(elem_of_limited (Some n)). by apply list_elem_of_filter in Hrow as [_ Hrow].
Qed.
End Paging.

(** ** Requests that are answered in time *)

Section Answers.
Context {S : Type} `{IndexerDb S} `{SdkOps} `{UnicodeOps} `{MapRange} `{ApiOps}.
Context (si : ServerImplementation) (rq : Request).

(** The call ends before its deadline, if there is one. *)
Definition in_time : Prop :=
  si_timeout si = 0 \/ call_deadline (rq_call rq) = false /\ call_done (rq_call rq) = true.
(** No parameter of the request is disabled for the operation. *)
Definition enabled (operationID : string) : Prop := verifyHandler si rq operationID = None.

(** What a client reads of an answer, when no call to the database fails. *)
Definition reply {A B} (view : A -> B) (m : Tx (World S) (Response A)) (w : World S) : option B :=
  match m w [] with (Ok (R_OK a), _, _) => Some (view a) | _ => None end.

Lemma call_in_time {A} (m : Tx (World S) A) w fs a w' fs' :
  in_time -> m w fs = (Ok a, w', fs') -> call si rq m w fs = (Ok a, w', fs').
Proof.
  unfold call, callWithTimeout. intros Ht Hm. rewrite Hm.
  destruct Ht as [Ht|[Hd Hc]]; [by rewrite Ht|]. rewrite Hd, Hc. by destruct (_ =? 0).
Qed.

Lemma guarded_enabled {A} op (k : Tx (World S) (Response A)) :
  enabled op -> guarded si rq op false k = k.
Proof. unfold enabled, guarded. by intros ->. Qed.

Lemma convert_rows_ok {R B} (err : R -> option error) (f : R -> result B) item rows :
  (forall r, r ∈ rows -> err r = None /\ f r = Ok (item r)) ->
  convert_rows err f rows = Ok (map item rows).
Proof.
  induction rows as [|r rows IH]; intros Hr; [done|]. cbn.
  destruct (Hr r) as [-> ->]; [left|]. cbn. rewrite IH; [done|]. intros x Hx. apply Hr. by right.
Qed.

Lemma fetch_ok {Q R B A} (query : Q -> Tx S (list R * Z)) err (f : R -> result B) item q
    msg (k : list B * Z -> Tx (World S) (Response A)) s sp rows round :
  in_time -> query q s [] = (Ok (rows, round), s, []) ->
  (forall r, r ∈ rows -> err r = None /\ f r = Ok (item r)) ->
  or_fail msg (fetch si rq query err f q) k (Build_World s sp) [] =
  k (map item rows, round) (Build_World s sp) [].
Proof.
  intros Ht Hq Hr. unfold or_fail, tx_bind, attempt, fetch.
  rewrite (call_in_time _ _ _ (map item rows, round) (Build_World s sp) []); [done..|].
  unfold tx_bind, on_db. cbn. rewrite Hq. cbn. by rewrite (convert_rows_ok err f item).
Qed.

(** The token of a list of items is that of their last row. *)
Lemma next_of_map {R B} (token : B -> string) (item : R -> B) (rows : list R) :
  (forall r, r ∈ rows -> token (item r) <> "") ->
  next_of token (map item rows) = option_map (λ r, token (item r)) (last rows).
Proof.
  intros Ht. unfold next_of. change (map item rows) with (item <$> rows). rewrite fmap_last.
  destruct (last rows) as [r|] eqn:Hl; [|done]. cbn. unfold strPtr.
  rewrite bool_decide_eq_false_2; [done|]. apply Ht. apply last_Some in Hl as [l ->].
  apply elem_of_app. right. left.
Qed.

Lemma FormatUint_nonempty n : is_u64 n -> FormatUint n <> "".
Proof. intros Hn Hf. pose proof (ParseUint_FormatUint n Hn) as Hp. by rewrite Hf in Hp. Qed.

Lemma bigint_u64 n : fits_bigint n = true -> is_u64 n.
Proof. unfold fits_bigint, is_u64, MaxInt64. intros [?%Z.leb_le ?%Z.leb_le]%andb_true_iff. lia. Qed.

(** A handler that answers with the rows of a query after the key in its token.  [token]
    writes a key as a token, and [text] is the token of an item. *)
Section Handler.
Context {Q R K B A : Type} `{SqlOrder K} {run : Q -> Tx S (list R * Z)} {ready fits key}
  {cursor : Q -> option K} {limit base} (p : Paged run ready fits key cursor limit base).
Context (handler : option string -> Tx (World S) (Response A)) (view : A -> list B * option string).
Context (after : option K -> Q) (token : K -> string) (text : B -> string) (item : R -> B).
Context (s : S) (sp : option SpecialAddresses).

Definition seen_key (x : option K) : Prop :=
  forall k, x = Some k -> exists r, r ∈ pg_all p s (after None) /\ k = key r.

Lemma collect_handler round n fuel :
  ready s round -> 0 < n ->
  (forall x, seen_key x ->
     fits s (after x) /\ cursor (after x) = x /\ limit (after x) = n /\
     base (after x) = base (after None)) ->
  (forall x rows, seen_key x -> run (after x) s [] = (Ok (rows, round), s, []) ->
     (forall r, r ∈ rows -> r ∈ pg_all p s (after None)) ->
     reply view (handler (option_map token x)) (Build_World s sp) =
       Some (map item rows, next_of text (map item rows))) ->
  (forall r, r ∈ pg_all p s (after None) -> text (item r) = token (key r) /\ token (key r) <> "") ->
  (length (pg_all p s (after None)) < fuel)%nat ->
  collect (λ t, reply view (handler t) (Build_World s sp)) fuel None =
    Some (map item (pg_all p s (after None))).
Proof.
  intros Hr Hn Hafter Hreply Hrows Hfuel.
  assert (forall x, (forall r, x = Some r -> r ∈ pg_all p s (after None)) ->
            seen_key (option_map key x)) as Hseen.
  { intros [r|] Hx v [= <-]. eauto. }
  apply (collect_paged p (λ x, after (option_map key x)) item (λ r, token (key r)) _ s round n);
    [done|done| | |done].
  - intros x Hx. destruct (Hafter _ (Hseen x Hx)) as (? & ? & ? & ?). done.
  - intros x rows Hx Hrun Hall.
    replace (option_map (λ r, token (key r)) x) with (option_map token (option_map key x))
      by (by destruct x).
    rewrite (Hreply _ rows) by auto. unfold page_of. rewrite next_of_map.
    + do 2 f_equal. destruct (last rows) as [r|] eqn:Hl; [|done]. cbn. f_equal.
      apply last_Some in Hl as [l ->]. apply Hrows, Hall, elem_of_app. right. left.
    + intros r Hrow. by destruct (Hrows r (Hall r Hrow)) as [-> ?].
Qed.

Lemma collect_fetch msg err f k round n fuel :
  in_time -> ready s round -> 0 < n ->
  (forall x, seen_key x ->
     fits s (after x) /\ cursor (after x) = x /\ limit (after x) = n /\
     base (after x) = base (after None) /\
     handler (option_map token x) = or_fail msg (fetch si rq run err f (after x)) k) ->
  (forall items w, reply view (k (items, round)) w = Some (items, next_of text items)) ->
  (forall r, r ∈ pg_all p s (after None) ->
     err r = None /\ f r = Ok (item r) /\ text (item r) = token (key r) /\ token (key r) <> "") ->
  (length (pg_all p s (after None)) < fuel)%nat ->
  collect (λ t, reply view (handler t) (Build_World s sp)) fuel None =
    Some (map item (pg_all p s (after None))).
Proof.
  intros Ht Hr Hn Hafter Hk Hrows Hfuel.
  apply (collect_handler round n); [done|done| | | |done].
  - intros x Hx. by destruct (Hafter x Hx) as (? & ? & ? & ? & _).
  - intros x rows Hx Hrun Hall. destruct (Hafter x Hx) as (_ & _ & _ & _ & Hh).
    unfold reply at 1. rewrite Hh, (fetch_ok _ _ _ item _ _ _ _ _ rows round); [apply Hk|done..|].
    intros r Hrow. by destruct (Hrows r (Hall r Hrow)) as (? & ? & _).
  - intros r Hrow. by destruct (Hrows r Hrow) as (_ & _ & ? & ?).
Qed.
End Handler.

(** ** Assets *)

Definition assets_token (params : models.SearchForAssetsParams) (token : option string)
    : models.SearchForAssetsParams := {|
  models.SearchForAssetsParams_IncludeAll := models.SearchForAssetsParams_IncludeAll params;
  models.SearchForAssetsParams_Limit := models.SearchForAssetsParams_Limit params;
  models.SearchForAssetsParams_Next := token;
  models.SearchForAssetsParams_Creator := models.SearchForAssetsParams_Creator params;
  models.SearchForAssetsParams_Name := models.SearchForAssetsParams_Name params;
  models.SearchForAssetsParams_Unit := models.SearchForAssetsParams_Unit params;
  models.SearchForAssetsParams_AssetId := models.SearchForAssetsParams_AssetId params |}.

Definition assets_page (a : models.AssetsResponse) : list models.Asset * option string :=
  (models.AssetsResponse_Assets a, models.AssetsResponse_NextToken a).

(** All assets of a search, page by page. *)
Definition collect_assets (params : models.SearchForAssetsParams) (w : World S) (fuel : nat)
    : option (list models.Asset) :=
  collect (λ token, reply assets_page (SearchForAssets si rq (assets_token params token)) w) fuel None.

Definition assets_after (q : AssetsQuery) (id : option Z) : AssetsQuery := {|
  AQ_AssetID := AQ_AssetID q; AQ_AssetIDGreaterThan := id; AQ_Creator := AQ_Creator q;
  AQ_Name := AQ_Name q; AQ_Unit := AQ_Unit q; AQ_Query := AQ_Query q;
  AQ_IncludeDeleted := AQ_IncludeDeleted q; AQ_Limit := AQ_Limit q |}.

Lemma assetParamsToAssetQuery_token params q id :
  assetParamsToAssetQuery (opts si) (assets_token params None) = Ok q ->
  (forall v, id = Some v -> is_u64 v) ->
  assetParamsToAssetQuery (opts si) (assets_token params (option_map FormatUint id)) =
    Ok (assets_after q id).
Proof.
  unfold assetParamsToAssetQuery. cbn. intros Hq Hid.
  destruct (match models.SearchForAssetsParams_Creator params with Some _ => _ | None => _ end);
    [|done]. cbn in *. injection Hq as <-.
  destruct id as [v|]; [|done]. cbn. by rewrite ParseUint_FormatUint by auto.
Qed.

Lemma assets_collected {ready} (p : Paged idb_Assets ready (λ _, assets_fit) AsR_AssetID
      AQ_AssetIDGreaterThan AQ_Limit assets_base) params q s sp round fuel :
  in_time -> enabled "SearchForAssets" ->
  exceeds (models.SearchForAssetsParams_AssetId params) = false ->
  assetParamsToAssetQuery (opts si) (assets_token params None) = Ok q ->
  ready s round -> 0 < AQ_Limit q -> assets_fit q ->
  (forall r, r ∈ pg_all p s q -> AsR_Error r = None /\ String.length (AsR_Creator r) = 32%nat /\
     fits_bigint (AsR_AssetID r) = true) ->
  (length (pg_all p s q) < fuel)%nat ->
  collect_assets params (Build_World s sp) fuel = Some (map asset_model (pg_all p s q)).
Proof.
  intros Ht He Hx Hq Hr Hn (Hid & _ & Hlim) Hrows Hfuel.
  assert (q = assets_after q None) as Heq.
  { enough (Ok q = Ok (assets_after q None)) by congruence. rewrite <- Hq.
    by apply (assetParamsToAssetQuery_token _ _ None). }
  assert (pg_all p s (assets_after q None) = pg_all p s q) as Hall by (by rewrite Heq).
  rewrite <- Hall in Hrows, Hfuel |- *.
  eapply (collect_fetch p _ _ (assets_after q) FormatUint
            (λ a, FormatUint (models.Asset_Index a)) asset_model s sp errFailedSearchingAsset AsR_Error asset_of_row _ round (AQ_Limit q)); [done..| | | |done].
  - intros x Hin. assert (opt_fits x) as Hx'.
    { intros v ->. destruct (Hin v) as (r & Hrow & ->); [done|]. by apply Hrows. }
    do 4 (split; [done|]). unfold SearchForAssets. cbn [models.SearchForAssetsParams_AssetId assets_token].
    rewrite Hx, guarded_enabled, (assetParamsToAssetQuery_token _ q); [reflexivity|done| |done].
    intros v Hv. by apply bigint_u64, Hx'.
  - done.
  - intros r Hrow. destruct (Hrows r Hrow) as (? & Hlen & ?). unfold asset_of_row.
    rewrite bool_decide_eq_true_2 by done. split_and!; [done..|]. by apply FormatUint_nonempty, bigint_u64.
Qed.

(** ** Applications *)

Definition apps_token (params : models.SearchForApplicationsParams) (token : option string)
    : models.SearchForApplicationsParams := {|
  models.SearchForApplicationsParams_ApplicationId := models.SearchForApplicationsParams_ApplicationId params;
  models.SearchForApplicationsParams_Creator := models.SearchForApplicationsParams_Creator params;
  models.SearchForApplicationsParams_IncludeAll := models.SearchForApplicationsParams_IncludeAll params;
  models.SearchForApplicationsParams_Limit := models.SearchForApplicationsParams_Limit params;
  models.SearchForApplicationsParams_Next := token |}.

Definition apps_page (a : models.ApplicationsResponse) : list models.Application * option string :=
  (models.ApplicationsResponse_Applications a, models.ApplicationsResponse_NextToken a).

(** All applications of a search, page by page. *)
Definition collect_apps (params : models.SearchForApplicationsParams) (w : World S) (fuel : nat)
    : option (list models.Application) :=
  collect (λ token, reply apps_page (SearchForApplications si rq (apps_token params token)) w) fuel None.

Definition apps_after (q : ApplicationQuery) (id : option Z) : ApplicationQuery := {|
  PQ_Address := PQ_Address q; PQ_ApplicationID := PQ_ApplicationID q;
  PQ_ApplicationIDGreaterThan := id; PQ_IncludeDeleted := PQ_IncludeDeleted q;
  PQ_Limit := PQ_Limit q |}.

Lemma appParamsToApplicationQuery_token params q id :
  appParamsToApplicationQuery (opts si) (apps_token params None) = Ok q ->
  (forall v, id = Some v -> is_u64 v) ->
  appParamsToApplicationQuery (opts si) (apps_token params (option_map FormatUint id)) =
    Ok (apps_after q id).
Proof.
  unfold appParamsToApplicationQuery. cbn. intros Hq Hid.
  destruct (match models.SearchForApplicationsParams_Creator params with Some _ => _ | None => _ end);
    [|done]. cbn in *. injection Hq as <-.
  destruct id as [v|]; [|done]. cbn. by rewrite ParseUint_FormatUint by auto.
Qed.

Lemma apps_after_none params q :
  appParamsToApplicationQuery (opts si) (apps_token params None) = Ok q -> q = apps_after q None.
Proof.
  intros Hq. enough (Ok q = Ok (apps_after q None)) by congruence. rewrite <- Hq.
  by apply (appParamsToApplicationQuery_token _ _ None).
Qed.

Lemma apps_collected {ready}
    (p : Paged idb_Applications ready (λ _, apps_fit) (λ r, models.Application_Id (ApR_Application r))
           PQ_ApplicationIDGreaterThan PQ_Limit apps_base) params q s sp round fuel :
  in_time -> enabled "SearchForApplications" ->
  exceeds (models.SearchForApplicationsParams_ApplicationId params) = false ->
  appParamsToApplicationQuery (opts si) (apps_token params None) = Ok q ->
  ready s round -> 0 < PQ_Limit q -> apps_fit q ->
  (forall r, r ∈ pg_all p s q -> ApR_Error r = None /\
     fits_bigint (models.Application_Id (ApR_Application r)) = true) ->
  (length (pg_all p s q) < fuel)%nat ->
  collect_apps params (Build_World s sp) fuel = Some (map ApR_Application (pg_all p s q)).
Proof.
  intros Ht He Hx Hq Hr Hn (Hid & _ & Hlim) Hrows Hfuel.
  assert (pg_all p s (apps_after q None) = pg_all p s q) as Hall by (by rewrite <- (apps_after_none _ _ Hq)).
  rewrite <- Hall in Hrows, Hfuel |- *.
  eapply (collect_fetch p _ _ (apps_after q) FormatUint
            (λ a, FormatUint (models.Application_Id a)) ApR_Application s sp errFailedSearchingApplication ApR_Error (λ row, Ok (ApR_Application row)) _ round (PQ_Limit q)); [done..| | | |done].
  - intros x Hin. assert (opt_fits x) as Hx'.
    { intros v ->. destruct (Hin v) as (r & Hrow & ->); [done|]. by apply Hrows. }
    do 4 (split; [done|]). unfold SearchForApplications.
    cbn [models.SearchForApplicationsParams_ApplicationId apps_token].
    rewrite Hx, guarded_enabled, (appParamsToApplicationQuery_token _ q); [reflexivity|done| |done].
    intros v Hv. by apply bigint_u64, Hx'.
  - done.
  - intros r Hrow. destruct (Hrows r Hrow) as (? & ?). split_and!; [done..|].
    by apply FormatUint_nonempty, bigint_u64.
Qed.

(** ** The applications that an account has opted in to *)

Definition local_states_token (params : models.LookupAccountAppLocalStatesParams)
    (token : option string) : models.LookupAccountAppLocalStatesParams := {|
  models.LookupAccountAppLocalStatesParams_ApplicationId :=
    models.LookupAccountAppLocalStatesParams_ApplicationId params;
  models.LookupAccountAppLocalStatesParams_IncludeAll :=
    models.LookupAccountAppLocalStatesParams_IncludeAll params;
  models.LookupAccountAppLocalStatesParams_Limit :=
    models.LookupAccountAppLocalStatesParams_Limit params;
  models.LookupAccountAppLocalStatesParams_Next := token |}.

Definition local_states_page (a : models.ApplicationLocalStatesResponse)
    : list models.ApplicationLocalState * option string :=
  (models.ApplicationLocalStatesResponse_AppsLocalStates a,
   models.ApplicationLocalStatesResponse_NextToken a).

Definition collect_local_states (account : string) (params : models.LookupAccountAppLocalStatesParams)
    (w : World S) (fuel : nat) : option (list models.ApplicationLocalState) :=
  collect (λ token, reply local_states_page
             (LookupAccountAppLocalStates si rq account (local_states_token params token)) w) fuel None.

Definition local_states_search (account : string) (params : models.LookupAccountAppLocalStatesParams)
    : models.SearchForApplicationsParams :=
  app_search account (models.LookupAccountAppLocalStatesParams_ApplicationId params)
    (models.LookupAccountAppLocalStatesParams_IncludeAll params)
    (models.LookupAccountAppLocalStatesParams_Limit params) None.

Lemma local_states_collected {ready}
    (p : Paged idb_AppLocalState ready (λ _, local_states_fit)
           (λ r, models.ApplicationLocalState_Id (LsR_AppLocalState r))
           PQ_ApplicationIDGreaterThan PQ_Limit apps_base) account params q s sp round fuel :
  in_time -> enabled "LookupAccountAppLocalStates" ->
  exceeds (models.LookupAccountAppLocalStatesParams_ApplicationId params) = false ->
  appParamsToApplicationQuery (opts si) (local_states_search account params) = Ok q ->
  ready s round -> 0 < PQ_Limit q -> local_states_fit q ->
  (forall r, r ∈ pg_all p s q -> LsR_Error r = None /\
     fits_bigint (models.ApplicationLocalState_Id (LsR_AppLocalState r)) = true) ->
  (length (pg_all p s q) < fuel)%nat ->
  collect_local_states account params (Build_World s sp) fuel =
    Some (map LsR_AppLocalState (pg_all p s q)).
Proof.
  intros Ht He Hx Hq Hr Hn ((Hid & _ & Hlim) & Haddr) Hrows Hfuel.
  change (local_states_search account params) with (apps_token (local_states_search account params) None) in Hq.
  assert (pg_all p s (apps_after q None) = pg_all p s q) as Hall by (by rewrite <- (apps_after_none _ _ Hq)).
  rewrite <- Hall in Hrows, Hfuel |- *.
  eapply (collect_fetch p _ _ (apps_after q) FormatUint
            (λ a, FormatUint (models.ApplicationLocalState_Id a)) LsR_AppLocalState s sp errFailedSearchingApplication LsR_Error (λ row, Ok (LsR_AppLocalState row)) _ round (PQ_Limit q)); [done..| | | |done].
  - intros x Hin. assert (opt_fits x) as Hx'.
    { intros v ->. destruct (Hin v) as (r & Hrow & ->); [done|]. by apply Hrows. }
    do 4 (split; [done|]). unfold LookupAccountAppLocalStates.
    cbn [models.LookupAccountAppLocalStatesParams_ApplicationId local_states_token].
    rewrite Hx, guarded_enabled by done.
    change (app_search account _ _ _ _)
      with (apps_token (local_states_search account params) (option_map FormatUint x)).
    rewrite (appParamsToApplicationQuery_token _ q); [reflexivity|done|]. intros v Hv. by apply bigint_u64, Hx'.
  - done.
  - intros r Hrow. destruct (Hrows r Hrow) as (? & ?). split_and!; [done..|].
    by apply FormatUint_nonempty, bigint_u64.
Qed.

(** ** The holdings of an account *)

Definition holdings_token (params : models.LookupAccountAssetsParams) (token : option string)
    : models.LookupAccountAssetsParams := {|
  models.LookupAccountAssetsParams_AssetId := models.LookupAccountAssetsParams_AssetId params;
  models.LookupAccountAssetsParams_IncludeAll := models.LookupAccountAssetsParams_IncludeAll params;
  models.LookupAccountAssetsParams_Limit := models.LookupAccountAssetsParams_Limit params;
  models.LookupAccountAssetsParams_Next := token |}.

Definition holdings_page (a : models.AssetHoldingsResponse)
    : list models.AssetHolding * option string :=
  (models.AssetHoldingsResponse_Assets a, models.AssetHoldingsResponse_NextToken a).

Definition collect_holdings (account : string) (params : models.LookupAccountAssetsParams)
    (w : World S) (fuel : nat) : option (list models.AssetHolding) :=
  collect (λ token, reply holdings_page
             (LookupAccountAssets si rq account (holdings_token params token)) w) fuel None.

(** The query of the handler for the account. *)
Definition holdings_query (addr : string) (params : models.LookupAccountAssetsParams)
    (after : option Z) : AssetBalanceQuery := {|
  BQ_AssetID := models.LookupAccountAssetsParams_AssetId params; BQ_AssetIDGT := after;
  BQ_AmountGT := None; BQ_AmountLT := None; BQ_Address := Some addr;
  BQ_IncludeDeleted := boolOrDefault (models.LookupAccountAssetsParams_IncludeAll params);
  BQ_Limit := limit_of (models.LookupAccountAssetsParams_Limit params)
                (EO_DefaultBalancesLimit (opts si)) (EO_MaxBalancesLimit (opts si));
  BQ_PrevAddress := "" |}.

Lemma holdings_collected {ready} (p : Paged idb_AssetBalances ready (λ _, holdings_fit) BaR_AssetID
      BQ_AssetIDGT BQ_Limit holdings_base) account addr params s sp round fuel :
  let q := holdings_query addr params None in
  in_time -> enabled "LookupAccountAssets" ->
  exceeds (models.LookupAccountAssetsParams_AssetId params) = false ->
  DecodeAddress account = Ok addr ->
  ready s round -> 0 < BQ_Limit q -> holdings_fit q ->
  (forall r, r ∈ pg_all p s q -> BaR_Error r = None /\ String.length (BaR_Address r) = 32%nat /\
     fits_bigint (BaR_AssetID r) = true) ->
  (length (pg_all p s q) < fuel)%nat ->
  collect_holdings account params (Build_World s sp) fuel = Some (map holding_model (pg_all p s q)).
Proof.
  intros q Ht He Hx Ha Hr Hn ((Hid & _ & Hlim) & Haddr) Hrows Hfuel.
  eapply (collect_fetch p _ _ (holdings_query addr params) FormatUint
            (λ a, FormatUint (models.AssetHolding_AssetId a)) holding_model s sp errFailedSearchingAssetBalances BaR_Error holding_of_row _ round (BQ_Limit q)); [done..| | | |done].
  - intros x Hin. assert (opt_fits x) as Hx'.
    { intros v ->. destruct (Hin v) as (r & Hrow & ->); [done|]. by apply Hrows. }
    do 4 (split; [done|]). unfold LookupAccountAssets.
    cbn [models.LookupAccountAssetsParams_AssetId models.LookupAccountAssetsParams_Next holdings_token].
    rewrite Hx, guarded_enabled, Ha by done. cbn [or_bad].
    destruct x as [v|]; [|reflexivity]. cbn [option_map].
    rewrite ParseUint_FormatUint by (by apply bigint_u64, Hx'). reflexivity.
  - done.
  - intros r Hrow. destruct (Hrows r Hrow) as (? & Hlen & ?). unfold holding_of_row.
    rewrite bool_decide_eq_true_2 by done. split_and!; [done..|]. by apply FormatUint_nonempty, bigint_u64.
Qed.

(** ** The holders of an asset *)

Definition balances_token (params : models.LookupAssetBalancesParams) (token : option string)
    : models.LookupAssetBalancesParams := {|
  models.LookupAssetBalancesParams_IncludeAll := models.LookupAssetBalancesParams_IncludeAll params;
  models.LookupAssetBalancesParams_Limit := models.LookupAssetBalancesParams_Limit params;
  models.LookupAssetBalancesParams_Next := token;
  models.LookupAssetBalancesParams_CurrencyGreaterThan :=
    models.LookupAssetBalancesParams_CurrencyGreaterThan params;
  models.LookupAssetBalancesParams_CurrencyLessThan :=
    models.LookupAssetBalancesParams_CurrencyLessThan params |}.

Definition balances_page (a : models.AssetBalancesResponse)
    : list models.MiniAssetHolding * option string :=
  (models.AssetBalancesResponse_Balances a, models.AssetBalancesResponse_NextToken a).

Definition collect_balances (asset : Z) (params : models.LookupAssetBalancesParams)
    (w : World S) (fuel : nat) : option (list models.MiniAssetHolding) :=
  collect (λ token, reply balances_page
             (LookupAssetBalances si rq asset (balances_token params token)) w) fuel None.

Definition balances_query (asset : Z) (params : models.LookupAssetBalancesParams)
    (after : option string) : AssetBalanceQuery := {|
  BQ_AssetID := Some asset; BQ_AssetIDGT := None;
  BQ_AmountGT := models.LookupAssetBalancesParams_CurrencyGreaterThan params;
  BQ_AmountLT := models.LookupAssetBalancesParams_CurrencyLessThan params;
  BQ_Address := None;
  BQ_IncludeDeleted := boolOrDefault (models.LookupAssetBalancesParams_IncludeAll params);
  BQ_Limit := limit_of (models.LookupAssetBalancesParams_Limit params)
                (EO_DefaultBalancesLimit (opts si)) (EO_MaxBalancesLimit (opts si));
  BQ_PrevAddress := default "" after |}.

Lemma balances_collected `{!SdkLaws} {ready}
    (p : Paged idb_AssetBalances ready (λ _, holders_fit) BaR_Address holders_cursor
      BQ_Limit holders_base) asset params s sp round fuel :
  let q := balances_query asset params None in
  in_time -> enabled "LookupAssetBalances" -> asset <= MaxInt64 ->
  ready s round -> 0 < BQ_Limit q -> holders_fit q ->
  (forall r, r ∈ pg_all p s q -> BaR_Error r = None /\ String.length (BaR_Address r) = 32%nat) ->
  (length (pg_all p s q) < fuel)%nat ->
  collect_balances asset params (Build_World s sp) fuel = Some (map balance_model (pg_all p s q)).
Proof.
  intros q Ht He Hx Hr Hn ((Hid & _ & Hlim) & Has) Hrows Hfuel.
  assert ((MaxInt64 <? asset) = false) as Hx' by (by apply Z.ltb_ge).
  eapply (collect_fetch p _ _ (balances_query asset params) AddressString
            models.MiniAssetHolding_Address balance_model s sp errFailedSearchingAssetBalances BaR_Error balance_of_row _ round (BQ_Limit q)); [done..| | | |done].
  - intros x Hin. assert (forall a, x = Some a -> String.length a = 32%nat) as Hx''.
    { intros v ->. destruct (Hin v) as (r & Hrow & ->); [done|]. by apply Hrows. }
    split; [done|]. split.
    { unfold holders_cursor. cbn. destruct x as [a|]; [|done]. cbn.
      rewrite bool_decide_eq_false_2; [done|]. intros ->. by specialize (Hx'' "" eq_refl). }
    do 2 (split; [done|]). unfold LookupAssetBalances.
    cbn [models.LookupAssetBalancesParams_Next balances_token].
    rewrite Hx', guarded_enabled by done.
    destruct x as [a|]; [|reflexivity]. cbn [option_map].
    rewrite DecodeAddress_String by auto. reflexivity.
  - done.
  - intros r Hrow. destruct (Hrows r Hrow) as (? & Hlen). unfold balance_of_row.
    rewrite bool_decide_eq_true_2 by done. split_and!; [done..|]. by apply AddressString_nonempty.
Qed.

(** ** Accounts *)

Definition accounts_token (params : models.SearchForAccountsParams) (token : option string)
    : models.SearchForAccountsParams := {|
  models.SearchForAccountsParams_AssetId := models.SearchForAccountsParams_AssetId params;
  models.SearchForAccountsParams_Limit := models.SearchForAccountsParams_Limit params;
  models.SearchForAccountsParams_Next := token;
  models.SearchForAccountsParams_CurrencyGreaterThan :=
    models.SearchForAccountsParams_CurrencyGreaterThan params;
  models.SearchForAccountsParams_IncludeAll := models.SearchForAccountsParams_IncludeAll params;
  models.SearchForAccountsParams_Exclude := models.SearchForAccountsParams_Exclude params;
  models.SearchForAccountsParams_CurrencyLessThan :=
    models.SearchForAccountsParams_CurrencyLessThan params;
  models.SearchForAccountsParams_AuthAddr := models.SearchForAccountsParams_AuthAddr params;
  models.SearchForAccountsParams_Round := models.SearchForAccountsParams_Round params;
  models.SearchForAccountsParams_ApplicationId := models.SearchForAccountsParams_ApplicationId params;
  models.SearchForAccountsParams_OnlineOnly := models.SearchForAccountsParams_OnlineOnly params |}.

Definition accounts_page (a : models.AccountsResponse) : list models.Account * option string :=
  (models.AccountsResponse_Accounts a, models.AccountsResponse_NextToken a).

Definition collect_accounts (params : models.SearchForAccountsParams) (w : World S) (fuel : nat)
    : option (list models.Account) :=
  collect (λ token, reply accounts_page
             (SearchForAccounts si rq (accounts_token params token)) w) fuel None.

(** A search at the current round that the handler does not refuse, and its options. *)
Record accounts_search (params : models.SearchForAccountsParams) (o : AccountQueryOptions) : Prop := {
  as_asset : exceeds (models.SearchForAccountsParams_AssetId params) = false;
  as_app : exceeds (models.SearchForAccountsParams_ApplicationId params) = false;
  as_round : models.SearchForAccountsParams_Round params = None;
  as_online : boolOrDefault (models.SearchForAccountsParams_OnlineOnly params) &&
    boolOrDefault (models.SearchForAccountsParams_IncludeAll params) = false;
  as_options : exists spending,
    match models.SearchForAccountsParams_AuthAddr params with
    | Some a => DecodeAddress a
    | None => Ok ""
    end = Ok spending /\
    exclude_options (models.SearchForAccountsParams_Exclude params)
      (search_options si params spending) = Ok o }.

Definition accounts_after (o : AccountQueryOptions) (addr : option string) : AccountQueryOptions :=
  set_greater_than o (default "" addr).

Lemma account_loop_now o rows w :
  (forall r, r ∈ rows -> AcR_Error r = None) ->
  account_loop rq o None rows w [] = (Ok (map (λ r, with_pending (AcR_Account r)) rows), w, []).
Proof.
  induction rows as [|r rows IH]; intros Hr; [done|]. cbn. rewrite Hr by left.
  unfold tx_bind. cbn. rewrite IH; [done|]. intros x Hx. apply Hr. by right.
Qed.

(** The answer to a search that is not refused. *)
Lemma SearchForAccounts_answer `{!SdkLaws} params o addr s sp rows round :
  in_time -> enabled "SearchForAccounts" -> accounts_search params o ->
  (forall a, addr = Some a -> String.length a = 32%nat) ->
  idb_GetAccounts (accounts_after o addr) s [] = (Ok (rows, round), s, []) ->
  (forall r, r ∈ rows -> AcR_Error r = None) ->
  let accounts := map (λ r, with_pending (AcR_Account r)) rows in
  reply accounts_page
    (SearchForAccounts si rq (accounts_token params (option_map AddressString addr)))
    (Build_World s sp) = Some (accounts, next_of models.Account_Address accounts).
Proof.
  intros Ht He [Hx1 Hx2 Hx3 Hx4 (spending & Hsp & Ho)] Ha Hrun Hrows accounts.
  unfold reply, SearchForAccounts.
  cbn [accounts_token models.SearchForAccountsParams_AssetId
       models.SearchForAccountsParams_ApplicationId models.SearchForAccountsParams_Round
       models.SearchForAccountsParams_OnlineOnly models.SearchForAccountsParams_IncludeAll
       models.SearchForAccountsParams_AuthAddr models.SearchForAccountsParams_Exclude
       models.SearchForAccountsParams_Next].
  rewrite Hx1, Hx2, Hx3, guarded_enabled by done. cbn [exceeds orb].
  rewrite (bool_decide_eq_false_2 (is_Some None)) by (by intros []). rewrite andb_false_r. cbn [andb].
  rewrite Hx4, Hsp. cbn [or_bad].
  change (search_options si (accounts_token params _) spending) with (search_options si params spending).
  rewrite Ho. cbn [or_bad].
  assert (match option_map AddressString addr with Some next => DecodeAddress next | None => Ok "" end
          = Ok (default "" addr)) as ->.
  { destruct addr as [a|]; [|done]. cbn. by rewrite DecodeAddress_String by auto. }
  cbn [or_bad]. fold (accounts_after o addr). unfold tx_bind, attempt, fetchAccounts.
  rewrite (call_in_time _ _ _ (accounts, round) (Build_World s sp) []); [done..|].
  unfold tx_bind, on_db. cbn. rewrite Hrun. cbn. by rewrite account_loop_now.
Qed.

Lemma accounts_collected `{!SdkLaws} {ready fits}
    (p : Paged idb_GetAccounts ready fits account_key accounts_cursor AO_Limit accounts_base)
    params o s sp round fuel :
  in_time -> enabled "SearchForAccounts" -> accounts_search params o ->
  ready s round -> 0 < AO_Limit o -> (forall addr, fits s (accounts_after o addr)) ->
  (forall r, r ∈ pg_all p s o -> AcR_Error r = None /\
     exists a, String.length a = 32%nat /\ models.Account_Address (AcR_Account r) = AddressString a) ->
  (length (pg_all p s o) < fuel)%nat ->
  collect_accounts params (Build_World s sp) fuel =
    Some (map (λ r, with_pending (AcR_Account r)) (pg_all p s o)).
Proof.
  intros Ht He Hsearch Hr Hn Hfits Hrows Hfuel.
  assert (pg_all p s (accounts_after o None) = pg_all p s o) as Hall.
  { by rewrite (pg_base p), (pg_base p s o). }
  rewrite <- Hall in Hrows, Hfuel |- *.
  assert (forall r, r ∈ pg_all p s (accounts_after o None) -> AcR_Error r = None /\
            String.length (account_key r) = 32%nat /\
            models.Account_Address (AcR_Account r) = AddressString (account_key r)) as Hkeys.
  { intros r Hrow. destruct (Hrows r Hrow) as (? & a & Ha & Hra). unfold account_key.
    by rewrite Hra, DecodeAddress_String. }
  assert (forall x, seen_key p (accounts_after o) s x -> forall a, x = Some a -> String.length a = 32%nat)
    as Hseen.
  { intros x Hx a ->. destruct (Hx a) as (r & Hrow & ->); [done|]. by apply Hkeys. }
  apply (collect_handler p _ _ (accounts_after o) AddressString models.Account_Address _ s sp round
           (AO_Limit o)); [done..| | | |done].
  - intros x Hx. split_and!; [done| |done|done]. unfold accounts_cursor. cbn.
    destruct x as [a|]; [|done]. cbn. rewrite bool_decide_eq_false_2; [done|].
    intros ->. by specialize (Hseen _ Hx _ eq_refl).
  - intros x rows Hx Hrun Hin. apply (SearchForAccounts_answer params o x s sp rows round); try done.
    + by apply Hseen.
    + intros r Hrow. by apply Hkeys, Hin.
  - intros r Hrow. destruct (Hkeys r Hrow) as (_ & Hlen & Haddr). split; [done|].
    by apply AddressString_nonempty.
Qed.
End Answers.

(** ** Failures

    What a caller may rely on when calls to the database fail: the rows contain an error,
    or are those of the query when no call fails. *)

Definition complete {S Q R} (err : R -> option error) (query : Q -> Tx S (list R * Z)) : Prop :=
  forall q s fs, exists out round fs', query q s fs = (Ok (out, round), s, fs') /\
    ((exists r, r ∈ out /\ is_Some (err r)) \/ query q s [] = (Ok (out, round), s, [])).

Class ReadLaws (S : Type) `{IndexerDb S} := {
  Assets_complete : complete AsR_Error idb_Assets;
  AssetBalances_complete : complete BaR_Error idb_AssetBalances;
  Applications_complete : complete ApR_Error idb_Applications;
  AppLocalState_complete : complete LsR_Error idb_AppLocalState }.

(** An answer that says that the server failed. *)
Definition failed {A} (resp : Response A) : Prop :=
  exists status e, resp = R_Error status e /\
    (status = StatusInternalServerError \/ status = StatusServiceUnavailable).

Section Failures.
Context {S : Type} `{IndexerDb S} `{!ReadLaws S} `{SdkOps} `{UnicodeOps} `{MapRange} `{ApiOps}.
Context (si : ServerImplementation) (rq : Request).

(** The process crashes, or the handler answers with a failure, or it answers as it does when
    no call fails.  The state is not changed. *)
Definition sound_answer {A} (m : Tx (World S) (Response A)) : Prop := forall w fs, exists r fs',
  m w fs = (r, w, fs') /\
  match r with
  | Err e => exists what, e = ErrPanic what
  | Ok resp => failed resp \/ m w [] = (Ok resp, w, [])
  end.

Lemma indexerError_failed {A} e : failed (indexerError (A := A) e).
Proof. unfold indexerError. destruct (isTimeoutError e); eexists _, _; split; eauto. Qed.

Lemma sound_ret {A} (resp : Response A) : sound_answer (tx_ret resp).
Proof. intros w fs. eexists _, _. split; [done|]. by right. Qed.

Lemma sound_guarded {A} op b (k : Tx (World S) (Response A)) :
  sound_answer k -> sound_answer (guarded si rq op b k).
Proof.
  unfold guarded. intros Hk. destruct (verifyHandler si rq op); [apply sound_ret|].
  destruct b; [apply sound_ret|done].
Qed.

Lemma sound_or_bad {A B} (r : result B) msg (k : B -> Tx (World S) (Response A)) :
  (forall x, sound_answer (k x)) -> sound_answer (or_bad r msg k).
Proof. intros Hk. destruct r; [apply Hk|apply sound_ret]. Qed.

Lemma convert_rows_error {R B} (err : R -> option error) (f : R -> result B) rows :
  (exists r, r ∈ rows /\ is_Some (err r)) -> exists e, convert_rows err f rows = Err e.
Proof.
  induction rows as [|x rows IH]; intros (r & Hr & [e He]); [by apply not_elem_of_nil in Hr|]. cbn.
  destruct (err x) eqn:Hx; [eauto|]. apply elem_of_cons in Hr as [-> | Hr]; [congruence|].
  destruct (f x); cbn; [|eauto]. destruct IH as [e' ->]; [eauto|]. cbn. eauto.
Qed.

Lemma call_result {A} (m : Tx (World S) A) w fs r w' fs' :
  m w fs = (r, w', fs') -> exists r', call si rq m w fs = (r', w', fs') /\
    ((exists e, r' = Err e) \/ r' = r).
Proof.
  intros Hm. unfold call, callWithTimeout. rewrite Hm.
  destruct (_ =? 0); [eauto|].
  destruct r as [a|[]], (call_deadline (rq_call rq)), (call_done (rq_call rq)); eauto.
Qed.

Lemma call_deterministic {A} (m : Tx (World S) A) w fs fs' fs'' r r' :
  m w fs = (r, w, fs') -> m w [] = (r, w, []) -> call si rq m w fs = (r', w, fs'') ->
  call si rq m w [] = (r', w, []).
Proof.
  intros Hm Hm0. unfold call, callWithTimeout. rewrite Hm, Hm0. destruct (_ =? 0); [by intros [= <- _]|].
  destruct r as [a|[]]; by intros [= <- _].
Qed.

Lemma sound_fetch {Q R B A} (query : Q -> Tx S (list R * Z)) err (f : R -> result B) q msg
    (k : list B * Z -> Response A) :
  complete err query ->
  sound_answer (or_fail msg (fetch si rq query err f q) (λ out, tx_ret (k out))).
Proof.
  intros Hc [s sp] fs. destruct (Hc q s fs) as (out & round & fs1 & Hq & Hout).
  set (m := found <-- on_db (query q); xs <-- lift (convert_rows err f found.1); tx_ret (xs, found.2)).
  set (r := xs ← convert_rows err f out; Ok (xs, round)).
  assert (m (Build_World s sp) fs = (r, Build_World s sp, fs1)) as Hm.
  { unfold m, r, tx_bind, on_db, lift. cbn. rewrite Hq. cbn. by destruct (convert_rows err f out). }
  destruct (call_result m _ _ _ _ _ Hm) as (r' & Hcall & Hr').
  unfold or_fail, tx_bind, attempt, fetch. fold m. rewrite Hcall.
  destruct r' as [x|e].
  2: { destruct e; (eexists _, _; split; [reflexivity|]); cbn;
         first [left; apply indexerError_failed | by eexists]. }
  eexists _, _. split; [done|]. right. destruct Hr' as [[e [=]]|Hr'].
  destruct Hout as [Hbad|Hsame].
  { destruct (convert_rows_error err f out Hbad) as [e He]. unfold r in Hr'. by rewrite He in Hr'. }
  assert (m (Build_World s sp) [] = (r, Build_World s sp, [])) as Hm0.
  { unfold m, r, tx_bind, on_db, lift. cbn. rewrite Hsame. cbn. by destruct (convert_rows err f out). }
  by rewrite (call_deterministic m _ _ _ _ _ _ Hm Hm0 Hcall).
Qed.

(** [or_fail] with a continuation that takes the pair apart. *)
Lemma sound_fetch_pair {Q R B A} (query : Q -> Tx S (list R * Z)) err (f : R -> result B) q msg
    (k : list B -> Z -> Response A) :
  complete err query ->
  sound_answer (or_fail msg (fetch si rq query err f q) (λ '(xs, round), tx_ret (k xs round))).
Proof.
  intros Hc w fs. destruct (sound_fetch query err f q msg (λ out, k out.1 out.2) Hc w fs)
    as (r & fs' & Hm & Hr).
  assert (forall fs, or_fail msg (fetch si rq query err f q) (λ '(xs, round), tx_ret (k xs round)) w fs =
            or_fail msg (fetch si rq query err f q) (λ out, tx_ret (k out.1 out.2)) w fs) as Heq.
  { intros fs0. unfold or_fail, tx_bind. by destruct (attempt _ w fs0) as [[[[[xs round]|e]|e] w'] fs0']. }
  exists r, fs'. rewrite Heq. split; [done|]. destruct r; [|done]. by rewrite Heq.
Qed.

(** The requests that list or look up assets, applications, holdings and local states. *)
Inductive resource_request : forall A, Tx (World S) (Response A) -> Prop :=
| RR_assets p : resource_request _ (SearchForAssets si rq p)
| RR_created_assets a p : resource_request _ (LookupAccountCreatedAssets si rq a p)
| RR_asset id p : resource_request _ (LookupAssetByID si rq id p)
| RR_apps p : resource_request _ (SearchForApplications si rq p)
| RR_created_apps a p : resource_request _ (LookupAccountCreatedApplications si rq a p)
| RR_app id p : resource_request _ (LookupApplicationByID si rq id p)
| RR_local_states a p : resource_request _ (LookupAccountAppLocalStates si rq a p)
| RR_holdings a p : resource_request _ (LookupAccountAssets si rq a p)
| RR_balances id p : resource_request _ (LookupAssetBalances si rq id p).

Create HintDb sound.
#[local] Hint Resolve sound_guarded sound_or_bad sound_fetch_pair sound_ret : sound.
#[local] Hint Resolve Assets_complete AssetBalances_complete Applications_complete
  AppLocalState_complete : sound.

Lemma SearchForAssets_sound p : sound_answer (SearchForAssets si rq p).
Proof. unfold SearchForAssets, fetchAssets. auto with sound. Qed.
Lemma SearchForApplications_sound p : sound_answer (SearchForApplications si rq p).
Proof. unfold SearchForApplications, fetchApplications. auto with sound. Qed.
#[local] Hint Resolve SearchForAssets_sound SearchForApplications_sound : sound.

Lemma resource_request_sound A (m : Tx (World S) (Response A)) :
  resource_request A m -> sound_answer m.
Proof.
  destruct 1; auto with sound.
  - unfold LookupAccountCreatedAssets. auto with sound.
  - unfold LookupAssetByID, fetchAssets. auto with sound.
  - unfold LookupAccountCreatedApplications. auto with sound.
  - unfold LookupApplicationByID, fetchApplications. auto with sound.
  - unfold LookupAccountAppLocalStates, fetchAppLocalStates. auto with sound.
  - unfold LookupAccountAssets, fetchAssetHoldings. auto 8 with sound.
  - unfold LookupAssetBalances, fetchAssetBalances. auto with sound.
Qed.
End Failures.
