(* ===== verification/Service.v ===== *)
(** * The API over the PostgreSQL database

    The handlers with the PostgreSQL implementation of the interface: what a client of
    the API gets is stated on the tables. *)

From Stdlib Require Import Sorted.
From stdpp Require Import sorting.
From S2P Require Import Prelude GoStd Sdk Idb Models Util Encoding Db WriteTxn Writer Postgres Rewind.
From S2P Require Import Migration Sql TxnQuery TxnPaging BlockQuery ResourceQuery AccountQuery Params Convert.
From S2P Require Import Disabled Interface Health Handlers Client.

Section Service.
Context `{SdkOps} `{UnicodeOps} `{MapRange} `{MapOrder} `{PgOps} `{PgLike} `{PgAgg} `{AppOrder}.
Context `{Codec SpecialAddresses} `{Codec MigrationState} `{Codec ImportState} `{Codec blockHeader}.
Context `{Codec signedTxnWithAD} `{Codec TxnExtra} `{Codec baseAccountData}.
Context `{Codec assetParams} `{Codec appParams} `{Codec appLocalState}.
Context `{Codec (option (list assetParams))} `{Codec (option (list appParams))}
  `{Codec (option (list appLocalState))} `{Codec (list Z)} `{Codec (list bool)}
  `{Codec (list (option Z))} `{Codec (list (option bool))}.
(** How the server splits the array of a participation update, whether the database was
    opened for reading, and the migration that runs. *)
Context (pg_array : string -> string -> option (list string)).
Context (readonly : bool) (migration : option State).

(** [IndexerDb] of [postgres.go]. *)
#[export] Instance postgres : IndexerDb database := {|
  idb_GetSpecialAccounts := on_core GetSpecialAccounts;
  idb_GetBlock := GetBlock;
  idb_BlockHeaders := BlockHeaders pg_array;
  idb_Transactions := Transactions;
  idb_GetAccounts := GetAccounts;
  idb_Assets := Assets;
  idb_AssetBalances := AssetBalances;
  idb_Applications := Applications;
  idb_AppLocalState := AppLocalState;
  idb_ApplicationBoxes := ApplicationBoxes;
  idb_Health := on_core (Health.Health readonly migration) |}.

(** What the implementation promises to the handlers. *)
Definition pg_assets
    : Paged idb_Assets assets_readable (λ _, assets_fit) AsR_AssetID AQ_AssetIDGreaterThan AQ_Limit
        assets_base := assets_paged.
Definition pg_holders
    : Paged idb_AssetBalances accounted (λ _, holders_fit) BaR_Address holders_cursor BQ_Limit
        holders_base := holders_paged.
Definition pg_holdings
    : Paged idb_AssetBalances accounted (λ _, holdings_fit) BaR_AssetID BQ_AssetIDGT BQ_Limit
        holdings_base := holdings_paged.
Definition pg_apps
    : Paged idb_Applications accounted (λ _, apps_fit)
        (λ r, models.Application_Id (ApR_Application r)) PQ_ApplicationIDGreaterThan PQ_Limit
        apps_base := apps_paged.
Definition pg_local_states
    : Paged idb_AppLocalState local_states_readable (λ _, local_states_fit)
        (λ r, models.ApplicationLocalState_Id (LsR_AppLocalState r)) PQ_ApplicationIDGreaterThan
        PQ_Limit apps_base := local_states_paged.
Definition pg_accounts `{!PgAggLaws} `{!SdkLaws} header proto zero
    : Paged idb_GetAccounts (accounts_ready header proto) accounts_ok account_key accounts_cursor
        AO_Limit accounts_base := accounts_paged header proto zero.

Lemma elem_of_selected {X A} (P : X -> Prop) `{!forall x, Decision (P x)} (g : X -> A) l a :
  a ∈ map g (filter P l) <-> exists x, x ∈ l /\ P x /\ a = g x.
Proof.
  split.
  - intros (x & -> & [Hp Hx]%list_elem_of_filter)%list_elem_of_fmap_1. eauto.
  - intros (x & Hx & Hp & ->). apply (list_elem_of_fmap_2' g _ x); [|done].
    by apply list_elem_of_filter.
Qed.

Lemma length_selected {K V A} `{Countable K} `{!SqlOrder K} (P : K * V -> Prop)
    `{!forall x, Decision (P x)} (g : K * V -> A) (t : gmap K V) fuel :
  (size t < fuel)%nat -> (length (map g (filter P (order_by t))) < fuel)%nat.
Proof.
  rewrite length_map. pose proof (length_filter P (order_by t)) as Hl.
  unfold order_by in Hl at 2. rewrite merge_sort_Permutation, length_map_to_list in Hl. lia.
Qed.

Lemma bigint_limit n : 0 < n <= MaxInt64 -> fits_bigint n = true.
Proof. intros Hn. unfold fits_bigint. apply andb_true_iff. split; apply Z.leb_le; lia. Qed.

Lemma bigint_exceeds o : opt_fits o -> exceeds o = false.
Proof.
  intros Ho. destruct o as [v|]; [|done]. specialize (Ho v eq_refl).
  apply andb_true_iff in Ho as [_ Hv]. cbn. by apply Z.ltb_ge, Z.leb_le.
Qed.

Section Requests.
Context (si : ServerImplementation) (rq : Request) `{ApiOps} `{!SdkLaws}.

(** ** Assets *)

(** Identifiers are of type [bigint], and the creator of an asset is an address. *)
Definition assets_stored (d : database) : Prop := forall id row,
  t_asset (core d) !! id = Some row ->
  fits_bigint id = true /\ String.length (asr_creator_addr row) = 32%nat.

(** The row of the table as the API shows it. *)
Definition shown_asset (id : Z) (row : asset_row) (p : AssetParams) : models.Asset :=
  asset_model {| AsR_AssetID := id; AsR_Creator := asr_creator_addr row; AsR_Params := p;
                 AsR_Error := None; AsR_CreatedRound := Some (asr_created_at row);
                 AsR_ClosedRound := asr_closed_at row; AsR_Deleted := Some (asr_deleted row) |}.

Lemma asset_shown d round x : assets_readable d round -> x ∈ order_by (t_asset (core d)) -> exists p,
  DecodeAssetParams (asr_params x.2) = Ok p /\ asset_model (asset_rec x).1 = shown_asset x.1 x.2 p /\
  AsR_AssetID (asset_rec x).1 = x.1 /\ AsR_Creator (asset_rec x).1 = asr_creator_addr x.2 /\
  AsR_Error (asset_rec x).1 = None.
Proof.
  intros Hd Hx%elem_of_order_by. destruct (proj2 Hd _ _ Hx) as [p Hp]. exists p.
  unfold asset_rec. by rewrite Hp.
Qed.

(** The assets of a search without a token, as the API shows them. *)
Lemma assets_content q d round : AQ_AssetIDGreaterThan q = None -> assets_readable d round ->
  forall a, a ∈ map asset_model (pg_all pg_assets d q) <-> exists id row p,
    t_asset (core d) !! id = Some row /\ asset_matches q id row /\
    DecodeAssetParams (asr_params row) = Ok p /\ a = shown_asset id row p.
Proof.
  intros Hnone Hd a. cbn. unfold selected_rows. rewrite map_map, elem_of_selected. split.
  - intros (x & Hx & Hs & ->). destruct (asset_shown d round x Hd Hx) as (p & Hp & -> & _).
    apply satisfies_asset_conds in Hs. exists x.1, x.2, p. split_and!; [by apply elem_of_order_by| |done..].
    apply asset_matches_cursor. rewrite Hnone. done.
  - intros (id & row & p & Hl & Hm & Hp & ->). exists (id, row).
    assert ((id, row) ∈ order_by (t_asset (core d))) as Hx by (by apply elem_of_order_by).
    split_and!; [done| |].
    + apply satisfies_asset_conds. by apply asset_matches_cursor in Hm as [Hm _].
    + destruct (asset_shown d round _ Hd Hx) as (p' & Hp' & -> & _). cbn in Hp'. rewrite Hp in Hp'.
      by injection Hp' as <-.
Qed.

Lemma assets_rows_ok q d round r : assets_readable d round -> assets_stored d ->
  r ∈ pg_all pg_assets d q ->
  AsR_Error r = None /\ String.length (AsR_Creator r) = 32%nat /\ fits_bigint (AsR_AssetID r) = true.
Proof.
  intros Hd Hst (x & Hx & _ & ->)%elem_of_selected.
  destruct (asset_shown d round x Hd Hx) as (p & _ & _ & -> & -> & ->).
  apply elem_of_order_by in Hx. by destruct (Hst _ _ Hx).
Qed.

Lemma asset_query_fields params q : models.SearchForAssetsParams_Next params = None ->
  assetParamsToAssetQuery (opts si) params = Ok q ->
  AQ_AssetIDGreaterThan q = None /\ AQ_AssetID q = models.SearchForAssetsParams_AssetId params /\
  AQ_Limit q = limit_of (models.SearchForAssetsParams_Limit params)
                 (EO_DefaultAssetsLimit (opts si)) (EO_MaxAssetsLimit (opts si)).
Proof.
  unfold assetParamsToAssetQuery. intros ->. cbn.
  destruct (match models.SearchForAssetsParams_Creator params with Some _ => _ | None => _ end);
    [|done]. by intros [= <-].
Qed.

(** A client that follows the tokens of [/v2/assets] sees exactly the assets that match the
    search, each once and in the order of their identifiers, whatever the limit. *)
Theorem SearchForAssets_pages params q d sp round fuel :
  in_time si rq -> enabled si rq "SearchForAssets" ->
  assetParamsToAssetQuery (opts si) (assets_token params None) = Ok q ->
  opt_fits (AQ_AssetID q) -> 0 < AQ_Limit q <= MaxInt64 ->
  assets_readable d round -> assets_stored d -> (size (t_asset (core d)) < fuel)%nat ->
  exists found, collect_assets si rq params (Build_World d sp) fuel = Some found /\
    StronglySorted (λ a b, models.Asset_Index a < models.Asset_Index b) found /\
    forall a, a ∈ found <-> exists id row p, t_asset (core d) !! id = Some row /\
      asset_matches q id row /\ DecodeAssetParams (asr_params row) = Ok p /\ a = shown_asset id row p.
Proof.
  intros Ht He Hq Hid Hn Hd Hst Hfuel.
  destruct (asset_query_fields (assets_token params None) q eq_refl Hq) as (Hnone & Hsame & _).
  assert (assets_fit q) as Hfits by (split_and!; [done|by rewrite Hnone|by apply bigint_limit]).
  exists (map asset_model (pg_all pg_assets d q)). split; [|split].
  - apply (assets_collected si rq pg_assets params q d sp round); try done; [|lia| |by apply length_selected].
    + apply bigint_exceeds. cbn in Hsame. by rewrite <- Hsame.
    + intros r. by apply (assets_rows_ok q d round).
  - apply StronglySorted_map. by apply (pg_sorted pg_assets d q round).
  - by apply (assets_content q d round).
Qed.

(** C40. With [limit=0] the maximum that the server is configured with has no effect: a single
    answer has all matching assets. *)
Theorem SearchForAssets_zero_limit params q d sp round :
  in_time si rq -> enabled si rq "SearchForAssets" ->
  models.SearchForAssetsParams_Limit params = Some 0 -> models.SearchForAssetsParams_Next params = None ->
  assetParamsToAssetQuery (opts si) params = Ok q -> opt_fits (AQ_AssetID q) ->
  0 <= EO_MaxAssetsLimit (opts si) -> assets_readable d round -> assets_stored d ->
  exists found next, reply assets_page (SearchForAssets si rq params) (Build_World d sp) =
      Some (found, next) /\
    forall a, a ∈ found <-> exists id row p, t_asset (core d) !! id = Some row /\
      asset_matches q id row /\ DecodeAssetParams (asr_params row) = Ok p /\ a = shown_asset id row p.
Proof.
  intros Ht He Hlim Hnext Hq Hid Hmax Hd Hst.
  destruct (asset_query_fields params q Hnext Hq) as (Hnone & Hsame & Hl).
  assert (AQ_Limit q = 0) as Hzero.
  { rewrite Hl, Hlim. unfold limit_of, min. cbn. destruct (Z.ltb_spec 0 (EO_MaxAssetsLimit (opts si))); lia. }
  assert (assets_fit q) as Hfits by (split_and!; [done|by rewrite Hnone|by rewrite Hzero]).
  assert (idb_Assets q d [] = (Ok (pg_all pg_assets d q, round), d, [])) as Hpage.
  { rewrite (pg_page pg_assets d q round Hd Hfits), Hzero, Hnone.
    rewrite filter_Forall_id by (by apply Forall_true). done. }
  exists (map asset_model (pg_all pg_assets d q)). eexists. split; [|by apply (assets_content q d round)].
  unfold reply, SearchForAssets. rewrite (bigint_exceeds _) by (by rewrite <- Hsame).
  rewrite guarded_enabled by done. rewrite Hq. cbn [or_bad id].
  unfold fetchAssets. rewrite (fetch_ok si rq _ _ _ asset_model _ _ _ _ _ _ round Ht Hpage); [done|].
  intros r Hr. destruct (assets_rows_ok q d round r Hd Hst Hr) as (-> & Hlen & _).
  unfold asset_of_row. by rewrite bool_decide_eq_true_2.
Qed.

(** ** Applications *)

Definition apps_stored (d : database) : Prop := forall id row,
  t_app (core d) !! id = Some row -> fits_bigint id = true.

Definition shown_app (id : Z) (row : app_row) (p : AppParams) : models.Application :=
  application_model (id, row) (application_params p (apr_creator row)).

Lemma appParams_fields params q :
  appParamsToApplicationQuery (opts si) params = Ok q ->
  models.SearchForApplicationsParams_Next params = None ->
  PQ_ApplicationIDGreaterThan q = None /\
  PQ_ApplicationID q = models.SearchForApplicationsParams_ApplicationId params /\
  (is_Some (models.SearchForApplicationsParams_Creator params) -> is_Some (PQ_Address q)).
Proof.
  intros Hq Hn. unfold appParamsToApplicationQuery in Hq. rewrite Hn in Hq.
  destruct (models.SearchForApplicationsParams_Creator params) as [c|]; cbn in Hq.
  - destruct (wrap _ (DecodeAddress c)); [|done]. injection Hq as <-. done.
  - injection Hq as <-. split_and!; [done..|]. by intros [].
Qed.

(** A client that follows the tokens of [/v2/applications] sees exactly the applications that
    match the search, each once and in the order of their identifiers. *)
Theorem SearchForApplications_pages params q d sp round fuel :
  in_time si rq -> enabled si rq "SearchForApplications" ->
  appParamsToApplicationQuery (opts si) (apps_token params None) = Ok q ->
  opt_fits (PQ_ApplicationID q) -> 0 < PQ_Limit q <= MaxInt64 ->
  accounted d round -> apps_stored d -> (size (t_app (core d)) < fuel)%nat ->
  exists found, collect_apps si rq params (Build_World d sp) fuel = Some found /\
    StronglySorted (λ a b, models.Application_Id a < models.Application_Id b) found /\
    forall a, a ∈ found <-> exists id row p, t_app (core d) !! id = Some row /\
      app_matches q id (apr_creator row) (apr_deleted row) /\
      DecodeAppParams (apr_params row) = Ok p /\ a = shown_app id row p.
Proof.
  intros Ht He Hq Hid Hn Hd Hst Hfuel. destruct (appParams_fields _ _ Hq) as (Hnone & Hsame & _); [done|].
  assert (apps_fit q) as Hfits by (split_and!; [done|by rewrite Hnone|by apply bigint_limit]).
  assert (forall x, exists p, DecodeAppParams (apr_params x.2) = Ok p /\
            application_rec x = ({| ApR_Application := shown_app x.1 x.2 p; ApR_Error := None |}, false)) as Hrow.
  { intros x. unfold application_rec. destruct (DecodeAppParams (apr_params x.2)) as [p|e] eqn:Hp.
    - exists p. by destruct x.
    - exfalso. unfold DecodeAppParams in Hp. by destruct (DecodeJSON (apr_params x.2)). }
  eexists. split; [|split].
  - apply (apps_collected si rq pg_apps params q d sp round); try done; [|lia| |by apply length_selected].
    + apply bigint_exceeds. cbn in Hsame. by rewrite <- Hsame.
    + intros r (x & Hx & _ & ->)%elem_of_selected. destruct (Hrow x) as (p & _ & ->).
      apply elem_of_order_by in Hx. cbn. split; [done|by eapply Hst].
  - apply StronglySorted_map. by apply (pg_sorted pg_apps d q round).
  - intros a. cbn. unfold selected_rows. rewrite map_map, elem_of_selected. split.
    + intros (x & Hx & Hs & ->). destruct (Hrow x) as (p & Hp & ->).
      apply satisfies_app_conds in Hs. exists x.1, x.2, p. split_and!; [by apply elem_of_order_by| |done..].
      apply app_matches_cursor. rewrite Hnone. done.
    + intros (id & row & p & Hl & Hm & Hp & ->). exists (id, row). split_and!.
      * by apply elem_of_order_by.
      * apply satisfies_app_conds. by apply app_matches_cursor in Hm as [Hm _].
      * destruct (Hrow (id, row)) as (p' & Hp' & ->). cbn in Hp'. rewrite Hp in Hp'. by injection Hp' as <-.
Qed.

(** ** Holdings *)

(** The rows of [account_asset] are about addresses and identifiers. *)
Definition holdings_stored (d : database) : Prop := forall addr asset row,
  t_account_asset (core d) !! (addr, asset) = Some row ->
  String.length addr = 32%nat /\ fits_bigint asset = true.

Definition shown_balance (addr : Address) (asset : Z) (row : account_asset_row) : models.MiniAssetHolding :=
  balance_model (balance_rec (addr, asset, row)).
Definition shown_holding (addr : Address) (asset : Z) (row : account_asset_row) : models.AssetHolding :=
  holding_model (balance_rec (addr, asset, row)).

(** A client that follows the tokens of [/v2/assets/{asset-id}/balances] sees exactly the holders
    of the asset whose amount is in the range, each once and in the order of their addresses. *)
Theorem LookupAssetBalances_pages asset params d sp round fuel :
  let q := balances_query si asset params None in
  in_time si rq -> enabled si rq "LookupAssetBalances" ->
  fits_bigint asset = true -> 0 < BQ_Limit q <= MaxInt64 ->
  accounted d round -> holdings_stored d -> (size (t_account_asset (core d)) < fuel)%nat ->
  exists found, collect_balances si rq asset params (Build_World d sp) fuel = Some found /\
    StronglySorted sql_lt (map (λ h, or_zero "" (DecodeAddress (models.MiniAssetHolding_Address h))) found) /\
    forall h, h ∈ found <-> exists addr row, t_account_asset (core d) !! (addr, asset) = Some row /\
      balance_matches q addr asset row /\ h = shown_balance addr asset row.
Proof.
  intros q Ht He Hid Hn Hd Hst Hfuel.
  assert (holders_fit q) as Hfits.
  { split; [|by eexists]. split_and!; [by intros v [= <-]|done|by apply bigint_limit]. }
  assert (forall r, r ∈ pg_all pg_holders d q -> BaR_Error r = None /\ String.length (BaR_Address r) = 32%nat)
    as Hrows.
  { intros r ([[addr id] row] & Hx & _ & ->)%elem_of_selected. apply elem_of_order_by in Hx.
    by destruct (Hst _ _ _ Hx). }
  eexists. split; [|split].
  - apply (balances_collected si rq pg_holders asset params d sp round);
      try done; [|apply Hn|by apply length_selected].
    apply andb_true_iff in Hid as [_ ?]. by apply Z.leb_le.
  - rewrite map_map. apply StronglySorted_map.
    eapply StronglySorted_impl_in; [|by apply (pg_sorted pg_holders d q round)].
    intros x y Hx Hy. cbn. by rewrite !DecodeAddress_String by (by apply Hrows).
  - intros h. unfold pg_holders, holders_paged, select_paged. cbn [pg_all]. unfold selected_rows.
    rewrite map_map, elem_of_selected. split.
    + intros ([[addr id] row] & Hx & Hs & ->). apply satisfies_balance_conds in Hs.
      pose proof (bm_asset _ _ _ _ Hs asset eq_refl) as Ha. cbn in Ha. subst id.
      exists addr, row. apply elem_of_order_by in Hx. split_and!; [done| |done].
      by apply balance_matches_holders.
    + intros (addr & row & Hl & Hm & ->). exists (addr, asset, row).
      split_and!; [by apply elem_of_order_by| |done]. apply satisfies_balance_conds.
      by apply balance_matches_holders in Hm as [Hm _].
Qed.

(** A client that follows the tokens of [/v2/accounts/{account-id}/assets] sees exactly the
    holdings of the account, each once and in the order of the assets. *)
Theorem LookupAccountAssets_pages account addr params d sp round fuel :
  let q := holdings_query si addr params None in
  in_time si rq -> enabled si rq "LookupAccountAssets" -> DecodeAddress account = Ok addr ->
  opt_fits (models.LookupAccountAssetsParams_AssetId params) -> 0 < BQ_Limit q <= MaxInt64 ->
  accounted d round -> holdings_stored d -> (size (t_account_asset (core d)) < fuel)%nat ->
  exists found, collect_holdings si rq account params (Build_World d sp) fuel = Some found /\
    StronglySorted (λ a b, models.AssetHolding_AssetId a < models.AssetHolding_AssetId b) found /\
    forall h, h ∈ found <-> exists asset row, t_account_asset (core d) !! (addr, asset) = Some row /\
      balance_matches q addr asset row /\ h = shown_holding addr asset row.
Proof.
  intros q Ht He Hdec Hid Hn Hd Hst Hfuel.
  assert (holdings_fit q) as Hfits.
  { split; [|by eexists]. split_and!; [done|done|by apply bigint_limit]. }
  eexists. split; [|split].
  - apply (holdings_collected si rq pg_holdings account addr params d sp round); try done;
      [by apply bigint_exceeds|apply Hn| |by apply length_selected].
    intros r ([[a id] row] & Hx & _ & ->)%elem_of_selected. apply elem_of_order_by in Hx.
    by destruct (Hst _ _ _ Hx).
  - apply StronglySorted_map. by apply (pg_sorted pg_holdings d q round).
  - intros h. unfold pg_holdings, holdings_paged, select_paged. cbn [pg_all]. unfold selected_rows.
    rewrite map_map, elem_of_selected. split.
    + intros ([[a asset] row] & Hx & Hs & ->). apply satisfies_balance_conds in Hs.
      pose proof (bm_addr _ _ _ _ Hs addr eq_refl) as Ha. cbn in Ha. subst a.
      exists asset, row. apply elem_of_order_by in Hx. split_and!; [done| |done].
      by apply balance_matches_holdings.
    + intros (asset & row & Hl & Hm & ->). exists (addr, asset, row).
      split_and!; [by apply elem_of_order_by| |done]. apply satisfies_balance_conds.
      by apply balance_matches_holdings in Hm as [Hm _].
Qed.

(** ** Local states *)

Definition local_states_stored (d : database) : Prop := forall k row,
  t_account_app (core d) !! k = Some row -> fits_bigint k.2 = true.

Definition shown_local_state (addr : Address) (app : Z) (row : account_app_row) (ls : Sdk.AppLocalState)
    : models.ApplicationLocalState :=
  local_state_model (addr, app, row) (stateSchemaToModel (ALS_Schema ls))
    (tealKeyValueToModel (ALS_KeyValue ls)).

(** A client that follows the tokens of [/v2/accounts/{account-id}/apps-local-state] sees exactly
    the local states of the account, each once and in the order of the applications. *)
Theorem LookupAccountAppLocalStates_pages account params q d sp round fuel :
  in_time si rq -> enabled si rq "LookupAccountAppLocalStates" ->
  appParamsToApplicationQuery (opts si) (local_states_search account params) = Ok q ->
  opt_fits (PQ_ApplicationID q) -> 0 < PQ_Limit q <= MaxInt64 ->
  local_states_readable d round -> local_states_stored d -> (size (t_account_app (core d)) < fuel)%nat ->
  exists found, collect_local_states si rq account params (Build_World d sp) fuel = Some found /\
    StronglySorted
      (λ a b, models.ApplicationLocalState_Id a < models.ApplicationLocalState_Id b) found /\
    forall a, a ∈ found <-> exists addr app row ls, t_account_app (core d) !! (addr, app) = Some row /\
      app_matches q app addr (alr_deleted row) /\
      DecodeAppLocalState (alr_localstate row) = Ok ls /\ a = shown_local_state addr app row ls.
Proof.
  intros Ht He Hq Hid Hn Hd Hst Hfuel.
  destruct (appParams_fields _ _ Hq) as (Hnone & Hsame & Haddr); [done|].
  assert (local_states_fit q) as Hfits.
  { split; [|apply Haddr; by eexists]. split_and!; [done|by rewrite Hnone|by apply bigint_limit]. }
  assert (forall x, x ∈ order_by (SqlOrder0 := app_order) (t_account_app (core d)) -> exists ls,
            DecodeAppLocalState (alr_localstate x.2) = Ok ls /\
            local_state_rec x = ({| LsR_AppLocalState := shown_local_state x.1.1 x.1.2 x.2 ls;
                                    LsR_Error := None |}, false)) as Hrow.
  { intros [[addr app] row] Hx%elem_of_order_by. destruct (proj2 Hd _ _ Hx) as [ls Hls]. exists ls.
    unfold local_state_rec. by rewrite Hls. }
  eexists. split; [|split].
  - apply (local_states_collected si rq pg_local_states account params q d sp round); try done;
      [|lia| |by apply length_selected].
    + apply bigint_exceeds. cbn in Hsame. by rewrite <- Hsame.
    + intros r (x & Hx & _ & ->)%elem_of_selected. destruct (Hrow x Hx) as (ls & _ & ->).
      apply elem_of_order_by in Hx. split; [done|by eapply Hst].
  - apply StronglySorted_map. by apply (pg_sorted pg_local_states d q round).
  - intros a. unfold pg_local_states, local_states_paged, select_paged. cbn [pg_all].
    unfold selected_rows. rewrite map_map, elem_of_selected. split.
    + intros (x & Hx & Hs & ->). destruct (Hrow x Hx) as (ls & Hls & ->).
      apply satisfies_local_conds in Hs. apply elem_of_order_by in Hx.
      destruct x as [[addr app] row]. exists addr, app, row, ls. split_and!; [done| |done..].
      apply app_matches_cursor. rewrite Hnone. done.
    + intros (addr & app & row & ls & Hl & Hm & Hls & ->). exists (addr, app, row).
      assert ((addr, app, row) ∈ order_by (SqlOrder0 := app_order) (t_account_app (core d))) as Hx
        by (by apply elem_of_order_by).
      split_and!; [done| |].
      * apply satisfies_local_conds. by apply app_matches_cursor in Hm as [Hm _].
      * destruct (Hrow _ Hx) as (ls' & Hls' & ->). cbn in Hls'. rewrite Hls in Hls'. by injection Hls' as <-.
Qed.

(** ** Accounts *)

Lemma setExclude_keeps exclude o o' :
  setExcludeQueryOptions exclude o = Ok o' ->
  exists h p l a, o' = set_includes o h p l a.
Proof.
  revert o. induction exclude as [|e exclude IH]; intros o; cbn.
  - intros [= <-]. exists (AO_IncludeAssetHoldings o), (AO_IncludeAssetParams o),
      (AO_IncludeAppLocalState o), (AO_IncludeAppParams o). by destruct o.
  - repeat case_bool_decide; [intros (h & p & l & a & ->)%IH; by exists h, p, l, a..|done].
Qed.

Lemma accounts_search_options params o :
  accounts_search si params o -> AO_GreaterThanAddress o = "" /\ asset_named o.
Proof.
  intros [_ _ _ _ (spending & _ & Ho)].
  assert (exists h p l a, o = set_includes (search_options si params spending) h p l a)
    as (h & p & l & a & ->).
  { unfold exclude_options in Ho. destruct (models.SearchForAccountsParams_Exclude params).
    - by eapply setExclude_keeps.
    - injection Ho as <-. by exists true, true, true, true. }
  split; [done|]. intros Hz. cbn in *. rewrite Hz. done.
Qed.

Lemma args_fit `{Condition C Row} (conds : list C) :
  forallb arg_fits (flat_map c_args conds) = true <->
  Forall (λ c, forallb arg_fits (c_args c) = true) conds.
Proof.
  induction conds as [|c conds IH]; cbn; [done|].
  by rewrite forallb_app, andb_true_iff, Forall_cons, IH.
Qed.

(** The arguments that PostgreSQL may refuse. *)
Lemma account_args_fit o :
  forallb arg_fits (account_args o) = true <->
  (AO_HasAssetID o <> 0 -> fits_bigint (AO_HasAssetID o) = true) /\
  (AO_HasAppID o <> 0 -> fits_bigint (AO_HasAppID o) = true) /\
  opt_fits (AO_AlgosGreaterThan o) /\ opt_fits (AO_AlgosLessThan o).
Proof.
  unfold account_args, asset_filter, app_filter, opt_fits.
  rewrite !forallb_app, !andb_true_iff, !args_fit.
  destruct (Z.eqb_spec (AO_HasAssetID o) 0), (Z.eqb_spec (AO_HasAppID o) 0);
    unfold holding_conds, optin_conds, account_conds;
    rewrite ?Forall_app, ?Forall_singleton, ?Forall_when_some, ?Forall_unless_empty, ?Forall_unless,
      ?Forall_nil; cbn; setoid_rewrite andb_true_r; tauto.
Qed.

Lemma accounts_fit_after o addr : accounts_fit o -> accounts_fit (accounts_after o addr).
Proof.
  intros (Hargs & Hl & Hm). split_and!; [|done|done]. apply account_args_fit in Hargs.
  by apply account_args_fit.
Qed.

(** C9. A client that follows the tokens of [/v2/accounts] sees exactly the accounts that match the
    search, each once and in the order of their addresses, and each with exactly the holdings,
    created assets, created applications and local states that the tables hold for it, as long as
    no matching account has more of them than the server allows. *)
Theorem SearchForAccounts_pages `{!PgAggLaws} params o d sp round header proto fuel :
  in_time si rq -> enabled si rq "SearchForAccounts" -> accounts_search si params o ->
  accounts_fit o -> 0 < AO_Limit o ->
  accounts_readable d round header proto -> addresses_valid d -> countable_resources o d ->
  (forall addr row, t_account (core d) !! addr = Some row -> account_matches o d addr row ->
     ~ over_limit o d addr) ->
  (size (t_account (core d)) < fuel)%nat ->
  exists found, collect_accounts si rq params (Build_World d sp) fuel = Some found /\
    StronglySorted sql_lt (map (λ a, or_zero "" (DecodeAddress (models.Account_Address a))) found) /\
    forall a, a ∈ found <-> exists addr row ad, t_account (core d) !! addr = Some row /\
      account_matches o d addr row /\ DecodeTrimmedLcAccountData (acr_account_data row) = Ok ad /\
      a = with_pending (account_in o d header proto (addr, row) ad).
Proof.
  intros Ht He Hs Hfit Hn Hd Hv Hc Hlim Hfuel.
  destruct (accounts_search_options _ _ Hs) as [Hgt Hnamed].
  set (p := pg_accounts header proto Zero.accountData).
  assert (forall x, x ∈ order_by (t_account (core d)) ->
            account_selected (accounts_base o) d x -> account_selected o d x) as Hbase.
  { intros x Hx Hsel. apply account_matches_cursor. split; [done|].
    unfold accounts_cursor. by rewrite Hgt. }
  assert (forall addr, accounts_ok d (accounts_after o addr)) as Hok.
  { intros addr. split_and!; [by apply accounts_fit_after|done|done|].
    intros x Hx Hsel. apply (Hlim x.1 x.2); [by apply elem_of_order_by|].
    apply account_selected_matches, Hbase; [done|].
    by apply account_matches_cursor in Hsel as [Hsel _]. }
  assert (forall x, x ∈ order_by (t_account (core d)) -> exists ad,
            DecodeTrimmedLcAccountData (acr_account_data x.2) = Ok ad /\
            row_of_account header proto Zero.accountData o d x =
              account_ok (account_in o d header proto x ad)) as Hrow.
  { intros x Hx%elem_of_order_by. destruct (rd_accounts _ _ _ _ Hd _ _ Hx) as (ad & Had & _).
    exists ad. split; [done|]. unfold row_of_account. by rewrite Had. }
  eexists. split; [|split].
  - apply (accounts_collected si rq p params o d sp round); try done; [|by apply length_selected].
    intros r (x & Hx & _ & ->)%elem_of_selected. destruct (Hrow x Hx) as (ad & _ & ->).
    split; [done|]. exists x.1. apply elem_of_order_by in Hx. pose proof (Hv _ _ Hx) as Hlen.
    split; [done|]. cbn. unfold account_address. cbn. by rewrite copy_address_id.
  - rewrite map_map. apply StronglySorted_map.
    by apply (pg_sorted p d (accounts_after o None) round).
  - intros a. unfold p, pg_accounts, accounts_paged. cbn [pg_all]. unfold all_accounts.
    rewrite map_map, elem_of_selected. split.
    + intros (x & Hx & Hsel & ->). destruct (Hrow x Hx) as (ad & Had & ->).
      exists x.1, x.2, ad. split_and!; [by apply elem_of_order_by| |done|by destruct x].
      by apply account_selected_matches, Hbase.
    + intros (addr & row & ad & Hl & Hm & Had & ->). exists (addr, row).
      assert ((addr, row) ∈ order_by (t_account (core d))) as Hx by (by apply elem_of_order_by).
      split_and!; [done| |].
      * apply (account_selected_matches o d (addr, row)) in Hm.
        by apply account_matches_cursor in Hm as [Hm _].
      * destruct (Hrow _ Hx) as (ad' & Had' & ->). cbn in Had'. rewrite Had in Had'. by injection Had' as <-.
Qed.

(** ** Boxes *)

Definition boxes_token (params : models.SearchForApplicationBoxesParams) (token : option string)
    : models.SearchForApplicationBoxesParams := {|
  models.SearchForApplicationBoxesParams_Limit := models.SearchForApplicationBoxesParams_Limit params;
  models.SearchForApplicationBoxesParams_Next := token;
  models.SearchForApplicationBoxesParams_Include :=
    models.SearchForApplicationBoxesParams_Include params |}.

Definition boxes_page (a : models.BoxesResponse) : list models.BoxDescriptor * option string :=
  (models.BoxesResponse_Boxes a, models.BoxesResponse_NextToken a).

Definition collect_boxes (app : Z) (params : models.SearchForApplicationBoxesParams)
    (w : World database) (fuel : nat) : option (list models.BoxDescriptor) :=
  collect (λ token, reply boxes_page
             (SearchForApplicationBoxes si rq app (boxes_token params token)) w) fuel None.

Definition with_values (params : models.SearchForApplicationBoxesParams) : bool :=
  match models.SearchForApplicationBoxesParams_Include params with
  | Some l => bool_decide ("values" ∈ (l : list string))
  | None => false
  end.

Definition boxes_query (app : Z) (params : models.SearchForApplicationBoxesParams)
    (after : option string) : ApplicationBoxQuery := {|
  XQ_ApplicationID := app; XQ_BoxName := None; XQ_OmitValues := negb (with_values params);
  XQ_Limit := limit_of (models.SearchForApplicationBoxesParams_Limit params)
                (EO_DefaultBoxesLimit (opts si)) (EO_MaxBoxesLimit (opts si));
  XQ_PrevFinalBox := after |}.

(** A box of the table as the API lists it, and the token after it. *)
Definition shown_box (values : bool) (name value : string) : models.BoxDescriptor := {|
  models.BoxDescriptor_Name := name;
  models.BoxDescriptor_Value := if values then Some (Some value) else None |}.
Definition name_token (name : string) : string := "b64:" +:+ Base64 name.

(** No box has an empty name. *)
Definition boxes_named (d : database) : Prop := forall app name value,
  t_app_box (core d) !! (app, name) = Some value -> name <> "".

Definition answer_box (q : ApplicationBoxQuery) (round : Z) (x : Z * string * string) : models.Box := {|
  models.Box_Name := Some x.1.2; models.Box_Round := round;
  models.Box_Value := if XQ_OmitValues q then None else Some x.2 |}.

Lemma box_loop_found q round app0 l :
  Forall (λ x : Z * string * string, x.1.1 = XQ_ApplicationID q) l ->
  app0 = 0 \/ app0 = XQ_ApplicationID q -> l <> [] ->
  box_loop round (map (λ x, box_rec (box_columns q x)) l) app0 =
    Ok (XQ_ApplicationID q, map (answer_box q round) l).
Proof.
  intros Hl Happ Hne. destruct l as [|x l]; [done|]. clear Hne. revert app0 Happ x Hl.
  induction l as [|y l IH]; intros app0 Happ x [Hx Hl]%Forall_cons; cbn; rewrite Hx.
  - destruct Happ as [-> | ->]; [done|]. by destruct (Z.eqb_spec (XQ_ApplicationID q) 0) as [->|].
  - cbn in IH. rewrite IH; [done| |done].
    destruct Happ as [-> | ->]; [by right|]. destruct (_ =? 0); by right.
Qed.

Lemma found_box_app q d x : x ∈ found_boxes q d -> x.1.1 = XQ_ApplicationID q /\
  t_app_box (core d) !! x.1 = Some x.2.
Proof. intros [[Happ _] Hx%elem_of_order_by]%list_elem_of_filter. done. Qed.

Lemma fetchApplicationBoxes_ok q d sp round rows :
  in_time si rq -> ApplicationBoxes q d [] = (Ok (rows, round), d, []) ->
  fetchApplicationBoxes si rq q (Build_World d sp) [] =
    (Ok (box_loop round rows 0, round), Build_World d sp, []).
Proof.
  intros Ht Hq. unfold fetchApplicationBoxes, tx_bind, attempt.
  rewrite (call_in_time si rq _ _ _ (box_loop round rows 0, round) (Build_World d sp) []); [done..|].
  unfold tx_bind, on_db. cbn [w_db w_special idb_ApplicationBoxes postgres]. by rewrite Hq.
Qed.

Lemma box_descriptor_answer values q round l :
  XQ_OmitValues q = negb values ->
  omap (box_descriptor values) (map (answer_box q round) l) =
    map (λ x, shown_box values x.1.2 x.2) l.
Proof.
  intros Hv. induction l as [|x l IH]; [done|]. cbn. rewrite IH. unfold shown_box. rewrite Hv.
  by destruct values.
Qed.

Lemma Base64_nonempty name : name <> "" -> Base64 name <> "".
Proof.
  intros Hn He. apply Hn. unfold Base64 in He.
  pose proof (Base64.DecodeString_EncodeToString Base64.std eq_refl name) as Hd. rewrite He in Hd.
  by injection Hd.
Qed.

(** The answer to a search for boxes: the first boxes after the name in the token. *)
Lemma SearchForApplicationBoxes_answer app params after d sp round :
  let q := boxes_query app params after in
  in_time si rq -> enabled si rq "SearchForApplicationBoxes" -> fits_bigint app = true ->
  0 < XQ_Limit q <= MaxInt64 -> accounted d round -> boxes_named d ->
  is_Some (t_app (core d) !! app) ->
  (forall name, after = Some name -> app_call_bytes (name_token name) = Ok name) ->
  reply boxes_page
    (SearchForApplicationBoxes si rq app (boxes_token params (option_map name_token after)))
    (Build_World d sp) =
  Some (page_of (λ x, shown_box (with_values params) x.1.2 x.2) (λ x, name_token x.1.2)
          (take (Z.to_nat (XQ_Limit q)) (found_boxes q d))).
Proof.
  intros q Ht He Happ Hn Hd Hnamed [row Hrow] Htok. unfold reply, SearchForApplicationBoxes.
  assert ((MaxInt64 <? app) = false) as ->.
  { apply andb_true_iff in Happ as [_ ?%Z.leb_le]. by apply Z.ltb_ge. }
  rewrite guarded_enabled by done. cbn [boxes_token models.SearchForApplicationBoxesParams_Next
    models.SearchForApplicationBoxesParams_Include models.SearchForApplicationBoxesParams_Limit].
  fold (with_values params).
  assert (match option_map name_token after with
          | Some encoded => Some <$> app_call_bytes encoded | None => Ok None end = Ok after) as ->.
  { destruct after as [name|]; [|done]. cbn. by rewrite Htok. }
  cbn [or_bad]. fold (boxes_query app params after). fold q. unfold tx_bind.
  rewrite (fetchApplicationBoxes_ok q d sp round (box_rows q d));
    [|done|by apply ApplicationBoxes_ok; [|split; [|apply bigint_limit]]].
  unfold box_rows. change (XQ_ApplicationID q) with app. rewrite Hrow.
  destruct (found_boxes q d) as [|x l] eqn:Hf.
  { rewrite take_nil. cbn. rewrite Z.eqb_refl. done. }
  assert (Forall (λ y, y.1.1 = app /\ y.1.2 <> "") (take (Z.to_nat (XQ_Limit q)) (x :: l))) as Hall.
  { apply Forall_take, Forall_forall. rewrite <- Hf. intros [[a name] v] [Ha Hl]%found_box_app.
    split; [done|]. by eapply Hnamed. }
  unfold page_limit. rewrite (proj2 (Z.eqb_neq (XQ_Limit q) 0)) by lia. cbn [limited].
  assert (take (Z.to_nat (XQ_Limit q)) (x :: l) <> []) as Hne by (by destruct (Z.to_nat (XQ_Limit q)) eqn:?; [lia|]).
  revert Hall Hne. generalize (take (Z.to_nat (XQ_Limit q)) (x :: l)). intros page Hall Hne.
  change (map _ page) with (map (λ x, box_rec (box_columns q x)) page).
  rewrite box_loop_found; [|by eapply Forall_impl; [exact Hall|intros ? []]|by left|done].
  cbn [fst snd]. change (map (answer_box q round) page) with (answer_box q round <$> page) at 1.
  rewrite fmap_last. unfold page_of. destruct (last page) as [y|] eqn:Hlast; [|by apply last_None in Hlast].
  apply last_Some in Hlast as [pre ->]. cbn [option_fmap option_map fmap].
  rewrite Z.eqb_refl. cbn. unfold boxes_page. cbn. rewrite box_descriptor_answer by done. do 2 f_equal.
  apply Forall_app in Hall as [_ [[_ Hy] _]%Forall_cons]. apply Base64_nonempty in Hy.
  unfold box_token, strPtr. cbn. rewrite bool_decide_eq_false_2 by done. done.
Qed.

Lemma found_boxes_after app params name d :
  found_boxes (boxes_query app params (Some name)) d =
  filter (λ x, sql_lt name x.1.2) (found_boxes (boxes_query app params None) d).
Proof.
  unfold found_boxes. rewrite list_filter_filter. apply filter_ext_in. intros x _.
  unfold box_selected. cbn. tauto.
Qed.

Lemma found_boxes_sorted app params d :
  StronglySorted (λ x y, sql_lt x.1.2 y.1.2) (found_boxes (boxes_query app params None) d).
Proof.
  eapply StronglySorted_impl_in; [|apply StronglySorted_filter, order_by_sorted].
  intros x y [Hx _]%found_box_app [Hy _]%found_box_app [Hlt|[_ Hlt]]; [|done].
  rewrite Hx, Hy in Hlt. cbn in Hlt. lia.
Qed.

(** A client that follows the tokens of [/v2/applications/{application-id}/boxes] sees exactly
    the boxes of the application, each once and in the order of their names, with their values
    if these are asked for. *)
Theorem SearchForApplicationBoxes_pages app params d sp round fuel :
  let q := boxes_query app params None in
  (forall name, app_call_bytes (name_token name) = Ok name) ->
  in_time si rq -> enabled si rq "SearchForApplicationBoxes" -> fits_bigint app = true ->
  0 < XQ_Limit q <= MaxInt64 -> accounted d round -> boxes_named d ->
  is_Some (t_app (core d) !! app) -> (size (t_app_box (core d)) < fuel)%nat ->
  exists found, collect_boxes app params (Build_World d sp) fuel = Some found /\
    StronglySorted sql_lt (map models.BoxDescriptor_Name found) /\
    forall b, b ∈ found <-> exists name value,
      t_app_box (core d) !! (app, name) = Some value /\ b = shown_box (with_values params) name value.
Proof.
  intros q Htok Ht He Happ Hn Hd Hnamed Hex Hfuel.
  set (item := λ x : Z * string * string, shown_box (with_values params) x.1.2 x.2).
  assert (RelDecision (λ x y : Z * string * string, sql_lt x.1.2 y.1.2)) by (intros x y; apply _).
  assert (StrictOrder (λ x y : Z * string * string, sql_lt x.1.2 y.1.2)).
  { split; [intros x; apply (irreflexivity sql_lt)|intros x y z; apply (transitivity (R := sql_lt))]. }
  exists (map item (found_boxes q d)). split; [|split].
  - apply (collect_all _ item (λ x, name_token x.1.2) (λ x y, sql_lt x.1.2 y.1.2)
             (Z.to_nat (XQ_Limit q))); [apply found_boxes_sorted|lia| | |].
    + by apply (SearchForApplicationBoxes_answer app params None d sp round).
    + intros x Hx.
      etransitivity; [by apply (SearchForApplicationBoxes_answer app params (Some x.1.2) d sp round)|].
      rewrite found_boxes_after. do 3 f_equal. by apply filter_ext_in.
    + pose proof (length_selected (box_selected q) item (t_app_box (core d)) fuel Hfuel) as Hl.
      by rewrite length_map in Hl.
  - rewrite map_map. apply StronglySorted_map, found_boxes_sorted.
  - intros b. unfold found_boxes. rewrite elem_of_selected. split.
    + intros ([[a name] value] & Hx%elem_of_order_by & [Ha _] & ->). cbn in Ha. subst a. eauto.
    + intros (name & value & Hl & ->). exists (app, name, value).
      by split_and!; [apply elem_of_order_by|..].
Qed.

(** ** Failures *)

Lemma select_complete {R A} (err : R -> option error) error_row op wrap_err (f : A -> R * bool) :
  (forall e, err (error_row e) = Some e) -> (forall x, (f x).2 = true -> is_Some (err (f x).1)) ->
  forall d fs, exists out round fs',
    with_round error_row (query_rows op wrap_err error_row (yield_all f error_row)) d fs =
      (Ok (out, round), d, fs') /\
    ((exists r, r ∈ out /\ is_Some (err r)) \/
     with_round error_row (query_rows op wrap_err error_row (yield_all f error_row)) d [] =
       (Ok (out, round), d, [])).
Proof. intros Herr Hf d fs. apply with_round_complete; [done|]. by apply query_rows_complete. Qed.

#[local] Instance postgres_reads : ReadLaws database.
Proof.
  split; intros q d fs; apply select_complete; try done.
  - intros x. unfold asset_rec. destruct (DecodeAssetParams _); cbn; [done|]. eauto.
  - intros x. unfold application_rec. destruct (DecodeAppParams _); cbn; [done|]. eauto.
  - intros x. unfold local_state_rec. destruct (DecodeAppLocalState _); cbn; [done|]. eauto.
Qed.

(** C24. A failure of the database never looks like a shorter list.  Whatever calls to PostgreSQL
    fail, and wherever in reading the rows, a request for assets, applications, holdings or local
    states is answered with status 500 or 503, or as if nothing had failed, and the state of the
    database and of the process is not changed. *)
Theorem resource_answers_sound A (m : Tx (World database) (Response A)) w fs :
  resource_request si rq A m -> exists r fs', m w fs = (r, w, fs') /\
  match r with
  | Err e => exists what, e = ErrPanic what
  | Ok resp => failed resp \/ m w [] = (Ok resp, w, [])
  end.
Proof. intros Hm. by apply (resource_request_sound si rq A m Hm). Qed.

(** ** Blocks *)

Lemma row_shown row s :
  TR_Txn row = Some s -> TR_RootTxn row = None -> TR_Error row = None -> well_indexed s ->
  exists t, txnRowToTransaction row = Ok t /\ shown_tree t = stored_tree s.
Proof.
  intros Hs Hr He Hw. unfold txnRowToTransaction. rewrite He, Hr, Hs. cbn [mbind result_bind].
  edestruct (conversion_defined s) as [t Ht]; [done|]. rewrite Ht. eexists. split; [reflexivity|].
  apply conversion_tree in Ht. rewrite <- Ht. by destruct t.
Qed.

Lemma rows_shown rows l :
  map TR_Txn rows = map Some l -> Forall (λ r, TR_Error r = None /\ TR_RootTxn r = None) rows ->
  Forall well_indexed l ->
  exists ts, map_result txnRowToTransaction rows = Ok ts /\ map shown_tree ts = map stored_tree l.
Proof.
  revert l. induction rows as [|r rows IH]; intros [|s l]; try done.
  - intros _ _ _. by exists [].
  - intros [= Hs Hm] [[He Hr] Hrows]%Forall_cons [Hw Hl]%Forall_cons.
    destruct (row_shown r s) as (t & Ht & Hst); [done..|].
    destruct (IH l) as (ts & Hts & Hsts); [done..|].
    exists (t :: ts). cbn. rewrite Ht. cbn. rewrite Hts. cbn. by rewrite Hst, Hsts.
Qed.

(** The state proof types of a header are numbered without gaps. *)
Definition tracking_ok (h : BlockHeader) : Prop := forall ty,
  ty ∈ dom (BH_StateProofTracking h) -> 0 <= ty < Z.of_nat (size (BH_StateProofTracking h)).

(** C19. What was imported is what [/v2/blocks/{round-number}] shows: the header of the block and
    exactly the transactions of its payset, followed by the proposer payout if there is one, in
    order, with all inner transactions below them. *)
Theorem LookupBlock_shows_block params block m rows d sp json header :
  in_time si rq -> enabled si rq "LookupBlock" ->
  boolOrDefault (models.LookupBlockParams_HeaderOnly params) = false ->
  holds_block block m rows d -> readable block m ->
  t_block_header (core d) !! B_Round block = Some json ->
  DecodeBlockHeader (bhr_header json) = Ok header -> fits_bigint (B_Round block) = true ->
  0 <= EO_MaxTransactionsLimit (opts si) < MaxInt64 ->
  Z.of_nat (length (block_transactions block)) <= EO_MaxTransactionsLimit (opts si) ->
  Forall well_indexed (block_transactions block) -> tracking_ok header ->
  exists b ts, LookupBlock si rq (B_Round block) params (Build_World d sp) [] =
      (Ok (R_OK b), Build_World d sp, []) /\
    b = block_model header
          (map (λ x, tracking_model x.1 x.2) (order_by (BH_StateProofTracking header))) (Some ts) /\
    map shown_tree ts = map stored_tree (block_transactions block).
Proof.
  intros Ht He Hho Hb Hread Hrow Hdec Hfit Hmax Hlen Hw Htrack.
  destruct (GetBlock_block block m rows d json header
    {| GBO_Transactions := true; GBO_MaxTransactionsLimit := EO_MaxTransactionsLimit (opts si) |})
    as (results & Hget & Htx & Herr); [done..|].
  destruct (rows_shown results (block_transactions block)) as (ts & Hts & Hshown); [done..|].
  eexists _, ts. split; [|done]. unfold LookupBlock. rewrite Hho.
  assert ((MaxInt64 <? B_Round block) = false) as ->.
  { apply andb_true_iff in Hfit as [_ ?%Z.leb_le]. by apply Z.ltb_ge. }
  rewrite guarded_enabled by done. unfold tx_bind, attempt, fetchBlock.
  erewrite (call_in_time si rq _ _ _ _ (Build_World d sp) []); [done|done|].
  unfold tx_bind, on_db. cbn [w_db w_special idb_GetBlock postgres negb]. rewrite Hget.
  unfold lift. rewrite tracking_array_spec by (intros ty Hty; by apply Htrack).
  rewrite bool_decide_eq_true_2 by (intros ty Hty; by apply Htrack).
  by rewrite Hts.
Qed.
End Requests.
End Service.

(** ** Concrete requests *)

Module SampleService.
Export SampleAccounts.
#[export] Existing Instances SampleBlock.order call_codec amount_codec.
#[export] Instance like_nothing : PgLike := {| pg_ilike _ _ := false |}.
Definition app_first : SqlOrder (Address * Z).
Proof.
  refine {| sql_lt x y := sql_lt (K := Z * Address) (SqlOrder := columns_order) (x.2, x.1) (y.2, y.1) |}.
  - intros x y. apply _.
  - split.
    + intros x. apply (irreflexivity (sql_lt (K := Z * Address))).
    + intros x y z. apply (transitivity (R := sql_lt (K := Z * Address))).
  - intros [a b] [a' b'].
    destruct (sql_lt_total (b, a) (b', a')) as [?|[[= -> ->]|?]]; [by left|by right; left|by right; right].
Defined.
#[export] Instance by_application : AppOrder.
Proof. refine {| app_order := app_first |}. intros x y [Hlt|[Heq _]]; cbn in *; lia. Defined.
#[export] Instance special_codec : Codec SpecialAddresses :=
  one_document {| FeeSink := ""; RewardsPool := "" |}.
#[export] Instance state_codec : Codec MigrationState :=
  one_document (with_next emptyMigrationState (Z.of_nat (length migrations))).

(** Box names in base 64. *)
#[export] Instance api : ApiOps := {|
  AppCallBytes := string;
  NewAppCallBytes s := if bool_decide (String.substring 0 4 s = "b64:") then Ok s else Err (ErrMsg "encoding");
  AppCallBytes_Raw s := decodeBase64 (String.substring 4 (String.length s - 4) s);
  Version := "1"; Error_text _ := "" |}.

Definition no_array (doc key : string) : option (list string) := None.
#[export] Instance db : IndexerDb database := postgres no_array true None.

(** A page has one result. *)
Definition options : ExtraOptions := one_per_page [] 0.
Definition si : ServerImplementation := {|
  EnableAddressSearchRoundRewind := false; dataError := None; si_timeout := 0;
  disabledParams := None; opts := options |}.
Definition rq : Request := {|
  rq_params := {| QueryParams := ∅; FormParams := Ok ∅ |};
  rq_call := {| call_deadline := false; call_done := true; call_cancelled := false |} |}.

Lemma si_in_time : in_time si rq.
Proof. by left. Qed.

Lemma d_assets : assets_readable d 6.
Proof. split; [apply d_readable|]. apply (rd_assets _ _ _ _ d_readable). Qed.
Lemma d_assets_stored : assets_stored d.
Proof. unfold assets_stored. cbn [d core t_asset]. intros ? ? [<- <-]%lookup_singleton_Some. done. Qed.
Lemma d_apps_stored : apps_stored d.
Proof. unfold apps_stored. cbn [d core t_app]. intros ? ? [<- <-]%lookup_singleton_Some. done. Qed.
Lemma d_holdings_stored : holdings_stored d.
Proof. unfold holdings_stored. cbn [d core t_account_asset]. intros ? ? ? [[= <- <-] <-]%lookup_singleton_Some. done. Qed.
Lemma d_local_states : local_states_readable d 6.
Proof. split; [apply d_readable|]. apply (rd_local_states _ _ _ _ d_readable). Qed.
Lemma d_local_states_stored : local_states_stored d.
Proof. unfold local_states_stored. cbn [d core t_account_app]. intros ? ? [<- <-]%lookup_singleton_Some. done. Qed.
End SampleService.

Section Witnesses.
Import SampleService.

Definition any_asset : models.SearchForAssetsParams := {|
  models.SearchForAssetsParams_IncludeAll := None; models.SearchForAssetsParams_Limit := None;
  models.SearchForAssetsParams_Next := None; models.SearchForAssetsParams_Creator := Some alice;
  models.SearchForAssetsParams_Name := None; models.SearchForAssetsParams_Unit := None;
  models.SearchForAssetsParams_AssetId := None |}.

Lemma SearchForAssets_pages_witness :
  exists found, collect_assets si rq any_asset (Build_World d None) 2 = Some found /\
    map models.Asset_Index found = [9].
Proof.
  edestruct (SearchForAssets_pages no_array true None si rq any_asset) as (found & Hc & _).
  - apply si_in_time.
  - reflexivity.
  - vm_compute. reflexivity.
  - intros v [=].
  - done.
  - apply d_assets.
  - apply d_assets_stored.
  - exact (le_n 2).
  - exists found. split; [exact Hc|]. vm_compute in Hc. injection Hc as <-. reflexivity.
Defined.

Definition unlimited : models.SearchForAssetsParams := {|
  models.SearchForAssetsParams_IncludeAll := None; models.SearchForAssetsParams_Limit := Some 0;
  models.SearchForAssetsParams_Next := None; models.SearchForAssetsParams_Creator := None;
  models.SearchForAssetsParams_Name := None; models.SearchForAssetsParams_Unit := None;
  models.SearchForAssetsParams_AssetId := None |}.

Lemma SearchForAssets_zero_limit_witness :
  exists found next, reply assets_page (SearchForAssets si rq unlimited) (Build_World d None) =
      Some (found, next) /\ map models.Asset_Index found = [9].
Proof.
  edestruct (SearchForAssets_zero_limit no_array true None si rq unlimited) as (found & next & Hc & _).
  - apply si_in_time.
  - reflexivity.
  - reflexivity.
  - reflexivity.
  - vm_compute. reflexivity.
  - intros v [=].
  - done.
  - apply d_assets.
  - apply d_assets_stored.
  - exists found, next. split; [exact Hc|]. vm_compute in Hc. injection Hc as <- _. reflexivity.
Defined.

Definition any_app : models.SearchForApplicationsParams := {|
  models.SearchForApplicationsParams_ApplicationId := None;
  models.SearchForApplicationsParams_Creator := None;
  models.SearchForApplicationsParams_IncludeAll := None;
  models.SearchForApplicationsParams_Limit := None; models.SearchForApplicationsParams_Next := None |}.

Lemma SearchForApplications_pages_witness :
  exists found, collect_apps si rq any_app (Build_World d None) 2 = Some found /\
    map models.Application_Id found = [12].
Proof.
  edestruct (SearchForApplications_pages no_array true None si rq any_app) as (found & Hc & _).
  - apply si_in_time.
  - reflexivity.
  - vm_compute. reflexivity.
  - intros v [=].
  - done.
  - apply (rd_accounted _ _ _ _ d_readable).
  - apply d_apps_stored.
  - exact (le_n 2).
  - exists found. split; [exact Hc|]. vm_compute in Hc. injection Hc as <-. reflexivity.
Defined.

Definition above_four : models.LookupAssetBalancesParams := {|
  models.LookupAssetBalancesParams_IncludeAll := None; models.LookupAssetBalancesParams_Limit := None;
  models.LookupAssetBalancesParams_Next := None;
  models.LookupAssetBalancesParams_CurrencyGreaterThan := Some 4;
  models.LookupAssetBalancesParams_CurrencyLessThan := None |}.

Lemma LookupAssetBalances_pages_witness :
  exists found, collect_balances si rq 9 above_four (Build_World d None) 2 = Some found /\
    map models.MiniAssetHolding_Address found = [alice].
Proof.
  edestruct (LookupAssetBalances_pages no_array true None si rq 9 above_four) as (found & Hc & _).
  - apply si_in_time.
  - reflexivity.
  - reflexivity.
  - done.
  - apply (rd_accounted _ _ _ _ d_readable).
  - apply d_holdings_stored.
  - exact (le_n 2).
  - exists found. split; [exact Hc|]. vm_compute in Hc. injection Hc as <-. reflexivity.
Defined.

Definition any_holding : models.LookupAccountAssetsParams := {|
  models.LookupAccountAssetsParams_AssetId := None; models.LookupAccountAssetsParams_IncludeAll := None;
  models.LookupAccountAssetsParams_Limit := None; models.LookupAccountAssetsParams_Next := None |}.

Lemma LookupAccountAssets_pages_witness :
  exists found, collect_holdings si rq alice any_holding (Build_World d None) 2 = Some found /\
    map models.AssetHolding_AssetId found = [9].
Proof.
  edestruct (LookupAccountAssets_pages no_array true None si rq alice alice any_holding)
    as (found & Hc & _).
  - apply si_in_time.
  - reflexivity.
  - reflexivity.
  - intros v [=].
  - done.
  - apply (rd_accounted _ _ _ _ d_readable).
  - apply d_holdings_stored.
  - exact (le_n 2).
  - exists found. split; [exact Hc|]. vm_compute in Hc. injection Hc as <-. reflexivity.
Defined.

Definition any_local_state : models.LookupAccountAppLocalStatesParams := {|
  models.LookupAccountAppLocalStatesParams_ApplicationId := None;
  models.LookupAccountAppLocalStatesParams_IncludeAll := None;
  models.LookupAccountAppLocalStatesParams_Limit := None;
  models.LookupAccountAppLocalStatesParams_Next := None |}.

Lemma LookupAccountAppLocalStates_pages_witness :
  exists found, collect_local_states si rq alice any_local_state (Build_World d None) 2 = Some found /\
    map models.ApplicationLocalState_Id found = [12].
Proof.
  edestruct (LookupAccountAppLocalStates_pages no_array true None si rq alice any_local_state)
    as (found & Hc & _).
  - apply si_in_time.
  - reflexivity.
  - vm_compute. reflexivity.
  - intros v [=].
  - done.
  - apply d_local_states.
  - apply d_local_states_stored.
  - exact (le_n 2).
  - exists found. split; [exact Hc|]. vm_compute in Hc. injection Hc as <-. reflexivity.
Defined.

Definition any_account : models.SearchForAccountsParams := {|
  models.SearchForAccountsParams_AssetId := None; models.SearchForAccountsParams_Limit := None;
  models.SearchForAccountsParams_Next := None;
  models.SearchForAccountsParams_CurrencyGreaterThan := None;
  models.SearchForAccountsParams_IncludeAll := None; models.SearchForAccountsParams_Exclude := None;
  models.SearchForAccountsParams_CurrencyLessThan := None;
  models.SearchForAccountsParams_AuthAddr := None; models.SearchForAccountsParams_Round := None;
  models.SearchForAccountsParams_ApplicationId := None;
  models.SearchForAccountsParams_OnlineOnly := None |}.
Definition one_account : AccountQueryOptions := search_options si any_account "".

Lemma one_account_countable : countable_resources one_account d.
Proof.
  split.
  - intros _ addr row ad [[-> ->]|[-> ->]]%d_accounts; intros [= <-]; vm_compute; done.
  - intros addr row [[-> ->]|[-> ->]]%d_accounts; vm_compute; done.
Qed.

(** Two pages of one account and an empty one. *)
Lemma SearchForAccounts_pages_witness :
  exists found, collect_accounts si rq any_account (Build_World d None) 3 = Some found /\
    map models.Account_Address found = [alice; bob].
Proof.
  edestruct (SearchForAccounts_pages no_array true None si rq any_account one_account d None 6 header
               Sample.params) as (found & Hc & _).
  - apply si_in_time.
  - reflexivity.
  - split; try reflexivity. exists "". split; reflexivity.
  - split; [vm_compute; reflexivity|]. split; [reflexivity|]. discriminate.
  - done.
  - apply d_readable.
  - intros addr row [[-> _]|[-> _]]%d_accounts; reflexivity.
  - apply one_account_countable.
  - intros addr row [[-> _]|[-> _]]%d_accounts _ [_ Ho]; vm_compute in Ho; discriminate.
  - exact (le_n 3).
  - exists found. split; [exact Hc|]. vm_compute in Hc. injection Hc as <-. reflexivity.
Defined.

Definition with_value : models.SearchForApplicationBoxesParams := {|
  models.SearchForApplicationBoxesParams_Limit := None;
  models.SearchForApplicationBoxesParams_Next := None;
  models.SearchForApplicationBoxesParams_Include := Some ["values"] |}.

Lemma substring_all s : String.substring 0 (String.length s) s = s.
Proof. induction s as [|c s IH]; cbn; [done|]. by rewrite IH. Qed.

Lemma token_name name : app_call_bytes (name_token name) = Ok name.
Proof.
  unfold app_call_bytes. cbn [NewAppCallBytes AppCallBytes_Raw api]. rewrite bool_decide_eq_true_2.
  - change (decodeBase64 (String.substring 0 (String.length (Base64 name) - 0) (Base64 name)) = Ok name).
    rewrite Nat.sub_0_r, substring_all. by apply (Base64.DecodeString_EncodeToString Base64.std).
  - unfold name_token. by destruct (Base64 name).
Qed.

Lemma SearchForApplicationBoxes_pages_witness :
  exists found, collect_boxes no_array true None si rq 12 with_value (Build_World d None) 3 = Some found /\
    found = [shown_box true "box" "value"; shown_box true "other" ""].
Proof.
  edestruct (SearchForApplicationBoxes_pages no_array true None si rq 12 with_value d None 6)
    as (found & Hc & _).
  - apply token_name.
  - apply si_in_time.
  - reflexivity.
  - reflexivity.
  - done.
  - apply (rd_accounted _ _ _ _ d_readable).
  - intros app name value. cbn [d core t_app_box].
    intros [[[= _ <-] _]|[_ [[= _ <-] _]%lookup_singleton_Some]]%lookup_insert_Some; discriminate.
  - by eexists.
  - exact (le_n 3).
  - exists found. split; [exact Hc|]. vm_compute in Hc. injection Hc as <-. reflexivity.
Defined.

(** A connection lost after the first row. *)
Lemma resource_answers_sound_witness :
  let w := Build_World d None in
  let m := SearchForApplications si rq any_app in
  let fs := [None; None; None; Some (ErrMsg "connection reset")] in
  exists r fs', m w fs = (r, w, fs') /\
  match r with
  | Err e => exists what, e = ErrPanic what
  | Ok resp => failed resp \/ m w [] = (Ok resp, w, [])
  end.
Proof.
  intros w m fs. apply (resource_answers_sound no_array true None si rq _ m w fs).
  apply RR_apps.
Defined.

Definition with_transactions : models.LookupBlockParams :=
  {| models.LookupBlockParams_HeaderOnly := None |}.

Lemma no_deltas (n : Z) i : i ∈ dom (∅ : gmap Z StateDelta) -> 0 <= i < n.
Proof. intros Hi. by rewrite dom_empty_L in Hi. Qed.

Lemma call_indexed : Forall well_indexed (block_transactions call_block).
Proof.
  change (Forall well_indexed [call_stxn]).
  repeat (constructor || (apply no_deltas; assumption)).
Qed.

(** A block with an application call and its three inner transactions. *)
Lemma LookupBlock_shows_block_witness :
  exists b ts, LookupBlock si rq 5 with_transactions (Build_World call_db None) [] =
      (Ok (R_OK b), Build_World call_db None, []) /\
    b = block_model header [] (Some ts) /\ map shown_tree ts = map stored_tree [call_stxn].
Proof.
  edestruct (LookupBlock_shows_block no_array true None si rq with_transactions call_block
    (B_Payset call_block) call_rows call_db None call_header header) as (b & ts & Hl & Hb & Ht).
  - apply si_in_time.
  - reflexivity.
  - reflexivity.
  - split; [vm_compute; reflexivity|]. done.
  - apply call_block_readable.
  - reflexivity.
  - vm_compute. reflexivity.
  - reflexivity.
  - done.
  - vm_compute. discriminate.
  - apply call_indexed.
  - intros ty Hty. by apply elem_of_empty in Hty.
  - exists b, ts. split; [exact Hl|]. split; [exact Hb|exact Ht].
Defined.
End Witnesses.
