(* ===== verification/TxnService.v ===== *)
(** * Searching transactions through the API

    What a client of [/v2/transactions] (and of [/v2/accounts/{id}/transactions], which is
    answered the same way) sees that follows the tokens: [fetchTransactions] shows each
    transaction once although several rows of it match, and the pages join without a gap. *)

From Stdlib Require Import Sorted.
From stdpp Require Import sorting.
From S2P Require Import Prelude GoStd Sdk Idb Models Util Encoding Db WriteTxn Writer Postgres Rewind.
From S2P Require Import Migration Sql TxnQuery TxnPaging TxnSearch TxnTrees BlockQuery ResourceQuery AccountQuery.
From S2P Require Import Params Convert Disabled Interface Health Handlers Client Service.

(** ** Pages that show the first item of each group *)

Section Groups.
Context {A X K : Type} `{EqDecision K} (key : X -> K).
Context (lt : K -> K -> Prop) `{!RelDecision lt} `{!StrictOrder lt}.
Context (ask : option string -> option (list A * option string)).
Context (item : X -> A) (token : X -> string).

Definition group_page (l : list X) : list A * option string :=
  (map item (firsts key None l), option_map token (last (firsts key None l))).

(** [post] is what is left of [l]. *)
Definition left_of (l post : list X) : Prop := grouped key lt post /\
  forall x, x ∈ post -> x ∈ l /\ filter (λ y, lt (key x) (key y)) l = filter (λ y, lt (key x) (key y)) post.

Lemma left_of_after l post x : left_of l post -> x ∈ post ->
  left_of l (filter (λ y, lt (key x) (key y)) post).
Proof.
  intros [Hg Hp] Hx. split; [by apply StronglySorted_filter|].
  intros y [Hxy Hy]%list_elem_of_filter. destruct (Hp y Hy) as [Hl ->]. split; [done|].
  rewrite list_filter_filter. apply filter_ext_in. intros z _. split; [|by intros [??]].
  intros Hyz. split; [done|by etrans].
Qed.

Lemma collect_groups n l fuel :
  grouped key lt l -> (0 < n)%nat ->
  ask None = Some (group_page (take n l)) ->
  (forall x, x ∈ l -> ask (Some (token x)) =
     Some (group_page (take n (filter (λ y, lt (key x) (key y)) l)))) ->
  (length l < fuel)%nat ->
  collect ask fuel None = Some (map item (firsts key None l)).
Proof.
  intros Hg Hn Hnone Hsome.
  assert (forall fuel post tok, left_of l post -> ask tok = Some (group_page (take n post)) ->
            (length post < fuel)%nat ->
            collect ask fuel tok = Some (map item (firsts key None post))) as Hc.
  { intros f. induction f as [|f IH]; intros post tok Hleft Hask Hf; [lia|]. cbn [collect].
    rewrite Hask. unfold group_page.
    destruct (last (firsts key None (take n post))) as [x|] eqn:Hlast; cbn [option_map].
    - pose proof Hleft as [Hgp Hin]. destruct (firsts_split key lt n post x Hgp Hlast) as (Hx & -> & Hlen).
      destruct (Hin x Hx) as [Hxl Heq]. rewrite (IH (filter (λ y, lt (key x) (key y)) post)).
      + cbn [option_map]. by rewrite map_app.
      + by apply left_of_after.
      + by rewrite Hsome, Heq.
      + lia.
    - pose proof (last_firsts key (take n post)) as Hk. rewrite Hlast in Hk.
      destruct (last (take n post)) eqn:E; [done|]. apply last_None in E.
      destruct n, post; try done; lia. }
  by apply (Hc fuel l).
Qed.
End Groups.

(** ** Each transaction once *)

Section Dedupe.
Context `{SdkOps} `{UnicodeOps} `{MapRange}.
Context {X K : Type} `{EqDecision K} (key : X -> K).
Context (lt : K -> K -> Prop) `{!RelDecision lt} `{!StrictOrder lt}.
Context (row : X -> TxnRow) (txn : X -> models.Transaction) (id : K -> string).

(** The map of ids keeps the first row of each transaction. *)
Lemma txn_loop_firsts l o seen :
  (forall x, x ∈ l -> txnRowToTransaction (row x) = Ok (txn x) /\
     models.Transaction_Id (txn x) = Some (id (key x))) ->
  (forall x y, x ∈ l -> y ∈ l -> id (key x) = id (key y) -> key x = key y) ->
  grouped key lt l -> (forall k, o = Some k -> Forall (λ y, k = key y \/ lt k (key y)) l) ->
  (forall x, x ∈ l -> id (key x) ∈ seen <-> o = Some (key x)) ->
  txn_loop false (map row l) seen = Ok (map (λ x, (txn x, row x)) (firsts key o l)).
Proof.
  revert o seen. induction l as [|x l IH]; intros o seen Hconv Hinj Hg Ho Hseen; [done|].
  apply StronglySorted_inv in Hg as [Hg Hx]. cbn [map txn_loop firsts].
  destruct (Hconv x) as [-> Hid]; [left|]. cbn [mbind result_bind]. rewrite Hid, andb_true_r.
  assert (forall y, y ∈ l -> y ∈ x :: l) as Hin by (by right).
  destruct (decide (o = Some (key x))) as [Hox|Hox].
  - rewrite bool_decide_eq_true_2 by (apply Hseen; [left|done]). apply IH; try done; [by eauto..| |by eauto].
    intros k Hk. specialize (Ho k Hk). by apply Forall_cons in Ho as [_ ?].
  - rewrite bool_decide_eq_false_2 by (intros Hs; apply Hox, Hseen; [left|done]).
    rewrite (IH (Some (key x))); [done|by eauto|by eauto|done|by intros k [= <-]|].
    intros y Hy. rewrite elem_of_union, elem_of_singleton. split.
    + intros [Heq|Hs]; [by rewrite (Hinj y x) by (done || left || auto)|].
      apply Hseen in Hs; [|by right]. exfalso. rewrite Forall_forall in Hx.
      specialize (Ho (key y) Hs). apply Forall_cons in Ho as [[Heq|Hlt] _]; [by rewrite <- Heq in Hox|].
      destruct (Hx y Hy) as [Heq|Hlt']; [by rewrite Heq in Hox|].
      eapply (irreflexivity lt). by etrans.
    + intros [= ->]. by left.
Qed.
End Dedupe.

(** ** Requests *)

Definition txns_token (p : models.SearchForTransactionsParams) (token : option string)
    : models.SearchForTransactionsParams := {|
  models.SearchForTransactionsParams_Limit := models.SearchForTransactionsParams_Limit p;
  models.SearchForTransactionsParams_Next := token;
  models.SearchForTransactionsParams_NotePrefix := models.SearchForTransactionsParams_NotePrefix p;
  models.SearchForTransactionsParams_TxType := models.SearchForTransactionsParams_TxType p;
  models.SearchForTransactionsParams_SigType := models.SearchForTransactionsParams_SigType p;
  models.SearchForTransactionsParams_GroupId := models.SearchForTransactionsParams_GroupId p;
  models.SearchForTransactionsParams_Txid := models.SearchForTransactionsParams_Txid p;
  models.SearchForTransactionsParams_Round := models.SearchForTransactionsParams_Round p;
  models.SearchForTransactionsParams_MinRound := models.SearchForTransactionsParams_MinRound p;
  models.SearchForTransactionsParams_MaxRound := models.SearchForTransactionsParams_MaxRound p;
  models.SearchForTransactionsParams_AssetId := models.SearchForTransactionsParams_AssetId p;
  models.SearchForTransactionsParams_BeforeTime := models.SearchForTransactionsParams_BeforeTime p;
  models.SearchForTransactionsParams_AfterTime := models.SearchForTransactionsParams_AfterTime p;
  models.SearchForTransactionsParams_CurrencyGreaterThan :=
    models.SearchForTransactionsParams_CurrencyGreaterThan p;
  models.SearchForTransactionsParams_CurrencyLessThan :=
    models.SearchForTransactionsParams_CurrencyLessThan p;
  models.SearchForTransactionsParams_Address := models.SearchForTransactionsParams_Address p;
  models.SearchForTransactionsParams_AddressRole := models.SearchForTransactionsParams_AddressRole p;
  models.SearchForTransactionsParams_ExcludeCloseTo := models.SearchForTransactionsParams_ExcludeCloseTo p;
  models.SearchForTransactionsParams_RekeyTo := models.SearchForTransactionsParams_RekeyTo p;
  models.SearchForTransactionsParams_ApplicationId := models.SearchForTransactionsParams_ApplicationId p |}.

Definition txns_page (a : models.TransactionsResponse) : list models.Transaction * option string :=
  (models.TransactionsResponse_Transactions a, models.TransactionsResponse_NextToken a).

Section Answers.
Context {S : Type} `{IndexerDb S} `{SdkOps} `{UnicodeOps} `{MapRange} `{ApiOps}.
Context (si : ServerImplementation) (rq : Request).

Definition collect_txns (params : models.SearchForTransactionsParams) (w : World S) (fuel : nat)
    : option (list models.Transaction) :=
  collect (λ token, reply txns_page (SearchForTransactions si rq (txns_token params token)) w) fuel None.

(** The token changes nothing but the token of the filter. *)
Lemma filter_token opts params tf token : models.SearchForTransactionsParams_Next params = None ->
  transactionParamsToTransactionFilter opts params = Ok tf ->
  transactionParamsToTransactionFilter opts (txns_token params token) =
    Ok (set_NextToken tf (strOrDefault token)).
Proof.
  intros _. unfold transactionParamsToTransactionFilter, txns_token.
  cbn [models.SearchForTransactionsParams_Limit models.SearchForTransactionsParams_Next
    models.SearchForTransactionsParams_NotePrefix models.SearchForTransactionsParams_TxType
    models.SearchForTransactionsParams_SigType models.SearchForTransactionsParams_GroupId
    models.SearchForTransactionsParams_Txid models.SearchForTransactionsParams_Round
    models.SearchForTransactionsParams_MinRound models.SearchForTransactionsParams_MaxRound
    models.SearchForTransactionsParams_AssetId models.SearchForTransactionsParams_BeforeTime
    models.SearchForTransactionsParams_AfterTime models.SearchForTransactionsParams_CurrencyGreaterThan
    models.SearchForTransactionsParams_CurrencyLessThan models.SearchForTransactionsParams_Address
    models.SearchForTransactionsParams_AddressRole models.SearchForTransactionsParams_ExcludeCloseTo
    models.SearchForTransactionsParams_RekeyTo models.SearchForTransactionsParams_ApplicationId].
  destruct (decodeAddressRole _ _ _) as [role errs0].
  destruct (match models.SearchForTransactionsParams_Address params with Some _ => _ | None => _ end)
    as [address errs1].
  destruct (decodeDigest _ _ _) as [txid errs2]. destruct (decodeBase64Byte _ _ _) as [note errs3].
  destruct (decodeGroupID _ _ _) as [group errs4]. destruct (decodeSigType _ _) as [sig errs5].
  destruct (decodeType _ _) as [type errs6]. cbv zeta.
  destruct (bool_decide (errs6 = [])); [|done]. by intros [= <-].
Qed.

Lemma valid_filter_token params tf token : models.SearchForTransactionsParams_Next params = None ->
  valid_filter si id params = Ok tf ->
  valid_filter si id (txns_token params token) = Ok (set_NextToken tf (strOrDefault token)).
Proof.
  intros Hn. unfold valid_filter. destruct (transactionParamsToTransactionFilter _ params) as [f|] eqn:Hf; [|done].
  rewrite (filter_token _ _ f token Hn Hf). cbn [mbind result_bind id].
  change (validateTransactionFilter (set_NextToken f _)) with (validateTransactionFilter f).
  destruct (validateTransactionFilter f); [done|]. by intros [= <-].
Qed.

Lemma valid_filter_made params tf : valid_filter si id params = Ok tf ->
  transactionParamsToTransactionFilter (opts si) params = Ok tf /\ validateTransactionFilter tf = None.
Proof.
  unfold valid_filter. destruct (transactionParamsToTransactionFilter _ params) as [f|]; [|done].
  cbn [mbind result_bind id]. destruct (validateTransactionFilter f) eqn:Hv; [done|]. by intros [= <-].
Qed.

Section Page.
Context {X K : Type} `{EqDecision K} (key : X -> K).
Context (lt : K -> K -> Prop) `{!RelDecision lt} `{!StrictOrder lt}.
Context (row : X -> TxnRow) (txn : X -> models.Transaction) (ident : K -> string) (token : X -> string).

Lemma SearchForTransactions_answer params tf (s : S) sp l round :
  in_time si rq -> enabled si rq "SearchForTransactions" -> call_cancelled (rq_call rq) = false ->
  valid_filter si id params = Ok tf -> TF_SkipInnerTransactionConversion tf = false ->
  idb_Transactions false tf s [] = (Ok (map row l, round), s, []) ->
  (forall x, x ∈ l -> txnRowToTransaction (row x) = Ok (txn x) /\
     models.Transaction_Id (txn x) = Some (ident (key x)) /\
     TxnRow_Next (row x) (negb (newest_first tf)) = Ok (token x) /\ token x <> "") ->
  (forall x y, x ∈ l -> y ∈ l -> ident (key x) = ident (key y) -> key x = key y) -> grouped key lt l ->
  reply txns_page (SearchForTransactions si rq params) (Build_World s sp) =
    Some (group_page key txn token l).
Proof.
  intros Ht He Hc Hv Hskip Hrun Hrows Hinj Hg. unfold reply, SearchForTransactions.
  destruct (valid_filter_made _ _ Hv) as [Hmade Hval].
  destruct (validate_ranges tf Hval) as (_ & _ & Hx1 & Hx2 & Hx3 & _).
  apply transaction_filter_made in Hmade as Hm.
  rewrite (mf_round _ _ _ Hm) in Hx1. rewrite (mf_asset _ _ _ Hm) in Hx2. rewrite (mf_app _ _ _ Hm) in Hx3.
  rewrite Hx1, Hx2, Hx3, Hv. cbn [orb]. rewrite guarded_enabled by done. cbn [or_bad].
  unfold or_fail, tx_bind, attempt, fetchTransactions.
  set (found := firsts key None l).
  rewrite (call_in_time si rq _ _ _ (map txn found, from_option token "" (last found), round)
             (Build_World s sp) []); [|done|].
  - cbn. unfold group_page. fold found. do 2 f_equal. destruct (last found) as [x|] eqn:Hl; [|done].
    cbn. unfold strPtr. rewrite bool_decide_eq_false_2; [done|]. apply Hrows.
    apply (firsts_subset key None). fold found. apply last_Some in Hl as [l' ->]. apply elem_of_app. right. left.
  - unfold tx_bind, on_db. rewrite Hc. cbn [w_db w_special]. rewrite Hrun. cbn [fst snd]. rewrite Hskip.
    unfold lift. rewrite (txn_loop_firsts key lt row txn ident l None ∅); [|..]; try done.
    + fold found. change (map (λ x, (txn x, row x)) found) with ((λ x, (txn x, row x)) <$> found).
      rewrite fmap_last. replace (map fst ((λ x, (txn x, row x)) <$> found)) with (map txn found)
        by (rewrite <- list_fmap_compose; done).
      destruct (last found) as [x|] eqn:Hl; [|done]. cbn.
      replace (bool_decide (TF_Address tf = None)) with (negb (newest_first tf)).
      * destruct (Hrows x) as (_ & _ & -> & _); [|done]. apply (firsts_subset key None). fold found.
        apply last_Some in Hl as [l' ->]. apply elem_of_app. right. left.
      * unfold newest_first. by destruct (TF_Address tf).
    + intros x Hx. by destruct (Hrows x Hx) as (? & ? & _).
Qed.
End Page.
End Answers.

(** ** The search on the tables *)

Lemma optimization_cases tf :
  txnFilterOptimization tf = tf \/ txnFilterOptimization tf = set_SkipInnerTransactions tf true.
Proof. unfold txnFilterOptimization. cbv zeta. case_bool_decide; auto. Qed.

Lemma optimization_token tf token :
  txnFilterOptimization (set_NextToken tf token) = set_NextToken (txnFilterOptimization tf) token.
Proof.
  destruct tf. unfold txnFilterOptimization, set_NextToken, set_SkipInnerTransactions. cbn.
  destruct (bool_decide (_ = _)) eqn:H1; destruct (bool_decide (_ = _)) eqn:H2 in |- *; try done; exfalso;
    [apply bool_decide_eq_true in H1; apply bool_decide_eq_false in H2; apply H2
    |apply bool_decide_eq_false in H1; apply bool_decide_eq_true in H2; apply H1].
  - injection H1. intros. by subst.
  - injection H2. intros. by subst.
Qed.

(** The optimised search is accepted as the search is. *)
Lemma optimization_pages tf id : creatable tf = Ok id -> page_fits tf -> Forall cond_ok (rest_conds tf id) ->
  TF_OffsetLT tf = None -> TF_OffsetGT tf = None -> 0 < TF_Limit tf -> default "" (TF_GroupID tf) = "" ->
  joins_root tf = true -> root_pages (txnFilterOptimization tf) id.
Proof.
  intros Hid Hp Hr Hlt Hgt Hl Hg Hj. destruct (optimization_cases tf) as [-> | ->]; [by split; auto|].
  split; cbn [set_SkipInnerTransactions TF_OffsetLT TF_OffsetGT TF_Limit TF_GroupID TF_SkipInnerTransactions]; auto.
  unfold rest_conds in *. cbn [set_SkipInnerTransactions TF_Address TF_AddressRole TF_BeforeTime TF_AfterTime
    TF_AssetAmountGT TF_AssetAmountLT TF_TypeEnum TF_Txid TF_GroupID TF_Offset TF_SigType TF_NotePrefix
    TF_AlgosGT TF_AlgosLT TF_EffectiveAmountGT TF_EffectiveAmountLT TF_RekeyTo TF_SkipInnerTransactions
    TF_RequireApplicationLogs].
  rewrite !Forall_app in Hr |- *. destruct_and!. split_and!; try done. by repeat constructor.
Qed.

Section Tables.
Context `{SdkOps} `{UnicodeOps} `{MapRange} `{PgOps} `{Codec ImportState}.
Context `{Codec signedTxnWithAD} `{Codec TxnExtra}.

(** The transaction as the API shows it. *)
Definition shows_txn (d : database) (k : Z * Z) (t : models.Transaction) : Prop := exists row s,
  t_txn (txns d) !! k = Some row /\ DecodeSignedTxnWithAD (txr_txn row) = Ok s /\
  models.Transaction_Id t = Some (txid_of s) /\ models.Transaction_ConfirmedRound t = Some k.1 /\
  models.Transaction_IntraRoundOffset t = Some k.2 /\ shown_tree t = stored_tree s.

(** The table holds trees of transactions that can be shown and have ids of their own. *)
Record txns_stored (d : database) : Prop := {
  ts_trees : all_trees (t_txn (txns d));
  ts_indexed : forall k row s, t_txn (txns d) !! k = Some row -> is_Some (txr_txid row) ->
    DecodeSignedTxnWithAD (txr_txn row) = Ok s -> well_indexed s;
  ts_ids : forall k k' row row' s s', t_txn (txns d) !! k = Some row -> t_txn (txns d) !! k' = Some row' ->
    is_Some (txr_txid row) -> is_Some (txr_txid row') -> DecodeSignedTxnWithAD (txr_txn row) = Ok s ->
    DecodeSignedTxnWithAD (txr_txn row') = Ok s' -> txid_of s = txid_of s' -> k = k' }.

Definition ident (d : database) (k : Z * Z) : string :=
  match t_txn (txns d) !! k with
  | Some row => match DecodeSignedTxnWithAD (txr_txn row) with Ok s => txid_of s | Err _ => "" end
  | None => ""
  end.

Section Search.
Context (d : database) (Hd : txns_stored d) (tf : TransactionFilter) (id : option Z).
Context (Hp : root_pages tf id).

Lemma root_row_of x : x ∈ matching tf id d -> exists i s row,
  row_in_tree (t_txn (txns d)) x.1 i s /\ root_key x = (x.1.1, i) /\
  t_txn (txns d) !! root_key x = Some row /\ DecodeSignedTxnWithAD (txr_txn row) = Ok s /\
  is_Some (txr_txid row) /\ ident d (root_key x) = txid_of s.
Proof.
  intros Hx. destruct (matching_in d tf id x Hp Hx) as (Hxd & _).
  destruct (stored_tree_of d (ts_trees d Hd) x Hxd) as (i & s & Hr & Hk). pose proof Hr as [_ Ht].
  destruct (ta_root _ _ _ _ Ht) as (row & Hl & Hs). exists i, s, row. rewrite Hk. unfold ident. rewrite Hl, Hs.
  split_and!; try done. assert (tree_row i s i row) as Hrow.
  { eapply ta_rows; [done| |done]. pose proof (last_of_ge i s). lia. }
  by apply (tr_id _ _ _ _ Hrow).
Qed.

(** A matching row is converted to its root. *)
Lemma row_shows_root x : x ∈ matching tf id d -> exists t,
  txnRowToTransaction (row_of tf d x) = Ok t /\ shows_txn d (root_key x) t /\
  models.Transaction_Id t = Some (ident d (root_key x)).
Proof.
  intros Hx. destruct (root_row_of x Hx) as (i & s & row & Hr & Hk & Hl & Hs & Hid & Hident).
  destruct (matching_in d tf id x Hp Hx) as (Hxd & Hshow & _).
  destruct (tree_row_of tf d x.1 i s x.2 Hr Hxd Hshow) as (extra & Hrow & Hextra).
  replace (x.1, x.2) with x in Hrow by (by destruct x).
  pose proof (ts_indexed d Hd _ _ _ Hl Hid Hs) as Hw.
  unfold txnRowToTransaction. rewrite Hrow. cbn [TR_Error TR_RootTxn TR_Txn TR_Extra TR_Round TR_Intra].
  replace (match (if decide (x.1.2 = i) then None else Some s), (if decide (x.1.2 = i) then Some s else None)
    with Some _, Some _ => Err (ErrMsg "%d:%d Txn and RootTxn should be mutually exclusive")
    | _, Some t => Ok t | Some r, None => Ok r
    | None, None => Err (ErrMsg "%d:%d transaction bytes missing") end) with (Ok s) by (by case_decide).
  cbn [mbind result_bind]. edestruct (conversion_defined s) as [t Ht]; [done|]. rewrite Ht.
  eexists. split; [reflexivity|].
  pose proof (conversion_tree _ _ _ Ht) as Htree.
  apply signedTxnWithAdToTransaction_inv in Ht as (application & delta & inners & -> & _).
  rewrite Hident. destruct Hr as [Hi Hta]. destruct (ta_range _ _ _ _ Hta) as (_ & ? & ?).
  assert ((if OU_Present (RootIntra extra) then RootTxid extra else TransactionIDString (ST_Txn (STAD_SignedTxn s)))
          = txid_of s) as Hid'.
  { case_decide; [by rewrite Hextra|]. by destruct Hextra as [-> ->]. }
  split; [|by cbn; rewrite Hid'].
  exists row, s. rewrite Hk in Hl |- *. split_and!; [done|done|by cbn; rewrite Hid'|done| |].
  - cbn. unfold uint64Ptr. f_equal. case_decide.
    + rewrite Hextra, wrap64_small; [done|]. unfold is_u64. pose proof (last_of_ge i s). lia.
    + by destruct Hextra as [-> _].
  - rewrite <- Htree. done.
Qed.
End Search.
End Tables.

Section Service.
Context `{SdkOps} `{UnicodeOps} `{MapRange} `{MapOrder} `{PgOps} `{PgLike} `{PgAgg} `{AppOrder}.
Context `{Codec SpecialAddresses} `{Codec MigrationState} `{Codec ImportState} `{Codec blockHeader}.
Context `{Codec signedTxnWithAD} `{Codec TxnExtra} `{Codec baseAccountData}.
Context `{Codec assetParams} `{Codec appParams} `{Codec appLocalState}.
Context `{Codec (option (list assetParams))} `{Codec (option (list appParams))}
  `{Codec (option (list appLocalState))} `{Codec (list Z)} `{Codec (list bool)}
  `{Codec (list (option Z))} `{Codec (list (option bool))}.
Context (pg_array : string -> string -> option (list string)).
Context (readonly : bool) (migration : option State).
#[local] Existing Instance postgres.
Abbreviation pg := (postgres pg_array readonly migration).
Context (si : ServerImplementation) (rq : Request) `{ApiOps}.

(** What is shown for a row, and its token. *)
Definition shown_txn (tf : TransactionFilter) (d : database) (x : Z * Z * txn_row) : models.Transaction :=
  match txnRowToTransaction (row_of tf d x) with
  | Ok t => t
  | Err _ => transaction_model zeroSignedTxnWithAD
      {| RD_Round := 0; RD_RoundTime := 0; RD_Intra := 0; RD_AssetID := 0; RD_AssetCloseAmount := 0 |}
      None None None
  end.
Definition row_token (tf : TransactionFilter) (d : database) (x : Z * Z * txn_row) : string :=
  match TxnRow_Next (row_of tf d x) (negb (newest_first tf)) with Ok token => token | Err _ => "" end.

Section Collected.
Context (params : models.SearchForTransactionsParams) (tf : TransactionFilter) (id : option Z).
Context (d : database) (sp : option SpecialAddresses) (round : Z).
Context (Ht : in_time si rq) (He : enabled si rq "SearchForTransactions").
Context (Hc : call_cancelled (rq_call rq) = false).
Context (Hnext : models.SearchForTransactionsParams_Next params = None).
Context (Hv : valid_filter si Datatypes.id params = Ok tf).
Context (Hskip : TF_SkipInnerTransactionConversion tf = false).
Context (Hround : accounted d round) (Hd : txns_stored d).
Abbreviation opt := (txnFilterOptimization tf).
Context (Hp : root_pages opt id).

Lemma optimization_order : newest_first tf = newest_first opt.
Proof. by destruct (optimization_cases tf) as [-> | ->]. Qed.

Lemma shown_row x : x ∈ matching opt id d ->
  txnRowToTransaction (row_of opt d x) = Ok (shown_txn opt d x) /\
  models.Transaction_Id (shown_txn opt d x) = Some (ident d (root_key x)) /\
  TxnRow_Next (row_of opt d x) (negb (newest_first tf)) = Ok (row_token opt d x) /\
  row_token opt d x <> "" /\ shows_txn d (root_key x) (shown_txn opt d x).
Proof.
  intros Hx. destruct (row_shows_root d Hd opt id Hp x Hx) as (t & Hrow & Hshow & Hid).
  destruct (next_rows d (ts_trees d Hd) opt id x Hp Hx) as (token & Htok & Hne & _).
  unfold shown_txn, row_token. rewrite Hrow, optimization_order, Htok. done.
Qed.

(** A request is answered with the rows of the page, each transaction once. *)
Lemma page_answer token l : (forall x, x ∈ l -> x ∈ matching opt id d) ->
  grouped root_key (before_key (newest_first opt)) l ->
  yieldTxns false (set_NextToken opt (strOrDefault token)) d [] = (Ok (map (row_of opt d) l), d, []) ->
  reply txns_page (SearchForTransactions (H := pg) si rq (txns_token params token)) (Build_World d sp) =
    Some (group_page root_key (shown_txn opt d) (row_token opt d) l).
Proof.
  intros Hin Hg Hy.
  eapply (SearchForTransactions_answer (H := pg) si rq root_key (before_key (newest_first opt)) (row_of opt d)
    (shown_txn opt d) (ident d) (row_token opt d) _ (set_NextToken tf (strOrDefault token)) d sp l round);
    [done|done|done|by apply valid_filter_token|done| | | |done].
  - cbn [idb_Transactions postgres]. unfold Transactions. rewrite optimization_token. by apply with_round_ok.
  - intros x Hx%Hin. destruct (shown_row x Hx) as (? & ? & ? & ? & _). done.
  - intros x y Hx%Hin Hy'%Hin Hident.
    destruct (root_row_of d Hd opt id Hp x Hx) as (i & s & row & _ & _ & Hl & Hs & Hid & Hx').
    destruct (root_row_of d Hd opt id Hp y Hy') as (i' & s' & row' & _ & _ & Hl' & Hs' & Hid' & Hy'').
    rewrite Hx', Hy'' in Hident. by eapply (ts_ids d Hd).
Qed.

Lemma sublist_page n l : (forall x, x ∈ l -> x ∈ matching opt id d) ->
  grouped root_key (before_key (newest_first opt)) l ->
  (forall x, x ∈ take n l -> x ∈ matching opt id d) /\
  grouped root_key (before_key (newest_first opt)) (take n l).
Proof.
  intros Hin Hg. split.
  - intros x Hx. apply Hin. rewrite <- (take_drop n l). apply elem_of_app. by left.
  - unfold grouped in *. rewrite <- (take_drop n l) in Hg. by apply StronglySorted_app in Hg as (_ & ? & _).
Qed.

Lemma transactions_collected fuel : TF_NextToken tf = "" -> (length (matching opt id d) < fuel)%nat ->
  collect_txns (H := pg) si rq params (Build_World d sp) fuel =
    Some (map (shown_txn opt d) (firsts root_key None (matching opt id d))).
Proof.
  intros Htok Hfuel. pose proof (matching_grouped d (ts_trees d Hd) opt id) as Hg.
  assert (set_NextToken opt "" = opt) as Hopt.
  { rewrite <- optimization_token. f_equal. rewrite <- Htok. by destruct tf. }
  assert (TF_NextToken opt = "") as Htok' by (by rewrite <- Hopt).
  unfold collect_txns.
  apply (collect_groups root_key (before_key (newest_first opt)) _ (shown_txn opt d) (row_token opt d)
           (Z.to_nat (TF_Limit opt))); [done| | | |done].
  - pose proof (rp_limit _ _ Hp). lia.
  - destruct (sublist_page (Z.to_nat (TF_Limit opt)) (matching opt id d)) as [Hin Hgt]; [done..|].
    apply page_answer; [done..|]. cbn [strOrDefault default]. rewrite Hopt. by apply (first_rows d (ts_trees d Hd)).
  - intros x Hx. destruct (next_rows d (ts_trees d Hd) opt id x Hp Hx) as (token & Hrow & Hne & _ & Hy).
    assert (row_token opt d x = token) as -> by (unfold row_token; by rewrite Hrow).
    set (l := filter (λ y, before_key (newest_first opt) (root_key x) (root_key y)) (matching opt id d)) in *.
    assert (forall y, y ∈ l -> y ∈ matching opt id d) as Hin by (by intros y [_ ?]%list_elem_of_filter).
    assert (grouped root_key (before_key (newest_first opt)) l) as Hgl by (by apply StronglySorted_filter).
    destruct (sublist_page (Z.to_nat (TF_Limit opt)) l) as [Hin' Hgt]; [done..|]. by apply page_answer.
Qed.
End Collected.

Lemma length_matching tf id d : (length (matching tf id d) <= size (t_txn (txns d)))%nat.
Proof.
  unfold matching. etrans; [apply length_filter|]. unfold ordered.
  assert (length (merge_sort key_le (map_to_list (t_txn (txns d)))) = size (t_txn (txns d))) as <-
    by (by rewrite merge_sort_Permutation, length_map_to_list).
  destruct (newest_first tf); [by rewrite length_reverse|done].
Qed.

(** The optimisation does not change which transactions are shown. *)
Lemma optimization_roots tf id d k : txns_stored d -> creatable tf = Ok id ->
  TF_Offset tf = None -> TF_OffsetLT tf = None -> TF_OffsetGT tf = None ->
  TF_SkipInnerTransactions tf = false -> root_pages (txnFilterOptimization tf) id ->
  k ∈ map root_key (matching (txnFilterOptimization tf) id d) <-> k ∈ map root_key (matching tf id d).
Proof.
  intros Hd Hid Hoff Hlt Hgt Hskip Hp. destruct (optimization_cases tf) as [-> |Hopt]; [done|].
  assert (id = None) as ->.
  { unfold txnFilterOptimization in Hopt. cbv zeta in Hopt. case_bool_decide as Heq.
    - rewrite Heq in Hid. by injection Hid.
    - assert (TF_SkipInnerTransactions tf = true) by (by rewrite Hopt). congruence. }
  rewrite <- (txnFilterOptimization_same_roots tf d k) by (done || by apply trees_rooted, Hd).
  assert (map root_key (matching (txnFilterOptimization tf) None d) =
          (matching (txnFilterOptimization tf) None d).*1) as ->; [|done].
  apply map_ext_in. intros x Hx%list_elem_of_In.
  destruct (matching_in d _ _ x Hp Hx) as (Hxd & Hshow & _).
  destruct Hshow as [Hj|[t Hid']].
  - rewrite Hopt in Hj. unfold joins_root in Hj. cbn in Hj. by rewrite andb_false_r in Hj.
  - pose proof (trees_rooted d (ts_trees d Hd) _ _ Hxd) as Hr. rewrite Hid' in Hr. by destruct x.
Qed.

(** What a client sees, by the keys of the roots. *)
Lemma transactions_seen params tf id d sp round fuel :
  in_time si rq -> enabled si rq "SearchForTransactions" -> call_cancelled (rq_call rq) = false ->
  search_params_uint64 params -> models.SearchForTransactionsParams_Next params = None ->
  valid_filter si Datatypes.id params = Ok tf -> creatable tf = Ok id ->
  0 < TF_Limit tf -> default "" (TF_GroupID tf) = "" ->
  0 <= EO_DefaultTransactionsLimit (opts si) -> 0 <= EO_MaxTransactionsLimit (opts si) <= MaxInt64 ->
  accounted d round -> txns_stored d -> (size (t_txn (txns d)) < fuel)%nat ->
  exists keys ts, collect_txns (H := pg) si rq params (Build_World d sp) fuel = Some ts /\
    Forall2 (shows_txn d) keys ts /\ StronglySorted (before_key (newest_first tf)) keys /\
    forall k, k ∈ keys <-> exists x, t_txn (txns d) !! x.1 = Some x.2 /\ wanted tf id d x /\ root_key x = k.
Proof.
  intros Ht He Hc Hu Hnext Hv Hid Hl Hg Hdef Hmax Hround Hd Hfuel.
  destruct (valid_filter_made si _ _ Hv) as [Hmade Hval]. apply transaction_filter_made in Hmade as Hm.
  destruct (mf_offsets _ _ _ Hm) as (Hoff & Hlt & Hgt). destruct (mf_inner _ _ _ Hm) as [Hin Hconv].
  assert (joins_root tf = true) as Hj by (unfold joins_root; by rewrite Hin, Hconv).
  assert (root_pages (txnFilterOptimization tf) id) as Hp.
  { apply optimization_pages; try done; [by eapply made_page_fits|by eapply made_conds_ok]. }
  set (l := firsts root_key None (matching (txnFilterOptimization tf) id d)).
  exists (map root_key l), (map (shown_txn (txnFilterOptimization tf) d) l). split_and!.
  - apply (transactions_collected params tf id d sp round); try done.
    + rewrite (mf_token _ _ _ Hm), Hnext. done.
    + pose proof (length_matching (txnFilterOptimization tf) id d). lia.
  - apply Forall2_fmap, Forall_Forall2_diag, Forall_forall. intros x Hx%firsts_subset.
    by apply (shown_row tf id d Hd Hp x Hx).
  - rewrite optimization_order. apply firsts_sorted; [apply _|]. apply matching_grouped, Hd.
  - intros k. unfold l. rewrite (firsts_keys root_key), optimization_roots by done. split.
    + intros (x & -> & [Hw Hx%elem_of_ordered]%list_elem_of_filter)%list_elem_of_fmap. eauto.
    + intros (x & Hx & Hw & <-). apply list_elem_of_fmap_2, list_elem_of_filter.
      split; [done|]. by apply elem_of_ordered.
Qed.

(** C10. A client that searches for transactions and follows the tokens, without or with an
    address, sees exactly the transactions that match or have an inner transaction that does,
    each once and complete, oldest first or newest first, although the database pages through
    the matching rows. *)
Theorem SearchForTransactions_pages params tf id d sp round fuel :
  in_time si rq -> enabled si rq "SearchForTransactions" -> call_cancelled (rq_call rq) = false ->
  search_params_uint64 params -> models.SearchForTransactionsParams_Next params = None ->
  valid_filter si Datatypes.id params = Ok tf -> creatable tf = Ok id ->
  0 < TF_Limit tf -> default "" (TF_GroupID tf) = "" ->
  0 <= EO_DefaultTransactionsLimit (opts si) -> 0 <= EO_MaxTransactionsLimit (opts si) <= MaxInt64 ->
  accounted d round -> txns_stored d -> (size (t_txn (txns d)) < fuel)%nat ->
  exists keys ts, collect_txns (H := pg) si rq params (Build_World d sp) fuel = Some ts /\
    Forall2 (shows_txn d) keys ts /\ StronglySorted (before_key (newest_first tf)) keys /\
    forall k, k ∈ keys <-> exists x, t_txn (txns d) !! x.1 = Some x.2 /\ wanted tf id d x /\ root_key x = k.
Proof. intros. by eapply transactions_seen. Qed.
End Service.

(** ** The payments of a block, one row a page *)

Section Witnesses.
Import SampleService SampleTrees.

Definition trees_d : database := {|
  core := {| t_block_header := {[ 5 := {| bhr_realtime := 0; bhr_rewardslevel := 0; bhr_header := document |} ]};
             t_account := ∅; t_account_asset := ∅; t_asset := ∅; t_app := ∅; t_account_app := ∅;
             t_app_box := ∅; t_metastate := {[ StateMetastateKey := "6" ]} |};
  txns := {| t_txn := tc_map rows ∪ ∅; t_txn_participation := ∅ |} |}.

Definition payments : models.SearchForTransactionsParams := {|
  models.SearchForTransactionsParams_Limit := Some 1; models.SearchForTransactionsParams_Next := None;
  models.SearchForTransactionsParams_NotePrefix := None;
  models.SearchForTransactionsParams_TxType := Some "pay";
  models.SearchForTransactionsParams_SigType := None;
  models.SearchForTransactionsParams_GroupId := None; models.SearchForTransactionsParams_Txid := None;
  models.SearchForTransactionsParams_Round := None; models.SearchForTransactionsParams_MinRound := None;
  models.SearchForTransactionsParams_MaxRound := None; models.SearchForTransactionsParams_AssetId := None;
  models.SearchForTransactionsParams_BeforeTime := None;
  models.SearchForTransactionsParams_AfterTime := None;
  models.SearchForTransactionsParams_CurrencyGreaterThan := None;
  models.SearchForTransactionsParams_CurrencyLessThan := None;
  models.SearchForTransactionsParams_Address := None;
  models.SearchForTransactionsParams_AddressRole := None;
  models.SearchForTransactionsParams_ExcludeCloseTo := None;
  models.SearchForTransactionsParams_RekeyTo := None;
  models.SearchForTransactionsParams_ApplicationId := None |}.

Definition payments_filter : TransactionFilter :=
  match valid_filter si id payments with Ok tf => tf | Err _ => SampleSearch.any 1 end.

(** The two root rows. *)
Lemma trees_d_roots k row s : t_txn (txns trees_d) !! k = Some row -> is_Some (txr_txid row) ->
  DecodeSignedTxnWithAD (txr_txn row) = Ok s ->
  k = (5, 0) /\ s = stored_at 0 \/ k = (5, 1) /\ s = stored_at 1.
Proof.
  cbn [trees_d txns t_txn]. rewrite (right_id_L ∅ (∪)). intros Hl Hid Hs.
  apply tc_map_lookup_inv in Hl as (r & [n Hn]%list_elem_of_lookup_1 & <- & <-).
  do 5 (destruct n as [|n]; [vm_compute in Hn; injection Hn as <-;
    first [by destruct Hid | vm_compute in Hs; injection Hs as <-; vm_compute; auto]|]).
  vm_compute in Hn. discriminate Hn.
Qed.

Lemma trees_d_stored : txns_stored trees_d.
Proof.
  split.
  - apply (imported_trees block (B_Payset block) rows ∅ block_is_readable);
      [vm_compute; reflexivity|by repeat constructor|intros i; apply lookup_empty|done|apply empty_trees].
  - intros k row s Hl Hid Hs. destruct (trees_d_roots k row s Hl Hid Hs) as [[_ ->]|[_ ->]];
      repeat (constructor || (apply no_deltas; assumption)).
  - intros k k' row row' s s' Hl Hl' Hid Hid' Hs Hs'.
    destruct (trees_d_roots k row s Hl Hid Hs) as [[-> ->]|[-> ->]],
      (trees_d_roots k' row' s' Hl' Hid' Hs') as [[-> ->]|[-> ->]]; done.
Qed.

Lemma SearchForTransactions_pages_witness : exists keys ts,
  collect_txns (H := postgres no_array true None) si rq payments (Build_World trees_d None) 6 = Some ts /\
  Forall2 (shows_txn trees_d) keys ts /\
  map models.Transaction_Id ts = [Some "pay-"; Some "appl-"].
Proof.
  edestruct (SearchForTransactions_pages no_array true None si rq payments payments_filter None trees_d None 5 6)
    as (keys & ts & Hc & Hshow & _).
  - apply si_in_time.
  - reflexivity.
  - reflexivity.
  - split; intros v [=]; by subst.
  - reflexivity.
  - vm_compute. reflexivity.
  - reflexivity.
  - done.
  - reflexivity.
  - done.
  - done.
  - vm_compute. reflexivity.
  - apply trees_d_stored.
  - vm_compute. lia.
  - exists keys, ts. split; [exact Hc|]. split; [exact Hshow|].
    vm_compute in Hc. injection Hc as <-. reflexivity.
Defined.
End Witnesses.
