(* ===== verification/PagingTest.v ===== *)
(** * The test of paging: [cmd/idbtest/idbtest.go]

    The command asks for up to a thousand transactions at once, then for the same ones page by
    page, and compares.  Here is when its verdict can be trusted. *)

From stdpp Require Import sorting.
From S2P Require Import Prelude GoStd Sdk Idb Util Encoding Db WriteTxn Writer Postgres Sql TxnQuery.
From S2P Require Import TxnPaging TxnSearch TxnTrees ResourceQuery TxnService.

Definition set_Limit (tf : TransactionFilter) (limit : Z) : TransactionFilter := {|
  TF_SkipOptimization := TF_SkipOptimization tf; TF_Address := TF_Address tf;
  TF_AddressRole := TF_AddressRole tf; TF_MinRound := TF_MinRound tf;
  TF_MaxRound := TF_MaxRound tf; TF_AfterTime := TF_AfterTime tf;
  TF_BeforeTime := TF_BeforeTime tf; TF_TypeEnum := TF_TypeEnum tf; TF_Txid := TF_Txid tf;
  TF_Round := TF_Round tf; TF_Offset := TF_Offset tf; TF_OffsetLT := TF_OffsetLT tf;
  TF_OffsetGT := TF_OffsetGT tf; TF_SigType := TF_SigType tf;
  TF_NotePrefix := TF_NotePrefix tf; TF_GroupID := TF_GroupID tf;
  TF_AlgosGT := TF_AlgosGT tf; TF_AlgosLT := TF_AlgosLT tf; TF_RekeyTo := TF_RekeyTo tf;
  TF_AssetID := TF_AssetID tf; TF_AssetAmountGT := TF_AssetAmountGT tf;
  TF_AssetAmountLT := TF_AssetAmountLT tf; TF_ApplicationID := TF_ApplicationID tf;
  TF_EffectiveAmountGT := TF_EffectiveAmountGT tf;
  TF_EffectiveAmountLT := TF_EffectiveAmountLT tf;
  TF_NextToken := TF_NextToken tf; TF_Limit := limit;
  TF_SkipInnerTransactionConversion := TF_SkipInnerTransactionConversion tf;
  TF_SkipInnerTransactions := TF_SkipInnerTransactions tf; TF_HeaderOnly := TF_HeaderOnly tf;
  TF_RequireApplicationLogs := TF_RequireApplicationLogs tf |}.

(** ** The test *)

Section Test.
(** [db.Transactions]: the rows on the channel. *)
Context (search : TransactionFilter -> list TxnRow).

Definition roundIntra (r : TxnRow) : Z * Z := (TR_Round r, TR_Intra r).

(** The number of mismatches that are printed for a row. *)
Definition mismatches (ri : Z * Z) (r : TxnRow) : nat :=
  (if decide (ri.1 = TR_Round r) then 0 else 1) + (if decide (ri.2 = TR_Intra r) then 0 else 1).

(** The rows of a page: the position, whether to go on, the token and the number of mismatches.
    A position past the end is a panic; an error of [Next] ends the process. *)
Fixpoint page_loop (ascending : bool) (all : list (Z * Z)) (rows : list TxnRow)
    (pos : nat) (any : bool) (next : string) (bad : nat) : result (nat * bool * string * nat) :=
  match rows with
  | [] => Ok (pos, any, next, bad)
  | txnrow :: rows =>
      match all !! pos with
      | None => Err (ErrPanic "index out of range")
      | Some ri =>
          let bad := (bad + mismatches ri txnrow)%nat in
          if (S pos =? length all)%nat then Ok (S pos, false, next, bad)
          else
            next ← TxnRow_Next txnrow ascending;
            page_loop ascending all rows (S pos) true next bad
      end
  end.

(** The pages; [None] if the fuel does not suffice. *)
Fixpoint pages_loop (fuel : nat) (all : list (Z * Z)) (q : TransactionFilter) (pos page bad : nat)
    : option (result (nat * nat * nat)) :=
  match fuel with
  | O => None
  | S fuel =>
      match page_loop (bool_decide (TF_Address q = None)) all (search q) pos false "" bad with
      | Err e => Some (Err e)
      | Ok (pos, any, next, bad) =>
          if any then pages_loop fuel all (set_NextToken q next) pos (S page) bad
          else Some (Ok (pos, S page, bad))
      end
  end.

Record verdict := { v_entries : nat; v_pages : nat; v_mismatches : nat }.

Definition testTxnPaging (fuel : nat) (q : TransactionFilter) : option (result verdict) :=
  let q := set_Limit q 1000 in
  let all := map roundIntra (search q) in
  let q := set_Limit q (Z.of_nat (length all) / 3 + 1) in
  match pages_loop fuel all q 0 0 0 with
  | None => None
  | Some (Err e) => Some (Err e)
  | Some (Ok (pos, page, bad)) =>
      let short := if (pos =? length all)%nat then 0%nat else 1%nat in
      Some (Ok {| v_entries := length all; v_pages := page; v_mismatches := bad + short |})
  end.
End Test.

(** ** Pages that follow each other *)

Section Follow.
Context (search : TransactionFilter -> list TxnRow) (q : TransactionFilter).
Context {X : Type} (items : list X) (row : X -> TxnRow).

Abbreviation ascending := (bool_decide (TF_Address q = None)).

(** The first page has the first items, and the page after an item those after it. *)
Context (Hfirst : forall limit, 0 < limit <= 1000 ->
  search (set_Limit q limit) = map row (take (Z.to_nat limit) items)).
Context (Hnext : forall limit pre x post, 0 < limit <= 1000 -> items = pre ++ x :: post ->
  exists token, TxnRow_Next (row x) ascending = Ok token /\
    search (set_NextToken (set_Limit q limit) token) = map row (take (Z.to_nat limit) post)).

Abbreviation all := (map roundIntra (map row (take 1000 items))).

Lemma all_lookup pos x : (pos < 1000)%nat -> items !! pos = Some x -> all !! pos = Some (roundIntra (row x)).
Proof.
  intros Hpos Hx. rewrite !list_lookup_fmap. rewrite lookup_take_lt by done. by rewrite Hx.
Qed.

Lemma mismatches_self r : mismatches (roundIntra r) r = 0%nat.
Proof. unfold mismatches. by rewrite !decide_True. Qed.

Lemma all_length : length all = Nat.min 1000 (length items).
Proof. by rewrite !length_map, length_take. Qed.

(** A page that does not reach the end. *)
Lemma page_within l pos any next post : drop pos items = l ++ post -> l <> [] ->
  (pos + length l < length all)%nat -> exists x token, last l = Some x /\
    TxnRow_Next (row x) ascending = Ok token /\
    page_loop ascending all (map row l) pos any next 0 = Ok ((pos + length l)%nat, true, token, 0%nat).
Proof.
  revert pos any next. induction l as [|x l IH]; intros pos any next Hd Hne Hlen; [done|].
  cbn [map page_loop length] in *. pose proof all_length as Hall.
  assert (items !! pos = Some x) as Hx by (by rewrite <- (Nat.add_0_r pos), <- lookup_drop, Hd).
  rewrite (all_lookup pos x) by (done || lia). rewrite mismatches_self. change (0 + 0)%nat with 0%nat.
  destruct (Nat.eqb_spec (S pos) (length all)); [lia|].
  destruct (Hnext 1 (take pos items) x (l ++ post)) as (token & Htok & _); [lia| |].
  { rewrite <- (take_drop pos items) at 1. by rewrite Hd. }
  rewrite Htok. cbn [mbind result_bind]. destruct l as [|y l].
  - exists x, token. cbn. by rewrite Nat.add_1_r.
  - destruct (IH (S pos) true token) as (z & token' & Hz & Htok' & ->); [|done|cbn in *; lia|].
    + rewrite <- Nat.add_1_r, <- drop_drop, Hd. done.
    + exists z, token'. rewrite last_cons_cons. split_and!; [done|done|]. cbn. do 4 f_equal. lia.
Qed.

(** A page that reaches the end. *)
Lemma page_last l pos any next post : drop pos items = l ++ post -> (pos < length all)%nat ->
  (length all <= pos + length l)%nat -> exists next',
    page_loop ascending all (map row l) pos any next 0 = Ok (length all, false, next', 0%nat).
Proof.
  revert pos any next. induction l as [|x l IH]; intros pos any next Hd Hpos Hlen; [cbn in Hlen; lia|].
  cbn [map page_loop length] in *. pose proof all_length as Hall.
  assert (items !! pos = Some x) as Hx by (by rewrite <- (Nat.add_0_r pos), <- lookup_drop, Hd).
  rewrite (all_lookup pos x) by (done || lia). rewrite mismatches_self. change (0 + 0)%nat with 0%nat.
  destruct (Nat.eqb_spec (S pos) (length all)) as [->|Hne]; [by eexists|].
  destruct (Hnext 1 (take pos items) x (l ++ post)) as (token & Htok & _); [lia| |].
  { rewrite <- (take_drop pos items) at 1. by rewrite Hd. }
  rewrite Htok. cbn [mbind result_bind]. apply IH; [|lia|cbn in *; lia].
  rewrite <- Nat.add_1_r, <- drop_drop, Hd. done.
Qed.

Lemma pages_ok limit fuel q' pos page : 0 < limit <= 1000 -> TF_Address q' = TF_Address q ->
  (forall token, set_NextToken q' token = set_NextToken (set_Limit q limit) token) ->
  search q' = map row (take (Z.to_nat limit) (drop pos items)) ->
  (pos < length all)%nat -> (length all - pos < fuel)%nat ->
  exists page', pages_loop search fuel all q' pos page 0 = Some (Ok (length all, page', 0%nat)).
Proof.
  intros Hl. revert q' pos page. induction fuel as [|fuel IH]; intros q' pos page Ha Hq Hs Hpos Hf; [lia|].
  cbn [pages_loop]. rewrite Ha, Hs. set (n := Z.to_nat limit). set (l := take n (drop pos items)).
  pose proof all_length as Hall.
  assert (drop pos items = l ++ drop n (drop pos items)) as Hd by (unfold l; by rewrite (take_drop n)).
  destruct (decide (length all <= pos + length l)%nat) as [Hend|Hend].
  - destruct (page_last l pos false "" _ Hd Hpos Hend) as (next & ->). by eexists.
  - destruct (page_within l pos false "" _ Hd) as (x & token & Hx & Htok & ->); [|lia|].
    { intros Hnil. apply (f_equal length) in Hnil. unfold l in Hnil. rewrite length_take, length_drop in Hnil.
      cbn in Hnil. lia. }
    assert (length l <> 0)%nat as Hne by (destruct l; [done|cbn; lia]).
    apply last_Some in Hx as [l0 Hl0].
    destruct (Hnext limit (take pos items ++ l0) x (drop n (drop pos items))) as (token' & Htok' & Hs'); [done| |].
    { rewrite <- (take_drop pos items) at 1. rewrite Hd, Hl0 at 1. by rewrite <- !app_assoc. }
    rewrite Htok in Htok'. injection Htok' as <-.
    apply IH; [done|done| |lia|lia]. rewrite Hq, Hs'. do 2 f_equal.
    rewrite <- drop_drop, Hd, drop_app_length. by rewrite <- Hd.
Qed.

Lemma testTxnPaging_follow fuel : (Nat.min 1000 (length items) < fuel)%nat -> exists pages,
  testTxnPaging search fuel q =
    Some (Ok {| v_entries := Nat.min 1000 (length items); v_pages := pages; v_mismatches := 0 |}).
Proof.
  intros Hf. unfold testTxnPaging. rewrite (Hfirst 1000) by lia. change (Z.to_nat 1000) with 1000%nat.
  pose proof all_length as Hall. set (limit := Z.of_nat (length all) / 3 + 1).
  assert (0 < limit <= 1000) as Hlimit.
  { unfold limit. rewrite Hall. pose proof (Z.div_pos (Z.of_nat (Nat.min 1000 (length items))) 3).
    pose proof (Z.div_le_mono (Z.of_nat (Nat.min 1000 (length items))) 1000 3).
    change (1000 / 3) with 333 in *. lia. }
  change (set_Limit (set_Limit q 1000) limit) with (set_Limit q limit).
  assert (exists page, pages_loop search fuel all (set_Limit q limit) 0 0 0 = Some (Ok (length all, page, 0%nat)))
    as [page Hp].
  { destruct (decide (length all = 0)%nat) as [Hz|Hz].
    - destruct fuel; [lia|]. cbn [pages_loop]. rewrite Hfirst by done.
      assert (items = []) as -> by (apply nil_length_inv; rewrite Hall in Hz; lia).
      rewrite take_nil. by eexists.
    - apply (pages_ok limit); [done|done|done|by rewrite Hfirst|lia|lia]. }
  rewrite Hp, Nat.eqb_refl. exists page. do 3 f_equal. exact Hall.
Qed.
End Follow.

(** ** Searches of the PostgreSQL database *)

Section Postgres.
Context `{SdkOps} `{PgOps} `{Codec signedTxnWithAD} `{Codec TxnExtra} `{Codec ImportState}.

(** The rows on the channel of [Transactions], when no call fails. *)
Definition rows_found (d : database) (tf : TransactionFilter) : list TxnRow :=
  match Transactions false tf d [] with
  | (Ok (rows, _), _, _) => rows
  | (Err _, _, _) => []
  end.

Lemma optimization_limit tf limit :
  txnFilterOptimization (set_Limit tf limit) = set_Limit (txnFilterOptimization tf) limit.
Proof.
  destruct tf. unfold txnFilterOptimization, set_Limit, set_SkipInnerTransactions. cbn.
  destruct (bool_decide (_ = _)) eqn:E1; destruct (bool_decide (_ = _)) eqn:E2 in |- *; try done; exfalso;
    [apply bool_decide_eq_true in E1; apply bool_decide_eq_false in E2; apply E2
    |apply bool_decide_eq_false in E1; apply bool_decide_eq_true in E2; apply E1].
  - injection E1. intros. by subst.
  - injection E2. intros. by subst.
Qed.

(** With one row of each tree, the rows of the trees after a row are the rows after it. *)
Lemma rows_after nf (l pre : list (Z * Z * txn_row)) x post : grouped root_key (before_key nf) l ->
  NoDup (map root_key l) -> l = pre ++ x :: post ->
  filter (λ y, before_key nf (root_key x) (root_key y)) l = post.
Proof.
  intros Hg Hn ->. unfold grouped in Hg. apply StronglySorted_app in Hg as (Hpre & _ & [_ Hpost]%StronglySorted_inv).
  rewrite map_app in Hn. cbn [map] in Hn. apply NoDup_app in Hn as (_ & Hdis & [Hx _]%NoDup_cons).
  rewrite filter_app, filter_cons, filter_none.
  2:{ apply Forall_forall. intros y Hy Hlt. destruct (Hpre y x Hy ltac:(left)) as [Heq|Hlt'].
      - apply (Hdis (root_key y)); [by apply list_elem_of_fmap_2|]. rewrite Heq. left.
      - apply (irreflexivity (before_key nf) (root_key x)). by etrans. }
  rewrite decide_False by apply (irreflexivity (before_key nf)). cbn [app].
  apply filter_Forall_id, Forall_forall. intros y Hy. rewrite Forall_forall in Hpost.
  destruct (Hpost y Hy) as [Heq|Hlt]; [|done]. destruct Hx. rewrite Heq. by apply list_elem_of_fmap_2.
Qed.

(** The test of a search of which each transaction has at most one matching row (itself or one of
    its inner transactions), with or without an address, finishes and finds no mismatch: the pages
    show the same transactions as one query, in the same order. *)
Theorem testTxnPaging_agrees tf id d round fuel :
  all_trees (t_txn (txns d)) -> accounted d round ->
  (forall limit, 0 < limit <= 1000 -> root_pages (txnFilterOptimization (set_Limit tf limit)) id) ->
  TF_NextToken tf = "" ->
  let items := matching (txnFilterOptimization tf) id d in
  NoDup (map root_key items) -> (Nat.min 1000 (length items) < fuel)%nat ->
  exists pages, testTxnPaging (rows_found d) fuel tf =
    Some (Ok {| v_entries := Nat.min 1000 (length items); v_pages := pages; v_mismatches := 0 |}).
Proof.
  intros Ht Hr Hp Htok items Hn Hf. set (tf0 := txnFilterOptimization tf).
  assert (TF_Address tf0 = TF_Address tf /\ TF_NextToken tf0 = TF_NextToken tf) as [Ha Htok0].
  { unfold tf0. by destruct (optimization_cases tf) as [-> | ->]. }
  apply (testTxnPaging_follow (rows_found d) tf items (row_of tf0 d)); [| |done].
  - intros limit Hl. specialize (Hp limit Hl). unfold rows_found, Transactions. rewrite optimization_limit in Hp |- *.
    erewrite with_round_ok; [|done|apply (first_rows d Ht _ id Hp)]; [done|]. change (TF_NextToken tf0 = ""). congruence.
  - intros limit pre x post Hl Hitems. specialize (Hp limit Hl). rewrite optimization_limit in Hp.
    destruct (next_rows d Ht _ id x Hp) as (token & Hnext & _ & _ & Hy).
    { change (x ∈ items). rewrite Hitems. apply elem_of_app. right. left. }
    exists token. split.
    + rewrite <- Hnext. f_equal. unfold newest_first. cbn. fold tf0. rewrite Ha.
      by destruct (TF_Address tf).
    + unfold rows_found, Transactions. rewrite optimization_token, optimization_limit.
      erewrite with_round_ok; [|done|exact Hy]. cbn [set_Limit TF_Limit].
      change (matching (set_Limit (txnFilterOptimization tf) limit) id d) with items.
      change (newest_first (set_Limit (txnFilterOptimization tf) limit)) with (newest_first tf0).
      rewrite (rows_after (newest_first tf0) items pre x post); [done| |done|done].
      apply (matching_grouped d Ht tf0).
Qed.
End Postgres.

(** ** A block with a payment and an application call that pays *)

Section Witnesses.
Import SampleTrees.
#[local] Existing Instance SampleSearch.import_codec.

(** Every transaction, and the payments only. *)
Definition every : TransactionFilter := SampleSearch.any 0.
Definition payments_of_all : TransactionFilter := {|
  TF_SkipOptimization := false; TF_Address := None; TF_AddressRole := 0; TF_MinRound := 0;
  TF_MaxRound := 0; TF_AfterTime := None; TF_BeforeTime := None; TF_TypeEnum := 1; TF_Txid := "";
  TF_Round := None; TF_Offset := None; TF_OffsetLT := None; TF_OffsetGT := None;
  TF_SigType := ""; TF_NotePrefix := None; TF_GroupID := None; TF_AlgosGT := None;
  TF_AlgosLT := None; TF_RekeyTo := None; TF_AssetID := None; TF_AssetAmountGT := None;
  TF_AssetAmountLT := None; TF_ApplicationID := None; TF_EffectiveAmountGT := None;
  TF_EffectiveAmountLT := None; TF_NextToken := ""; TF_Limit := 0;
  TF_SkipInnerTransactionConversion := false; TF_SkipInnerTransactions := false;
  TF_HeaderOnly := false; TF_RequireApplicationLogs := false |}.

Lemma testTxnPaging_agrees_witness : exists pages, testTxnPaging (rows_found trees_d) 3 every =
  Some (Ok {| v_entries := 2; v_pages := pages; v_mismatches := 0 |}).
Proof.
  apply (testTxnPaging_agrees every None trees_d 5 3).
  - apply (imported_trees block (B_Payset block) rows ∅ block_is_readable);
      [vm_compute; reflexivity|by repeat constructor|intros i; apply lookup_empty|done|apply empty_trees].
  - vm_compute. reflexivity.
  - intros limit Hl. rewrite optimization_limit. split; try done; cbn.
    + unfold page_fits, fits_bigint, MaxInt64. cbn. split_and!; try done.
      apply andb_true_intro. split; apply Z.leb_le; lia.
    + repeat constructor; done.
    + lia.
    + by right.
  - reflexivity.
  - apply (bool_decide_unpack _). vm_compute. exact I.
  - vm_compute. lia.
Defined.

(** With several payments in one tree the pages skip all but the first of them: the test reports
    a mismatch although paging works as intended. *)
Lemma testTxnPaging_false_alarm : exists n pages bad,
  testTxnPaging (rows_found trees_d) 9 payments_of_all =
    Some (Ok {| v_entries := n; v_pages := pages; v_mismatches := S bad |}).
Proof. vm_compute. by eexists _, _, _. Qed.
End Witnesses.
