(* ===== verification/History.v ===== *)
(** * From the ledger to the client

    A chain of blocks is imported by attempts that may fail at any call and are repeated in any
    order.  Whatever the history, the tables hold exactly the blocks that were imported, with
    at most the transactions of the next one ahead of the rest, and a client that lists the
    transactions sees exactly those of the imported blocks, in order. *)

From Stdlib Require Import Sorted.
From stdpp Require Import sorting.
From S2P Require Import Prelude GoStd Sdk Idb Models Util Encoding Db WriteTxn Writer Postgres Rewind.
From S2P Require Import Migration Sql TxnQuery TxnPaging TxnSearch TxnTrees BlockQuery ResourceQuery AccountQuery.
From S2P Require Import Params Convert Disabled Interface Health Handlers Client Service TxnService.

(** ** What a successful COPY does *)

Lemma copy_txn_exact rows t t' : copy_txn rows t = Ok t' ->
  t' = tc_map rows ∪ t /\ Forall (λ r, txn_copy_fits r = true) rows /\
  forall r, r ∈ rows -> t !! tc_key r = None.
Proof.
  revert t. induction rows as [|r rows IH]; intros t; cbn.
  - intros [= <-]. split_and!; [by rewrite (left_id_L ∅ (∪))|constructor|by intros r ?%elem_of_nil].
  - destruct (txn_copy_fits r) eqn:Hf; cbn; [|done]. fold (tc_key r).
    destruct (t !! tc_key r) eqn:E; [done|]. intros (-> & Hfits & Hnew)%IH. split_and!; [|by constructor|].
    + change (tc_map (r :: rows)) with (<[tc_key r := tc_row r]> (tc_map rows)).
      rewrite <- insert_union_l. symmetry. apply insert_union_r.
      destruct (tc_map rows !! tc_key r) eqn:Hr; [|done].
      apply tc_map_lookup_inv in Hr as (r' & Hin & Hk & _). specialize (Hnew r' Hin).
      by rewrite Hk, lookup_insert_eq in Hnew.
    + intros r' [->|Hin]%elem_of_cons; [done|]. specialize (Hnew r' Hin).
      by apply lookup_insert_None in Hnew as [? _].
Qed.

Lemma copy_participation_exact rows t t' : copy_participation rows t = Ok t' ->
  t' = list_to_set rows ∪ t.
Proof.
  revert t. induction rows as [|r rows IH]; intros t; cbn [copy_participation].
  - intros [= <-]. cbn [list_to_set]. set_solver.
  - destruct (part_row_fits r); cbn [negb]; [|done]. case_bool_decide; [done|]. intros ->%IH. set_solver.
Qed.

(** ** The transaction tables of a round *)

Section Rounds.
Context `{SdkOps} `{UnicodeOps} `{MapOrder} `{Codec signedTxnWithAD} `{Codec TxnExtra}.

(** The rows of a block. *)
Definition block_rows (block : Block) : list txn_copy :=
  (yieldTransactions block (B_Payset block) None []).2.

(** Exactly the rows of the block, in its round. *)
Record exactly (block : Block) (s : txn_tables) : Prop := {
  ex_txn : forall i, t_txn s !! (B_Round block, i) = tc_map (block_rows block) !! (B_Round block, i);
  ex_participation : forall a i, (a, B_Round block, i) ∈ t_txn_participation s <->
    (a, B_Round block, i) ∈ block_participation block;
  ex_fits : Forall (λ r, txn_copy_fits r = true) (block_rows block) }.

(** The same in all other rounds. *)
Definition same_elsewhere (round : Z) (s s' : txn_tables) : Prop :=
  (forall k, k.1 <> round -> t_txn s' !! k = t_txn s !! k) /\
  forall a r i, r <> round -> (a, r, i) ∈ t_txn_participation s' <-> (a, r, i) ∈ t_txn_participation s.

Lemma same_elsewhere_refl round s : same_elsewhere round s s.
Proof. done. Qed.

Lemma exactly_complete block s : importable block -> exactly block s -> Postgres.complete block s.
Proof.
  intros [(b & rows & Hy) _] [Ht Hp _]. exists b, rows. unfold block_rows in Ht. rewrite Hy in Ht. cbn in Ht.
  destruct (yielded_rows _ _ _ _ Hy) as [Hnd Hr]. split_and!; [done| |].
  - intros r Hin. pose proof (tc_map_lookup _ _ Hnd Hin) as Hl. unfold tc_key in *.
    rewrite (Hr r Hin) in *. by rewrite Ht.
  - intros p Hin. destruct (block_participation_round _ _ Hin) as (a & i & ->). by apply Hp.
Qed.

Lemma absent_complete_exactly block s : absent (B_Round block) s -> Postgres.complete block s -> exactly block s.
Proof.
  intros [Ht Hp] (b & rows & Hy & Htxn & Hpart). destruct (yielded_rows _ _ _ _ Hy) as [Hnd Hr].
  assert (rows = []) as Hnil.
  { destruct rows as [|r rows]; [done|]. specialize (Htxn r ltac:(left)). unfold tc_key in Htxn.
    rewrite (Hr r) in Htxn by left. by rewrite Ht in Htxn. }
  assert (block_rows block = []) as Hrows by (unfold block_rows; by rewrite Hy, Hnil).
  split; rewrite ?Hrows.
  - intros i. rewrite Ht. symmetry. apply lookup_empty.
  - intros a i. split; [intros Hin; by apply Hp in Hin|]. by intros ?%Hpart.
  - constructor.
Qed.

(** The goroutine's transaction writes exactly the rows of the block. *)
Lemma addTxns_exactly block s fs s' fs' : absent (B_Round block) s \/ exactly block s ->
  addTxns block s fs = (Ok tt, s', fs') -> exactly block s' /\ same_elsewhere (B_Round block) s s'.
Proof.
  intros HI ([] & s1 & fs1 & Ha & Hp)%tx_bind_Ok.
  apply AddTransactions_cases in Ha as (b & rows & t & Hy & Ht & ->).
  apply tx_wrap_Ok, db_call_cases in Hp as [(e & ? & _)|Hp]; [done|].
  cbn in Hp. destruct (copy_participation _ _) as [q|e] eqn:Eq; cbn in Hp; [|by destruct Hp].
  destruct Hp as [_ ->]. apply copy_participation_exact in Eq as ->.
  apply copy_txn_exact in Ht as (-> & Hfit & _). destruct (yielded_rows _ _ _ _ Hy) as [_ Hr].
  assert (block_rows block = rows) as Hrows by (unfold block_rows; by rewrite Hy).
  split; [split|split]; cbn [t_txn t_txn_participation set_participation set_txn]; rewrite ?Hrows; try done.
  - intros i. destruct HI as [[Habs _]|Hex].
    + destruct (tc_map rows !! (B_Round block, i)) eqn:E; [by apply lookup_union_Some_l|].
      by apply lookup_union_None.
    + pose proof (ex_txn _ _ Hex i) as Hi. rewrite Hrows in Hi.
      destruct (tc_map rows !! (B_Round block, i)) eqn:E; [by apply lookup_union_Some_l|].
      by apply lookup_union_None.
  - intros a i. rewrite elem_of_union, elem_of_list_to_set. destruct HI as [[_ Habs]|Hex].
    + split; [|by left]. intros [?|Hin]; [done|]. by apply Habs in Hin.
    + rewrite (ex_participation _ _ Hex). tauto.
  - intros k Hk. apply lookup_union_r. destruct (tc_map rows !! k) eqn:E; [|done].
    apply tc_map_lookup_inv in E as (r & Hin & <- & _). by apply Hr in Hin.
  - intros a r i Hr'. rewrite elem_of_union, elem_of_list_to_set. split; [|by right].
    intros [Hin|?]; [|done]. destruct (block_participation_round _ _ Hin) as (a' & i' & [= _ -> _]). done.
Qed.

Lemma retry_exactly block s fs r s' fs' :
  importable block -> absent (B_Round block) s \/ exactly block s -> no_unique fs ->
  TxWithRetry (λ before _, before) (addTxns block) s fs = (r, s', fs') ->
  same_elsewhere (B_Round block) s s' /\ (absent (B_Round block) s' \/ exactly block s') /\
  (match r with Ok _ => True | Err e => isUniqueViolation e = true end -> exactly block s').
Proof.
  intros Hb HI Hfs Hr.
  assert (absent (B_Round block) s \/ Postgres.complete block s) as HI'
    by (destruct HI; [by left|right; by apply exactly_complete]).
  destruct (retry_addTxns _ _ _ _ _ _ Hb HI' Hfs Hr) as [_ Hcomplete].
  eapply (TxWithRetry_ind _ _ (λ x _, x = s)) in Hr; [|apply honest_addTxns|by intros|by intros|done].
  destruct r as [[]|e].
  - destruct Hr as (s0 & fs0 & fs1 & -> & Hf). destruct (addTxns_exactly _ _ _ _ _ HI Hf) as [Hex Hsame]. auto.
  - destruct Hr as [-> _]. split_and!; [done|done|]. intros Hu. destruct HI as [Habs|]; [|done].
    by apply absent_complete_exactly, Hcomplete.
Qed.
End Rounds.

(** ** The headers *)

Section Headers.
Context `{SdkOps} `{UnicodeOps}.
Context `{Codec blockHeader} `{Codec assetParams} `{Codec appParams} `{Codec appLocalState}
  `{Codec baseAccountData} `{Codec SpecialAddresses}.

Definition header_row (h : BlockHeader) : block_header_row := {|
  bhr_realtime := time_Unix (BH_TimeStamp h); bhr_rewardslevel := BH_RewardsLevel h;
  bhr_header := EncodeBlockHeader h |}.

Definition keeps_headers (s : stmt) : Prop :=
  forall t, t_block_header (exec_stmt s t) = t_block_header t.

Lemma exec_all_headers batch t : Forall keeps_headers batch ->
  t_block_header (exec_all batch t) = t_block_header t.
Proof.
  intros Hb. revert t. induction Hb as [|s batch Hs _ IH]; intros t; [done|].
  unfold exec_all in *. cbn. by rewrite IH, Hs.
Qed.

Lemma send_batch_Ok f1 f2 batch t fs t' fs' : send_batch f1 f2 batch t fs = (Ok tt, t', fs') ->
  t' = exec_all batch t /\ batch_fits batch.
Proof.
  intros ([] & t1 & fs1 & He & Hc)%tx_bind_Ok. apply exec_batch_Ok_fits in He as Hf. split; [|done].
  apply tx_wrap_Ok, db_call_cases in Hc as [(e & ? & _)|[_ ->]]; [done|]. clear Hf.
  revert t fs He. induction batch as [|s batch IH]; intros t fs; cbn [exec_batch].
  - by intros [= -> _].
  - intros ([] & t2 & fs2 & Hs & He)%tx_bind_Ok. apply tx_wrap_Ok, db_call_cases in Hs as [(e & ? & _)|Hs]; [done|].
    unfold run_stmt in Hs. destruct (forallb _ _); [|by destruct Hs]. destruct Hs as [_ ->].
    by apply IH in He.
Qed.

(** A batch writes the header of its block, unless there is one. *)
Lemma header_batch h rest t f1 f2 fs t' fs' : Forall keeps_headers rest ->
  send_batch f1 f2 (addBlockHeader h ++ rest) t fs = (Ok tt, t', fs') ->
  fits_bigint (BH_Round h) = true /\
  t_block_header t' = upsert (BH_Round h) (header_row h) (λ old, old) (t_block_header t).
Proof.
  intros Hr [-> Hf]%send_batch_Ok. rewrite exec_all_app, exec_all_headers by done. split; [|done].
  apply Forall_app in Hf as [Hf _]. apply Forall_cons in Hf as [Hf _]. cbn in Hf. by apply andb_prop in Hf as [? _].
Qed.

Lemma block_batch_headers block delta batch : block_batch block delta = Ok batch ->
  exists rest, batch = addBlockHeader (B_Header block) ++ rest /\ Forall keeps_headers rest.
Proof.
  unfold block_batch. intros Hb.
  destruct (getSigTypeDeltas _) as [sig|]; cbn [wrap mbind result_bind] in Hb; [|done].
  destruct (writeBoxMods _) as [boxes|] eqn:Hbox; cbn [wrap mbind result_bind] in Hb; [|done].
  apply (f_equal (λ r, match r with Ok b => b | Err _ => [] end)) in Hb. subst batch.
  eexists. split; [done|]. rewrite !Forall_app. split_and!.
  - by repeat constructor.
  - unfold writeAccountDeltas. rewrite !Forall_app, !Forall_flat_map.
    split_and!; apply Forall_forall; intros r _.
    + unfold writeAccount. destruct (_ =? 0), (_ !! _); by repeat constructor.
    + destruct r as [? ? [[] [|]] [[] [|]]]; by repeat constructor.
    + destruct r as [? ? [[] [|]] [[] [|]]]; by repeat constructor.
  - revert boxes Hbox. generalize (D_KvMods delta).
    intros kv. induction kv as [|[k d] kv IH]; cbn; intros boxes; [by intros [= <-]|].
    destruct (SplitBoxKey k) as [[app name]|]; cbn; [|done].
    destruct (writeBoxMods kv); cbn; [|done]. intros [= <-]. constructor; [by destruct d|eauto].
Qed.

Lemma AddBlock_headers block delta t fs t' fs' : Writer.AddBlock block delta t fs = (Ok tt, t', fs') ->
  fits_bigint (B_Round block) = true /\
  t_block_header t' = upsert (B_Round block) (header_row (B_Header block)) (λ old, old) (t_block_header t).
Proof.
  unfold Writer.AddBlock. destruct (block_batch block delta) as [batch|e] eqn:Hb; [|done].
  destruct (block_batch_headers _ _ _ Hb) as (rest & -> & Hr). by apply header_batch.
Qed.

Lemma AddBlock0_headers block t fs t' fs' : AddBlock0 block t fs = (Ok tt, t', fs') ->
  fits_bigint (B_Round block) = true /\
  t_block_header t' = upsert (B_Round block) (header_row (B_Header block)) (λ old, old) (t_block_header t).
Proof. apply header_batch. by repeat constructor. Qed.
End Headers.

(** ** One attempt *)

Section Attempt.
Context `{SdkOps} `{!SdkLaws} `{UnicodeOps} `{MapOrder}.
Context `{Codec signedTxnWithAD} `{Codec TxnExtra} `{Codec blockHeader} `{Codec assetParams}
  `{Codec appParams} `{Codec appLocalState} `{Codec baseAccountData} `{Codec SpecialAddresses}
  `{Codec ImportState} `{Codec NetworkState} `{Codec DeleteStatus}.
Hypothesis import_plain : forall s, plain (DecodeJSON (T := ImportState) s).

(** When the main transaction succeeds, the state tables are those that the writer leaves. *)
Lemma addBlock_tx_core vb d fs d' fs' : let block := VB_Block vb in
  addBlock_tx vb d fs = (Ok tt, d', fs') ->
  exists m fs1 fs2, let t := set_metastate (core d) m in
    if B_Round block =? 0 then AddBlock0 block t fs1 = (Ok tt, core d', fs2)
    else Writer.AddBlock block (VB_Delta vb) t fs1 = (Ok tt, core d', fs2).
Proof.
  intros block (st & d1 & fs1 & Hg & Hk)%tx_bind_Ok.
  apply on_core_inv in Hg as [(Ed1 & _)%tx_wrap_Ok%getImportState_Ok _].
  destruct (negb _); [done|]. apply tx_bind_Ok in Hk as ([] & d2 & fs2 & Hset & Hk).
  apply on_core_inv in Hset as [Ed2%tx_wrap_Ok%SetMetastate_Ok _].
  apply tx_bind_Ok in Hk as ([] & d3 & fs3 & Hmk & Hk).
  apply on_core_inv in Hmk as [Ed3%tx_wrap_Ok%MakeWriter_state _].
  rewrite Ed1 in Ed2. rewrite Ed2 in Ed3. eexists. rewrite <- Ed3. fold block in Hk. destruct (_ =? 0).
  - apply on_core_inv in Hk as [Hk%tx_wrap_Ok _]. eauto.
  - apply tx_bind_Ok in Hk as (err0 & d4 & fs4 & Htry & Hk).
    unfold tx_try in Htry. destruct (on_txns _ d3 fs3) as [[r4 d4'] fs4'] eqn:E4.
    injection Htry as -> -> ->. apply on_txns_inv in E4 as [_ Ed4].
    apply tx_bind_Ok in Hk as ([] & d5 & fs5 & Hw & Hk).
    apply on_core_inv in Hw as [Hw%tx_wrap_Ok _]. rewrite Ed4 in Hw. exists fs4, fs5.
    destruct err0 as [|e]; [by injection Hk as <- <-|].
    destruct (isUniqueViolation e); [by injection Hk as <- <-|done].
Qed.

(** The header is there. *)
Lemma addBlock_tx_headers vb d fs d' fs' : let block := VB_Block vb in
  addBlock_tx vb d fs = (Ok tt, d', fs') ->
  fits_bigint (B_Round block) = true /\
  t_block_header (core d') =
    upsert (B_Round block) (header_row (B_Header block)) (λ old, old) (t_block_header (core d)).
Proof.
  intros block (m & fs1 & fs2 & Hw)%addBlock_tx_core.
  destruct (_ =? 0); [by apply AddBlock0_headers in Hw|by apply AddBlock_headers in Hw].
Qed.

(** The live rows are those of the ledger. *)
Lemma addBlock_tx_state vb d fs d' fs' : let block := VB_Block vb in
  delta_u64 (VB_Delta vb) -> addBlock_tx vb d fs = (Ok tt, d', fs') ->
  abs (core d') = if B_Round block =? 0 then abs (core d) else apply_delta (VB_Delta vb) (abs (core d)).
Proof.
  intros block Hu (m & fs1 & fs2 & Hw)%addBlock_tx_core. fold block in Hw. destruct (_ =? 0).
  - unfold AddBlock0 in Hw. by apply send_batch_Ok in Hw as [-> _].
  - unfold Writer.AddBlock in Hw. destruct (block_batch block _) as [batch|e] eqn:Hb; [|done].
    apply send_batch_Ok in Hw as [-> _]. by rewrite (exec_block_batch _ _ _ _ Hb Hu).
Qed.

(** What it does to the transaction tables: nothing, or the goroutine's transaction. *)
Lemma addBlock_tx_goroutine vb d fs r d' fs' : let block := VB_Block vb in
  addBlock_tx vb d fs = (r, d', fs') ->
  txns d' = txns d /\ (r = Ok tt -> B_Round block = 0) \/
  next_round (core d) (B_Round block) /\ B_Round block <> 0 /\ exists fs1 err0 fs2, fs1 `suffix_of` fs /\
    TxWithRetry (λ before _, before) (addTxns block) (txns d) fs1 = (err0, txns d', fs2) /\
    (r = Ok tt -> match err0 with Ok _ => True | Err e => isUniqueViolation e = true end).
Proof.
  intros block. unfold addBlock_tx. fold block.
  unfold tx_bind at 1. destruct (on_core _ d fs) as [[[st|e] d1] fs1] eqn:E1;
    pose proof (honest_on_core _ (honest_wrap _ _ (honest_getImportState import_plain))
      _ _ _ _ _ E1) as [S1 _]; apply on_core_inv in E1 as [E1 T1];
    [|intros [= <- <- <-]; left; by rewrite T1].
  apply tx_wrap_Ok, getImportState_Ok in E1 as (_ & v & Hv & Hst).
  destruct (Z.eqb_spec (B_Round block) (NextRoundToAccount st)) as [Hnext|]; cbn [negb];
    [|intros [= <- <- <-]; left; by rewrite T1].
  assert (next_round (core d) (B_Round block)) as Hround by (exists v; rewrite Hnext; by destruct st).
  unfold tx_bind at 1. destruct (on_core _ d1 fs1) as [[[[]|e] d2] fs2] eqn:E2;
    pose proof (honest_on_core _ (honest_wrap _ _ (honest_SetMetastate _ _))
      _ _ _ _ _ E2) as [S2 _]; apply on_core_inv in E2 as [_ T2];
    [|intros [= <- <- <-]; left; by rewrite T2, T1].
  unfold tx_bind at 1. destruct (on_core _ d2 fs2) as [[[[]|e] d3] fs3] eqn:E3;
    pose proof (honest_on_core _ (honest_wrap _ _ honest_MakeWriter)
      _ _ _ _ _ E3) as [S3 _]; apply on_core_inv in E3 as [_ T3];
    [|intros [= <- <- <-]; left; by rewrite T3, T2, T1].
  assert (txns d3 = txns d) as T by congruence.
  assert (fs3 `suffix_of` fs) as S by (by do 2 (etrans; [eassumption|])).
  destruct (Z.eqb_spec (B_Round block) 0) as [Hz|Hz].
  { intros [_ T4]%on_core_inv. left. by rewrite T4, T. }
  unfold tx_bind at 1, tx_try. destruct (on_txns _ d3 fs3) as [[err0 d4] fs4] eqn:E4.
  apply on_txns_inv in E4 as [E4 _]. rewrite T in E4. intros Hrest. right. split_and!; [done|done|].
  exists fs3, err0, fs4. split; [done|]. revert Hrest.
  unfold tx_bind at 1. destruct (on_core _ d4 fs4) as [[[[]|e] d5] fs5] eqn:E5;
    apply on_core_inv in E5 as [_ T5]; [|intros [= <- <- <-]; by rewrite T5].
  destruct err0 as [[]|e]; [intros [= <- <- <-]; by rewrite T5|].
  destruct (isUniqueViolation e); intros [= <- <- <-]; by rewrite T5.
Qed.

(** ** Histories *)

(** The blocks of the network, the one of each round: the rows of a block can be made, and the
    amounts of its state delta are numbers of 64 bits. *)
Record chain_sound (chain : Z -> ValidatedBlock) : Prop := {
  cs_rounds : forall R, B_Round (VB_Block (chain R)) = R;
  cs_importable : forall R, 0 < R -> importable (VB_Block (chain R));
  cs_deltas : forall R, delta_u64 (VB_Delta (chain R)) }.

(** The ledger before round [n]. *)
Definition ledger_at (chain : Z -> ValidatedBlock) (genesis : ledger) (n : Z) : ledger :=
  foldl (λ L R, apply_delta (VB_Delta (chain R)) L) genesis (seqZ 1 (n - 1)).

Context (chain : Z -> ValidatedBlock) (genesis : ledger).
Abbreviation blk R := (VB_Block (chain R)).
Hypothesis sound : chain_sound chain.
Hypothesis import_roundtrip : forall n, 0 <= n <= MaxInt64 + 1 ->
  DecodeImportState (EncodeImportState {| NextRoundToAccount := n |}) = Ok {| NextRoundToAccount := n |}.
#[local] Abbreviation chain_rounds := (cs_rounds _ sound).

(** An attempt to import the block of some round, with any faults. *)
Inductive attempt : database -> database -> Prop :=
| attempt_block R fs r d d' fs' :
    no_unique fs -> Postgres.AddBlock (chain R) d fs = (r, d', fs') -> attempt d d'.

(** The tables hold the blocks before round [n], and of round [n] at most its transactions. *)
Record imported (n : Z) (d : database) : Prop := {
  im_next : next_round (core d) n;
  im_range : 0 <= n <= MaxInt64 + 1;
  im_state : abs (core d) = ledger_at chain genesis n;
  im_headers : forall R, t_block_header (core d) !! R =
    if decide (0 <= R < n) then Some (header_row (B_Header (blk R))) else None;
  im_past : forall R, 0 < R < n -> exactly (blk R) (txns d);
  im_now : 0 < n -> absent n (txns d) \/ exactly (blk n) (txns d);
  im_future : forall R, R <= 0 \/ n < R -> absent R (txns d) }.

Lemma ledger_next n : 0 <= n -> ledger_at chain genesis (n + 1) =
  if n =? 0 then ledger_at chain genesis n else apply_delta (VB_Delta (chain n)) (ledger_at chain genesis n).
Proof.
  intros Hn. unfold ledger_at. destruct (Z.eqb_spec n 0) as [->|]; [done|].
  replace (n + 1 - 1) with (n - 1 + 1) by lia. rewrite seqZ_app, foldl_app by lia.
  by replace (1 + (n - 1)) with n by lia.
Qed.

Lemma next_round_unique t n n' : next_round t n -> next_round t n' -> n = n'.
Proof. intros (v & Hv & Hn) (v' & Hv' & Hn'). rewrite Hv in Hv'. injection Hv' as <-. congruence. Qed.

Lemma exactly_elsewhere R n s s' : R <> n -> same_elsewhere n s s' -> exactly (blk R) s -> exactly (blk R) s'.
Proof.
  intros Hne [Ht Hp] [Hx Hy Hz]. split; [| |done]; rewrite chain_rounds in *; [intros i; by rewrite Ht|].
  intros a i. by rewrite Hp.
Qed.

Lemma absent_elsewhere R n s s' : R <> n -> same_elsewhere n s s' -> absent R s -> absent R s'.
Proof.
  intros Hne [Ht Hp] [Hx Hy]. split; [intros i; by rewrite Ht|]. intros a i Hin. by apply (Hy a i), Hp.
Qed.

(** The transaction tables after a run of the main transaction. *)
Lemma attempt_txns n R d fs r d' fs' : imported n d -> no_unique fs ->
  addBlock_tx (chain R) d fs = (r, d', fs') ->
  same_elsewhere n (txns d) (txns d') /\
  (0 < n -> absent n (txns d') \/ exactly (blk n) (txns d')) /\
  (n = 0 -> txns d' = txns d) /\
  (r = Ok tt -> 0 < n -> R = n -> exactly (blk n) (txns d')).
Proof.
  intros Him Hfs Hrun.
  apply addBlock_tx_goroutine in Hrun as [[-> Hz]|(Hnext & Hne & fs1 & err0 & fs2 & Hsuf & Hgo & Hok)].
  - split_and!; [done|apply Him|done|]. intros Hr Hpos ->. rewrite chain_rounds in Hz. specialize (Hz Hr). lia.
  - rewrite chain_rounds in Hnext, Hne. pose proof (next_round_unique _ _ _ Hnext (im_next _ _ Him)) as ->.
    pose proof (im_range _ _ Him). assert (0 < n) as Hpos by lia. pose proof (im_now _ _ Him Hpos) as Hnow.
    destruct (retry_exactly (blk n) (txns d) fs1 err0 (txns d') fs2) as (Hsame & Hnow' & Hex).
    + by apply sound.
    + by rewrite chain_rounds.
    + by eapply no_unique_suffix.
    + done.
    + rewrite chain_rounds in Hsame, Hnow'. split_and!; [done|done|lia|].
      intros Hr _ _. apply Hex. destruct err0; [done|]. by destruct (Hok Hr).
Qed.

Lemma imported_rollback n R d fs r d' fs' : imported n d -> no_unique fs ->
  addBlock_tx (chain R) d fs = (r, d', fs') -> imported n (rollback_core d d').
Proof.
  intros Him Hfs Hrun. destruct (attempt_txns _ _ _ _ _ _ _ Him Hfs Hrun) as (Hsame & Hnow & Hz & _).
  split; cbn [rollback_core core txns]; try apply Him; [|done|].
  - intros R' HR'. eapply exactly_elsewhere; [|done|]; [lia|by apply Him].
  - intros R' HR'. destruct (decide (R' = n)) as [->|Hne].
    + rewrite Hz; [by apply Him|]. pose proof (im_range _ _ Him). lia.
    + eapply absent_elsewhere; [done|done|]. by apply Him.
Qed.

Lemma imported_next n R d fs d' fs' : imported n d -> no_unique fs ->
  addBlock_tx (chain R) d fs = (Ok tt, d', fs') -> imported (n + 1) d'.
Proof.
  intros Him Hfs Hrun. destruct (attempt_txns _ _ _ _ _ _ _ Him Hfs Hrun) as (Hsame & _ & Hz & Hex).
  destruct (addBlock_tx_round _ _ _ _ _ Hrun) as [Hnext Hmeta].
  destruct (addBlock_tx_headers _ _ _ _ _ Hrun) as [Hfit Hh]. rewrite chain_rounds in *.
  pose proof (next_round_unique _ _ _ Hnext (im_next _ _ Him)) as ->.
  apply andb_prop in Hfit as [?%Z.leb_le ?%Z.leb_le]. pose proof (im_range _ _ Him).
  rewrite wrap64_small in Hmeta by (unfold is_u64, MaxInt64 in *; lia). split.
  - exists (EncodeImportState {| NextRoundToAccount := n + 1 |}). split; [done|]. apply import_roundtrip. lia.
  - lia.
  - rewrite (addBlock_tx_state _ _ _ _ _ (cs_deltas _ sound _) Hrun), chain_rounds, (im_state _ _ Him).
    symmetry. apply ledger_next. lia.
  - intros R'. rewrite Hh. unfold upsert. rewrite (im_headers _ _ Him n), decide_False by lia.
    destruct (decide (R' = n)) as [->|Hne].
    + rewrite lookup_insert_eq, decide_True by lia. done.
    + rewrite lookup_insert_ne, (im_headers _ _ Him) by done.
      destruct (decide (0 <= R' < n)), (decide (0 <= R' < n + 1)); try done; lia.
  - intros R' HR'. destruct (decide (R' = n)) as [->|Hne]; [by apply Hex; [|lia|]|].
    eapply exactly_elsewhere; [|done|]; [done|apply Him; lia].
  - intros _. left. eapply absent_elsewhere; [|done|]; [lia|apply Him; lia].
  - intros R' HR'. destruct (decide (R' = n)) as [->|Hne].
    + rewrite Hz by lia. apply Him. lia.
    + eapply absent_elsewhere; [done|done|]. apply Him. lia.
Qed.

(** Whatever the history, the tables hold the blocks before some round. *)
Lemma attempt_imported n d d' : imported n d -> attempt d d' -> imported n d' \/ imported (n + 1) d'.
Proof.
  intros Him Hs. destruct Hs as [R fs r d d1 fs' Hfs Hrun] in Him |- *. revert Hrun. unfold Postgres.AddBlock.
  destruct (Consensus _); [|intros [= <- <- <-]; left; done].
  unfold tx_wrap. destruct (TxWithRetry _ _ d fs) as [[r1 d2] fs1] eqn:Er. intros [= <- <- <-].
  eapply (TxWithRetry_ind _ _ (λ x f, imported n x /\ no_unique f)) in Er.
  - destruct r1 as [[]|e]; [|left; by destruct Er as [[? _] _]].
    destruct Er as (x & fx & fx' & [Hx Hfx] & Hf). right. by eapply imported_next.
  - by apply honest_addBlock_tx.
  - intros s0 fs0 fs2 [? ?] ?. split; [done|]. by eapply no_unique_suffix.
  - intros s0 fs0 r0 s1 fs2 [HI0 Hf0] Hf. split; [by eapply imported_rollback|].
    eapply no_unique_suffix; [exact Hf0|]. by apply (honest_addBlock_tx import_plain (chain R)) in Hf as [? _].
  - done.
Qed.

Lemma history_imported n d d' : imported n d -> rtc attempt d d' -> exists n', n <= n' /\ imported n' d'.
Proof.
  intros Him Hr. revert n Him. induction Hr as [d|d d1 d' Hs _ IH]; intros n Him; [exists n; split; [lia|done]|].
  destruct (attempt_imported _ _ _ Him Hs) as [Hn1|Hn1]; destruct (IH _ Hn1) as (n' & ? & ?);
    exists n'; split; [lia|done|lia|done].
Qed.

(** An initialised database without blocks; the accounts of the genesis may be there. *)
Definition no_blocks (d : database) : Prop :=
  next_round (core d) 0 /\ t_block_header (core d) = ∅ /\ t_txn (txns d) = ∅ /\ t_txn_participation (txns d) = ∅.

Lemma no_blocks_imported d : no_blocks d -> abs (core d) = genesis -> imported 0 d.
Proof.
  intros (Hn & Hh & Ht & Hp) Hg. split; [done|unfold MaxInt64; lia|done| |lia|lia|].
  - intros R. rewrite Hh, lookup_empty, decide_False by lia. done.
  - intros R _. split; [intros i; by rewrite Ht|]. intros a i Hin. rewrite Hp in Hin. set_solver.
Qed.

Lemma attempts_imported d0 d n : no_blocks d0 -> abs (core d0) = genesis -> rtc attempt d0 d ->
  next_round (core d) n -> imported n d.
Proof.
  intros Hd0 Hg Hhist Hnext. destruct (history_imported 0 d0 d) as (n' & _ & Him); [by apply no_blocks_imported|done|].
  by rewrite (next_round_unique _ _ _ Hnext (im_next _ _ Him)).
Qed.
End Attempt.

(** C2. Whatever attempts to import the blocks of a chain were made, in whatever order and with
    whatever failures but a unique violation that is none, the tables are those of the chain up
    to the next round: the live rows are the state deltas of the blocks before it applied in
    order, the headers are exactly those of these blocks, and so are the transactions and their
    participants, with at most those of the next block ahead, complete. *)
Theorem history_tables `{SdkOps} `{!SdkLaws} `{UnicodeOps} `{MapOrder}
    `{Codec signedTxnWithAD} `{Codec TxnExtra} `{Codec blockHeader} `{Codec assetParams}
    `{Codec appParams} `{Codec appLocalState} `{Codec baseAccountData} `{Codec SpecialAddresses}
    `{Codec ImportState} `{Codec NetworkState} `{Codec DeleteStatus} chain d0 d n :
  (forall s, plain (DecodeJSON (T := ImportState) s)) ->
  (forall n, 0 <= n <= MaxInt64 + 1 ->
     DecodeImportState (EncodeImportState {| NextRoundToAccount := n |}) = Ok {| NextRoundToAccount := n |}) ->
  chain_sound chain -> no_blocks d0 -> rtc (attempt chain) d0 d -> next_round (core d) n ->
  imported chain (abs (core d0)) n d.
Proof. intros. by eapply attempts_imported. Qed.

(** ** What the tables of a history are read as *)

Section Roots.
Context `{SdkOps} `{UnicodeOps} `{MapOrder} `{Codec signedTxnWithAD} `{Codec TxnExtra}.

(** The rows of a block that have an id, one per transaction. *)
Definition root_rows (block : Block) : list txn_copy :=
  filter (λ r, is_Some (txr_txid (tc_row r))) (block_rows block).

Lemma numbered_roots block m n l rows :
  (forall s, Some s ∈ map (entry_stxn block) l -> DecodeSignedTxnWithAD (EncodeSignedTxnWithAD s) = Ok s) ->
  numbered (entry_row block m) n l = Ok rows ->
  Forall2 (λ r s, DecodeSignedTxnWithAD (txr_txn (tc_row r)) = Ok s)
    (filter (λ r, is_Some (txr_txid (tc_row r))) rows) (omap (entry_stxn block) l).
Proof.
  intros Hread. revert n rows. induction l as [|e l IH]; intros n rows; cbn; [by intros [= <-]|].
  destruct (entry_row block m n e) as [r|] eqn:Hr; cbn; [|done].
  destruct (numbered _ (n + 1) l) as [rs|] eqn:Hn; cbn; [|done]. intros [= <-].
  specialize (IH ltac:(intros s Hs; apply Hread; by right) _ _ Hn).
  apply entry_row_stxn in Hr. destruct (entry_stxn block e) as [s|] eqn:Es.
  - destruct Hr as (Hid & Htxn & _). rewrite filter_cons_True by done. constructor; [|done].
    rewrite Htxn. apply Hread. cbn [map]. rewrite Es. by left.
  - by rewrite filter_cons_False by (rewrite Hr; by intros []).
Qed.

Context (block : Block) (Hi : importable block).

Lemma block_rows_numbered : numbered (entry_row block (B_Payset block)) 0 (entries block) = Ok (block_rows block).
Proof.
  destruct Hi as [(b & rows & Hy) _]. unfold block_rows. rewrite Hy. by eapply yieldTransactions_numbered.
Qed.

Lemma block_rows_lookup i row : tc_map (block_rows block) !! (B_Round block, i) = Some row <->
  exists r, r ∈ block_rows block /\ tc_key r = (B_Round block, i) /\ tc_row r = row.
Proof.
  split; [apply tc_map_lookup_inv|]. intros (r & Hr & <- & <-). apply tc_map_lookup; [|done].
  eapply numbered_NoDup_keys, block_rows_numbered.
Qed.

Lemma block_rows_round r : r ∈ block_rows block -> (tc_key r).1 = B_Round block.
Proof.
  intros (n & Hn)%list_elem_of_lookup_1.
  by destruct (numbered_lookup _ _ _ _ _ _ block_rows_numbered Hn) as (e & _ & [Hk _]%entry_row_key).
Qed.

Lemma root_rows_sorted : StronglySorted (before_key false) (map tc_key (root_rows block)).
Proof.
  pose proof (rows_sorted _ _ _ _ _ block_rows_numbered) as Hs. unfold root_rows.
  induction (block_rows block) as [|r rows IH]; [constructor|].
  cbn [map] in Hs. apply StronglySorted_inv in Hs as [Hs Hr].
  rewrite filter_cons. case_decide; [|by apply IH]. cbn [map]. constructor; [by apply IH|].
  apply Forall_forall. intros k (r' & -> & [_ Hr']%list_elem_of_filter)%list_elem_of_fmap.
  rewrite Forall_forall in Hr. apply (Hr (kv r')). by apply list_elem_of_fmap_2.
Qed.

Context `{PgOps} (Hb : block_readable block (B_Payset block)).

Lemma root_rows_stored :
  Forall2 (λ r s, DecodeSignedTxnWithAD (txr_txn (tc_row r)) = Ok s) (root_rows block) (block_transactions block).
Proof.
  rewrite <- entries_transactions. eapply numbered_roots, block_rows_numbered.
  intros s (e & Hs & He)%list_elem_of_fmap. apply (br_stored _ _ Hb). by eapply entry_stored.
Qed.
End Roots.

(** The blocks can also be read back, their transactions can be shown, and no two of them have
    the same id. *)
Record chain_ok `{SdkOps} `{UnicodeOps} `{MapOrder} `{PgOps} `{Codec signedTxnWithAD} `{Codec TxnExtra}
    (chain : Z -> ValidatedBlock) : Prop := {
  ch_sound : chain_sound chain;
  ch_readable : forall R, 0 < R -> block_readable (VB_Block (chain R)) (B_Payset (VB_Block (chain R)));
  ch_indexed : forall R, 0 < R -> Forall well_indexed (block_transactions (VB_Block (chain R)));
  ch_ids : forall R R' i i' s s', 0 < R -> 0 < R' ->
    block_transactions (VB_Block (chain R)) !! i = Some s ->
    block_transactions (VB_Block (chain R')) !! i' = Some s' -> txid_of s = txid_of s' -> R = R' /\ i = i' }.

Section Reading.
Context `{SdkOps} `{UnicodeOps} `{MapOrder} `{PgOps} `{Codec signedTxnWithAD} `{Codec TxnExtra}
  `{Codec ImportState} `{Codec blockHeader} `{Codec assetParams} `{Codec appParams} `{Codec appLocalState}
  `{Codec baseAccountData}.
Context (chain : Z -> ValidatedBlock) (Hch : chain_ok chain).
Abbreviation blk R := (VB_Block (chain R)).
Context (genesis : ledger) (n : Z) (d : database) (Him : imported chain genesis n d) (Hn : n < MaxInt64).

Lemma row_round k row : t_txn (txns d) !! k = Some row -> 0 < k.1 <= n /\ exactly (blk k.1) (txns d).
Proof.
  intros Hk. destruct k as [R i]. cbn [fst].
  assert (~ absent R (txns d)) as Hna by (intros [Ht _]; by rewrite Ht in Hk).
  destruct (decide (R <= 0 \/ n < R)) as [Ho|Ho]; [by destruct Hna; apply Him|]. split; [lia|].
  destruct (decide (R = n)) as [->|]; [|apply Him; lia].
  destruct (im_now _ _ _ _ Him) as [Ha|]; [lia|by destruct Hna|done].
Qed.

(** A row is one of its block's. *)
Lemma row_of_block k row : t_txn (txns d) !! k = Some row <->
  0 < k.1 /\ exactly (blk k.1) (txns d) /\ exists r, r ∈ block_rows (blk k.1) /\ tc_key r = k /\ tc_row r = row.
Proof.
  split.
  - intros Hk. destruct (row_round k row Hk) as [[Hpos _] Hex]. split_and!; [done|done|].
    destruct k as [R i]. cbn [fst] in *. pose proof (ex_txn _ _ Hex i) as Hi.
    rewrite (cs_rounds _ (ch_sound _ Hch)), Hk in Hi. by apply tc_map_lookup_inv.
  - intros (Hpos & Hex & r & Hr & Hk & <-). destruct k as [R i]. cbn [fst] in *.
    pose proof (ex_txn _ _ Hex i) as Hi. rewrite (cs_rounds _ (ch_sound _ Hch)) in Hi. rewrite Hi.
    pose proof (cs_importable _ (ch_sound _ Hch) R Hpos) as Himp.
    pose proof (block_rows_lookup (blk R) Himp i (tc_row r)) as Hl.
    rewrite (cs_rounds _ (ch_sound _ Hch)) in Hl. apply Hl. eauto.
Qed.

Lemma imported_all_trees : all_trees (t_txn (txns d)).
Proof.
  intros k row Hk. destruct (row_round k row Hk) as [[Hpos Hle] Hex]. destruct k as [R i]. cbn [fst] in *.
  pose proof (cs_rounds _ (ch_sound _ Hch) R) as HR. pose proof (ex_txn _ _ Hex) as Ht. rewrite HR in Ht.
  assert (all_trees (tc_map (block_rows (blk R)) ∪ ∅)) as Hall.
  { apply (imported_trees (blk R) (B_Payset (blk R))).
    - by apply Hch.
    - by apply block_rows_numbered, (cs_importable _ (ch_sound _ Hch)).
    - by apply Hex.
    - intros j. apply lookup_empty.
    - rewrite HR. lia.
    - intros k' row' Hk'. by rewrite lookup_empty in Hk'. }
  rewrite (right_id_L ∅ (∪)) in Hall. destruct (Hall (R, i) row) as (p & s & Hp & Hta); [by rewrite <- Ht|].
  exists p, s. split; [done|]. by eapply tree_at_ext.
Qed.

(** A row with an id is that of a transaction of its block. *)
Lemma root_of_block k row s : t_txn (txns d) !! k = Some row -> is_Some (txr_txid row) ->
  DecodeSignedTxnWithAD (txr_txn row) = Ok s -> 0 < k.1 /\ exists i r, tc_key r = k /\
    root_rows (blk k.1) !! i = Some r /\ block_transactions (blk k.1) !! i = Some s.
Proof.
  intros Hk Hid Hs. apply row_of_block in Hk as (Hpos & _ & r & Hr & Hrk & <-). split; [done|].
  assert (r ∈ root_rows (blk k.1)) as [i Hi]%list_elem_of_lookup_1 by (by apply list_elem_of_filter).
  pose proof (root_rows_stored (blk k.1) (cs_importable _ (ch_sound _ Hch) _ Hpos) (ch_readable _ Hch _ Hpos)) as Hst.
  destruct (Forall2_lookup_l _ _ _ _ _ Hst Hi) as (s' & Hs' & Heq). rewrite Hs in Heq. injection Heq as <-. eauto.
Qed.

Lemma imported_stored : txns_stored d.
Proof.
  split; [apply imported_all_trees| |].
  - intros k row s Hk Hid Hs. destruct (root_of_block k row s Hk Hid Hs) as (Hpos & i & r & _ & _ & Hi).
    by eapply (Forall_lookup_1 _ _ _ _ (ch_indexed _ Hch _ Hpos)).
  - intros k k' row row' s s' Hk Hk' Hid Hid' Hs Hs' Heq.
    destruct (root_of_block k row s Hk Hid Hs) as (Hpos & i & r & <- & Hr & Hi).
    destruct (root_of_block k' row' s' Hk' Hid' Hs') as (Hpos' & i' & r' & <- & Hr' & Hi').
    destruct (ch_ids _ Hch _ _ _ _ _ _ Hpos Hpos' Hi Hi' Heq) as [HR ->]. rewrite HR in Hr. congruence.
Qed.
End Reading.

(** ** The transactions of the imported blocks, in order *)

Lemma flat_map_Forall2 {A B C} (P : B -> C -> Prop) (f : A -> list B) (g : A -> list C) l :
  (forall x, x ∈ l -> Forall2 P (f x) (g x)) -> Forall2 P (flat_map f l) (flat_map g l).
Proof.
  induction l as [|x l IH]; intros Hl; [constructor|]. cbn. apply Forall2_app; [apply Hl; left|].
  apply IH. intros y Hy. apply Hl. by right.
Qed.

(** Lists of increasing rounds, one after the other. *)
Lemma flat_map_sorted (f : Z -> list (Z * Z)) l : StronglySorted Z.lt l ->
  (forall R, R ∈ l -> StronglySorted (before_key false) (f R) /\ Forall (λ k, k.1 = R) (f R)) ->
  StronglySorted (before_key false) (flat_map f l).
Proof.
  intros Hl. induction Hl as [|R l _ IH HR]; intros Hf; [constructor|]. cbn.
  destruct (Hf R) as [Hs Hk]; [left|]. apply StronglySorted_app_2; [|done|].
  - intros k k' Hin Hin'. rewrite Forall_forall in Hk. rewrite Forall_forall in HR.
    apply list_elem_of_In, in_flat_map in Hin' as (R' & HR'%list_elem_of_In & Hin'%list_elem_of_In).
    destruct (Hf R') as [_ Hk']; [by right|]. rewrite Forall_forall in Hk'.
    left. rewrite (Hk k Hin), (Hk' k' Hin'). by apply HR.
  - apply IH. intros R' HR'. apply Hf. by right.
Qed.

Lemma seqZ_sorted m n : StronglySorted Z.lt (seqZ m n).
Proof.
  unfold seqZ. generalize 0%nat. generalize (Z.to_nat n). clear n.
  intros n. induction n as [|n IH]; intros i; [constructor|].
  cbn [seq fmap list_fmap]. constructor; [apply IH|]. apply Forall_forall.
  intros z (j & -> & Hj%elem_of_seq)%list_elem_of_fmap. lia.
Qed.

Lemma ordered_NoDup {A} (R : relation A) `{!StrictOrder R} l : StronglySorted R l -> NoDup l.
Proof.
  induction 1 as [|x l _ IH Hx]; constructor; [|done]. intros Hin. rewrite Forall_forall in Hx.
  by apply (irreflexivity R x), Hx.
Qed.

Section Listing.
Context `{SdkOps} `{UnicodeOps} `{MapOrder} `{PgOps} `{Codec signedTxnWithAD} `{Codec TxnExtra}
  `{Codec ImportState} `{Codec blockHeader} `{Codec assetParams} `{Codec appParams} `{Codec appLocalState}
  `{Codec baseAccountData}.
Context (chain : Z -> ValidatedBlock) (Hch : chain_ok chain).
Abbreviation blk R := (VB_Block (chain R)).

(** The transactions of the rounds before [n], with their rounds. *)
Definition listed (n : Z) : list (Z * SignedTxnWithAD) :=
  flat_map (λ R, map (pair R) (block_transactions (blk R))) (seqZ 1 (n - 1)).

Definition listed_keys (n : Z) : list (Z * Z) :=
  flat_map (λ R, map tc_key (root_rows (blk R))) (seqZ 1 (n - 1)).

(** A transaction as the API shows it. *)
Definition shows_stxn (x : Z * SignedTxnWithAD) (t : models.Transaction) : Prop :=
  models.Transaction_Id t = Some (txid_of x.2) /\ models.Transaction_ConfirmedRound t = Some x.1 /\
  shown_tree t = stored_tree x.2.

Lemma listed_keys_sorted n : StronglySorted (before_key false) (listed_keys n).
Proof.
  apply flat_map_sorted; [apply seqZ_sorted|]. intros R HR%elem_of_seqZ.
  pose proof (cs_importable _ (ch_sound _ Hch) R) as Himp. split; [apply root_rows_sorted, Himp; lia|].
  apply Forall_forall. intros k (r & -> & [_ Hr]%list_elem_of_filter)%list_elem_of_fmap.
  apply block_rows_round in Hr; [|apply Himp; lia]. by rewrite Hr, (cs_rounds _ (ch_sound _ Hch)).
Qed.

Lemma elem_of_listed_keys n k : k ∈ listed_keys n <->
  0 < k.1 < n /\ exists r, r ∈ block_rows (blk k.1) /\ is_Some (txr_txid (tc_row r)) /\ tc_key r = k.
Proof.
  unfold listed_keys. rewrite list_elem_of_In, in_flat_map. split.
  - intros (R & HR%list_elem_of_In%elem_of_seqZ & Hk%list_elem_of_In).
    apply list_elem_of_fmap in Hk as (r & -> & [Hid Hr]%list_elem_of_filter).
    pose proof (block_rows_round (blk R) (cs_importable _ (ch_sound _ Hch) R ltac:(lia)) r Hr) as Hk.
    rewrite (cs_rounds _ (ch_sound _ Hch)) in Hk. rewrite Hk. split; [lia|eauto].
  - intros (Hk & r & Hr & Hid & <-). exists (tc_key r).1. rewrite <- !list_elem_of_In, elem_of_seqZ. split; [lia|].
    apply list_elem_of_fmap_2, list_elem_of_filter. done.
Qed.

Context (genesis : ledger) (n : Z) (d : database) (Him : imported chain genesis n d) (Hn : n < MaxInt64).

Lemma listed_stored : Forall2 (λ k x, k.1 = x.1 /\ exists row, t_txn (txns d) !! k = Some row /\
  DecodeSignedTxnWithAD (txr_txn row) = Ok x.2) (listed_keys n) (listed n).
Proof.
  apply flat_map_Forall2. intros R HR%elem_of_seqZ. assert (0 < R < n) as HR' by lia.
  pose proof (root_rows_stored (blk R) (cs_importable _ (ch_sound _ Hch) _ (proj1 HR'))
    (ch_readable _ Hch _ (proj1 HR'))) as Hst.
  apply Forall2_fmap. apply Forall2_same_length_lookup in Hst as [Hlen Hst].
  apply Forall2_same_length_lookup. split; [done|]. intros i r s Hr Hs. specialize (Hst i r s Hr Hs).
  apply list_elem_of_lookup_2, list_elem_of_filter in Hr as [_ Hr].
  pose proof (block_rows_round (blk R) (cs_importable _ (ch_sound _ Hch) _ (proj1 HR')) r Hr) as Hk.
  rewrite (cs_rounds _ (ch_sound _ Hch)) in Hk. split; [done|]. exists (tc_row r). split; [|done].
  apply (row_of_block chain Hch genesis n d Him). rewrite Hk. split_and!; [lia|by apply Him|eauto].
Qed.

Lemma shown_listed keys ts : keys = listed_keys n -> Forall2 (shows_txn d) keys ts ->
  Forall2 shows_stxn (listed n) ts.
Proof.
  intros -> Hts. pose proof listed_stored as Hst. revert ts Hts.
  induction Hst as [|k x keys xs (Hk & row & Hrow & Hs) _ IH]; intros ts Hts;
    inversion Hts as [|? t ? ts' Ht Hts' E1 E2]; subst; constructor; [|by apply IH].
  destruct Ht as (row' & s & Hrow' & Hs' & Hid & Hround & _ & Htree). rewrite Hrow in Hrow'. injection Hrow' as <-.
  rewrite Hs in Hs'. injection Hs' as <-. unfold shows_stxn. by rewrite <- Hk.
Qed.

(** The roots of the rows of the rounds with a header. *)
Lemma listed_roots k : k ∈ listed_keys n <-> exists x, t_txn (txns d) !! x.1 = Some x.2 /\
  is_Some (t_block_header (core d) !! x.1.1) /\ root_key x = k.
Proof.
  assert (forall R, 0 < R -> is_Some (t_block_header (core d) !! R) <-> R < n) as Hhead.
  { intros R HR. rewrite (im_headers _ _ _ _ Him). case_decide; split; [lia|eauto|by intros []|lia]. }
  pose proof (imported_all_trees chain Hch genesis n d Him Hn) as Hall. rewrite elem_of_listed_keys. split.
  - intros (Hk & r & Hr & Hid & Hrk). exists (k, tc_row r). cbn [fst snd].
    assert (t_txn (txns d) !! k = Some (tc_row r)) as Hl.
    { apply (row_of_block chain Hch genesis n d Him). split_and!; [lia|by apply Him|eauto]. }
    split_and!; [done|by apply Hhead; lia|]. destruct (Hall k _ Hl) as (i & s & Hit).
    rewrite (tree_root_key _ _ _ _ _ Hit Hl). apply (row_tree_row _ _ _ _ _ Hit) in Hl as Ht.
    apply (tr_id _ _ _ _ Ht) in Hid as <-. by destruct k.
  - intros ([k' row] & Hl & Hh & <-). cbn [fst snd] in *. destruct (Hall k' row Hl) as (i & s & Hit).
    rewrite (tree_root_key _ _ _ _ _ Hit Hl). destruct Hit as [Hi Hta].
    destruct (ta_root _ _ _ _ Hta) as (row0 & Hl0 & _). cbn [fst].
    assert (tree_row i s i row0) as Ht0 by (eapply ta_rows; [done| |done]; pose proof (last_of_ge i s); lia).
    apply (row_of_block chain Hch genesis n d Him) in Hl0 as (Hpos & _ & r & Hr & Hrk & Hrow). cbn [fst] in *.
    split; [split; [done|by apply Hhead]|]. exists r. split_and!; [done| |done]. rewrite Hrow.
    by apply (tr_id _ _ _ _ Ht0).
Qed.

Lemma listed_keys_unique keys : StronglySorted (before_key false) keys ->
  (forall k, k ∈ keys <-> k ∈ listed_keys n) -> keys = listed_keys n.
Proof.
  intros Hs He. assert (AntiSymm (=) (before_key false)) as Hanti.
  { intros k k' ? ?. exfalso. eapply (irreflexivity (before_key false)). by etrans. }
  apply (StronglySorted_unique (before_key false)); [done|apply listed_keys_sorted|].
  apply NoDup_Permutation; [by apply (ordered_NoDup (before_key false))| |done].
  apply (ordered_NoDup (before_key false)), listed_keys_sorted.
Qed.
End Listing.

(** ** The client *)

(** A request for all transactions. *)
Definition everything (limit : option Z) : models.SearchForTransactionsParams := {|
  models.SearchForTransactionsParams_Limit := limit; models.SearchForTransactionsParams_Next := None;
  models.SearchForTransactionsParams_NotePrefix := None; models.SearchForTransactionsParams_TxType := None;
  models.SearchForTransactionsParams_SigType := None; models.SearchForTransactionsParams_GroupId := None;
  models.SearchForTransactionsParams_Txid := None; models.SearchForTransactionsParams_Round := None;
  models.SearchForTransactionsParams_MinRound := None; models.SearchForTransactionsParams_MaxRound := None;
  models.SearchForTransactionsParams_AssetId := None; models.SearchForTransactionsParams_BeforeTime := None;
  models.SearchForTransactionsParams_AfterTime := None;
  models.SearchForTransactionsParams_CurrencyGreaterThan := None;
  models.SearchForTransactionsParams_CurrencyLessThan := None;
  models.SearchForTransactionsParams_Address := None; models.SearchForTransactionsParams_AddressRole := None;
  models.SearchForTransactionsParams_ExcludeCloseTo := None;
  models.SearchForTransactionsParams_RekeyTo := None;
  models.SearchForTransactionsParams_ApplicationId := None |}.

(** Its filter. *)
Definition no_filter (limit : Z) : TransactionFilter := {|
  TF_SkipOptimization := false; TF_Address := None; TF_AddressRole := 0; TF_MinRound := 0; TF_MaxRound := 0;
  TF_AfterTime := None; TF_BeforeTime := None; TF_TypeEnum := 0; TF_Txid := ""; TF_Round := None;
  TF_Offset := None; TF_OffsetLT := None; TF_OffsetGT := None; TF_SigType := ""; TF_NotePrefix := None;
  TF_GroupID := None; TF_AlgosGT := None; TF_AlgosLT := None; TF_RekeyTo := None; TF_AssetID := None;
  TF_AssetAmountGT := None; TF_AssetAmountLT := None; TF_ApplicationID := None;
  TF_EffectiveAmountGT := None; TF_EffectiveAmountLT := None; TF_NextToken := ""; TF_Limit := limit;
  TF_SkipInnerTransactionConversion := false; TF_SkipInnerTransactions := false; TF_HeaderOnly := false;
  TF_RequireApplicationLogs := false |}.

Section NoFilter.
Context `{SdkOps} `{PgOps}.

Lemma everything_filter si limit : valid_filter si id (everything limit) =
  Ok (no_filter (limit_of limit (EO_DefaultTransactionsLimit (opts si)) (EO_MaxTransactionsLimit (opts si)))).
Proof.
  unfold valid_filter. set (tf := no_filter _).
  assert (transactionParamsToTransactionFilter (opts si) (everything limit) = Ok tf) as -> by reflexivity.
  cbn [mbind result_bind id].
  assert (validateTransactionFilter tf = None) as ->; [|done].
  unfold validateTransactionFilter. cbn. by destruct (Address_IsZero _).
Qed.

Lemma wanted_no_filter limit d x :
  wanted (no_filter limit) None d x <-> is_Some (t_block_header (core d) !! x.1.1).
Proof.
  unfold wanted. change (txn_conds (no_filter limit) None) with (@nil cond). cbn [no_filter TF_Address].
  rewrite Forall_nil. tauto.
Qed.
End NoFilter.

Lemma next_accounted `{Codec ImportState} d n :
  next_round (core d) n -> 0 < n <= MaxInt64 -> accounted d (n - 1).
Proof.
  intros (v & Hv & Hs) Hn.
  assert (getImportState (core d) [] = (Ok {| NextRoundToAccount := n |}, core d, [])) as Hi.
  { unfold getImportState, GetMetastate, unless_not_initialized, tx_bind, tx_try, db_call.
    cbn -[StateMetastateKey]. rewrite Hv. cbn. by rewrite Hs. }
  unfold accounted, getMaxRoundAccounted, getNextRoundToAccount, unless_not_initialized, tx_bind, tx_try.
  rewrite Hi. cbn [NextRoundToAccount tx_ret].
  destruct (Z.ltb_spec 0 n); [|lia]. unfold tx_ret. rewrite wrap64_small; [done|]. unfold is_u64, MaxInt64 in *. lia.
Qed.

Section Client.
Context `{SdkOps} `{!SdkLaws} `{UnicodeOps} `{MapRange} `{MapOrder} `{PgOps} `{PgLike} `{PgAgg} `{AppOrder}.
Context `{Codec SpecialAddresses} `{Codec MigrationState} `{Codec ImportState} `{Codec blockHeader}.
Context `{Codec signedTxnWithAD} `{Codec TxnExtra} `{Codec baseAccountData} `{Codec NetworkState} `{Codec DeleteStatus}.
Context `{Codec assetParams} `{Codec appParams} `{Codec appLocalState}.
Context `{Codec (option (list assetParams))} `{Codec (option (list appParams))}
  `{Codec (option (list appLocalState))} `{Codec (list Z)} `{Codec (list bool)}
  `{Codec (list (option Z))} `{Codec (list (option bool))}.
Context (pg_array : string -> string -> option (list string)).
Context (readonly : bool) (migration : option State).
#[local] Existing Instance postgres.
Abbreviation pg := (postgres pg_array readonly migration).
Context (si : ServerImplementation) (rq : Request) `{ApiOps}.

(** C1. From the ledger to the client: whatever attempts to import blocks were made, in whatever
    order and with whatever failures but a unique violation that is none, a client that asks
    for all transactions and follows the tokens sees exactly the transactions of the imported
    blocks, each once and complete, in the order of the ledger; those of a block whose import
    did not finish are not among them. *)
Theorem history_listed chain d0 d n limit sp fuel :
  (forall s, plain (DecodeJSON (T := ImportState) s)) ->
  (forall n, 0 <= n <= MaxInt64 + 1 ->
     DecodeImportState (EncodeImportState {| NextRoundToAccount := n |}) = Ok {| NextRoundToAccount := n |}) ->
  chain_ok chain -> no_blocks d0 -> rtc (attempt chain) d0 d ->
  next_round (core d) n -> 0 < n < MaxInt64 ->
  in_time si rq -> enabled si rq "SearchForTransactions" -> call_cancelled (rq_call rq) = false ->
  opt_uint64 limit -> 0 <= EO_DefaultTransactionsLimit (opts si) ->
  0 <= EO_MaxTransactionsLimit (opts si) <= MaxInt64 ->
  0 < limit_of limit (EO_DefaultTransactionsLimit (opts si)) (EO_MaxTransactionsLimit (opts si)) ->
  (size (t_txn (txns d)) < fuel)%nat ->
  exists ts, collect_txns (H := pg) si rq (everything limit) (Build_World d sp) fuel = Some ts /\
    Forall2 shows_stxn (listed chain n) ts.
Proof.
  intros Hplain Htrip Hch Hd0 Hhist Hnext Hn Ht He Hc Hl Hdef Hmax Hpos Hfuel.
  pose proof (attempts_imported Hplain chain (abs (core d0)) (ch_sound _ Hch) Htrip d0 d n
    Hd0 eq_refl Hhist Hnext) as Him.
  destruct (transactions_seen pg_array readonly migration si rq (everything limit) _ None d sp (n - 1) fuel
    Ht He Hc ltac:(by split) eq_refl (everything_filter si limit) eq_refl Hpos eq_refl Hdef Hmax)
    as (keys & ts & Hts & Hshow & Hsorted & Hkeys); [apply next_accounted; [done|lia]| |done|].
  { eapply imported_stored; [done|done|lia]. }
  exists ts. split; [done|]. apply (shown_listed chain Hch _ n d Him keys); [|done].
  apply listed_keys_unique; [done|done|].
  intros k. rewrite Hkeys, (listed_roots chain Hch _ n d Him) by lia.
  f_equiv. intros x. by rewrite wanted_no_filter.
Qed.
End Client.

(** ** A chain with a payment and a call in round 1 *)

Module SampleHistory.
Export SampleService SampleTrees.
#[export] Existing Instances SampleImport.network_codec SampleImport.delete_codec.

Definition sample_block (R : Z) : Block := {|
  B_Header := Sample.blockHeader R; B_Payset := if R =? 1 then B_Payset block else [] |}.
Definition sample_chain (R : Z) : ValidatedBlock := {|
  VB_Block := sample_block R; VB_Delta := SampleDelta.delta 100 |}.

(** Payouts differ by their rounds. *)
Fixpoint marks (n : nat) : string := match n with O => "" | S n => "." +:+ marks n end.
#[export] Instance history_codec : Codec signedTxnWithAD := {|
  encodeJSON '(stxnAD s e1 e2) :=
    let h := T_Header (ST_Txn (STAD_SignedTxn s)) in
    if bool_decide (H_Sender h = "fee sink") then "payout" +:+ marks (Z.to_nat (H_FirstValid h))
    else encodeJSON (stxnAD s e1 e2);
  DecodeJSON t :=
    if String.prefix "payout" t then
      Ok (convertSignedTxnWithAD (SignedTransactionFromBlockPayout (sample_block (Z.of_nat (String.length t - 6)))))
    else DecodeJSON t |}.

Lemma length_marks n : String.length (marks n) = n.
Proof. induction n as [|n IH]; [done|]. change (S (String.length (marks n)) = S n). by rewrite IH. Qed.

Lemma payout_readable R : 0 < R ->
  DecodeSignedTxnWithAD (EncodeSignedTxnWithAD (SignedTransactionFromBlockPayout (sample_block R))) =
    Ok (SignedTransactionFromBlockPayout (sample_block R)).
Proof.
  intros HR.
  assert (EncodeSignedTxnWithAD (SignedTransactionFromBlockPayout (sample_block R)) = "payout" +:+ marks (Z.to_nat R))
    as -> by reflexivity.
  unfold DecodeSignedTxnWithAD. cbn [DecodeJSON history_codec].
  change (String.length ("payout" +:+ marks (Z.to_nat R))) with (6 + String.length (marks (Z.to_nat R)))%nat.
  rewrite length_marks. replace (Z.of_nat (6 + Z.to_nat R - 6)) with R by lia.
  assert (String.prefix "payout" ("payout" +:+ marks (Z.to_nat R)) = true) as -> by (by destruct (marks _)).
  cbn [mbind result_bind]. reflexivity.
Qed.

Lemma import_roundtrip n : 0 <= n <= MaxInt64 + 1 ->
  DecodeImportState (EncodeImportState {| NextRoundToAccount := n |}) = Ok {| NextRoundToAccount := n |}.
Proof.
  intros Hn. unfold DecodeImportState, EncodeImportState. cbn [DecodeJSON encodeJSON import_codec NextRoundToAccount].
  rewrite ParseUint_FormatUint; [done|]. unfold is_u64, MaxInt64 in *. lia.
Qed.

Lemma sample_importable R : importable (sample_block R).
Proof.
  unfold importable, sample_block. cbn [B_Payset]. destruct (Z.eqb_spec R 1) as [->|Hne].
  - split; [eexists _, _; vm_compute; reflexivity|]. by left.
  - split; [eexists _, _; reflexivity|]. by left.
Qed.

Lemma sample_transactions R : block_transactions (sample_block R) = if R =? 1 then [stored_at 0; stored_at 1] else [].
Proof. unfold sample_block. destruct (Z.eqb_spec R 1) as [->|Hne]; reflexivity. Qed.

Lemma sample_readable R : 0 < R -> block_readable (sample_block R) (B_Payset (sample_block R)).
Proof.
  intros HR. split.
  - eexists. split; reflexivity.
  - intros s [(stib & st & ad & Hin & Hdec & ->)| ->]; [|by apply payout_readable].
    unfold sample_block in Hin, Hdec. cbn [B_Payset] in Hin. destruct (R =? 1); [|by apply elem_of_nil in Hin].
    cbn [block SampleBlock.block B_Payset] in Hin. rewrite !elem_of_cons, elem_of_nil in Hin.
    destruct Hin as [-> |[-> |[]]]; injection Hdec as <- <-; vm_compute; reflexivity.
  - intros e extra. unfold sample_block, entries. cbn [B_Payset B_Header].
    destruct (R =? 1); [|by intros ?%elem_of_nil]. intros [n Hn]%list_elem_of_lookup_1 Hex.
    do 5 (destruct n as [|n]; [vm_compute in Hn; injection Hn as <-; vm_compute in Hex; injection Hex as <-;
      split; [discriminate|]; split; vm_compute; reflexivity|]). vm_compute in Hn. discriminate Hn.
Qed.

Lemma sample_sound : chain_sound sample_chain.
Proof.
  split; cbn [sample_chain VB_Block VB_Delta]; [done|intros R _; apply sample_importable|].
  intros R. apply Forall_singleton. intros h [= <-]. split; [discriminate|reflexivity].
Qed.

Lemma sample_chain_ok : chain_ok sample_chain.
Proof.
  split; cbn [sample_chain VB_Block].
  - apply sample_sound.
  - apply sample_readable.
  - intros R _. rewrite sample_transactions. destruct (R =? 1); [|constructor].
    repeat (constructor || (apply no_deltas; assumption)).
  - intros R R' i i' s s' _ _. rewrite !sample_transactions.
    destruct (Z.eqb_spec R 1) as [->|], (Z.eqb_spec R' 1) as [->|]; try done.
    destruct i as [|[|i]], i' as [|[|i']]; try done; intros [= <-] [= <-] Hid; by vm_compute in Hid.
Qed.

Lemma attempt_run chain R fs d : no_unique fs -> attempt chain d (Postgres.AddBlock (chain R) d fs).1.2.
Proof.
  intros Hfs. destruct (Postgres.AddBlock (chain R) d fs) as [[r d'] fs'] eqn:E. by eapply attempt_block.
Qed.

(** The block of round 1 is imported at the second attempt: at the first, the commit of the
    main transaction fails when the transactions have been committed already. *)
Definition start : database := {|
  core := set_metastate empty_tables {[ StateMetastateKey := "0"; NetworkMetaStateKey := "genesis hash" ]};
  txns := SampleBlock.empty |}.
Definition lost : faults := replicate 34 None ++ [Some (ErrMsg "connection lost")].
Definition after_genesis : database := (Postgres.AddBlock (sample_chain 0) start []).1.2.
Definition after_failure : database := (Postgres.AddBlock (sample_chain 1) after_genesis lost).1.2.
Definition after_success : database := (Postgres.AddBlock (sample_chain 1) after_failure []).1.2.

Lemma sample_history : rtc (attempt sample_chain) start after_success.
Proof.
  eapply rtc_l; [by apply (attempt_run sample_chain 0 []); constructor|].
  eapply rtc_l; [apply (attempt_run sample_chain 1 lost)|eapply rtc_l; [|reflexivity]].
  - apply Forall_app. split; [by apply Forall_replicate|]. apply Forall_singleton. by intros e [= <-].
  - by apply (attempt_run sample_chain 1 []); constructor.
Qed.

Lemma start_empty : no_blocks start.
Proof. split; [exists "0"; split; reflexivity|]. split; [reflexivity|]. split; reflexivity. Qed.

Lemma history_tables_witness :
  imported sample_chain (abs (core start)) 2 after_success /\ size (t_txn (txns after_success)) = 5%nat.
Proof.
  split; [|vm_compute; reflexivity]. apply (history_tables sample_chain start after_success 2).
  - apply SampleImport.import_codec_plain.
  - apply import_roundtrip.
  - apply sample_sound.
  - apply start_empty.
  - apply sample_history.
  - exists "2". split; vm_compute; reflexivity.
Defined.

Lemma history_listed_witness : exists ts,
  collect_txns (H := postgres no_array true None) si rq (everything (Some 1)) (Build_World after_success None) 6
    = Some ts /\
  Forall2 shows_stxn (listed sample_chain 2) ts /\ map models.Transaction_Id ts = [Some "pay-"; Some "appl-"].
Proof.
  edestruct (history_listed no_array true None si rq sample_chain start after_success 2 (Some 1) None 6)
    as (ts & Hc & Hshow).
  - apply SampleImport.import_codec_plain.
  - apply import_roundtrip.
  - apply sample_chain_ok.
  - apply start_empty.
  - apply sample_history.
  - exists "2". split; vm_compute; reflexivity.
  - done.
  - apply si_in_time.
  - reflexivity.
  - reflexivity.
  - intros v [= <-]. done.
  - done.
  - done.
  - done.
  - vm_compute. lia.
  - exists ts. split; [exact Hc|]. split; [exact Hshow|].
    vm_compute in Hc. injection Hc as <-. reflexivity.
Defined.
End SampleHistory.
