(* ===== verification/HistoryState.v ===== *)
(** * From the ledger to the client: holdings and boxes

    After any sequence of attempts to import blocks, a client that lists the holders of an
    asset or the boxes of an application sees exactly those of the ledger before the next
    round.  The deleted rows that the tables keep, the pages and the failed attempts are not
    visible. *)

From Stdlib Require Import Sorted.
From stdpp Require Import sorting.
From S2P Require Import Prelude GoStd Sdk Idb Models Util Encoding Db WriteTxn Writer Postgres Rewind.
From S2P Require Import Migration Sql TxnQuery TxnPaging TxnSearch TxnTrees BlockQuery ResourceQuery AccountQuery.
From S2P Require Import Params Convert Disabled Interface Health Handlers Client Service TxnService History.

(** ** The keys of a table *)

Section Keys.
Context {K A : Type} `{Countable K} (tab : tables -> gmap K A) (key : stmt -> option K).

(** A statement adds no row but that of its key. *)
Definition writes_key : Prop := forall s t k,
  is_Some (tab (exec_stmt s t) !! k) -> is_Some (tab t !! k) \/ key s = Some k.

Lemma exec_all_keys batch t k : writes_key -> is_Some (tab (exec_all batch t) !! k) ->
  is_Some (tab t !! k) \/ exists s, s ∈ batch /\ key s = Some k.
Proof.
  intros Hw. revert t. induction batch as [|s batch IH]; intros t Hk; [by left|].
  destruct (IH _ Hk) as [Hs|(s' & Hs' & Hkey)].
  - destruct (Hw s t k Hs) as [?|?]; [by left|]. right. exists s. split; [left|done].
  - right. exists s'. split; [by right|done].
Qed.
End Keys.

(** The row of a holding, and that of a box. *)
Definition holding_key (s : stmt) : option (Address * Z) :=
  match s with
  | upsert_account_asset addr id _ _ _ | delete_account_asset addr id _ => Some (addr, id)
  | _ => None
  end.
Definition box_key (s : stmt) : option (Z * string) :=
  match s with upsert_app_box app name _ => Some (app, name) | _ => None end.

Lemma upsert_key {K A} `{Countable K} (k k' : K) (v : A) f m :
  is_Some (upsert k v f m !! k') -> is_Some (m !! k') \/ k = k'.
Proof.
  unfold upsert. destruct (decide (k = k')) as [->|Hne]; [by right|]. left. revert H0.
  destruct (m !! k); by rewrite lookup_insert_ne by done.
Qed.

Lemma holding_writes : writes_key t_account_asset holding_key.
Proof.
  intros s t k. destruct s; cbn; try (by left); intros [?|<-]%upsert_key; auto.
Qed.

Lemma box_writes : writes_key t_app_box box_key.
Proof.
  intros s t k. destruct s; cbn; try (by left); [intros [?|<-]%upsert_key; auto|].
  intros [v [_ Hv]%lookup_delete_Some]. left. by exists v.
Qed.

Section Batches.
Context `{SdkOps} `{UnicodeOps} `{Codec blockHeader} `{Codec assetParams} `{Codec appParams}
  `{Codec appLocalState} `{Codec baseAccountData} `{Codec SpecialAddresses}.

(** The statements for accounts, assets and applications write the holdings of the delta, and
    no boxes. *)
Lemma writeAccountDeltas_keys round deltas sig s : s ∈ writeAccountDeltas round deltas sig ->
  box_key s = None /\ forall k, holding_key s = Some k ->
    exists r, r ∈ D_AssetResources deltas /\ ASR_Addr r = k.1.
Proof.
  unfold writeAccountDeltas. rewrite !elem_of_app, !list_elem_of_In, !in_flat_map.
  intros [(r & _ & Hs)|[(r & Hr & Hs)|(r & _ & Hs)]].
  - unfold writeAccount in Hs. destruct (_ =? 0), (_ !! _); cbn in Hs; by destruct Hs as [<-|[]].
  - enough (box_key s = None /\ forall k, holding_key s = Some k -> ASR_Addr r = k.1) as [? Hk].
    { split; [done|]. intros k Hk'. exists r. split; [by apply list_elem_of_In|auto]. }
    destruct r as [? ? [[] [|]] [[] [|]]]; cbn in Hs; destruct_or?; subst; try done;
      (split; [done|by intros k [= <-]]).
  - destruct r as [? ? [[] [|]] [[] [|]]]; cbn in Hs; destruct_or?; by subst.
Qed.

Lemma writeBoxMods_keys kvMods batch s : writeBoxMods kvMods = Ok batch -> s ∈ batch ->
  holding_key s = None /\ forall k, box_key s = Some k -> exists key v, (key, v) ∈ kvMods /\ SplitBoxKey key = Ok k.
Proof.
  revert batch. induction kvMods as [|[key v] rest IH]; intros batch; cbn.
  - intros [= <-] Hs%elem_of_nil. done.
  - destruct (SplitBoxKey key) as [[app name]|] eqn:Hk; cbn; [|done].
    destruct (writeBoxMods rest) as [batch'|]; cbn; [|done]. intros [= <-] [->|Hs]%elem_of_cons.
    + split; [by destruct v|]. intros k Hb. exists key, v. split; [left|]. destruct v; [|done]. by injection Hb as <-.
    + destruct (IH batch' eq_refl Hs) as [? Hb]. split; [done|].
      intros k Hbk. destruct (Hb k Hbk) as (key' & v' & ? & ?). exists key', v'. split; [by right|done].
Qed.
Lemma block_batch_keys block delta batch s : block_batch block delta = Ok batch -> s ∈ batch ->
  (forall k, holding_key s = Some k -> exists r, r ∈ D_AssetResources (D_AccountDeltas delta) /\ ASR_Addr r = k.1) /\
  (forall k, box_key s = Some k -> exists key v, (key, v) ∈ D_KvMods delta /\ SplitBoxKey key = Ok k).
Proof.
  unfold block_batch. intros Hb Hs.
  destruct (getSigTypeDeltas _) as [sig|]; cbn [wrap mbind result_bind] in Hb; [|done].
  destruct (writeBoxMods _) as [boxes|] eqn:Hbox; cbn [wrap mbind result_bind] in Hb; [|done].
  apply (f_equal (λ r, match r with Ok b => b | Err _ => [] end)) in Hb. subst batch.
  rewrite !elem_of_app in Hs. destruct Hs as [Hs|[Hs|[Hs|Hs]]].
  - apply list_elem_of_singleton in Hs as ->. done.
  - apply list_elem_of_singleton in Hs as ->. done.
  - apply writeAccountDeltas_keys in Hs as [Hb Hk]. split; [done|]. by rewrite Hb.
  - destruct (writeBoxMods_keys _ _ _ Hbox Hs) as [Hh Hk]. split; [|done]. by rewrite Hh.
Qed.
End Batches.

(** ** The keys of the tables after a history *)

Section Attempts.
Context `{SdkOps} `{!SdkLaws} `{UnicodeOps} `{MapOrder}.
Context `{Codec signedTxnWithAD} `{Codec TxnExtra} `{Codec blockHeader} `{Codec assetParams}
  `{Codec appParams} `{Codec appLocalState} `{Codec baseAccountData} `{Codec SpecialAddresses}
  `{Codec ImportState} `{Codec NetworkState} `{Codec DeleteStatus}.
Hypothesis import_plain : forall s, plain (DecodeJSON (T := ImportState) s).
Context (chain : Z -> ValidatedBlock).

(** What the main transaction keeps when it succeeds, attempts keep. *)
Lemma attempts_keep (P : tables -> Prop) d d' :
  (forall R d fs d' fs', P (core d) -> addBlock_tx (chain R) d fs = (Ok tt, d', fs') -> P (core d')) ->
  rtc (attempt chain) d d' -> P (core d) -> P (core d').
Proof.
  intros Htx Hr. induction Hr as [|d d1 d' Hs _ IH]; [done|]. intros HP. apply IH. clear IH.
  destruct Hs as [R fs r d d1 fs' Hfs Hrun] in HP |- *. revert Hrun. unfold Postgres.AddBlock.
  destruct (Consensus _); [|by intros [= <- <- <-]].
  unfold tx_wrap. destruct (TxWithRetry _ _ d fs) as [[r1 d2] fs1] eqn:Er. intros [= <- <- <-].
  eapply (TxWithRetry_ind _ _ (λ x f, P (core x))) in Er; [|by apply honest_addBlock_tx|done|done|done].
  destruct r1 as [[]|e]; [|by destruct Er]. destruct Er as (x & fx & fx' & Hx & Hf). by eapply Htx.
Qed.

Section Table.
Context {K A : Type} `{Countable K} (tab : tables -> gmap K A) (key : stmt -> option K) (good : K -> Prop).
Hypothesis tab_writes : writes_key tab key.
Hypothesis tab_metastate : forall t m, tab (set_metastate t m) = tab t.
Hypothesis key_head : forall h a, Forall (λ s, key s = None) (addBlockHeader h ++ setSpecialAccounts a).
Hypothesis good_batch : forall R batch s k, block_batch (VB_Block (chain R)) (VB_Delta (chain R)) = Ok batch ->
  batch_fits batch -> s ∈ batch -> key s = Some k -> good k.

Lemma attempts_keys d d' : rtc (attempt chain) d d' ->
  (forall k, is_Some (tab (core d) !! k) -> good k) -> forall k, is_Some (tab (core d') !! k) -> good k.
Proof.
  intros Hr. apply (attempts_keep (λ t, forall k, is_Some (tab t !! k) -> good k) d d'); [|done]. clear d d' Hr.
  intros R d fs d' fs' Hd (m & fs1 & fs2 & Hw)%addBlock_tx_core k Hk. destruct (_ =? 0).
  - unfold AddBlock0 in Hw. apply send_batch_Ok in Hw as [Hw _]. rewrite Hw in Hk.
    apply (exec_all_keys tab key) in Hk as [Hk|(s & Hs & Hks)]; [|..|done].
    + rewrite tab_metastate in Hk. by apply Hd.
    + pose proof (key_head (B_Header (VB_Block (chain R))) (specialAddresses (VB_Block (chain R)))) as Hh.
      rewrite Forall_forall in Hh. by rewrite (Hh s Hs) in Hks.
  - unfold Writer.AddBlock in Hw. destruct (block_batch _ _) as [batch|e] eqn:Hb; [|done].
    apply send_batch_Ok in Hw as [Hw Hf]. rewrite Hw in Hk.
    apply (exec_all_keys tab key) in Hk as [Hk|(s & Hs & Hks)]; [|by eapply good_batch|done].
    rewrite tab_metastate in Hk. by apply Hd.
Qed.
End Table.

(** The addresses of the deltas have 32 bytes, and the boxes have names. *)
Record chain_keys : Prop := {
  ck_addresses : forall R r, r ∈ D_AssetResources (D_AccountDeltas (VB_Delta (chain R))) ->
    String.length (ASR_Addr r) = 32%nat;
  ck_boxes : forall R key v app name, (key, v) ∈ D_KvMods (VB_Delta (chain R)) ->
    SplitBoxKey key = Ok (app, name) -> name <> "" }.

Lemma attempts_holdings d d' : chain_keys -> rtc (attempt chain) d d' -> holdings_stored d -> holdings_stored d'.
Proof.
  intros Hk Hr Hd addr asset row Hrow.
  apply (attempts_keys t_account_asset holding_key
    (λ k, String.length k.1 = 32%nat /\ fits_bigint k.2 = true)) with (d := d) (d' := d') (k := (addr, asset)).
  - apply holding_writes.
  - done.
  - by repeat constructor.
  - intros R batch s k Hb Hf Hs Hkey. destruct (block_batch_keys _ _ _ _ Hb Hs) as [Hh _].
    destruct (Hh k Hkey) as (r & Hr' & <-). split; [by eapply ck_addresses|].
    unfold batch_fits in Hf. rewrite Forall_forall in Hf. specialize (Hf s Hs).
    destruct s; try done; injection Hkey as <-; cbn in Hf; by apply andb_prop in Hf as [? _].
  - done.
  - intros [a i] [row' Hrow']. by eapply Hd.
  - by exists row.
Qed.

Lemma attempts_boxes d d' : chain_keys -> rtc (attempt chain) d d' -> boxes_named d -> boxes_named d'.
Proof.
  intros Hk Hr Hd app name value Hrow.
  apply (attempts_keys t_app_box box_key (λ k, k.2 <> "")) with (d := d) (d' := d') (k := (app, name)).
  - apply box_writes.
  - done.
  - by repeat constructor.
  - intros R batch s [app' name'] Hb _ Hs Hkey. destruct (block_batch_keys _ _ _ _ Hb Hs) as [_ Hbox].
    destruct (Hbox _ Hkey) as (key & v & Hin & Hsplit). by eapply ck_boxes.
  - done.
  - intros [a i] [v Hv]. by eapply Hd.
  - by exists value.
Qed.
End Attempts.

(** ** The client *)

Section Client.
Context `{SdkOps} `{!SdkLaws} `{UnicodeOps} `{MapRange} `{MapOrder} `{PgOps} `{PgLike} `{PgAgg} `{AppOrder}.
Context `{Codec SpecialAddresses} `{Codec MigrationState} `{Codec ImportState} `{Codec blockHeader}.
Context `{Codec signedTxnWithAD} `{Codec TxnExtra} `{Codec baseAccountData} `{Codec NetworkState} `{Codec DeleteStatus}.
Context `{Codec assetParams} `{Codec appParams} `{Codec appLocalState}.
Context `{Codec (option (list assetParams))} `{Codec (option (list appParams))}
  `{Codec (option (list appLocalState))} `{Codec (list Z)} `{Codec (list bool)}
  `{Codec (list (option Z))} `{Codec (list (option bool))}.
Context (pg_array : string -> string -> option (list string)).
Context (readonly : bool) (migration : option State).
Context (si : ServerImplementation) (rq : Request) `{ApiOps}.

(** A chain, a database that held no blocks, and what attempts to import the chain made of it:
    the next round is [n]. *)
Record followed (chain : Z -> ValidatedBlock) (d0 d : database) (n : Z) : Prop := {
  fo_plain : forall s, plain (DecodeJSON (T := ImportState) s);
  fo_roundtrip : forall n, 0 <= n <= MaxInt64 + 1 ->
    DecodeImportState (EncodeImportState {| NextRoundToAccount := n |}) = Ok {| NextRoundToAccount := n |};
  fo_sound : chain_sound chain;
  fo_keys : chain_keys chain;
  fo_start : no_blocks d0;
  fo_holdings : holdings_stored d0;
  fo_boxes : boxes_named d0;
  fo_attempts : rtc (attempt chain) d0 d;
  fo_next : next_round (core d) n;
  fo_range : 0 < n <= MaxInt64 }.

Lemma followed_state chain d0 d n : followed chain d0 d n ->
  abs (core d) = ledger_at chain (abs (core d0)) n /\ accounted d (n - 1) /\ holdings_stored d /\ boxes_named d.
Proof.
  intros [Hp Ht Hs Hk Hd0 Hh Hb Ha Hn Hr]. split_and!.
  - by apply (attempts_imported Hp chain (abs (core d0)) Hs Ht d0 d n Hd0 eq_refl Ha Hn).
  - by apply next_accounted.
  - by apply (attempts_holdings Hp chain d0).
  - by apply (attempts_boxes Hp chain d0).
Qed.

(** A holding as the client reads it. *)
Definition read_holding (h : models.MiniAssetHolding) : Address * (Z * bool) :=
  (or_zero "" (DecodeAddress (models.MiniAssetHolding_Address h)),
   (models.MiniAssetHolding_Amount h, models.MiniAssetHolding_IsFrozen h)).

(** C3. Whatever attempts to import the blocks of a chain were made, a client of
    [/v2/assets/{asset-id}/balances] that follows the tokens sees exactly the accounts that
    hold the asset in the ledger before the next round and whose amount is in the range asked
    for, with their amounts, each once and in the order of the addresses. *)
Theorem history_holders chain d0 d n asset params sp fuel :
  let q := balances_query si asset params None in
  followed chain d0 d n -> in_time si rq -> enabled si rq "LookupAssetBalances" ->
  fits_bigint asset = true -> 0 < BQ_Limit q <= MaxInt64 -> BQ_IncludeDeleted q = false ->
  (size (t_account_asset (core d)) < fuel)%nat ->
  exists found,
    collect_balances (H := postgres pg_array readonly migration) si rq asset params (Build_World d sp) fuel
      = Some found /\
    StronglySorted sql_lt (map (λ h, (read_holding h).1) found) /\
    forall addr amount frozen, (addr, (amount, frozen)) ∈ map read_holding found <->
      L_holdings (ledger_at chain (abs (core d0)) n) !! (addr, asset) = Some (amount, frozen) /\
      (forall v, BQ_AmountGT q = Some v -> v < amount) /\ (forall v, BQ_AmountLT q = Some v -> amount < v).
Proof.
  intros q Hf Ht He Ha Hl Hdel Hfuel. destruct (followed_state _ _ _ _ Hf) as (Habs & Hacc & Hst & _).
  destruct (LookupAssetBalances_pages pg_array readonly migration si rq asset params d sp (n - 1) fuel
    Ht He Ha Hl Hacc Hst Hfuel) as (found & Hc & Hs & Hin).
  exists found. split_and!; [done|done|]. intros addr amount frozen. rewrite <- Habs. cbn [abs L_holdings].
  rewrite lookup_omap, list_elem_of_fmap. split.
  - intros (h & Hh & (addr' & row & Hrow & Hm & ->)%Hin). destruct (Hst _ _ _ Hrow) as [Hlen _].
    unfold read_holding, shown_balance in Hh. cbn in Hh. rewrite DecodeAddress_String in Hh by done.
    injection Hh as -> -> ->. rewrite Hrow. cbn. unfold live_holding. rewrite (bm_live _ _ _ _ Hm Hdel).
    split_and!; [done|apply Hm|apply Hm].
  - intros (Hrow & Hgt & Hlt). destruct (t_account_asset (core d) !! (addr, asset)) as [row|] eqn:E; [|done].
    cbn in Hrow. unfold live_holding in Hrow. destruct (aar_deleted row) eqn:Hd'; [done|]. injection Hrow as <- <-.
    exists (shown_balance addr asset row). destruct (Hst _ _ _ E) as [Hlen _]. split.
    + unfold read_holding, shown_balance. cbn. by rewrite DecodeAddress_String.
    + apply Hin. exists addr, row. split_and!; [done| |done]. split; cbn; try done. by intros v [= <-].
Qed.

(** C4. Whatever attempts to import the blocks of a chain were made, a client of
    [/v2/applications/{application-id}/boxes] that follows the tokens sees exactly the boxes of
    the application in the ledger before the next round, each once and in the order of the
    names, with their values if these are asked for. *)
Theorem history_boxes chain d0 d n app params sp fuel :
  let q := boxes_query si app params None in
  let L := ledger_at chain (abs (core d0)) n in
  (forall name, app_call_bytes (name_token name) = Ok name) ->
  followed chain d0 d n -> in_time si rq -> enabled si rq "SearchForApplicationBoxes" ->
  fits_bigint app = true -> 0 < XQ_Limit q <= MaxInt64 -> is_Some (L_apps L !! app) ->
  (size (L_boxes L) < fuel)%nat ->
  exists found, collect_boxes pg_array readonly migration si rq app params (Build_World d sp) fuel = Some found /\
    StronglySorted sql_lt (map models.BoxDescriptor_Name found) /\
    forall b, b ∈ found <-> exists name value,
      L_boxes L !! (app, name) = Some value /\ b = shown_box (with_values params) name value.
Proof.
  intros q L Htok Hf Ht He Ha Hl Happ Hfuel. destruct (followed_state _ _ _ _ Hf) as (Habs & Hacc & _ & Hst).
  unfold L in *. rewrite <- Habs in *. cbn [abs L_boxes L_apps] in *.
  apply (SearchForApplicationBoxes_pages pg_array readonly migration si rq app params d sp (n - 1)); try done.
  destruct Happ as [v Hv]. rewrite lookup_omap in Hv. destruct (t_app (core d) !! app); [by eexists|done].
Qed.
End Client.

(** ** A holder and a box *)

Module SampleState.
Export SampleHistory.

(** [alice] holds 5 of the asset 9, [bob] has closed their holding; the application 0 has a box,
    another one is deleted. *)
Definition state_delta : LedgerStateDelta := {|
  D_AccountDeltas := {|
    D_Accts := [];
    D_AssetResources := [
      {| ASR_Aidx := 9; ASR_Addr := alice; ASR_Params := {| APD_Params := None; APD_Deleted := false |};
         ASR_Holding := {| AHD_Holding := Some {| AH_Amount := 5; AH_Frozen := true |};
                           AHD_Deleted := false |} |};
      {| ASR_Aidx := 9; ASR_Addr := bob; ASR_Params := {| APD_Params := None; APD_Deleted := false |};
         ASR_Holding := {| AHD_Holding := None; AHD_Deleted := true |} |}];
    D_AppResources := [{| PPR_Aidx := 0; PPR_Addr := alice;
      PPR_Params := {| PPD_Params := Some sample_app; PPD_Deleted := false |};
      PPR_State := {| PLD_LocalState := None; PLD_Deleted := false |} |}] |};
  D_KvMods := [("box", Some "value"); ("gone", None)] |}.

Definition state_chain (R : Z) : ValidatedBlock := {| VB_Block := sample_block R; VB_Delta := state_delta |}.

Lemma state_sound : chain_sound state_chain.
Proof.
  split; cbn [state_chain VB_Block VB_Delta]; [done|intros R _; apply sample_importable|].
  intros R. apply Forall_cons. split; [by intros h [= <-]|]. apply Forall_singleton. done.
Qed.

Lemma state_keys : chain_keys state_chain.
Proof.
  split.
  - intros R r Hr. cbn in Hr. rewrite !elem_of_cons, elem_of_nil in Hr. by destruct Hr as [->|[->|[]]].
  - intros R key v app name Hin [= <- <-]. cbn in Hin. rewrite !elem_of_cons, elem_of_nil in Hin.
    by destruct Hin as [[= -> ->]|[[= -> ->]|[]]].
Qed.

(** The connection is lost while the state of round 1 is written; then it is imported. *)
Definition broken : faults := replicate 29 None ++ [Some (ErrMsg "connection lost")].
Definition first : database := (Postgres.AddBlock (state_chain 0) start []).1.2.
Definition failed : database := (Postgres.AddBlock (state_chain 1) first broken).1.2.
Definition last : database := (Postgres.AddBlock (state_chain 1) failed []).1.2.

Lemma state_followed : followed state_chain start last 2.
Proof.
  split.
  - apply SampleImport.import_codec_plain.
  - apply import_roundtrip.
  - apply state_sound.
  - apply state_keys.
  - apply start_empty.
  - intros addr asset row Hrow. by vm_compute in Hrow.
  - intros app name value Hrow. by vm_compute in Hrow.
  - eapply rtc_l; [by apply (attempt_run state_chain 0 []); constructor|].
    eapply rtc_l; [apply (attempt_run state_chain 1 broken)|eapply rtc_l; [|reflexivity]].
    + apply Forall_app. split; [by apply Forall_replicate|]. apply Forall_singleton. by intros e [= <-].
    + by apply (attempt_run state_chain 1 []); constructor.
  - exists "2". split; vm_compute; reflexivity.
  - done.
Qed.

Definition all_holders : models.LookupAssetBalancesParams := {|
  models.LookupAssetBalancesParams_IncludeAll := None; models.LookupAssetBalancesParams_Limit := None;
  models.LookupAssetBalancesParams_Next := None; models.LookupAssetBalancesParams_CurrencyGreaterThan := None;
  models.LookupAssetBalancesParams_CurrencyLessThan := None |}.

Lemma history_holders_witness : exists found,
  collect_balances (H := postgres no_array true None) si rq 9 all_holders (Build_World last None) 3 = Some found /\
  map read_holding found = [(alice, (5, true))].
Proof.
  edestruct (history_holders no_array true None si rq state_chain start last 2 9 all_holders None 3)
    as (found & Hc & _).
  - apply state_followed.
  - apply si_in_time.
  - reflexivity.
  - reflexivity.
  - done.
  - reflexivity.
  - vm_compute. lia.
  - exists found. split; [exact Hc|]. vm_compute in Hc. injection Hc as <-. reflexivity.
Defined.

Definition all_boxes : models.SearchForApplicationBoxesParams := {|
  models.SearchForApplicationBoxesParams_Limit := None; models.SearchForApplicationBoxesParams_Next := None;
  models.SearchForApplicationBoxesParams_Include := Some ["values"] |}.

Lemma history_boxes_witness : exists found,
  collect_boxes no_array true None si rq 0 all_boxes (Build_World last None) 2 = Some found /\
  found = [shown_box true "box" "value"].
Proof.
  edestruct (history_boxes no_array true None si rq state_chain start last 2 0 all_boxes None 2)
    as (found & Hc & _).
  - apply token_name.
  - apply state_followed.
  - apply si_in_time.
  - reflexivity.
  - reflexivity.
  - done.
  - by vm_compute; eexists.
  - vm_compute. lia.
  - exists found. split; [exact Hc|]. vm_compute in Hc. injection Hc as <-. reflexivity.
Defined.
End SampleState.
