(* ===== verification/Routes.v ===== *)
(** * The wrappers of the routes: [api/generated/v2/routes.go]

    For each route, the parameters of a request are bound to the struct of the handler; a
    value that cannot be bound is refused with status 400.  The binding is done by the
    package [runtime] of oapi-codegen, which is a parameter. *)

From S2P Require Import Prelude GoStd Sdk Idb Models Util Encoding Db Rewind AccountQuery Params Convert Disabled.
From S2P Require Import Interface Handlers.

(** Where a parameter is bound to: a pointer, a pointer to a slice, a required string; for a
    parameter of the path, a string or a number. *)
Inductive dest : Type -> Type :=
| D_uint64 : dest (option Z)
| D_string : dest (option string)
| D_bool : dest (option bool)
| D_time : dest (option Time)
| D_strings : dest (option (list string))
| D_required : dest string.
Inductive path_dest : Type -> Type := P_string : path_dest string | P_uint64 : path_dest Z.

(** [runtime.BindQueryParameter] with style, explode, required and name, and
    [runtime.BindStyledParameterWithLocation] with style, explode, name and value. *)
Class Runtime := {
  BindQueryParameter : forall {T}, dest T -> string -> bool -> bool -> string -> Values -> result T;
  BindStyledParameter : forall {T}, path_dest T -> string -> bool -> string -> string -> result T }.

(** What a handler returns to the router: the response it wrote, or an error with a status,
    which the router turns into a response. *)
Inductive Answer :=
| Answered {A : Type} (resp : Response A)
| HTTPError (status : Z) (message : error).

Module ServerInterfaceWrapper.
Section Wrapper.
Context {S : Type} `{IndexerDb S} `{SdkOps} `{UnicodeOps} `{MapRange} `{ApiOps} `{Runtime}.
(** The handler, the request and the parameters of its path. *)
Context (si : ServerImplementation) (rq : Request) (path : string -> string).
Abbreviation W := (World S) (only parsing).

Definition bad_format {T} (name : string) (r : result T) : result T :=
  as_msg ("Invalid format for parameter " +:+ name +:+ ": %s") r.
Definition query {T} (d : dest T) (explode required : bool) (name : string) : result T :=
  bad_format name (BindQueryParameter d "form" explode required name (QueryParams (rq_params rq))).
Definition param {T} (d : path_dest T) (name : string) : result T :=
  bad_format name (BindStyledParameter d "simple" false name (path name)).

Definition answered {A} (m : Tx W (Response A)) : Tx W Answer :=
  resp <-- m; tx_ret (Answered resp).
Definition bound {P} (r : result P) (k : P -> Tx W Answer) : Tx W Answer :=
  match r with Err err => tx_ret (HTTPError StatusBadRequest err) | Ok params => k params end.

Definition SearchForAccounts : Tx W Answer :=
  bound (
    assetId ← query D_uint64 true false "asset-id";
    limit ← query D_uint64 true false "limit";
    next ← query D_string true false "next";
    currencyGreaterThan ← query D_uint64 true false "currency-greater-than";
    includeAll ← query D_bool true false "include-all";
    exclude ← query D_strings false false "exclude";
    currencyLessThan ← query D_uint64 true false "currency-less-than";
    authAddr ← query D_string true false "auth-addr";
    round ← query D_uint64 true false "round";
    applicationId ← query D_uint64 true false "application-id";
    onlineOnly ← query D_bool true false "online-only";
    Ok {|
          models.SearchForAccountsParams_AssetId := assetId;
          models.SearchForAccountsParams_Limit := limit;
          models.SearchForAccountsParams_Next := next;
          models.SearchForAccountsParams_CurrencyGreaterThan := currencyGreaterThan;
          models.SearchForAccountsParams_IncludeAll := includeAll;
          models.SearchForAccountsParams_Exclude := exclude;
          models.SearchForAccountsParams_CurrencyLessThan := currencyLessThan;
          models.SearchForAccountsParams_AuthAddr := authAddr;
          models.SearchForAccountsParams_Round := round;
          models.SearchForAccountsParams_ApplicationId := applicationId;
          models.SearchForAccountsParams_OnlineOnly := onlineOnly |}) (λ params,
  answered (Handlers.SearchForAccounts si rq params)).

Definition LookupAccountByID : Tx W Answer :=
  bound (
    accountId ← param P_string "account-id";
    round ← query D_uint64 true false "round";
    includeAll ← query D_bool true false "include-all";
    exclude ← query D_strings false false "exclude";
    Ok (accountId, {|
          models.LookupAccountByIDParams_Round := round;
          models.LookupAccountByIDParams_IncludeAll := includeAll;
          models.LookupAccountByIDParams_Exclude := exclude |})) (λ '(accountId, params),
  answered (Handlers.LookupAccountByID si rq accountId params)).

Definition LookupAccountAppLocalStates : Tx W Answer :=
  bound (
    accountId ← param P_string "account-id";
    applicationId ← query D_uint64 true false "application-id";
    includeAll ← query D_bool true false "include-all";
    limit ← query D_uint64 true false "limit";
    next ← query D_string true false "next";
    Ok (accountId, {|
          models.LookupAccountAppLocalStatesParams_ApplicationId := applicationId;
          models.LookupAccountAppLocalStatesParams_IncludeAll := includeAll;
          models.LookupAccountAppLocalStatesParams_Limit := limit;
          models.LookupAccountAppLocalStatesParams_Next := next |})) (λ '(accountId, params),
  answered (Handlers.LookupAccountAppLocalStates si rq accountId params)).

Definition LookupAccountAssets : Tx W Answer :=
  bound (
    accountId ← param P_string "account-id";
    assetId ← query D_uint64 true false "asset-id";
    includeAll ← query D_bool true false "include-all";
    limit ← query D_uint64 true false "limit";
    next ← query D_string true false "next";
    Ok (accountId, {|
          models.LookupAccountAssetsParams_AssetId := assetId;
          models.LookupAccountAssetsParams_IncludeAll := includeAll;
          models.LookupAccountAssetsParams_Limit := limit;
          models.LookupAccountAssetsParams_Next := next |})) (λ '(accountId, params),
  answered (Handlers.LookupAccountAssets si rq accountId params)).

Definition LookupAccountCreatedApplications : Tx W Answer :=
  bound (
    accountId ← param P_string "account-id";
    applicationId ← query D_uint64 true false "application-id";
    includeAll ← query D_bool true false "include-all";
    limit ← query D_uint64 true false "limit";
    next ← query D_string true false "next";
    Ok (accountId, {|
          models.LookupAccountCreatedApplicationsParams_ApplicationId := applicationId;
          models.LookupAccountCreatedApplicationsParams_IncludeAll := includeAll;
          models.LookupAccountCreatedApplicationsParams_Limit := limit;
          models.LookupAccountCreatedApplicationsParams_Next := next |})) (λ '(accountId, params),
  answered (Handlers.LookupAccountCreatedApplications si rq accountId params)).

Definition LookupAccountCreatedAssets : Tx W Answer :=
  bound (
    accountId ← param P_string "account-id";
    assetId ← query D_uint64 true false "asset-id";
    includeAll ← query D_bool true false "include-all";
    limit ← query D_uint64 true false "limit";
    next ← query D_string true false "next";
    Ok (accountId, {|
          models.LookupAccountCreatedAssetsParams_AssetId := assetId;
          models.LookupAccountCreatedAssetsParams_IncludeAll := includeAll;
          models.LookupAccountCreatedAssetsParams_Limit := limit;
          models.LookupAccountCreatedAssetsParams_Next := next |})) (λ '(accountId, params),
  answered (Handlers.LookupAccountCreatedAssets si rq accountId params)).

Definition LookupAccountTransactions : Tx W Answer :=
  bound (
    accountId ← param P_string "account-id";
    limit ← query D_uint64 true false "limit";
    next ← query D_string true false "next";
    notePrefix ← query D_string true false "note-prefix";
    txType ← query D_string true false "tx-type";
    sigType ← query D_string true false "sig-type";
    txid ← query D_string true false "txid";
    round ← query D_uint64 true false "round";
    minRound ← query D_uint64 true false "min-round";
    maxRound ← query D_uint64 true false "max-round";
    assetId ← query D_uint64 true false "asset-id";
    beforeTime ← query D_time true false "before-time";
    afterTime ← query D_time true false "after-time";
    currencyGreaterThan ← query D_uint64 true false "currency-greater-than";
    currencyLessThan ← query D_uint64 true false "currency-less-than";
    rekeyTo ← query D_bool true false "rekey-to";
    Ok (accountId, {|
          models.LookupAccountTransactionsParams_Limit := limit;
          models.LookupAccountTransactionsParams_Next := next;
          models.LookupAccountTransactionsParams_NotePrefix := notePrefix;
          models.LookupAccountTransactionsParams_TxType := txType;
          models.LookupAccountTransactionsParams_SigType := sigType;
          models.LookupAccountTransactionsParams_Txid := txid;
          models.LookupAccountTransactionsParams_Round := round;
          models.LookupAccountTransactionsParams_MinRound := minRound;
          models.LookupAccountTransactionsParams_MaxRound := maxRound;
          models.LookupAccountTransactionsParams_AssetId := assetId;
          models.LookupAccountTransactionsParams_BeforeTime := beforeTime;
          models.LookupAccountTransactionsParams_AfterTime := afterTime;
          models.LookupAccountTransactionsParams_CurrencyGreaterThan := currencyGreaterThan;
          models.LookupAccountTransactionsParams_CurrencyLessThan := currencyLessThan;
          models.LookupAccountTransactionsParams_RekeyTo := rekeyTo |})) (λ '(accountId, params),
  answered (Handlers.LookupAccountTransactions si rq accountId params)).

Definition SearchForApplications : Tx W Answer :=
  bound (
    applicationId ← query D_uint64 true false "application-id";
    creator ← query D_string true false "creator";
    includeAll ← query D_bool true false "include-all";
    limit ← query D_uint64 true false "limit";
    next ← query D_string true false "next";
    Ok {|
          models.SearchForApplicationsParams_ApplicationId := applicationId;
          models.SearchForApplicationsParams_Creator := creator;
          models.SearchForApplicationsParams_IncludeAll := includeAll;
          models.SearchForApplicationsParams_Limit := limit;
          models.SearchForApplicationsParams_Next := next |}) (λ params,
  answered (Handlers.SearchForApplications si rq params)).

Definition LookupApplicationByID : Tx W Answer :=
  bound (
    applicationId ← param P_uint64 "application-id";
    includeAll ← query D_bool true false "include-all";
    Ok (applicationId, {|
          models.LookupApplicationByIDParams_IncludeAll := includeAll |})) (λ '(applicationId, params),
  answered (Handlers.LookupApplicationByID si rq applicationId params)).

Definition LookupApplicationBoxByIDAndName : Tx W Answer :=
  bound (
    applicationId ← param P_uint64 "application-id";
    name ← query D_required true true "name";
    Ok (applicationId, {|
          models.LookupApplicationBoxByIDAndNameParams_Name := name |})) (λ '(applicationId, params),
  answered (Handlers.LookupApplicationBoxByIDAndName si rq applicationId params)).

Definition SearchForApplicationBoxes : Tx W Answer :=
  bound (
    applicationId ← param P_uint64 "application-id";
    limit ← query D_uint64 true false "limit";
    next ← query D_string true false "next";
    include ← query D_strings false false "include";
    Ok (applicationId, {|
          models.SearchForApplicationBoxesParams_Limit := limit;
          models.SearchForApplicationBoxesParams_Next := next;
          models.SearchForApplicationBoxesParams_Include := include |})) (λ '(applicationId, params),
  answered (Handlers.SearchForApplicationBoxes si rq applicationId params)).

Definition LookupApplicationLogsByID : Tx W Answer :=
  bound (
    applicationId ← param P_uint64 "application-id";
    limit ← query D_uint64 true false "limit";
    next ← query D_string true false "next";
    txid ← query D_string true false "txid";
    minRound ← query D_uint64 true false "min-round";
    maxRound ← query D_uint64 true false "max-round";
    senderAddress ← query D_string true false "sender-address";
    Ok (applicationId, {|
          models.LookupApplicationLogsByIDParams_Limit := limit;
          models.LookupApplicationLogsByIDParams_Next := next;
          models.LookupApplicationLogsByIDParams_Txid := txid;
          models.LookupApplicationLogsByIDParams_MinRound := minRound;
          models.LookupApplicationLogsByIDParams_MaxRound := maxRound;
          models.LookupApplicationLogsByIDParams_SenderAddress := senderAddress |})) (λ '(applicationId, params),
  answered (Handlers.LookupApplicationLogsByID si rq applicationId params)).

Definition SearchForAssets : Tx W Answer :=
  bound (
    includeAll ← query D_bool true false "include-all";
    limit ← query D_uint64 true false "limit";
    next ← query D_string true false "next";
    creator ← query D_string true false "creator";
    name ← query D_string true false "name";
    unit ← query D_string true false "unit";
    assetId ← query D_uint64 true false "asset-id";
    Ok {|
          models.SearchForAssetsParams_IncludeAll := includeAll;
          models.SearchForAssetsParams_Limit := limit;
          models.SearchForAssetsParams_Next := next;
          models.SearchForAssetsParams_Creator := creator;
          models.SearchForAssetsParams_Name := name; models.SearchForAssetsParams_Unit := unit;
          models.SearchForAssetsParams_AssetId := assetId |}) (λ params,
  answered (Handlers.SearchForAssets si rq params)).

Definition LookupAssetByID : Tx W Answer :=
  bound (
    assetId ← param P_uint64 "asset-id";
    includeAll ← query D_bool true false "include-all";
    Ok (assetId, {|
          models.LookupAssetByIDParams_IncludeAll := includeAll |})) (λ '(assetId, params),
  answered (Handlers.LookupAssetByID si rq assetId params)).

Definition LookupAssetBalances : Tx W Answer :=
  bound (
    assetId ← param P_uint64 "asset-id";
    includeAll ← query D_bool true false "include-all";
    limit ← query D_uint64 true false "limit";
    next ← query D_string true false "next";
    currencyGreaterThan ← query D_uint64 true false "currency-greater-than";
    currencyLessThan ← query D_uint64 true false "currency-less-than";
    Ok (assetId, {|
          models.LookupAssetBalancesParams_IncludeAll := includeAll;
          models.LookupAssetBalancesParams_Limit := limit;
          models.LookupAssetBalancesParams_Next := next;
          models.LookupAssetBalancesParams_CurrencyGreaterThan := currencyGreaterThan;
          models.LookupAssetBalancesParams_CurrencyLessThan := currencyLessThan |})) (λ '(assetId, params),
  answered (Handlers.LookupAssetBalances si rq assetId params)).

Definition LookupAssetTransactions : Tx W Answer :=
  bound (
    assetId ← param P_uint64 "asset-id";
    limit ← query D_uint64 true false "limit";
    next ← query D_string true false "next";
    notePrefix ← query D_string true false "note-prefix";
    txType ← query D_string true false "tx-type";
    sigType ← query D_string true false "sig-type";
    txid ← query D_string true false "txid";
    round ← query D_uint64 true false "round";
    minRound ← query D_uint64 true false "min-round";
    maxRound ← query D_uint64 true false "max-round";
    beforeTime ← query D_time true false "before-time";
    afterTime ← query D_time true false "after-time";
    currencyGreaterThan ← query D_uint64 true false "currency-greater-than";
    currencyLessThan ← query D_uint64 true false "currency-less-than";
    address ← query D_string true false "address";
    addressRole ← query D_string true false "address-role";
    excludeCloseTo ← query D_bool true false "exclude-close-to";
    rekeyTo ← query D_bool true false "rekey-to";
    Ok (assetId, {|
          models.LookupAssetTransactionsParams_Limit := limit;
          models.LookupAssetTransactionsParams_Next := next;
          models.LookupAssetTransactionsParams_NotePrefix := notePrefix;
          models.LookupAssetTransactionsParams_TxType := txType;
          models.LookupAssetTransactionsParams_SigType := sigType;
          models.LookupAssetTransactionsParams_Txid := txid;
          models.LookupAssetTransactionsParams_Round := round;
          models.LookupAssetTransactionsParams_MinRound := minRound;
          models.LookupAssetTransactionsParams_MaxRound := maxRound;
          models.LookupAssetTransactionsParams_BeforeTime := beforeTime;
          models.LookupAssetTransactionsParams_AfterTime := afterTime;
          models.LookupAssetTransactionsParams_CurrencyGreaterThan := currencyGreaterThan;
          models.LookupAssetTransactionsParams_CurrencyLessThan := currencyLessThan;
          models.LookupAssetTransactionsParams_Address := address;
          models.LookupAssetTransactionsParams_AddressRole := addressRole;
          models.LookupAssetTransactionsParams_ExcludeCloseTo := excludeCloseTo;
          models.LookupAssetTransactionsParams_RekeyTo := rekeyTo |})) (λ '(assetId, params),
  answered (Handlers.LookupAssetTransactions si rq assetId params)).

Definition SearchForBlockHeaders : Tx W Answer :=
  bound (
    limit ← query D_uint64 true false "limit";
    next ← query D_string true false "next";
    minRound ← query D_uint64 true false "min-round";
    maxRound ← query D_uint64 true false "max-round";
    beforeTime ← query D_time true false "before-time";
    afterTime ← query D_time true false "after-time";
    proposers ← query D_strings false false "proposers";
    expired ← query D_strings false false "expired";
    absent ← query D_strings false false "absent";
    Ok {|
          models.SearchForBlockHeadersParams_Limit := limit;
          models.SearchForBlockHeadersParams_Next := next;
          models.SearchForBlockHeadersParams_MinRound := minRound;
          models.SearchForBlockHeadersParams_MaxRound := maxRound;
          models.SearchForBlockHeadersParams_BeforeTime := beforeTime;
          models.SearchForBlockHeadersParams_AfterTime := afterTime;
          models.SearchForBlockHeadersParams_Proposers := proposers;
          models.SearchForBlockHeadersParams_Expired := expired;
          models.SearchForBlockHeadersParams_Absent := absent |}) (λ params,
  answered (Handlers.SearchForBlockHeaders si rq params)).

Definition LookupBlock : Tx W Answer :=
  bound (
    roundNumber ← param P_uint64 "round-number";
    headerOnly ← query D_bool true false "header-only";
    Ok (roundNumber, {|
          models.LookupBlockParams_HeaderOnly := headerOnly |})) (λ '(roundNumber, params),
  answered (Handlers.LookupBlock si rq roundNumber params)).

Definition SearchForTransactions : Tx W Answer :=
  bound (
    limit ← query D_uint64 true false "limit";
    next ← query D_string true false "next";
    notePrefix ← query D_string true false "note-prefix";
    txType ← query D_string true false "tx-type";
    sigType ← query D_string true false "sig-type";
    groupId ← query D_string true false "group-id";
    txid ← query D_string true false "txid";
    round ← query D_uint64 true false "round";
    minRound ← query D_uint64 true false "min-round";
    maxRound ← query D_uint64 true false "max-round";
    assetId ← query D_uint64 true false "asset-id";
    beforeTime ← query D_time true false "before-time";
    afterTime ← query D_time true false "after-time";
    currencyGreaterThan ← query D_uint64 true false "currency-greater-than";
    currencyLessThan ← query D_uint64 true false "currency-less-than";
    address ← query D_string true false "address";
    addressRole ← query D_string true false "address-role";
    excludeCloseTo ← query D_bool true false "exclude-close-to";
    rekeyTo ← query D_bool true false "rekey-to";
    applicationId ← query D_uint64 true false "application-id";
    Ok {|
          models.SearchForTransactionsParams_Limit := limit;
          models.SearchForTransactionsParams_Next := next;
          models.SearchForTransactionsParams_NotePrefix := notePrefix;
          models.SearchForTransactionsParams_TxType := txType;
          models.SearchForTransactionsParams_SigType := sigType;
          models.SearchForTransactionsParams_GroupId := groupId;
          models.SearchForTransactionsParams_Txid := txid;
          models.SearchForTransactionsParams_Round := round;
          models.SearchForTransactionsParams_MinRound := minRound;
          models.SearchForTransactionsParams_MaxRound := maxRound;
          models.SearchForTransactionsParams_AssetId := assetId;
          models.SearchForTransactionsParams_BeforeTime := beforeTime;
          models.SearchForTransactionsParams_AfterTime := afterTime;
          models.SearchForTransactionsParams_CurrencyGreaterThan := currencyGreaterThan;
          models.SearchForTransactionsParams_CurrencyLessThan := currencyLessThan;
          models.SearchForTransactionsParams_Address := address;
          models.SearchForTransactionsParams_AddressRole := addressRole;
          models.SearchForTransactionsParams_ExcludeCloseTo := excludeCloseTo;
          models.SearchForTransactionsParams_RekeyTo := rekeyTo;
          models.SearchForTransactionsParams_ApplicationId := applicationId |}) (λ params,
  answered (Handlers.SearchForTransactions si rq params)).

Definition LookupTransaction : Tx W Answer :=
  bound (
    txid ← param P_string "txid";
    Ok txid) (λ txid,
  answered (Handlers.LookupTransaction si rq txid)).

End Wrapper.

(** [RegisterHandlers]: the routes, all of them for [GET]. *)
Definition routes {S} `{IndexerDb S} `{SdkOps} `{UnicodeOps} `{MapRange} `{ApiOps} `{Runtime}
    : list (string * (ServerImplementation -> Request -> (string -> string) -> Tx (World S) Answer)) :=
  [("/v2/accounts", λ si rq _, SearchForAccounts si rq);
   ("/v2/accounts/:account-id", LookupAccountByID);
   ("/v2/accounts/:account-id/apps-local-state", LookupAccountAppLocalStates);
   ("/v2/accounts/:account-id/assets", LookupAccountAssets);
   ("/v2/accounts/:account-id/created-applications", LookupAccountCreatedApplications);
   ("/v2/accounts/:account-id/created-assets", LookupAccountCreatedAssets);
   ("/v2/accounts/:account-id/transactions", LookupAccountTransactions);
   ("/v2/applications", λ si rq _, SearchForApplications si rq);
   ("/v2/applications/:application-id", LookupApplicationByID);
   ("/v2/applications/:application-id/box", LookupApplicationBoxByIDAndName);
   ("/v2/applications/:application-id/boxes", SearchForApplicationBoxes);
   ("/v2/applications/:application-id/logs", LookupApplicationLogsByID);
   ("/v2/assets", λ si rq _, SearchForAssets si rq);
   ("/v2/assets/:asset-id", LookupAssetByID);
   ("/v2/assets/:asset-id/balances", LookupAssetBalances);
   ("/v2/assets/:asset-id/transactions", LookupAssetTransactions);
   ("/v2/block-headers", λ si rq _, SearchForBlockHeaders si rq);
   ("/v2/blocks/:round-number", LookupBlock);
   ("/v2/transactions", λ si rq _, SearchForTransactions si rq);
   ("/v2/transactions/:txid", LookupTransaction)].
End ServerInterfaceWrapper.
