(* ===== verification/Server.v ===== *)
(** * The HTTP server: [api/server.go], [api/middlewares]

    The routes of [Routes] behind the middlewares of [Serve]: a request to [/v2] is served
    if the database is available and the client has a token; [/health], and [/metrics] if it is
    turned on, always are.  What [Serve] puts in front of every route (the collection of metrics,
    the log, CORS and compression, from other packages) is not part of the model. *)

From S2P Require Import Prelude GoStd Sdk Idb Models Util Encoding Db WriteTxn Postgres Rewind Migration Sql.
From S2P Require Import TxnQuery ResourceQuery AccountQuery.
From S2P Require Import Params Convert Disabled Interface Health Handlers Service Routes.

(** What the code reads of an [echo.Context]: the method, the headers, the parameters of the
    path, the path, and the request with its query. *)
Record HttpContext := {
  hc_method : string; hc_header : string -> string; hc_param : string -> string;
  hc_path : string; hc_request : Request }.

Definition StatusUnauthorized : Z := 401.
Definition MethodOptions : string := "OPTIONS".

(** [strings.SplitN(s, " ", 2)] *)
Fixpoint split_space (s : string) : string * option string :=
  match s with
  | EmptyString => (EmptyString, None)
  | String c s =>
      if bool_decide (String c "" = " ") then (EmptyString, Some s)
      else let '(head, rest) := split_space s in (String c head, rest)
  end.

(** [strings.EqualFold(s, t)]: no letter of the only [s] used has a folding outside ASCII. *)
Definition EqualFold (s t : string) : bool := bool_decide (strings_ToLower s = strings_ToLower t).

(** [strings.TrimPrefix] *)
Definition TrimPrefix (s prefix : string) : string :=
  if String.prefix prefix s
  then String.substring (String.length prefix) (String.length s - String.length prefix) s else s.

(** How echo wraps a handler into the middlewares of a route: the first one is called first; and
    the handler of [/metrics] that the package for Prometheus installs. *)
Class EchoOps (H : Type) := {
  apply_middleware : list (H -> H) -> H -> H; metrics_handler : H }.
Class EchoLaws (H : Type) `{EchoOps H} := {
  apply_middleware_nil h : apply_middleware [] h = h;
  apply_middleware_cons m l h : apply_middleware (m :: l) h = m (apply_middleware l h) }.

Definition DBUnavailableError : string := "Indexer DB is not available, try again later.".

Section Server.
Context {S : Type} `{IndexerDb S} `{SdkOps} `{UnicodeOps} `{MapRange} `{ApiOps} `{Runtime}.
Abbreviation W := (World S) (only parsing).

Definition Handler : Type := HttpContext -> Tx W Answer.

(** ** Middlewares *)

(** [MigrationMiddleware.handler] *)
Definition migration_handler (next : Handler) : Handler := λ ctx,
  health <-- attempt (on_db idb_Health);
  match health with
  | Err err => tx_ret (HTTPError StatusInternalServerError (ErrMsg "Indexer health error: %s"))
  | Ok h =>
      if negb (HL_DBAvailable h) then
        tx_ret (HTTPError StatusInternalServerError (ErrMsg DBUnavailableError))
      else next ctx
  end.

(** [authMiddleware.handler] *)
Definition bearer_token (ctx : HttpContext) : string :=
  match split_space (hc_header ctx "Authorization") with
  | (scheme, Some token) => if EqualFold "Bearer" scheme then token else ""
  | _ => ""
  end.
Definition header_token (header : string) (ctx : HttpContext) : string :=
  let provided := hc_header ctx header in
  if bool_decide (provided = "") then bearer_token ctx else provided.
(** The token, and the context with the token removed from the path of a debug route. *)
Definition provided_token (header : string) (ctx : HttpContext) : string * HttpContext :=
  let token := hc_param ctx "token" in
  if negb (bool_decide (token = "")) then
    (token, {| hc_method := hc_method ctx; hc_header := hc_header ctx; hc_param := hc_param ctx;
               hc_path := TrimPrefix (hc_path ctx) ("/urlAuth/" +:+ token);
               hc_request := hc_request ctx |})
  else (header_token header ctx, ctx).
Definition auth_handler (header : string) (tokens : list string) (next : Handler) : Handler := λ ctx,
  if bool_decide (hc_method ctx = MethodOptions) then next ctx
  else
    let '(token, ctx) := provided_token header ctx in
    if existsb (λ t, bool_decide (token = t)) tokens then next ctx
    else tx_ret (HTTPError StatusUnauthorized (ErrMsg "Invalid API Token")).

(** [MakePNA]: the header it sets. *)
Definition MakePNA (ctx : HttpContext) : list (string * string) :=
  if bool_decide (hc_method ctx = MethodOptions) &&
     bool_decide (hc_header ctx "Access-Control-Request-Private-Network" = "true")
  then [("Access-Control-Allow-Private-Network", "true")] else [].

(** The labels of the metrics for the path of a response with a status. *)
Definition PrometheusPathMapper404Sink (status : Z) (ctx : HttpContext) : string :=
  if status =? StatusNotFound then "" else hc_path ctx.
Definition PrometheusPathMapperVerbose (status : Z) (ctx : HttpContext) : string :=
  if bool_decide (PrometheusPathMapper404Sink status ctx = "") then ""
  else
    let keys := map fst (order_by (QueryParams (rq_params (hc_request ctx)))) in
    (foldl (λ '(path, sep) k, (path +:+ sep +:+ k, "&")) (hc_path ctx, "?") keys).1.

(** ** [Serve] *)

(** Durations are nanoseconds.  Below two seconds the product in [float64] truncates to a
    tenth of the duration exactly. *)
Definition handlerTimeout (e : ExtraOptions) : Z :=
  if 2000000000 <=? EO_WriteTimeout e then EO_WriteTimeout e - 1000000000
  else EO_WriteTimeout e - Z.quot (EO_WriteTimeout e) 10.

(** The middlewares of the [/v2] routes. *)
Definition v2_middleware (options : ExtraOptions) : list (Handler -> Handler) :=
  [migration_handler] ++
  match EO_Tokens options with
  | [] => []
  | tokens => [auth_handler "X-Indexer-API-Token" tokens]
  end.

(** The implementation of the handlers; an error ends the process. *)
Definition make_api (options : ExtraOptions) (swag : result Swagger)
    (config : option DisabledMapConfig) (dataErr : option (option error))
    : result ServerImplementation :=
  swag ← swag;
  disabledMap ← MakeDisabledMapFromOA3 swag config;
  Ok {| EnableAddressSearchRoundRewind := EO_DeveloperMode options; dataError := dataErr;
        si_timeout := handlerTimeout options; disabledParams := disabledMap; opts := options |}.

(** The route that [p.Use(e)] installs. *)
Definition metrics_routes `{EchoOps Handler} (options : ExtraOptions) : list (string * Handler) :=
  if EO_MetricsEndpoint options then [("/metrics", metrics_handler)] else [].

(** The routes of [p.Use(e)], [generated.RegisterHandlers] and [common.RegisterHandlers]: only
    the second have middlewares of their own. *)
Definition health_handler (si : ServerImplementation) : Handler := λ ctx,
  ServerInterfaceWrapper.answered (MakeHealthCheck si (hc_request ctx)).
Definition registered `{EchoOps Handler} (options : ExtraOptions) (si : ServerImplementation)
    : list (string * Handler) :=
  map (λ '(path, handler),
         (path, apply_middleware (v2_middleware options)
                  (λ ctx, handler si (hc_request ctx) (hc_param ctx))))
    ServerInterfaceWrapper.routes ++
  [("/health", health_handler si)] ++ metrics_routes options.
End Server.

Section Gate.
Context {S : Type} `{IndexerDb S} `{SdkOps} `{UnicodeOps} `{MapRange} `{ApiOps} `{Runtime}.
Context `{EchoOps (Handler (S := S))} `{!EchoLaws (Handler (S := S))}.

(** The client has a token, or needs none. *)
Definition authorised (options : ExtraOptions) (ctx : HttpContext) : bool :=
  bool_decide (EO_Tokens options = []) || bool_decide (hc_method ctx = MethodOptions) ||
  bool_decide ((provided_token "X-Indexer-API-Token" ctx).1 ∈ EO_Tokens options).

Lemma existsb_elem_of (token : string) tokens :
  existsb (λ t, bool_decide (token = t)) tokens = bool_decide (token ∈ tokens).
Proof.
  apply eq_bool_prop_intro. rewrite bool_decide_spec. split.
  - intros (t & Ht & Heq%bool_decide_unpack)%existb_True%Exists_exists. by subst.
  - intros Ht. apply existb_True, Exists_exists. exists token. split; [done|]. by apply bool_decide_pack.
Qed.

(** The middlewares in front of a handler that looks at the request and its parameters. *)
Lemma v2_middleware_gates options (inner : Request -> (string -> string) -> Tx (World S) Answer) ctx w fs :
  apply_middleware (v2_middleware options) (λ ctx, inner (hc_request ctx) (hc_param ctx)) ctx w fs =
  match on_db idb_Health w fs with
  | (Err (ErrPanic what), w, fs) => (Err (ErrPanic what), w, fs)
  | (Err _, w, fs) =>
      (Ok (HTTPError StatusInternalServerError (ErrMsg "Indexer health error: %s")), w, fs)
  | (Ok h, w, fs) =>
      if negb (HL_DBAvailable h) then
        (Ok (HTTPError StatusInternalServerError (ErrMsg DBUnavailableError)), w, fs)
      else if authorised options ctx then inner (hc_request ctx) (hc_param ctx) w fs
      else (Ok (HTTPError StatusUnauthorized (ErrMsg "Invalid API Token")), w, fs)
  end.
Proof.
  unfold v2_middleware, authorised. cbn [app]. rewrite apply_middleware_cons.
  unfold migration_handler, tx_bind, attempt.
  destruct (on_db idb_Health w fs) as [[[h|[]] w1] fs1]; try done.
  destruct (negb (HL_DBAvailable h)); [done|]. destruct (EO_Tokens options) as [|t tokens].
  - by rewrite apply_middleware_nil.
  - rewrite apply_middleware_cons, apply_middleware_nil. unfold auth_handler.
    rewrite (bool_decide_eq_false_2 (t :: tokens = [])) by done. cbn [orb].
    destruct (bool_decide (hc_method ctx = MethodOptions)); [done|]. cbn [orb].
    destruct (provided_token "X-Indexer-API-Token" ctx) as [token ctx'] eqn:Hp. cbn [fst].
    rewrite existsb_elem_of. case_bool_decide; [|done].
    unfold provided_token in Hp. destruct (negb _); by injection Hp as _ <-.
Qed.

(** The routes other than [/health] and [/metrics]. *)
Lemma registered_v2 options si path handler :
  (path, handler) ∈ registered options si -> path <> "/health" -> path <> "/metrics" ->
  exists inner, (path, inner) ∈ ServerInterfaceWrapper.routes (S := S) /\
    handler = apply_middleware (v2_middleware options)
                (λ ctx, inner si (hc_request ctx) (hc_param ctx)).
Proof.
  unfold registered. intros [Hr|[Hr|Hr]%elem_of_app]%elem_of_app Hh Hm.
  - apply list_elem_of_fmap_1 in Hr as ([p inner] & [= -> ->] & Hin). by exists inner.
  - by apply list_elem_of_singleton in Hr as [= -> _].
  - unfold metrics_routes in Hr. destruct (EO_MetricsEndpoint options); [|by apply elem_of_nil in Hr].
    by apply list_elem_of_singleton in Hr as [= -> _].
Qed.

(** C13. Every route that [Serve] registers is [/health], or [/metrics] if that endpoint is turned
    on, or one of [/v2], all of which are behind the same gate: the handler runs if the database is
    available and the client has one of the tokens (or none is configured, or the method is OPTIONS),
    and on the state that the check left; otherwise the answer is 500 or 401 and the handler is not
    called. *)
Theorem v2_requests_gated options si path handler :
  (path, handler) ∈ registered options si ->
  path = "/health" \/ path = "/metrics" /\ EO_MetricsEndpoint options = true \/
  exists inner, (path, inner) ∈ ServerInterfaceWrapper.routes (S := S) /\
  forall ctx w fs, handler ctx w fs =
  match on_db idb_Health w fs with
  | (Err (ErrPanic what), w, fs) => (Err (ErrPanic what), w, fs)
  | (Err _, w, fs) =>
      (Ok (HTTPError StatusInternalServerError (ErrMsg "Indexer health error: %s")), w, fs)
  | (Ok h, w, fs) =>
      if negb (HL_DBAvailable h) then
        (Ok (HTTPError StatusInternalServerError (ErrMsg DBUnavailableError)), w, fs)
      else if authorised options ctx then inner si (hc_request ctx) (hc_param ctx) w fs
      else (Ok (HTTPError StatusUnauthorized (ErrMsg "Invalid API Token")), w, fs)
  end.
Proof.
  intros Hr. destruct (decide (path = "/health")) as [Hh|Hh]; [by left|right].
  destruct (decide (path = "/metrics")) as [->|Hm].
  - left. split; [done|]. unfold registered, metrics_routes in Hr.
    destruct (EO_MetricsEndpoint options); [done|]. rewrite app_nil_r in Hr.
    apply elem_of_app in Hr as [Hr|Hr]; [|by apply list_elem_of_singleton in Hr].
    apply list_elem_of_fmap_1 in Hr as ([p inner] & [= <- _] & Hin).
    apply (list_elem_of_fmap_2 fst) in Hin. exfalso. revert Hin. cbn [fst].
    apply (bool_decide_unpack _). vm_compute. done.
  - right. destruct (registered_v2 options si path handler Hr Hh Hm) as (inner & Hin & ->).
    exists inner. split; [done|]. intros ctx w fs. apply (v2_middleware_gates options (inner si)).
Qed.
End Gate.

(** A request is always given a timeout that ends before the connection is closed, when the
    server has a write timeout of at least 10 nanoseconds. *)
Theorem handlerTimeout_before_write e :
  10 <= EO_WriteTimeout e -> 0 < handlerTimeout e < EO_WriteTimeout e.
Proof.
  intros Hw. unfold handlerTimeout. destruct (Z.leb_spec 2000000000 (EO_WriteTimeout e)); [lia|].
  rewrite Z.quot_div_nonneg by lia. pose proof (Z.div_mod (EO_WriteTimeout e) 10).
  pose proof (Z.mod_pos_bound (EO_WriteTimeout e) 10). lia.
Qed.

Section Migrating.
Context `{SdkOps} `{UnicodeOps} `{MapRange} `{MapOrder} `{PgOps} `{PgLike} `{PgAgg} `{AppOrder}.
Context `{Codec SpecialAddresses} `{Codec MigrationState} `{Codec ImportState} `{Codec blockHeader}.
Context `{Codec signedTxnWithAD} `{Codec TxnExtra} `{Codec baseAccountData}.
Context `{Codec assetParams} `{Codec appParams} `{Codec appLocalState}.
Context `{Codec (option (list assetParams))} `{Codec (option (list appParams))}
  `{Codec (option (list appLocalState))} `{Codec (list Z)} `{Codec (list bool)}
  `{Codec (list (option Z))} `{Codec (list (option bool))}.
Context `{ApiOps} `{Runtime} `{EchoOps (Handler (S := database))} `{!EchoLaws (Handler (S := database))}.
Context (pg_array : string -> string -> option (list string)) (readonly : bool).
Context (migration : option State).
#[local] Instance migrating : IndexerDb database := postgres pg_array readonly migration.

(** A blocking migration is left.  In the process that migrates the database: the runner has
    published the state [st] and not yet run one of the blocking tasks with success.  In a process
    without a runner, as the daemon is, which opens the database for reading only: the number in
    the stored state, if there is one that can be read, is not past every blocking migration. *)
Inductive unmigrated : option State -> tables -> Prop :=
| unmigrated_running {M} tasks (m : Migration M) w s w' trace pre post task st t :
    MakeMigration tasks = (Ok tt, m) -> runMigrations m w = (s, w', trace) ->
    st = m_state m /\ pre = [] \/ trace = pre ++ Publish st :: post ->
    task ∈ tasks -> DBUnavailable task = true -> Run (MigrationID task) (Ok tt) ∉ pre ->
    unmigrated (Some st) t
| unmigrated_stored t :
    (forall doc state, t_metastate t !! MigrationMetastateKey = Some doc ->
       DecodeMigrationState doc = Ok state ->
       exists i mig, Z.to_nat (NextMigration state) <= i /\ migrations !! i = Some mig /\
         blocking mig = true)%nat ->
    unmigrated None t.

Lemma unmigrated_unavailable t fs h t' fs' :
  unmigrated migration t -> Health.Health readonly migration t fs = (Ok h, t', fs') ->
  HL_DBAvailable h = false.
Proof.
  intros Hu Hh. apply not_true_is_false. intros Hav. destruct Hu as [|t Hdoc].
  - by eapply available_only_after in Hh.
  - unfold Health.Health in Hh. apply tx_bind_Ok in Hh as (state & t1 & fs1 & Hg & Hr).
    apply getMigrationState_Ok in Hg as (doc & Hl & Hd).
    apply health_round_available in Hr. rewrite Hav in Hr. symmetry in Hr.
    apply negb_true_iff in Hr. destruct (Hdoc doc state Hl Hd) as (i & mig & Hi & Hm & Hb).
    by rewrite (migrationStateBlocked_true state i mig) in Hr.
Qed.

(** C27. No request to a route of [/v2] is served while a blocking migration is left, be it in the
    process that runs the migrations or in a daemon that reads the database: the answer to the
    request is status 500, whatever the calls to the database return, unless one of them panics. *)
Theorem refused_until_migrated options si path handler ctx world fs :
  unmigrated migration (core (w_db world)) ->
  (path, handler) ∈ registered options si -> path <> "/health" -> path <> "/metrics" ->
  exists r world' fs', handler ctx world fs = (r, world', fs') /\
    match r with
    | Ok answer => exists msg, answer = HTTPError StatusInternalServerError msg
    | Err e => exists what, e = ErrPanic what
    end.
Proof.
  intros Hun Hreg Hpath Hmetrics. apply registered_v2 in Hreg as (inner & _ & ->); [|done|done].
  rewrite (v2_middleware_gates options (inner si)).
  destruct (on_db idb_Health world fs) as [[[h|e] world1] fs1] eqn:Hh.
  - destruct (HL_DBAvailable h) eqn:Hav; cbn [negb].
    2: { eexists _, _, _. split; [reflexivity|]. cbn. eauto. }
    exfalso. revert Hh. unfold on_db, migrating. cbn [idb_Health postgres]. unfold on_core.
    destruct (Health.Health readonly migration (core (w_db world)) fs) as [[r t'] fs'] eqn:Hhealth.
    intros [= -> _ _]. by rewrite (unmigrated_unavailable _ _ _ _ _ Hun Hhealth) in Hav.
  - destruct e; (eexists _, _, _; split; [reflexivity|]; cbn; eauto).
Qed.
End Migrating.

(** ** Concrete requests *)

Section Witnesses.
Import SampleService.

(** A runtime that finds no parameter, and the order in which echo calls middlewares. *)
#[local] Instance no_parameters : Runtime := {|
  BindQueryParameter T _ _ _ _ _ _ := Err (ErrMsg "no such parameter");
  BindStyledParameter T _ _ _ _ _ := Err (ErrMsg "no such parameter") |}.
#[local] Instance echo : EchoOps (Handler (S := database)) := {|
  apply_middleware l h := foldr (λ m next, m next) h l;
  metrics_handler := λ _, tx_ret (HTTPError 0 (ErrMsg "")) |}.
#[local] Instance echo_laws : EchoLaws (Handler (S := database)).
Proof. done. Qed.

Definition with_token : ExtraOptions := one_per_page ["secret"] 30000000000.
Definition request (authorization : string) : HttpContext := {|
  hc_method := "GET";
  hc_header name := if bool_decide (name = "Authorization") then authorization else "";
  hc_param _ := ""; hc_path := "/v2/accounts"; hc_request := rq |}.

Definition first_route (l : list (string * Handler (S := database))) : string * Handler (S := database) :=
  default ("", λ _, tx_ret (HTTPError 0 (ErrMsg ""))) (head l).

(** The database after its migrations. *)
Definition migrated : database := {|
  core := set_metastate (core d) (<[MigrationMetastateKey := document]> (t_metastate (core d)));
  txns := txns d |}.

Lemma first_registered `{IndexerDb database} :
  let x := first_route (registered with_token si) in (x.1, x.2) ∈ registered with_token si.
Proof. cbn. left. Qed.

(** A client with the token is let in, in any case of the word [Bearer]; one without is not. *)
Lemma v2_requests_gated_witness :
  authorised with_token (request "bearer secret") = true /\
  let x := first_route (registered with_token si) in
  x.1 = "/v2/accounts" /\
  x.2 (request "Bearer wrong") (Build_World migrated None) [] =
    (Ok (HTTPError StatusUnauthorized (ErrMsg "Invalid API Token")), Build_World migrated None, []).
Proof.
  split; [vm_compute; reflexivity|]. intros x. split; [reflexivity|].
  destruct (v2_requests_gated with_token si x.1 x.2) as [Hx|[[Hx _]|(inner & _ & ->)]].
  - apply first_registered.
  - discriminate Hx.
  - discriminate Hx.
  - vm_compute. reflexivity.
Defined.

Lemma handlerTimeout_before_write_witness : 0 < handlerTimeout with_token < 30000000000.
Proof. apply (handlerTimeout_before_write with_token). discriminate. Defined.

Definition blocking_task : Task unit := {|
  MigrationID := 1; Migration.Handler := λ w, (Err (ErrMsg "failed"), w); DBUnavailable := true;
  Description := "blocking" |}.
Definition blocked : Migration unit := (MakeMigration [blocking_task]).2.

End Witnesses.

Section Unmigrated.
Import SampleService.
#[local] Existing Instance no_parameters.
#[local] Existing Instance echo.
#[local] Existing Instance echo_laws.
(** The stored state of a database that has done the first three migrations. *)
#[local] Instance three_done : Codec MigrationState := one_document (with_next emptyMigrationState 3).

(** The runner before its first task, and a daemon that reads a database left with blocking
    migrations. *)
Lemma refused_until_migrated_witness :
  Forall (λ migration : option State, exists r world' fs',
    (first_route (registered (H := postgres no_array false migration) with_token si)).2
      (request "Bearer secret") (Build_World migrated None) [] = (r, world', fs') /\
    match r with
    | Ok answer => exists msg, answer = HTTPError StatusInternalServerError msg
    | Err e => exists what, e = ErrPanic what
    end) [Some (m_state blocked); None].
Proof.
  repeat constructor.
  - apply (refused_until_migrated no_array false (Some (m_state blocked)) with_token si "/v2/accounts").
    + destruct (runMigrations blocked tt) as [[s w'] trace] eqn:Hr.
      apply (unmigrated_running [blocking_task] blocked tt s w' trace [] [] blocking_task);
        [reflexivity|exact Hr|by left|left|reflexivity|apply not_elem_of_nil].
    + apply (first_registered (H := postgres no_array false (Some (m_state blocked)))).
    + discriminate.
    + discriminate.
  - apply (refused_until_migrated no_array false None with_token si "/v2/accounts").
    + apply unmigrated_stored. intros doc state Hl Hd.
      assert (state = with_next emptyMigrationState 3) as ->.
      { unfold DecodeMigrationState in Hd. cbn in Hd. case_bool_decide; [by injection Hd|done]. }
      exists 4%nat. eexists. split; [|by split]. vm_compute. lia.
    + apply (first_registered (H := postgres no_array false None)).
    + discriminate.
    + discriminate.
Defined.
End Unmigrated.
