(* ===== verification/Compare.v ===== *)
(** * The comparison of accounts: [cmd/validator/core]

    The validator asks a node and the indexer for the same account or box and compares
    the answers, either as structs ([struct_processor.go]) or as normalized JSON
    ([dynamic_processor.go]). *)

From Stdlib Require Import Ascii String SpecFloat Sorted.
From stdpp Require Import sorting.
From S2P Require Import Prelude GoStd Sdk Idb Models Encoding.

(** ** Results: [validator.go] *)

Abbreviation Skip := string (only parsing).
Definition NotSkipped : Skip := "".
Definition SkipLimitReached : Skip := "account-limit".
Definition SkipAccountNotFound : Skip := "missing-account".
Definition SkipBoxNotFound : Skip := "box-not-found".
Definition SkipBoxFailedLookup : Skip := "box-failed-lookup".
Definition SkipBoxWrongAppid : Skip := "box-wrong-appid".
Definition SkipBoxMultiple : Skip := "box-multiple-boxes".
Definition SkipBoxWrongBox : Skip := "box-wrong-box".

Record ErrorDetails := {
  E_Resource : string; E_Address : string; E_Appid : string; E_Boxname : string;
  E_Algod : string; E_Indexer : string; E_Diff : list string }.
Record Result := {
  R_Error : option error; R_SameRound : bool; R_SkipReason : Skip; R_Equal : bool;
  R_Retries : Z; R_Details : option ErrorDetails }.

(** [Result{Equal: true}] *)
Definition equal_result : Result := {|
  R_Error := None; R_SameRound := false; R_SkipReason := NotSkipped; R_Equal := true;
  R_Retries := 0; R_Details := None |}.

(** [Result{Equal: false, SameRound: ..., Details: &ErrorDetails{...}}] *)
Definition different (sameRound : bool) (resource algod indexer : string) (diff : list string)
    : Result := {|
  R_Error := None; R_SameRound := sameRound; R_SkipReason := NotSkipped; R_Equal := false;
  R_Retries := 0;
  R_Details := Some {| E_Resource := resource; E_Address := ""; E_Appid := ""; E_Boxname := "";
                       E_Algod := algod; E_Indexer := indexer; E_Diff := diff |} |}.

(** The interface [Processor]. *)
Record Processor := {
  ProcessAddress : string -> string -> result Result;
  ProcessBox : string -> string -> result Result }.

(** ** [struct_processor.go] *)

Module StructProcessor.

(** [bytes.Equal]: a nil slice equals an empty one. *)
Definition bytes_Equal (a b : option string) : bool := bool_decide (default "" a = default "" b).

(** What [stringPtrEqual] and its like have in common; the same pointer has the same value. *)
Definition ptrEqual {A} (eq : A -> A -> bool) (val1 val2 : option A) : bool :=
  match val1, val2 with
  | None, None => true
  | Some a, Some b => eq a b
  | _, _ => false
  end.
Definition uint64PtrEqual : option Z -> option Z -> bool := ptrEqual Z.eqb.
Definition stringPtrEqual : option string -> option string -> bool :=
  ptrEqual (λ a b, bool_decide (a = b)).
Definition boolPtrEqual : option bool -> option bool -> bool := ptrEqual Bool.eqb.
Definition bytesPtrEqual : option string -> option string -> bool :=
  ptrEqual (λ a b, bytes_Equal (Some a) (Some b)).
Definition stateSchemePtrEqual
    : option models.ApplicationStateSchema -> option models.ApplicationStateSchema -> bool :=
  ptrEqual (λ a b, bool_decide (a = b)).
Definition appSchemaComparePtrEqual (val1 val2 : option models.ApplicationStateSchema) : bool :=
  bool_decide (default models.zero_ApplicationStateSchema val1 =
               default models.zero_ApplicationStateSchema val2).

Definition keyValueLookupMap (kvstore : option (list models.TealKeyValue))
    : gmap string models.TealValue :=
  foldl (λ m kv, <[models.TealKeyValue_Key kv := models.TealKeyValue_Value kv]> m) ∅ (slice kvstore).

Definition tealKeyValueStoreEqual (val1 val2 : option (list models.TealKeyValue)) : bool :=
  let v1Map := keyValueLookupMap val1 in
  let v2Map := keyValueLookupMap val2 in
  if negb (size v1Map =? size v2Map)%nat then false
  else forallb (λ '(k, v1Val), bool_decide (v2Map !! k = Some v1Val)) (map_to_list v1Map).

(** The resources of the indexer by identifier, without the deleted ones. *)
Definition lookupMap {A} (id : A -> Z) (deleted : A -> option bool) (l : option (list A)) : gmap Z A :=
  foldl (λ m x, if default false (deleted x) then m else <[id x := x]> m) ∅ (slice l).
Definition assetLookupMap : option (list models.AssetHolding) -> gmap Z models.AssetHolding :=
  lookupMap models.AssetHolding_AssetId models.AssetHolding_Deleted.
Definition createdAssetLookupMap : option (list models.Asset) -> gmap Z models.Asset :=
  lookupMap models.Asset_Index models.Asset_Deleted.
Definition appLookupMap
    : option (list models.ApplicationLocalState) -> gmap Z models.ApplicationLocalState :=
  lookupMap models.ApplicationLocalState_Id models.ApplicationLocalState_Deleted.
Definition createdAppLookupMap : option (list models.Application) -> gmap Z models.Application :=
  lookupMap models.Application_Id models.Application_Deleted.

(** [if differ { differences = append(differences, what) }] *)
Definition diff_if (differ : bool) (what : string) : list string := if differ then [what] else [].
Definition diff_id (differ : bool) (what : string) (id : Z) : list string :=
  diff_if differ (what +:+ " " +:+ FormatUint id).

(** The part that [equals] repeats for each kind of resource: the counts, then each
    resource of the node against that of the indexer, a zero value if there is none. *)
Definition compare_resources {A} (what missing : string) (id : A -> Z) (zero : A)
    (fields : A -> A -> list string) (indexer : gmap Z A) (algod : option (list A)) : list string :=
  diff_if (negb (size indexer =? length (slice algod))%nat) what ++
  flat_map (λ x, let found := indexer !! id x in
    diff_id (bool_decide (found = None)) missing (id x) ++ fields x (default zero found))
    (slice algod).

Definition compare_asset (a i : models.AssetHolding) : list string :=
  let id := models.AssetHolding_AssetId a in
  diff_if (negb (models.AssetHolding_Amount a =? models.AssetHolding_Amount i))
    ("asset amount " +:+ FormatUint id +:+ ": " +:+ FormatUint (models.AssetHolding_Amount a) +:+
     " != " +:+ FormatUint (models.AssetHolding_Amount i)) ++
  diff_id (negb (Bool.eqb (models.AssetHolding_IsFrozen a) (models.AssetHolding_IsFrozen i)))
    "asset is-frozen" id.

Definition compare_created_asset (a i : models.Asset) : list string :=
  let id := models.Asset_Index a in
  let p := models.Asset_Params a in
  let q := models.Asset_Params i in
  diff_id (negb (stringPtrEqual (models.AssetParams_Freeze p) (models.AssetParams_Freeze q)))
    "created-asset freeze-addr" id ++
  diff_id (negb (stringPtrEqual (models.AssetParams_Clawback p) (models.AssetParams_Clawback q)))
    "created-asset clawback-addr" id ++
  diff_id (negb (stringPtrEqual (models.AssetParams_Manager p) (models.AssetParams_Manager q)))
    "created-asset manager-addr" id ++
  diff_id (negb (stringPtrEqual (models.AssetParams_Reserve p) (models.AssetParams_Reserve q)))
    "created-asset reserve-addr" id ++
  diff_id (negb (boolPtrEqual (models.AssetParams_DefaultFrozen p) (models.AssetParams_DefaultFrozen q)))
    "created-asset default-frozen" id ++
  diff_id (negb (bool_decide (models.AssetParams_Creator p = models.AssetParams_Creator q)))
    "created-asset creator-addr" id ++
  diff_id (negb (models.AssetParams_Decimals p =? models.AssetParams_Decimals q))
    "created-asset decimals" id ++
  diff_id (negb (models.AssetParams_Total p =? models.AssetParams_Total q))
    "created-asset total" id ++
  diff_id (negb (stringPtrEqual (models.AssetParams_Name p) (models.AssetParams_Name q)))
    "created-asset name" id ++
  diff_id (negb (stringPtrEqual (models.AssetParams_UnitName p) (models.AssetParams_UnitName q)))
    "created-asset unit-name" id ++
  diff_id (negb (stringPtrEqual (models.AssetParams_Url p) (models.AssetParams_Url q)))
    "created-asset url" id ++
  diff_id (negb (bytesPtrEqual (models.AssetParams_NameB64 p) (models.AssetParams_NameB64 q)))
    "created-asset name-b64" id ++
  diff_id (negb (bytesPtrEqual (models.AssetParams_UnitNameB64 p) (models.AssetParams_UnitNameB64 q)))
    "created-asset unit-name-b64" id ++
  diff_id (negb (bytesPtrEqual (models.AssetParams_UrlB64 p) (models.AssetParams_UrlB64 q)))
    "created-asset url-b64" id ++
  diff_id (negb (bytesPtrEqual (models.AssetParams_MetadataHash p) (models.AssetParams_MetadataHash q)))
    "created-asset metadata-hash" id.

Definition compare_local_state (a i : models.ApplicationLocalState) : list string :=
  let id := models.ApplicationLocalState_Id a in
  diff_id (negb (bool_decide (models.ApplicationLocalState_Schema a =
                              models.ApplicationLocalState_Schema i))) "app-local-state schema" id ++
  diff_id (negb (tealKeyValueStoreEqual (models.ApplicationLocalState_KeyValue a)
                   (models.ApplicationLocalState_KeyValue i))) "app-local-state key-values" id.

Definition compare_created_app (a i : models.Application) : list string :=
  let id := models.Application_Id a in
  let p := models.Application_Params a in
  let q := models.Application_Params i in
  diff_id (negb (stringPtrEqual (models.ApplicationParams_Creator p) (models.ApplicationParams_Creator q)))
    "created-app creator" id ++
  diff_id (negb (bytes_Equal (models.ApplicationParams_ApprovalProgram p)
                   (models.ApplicationParams_ApprovalProgram q)))
    "created-app approval-program" id ++
  diff_id (negb (bytes_Equal (models.ApplicationParams_ClearStateProgram p)
                   (models.ApplicationParams_ClearStateProgram q)))
    "created-app clear-state-program" id ++
  diff_id (negb (tealKeyValueStoreEqual (models.ApplicationParams_GlobalState p)
                   (models.ApplicationParams_GlobalState q)))
    "created-app global-state" id ++
  diff_id (negb (stateSchemePtrEqual (models.ApplicationParams_LocalStateSchema p)
                   (models.ApplicationParams_LocalStateSchema q)))
    "created-app local-state-schema" id ++
  diff_id (negb (stateSchemePtrEqual (models.ApplicationParams_GlobalStateSchema p)
                   (models.ApplicationParams_GlobalStateSchema q)))
    "created-app global-state-schema" id ++
  diff_id (negb (uint64PtrEqual (models.ApplicationParams_Version p) (models.ApplicationParams_Version q)))
    "created-app version" id ++
  diff_id (negb (uint64PtrEqual (models.ApplicationParams_ExtraProgramPages p)
                   (models.ApplicationParams_ExtraProgramPages q)))
    "created-app extra-pages" id.

(** [strings.ReplaceAll(s, " ", "")] *)
Fixpoint without_spaces (s : string) : string :=
  match s with
  | EmptyString => EmptyString
  | String c s => if bool_decide (c = " "%char) then without_spaces s else String c (without_spaces s)
  end.

(** The fields of the account itself. *)
Definition compare_fields (indexer algod : models.Account) : list string :=
  diff_if (negb (bool_decide (models.Account_Address algod = models.Account_Address indexer)))
    "account address" ++
  diff_if (negb (models.Account_Amount algod =? models.Account_Amount indexer))
    ("microalgo amount: " +:+ FormatUint (models.Account_Amount algod) +:+ " != " +:+
     FormatUint (models.Account_Amount indexer)) ++
  diff_if (negb (models.Account_AmountWithoutPendingRewards algod =?
                 models.Account_AmountWithoutPendingRewards indexer))
    "amount-without-pending-rewards" ++
  diff_if (negb (appSchemaComparePtrEqual (models.Account_AppsTotalSchema algod)
                   (models.Account_AppsTotalSchema indexer))) "apps-total-schema" ++
  diff_if (negb (uint64PtrEqual (models.Account_AppsTotalExtraPages algod)
                   (models.Account_AppsTotalExtraPages indexer))) "apps-total-extra-pages" ++
  diff_if (negb (stringPtrEqual (models.Account_AuthAddr algod) (models.Account_AuthAddr indexer)) &&
           negb (bool_decide (models.Account_AuthAddr indexer = Some (models.Account_Address indexer))))
    "auth-addr" ++
  diff_if (negb (models.Account_PendingRewards algod =? models.Account_PendingRewards indexer))
    "pending-rewards" ++
  diff_if (negb (models.Account_Rewards algod =? models.Account_Rewards indexer) &&
           negb (models.Account_Rewards algod =?
                 wrap64 (models.Account_Rewards indexer + models.Account_PendingRewards indexer)))
    "rewards (including adjusted)" ++
  diff_if (negb (bool_decide (without_spaces (models.Account_Status algod) =
                              models.Account_Status indexer))) "status".

Definition equals (indexer algod : models.Account) : list string :=
  if models.Account_Amount algod =? 0 then []
  else if default false (models.Account_Deleted indexer) && (models.Account_Amount algod =? 0) then []
  else
    compare_fields indexer algod ++
    compare_resources "assets" "missing asset" models.AssetHolding_AssetId models.zero_AssetHolding
      compare_asset (assetLookupMap (models.Account_Assets indexer)) (models.Account_Assets algod) ++
    compare_resources "created-assets" "missing created-asset" models.Asset_Index models.zero_Asset
      compare_created_asset (createdAssetLookupMap (models.Account_CreatedAssets indexer))
      (models.Account_CreatedAssets algod) ++
    compare_resources "apps-local-state" "missing app-local-state" models.ApplicationLocalState_Id
      models.zero_ApplicationLocalState compare_local_state
      (appLookupMap (models.Account_AppsLocalState indexer)) (models.Account_AppsLocalState algod) ++
    compare_resources "created-apps" "missing created-app" models.Application_Id
      models.zero_Application compare_created_app
      (createdAppLookupMap (models.Account_CreatedApps indexer)) (models.Account_CreatedApps algod).

Section Process.
Context `{Codec models.AccountResponse} `{Codec models.Account} `{Codec models.Box}.

Definition ProcessAddress (algodData indexerData : string) : result Result :=
  match DecodeJSON (T := models.AccountResponse) indexerData with
  | Err _ => Err (ErrMsg "unable to parse indexer data ('%s'): %v")
  | Ok indexerResponse =>
      let indexerAcct := models.AccountResponse_Account indexerResponse in
      match DecodeJSON (T := models.Account) algodData with
      | Err _ => Err (ErrMsg "unable to parse algod data ('%s'): %v")
      | Ok algodAcct =>
          let differences := equals indexerAcct algodAcct in
          if bool_decide (differences = []) then Ok equal_result
          else Ok (different (models.Account_Round indexerAcct =? models.Account_Round algodAcct)
                     "address" (encodeJSON algodAcct) (encodeJSON indexerAcct) differences)
      end
  end.

Definition ProcessBox (algodData indexerData : string) : result Result :=
  match DecodeJSON (T := models.Box) indexerData with
  | Err _ => Err (ErrMsg "unable to parse indexer data ('%s'): %v")
  | Ok indexerResponse =>
      match DecodeJSON (T := models.Box) algodData with
      | Err _ => Err (ErrMsg "unable to parse algod data ('%s'): %v")
      | Ok algodResponse =>
          if bytes_Equal (models.Box_Value algodResponse) (models.Box_Value indexerResponse)
          then Ok equal_result
          else Ok (different (models.Box_Round indexerResponse =? models.Box_Round algodResponse)
                     "box" (encodeJSON algodResponse) (encodeJSON indexerResponse) ["values"])
      end
  end.

Definition processor : Processor :=
  {| Compare.ProcessAddress := ProcessAddress; Compare.ProcessBox := ProcessBox |}.
End Process.

(** *** What the comparison means *)

(** The resources of the node: by identifier. *)
Definition by_id {A} (id : A -> Z) (l : list A) : gmap Z A := list_to_map (map (λ x, (id x, x)) l).

(** The resources of the indexer that are not deleted. *)
Definition live {A} (deleted : A -> option bool) (l : option (list A)) : list A :=
  filter (λ x, deleted x <> Some true) (slice l).

(** The same identifiers, and agreement on each. *)
Definition agree_on {A} (agree : A -> A -> Prop) (algod indexer : gmap Z A) : Prop :=
  map_Forall2 (λ _, agree) algod indexer.

Definition same_asset (a i : models.AssetHolding) : Prop :=
  models.AssetHolding_Amount a = models.AssetHolding_Amount i /\
  models.AssetHolding_IsFrozen a = models.AssetHolding_IsFrozen i.

(** All parameters. *)
Definition same_created_asset (a i : models.Asset) : Prop :=
  models.Asset_Params a = models.Asset_Params i.

(** The last value of each key. *)
Definition store (kvs : option (list models.TealKeyValue)) : gmap string models.TealValue :=
  list_to_map (reverse (map (λ kv, (models.TealKeyValue_Key kv, models.TealKeyValue_Value kv)) (slice kvs))).
Definition same_store (a i : option (list models.TealKeyValue)) : Prop := store a = store i.
Definition same_local_state (a i : models.ApplicationLocalState) : Prop :=
  models.ApplicationLocalState_Schema a = models.ApplicationLocalState_Schema i /\
  same_store (models.ApplicationLocalState_KeyValue a) (models.ApplicationLocalState_KeyValue i).

Definition same_created_app (a i : models.Application) : Prop :=
  let p := models.Application_Params a in
  let q := models.Application_Params i in
  models.ApplicationParams_Creator p = models.ApplicationParams_Creator q /\
  default "" (models.ApplicationParams_ApprovalProgram p) =
    default "" (models.ApplicationParams_ApprovalProgram q) /\
  default "" (models.ApplicationParams_ClearStateProgram p) =
    default "" (models.ApplicationParams_ClearStateProgram q) /\
  same_store (models.ApplicationParams_GlobalState p) (models.ApplicationParams_GlobalState q) /\
  models.ApplicationParams_LocalStateSchema p = models.ApplicationParams_LocalStateSchema q /\
  models.ApplicationParams_GlobalStateSchema p = models.ApplicationParams_GlobalStateSchema q /\
  models.ApplicationParams_Version p = models.ApplicationParams_Version q /\
  models.ApplicationParams_ExtraProgramPages p = models.ApplicationParams_ExtraProgramPages q.

(** Rekeyed to the same address, or the indexer names the account itself. *)
Definition same_auth (indexer algod : models.Account) : Prop :=
  models.Account_AuthAddr algod = models.Account_AuthAddr indexer \/
  models.Account_AuthAddr indexer = Some (models.Account_Address indexer).

Definition same_fields (indexer algod : models.Account) : Prop :=
  models.Account_Address algod = models.Account_Address indexer /\
  models.Account_Amount algod = models.Account_Amount indexer /\
  models.Account_AmountWithoutPendingRewards algod =
    models.Account_AmountWithoutPendingRewards indexer /\
  default models.zero_ApplicationStateSchema (models.Account_AppsTotalSchema algod) =
    default models.zero_ApplicationStateSchema (models.Account_AppsTotalSchema indexer) /\
  models.Account_AppsTotalExtraPages algod = models.Account_AppsTotalExtraPages indexer /\
  same_auth indexer algod /\
  models.Account_PendingRewards algod = models.Account_PendingRewards indexer /\
  (models.Account_Rewards algod = models.Account_Rewards indexer \/
   models.Account_Rewards algod =
     wrap64 (models.Account_Rewards indexer + models.Account_PendingRewards indexer)) /\
  without_spaces (models.Account_Status algod) = models.Account_Status indexer.

Definition same_account (indexer algod : models.Account) : Prop :=
  same_fields indexer algod /\
  agree_on same_asset (by_id models.AssetHolding_AssetId (slice (models.Account_Assets algod)))
    (by_id models.AssetHolding_AssetId
       (live models.AssetHolding_Deleted (models.Account_Assets indexer))) /\
  agree_on same_created_asset (by_id models.Asset_Index (slice (models.Account_CreatedAssets algod)))
    (by_id models.Asset_Index (live models.Asset_Deleted (models.Account_CreatedAssets indexer))) /\
  agree_on same_local_state
    (by_id models.ApplicationLocalState_Id (slice (models.Account_AppsLocalState algod)))
    (by_id models.ApplicationLocalState_Id
       (live models.ApplicationLocalState_Deleted (models.Account_AppsLocalState indexer))) /\
  agree_on same_created_app (by_id models.Application_Id (slice (models.Account_CreatedApps algod)))
    (by_id models.Application_Id (live models.Application_Deleted (models.Account_CreatedApps indexer))).

(** No resource is listed twice, apart from deleted ones. *)
Definition once {A} (id : A -> Z) (deleted : A -> option bool) (indexer algod : option (list A)) : Prop :=
  NoDup (map id (slice algod)) /\ NoDup (map id (live deleted indexer)).
Definition listed_once (indexer algod : models.Account) : Prop :=
  once models.AssetHolding_AssetId models.AssetHolding_Deleted
    (models.Account_Assets indexer) (models.Account_Assets algod) /\
  once models.Asset_Index models.Asset_Deleted
    (models.Account_CreatedAssets indexer) (models.Account_CreatedAssets algod) /\
  once models.ApplicationLocalState_Id models.ApplicationLocalState_Deleted
    (models.Account_AppsLocalState indexer) (models.Account_AppsLocalState algod) /\
  once models.Application_Id models.Application_Deleted
    (models.Account_CreatedApps indexer) (models.Account_CreatedApps algod).

Lemma diff_if_nil b what : diff_if b what = [] <-> b = false.
Proof. by destruct b. Qed.
Lemma diff_id_nil b what id : diff_id b what id = [] <-> b = false.
Proof. apply diff_if_nil. Qed.
Lemma negb_decide (P : Prop) `{Decision P} : negb (bool_decide P) = false <-> P.
Proof. rewrite negb_false_iff. apply bool_decide_eq_true. Qed.
Lemma negb_eqb x y : negb (x =? y) = false <-> x = y.
Proof. rewrite negb_false_iff. apply Z.eqb_eq. Qed.
Lemma ptrEqual_eq {A} (eq : A -> A -> bool) a b :
  (forall x y, eq x y = true <-> x = y) -> negb (ptrEqual eq a b) = false <-> a = b.
Proof.
  intros Heq. rewrite negb_false_iff.
  destruct a as [a|], b as [b|]; cbn [ptrEqual]; rewrite ?Heq; naive_solver.
Qed.
Lemma uint64PtrEqual_eq a b : negb (uint64PtrEqual a b) = false <-> a = b.
Proof. apply ptrEqual_eq. apply Z.eqb_eq. Qed.
Lemma stringPtrEqual_eq a b : negb (stringPtrEqual a b) = false <-> a = b.
Proof. apply ptrEqual_eq. intros. apply bool_decide_eq_true. Qed.
Lemma boolPtrEqual_eq a b : negb (boolPtrEqual a b) = false <-> a = b.
Proof. apply ptrEqual_eq. apply Bool.eqb_true_iff. Qed.
Lemma bytesPtrEqual_eq a b : negb (bytesPtrEqual a b) = false <-> a = b.
Proof. apply ptrEqual_eq. intros. apply bool_decide_eq_true. Qed.
Lemma stateSchemePtrEqual_eq a b : negb (stateSchemePtrEqual a b) = false <-> a = b.
Proof. apply ptrEqual_eq. intros. apply bool_decide_eq_true. Qed.
Lemma bytes_Equal_eq a b : negb (bytes_Equal a b) = false <-> default "" a = default "" b.
Proof. apply negb_decide. Qed.

Lemma keyValueLookupMap_store kvs : keyValueLookupMap kvs = store kvs.
Proof.
  unfold keyValueLookupMap, store. induction (slice kvs) as [|kv l IH] using rev_ind; [done|].
  rewrite foldl_snoc, map_app, reverse_app. cbn. by rewrite IH.
Qed.

(** Two stores are equal as maps: the same size, and every entry of the first is in the
    second. *)
Lemma tealKeyValueStoreEqual_eq a b : negb (tealKeyValueStoreEqual a b) = false <-> same_store a b.
Proof.
  unfold tealKeyValueStoreEqual, same_store. rewrite <- !keyValueLookupMap_store, negb_false_iff.
  destruct (Nat.eqb_spec (size (keyValueLookupMap a)) (size (keyValueLookupMap b))) as [Hs|Hs];
    cbn [negb]; [|split; [done|congruence]].
  rewrite forallb_forall. split.
  - intros Hf. apply map_subseteq_size_eq; [|lia]. apply map_subseteq_spec. intros k v Hk.
    apply elem_of_map_to_list, list_elem_of_In, Hf in Hk. by apply bool_decide_eq_true in Hk.
  - intros -> [k v] Hin. apply list_elem_of_In, elem_of_map_to_list in Hin.
    by apply bool_decide_eq_true.
Qed.

Lemma by_id_lookup {A} (id : A -> Z) l k x :
  NoDup (map id l) -> by_id id l !! k = Some x <-> x ∈ l /\ id x = k.
Proof.
  intros Hnd. unfold by_id. rewrite <- elem_of_list_to_map.
  - rewrite list_elem_of_fmap. naive_solver.
  - by rewrite <- list_fmap_compose.
Qed.

Lemma by_id_size {A} (id : A -> Z) l : NoDup (map id l) -> size (by_id id l) = length l.
Proof.
  intros Hnd. unfold by_id. rewrite map_size_list_to_map, length_fmap; [done|].
  by rewrite <- list_fmap_compose.
Qed.

Lemma flat_map_nil {A B} (f : A -> list B) l : flat_map f l = [] <-> forall x, x ∈ l -> f x = [].
Proof.
  induction l as [|x l IH]; cbn [flat_map].
  - split; [|done]. intros _ x Hx. by apply not_elem_of_nil in Hx.
  - rewrite app_nil, IH. split.
    + intros [Hx Hl] y Hy. apply elem_of_cons in Hy as [->|Hy]; auto.
    + intros Hf. split; [apply Hf; by left|]. intros y Hy. apply Hf. by right.
Qed.

Lemma agree_on_dom {A} (agree : A -> A -> Prop) (m1 m2 : gmap Z A) :
  agree_on agree m1 m2 -> dom m1 = dom m2.
Proof.
  intros Hm. apply set_eq. intros k. rewrite !elem_of_dom. specialize (Hm k).
  destruct Hm; naive_solver.
Qed.

Lemma agree_on_size {A} (agree : A -> A -> Prop) (m1 m2 : gmap Z A) :
  agree_on agree m1 m2 <->
  size m2 = size m1 /\ forall k x, m1 !! k = Some x -> exists y, m2 !! k = Some y /\ agree x y.
Proof.
  split.
  - intros Hm. split.
    + rewrite <- !(size_dom (D := gset Z)). by rewrite (agree_on_dom _ _ _ Hm).
    + intros k x Hx. specialize (Hm k). rewrite Hx in Hm. inversion Hm; subst. eauto.
  - intros [Hs Hin] k. destruct (m1 !! k) as [x|] eqn:Hx.
    + destruct (Hin _ _ Hx) as (y & -> & Hy). by constructor.
    + destruct (m2 !! k) as [y|] eqn:Hy; [|constructor]. exfalso.
      assert (dom m1 ⊂ dom m2) as Hlt%dom_subset_size; [|lia].
      split.
      * intros i (x & Hi)%elem_of_dom. destruct (Hin _ _ Hi) as (z & Hz & _).
        apply elem_of_dom. eauto.
      * intros Hsub. apply elem_of_dom_2 in Hy. apply Hsub, elem_of_dom in Hy as [? ?]. congruence.
Qed.

Lemma lookupMap_live {A} (id : A -> Z) (deleted : A -> option bool) l :
  NoDup (map id (live deleted l)) -> lookupMap id deleted l = by_id id (live deleted l).
Proof.
  unfold lookupMap, live. intros Hnd.
  enough (forall m, foldl (λ m x, if default false (deleted x) then m else <[id x := x]> m) m (slice l) =
    by_id id (filter (λ x, deleted x <> Some true) (slice l)) ∪ m) as He.
  { by rewrite He, (right_id_L ∅ (∪)). }
  revert Hnd. induction (slice l) as [|x l' IH]; intros Hnd m.
  { cbn. by rewrite (left_id_L ∅ (∪) m). }
  cbn [foldl]. rewrite filter_cons in Hnd |- *. destruct (decide (deleted x <> Some true)) as [Hd|Hd].
  - cbn in Hnd. apply NoDup_cons in Hnd as [Hx Hnd]. rewrite IH by done.
    replace (default false (deleted x)) with false by (by destruct (deleted x) as [[]|]).
    change (by_id id (x :: filter (λ x, deleted x <> Some true) l')) with
      (<[id x := x]> (by_id id (filter (λ x, deleted x <> Some true) l'))).
    rewrite <- insert_union_l, insert_union_r; [done|].
    apply not_elem_of_list_to_map_1. by rewrite <- list_fmap_compose.
  - rewrite IH by done. apply dec_stable in Hd. by rewrite Hd.
Qed.

Lemma compare_resources_nil {A} what missing (id : A -> Z) deleted zero fields agree indexer algod :
  (forall a i, fields a i = [] <-> agree a i) -> once id deleted indexer algod ->
  compare_resources what missing id zero fields (lookupMap id deleted indexer) algod = [] <->
  agree_on agree (by_id id (slice algod)) (by_id id (live deleted indexer)).
Proof.
  intros Hf [Hnd Hlive]. rewrite lookupMap_live by done.
  generalize (by_id id (live deleted indexer)). clear Hlive indexer. intros indexer.
  unfold compare_resources.
  rewrite app_nil, diff_if_nil, negb_false_iff, Nat.eqb_eq, flat_map_nil, agree_on_size.
  rewrite by_id_size by done. apply and_iff_compat_l. split.
  - intros Hall k x (Hx & <-)%by_id_lookup; [|done]. specialize (Hall x Hx). cbn in Hall.
    rewrite app_nil, diff_id_nil, bool_decide_eq_false, Hf in Hall. destruct Hall as [Hn Ha].
    destruct (indexer !! id x) as [y|]; [eauto|done].
  - intros Hall x Hx. destruct (Hall (id x) x) as (y & -> & Hy); [by apply by_id_lookup|].
    cbn. by apply Hf.
Qed.

Ltac diffs := rewrite ?app_nil, ?diff_if_nil, ?diff_id_nil, ?negb_decide, ?negb_eqb,
  ?uint64PtrEqual_eq, ?stringPtrEqual_eq, ?boolPtrEqual_eq, ?bytesPtrEqual_eq,
  ?stateSchemePtrEqual_eq, ?bytes_Equal_eq, ?tealKeyValueStoreEqual_eq.

Lemma compare_asset_nil a i : compare_asset a i = [] <-> same_asset a i.
Proof. unfold compare_asset, same_asset. diffs. by rewrite negb_false_iff, Bool.eqb_true_iff. Qed.
Lemma compare_created_asset_nil a i : compare_created_asset a i = [] <-> same_created_asset a i.
Proof.
  unfold compare_created_asset, same_created_asset. diffs.
  destruct (models.Asset_Params a), (models.Asset_Params i); cbn. split.
  - intros Hall. destruct_and! Hall. by subst.
  - intros [=]. by repeat split.
Qed.
Lemma compare_local_state_nil a i : compare_local_state a i = [] <-> same_local_state a i.
Proof. unfold compare_local_state, same_local_state. by diffs. Qed.
Lemma compare_created_app_nil a i : compare_created_app a i = [] <-> same_created_app a i.
Proof. unfold compare_created_app, same_created_app. by diffs. Qed.
Lemma compare_fields_nil indexer algod : compare_fields indexer algod = [] <-> same_fields indexer algod.
Proof.
  unfold compare_fields, same_fields, same_auth, appSchemaComparePtrEqual. diffs.
  rewrite !andb_false_iff. diffs. tauto.
Qed.

Lemma equals_nil indexer algod : listed_once indexer algod ->
  equals indexer algod = [] <-> models.Account_Amount algod = 0 \/ same_account indexer algod.
Proof.
  intros (H1 & H2 & H3 & H4). unfold equals, same_account.
  destruct (Z.eqb_spec (models.Account_Amount algod) 0) as [He|He]; [tauto|].
  rewrite andb_false_r, !app_nil, compare_fields_nil.
  rewrite (compare_resources_nil _ _ _ _ _ _ _ _ _ compare_asset_nil H1).
  rewrite (compare_resources_nil _ _ _ _ _ _ _ _ _ compare_created_asset_nil H2).
  rewrite (compare_resources_nil _ _ _ _ _ _ _ _ _ compare_local_state_nil H3).
  rewrite (compare_resources_nil _ _ _ _ _ _ _ _ _ compare_created_app_nil H4). tauto.
Qed.

(** C14. The comparison of structs is exact: it reports no difference exactly if the node has no
    balance for the account, or both have the same fields and the same live resources, each
    with the same contents, whatever their order. *)
Theorem equals_exact indexer algod : listed_once indexer algod ->
  equals indexer algod = [] <-> models.Account_Amount algod = 0 \/ same_account indexer algod.
Proof. apply equals_nil. Qed.
End StructProcessor.

(** ** [dynamic_processor.go] *)

Module DynamicProcessor.

(** A value of type [interface{}] as the code handles it.  [json.Unmarshal] makes numbers
    [float64]; it never makes an [int].  A map is the list of its entries in the order in
    which a loop visits them. *)
Inductive value :=
| V_nil
| V_bool (b : bool)
| V_int (n : Z)
| V_float64 (f : spec_float)
| V_string (s : string)
| V_slice (l : list value)
| V_map (m : list (string * value)).

Abbreviation object := (list (string * value)) (only parsing).

(** [m[key]] *)
Fixpoint get (key : string) (m : object) : option value :=
  match m with
  | [] => None
  | (k, v) :: m => if bool_decide (k = key) then Some v else get key m
  end.

(** [reflect.DeepEqual] of such values. *)
Fixpoint DeepEqual (a b : value) : bool :=
  match a, b with
  | V_nil, V_nil => true
  | V_bool a, V_bool b => Bool.eqb a b
  | V_int a, V_int b => a =? b
  | V_float64 a, V_float64 b => SFeqb a b
  | V_string a, V_string b => bool_decide (a = b)
  | V_slice a, V_slice b =>
      (length a =? length b)%nat &&
      (fix all (a b : list value) : bool :=
         match a, b with
         | x :: a, y :: b => DeepEqual x y && all a b
         | _, _ => true
         end) a b
  | V_map a, V_map b =>
      (length a =? length b)%nat &&
      (fix all (a : object) : bool :=
         match a with
         | [] => true
         | (k, x) :: a =>
             match get k b with Some y => DeepEqual x y | None => false end && all a
         end) a
  | _, _ => false
  end.

Definition isDeleted (val : value) : result bool :=
  match val with
  | V_bool b => Ok b
  | _ => Err (ErrMsg "unable to parse value as boolean (%v)")
  end.

Definition isEmpty (val : value) : bool :=
  match val with
  | V_nil => true
  | V_int i => i =? 0
  | V_float64 f => SFeqb f (S754_zero false)
  | V_string s => bool_decide (s = "")
  | V_bool _ => false
  | V_map m => bool_decide (length m = 0%nat)
  | V_slice l => bool_decide (length l = 0%nat)
  end.

(** [v.(map[string]interface{})[key].(float64)] *)
Definition float_at (key : string) (v : value) : result spec_float :=
  match v with
  | V_map m =>
      match get key m with
      | Some (V_float64 f) => Ok f
      | _ => Err (ErrPanic "interface conversion")
      end
  | _ => Err (ErrPanic "interface conversion")
  end.

(** [sort.Slice] by a number; keys are distinct in the answers compared. *)
Fixpoint insert_by (x : spec_float * value) (l : list (spec_float * value)) : list (spec_float * value) :=
  match l with
  | [] => [x]
  | y :: l => if SFltb x.1 y.1 then x :: y :: l else y :: insert_by x l
  end.

(** Nothing is compared in a slice of fewer than two elements. *)
Definition sortHelper (arr : list value) (key : string) : result (list value) :=
  match arr with
  | [] | [_] => Ok arr
  | _ =>
      keys ← map_result (float_at key) arr;
      Ok (map snd (fold_left (λ l x, insert_by x l) (zip keys arr) []))
  end.

Definition sorted_by (key : string) (arr : list value) : result (list value) :=
  if bool_decide (key = "created-assets") then sortHelper arr "index"
  else if bool_decide (key = "assets") then sortHelper arr "asset-id"
  else if bool_decide (key = "created-apps") then sortHelper arr "id"
  else if bool_decide (key = "apps-local-state") then sortHelper arr "id"
  else Ok arr.

(** The keys that are deleted from every object. *)
Definition ignored : list string :=
  ["deleted"; "created-at-round"; "deleted-at-round"; "destroyed-at-round"; "optin-at-round";
   "opted-in-at-round"; "opted-out-at-round"; "closeout-at-round"; "closed-out-at-round";
   "close-out-at-round"; "creator"; "sig-type"; "round"; "reward-base"; "apps-total-schema"].

(** [if empty { return nil, err }; return result, err] *)
Definition cull (v : value) : value := if isEmpty v then V_nil else v.

(** The value returned and [data] afterwards: an object is changed in place. *)
Fixpoint normalizeRecurse (key : string) (data : value) : result (value * value) :=
  match data with
  | V_map obj =>
      deleted ← match get "deleted" obj with Some v => isDeleted v | None => Ok false end;
      if deleted : bool then Ok (V_nil, data)
      else
        obj' ← (fix entries (m : object) : result object :=
                  match m with
                  | [] => Ok []
                  | (k, v) :: m =>
                      if bool_decide (k ∈ ignored) then entries m
                      else
                        '(n, _) ← normalizeRecurse k v;
                        rest ← entries m;
                        Ok (match n with V_nil => rest | _ => (k, n) :: rest end)
                  end) obj;
        Ok (cull (V_map obj'), V_map obj')
  | V_slice arr =>
      elems ← (fix elements (l : list value) : result (list value * list value) :=
                 match l with
                 | [] => Ok ([], [])
                 | v :: l =>
                     '(n, v') ← normalizeRecurse "" v;
                     '(ns, vs) ← elements l;
                     Ok (match n with V_nil => ns | _ => n :: ns end, v' :: vs)
                 end) arr;
      arr' ← sorted_by key elems.1;
      Ok (cull (V_slice arr'), V_slice elems.2)
  | _ => Ok (cull data, data)
  end.

(** [val == 0]: the constant is an [int]. *)
Definition is_int_zero (val : value) : bool := match val with V_int n => n =? 0 | _ => false end.

(** [m[key]] changed in place *)
Definition put (key : string) (v : value) (m : object) : object :=
  map (λ '(k, x), (k, if bool_decide (k = key) then v else x)) m.

(** The normalized account and [data] afterwards. *)
Definition normalize (data : object) : result (value * object) :=
  account ← match get "account" data with
            | Some (V_map m) => Ok (m, true)
            | Some _ => Err (ErrPanic "interface conversion")
            | None => Ok (data, false)
            end;
  if match get "amount" account.1 with None => true | Some val => is_int_zero val end
  then Ok (V_nil, data)
  else
    '(n, after) ← normalizeRecurse "" (V_map account.1);
    Ok (n, if account.2 : bool then put "account" after data
           else match after with V_map m => m | _ => data end).

Section Process.
(** The decoder of a [map[string]interface{}]: [null] leaves the map nil. *)
Context `{Codec (option (list (string * value)))} `{Codec value}.

Abbreviation decode := (DecodeJSON (T := option (list (string * value)))) (only parsing).
Definition mustEncode (v : value) : string := encodeJSON v.

(** [reflect.DeepEqual] of two maps: a nil map differs from an empty one. *)
Definition map_DeepEqual (a b : option object) : bool :=
  match a, b with
  | None, None => true
  | Some a, Some b => DeepEqual (V_map a) (V_map b)
  | _, _ => false
  end.

Definition encode_map (m : option object) : string :=
  mustEncode (match m with Some m => V_map m | None => V_nil end).

Definition ProcessBox (algodData indexerData : string) : result Result :=
  match decode indexerData with
  | Err _ => Err (ErrMsg "unable to parse indexer data ('%s'): %v")
  | Ok indexerBox =>
      match decode algodData with
      | Err _ => Err (ErrMsg "unable to parse algod data ('%s'): %v")
      | Ok algodBox =>
          if map_DeepEqual indexerBox algodBox then Ok equal_result
          else Ok (different false "box" ("RawJson" +:+ nl 0 +:+ encode_map algodBox +:+ nl 0)
                     ("RawJson" +:+ nl 0 +:+ encode_map indexerBox +:+ nl 0) [])
      end
  end.

(** The two parts of the report; the first is printed after the account was changed. *)
Definition report (acct : option object) (norm : value) : string :=
  "RawJson" +:+ nl 0 +:+ encode_map acct +:+ nl 0 +:+
  "NormalizedJson" +:+ nl 0 +:+ mustEncode norm +:+ nl 0.

(** A failure to normalize is reported, a panic is not caught. *)
Definition normalized (who : string) (acct : option object) : result (value * option object) :=
  match normalize (slice acct) with
  | Err (ErrPanic what) => Err (ErrPanic what)
  | Err _ => Err (ErrMsg ("failed to normalize " +:+ who +:+ ": %v"))
  | Ok (norm, after) => Ok (norm, match acct with Some _ => Some after | None => None end)
  end.

Definition ProcessAddress (algodData indexerData : string) : result Result :=
  match decode indexerData with
  | Err _ => Err (ErrMsg "unable to parse indexer data ('%s'): %v")
  | Ok indexerAcct =>
      match decode algodData with
      | Err _ => Err (ErrMsg "unable to parse algod data ('%s'): %v")
      | Ok algodAcct =>
          '(indexerNorm, indexerAcct) ← normalized "indexer" indexerAcct;
          '(algodNorm, algodAcct) ← normalized "algod" algodAcct;
          if DeepEqual indexerNorm algodNorm then Ok equal_result
          else Ok (different false "address" (report algodAcct algodNorm)
                     (report indexerAcct indexerNorm) [])
      end
  end.

Definition processor : Processor :=
  {| Compare.ProcessAddress := ProcessAddress; Compare.ProcessBox := ProcessBox |}.
End Process.

(** *** Normal forms *)

(** Nothing empty, nothing ignored, at any depth. *)
Fixpoint normal (v : value) : bool :=
  negb (isEmpty v) &&
  match v with
  | V_slice l => forallb normal l
  | V_map m => forallb (λ '(k, x), negb (bool_decide (k ∈ ignored)) && normal x) m
  | _ => true
  end.

Section Induction.
Context (P : value -> Prop).
Context (Hleaf : forall v, match v with V_slice _ | V_map _ => True | _ => P v end).
Context (Hslice : forall l, Forall P l -> P (V_slice l)).
Context (Hmap : forall m, Forall (λ x, P x.2) m -> P (V_map m)).

Lemma value_nested_ind v : P v.
Proof.
  revert v. fix IH 1. intros v. destruct v as [|b|n|f|s|l|m];
    [apply (Hleaf V_nil)|apply (Hleaf (V_bool b))|apply (Hleaf (V_int n))|apply (Hleaf (V_float64 f))
    |apply (Hleaf (V_string s))| |].
  - apply Hslice. induction l as [|x l IHl]; constructor; [apply IH|exact IHl].
  - apply Hmap. induction m as [|[k x] m IHm]; constructor; [apply IH|exact IHm].
Qed.
End Induction.

Lemma cull_normal v : (isEmpty v = false -> normal v = true) -> cull v = V_nil \/ normal (cull v) = true.
Proof. unfold cull. destruct (isEmpty v); auto. Qed.

Lemma map_result_length {A B} (f : A -> result B) l ys : map_result f l = Ok ys -> length ys = length l.
Proof.
  revert ys. induction l as [|x l IH]; intros ys; cbn; [by intros [= <-]|].
  destruct (f x); cbn; [|done]. destruct (map_result f l) as [zs|]; cbn; [|done].
  intros [= <-]. cbn. by rewrite (IH zs).
Qed.

Lemma insert_by_perm x l : insert_by x l ≡ₚ x :: l.
Proof.
  induction l as [|y l IH]; cbn; [done|]. destruct (SFltb _ _); [done|].
  rewrite IH. apply Permutation_swap.
Qed.

Lemma insert_all_perm l acc : fold_left (λ l x, insert_by x l) l acc ≡ₚ l ++ acc.
Proof.
  revert acc. induction l as [|x l IH]; intros acc; cbn; [done|].
  rewrite IH, insert_by_perm. symmetry. apply Permutation_middle.
Qed.

Lemma sortHelper_perm arr key arr' : sortHelper arr key = Ok arr' -> arr' ≡ₚ arr.
Proof.
  unfold sortHelper. destruct arr as [|a [|b arr]]; [by intros [= <-]|by intros [= <-]|].
  destruct (map_result _ _) as [keys|] eqn:Hk; cbn -[zip]; [|done]. intros [= <-].
  rewrite insert_all_perm, app_nil_r. apply map_result_length in Hk.
  change (map snd) with (@fmap list _ _ _ (@snd spec_float value)). by rewrite snd_zip by lia.
Qed.

Lemma sorted_by_perm key arr arr' : sorted_by key arr = Ok arr' -> arr' ≡ₚ arr.
Proof.
  unfold sorted_by. repeat case_bool_decide; try apply sortHelper_perm. by intros [= <-].
Qed.

(** The loops of [normalizeRecurse] under names of their own. *)
Fixpoint entries (m : object) : result object :=
  match m with
  | [] => Ok []
  | (k, v) :: m =>
      if bool_decide (k ∈ ignored) then entries m
      else
        '(n, _) ← normalizeRecurse k v;
        rest ← entries m;
        Ok (match n with V_nil => rest | _ => (k, n) :: rest end)
  end.

Fixpoint elements (l : list value) : result (list value * list value) :=
  match l with
  | [] => Ok ([], [])
  | v :: l =>
      '(n, v') ← normalizeRecurse "" v;
      '(ns, vs) ← elements l;
      Ok (match n with V_nil => ns | _ => n :: ns end, v' :: vs)
  end.

Lemma normalizeRecurse_map key obj : normalizeRecurse key (V_map obj) =
  deleted ← match get "deleted" obj with Some v => isDeleted v | None => Ok false end;
  if deleted : bool then Ok (V_nil, V_map obj)
  else obj' ← entries obj; Ok (cull (V_map obj'), V_map obj').
Proof. done. Qed.

Lemma normalizeRecurse_slice key arr : normalizeRecurse key (V_slice arr) =
  elems ← elements arr; arr' ← sorted_by key elems.1; Ok (cull (V_slice arr'), V_slice elems.2).
Proof. done. Qed.

Lemma forallb_Forall {A} (f : A -> bool) l : forallb f l = true <-> Forall (λ x, f x = true) l.
Proof. rewrite forallb_forall. by rewrite <- List.Forall_forall. Qed.

Lemma normal_slice l : Forall (λ v, normal v = true) l -> isEmpty (V_slice l) = false ->
  normal (V_slice l) = true.
Proof. intros Hl He. cbn [normal]. rewrite He. by apply forallb_Forall. Qed.

Lemma normal_map m : Forall (λ x, (x.1 ∉ ignored) /\ normal x.2 = true) m ->
  isEmpty (V_map m) = false -> normal (V_map m) = true.
Proof.
  intros Hm He. cbn [normal]. rewrite He. apply forallb_Forall.
  eapply Forall_impl; [exact Hm|]. intros [k x] [Hk Hx]. cbn in *.
  rewrite Hx, bool_decide_false by done. done.
Qed.

(** What holds of each value below carries over to what is kept of it. *)
Definition normalizes (v : value) : Prop :=
  forall key n after, normalizeRecurse key v = Ok (n, after) -> n = V_nil \/ normal n = true.

Lemma entries_normal m m' : Forall (λ x, normalizes x.2) m -> entries m = Ok m' ->
  Forall (λ x, (x.1 ∉ ignored) /\ normal x.2 = true) m'.
Proof.
  intros Hm. revert m'. induction Hm as [|[k v] m Hv Hm IH]; intros m'; cbn [entries].
  - intros [= <-]. constructor.
  - case_bool_decide as Hk; [apply IH|].
    destruct (normalizeRecurse k v) as [[n after]|] eqn:Hn; cbn; [|done].
    destruct (entries m) as [rest|]; cbn; [|done]. intros [= <-].
    destruct (Hv _ _ _ Hn) as [->|Hnorm]; [by apply IH|].
    destruct n; try done; constructor; eauto.
Qed.

Lemma elements_normal l l' : Forall normalizes l -> elements l = Ok l' ->
  Forall (λ v, normal v = true) l'.1.
Proof.
  intros Hl. revert l'. induction Hl as [|v l Hv Hl IH]; intros l'; cbn [elements].
  - intros [= <-]. constructor.
  - destruct (normalizeRecurse "" v) as [[n after]|] eqn:Hn; cbn; [|done].
    destruct (elements l) as [[ns vs]|]; cbn; [|done]. intros [= <-]. cbn.
    specialize (IH _ eq_refl). cbn in IH.
    destruct (Hv _ _ _ Hn) as [->|Hnorm]; [done|]. destruct n; try done; by constructor.
Qed.

Lemma normalizeRecurse_normal v : normalizes v.
Proof.
  apply (value_nested_ind normalizes); clear v; [intros v|intros l IH|intros m IH].
  - destruct v as [|b|i|f|s|l|m]; try done; intros key n after [= <- <-]; apply cull_normal; cbn [normal];
      intros ->; done.
  - intros key n after. rewrite normalizeRecurse_slice.
    destruct (elements l) as [elems|] eqn:He; cbn; [|done].
    destruct (sorted_by key elems.1) as [arr'|] eqn:Hs; cbn; [|done]. intros [= <- <-].
    apply cull_normal, normal_slice. rewrite (sorted_by_perm _ _ _ Hs). by eapply elements_normal.
  - intros key n after. rewrite normalizeRecurse_map.
    destruct (match get "deleted" m with Some v => isDeleted v | None => Ok false end) as [del|];
      cbn; [|done].
    destruct del; [intros [= <- <-]; by left|].
    destruct (entries m) as [m'|] eqn:Hm; cbn; [|done]. intros [= <- <-].
    apply cull_normal, normal_map. by eapply entries_normal.
Qed.

(** The normalized account has no field that is empty or that only one of the two programs
    has, in the account, its resources or anywhere below. *)
Theorem normalize_normal data n after :
  normalize data = Ok (n, after) -> n = V_nil \/ normal n = true.
Proof.
  unfold normalize. destruct (match get "account" data with
    | Some (V_map m) => Ok (m, true) | Some _ => Err (ErrPanic "interface conversion")
    | None => Ok (data, false) end) as [account|]; cbn -[normalizeRecurse]; [|done].
  destruct (match get "amount" account.1 with None => true | Some val => is_int_zero val end);
    [intros [= <- <-]; by left|].
  destruct (normalizeRecurse "" (V_map account.1)) as [[v after']|] eqn:Hn;
    cbn -[normalizeRecurse]; [|done].
  intros [= <- <-]. by eapply normalizeRecurse_normal.
Qed.

(** The report of a difference shows the normalized account twice: what it prints as raw
    JSON was changed in place before. *)
Theorem raw_is_normalized data n after :
  normalize data = Ok (n, after) -> n <> V_nil ->
  match get "account" data with
  | None => V_map after = n
  | Some _ => get "account" after = Some n
  end.
Proof.
  unfold normalize. intros Hn Hnil. destruct (get "account" data) as [[| | | | | |m]|] eqn:Ha;
    cbn -[normalizeRecurse put] in Hn; try done.
  - destruct (match get "amount" m with None => true | Some val => is_int_zero val end); [congruence|].
    rewrite normalizeRecurse_map in Hn. destruct (match get "deleted" m with
      Some v => isDeleted v | None => Ok false end) as [[]|]; cbn -[put] in Hn; [congruence| |done].
    destruct (entries m) as [m'|]; cbn -[put] in Hn; [|done]. injection Hn as <- <-.
    assert (cull (V_map m') = V_map m') as -> by (unfold cull in *; by destruct (isEmpty _)).
    clear -Ha. induction data as [|[k x] data IH]; cbn in *; [done|].
    destruct (bool_decide (k = "account")) eqn:Hk; [done|]. by apply IH.
  - destruct (match get "amount" data with None => true | Some val => is_int_zero val end); [congruence|].
    rewrite normalizeRecurse_map in Hn. destruct (match get "deleted" data with
      Some v => isDeleted v | None => Ok false end) as [[]|]; cbn in Hn; [congruence| |done].
    destruct (entries data) as [m'|]; cbn in Hn; [|done]. injection Hn as <- <-.
    unfold cull in *. by destruct (isEmpty _).
Qed.

(** An entry that is not ignored and whose value is not empty is kept. *)
Lemma entries_keep m m' k s : (k, V_string s) ∈ m -> k ∉ ignored -> s <> "" ->
  entries m = Ok m' -> m' <> [].
Proof.
  intros Hin Hk Hs. revert m'. induction m as [|[k' v] m IH]; intros m'.
  { by apply not_elem_of_nil in Hin. }
  apply elem_of_cons in Hin as [[= <- <-]|Hin]; cbn [entries].
  - rewrite bool_decide_false by done. cbn. unfold cull. cbn. rewrite bool_decide_false by done.
    destruct (entries m); cbn; [|done]. by intros [= <-].
  - case_bool_decide; [by apply IH|]. destruct (normalizeRecurse k' v) as [[n ?]|]; cbn; [|done].
    destruct (entries m) as [rest|]; cbn; [|done]. intros [= <-]. specialize (IH Hin _ eq_refl).
    by destruct n.
Qed.

(** The comment promises that an account with a zero amount is taken for an unused one and
    compares equal to a missing one.  The test compares a [float64] with an [int] and is never
    true: such an account is not dropped, and differs from a deleted one. *)
Theorem zero_amount_kept m address n after :
  get "account" m = None -> get "amount" m = Some (V_float64 (S754_zero false)) ->
  get "deleted" m = None -> ("address", V_string address) ∈ m -> address <> "" ->
  normalize m = Ok (n, after) -> n <> V_nil /\ DeepEqual V_nil n = false.
Proof.
  intros Ha Hm Hd Hin Hne. unfold normalize. rewrite Ha. cbn -[normalizeRecurse]. rewrite Hm.
  cbn -[normalizeRecurse]. rewrite normalizeRecurse_map, Hd. cbn.
  destruct (entries m) as [m'|] eqn:He; cbn; [|done]. intros [= <- <-].
  assert (m' <> []) as Hm'.
  { eapply entries_keep; [exact Hin| |exact Hne|exact He]. by apply (bool_decide_unpack _). }
  unfold cull. destruct m'; done.
Qed.

(** *** The order of resources *)

(** The numbers without NaN, which JSON does not have, in their order. *)
Definition rank (f : spec_float) : Z * Z * Z :=
  match f with
  | S754_zero _ | S754_nan => (0, 0, 0)
  | S754_infinity s => (if s then -2 else 2, 0, 0)
  | S754_finite s m e => if s then (-1, - e, Z.neg m) else (1, e, Z.pos m)
  end.
Definition before (a b : Z * Z * Z) : Prop :=
  a.1.1 < b.1.1 \/ a.1.1 = b.1.1 /\ (a.1.2 < b.1.2 \/ a.1.2 = b.1.2 /\ a.2 < b.2).

Lemma SFltb_before f g : f <> S754_nan -> g <> S754_nan -> SFltb f g = true <-> before (rank f) (rank g).
Proof.
  intros Hf Hg. unfold SFltb, before.
  destruct f as [[]|[]| |[] m e], g as [[]|[]| |[] m' e']; try done;
    cbn [SFcompare rank fst snd]; split; intros Hlt; try done; try lia.
  all: revert Hlt; destruct (Z.compare_spec e e'); cbn; try (intros; lia); try done;
    change (Pos.compare_cont Eq m m') with (Pos.compare m m');
    destruct (Pos.compare_spec m m'); cbn; intros; try done; try lia.
Qed.

Definition numbered (x : spec_float * value) : Prop := x.1 <> S754_nan.
Definition by_rank (x y : spec_float * value) : Prop := before (rank x.1) (rank y.1).

Lemma insert_by_sorted x l : numbered x -> Forall numbered l -> rank x.1 ∉ map (λ y, rank y.1) l ->
  StronglySorted by_rank l -> StronglySorted by_rank (insert_by x l).
Proof.
  intros Hx Hl Hnew Hs. induction Hs as [|y l Hs IH Hy]; cbn; [repeat constructor|].
  apply Forall_cons in Hl as [Hny Hl]. cbn in Hnew. apply not_elem_of_cons in Hnew as [Hxy Hnew].
  destruct (SFltb x.1 y.1) eqn:Hlt.
  - apply SFltb_before in Hlt; [|done..]. constructor; [by constructor|]. constructor; [done|].
    eapply Forall_impl; [exact Hy|]. intros z Hz. unfold by_rank, before in *. lia.
  - constructor; [by apply IH|]. rewrite insert_by_perm. constructor; [|done].
    assert (~ before (rank x.1) (rank y.1)) by (rewrite <- SFltb_before by done; congruence).
    unfold by_rank, before in *.
    destruct (rank x.1) as [[? ?] ?], (rank y.1) as [[? ?] ?]; cbn in *.
    assert (~ (z = z2 /\ z0 = z3 /\ z1 = z4)) by (intros (-> & -> & ->); done). lia.
Qed.

Lemma insert_all_sorted l acc : Forall numbered l -> Forall numbered acc ->
  NoDup (map (λ y, rank y.1) (l ++ acc)) -> StronglySorted by_rank acc ->
  StronglySorted by_rank (fold_left (λ l x, insert_by x l) l acc).
Proof.
  revert acc. induction l as [|x l IH]; intros acc Hl Hacc Hnd Hs; cbn; [done|].
  apply Forall_cons in Hl as [Hx Hl]. cbn in Hnd. apply NoDup_cons in Hnd as [Hnew Hnd].
  rewrite map_app in Hnew, Hnd. apply not_elem_of_app in Hnew as [Hnl Hna].
  apply IH; [done| | |by apply insert_by_sorted].
  - rewrite insert_by_perm. by constructor.
  - rewrite map_app. rewrite (Permutation_map _ (insert_by_perm x acc)). cbn.
    rewrite <- Permutation_middle. constructor; [|done]. by apply not_elem_of_app.
Qed.

Definition key_of (key : string) (v : value) : spec_float :=
  match float_at key v with Ok f => f | Err _ => S754_nan end.

(** Each resource has a number as its identifier, and no two the same. *)
Definition distinct_ids (key : string) (l : list value) : Prop :=
  Forall (λ v, exists f, float_at key v = Ok f /\ f <> S754_nan) l /\
  NoDup (map (λ v, rank (key_of key v)) l).

#[export] Instance distinct_ids_perm key : Proper ((≡ₚ) ==> iff) (distinct_ids key).
Proof. intros l l' Hl. unfold distinct_ids. by rewrite Hl. Qed.

Lemma sortHelper_ids key l : distinct_ids key l ->
  sortHelper l key = Ok (map snd (fold_left (λ l x, insert_by x l) (map (λ v, (key_of key v, v)) l) [])).
Proof.
  intros [Hl _]. assert (map_result (float_at key) l = Ok (map (key_of key) l)) as Hk.
  { induction Hl as [|v l (f & Hf & _) Hl IH]; cbn; [done|]. rewrite IH. unfold key_of. by rewrite Hf. }
  unfold sortHelper. destruct l as [|a [|b l]]; [done|done|]. rewrite Hk. cbn -[zip fold_left map].
  assert (forall l', zip (map (key_of key) l') l' = map (λ v, (key_of key v, v)) l') as Hz; [|by rewrite Hz].
  intros l'. induction l' as [|v l' IH]; cbn; [done|]. by rewrite IH.
Qed.

Lemma sortHelper_order key l l' : l ≡ₚ l' -> distinct_ids key l -> sortHelper l key = sortHelper l' key.
Proof.
  intros Hp Hd. rewrite (sortHelper_ids key l), (sortHelper_ids key l') by (done || by rewrite <- Hp).
  f_equal. f_equal.
  assert (forall l, distinct_ids key l -> StronglySorted by_rank
    (fold_left (λ l x, insert_by x l) (map (λ v, (key_of key v, v)) l) [])) as Hsorted.
  { clear. intros l [Hl Hnd]. apply insert_all_sorted; [|constructor| |constructor].
    - apply Forall_fmap. eapply Forall_impl; [exact Hl|]. intros v (f & Hf & Hn).
      unfold numbered. cbn. unfold key_of. by rewrite Hf.
    - rewrite app_nil_r, map_map. exact Hnd. }
  eapply (StronglySorted_unique_strong by_rank).
  - intros x y _ _. unfold by_rank, before. lia.
  - apply Hsorted, Hd.
  - apply Hsorted. by rewrite <- Hp.
  - rewrite !insert_all_perm, !app_nil_r. by rewrite Hp.
Qed.

(** The field that identifies the resources listed under a key. *)
Definition id_field (key : string) : option string :=
  if bool_decide (key = "created-assets") then Some "index"
  else if bool_decide (key = "assets") then Some "asset-id"
  else if bool_decide (key = "created-apps") then Some "id"
  else if bool_decide (key = "apps-local-state") then Some "id"
  else None.

Lemma sorted_by_id key id l : id_field key = Some id -> sorted_by key l = sortHelper l id.
Proof. unfold id_field, sorted_by. repeat case_bool_decide; by intros [= <-]. Qed.

Lemma elements_perm l l' ns vs : l ≡ₚ l' -> elements l = Ok (ns, vs) ->
  exists ns' vs', elements l' = Ok (ns', vs') /\ ns ≡ₚ ns'.
Proof.
  intros Hp. revert ns vs. induction Hp as [|x l l' Hp IH|x y l|l l' l'' _ IH1 _ IH2]; intros ns vs He.
  - injection He as <- <-. by exists [], [].
  - cbn in *. destruct (normalizeRecurse "" x) as [[n x']|]; cbn in *; [|done].
    destruct (elements l) as [[ns0 vs0]|] eqn:Hl; cbn in *; [|done]. injection He as <- <-.
    destruct (IH _ _ eq_refl) as (ns' & vs' & -> & Hns). cbn. do 2 eexists. split; [done|].
    destruct n; [done|by f_equiv..].
  - cbn in *. destruct (normalizeRecurse "" x) as [[n x']|]; cbn in *;
      [|by destruct (normalizeRecurse "" y) as [[? ?]|]].
    destruct (normalizeRecurse "" y) as [[n' y']|]; cbn in *; [|done].
    destruct (elements l) as [[ns0 vs0]|]; cbn in *; [|done]. injection He as <- <-.
    do 2 eexists. split; [done|]. destruct n, n'; try done; apply Permutation_swap.
  - destruct (IH1 _ _ He) as (ns1 & vs1 & He1 & H1). destruct (IH2 _ _ He1) as (ns2 & vs2 & He2 & H2).
    exists ns2, vs2. split; [done|]. by rewrite H1.
Qed.

(** The order in which the holdings, assets, applications or local states of an account are
    listed does not matter: they are compared by identifier. *)
Theorem normalize_order key id l l' ns vs :
  l ≡ₚ l' -> id_field key = Some id -> elements l = Ok (ns, vs) -> distinct_ids id ns ->
  fst <$> normalizeRecurse key (V_slice l) = fst <$> normalizeRecurse key (V_slice l').
Proof.
  intros Hp Hid He Hd. rewrite !normalizeRecurse_slice.
  destruct (elements_perm _ _ _ _ Hp He) as (ns' & vs' & He' & Hns). rewrite He, He'. cbn.
  rewrite !(sorted_by_id _ _ _ Hid), (sortHelper_order _ _ _ Hns Hd).
  by destruct (sortHelper ns' id).
Qed.

(** *** Samples *)

Definition unused : list (string * value) :=
  [("address", V_string "addr"); ("amount", V_float64 (S754_zero false))].

(** What the node reports of an unused account differs from nothing. *)
Lemma zero_amount_kept_witness : normalize unused = Ok (V_map [("address", V_string "addr")],
    [("address", V_string "addr")]) /\
  DeepEqual V_nil (V_map [("address", V_string "addr")]) = false.
Proof.
  split; [reflexivity|].
  apply (zero_amount_kept unused "addr" _ [("address", V_string "addr")]);
    [reflexivity..|by left|discriminate|reflexivity].
Defined.

(** The holding of asset 2^(52 + e). *)
Definition holding (e : Z) : value :=
  V_map [("asset-id", V_float64 (S754_finite false (2 ^ 52) e)); ("amount", V_float64 (S754_finite false 1 0))].

Lemma normalize_order_witness :
  fst <$> normalizeRecurse "assets" (V_slice [holding (-51); holding (-52)]) =
  fst <$> normalizeRecurse "assets" (V_slice [holding (-52); holding (-51)]).
Proof.
  apply (normalize_order "assets" "asset-id" _ _ [holding (-51); holding (-52)]
           [holding (-51); holding (-52)]).
  - apply Permutation_swap.
  - reflexivity.
  - reflexivity.
  - split.
    + repeat constructor; eexists; (split; [reflexivity|discriminate]).
    + apply (bool_decide_unpack _). vm_compute. exact I.
Defined.
End DynamicProcessor.

(** An account with two holdings, listed by the two programs in different orders. *)
Module SampleCompare.
Import StructProcessor.

Definition holding (id amount : Z) (deleted : option bool) : models.AssetHolding := {|
  models.AssetHolding_Amount := amount; models.AssetHolding_AssetId := id;
  models.AssetHolding_Deleted := deleted; models.AssetHolding_IsFrozen := false;
  models.AssetHolding_OptedInAtRound := None; models.AssetHolding_OptedOutAtRound := None |}.

Definition account (status : string) (assets : list models.AssetHolding) : models.Account := {|
  models.Account_Address := "addr"; models.Account_Amount := 10;
  models.Account_AmountWithoutPendingRewards := 10; models.Account_AppsLocalState := None;
  models.Account_AppsTotalExtraPages := None; models.Account_AppsTotalSchema := None;
  models.Account_Assets := Some assets; models.Account_AuthAddr := None;
  models.Account_ClosedAtRound := None; models.Account_CreatedApps := None;
  models.Account_CreatedAssets := None; models.Account_CreatedAtRound := None;
  models.Account_Deleted := None; models.Account_IncentiveEligible := None;
  models.Account_LastHeartbeat := None; models.Account_LastProposed := None;
  models.Account_MinBalance := 0; models.Account_Participation := None;
  models.Account_PendingRewards := 0; models.Account_RewardBase := None;
  models.Account_Rewards := 0; models.Account_Round := 5; models.Account_SigType := None;
  models.Account_Status := status; models.Account_TotalAppsOptedIn := 0;
  models.Account_TotalAssetsOptedIn := 0; models.Account_TotalBoxBytes := 0;
  models.Account_TotalBoxes := 0; models.Account_TotalCreatedApps := 0;
  models.Account_TotalCreatedAssets := 0 |}.

Definition of_algod : models.Account :=
  account "Not Participating" [holding 1 5 None; holding 2 7 None].
Definition of_indexer : models.Account :=
  account "NotParticipating" [holding 2 7 (Some false); holding 3 1 (Some true); holding 1 5 None].
End SampleCompare.

(** The same account, and one that differs in an amount. *)
Lemma equals_exact_witness :
  (StructProcessor.equals SampleCompare.of_indexer SampleCompare.of_algod = [] <->
   models.Account_Amount SampleCompare.of_algod = 0 \/
   StructProcessor.same_account SampleCompare.of_indexer SampleCompare.of_algod) /\
  StructProcessor.equals SampleCompare.of_indexer SampleCompare.of_algod = [].
Proof.
  split; [|reflexivity]. apply StructProcessor.equals_exact.
  repeat split; apply (bool_decide_unpack _); vm_compute; exact I.
Defined.
