(* ===== verification/Validator.v ===== *)
(** * The validator: [cmd/validator/core/validator.go] and [command.go]

    Lines of input name accounts or boxes.  Workers ask the node once and the indexer until
    both agree, and send one result for each line; the results are counted, and the exit
    status tells whether there were errors. *)

From Stdlib Require Import Ascii String.
From S2P Require Import Prelude GoStd Sdk Idb Models Encoding ResourceQuery AccountQuery Params Convert.
From S2P Require Import Disabled Interface Handlers Compare.

(** ** Fetching *)

Record Params := {
  AlgodURL : string; AlgodToken : string; IndexerURL : string; IndexerToken : string;
  Retries : Z; RetryDelayMS : Z }.

(** An answer: the status, its text, the body as far as it was read and the error of reading. *)
Record HttpResponse := {
  StatusCode : Z; Status : string; Body : string; ioErr : option error }.

(** [strings.Split(s, ",")] *)
Fixpoint split_commas (s : string) : list string :=
  match s with
  | EmptyString => [EmptyString]
  | String c s =>
      if bool_decide (c = ","%char) then EmptyString :: split_commas s
      else match split_commas s with
           | [] => [String c EmptyString]
           | p :: ps => String c p :: ps
           end
  end.

Definition ErrBoxNotFound : string := "box not found".

Section Validator.
Context `{SdkOps}.
(** [url.QueryEscape], and the answer to the [n]-th request of a worker for an address with
    an [Authorization] header. *)
Context (QueryEscape : string -> string).
Context (Do : nat -> string -> string -> result HttpResponse).

(** The data, kept beside an error. *)
Definition getData (n : nat) (url token : string) : string * option error :=
  let url := if String.prefix "http" url then url else "http://" +:+ url in
  match Do n url ("Bearer " +:+ token) with
  | Err e => ("", Some e)
  | Ok resp =>
      if negb (StatusCode resp =? StatusOK) then (Body resp, Some (ErrMsg "bad status: %s"))
      else (Body resp, ioErr resp)
  end.

Definition normalizeAddress (addr : string) : result string :=
  match DecodeAddress addr with
  | Ok _ => Ok addr
  | Err _ =>
      match Base64.DecodeString Base64.std addr with
      | Ok addrBytes => Ok (AddressString (copy_address addrBytes))
      | Err _ => Err (ErrMsg "unable to decode address")
      end
  end.

(** ** Results *)

Definition details (resource address appid boxname : string) : ErrorDetails := {|
  E_Resource := resource; E_Address := address; E_Appid := appid; E_Boxname := boxname;
  E_Algod := ""; E_Indexer := ""; E_Diff := [] |}.
Definition failure (err : error) (skip : Skip) (retries : Z) (d : ErrorDetails) : Result := {|
  R_Error := Some err; R_SameRound := false; R_SkipReason := skip; R_Equal := false;
  R_Retries := retries; R_Details := Some d |}.

Definition resultResourceError (err : error) (resource : string) : Result :=
  failure err NotSkipped 0 (details resource "" "" "").
Definition resultBoxSkip (err : error) (appid boxname : string) (skip : Skip) : Result :=
  failure err skip 0 (details "box" "" appid boxname).
Definition resultBoxError (err : error) (appid boxname : string) : Result :=
  resultBoxSkip err appid boxname NotSkipped.
Definition resultSkip (err : error) (address : string) (skip : Skip) : Result :=
  failure err skip 0 (details "address" address "" "").
Definition resultError (err : error) (address : string) : Result := resultSkip err address NotSkipped.

(** [result.Retries = i], and the resource in the details if there are any *)
Definition set_retries (r : Result) (i : Z) (f : ErrorDetails -> ErrorDetails) : Result := {|
  R_Error := R_Error r; R_SameRound := R_SameRound r; R_SkipReason := R_SkipReason r;
  R_Equal := R_Equal r; R_Retries := i; R_Details := f <$> R_Details r |}.
Definition set_address (addr : string) (d : ErrorDetails) : ErrorDetails := {|
  E_Resource := E_Resource d; E_Address := addr; E_Appid := E_Appid d; E_Boxname := E_Boxname d;
  E_Algod := E_Algod d; E_Indexer := E_Indexer d; E_Diff := E_Diff d |}.
Definition set_box (appid boxname : string) (d : ErrorDetails) : ErrorDetails := {|
  E_Resource := "box"; E_Address := E_Address d; E_Appid := appid; E_Boxname := boxname;
  E_Algod := E_Algod d; E_Indexer := E_Indexer d; E_Diff := E_Diff d |}.

(** ** Comparing with retries *)

(** The loop that both kinds of resource share: [fetch i] is the [i]-th answer of the indexer,
    [process] compares it with that of the node, [skip] makes the result of a failure to fetch,
    [bad] that of a failure to compare, and [name] completes the details.  [None] is lack of
    fuel, [Err] a panic. *)
Section Retry.
Context (config : Params) (fetch : nat -> string * option error).
Context (process : string -> result Result) (skip : string -> error -> Result) (bad : Z -> Result).
Context (name : ErrorDetails -> ErrorDetails).

Fixpoint retry_loop (fuel i : nat) : option (result Result) :=
  match fuel with
  | O => None
  | S fuel =>
      match fetch i with
      | (indexerData, Some err) => Some (Ok (skip indexerData err))
      | (indexerData, None) =>
          match process indexerData with
          | Err (ErrPanic what) => Some (Err (ErrPanic what))
          | Err _ => Some (Ok (bad (Z.of_nat i)))
          | Ok result =>
              if R_Equal result || R_SameRound result || (Retries config <=? Z.of_nat i)
              then Some (Ok (set_retries result (Z.of_nat i) name))
              else retry_loop fuel (S i)
          end
      end
  end.
End Retry.

(** More turns than the loop takes. *)
Definition enough (config : Params) : nat := S (Z.to_nat (Retries config)).

(** The results of a failure to fetch. *)
Definition skip_algod_address (addr data : string) (err : error) : Result :=
  let err := ErrWrap "error getting algod data (%s): %w" err in
  if strings_Contains data ErrResultLimitReached then resultSkip err addr SkipLimitReached
  else resultError err addr.
Definition skip_indexer_address (addr data : string) (err : error) : Result :=
  let err := ErrWrap "error getting indexer data (%s): %w" err in
  if strings_Contains data ErrResultLimitReached then resultSkip err addr SkipLimitReached
  else if strings_Contains data ErrNoAccountsFound then resultSkip err addr SkipAccountNotFound
  else resultError err addr.
Definition skip_algod_box (appid boxname data : string) (err : error) : Result :=
  let err := ErrWrap "error getting algod data (%s): %w" err in
  if strings_Contains data ErrBoxNotFound then resultBoxSkip err appid boxname SkipBoxNotFound
  else resultBoxError err appid boxname.
Definition skip_indexer_box (appid boxname data : string) (err : error) : Result :=
  let err := ErrWrap "error getting indexer data (%s): %w" err in
  if strings_Contains data ErrFailedLookingUpBoxes then resultBoxSkip err appid boxname SkipBoxFailedLookup
  else if strings_Contains data ErrWrongAppidFound then resultBoxSkip err appid boxname SkipBoxWrongAppid
  else if strings_Contains data ErrMultipleBoxes then resultBoxSkip err appid boxname SkipBoxMultiple
  else if strings_Contains data ErrNoBoxesFound then resultBoxError err appid boxname
  else if strings_Contains data ErrWrongBoxFound then resultBoxSkip err appid boxname SkipBoxWrongBox
  else resultBoxError err appid boxname.

Definition callProcessorAddress (processor : Processor) (addrInput : string) (config : Params)
    : option (result Result) :=
  match normalizeAddress addrInput with
  | Err err => Some (Ok (resultError err ""))
  | Ok addr =>
      let algodDataURL := AlgodURL config +:+ "/v2/accounts/" +:+ addr in
      let indexerDataURL := IndexerURL config +:+ "/v2/accounts/" +:+ addr in
      match getData 0 algodDataURL (AlgodToken config) with
      | (algodData, Some err) => Some (Ok (skip_algod_address addr algodData err))
      | (algodData, None) =>
          retry_loop config (λ i, getData (S i) indexerDataURL (IndexerToken config))
            (ProcessAddress processor algodData) (skip_indexer_address addr)
            (λ i, failure (ErrMsg "error processing account %s: %v") NotSkipped i
                    (details "" addr "" ""))
            (set_address addr) (enough config) 0
      end
  end.

Definition box_url (base appid boxname : string) : string :=
  base +:+ "/v2/applications/" +:+ appid +:+ "/box?name=b64:" +:+ boxname.

Definition callProcessorBox (processor : Processor) (appid boxname : string) (config : Params)
    : option (result Result) :=
  let boxname := QueryEscape boxname in
  match getData 0 (box_url (AlgodURL config) appid boxname) (AlgodToken config) with
  | (algodData, Some err) => Some (Ok (skip_algod_box appid boxname algodData err))
  | (algodData, None) =>
      retry_loop config
        (λ i, getData (S i) (box_url (IndexerURL config) appid boxname) (IndexerToken config))
        (ProcessBox processor algodData) (skip_indexer_box appid boxname)
        (λ i, failure (ErrMsg "error processing box %s, %s: %v") NotSkipped i
                (details "box" "" appid boxname))
        (set_box appid boxname) (enough config) 0
  end.

(** The one result that is sent for a line of input. *)
Definition CallProcessor (processor : Processor) (input : string) (config : Params)
    : option (result Result) :=
  match split_commas input with
  | [addr] => callProcessorAddress processor addr config
  | [kind; addr] =>
      if bool_decide (kind = "address") then callProcessorAddress processor addr config
      else Some (Ok (resultResourceError (ErrMsg "invalid resource") input))
  | [kind; appid; boxname] =>
      if bool_decide (kind = "box") then callProcessorBox processor appid boxname config
      else Some (Ok (resultResourceError (ErrMsg "invalid resource") input))
  | _ => Some (Ok (resultResourceError (ErrMsg "invalid resource") input))
  end.
End Validator.

(** [MakeProcessor] *)
Section MakeProcessor.
Context `{Codec models.AccountResponse} `{Codec models.Account} `{Codec models.Box}.
Context `{Codec (option (list (string * DynamicProcessor.value)))} `{Codec DynamicProcessor.value}.

Definition MakeProcessor (id : Z) : result Processor :=
  if id =? 0 then Ok StructProcessor.processor
  else if id =? 1 then Ok DynamicProcessor.processor
  else Err (ErrMsg "invalid processor selected").
End MakeProcessor.

(** ** The reader, the workers and the printer *)

(** A worker has no line, has one, has the result of one to send, or has returned. *)
Inductive worker := Idle | Busy (input : string) | Sending (input : string) (r : Result) | Done.

#[export] Instance is_done_dec (w : worker) : Decision (w = Done).
Proof. destruct w; by (left + right). Defined.

(** [start] and [Start], with the loop of [resultsPrinter] at the other end: the lines that are
    still to be read, the channel [work] and whether it is closed, the workers, the channel
    [results] and whether it is closed, the results that the printer has received, and the panic
    that ended the process. *)
Record pool := {
  p_stdin : list string; p_work : list string; p_work_closed : bool;
  p_workers : list worker;
  p_results : list Result; p_results_closed : bool;
  p_printed : list Result; p_panic : option error }.

Definition set_stdin (p : pool) stdin work : pool := {|
  p_stdin := stdin; p_work := work; p_work_closed := p_work_closed p; p_workers := p_workers p;
  p_results := p_results p; p_results_closed := p_results_closed p; p_printed := p_printed p;
  p_panic := p_panic p |}.
Definition close_work (p : pool) : pool := {|
  p_stdin := p_stdin p; p_work := p_work p; p_work_closed := true; p_workers := p_workers p;
  p_results := p_results p; p_results_closed := p_results_closed p; p_printed := p_printed p;
  p_panic := p_panic p |}.
Definition set_worker (p : pool) i w : pool := {|
  p_stdin := p_stdin p; p_work := p_work p; p_work_closed := p_work_closed p;
  p_workers := <[i := w]> (p_workers p);
  p_results := p_results p; p_results_closed := p_results_closed p; p_printed := p_printed p;
  p_panic := p_panic p |}.
Definition set_results (p : pool) results printed : pool := {|
  p_stdin := p_stdin p; p_work := p_work p; p_work_closed := p_work_closed p;
  p_workers := p_workers p;
  p_results := results; p_results_closed := p_results_closed p; p_printed := printed;
  p_panic := p_panic p |}.
Definition close_results (p : pool) : pool := {|
  p_stdin := p_stdin p; p_work := p_work p; p_work_closed := p_work_closed p;
  p_workers := p_workers p;
  p_results := p_results p; p_results_closed := true; p_printed := p_printed p;
  p_panic := p_panic p |}.
Definition set_panic (p : pool) e : pool := {|
  p_stdin := p_stdin p; p_work := p_work p; p_work_closed := p_work_closed p;
  p_workers := p_workers p;
  p_results := p_results p; p_results_closed := p_results_closed p; p_printed := p_printed p;
  p_panic := Some e |}.

(** The capacities of [work] and [results]. *)
Definition work_capacity (threads : nat) : nat := 100 * threads.
Definition results_capacity : nat := 10.

(** [outcome input out]: a call for [input] may give the result or the panic [out]. *)
Section Start.
Context (outcome : string -> result Result -> Prop) (threads : nat).

(** One step of one goroutine.  A send waits for room in the channel, a receive for an element or
    the end of the channel; a panic ends the process. *)
Inductive step (p : pool) : pool -> Prop :=
| step_read input stdin :
    p_panic p = None -> p_work_closed p = false -> p_stdin p = input :: stdin ->
    (length (p_work p) < work_capacity threads)%nat ->
    step p (set_stdin p stdin (p_work p ++ [input]))
| step_eof :
    p_panic p = None -> p_work_closed p = false -> p_stdin p = [] -> step p (close_work p)
| step_take i input work :
    p_panic p = None -> p_workers p !! i = Some Idle -> p_work p = input :: work ->
    step p (set_worker (set_stdin p (p_stdin p) work) i (Busy input))
| step_call i input r :
    p_panic p = None -> p_workers p !! i = Some (Busy input) -> outcome input (Ok r) ->
    step p (set_worker p i (Sending input r))
| step_panic i input e :
    p_panic p = None -> p_workers p !! i = Some (Busy input) -> outcome input (Err e) ->
    step p (set_panic (set_worker p i Done) e)
| step_send i input r :
    p_panic p = None -> p_workers p !! i = Some (Sending input r) ->
    (length (p_results p) < results_capacity)%nat ->
    step p (set_results (set_worker p i Idle) (p_results p ++ [r]) (p_printed p))
| step_stop i :
    p_panic p = None -> p_workers p !! i = Some Idle -> p_work p = [] -> p_work_closed p = true ->
    step p (set_worker p i Done)
| step_close :
    p_panic p = None -> Forall (λ w, w = Done) (p_workers p) -> p_results_closed p = false ->
    step p (close_results p)
| step_print r results :
    p_panic p = None -> p_results p = r :: results ->
    step p (set_results p results (p_printed p ++ [r])).
End Start.

(** For the lines of the standard input, and for one resource: the goroutine that compares it
    closes [results] as well. *)
Definition started (stdin : list string) (threads : nat) : pool := {|
  p_stdin := stdin; p_work := []; p_work_closed := false; p_workers := replicate threads Idle;
  p_results := []; p_results_closed := false; p_printed := []; p_panic := None |}.
Definition single (input : string) : pool := {|
  p_stdin := []; p_work := []; p_work_closed := true; p_workers := [Busy input];
  p_results := []; p_results_closed := false; p_printed := []; p_panic := None |}.

(** The loop of the printer ends. *)
Definition finished (p : pool) : Prop :=
  p_panic p = None /\ p_results_closed p = true /\ p_results p = [].

(** ** Counting: [resultsPrinter] of [command.go] *)

Record stats := { s_results : Z; s_errors : Z; s_skipped : gmap Skip Z; s_retries : Z }.
Definition no_stats : stats := {| s_results := 0; s_errors := 0; s_skipped := ∅; s_retries := 0 |}.

(** A result that is not counted as skipped is printed with its details, and so are the skipped
    ones if asked for: without details this is a panic. *)
Definition count_result (printSkipped : bool) (s : stats) (r : Result) : result stats :=
  let printed (s : stats) : result stats :=
    match R_Details r with Some _ => Ok s | None => Err (ErrPanic "nil pointer dereference") end in
  let s := {| s_results := s_results s + 1; s_errors := s_errors s; s_skipped := s_skipped s;
              s_retries := s_retries s + R_Retries r |} in
  if bool_decide (R_Error r <> None) || negb (R_Equal r) then
    if bool_decide (R_SkipReason r <> NotSkipped) then
      let s := {| s_results := s_results s; s_errors := s_errors s;
                  s_skipped := <[R_SkipReason r := default 0 (s_skipped s !! R_SkipReason r) + 1]>
                                 (s_skipped s);
                  s_retries := s_retries s |} in
      if printSkipped then printed s else Ok s
    else
      printed {| s_results := s_results s; s_errors := s_errors s + 1; s_skipped := s_skipped s;
                 s_retries := s_retries s |}
  else Ok s.

Fixpoint count_results (printSkipped : bool) (s : stats) (results : list Result) : result stats :=
  match results with
  | [] => Ok s
  | r :: results => s ← count_result printSkipped s r; count_results printSkipped s results
  end.

Definition resultsPrinter (printSkipped : bool) (results : list Result) : result stats :=
  count_results printSkipped no_stats results.

(** [resultChar] *)
Definition resultChar (success : bool) (retries : Z) (skipReason : Skip) : string :=
  if success && (retries =? 0) then "."
  else if success && (9 <? retries) then "(" +:+ FormatInt retries +:+ ")"
  else if success then FormatInt retries
  else if bool_decide (skipReason <> NotSkipped) then "_" else "X".

(** The exit status of [run] after all results. *)
Definition exit_status (s : stats) : Z := if 0 <? s_errors s then 1 else 0.

(** ** Theorems *)

Section Retry.
Context (config : Params) (fetch : nat -> string * option error).
Context (process : string -> result Result) (skip : string -> error -> Result) (bad : Z -> Result).
Context (name : ErrorDetails -> ErrorDetails).
Abbreviation loop := (retry_loop config fetch process skip bad name).

(** The [i]-th comparison found a difference that may be due to different rounds. *)
Definition undecided (i : nat) : Prop := exists data r,
  fetch i = (data, None) /\ process data = Ok r /\ R_Equal r = false /\ R_SameRound r = false /\
  Z.of_nat i < Retries config.

(** What the [i]-th turn leaves as the result. *)
Definition decided (i : nat) (out : result Result) : Prop :=
  match fetch i with
  | (data, Some err) => out = Ok (skip data err)
  | (data, None) =>
      match process data with
      | Err (ErrPanic what) => out = Err (ErrPanic what)
      | Err _ => out = Ok (bad (Z.of_nat i))
      | Ok r => out = Ok (set_retries r (Z.of_nat i) name) /\
          (R_Equal r = true \/ R_SameRound r = true \/ Retries config <= Z.of_nat i)
      end
  end.

Lemma retry_loop_from fuel i : (Z.to_nat (Retries config) < fuel + i)%nat -> (i < fuel + i)%nat ->
  exists k out, loop fuel i = Some out /\ (i <= k)%nat /\
    (forall j, (i <= j < k)%nat -> undecided j) /\ decided k out.
Proof.
  revert i. induction fuel as [|fuel IH]; intros i Hfuel Hi; [lia|]. cbn [retry_loop].
  destruct (fetch i) as [data [err|]] eqn:Hf.
  { exists i. eexists. repeat split; [done| |unfold decided; by rewrite Hf]. intros. lia. }
  destruct (process data) as [r|e] eqn:Hp.
  2:{ exists i. destruct e; eexists; (repeat split; [done| |unfold decided; by rewrite Hf, Hp]);
      intros; lia. }
  destruct (R_Equal r || R_SameRound r || (Retries config <=? Z.of_nat i)) eqn:Hd.
  { exists i. eexists. repeat split; [done|intros; lia|]. unfold decided. rewrite Hf, Hp.
    split; [done|]. rewrite !orb_true_iff, Z.leb_le in Hd. tauto. }
  rewrite !orb_false_iff, Z.leb_gt in Hd. destruct Hd as [[He Hr] Hl].
  destruct (IH (S i)) as (k & out & Hloop & Hk & Hu & Hdec); [lia..|].
  exists k, out. repeat split; [done|lia| |done]. intros j Hj.
  destruct (decide (j = i)) as [->|]; [exists data, r; eauto 10|apply Hu; lia].
Qed.

(** The loop ends, with the result of the first turn that decides. *)
Lemma retry_loop_decides : exists k out, loop (enough config) 0 = Some out /\
  (forall j, (j < k)%nat -> undecided j) /\ decided k out.
Proof.
  destruct (retry_loop_from (enough config) 0) as (k & out & H1 & _ & H2 & H3);
    unfold enough in *; [lia..|].
  exists k, out. repeat split; [done| |done]. intros. apply H2. lia.
Qed.

(** The number of turns. *)
Lemma undecided_below k : (forall j, (j < k)%nat -> undecided j) -> Z.of_nat k <= Z.max 0 (Retries config).
Proof.
  intros Hu. destruct k as [|k]; [lia|]. destruct (Hu k) as (? & ? & _ & _ & _ & _ & ?); lia.
Qed.
End Retry.

(** A comparison gives no error of its own and explains a difference. *)
Definition explains (compare : string -> string -> result Result) : Prop :=
  forall algod indexer r, compare algod indexer = Ok r ->
    R_Error r = None /\ R_SkipReason r = NotSkipped /\ (R_Equal r = true \/ is_Some (R_Details r)).
Definition explained (p : Processor) : Prop := explains (ProcessAddress p) /\ explains (ProcessBox p).

(** A comparison that panics on some answers. *)
Definition panics (p : Processor) : Prop := exists algod indexer what,
  ProcessAddress p algod indexer = Err (ErrPanic what) \/ ProcessBox p algod indexer = Err (ErrPanic what).

(** What is sent to the printer: equal without an error, or with details. *)
Definition printable (r : Result) : Prop :=
  R_Error r = None /\ R_Equal r = true \/ is_Some (R_Details r).

Section Processors.
Context `{Codec models.AccountResponse} `{Codec models.Account} `{Codec models.Box}.
Context `{Codec (option (list (string * DynamicProcessor.value)))} `{Codec DynamicProcessor.value}.

Lemma StructProcessor_explained : explained StructProcessor.processor.
Proof.
  split; intros algod indexer r; cbn.
  - unfold StructProcessor.ProcessAddress. destruct (DecodeJSON indexer); [|done].
    destruct (DecodeJSON algod); [|done]. case_bool_decide; intros [= <-]; cbn; eauto.
  - unfold StructProcessor.ProcessBox. destruct (DecodeJSON indexer); [|done].
    destruct (DecodeJSON algod); [|done]. destruct (StructProcessor.bytes_Equal _ _);
      intros [= <-]; cbn; eauto.
Qed.

Lemma StructProcessor_never_panics : ~ panics StructProcessor.processor.
Proof.
  intros (algod & indexer & what & [Hp|Hp]); revert Hp; cbn.
  - unfold StructProcessor.ProcessAddress. destruct (DecodeJSON indexer); [|done].
    destruct (DecodeJSON algod); [|done]. by case_bool_decide.
  - unfold StructProcessor.ProcessBox. destruct (DecodeJSON indexer); [|done].
    destruct (DecodeJSON algod); [|done]. by destruct (StructProcessor.bytes_Equal _ _).
Qed.

Lemma DynamicProcessor_explained : explained DynamicProcessor.processor.
Proof.
  split; intros algod indexer r; cbn.
  - unfold DynamicProcessor.ProcessAddress. destruct (DecodeJSON indexer); [|done].
    destruct (DecodeJSON algod); [|done].
    destruct (DynamicProcessor.normalized "indexer" _) as [[? ?]|]; cbn; [|done].
    destruct (DynamicProcessor.normalized "algod" _) as [[? ?]|]; cbn; [|done].
    destruct (DynamicProcessor.DeepEqual _ _); intros [= <-]; cbn; eauto.
  - unfold DynamicProcessor.ProcessBox. destruct (DecodeJSON indexer); [|done].
    destruct (DecodeJSON algod); [|done]. destruct (DynamicProcessor.map_DeepEqual _ _);
      intros [= <-]; cbn; eauto.
Qed.

Lemma MakeProcessor_explained id p : MakeProcessor id = Ok p -> explained p.
Proof.
  unfold MakeProcessor. destruct (id =? 0); [intros [= <-]; apply StructProcessor_explained|].
  destruct (id =? 1); [intros [= <-]; apply DynamicProcessor_explained|done].
Qed.

(** Only the processor of dynamic values panics. *)
Lemma MakeProcessor_panics id p : MakeProcessor id = Ok p -> panics p -> id = 1.
Proof.
  unfold MakeProcessor. destruct (Z.eqb_spec id 0); [|by destruct (Z.eqb_spec id 1)].
  intros [= <-] Hp. by apply StructProcessor_never_panics in Hp.
Qed.
End Processors.

Section Calls.
Context `{SdkOps} (QueryEscape : string -> string).
Context (Do : nat -> string -> string -> result HttpResponse).
Context (processor : Processor) (config : Params).

(** A result is sent, and it is within the retries and printable. *)
Definition sends (out : option (result Result)) : Prop := exists r, out = Some r /\
  match r with
  | Ok r => 0 <= R_Retries r <= Z.max 0 (Retries config) /\ (explained processor -> printable r)
  | Err _ => panics processor
  end.

Lemma sends_failure err skip d : sends (Some (Ok (failure err skip 0 d))).
Proof. eexists. split; [done|]. cbn. split; [lia|]. intros _. right. eauto. Qed.

Lemma sends_loop fetch process skip bad name :
  (forall data err, exists err' s d, skip data err = failure err' s 0 d) ->
  (forall i, exists err s d, bad i = failure err s i d) ->
  (forall data what, process data = Err (ErrPanic what) -> panics processor) ->
  (explained processor -> forall data r, process data = Ok r ->
     R_Error r = None /\ R_SkipReason r = NotSkipped /\ (R_Equal r = true \/ is_Some (R_Details r))) ->
  sends (retry_loop config fetch process skip bad name (enough config) 0).
Proof.
  intros Hskip Hbad Hpanic Hproc.
  destruct (retry_loop_decides config fetch process skip bad name) as (k & out & -> & Hu & Hd).
  apply undecided_below in Hu. unfold decided in Hd.
  destruct (fetch k) as [data [err|]].
  { destruct (Hskip data err) as (? & ? & ? & He). subst out. rewrite He. apply sends_failure. }
  destruct (process data) as [r|e] eqn:Hr.
  - destruct Hd as [-> _]. eexists. split; [done|]. cbn. split; [lia|]. intros Hp.
    destruct (Hproc Hp _ _ Hr) as (H1 & _ & [H2|[d H2]]); unfold printable; cbn; [auto|].
    right. rewrite H2. eauto.
  - destruct (Hbad (Z.of_nat k)) as (? & ? & ? & He).
    assert (sends (Some (Ok (bad (Z.of_nat k))))) as Hs.
    { eexists. split; [done|]. rewrite He. cbn. split; [lia|]. intros _. right. eauto. }
    destruct e as [| | | | | | |what|]; subst out; try exact Hs. exists (Err (ErrPanic what)). eauto.
Qed.

Lemma sends_address addr : sends (callProcessorAddress Do processor addr config).
Proof.
  unfold callProcessorAddress. destruct (normalizeAddress addr) as [a|]; [|apply sends_failure].
  destruct (getData Do 0 _ _) as [data [err|]].
  - unfold skip_algod_address. destruct (strings_Contains _ _); apply sends_failure.
  - apply sends_loop.
    + intros d e. unfold skip_indexer_address. repeat destruct (strings_Contains _ _); repeat eexists.
    + intros i. repeat eexists.
    + intros d what Hd. unfold panics. eauto.
    + intros [Ha _] d r Hr. by eapply Ha.
Qed.

Lemma sends_box appid boxname : sends (callProcessorBox QueryEscape Do processor appid boxname config).
Proof.
  unfold callProcessorBox. destruct (getData Do 0 _ _) as [data [err|]].
  - unfold skip_algod_box. destruct (strings_Contains _ _); apply sends_failure.
  - apply sends_loop.
    + intros d e. unfold skip_indexer_box. repeat destruct (strings_Contains _ _); repeat eexists.
    + intros i. repeat eexists.
    + intros d what Hd. unfold panics. eauto.
    + intros [_ Hb] d r Hr. by eapply Hb.
Qed.

Lemma CallProcessor_sends input : sends (CallProcessor QueryEscape Do processor input config).
Proof.
  unfold CallProcessor. destruct (split_commas input) as [|a [|b [|c [|]]]];
    try apply sends_failure; [apply sends_address| |]; case_bool_decide;
    first [apply sends_address | apply sends_box | apply sends_failure].
Qed.

(** An account is called equal only if one of the answers of the indexer, within the retries,
    equals the first answer of the node. *)
Lemma address_equal input r :
  callProcessorAddress Do processor input config = Some (Ok r) -> R_Equal r = true ->
  exists addr algod k indexer r', normalizeAddress input = Ok addr /\
    getData Do 0 (AlgodURL config +:+ "/v2/accounts/" +:+ addr) (AlgodToken config) = (algod, None) /\
    getData Do (S k) (IndexerURL config +:+ "/v2/accounts/" +:+ addr) (IndexerToken config) = (indexer, None) /\
    Z.of_nat k <= Z.max 0 (Retries config) /\ R_Retries r = Z.of_nat k /\
    ProcessAddress processor algod indexer = Ok r' /\ R_Equal r' = true.
Proof.
  unfold callProcessorAddress. destruct (normalizeAddress input) as [addr|] eqn:Ha;
    [|by intros [= <-]].
  destruct (getData Do 0 _ _) as [algod [err|]] eqn:Hg.
  { unfold skip_algod_address. destruct (strings_Contains _ _); by intros [= <-]. }
  match goal with |- retry_loop ?c ?f ?p ?s ?b ?n _ _ = _ -> _ =>
    destruct (retry_loop_decides c f p s b n) as (k & out & -> & Hu & Hd) end.
  intros [= ->] Heq. apply undecided_below in Hu. unfold decided in Hd.
  destruct (getData Do (S k) _ _) as [indexer [err|]] eqn:Hi.
  { injection Hd as ->. unfold skip_indexer_address in Heq.
    by repeat destruct (strings_Contains _ _). }
  destruct (ProcessAddress processor algod indexer) as [r'|e] eqn:Hp.
  - destruct Hd as [[= ->] _]. exists addr, algod, k, indexer, r'. by rewrite Hi.
  - destruct e; try done; injection Hd as ->; done.
Qed.
End Calls.

Section Verdict.
Context `{SdkOps} `{Codec models.AccountResponse} `{Codec models.Account} `{Codec models.Box}.

(** C35. An account that the validator calls equal is the same at the node and at the indexer: in
    one of the answers of the indexer, within the retries, all compared fields and all live
    resources are those of the first answer of the node, or the node has no balance for it. *)
Theorem equal_accounts_agree Do config input r :
  callProcessorAddress Do StructProcessor.processor input config = Some (Ok r) -> R_Equal r = true ->
  exists addr algodData indexerData k algod indexer,
    normalizeAddress input = Ok addr /\ Z.of_nat k <= Z.max 0 (Retries config) /\
    getData Do 0 (AlgodURL config +:+ "/v2/accounts/" +:+ addr) (AlgodToken config) = (algodData, None) /\
    getData Do (S k) (IndexerURL config +:+ "/v2/accounts/" +:+ addr) (IndexerToken config) =
      (indexerData, None) /\
    DecodeJSON algodData = Ok algod /\ DecodeJSON indexerData = Ok indexer /\
    (StructProcessor.listed_once (models.AccountResponse_Account indexer) algod -> models.Account_Amount algod = 0 \/
       StructProcessor.same_account (models.AccountResponse_Account indexer) algod).
Proof.
  intros Hc He. destruct (address_equal _ _ _ _ _ Hc He)
    as (addr & algodData & k & indexerData & r' & Ha & Hg & Hi & Hk & _ & Hp & Heq).
  cbn in Hp. unfold StructProcessor.ProcessAddress in Hp.
  destruct (DecodeJSON indexerData) as [indexer|] eqn:Hdi; [|done].
  destruct (DecodeJSON algodData) as [algod|] eqn:Hda; [|done].
  exists addr, algodData, indexerData, k, algod, indexer. repeat split; try done.
  intros Hl. apply StructProcessor.equals_nil; [done|]. case_bool_decide as Hnil; [done|].
  by injection Hp as <-.
Qed.
End Verdict.

(** ** The pool of workers *)

Section Pool.
Context (outcome : string -> result Result -> Prop) (threads : nat).
Abbreviation run_step := (step outcome threads).

Definition taken (w : worker) : list string :=
  match w with Busy input | Sending input _ => [input] | _ => [] end.
Definition in_work (p : pool) : list string := flat_map taken (p_workers p).

(** Every line is to be read, waiting, with a worker, or has its result. *)
Definition accounted_for (input : list string) (p : pool) : Prop :=
  exists seen, input ≡ₚ p_stdin p ++ p_work p ++ in_work p ++ seen /\
    Forall2 (λ x r, outcome x (Ok r)) seen (p_printed p ++ p_results p).

(** A result to send is one of its line; workers return only when no line is left, and the
    results are closed only when all have. *)
Record orderly (p : pool) : Prop := {
  or_sending i x r : p_workers p !! i = Some (Sending x r) -> outcome x (Ok r);
  or_read : p_work_closed p = true -> p_stdin p = [];
  or_done : p_panic p = None -> Done ∈ p_workers p -> p_work p = [] /\ p_work_closed p = true;
  or_closed : p_panic p = None -> p_results_closed p = true -> Forall (λ w, w = Done) (p_workers p) }.

Lemma flat_map_insert (l : list worker) i w w' : l !! i = Some w ->
  flat_map taken (<[i := w']> l) ++ taken w ≡ₚ flat_map taken l ++ taken w'.
Proof.
  revert i. induction l as [|x l IH]; intros [|i] Hi; try done; cbn in *.
  - injection Hi as ->. rewrite <- !app_assoc, !(Permutation_app_comm (flat_map taken l)).
    rewrite !app_assoc. f_equiv. apply Permutation_app_comm.
  - rewrite <- !app_assoc. f_equiv. by apply IH.
Qed.

Lemma step_accounted input p p' :
  orderly p -> accounted_for input p -> p_panic p' = None -> run_step p p' -> accounted_for input p'.
Proof.
  intros Ho (seen & Hin & Hout) Hp' Hs.
  destruct Hs as [x l _ _ Hstd _| |i x l _ Hi Hw|i x r _ Hi _|i x e _ _ _|i x r _ Hi _|i _ Hi _ _| |r l _ Hr];
    unfold accounted_for, in_work in *; cbn in Hp' |- *; try done;
    try match goal with |- context [<[i := ?w']> _] => pose proof (flat_map_insert _ _ _ w' Hi) as Hp end;
    cbn [taken] in *; rewrite ?app_nil_r in *.
  - exists seen. split; [|done]. rewrite Hin, Hstd, <- !app_assoc. cbn.
    rewrite !(app_assoc l). apply Permutation_middle.
  - by exists seen.
  - exists seen. split; [|done]. rewrite Hin, Hw, Hp. cbn. f_equiv.
    rewrite <- app_assoc. cbn. rewrite !(app_assoc l). apply Permutation_middle.
  - apply Permutation_app_inv_r in Hp. exists seen. by rewrite Hp.
  - exists (seen ++ [x]). split.
    + rewrite Hin, <- Hp, <- !app_assoc. do 3 f_equiv. apply Permutation_app_comm.
    + rewrite app_assoc. apply Forall2_app; [done|]. constructor; [|done]. by eapply or_sending.
  - exists seen. by rewrite Hp.
  - by exists seen.
  - exists seen. split; [done|]. rewrite Hr in Hout. by rewrite <- app_assoc.
Qed.

Lemma insert_worker_inv (l : list worker) i w j w' :
  <[i := w]> l !! j = Some w' -> w' = w \/ l !! j = Some w'.
Proof. intros [(_ & -> & _)|[_ ?]]%list_lookup_insert_Some; auto. Qed.

(** A worker that was not done cannot be among workers that all were. *)
Lemma not_all_done (l : list worker) i w : l !! i = Some w -> w <> Done -> ~ Forall (λ w, w = Done) l.
Proof. intros Hi Hw Hf. apply Hw. by eapply (Forall_lookup_1 _ _ _ _ Hf). Qed.

Lemma done_insert (l : list worker) i w : w <> Done -> Done ∈ <[i := w]> l -> Done ∈ l.
Proof.
  intros Hw [j [Hj|Hj]%insert_worker_inv]%list_elem_of_lookup; [by subst|].
  by eapply list_elem_of_lookup_2.
Qed.

Lemma step_orderly p p' : orderly p -> run_step p p' -> orderly p'.
Proof.
  intros [Hsend Hread Hdone Hclosed] Hs.
  destruct Hs as [x l Hp Hc Hstd _|Hp Hc Hstd|i x l Hp Hi Hw|i x r Hp Hi Hx|i x e Hp Hi Hx|i x r Hp Hi _
    |i Hp Hi Hw Hc|Hp Hd Hc|r l Hp Hr]; split; cbn; try done; intros;
    repeat match goal with
    | H : <[_ := _]> _ !! _ = Some _ |- _ => apply insert_worker_inv in H as [H|H]
    | H : Done ∈ <[_ := _]> _ |- _ => apply done_insert in H; [|done]
    end; simplify_eq; eauto;
    try (exfalso; eapply not_all_done; [exact Hi|done|by apply Hclosed]).
  all: try (specialize (Hdone Hp) as Hdn; destruct Hdn as [Hdn1 Hdn2]; [done|]; by rewrite ?Hdn1, ?Hdn2 in *).
  congruence.
Qed.

(** Each line is read, taken, compared, sent and printed, each worker returns, and the two
    channels are closed. *)
Definition cost (w : worker) : nat :=
  match w with Idle => 1 | Busy _ => 4 | Sending _ _ => 3 | Done => 0 end.
Definition left_to_do (p : pool) : nat :=
  5 * length (p_stdin p) + 4 * length (p_work p) + (if p_work_closed p then 0 else 1) +
  sum_list_with cost (p_workers p) + length (p_results p) + (if p_results_closed p then 0 else 1).

Lemma cost_insert (l : list worker) i w w' : l !! i = Some w ->
  (sum_list_with cost (<[i := w']> l) + cost w = sum_list_with cost l + cost w')%nat.
Proof.
  revert i. induction l as [|x l IH]; intros [|i] Hi; try done.
  - injection Hi as ->. change (<[0%nat := w']> (w :: l)) with (w' :: l). cbn [sum_list_with]. lia.
  - specialize (IH i Hi). change (<[S i := w']> (x :: l)) with (x :: <[i := w']> l).
    cbn [sum_list_with]. lia.
Qed.

Lemma step_decreases p p' : run_step p p' -> (left_to_do p' < left_to_do p)%nat.
Proof.
  unfold left_to_do. intros [x l _ _ Hstd _|_ Hc _|i x l _ Hi Hw|i x r _ Hi _|i x e _ Hi _|i x r _ Hi _
    |i _ Hi _ _|_ _ Hc|r l _ Hr]; cbn;
    try match goal with |- context [<[i := ?w']> _] => pose proof (cost_insert _ _ _ w' Hi) as Hp end;
    cbn [cost] in *; rewrite ?length_app; try rewrite Hstd; try rewrite Hw; try rewrite Hr;
    try rewrite Hc; cbn [length]; lia.
Qed.

(** No deadlock: a run that has not ended has a step. *)
Lemma unfinished_steps p : (forall input, exists out, outcome input out) ->
  (0 < threads)%nat -> orderly p -> p_panic p = None -> ~ finished p -> exists p', run_step p p'.
Proof.
  intros Ho Ht Hor Hp Hf. destruct (p_results p) as [|r results] eqn:Hr; [|eexists; by eapply step_print].
  assert (p_results_closed p = false) as Hc.
  { destruct (p_results_closed p) eqn:Hc; [|done]. by destruct Hf. }
  destruct (decide (Forall (λ w, w = Done) (p_workers p))) as [Hd|Hd].
  { eexists. by eapply step_close. }
  apply not_Forall_Exists in Hd; [|intros w; apply _].
  apply Exists_exists in Hd as (w & Hw & Hd). apply list_elem_of_lookup in Hw as [i Hi].
  destruct w as [|x|x r|]; [| | |by destruct Hd].
  - destruct (p_work p) as [|x work] eqn:Hw; [|eexists; by eapply step_take].
    destruct (p_work_closed p) eqn:Hcl; [eexists; by eapply step_stop|].
    destruct (p_stdin p) as [|x l] eqn:Hstd; [eexists; by eapply step_eof|].
    eexists. eapply step_read; [done|done|done|]. rewrite Hw. unfold work_capacity. cbn. lia.
  - destruct (Ho x) as [[r|e] Hx]; eexists; [by eapply step_call|by eapply step_panic].
  - eexists. eapply step_send; [done|done|]. rewrite Hr. unfold results_capacity. cbn. lia.
Qed.

(** The states that a run may begin with, for some lines of input. *)
Definition begins (input : list string) (p : pool) : Prop :=
  p = started input threads \/ exists x, input = [x] /\ p = single x.

Lemma idle_takes_nothing n : flat_map taken (replicate n Idle) = [].
Proof. by induction n. Qed.
Lemma idle_cost n : sum_list_with cost (replicate n Idle) = n.
Proof. induction n as [|n IH]; cbn; [done|]. by rewrite IH. Qed.

Lemma begins_accounted input p : begins input p -> accounted_for input p.
Proof.
  intros [->|(x & -> & ->)]; exists []; (split; [|constructor]); unfold in_work; cbn; [|done].
  by rewrite idle_takes_nothing, !app_nil_r.
Qed.

Lemma begins_orderly input p : begins input p -> orderly p.
Proof.
  intros [->|(x & -> & ->)]; split; cbn; try done.
  - by intros i x r [? _]%lookup_replicate.
  - by intros _ [? _]%elem_of_replicate.
  - by intros [|i] y r.
Qed.

Lemma begins_cost input p : begins input p -> (left_to_do p <= 5 * length input + threads + 2)%nat.
Proof.
  intros [->|(x & -> & ->)]; unfold left_to_do; cbn; [|lia]. rewrite idle_cost. lia.
Qed.

Lemma step_workers p p' : run_step p p' -> length (p_workers p') = length (p_workers p).
Proof. by intros []; cbn; rewrite ?length_insert. Qed.

(** A step is taken only by a process that has not panicked. *)
Lemma step_from p p' : run_step p p' -> p_panic p = None.
Proof. by intros []. Qed.

Lemma reachable_inv input p0 p : begins input p0 -> rtc run_step p0 p ->
  orderly p /\ (p_panic p = None -> accounted_for input p) /\
  length (p_workers p) = length (p_workers p0).
Proof.
  intros Hb. apply (rtc_ind_r (λ p, orderly p /\ (p_panic p = None -> accounted_for input p) /\
    length (p_workers p) = length (p_workers p0))).
  - split; [by eapply begins_orderly|]. split; [|done]. intros _. by apply begins_accounted.
  - intros y z _ Hs (Ho & Ha & Hl). pose proof (step_from _ _ Hs) as Hy. split; [by eapply step_orderly|].
    split; [|by rewrite (step_workers _ _ Hs)]. intros Hz. eapply step_accounted; eauto.
Qed.

Lemma done_takes_nothing l : Forall (λ w, w = Done) l -> flat_map taken l = [].
Proof. by induction 1 as [|w l -> _ IH]. Qed.

Lemma begins_workers input p : (0 < threads)%nat -> begins input p -> p_workers p <> [].
Proof. intros Ht [->|(x & -> & ->)]; cbn; [|done]. by destruct threads; [lia|]. Qed.

Lemma finished_all input p0 p : (0 < threads)%nat -> begins input p0 -> rtc run_step p0 p -> finished p ->
  exists seen, seen ≡ₚ input /\ Forall2 (λ x r, outcome x (Ok r)) seen (p_printed p).
Proof.
  intros Ht Hb Hr (Hp & Hc & Hres). pose proof (begins_workers _ _ Ht Hb) as Hne.
  destruct (reachable_inv _ _ _ Hb Hr) as (Ho & Ha & Hlen).
  destruct (Ha Hp) as (seen & Hin & Hout). rewrite Hres, app_nil_r in Hout. exists seen. split; [|done].
  pose proof (or_closed _ Ho Hp Hc) as Hd. unfold in_work in Hin. rewrite (done_takes_nothing _ Hd) in Hin.
  assert (Done ∈ p_workers p) as Hdone.
  { destruct (p_workers p) as [|w ws] eqn:Hws; [by symmetry in Hlen; apply nil_length_inv in Hlen|].
    apply Forall_cons in Hd as [-> _]. by left. }
  destruct (or_done _ Ho Hp Hdone) as [Hw Hcl]. by rewrite Hin, Hw, (or_read _ Ho Hcl).
Qed.

Lemma pool_answers_all input n p0 p :
  (0 < threads)%nat -> (forall input, exists out, outcome input out) ->
  begins input p0 -> nsteps run_step n p0 p ->
  (n <= 5 * length input + threads + 2)%nat /\
  (finished p \/ p_panic p <> None \/ exists p', run_step p p') /\
  (finished p -> exists seen, seen ≡ₚ input /\ Forall2 (λ x r, outcome x (Ok r)) seen (p_printed p)).
Proof.
  intros Ht Ho Hb Hn. assert (rtc run_step p0 p) as Hr by (apply rtc_nsteps; by exists n). split; [|split].
  - etrans; [|by apply begins_cost]. clear -Hn. induction Hn as [|n x y z Hs Hn IH]; [lia|].
    apply step_decreases in Hs. lia.
  - destruct (decide (p_panic p = None)) as [Hp|Hp]; [|auto].
    destruct (decide (p_results_closed p = true /\ p_results p = [])) as [[Hc He]|Hf]; [by left|].
    do 2 right. apply unfinished_steps; [done|done|by eapply reachable_inv|done|]. intros (_ & Hc & He). by apply Hf.
  - intros Hf. by eapply finished_all.
Qed.

(** A panic of the process is one of a call. *)
Lemma panic_called p0 p e : p_panic p0 = None -> rtc run_step p0 p -> p_panic p = Some e ->
  exists x, outcome x (Err e).
Proof.
  intros H0 Hr. revert e Hr.
  assert (rtc run_step p0 p -> forall e, p_panic p = Some e -> exists x, outcome x (Err e)); [|eauto].
  apply (rtc_ind_r (λ p, forall e, p_panic p = Some e -> exists x, outcome x (Err e))); [congruence|].
  intros y z _ Hs IH e Hz. destruct Hs; cbn in Hz; try (by eapply IH). injection Hz as <-. eauto.
Qed.
End Pool.

(** ** The exit status *)

(** What does not count as an error. *)
Definition passed (r : Result) : Prop :=
  R_Error r = None /\ R_Equal r = true \/ R_SkipReason r <> NotSkipped.

Lemma count_result_printable printSkipped s r : printable r -> exists s',
  count_result printSkipped s r = Ok s' /\ s_results s' = s_results s + 1 /\
  (s_errors s' = s_errors s /\ passed r \/ s_errors s' = s_errors s + 1 /\ ~ passed r).
Proof.
  unfold count_result, printable, passed. intros Hp.
  destruct (bool_decide (R_Error r <> None) || negb (R_Equal r)) eqn:Hb.
  - rewrite orb_true_iff, bool_decide_eq_true, negb_true_iff in Hb.
    destruct Hp as [[He Hq]|[d Hd]]; [destruct Hb; congruence|]. rewrite Hd.
    case_bool_decide as Hs; [destruct printSkipped|]; eexists; (split; [done|]); cbn; (split; [done|]);
      [left|left|right]; (split; [done|]); [by right|by right|].
    intros [[? ?]|?]; [|done]. destruct Hb; congruence.
  - rewrite orb_false_iff, bool_decide_eq_false, negb_false_iff in Hb. destruct Hb as [He Hq].
    eexists. split; [done|]. cbn. split; [done|]. left. split; [done|]. left.
    split; [|done]. by apply dec_stable.
Qed.

Lemma count_results_printable printSkipped results s : Forall printable results -> exists s',
  count_results printSkipped s results = Ok s' /\ s_results s' = s_results s + Z.of_nat (length results) /\
  s_errors s <= s_errors s' /\ (s_errors s' = s_errors s <-> Forall passed results).
Proof.
  intros Hr. revert s. induction Hr as [|r results Hr _ IH]; intros s; cbn [count_results].
  - exists s. repeat split; cbn; try lia; constructor.
  - destruct (count_result_printable printSkipped s r Hr) as (s1 & -> & Hn & He). cbn [mbind result_bind].
    destruct (IH s1) as (s' & -> & Hn' & Hle & Hiff). exists s'. split; [done|].
    cbn [length]. repeat split; [lia|lia| |].
    + intros Heq. destruct He as [[He Hp]|[He _]]; [|lia]. constructor; [done|]. apply Hiff. lia.
    + intros [Hp Hall]%Forall_cons. destruct He as [[He _]|[_ He]]; [|done]. apply Hiff in Hall. lia.
Qed.

Section Run.
Context `{SdkOps} (QueryEscape : string -> string).
Context `{Codec models.AccountResponse} `{Codec models.Account} `{Codec models.Box}.

(** What a call for a line may give, whatever the servers answer. *)
Definition answers (processor : Processor) (config : Params) (input : string) (out : result Result) : Prop :=
  exists Do, CallProcessor QueryEscape Do processor input config = Some out.

Lemma answers_total processor config input : exists out, answers processor config input out.
Proof.
  destruct (CallProcessor_sends QueryEscape (λ _ _ _, Err (ErrMsg "timeout")) processor config input)
    as (out & Hc & _). exists out. by eexists.
Qed.

(** Only a processor that panics makes a call panic. *)
Lemma answers_panics processor config input e : answers processor config input (Err e) -> panics processor.
Proof.
  intros (Do & Hc). destruct (CallProcessor_sends QueryEscape Do processor config input) as (out & Ho & Hr).
  rewrite Hc in Ho. by injection Ho as <-.
Qed.

(** Every line gets a result from the comparison of structs, whatever the servers answer. *)
Lemma struct_answers Do config input :
  exists r, CallProcessor QueryEscape Do StructProcessor.processor input config = Some (Ok r).
Proof.
  destruct (CallProcessor_sends QueryEscape Do StructProcessor.processor config input) as ([r|e] & Hc & Hr);
    [by exists r|]. by apply StructProcessor_never_panics in Hr.
Qed.

(** C36. The validator with at least one worker thread and the comparison of structs, over the
    lines of the standard input, whatever the servers answer and however the goroutines are
    scheduled: every call gives a result; the reader, the workers and the printer, with channels of
    the capacities that the code gives them, take no more steps than there are lines and workers to
    account for, never panic and never deadlock; and when the printer's loop ends it has received
    exactly one result for each line, one that [CallProcessor] gives for it. *)
Theorem Start_answers_all config stdin threads n p :
  let outcome := answers StructProcessor.processor config in
  (0 < threads)%nat -> nsteps (step outcome threads) n (started stdin threads) p ->
  (forall Do x, exists r, CallProcessor QueryEscape Do StructProcessor.processor x config = Some (Ok r)) /\
  (n <= 5 * length stdin + threads + 2)%nat /\ p_panic p = None /\
  (finished p \/ exists p', step outcome threads p p') /\
  (finished p -> exists seen, seen ≡ₚ stdin /\ Forall2 (λ x r, outcome x (Ok r)) seen (p_printed p)).
Proof.
  intros outcome Ht Hn. split; [by intros; apply struct_answers|].
  destruct (pool_answers_all outcome threads stdin n (started stdin threads) p) as (Hb & Hs & Hf);
    [done|by intros; apply answers_total|by left|done|].
  assert (p_panic p = None) as Hp.
  { destruct (p_panic p) as [e|] eqn:He; [|done].
    destruct (panic_called outcome threads (started stdin threads) p e) as [x Hx];
      [done|apply rtc_nsteps; by exists n|done|].
    by apply answers_panics, StructProcessor_never_panics in Hx. }
  split_and!; [done|done| |done]. destruct Hs as [?|[?|?]]; [by left|done|by right].
Qed.
End Run.

(** ** A sample run: one line, one worker *)

Module SampleRun.
#[local] Existing Instance Sample.sdk.

Definition response_codec : Codec models.AccountResponse := {|
  encodeJSON _ := "indexer";
  DecodeJSON _ := Ok {| models.AccountResponse_Account := SampleCompare.of_indexer;
                        models.AccountResponse_CurrentRound := 5 |} |}.
Definition account_codec : Codec models.Account := {|
  encodeJSON _ := "algod"; DecodeJSON _ := Ok SampleCompare.of_algod |}.
Definition box_codec : Codec models.Box := {|
  encodeJSON _ := "box"; DecodeJSON _ := Ok models.zero_Box |}.
Definition object_codec : Codec (option (list (string * DynamicProcessor.value))) := {|
  encodeJSON _ := "{}"; DecodeJSON _ := Ok (Some []) |}.
Definition value_codec : Codec DynamicProcessor.value := {|
  encodeJSON _ := "null"; DecodeJSON _ := Ok DynamicProcessor.V_nil |}.

Definition config : Params := {|
  AlgodURL := "localhost:8080"; AlgodToken := "a"; IndexerURL := "localhost:8980";
  IndexerToken := "b"; Retries := 5; RetryDelayMS := 1000 |}.

Definition servers (n : nat) (url auth : string) : result HttpResponse :=
  Ok {| StatusCode := 200; Status := "200 OK"; Body := "data"; ioErr := None |}.

Definition line : string := "an address of thirty-two letters".

Definition verdict : Result := set_retries equal_result 0 (set_address line).

Abbreviation struct := (@StructProcessor.processor response_codec account_codec box_codec).

Lemma line_equal : callProcessorAddress servers struct line config = Some (Ok verdict).
Proof. vm_compute. reflexivity. Qed.

Abbreviation outcome := (answers id struct config).

Lemma line_answers : outcome line (Ok verdict).
Proof. exists servers. vm_compute. reflexivity. Qed.

(** The line is read, taken, compared, sent and printed. *)
Definition after : pool := {|
  p_stdin := []; p_work := []; p_work_closed := true; p_workers := [Done];
  p_results := []; p_results_closed := true; p_printed := [verdict]; p_panic := None |}.

Lemma run : nsteps (step outcome 1) 8 (started [line] 1) after.
Proof.
  eapply nsteps_l; [eapply step_read; try reflexivity; vm_compute; lia|].
  eapply nsteps_l; [by eapply (step_take _ _ _ 0)|].
  eapply nsteps_l; [by eapply step_eof|].
  eapply nsteps_l; [eapply (step_call _ _ _ 0); [done|done|exact line_answers]|].
  eapply nsteps_l; [eapply (step_send _ _ _ 0); [done|done|vm_compute; lia]|].
  eapply nsteps_l; [by eapply (step_stop _ _ _ 0)|].
  eapply nsteps_l; [eapply step_close; [done|by repeat constructor|done]|].
  eapply nsteps_l; [by eapply step_print|]. apply nsteps_O.
Qed.

Lemma equal_accounts_agree_witness : exists addr algodData indexerData k algod indexer,
  normalizeAddress line = Ok addr /\ Z.of_nat k <= Z.max 0 (Retries config) /\
  getData servers 0 (AlgodURL config +:+ "/v2/accounts/" +:+ addr) (AlgodToken config) = (algodData, None) /\
  getData servers (S k) (IndexerURL config +:+ "/v2/accounts/" +:+ addr) (IndexerToken config) =
    (indexerData, None) /\
  @DecodeJSON _ account_codec algodData = Ok algod /\
  @DecodeJSON _ response_codec indexerData = Ok indexer /\
  (StructProcessor.listed_once (models.AccountResponse_Account indexer) algod -> models.Account_Amount algod = 0 \/
     StructProcessor.same_account (models.AccountResponse_Account indexer) algod).
Proof.
  apply (@equal_accounts_agree Sample.sdk response_codec account_codec box_codec servers config line verdict).
  - exact line_equal.
  - reflexivity.
Defined.

Lemma Start_answers_all_witness :
  (8 <= 5 * 1 + 1 + 2)%nat /\
  exists seen, seen ≡ₚ [line] /\ Forall2 (λ x r, outcome x (Ok r)) seen [verdict].
Proof.
  destruct (@Start_answers_all Sample.sdk id response_codec account_codec box_codec config [line] 1 8 after)
    as (_ & Hn & _ & _ & Hf).
  - lia.
  - exact run.
  - split; [exact Hn|]. by apply Hf.
Defined.
End SampleRun.
