(* ===== verification/Report.v ===== *)
(** * The validator command: [cmd/validator/core/command.go]

    The arguments that are refused, what is compared, the log of errors, the progress and the
    final numbers that are printed, and the exit status of a whole run. *)

From Stdlib Require Import Ascii String.
From S2P Require Import Prelude GoStd Sdk Idb Models Encoding ResourceQuery AccountQuery Params Convert.
From S2P Require Import Disabled Interface Handlers Compare Validator.

(** ** The error log *)

(** What [ErrorLog.Printf] writes for a reason to skip; the log ends every entry with one new line. *)
Definition skip_message (skip : Skip) : string :=
  if bool_decide (skip = SkipLimitReached) then
    "Address skipped: too many asset and/or accounts to return"
  else if bool_decide (skip = SkipAccountNotFound) then
    "Address skipped: account/appid+boxname not found, probably deleted"
  else if bool_decide (skip = SkipBoxNotFound) then "Box skipped: not found"
  else if bool_decide (skip = SkipBoxFailedLookup) then "Box skipped: failed lookup"
  else if bool_decide (skip = SkipBoxWrongAppid) then "Box skipped: wrong appid"
  else if bool_decide (skip = SkipBoxMultiple) then "Box skipped: multiple boxes"
  else if bool_decide (skip = SkipBoxWrongBox) then "Box skipped: wrong box"
  else "Address skipped: Unknown reason (" +:+ skip +:+ ")".

Definition when (b : bool) (l : list string) : list string := if b then l else [].

(** A request with curl. *)
Definition curl (token url path : string) : string :=
  "curl -q -s -H 'Authorization: Bearer " +:+ token +:+ "' '" +:+ url +:+ path +:+ "?pretty'".
Definition curl_commands (config : Params) (path : string) : list string := [
  "echo 'Algod:'"; curl (AlgodToken config) (AlgodURL config) path;
  "echo 'Indexer:'"; curl (IndexerToken config) (IndexerURL config) path].

Section Printer.
(** The text of an error, and of the time when the [n]-th result is printed. *)
Context (error_text : error -> string) (time_text : Z -> string).
Context (config : Params) (printCurl printSkipped : bool).

(** What is logged of a result; without details this is a panic. *)
Definition report_lines (n : Z) (r : Result) : result (list string) :=
  match R_Details r with
  | None => Err (ErrPanic "nil pointer dereference")
  | Some d =>
      let is_address := bool_decide (E_Resource d = "address") in
      let is_box := bool_decide (E_Resource d = "box") in
      Ok (["==================================================================="; time_text n;
           "Resource: " +:+ E_Resource d;
           "Rounds Match: " +:+ (if R_SameRound r then "true" else "false")] ++
          when is_address ["Account: " +:+ E_Address d] ++
          when is_box ["Appid: " +:+ E_Appid d; "Boxname: " +:+ E_Boxname d] ++
          ["Retries: " +:+ FormatInt (R_Retries r)] ++
          (if bool_decide (R_SkipReason r <> NotSkipped) then [skip_message (R_SkipReason r)]
           else match R_Error r with
           | Some err => ["Processor error: " +:+ error_text err]
           | None =>
               ["Algod Details:" +:+ nl +:+ E_Algod d; "Indexer Details:" +:+ nl +:+ E_Indexer d;
                "Differences:"] ++
               map (λ diff, "     - " +:+ diff) (E_Diff d) ++
               when (printCurl && is_address) (curl_commands config ("/v2/accounts/" +:+ E_Address d)) ++
               when (printCurl && is_box)
                 (curl_commands config ("/v2/applications/" +:+ E_Appid d +:+ "/box?name=b64:" +:+ E_Boxname d))
           end))
  end.

(** ** The loop over the results *)

(** [fmt.Printf("%-8d")] *)
Definition pad8 (s : string) : string := s +:+ String.concat "" (replicate (8 - String.length s) " ").

Record printer := { pr_stats : stats; pr_out : string; pr_log : list string }.

Definition progress (s : stats) (r : Result) : string :=
  (if s_results s mod 100 =? 0 then nl +:+ pad8 (FormatInt (s_results s)) +:+ " : " else "") +:+
  resultChar (R_Equal r) (R_Retries r) (R_SkipReason r).

(** The result is logged. *)
Definition reported (r : Result) : bool :=
  (bool_decide (R_Error r <> None) || negb (R_Equal r)) &&
  (bool_decide (R_SkipReason r = NotSkipped) || printSkipped).

Definition print_result (p : printer) (r : Result) : result printer :=
  s ← count_result printSkipped (pr_stats p) r;
  lines ← (if reported r then report_lines (s_results (pr_stats p)) r else Ok []);
  Ok {| pr_stats := s; pr_out := pr_out p +:+ progress (pr_stats p) r; pr_log := pr_log p ++ lines |}.

Fixpoint print_results (p : printer) (results : list Result) : result printer :=
  match results with
  | [] => Ok p
  | r :: results => p ← print_result p r; print_results p results
  end.

Definition no_output : printer := {| pr_stats := no_stats; pr_out := ""; pr_log := [] |}.

(** The numbers at the end; the rate and the duration depend on the clock. *)
Definition final_stats (rate duration : string) (s : stats) : list string :=
  ["Number of errors: [" +:+ FormatInt (s_errors s) +:+ " / " +:+ FormatInt (s_results s) +:+ "]"] ++
  map (λ skip, "Skipped (" +:+ skip +:+ "): " +:+ FormatInt (default 0 (s_skipped s !! skip)))
    [SkipLimitReached; SkipAccountNotFound; SkipBoxNotFound; SkipBoxFailedLookup; SkipBoxWrongAppid;
     SkipBoxMultiple; SkipBoxWrongBox] ++
  ["Retry count: " +:+ FormatInt (s_retries s); "Checks per second: " +:+ rate;
   "Test duration: " +:+ duration].
End Printer.

(** ** Arguments and work *)

Section Arguments.
(** [os.Stat] and [os.OpenFile]: the error if there is one. *)
Context (Stat : string -> option error) (IsNotExist : option error -> bool) (OpenFile : string -> option error).

(** An error is logged and ends the process with status 1. *)
Definition check_arguments (config : Params) (errorLogFile addr box : string) : result unit :=
  if bool_decide (AlgodURL config = "") then Err (ErrMsg "algod-url parameter is required.")
  else if bool_decide (AlgodToken config = "") then Err (ErrMsg "algod-token parameter is required.")
  else if bool_decide (IndexerURL config = "") then Err (ErrMsg "indexer-url parameter is required.")
  else if negb (bool_decide (box = "")) && negb (bool_decide (addr = "")) then
    Err (ErrMsg "You can validate a single address or a single box but not both.")
  else if bool_decide (errorLogFile = "") then Ok tt
  else if negb (IsNotExist (Stat errorLogFile)) then Err (ErrMsg "Error log already exists: %s")
  else match OpenFile errorLogFile with
       | Some _ => Err (ErrMsg "Unable to open error log file: %s")
       | None => Ok tt
       end.
End Arguments.

(** What is to be checked, and how [run] begins: with the one resource asked for, or with workers
    that read the lines of the standard input. *)
Definition lines_of (addr box : string) (stdin : list string) : list string :=
  if negb (bool_decide (addr = "")) then ["address," +:+ addr]
  else if negb (bool_decide (box = "")) then ["box," +:+ box] else stdin.
Definition launched (addr box : string) (threads : nat) (stdin : list string) : pool :=
  if negb (bool_decide (addr = "")) then single ("address," +:+ addr)
  else if negb (bool_decide (box = "")) then single ("box," +:+ box) else started stdin threads.

(** ** Theorems *)

Section Log.
Context (error_text : error -> string) (time_text : Z -> string).
Context (config : Params) (printCurl printSkipped : bool).
Abbreviation print := (print_results error_text time_text config printCurl printSkipped).

(** What is logged of the [n]-th result. *)
Definition entry (n : Z) (r : Result) : list string :=
  if reported printSkipped r then
    match report_lines error_text time_text config printCurl n r with Ok lines => lines | Err _ => [] end
  else [].

Fixpoint entries_from (n : Z) (results : list Result) : list string :=
  match results with
  | [] => []
  | r :: results => entry n r ++ entries_from (n + 1) results
  end.

Lemma printable_reported r n : printable r -> reported printSkipped r = true ->
  exists lines, report_lines error_text time_text config printCurl n r = Ok lines.
Proof.
  unfold printable, reported. intros [[He Hq]|[d Hd]] Hr.
  - rewrite He, Hq in Hr. done.
  - unfold report_lines. rewrite Hd. eauto.
Qed.

(** The printer does not fail, counts as [resultsPrinter] of [Validator] does, and logs every
    reported result once, in order. *)
Lemma print_exact results p : Forall printable results -> exists p',
  print p results = Ok p' /\ count_results printSkipped (pr_stats p) results = Ok (pr_stats p') /\
  pr_log p' = pr_log p ++ entries_from (s_results (pr_stats p)) results.
Proof.
  intros Hr. revert p. induction Hr as [|r results Hr _ IH]; intros p; cbn [print_results count_results entries_from].
  - exists p. by rewrite app_nil_r.
  - destruct (count_result_printable printSkipped (pr_stats p) r Hr) as (s & Hs & Hn & _).
    unfold print_result. rewrite Hs. cbn [mbind result_bind].
    assert (exists lines, (if reported printSkipped r
      then report_lines error_text time_text config printCurl (s_results (pr_stats p)) r else Ok []) = Ok lines /\
      entry (s_results (pr_stats p)) r = lines) as (lines & -> & Hl).
    { unfold entry. destruct (reported printSkipped r) eqn:Hrep; [|by eexists].
      destruct (printable_reported r (s_results (pr_stats p)) Hr Hrep) as [lines ->]. by eexists. }
    cbn [mbind result_bind]. edestruct IH as (p' & Hp & Hc & Hlog). exists p'. split_and!; [exact Hp|exact Hc|].
    rewrite Hlog. cbn [pr_log pr_stats]. by rewrite Hl, <- app_assoc, Hn.
Qed.
End Log.

(** An error is always logged. *)
Lemma failed_reported printSkipped r : ~ passed r -> reported printSkipped r = true.
Proof.
  unfold passed, reported. intros Hp. apply andb_true_iff. split.
  - apply orb_true_iff. destruct (decide (R_Error r = None)) as [He|He].
    + right. apply negb_true_iff. destruct (R_Equal r) eqn:Hq; [|done]. destruct Hp. by left.
    + left. by apply bool_decide_eq_true.
  - apply orb_true_iff. left. apply bool_decide_eq_true. apply dec_stable. intros Hs. apply Hp. by right.
Qed.

Section RunTheorems.
Context `{SdkOps} (QueryEscape : string -> string).
Context `{Codec models.AccountResponse} `{Codec models.Account} `{Codec models.Box}.
Context `{Codec (option (list (string * DynamicProcessor.value)))} `{Codec DynamicProcessor.value}.
Context (error_text : error -> string) (time_text : Z -> string).

Lemma launched_begins addr box threads stdin :
  begins threads (lines_of addr box stdin) (launched addr box threads stdin).
Proof.
  unfold begins, lines_of, launched.
  destruct (negb (bool_decide (addr = ""))); [eauto|]. destruct (negb (bool_decide (box = ""))); eauto.
Qed.

Lemma launched_no_panic addr box threads stdin : p_panic (launched addr box threads stdin) = None.
Proof.
  unfold launched. destruct (negb (bool_decide (addr = ""))); [done|].
  by destruct (negb (bool_decide (box = ""))).
Qed.

Lemma answers_printable id processor config seen results :
  MakeProcessor id = Ok processor ->
  Forall2 (λ x r, answers QueryEscape processor config x (Ok r)) seen results -> Forall printable results.
Proof.
  intros Hm. induction 1 as [|x r seen results (Do & Hc) _ IH]; constructor; [|done].
  destruct (CallProcessor_sends QueryEscape Do processor config x) as (out & Ho & Hr).
  rewrite Hc in Ho. injection Ho as <-. apply Hr. by eapply MakeProcessor_explained.
Qed.

(** The output for results that can be printed. *)
Lemma printed_exact config printCurl printSkipped results : Forall printable results ->
  exists q, print_results error_text time_text config printCurl printSkipped no_output results = Ok q /\
    s_results (pr_stats q) = Z.of_nat (length results) /\
    pr_log q = entries_from error_text time_text config printCurl printSkipped 0 results /\
    (exit_status (pr_stats q) = 0 <-> Forall passed results).
Proof.
  intros Hp. destruct (print_exact error_text time_text config printCurl printSkipped results no_output Hp)
    as (q & Hprint & Hcount & Hlog).
  destruct (count_results_printable printSkipped results no_stats Hp) as (s & Hs & Hn & Hle & Hiff).
  cbn [no_output pr_stats] in Hcount. rewrite Hs in Hcount. injection Hcount as ->.
  exists q. split_and!; [done|done|done|].
  unfold exit_status. cbn in Hle, Hiff. destruct (Z.ltb_spec 0 (s_errors (pr_stats q))); rewrite <- Hiff; lia.
Qed.

(** C30. A run of the command with at least one worker thread, for one resource or for the lines of
    the standard input, with either processor, whatever the servers answer and however the
    goroutines are scheduled: it takes a bounded number of steps, and does not stop before the
    printer's loop ends unless a comparison panics, which only the processor of dynamic values does.
    When the loop ends, exactly one result was printed for each line, printing did not fail, the
    log has an entry for every result that is an error (and for the skipped ones if asked for) in the
    order of printing, and the exit status is 0 exactly if every line was found equal or skipped. *)
Theorem run_exact id processor config printCurl printSkipped addr box threads stdin n p :
  let outcome := answers QueryEscape processor config in
  let lines := lines_of addr box stdin in
  MakeProcessor id = Ok processor -> (0 < threads)%nat ->
  nsteps (step outcome threads) n (launched addr box threads stdin) p ->
  (n <= 5 * length lines + threads + 2)%nat /\
  (finished p \/ (p_panic p <> None /\ id = 1) \/ exists p', step outcome threads p p') /\
  (finished p -> exists seen q, seen ≡ₚ lines /\
    Forall2 (λ x r, outcome x (Ok r)) seen (p_printed p) /\
    print_results error_text time_text config printCurl printSkipped no_output (p_printed p) = Ok q /\
    s_results (pr_stats q) = Z.of_nat (length lines) /\
    pr_log q = entries_from error_text time_text config printCurl printSkipped 0 (p_printed p) /\
    (forall r, r ∈ p_printed p -> ~ passed r -> reported printSkipped r = true) /\
    (exit_status (pr_stats q) = 0 <-> Forall passed (p_printed p))).
Proof.
  intros outcome lines Hm Ht Hn.
  destruct (pool_answers_all outcome threads lines n (launched addr box threads stdin) p)
    as (Hb & Hs & Hf); [done|by intros; apply answers_total|apply launched_begins|done|].
  split; [done|]. split.
  - destruct Hs as [Hs|[Hs|Hs]]; [by left|right; left|by do 2 right]. split; [done|].
    destruct (p_panic p) as [e|] eqn:He; [|done].
    destruct (panic_called outcome threads (launched addr box threads stdin) p e) as [x Hx];
      [apply launched_no_panic|apply rtc_nsteps; by exists n|done|].
    by apply answers_panics, (MakeProcessor_panics id) in Hx.
  - intros (seen & Hseen & Hout)%Hf. pose proof (answers_printable _ _ _ _ _ Hm Hout) as Hp.
    destruct (printed_exact config printCurl printSkipped _ Hp) as (q & Hq1 & Hq2 & Hq3 & Hq4).
    exists seen, q. split_and!; [done|done|done| |done|by intros; apply failed_reported|done].
    by rewrite Hq2, <- (Forall2_length _ _ _ Hout), Hseen.
Qed.

(** With no workers nothing is checked, and the status says that all is well. *)
Lemma no_threads_passes processor config printCurl printSkipped stdin p :
  rtc (step (answers QueryEscape processor config) 0) (started stdin 0) p ->
  exists q, print_results error_text time_text config printCurl printSkipped no_output (p_printed p) = Ok q /\
    s_results (pr_stats q) = 0 /\ exit_status (pr_stats q) = 0.
Proof.
  intros Hr. assert (p_workers p = [] /\ p_results p = [] /\ p_printed p = []) as (_ & _ & ->); [|by eexists].
  revert Hr. apply (rtc_ind_r (λ p, p_workers p = [] /\ p_results p = [] /\ p_printed p = [])); [done|].
  intros y z _ Hs (Hw & Hres & Hpr). destruct Hs; cbn in *; rewrite ?Hw, ?Hres in *; try done; by rewrite Hw in *.
Qed.

(** So it ends: the results are closed at once. *)
Lemma no_threads_ends processor config stdin :
  exists p, step (answers QueryEscape processor config) 0 (started stdin 0) p /\ finished p.
Proof. eexists. split; [by eapply step_close; [done|constructor|]|done]. Qed.
End RunTheorems.

(** Unless the commands are asked for, the log has no token and no address of a server. *)
Lemma report_hides_tokens error_text time_text config config' n r :
  report_lines error_text time_text config false n r = report_lines error_text time_text config' false n r.
Proof. done. Qed.

(** ** One account that both servers agree on *)

Module SampleReport.
#[local] Existing Instance Sample.sdk.
Import SampleRun.

Lemma run_exact_witness : exists seen q, seen ≡ₚ lines_of "" "" [line] /\
  Forall2 (λ x r, answers id struct config x (Ok r)) seen [verdict] /\
  print_results (λ _, "error") (λ _, "now") config true true no_output [verdict] = Ok q /\
  s_results (pr_stats q) = Z.of_nat (length (lines_of "" "" [line])) /\
  pr_log q = entries_from (λ _, "error") (λ _, "now") config true true 0 [verdict] /\
  (forall r, r ∈ [verdict] -> ~ passed r -> reported true r = true) /\
  (exit_status (pr_stats q) = 0 <-> Forall passed [verdict]).
Proof.
  apply (@run_exact Sample.sdk id response_codec account_codec box_codec object_codec value_codec
           (λ _, "error") (λ _, "now") 0 struct config true true "" "" 1 [line] 8 after).
  - reflexivity.
  - lia.
  - exact run.
  - done.
Defined.

(** A difference is logged with the resource, the account and each difference. *)
Definition differs : Result := {|
  R_Equal := false; R_SameRound := true; R_Error := None; R_SkipReason := NotSkipped; R_Retries := 12;
  R_Details := Some {| E_Resource := "address"; E_Address := "A"; E_Appid := ""; E_Boxname := "";
                       E_Algod := "x"; E_Indexer := "y"; E_Diff := ["amount"] |} |}.

Lemma differs_printed : exists p,
  print_results (λ _, "error") (λ _, "now") config false false no_output [verdict; differs] = Ok p /\
  pr_out p = nl +:+ "0        : .X" /\ s_errors (pr_stats p) = 1 /\ s_retries (pr_stats p) = 12 /\
  pr_log p = ["==================================================================="; "now";
    "Resource: address"; "Rounds Match: true"; "Account: A"; "Retries: 12"; "Algod Details:" +:+ nl +:+ "x";
    "Indexer Details:" +:+ nl +:+ "y"; "Differences:"; "     - amount"].
Proof. eexists. split; [reflexivity|]. by vm_compute. Qed.
End SampleReport.
