(* ===== verification/Tools.v ===== *)
(** * Small programs and packages

    The database without data of [idb/dummy], the version text, the collectors of
    [util/metrics], the generator [cmd/texttosource], the program [misc/convertToAddress], the
    queries of [cmd/e2equeries] with the checks of [util/test/testutil.go], and the rest of
    [util/util.go]. *)

From Stdlib Require Import Ascii String.
From S2P Require Import Prelude GoStd Sdk Idb Models Util Encoding Db Postgres BlockQuery ResourceQuery.
From S2P Require Import AccountQuery Rewind Params Convert Disabled Interface Handlers Service Routes Server Validator.

(** ** [idb/dummy] *)

Module Dummy.
Section Dummy.
Context {S : Type} `{SdkOps}.

(** A channel of rows and the round; [None] is the nil channel, on which a receiver waits for
    ever. *)
Definition channel (R : Type) : Type := option (list R) * Z.

Definition dummy_LoadGenesis (genesis : Genesis) : Tx S unit := tx_ret tt.
Definition dummy_GetNextRoundToAccount : Tx S Z := tx_ret 0.
Definition dummy_GetNextRoundToLoad : Tx S Z := tx_ret 0.
Definition dummy_GetSpecialAccounts : Tx S SpecialAddresses :=
  tx_ret {| FeeSink := zeroAddress; RewardsPool := zeroAddress |}.
Definition dummy_BlockHeaders (bf : BlockHeaderFilter) : Tx S (channel BlockRow) := tx_ret (None, 0).
Definition dummy_Transactions (tf : TransactionFilter) : Tx S (channel TxnRow) := tx_ret (None, 0).
Definition dummy_GetAccounts (opts : AccountQueryOptions) : Tx S (channel AccountRow) := tx_ret (None, 0).
Definition dummy_Assets (filter : AssetsQuery) : Tx S (channel AssetRow) := tx_ret (None, 0).
Definition dummy_AssetBalances (abq : AssetBalanceQuery) : Tx S (channel AssetBalanceRow) := tx_ret (None, 0).
Definition dummy_Applications (filter : ApplicationQuery) : Tx S (channel ApplicationRow) := tx_ret (None, 0).
Definition dummy_AppLocalState (filter : ApplicationQuery) : Tx S (channel AppLocalStateRow) := tx_ret (None, 0).
Definition dummy_ApplicationBoxes (filter : ApplicationBoxQuery) : Tx S (channel ApplicationBoxRow) :=
  tx_err (ErrPanic "not implemented").
Definition dummy_Health : Tx S Interface.Health := tx_ret {|
  HL_Data := None; HL_Round := 0; HL_IsMigrating := false; HL_DBAvailable := false; HL_Error := None |}.
(** The zero genesis is given as its parts. *)
Definition dummy_GetNetworkState (zero : Genesis) : Tx S NetworkState :=
  tx_ret {| NS_GenesisHash := Genesis_Hash zero |}.
Definition dummy_SetNetworkState (genesis : Digest) : Tx S unit := tx_ret tt.
Definition dummy_DeleteTransactions (keep : Z) : Tx S unit := tx_ret tt.
End Dummy.
End Dummy.

(** The daemon with this database answers every request to [/v2] with status 500, so that none
    waits for a channel: no method but [Health] is called. *)
Theorem dummy_refuses {S} `{IndexerDb S} `{SdkOps} `{UnicodeOps} `{MapRange} `{ApiOps} `{Runtime}
    `{EchoOps (Handler (S := S))} `{!EchoLaws (Handler (S := S))} options si path handler ctx w fs :
  idb_Health = Dummy.dummy_Health -> (path, handler) ∈ registered (S := S) options si ->
  path <> "/health" -> path <> "/metrics" ->
  handler ctx w fs = (Ok (HTTPError StatusInternalServerError (ErrMsg DBUnavailableError)), w, fs).
Proof.
  intros Hh Hreg Hpath Hmetrics. apply registered_v2 in Hreg as (inner & _ & ->); [|done|done].
  rewrite (v2_middleware_gates options (inner si)), Hh. by destruct w.
Qed.

(** ** [version] *)

Section Version.
Context (Hash CompileTime ReleaseVersion : string).

Definition UnknownVersion : string := "(unknown version)".
Definition Version : string := if bool_decide (ReleaseVersion = "") then UnknownVersion else ReleaseVersion.
Definition LongVersion : string :=
  let tagVersion := Version in
  let tagVersion :=
    if bool_decide (tagVersion = UnknownVersion) then ReleaseVersion +:+ "-dev.unknown"
    else if negb (bool_decide (tagVersion = ReleaseVersion)) then
      "dev release build .version=" +:+ ReleaseVersion +:+ " tag=" +:+ tagVersion
    else tagVersion in
  tagVersion +:+ " compiled at " +:+ CompileTime +:+ " from git hash " +:+ Hash.

(** The text for a version that differs from its tag is never used. *)
Lemma LongVersion_cases : LongVersion =
  (if bool_decide (ReleaseVersion = "") || bool_decide (ReleaseVersion = UnknownVersion)
   then ReleaseVersion +:+ "-dev.unknown" else ReleaseVersion) +:+
  " compiled at " +:+ CompileTime +:+ " from git hash " +:+ Hash.
Proof.
  unfold LongVersion, Version. destruct (bool_decide_reflect (ReleaseVersion = "")) as [->|Hne]; [done|].
  cbn [orb]. rewrite (bool_decide_eq_true_2 (ReleaseVersion = ReleaseVersion)) by done.
  by destruct (bool_decide (ReleaseVersion = UnknownVersion)).
Qed.
End Version.

(** ** [cmd/texttosource] *)

Section TextToSource.
Definition backquote : ascii := Ascii.ascii_of_nat 96.
Definition carriage_return : ascii := Ascii.ascii_of_nat 13.

(** [strings.ReplaceAll]: a backquote becomes the six characters [\u0060] *)
Definition escaped_quote : list ascii := bytes_of_string "\u0060".
Definition escape (data : list ascii) : list ascii :=
  flat_map (λ c, if decide (c = backquote) then escaped_quote else [c]) data.

Definition source_file (packageName constantName inputFilepath : string) (data : list ascii) : string :=
  "// Code generated from source " +:+ inputFilepath +:+ " via go generate. DO NOT EDIT." +:+ nl +:+ nl +:+
  "package " +:+ packageName +:+ nl +:+ nl +:+
  "const " +:+ constantName +:+ " = " +:+
  string_of_bytes ([backquote] ++ escape data ++ [backquote]) +:+ nl.

(** The value of a raw string literal, from after its opening quote: carriage returns are
    discarded, and nothing is an escape. *)
Fixpoint raw_value (l : list ascii) : option (list ascii) :=
  match l with
  | [] => None
  | c :: l =>
      if decide (c = backquote) then Some []
      else if decide (c = carriage_return) then raw_value l
      else cons c <$> raw_value l
  end.

Lemma escape_no_quote data : backquote ∉ escape data.
Proof.
  unfold escape. rewrite elem_of_flat_map. intros (c & _ & Hc). case_decide.
  - revert Hc. apply (bool_decide_unpack _). by vm_compute.
  - by apply list_elem_of_singleton in Hc.
Qed.

Lemma raw_value_quoted l rest : backquote ∉ l ->
  raw_value (l ++ backquote :: rest) = Some (filter (λ c, c <> carriage_return) l).
Proof.
  induction l as [|c l IH]; cbn [app raw_value]; [by rewrite decide_True|]. intros [Hc Hl]%not_elem_of_cons.
  rewrite decide_False, (IH Hl), filter_cons by done. destruct (decide (c = carriage_return)) as [->|].
  - by rewrite decide_False by (intros Hn; by apply Hn).
  - by rewrite decide_True.
Qed.

Lemma escape_plain data : backquote ∉ data -> escape data = data.
Proof.
  induction data as [|c data IH]; [done|]. cbn. intros [Hc Hd]%not_elem_of_cons.
  rewrite decide_False by done. cbn. f_equal. by apply IH.
Qed.

(** The constant that is generated has the text of the file exactly if the text has neither a
    backquote nor a carriage return. *)
Theorem texttosource_roundtrip data rest :
  raw_value (escape data ++ (backquote :: rest)) = Some data <-> (backquote ∉ data) /\ (carriage_return ∉ data).
Proof.
  rewrite (raw_value_quoted _ _ (escape_no_quote data)). split.
  - intros [= Heq]. split; intros Hin; rewrite <- Heq in Hin; apply list_elem_of_filter in Hin as [Hne Hin].
    + by apply escape_no_quote in Hin.
    + by apply Hne.
  - intros [Hq Hcr]. f_equal. rewrite (escape_plain _ Hq). apply filter_Forall_id, Forall_forall.
    intros c Hc ->. by apply Hcr.
Qed.
End TextToSource.

(** ** [misc/convertToAddress.go] *)

Section ConvertToAddress.
Context `{SdkOps}.

(** What is printed, or the error that is. *)
Definition convertToAddress (addrInput : string) : result string :=
  match Base64.DecodeString Base64.std addrInput with
  | Err _ => a ← DecodeAddress addrInput; Ok (Base64.EncodeToString Base64.std a)
  | Ok addrBytes => Ok (AddressString (copy_address addrBytes))
  end.

Lemma decode_quanta_length al l out : Base64.decode_quanta al l = Ok out -> (length l mod 4 = 0)%nat.
Proof.
  revert l out. fix IH 1. intros [|a [|b [|c [|d l]]]] out; cbn [Base64.decode_quanta]; try done.
  destruct (Base64.digit_of al a) as [x|], (Base64.digit_of al b) as [y|]; try done.
  destruct (Base64.digit_of al c) as [z|]; [destruct (Base64.digit_of al d) as [w|]|].
  - destruct (Base64.decode_quanta al l) as [out'|] eqn:E; [|done]. intros _.
    specialize (IH l out' E). change (length (a :: b :: c :: d :: l)) with (4 + length l)%nat.
    by rewrite <- (Nat.Div0.add_mod_idemp_r 4), IH.
  - case_decide as Hd; [|done]. by destruct Hd as [_ ->].
  - case_decide as Hd; [|done]. by destruct Hd as (_ & _ & ->).
Qed.

(** Converting there and back; the text of an address has 58 characters and no line end. *)
Theorem convertToAddress_roundtrip `{!SdkLaws} a : String.length a = 32%nat ->
  String.length (AddressString a) = 58%nat ->
  Forall (λ c, Base64.is_newline c = false) (bytes_of_string (AddressString a)) ->
  convertToAddress (Base64.EncodeToString Base64.std a) = Ok (AddressString a) /\
  convertToAddress (AddressString a) = Ok (Base64.EncodeToString Base64.std a).
Proof.
  intros Ha Hlen Hnl. unfold convertToAddress. split.
  - rewrite Base64.DecodeString_EncodeToString by apply Base64.std_ok. by rewrite copy_address_id.
  - unfold Base64.DecodeString. rewrite filter_Forall_id by done.
    destruct (Base64.decode_quanta _ _) as [out|] eqn:E; cbn.
    + apply decode_quanta_length in E. by rewrite length_bytes_of_string, Hlen in E.
    + by rewrite DecodeAddress_String.
Qed.
End ConvertToAddress.

(** ** [util/test/testutil.go] and [cmd/e2equeries] *)

(** The queries that set the exit value: by their limit and the number of rows. *)
Definition query_short (limit count : Z) : bool := negb (limit =? 0) && negb (limit =? count).
Definition txn_query_short (limit count : Z) : bool := negb (limit =? 0) && (count <? 2) || (100 <? count).

Section BestAsset.
Context `{MapRange}.

Definition countByAssetID (rows : list AssetBalanceRow) : gmap Z Z :=
  foldl (λ counts abr, <[ BaR_AssetID abr := wrap64 (default 0 (counts !! BaR_AssetID abr) + 1) ]> counts) ∅ rows.

Definition better (best : Z * Z) (x : Z * Z) : Z * Z :=
  let '(bestid, bestcount) := best in
  let '(assetid, count) := x in
  if (bestcount =? 0) || (1 <? count) && (count <? bestcount) then (assetid, count) else best.

(** The asset whose holders are asked for: its number and how many there are. *)
Definition best_asset (counts : gmap Z Z) : Z * Z := foldl better (0, 0) (range_map counts).

Lemma better_one l id : foldl better (id, 1) l = (id, 1).
Proof.
  induction l as [|[i c] l IH]; [done|]. cbn. destruct (Z.ltb_spec 1 c); [|done].
  by destruct (Z.ltb_spec c 1); [lia|].
Qed.

Lemma better_many l id n : 1 < n -> let r := foldl better (id, n) l in
  1 < r.2 <= n /\ (r ∈ (id, n) :: l) /\ forall i c, (i, c) ∈ l -> 1 < c -> r.2 <= c.
Proof.
  revert id n. induction l as [|[i c] l IH]; intros id n Hn; cbn.
  - split_and!; [lia|lia|left|by intros ? ? ?%not_elem_of_nil].
  - destruct (Z.eqb_spec n 0); [lia|]. cbn [orb].
    destruct (Z.ltb_spec 1 c), (Z.ltb_spec c n); cbn [andb].
    1: destruct (IH i c) as (Hr & Hin & Hmin); [lia|]; split_and!; [lia|lia|by right|].
    2,3,4: destruct (IH id n Hn) as (Hr & Hin & Hmin); split_and!; [lia|lia|set_solver|].
    all: intros j x [[= -> ->]|Hx]%elem_of_cons ?; [lia|by apply (Hmin j)].
Qed.

(** If the asset that is visited first has several holders, an asset with the fewest holders, but
    several, is chosen; if it has one holder, that asset is chosen although others have more. *)
Theorem best_asset_spec counts id n l : range_map counts = (id, n) :: l ->
  (n = 1 -> best_asset counts = (id, 1)) /\
  (1 < n -> counts !! (best_asset counts).1 = Some (best_asset counts).2 /\ 1 < (best_asset counts).2 /\
    forall i c, counts !! i = Some c -> 1 < c -> (best_asset counts).2 <= c).
Proof.
  intros Hr. unfold best_asset. rewrite Hr. cbn [foldl better]. split.
  - intros ->. apply better_one.
  - intros Hn. destruct (better_many l id n Hn) as (Hb & Hin & Hmin). cbn [Z.eqb orb].
    rewrite <- Hr in Hin. rewrite (surjective_pairing (foldl better (id, n) l)) in Hin.
    apply elem_of_range_map in Hin. split_and!; [done|lia|]. intros i c Hc Hc1.
    apply elem_of_range_map in Hc. rewrite Hr in Hc. apply elem_of_cons in Hc as [[= -> ->]|Hc]; [lia|].
    by apply (Hmin i).
Qed.

(** The first address that was rekeyed to is asked for if none has an account; without any such
    transaction this is a panic. *)
Definition rekey_query (rekeyedAuthAddrs : list Address) (foundRekey : bool) : result (option Address) :=
  if foundRekey then Ok None
  else match rekeyedAuthAddrs with
       | [] => Err (ErrPanic "index out of range")
       | a :: _ => Ok (Some a)
       end.
End BestAsset.

(** ** [util/metrics] *)

Definition BlockImportTimeName : string := "import_time_sec".
Definition ImportedTxnsPerBlockName : string := "imported_tx_per_block".
Definition ImportedRoundGaugeName : string := "imported_round".
Definition GetAlgodRawBlockTimeName : string := "get_algod_raw_block_time_sec".
Definition ImportedTxnsName : string := "imported_txns".
Definition ImporterTimeName : string := "importer_time_sec".
Definition ProcessorTimeName : string := "processor_time_sec".
Definition ExporterTimeName : string := "exporter_time_sec".
Definition PipelineRetryCountName : string := "pipeline_retry_count".

Definition AllMetricNames : list string := [
  BlockImportTimeName; ImportedTxnsPerBlockName; ImportedRoundGaugeName; GetAlgodRawBlockTimeName;
  ImporterTimeName; ProcessorTimeName; ExporterTimeName; PipelineRetryCountName].

(** The collectors, by subsystem and name, in the order in which they are registered. *)
Definition instantiateCollectors (subsystem : string) : list (string * string) :=
  map (pair subsystem) [BlockImportTimeName; ImportedTxnsPerBlockName; ImportedRoundGaugeName;
    ImportedTxnsName; ImporterTimeName; ProcessorTimeName; ExporterTimeName; PipelineRetryCountName].

(** A collector is made for each name but one, and for one that is not listed. *)
Lemma metric_names s x : x ∈ map snd (instantiateCollectors s) <->
  (x ∈ AllMetricNames /\ x <> GetAlgodRawBlockTimeName \/ x = ImportedTxnsName).
Proof.
  unfold instantiateCollectors, AllMetricNames. cbn [map snd]. rewrite !elem_of_cons, elem_of_nil. split.
  - intros Hx. destruct_or?; subst; try done; try (left; split; [tauto|discriminate]); by right.
  - intros [[Hx Hne]| ->]; destruct_or?; tauto.
Qed.

(** The registry of Prometheus, as the set of the collectors in it. *)
Class Prometheus (R : Type) := {
  registered_in : R -> gset (string * string);
  Register : string * string -> R -> R;
  Unregister : string * string -> R -> R;
  registered_Register c r : registered_in (Register c r) = {[ c ]} ∪ registered_in r;
  registered_Unregister c r : registered_in (Unregister c r) = registered_in r ∖ {[ c ]} }.

Section Registry.
Context {R : Type} `{Prometheus R}.

(** The registry, and the collectors of the package if there are any. *)
Definition deregister (st : R * option (list (string * string))) : R :=
  match st.2 with
  | Some collectors => foldl (λ r c, Unregister c r) st.1 (take 1 collectors ++ collectors)
  | None => st.1
  end.
Definition RegisterPrometheusMetrics (subsystem : string) (st : R * option (list (string * string)))
    : R * option (list (string * string)) :=
  let r := deregister st in
  let collectors := instantiateCollectors subsystem in
  (foldl (λ r c, Register c r) r (take 1 collectors ++ collectors), Some collectors).

Lemma registered_all l r : registered_in (foldl (λ r c, Register c r) r l) = list_to_set l ∪ registered_in r.
Proof.
  revert r. induction l as [|c l IH]; intros r; cbn; [set_solver|]. rewrite IH, registered_Register. set_solver.
Qed.
Lemma unregistered_all l r :
  registered_in (foldl (λ r c, Unregister c r) r l) = registered_in r ∖ list_to_set l.
Proof.
  revert r. induction l as [|c l IH]; intros r; cbn; [set_solver|]. rewrite IH, registered_Unregister. set_solver.
Qed.

Lemma first_subset (l : list (string * string)) : list_to_set (C := gset _) (take 1 l) ⊆ list_to_set l.
Proof. intros x. destruct l as [|y l]; [done|]. cbn. rewrite take_0. set_solver. Qed.

(** Registering again, under any name, replaces the collectors: none of those of the first time
    stays, and those of other packages are not touched. *)
Theorem metrics_replaced s s' r others : registered_in r = others ->
  (forall t, others ## list_to_set (instantiateCollectors t)) ->
  registered_in (RegisterPrometheusMetrics s' (RegisterPrometheusMetrics s (r, None))).1 =
    list_to_set (instantiateCollectors s') ∪ others.
Proof.
  intros Hr Hd. unfold RegisterPrometheusMetrics at 1. cbn [fst]. rewrite registered_all.
  unfold deregister. cbn [RegisterPrometheusMetrics snd fst deregister].
  rewrite unregistered_all, registered_all. unfold deregister. cbn [snd fst]. rewrite Hr.
  specialize (Hd s). rewrite !list_to_set_app_L.
  assert (forall A A1 B B1 O : gset (string * string), A1 ⊆ A -> B1 ⊆ B -> O ## A ->
    B1 ∪ B ∪ (A1 ∪ A ∪ O) ∖ (A1 ∪ A) = B ∪ O) as Hsets by set_solver.
  apply Hsets; [apply first_subset|apply first_subset|done].
Qed.
End Registry.

(** ** The rest of [util/util.go] *)

Definition KeysStringBool `{MapRange} (m : gmap string bool) : string := strings_join ", " (map fst (range_map m)).

(** [in] is [None] for a nil reader, and otherwise what [io.ReadAll] returns. *)
Definition ReadGenesis (decode : string -> result Genesis) (input : option (result string)) : result Genesis :=
  match input with
  | None => Err (ErrMsg "ReadGenesis() err: reader is nil")
  | Some read =>
      gbytes ← wrap "ReadGenesis() err: %w" read;
      wrap "ReadGenesis() decode err: %w" (decode gbytes)
  end.
