(* ===== verification/Daemon.v ===== *)
(** * Start-up: [util/util.go] and [cmd/algorand-indexer/daemon.go]

    The check of the network and the import of the genesis, the search for configuration
    files, and the options of the server. *)

From Stdlib Require Import Ascii String.
From S2P Require Import Prelude GoStd Sdk Idb Models Util Encoding Db WriteTxn Writer Postgres Rewind.
From S2P Require Import Migration Sql TxnQuery BlockQuery ResourceQuery AccountQuery Params Convert Disabled.
From S2P Require Import Interface Health Handlers Client Service Routes Server.

(** ** [EnsureInitialImport] *)

Section InitialImport.
Context `{SdkOps} `{Codec baseAccountData} `{Codec ImportState} `{Codec NetworkState}.

Definition checkGenesisHash (gh : Digest) : Tx tables unit :=
  network <-- tx_try GetNetworkState;
  match network with
  | Err err =>
      if errors_is err ErrorNotInitialized
      then tx_wrap "error setting network state %w" (SetNetworkState gh)
      else tx_err (ErrWrap "unable to fetch network state from db %w" err)
  | Ok network =>
      if bool_decide (network <> gh) then tx_err (ErrMsg "genesis hash not matching") else tx_ret tt
  end.

Definition EnsureInitialImport (genesis : Genesis) : Tx tables bool :=
  next <-- tx_try getNextRoundToAccount;
  match next with
  | Err err =>
      if bool_decide (err = ErrorNotInitialized) then
        r <-- tx_try (LoadGenesis genesis);
        match r with
        | Err _ => tx_err (ErrMsg "could not load genesis json, %v")
        | Ok _ => tx_ret true
        end
      else tx_err (ErrMsg "getting import state, %v")
  | Ok _ => checkGenesisHash (Genesis_Hash genesis);;; tx_ret false
  end.
End InitialImport.

(** ** Configuration files *)

Section Files.
(** [filepath.Join], and [os.Stat] without an error. *)
Context (Join : string -> string -> string) (FileExists : string -> bool).

(** The number of files found and the last of them. *)
Fixpoint find_configs (dataDirectory configFilename : string) (configFileTypes : list string)
    (count : nat) (fullPath : string) : nat * string :=
  match configFileTypes with
  | [] => (count, fullPath)
  | configFileType :: types =>
      let path := Join dataDirectory (configFilename +:+ "." +:+ configFileType) in
      if FileExists path then find_configs dataDirectory configFilename types (S count) path
      else find_configs dataDirectory configFilename types count fullPath
  end.

Definition GetConfigFromDataDir (dataDirectory configFilename : string) (configFileTypes : list string)
    : result string :=
  let '(count, fullPath) := find_configs dataDirectory configFilename configFileTypes 0 "" in
  if (1 <? count)%nat then
    Err (ErrMsg "config filename (%s) in data directory (%s) matched more than one filetype: %v")
  else Ok fullPath.

Definition FileTypes : list string := ["yml"; "yaml"].
Definition autoLoadIndexerConfigFileName : string := "indexer".
Definition autoLoadParameterConfigFileName : string := "api_config".

Definition resolveConfigFile (indexerDataDir configFile : string) : result string :=
  potentialIndexerConfigPath ←
    GetConfigFromDataDir indexerDataDir autoLoadIndexerConfigFileName FileTypes;
  if negb (bool_decide (potentialIndexerConfigPath = "")) then
    if negb (bool_decide (configFile = "")) then
      Err (ErrMsg "indexer configuration was found in data directory (%s) as well as supplied via command line.  Only provide one")
    else Ok potentialIndexerConfigPath
  else Ok configFile.

(** The parameter configuration to use: [cfg.suppliedAPIConfigFile] afterwards. *)
Definition loadIndexerParamConfig (indexerDataDir suppliedAPIConfigFile : string)
    (enableAllParameters : bool) : result string :=
  if negb (bool_decide (suppliedAPIConfigFile = "")) && enableAllParameters then
    Err (ErrMsg "not allowed to supply an api config file and enable all parameters")
  else
    potentialParamConfigPath ←
      GetConfigFromDataDir indexerDataDir autoLoadParameterConfigFileName FileTypes;
    if negb (bool_decide (potentialParamConfigPath = "")) then
      if negb (bool_decide (suppliedAPIConfigFile = "")) then
        Err (ErrMsg "api parameter configuration was found in data directory (%s) as well as supplied via command line.  Only provide one")
      else Ok potentialParamConfigPath
    else Ok suppliedAPIConfigFile.
End Files.

(** ** The options of the server *)

(** The fields of the flags that [makeOptions] reads; limits are [uint32]. *)
Record daemonConfig := {
  dc_developerMode : bool; dc_enablePrivateNetworkAccessHeader : bool; dc_metricsMode : string;
  dc_tokenString : string; dc_writeTimeout : Z; dc_readTimeout : Z;
  dc_maxAPIResourcesPerAccount : Z; dc_maxAccountListSize : Z;
  dc_maxBlocksLimit : Z; dc_defaultBlocksLimit : Z;
  dc_maxTransactionsLimit : Z; dc_defaultTransactionsLimit : Z;
  dc_maxAccountsLimit : Z; dc_defaultAccountsLimit : Z;
  dc_maxAssetsLimit : Z; dc_defaultAssetsLimit : Z;
  dc_maxBoxesLimit : Z; dc_defaultBoxesLimit : Z;
  dc_maxBalancesLimit : Z; dc_defaultBalancesLimit : Z;
  dc_maxApplicationsLimit : Z; dc_defaultApplicationsLimit : Z;
  dc_enableAllParameters : bool; dc_suppliedAPIConfigFile : string }.

(** The options: those that the handlers read, and those that only [Serve] reads. *)
Record Options := {
  op_extra : ExtraOptions; op_EnablePrivateNetworkAccessHeader : bool;
  op_MetricsEndpointVerbose : bool; op_ReadTimeout : Z;
  op_DisabledMapConfig : DisabledMapConfig }.

(** [strings.ToUpper], up to the letters outside ASCII.  The outcome is compared with ASCII
    constants, so only the runes with an ASCII upper case matter: the ASCII letters, the long s
    U+017F and the dotless i U+0131. *)
Definition to_upper_ascii (c : ascii) : ascii :=
  let z := byteZ c in if (97 <=? z) && (z <=? 122) then Zbyte (z - 32) else c.
Fixpoint to_upper (l : list ascii) : list ascii :=
  match l with
  | [] => []
  | c :: l =>
      let rest := to_upper_ascii c :: to_upper l in
      match l with
      | [] => rest
      | c' :: l' =>
          if (byteZ c =? 0xC5) && (byteZ c' =? 0xBF) then "S"%char :: to_upper l'
          else if (byteZ c =? 0xC4) && (byteZ c' =? 0xB1) then "I"%char :: to_upper l'
          else rest
      end
  end.
Definition strings_ToUpper (s : string) : string := string_of_bytes (to_upper (bytes_of_string s)).

Definition metrics (mode : string) : bool * bool :=
  let mode := strings_ToUpper mode in
  if bool_decide (mode = "OFF") then (false, false)
  else if bool_decide (mode = "ON") then (true, false)
  else if bool_decide (mode = "VERBOSE") then (true, true)
  else (false, false).

(** [fromFile] is [api.MakeDisabledMapConfigFromFile] with the OpenAPI document; an error ends
    the process. *)
Definition makeOptions (fromFile : string -> result DisabledMapConfig) (cfg : daemonConfig)
    : result Options :=
  config ← (if bool_decide (dc_suppliedAPIConfigFile cfg = "") then
              Ok (if dc_enableAllParameters cfg then MakeDisabledMapConfig
                  else GetDefaultDisabledMapConfigForPostgres)
            else fromFile (dc_suppliedAPIConfigFile cfg));
  Ok {|
    op_extra := {|
      EO_Tokens := if bool_decide (dc_tokenString cfg = "") then [] else [dc_tokenString cfg];
      EO_DeveloperMode := dc_developerMode cfg;
      EO_MetricsEndpoint := (metrics (dc_metricsMode cfg)).1; EO_WriteTimeout := dc_writeTimeout cfg;
      EO_MaxAPIResourcesPerAccount := dc_maxAPIResourcesPerAccount cfg;
      EO_MaxAccountListSize := dc_maxAccountListSize cfg;
      EO_MaxBlocksLimit := dc_maxBlocksLimit cfg; EO_DefaultBlocksLimit := dc_defaultBlocksLimit cfg;
      EO_MaxTransactionsLimit := dc_maxTransactionsLimit cfg;
      EO_DefaultTransactionsLimit := dc_defaultTransactionsLimit cfg;
      EO_MaxAccountsLimit := dc_maxAccountsLimit cfg;
      EO_DefaultAccountsLimit := dc_defaultAccountsLimit cfg;
      EO_MaxAssetsLimit := dc_maxAssetsLimit cfg; EO_DefaultAssetsLimit := dc_defaultAssetsLimit cfg;
      EO_MaxBalancesLimit := dc_maxBalancesLimit cfg;
      EO_DefaultBalancesLimit := dc_defaultBalancesLimit cfg;
      EO_MaxApplicationsLimit := dc_maxApplicationsLimit cfg;
      EO_DefaultApplicationsLimit := dc_defaultApplicationsLimit cfg;
      EO_MaxBoxesLimit := dc_maxBoxesLimit cfg; EO_DefaultBoxesLimit := dc_defaultBoxesLimit cfg |};
    op_EnablePrivateNetworkAccessHeader := dc_enablePrivateNetworkAccessHeader cfg;
    op_MetricsEndpointVerbose := (metrics (dc_metricsMode cfg)).2;
    op_ReadTimeout := dc_readTimeout cfg; op_DisabledMapConfig := config |}.

(** ** The network of a database *)

Section Network.
Context `{SdkOps} `{!SdkLaws} `{Codec baseAccountData} `{Codec ImportState} `{Codec NetworkState}.
Hypothesis network_plain : forall s, plain (DecodeJSON (T := NetworkState) s).

(** The tables record a genesis hash. *)
Definition records (t : tables) (gh : Digest) : Prop := exists v,
  t_metastate t !! NetworkMetaStateKey = Some v /\ DecodeNetworkState v = Ok {| NS_GenesisHash := gh |}.

Lemma getNetworkState_records t fs network t' fs' :
  getNetworkState t fs = (Ok network, t', fs') -> t' = t /\ records t (NS_GenesisHash network).
Proof.
  unfold getNetworkState. intros (v & t1 & fs1 & Hg & Hl)%tx_bind_Ok.
  apply unless_not_initialized_Ok, GetMetastate_Ok in Hg as [-> Hv].
  unfold lift in Hl. injection Hl as Hd <- _. split; [done|]. exists v. split; [done|].
  destruct (DecodeNetworkState v) as [[gh]|]; [|done]. by injection Hd as <-.
Qed.

Lemma setNetworkState_records gh t fs t' fs' :
  DecodeNetworkState (EncodeNetworkState {| NS_GenesisHash := gh |}) = Ok {| NS_GenesisHash := gh |} ->
  setNetworkState {| NS_GenesisHash := gh |} t fs = (Ok tt, t', fs') -> records t' gh.
Proof.
  intros Hc ->%SetMetastate_Ok. eexists. cbn. by rewrite lookup_insert_eq.
Qed.

Lemma load_accounts_metastate allocation t fs t' fs' :
  load_accounts allocation t fs = (Ok tt, t', fs') -> t_metastate t' = t_metastate t.
Proof.
  revert t fs. induction allocation as [|alloc rest IH]; intros t fs; cbn [load_accounts]; [by intros [= <- _]|].
  intros (addr & t1 & fs1 & Ha & Hk)%tx_bind_Ok. injection Ha as _ <- _.
  apply tx_bind_Ok in Hk as ([] & t2 & fs2 & Hs & Hk). apply IH in Hk. rewrite Hk. clear Hk.
  apply tx_wrap_Ok in Hs. unfold db_call in Hs. unfold set_account_stmt in Hs.
  destruct fs1 as [|[]]; [|done|]; (destruct (negb _); [done|]); (destruct (t_account t !! addr); [done|]);
    by injection Hs as <- _.
Qed.

Lemma records_metastate t t' gh : t_metastate t' !! NetworkMetaStateKey = t_metastate t !! NetworkMetaStateKey ->
  records t gh -> records t' gh.
Proof. intros Heq (v & Hv & Hd). exists v. by rewrite Heq. Qed.

Lemma loadGenesis_records genesis t fs t' fs' :
  (let state := {| NS_GenesisHash := Genesis_Hash genesis |} in
   DecodeNetworkState (EncodeNetworkState state) = Ok state) ->
  loadGenesis_tx genesis t fs = (Ok tt, t', fs') -> records t' (Genesis_Hash genesis).
Proof.
  cbn. intros Hc (network & t1 & fs1 & Hn & Hk)%tx_bind_Ok.
  apply tx_bind_Ok in Hk as ([] & t2 & fs2 & Hcheck & Hk).
  apply tx_bind_Ok in Hk as ([] & t3 & fs3 & Hp & Hk).
  apply tx_bind_Ok in Hk as ([] & t4 & fs4 & Hl & Hk).
  apply tx_wrap_Ok, SetMetastate_Ok in Hk. apply load_accounts_metastate in Hl.
  assert (t3 = t2) as -> by (apply tx_wrap_Ok in Hp; unfold db_call in Hp; destruct fs2 as [|[]]; congruence).
  apply (records_metastate t2); [rewrite Hk; cbn; rewrite lookup_insert_ne by done; by rewrite Hl|].
  unfold tx_try in Hn. destruct (getNetworkState t fs) as [[r t0] fs0] eqn:Hg. injection Hn as -> -> ->.
  destruct network as [network|e].
  - apply getNetworkState_records in Hg as [-> Hr]. case_bool_decide as Hne; [done|].
    injection Hcheck as <- _. by rewrite <- Hne.
  - case_bool_decide; [|done]. by eapply setNetworkState_records, tx_wrap_Ok.
Qed.

Lemma EnsureInitialImport_records genesis t fs b t' fs' :
  (let state := {| NS_GenesisHash := Genesis_Hash genesis |} in
   DecodeNetworkState (EncodeNetworkState state) = Ok state) ->
  EnsureInitialImport genesis t fs = (Ok b, t', fs') -> records t' (Genesis_Hash genesis).
Proof.
  intros Hc (next & t1 & fs1 & Hn & Hk)%tx_bind_Ok. destruct next as [next|e].
  - apply tx_bind_Ok in Hk as ([] & t2 & fs2 & Hcheck & Hk). injection Hk as _ <- _.
    apply tx_bind_Ok in Hcheck as (network & t3 & fs3 & Hg & Hk). unfold tx_try in Hg.
    destruct (GetNetworkState t1 fs1) as [[r t0] fs0] eqn:Hget. injection Hg as -> -> ->.
    destruct network as [network|e].
    + case_bool_decide as Hne; [done|]. injection Hk as <- _. subst.
      unfold GetNetworkState in Hget. apply tx_bind_Ok in Hget as (state & t5 & fs5 & Hs & Hr).
      apply tx_wrap_Ok, getNetworkState_records in Hs as [-> Hs]. injection Hr as Hr <- _. by rewrite <- Hr.
    + destruct (errors_is _ _); [|done]. by eapply setNetworkState_records, tx_wrap_Ok.
  - case_bool_decide; [|done]. apply tx_bind_Ok in Hk as (r & t2 & fs2 & Hload & Hk).
    destruct r as [[]|]; [|done]. injection Hk as _ <- _. unfold tx_try in Hload.
    destruct (LoadGenesis genesis t1 fs1) as [[r t3] fs3] eqn:Hl. injection Hload as -> -> ->.
    apply tx_wrap_Ok in Hl.
    eapply (TxWithRetry_ind _ _ (λ _ _, True)) in Hl as (t0 & fs0 & fs4 & _ & Hl); [|by apply honest_loadGenesis_tx|done..].
    by eapply loadGenesis_records.
Qed.

(** The database does not report that a row which is there was not found, and its driver knows
    no error of this program. *)
Definition driver_faults (fs : faults) : Prop :=
  Forall (λ f, f <> Some ErrNoRows /\ forall e, f = Some e -> errors_is e ErrorNotInitialized = false) fs.

Lemma driver_faults_spurious fs : driver_faults fs -> no_spurious fs.
Proof. intros Hfs. eapply Forall_impl; [exact Hfs|]. by intros f [? _]. Qed.

Lemma GetMetastate_tail key t fs : exists r, GetMetastate key t fs = (r, t, tail fs).
Proof.
  unfold GetMetastate, tx_bind, tx_try, db_call, tx_ret, tx_err.
  destruct fs as [|[e|] fs]; cbn.
  2: { case_bool_decide; by eexists. }
  all: destruct (t_metastate t !! key) as [v|]; [by exists (Ok v)|]; case_bool_decide; by eexists.
Qed.

Lemma unless_not_initialized_tail {A} fmt (m : Tx tables A) t fs :
  (exists r, m t fs = (r, t, tail fs)) -> exists r, unless_not_initialized fmt m t fs = (r, t, tail fs).
Proof.
  intros [r Hr]. unfold unless_not_initialized, tx_bind, tx_try, tx_ret, tx_err. rewrite Hr.
  destruct r as [a|e]; [by exists (Ok a)|]. case_bool_decide; by eexists.
Qed.

Lemma getNextRoundToAccount_reads t fs : exists r, getNextRoundToAccount t fs = (r, t, tail fs).
Proof.
  assert (exists r, getImportState t fs = (r, t, tail fs)) as Hi.
  { unfold getImportState. destruct (unless_not_initialized_tail "unable to get import state err: %w" _ t fs
      (GetMetastate_tail StateMetastateKey t fs)) as [[v|e] Hr]; unfold tx_bind; rewrite Hr;
      by eexists. }
  unfold getNextRoundToAccount.
  destruct (unless_not_initialized_tail "getNextRoundToAccount() err: %w" _ t fs Hi) as [[v|e] Hr];
    unfold tx_bind; rewrite Hr; by eexists.
Qed.

Lemma getNetworkState_recorded t fs gh : records t gh -> driver_faults fs ->
  exists r fs', getNetworkState t fs = (r, t, fs') /\
  (r = Ok {| NS_GenesisHash := gh |} \/ exists e, r = Err e /\ errors_is e ErrorNotInitialized = false).
Proof.
  intros (v & Hv & Hd) Hfs.
  unfold getNetworkState, unless_not_initialized, GetMetastate, tx_bind, tx_try, db_call. rewrite Hv.
  destruct fs as [|[e|] fs].
  2: { apply Forall_cons in Hfs as [[He Hi] _]. rewrite bool_decide_eq_false_2 by congruence. cbn.
       rewrite bool_decide_eq_false_2 by done. do 2 eexists. split; [done|]. right. eexists.
       split; [done|]. cbn. by apply Hi. }
  all: unfold tx_ret, lift; rewrite Hd; do 2 eexists; (split; [done|by left]).
Qed.

Lemma checkGenesisHash_refuses gh gh' t fs : records t gh -> gh <> gh' -> driver_faults fs ->
  exists e fs', checkGenesisHash gh' t fs = (Err e, t, fs').
Proof.
  intros Hr Hne Hfs. destruct (getNetworkState_recorded t fs gh Hr Hfs) as (r & fs' & Hg & Hcase).
  unfold checkGenesisHash, GetNetworkState, tx_wrap, tx_bind, tx_try. rewrite Hg.
  destruct Hcase as [->|(e & -> & He)]; cbn.
  - rewrite bool_decide_eq_true_2 by done. unfold tx_err. eauto.
  - rewrite He. unfold tx_err. eauto.
Qed.

Lemma EnsureInitialImport_refuses genesis gh t fs : records t gh -> gh <> Genesis_Hash genesis ->
  driver_faults fs -> exists e fs', EnsureInitialImport genesis t fs = (Err e, t, fs').
Proof.
  intros Hr Hne Hfs. unfold EnsureInitialImport, tx_bind at 1, tx_try at 1.
  destruct (getNextRoundToAccount_reads t fs) as [next ->].
  assert (driver_faults (tail fs)) as Htl by (by destruct Hfs; [constructor|]).
  destruct next as [next|e].
  - unfold tx_bind. destruct (checkGenesisHash_refuses gh _ t (tail fs) Hr Hne Htl) as (e & fs' & ->). eauto.
  - case_bool_decide; [|unfold tx_err; eauto]. unfold tx_bind, tx_try.
    destruct (LoadGenesis genesis t (tail fs)) as [[r t'] fs'] eqn:Hl. destruct Hr as (v & Hv & Hd).
    destruct (LoadGenesis_rejects_other_network network_plain genesis v _ t (tail fs) r t' fs' Hv Hd)
      as [He ->]; [done|by apply driver_faults_spurious|done|].
    destruct r; [done|]. unfold tx_err. eauto.
Qed.

(** C39. [EnsureInitialImport] ties a database to one network: after a success the database records
    the genesis hash, whether the genesis was imported now or before; and if another one is
    recorded, every run fails and changes nothing. *)
Theorem EnsureInitialImport_checks_network genesis t fs r t' fs' :
  (let state := {| NS_GenesisHash := Genesis_Hash genesis |} in
   DecodeNetworkState (EncodeNetworkState state) = Ok state) ->
  EnsureInitialImport genesis t fs = (r, t', fs') ->
  (is_ok r = true -> records t' (Genesis_Hash genesis)) /\
  (forall gh, records t gh -> gh <> Genesis_Hash genesis -> driver_faults fs ->
     is_ok r = false /\ t' = t).
Proof.
  intros Hc Hr. split.
  - destruct r as [b|]; [|done]. intros _. by eapply EnsureInitialImport_records.
  - intros gh Hgh Hne Hfs. destruct (EnsureInitialImport_refuses genesis gh t fs Hgh Hne Hfs) as (e & f & He).
    rewrite He in Hr. by injection Hr as <- <- _.
Qed.
End Network.

(** ** The configuration found *)

Section Configuration.
Context (Join : string -> string -> string) (FileExists : string -> bool).
(** A joined path is not empty. *)
Hypothesis Join_nonempty : forall dir name, name <> "" -> Join dir name <> "".

Definition candidates (dir name : string) : list string :=
  filter (λ path, FileExists path = true) (map (λ ty, Join dir (name +:+ "." +:+ ty)) FileTypes).

(** The file in the data directory, if there is one. *)
Lemma GetConfigFromDataDir_found dir name : GetConfigFromDataDir Join FileExists dir name FileTypes =
  match candidates dir name with
  | [] => Ok ""
  | [path] => Ok path
  | _ => Err (ErrMsg "config filename (%s) in data directory (%s) matched more than one filetype: %v")
  end.
Proof.
  unfold GetConfigFromDataDir, candidates, FileTypes. cbn [find_configs map].
  rewrite !filter_cons, filter_nil.
  destruct (FileExists (Join dir (name +:+ "." +:+ "yml"))), (FileExists (Join dir (name +:+ "." +:+ "yaml")));
    by repeat (rewrite decide_True by done || rewrite decide_False by done).
Qed.

Lemma candidate_nonempty dir name path : path ∈ candidates dir name -> path <> "".
Proof.
  intros [_ Hp]%list_elem_of_filter. apply list_elem_of_fmap in Hp as (ty & -> & Hty).
  apply Join_nonempty. destruct name; cbn; [|done]. done.
Qed.

(** There is one configuration file at most: the one in the data directory or the one of the
    command line, and two of any kind are an error. *)
Theorem resolveConfigFile_unique dir file :
  resolveConfigFile Join FileExists dir file = match candidates dir autoLoadIndexerConfigFileName, file with
  | [], _ => Ok file
  | [path], EmptyString => Ok path
  | [path], _ => Err (ErrMsg "indexer configuration was found in data directory (%s) as well as supplied via command line.  Only provide one")
  | _, _ => Err (ErrMsg "config filename (%s) in data directory (%s) matched more than one filetype: %v")
  end.
Proof.
  unfold resolveConfigFile. rewrite GetConfigFromDataDir_found.
  destruct (candidates dir autoLoadIndexerConfigFileName) as [|path [|path' rest]] eqn:Hc; cbn; [done| |done].
  rewrite (bool_decide_eq_false_2 (path = "")); [by destruct file|].
  apply (candidate_nonempty dir autoLoadIndexerConfigFileName). rewrite Hc. by left.
Qed.
End Configuration.

(** ** The token of the command line *)

Section Token.
Context {S : Type} `{IndexerDb S} `{SdkOps} `{UnicodeOps} `{MapRange} `{ApiOps} `{Runtime}.
Context `{EchoOps (Handler (S := S))} `{!EchoLaws (Handler (S := S))}.

(** With a token on the command line, a request to [/v2] that does not bring it is refused with
    status 401, or 500 if the database is not available, whichever route it names; only
    preflight requests need none. *)
Theorem token_required fromFile cfg o si path handler ctx w fs :
  makeOptions fromFile cfg = Ok o -> dc_tokenString cfg <> "" ->
  (path, handler) ∈ registered (S := S) (op_extra o) si -> path <> "/health" -> path <> "/metrics" ->
  hc_method ctx <> MethodOptions ->
  (provided_token "X-Indexer-API-Token" ctx).1 <> dc_tokenString cfg ->
  exists r w' fs', handler ctx w fs = (r, w', fs') /\
    match r with
    | Ok answer => exists status msg, answer = HTTPError status msg /\
        (status = StatusUnauthorized \/ status = StatusInternalServerError)
    | Err e => exists what, e = ErrPanic what
    end.
Proof.
  intros Ho Htok Hreg Hpath Hmetrics Hmethod Hprov. unfold makeOptions in Ho.
  destruct (if bool_decide (dc_suppliedAPIConfigFile cfg = "") then _ else _) as [config|]; cbn in Ho; [|done].
  injection Ho as <-.
  apply registered_v2 in Hreg as (inner & _ & ->); [|done|done].
  rewrite (v2_middleware_gates _ (inner si)).
  match goal with |- context [authorised ?options ctx] => assert (authorised options ctx = false) as -> end.
  { unfold authorised. cbn [op_extra EO_Tokens]. rewrite (bool_decide_eq_false_2 (dc_tokenString cfg = "")) by done.
    rewrite !orb_false_iff, !bool_decide_eq_false. split_and!; [done|done|].
    by intros ?%list_elem_of_singleton. }
  destruct (on_db idb_Health w fs) as [[[h|e] w1] fs1].
  - destruct (HL_DBAvailable h); cbn [negb]; (eexists _, _, _; split; [reflexivity|]; cbn; eauto).
  - destruct e; (eexists _, _, _; split; [reflexivity|]; cbn; eauto).
Qed.
End Token.

(** ** Samples *)

Section Witnesses.
#[local] Existing Instance Sample.sdk.
#[local] Existing Instance Sample.sdk_laws.
Import SampleImport.

Definition base_codec : Codec baseAccountData := {|
  encodeJSON _ := ""; DecodeJSON _ := Err (ErrMsg "not stored") |}.
Definition other : Genesis := {| G_Allocation := []; G_rest := "another hash" |}.
Definition same : Genesis := {| G_Allocation := []; G_rest := "genesis hash" |}.

(** A database of another network is refused; one of the same network is accepted. *)
Lemma EnsureInitialImport_checks_network_witness :
  is_ok (@EnsureInitialImport _ base_codec _ _ same (core before) []).1.1 = true /\
  is_ok (@EnsureInitialImport _ base_codec _ _ other (core before) []).1.1 = false /\
  (@EnsureInitialImport _ base_codec _ _ other (core before) []).1.2 = core before.
Proof.
  split; [vm_compute; reflexivity|].
  destruct (@EnsureInitialImport _ base_codec _ _ other (core before) []) as [[r t'] fs'] eqn:Hr.
  apply (@EnsureInitialImport_checks_network _ _ base_codec _ _ network_codec_plain other (core before) []
           r t' fs' eq_refl Hr) with (gh := "genesis hash").
  - exists "genesis hash". split; reflexivity.
  - discriminate.
  - constructor.
Defined.

(** A file in the data directory and none on the command line. *)
Lemma resolveConfigFile_unique_witness :
  resolveConfigFile (λ dir name, dir +:+ "/" +:+ name)
    (λ path, bool_decide (path = "/data/indexer.yaml")) "/data" "" = Ok "/data/indexer.yaml".
Proof.
  rewrite resolveConfigFile_unique.
  - vm_compute. reflexivity.
  - intros dir name Hn. by destruct dir.
Defined.
End Witnesses.

Section TokenWitness.
Import SampleService.
#[local] Existing Instance no_parameters.
#[local] Existing Instance echo.
#[local] Existing Instance echo_laws.

(** The defaults of the command line, and a token. *)
Definition flags : daemonConfig := {|
  dc_developerMode := false; dc_enablePrivateNetworkAccessHeader := false; dc_metricsMode := "off";
  dc_tokenString := "secret"; dc_writeTimeout := 30000000000; dc_readTimeout := 5000000000;
  dc_maxAPIResourcesPerAccount := 1000; dc_maxAccountListSize := 50;
  dc_maxBlocksLimit := 1000; dc_defaultBlocksLimit := 100;
  dc_maxTransactionsLimit := 10000; dc_defaultTransactionsLimit := 1000;
  dc_maxAccountsLimit := 1000; dc_defaultAccountsLimit := 100;
  dc_maxAssetsLimit := 1000; dc_defaultAssetsLimit := 100;
  dc_maxBoxesLimit := 10000; dc_defaultBoxesLimit := 1000;
  dc_maxBalancesLimit := 10000; dc_defaultBalancesLimit := 1000;
  dc_maxApplicationsLimit := 1000; dc_defaultApplicationsLimit := 100;
  dc_enableAllParameters := false; dc_suppliedAPIConfigFile := "" |}.

Definition made : Options :=
  match makeOptions (λ _, Err (ErrMsg "no file")) flags with
  | Ok o => o
  | Err _ => {| op_extra := with_token; op_EnablePrivateNetworkAccessHeader := true;
                op_MetricsEndpointVerbose := true; op_ReadTimeout := 0;
                op_DisabledMapConfig := MakeDisabledMapConfig |}
  end.

Lemma token_required_witness :
  exists r w' fs', (first_route (registered (op_extra made) si)).2 (request "Bearer wrong")
      (Build_World migrated None) [] = (r, w', fs') /\
    match r with
    | Ok answer => exists status msg, answer = HTTPError status msg /\
        (status = StatusUnauthorized \/ status = StatusInternalServerError)
    | Err e => exists what, e = ErrPanic what
    end.
Proof.
  apply (token_required (λ _, Err (ErrMsg "no file")) flags made si "/v2/accounts").
  - reflexivity.
  - discriminate.
  - left.
  - discriminate.
  - discriminate.
  - discriminate.
  - vm_compute. discriminate.
Defined.
End TokenWitness.
