(* ===== verification/Startup.v ===== *)
(** * The process: [cmd/algorand-indexer/main.go], [daemon.go], [api_config.go], [config/config.go]
    and [util/pidfile.go]

    The flags of the daemon and where their values come from, the life of the daemon from its
    first call to its exit status, and the command that prints the disabled parameters.

    Files are a map from paths to contents; two spellings of one path are two files.  Viper,
    pflag, logrus, the YAML library and the connection to PostgreSQL are parameters. *)

From Stdlib Require Import Ascii String.
From S2P Require Import Prelude GoStd Sdk Idb Models Util Params Disabled Interface Handlers Server Daemon.

(** ** Flags *)

(** A variable that a flag is bound to. *)
Inductive value :=
| StringValue (s : string)
| BoolValue (b : bool)
| Uint32Value (n : Z)
| DurationValue (d : Z).

Record flag := { f_name : string; f_value : value; f_changed : bool }.

#[export] Instance value_eq_dec : EqDecision value.
Proof. solve_decision. Defined.
#[export] Instance flag_eq_dec : EqDecision flag.
Proof. solve_decision. Defined.

(** [Value.Set] of pflag: the value of a text for a variable of the same type, if it has one. *)
Class FlagOps := { parse_value : value -> string -> option value }.

(** Viper: reading a configuration, naming the environment variable of a key, and the value of
    a key as text. *)
Class ViperOps (V : Type) := {
  ReadConfig : string -> V -> result V;
  BindEnv : string -> string -> V -> V;
  IsSet : V -> string -> bool;
  Get : V -> string -> string }.

(** What is known of a key. *)
Definition view {V} `{ViperOps V} (v : V) (key : string) : bool * string := (IsSet v key, Get v key).

(** For keys that are not aliases of each other: naming the variable of one does not concern
    the others, before or after. *)
Class ViperLaws (V : Type) `{ViperOps V} (keys : list string) := {
  BindEnv_other k k' e (v : V) : k ∈ keys -> k' ∈ keys -> k <> k' ->
    view (BindEnv k e v) k' = view v k';
  BindEnv_after k k' e e' (v : V) : k ∈ keys -> k' ∈ keys -> k <> k' ->
    view (BindEnv k' e' (BindEnv k e v)) k' = view (BindEnv k' e' v) k' }.

Definition EnvPrefix : string := "INDEXER".

(** [strings.ReplaceAll(name, "-", "_")] *)
Fixpoint dashes_replaced (l : list ascii) : list ascii :=
  match l with
  | [] => []
  | c :: l => (if byteZ c =? 45 then Zbyte 95 else c) :: dashes_replaced l
  end.
Definition env_name (name : string) : string :=
  EnvPrefix +:+ "_" +:+ strings_ToUpper (string_of_bytes (dashes_replaced (bytes_of_string name))).

Section Flags.
Context {V : Type} `{ViperOps V} `{FlagOps}.

Definition bind_env (v : V) (name : string) : V :=
  if strings_Contains name "-" then BindEnv name (env_name name) v else v.

(** [flags.Set]; its error is ignored. *)
Definition set_flag (f : flag) (text : string) : flag :=
  match parse_value (f_value f) text with
  | Some x => {| f_name := f_name f; f_value := x; f_changed := true |}
  | None => f
  end.

Definition bind_flag (v : V) (f : flag) : flag :=
  if negb (f_changed f) && IsSet v (f_name f) then set_flag f (Get v (f_name f)) else f.

Fixpoint BindFlagSet (v : V) (flags : list flag) : V * list flag :=
  match flags with
  | [] => (v, [])
  | f :: rest =>
      let v := bind_env v (f_name f) in
      let f := bind_flag v f in
      let '(v, rest) := BindFlagSet v rest in (v, f :: rest)
  end.
End Flags.

(** *** The flags of the daemon *)

Definition flag_default (name : string) (x : value) : flag :=
  {| f_name := name; f_value := x; f_changed := false |}.

Definition seconds (n : Z) : Z := n * 1000000000.

(** [DaemonCmd] *)
Definition daemon_flags : list flag := [
  flag_default "server" (StringValue ":8980"); flag_default "token" (StringValue "");
  flag_default "dev-mode" (BoolValue false);
  flag_default "enable-private-network-access-header" (BoolValue false);
  flag_default "metrics-mode" (StringValue "OFF");
  flag_default "write-timeout" (DurationValue (seconds 30));
  flag_default "read-timeout" (DurationValue (seconds 5));
  flag_default "max-conn" (Uint32Value 0);
  flag_default "api-config-file" (StringValue ""); flag_default "enable-all-parameters" (BoolValue false);
  flag_default "max-api-resources-per-account" (Uint32Value 1000);
  flag_default "max-account-list-size" (Uint32Value 50);
  flag_default "max-blocks-limit" (Uint32Value 1000); flag_default "default-blocks-limit" (Uint32Value 100);
  flag_default "max-transactions-limit" (Uint32Value 10000);
  flag_default "default-transactions-limit" (Uint32Value 1000);
  flag_default "max-accounts-limit" (Uint32Value 1000); flag_default "default-accounts-limit" (Uint32Value 100);
  flag_default "max-assets-limit" (Uint32Value 1000); flag_default "default-assets-limit" (Uint32Value 100);
  flag_default "max-balances-limit" (Uint32Value 10000);
  flag_default "default-balances-limit" (Uint32Value 1000);
  flag_default "max-applications-limit" (Uint32Value 1000);
  flag_default "default-applications-limit" (Uint32Value 100);
  flag_default "max-boxes-limit" (Uint32Value 10000); flag_default "default-boxes-limit" (Uint32Value 1000);
  flag_default "data-dir" (StringValue ""); flag_default "cpuprofile" (StringValue "");
  flag_default "pidfile" (StringValue ""); flag_default "configfile" (StringValue "")].

(** [addFlags] *)
Definition common_flags : list flag := [
  flag_default "loglevel" (StringValue "info"); flag_default "logfile" (StringValue "");
  flag_default "postgres" (StringValue ""); flag_default "dummydb" (BoolValue false);
  flag_default "version" (BoolValue false)].

(** The variables. *)
Definition flag_value (flags : list flag) (name : string) : option value :=
  f_value <$> head (filter (λ f, f_name f = name) flags).
Definition string_flag (flags : list flag) (name : string) : string :=
  match flag_value flags name with Some (StringValue s) => s | _ => "" end.
Definition bool_flag (flags : list flag) (name : string) : bool :=
  match flag_value flags name with Some (BoolValue b) => b | _ => false end.
Definition number_flag (flags : list flag) (name : string) : Z :=
  match flag_value flags name with Some (Uint32Value n) => n | Some (DurationValue d) => d | _ => 0 end.

(** An assignment to the variable; the flag does not count as given. *)
Definition assign (name : string) (x : value) (flags : list flag) : list flag :=
  map (λ f, if bool_decide (f_name f = name)
            then {| f_name := f_name f; f_value := x; f_changed := f_changed f |} else f) flags.

Definition config_of (flags : list flag) : daemonConfig := {|
  dc_developerMode := bool_flag flags "dev-mode";
  dc_enablePrivateNetworkAccessHeader := bool_flag flags "enable-private-network-access-header";
  dc_metricsMode := string_flag flags "metrics-mode"; dc_tokenString := string_flag flags "token";
  dc_writeTimeout := number_flag flags "write-timeout"; dc_readTimeout := number_flag flags "read-timeout";
  dc_maxAPIResourcesPerAccount := number_flag flags "max-api-resources-per-account";
  dc_maxAccountListSize := number_flag flags "max-account-list-size";
  dc_maxBlocksLimit := number_flag flags "max-blocks-limit";
  dc_defaultBlocksLimit := number_flag flags "default-blocks-limit";
  dc_maxTransactionsLimit := number_flag flags "max-transactions-limit";
  dc_defaultTransactionsLimit := number_flag flags "default-transactions-limit";
  dc_maxAccountsLimit := number_flag flags "max-accounts-limit";
  dc_defaultAccountsLimit := number_flag flags "default-accounts-limit";
  dc_maxAssetsLimit := number_flag flags "max-assets-limit";
  dc_defaultAssetsLimit := number_flag flags "default-assets-limit";
  dc_maxBoxesLimit := number_flag flags "max-boxes-limit";
  dc_defaultBoxesLimit := number_flag flags "default-boxes-limit";
  dc_maxBalancesLimit := number_flag flags "max-balances-limit";
  dc_defaultBalancesLimit := number_flag flags "default-balances-limit";
  dc_maxApplicationsLimit := number_flag flags "max-applications-limit";
  dc_defaultApplicationsLimit := number_flag flags "default-applications-limit";
  dc_enableAllParameters := bool_flag flags "enable-all-parameters";
  dc_suppliedAPIConfigFile := string_flag flags "api-config-file" |}.

(** ** The process *)

(** How a function ends: it returns, with or without an error, it panics with [exit{rc}], it
    ends the process at once ([log.Fatal], [os.Exit]), or it has not ended. *)
Inductive ending (A : Type) :=
| Returns (a : A)
| Fails (e : error)
| Panics (rc : Z)
| Exits (rc : Z)
| Blocks.
Arguments Returns {A}. Arguments Fails {A}. Arguments Panics {A}. Arguments Exits {A}.
Arguments Blocks {A}.

(** [os.Exit] skips the deferred functions. *)
Definition unwinds {A} (e : ending A) : bool :=
  match e with Exits _ | Blocks => false | _ => true end.

Record DbOptions := { do_ReadOnly : bool; do_MaxConn : Z; do_IndexerDatadir : string }.
Inductive handle := PostgresDb (connection : string) (opts : DbOptions) | DummyDb.

Record machine (V : Type) := {
  m_files : gmap string string; m_dirs : gset string;
  m_viper : V; m_flags : list flag;
  (** the level and the destination of the logger, and the messages of level info of the main
      goroutine *)
  m_level : string; m_output : string; m_log : list string;
  m_profiling : bool; m_db : option handle;
  (** the server that was started last: its address and options *)
  m_served : option (string * Options) }.
Arguments m_files {V}. Arguments m_dirs {V}. Arguments m_viper {V}. Arguments m_flags {V}.
Arguments m_level {V}. Arguments m_output {V}. Arguments m_log {V}. Arguments m_profiling {V}.
Arguments m_db {V}. Arguments m_served {V}.
Arguments Build_machine {V}.

(** Calls to the operating system that may fail. *)
Inductive os_call :=
| Stat (path : string) | Mkdir (path : string) | Open (path : string) | Create (path : string)
| OpenFile (path : string) | Write (path : string) | Close (path : string) | Remove (path : string)
| StartCPUProfile (path : string).

Definition ErrNotExist : error := ErrSentinel "file does not exist".
Definition ErrExist : error := ErrSentinel "file already exists".

Section Process.
Context {V : Type} `{ViperOps V} `{FlagOps} `{MapRange}.
Abbreviation machine := (machine V).

(** *** Assignments *)

Definition set_files (files : gmap string string) (m : machine) : machine :=
  Build_machine files (m_dirs m) (m_viper m) (m_flags m) (m_level m) (m_output m) (m_log m)
    (m_profiling m) (m_db m) (m_served m).
Definition set_dirs (dirs : gset string) (m : machine) : machine :=
  Build_machine (m_files m) dirs (m_viper m) (m_flags m) (m_level m) (m_output m) (m_log m)
    (m_profiling m) (m_db m) (m_served m).
Definition set_config (v : V) (flags : list flag) (m : machine) : machine :=
  Build_machine (m_files m) (m_dirs m) v flags (m_level m) (m_output m) (m_log m)
    (m_profiling m) (m_db m) (m_served m).
Definition set_logger (level output : string) (m : machine) : machine :=
  Build_machine (m_files m) (m_dirs m) (m_viper m) (m_flags m) level output (m_log m)
    (m_profiling m) (m_db m) (m_served m).
Definition add_log (line : string) (m : machine) : machine :=
  Build_machine (m_files m) (m_dirs m) (m_viper m) (m_flags m) (m_level m) (m_output m)
    (m_log m ++ [line]) (m_profiling m) (m_db m) (m_served m).
Definition set_profiling (b : bool) (m : machine) : machine :=
  Build_machine (m_files m) (m_dirs m) (m_viper m) (m_flags m) (m_level m) (m_output m) (m_log m)
    b (m_db m) (m_served m).
Definition set_db (db : option handle) (m : machine) : machine :=
  Build_machine (m_files m) (m_dirs m) (m_viper m) (m_flags m) (m_level m) (m_output m) (m_log m)
    (m_profiling m) db (m_served m).
Definition set_served (served : option (string * Options)) (m : machine) : machine :=
  Build_machine (m_files m) (m_dirs m) (m_viper m) (m_flags m) (m_level m) (m_output m) (m_log m)
    (m_profiling m) (m_db m) served.

Definition Proc (A : Type) : Type := machine -> ending A * machine.

Definition p_ret {A} (a : A) : Proc A := λ m, (Returns a, m).
Definition p_fail {A} (e : error) : Proc A := λ m, (Fails e, m).
Definition p_end {A} (e : ending A) : Proc A := λ m, (e, m).
Definition p_bind {A B} (x : Proc A) (k : A -> Proc B) : Proc B := λ m,
  match x m with
  | (Returns a, m) => k a m
  | (Fails e, m) => (Fails e, m)
  | (Panics rc, m) => (Panics rc, m)
  | (Exits rc, m) => (Exits rc, m)
  | (Blocks, m) => (Blocks, m)
  end.
Definition p_get {A} (f : machine -> A) : Proc A := λ m, (Returns (f m), m).
Definition p_set (f : machine -> machine) : Proc unit := λ m, (Returns tt, f m).
Definition p_result {A} (r : result A) : Proc A :=
  match r with Ok a => p_ret a | Err e => p_fail e end.
(** An error with another text. *)
Definition p_wrap {A} (fmt : string) (x : Proc A) : Proc A := λ m,
  match x m with
  | (Fails e, m) => (Fails (ErrWrap fmt e), m)
  | y => y
  end.
(** [defer d()] before [x]. *)
Definition deferred {A} (d : machine -> machine) (x : Proc A) : Proc A := λ m,
  let '(e, m) := x m in (e, if unwinds e then d m else m).
End Process.

Declare Scope proc_scope.
Delimit Scope proc_scope with proc.
Notation "x <== p ; k" := (p_bind p (λ x, k))
  (at level 100, p at next level, right associativity) : proc_scope.
Notation "p ;== k" := (p_bind p (λ _, k)) (at level 100, right associativity) : proc_scope.

(** *** The server while it runs *)

Inductive serve_event :=
| Signal
| ServerReturned (err : option error)
| ShutdownReturned (err : option error).

(** After the goroutine of the server was started: [cancelled] if the context is done. *)
Fixpoint serve_loop (cancelled : bool) (events : list serve_event) : ending unit :=
  match events with
  | [] => Blocks
  | Signal :: events => serve_loop true events
  | ServerReturned (Some _) :: _ => Exits 1
  | ServerReturned None :: events => serve_loop cancelled events
  | ShutdownReturned err :: events =>
      if cancelled then match err with None => Returns tt | Some _ => Exits 1 end
      else serve_loop cancelled events
  end.

Section Daemon.
Context {V : Type} `{ViperOps V} `{FlagOps} `{MapRange}.
Abbreviation machine := (machine V).
Abbreviation Proc := (Proc (V := V)).
Open Scope proc_scope.

(** The environment, the failures of the operating system, [filepath.Join], the number of the
    process, [log.ParseLevel], [IndexerDbByName] for PostgreSQL, the YAML parser and writer, and
    the OpenAPI document. *)
Context (Getenv : string -> string) (os_fails : os_call -> option error).
Context (Join : string -> string -> string) (Getpid : Z) (ParseLevel : string -> result string).
Context (connect : string -> DbOptions -> option error).
Context (unmarshal : string -> result DisplayDisabledMap) (marshal : DisplayDisabledMap -> result string).
Context (swagger : result Swagger).

(** *** Files *)

Definition os_do {A} (call : os_call) (k : Proc A) : Proc A :=
  match os_fails call with Some e => p_fail e | None => k end.

Definition os_Stat (path : string) (m : machine) : option error :=
  match os_fails (Stat path) with
  | Some e => Some e
  | None => if bool_decide (is_Some (m_files m !! path) \/ path ∈ m_dirs m) then None else Some ErrNotExist
  end.
Definition FileExists (m : machine) (path : string) : bool := bool_decide (os_Stat path m = None).

Definition os_Mkdir (path : string) : Proc unit := os_do (Mkdir path) (
  taken <== p_get (λ m, bool_decide (is_Some (m_files m !! path) \/ path ∈ m_dirs m));
  if (taken : bool) then p_fail ErrExist else p_set (λ m, set_dirs ({[ path ]} ∪ m_dirs m) m)).
(** Opening a file for reading, and its content. *)
Definition os_Open (path : string) : Proc string := os_do (Open path) (
  text <== p_get (λ m, m_files m !! path);
  match text with Some text => p_ret text | None => p_fail ErrNotExist end).
Definition os_Create (path : string) : Proc unit :=
  os_do (Create path) (p_set (λ m, set_files (<[ path := "" ]> (m_files m)) m)).
(** [os.OpenFile] to append, creating the file. *)
Definition os_OpenFile (path : string) : Proc unit :=
  os_do (OpenFile path)
    (p_set (λ m, set_files (<[ path := default "" (m_files m !! path) ]> (m_files m)) m)).
Definition os_Write (path text : string) : Proc unit :=
  os_do (Write path) (p_set (λ m, set_files (<[ path := text ]> (m_files m)) m)).
Definition os_Close (path : string) : Proc unit := os_do (Close path) (p_ret tt).

(** *** [daemon.go] *)

Definition configureIndexerDataDir (indexerDataDir : string) : Proc unit :=
  if bool_decide (indexerDataDir = "") then p_ret tt
  else
    err <== p_get (os_Stat indexerDataDir);
    match err with
    | None => p_ret tt
    | Some err =>
        if bool_decide (err = ErrNotExist) then
          p_wrap "indexer data directory error, %v" (os_Mkdir indexerDataDir)
        else p_fail err
    end.

Definition loadIndexerConfig (configFile : string) : Proc unit :=
  if bool_decide (configFile = "") then p_ret tt
  else
    configs <== p_wrap "config file does not exist: %w" (os_Open configFile);
    v <== p_get m_viper;
    v <== p_wrap "invalid config file (%s): %w" (p_result (ReadConfig configs v));
    p_set (λ m, set_config v (m_flags m) m).

Definition flag_of (name : string) : Proc string := p_get (λ m, string_flag (m_flags m) name).
Definition assign_flag (name : string) (x : value) : Proc unit :=
  p_set (λ m, set_config (m_viper m) (assign name x (m_flags m)) m).
Definition info (line : string) : Proc unit := p_set (add_log line).

(** An empty variable is taken from the environment. *)
Definition from_env (name key : string) : Proc unit :=
  current <== flag_of name;
  if bool_decide (current = "") then assign_flag name (StringValue (Getenv key)) else p_ret tt.

Definition bind_flags : Proc unit := p_set (λ m,
  let bound := BindFlagSet (m_viper m) (m_flags m) in set_config bound.1 bound.2 m).

Definition configureLogger (logLevel logFile : string) : Proc unit :=
  (if bool_decide (logLevel = "") then p_ret tt
   else level <== p_result (ParseLevel logLevel); p_set (λ m, set_logger level (m_output m) m));==
  if bool_decide (logFile = "-") then p_set (λ m, set_logger (m_level m) "stdout" m)
  else if bool_decide (logFile = "") then p_ret tt
  else os_OpenFile logFile;== p_set (λ m, set_logger (m_level m) logFile m).

(** The variable of the command [api-config], which has another flag of the same name; in the
    daemon it is empty. *)
Definition suppliedAPIConfigFile : string := "".

Definition loadParamConfig : Proc unit :=
  dir <== flag_of "data-dir";
  supplied <== flag_of "api-config-file";
  all <== p_get (λ m, bool_flag (m_flags m) "enable-all-parameters");
  found <== p_get (λ m, loadIndexerParamConfig Join (FileExists m) dir supplied all);
  match found with
  | Err e => p_fail e
  | Ok path =>
      if bool_decide (path = supplied) then p_ret tt
      else
        assign_flag "api-config-file" (StringValue path);==
        info ("Auto-loading parameter configuration file: " +:+ suppliedAPIConfigFile)
  end.

Definition CreateIndexerPidFile (pidFilePath : string) : Proc unit :=
  info ("Creating PID file at: " +:+ pidFilePath);==
  p_wrap "%s: could not create pid file, %v" (os_Create pidFilePath);==
  p_wrap "%s: could not write pid file, %v" (os_Write pidFilePath (FormatInt Getpid));==
  p_wrap "%s: could not close pid file, %v" (os_Close pidFilePath).

(** [os.Remove] in a deferred function; an error is only logged. *)
Definition remove_file (path : string) (m : machine) : machine :=
  match os_fails (Remove path) with
  | Some _ => m
  | None => set_files (delete path (m_files m)) m
  end.

(** [maybeFail] *)
Definition maybeFail (err : option error) : Proc unit :=
  match err with None => p_ret tt | Some _ => p_end (Panics 1) end.

Definition indexerDbFromFlags (opts : DbOptions) : Proc unit :=
  postgresAddr <== flag_of "postgres";
  dummyIndexerDb <== p_get (λ m, bool_flag (m_flags m) "dummydb");
  if negb (bool_decide (postgresAddr = "")) then
    maybeFail (connect postgresAddr opts);== p_set (set_db (Some (PostgresDb postgresAddr opts)))
  else if (dummyIndexerDb : bool) then p_set (set_db (Some DummyDb))
  else p_fail (ErrMsg "no import db set").

(** [api.MakeDisabledMapConfigFromFile] with the document of [GetSwagger]. *)
Definition config_from_file (m : machine) (path : string) : result DisabledMapConfig :=
  swag ← swagger;
  MakeDisabledMapConfigFromFile unmarshal (Some swag)
    (match os_fails (Open path) with
     | Some e => Err e
     | None => match m_files m !! path with Some text => Ok text | None => Err ErrNotExist end
     end).

(** [makeOptions], whose errors are panics; the message for a file comes after [GetSwagger]. *)
Definition make_options : Proc Options :=
  supplied <== flag_of "api-config-file";
  all <== p_get (λ m, bool_flag (m_flags m) "enable-all-parameters");
  (if bool_decide (supplied = "") then
     info ("Enable all parameters flag is set to: " +:+ (if (all : bool) then "true" else "false"))
   else match swagger with
        | Ok _ => info ("supplied api configuration file located at: " +:+ supplied)
        | Err _ => p_ret tt
        end);==
  r <== p_get (λ m, makeOptions (config_from_file m) (config_of (m_flags m)));
  match r with Ok o => p_ret o | Err _ => p_end (Panics 1) end.

(** [api.Serve]; an error of [GetSwagger] or [MakeDisabledMapFromOA3] is fatal. *)
Definition Serve (serveAddr : string) (o : Options) (events : list serve_event) : Proc unit :=
  match make_api (op_extra o) swagger (Some (op_DisabledMapConfig o)) None with
  | Err _ => p_end (Exits 1)
  | Ok _ => p_set (set_served (Some (serveAddr, o)));== p_end (serve_loop false events)
  end.

(** From the signal handler to the end of [runDaemon]. *)
Definition open_and_serve (events : list serve_event) : Proc unit :=
  maxConn <== p_get (λ m, number_flag (m_flags m) "max-conn");
  dir <== flag_of "data-dir";
  indexerDbFromFlags {| do_ReadOnly := true; do_MaxConn := maxConn; do_IndexerDatadir := dir |};==
  deferred (set_db None) (
    addr <== flag_of "server";
    info ("serving on " +:+ addr);==
    o <== make_options;
    Serve addr o events).

Definition with_profile (x : Proc unit) : Proc unit :=
  cpuProfile <== flag_of "cpuprofile";
  if bool_decide (cpuProfile = "") then x
  else
    os_Create cpuProfile;==
    os_do (StartCPUProfile cpuProfile) (p_set (set_profiling true));==
    deferred (set_profiling false) x.

Definition with_pid_file (x : Proc unit) : Proc unit :=
  pidFilePath <== flag_of "pidfile";
  if bool_decide (pidFilePath = "") then x
  else CreateIndexerPidFile pidFilePath;== deferred (remove_file pidFilePath) x.

(** Up to the values of the flags; the configuration file that was read. *)
Definition load_config : Proc string :=
  from_env "data-dir" "INDEXER_DATA";==
  from_env "configfile" "INDEXER_CONFIGFILE";==
  dir <== flag_of "data-dir";
  file <== flag_of "configfile";
  configureIndexerDataDir dir;==
  resolved <== p_get (λ m, resolveConfigFile Join (FileExists m) dir file);
  configFile <== p_result resolved;
  loadIndexerConfig configFile;==
  bind_flags;==
  p_ret configFile.

Definition configure (configFile : string) : Proc unit :=
  logLevel <== flag_of "loglevel";
  logFile <== flag_of "logfile";
  configureLogger logLevel logFile;==
  (if bool_decide (configFile = "") then p_ret tt else info ("Using configuration file: " +:+ configFile));==
  loadParamConfig.

Definition runDaemon (events : list serve_event) : Proc unit :=
  configFile <== load_config;
  configure configFile;==
  with_pid_file (with_profile (open_and_serve events)).

(** The exit status of the command: an error that is returned ends the process with status 1,
    [exitHandler] turns a panic into its status. *)
Definition status (e : ending unit) : option Z :=
  match e with
  | Returns _ => Some 0
  | Fails _ => Some 1
  | Panics rc | Exits rc => Some rc
  | Blocks => None
  end.

(** *** [api_config.go] *)

(** [DisplayDisabledMap.String] *)
Definition DisplayDisabledMap_String (ddm : DisplayDisabledMap) : result string :=
  if bool_decide (ddm = ∅) then Ok "" else marshal ddm.

(** The flags of the command. *)
Definition api_config_flags : list flag := [
  flag_default "all" (BoolValue false); flag_default "api-config-file" (StringValue "")].

(** What is printed before the process ends with status 0; every error is a panic with status 1.
    The level and the file of the logger are flags of the daemon only: here they have the
    defaults of those. *)
Definition apiConfig : Proc string :=
  bind_flags;==
  (λ m, match configureLogger "info" "" m with
        | (Fails _, m) => (Panics 1, m)
        | y => y
        end);==
  supplied <== flag_of "api-config-file";
  showAllDisabled <== p_get (λ m, bool_flag (m_flags m) "all");
  r <== p_get (λ m,
    swag ← swagger;
    config ← (if bool_decide (supplied = "") then Ok GetDefaultDisabledMapConfigForPostgres
              else config_from_file m supplied);
    DisplayDisabledMap_String (MakeDisplayDisabledMapFromConfig swag config (negb showAllDisabled)));
  match r with Ok text => p_ret text | Err _ => p_end (Panics 1) end.
End Daemon.

(** ** The values of the flags *)

Section Precedence.
Context {V : Type} `{ViperOps V} `{FlagOps} (keys : list string) `{!ViperLaws V keys}.

Lemma bind_flag_view (v v' : V) f : view v (f_name f) = view v' (f_name f) -> bind_flag v f = bind_flag v' f.
Proof. unfold view, bind_flag. by intros [= -> ->]. Qed.

Lemma view_bind_env_after (v : V) k k' : k ∈ keys -> k' ∈ keys -> k <> k' ->
  view (bind_env (bind_env v k) k') k' = view (bind_env v k') k'.
Proof.
  intros ? ? Hk. unfold bind_env. destruct (strings_Contains k "-"); [|done].
  destruct (strings_Contains k' "-"); [by apply BindEnv_after|by apply BindEnv_other].
Qed.

(** Each flag is bound by itself, whatever the order of the visit. *)
Lemma BindFlagSet_each (v : V) flags : NoDup (f_name <$> flags) -> (forall f, f ∈ flags -> f_name f ∈ keys) ->
  (BindFlagSet v flags).2 = map (λ f, bind_flag (bind_env v (f_name f)) f) flags.
Proof.
  revert v. induction flags as [|f flags IH]; intros v; [done|]. cbn. intros [Hf Hn]%NoDup_cons Hin.
  destruct (BindFlagSet (bind_env v (f_name f)) flags) as [v' rest] eqn:E. cbn. f_equal.
  assert (rest = (BindFlagSet (bind_env v (f_name f)) flags).2) as -> by by rewrite E.
  rewrite IH; [|done|intros; apply Hin; by right].
  apply map_ext_in. intros g Hg%list_elem_of_In. apply bind_flag_view, view_bind_env_after.
  - apply Hin. left.
  - apply Hin. by right.
  - intros Heq. apply Hf. rewrite Heq. by apply list_elem_of_fmap_2.
Qed.

(** The value of a flag that is not given: that of the environment or the configuration, if it
    has one of the right type. *)
Definition configured (v : V) (f : flag) : value :=
  let v := bind_env v (f_name f) in
  if IsSet v (f_name f) then default (f_value f) (parse_value (f_value f) (Get v (f_name f))) else f_value f.

Lemma bind_flag_given (v : V) f : f_changed f = true -> bind_flag v f = f.
Proof. unfold bind_flag. by intros ->. Qed.

Lemma bind_flag_configured (v : V) f : f_changed f = false ->
  f_name (bind_flag (bind_env v (f_name f)) f) = f_name f /\
  f_value (bind_flag (bind_env v (f_name f)) f) = configured v f.
Proof.
  unfold bind_flag, configured, set_flag. intros ->. cbn [negb andb].
  destruct (IsSet _ _); [|done]. by destruct (parse_value _ _).
Qed.

Lemma bind_flag_name (v : V) f : f_name (bind_flag v f) = f_name f.
Proof. unfold bind_flag, set_flag. by repeat case_match. Qed.
End Precedence.

(** *** Types *)

(** [Value.Type] *)
Definition kind (x : value) : string :=
  match x with
  | StringValue _ => "string" | BoolValue _ => "bool" | Uint32Value _ => "uint32" | DurationValue _ => "duration"
  end.

Class FlagLaws `{FlagOps} := { parse_kind x text y : parse_value x text = Some y -> kind y = kind x }.

Definition signature (flags : list flag) : list (string * string) :=
  map (λ f, (f_name f, kind (f_value f))) flags.
Definition well_typed (flags : list flag) : Prop := signature flags = signature (daemon_flags ++ common_flags).

Lemma signature_names flags : (signature flags).*1 = f_name <$> flags.
Proof. unfold signature. by rewrite <- list_fmap_compose. Qed.

Lemma signature_update (g : flag -> flag) flags :
  (forall f, f ∈ flags -> f_name (g f) = f_name f /\ kind (f_value (g f)) = kind (f_value f)) ->
  signature (map g flags) = signature flags.
Proof.
  intros Hg. unfold signature. rewrite map_map. apply map_ext_in. intros f Hf%list_elem_of_In.
  by destruct (Hg f Hf) as [-> ->].
Qed.

Lemma daemon_names_unique : NoDup (f_name <$> daemon_flags ++ common_flags).
Proof. apply (bool_decide_unpack _). by vm_compute. Qed.

Lemma well_typed_unique flags : well_typed flags -> NoDup (f_name <$> flags).
Proof.
  intros Ht. rewrite <- signature_names, Ht, signature_names. apply daemon_names_unique.
Qed.

Lemma flag_value_elem flags f : NoDup (f_name <$> flags) -> f ∈ flags ->
  flag_value flags (f_name f) = Some (f_value f).
Proof.
  intros Hn Hf. unfold flag_value. induction flags as [|g flags IH]; [by apply not_elem_of_nil in Hf|].
  cbn in Hn. apply NoDup_cons in Hn as [Hg Hn]. apply elem_of_cons in Hf as [->|Hf].
  - by rewrite filter_cons_True.
  - rewrite filter_cons_False; [by apply IH|]. intros Heq. apply Hg. rewrite Heq. by apply list_elem_of_fmap_2.
Qed.

(** A flag of the daemon has the type it was declared with. *)
Lemma well_typed_kind flags f name k : well_typed flags -> f ∈ flags -> f_name f = name ->
  (name, k) ∈ signature (daemon_flags ++ common_flags) -> kind (f_value f) = k.
Proof.
  intros Ht Hf Hname Hk. rewrite <- Ht in Hk. unfold signature in Hk.
  apply list_elem_of_fmap_1 in Hk as (g & [= -> ->] & Hg). assert (g = f) as ->; [|done].
  pose proof (well_typed_unique flags Ht) as Hn.
  apply list_elem_of_lookup in Hf as [i Hi], Hg as [j Hj].
  enough (i = j) as <- by congruence. apply (NoDup_lookup (f_name <$> flags) i j (f_name f)); [done|..];
    rewrite list_lookup_fmap, ?Hi, ?Hj; cbn; congruence.
Qed.

Lemma assign_typed name s flags : (name, "string") ∈ signature (daemon_flags ++ common_flags) ->
  well_typed flags -> well_typed (assign name (StringValue s) flags).
Proof.
  intros Hname Ht. unfold well_typed, assign. rewrite signature_update; [done|]. intros f Hf.
  destruct (bool_decide_reflect (f_name f = name)) as [Heq|]; [|done]. split; [done|].
  by rewrite (well_typed_kind flags f name "string").
Qed.

Lemma BindFlagSet_typed {V} `{ViperOps V} `{FlagLaws} (v : V) flags :
  signature (BindFlagSet v flags).2 = signature flags.
Proof.
  revert v. induction flags as [|f flags IH]; intros v; [done|]. cbn [BindFlagSet].
  specialize (IH (bind_env v (f_name f))). destruct (BindFlagSet (bind_env v (f_name f)) flags) as [v' rest].
  cbn in IH |- *. rewrite bind_flag_name. f_equal; [|exact IH]. f_equal.
  unfold bind_flag, set_flag. destruct (_ && _); [|done].
  destruct (parse_value _ _) eqn:E; [|done]. by apply parse_kind in E.
Qed.

(** An assignment to a string variable leaves the other flags alone. *)
Lemma assign_elem name x flags f : f ∈ flags -> f_name f <> name -> f ∈ assign name x flags.
Proof.
  intros Hf Hne. unfold assign. apply (list_elem_of_fmap_2' _ _ f); [done|].
  by rewrite bool_decide_eq_false_2.
Qed.

(** ** What a step keeps *)

(** Every run of [x] relates the machines before and after it. *)
Definition keeps {V A} (R : machine V -> machine V -> Prop) (x : Proc (V := V) A) : Prop :=
  forall m, R m (x m).2.

Create HintDb proc.

Section Keeps.
Context {V : Type} (R : machine V -> machine V -> Prop) `{!PreOrder R}.

Lemma keeps_ret {A} (a : A) : keeps R (p_ret a).
Proof. by intros m. Qed.
Lemma keeps_fail {A} e : keeps R (p_fail (A := A) e).
Proof. by intros m. Qed.
Lemma keeps_end {A} (e : ending A) : keeps R (p_end e).
Proof. by intros m. Qed.
Lemma keeps_get {A} (f : machine V -> A) : keeps R (p_get f).
Proof. by intros m. Qed.
Lemma keeps_set f : (forall m, R m (f m)) -> keeps R (p_set f).
Proof. by intros Hf m. Qed.
Lemma keeps_result {A} (r : result A) : keeps R (p_result r).
Proof. intros m. by destruct r. Qed.
Lemma keeps_bind {A B} (x : Proc (V := V) A) (k : A -> Proc B) :
  keeps R x -> (forall a, keeps R (k a)) -> keeps R (p_bind x k).
Proof.
  intros Hx Hk m. unfold p_bind. specialize (Hx m). destruct (x m) as [[a| | | |] m1]; try done.
  cbn in Hx. etrans; [exact Hx|]. apply Hk.
Qed.
Lemma keeps_wrap {A} fmt (x : Proc (V := V) A) : keeps R x -> keeps R (p_wrap fmt x).
Proof. intros Hx m. unfold p_wrap. specialize (Hx m). by destruct (x m) as [[] m1]. Qed.
Lemma keeps_do {A} os_fails call (x : Proc (V := V) A) : keeps R x -> keeps R (os_do os_fails call x).
Proof. intros Hx. unfold os_do. destruct (os_fails call); [apply keeps_fail|done]. Qed.
Lemma keeps_deferred {A} d (x : Proc (V := V) A) :
  keeps R x -> (forall m, R m (d m)) -> keeps R (deferred d x).
Proof.
  intros Hx Hd m. unfold deferred. specialize (Hx m). destruct (x m) as [e m1]. cbn in Hx |- *.
  destruct (unwinds e); [by etrans|done].
Qed.
End Keeps.

Lemma p_bind_get {V A B} (f : machine V -> A) (k : A -> Proc B) m : p_bind (p_get f) k m = k (f m) m.
Proof. done. Qed.

(** A sequence ended in its first part or ran its second. *)
Lemma p_bind_inv {V A B} (x : Proc (V := V) A) (k : A -> Proc B) m e m' : p_bind x k m = (e, m') ->
  (exists a m1, x m = (Returns a, m1) /\ k a m1 = (e, m')) \/
  exists e1, x m = (e1, m') /\ (forall a, e1 <> Returns a) /\ (forall b, e <> Returns b) /\
    unwinds e1 = unwinds e.
Proof. unfold p_bind. destruct (x m) as [[a| | | |] m1]; [by eauto|..]; intros [= <- <-]; right; by eexists. Qed.

#[export] Hint Resolve keeps_ret keeps_fail keeps_end keeps_get keeps_result : proc.

(** Splits a program into its steps. *)
Ltac keep := repeat
  match goal with
  | |- forall _, _ => intros
  | |- keeps _ (p_bind _ _) => apply keeps_bind; [typeclasses eauto| |intros]
  | |- keeps _ (p_wrap _ _) => apply keeps_wrap
  | |- keeps _ (os_do _ _ _) => apply keeps_do; [typeclasses eauto|]
  | |- keeps _ (deferred _ _) => apply keeps_deferred; [typeclasses eauto| |intros]
  | |- keeps _ (p_set _) => apply keeps_set; intros
  | |- keeps _ (if ?b then _ else _) => destruct b
  | |- keeps _ (match ?x with _ => _ end) => destruct x
  | |- keeps _ _ => solve [eauto with proc typeclass_instances]
  end.

#[export] Instance preserves_preorder {V A} (f : machine V -> A) : PreOrder (λ m m', f m' = f m).
Proof. split; [by intros m|intros x y z Hxy Hyz; congruence]. Qed.

Lemma flag_value_assign_ne name name' x flags : name <> name' ->
  flag_value (assign name x flags) name' = flag_value flags name'.
Proof.
  intros Hne. unfold flag_value. f_equal. induction flags as [|f flags IH]; [done|]. cbn [assign map].
  destruct (bool_decide_reflect (f_name f = name)) as [Hf|Hf].
  - rewrite !filter_cons_False; [apply IH|cbn; congruence|cbn; congruence].
  - destruct (decide (f_name f = name')).
    + by rewrite !filter_cons_True.
    + rewrite !filter_cons_False; [apply IH|done|done].
Qed.

Section Daemon_theorems.
Context {V : Type} `{ViperOps V} `{FlagOps} `{MapRange}.
Context (Getenv : string -> string) (os_fails : os_call -> option error).
Context (Join : string -> string -> string) (Getpid : Z) (ParseLevel : string -> result string).
Context (connect : string -> DbOptions -> option error).
Context (unmarshal : string -> result DisplayDisabledMap) (swagger : result Swagger).
Abbreviation load := (load_config (V := V) Getenv os_fails Join).
Abbreviation conf := (configure (V := V) os_fails Join ParseLevel).
Abbreviation run := (runDaemon (V := V) Getenv os_fails Join Getpid ParseLevel connect unmarshal swagger).
Abbreviation serve := (open_and_serve (V := V) os_fails connect unmarshal swagger).

(** What the process holds besides the pid file. *)
Definition held (m : machine V) : bool * option handle * option (string * Options) :=
  (m_profiling m, m_db m, m_served m).

Lemma load_held : keeps (λ m m', (held m', m_files m') = (held m, m_files m)) load.
Proof.
  unfold load_config, from_env, flag_of, assign_flag, configureIndexerDataDir, os_Mkdir, loadIndexerConfig,
    os_Open, bind_flags. keep; done.
Qed.

Lemma configureLogger_keeps (R : machine V -> machine V -> Prop) `{!PreOrder R} level file :
  (forall m level output, R m (set_logger level output m)) -> keeps R (os_OpenFile os_fails file) ->
  keeps R (configureLogger os_fails ParseLevel level file).
Proof. intros Hl Hf. unfold configureLogger. keep; try done; apply Hl. Qed.

Lemma configure_held c : keeps (λ m m', held m' = held m) (conf c).
Proof.
  unfold configure, flag_of, loadParamConfig, info, assign_flag. keep; try done.
  apply configureLogger_keeps; [typeclasses eauto|done|]. unfold os_OpenFile. keep. done.
Qed.

Definition settings (m : machine V) : V * list flag := (m_viper m, m_flags m).

(** After the flags are bound, only the path of the parameters is assigned. *)
Definition same_flags (m m' : machine V) : Prop :=
  m_viper m' = m_viper m /\
  (m_flags m' = m_flags m \/ string_flag (m_flags m) "api-config-file" = "" /\
    exists path, m_flags m' = assign "api-config-file" (StringValue path) (m_flags m)).

Lemma same_flags_string m m' name : same_flags m m' -> name <> "api-config-file" ->
  string_flag (m_flags m') name = string_flag (m_flags m) name.
Proof.
  intros (_ & [->|(_ & path & ->)]) Hne; [done|]. unfold string_flag. by rewrite flag_value_assign_ne.
Qed.

Lemma configure_flags c m : same_flags m (conf c m).2.
Proof.
  assert (keeps (λ m m', settings m' = settings m)
            (configureLogger os_fails ParseLevel (string_flag (m_flags m) "loglevel")
               (string_flag (m_flags m) "logfile"))) as Hl.
  { apply configureLogger_keeps; [typeclasses eauto|done|]. unfold os_OpenFile. keep. done. }
  unfold configure, flag_of. cbn. unfold p_bind at 1. specialize (Hl m).
  destruct (configureLogger _ _ _ _ m) as [[| | | |] m1]; cbn in Hl |- *; injection Hl as Hv Hf;
    try (split; [done|by left]).
  set (m2 := (if bool_decide (c = "") then m1 else add_log ("Using configuration file: " +:+ c) m1)).
  assert (p_bind (if bool_decide (c = "") then p_ret tt else info ("Using configuration file: " +:+ c))
    (λ _, loadParamConfig os_fails Join) m1 = loadParamConfig os_fails Join m2) as ->.
  { unfold m2. by destruct (bool_decide (c = "")). }
  assert (m_viper m2 = m_viper m /\ m_flags m2 = m_flags m) as [Hv2 Hf2].
  { unfold m2. by destruct (bool_decide (c = "")). }
  unfold same_flags. rewrite <- Hf2, <- Hv2. clear Hv2 Hf2.
  unfold loadParamConfig, flag_of. cbn.
  destruct (loadIndexerParamConfig _ _ _ _ _) as [path|e] eqn:E; cbn; [|by split; [|left]].
  destruct (bool_decide_reflect (path = string_flag (m_flags m2) "api-config-file")) as [Hp|Hp]; cbn;
    [by split; [|left]|]. split; [done|]. right. split; [|by eexists].
  unfold loadIndexerParamConfig in E. destruct (negb _ && _); [done|].
  destruct (GetConfigFromDataDir _ _ _ _ _) as [found|]; [|done]. cbn in E.
  destruct (bool_decide (found = "")); cbn in E; [by injection E as <-|].
  by destruct (bool_decide_reflect (string_flag (m_flags m2) "api-config-file" = "")).
Qed.

(** *** What is released *)

Lemma serve_keeps {A} (f : machine V -> A) events :
  (forall m db, f (set_db db m) = f m) -> (forall m line, f (add_log line m) = f m) ->
  (forall m served, f (set_served served m) = f m) -> keeps (λ m m', f m' = f m) (serve events).
Proof.
  intros Hdb Hlog Hserved.
  unfold open_and_serve, flag_of, indexerDbFromFlags, maybeFail, make_options, Serve, info. keep; auto.
Qed.

Lemma serve_closes events m : m_db m = None -> unwinds (serve events m).1 = true ->
  m_db (serve events m).2 = None.
Proof.
  intros Hdb. unfold open_and_serve. destruct (p_bind _ _ m) as [e m'] eqn:E. cbn.
  unfold flag_of in E. rewrite !p_bind_get in E.
  apply p_bind_inv in E as [(a & m1 & _ & E)|(e1 & E & Hn & _)].
  - unfold deferred in E. destruct (p_bind _ _ m1) as [e1 m2]. injection E as <- <-. intros Hu. by rewrite Hu.
  - intros _. revert E Hn. unfold indexerDbFromFlags, flag_of, p_bind, p_get, maybeFail.
    destruct (bool_decide _); cbn; [destruct (bool_flag _ _)|destruct (connect _ _)];
      intros [= <- <-] Hn; try done; by destruct (Hn tt).
Qed.

Abbreviation profiled events := (with_profile (V := V) os_fails (serve events)).

(** A call that only may fail, and the change it makes. *)
Lemma os_do_inv call (f : machine V -> machine V) m e m' : os_do os_fails call (p_set f) m = (e, m') ->
  e = Returns tt /\ m' = f m \/ (exists err, e = Fails err) /\ m' = m.
Proof. unfold os_do, p_set. destruct (os_fails call); intros [= <- <-]; eauto. Qed.

Lemma profiled_releases events m : m_profiling m = false -> m_db m = None ->
  unwinds (profiled events m).1 = true ->
  m_profiling (profiled events m).2 = false /\ m_db (profiled events m).2 = None.
Proof.
  intros Hp Hdb. destruct (profiled events m) as [e m'] eqn:E. cbn [fst snd]. unfold with_profile, flag_of in E.
  rewrite p_bind_get in E. destruct (bool_decide _).
  - pose proof (serve_keeps m_profiling events) as Hk. pose proof (serve_closes events m Hdb) as Hc.
    specialize (Hk ltac:(done) ltac:(done) ltac:(done) m). rewrite E in Hk, Hc. cbn in Hk, Hc. rewrite Hk. auto.
  - apply p_bind_inv in E as [([] & m1 & E1 & E)|(e1 & E & Hn & _)].
    2:{ intros _. apply os_do_inv in E as [[-> _]|[_ ->]]; [by destruct (Hn tt)|done]. }
    apply os_do_inv in E1 as [[_ ->]|[[? ?] _]]; [|done].
    apply p_bind_inv in E as [([] & m2 & E2 & E)|(e2 & E & Hn & _)].
    2:{ intros _. apply os_do_inv in E as [[-> _]|[_ ->]]; [by destruct (Hn tt)|done]. }
    apply os_do_inv in E2 as [[_ ->]|[[? ?] _]]; [|done].
    unfold deferred in E. destruct (serve events _) as [e1 m3] eqn:E3. injection E as <- <-. intros Hu.
    rewrite Hu. split; [done|]. cbn.
    match type of E3 with serve events ?m2 = _ => pose proof (serve_closes events m2 Hdb) as Hc end.
    rewrite E3 in Hc. by apply Hc.
Qed.

Definition file_at (path : string) (m : machine V) : option string := m_files m !! path.

Lemma configure_files c m path : string_flag (m_flags m) "logfile" <> path ->
  file_at path (conf c m).2 = file_at path m.
Proof.
  intros Hne. unfold configure, flag_of. rewrite !p_bind_get.
  refine (keeps_bind (λ m m', file_at path m' = file_at path m) _ _ _ _ m).
  - apply configureLogger_keeps; [typeclasses eauto|done|]. unfold os_OpenFile. keep.
    unfold file_at. cbn. by rewrite lookup_insert_ne.
  - unfold info, loadParamConfig, flag_of, assign_flag, info. keep; done.
Qed.

Lemma profiled_flags events m : m_flags (profiled events m).2 = m_flags m.
Proof.
  enough (keeps (λ m m', m_flags m' = m_flags m) (profiled events)) as Hk by apply Hk.
  pose proof (serve_keeps m_flags events) as Hs. unfold with_profile, flag_of, os_Create. keep; auto.
Qed.

Abbreviation locked events := (with_pid_file (V := V) os_fails Getpid (profiled events)).

Lemma locked_flags events m : m_flags (locked events m).2 = m_flags m.
Proof.
  enough (keeps (λ m m', m_flags m' = m_flags m) (locked events)) as Hk by apply Hk.
  unfold with_pid_file, CreateIndexerPidFile, flag_of, info, os_Create, os_Write, os_Close.
  keep; try done; try (intros ?; apply profiled_flags). unfold remove_file. by destruct (os_fails _).
Qed.

Lemma CreateIndexerPidFile_held pid :
  keeps (λ m m', held m' = held m) (CreateIndexerPidFile (V := V) os_fails Getpid pid).
Proof. unfold CreateIndexerPidFile, info, os_Create, os_Write, os_Close. keep; done. Qed.

Lemma locked_held events m e m' : locked events m = (e, m') -> unwinds e = true ->
  m_profiling m = false -> m_db m = None -> m_profiling m' = false /\ m_db m' = None.
Proof.
  intros E Hu Hp Hdb. unfold with_pid_file, flag_of in E. rewrite p_bind_get in E. destruct (bool_decide _).
  { pose proof (profiled_releases events m Hp Hdb) as Hr. rewrite E in Hr. auto. }
  pose proof (CreateIndexerPidFile_held (string_flag (m_flags m) "pidfile") m) as Hk.
  apply p_bind_inv in E as [([] & m1 & E1 & E)|(e1 & E1 & _)]; rewrite E1 in Hk; injection Hk as Hp1 Hdb1 _.
  - unfold deferred in E. destruct (profiled events m1) as [e2 m2] eqn:E2. injection E as <- <-. rewrite Hu.
    pose proof (profiled_releases events m1) as Hr. rewrite E2 in Hr. cbn [fst snd] in Hr.
    destruct Hr as [Hp2 Hdb2]; [congruence|congruence|done|]. unfold remove_file. by destruct (os_fails _).
  - split; congruence.
Qed.

(** The pid file is removed, or was not even created, if writing, closing and removing it do not
    fail. *)
Lemma locked_pid events m e m' : locked events m = (e, m') -> unwinds e = true ->
  let pid := string_flag (m_flags m) "pidfile" in
  pid <> "" -> file_at pid m = None ->
  os_fails (Write pid) = None -> os_fails (Close pid) = None -> os_fails (Remove pid) = None ->
  file_at pid m' = None.
Proof.
  cbn zeta. intros E Hu Hpid Hf Hw Hc Hr. unfold with_pid_file, flag_of in E. rewrite p_bind_get in E.
  rewrite bool_decide_eq_false_2 in E by done.
  apply p_bind_inv in E as [([] & m1 & _ & E)|(e1 & E1 & Hn & _)].
  - unfold deferred in E. destruct (profiled events m1) as [e2 m2] eqn:E2. injection E as <- <-.
    rewrite Hu. unfold remove_file. rewrite Hr. unfold file_at. cbn. apply lookup_delete_eq.
  - revert E1. unfold CreateIndexerPidFile, os_Create, os_Write, os_Close, os_do. rewrite Hw, Hc.
    destruct (os_fails (Create _)); cbn; intros [= <- <-]; [done|]. by destruct (Hn tt).
Qed.

Lemma deferred_returns {A} d (x : Proc (V := V) A) m a m' : deferred d x m = (Returns a, m') ->
  exists m1, x m = (Returns a, m1) /\ m' = d m1.
Proof. unfold deferred. destruct (x m) as [e1 m1]. intros [= -> <-]. eauto. Qed.

Lemma p_bind_returns {A B} (x : Proc (V := V) A) (k : A -> Proc B) m b m' : p_bind x k m = (Returns b, m') ->
  exists a m1, x m = (Returns a, m1) /\ k a m1 = (Returns b, m').
Proof. intros [Hx|(? & _ & _ & Hn & _)]%p_bind_inv; [done|by destruct (Hn b)]. Qed.

Lemma serve_returns events m m' : serve events m = (Returns tt, m') ->
  serve_loop false events = Returns tt /\ is_Some (m_served m').
Proof.
  unfold open_and_serve, flag_of. rewrite !p_bind_get.
  intros (? & m1 & _ & (m2 & E & ->)%deferred_returns)%p_bind_returns. rewrite p_bind_get in E.
  apply p_bind_returns in E as (? & m3 & _ & (o & m4 & _ & E)%p_bind_returns).
  unfold Serve in E. destruct (make_api _ _ _ _); [|done]. unfold p_bind, p_set, p_end in E.
  injection E as -> <-. by split; [|eexists].
Qed.

(** The server returned, after a signal and a shutdown in time. *)
Lemma locked_returns events m m' : locked events m = (Returns tt, m') ->
  serve_loop false events = Returns tt /\ is_Some (m_served m').
Proof.
  assert (forall m m', profiled events m = (Returns tt, m') ->
    serve_loop false events = Returns tt /\ is_Some (m_served m')) as Hp.
  { clear m m'. intros m m'. unfold with_profile, flag_of. rewrite p_bind_get.
    destruct (bool_decide _); [apply serve_returns|].
    intros (? & m1 & _ & (? & m2 & _ & (m3 & E & ->)%deferred_returns)%p_bind_returns)%p_bind_returns.
    by apply serve_returns in E. }
  unfold with_pid_file, flag_of. rewrite p_bind_get. destruct (bool_decide _); [apply Hp|].
  intros (? & m1 & _ & (m3 & E & ->)%deferred_returns)%p_bind_returns. apply Hp in E.
  unfold remove_file. by destruct (os_fails _).
Qed.

(** C29. Every end of the daemon other than a fatal error releases what it holds: the profile is
    stopped and the database is closed, whichever step failed; and a pid file that was not there
    before (and is not the log file too) is gone, provided that writing, closing and removing it
    do not fail ([unwritten_pid_file_stays] shows that the first is needed).  The status is 0 only
    if the server was started, a signal came, and the shutdown completed in time before the server
    had an error. *)
Theorem runDaemon_releases events m e m' :
  run events m = (e, m') -> unwinds e = true -> m_profiling m = false -> m_db m = None ->
  let pid := string_flag (m_flags m') "pidfile" in
  m_profiling m' = false /\ m_db m' = None /\
  (pid <> "" -> string_flag (m_flags m') "logfile" <> pid -> m_files m !! pid = None ->
   os_fails (Write pid) = None -> os_fails (Close pid) = None -> os_fails (Remove pid) = None ->
   m_files m' !! pid = None) /\
  (e = Returns tt -> serve_loop false events = Returns tt /\ is_Some (m_served m')).
Proof.
  intros E Hu Hp Hdb. unfold runDaemon in E.
  pose proof (load_held m) as Hl. apply p_bind_inv in E as [(c & m1 & E1 & E)|(e1 & E1 & Hn1 & Hn & _)];
    rewrite E1 in Hl; injection Hl as Hp1 Hdb1 _ Hf1.
  2:{ cbn zeta. rewrite Hp1, Hdb1, Hf1. split_and!; [done..|]. intros ->. by destruct (Hn tt). }
  pose proof (configure_held c m1) as Hk. pose proof (configure_files c m1) as Hf2.
  pose proof (configure_flags c m1) as Hs.
  apply p_bind_inv in E as [([] & m2 & E2 & E)|(e2 & E2 & _ & Hn & _)]; rewrite E2 in Hk, Hf2, Hs;
    injection Hk as Hp2 Hdb2 _; cbn [snd] in Hf2, Hs;
    pose proof (same_flags_string _ _ "logfile" Hs) as Hlog; specialize (Hlog ltac:(done)).
  - destruct (locked_held events m2 e m' E Hu) as [Hp3 Hdb3]; [congruence|congruence|].
    split_and!; [done|done| |intros ->; by apply (locked_returns _ _ _ E)].
    pose proof (locked_flags events m2) as Hf3. rewrite E in Hf3. cbn [snd] in Hf3.
    rewrite Hf3. intros Hpid Hne Hfile. apply (locked_pid events m2 e m' E Hu Hpid).
    rewrite Hf2 by congruence. unfold file_at. by rewrite Hf1.
  - cbn zeta. split_and!; [congruence|congruence| |intros ->; by destruct (Hn tt)]. intros Hpid Hne Hfile _ _ _.
    specialize (Hf2 (string_flag (m_flags m') "pidfile")). unfold file_at in Hf2. rewrite Hf2, Hf1; congruence.
Qed.

(** *** What is served *)

(** The flags stay as they are, and a server that is started has the options made of them. *)
Definition serves (m m' : machine V) : Prop :=
  m_flags m' = m_flags m /\
  (m_served m' = m_served m \/ exists (m1 : machine V) o, m_flags m1 = m_flags m /\
    makeOptions (config_from_file os_fails unmarshal swagger m1) (config_of (m_flags m1)) = Ok o /\
    m_served m' = Some (string_flag (m_flags m) "server", o)).

#[local] Instance serves_preorder : PreOrder serves.
Proof.
  split; [by intros m; split; [|left]|].
  intros x y z [Hf1 Hs1] [Hf2 Hs2]. split; [congruence|].
  destruct Hs2 as [Hs2|(m1 & o & Hm & Ho & Hs2)].
  - rewrite Hs2. exact Hs1.
  - right. exists m1, o. rewrite Hs2, <- Hf1. by split_and!.
Qed.

Lemma make_options_inv (m m' : machine V) e : make_options os_fails unmarshal swagger m = (e, m') ->
  m_flags m' = m_flags m /\ m_served m' = m_served m /\
  forall o, e = Returns o ->
    makeOptions (config_from_file os_fails unmarshal swagger m') (config_of (m_flags m')) = Ok o.
Proof.
  unfold make_options, flag_of. rewrite !p_bind_get.
  intros [([] & m1 & E1 & E)|(? & E1 & Hn & _)]%p_bind_inv.
  - rewrite p_bind_get in E.
    assert (m_flags m1 = m_flags m /\ m_served m1 = m_served m) as [Hf Hs].
    { revert E1. destruct (bool_decide _); [|destruct swagger]; by intros [= <-]. }
    destruct (makeOptions _ _) as [o|] eqn:Eo; injection E as <- <-; split_and!; try done. by intros o' [= <-].
  - revert E1. destruct (bool_decide _); [|destruct swagger]; intros [= <- <-]; by destruct (Hn tt).
Qed.

Lemma serve_serves events : keeps serves (serve events).
Proof.
  assert (forall m m', m_flags m' = m_flags m -> m_served m' = m_served m -> serves m m') as Hsame.
  { intros m m' Hf Hs. split; [done|by left]. }
  unfold open_and_serve, flag_of. apply keeps_bind; [typeclasses eauto|by auto with proc typeclass_instances|intros].
  apply keeps_bind; [typeclasses eauto|by auto with proc typeclass_instances|intros].
  apply keeps_bind; [typeclasses eauto| |intros []].
  { unfold indexerDbFromFlags, flag_of, maybeFail. keep; by apply Hsame. }
  apply keeps_deferred; [typeclasses eauto| |intros; by apply Hsame].
  intros m. rewrite p_bind_get. set (addr := string_flag (m_flags m) "server").
  match goal with |- serves _ (?x m).2 => destruct (x m) as [e m'] eqn:E end. cbn [snd].
  apply p_bind_inv in E as [([] & m1 & E1 & E)|(? & E1 & _)]; unfold info, p_set in E1;
    [injection E1 as <-|injection E1 as _ <-; by apply Hsame].
  apply p_bind_inv in E as [(o & m2 & E2 & E)|(? & E2 & _)]; apply make_options_inv in E2 as (Hf & Hs & Ho);
    [|by apply Hsame].
  unfold Serve in E. destruct (make_api _ _ _ _); [|injection E as _ <-; by apply Hsame].
  unfold p_bind, p_set, p_end in E. injection E as _ <-. split; [done|]. right. exists m2, o. by auto.
Qed.

Lemma locked_serves events : keeps serves (locked events).
Proof.
  assert (forall m m', m_flags m' = m_flags m -> m_served m' = m_served m -> serves m m') as Hsame.
  { intros m m' Hf Hs. split; [done|by left]. }
  pose proof (serve_serves events) as Hserve.
  unfold with_pid_file, with_profile, CreateIndexerPidFile, flag_of, info, os_Create, os_Write, os_Close.
  keep; try by apply Hsame. all: apply Hsame; unfold remove_file; by destruct (os_fails _).
Qed.

(** *** Where the values come from *)

(** A variable that is empty takes the value of the environment. *)
Definition env_flag (name key : string) (flags : list flag) : list flag :=
  if bool_decide (string_flag flags name = "") then assign name (StringValue (Getenv key)) flags else flags.
Definition env_flags (flags : list flag) : list flag :=
  env_flag "configfile" "INDEXER_CONFIGFILE" (env_flag "data-dir" "INDEXER_DATA" flags).

Lemma from_env_flags name key m e m' : from_env Getenv name key m = (e, m') ->
  e = Returns tt /\ settings m' = (m_viper m, env_flag name key (m_flags m)).
Proof.
  unfold from_env, flag_of, settings, env_flag. rewrite p_bind_get.
  destruct (bool_decide _); intros [= <- <-]; done.
Qed.

Lemma loadIndexerConfig_settings file m m' : loadIndexerConfig os_fails file m = (Returns tt, m') ->
  m_flags m' = m_flags m /\ (m_viper m' = m_viper m \/ exists text, ReadConfig text (m_viper m) = Ok (m_viper m')).
Proof.
  unfold loadIndexerConfig. destruct (bool_decide _); [intros [= <-]; by split; [|left]|].
  intros [(text & m1 & E1 & E)|(? & _ & _ & Hn & _)]%p_bind_inv; [|by destruct (Hn tt)].
  assert (m1 = m) as ->.
  { revert E1. unfold p_wrap, os_Open, os_do. destruct (os_fails _); cbn; [done|].
    unfold p_bind, p_get. destruct (m_files m !! file); cbn; by intros [= _ <-]. }
  rewrite p_bind_get in E. revert E. destruct (ReadConfig text (m_viper m)) as [v|err] eqn:Er; cbn; [|done].
  intros [= <-]. split; [done|]. right. by exists text.
Qed.

Lemma load_flags m c m' : load m = (Returns c, m') -> exists v,
  (v = m_viper m \/ exists text, ReadConfig text (m_viper m) = Ok v) /\
  m_flags m' = (BindFlagSet v (env_flags (m_flags m))).2.
Proof.
  unfold load_config. intros [([] & m1 & E1 & E)|(? & _ & _ & Hn & _)]%p_bind_inv; [|by destruct (Hn c)].
  apply from_env_flags in E1 as [_ [= Hv1 Hf1]].
  apply p_bind_inv in E as [([] & m2 & E2 & E)|(? & _ & _ & Hn & _)]; [|by destruct (Hn c)].
  apply from_env_flags in E2 as [_ [= Hv2 Hf2]]. unfold flag_of in E. rewrite !p_bind_get in E.
  apply p_bind_inv in E as [([] & m3 & E3 & E)|(? & _ & _ & Hn & _)]; [|by destruct (Hn c)].
  assert (settings m3 = settings m2) as [= Hv3 Hf3].
  { assert (keeps (λ m m', settings m' = settings m)
      (configureIndexerDataDir os_fails (string_flag (m_flags m2) "data-dir"))) as Hk.
    { unfold configureIndexerDataDir, os_Mkdir. keep; done. }
    specialize (Hk m2). by rewrite E3 in Hk. }
  rewrite p_bind_get in E. destruct (resolveConfigFile _ _ _ _) as [file|]; [|done].
  apply p_bind_inv in E as [(file' & m4 & [= <- <-] & E)|(? & _ & _ & Hn & _)]; [|by destruct (Hn c)].
  apply p_bind_inv in E as [([] & m5 & E5 & E)|(? & _ & _ & Hn & _)]; [|by destruct (Hn c)].
  apply loadIndexerConfig_settings in E5 as [Hf5 Hv5]. unfold bind_flags, p_bind, p_set in E. injection E as <- <-.
  exists (m_viper m5). cbn. split; [|by rewrite Hf5, Hf3, Hf2, Hf1]. by rewrite Hv3, Hv2, Hv1 in Hv5.
Qed.

Lemma string_flag_elem flags f s : well_typed flags -> f ∈ flags -> f_value f = StringValue s ->
  string_flag flags (f_name f) = s.
Proof.
  intros Ht Hf Hs. unfold string_flag. rewrite (flag_value_elem flags f), Hs; [done| |done].
  by apply well_typed_unique.
Qed.

Lemma string_value flags f name : well_typed flags -> f ∈ flags -> f_name f = name ->
  (name, "string") ∈ signature (daemon_flags ++ common_flags) -> exists s, f_value f = StringValue s.
Proof.
  intros Ht Hf Hn Hs. pose proof (well_typed_kind flags f name "string" Ht Hf Hn Hs) as Hk.
  destruct (f_value f); [by eexists|done..].
Qed.

(** A flag that has a value is not assigned. *)
Lemma assigned_elem name x flags f : well_typed flags -> f ∈ flags -> f_value f <> StringValue "" ->
  (name, "string") ∈ signature (daemon_flags ++ common_flags) -> string_flag flags name = "" ->
  f ∈ assign name x flags.
Proof.
  intros Ht Hf Hv Hs Hempty. apply assign_elem; [done|]. intros Hn.
  destruct (string_value flags f name Ht Hf Hn Hs) as [s Hfs].
  rewrite <- Hn, (string_flag_elem flags f s Ht Hf Hfs) in Hempty. congruence.
Qed.

Lemma env_flag_typed name key flags : (name, "string") ∈ signature (daemon_flags ++ common_flags) ->
  well_typed flags -> well_typed (env_flag name key flags).
Proof. intros Hs Ht. unfold env_flag. destruct (bool_decide _); [by apply assign_typed|done]. Qed.

Lemma env_flag_elem name key flags f : (name, "string") ∈ signature (daemon_flags ++ common_flags) ->
  well_typed flags -> f ∈ flags -> f_value f <> StringValue "" \/ f_name f <> name ->
  f ∈ env_flag name key flags.
Proof.
  intros Hs Ht Hf Hor. unfold env_flag. destruct (bool_decide_reflect (string_flag flags name = "")); [|done].
  destruct Hor; [by apply assigned_elem|by apply assign_elem].
Qed.

Lemma declared_strings : Forall (λ name, (name, "string") ∈ signature (daemon_flags ++ common_flags))
  ["data-dir"; "configfile"; "api-config-file"].
Proof. apply (bool_decide_unpack _). by vm_compute. Qed.

Context `{!FlagLaws} `{!ViperLaws V (f_name <$> daemon_flags ++ common_flags)}.

(** The flags after the configuration was read. *)
Lemma bound_flags (v : V) flags : well_typed flags ->
  let bound := (BindFlagSet v (env_flags flags)).2 in
  well_typed bound /\
  forall f, f ∈ flags ->
    (f_value f <> StringValue "" \/ f_name f <> "data-dir" /\ f_name f <> "configfile") ->
    bind_flag (bind_env v (f_name f)) f ∈ bound.
Proof.
  intros Ht. pose proof declared_strings as Hd. rewrite !Forall_cons in Hd. destruct Hd as (Hd1 & Hd2 & _).
  assert (well_typed (env_flags flags)) as Ht'.
  { by apply env_flag_typed, env_flag_typed. }
  cbn zeta. split; [unfold well_typed; by rewrite BindFlagSet_typed|].
  intros f Hf Hor. rewrite (BindFlagSet_each (f_name <$> daemon_flags ++ common_flags)).
  - apply (list_elem_of_fmap_2' _ _ f); [|done]. unfold env_flags.
    apply env_flag_elem; [done|by apply env_flag_typed| |tauto]. apply env_flag_elem; [done..|tauto].
  - by apply well_typed_unique.
  - intros g Hg. rewrite <- signature_names, <- Ht', signature_names. by apply list_elem_of_fmap_2.
Qed.

Lemma same_flags_elem m m' f : same_flags m m' -> well_typed (m_flags m) -> f ∈ m_flags m ->
  f_value f <> StringValue "" \/ f_name f <> "api-config-file" -> f ∈ m_flags m'.
Proof.
  pose proof declared_strings as Hd. rewrite !Forall_cons in Hd. destruct Hd as (_ & _ & Hd & _).
  intros (_ & [->|(Hempty & path & ->)]) Ht Hf Hor; [done|].
  destruct Hor; [by apply assigned_elem|by apply assign_elem].
Qed.

Lemma same_flags_typed m m' : same_flags m m' -> well_typed (m_flags m) -> well_typed (m_flags m').
Proof.
  pose proof declared_strings as Hd. rewrite !Forall_cons in Hd. destruct Hd as (_ & _ & Hd & _).
  intros (_ & [->|(_ & path & ->)]) Ht; [done|]. by apply assign_typed.
Qed.

(** C28. A server that is started listens on the address and has the options that the flags say, each
    flag having the type it was declared with: a value given on the command line is used, whatever
    the environment and the configuration file say; a flag that is not given has the value of the
    environment or the configuration file, if they have one that can be parsed, and its default
    otherwise.  The three paths that are looked for elsewhere are left out. *)
Theorem runDaemon_flags events m e m' addr o :
  well_typed (m_flags m) -> run events m = (e, m') -> m_served m = None -> m_served m' = Some (addr, o) ->
  well_typed (m_flags m') /\ addr = string_flag (m_flags m') "server" /\
  (exists m1 : machine V, m_flags m1 = m_flags m' /\
    makeOptions (config_from_file os_fails unmarshal swagger m1) (config_of (m_flags m')) = Ok o) /\
  exists v, (v = m_viper m \/ exists text, ReadConfig text (m_viper m) = Ok v) /\
    forall f, f ∈ m_flags m ->
      (f_changed f = true -> f_value f <> StringValue "" ->
        flag_value (m_flags m') (f_name f) = Some (f_value f)) /\
      (f_changed f = false -> f_name f ∉ ["data-dir"; "configfile"; "api-config-file"] ->
        flag_value (m_flags m') (f_name f) = Some (configured v f)).
Proof.
  intros Ht E Hnone Hserved. unfold runDaemon in E.
  pose proof (load_held m) as Hl. apply p_bind_inv in E as [(c & m1 & E1 & E)|(e1 & E1 & _)];
    rewrite E1 in Hl; injection Hl as _ _ Hs1 _; [|congruence].
  pose proof (configure_held c m1) as Hk. pose proof (configure_flags c m1) as Hsame.
  apply p_bind_inv in E as [([] & m2 & E2 & E)|(e2 & E2 & _)]; rewrite E2 in Hk, Hsame;
    injection Hk as _ _ Hs2; [|congruence]. cbn [snd] in Hsame.
  pose proof (locked_serves events m2) as [Hf3 Hs3]. rewrite E in Hf3, Hs3. cbn [snd] in Hf3, Hs3.
  destruct Hs3 as [Hs3|(m3 & o' & Hf & Ho & Hs3)]; [congruence|].
  rewrite Hs3 in Hserved. injection Hserved as <- <-.
  destruct (load_flags m c m1 E1) as (v & Hv & Hf1). destruct (bound_flags v (m_flags m) Ht) as [Ht1 Helem].
  rewrite <- Hf1 in Ht1, Helem. pose proof (same_flags_typed m1 m2 Hsame Ht1) as Ht2.
  rewrite Hf3. split_and!; [done|done|exists m3; by rewrite <- Hf|].
  exists v. split; [done|]. intros f Hin. split.
  - intros Hgiven Hne. apply flag_value_elem; [by apply well_typed_unique|].
    apply (same_flags_elem m1 m2 f Hsame Ht1); [|by left].
    rewrite <- (bind_flag_given (bind_env v (f_name f)) f Hgiven). apply Helem; [done|by left].
  - intros Hdefault Hnot. destruct (bind_flag_configured v f Hdefault) as [Hname Hval].
    rewrite !not_elem_of_cons in Hnot. destruct Hnot as (Hn1 & Hn2 & Hn3 & _).
    rewrite <- Hname, <- Hval. apply flag_value_elem; [by apply well_typed_unique|].
    apply (same_flags_elem m1 m2 _ Hsame Ht1); [|right; by rewrite Hname]. apply Helem; [done|by right].
Qed.
End Daemon_theorems.

(** ** The command [api-config] *)

Section ApiConfig.
Context {V : Type} `{ViperOps V} `{FlagOps} `{MapRange}.
Context (os_fails : os_call -> option error) (ParseLevel : string -> result string).
Context (unmarshal : string -> result DisplayDisabledMap) (marshal : DisplayDisabledMap -> result string).
Context (swag : Swagger).

Abbreviation from_file := (config_from_file (V := V) os_fails unmarshal (Ok swag)).

Lemma apiConfig_returns m text m' : apiConfig os_fails ParseLevel unmarshal marshal (Ok swag) m = (Returns text, m') ->
  let supplied := string_flag (m_flags m') "api-config-file" in
  exists config,
    (if bool_decide (supplied = "") then Ok GetDefaultDisabledMapConfigForPostgres else from_file m' supplied) =
      Ok config /\
    DisplayDisabledMap_String marshal
      (MakeDisplayDisabledMapFromConfig swag config (negb (bool_flag (m_flags m') "all"))) = Ok text.
Proof.
  unfold apiConfig. intros (? & m1 & _ & E)%p_bind_returns. apply p_bind_returns in E as (? & m2 & _ & E).
  unfold flag_of in E. rewrite !p_bind_get in E. cbn [mbind result_bind] in E.
  destruct (if bool_decide _ then _ else _) as [config|] eqn:Ec; cbn [mbind result_bind] in E; [|done].
  destruct (DisplayDisabledMap_String _ _) as [text'|] eqn:Et; [|done].
  unfold p_ret in E. injection E as -> <-. eauto.
Qed.

(** C31. What the command prints, with or without the flag for all parameters, can be given to the
    daemon as its configuration of the parameters: the file is accepted, and it disables the same
    parameters of every endpoint as the configuration that was printed.  YAML is taken to read
    back what it writes, and an empty text as no entries. *)
Theorem apiConfig_roundtrip m text m' :
  apiConfig os_fails ParseLevel unmarshal marshal (Ok swag) m = (Returns text, m') ->
  (forall path item op o, swag !! path = Some item -> item !! op = Some o -> op = MethodGet) ->
  (forall ddm text, marshal ddm = Ok text -> unmarshal text = Ok ddm) -> unmarshal "" = Ok ∅ ->
  let supplied := string_flag (m_flags m') "api-config-file" in
  exists config,
    (if bool_decide (supplied = "") then Ok GetDefaultDisabledMapConfigForPostgres else from_file m' supplied) =
      Ok config /\
    forall m2 file, os_fails (Open file) = None -> m_files m2 !! file = Some text ->
      exists config', from_file m2 file = Ok config' /\
        forall path item o p, swag !! path = Some item -> item !! MethodGet = Some o -> p ∈ Op_Parameters o ->
          isDisabled config' path MethodGet (PM_Name p) = isDisabled config path MethodGet (PM_Name p).
Proof.
  intros E Hget Hyaml Hempty. destruct (apiConfig_returns m text m' E) as (config & Hc & Ht). exists config.
  split; [exact Hc|]. intros m2 file Hopen Hfile.
  destruct (display_roundtrip swag config (negb (bool_flag (m_flags m') "all")) Hget) as (config' & Hd & Hsame).
  exists config'. split; [|exact Hsame]. unfold config_from_file. rewrite Hopen, Hfile.
  cbn [mbind result_bind]. unfold MakeDisabledMapConfigFromFile. cbn [mbind result_bind].
  unfold DisplayDisabledMap_String in Ht. destruct (bool_decide_reflect
    (MakeDisplayDisabledMapFromConfig swag config (negb (bool_flag (m_flags m') "all")) = ∅)) as [He|He].
  - injection Ht as <-. rewrite Hempty. cbn [mbind result_bind]. by rewrite <- He.
  - rewrite (Hyaml _ _ Ht). exact Hd.
Qed.
End ApiConfig.

(** ** A daemon *)

Module SampleDaemon.
#[local] Existing Instance table_range.

(** A configuration as a table, in which a variable of the environment takes the place of what
    the file says. *)
Section Settings.
Context (environment : string -> option string) (file : list (string * string)).

Definition viper : ViperOps (gmap string string) := {|
  ReadConfig text v := if bool_decide (text = "settings") then Ok (list_to_map file ∪ v)
                       else Err (ErrMsg "not the settings");
  BindEnv k e v := match environment e with Some x => <[ k := x ]> v | None => v end;
  IsSet v k := bool_decide (is_Some (v !! k));
  Get v k := default "" (v !! k) |}.

Lemma viper_laws keys : @ViperLaws _ viper keys.
Proof.
  split; unfold view; cbn.
  - intros k k' e v _ _ Hne. destruct (environment e); [|done]. by rewrite lookup_insert_ne.
  - intros k k' e e' v _ _ Hne. destruct (environment e'); [by rewrite !lookup_insert_eq|].
    destruct (environment e); [|done]. by rewrite lookup_insert_ne.
Qed.
End Settings.

Definition parser : FlagOps := {|
  parse_value x text :=
    match x with
    | StringValue _ => Some (StringValue text)
    | BoolValue _ => Some (BoolValue (bool_decide (text = "true")))
    | Uint32Value _ => match ParseUint text with Ok n => Some (Uint32Value n) | Err _ => None end
    | DurationValue _ => None
    end |}.

Lemma parser_laws : @FlagLaws parser.
Proof. split. intros [] text y; cbn; try by intros [= <-]. by destruct (ParseUint text); intros [= <-]. Qed.

#[local] Existing Instance parser.

Definition no_failure (call : os_call) : option error := None.
Definition join (dir name : string) : string := dir +:+ "/" +:+ name.
Definition booted : machine (gmap string string) := {|
  m_files := {[ "/data/indexer.yml" := "settings" ]}; m_dirs := {[ "/data" ]}; m_viper := ∅;
  m_flags := map (λ f, if bool_decide (f_name f = "server")
                       then {| f_name := "server"; f_value := StringValue ":9000"; f_changed := true |} else f)
               (daemon_flags ++ common_flags);
  m_level := "info"; m_output := "stdout"; m_log := []; m_profiling := false; m_db := None;
  m_served := None |}.

(** A run with an environment, the settings of the file and what happens to the server. *)
Definition failing_run (fails : os_call -> option error) (environment : string -> option string) (file : list (string * string))
    (events : list serve_event) : ending unit * machine (gmap string string) :=
  @runDaemon _ (viper environment file) parser table_range (λ key, default "" (environment key)) fails join 7
    (λ level, Ok level) (λ _ _, None) (λ _, Err (ErrMsg "no YAML")) (Ok SampleApi.swag) events booted.
Definition sample_run (environment : string -> option string) (file : list (string * string))
    (events : list serve_event) : ending unit * machine (gmap string string) :=
  failing_run no_failure environment file events.

Definition with_data (key : string) : option string :=
  if bool_decide (key = "INDEXER_DATA") then Some "/data"
  else if bool_decide (key = "INDEXER_MAX_CONN") then Some "20" else None.
Definition settings_file : list (string * string) := [
  ("server", ":80"); ("token", "secret"); ("pidfile", "/run/indexer.pid"); ("postgres", "host=db");
  ("enable-all-parameters", "true"); ("max-conn", "5"); ("max-boxes-limit", "many"); ("cpuprofile", "/tmp/cpu")].
Definition stopped : list serve_event := [Signal; ShutdownReturned None].
Definition ran : ending unit * machine (gmap string string) := sample_run with_data settings_file stopped.

Lemma runDaemon_releases_witness :
  status ran.1 = Some 0 /\ m_profiling ran.2 = false /\ m_db ran.2 = None /\
  m_files ran.2 !! "/run/indexer.pid" = None /\ is_Some (m_served ran.2).
Proof.
  split; [vm_compute; reflexivity|].
  destruct (@runDaemon_releases _ (viper with_data settings_file) parser table_range
              (λ key, default "" (with_data key)) no_failure join 7 (λ level, Ok level) (λ _ _, None)
              (λ _, Err (ErrMsg "no YAML")) (Ok SampleApi.swag) stopped booted ran.1 ran.2) as (Hp & Hdb & Hpid & Hret).
  - exact (surjective_pairing ran).
  - vm_compute. reflexivity.
  - reflexivity.
  - reflexivity.
  - assert (string_flag (m_flags ran.2) "pidfile" = "/run/indexer.pid") as Hflag by (vm_compute; reflexivity).
    assert (string_flag (m_flags ran.2) "logfile" = "") as Hlog by (vm_compute; reflexivity).
    rewrite Hflag, Hlog in Hpid. split_and!; [exact Hp|exact Hdb|apply Hpid; done|].
    apply Hret. vm_compute. reflexivity.
Defined.

(** The address is that of the command line, the token that of the file, the size of the pool
    that of the environment; the limit that is no number is the default. *)
Lemma runDaemon_flags_witness : exists o v, m_served ran.2 = Some (":9000", o) /\
  flag_value (m_flags ran.2) "token" = Some (configured (H := viper with_data settings_file) v
    (flag_default "token" (StringValue ""))) /\
  EO_Tokens (op_extra o) = ["secret"] /\ EO_MaxBoxesLimit (op_extra o) = 10000 /\
  number_flag (m_flags ran.2) "max-conn" = 20.
Proof.
  destruct (m_served ran.2) as [[addr o]|] eqn:E; [|by vm_compute in E].
  destruct (@runDaemon_flags _ (viper with_data settings_file) parser table_range
              (λ key, default "" (with_data key)) no_failure join 7 (λ level, Ok level) (λ _ _, None)
              (λ _, Err (ErrMsg "no YAML")) (Ok SampleApi.swag) parser_laws
              (viper_laws with_data settings_file _) stopped booted ran.1 ran.2 addr o)
    as (_ & Haddr & _ & v & _ & Hf).
  - vm_compute. reflexivity.
  - exact (surjective_pairing ran).
  - reflexivity.
  - exact E.
  - exists o, v. split_and!.
    + rewrite Haddr. vm_compute. reflexivity.
    + apply (Hf (flag_default "token" (StringValue ""))); [|reflexivity|].
      * apply (bool_decide_unpack _). vm_compute. exact I.
      * apply (bool_decide_unpack _). vm_compute. exact I.
    + vm_compute in E. injection E as _ <-. reflexivity.
    + vm_compute in E. injection E as _ <-. reflexivity.
    + vm_compute. reflexivity.
Defined.

(** A server that cannot listen: the process ends at once, the pid file and the profile stay. *)
Lemma fatal_keeps_pid_file :
  let r := sample_run with_data settings_file [ServerReturned (Some (ErrMsg "address already in use"))] in
  status r.1 = Some 1 /\ m_files r.2 !! "/run/indexer.pid" = Some "7" /\ m_profiling r.2 = true.
Proof. by vm_compute. Qed.

(** A disk without space: the pid file is created and cannot be written; the daemon fails, its
    deferred functions run, and the empty file stays, since its removal is not yet deferred. *)
Lemma unwritten_pid_file_stays :
  let full (c : os_call) := match c with
    | Write "/run/indexer.pid" => Some (ErrMsg "no space left on device") | _ => None end in
  let r := failing_run full with_data settings_file stopped in
  unwinds r.1 = true /\ status r.1 = Some 1 /\ m_files r.2 !! "/run/indexer.pid" = Some "".
Proof. by vm_compute. Qed.

(** A shutdown makes [StartServer] return [ErrServerClosed]; if its goroutine is first, the process
    ends with status 1 and its files stay, although it was stopped as intended. *)
Lemma stop_may_be_fatal :
  let r := sample_run with_data settings_file [Signal; ServerReturned (Some (ErrSentinel "http: Server closed"))] in
  status r.1 = Some 1 /\ m_files r.2 !! "/run/indexer.pid" = Some "7" /\ m_db r.2 <> None.
Proof. by vm_compute. Qed.

(** The data directory of [INDEXER_DATA_DIR] is known too late for its configuration file. *)
Lemma data_dir_late :
  let r := sample_run (λ key, if bool_decide (key = "INDEXER_DATA_DIR") then Some "/data" else None)
             settings_file stopped in
  string_flag (m_flags r.2) "data-dir" = "/data" /\ string_flag (m_flags r.2) "token" = "" /\
  r.1 = Fails (ErrMsg "no import db set").
Proof. by vm_compute. Qed.

(** *** Printing the parameters *)

Definition all_shown : machine (gmap string string) := {|
  m_files := ∅; m_dirs := ∅; m_viper := {[ "all" := "true" ]}; m_flags := api_config_flags;
  m_level := "info"; m_output := "stdout"; m_log := []; m_profiling := false; m_db := None;
  m_served := None |}.
Definition shown : DisplayDisabledMap :=
  MakeDisplayDisabledMapFromConfig SampleApi.swag GetDefaultDisabledMapConfigForPostgres false.
Definition write_yaml (ddm : DisplayDisabledMap) : result string :=
  if bool_decide (ddm = shown) then Ok "the parameters" else Err (ErrMsg "other parameters").
Definition read_yaml (text : string) : result DisplayDisabledMap :=
  if bool_decide (text = "the parameters") then Ok shown else Ok ∅.
Definition saved : machine (gmap string string) :=
  set_files {[ "/data/api_config.yml" := "the parameters" ]} all_shown.

Lemma apiConfig_roundtrip_witness : exists config',
  config_from_file no_failure read_yaml (Ok SampleApi.swag) saved "/data/api_config.yml" = Ok config' /\
  forall path item o p, SampleApi.swag !! path = Some item -> item !! MethodGet = Some o -> p ∈ Op_Parameters o ->
    isDisabled config' path MethodGet (PM_Name p) =
    isDisabled GetDefaultDisabledMapConfigForPostgres path MethodGet (PM_Name p).
Proof.
  destruct (@apiConfig _ (viper (λ _, None) []) parser table_range no_failure (λ level, Ok level) read_yaml
              write_yaml (Ok SampleApi.swag) all_shown) as [e m'] eqn:E.
  assert (e = Returns "the parameters") as -> by (vm_compute in E; congruence).
  assert (string_flag (m_flags m') "api-config-file" = "") as Hfile by (vm_compute in E; injection E as <-; done).
  destruct (@apiConfig_roundtrip _ (viper (λ _, None) []) parser table_range no_failure (λ level, Ok level)
              read_yaml write_yaml SampleApi.swag all_shown "the parameters" m' E) as (config & Hc & Hback).
  - intros path item op o Hi Ho. unfold SampleApi.swag in Hi. apply lookup_insert_Some in Hi as [[_ <-]|[_ Hi]];
      [by apply lookup_singleton_Some in Ho as [<- _]|].
    apply lookup_singleton_Some in Hi as [_ <-]. by apply lookup_singleton_Some in Ho as [<- _].
  - intros ddm text. unfold write_yaml. destruct (bool_decide_reflect (ddm = shown)) as [->|]; [|done].
    intros [= <-]. reflexivity.
  - reflexivity.
  - rewrite Hfile, bool_decide_eq_true_2 in Hc by done. injection Hc as <-.
    apply (Hback saved "/data/api_config.yml"); reflexivity.
Defined.
End SampleDaemon.
